(* ===== verification/_CoqProject ===== *)
-Q . S2P
Prelude.v
Types.v
Wire.v
Env.v
Timer.v
Packets.v
Topic.v
Threads.v
Sim.v
Client.v
Laws.v
Transport.v
Publish.v
Subscribe.v
Unsubscribe.v
Connect.v
Yield.v
Lifecycle.v
WellFormed.v
Tls.v
Stream.v
TlsClient.v
Jsmn.v
JsonUtils.v
ShadowJson.v
ShadowDocument.v
ShadowRecords.v
ShadowActions.v
ShadowLifecycle.v
ShadowWellFormed.v
ShadowBehaviour.v
Delivery.v
Exchange.v
Progress.v
Mpi.v
MpiArith.v
MpiDiv.v
MpiMod.v
MpiFrame.v
MpiGcd.v
Base64.v
Asn1Parse.v
Asn1Write.v
Asn1.v
Sha256.v
