(* ===== verification/Prelude.v ===== *)
(** * Verification library for the AWS IoT device SDK for embedded C (2.1.1)

    The repository is a fork of the SDK: an MQTT 3.1.1 client for small devices.  This library models
    its own C code - the client under [src/src/aws_iot_mqtt_client*.c], the Linux platform layer under
    [src/platform/linux], the JSON tokeniser [src/external_libs/jsmn] and the thing shadow under
    [src/src/aws_iot_shadow*.c] - and of the TLS library it is built with, mbedTLS, the parts everything else there
    rests on: multi-precision integers, DER, Base64, SHA-256.  They are Rocq functions that run, with proofs of what
    makes them correct.  Every definition that translates code carries the name the code gives it.

    ** How the parts interact

    An application owns a client object ([AWS_IoT_Client]) and calls the API: init, connect, publish,
    subscribe, unsubscribe, resubscribe, yield, disconnect, attempt_reconnect.  An operation moves the
    client's state by a compare-and-swap ([aws_iot_mqtt_set_client_state]) to its "in progress" state,
    serialises a packet into the transmit buffer, sends it ([send_packet]), waits for the acknowledgement
    ([wait_for_read], which reads packets one by one with [cycle_read] and meanwhile delivers incoming
    messages to the application's callbacks), and restores the state.  [yield] reads packets, keeps the
    connection alive and reconnects.  Bytes go through the network interface, a record of function
    pointers that the Linux platform implements over mbedTLS.  Time comes from [gettimeofday].

    The shadow is a client of this client.  A request - get, update or delete a thing's state - subscribes
    to the topics of its answers, publishes a JSON document that carries a client token, and remembers
    token, callback and time-out in a table.  Two message handlers, registered with the MQTT client and
    called from its loops, parse what comes in: one finds the request an answer belongs to, tells its
    callback and gives the subscriptions back; the other writes the members of a delta into the
    application's structures.  Both may call the MQTT client again: the definitions of the client take the
    handlers as a parameter ([Env.AppOps]), [ShadowActions.shadow_app] makes the shadow's handlers one.

    mbedTLS checks the certificates of the peer.  A key or certificate file is Base64 ([Base64]) around DER
    ([Asn1Parse], [Asn1Write]), whose integers become objects on the heap ([Mpi]); signatures are made and
    checked over hashes ([Sha256]) with their arithmetic ([MpiArith], [MpiDiv]).

    ** How C is modelled (this file)

    - A computation has an [outcome]: a value, undefined behaviour, or fuel that did not suffice.  [M S A]
      is a computation over a state [S]; [do!], [let!], [run!] are its notations.
    - Integers are [Z], reduced where the code's type wraps ([u8], [u16], [u32], [u64]).
    - An object is the list of its bytes, a pointer into it an offset; [load], [store], [aload],
      [astore] are undefined outside the object.  NULL is [None].
    - [wp md m Q s]: the run of [m] from [s] satisfies [Q]; the mode [md] says which failures are excluded:
      [exact] both, [total] running out of fuel (termination), [safe] undefined behaviour, [partial]
      neither.
    - Loops that end by a time-out or by the peer's data take fuel.  The theorems in mode [total] say how
      much is enough - one unit for each byte that can still arrive, or for each microsecond of the
      command time-out ([Transport.enough]) - so none of them holds because a run never ends.

    ** Files

    - [Types]: error codes, the client record, [MQTTHeader]; include/aws_iot_error.h,
      aws_iot_mqtt_client.h, aws_iot_mqtt_client_common_internal.h, network_interface.h.
    - [Wire]: remaining length, strings, fixed header; aws_iot_mqtt_client_common_internal.c.
    - [Packets]: the serialisers and deserialisers of every packet; aws_iot_mqtt_client_connect.c,
      _publish.c, _subscribe.c, _unsubscribe.c, _common_internal.c.
    - [Env]: the environment as classes over the state of the world: the clock, the network interface,
      mutexes, the application's callbacks.  [Sim]: a concrete environment, for the witnesses.
    - [Timer]: platform/linux/common/timer.c.  [Threads]: platform/linux/pthread/threads_pthread_wrapper.c.
    - [Topic]: the match of a topic against a filter; [_aws_iot_mqtt_internal_is_topic_matched].
    - [Client]: aws_iot_mqtt_client.c.  [Laws]: [EnvLaws], what the client relies on, and [evolves], how its
      operations change it; the concrete environment satisfies the laws.
    - [Transport]: sending, reading, delivering, waiting; the rest of _common_internal.c.
    - [Publish], [Subscribe], [Unsubscribe], [Connect], [Yield]: the operations, one file of the source each,
      with the lemmas that they terminate and settle in a state of rest.
    - [Lifecycle]: the API as a language of calls.  [WellFormed]: the invariant of the client structure.
    - [Tls]: platform/linux/mbedtls/network_mbedtls_wrapper.c over the class [Mbedtls] of the library's
      functions, with the documented promises [MbedtlsLaws].  [TlsClient]: this network layer satisfies
      what [EnvLaws] and [SendLaws] ask of a network.
    - [Jsmn]: external_libs/jsmn/jsmn.c.  [JsonUtils]: aws_iot_json_utils.c.  [ShadowJson],
      [ShadowDocument]: the functions of aws_iot_shadow_json.c that read and that write documents.
    - [ShadowRecords]: aws_iot_shadow_records.c; its static variables are the record [shadow], which the
      class [ShadowState] places in the state of the world.  [ShadowActions]: aws_iot_shadow_actions.c and
      aws_iot_shadow.c.  [ShadowLifecycle]: the shadow's interface as a language of calls.
      [ShadowWellFormed]: the invariant of the static variables, and that the tables are used within their
      bounds.  [ShadowBehaviour]: topics, the dispatch of answers, versions of deltas.
    - [Stream]: sending over a network whose writes say what they have sent ([SendLaws]), reading over one
      that is a stream of bytes ([StreamLaws]).  [Delivery]: the reference of
      message delivery.  [Exchange]: what the outcome of connecting, subscribing, unsubscribing, keeping
      alive and reconnecting tells.  [Progress]: over a link that is alive, publications get through.
    - [Mpi]: the representation of integers in external_libs/mbedTLS/library/bignum.c: a heap of objects
      ([bn]), growing, shrinking, copying, bits, binary input and output.  [MpiArith]: shifts, comparison, addition,
      subtraction, multiplication (MULADDC_CORE of bn_mul.h).  [MpiDiv]: the definition of the division and its
      digit loop.  [MpiMod]: division and remainders as a whole.  [MpiFrame]: functions with many local
      integers, and a frame for proofs about them.  [MpiGcd]: greatest common divisor and inverse.
    - [Base64]: base64.c.  [Asn1Parse]: asn1parse.c and asn1.h.  [Asn1Write]: asn1write.c.  [Asn1]: the two
      together.  [Sha256]: sha256.c and the standard.

    ** What the theorems show

    - Life cycle: whatever calls an application makes, each returns and leaves the client in a state of
      rest, over any environment that satisfies [EnvLaws] and over the mbedTLS layer in particular; the
      guards of the API are a table; the state changes by compare-and-swap; init establishes the
      configuration; consecutive packet identifiers are non-zero and distinct; the client structure
      stays well-formed.
    - Progress: over a live link every message of a sequence goes out whole and in order, the
      acknowledgements are consumed, and every call returns SUCCESS.
    - Exchanges: SUCCESS of connect, subscribe and unsubscribe means that the acknowledgement is in the
      receive buffer and the client and its table of subscriptions are as they should be; any other code
      that they are as before (or, for connect, DISCONNECTED_ERROR); the keep-alive logic, with the ping it
      hands to [send_packet]; the back-off.
    - Streams and delivery: what is sent in time is the packet, what is read is the next packet and nothing more;
      a message reaches exactly the callbacks whose filter matches it by levels.
    - Wire formats: encoders write the standard's packets, decoders invert them, return codes are
      classified, the remaining length round-trips and its decoder is total.
    - The mbedTLS layer: reads and writes against the stream of the connection, and a handshake that
      succeeds only with a verified peer.
    - JSON: the tokeniser is memory-safe and terminates, counting agrees with parsing, numbers and strings
      are read back, keys are looked up; documents are written as meant, or the buffer is reported full,
      and the client token of a request is read back from its document.
    - Shadow: every call returns and leaves the client at rest, message handlers and the calls they make
      included; the
      static variables stay well-formed and nothing is entered outside the tables; topics tell requests apart;
      an answer reaches the request that waits for its token: its callback is told the kind, its subscriptions
      are given back, and it is freed; a delta that is not newer is discarded.
    - Integers: each operation leaves in its destination the result of the operation on [Z], or, when an
      allocation fails, an error code; operands that are not the destination keep their value, aliasing
      of operands and destination included.  The long division is proved digit by digit;
      the binary algorithms for divisors and inverses end, and compute them.
    - Base64 and DER: encoders write the standard's encoding or report a lack of room; the readers never leave the
      data, and read back what the writers wrote.
    - SHA-256: whatever pieces a message comes in, the digest is the one of FIPS 180-4.
    - Defects, stated as theorems: [Stream.read_packet_overflow],
      [Stream.decode_packet_remaining_len_unbounded], [Stream.send_packet_partial_write],
      [Packets.publish_without_packet_id], [Tls.tls_write_stale_count], [Client.set_connect_params_password],
      [TlsClient.send_packet_stale_count], [ShadowBehaviour.answer_kind], [ShadowBehaviour.answer_twice],
      [ShadowBehaviour.subscription_entries_leak], [ShadowDocument.member_overflows],
      [ShadowDocument.empty_section], [ShadowDocument.object_member], [ShadowDocument.token_overflows_array],
      [MpiArith.shift_l_wraps], [MpiMod.mod_mpi_into_divisor], [MpiMod.mod_int_no_limbs],
      [MpiMod.mod_int_overflow], [Asn1.negative_int_refused], [Base64.decode_olen].

    ** Assumptions and limits

    - [EnvLaws] (for termination and the life cycle): time advances at every reading, finitely many bytes
      arrive, network calls return and a successful read delivers what was asked for, mutexes work,
      callbacks return and leave the client in the state they found it in or in a state of rest.  The
      field [reentry] of [EnvLaws] is the condition under which a callback is known to return: a callback
      that calls the client again, as the shadow's do, needs what a call needs.
    - [ShadowLaws]: the static variables can be read and written, and the application's action and JSON
      callbacks return.  A handler called from a call made by a handler is one level deeper; each level
      consumes bytes that arrive, so that as many levels as bytes can arrive are enough.
    - [Kept], [CarefulApp], [CarefulShadow] (for the invariants): the network, the clock and the mutexes do not
      touch the shadow's variables, and the application's callbacks keep the invariants.
    - [LiveLaws] (for progress): a write takes all it is given, and neither it nor a reading of the clock
      takes longer than a fixed time, small against the command time-out.
    - [PassiveApp] (for delivery and the exchanges): callbacks leave the receive buffer, the table and the
      state alone; these theorems are about the default build without thread support.
    - [SendLaws] (for sending): a write that reports SUCCESS while the timer runs has sent the bytes it counts,
      of all it was given or, over a network that splits, of a part; the shipped layer keeps this promise
      ([TlsClient.tls_sends]).  [StreamLaws] (for reading): the network is two byte streams and the clock runs;
      the shipped layer reports SUCCESS only for as many bytes as asked for ([Tls.tls_read_stream]), but its
      writes do not satisfy [stream_write] once the timer has expired.  [MbedtlsLaws]: mbedTLS behaves as
      documented.
    - Concurrency is modelled as far as the mutexes return; interleavings of threads are not.
    - Logging macros are not modelled, nor the four bytes [struct_id] of the parameter structures, which nothing
      reads.
    - A topic handed to the client is part of its table as the bytes it had then: the code keeps the
      pointer, and one of the shadow's topics ([deleteAcceptedTopic]) is a local array.  Fields of local
      structures that are never assigned are parameters ([ShadowCode]).  The text of floating-point numbers
      is a parameter ([FloatingPoint]).
    - Not modelled: the C++ measurement programs (aws_iot_mqtt_measurement.cpp, mysql.cpp, tool.cpp), which
      are input and output, and tests.  Of mbedTLS, a vendored library, the parts without protocol state are
      modelled that the rest is built on; [Tls] takes the library as a parameter, not through these parts.
      Missing in bignum.c: strings, exponentiation, random numbers and primes.
    - mbedTLS is taken as built for a 64-bit target with a 128-bit double limb and the C variant of MULADDC_CORE.
      [calloc] answers from a list that is part of the state or an argument, so every pattern of failures is covered;
      [free] of the items of named data is not tracked. *)

From stdpp Require Export base tactics list numbers decidable.
From Stdlib Require Export ZArith Lia.

#[global] Set Default Goal Selector "!".
#[global] Open Scope Z_scope.

#[global] Arguments Z.eqb : simpl never.
#[global] Arguments Z.leb : simpl never.
#[global] Arguments Z.ltb : simpl never.
#[global] Arguments Z.land : simpl never.
#[global] Arguments Z.lor : simpl never.
#[global] Arguments Z.shiftl : simpl never.
#[global] Arguments Z.shiftr : simpl never.
#[global] Arguments Z.testbit : simpl never.
#[global] Arguments Z.modulo : simpl never.
#[global] Arguments Z.div : simpl never.
#[global] Arguments Z.pow : simpl never.
#[global] Arguments Z.to_nat : simpl never.

(** ** Outcomes of C computations *)

(** A computation finishes with a value, runs into undefined behaviour (an access outside an
    object, a read of an indeterminate value, ...), or has not finished within the fuel of one
    of its loops. *)
Inductive outcome (A : Type) : Type :=
  | Done (a : A)
  | Undef
  | NoFuel.
Arguments Done {A} a.
Arguments Undef {A}.
Arguments NoFuel {A}.

Definition obind {A B : Type} (o : outcome A) (k : A -> outcome B) : outcome B :=
  match o with
  | Done a => k a
  | Undef => Undef
  | NoFuel => NoFuel
  end.

(** A computation over a state. *)
Definition M (S A : Type) : Type := S -> outcome (A * S).

Definition ret {S A : Type} (a : A) : M S A := fun s => Done (a, s).
Definition bind {S A B : Type} (m : M S A) (k : A -> M S B) : M S B :=
  fun s => obind (m s) (fun '(a, s') => k a s').
Definition lift {S A : Type} (o : outcome A) : M S A :=
  fun s => obind o (fun a => Done (a, s)).
Definition gets {S A : Type} (f : S -> A) : M S A := fun s => Done (f s, s).
Definition modify {S : Type} (f : S -> S) : M S unit := fun s => Done (tt, f s).

Declare Scope c_scope.
Delimit Scope c_scope with C.
Notation "'let!' p ':=' o 'in' k" := (obind o (fun p => k))
  (at level 10, p pattern, o at level 100, k at level 200) : c_scope.
Notation "'do!' p ':=' m 'in' k" := (bind m (fun p => k))
  (at level 10, p pattern, m at level 100, k at level 200) : c_scope.
Notation "'run!' m 'in' k" := (bind m (fun _ => k))
  (at level 10, m at level 100, k at level 200) : c_scope.
#[global] Open Scope c_scope.

(** A loop: the body returns [inl] to go round again and [inr] to leave. *)
Fixpoint loop {S X A : Type} (fuel : nat) (body : X -> M S (X + A)) (x : X) : M S A :=
  match fuel with
  | O => fun _ => NoFuel
  | Datatypes.S fuel' =>
      do! r := body x in
      match r with
      | inl x' => loop fuel' body x'
      | inr a => ret a
      end
  end.

(** The same loop over outcomes, for code without effects. *)
Fixpoint oloop {X A : Type} (fuel : nat) (body : X -> outcome (X + A)) (x : X) : outcome A :=
  match fuel with
  | O => NoFuel
  | Datatypes.S fuel' =>
      let! r := body x in
      match r with
      | inl x' => oloop fuel' body x'
      | inr a => Done a
      end
  end.

(** [for(i = i0; i < i0 + n; ++i) body(i)], whose body may leave the function with a value. *)
Fixpoint for_loop {S A : Type} (n : nat) (i : Z) (body : Z -> M S (option A)) : M S (option A) :=
  match n with
  | O => ret None
  | Datatypes.S n' =>
      do! r := body i in
      match r with
      | Some a => ret (Some a)
      | None => for_loop n' (i + 1) body
      end
  end.

(** The same for a body that carries a value along and never leaves. *)
Fixpoint mfor {S A : Type} (n : nat) (i : Z) (body : Z -> A -> M S A) (a : A) : M S A :=
  match n with
  | O => ret a
  | Datatypes.S n' => do! a := body i a in mfor n' (i + 1) body a
  end.

(** [for(i = i0; i < i0 + n; ++i) body(i)] over an accumulator, for code without effects. *)
Fixpoint ofor {A : Type} (n : nat) (i : Z) (body : Z -> A -> outcome A) (a : A) : outcome A :=
  match n with
  | O => Done a
  | Datatypes.S n' => let! a := body i a in ofor n' (i + 1) body a
  end.

(** Dereferencing a pointer; [None] is NULL. *)
Definition deref {A : Type} (p : option A) : outcome A :=
  match p with Some a => Done a | None => Undef end.

(** ** Machine integers *)

Definition u8 (z : Z) : Z := z mod 256.
Definition u16 (z : Z) : Z := z mod 65536.
Definition u32 (z : Z) : Z := z mod 4294967296.
Definition u64 (z : Z) : Z := z mod 18446744073709551616.

(** ** Memory *)

(** An object is the list of its bytes, a pointer into it an offset.  A [char] pointer handed to
    the library is the list of the bytes readable from it, terminating NUL included if any. *)
Abbreviation bytes := (list Z).

Definition zlen {A : Type} (l : list A) : Z := Z.of_nat (length l).

Definition is_byte (b : Z) : Prop := 0 <= b < 256.

Definition load (m : bytes) (p : Z) : outcome Z :=
  if 0 <=? p then match m !! Z.to_nat p with Some b => Done b | None => Undef end else Undef.

Definition load_list (m : bytes) (p n : Z) : outcome bytes :=
  if (0 <=? p) && (0 <=? n) && (p + n <=? zlen m)
  then Done (take (Z.to_nat n) (drop (Z.to_nat p) m)) else Undef.

Definition store (m : bytes) (p : Z) (d : bytes) : outcome bytes :=
  if (0 <=? p) && (p + zlen d <=? zlen m)
  then Done (take (Z.to_nat p) m ++ d ++ drop (Z.to_nat (p + zlen d)) m) else Undef.

(** [a[i]] and [a[i] = x] for an array of objects. *)
Definition aload {A : Type} (l : list A) (i : Z) : outcome A :=
  if 0 <=? i then deref (l !! Z.to_nat i) else Undef.

Definition astore {A : Type} (l : list A) (i : Z) (x : A) : outcome (list A) :=
  if (0 <=? i) && (i <? zlen l) then Done (<[Z.to_nat i := x]> l) else Undef.

(** [strlen]: undefined when no NUL is readable. *)
Fixpoint strlen (s : bytes) : outcome Z :=
  match s with
  | [] => Undef
  | b :: s' => if b =? 0 then Done 0 else let! n := strlen s' in Done (n + 1)
  end.

(** [strcmp(a, b) == 0] *)
Fixpoint strcmp_eq (a b : bytes) : outcome bool :=
  match a, b with
  | x :: a', y :: b' =>
      if negb (x =? y) then Done false else if x =? 0 then Done true else strcmp_eq a' b'
  | _, _ => Undef
  end.

(** [strncmp(a, b, n) == 0] *)
Fixpoint strncmp_eq (n : nat) (a b : bytes) : outcome bool :=
  match n with
  | O => Done true
  | Datatypes.S n' =>
      match a, b with
      | x :: a', y :: b' =>
          if negb (x =? y) then Done false else if x =? 0 then Done true else strncmp_eq n' a' b'
      | _, _ => Undef
      end
  end.

(** ** Reasoning about outcomes *)

(** Which failures a specification excludes: [m_total] excludes running out of fuel,
    [m_defined] excludes undefined behaviour. *)
Record mode := Mode { m_total : bool; m_defined : bool }.

Definition owp {A : Type} (md : mode) (o : outcome A) (Q : A -> Prop) : Prop :=
  match o with
  | Done a => Q a
  | Undef => m_defined md = false
  | NoFuel => m_total md = false
  end.

Definition wp {S A : Type} (md : mode) (m : M S A) (Q : A -> S -> Prop) (s : S) : Prop :=
  owp md (m s) (fun '(a, s') => Q a s').

(** The four modes by name. *)
Definition partial : mode := Mode false false.
Definition total : mode := Mode true false.
Definition safe : mode := Mode false true.
Definition exact : mode := Mode true true.

(** ** Lemmas: outcomes and weakest preconditions *)

Section wp_rules.
Context {S : Type} (md : mode).

Lemma owp_done {A} (a : A) (Q : A -> Prop) : Q a -> owp md (Done a) Q.
Proof. done. Qed.

Lemma owp_bind {A B} (o : outcome A) (k : A -> outcome B) Q :
  owp md o (fun a => owp md (k a) Q) -> owp md (obind o k) Q.
Proof. by destruct o. Qed.

Lemma owp_mono {A} (o : outcome A) (P Q : A -> Prop) :
  owp md o P -> (forall a, P a -> Q a) -> owp md o Q.
Proof. destruct o; simpl; auto. Qed.

Lemma wp_ret {A} (a : A) (Q : A -> S -> Prop) s : Q a s -> wp md (ret a) Q s.
Proof. done. Qed.

Lemma wp_bind {A B} (m : M S A) (k : A -> M S B) Q s :
  wp md m (fun a s' => wp md (k a) Q s') s -> wp md (bind m k) Q s.
Proof. unfold wp, bind. destruct (m s) as [[a s']| |]; simpl; auto. Qed.

Lemma wp_mono {A} (m : M S A) (P Q : A -> S -> Prop) s :
  wp md m P s -> (forall a s', P a s' -> Q a s') -> wp md m Q s.
Proof. unfold wp. destruct (m s) as [[a s']| |]; simpl; auto. Qed.

Lemma wp_lift {A} (o : outcome A) (Q : A -> S -> Prop) s :
  owp md o (fun a => Q a s) -> wp md (lift o) Q s.
Proof. unfold wp, lift. destruct o; simpl; auto. Qed.

Lemma wp_gets {A} (f : S -> A) (Q : A -> S -> Prop) s : Q (f s) s -> wp md (gets f) Q s.
Proof. done. Qed.

Lemma wp_modify (f : S -> S) (Q : unit -> S -> Prop) s : Q tt (f s) -> wp md (modify f) Q s.
Proof. done. Qed.

(** The loop rule: an invariant and, when termination is wanted, a measure the fuel exceeds. *)
Lemma wp_loop {X A} (I : X -> S -> Prop) (meas : X -> S -> nat) fuel
    (body : X -> M S (X + A)) (Q : A -> S -> Prop) x s :
  I x s ->
  (forall x s, I x s ->
     wp md (body x) (fun r s' => match r with
       | inl x' => I x' s' /\ (m_total md = true -> (meas x' s' < meas x s)%nat)
       | inr a => Q a s'
       end) s) ->
  (m_total md = true -> (meas x s < fuel)%nat) ->
  wp md (loop fuel body x) Q s.
Proof.
  intros HI Hbody. revert x s HI.
  induction fuel as [|fuel IH]; intros x s HI Hf; simpl.
  { unfold wp; simpl. destruct (m_total md); [lia|done]. }
  apply wp_bind. eapply wp_mono; [by apply Hbody|].
  intros [x'|a] s'; simpl; [|by intros; apply wp_ret].
  intros [HI' Hlt]. apply IH; [done|]. intros Ht. specialize (Hf Ht). specialize (Hlt Ht). lia.
Qed.

Lemma owp_oloop {X A} (I : X -> Prop) (meas : X -> nat) fuel
    (body : X -> outcome (X + A)) (Q : A -> Prop) x :
  I x ->
  (forall x, I x ->
     owp md (body x) (fun r => match r with
       | inl x' => I x' /\ (m_total md = true -> (meas x' < meas x)%nat)
       | inr a => Q a
       end)) ->
  (m_total md = true -> (meas x < fuel)%nat) ->
  owp md (oloop fuel body x) Q.
Proof.
  intros HI Hbody. revert x HI.
  induction fuel as [|fuel IH]; intros x HI Hf; simpl.
  { destruct (m_total md); [lia|done]. }
  apply owp_bind. eapply owp_mono; [by apply Hbody|].
  intros [x'|a]; simpl; [|done].
  intros [HI' Hlt]. apply IH; [done|]. intros Ht. specialize (Hf Ht). specialize (Hlt Ht). lia.
Qed.

Lemma wp_for_loop {A} (I : Z -> S -> Prop) n i (body : Z -> M S (option A))
    (Q : option A -> S -> Prop) s :
  I i s ->
  (forall j s, i <= j < i + Z.of_nat n -> I j s ->
     wp md (body j) (fun r s' => match r with None => I (j + 1) s' | Some a => Q (Some a) s' end) s) ->
  (forall s, I (i + Z.of_nat n) s -> Q None s) ->
  wp md (for_loop n i body) Q s.
Proof.
  revert i s. induction n as [|n IH]; intros i s HI Hbody HQ; cbn [for_loop].
  { apply wp_ret, HQ. rewrite Z.add_0_r; exact HI. }
  apply wp_bind. eapply wp_mono; [apply Hbody; [lia|done]|].
  intros [a|] s'; [by intros; apply wp_ret|].
  intros HI'. apply IH; [done| |].
  - intros j s2 Hj. apply Hbody. lia.
  - intros s2. replace (i + 1 + Z.of_nat n) with (i + Z.of_nat (Datatypes.S n)) by lia. apply HQ.
Qed.

Lemma wp_mfor {A} (I : Z -> A -> S -> Prop) n i (body : Z -> A -> M S A)
    (Q : A -> S -> Prop) a s :
  I i a s ->
  (forall j a s, i <= j < i + Z.of_nat n -> I j a s -> wp md (body j a) (I (j + 1)) s) ->
  (forall a s, I (i + Z.of_nat n) a s -> Q a s) ->
  wp md (mfor n i body a) Q s.
Proof.
  revert i a s. induction n as [|n IH]; intros i a s HI Hbody HQ; cbn [mfor].
  { apply wp_ret, HQ. rewrite Z.add_0_r; exact HI. }
  apply wp_bind. eapply wp_mono; [apply Hbody; [lia|done]|].
  intros a' s' HI'. apply IH; [done| |].
  - intros j a2 s2 Hj. apply Hbody. lia.
  - intros a2 s2. replace (i + 1 + Z.of_nat n) with (i + Z.of_nat (Datatypes.S n)) by lia. apply HQ.
Qed.

End wp_rules.

(** A run without failures satisfies its specification in every mode. *)
Lemma wp_of_exact {S A} md (m : M S A) (P Q : A -> S -> Prop) s :
  wp exact m P s -> (forall a s', P a s' -> Q a s') -> wp md m Q s.
Proof. unfold wp. destruct (m s) as [[a s']| |]; simpl; [auto|done|done]. Qed.

(** A specification of the runs that finish, for an operation known to finish. *)
Lemma wp_total_partial {S A} (m : M S A) (P Q : A -> S -> Prop) s :
  wp total m P s -> wp partial m Q s -> wp total m (fun a s' => P a s' /\ Q a s') s.
Proof. unfold wp. by destruct (m s) as [[a s']| |]. Qed.

Lemma wp_conj {S A} md (m : M S A) (P Q : A -> S -> Prop) s :
  wp md m P s -> wp md m Q s -> wp md m (fun a s' => P a s' /\ Q a s') s.
Proof. unfold wp. by destruct (m s) as [[a s']| |]; cbn. Qed.

(** What a specification says of a run that finishes. *)
Lemma wp_done {S A} md (m : M S A) Q s a s' : wp md m Q s -> m s = Done (a, s') -> Q a s'.
Proof. unfold wp. intros H E. rewrite E in H. exact H. Qed.

Lemma owp_inv {A} md (o : outcome A) Q a : owp md o Q -> o = Done a -> Q a.
Proof. intros H E. rewrite E in H. exact H. Qed.

Lemma owp_exact {A} (o : outcome A) Q : owp exact o Q -> exists a, o = Done a /\ Q a.
Proof. destruct o; simpl; [eauto|done|done]. Qed.

Lemma wp_exact {S A} (m : M S A) Q s :
  wp exact m Q s -> exists a s', m s = Done (a, s') /\ Q a s'.
Proof. unfold wp. intros H. apply owp_exact in H as ([a s'] & H & HQ). eauto. Qed.

Lemma wp_exact_eq {S A} (m : M S A) s a s' :
  wp exact m (fun b s2 => b = a /\ s2 = s') s -> m s = Done (a, s').
Proof. intros H. by apply wp_exact in H as (? & ? & ? & -> & ->). Qed.

Lemma owp_partial_intro {A} (o : outcome A) (Q : A -> Prop) :
  (forall a, o = Done a -> Q a) -> owp partial o Q.
Proof. destruct o; simpl; auto. Qed.

(** Inversion of a successful bind. *)
Lemma obind_done {A B} (o : outcome A) (k : A -> outcome B) b :
  obind o k = Done b -> exists a, o = Done a /\ k a = Done b.
Proof. destruct o; simpl; [eauto|done|done]. Qed.

Lemma bind_done {S A B} (m : M S A) (k : A -> M S B) s b s' :
  bind m k s = Done (b, s') -> exists a s1, m s = Done (a, s1) /\ k a s1 = Done (b, s').
Proof. unfold bind. intros H. apply obind_done in H as ([a s1] & H & Hk). eauto. Qed.

Lemma obind_assoc {A B C} (o : outcome A) (f : A -> outcome B) (g : B -> outcome C) :
  obind (obind o f) g = obind o (fun a => obind (f a) g).
Proof. by destruct o. Qed.

(** A counted loop whose state after [j] rounds is [f j]. *)
Lemma ofor_fun {A} (f : nat -> A) n (body : Z -> A -> outcome A) :
  (forall j, (j < n)%nat -> body (Z.of_nat j) (f j) = Done (f (Datatypes.S j))) ->
  ofor n 0 body (f O) = Done (f n).
Proof.
  intros H. assert (Hk : forall k j, (j + k = n)%nat ->
    ofor k (Z.of_nat j) body (f j) = Done (f n)); [|by apply (Hk n O)].
  intros k. induction k as [|k IH]; intros j Hj; cbn [ofor].
  - by replace n with j by lia.
  - rewrite H by lia. cbn [obind]. replace (Z.of_nat j + 1) with (Z.of_nat (Datatypes.S j)) by lia.
    apply IH. lia.
Qed.

Lemma aload_map {A B} (f : A -> B) l j x :
  l !! j = Some x -> aload (map f l) (Z.of_nat j) = Done (f x).
Proof.
  intros H. unfold aload. destruct (0 <=? Z.of_nat j) eqn:E; [|apply Z.leb_gt in E; lia].
  rewrite Nat2Z.id, list_lookup_fmap, H. done.
Qed.

(** ** Tactics *)

(** One syntax-directed step of a weakest-precondition proof. *)
Ltac wp_step :=
  match goal with
  | |- wp _ (ret _) _ _ => apply wp_ret
  | |- wp _ (bind _ _) _ _ => apply wp_bind
  | |- wp _ (lift _) _ _ => apply wp_lift
  | |- wp _ (gets _) _ _ => apply wp_gets
  | |- wp _ (modify _) _ _ => apply wp_modify
  | |- wp _ (if ?b then _ else _) _ _ => destruct b eqn:?
  | |- wp _ (match ?x with _ => _ end) _ _ => destruct x eqn:?
  | |- owp _ (Done _) _ => apply owp_done
  | |- owp _ (obind _ _) _ => apply owp_bind
  | |- owp _ (if ?b then _ else _) _ => destruct b eqn:?
  | |- owp _ (match ?x with _ => _ end) _ => destruct x eqn:?
  end.
Ltac wp_steps := repeat (wp_step; cbn beta iota).

(** Destruct the innermost scrutinee of an [if] or [match] of the goal. *)
Ltac case_goal :=
  match goal with
  | |- context [match ?x with _ => _ end] =>
      lazymatch x with context [match _ with _ => _ end] => fail | _ => destruct x eqn:? end
  end.
Ltac case_hyp H :=
  match type of H with
  | context [match ?x with _ => _ end] =>
      lazymatch x with context [match _ with _ => _ end] => fail | _ => destruct x eqn:? end
  end.

(** Invert a chain of successful binds in a hypothesis. *)
Ltac inv_done H :=
  repeat match type of H with
  | obind _ _ = Done _ =>
      let a := fresh "a" in let E := fresh "E" in
      apply obind_done in H as (a & E & H)
  | bind _ _ _ = Done _ =>
      let a := fresh "a" in let s := fresh "s" in let E := fresh "E" in
      apply bind_done in H as (a & s & E & H)
  end.

(** Close a goal of a preorder from hypotheses that form a chain. *)
Ltac chain := solve [repeat first [eassumption | etrans; [eassumption|] | reflexivity]].

(** ** Lemmas: memory *)

Create HintDb mqtt.
Create Rewrite HintDb zlen.

Lemma zlen_nil {A} : zlen ([] : list A) = 0.
Proof. done. Qed.

Lemma zlen_cons {A} (x : A) l : zlen (x :: l) = 1 + zlen l.
Proof. unfold zlen. simpl. lia. Qed.

Lemma zlen_app {A} (l1 l2 : list A) : zlen (l1 ++ l2) = zlen l1 + zlen l2.
Proof. unfold zlen. rewrite length_app. lia. Qed.

Lemma zlen_nonneg {A} (l : list A) : 0 <= zlen l.
Proof. unfold zlen. lia. Qed.

Lemma zlen_take {A} n (l : list A) : 0 <= n <= zlen l -> zlen (take (Z.to_nat n) l) = n.
Proof. unfold zlen. intros. rewrite length_take. lia. Qed.

Lemma zlen_drop {A} n (l : list A) : 0 <= n <= zlen l -> zlen (drop (Z.to_nat n) l) = zlen l - n.
Proof. unfold zlen. intros. rewrite length_drop. lia. Qed.

Lemma zlen_replicate {A} k (x : A) : zlen (replicate k x) = Z.of_nat k.
Proof. unfold zlen. by rewrite length_replicate. Qed.

Lemma zlen_to_nat {A} (l : list A) : Z.to_nat (zlen l) = length l.
Proof. unfold zlen. lia. Qed.

#[export] Hint Rewrite @zlen_nil @zlen_cons @zlen_app : zlen.
#[export] Hint Resolve zlen_nonneg : mqtt.

(** Normalise lengths in the goal and the context, then arithmetic. *)
Ltac zlia :=
  autorewrite with zlen in *;
  repeat match goal with
  | |- context [zlen ?l] =>
      lazymatch goal with _ : 0 <= zlen l |- _ => fail | _ => pose proof (zlen_nonneg l) end
  | _ : context [zlen ?l] |- _ =>
      lazymatch goal with _ : 0 <= zlen l |- _ => fail | _ => pose proof (zlen_nonneg l) end
  end;
  lia.

Lemma load_app (pre post : bytes) b : load (pre ++ b :: post) (zlen pre) = Done b.
Proof.
  unfold load. destruct (0 <=? zlen pre) eqn:E; [|pose proof (zlen_nonneg pre); lia].
  rewrite zlen_to_nat, list_lookup_middle; done.
Qed.

Lemma load_list_app (pre d post : bytes) n :
  n = zlen d -> load_list (pre ++ d ++ post) (zlen pre) n = Done d.
Proof.
  intros ->. unfold load_list.
  destruct (_ && _) eqn:E; [|exfalso; zlia].
  rewrite !zlen_to_nat, drop_app_length, take_app_length by done. done.
Qed.

Lemma load_Done (m : bytes) p b : load m p = Done b -> 0 <= p < zlen m /\ m !! Z.to_nat p = Some b.
Proof.
  unfold load, zlen. intros H. destruct (0 <=? p) eqn:E; [|done].
  destruct (m !! Z.to_nat p) eqn:E2; simplify_eq. split; [|done].
  apply lookup_lt_Some in E2. lia.
Qed.

Lemma load_in (m : bytes) p : 0 <= p < zlen m -> exists b, load m p = Done b.
Proof.
  unfold load, zlen. intros H. destruct (0 <=? p) eqn:E; [|lia].
  destruct (m !! Z.to_nat p) eqn:E2; [eauto|]. apply lookup_ge_None in E2. lia.
Qed.

Lemma load_list_in (m : bytes) p n :
  0 <= p -> 0 <= n -> p + n <= zlen m -> exists d, load_list m p n = Done d /\ zlen d = n.
Proof.
  intros. unfold load_list. destruct (_ && _) eqn:E; [|lia].
  eexists; split; [done|]. rewrite zlen_take; [done|]. rewrite zlen_drop; lia.
Qed.

Lemma load_list_Done (m : bytes) p n d :
  load_list m p n = Done d -> 0 <= p /\ 0 <= n /\ p + n <= zlen m /\ zlen d = n.
Proof.
  unfold load_list. destruct (_ && _) eqn:E; [|done]. intros [= <-].
  repeat split; try lia. rewrite zlen_take; [done|]. rewrite zlen_drop; lia.
Qed.

Lemma store_in (m : bytes) p d :
  0 <= p -> p + zlen d <= zlen m ->
  store m p d = Done (take (Z.to_nat p) m ++ d ++ drop (Z.to_nat (p + zlen d)) m).
Proof. intros. unfold store. destruct (_ && _) eqn:E; [done|lia]. Qed.

Lemma store_zlen (m : bytes) p d m' : store m p d = Done m' -> zlen m' = zlen m.
Proof.
  unfold store. destruct (_ && _) eqn:E; [|done]. intros [= <-].
  pose proof (zlen_nonneg d).
  rewrite !zlen_app, zlen_take, zlen_drop; lia.
Qed.

Lemma store_Done (m : bytes) p d m' : store m p d = Done m' -> 0 <= p /\ p + zlen d <= zlen m.
Proof. unfold store. destruct (_ && _) eqn:E; [lia|done]. Qed.

Lemma store_out (m : bytes) p d : zlen m < p + zlen d -> store m p d = Undef.
Proof. intros. unfold store. destruct (_ && _) eqn:E; [lia|done]. Qed.

(** Splitting an object around an access. *)
Lemma split_at {A} (m : list A) p n :
  0 <= p -> 0 <= n -> p + n <= zlen m ->
  exists pre old post, m = pre ++ old ++ post /\ zlen pre = p /\ zlen old = n.
Proof.
  intros. exists (take (Z.to_nat p) m), (take (Z.to_nat n) (drop (Z.to_nat p) m)),
    (drop (Z.to_nat n) (drop (Z.to_nat p) m)).
  rewrite !take_drop, !zlen_take; rewrite ?zlen_drop; auto with lia.
Qed.

Lemma store_split (pre old post d : bytes) :
  zlen old = zlen d -> store (pre ++ old ++ post) (zlen pre) d = Done (pre ++ d ++ post).
Proof.
  intros Hl. rewrite store_in by zlia.
  replace (Z.to_nat (zlen pre + zlen d)) with (length pre + length old)%nat by (unfold zlen in *; lia).
  rewrite zlen_to_nat, take_app_length, drop_app_add, drop_app_length. done.
Qed.

(** Two stores one after the other are one store of the concatenation. *)
Lemma store_app (m : bytes) p d1 d2 :
  0 <= p ->
  (let! m1 := store m p d1 in store m1 (p + zlen d1) d2) = store m p (d1 ++ d2).
Proof.
  intros Hp. pose proof (zlen_nonneg d1). pose proof (zlen_nonneg d2).
  destruct (decide (p + zlen d1 <= zlen m)) as [H1|H1].
  2: { rewrite (store_out m p d1) by lia. simpl. rewrite store_out by zlia. done. }
  destruct (decide (p + zlen d1 + zlen d2 <= zlen m)) as [H2|H2].
  - destruct (split_at m p (zlen d1 + zlen d2)) as (pre & o & post & -> & <- & Ho); [lia..|].
    destruct (split_at o (zlen d1) (zlen d2)) as (a & b & c & -> & Ha & Hb); [lia..|].
    assert (c = []) as ->.
    { destruct c; [done|]. autorewrite with zlen in Ho. pose proof (zlen_nonneg c). lia. }
    rewrite app_nil_r in *.
    rewrite (store_split pre (a ++ b) post (d1 ++ d2)) by zlia.
    rewrite <- app_assoc, store_split by lia. simpl.
    rewrite app_assoc, <- zlen_app, store_split by lia. by rewrite <- !app_assoc.
  - rewrite (store_out m p (d1 ++ d2)) by zlia.
    rewrite store_in by lia. simpl. apply store_out. autorewrite with zlen.
    rewrite zlen_take, zlen_drop; lia.
Qed.

(** The same with the offset given by an equation, and storing right behind what has been written. *)
Lemma load_at (pre post : bytes) b p : p = zlen pre -> load (pre ++ b :: post) p = Done b.
Proof. intros ->. apply load_app. Qed.

Lemma store_at (pre old post d : bytes) p :
  p = zlen pre -> zlen old = zlen d -> store (pre ++ old ++ post) p d = Done (pre ++ d ++ post).
Proof. intros ->. apply store_split. Qed.

Lemma store_next (out buf d : bytes) p :
  p = zlen out -> zlen d <= zlen buf -> store (out ++ buf) p d = Done ((out ++ d) ++ drop (length d) buf).
Proof.
  intros -> Hd. rewrite <- (take_drop (length d) buf) at 1.
  rewrite store_split, <- app_assoc; [done|]. unfold zlen in *. rewrite length_take. lia.
Qed.

(** A length is as required. *)
Ltac room := unfold zlen in *; rewrite ?length_app, ?length_drop; cbn [length]; lia.

Lemma store_nil (m : bytes) p : 0 <= p <= zlen m -> store m p [] = Done m.
Proof.
  intros. rewrite store_in by (rewrite ?zlen_nil; lia). rewrite zlen_nil. simpl.
  replace (p + 0) with p by lia. by rewrite take_drop.
Qed.

Lemma store_zero (m d : bytes) :
  zlen d <= zlen m -> store m 0 d = Done (d ++ drop (length d) m).
Proof.
  intros. rewrite store_in by lia. rewrite Z.add_0_l, zlen_to_nat. done.
Qed.

(** ** Lemmas: accesses finish *)

Lemma owp_undef {A} (Q : A -> Prop) : owp total (@Undef A) Q.
Proof. done. Qed.

Lemma store_finishes m p d : owp total (store m p d) (fun m' => zlen m' = zlen m).
Proof.
  destruct (store m p d) eqn:E; simpl; [by apply store_zlen in E|done|].
  unfold store in E. by destruct (_ && _).
Qed.

Lemma load_finishes m p : owp total (load m p) (fun _ => True).
Proof. unfold load. destruct (0 <=? p); [|done]. by destruct (m !! _). Qed.

Lemma deref_finishes {A} (p : option A) : owp total (deref p) (fun a => p = Some a).
Proof. by destruct p. Qed.

Lemma aload_finishes {A} (l : list A) i : owp total (aload l i) (fun a => a ∈ l).
Proof.
  unfold aload. destruct (0 <=? i); [|done]. destruct (l !! Z.to_nat i) eqn:E; simpl; [|done].
  by eapply list_elem_of_lookup_2.
Qed.

Lemma astore_finishes {A} (l : list A) i x :
  owp total (astore l i x) (fun l' => length l' = length l /\ 0 <= i < zlen l /\ l' = <[Z.to_nat i := x]> l).
Proof. unfold astore. destruct (_ && _) eqn:E; simpl; [|done]. rewrite length_insert. split; [done|]. split; [lia|done]. Qed.

(** *** Computations that return *)

(** The computation does not run out of fuel. *)
Definition finishes {A : Type} (o : outcome A) : Prop := owp total o (fun _ => True).

Lemma finishes_done {A} (a : A) : finishes (Done a).
Proof. done. Qed.
Lemma finishes_undef {A} : finishes (@Undef A).
Proof. done. Qed.
Lemma finishes_bind {A B} (o : outcome A) (k : A -> outcome B) :
  finishes o -> (forall a, finishes (k a)) -> finishes (obind o k).
Proof. intros Ho Hk. apply owp_bind. eapply owp_mono; [exact Ho|]. intros a _. apply Hk. Qed.
Lemma finishes_post {A} (o : outcome A) (P : A -> Prop) : owp total o P -> finishes o.
Proof. intros H. by eapply owp_mono; [exact H|]. Qed.

Lemma finishes_load m p : finishes (load m p).
Proof. apply load_finishes. Qed.
Lemma finishes_store m p d : finishes (store m p d).
Proof. eapply finishes_post, store_finishes. Qed.
Lemma finishes_deref {A} (p : option A) : finishes (deref p).
Proof. eapply finishes_post, deref_finishes. Qed.
Lemma finishes_aload {A} (l : list A) i : finishes (aload l i).
Proof. eapply finishes_post, aload_finishes. Qed.
Lemma finishes_astore {A} (l : list A) i x : finishes (astore l i x).
Proof. eapply finishes_post, astore_finishes. Qed.
Lemma finishes_load_list m p n : finishes (load_list m p n).
Proof. unfold load_list. by destruct (_ && _). Qed.
Lemma finishes_strlen s : finishes (strlen s).
Proof. induction s as [|b s IH]; simpl; [done|]. destruct (b =? 0); [done|]. by apply finishes_bind. Qed.
Lemma finishes_strcmp_eq a b : finishes (strcmp_eq a b).
Proof.
  revert b. induction a as [|x a IH]; intros [|y b]; simpl; try done. destruct (negb _); [done|].
  destruct (x =? 0); [done|apply IH].
Qed.
Lemma finishes_strncmp_eq n a b : finishes (strncmp_eq n a b).
Proof.
  revert a b. induction n as [|n IH]; intros a b; simpl; [done|]. destruct a as [|x a], b as [|y b]; try done.
  destruct (negb _); [done|]. destruct (x =? 0); [done|apply IH].
Qed.

Create HintDb finishes.
#[export] Hint Resolve finishes_done finishes_undef finishes_load finishes_store finishes_deref finishes_aload
  finishes_astore finishes_load_list finishes_strlen finishes_strcmp_eq finishes_strncmp_eq : finishes.

(** Follows the structure of a computation down to the operations of the database. *)
Ltac finishes :=
  repeat (cbv beta zeta;
    match goal with
    | |- forall _, _ => intros ?
    | |- finishes (obind _ _) => apply finishes_bind
    | |- finishes (match ?x with _ => _ end) => destruct x
    | |- finishes _ => solve [eauto with finishes]
    end).

(** ** Lemmas: C strings *)

(** The bytes of a C string object: its characters and a NUL. *)
Definition cstr (s : bytes) : bytes := s ++ [0].
Definition no_nul (s : bytes) : Prop := Forall (fun b => b <> 0) s.

Lemma strlen_cstr s rest : no_nul s -> strlen (cstr s ++ rest) = Done (zlen s).
Proof.
  unfold cstr. induction 1 as [|b s Hb Hs IH]; simpl; [done|].
  destruct (b =? 0) eqn:E; [lia|]. rewrite IH. simpl. f_equal. rewrite zlen_cons. lia.
Qed.

Lemma strcmp_eq_cstr s t rs rt :
  no_nul s -> no_nul t ->
  strcmp_eq (cstr s ++ rs) (cstr t ++ rt) = Done (bool_decide (s = t)).
Proof.
  unfold cstr. intros Hs. revert t. induction Hs as [|b s Hb Hs IH]; intros t Ht.
  - destruct Ht as [|c t Hc Ht]; simpl; [done|]. by destruct (0 =? c) eqn:E; [lia|].
  - destruct Ht as [|c t Hc Ht]; simpl.
    + by destruct (b =? 0) eqn:E; [lia|].
    + destruct (b =? c) eqn:E; simpl.
      * destruct (b =? 0) eqn:E0; [lia|]. rewrite IH by done. f_equal.
        apply bool_decide_ext. assert (b = c) as -> by lia. split; congruence.
      * rewrite bool_decide_eq_false_2; [done|]. intros [= -> ->]. lia.
Qed.

(** [strncmp] on two regions without NUL in their first [n] bytes compares those bytes. *)
Lemma strncmp_eq_take (n : nat) (a b : bytes) :
  (n <= length a)%nat -> (n <= length b)%nat -> no_nul (take n a) ->
  strncmp_eq n a b = Done (bool_decide (take n a = take n b)).
Proof.
  revert a b. induction n as [|n IH]; intros a b Ha Hb Hn; [done|].
  destruct a as [|x a]; simpl in *; [lia|]. destruct b as [|y b]; simpl in *; [lia|].
  inversion Hn as [|?? Hx Hn']; subst.
  destruct (x =? y) eqn:E; simpl.
  - destruct (x =? 0) eqn:E0; [lia|]. rewrite IH; [|lia|lia|done]. f_equal.
    apply bool_decide_ext. assert (x = y) as -> by lia. split; congruence.
  - rewrite bool_decide_eq_false_2; [done|]. intros [= -> ?]. lia.
Qed.

(** ** Lemmas: machine integers *)

(** A bitwise or of numbers without common bits is their sum. *)
Lemma lor_add x y n : 0 <= n -> 0 <= x < 2 ^ n -> Z.lor x (y * 2 ^ n) = x + y * 2 ^ n.
Proof.
  intros Hn Hx. rewrite <- Z.add_lor_land. rewrite <- (Z.add_0_r (Z.lor _ _)) at 1. f_equal. symmetry.
  apply Z.bits_inj'. intros k Hk. rewrite Z.land_spec, Z.bits_0.
  destruct (decide (k < n)).
  - by rewrite Z.mul_pow2_bits_low, andb_false_r.
  - replace x with (x mod 2 ^ n) by (by apply Z.mod_small). by rewrite Z.mod_pow2_bits_high by lia.
Qed.

Lemma lor_shift b x n : 0 <= n -> 0 <= x < 2 ^ n -> Z.lor (Z.shiftl b n) x = b * 2 ^ n + x.
Proof. intros Hn Hx. rewrite Z.shiftl_mul_pow2, Z.lor_comm, lor_add by done. lia. Qed.

Lemma u8_id z : 0 <= z < 256 -> u8 z = z.
Proof. apply Z.mod_small. Qed.
Lemma u16_id z : 0 <= z < 65536 -> u16 z = z.
Proof. apply Z.mod_small. Qed.
Lemma u32_id z : 0 <= z < 4294967296 -> u32 z = z.
Proof. apply Z.mod_small. Qed.
Lemma u64_id z : 0 <= z < 18446744073709551616 -> u64 z = z.
Proof. apply Z.mod_small. Qed.
Lemma u8_range z : 0 <= u8 z < 256.
Proof. by apply Z.mod_pos_bound. Qed.
Lemma u16_range z : 0 <= u16 z < 65536.
Proof. by apply Z.mod_pos_bound. Qed.
Lemma u32_range z : 0 <= u32 z < 4294967296.
Proof. by apply Z.mod_pos_bound. Qed.
Lemma u64_range z : 0 <= u64 z < 18446744073709551616.
Proof. by apply Z.mod_pos_bound. Qed.

(** Facts about all bytes, by evaluation. *)
Lemma byte_cases (P : Z -> bool) :
  forallb P (seqZ 0 256) = true -> forall z, 0 <= z < 256 -> P z = true.
Proof.
  rewrite forallb_forall. intros H z Hz. apply H. apply list_elem_of_In, elem_of_seqZ. lia.
Qed.

(** Equality of results, component by component. *)
Ltac res_eq :=
  repeat match goal with
  | |- Done _ = Done _ => apply f_equal
  | |- Some _ = Some _ => apply f_equal
  | |- inl _ = inl _ => apply f_equal
  | |- inr _ = inr _ => apply f_equal
  | |- (_, _) = (_, _) => apply f_equal2
  end; try reflexivity.
