(* ===== verification/Types.v ===== *)
(** * Data of the MQTT client

    The enumerations, constants and structures of [include/aws_iot_config.h],
    [include/aws_iot_error.h], [include/aws_iot_mqtt_client.h],
    [include/aws_iot_mqtt_client_common_internal.h], [include/network_interface.h] and
    [platform/linux/common/timer_platform.h].  A structure is a Record whose fields carry the
    source's names, with a short prefix where two structures share a field name; an integer field
    of any width is a [Z]; a pointer field is an [option]. *)

From S2P Require Export Prelude.

(** ** Configuration (include/aws_iot_config.h) *)

Definition AWS_IOT_MQTT_TX_BUF_LEN : Z := 131072.
Definition AWS_IOT_MQTT_RX_BUF_LEN : Z := 131072.
Definition AWS_IOT_MQTT_NUM_SUBSCRIBE_HANDLERS : Z := 100.
Definition AWS_IOT_MQTT_MIN_RECONNECT_WAIT_INTERVAL : Z := 1000.
Definition AWS_IOT_MQTT_MAX_RECONNECT_WAIT_INTERVAL : Z := 128000.
Definition MAX_PACKET_ID : Z := 65535.

(** ** Error codes (include/aws_iot_error.h) *)

Inductive IoT_Error_t : Set :=
  | NETWORK_PHYSICAL_LAYER_CONNECTED
  | NETWORK_MANUALLY_DISCONNECTED
  | NETWORK_ATTEMPTING_RECONNECT
  | NETWORK_RECONNECTED
  | MQTT_NOTHING_TO_READ
  | MQTT_CONNACK_CONNECTION_ACCEPTED
  | SUCCESS
  | FAILURE
  | NULL_VALUE_ERROR
  | TCP_CONNECTION_ERROR
  | SSL_CONNECTION_ERROR
  | TCP_SETUP_ERROR
  | NETWORK_SSL_CONNECT_TIMEOUT_ERROR
  | NETWORK_SSL_WRITE_ERROR
  | NETWORK_SSL_INIT_ERROR
  | NETWORK_SSL_CERT_ERROR
  | NETWORK_SSL_WRITE_TIMEOUT_ERROR
  | NETWORK_SSL_READ_TIMEOUT_ERROR
  | NETWORK_SSL_READ_ERROR
  | NETWORK_DISCONNECTED_ERROR
  | NETWORK_RECONNECT_TIMED_OUT_ERROR
  | NETWORK_ALREADY_CONNECTED_ERROR
  | NETWORK_MBEDTLS_ERR_CTR_DRBG_ENTROPY_SOURCE_FAILED
  | NETWORK_SSL_UNKNOWN_ERROR
  | NETWORK_PHYSICAL_LAYER_DISCONNECTED
  | NETWORK_X509_ROOT_CRT_PARSE_ERROR
  | NETWORK_X509_DEVICE_CRT_PARSE_ERROR
  | NETWORK_PK_PRIVATE_KEY_PARSE_ERROR
  | NETWORK_ERR_NET_SOCKET_FAILED
  | NETWORK_ERR_NET_UNKNOWN_HOST
  | NETWORK_ERR_NET_CONNECT_FAILED
  | NETWORK_SSL_NOTHING_TO_READ
  | MQTT_CONNECTION_ERROR
  | MQTT_CONNECT_TIMEOUT_ERROR
  | MQTT_REQUEST_TIMEOUT_ERROR
  | MQTT_UNEXPECTED_CLIENT_STATE_ERROR
  | MQTT_CLIENT_NOT_IDLE_ERROR
  | MQTT_RX_MESSAGE_PACKET_TYPE_INVALID_ERROR
  | MQTT_RX_BUFFER_TOO_SHORT_ERROR
  | MQTT_TX_BUFFER_TOO_SHORT_ERROR
  | MQTT_MAX_SUBSCRIPTIONS_REACHED_ERROR
  | MQTT_DECODE_REMAINING_LENGTH_ERROR
  | MQTT_CONNACK_UNKNOWN_ERROR
  | MQTT_CONNACK_UNACCEPTABLE_PROTOCOL_VERSION_ERROR
  | MQTT_CONNACK_IDENTIFIER_REJECTED_ERROR
  | MQTT_CONNACK_SERVER_UNAVAILABLE_ERROR
  | MQTT_CONNACK_BAD_USERDATA_ERROR
  | MQTT_CONNACK_NOT_AUTHORIZED_ERROR
  | JSON_PARSE_ERROR
  | SHADOW_WAIT_FOR_PUBLISH
  | SHADOW_JSON_BUFFER_TRUNCATED
  | SHADOW_JSON_ERROR
  | MUTEX_INIT_ERROR
  | MUTEX_LOCK_ERROR
  | MUTEX_UNLOCK_ERROR
  | MUTEX_DESTROY_ERROR.

#[export] Instance IoT_Error_t_eq_dec : EqDecision IoT_Error_t.
Proof. solve_decision. Defined.

(** The numeric value of an error code, as an [int]. *)
Definition IoT_Error_value (e : IoT_Error_t) : Z :=
  match e with
  | NETWORK_PHYSICAL_LAYER_CONNECTED => 6
  | NETWORK_MANUALLY_DISCONNECTED => 5
  | NETWORK_ATTEMPTING_RECONNECT => 4
  | NETWORK_RECONNECTED => 3
  | MQTT_NOTHING_TO_READ => 2
  | MQTT_CONNACK_CONNECTION_ACCEPTED => 1
  | SUCCESS => 0
  | FAILURE => -1
  | NULL_VALUE_ERROR => -2
  | TCP_CONNECTION_ERROR => -3
  | SSL_CONNECTION_ERROR => -4
  | TCP_SETUP_ERROR => -5
  | NETWORK_SSL_CONNECT_TIMEOUT_ERROR => -6
  | NETWORK_SSL_WRITE_ERROR => -7
  | NETWORK_SSL_INIT_ERROR => -8
  | NETWORK_SSL_CERT_ERROR => -9
  | NETWORK_SSL_WRITE_TIMEOUT_ERROR => -10
  | NETWORK_SSL_READ_TIMEOUT_ERROR => -11
  | NETWORK_SSL_READ_ERROR => -12
  | NETWORK_DISCONNECTED_ERROR => -13
  | NETWORK_RECONNECT_TIMED_OUT_ERROR => -14
  | NETWORK_ALREADY_CONNECTED_ERROR => -15
  | NETWORK_MBEDTLS_ERR_CTR_DRBG_ENTROPY_SOURCE_FAILED => -16
  | NETWORK_SSL_UNKNOWN_ERROR => -17
  | NETWORK_PHYSICAL_LAYER_DISCONNECTED => -18
  | NETWORK_X509_ROOT_CRT_PARSE_ERROR => -19
  | NETWORK_X509_DEVICE_CRT_PARSE_ERROR => -20
  | NETWORK_PK_PRIVATE_KEY_PARSE_ERROR => -21
  | NETWORK_ERR_NET_SOCKET_FAILED => -22
  | NETWORK_ERR_NET_UNKNOWN_HOST => -23
  | NETWORK_ERR_NET_CONNECT_FAILED => -24
  | NETWORK_SSL_NOTHING_TO_READ => -25
  | MQTT_CONNECTION_ERROR => -26
  | MQTT_CONNECT_TIMEOUT_ERROR => -27
  | MQTT_REQUEST_TIMEOUT_ERROR => -28
  | MQTT_UNEXPECTED_CLIENT_STATE_ERROR => -29
  | MQTT_CLIENT_NOT_IDLE_ERROR => -30
  | MQTT_RX_MESSAGE_PACKET_TYPE_INVALID_ERROR => -31
  | MQTT_RX_BUFFER_TOO_SHORT_ERROR => -32
  | MQTT_TX_BUFFER_TOO_SHORT_ERROR => -33
  | MQTT_MAX_SUBSCRIPTIONS_REACHED_ERROR => -34
  | MQTT_DECODE_REMAINING_LENGTH_ERROR => -35
  | MQTT_CONNACK_UNKNOWN_ERROR => -36
  | MQTT_CONNACK_UNACCEPTABLE_PROTOCOL_VERSION_ERROR => -37
  | MQTT_CONNACK_IDENTIFIER_REJECTED_ERROR => -38
  | MQTT_CONNACK_SERVER_UNAVAILABLE_ERROR => -39
  | MQTT_CONNACK_BAD_USERDATA_ERROR => -40
  | MQTT_CONNACK_NOT_AUTHORIZED_ERROR => -41
  | JSON_PARSE_ERROR => -42
  | SHADOW_WAIT_FOR_PUBLISH => -43
  | SHADOW_JSON_BUFFER_TRUNCATED => -44
  | SHADOW_JSON_ERROR => -45
  | MUTEX_INIT_ERROR => -46
  | MUTEX_LOCK_ERROR => -47
  | MUTEX_UNLOCK_ERROR => -48
  | MUTEX_DESTROY_ERROR => -49
  end.

(** The codes by which [aws_iot_mqtt_yield] recognises a lost or regained connection; no function
    below it returns them for another reason. *)
Definition is_plain (rc : IoT_Error_t) : bool :=
  match rc with
  | NETWORK_DISCONNECTED_ERROR | NETWORK_ATTEMPTING_RECONNECT | NETWORK_RECONNECTED => false
  | _ => true
  end.
Definition plain (rc : IoT_Error_t) : Prop := is_plain rc = true.

(** ** MQTT enumerations *)

(** [QoS]: a C enumeration of which the code also stores the values 2 and 3 (read off a header). *)
Abbreviation QoS := Z (only parsing).
Definition QOS0 : QoS := 0.
Definition QOS1 : QoS := 1.

(** [MQTT_Ver_t]: the only enumerator; other values of the type are other integers. *)
Definition MQTT_3_1_1 : Z := 4.

Inductive MessageTypes : Set :=
  | UNKNOWN | CONNECT | CONNACK | PUBLISH | PUBACK | PUBREC | PUBREL | PUBCOMP
  | SUBSCRIBE | SUBACK | UNSUBSCRIBE | UNSUBACK | PINGREQ | PINGRESP | DISCONNECT.

#[export] Instance MessageTypes_eq_dec : EqDecision MessageTypes.
Proof. solve_decision. Defined.

Definition MessageTypes_value (t : MessageTypes) : Z :=
  match t with
  | UNKNOWN => -1
  | CONNECT => 1
  | CONNACK => 2
  | PUBLISH => 3
  | PUBACK => 4
  | PUBREC => 5
  | PUBREL => 6
  | PUBCOMP => 7
  | SUBSCRIBE => 8
  | SUBACK => 9
  | UNSUBSCRIBE => 10
  | UNSUBACK => 11
  | PINGREQ => 12
  | PINGRESP => 13
  | DISCONNECT => 14
  end.

Inductive ClientState : Set :=
  | CLIENT_STATE_INVALID
  | CLIENT_STATE_INITIALIZED
  | CLIENT_STATE_CONNECTING
  | CLIENT_STATE_CONNECTED_IDLE
  | CLIENT_STATE_CONNECTED_YIELD_IN_PROGRESS
  | CLIENT_STATE_CONNECTED_PUBLISH_IN_PROGRESS
  | CLIENT_STATE_CONNECTED_SUBSCRIBE_IN_PROGRESS
  | CLIENT_STATE_CONNECTED_UNSUBSCRIBE_IN_PROGRESS
  | CLIENT_STATE_CONNECTED_RESUBSCRIBE_IN_PROGRESS
  | CLIENT_STATE_CONNECTED_WAIT_FOR_CB_RETURN
  | CLIENT_STATE_DISCONNECTING
  | CLIENT_STATE_DISCONNECTED_ERROR
  | CLIENT_STATE_DISCONNECTED_MANUALLY
  | CLIENT_STATE_PENDING_RECONNECT.

#[export] Instance ClientState_eq_dec : EqDecision ClientState.
Proof. solve_decision. Defined.

(** ** The fixed-header byte: union [MQTTHeader] (bit-fields of the non-[REVERSED] build) *)

Module MQTTHeader.
Definition retain (byte : Z) : Z := Z.land byte 1.
Definition qos (byte : Z) : Z := Z.land (Z.shiftr byte 1) 3.
Definition dup (byte : Z) : Z := Z.land (Z.shiftr byte 3) 1.
Definition type (byte : Z) : Z := Z.land (Z.shiftr byte 4) 15.

(** Assigning [width] bits of [v] to the field that starts at bit [pos]. *)
Definition set_field (byte pos width v : Z) : Z :=
  Z.lor (Z.land byte (Z.lnot (Z.shiftl (Z.ones width) pos)))
        (Z.shiftl (Z.land v (Z.ones width)) pos).
Definition set_retain (byte v : Z) : Z := set_field byte 0 1 v.
Definition set_qos (byte v : Z) : Z := set_field byte 1 2 v.
Definition set_dup (byte v : Z) : Z := set_field byte 3 1 v.
Definition set_type (byte v : Z) : Z := set_field byte 4 4 v.
End MQTTHeader.

(** ** Structures *)

Record timeval := mkTimeval { tv_sec : Z; tv_usec : Z }.

(** [struct Timer] *)
Record Timer := mkTimer { end_time : timeval }.

(** [IoT_Publish_Message_Params].  [msg_payload] is the readable memory at [payload]; of a message
    being delivered it is an offset into the client's receive buffer, see [delivered]. *)
Record IoT_Publish_Message_Params := mkPublishParams {
  msg_qos : QoS;
  msg_isRetained : Z;
  msg_isDup : Z;
  msg_id : Z;
  msg_payload : option bytes;
  msg_payloadLen : Z
}.

(** The message parameters handed to an application handler: [payload] points into [readBuf], and
    the [id] of a message of quality of service 0 is indeterminate. *)
Record delivered := mkDelivered {
  dm_qos : QoS;
  dm_isRetained : Z;
  dm_isDup : Z;
  dm_id : option Z;
  dm_payload : Z;
  dm_payloadLen : Z
}.

(** Without [struct_id], an eye-catcher of four bytes that nothing reads; likewise the parameters of connecting. *)
Record IoT_MQTT_Will_Options := mkWill {
  will_pTopicName : option bytes;
  will_topicNameLen : Z;
  will_pMessage : option bytes;
  will_msgLen : Z;
  will_isRetained : bool;
  will_qos : QoS
}.

Definition IoT_MQTT_Will_Options_Initializer : IoT_MQTT_Will_Options :=
  mkWill None 0 None 0 false QOS0.

Record IoT_Client_Connect_Params := mkConnectParams {
  MQTTVersion : Z;
  pClientID : option bytes;
  clientIDLen : Z;
  keepAliveIntervalInSec : Z;
  isCleanSession : bool;
  isWillMsgPresent : bool;
  will : IoT_MQTT_Will_Options;
  pUsername : option bytes;
  usernameLen : Z;
  pPassword : option bytes;
  passwordLen : Z
}.

Definition IoT_Client_Connect_Params_initializer : IoT_Client_Connect_Params :=
  mkConnectParams MQTT_3_1_1 None 0 60 true false IoT_MQTT_Will_Options_Initializer None 0 None 0.

(** Code addresses ([pApplicationHandler_t], [iot_disconnect_handler]) and [void *] data. *)
Abbreviation fnptr := Z (only parsing).
Abbreviation voidptr := Z (only parsing).

Record IoT_Client_Init_Params := mkInitParams {
  enableAutoReconnect : bool;
  pHostURL : option bytes;
  port : Z;
  pRootCALocation : option bytes;
  pDeviceCertLocation : option bytes;
  pDevicePrivateKeyLocation : option bytes;
  mqttPacketTimeout_ms : Z;
  mqttCommandTimeout_ms : Z;
  tlsHandshakeTimeout_ms : Z;
  isSSLHostnameVerify : bool;
  ip_disconnectHandler : option fnptr;
  ip_disconnectHandlerData : voidptr;
  ip_isBlockOnThreadLockEnabled : bool
}.

Definition IoT_Client_Init_Params_initializer : IoT_Client_Init_Params :=
  mkInitParams true None 0 None None None 2000 20000 5000 true None 0 false.

(** [MessageHandlers]: one entry of the subscription table. *)
Record MessageHandlers := mkMessageHandlers {
  topicName : option bytes;
  mh_topicNameLen : Z;
  mh_qos : QoS;
  pApplicationHandler : option fnptr;
  pApplicationHandlerData : voidptr
}.

(** [ClientStatus] *)
Record ClientStatus := mkClientStatus {
  clientState : ClientState;
  isPingOutstanding : bool;
  isAutoReconnectEnabled : bool
}.

(** [ClientData].  The three mutexes live in the environment (see [Env]). *)
Record ClientData := mkClientData {
  nextPacketId : Z;
  packetTimeoutMs : Z;
  commandTimeoutMs : Z;
  keepAliveInterval : Z;
  currentReconnectWaitInterval : Z;
  counterNetworkDisconnected : Z;
  writeBufSize : Z;
  readBufSize : Z;
  writeBuf : bytes;
  readBuf : bytes;
  isBlockOnThreadLockEnabled : bool;
  options : IoT_Client_Connect_Params;
  messageHandlers : list MessageHandlers;
  disconnectHandler : option fnptr;
  disconnectHandlerData : voidptr
}.

(** [TLSConnectParams] *)
Record TLSConnectParams := mkTLSConnectParams {
  tls_pRootCALocation : option bytes;
  tls_pDeviceCertLocation : option bytes;
  tls_pDevicePrivateKeyLocation : option bytes;
  pDestinationURL : option bytes;
  DestinationPort : Z;
  timeout_ms : Z;
  ServerVerificationFlag : bool
}.

(** [struct Network]: the connection parameters and the [flags] of [TLSDataParams].  The function
    pointers are the operations of the class [NetworkOps], the mbedTLS contexts are in the
    environment. *)
Record Network := mkNetwork {
  tlsConnectParams : TLSConnectParams;
  tls_flags : Z
}.

(** [struct _Client] *)
Record AWS_IoT_Client := mkClient {
  pingTimer : Timer;
  reconnectDelayTimer : Timer;
  clientStatus : ClientStatus;
  clientData : ClientData;
  networkStack : Network
}.

(** A client pointer handed to the API: NULL or the client of the state. *)
Inductive client_ptr : Set := pNULL | pCLIENT.

#[export] Instance client_ptr_eq_dec : EqDecision client_ptr.
Proof. solve_decision. Defined.

(** ** Assignments to fields *)

(** [pClient->...->f = v]: one functional update per field the code assigns. *)
Module Export Fields.
Definition set_topicName (v : option bytes) (r : MessageHandlers) : MessageHandlers :=
  mkMessageHandlers v (r.(mh_topicNameLen)) (r.(mh_qos)) (r.(pApplicationHandler))
    (r.(pApplicationHandlerData)).
Definition set_mh_topicNameLen (v : Z) (r : MessageHandlers) : MessageHandlers :=
  mkMessageHandlers (r.(topicName)) v (r.(mh_qos)) (r.(pApplicationHandler))
    (r.(pApplicationHandlerData)).
Definition set_mh_qos (v : QoS) (r : MessageHandlers) : MessageHandlers :=
  mkMessageHandlers (r.(topicName)) (r.(mh_topicNameLen)) v (r.(pApplicationHandler))
    (r.(pApplicationHandlerData)).
Definition set_pApplicationHandler (v : option fnptr) (r : MessageHandlers) : MessageHandlers :=
  mkMessageHandlers (r.(topicName)) (r.(mh_topicNameLen)) (r.(mh_qos)) v
    (r.(pApplicationHandlerData)).
Definition set_pApplicationHandlerData (v : voidptr) (r : MessageHandlers) : MessageHandlers :=
  mkMessageHandlers (r.(topicName)) (r.(mh_topicNameLen)) (r.(mh_qos)) (r.(pApplicationHandler)) v.

Definition set_pingTimer (v : Timer) (r : AWS_IoT_Client) : AWS_IoT_Client :=
  mkClient v (r.(reconnectDelayTimer)) (r.(clientStatus)) (r.(clientData)) (r.(networkStack)).
Definition set_reconnectDelayTimer (v : Timer) (r : AWS_IoT_Client) : AWS_IoT_Client :=
  mkClient (r.(pingTimer)) v (r.(clientStatus)) (r.(clientData)) (r.(networkStack)).
Definition set_clientStatus (v : ClientStatus) (r : AWS_IoT_Client) : AWS_IoT_Client :=
  mkClient (r.(pingTimer)) (r.(reconnectDelayTimer)) v (r.(clientData)) (r.(networkStack)).
Definition set_clientData (v : ClientData) (r : AWS_IoT_Client) : AWS_IoT_Client :=
  mkClient (r.(pingTimer)) (r.(reconnectDelayTimer)) (r.(clientStatus)) v (r.(networkStack)).
Definition set_networkStack (v : Network) (r : AWS_IoT_Client) : AWS_IoT_Client :=
  mkClient (r.(pingTimer)) (r.(reconnectDelayTimer)) (r.(clientStatus)) (r.(clientData)) v.

Definition set_clientState (v : ClientState) (c : AWS_IoT_Client) : AWS_IoT_Client :=
  set_clientStatus (mkClientStatus v (c.(clientStatus).(isPingOutstanding))
    (c.(clientStatus).(isAutoReconnectEnabled))) c.
Definition set_isPingOutstanding (v : bool) (c : AWS_IoT_Client) : AWS_IoT_Client :=
  set_clientStatus (mkClientStatus (c.(clientStatus).(clientState)) v
    (c.(clientStatus).(isAutoReconnectEnabled))) c.
Definition set_isAutoReconnectEnabled (v : bool) (c : AWS_IoT_Client) : AWS_IoT_Client :=
  set_clientStatus (mkClientStatus (c.(clientStatus).(clientState))
    (c.(clientStatus).(isPingOutstanding)) v) c.

Definition set_nextPacketId (v : Z) (c : AWS_IoT_Client) : AWS_IoT_Client :=
  set_clientData (mkClientData v (c.(clientData).(packetTimeoutMs))
    (c.(clientData).(commandTimeoutMs)) (c.(clientData).(keepAliveInterval))
    (c.(clientData).(currentReconnectWaitInterval))
    (c.(clientData).(counterNetworkDisconnected)) (c.(clientData).(writeBufSize))
    (c.(clientData).(readBufSize)) (c.(clientData).(writeBuf)) (c.(clientData).(readBuf))
    (c.(clientData).(isBlockOnThreadLockEnabled)) (c.(clientData).(options))
    (c.(clientData).(messageHandlers)) (c.(clientData).(disconnectHandler))
    (c.(clientData).(disconnectHandlerData))) c.
Definition set_packetTimeoutMs (v : Z) (c : AWS_IoT_Client) : AWS_IoT_Client :=
  set_clientData (mkClientData (c.(clientData).(nextPacketId)) v
    (c.(clientData).(commandTimeoutMs)) (c.(clientData).(keepAliveInterval))
    (c.(clientData).(currentReconnectWaitInterval))
    (c.(clientData).(counterNetworkDisconnected)) (c.(clientData).(writeBufSize))
    (c.(clientData).(readBufSize)) (c.(clientData).(writeBuf)) (c.(clientData).(readBuf))
    (c.(clientData).(isBlockOnThreadLockEnabled)) (c.(clientData).(options))
    (c.(clientData).(messageHandlers)) (c.(clientData).(disconnectHandler))
    (c.(clientData).(disconnectHandlerData))) c.
Definition set_commandTimeoutMs (v : Z) (c : AWS_IoT_Client) : AWS_IoT_Client :=
  set_clientData (mkClientData (c.(clientData).(nextPacketId))
    (c.(clientData).(packetTimeoutMs)) v (c.(clientData).(keepAliveInterval))
    (c.(clientData).(currentReconnectWaitInterval))
    (c.(clientData).(counterNetworkDisconnected)) (c.(clientData).(writeBufSize))
    (c.(clientData).(readBufSize)) (c.(clientData).(writeBuf)) (c.(clientData).(readBuf))
    (c.(clientData).(isBlockOnThreadLockEnabled)) (c.(clientData).(options))
    (c.(clientData).(messageHandlers)) (c.(clientData).(disconnectHandler))
    (c.(clientData).(disconnectHandlerData))) c.
Definition set_keepAliveInterval (v : Z) (c : AWS_IoT_Client) : AWS_IoT_Client :=
  set_clientData (mkClientData (c.(clientData).(nextPacketId))
    (c.(clientData).(packetTimeoutMs)) (c.(clientData).(commandTimeoutMs)) v
    (c.(clientData).(currentReconnectWaitInterval))
    (c.(clientData).(counterNetworkDisconnected)) (c.(clientData).(writeBufSize))
    (c.(clientData).(readBufSize)) (c.(clientData).(writeBuf)) (c.(clientData).(readBuf))
    (c.(clientData).(isBlockOnThreadLockEnabled)) (c.(clientData).(options))
    (c.(clientData).(messageHandlers)) (c.(clientData).(disconnectHandler))
    (c.(clientData).(disconnectHandlerData))) c.
Definition set_currentReconnectWaitInterval (v : Z) (c : AWS_IoT_Client) : AWS_IoT_Client :=
  set_clientData (mkClientData (c.(clientData).(nextPacketId))
    (c.(clientData).(packetTimeoutMs)) (c.(clientData).(commandTimeoutMs))
    (c.(clientData).(keepAliveInterval)) v (c.(clientData).(counterNetworkDisconnected))
    (c.(clientData).(writeBufSize)) (c.(clientData).(readBufSize)) (c.(clientData).(writeBuf))
    (c.(clientData).(readBuf)) (c.(clientData).(isBlockOnThreadLockEnabled))
    (c.(clientData).(options)) (c.(clientData).(messageHandlers))
    (c.(clientData).(disconnectHandler)) (c.(clientData).(disconnectHandlerData))) c.
Definition set_counterNetworkDisconnected (v : Z) (c : AWS_IoT_Client) : AWS_IoT_Client :=
  set_clientData (mkClientData (c.(clientData).(nextPacketId))
    (c.(clientData).(packetTimeoutMs)) (c.(clientData).(commandTimeoutMs))
    (c.(clientData).(keepAliveInterval)) (c.(clientData).(currentReconnectWaitInterval)) v
    (c.(clientData).(writeBufSize)) (c.(clientData).(readBufSize)) (c.(clientData).(writeBuf))
    (c.(clientData).(readBuf)) (c.(clientData).(isBlockOnThreadLockEnabled))
    (c.(clientData).(options)) (c.(clientData).(messageHandlers))
    (c.(clientData).(disconnectHandler)) (c.(clientData).(disconnectHandlerData))) c.
Definition set_writeBufSize (v : Z) (c : AWS_IoT_Client) : AWS_IoT_Client :=
  set_clientData (mkClientData (c.(clientData).(nextPacketId))
    (c.(clientData).(packetTimeoutMs)) (c.(clientData).(commandTimeoutMs))
    (c.(clientData).(keepAliveInterval)) (c.(clientData).(currentReconnectWaitInterval))
    (c.(clientData).(counterNetworkDisconnected)) v (c.(clientData).(readBufSize))
    (c.(clientData).(writeBuf)) (c.(clientData).(readBuf))
    (c.(clientData).(isBlockOnThreadLockEnabled)) (c.(clientData).(options))
    (c.(clientData).(messageHandlers)) (c.(clientData).(disconnectHandler))
    (c.(clientData).(disconnectHandlerData))) c.
Definition set_readBufSize (v : Z) (c : AWS_IoT_Client) : AWS_IoT_Client :=
  set_clientData (mkClientData (c.(clientData).(nextPacketId))
    (c.(clientData).(packetTimeoutMs)) (c.(clientData).(commandTimeoutMs))
    (c.(clientData).(keepAliveInterval)) (c.(clientData).(currentReconnectWaitInterval))
    (c.(clientData).(counterNetworkDisconnected)) (c.(clientData).(writeBufSize)) v
    (c.(clientData).(writeBuf)) (c.(clientData).(readBuf))
    (c.(clientData).(isBlockOnThreadLockEnabled)) (c.(clientData).(options))
    (c.(clientData).(messageHandlers)) (c.(clientData).(disconnectHandler))
    (c.(clientData).(disconnectHandlerData))) c.
Definition set_writeBuf (v : bytes) (c : AWS_IoT_Client) : AWS_IoT_Client :=
  set_clientData (mkClientData (c.(clientData).(nextPacketId))
    (c.(clientData).(packetTimeoutMs)) (c.(clientData).(commandTimeoutMs))
    (c.(clientData).(keepAliveInterval)) (c.(clientData).(currentReconnectWaitInterval))
    (c.(clientData).(counterNetworkDisconnected)) (c.(clientData).(writeBufSize))
    (c.(clientData).(readBufSize)) v (c.(clientData).(readBuf))
    (c.(clientData).(isBlockOnThreadLockEnabled)) (c.(clientData).(options))
    (c.(clientData).(messageHandlers)) (c.(clientData).(disconnectHandler))
    (c.(clientData).(disconnectHandlerData))) c.
Definition set_readBuf (v : bytes) (c : AWS_IoT_Client) : AWS_IoT_Client :=
  set_clientData (mkClientData (c.(clientData).(nextPacketId))
    (c.(clientData).(packetTimeoutMs)) (c.(clientData).(commandTimeoutMs))
    (c.(clientData).(keepAliveInterval)) (c.(clientData).(currentReconnectWaitInterval))
    (c.(clientData).(counterNetworkDisconnected)) (c.(clientData).(writeBufSize))
    (c.(clientData).(readBufSize)) (c.(clientData).(writeBuf)) v
    (c.(clientData).(isBlockOnThreadLockEnabled)) (c.(clientData).(options))
    (c.(clientData).(messageHandlers)) (c.(clientData).(disconnectHandler))
    (c.(clientData).(disconnectHandlerData))) c.
Definition set_isBlockOnThreadLockEnabled (v : bool) (c : AWS_IoT_Client) : AWS_IoT_Client :=
  set_clientData (mkClientData (c.(clientData).(nextPacketId))
    (c.(clientData).(packetTimeoutMs)) (c.(clientData).(commandTimeoutMs))
    (c.(clientData).(keepAliveInterval)) (c.(clientData).(currentReconnectWaitInterval))
    (c.(clientData).(counterNetworkDisconnected)) (c.(clientData).(writeBufSize))
    (c.(clientData).(readBufSize)) (c.(clientData).(writeBuf)) (c.(clientData).(readBuf)) v
    (c.(clientData).(options)) (c.(clientData).(messageHandlers))
    (c.(clientData).(disconnectHandler)) (c.(clientData).(disconnectHandlerData))) c.
Definition set_options (v : IoT_Client_Connect_Params) (c : AWS_IoT_Client) : AWS_IoT_Client :=
  set_clientData (mkClientData (c.(clientData).(nextPacketId))
    (c.(clientData).(packetTimeoutMs)) (c.(clientData).(commandTimeoutMs))
    (c.(clientData).(keepAliveInterval)) (c.(clientData).(currentReconnectWaitInterval))
    (c.(clientData).(counterNetworkDisconnected)) (c.(clientData).(writeBufSize))
    (c.(clientData).(readBufSize)) (c.(clientData).(writeBuf)) (c.(clientData).(readBuf))
    (c.(clientData).(isBlockOnThreadLockEnabled)) v (c.(clientData).(messageHandlers))
    (c.(clientData).(disconnectHandler)) (c.(clientData).(disconnectHandlerData))) c.
Definition set_messageHandlers (v : list MessageHandlers) (c : AWS_IoT_Client) : AWS_IoT_Client :=
  set_clientData (mkClientData (c.(clientData).(nextPacketId))
    (c.(clientData).(packetTimeoutMs)) (c.(clientData).(commandTimeoutMs))
    (c.(clientData).(keepAliveInterval)) (c.(clientData).(currentReconnectWaitInterval))
    (c.(clientData).(counterNetworkDisconnected)) (c.(clientData).(writeBufSize))
    (c.(clientData).(readBufSize)) (c.(clientData).(writeBuf)) (c.(clientData).(readBuf))
    (c.(clientData).(isBlockOnThreadLockEnabled)) (c.(clientData).(options)) v
    (c.(clientData).(disconnectHandler)) (c.(clientData).(disconnectHandlerData))) c.
Definition set_disconnectHandler (v : option fnptr) (c : AWS_IoT_Client) : AWS_IoT_Client :=
  set_clientData (mkClientData (c.(clientData).(nextPacketId))
    (c.(clientData).(packetTimeoutMs)) (c.(clientData).(commandTimeoutMs))
    (c.(clientData).(keepAliveInterval)) (c.(clientData).(currentReconnectWaitInterval))
    (c.(clientData).(counterNetworkDisconnected)) (c.(clientData).(writeBufSize))
    (c.(clientData).(readBufSize)) (c.(clientData).(writeBuf)) (c.(clientData).(readBuf))
    (c.(clientData).(isBlockOnThreadLockEnabled)) (c.(clientData).(options))
    (c.(clientData).(messageHandlers)) v (c.(clientData).(disconnectHandlerData))) c.
Definition set_disconnectHandlerData (v : voidptr) (c : AWS_IoT_Client) : AWS_IoT_Client :=
  set_clientData (mkClientData (c.(clientData).(nextPacketId))
    (c.(clientData).(packetTimeoutMs)) (c.(clientData).(commandTimeoutMs))
    (c.(clientData).(keepAliveInterval)) (c.(clientData).(currentReconnectWaitInterval))
    (c.(clientData).(counterNetworkDisconnected)) (c.(clientData).(writeBufSize))
    (c.(clientData).(readBufSize)) (c.(clientData).(writeBuf)) (c.(clientData).(readBuf))
    (c.(clientData).(isBlockOnThreadLockEnabled)) (c.(clientData).(options))
    (c.(clientData).(messageHandlers)) (c.(clientData).(disconnectHandler)) v) c.
End Fields.
