(* ===== verification/Wire.v ===== *)
(** * The byte-level encoders and decoders of src/aws_iot_mqtt_client_common_internal.c

    Remaining lengths, 16-bit integers, characters, length-prefixed strings and the fixed header.
    A writer takes the buffer and the offset its [unsigned char **pptr] points to and gives the
    buffer and the advanced offset; a reader gives the value and the advanced offset. *)

From S2P Require Export Types.

Definition MAX_NO_OF_REMAINING_LENGTH_BYTES : Z := 4.

(** ** Remaining length *)

Definition aws_iot_mqtt_internal_write_len_to_buffer (m : bytes) (buf length : Z)
    : outcome (Z * bytes) :=
  oloop 5 (fun '(outLen, length, m) =>
    let encodedByte := u8 (length mod 128) in
    let length := length / 128 in
    let encodedByte := if 0 <? length then Z.lor encodedByte 128 else encodedByte in
    let! m := store m (buf + outLen) [encodedByte] in
    let outLen := outLen + 1 in
    if 0 <? length then Done (inl (outLen, length, m)) else Done (inr (outLen, m)))
  (0, length, m).

(** One round of the decoder's loop: the [unsigned char *buf], [multiplier], [len], [*decodedLen]. *)
Definition decode_digit (m : bytes) (readBytesLen : Z) (x : Z * Z * Z * Z)
    : outcome (Z * Z * Z * Z + IoT_Error_t * Z * Z) :=
  let '(buf, multiplier, len, decodedLen) := x in
  let len := u32 (len + 1) in
  if MAX_NO_OF_REMAINING_LENGTH_BYTES <? len
  then Done (inr (MQTT_DECODE_REMAINING_LENGTH_ERROR, decodedLen, readBytesLen))
  else
    let! encodedByte := load m buf in
    let buf := buf + 1 in
    let decodedLen := u32 (decodedLen + Z.land encodedByte 127 * multiplier) in
    let multiplier := u32 (multiplier * 128) in
    if negb (Z.land encodedByte 128 =? 0)
    then Done (inl (buf, multiplier, len, decodedLen))
    else Done (inr (SUCCESS, decodedLen, len)).

(** Returns the code, [*decodedLen] and [*readBytesLen] ([readBytesLen] is its value before). *)
Definition aws_iot_mqtt_internal_decode_remaining_length_from_buffer
    (m : bytes) (buf readBytesLen : Z) : outcome (IoT_Error_t * Z * Z) :=
  oloop 5 (decode_digit m readBytesLen) (buf, 1, 0, 0).

Definition aws_iot_mqtt_internal_get_final_packet_length_from_remaining_length (rem_len : Z) : Z :=
  let rem_len := u32 (rem_len + 1) in
  if rem_len <? 128 then u32 (rem_len + 1)
  else if rem_len <? 16384 then u32 (rem_len + 2)
  else if rem_len <? 2097152 then u32 (rem_len + 3)
  else u32 (rem_len + 4).

(** ** Integers, characters and strings *)

Definition aws_iot_mqtt_internal_read_uint16_t (m : bytes) (ptr : Z) : outcome (Z * Z) :=
  let! firstByte := load m ptr in
  let! secondByte := load m (ptr + 1) in
  Done (u16 (secondByte + 256 * firstByte), ptr + 2).

Definition aws_iot_mqtt_internal_write_uint_16 (m : bytes) (ptr anInt : Z) : outcome (bytes * Z) :=
  let! m := store m ptr [u8 (anInt / 256)] in
  let ptr := ptr + 1 in
  let! m := store m ptr [u8 (anInt mod 256)] in
  Done (m, ptr + 1).

Definition aws_iot_mqtt_internal_read_char (m : bytes) (ptr : Z) : outcome (Z * Z) :=
  let! c := load m ptr in
  Done (c, ptr + 1).

Definition aws_iot_mqtt_internal_write_char (m : bytes) (ptr c : Z) : outcome (bytes * Z) :=
  let! m := store m ptr [c] in
  Done (m, ptr + 1).

(** [memcpy(dst, src, n)] from the start of the object [src] points to. *)
Definition memcpy (m : bytes) (dst : Z) (src : option bytes) (n : Z) : outcome bytes :=
  match src with
  | None => Undef
  | Some s => let! d := load_list s 0 n in store m dst d
  end.

Definition aws_iot_mqtt_internal_write_utf8_string
    (m : bytes) (ptr : Z) (string : option bytes) (stringLen : Z) : outcome (bytes * Z) :=
  let! (m, ptr) := aws_iot_mqtt_internal_write_uint_16 m ptr stringLen in
  if 0 <? stringLen then
    let! m := memcpy m ptr string stringLen in
    Done (m, ptr + stringLen)
  else Done (m, ptr).

(** ** Fixed header *)

Definition aws_iot_mqtt_internal_init_header (pHeader : option Z) (message_type : MessageTypes)
    (qos : QoS) (dup retained : Z) : IoT_Error_t * option Z :=
  match pHeader with
  | None => (NULL_VALUE_ERROR, None)
  | Some _ =>
      let byte := 0 in
      let with_type (t : Z) :=
        let byte := MQTTHeader.set_type byte t in
        let byte := MQTTHeader.set_dup byte (if 1 =? dup then 1 else 0) in
        let byte :=
          if qos =? QOS0 then MQTTHeader.set_qos byte 0
          else if qos =? QOS1 then MQTTHeader.set_qos byte 1
          else MQTTHeader.set_qos byte 0 in
        let byte := MQTTHeader.set_retain byte (if 1 =? retained then 1 else 0) in
        (SUCCESS, Some byte) in
      match message_type with
      | UNKNOWN => (FAILURE, Some byte)
      | CONNECT => with_type 1
      | CONNACK => with_type 2
      | PUBLISH => with_type 3
      | PUBACK => with_type 4
      | PUBREC => with_type 5
      | PUBREL => with_type 6
      | PUBCOMP => with_type 7
      | SUBSCRIBE => with_type 8
      | SUBACK => with_type 9
      | UNSUBSCRIBE => with_type 10
      | UNSUBACK => with_type 11
      | PINGREQ => with_type 12
      | PINGRESP => with_type 13
      | DISCONNECT => with_type 14
      end
  end.

(** ** The MQTT 3.1.1 encodings (specification) *)

(** Section 2.2.3: base 128, least significant digit first, top bit set on all but the last. *)
Fixpoint remaining_length_digits (k : nat) (n : Z) : bytes :=
  match k with
  | O => []
  | S k' => if n <? 128 then [n] else (n mod 128 + 128) :: remaining_length_digits k' (n / 128)
  end.
Definition remaining_length (n : Z) : bytes := remaining_length_digits 5 n.

(** The largest remaining length four digits carry. *)
Definition MAX_REMAINING_LENGTH : Z := 268435455.

(** Section 1.5: big-endian 16-bit integers and length-prefixed strings. *)
Definition mqtt_uint16 (n : Z) : bytes := [n / 256; n mod 256].
Definition mqtt_string (s : bytes) : bytes := mqtt_uint16 (zlen s) ++ s.

(** Section 2.2: the first byte of a packet. *)
Definition mqtt_header (type : MessageTypes) (dup : Z) (qos : QoS) (retain : Z) : Z :=
  16 * MessageTypes_value type + 8 * dup + 2 * qos + retain.

Definition mqtt_packet (header : Z) (body : bytes) : bytes :=
  header :: remaining_length (zlen body) ++ body.

(** Writing bytes at a cursor: what every writer of this file amounts to. *)
Definition put (m : bytes) (ptr : Z) (d : bytes) : outcome (bytes * Z) :=
  let! m := store m ptr d in Done (m, ptr + zlen d).

(** ** Lemmas *)

Lemma put_put m ptr d1 d2 :
  0 <= ptr ->
  (let! (m, ptr) := put m ptr d1 in put m ptr d2) = put m ptr (d1 ++ d2).
Proof.
  intros Hp. unfold put. rewrite !obind_assoc. cbn [obind].
  rewrite <- store_app by done. rewrite obind_assoc.
  destruct (store m ptr d1); cbn [obind]; [|done..].
  destruct (store a (ptr + zlen d1) d2); cbn [obind]; [|done..].
  do 2 f_equal. zlia.
Qed.

Lemma put_bind {A} m ptr d1 d2 (k : bytes * Z -> outcome A) :
  0 <= ptr ->
  (let! (m, ptr) := put m ptr d1 in let! r := put m ptr d2 in k r) =
  (let! r := put m ptr (d1 ++ d2) in k r).
Proof.
  intros Hp. rewrite <- put_put by done. rewrite obind_assoc.
  destruct (put m ptr d1) as [[]| |]; done.
Qed.

Lemma write_char_put m ptr c : aws_iot_mqtt_internal_write_char m ptr c = put m ptr [c].
Proof. done. Qed.

Lemma write_uint_16_put m ptr n :
  0 <= ptr -> 0 <= n < 65536 ->
  aws_iot_mqtt_internal_write_uint_16 m ptr n = put m ptr (mqtt_uint16 n).
Proof.
  intros Hp Hn. unfold aws_iot_mqtt_internal_write_uint_16, mqtt_uint16, u8.
  rewrite Z.mod_small by (split; [apply Z.div_pos; lia|apply Z.div_lt_upper_bound; lia]).
  rewrite Zmod_mod.
  change [n / 256; n mod 256] with ([n / 256] ++ [n mod 256]).
  rewrite <- put_put by done. unfold put. rewrite !obind_assoc. done.
Qed.

Lemma write_utf8_string_put m ptr (string : option bytes) n s :
  0 <= ptr -> 0 <= n < 65536 ->
  (0 < n -> exists mem, string = Some mem /\ load_list mem 0 n = Done s) ->
  (n = 0 -> s = []) ->
  aws_iot_mqtt_internal_write_utf8_string m ptr string n = put m ptr (mqtt_string s).
Proof.
  intros Hp Hn Hs H0. unfold aws_iot_mqtt_internal_write_utf8_string, mqtt_string.
  rewrite write_uint_16_put by done.
  destruct (0 <? n) eqn:E.
  - destruct Hs as (mem & -> & Hl); [lia|]. cbn [memcpy]. rewrite Hl. cbn [obind].
    apply load_list_Done in Hl as (_ & _ & _ & <-).
    rewrite <- put_put by done.
    destruct (put m ptr (mqtt_uint16 (zlen s))) as [[]| |]; done.
  - rewrite H0, app_nil_r by lia. assert (n = 0) as -> by lia.
    change (zlen (@nil Z)) with 0.
    by destruct (put m ptr (mqtt_uint16 0)) as [[]| |].
Qed.

Lemma read_char_app pre b post :
  aws_iot_mqtt_internal_read_char (pre ++ b :: post) (zlen pre) = Done (b, zlen pre + 1).
Proof. unfold aws_iot_mqtt_internal_read_char. by rewrite load_app. Qed.

Lemma read_uint16_app pre n post :
  0 <= n < 65536 ->
  aws_iot_mqtt_internal_read_uint16_t (pre ++ mqtt_uint16 n ++ post) (zlen pre)
  = Done (n, zlen pre + 2).
Proof.
  intros Hn. unfold aws_iot_mqtt_internal_read_uint16_t, mqtt_uint16. cbn [app].
  rewrite load_app. cbn [obind].
  replace (pre ++ n / 256 :: n mod 256 :: post) with ((pre ++ [n / 256]) ++ n mod 256 :: post)
    by (by rewrite <- app_assoc).
  replace (zlen pre + 1) with (zlen (pre ++ [n / 256])) by zlia.
  rewrite load_app. cbn [obind]. do 2 f_equal. rewrite u16_id.
  - pose proof (Z.div_mod n 256). lia.
  - pose proof (Z.div_mod n 256). pose proof (Z.mod_pos_bound n 256). lia.
Qed.

(** *** Remaining lengths *)

Lemma land_127 z : Z.land z 127 = z mod 128.
Proof. change 127 with (Z.ones 7). by rewrite Z.land_ones. Qed.

Lemma lor_128 d : 0 <= d < 128 -> Z.lor d 128 = d + 128.
Proof.
  intros Hd. apply Z.eqb_eq.
  assert (H : negb (d <? 128) || (Z.lor d 128 =? d + 128) = true).
  { by apply (byte_cases (fun d => negb (d <? 128) || (Z.lor d 128 =? d + 128))); [|lia]. }
  destruct (d <? 128) eqn:E; [done|lia].
Qed.

Lemma land_128_zero z : 0 <= z < 256 -> (Z.land z 128 =? 0) = (z <? 128).
Proof.
  intros Hz. apply eqb_prop.
  by apply (byte_cases (fun z => eqb (Z.land z 128 =? 0) (z <? 128))).
Qed.

Lemma remaining_length_digits_length k n :
  0 <= n -> 0 <= zlen (remaining_length_digits k n) <= Z.of_nat k.
Proof.
  revert n. induction k as [|k IH]; intros n Hn; cbn [remaining_length_digits]; [zlia|].
  destruct (n <? 128); [zlia|]. rewrite zlen_cons.
  specialize (IH (n / 128)). assert (0 <= n / 128) by (apply Z.div_pos; lia). lia.
Qed.

(** The four ranges of table 2.4. *)
Lemma remaining_length_size n :
  0 <= n < 34359738368 ->
  zlen (remaining_length n) =
    if n <? 128 then 1 else if n <? 16384 then 2 else if n <? 2097152 then 3
    else if n <? 268435456 then 4 else 5.
Proof.
  intros Hn. unfold remaining_length. cbn [remaining_length_digits].
  rewrite !Z.div_div by lia.
  assert (Hlt : forall d b, 0 < d -> (n / d <? b) = (n <? d * b)).
  { intros d b Hd. apply eq_true_iff_eq. rewrite !Z.ltb_lt. split; intros.
    - pose proof (Z.mod_pos_bound n d Hd). pose proof (Z.div_mod n d ltac:(lia)).
      assert (d * (n / d) <= d * (b - 1)) by (apply Z.mul_le_mono_nonneg_l; lia). lia.
    - apply Z.div_lt_upper_bound; lia. }
  rewrite !Hlt by lia.
  change (128 * 128) with 16384. change (16384 * 128) with 2097152.
  change (2097152 * 128) with 268435456. change (268435456 * 128) with 34359738368.
  destruct (n <? 128); [done|]. destruct (n <? 16384); [done|].
  destruct (n <? 2097152); [done|]. destruct (n <? 268435456); [done|].
  destruct (n <? 34359738368) eqn:E; [done|lia].
Qed.

Lemma write_len_spec m buf n :
  0 <= buf -> 0 <= n < 4294967296 ->
  aws_iot_mqtt_internal_write_len_to_buffer m buf n =
    let! m' := store m buf (remaining_length n) in Done (zlen (remaining_length n), m').
Proof.
  intros Hb Hn. unfold aws_iot_mqtt_internal_write_len_to_buffer, remaining_length.
  set (body := fun _ => _).
  assert (H : forall k outLen n m,
    0 <= outLen -> 0 <= n -> n < 128 ^ Z.of_nat k -> (0 < k)%nat ->
    oloop k body (outLen, n, m) =
      let! m' := store m (buf + outLen) (remaining_length_digits k n) in
      Done (outLen + zlen (remaining_length_digits k n), m')).
  { intros k. induction k as [|k IH]; intros outLen n0 m0 Ho Hn0 Hk Hk0; [lia|].
    cbn [oloop remaining_length_digits]. unfold body at 1.
    pose proof (Z.mod_pos_bound n0 128). pose proof (Z.div_mod n0 128).
    assert (0 <= n0 / 128) by (apply Z.div_pos; lia).
    rewrite u8_id by lia.
    destruct (n0 <? 128) eqn:E.
    - assert (n0 / 128 = 0) as Hq by (apply Z.div_small; lia). rewrite Hq.
      rewrite Z.mod_small by lia. change (0 <? 0) with false. cbn match.
      rewrite obind_assoc. by destruct (store m0 (buf + outLen) [n0]).
    - assert (0 < n0 / 128) by (pose proof (Z.div_le_mono 128 n0 128); lia).
      destruct (0 <? n0 / 128) eqn:E2; [|lia]. rewrite lor_128 by lia.
      rewrite obind_assoc. cbn [obind].
      assert (n0 / 128 < 128 ^ Z.of_nat k).
      { apply Z.div_lt_upper_bound; [lia|]. rewrite Nat2Z.inj_succ, Z.pow_succ_r in Hk by lia. lia. }
      change (?a :: remaining_length_digits k ?b) with ([a] ++ remaining_length_digits k b).
      rewrite <- store_app by lia. rewrite obind_assoc.
      destruct (store m0 (buf + outLen) _); cbn [obind]; [|done..].
      assert (0 < k)%nat by (destruct k; [change (128 ^ Z.of_nat 0) with 1 in *|]; lia).
      rewrite IH by lia.
      replace (buf + (outLen + 1)) with (buf + outLen + zlen [n0 mod 128 + 128]) by zlia.
      destruct (store a _ _); cbn [obind]; [|done..]. do 2 f_equal. zlia. }
  rewrite H by (change (128 ^ Z.of_nat 5) with 34359738368; lia). rewrite !Z.add_0_r, Z.add_0_l. done.
Qed.

(** The decoder, digit by digit. *)
Lemma decode_digit_step m r0 p j acc b :
  load m p = Done b -> is_byte b -> 0 <= j < 4 -> 0 <= acc < 128 ^ j ->
  decode_digit m r0 (p, 128 ^ j, j, acc) =
    Done (let acc' := acc + b mod 128 * 128 ^ j in
          if b <? 128 then inr (SUCCESS, acc', j + 1)
          else inl (p + 1, 128 ^ (j + 1), j + 1, acc')) /\
  0 <= acc + b mod 128 * 128 ^ j < 128 ^ (j + 1).
Proof.
  unfold is_byte. intros Hl Hb Hj Hacc. unfold decode_digit, MAX_NO_OF_REMAINING_LENGTH_BYTES.
  pose proof (Z.mod_pos_bound b 128 eq_refl).
  assert (Hp : 128 ^ (j + 1) = 128 * 128 ^ j) by (rewrite Z.pow_add_r; lia).
  assert (Hmax : 128 * 128 ^ j <= 268435456).
  { rewrite <- Hp. change 268435456 with (128 ^ 4). apply Z.pow_le_mono_r; lia. }
  assert (Hs : 0 <= b mod 128 * 128 ^ j <= 127 * 128 ^ j) by nia.
  rewrite (u32_id (j + 1)) by lia. destruct (4 <? j + 1) eqn:E; [lia|].
  rewrite Hl. cbn [obind]. rewrite land_127, land_128_zero by done.
  rewrite !u32_id by lia. split; [|lia].
  destruct (b <? 128); cbn [negb]; [done|]. res_eq. lia.
Qed.

Lemma decode_done m r0 p acc :
  decode_digit m r0 (p, 128 ^ 4, 4, acc) =
    Done (inr (MQTT_DECODE_REMAINING_LENGTH_ERROR, acc, r0)).
Proof. done. Qed.

(** Decoding what was encoded. *)
Lemma decode_digits_spec m r0 k : forall j pre n acc post,
  (0 < k)%nat -> j + Z.of_nat k = 4 -> 0 <= n < 128 ^ Z.of_nat k -> 0 <= j ->
  0 <= acc < 128 ^ j -> m = pre ++ remaining_length_digits k n ++ post ->
  oloop (Datatypes.S k) (decode_digit m r0) (zlen pre, 128 ^ j, j, acc) =
    Done (SUCCESS, acc + 128 ^ j * n, j + zlen (remaining_length_digits k n)).
Proof.
  induction k as [|k IH]; intros j pre n acc post Hk Hjk Hn Hj Hacc Hm; [lia|].
  assert (Hpk : 128 ^ Z.of_nat (Datatypes.S k) = 128 * 128 ^ Z.of_nat k)
    by (rewrite Nat2Z.inj_succ, Z.pow_succ_r; lia).
  assert (Hpj : 128 ^ (j + 1) = 128 * 128 ^ j) by (rewrite Z.pow_add_r; lia).
  cbn [remaining_length_digits] in *.
  pose proof (Z.mod_pos_bound n 128 eq_refl). pose proof (Z.div_mod n 128 ltac:(lia)).
  change (oloop (Datatypes.S (Datatypes.S k)) ?f ?x) with
    (let! r := f x in match r with inl x' => oloop (Datatypes.S k) f x' | inr a => Done a end).
  destruct (n <? 128) eqn:E; cbn [app] in Hm.
  - destruct (decode_digit_step m r0 (zlen pre) j acc n) as [-> _];
      [rewrite Hm; apply load_app|unfold is_byte; lia|lia|lia|].
    rewrite E, Z.mod_small by lia. cbn [obind]. res_eq; zlia.
  - destruct (decode_digit_step m r0 (zlen pre) j acc (n mod 128 + 128)) as [-> Hacc'];
      [rewrite Hm; apply load_app|unfold is_byte; lia|lia|lia|].
    destruct (n mod 128 + 128 <? 128) eqn:E2; [lia|]. cbn [obind]. cbv zeta.
    assert (Hmod : (n mod 128 + 128) mod 128 = n mod 128).
    { replace (n mod 128 + 128) with (n mod 128 + 1 * 128) by lia. by rewrite Z.mod_add, Zmod_mod. }
    rewrite Hmod in *. assert (0 <= n / 128 < 128 ^ Z.of_nat k).
    { split; [apply Z.div_pos; lia|]. apply Z.div_lt_upper_bound; lia. }
    assert (0 < k)%nat by (destruct k; [change (128 ^ Z.of_nat 0) with 1 in *|]; lia).
    replace (zlen pre + 1) with (zlen (pre ++ [n mod 128 + 128])) by zlia.
    rewrite (IH (j + 1) _ (n / 128) _ post) by (rewrite <- ?app_assoc; (lia || exact Hm)).
    rewrite Hpj. res_eq; [nia|zlia].
Qed.

Lemma decode_len_spec pre n post r0 :
  0 <= n <= MAX_REMAINING_LENGTH ->
  aws_iot_mqtt_internal_decode_remaining_length_from_buffer
    (pre ++ remaining_length n ++ post) (zlen pre) r0
  = Done (SUCCESS, n, zlen (remaining_length n)).
Proof.
  intros Hn. unfold MAX_REMAINING_LENGTH in Hn.
  assert (Hd : remaining_length n = remaining_length_digits 4 n).
  { unfold remaining_length. cbn [remaining_length_digits].
    destruct (n <? 128) eqn:?; [done|]. destruct (n / 128 <? 128) eqn:?; [done|].
    destruct (n / 128 / 128 <? 128) eqn:?; [done|].
    destruct (n / 128 / 128 / 128 <? 128) eqn:E; [done|].
    apply Z.ltb_ge in E. Z.to_euclidean_division_equations. lia. }
  rewrite Hd. unfold aws_iot_mqtt_internal_decode_remaining_length_from_buffer.
  change 1 with (128 ^ 0) at 1.
  rewrite (decode_digits_spec _ r0 4 0 pre n 0 post); try done; try lia. 
  res_eq; lia.
Qed.

(** Decoding anything: four readable bytes are enough for the decoder to finish with either
    outcome, and the value it gives has at most 28 bits. *)
Definition decoded (m : bytes) (p r0 : Z) (j k : Z) (r : IoT_Error_t * Z * Z) : Prop :=
  let '(rc, v, len) := r in
  0 <= v <= MAX_REMAINING_LENGTH /\
  ((rc = SUCCESS /\ j + 1 <= len <= j + k /\
    (forall i, 0 <= i < len - j - 1 -> exists b, load m (p + i) = Done b /\ 128 <= b) /\
    (exists b, load m (p + len - j - 1) = Done b /\ b < 128)) \/
   (rc = MQTT_DECODE_REMAINING_LENGTH_ERROR /\ len = r0 /\
    forall i, 0 <= i < k -> exists b, load m (p + i) = Done b /\ 128 <= b)).

Lemma decode_digits_total m r0 k : forall j p acc,
  Forall is_byte m -> 0 <= p -> p + Z.of_nat k <= zlen m ->
  j + Z.of_nat k = 4 -> 0 <= j -> 0 <= acc < 128 ^ j ->
  exists r, oloop (Datatypes.S k) (decode_digit m r0) (p, 128 ^ j, j, acc) = Done r /\
            decoded m p r0 j (Z.of_nat k) r.
Proof.
  induction k as [|k IH]; intros j p acc Hm Hp Hl Hjk Hj Hacc.
  { assert (j = 4) as -> by lia. eexists. split; [reflexivity|].
    split; [change (128 ^ 4) with 268435456 in Hacc; unfold MAX_REMAINING_LENGTH; lia|].
    right. split; [done|]. split; [done|]. lia. }
  destruct (load_in m p) as [b Eb]; [lia|].
  assert (Hb : is_byte b).
  { apply load_Done in Eb as [_ E]. rewrite Forall_lookup in Hm. by apply (Hm _ _ E). }
  destruct (decode_digit_step m r0 p j acc b) as [Hs Hacc']; [done|done|lia|lia|].
  change (oloop (Datatypes.S (Datatypes.S k)) ?f ?x) with
    (let! r := f x in match r with inl x' => oloop (Datatypes.S k) f x' | inr a => Done a end).
  rewrite Hs. clear Hs. destruct (b <? 128) eqn:E; cbn [obind]; cbv zeta.
  - eexists. split; [done|]. split.
    { assert (128 ^ (j + 1) <= 128 ^ 4) by (apply Z.pow_le_mono_r; lia).
      change (128 ^ 4) with 268435456 in *. unfold MAX_REMAINING_LENGTH. lia. }
    left. split; [done|]. split; [lia|]. split; [intros; lia|].
    exists b. split; [|lia]. by replace (p + (j + 1) - j - 1) with p by lia.
  - destruct (IH (j + 1) (p + 1) (acc + b mod 128 * 128 ^ j)) as ([[rc v] len] & -> & Hv & Hr);
      [done|lia..|].
    eexists. split; [done|]. split; [done|].
    assert (Hsh : forall n (Q : Z -> Prop), 
      (forall i, 0 <= i < n -> exists c, load m (p + 1 + i) = Done c /\ Q c) -> Q b ->
      forall i, 0 <= i < n + 1 -> exists c, load m (p + i) = Done c /\ Q c).
    { intros n Q HQ Qb i Hi. destruct (decide (i = 0)) as [-> |Hi0].
      - exists b. by rewrite Z.add_0_r.
      - replace (p + i) with (p + 1 + (i - 1)) by lia. apply HQ. lia. }
    destruct Hr as [(-> & Hlen & Hi & Hlast)|(-> & -> & Hi)]; [left|right]; split; try done.
    + split; [lia|]. split.
      * intros i Hi'. apply (Hsh _ (fun c => 128 <= c) Hi); lia.
      * by replace (p + len - j - 1) with (p + 1 + len - (j + 1) - 1) by lia.
    + split; [done|]. intros i Hi'. apply (Hsh _ (fun c => 128 <= c) Hi); lia.
Qed.


(** *** Packet lengths *)

Lemma final_packet_length_value n :
  0 <= n <= MAX_REMAINING_LENGTH ->
  1 + zlen (remaining_length n) + n
    <= aws_iot_mqtt_internal_get_final_packet_length_from_remaining_length n
    <= 2 + zlen (remaining_length n) + n.
Proof.
  unfold MAX_REMAINING_LENGTH, aws_iot_mqtt_internal_get_final_packet_length_from_remaining_length.
  intros Hn. rewrite remaining_length_size by lia. rewrite (u32_id (n + 1)) by lia.
  rewrite !u32_id by lia.
  repeat match goal with |- context [if ?b then _ else _] => destruct b eqn:? end; lia.
Qed.

Lemma mqtt_packet_zlen h body :
  zlen (mqtt_packet h body) = 1 + zlen (remaining_length (zlen body)) + zlen body.
Proof. unfold mqtt_packet. zlia. Qed.

(** *** Headers *)

Definition bit (z : Z) : Z := if 1 =? z then 1 else 0.

(** The type codes of the enumeration are the packet types of MQTT. *)
Lemma init_header_spec h0 t qos dup retained :
  t <> UNKNOWN ->
  aws_iot_mqtt_internal_init_header (Some h0) t qos dup retained =
    (SUCCESS, Some (mqtt_header t (bit dup) (if qos =? 1 then 1 else 0) (bit retained))).
Proof.
  intros Ht. unfold aws_iot_mqtt_internal_init_header, bit, QOS0, QOS1.
  destruct (Z.eqb_spec qos 0) as [->|Hq0].
  - destruct t, (1 =? dup), (1 =? retained); done || reflexivity.
  - destruct (qos =? 1), t, (1 =? dup), (1 =? retained); done || reflexivity.
Qed.

Lemma init_header_plain h t qos dup retained rc b :
  aws_iot_mqtt_internal_init_header h t qos dup retained = (rc, b) -> plain rc.
Proof.
  unfold aws_iot_mqtt_internal_init_header. destruct h; [|by intros [= <- _]].
  destruct t; intros [= <- _]; by split.
Qed.

(** Every header byte is the encoding of its four fields. *)
Lemma header_fields b :
  is_byte b ->
  b = 16 * MQTTHeader.type b + 8 * MQTTHeader.dup b + 2 * MQTTHeader.qos b + MQTTHeader.retain b /\
  0 <= MQTTHeader.type b < 16 /\ 0 <= MQTTHeader.dup b < 2 /\ 0 <= MQTTHeader.qos b < 4 /\
  0 <= MQTTHeader.retain b < 2.
Proof.
  intros Hb.
  pose (P b := (b =? 16 * MQTTHeader.type b + 8 * MQTTHeader.dup b + 2 * MQTTHeader.qos b
                      + MQTTHeader.retain b)
    && (0 <=? MQTTHeader.type b) && (MQTTHeader.type b <? 16)
    && (0 <=? MQTTHeader.dup b) && (MQTTHeader.dup b <? 2)
    && (0 <=? MQTTHeader.qos b) && (MQTTHeader.qos b <? 4)
    && (0 <=? MQTTHeader.retain b) && (MQTTHeader.retain b <? 2)).
  assert (H : P b = true) by (apply (byte_cases P); [by vm_compute|done]).
  unfold P in H. rewrite !andb_true_iff in H. lia.
Qed.

Lemma mqtt_header_fields t dup qos retain :
  t <> UNKNOWN -> 0 <= dup < 2 -> 0 <= qos < 4 -> 0 <= retain < 2 ->
  let b := mqtt_header t dup qos retain in
  is_byte b /\ MQTTHeader.type b = MessageTypes_value t /\ MQTTHeader.dup b = dup /\
  MQTTHeader.qos b = qos /\ MQTTHeader.retain b = retain.
Proof.
  intros Ht Hd Hq Hr b.
  assert (Hv : 1 <= MessageTypes_value t < 16) by (destruct t; simpl; done || lia).
  assert (Hb : is_byte b) by (unfold is_byte, b, mqtt_header; lia).
  pose proof (header_fields b Hb) as (He & ? & ? & ? & ?). split; [done|].
  unfold b, mqtt_header in *. lia.
Qed.

(** *** The decoder is total on four readable bytes *)

Lemma decode_len_total m p r0 :
  Forall is_byte m -> 0 <= p -> p + 4 <= zlen m ->
  exists r, aws_iot_mqtt_internal_decode_remaining_length_from_buffer m p r0 = Done r /\
            decoded m p r0 0 4 r.
Proof.
  intros. apply (decode_digits_total m r0 4 0 p 0); try done; lia.
Qed.

(** *** The loops finish within their fuel, whatever the memory holds *)

Lemma write_len_finishes m buf n :
  0 <= n < 4294967296 ->
  owp total (aws_iot_mqtt_internal_write_len_to_buffer m buf n) (fun '(k, m') => zlen m' = zlen m).
Proof.
  intros Hn. unfold aws_iot_mqtt_internal_write_len_to_buffer.
  apply (owp_oloop total (fun '(o, l, m1) => 0 <= o <= 4 /\ 0 <= l < 128 ^ (5 - o) /\ zlen m1 = zlen m)
    (fun '(o, _, _) => Z.to_nat (4 - o))).
  - change (128 ^ (5 - 0)) with 34359738368. lia.
  - intros [[o l] m1] (Ho & Hl & Hm). apply owp_bind.
    destruct (store m1 _ _) as [m2| |] eqn:E; simpl; [|done|unfold store in E; by destruct (_ && _)].
    apply store_zlen in E. destruct (Z.ltb_spec 0 (l / 128)) as [H|H]; simpl; [|lia].
    assert (Hp : 128 ^ (5 - o) = 128 * 128 ^ (5 - (o + 1))).
    { rewrite <- Z.pow_succ_r by lia. f_equal. lia. }
    assert (l / 128 < 128 ^ (5 - (o + 1))) by (apply Z.div_lt_upper_bound; lia).
    assert (o < 4).
    { destruct (decide (o = 4)) as [->|]; [|lia]. change (128 ^ (5 - (4 + 1))) with 1 in *. lia. }
    split; [|lia]. lia.
  - lia.
Qed.

Lemma decode_len_finishes m buf r0 :
  owp total (aws_iot_mqtt_internal_decode_remaining_length_from_buffer m buf r0)
    (fun '(rc, _, _) => plain rc).
Proof.
  unfold aws_iot_mqtt_internal_decode_remaining_length_from_buffer.
  apply (owp_oloop total (fun '(_, _, len, _) => 0 <= len <= 4) (fun '(_, _, len, _) => Z.to_nat (4 - len)));
    [lia| |lia].
  intros [[[b mu] len] d] Hlen. unfold decode_digit, MAX_NO_OF_REMAINING_LENGTH_BYTES.
  rewrite u32_id by lia. destruct (Z.ltb_spec 4 (len + 1)); [by split|].
  apply owp_bind. unfold load. destruct (0 <=? b); [|done]. destruct (m !! _); [|done]. simpl.
  destruct (negb _); simpl; [|by split]. lia.
Qed.

(** ** Properties *)

(** Encoding a remaining length with [aws_iot_mqtt_internal_write_len_to_buffer] and decoding it
    again gives the length back, together with the number of digits, which is the minimal one of
    MQTT 3.1.1 table 2.4 (1 to 4 bytes); exactly those bytes of the buffer change. *)
Theorem remaining_length_roundtrip (m : bytes) (buf n r0 : Z) :
  0 <= buf -> 0 <= n <= MAX_REMAINING_LENGTH -> buf + zlen (remaining_length n) <= zlen m ->
  exists outLen m',
    aws_iot_mqtt_internal_write_len_to_buffer m buf n = Done (outLen, m') /\
    outLen = (if n <? 128 then 1 else if n <? 16384 then 2 else if n <? 2097152 then 3 else 4) /\
    aws_iot_mqtt_internal_decode_remaining_length_from_buffer m' buf r0 = Done (SUCCESS, n, outLen) /\
    zlen m' = zlen m /\
    (forall i, ~ (buf <= Z.of_nat i < buf + outLen) -> m' !! i = m !! i).
Proof.
  unfold MAX_REMAINING_LENGTH. intros Hb Hn Hl.
  rewrite write_len_spec by lia.
  destruct (split_at m buf (zlen (remaining_length n))) as (pre & o & post & -> & <- & Ho);
    [lia|apply zlen_nonneg|lia|].
  rewrite store_split by done. do 2 eexists. split; [done|]. split; [|split; [|split]].
  - rewrite remaining_length_size by lia.
    repeat match goal with |- context [if ?b then _ else _] => destruct b eqn:? end; lia.
  - apply decode_len_spec. unfold MAX_REMAINING_LENGTH. lia.
  - zlia.
  - intros i Hi. unfold zlen in *. destruct (decide (i < length pre)%nat) as [H|H].
    + by rewrite !lookup_app_l.
    + rewrite !(lookup_app_r pre) by lia. rewrite !lookup_app_r by lia. f_equal. lia.
Qed.

Lemma remaining_length_roundtrip_witness :
  exists outLen m',
    aws_iot_mqtt_internal_write_len_to_buffer [0; 0; 0; 0] 1 321 = Done (outLen, m') /\
    outLen = (if 321 <? 128 then 1 else if 321 <? 16384 then 2 else if 321 <? 2097152 then 3 else 4) /\
    aws_iot_mqtt_internal_decode_remaining_length_from_buffer m' 1 0 = Done (SUCCESS, 321, outLen) /\
    zlen m' = zlen [0; 0; 0; 0] /\
    (forall i, ~ (1 <= Z.of_nat i < 1 + outLen) -> m' !! i = [0; 0; 0; 0] !! i).
Proof.
  apply (remaining_length_roundtrip [0; 0; 0; 0] 1 321 0); unfold MAX_REMAINING_LENGTH; try lia.
  vm_compute. discriminate.
Defined.

(** On any input of which four bytes are readable the decoder
    [aws_iot_mqtt_internal_decode_remaining_length_from_buffer] terminates without reading further
    and yields either SUCCESS with a value of at most 28 bits, after one to four digits of which
    exactly the last has its top bit clear, or MQTT_DECODE_REMAINING_LENGTH_ERROR with
    [*readBytesLen] untouched, precisely when the first four bytes all have the top bit set. *)
Theorem decode_remaining_length_total (m : bytes) (p r0 : Z) :
  Forall is_byte m -> 0 <= p -> p + 4 <= zlen m ->
  exists rc v len,
    aws_iot_mqtt_internal_decode_remaining_length_from_buffer m p r0 = Done (rc, v, len) /\
    0 <= v <= MAX_REMAINING_LENGTH /\
    ((rc = SUCCESS /\ 1 <= len <= 4 /\
      (forall i, 0 <= i < len - 1 -> exists b, load m (p + i) = Done b /\ 128 <= b) /\
      (exists b, load m (p + len - 1) = Done b /\ b < 128)) \/
     (rc = MQTT_DECODE_REMAINING_LENGTH_ERROR /\ len = r0 /\
      forall i, 0 <= i < 4 -> exists b, load m (p + i) = Done b /\ 128 <= b)).
Proof.
  intros Hm Hp Hl. destruct (decode_len_total m p r0 Hm Hp Hl) as ([[rc v] len] & E & Hv & H).
  exists rc, v, len. split; [done|]. split; [done|].
  destruct H as [(-> & H1 & H2 & H3)|H]; [left|right; done].
  split; [done|]. split; [lia|].
  rewrite Z.sub_0_r in *. split; [exact H2|]. exact H3.
Qed.

Lemma decode_remaining_length_total_witness :
  exists rc v len,
    aws_iot_mqtt_internal_decode_remaining_length_from_buffer [255; 255; 255; 255; 1] 0 7
      = Done (rc, v, len) /\
    0 <= v <= MAX_REMAINING_LENGTH /\
    ((rc = SUCCESS /\ 1 <= len <= 4 /\
      (forall i, 0 <= i < len - 1 -> exists b, load [255; 255; 255; 255; 1] (0 + i) = Done b /\ 128 <= b) /\
      (exists b, load [255; 255; 255; 255; 1] (0 + len - 1) = Done b /\ b < 128)) \/
     (rc = MQTT_DECODE_REMAINING_LENGTH_ERROR /\ len = 7 /\
      forall i, 0 <= i < 4 -> exists b, load [255; 255; 255; 255; 1] (0 + i) = Done b /\ 128 <= b)).
Proof.
  apply (decode_remaining_length_total [255; 255; 255; 255; 1] 0 7).
  - repeat constructor; lia.
  - lia.
  - vm_compute. discriminate.
Defined.

(** The length the serialisers test against the transmit buffer
    ([aws_iot_mqtt_internal_get_final_packet_length_from_remaining_length]) is never less than the
    length of the packet written, and exceeds it by at most one byte. *)
Lemma final_packet_length_bounds (header : Z) (body : bytes) :
  zlen body <= MAX_REMAINING_LENGTH ->
  zlen (mqtt_packet header body)
    <= aws_iot_mqtt_internal_get_final_packet_length_from_remaining_length (zlen body)
    <= zlen (mqtt_packet header body) + 1.
Proof.
  intros H. rewrite mqtt_packet_zlen. pose proof (zlen_nonneg body).
  pose proof (final_packet_length_value (zlen body)). lia.
Qed.

(** For every packet type, the header byte [aws_iot_mqtt_internal_init_header] builds is
    [type << 4 | dup << 3 | qos << 1 | retain] with the quality of service forced to 0 or 1, and
    the bit-fields of the receiver read the same type, flags and quality of service back. *)
Theorem init_header_roundtrip (h0 : Z) (t : MessageTypes) (qos dup retained : Z) :
  t <> UNKNOWN ->
  exists b,
    aws_iot_mqtt_internal_init_header (Some h0) t qos dup retained = (SUCCESS, Some b) /\
    is_byte b /\
    MQTTHeader.type b = MessageTypes_value t /\
    MQTTHeader.dup b = (if dup =? 1 then 1 else 0) /\
    MQTTHeader.qos b = (if qos =? QOS1 then 1 else 0) /\
    MQTTHeader.retain b = (if retained =? 1 then 1 else 0).
Proof.
  intros Ht. eexists. rewrite init_header_spec by done. split; [done|]. unfold QOS1, bit.
  rewrite !(Z.eqb_sym 1).
  apply mqtt_header_fields; [done|..]; by destruct (_ =? _).
Qed.

Lemma init_header_roundtrip_witness :
  exists b,
    aws_iot_mqtt_internal_init_header (Some 255) PUBLISH 1 1 0 = (SUCCESS, Some b) /\
    is_byte b /\
    MQTTHeader.type b = MessageTypes_value PUBLISH /\
    MQTTHeader.dup b = (if 1 =? 1 then 1 else 0) /\
    MQTTHeader.qos b = (if 1 =? QOS1 then 1 else 0) /\
    MQTTHeader.retain b = (if 0 =? 1 then 1 else 0).
Proof. apply (init_header_roundtrip 255 PUBLISH 1 1 0). discriminate. Defined.
