(* ===== verification/Env.v ===== *)
(** * The environment of the client

    What the client calls and does not define: the wall clock, the network interface of
    [include/network_interface.h] (function pointers of [struct Network], implemented for Linux by
    [platform/linux/mbedtls/network_mbedtls_wrapper.c], see [Tls]), POSIX mutexes, and the
    application's callbacks.  Each is a class of operations over the state [W] of the world; the
    class [EnvLaws] states what termination and the life-cycle theorems rely on.  Theorems that do
    not mention [EnvLaws] hold for every environment. *)

From S2P Require Export Types.

(** ** Operations *)

(** POSIX [gettimeofday]. *)
Class Clock (W : Type) := gettimeofday : W -> timeval * W.

(** [net_read network len timer old w]: the code returned, the bytes stored from [pMsg] on, the
    value of [*read_len] afterwards ([old] before).  [net_write network mem len timer old w]: [mem]
    are the bytes readable from [pMsg] on.  A NULL [isConnected] pointer is [None]. *)
Class NetworkOps (W : Type) := {
  iot_tls_init : Network -> option bytes -> option bytes -> option bytes -> option bytes -> Z -> Z ->
    bool -> W -> IoT_Error_t * Network * W;
  net_connect : Network -> option TLSConnectParams -> W -> outcome (IoT_Error_t * Network * W);
  net_read : Network -> Z -> Timer -> Z -> W -> outcome (IoT_Error_t * bytes * Z * W);
  net_write : Network -> bytes -> Z -> Timer -> Z -> W -> outcome (IoT_Error_t * Z * W);
  net_disconnect : Network -> W -> outcome (IoT_Error_t * W);
  net_isConnected : option (Network -> W -> outcome (IoT_Error_t * W));
  net_destroy : Network -> W -> outcome (IoT_Error_t * W)
}.

(** The mutexes of [struct _Client] and the pthread operations on them (0 is success);
    [thread_support] is the build option [_ENABLE_THREAD_SUPPORT_]. *)
Inductive mutex : Set := state_change_mutex | tls_read_mutex | tls_write_mutex.

Class MutexOps (W : Type) := {
  thread_support : bool;
  pthread_mutex_init : mutex -> W -> Z * W;
  pthread_mutex_lock : mutex -> W -> Z * W;
  pthread_mutex_trylock : mutex -> W -> Z * W;
  pthread_mutex_unlock : mutex -> W -> Z * W;
  pthread_mutex_destroy : mutex -> W -> Z * W
}.

(** The application's callbacks by code address.  A message handler gets the client, the topic name
    (an offset into the client's receive buffer) with its length, a pointer to the message
    parameters and the data registered with it; whatever it does to the client, by calling the API
    or otherwise, is its result. *)
Class AppOps (W : Type) := {
  call_message_handler : fnptr -> Z -> Z -> delivered -> voidptr -> AWS_IoT_Client -> W ->
    outcome (delivered * AWS_IoT_Client * W);
  call_disconnect_handler : fnptr -> voidptr -> AWS_IoT_Client -> W -> outcome (AWS_IoT_Client * W)
}.

(** ** The state of a running program: the client and the world *)

Abbreviation St W := (prod AWS_IoT_Client W).

Definition world {W A : Type} (m : M W A) : M (St W) A :=
  fun '(c, w) => let! (a, w) := m w in Done (a, (c, w)).
Definition client {W A : Type} (f : AWS_IoT_Client -> A) : M (St W) A := gets (fun s => f s.1).
Definition assign {W : Type} (f : AWS_IoT_Client -> AWS_IoT_Client) : M (St W) unit :=
  modify (fun '(c, w) => (f c, w)).

(** [rc = f(); if(SUCCESS != rc) { return rc; }] *)
Definition check {S : Type} (rc : IoT_Error_t) (k : M S IoT_Error_t) : M S IoT_Error_t :=
  if decide (rc = SUCCESS) then k else ret rc.

(** ** Lemmas *)

Section wp_rules.
Context {W : Type} (md : mode).

Lemma wp_world {A} (m : M W A) (Q : A -> St W -> Prop) c w :
  wp md m (fun a w' => Q a (c, w')) w -> wp md (world m) Q (c, w).
Proof. unfold wp, world. destruct (m w) as [[a w']| |]; simpl; auto. Qed.

Lemma wp_client {A} (f : AWS_IoT_Client -> A) (Q : A -> St W -> Prop) s :
  Q (f s.1) s -> wp md (client f) Q s.
Proof. done. Qed.

Lemma wp_assign (f : AWS_IoT_Client -> AWS_IoT_Client) (Q : unit -> St W -> Prop) c w :
  Q tt (f c, w) -> wp md (assign f) Q (c, w).
Proof. done. Qed.

Lemma wp_check {S} rc (k : M S IoT_Error_t) (Q : IoT_Error_t -> S -> Prop) s :
  (rc <> SUCCESS -> Q rc s) -> (rc = SUCCESS -> wp md k Q s) -> wp md (check rc k) Q s.
Proof. unfold check. intros H1 H2. destruct (decide _); [auto|]. apply wp_ret; auto. Qed.
End wp_rules.

(** Steps of which only that they finish is used. *)
Section partial_rules.
Context {W : Type}.

Lemma wp_any_world {A} (m : M W A) (Q : A -> St W -> Prop) c w :
  (forall a w', Q a (c, w')) -> wp partial (world m) Q (c, w).
Proof. intros HQ. apply wp_world. unfold wp. destruct (m w) as [[a w']| |]; [apply HQ|done|done]. Qed.

Lemma wp_any_lift {A} (o : outcome A) (Q : A -> St W -> Prop) s :
  (forall a, o = Done a -> Q a s) -> wp partial (lift o) Q s.
Proof. intros HQ. apply wp_lift. destruct o; [by apply HQ|done|done]. Qed.
End partial_rules.
