(* ===== verification/Timer.v ===== *)
(** * Timers: platform/linux/common/timer.c

    A timer is the absolute time of its expiry; the operations read the clock of the environment.
    [timeradd] and [timersub] are the macros of [sys/time.h]. *)

From S2P Require Export Env.

Definition timeradd (a b : timeval) : timeval :=
  let sec := tv_sec a + tv_sec b in
  let usec := tv_usec a + tv_usec b in
  if 1000000 <=? usec then mkTimeval (sec + 1) (usec - 1000000) else mkTimeval sec usec.

Definition timersub (a b : timeval) : timeval :=
  let sec := tv_sec a - tv_sec b in
  let usec := tv_usec a - tv_usec b in
  if usec <? 0 then mkTimeval (sec - 1) (usec + 1000000) else mkTimeval sec usec.

Section timer.
Context {W : Type} {clock : Clock W}.

Definition now_ : M W timeval := fun w => Done (gettimeofday w).

Definition has_timer_expired (timer : Timer) : M W bool :=
  do! now := now_ in
  let res := timersub (end_time timer) now in
  ret ((tv_sec res <? 0) || ((tv_sec res =? 0) && (tv_usec res <=? 0))).

Definition countdown_ms (timer : Timer) (timeout : Z) : M W Timer :=
  let interval := mkTimeval (timeout / 1000) (timeout mod 1000 * 1000) in
  do! now := now_ in
  ret (mkTimer (timeradd now interval)).

Definition left_ms (timer : Timer) : M W Z :=
  let result_ms := 0 in
  do! now := now_ in
  let res := timersub (end_time timer) now in
  let result_ms :=
    if 0 <=? tv_sec res then u32 (tv_sec res * 1000 + Z.quot (tv_usec res) 1000) else result_ms in
  ret result_ms.

Definition countdown_sec (timer : Timer) (timeout : Z) : M W Timer :=
  let interval := mkTimeval timeout 0 in
  do! now := now_ in
  ret (mkTimer (timeradd now interval)).

Definition init_timer (timer : Timer) : Timer := mkTimer (mkTimeval 0 0).

End timer.

(** ** Specification: times in microseconds *)

Definition micros (t : timeval) : Z := tv_sec t * 1000000 + tv_usec t.
Definition normal (t : timeval) : Prop := 0 <= tv_usec t < 1000000.
Definition expiry (t : Timer) : Z := micros (end_time t).

(** What [gettimeofday] promises: a normalised time. *)
Class ClockLaws (W : Type) {clock : Clock W} := {
  clock_normal : forall w, normal (gettimeofday w).1
}.

Lemma timeradd_micros a b : micros (timeradd a b) = micros a + micros b.
Proof. unfold timeradd, micros. destruct (_ <=? _); simpl; lia. Qed.

Lemma timeradd_normal a b : normal a -> normal b -> normal (timeradd a b).
Proof. unfold timeradd, normal. intros. destruct (_ <=? _) eqn:E; simpl; lia. Qed.

Lemma timersub_micros a b : micros (timersub a b) = micros a - micros b.
Proof. unfold timersub, micros. destruct (_ <? _); simpl; lia. Qed.

Lemma timersub_normal a b : normal a -> normal b -> normal (timersub a b).
Proof. unfold timersub, normal. intros. destruct (_ <? _) eqn:E; simpl; lia. Qed.

(** The sign tests on a normalised time. *)
Lemma expired_iff t :
  normal t -> (tv_sec t <? 0) || ((tv_sec t =? 0) && (tv_usec t <=? 0)) = (micros t <=? 0).
Proof.
  unfold normal, micros. intros. apply eq_true_iff_eq.
  rewrite orb_true_iff, andb_true_iff, Z.ltb_lt, Z.eqb_eq, !Z.leb_le. lia.
Qed.

Section laws.
Context {W : Type} {clock : Clock W} {laws : ClockLaws W}.

Lemma wp_has_timer_expired md t (Q : bool -> W -> Prop) w :
  normal (end_time t) ->
  Q (expiry t <=? micros (gettimeofday w).1) (gettimeofday w).2 ->
  wp md (has_timer_expired t) Q w.
Proof.
  intros Ht HQ. unfold wp, has_timer_expired, bind, now_, ret.
  pose proof (clock_normal w) as Hn.
  destruct (gettimeofday w) as [tv w'] eqn:E. cbn [obind owp fst snd] in *.
  rewrite expired_iff by (by apply timersub_normal). rewrite timersub_micros.
  unfold expiry in HQ.
  replace (micros (end_time t) - micros tv <=? 0) with (micros (end_time t) <=? micros tv); [done|].
  apply eq_true_iff_eq. rewrite !Z.leb_le. lia.
Qed.

Lemma wp_countdown_ms md t timeout (Q : Timer -> W -> Prop) w :
  (forall t', normal (end_time t') ->
     expiry t' = micros (gettimeofday w).1 + timeout * 1000 -> Q t' (gettimeofday w).2) ->
  wp md (countdown_ms t timeout) Q w.
Proof.
  intros HQ. unfold wp, countdown_ms, bind, now_, ret.
  pose proof (clock_normal w) as Hn.
  destruct (gettimeofday w) as [tv w'] eqn:E. cbn [obind owp fst snd] in *. apply HQ.
  - simpl. apply timeradd_normal; [done|]. unfold normal. simpl.
    pose proof (Z.mod_pos_bound timeout 1000). lia.
  - unfold expiry. simpl. rewrite timeradd_micros. unfold micros. simpl.
    pose proof (Z.div_mod timeout 1000). lia.
Qed.

Lemma wp_countdown_sec md t timeout (Q : Timer -> W -> Prop) w :
  (forall t', normal (end_time t') ->
     expiry t' = micros (gettimeofday w).1 + timeout * 1000000 -> Q t' (gettimeofday w).2) ->
  wp md (countdown_sec t timeout) Q w.
Proof.
  intros HQ. unfold wp, countdown_sec, bind, now_, ret.
  pose proof (clock_normal w) as Hn.
  destruct (gettimeofday w) as [tv w'] eqn:E. cbn [obind owp fst snd] in *. apply HQ.
  - simpl. apply timeradd_normal; [done|]. unfold normal. simpl. lia.
  - unfold expiry. simpl. rewrite timeradd_micros. unfold micros. simpl. lia.
Qed.

Lemma wp_left_ms md t (Q : Z -> W -> Prop) w :
  normal (end_time t) ->
  Q (u32 (Z.max 0 ((expiry t - micros (gettimeofday w).1) / 1000))) (gettimeofday w).2 ->
  wp md (left_ms t) Q w.
Proof.
  intros Ht HQ. unfold wp, left_ms, bind, now_, ret.
  pose proof (clock_normal w) as Hn.
  destruct (gettimeofday w) as [tv w'] eqn:E. cbn [obind owp fst snd] in *.
  pose proof (timersub_normal _ _ Ht Hn) as Hs. pose proof (timersub_micros (end_time t) tv) as Hm.
  unfold expiry in HQ. rewrite <- Hm in HQ. unfold normal, micros in *.
  remember (timersub (end_time t) tv) as r. clear Heqr.
  rewrite Z.quot_div_nonneg by lia.
  replace ((tv_sec r * 1000000 + tv_usec r) / 1000) with (tv_sec r * 1000 + tv_usec r / 1000) in HQ.
  2: { replace (tv_sec r * 1000000 + tv_usec r) with (tv_usec r + tv_sec r * 1000 * 1000) by lia.
       rewrite Z.div_add by lia. lia. }
  assert (0 <= tv_usec r / 1000 < 1000) by
    (split; [apply Z.div_pos; lia|apply Z.div_lt_upper_bound; lia]).
  destruct (0 <=? tv_sec r) eqn:E2.
  - by rewrite Z.max_r in HQ by lia.
  - by rewrite Z.max_l in HQ by lia.
Qed.
End laws.

(** ** Properties *)

(** A clock that ticks once per reading: the concrete environment of the witnesses. *)
Definition ticking : Clock Z := fun w => (mkTimeval (w / 1000000) (w mod 1000000), w + 1).

Lemma ticking_laws : @ClockLaws Z ticking.
Proof.
  constructor. intros w. unfold normal, gettimeofday, ticking. simpl.
  apply Z.mod_pos_bound. lia.
Qed.

(** A timer set with [countdown_ms] to [n] milliseconds at time [t0] is expired at a later
    reading [t1] of the clock exactly when [t1 - t0] is at least [n] milliseconds, and [left_ms]
    gives the whole milliseconds left, 0 once expired, without wrapping, for every 32-bit [n]. *)
Theorem countdown_ms_contract {W : Type} {clock : Clock W} {laws : ClockLaws W}
    (timer : Timer) (n : Z) (w : W) :
  0 <= n < 4294967296 ->
  exists timer', countdown_ms timer n w = Done (timer', (gettimeofday w).2) /\
    forall w1,
      let elapsed := micros (gettimeofday w1).1 - micros (gettimeofday w).1 in
      has_timer_expired timer' w1 = Done (n * 1000 <=? elapsed, (gettimeofday w1).2) /\
      (0 <= elapsed ->
       left_ms timer' w1 = Done (Z.max 0 ((n * 1000 - elapsed) / 1000), (gettimeofday w1).2)).
Proof.
  intros Hn.
  destruct (wp_exact (countdown_ms timer n) (fun t' w' => w' = (gettimeofday w).2 /\
    normal (end_time t') /\ expiry t' = micros (gettimeofday w).1 + n * 1000) w)
    as (t' & ? & E & -> & Ht & He); [apply wp_countdown_ms; auto|].
  exists t'. split; [done|]. intros w1 elapsed. split.
  - apply wp_exact_eq, wp_has_timer_expired; [done|]. split; [|done].
    apply eq_true_iff_eq. rewrite !Z.leb_le. unfold elapsed. lia.
  - intros Hel. apply wp_exact_eq, wp_left_ms; [done|]. split; [|done]. rewrite He.
    replace (micros (gettimeofday w).1 + n * 1000 - micros (gettimeofday w1).1)
      with (n * 1000 - elapsed) by (unfold elapsed; lia).
    apply u32_id. split; [lia|]. apply Z.max_lub_lt; [lia|].
    apply Z.div_lt_upper_bound; lia.
Qed.

Lemma countdown_ms_contract_witness :
  exists timer', @countdown_ms Z ticking (mkTimer (mkTimeval 0 0)) 1500 999999
    = Done (timer', (@gettimeofday Z ticking 999999).2) /\
    forall w1,
      let elapsed := micros (@gettimeofday Z ticking w1).1 - micros (@gettimeofday Z ticking 999999).1 in
      @has_timer_expired Z ticking timer' w1
        = Done (1500 * 1000 <=? elapsed, (@gettimeofday Z ticking w1).2) /\
      (0 <= elapsed ->
       @left_ms Z ticking timer' w1
         = Done (Z.max 0 ((1500 * 1000 - elapsed) / 1000), (@gettimeofday Z ticking w1).2)).
Proof.
  apply (@countdown_ms_contract Z ticking ticking_laws (mkTimer (mkTimeval 0 0)) 1500 999999). lia.
Defined.
