(* ===== verification/Packets.v ===== *)
(** * MQTT packets: serialisers and deserialisers

    [_aws_iot_mqtt_serialize_connect] and [_aws_iot_mqtt_deserialize_connack]
    (src/aws_iot_mqtt_client_connect.c), [_aws_iot_mqtt_internal_serialize_publish],
    [aws_iot_mqtt_internal_serialize_ack], [aws_iot_mqtt_internal_deserialize_publish] and
    [aws_iot_mqtt_internal_deserialize_ack] (src/aws_iot_mqtt_client_publish.c), the subscribe and
    unsubscribe packets (src/aws_iot_mqtt_client_subscribe.c, ..._unsubscribe.c) and
    [aws_iot_mqtt_internal_serialize_zero] (src/aws_iot_mqtt_client_common_internal.c).

    A serialiser takes the transmit buffer and the variable its length pointer points to ([None] is
    NULL) and returns both with the code; a deserialiser likewise takes and returns the variables
    its out-parameters point to.  The specification of an encoder is the packet of the MQTT 3.1.1
    standard, [mqtt_packet] of [Wire]. *)

From S2P Require Export Wire.

(** ** CONNECT *)

Module MQTT_Connect_Header_Flags.
Definition set_cleansession (all v : Z) : Z := MQTTHeader.set_field all 1 1 v.
Definition set_will (all v : Z) : Z := MQTTHeader.set_field all 2 1 v.
Definition set_willQoS (all v : Z) : Z := MQTTHeader.set_field all 3 2 v.
Definition set_willRetain (all v : Z) : Z := MQTTHeader.set_field all 5 1 v.
Definition set_password (all v : Z) : Z := MQTTHeader.set_field all 6 1 v.
Definition set_username (all v : Z) : Z := MQTTHeader.set_field all 7 1 v.
Definition will (all : Z) : Z := Z.land (Z.shiftr all 2) 1.
Definition password (all : Z) : Z := Z.land (Z.shiftr all 6) 1.
Definition username (all : Z) : Z := Z.land (Z.shiftr all 7) 1.
End MQTT_Connect_Header_Flags.

Module MQTT_Connack_Header_Flags.
Definition sessionpresent (all : Z) : Z := Z.land (Z.shiftr all 7) 1.
End MQTT_Connack_Header_Flags.

Definition _aws_iot_get_connect_packet_length (p : IoT_Client_Connect_Params) : Z :=
  let len := 10 in
  let len := u32 (len + clientIDLen p + 2) in
  let len :=
    if isWillMsgPresent p
    then u32 (len + will_topicNameLen (will p) + 2 + will_msgLen (will p) + 2) else len in
  let len := if pUsername p is Some _ then u32 (len + usernameLen p + 2) else len in
  let len := if pPassword p is Some _ then u32 (len + passwordLen p + 2) else len in
  len.

(** The connect flags byte, as the serialiser assembles it. *)
Definition connect_flags (p : IoT_Client_Connect_Params) : Z :=
  let all := 0 in
  let all := MQTT_Connect_Header_Flags.set_cleansession all (if isCleanSession p then 1 else 0) in
  let all := MQTT_Connect_Header_Flags.set_will all (if isWillMsgPresent p then 1 else 0) in
  let all :=
    if negb (MQTT_Connect_Header_Flags.will all =? 0) then
      let all := MQTT_Connect_Header_Flags.set_willQoS all (will_qos (will p)) in
      MQTT_Connect_Header_Flags.set_willRetain all (if will_isRetained (will p) then 1 else 0)
    else all in
  let all := if pUsername p is Some _ then MQTT_Connect_Header_Flags.set_username all 1 else all in
  let all := if pPassword p is Some _ then MQTT_Connect_Header_Flags.set_password all 1 else all in
  all.

Definition MQTT_name : bytes := [77; 81; 84; 84; 0].

Definition _aws_iot_mqtt_serialize_connect (pTxBuf : option bytes) (txBufLen : Z)
    (pConnectParams : option IoT_Client_Connect_Params) (pSerializedLen : option Z)
    : outcome (IoT_Error_t * option bytes * option Z) :=
  match pTxBuf, pConnectParams, pSerializedLen with
  | Some m, Some p, Some _ =>
      if (match pClientID p with None => negb (clientIDLen p =? 0) | Some _ => clientIDLen p =? 0 end)
      then Done (NULL_VALUE_ERROR, pTxBuf, pSerializedLen)
      else if negb (MQTTVersion p =? MQTT_3_1_1)
      then Done (MQTT_CONNACK_UNACCEPTABLE_PROTOCOL_VERSION_ERROR, pTxBuf, pSerializedLen)
      else
        let ptr := 0 in
        let len := _aws_iot_get_connect_packet_length p in
        if txBufLen <? aws_iot_mqtt_internal_get_final_packet_length_from_remaining_length len
        then Done (MQTT_TX_BUFFER_TOO_SHORT_ERROR, pTxBuf, pSerializedLen)
        else
          let (rc, header) := aws_iot_mqtt_internal_init_header (Some 0) CONNECT QOS0 0 0 in
          if decide (rc <> SUCCESS) then Done (rc, pTxBuf, pSerializedLen)
          else
            let! header := deref header in
            let! (m, ptr) := aws_iot_mqtt_internal_write_char m ptr header in
            let! (n, m) := aws_iot_mqtt_internal_write_len_to_buffer m ptr len in
            let ptr := ptr + n in
            let! (m, ptr) := aws_iot_mqtt_internal_write_utf8_string m ptr (Some MQTT_name) 4 in
            let! (m, ptr) := aws_iot_mqtt_internal_write_char m ptr (u8 (MQTTVersion p)) in
            let flags := connect_flags p in
            let! (m, ptr) := aws_iot_mqtt_internal_write_char m ptr flags in
            let! (m, ptr) := aws_iot_mqtt_internal_write_uint_16 m ptr (keepAliveIntervalInSec p) in
            let! (m, ptr) :=
              match pClientID p with
              | None => aws_iot_mqtt_internal_write_uint_16 m ptr 0
              | Some _ => aws_iot_mqtt_internal_write_utf8_string m ptr (pClientID p) (clientIDLen p)
              end in
            let! (m, ptr) :=
              if isWillMsgPresent p then
                let! (m, ptr) := aws_iot_mqtt_internal_write_utf8_string m ptr
                  (will_pTopicName (will p)) (will_topicNameLen (will p)) in
                aws_iot_mqtt_internal_write_utf8_string m ptr
                  (will_pMessage (will p)) (will_msgLen (will p))
              else Done (m, ptr) in
            let! (m, ptr) :=
              if negb (MQTT_Connect_Header_Flags.username flags =? 0)
              then aws_iot_mqtt_internal_write_utf8_string m ptr (pUsername p) (usernameLen p)
              else Done (m, ptr) in
            let! (m, ptr) :=
              if negb (MQTT_Connect_Header_Flags.password flags =? 0)
              then aws_iot_mqtt_internal_write_utf8_string m ptr (pPassword p) (passwordLen p)
              else Done (m, ptr) in
            Done (SUCCESS, Some m, Some ptr)
  | _, _, _ => Done (NULL_VALUE_ERROR, pTxBuf, pSerializedLen)
  end.

(** ** CONNACK *)

Inductive MQTT_Connack_Return_Codes : Set :=
  | CONNACK_CONNECTION_ACCEPTED
  | CONNACK_UNACCEPTABLE_PROTOCOL_VERSION_ERROR
  | CONNACK_IDENTIFIER_REJECTED_ERROR
  | CONNACK_SERVER_UNAVAILABLE_ERROR
  | CONNACK_BAD_USERDATA_ERROR
  | CONNACK_NOT_AUTHORIZED_ERROR.

Definition MQTT_Connack_Return_Codes_value (c : MQTT_Connack_Return_Codes) : Z :=
  match c with
  | CONNACK_CONNECTION_ACCEPTED => 0
  | CONNACK_UNACCEPTABLE_PROTOCOL_VERSION_ERROR => 1
  | CONNACK_IDENTIFIER_REJECTED_ERROR => 2
  | CONNACK_SERVER_UNAVAILABLE_ERROR => 3
  | CONNACK_BAD_USERDATA_ERROR => 4
  | CONNACK_NOT_AUTHORIZED_ERROR => 5
  end.

(** The [switch] on the return code of the packet. *)
Definition connack_code (c : Z) : IoT_Error_t :=
  if c =? MQTT_Connack_Return_Codes_value CONNACK_CONNECTION_ACCEPTED
  then MQTT_CONNACK_CONNECTION_ACCEPTED
  else if c =? MQTT_Connack_Return_Codes_value CONNACK_UNACCEPTABLE_PROTOCOL_VERSION_ERROR
  then MQTT_CONNACK_UNACCEPTABLE_PROTOCOL_VERSION_ERROR
  else if c =? MQTT_Connack_Return_Codes_value CONNACK_IDENTIFIER_REJECTED_ERROR
  then MQTT_CONNACK_IDENTIFIER_REJECTED_ERROR
  else if c =? MQTT_Connack_Return_Codes_value CONNACK_SERVER_UNAVAILABLE_ERROR
  then MQTT_CONNACK_SERVER_UNAVAILABLE_ERROR
  else if c =? MQTT_Connack_Return_Codes_value CONNACK_BAD_USERDATA_ERROR
  then MQTT_CONNACK_BAD_USERDATA_ERROR
  else if c =? MQTT_Connack_Return_Codes_value CONNACK_NOT_AUTHORIZED_ERROR
  then MQTT_CONNACK_NOT_AUTHORIZED_ERROR
  else MQTT_CONNACK_UNKNOWN_ERROR.

Definition _aws_iot_mqtt_deserialize_connack (pSessionPresent : option Z)
    (pConnackRc : option IoT_Error_t) (pRxBuf : option bytes) (rxBufLen : Z)
    : outcome (IoT_Error_t * option Z * option IoT_Error_t) :=
  match pSessionPresent, pConnackRc, pRxBuf with
  | Some _, Some _, Some m =>
      if rxBufLen <? 4 then Done (MQTT_RX_BUFFER_TOO_SHORT_ERROR, pSessionPresent, pConnackRc)
      else
        let curdata := 0 in
        let! (header, curdata) := aws_iot_mqtt_internal_read_char m curdata in
        if negb (MessageTypes_value CONNACK =? MQTTHeader.type header)
        then Done (FAILURE, pSessionPresent, pConnackRc)
        else
          let! (rc, decodedLen, readBytesLen) :=
            aws_iot_mqtt_internal_decode_remaining_length_from_buffer m curdata 0 in
          if decide (rc <> SUCCESS) then Done (rc, pSessionPresent, pConnackRc)
          else
            let curdata := curdata + readBytesLen in
            let enddata := curdata + decodedLen in
            if negb (2 =? enddata - curdata)
            then Done (MQTT_DECODE_REMAINING_LENGTH_ERROR, pSessionPresent, pConnackRc)
            else
              let! (flags, curdata) := aws_iot_mqtt_internal_read_char m curdata in
              let sessionPresent := MQTT_Connack_Header_Flags.sessionpresent flags in
              let! (connack_rc_char, curdata) := aws_iot_mqtt_internal_read_char m curdata in
              Done (SUCCESS, Some sessionPresent, Some (connack_code connack_rc_char))
  | _, _, _ => Done (NULL_VALUE_ERROR, pSessionPresent, pConnackRc)
  end.

(** ** PUBLISH *)

(** [_aws_iot_mqtt_read_string_with_len] with [**pptr] and [enddata] as offsets; returns
    [*stringVar], [*stringLen] and [*pptr]. *)
Definition _aws_iot_mqtt_read_string_with_len (m : bytes) (stringVar : option Z) (stringLen : Z)
    (pptr enddata : Z) : outcome (IoT_Error_t * option Z * Z * Z) :=
  let rc := FAILURE in
  if 1 <? enddata - pptr then
    let! (stringLen, pptr) := aws_iot_mqtt_internal_read_uint16_t m pptr in
    if pptr + stringLen <=? enddata
    then Done (SUCCESS, Some pptr, stringLen, pptr + stringLen)
    else Done (rc, stringVar, stringLen, pptr)
  else Done (rc, stringVar, stringLen, pptr).

Definition _aws_iot_mqtt_internal_serialize_publish (pTxBuf : option bytes) (txBufLen : Z) (dup : Z)
    (qos : QoS) (retained packetId : Z) (pTopicName : option bytes) (topicNameLen : Z)
    (pPayload : option bytes) (payloadLen : Z) (pSerializedLen : option Z)
    : outcome (IoT_Error_t * option bytes * option Z) :=
  match pTxBuf, pPayload, pSerializedLen with
  | Some m, Some _, Some _ =>
      let ptr := 0 in
      let rem_len := 0 in
      let rem_len := u32 (rem_len + u32 (u64 (topicNameLen + payloadLen + 2))) in
      let rem_len := if 0 <? qos then u32 (rem_len + 2) else rem_len in
      if txBufLen <? aws_iot_mqtt_internal_get_final_packet_length_from_remaining_length rem_len
      then Done (MQTT_TX_BUFFER_TOO_SHORT_ERROR, pTxBuf, pSerializedLen)
      else
        let (rc, header) := aws_iot_mqtt_internal_init_header (Some 0) PUBLISH qos dup retained in
        if decide (rc <> SUCCESS) then Done (rc, pTxBuf, pSerializedLen)
        else
          let! header := deref header in
          let! (m, ptr) := aws_iot_mqtt_internal_write_char m ptr header in
          let! (n, m) := aws_iot_mqtt_internal_write_len_to_buffer m ptr rem_len in
          let ptr := ptr + n in
          let! (m, ptr) := aws_iot_mqtt_internal_write_utf8_string m ptr pTopicName topicNameLen in
          let! (m, ptr) :=
            if 0 <? qos then aws_iot_mqtt_internal_write_uint_16 m ptr packetId else Done (m, ptr) in
          let! m := memcpy m ptr pPayload payloadLen in
          let ptr := ptr + payloadLen in
          Done (SUCCESS, Some m, Some (u32 ptr))
  | _, _, _ => Done (NULL_VALUE_ERROR, pTxBuf, pSerializedLen)
  end.

Definition aws_iot_mqtt_internal_serialize_ack (pTxBuf : option bytes) (txBufLen : Z)
    (msgType : MessageTypes) (dup packetId : Z) (pSerializedLen : option Z)
    : outcome (IoT_Error_t * option bytes * option Z) :=
  match pTxBuf, pSerializedLen with
  | Some m, Some _ =>
      let ptr := 0 in
      if txBufLen <? 4 then Done (MQTT_TX_BUFFER_TOO_SHORT_ERROR, pTxBuf, pSerializedLen)
      else
        let requestQoS := if decide (PUBREL = msgType) then QOS1 else QOS0 in
        let (rc, header) := aws_iot_mqtt_internal_init_header (Some 0) msgType requestQoS dup 0 in
        if decide (rc <> SUCCESS) then Done (rc, pTxBuf, pSerializedLen)
        else
          let! header := deref header in
          let! (m, ptr) := aws_iot_mqtt_internal_write_char m ptr header in
          let! (n, m) := aws_iot_mqtt_internal_write_len_to_buffer m ptr 2 in
          let ptr := ptr + n in
          let! (m, ptr) := aws_iot_mqtt_internal_write_uint_16 m ptr packetId in
          Done (SUCCESS, Some m, Some (u32 ptr))
  | _, _ => Done (NULL_VALUE_ERROR, pTxBuf, pSerializedLen)
  end.

(** The variables behind the out-parameters of [aws_iot_mqtt_internal_deserialize_publish]: a NULL
    pointer is [None]; the packet id may be indeterminate ([Some None]). *)
Record publish_out := mkPublishOut {
  po_dup : option Z;
  po_qos : option QoS;
  po_retained : option Z;
  po_packetId : option (option Z);
  po_topicName : option Z;
  po_topicNameLen : Z;
  po_payload : Z;
  po_payloadLen : Z
}.

Definition aws_iot_mqtt_internal_deserialize_publish (out : publish_out) (m : bytes) (rxBufLen : Z)
    : outcome (IoT_Error_t * publish_out) :=
  match po_dup out, po_qos out, po_retained out, po_packetId out with
  | Some _, Some _, Some _, Some id =>
      let curData := 0 in
      if rxBufLen <? 4 then Done (MQTT_RX_BUFFER_TOO_SHORT_ERROR, out)
      else
        let! (header, curData) := aws_iot_mqtt_internal_read_char m curData in
        if negb (MessageTypes_value PUBLISH =? MQTTHeader.type header) then Done (FAILURE, out)
        else
          let dup := MQTTHeader.dup header in
          let qos := MQTTHeader.qos header in
          let retained := MQTTHeader.retain header in
          let out := mkPublishOut (Some dup) (Some qos) (Some retained) (po_packetId out)
            (po_topicName out) (po_topicNameLen out) (po_payload out) (po_payloadLen out) in
          let! (rc, decodedLen, readBytesLen) :=
            aws_iot_mqtt_internal_decode_remaining_length_from_buffer m curData 0 in
          if decide (rc <> SUCCESS) then Done (rc, out)
          else
            let curData := curData + readBytesLen in
            let endData := curData + decodedLen in
            let! (rc, topicName, topicNameLen, curData) :=
              _aws_iot_mqtt_read_string_with_len m (po_topicName out) (po_topicNameLen out)
                curData endData in
            let out := mkPublishOut (Some dup) (Some qos) (Some retained) (po_packetId out)
              topicName topicNameLen (po_payload out) (po_payloadLen out) in
            if bool_decide (rc <> SUCCESS) || (endData - curData <? 0) then Done (FAILURE, out)
            else
              let! (id, curData) :=
                if negb (qos =? QOS0) then
                  let! (i, curData) := aws_iot_mqtt_internal_read_uint16_t m curData in
                  Done (Some i, curData)
                else Done (id, curData) in
              let payloadLen := u64 (endData - curData) in
              let payload := curData in
              Done (SUCCESS, mkPublishOut (Some dup) (Some qos) (Some retained) (Some id)
                topicName topicNameLen payload payloadLen)
  | _, _, _, _ => Done (FAILURE, out)
  end.

Definition aws_iot_mqtt_internal_deserialize_ack (pPacketType dup pPacketId : option Z)
    (pRxBuf : option bytes) (rxBuflen : Z) : outcome (IoT_Error_t * option Z * option Z * option Z) :=
  match pPacketType, dup, pPacketId, pRxBuf with
  | Some _, Some _, Some _, Some m =>
      if rxBuflen <? 4 then Done (MQTT_RX_BUFFER_TOO_SHORT_ERROR, pPacketType, dup, pPacketId)
      else
        let curdata := 0 in
        let! (header, curdata) := aws_iot_mqtt_internal_read_char m curdata in
        let dup := Some (MQTTHeader.dup header) in
        let pPacketType := Some (MQTTHeader.type header) in
        let! (rc, decodedLen, readBytesLen) :=
          aws_iot_mqtt_internal_decode_remaining_length_from_buffer m curdata 0 in
        if decide (rc <> SUCCESS) then Done (rc, pPacketType, dup, pPacketId)
        else
          let curdata := curdata + readBytesLen in
          let enddata := curdata + decodedLen in
          if enddata - curdata <? 2 then Done (FAILURE, pPacketType, dup, pPacketId)
          else
            let! (id, curdata) := aws_iot_mqtt_internal_read_uint16_t m curdata in
            Done (SUCCESS, pPacketType, dup, Some id)
  | _, _, _, _ => Done (NULL_VALUE_ERROR, pPacketType, dup, pPacketId)
  end.

(** ** SUBSCRIBE and SUBACK *)

Definition _aws_iot_mqtt_serialize_subscribe (pTxBuf : option bytes) (txBufLen : Z)
    (dup packetId topicCount : Z) (pTopicNameList : list (option bytes))
    (pTopicNameLenList : list Z) (pRequestedQoSs : list QoS) (pSerializedLen : option Z)
    : outcome (IoT_Error_t * option bytes * option Z) :=
  match pTxBuf, pSerializedLen with
  | Some m, Some _ =>
      let ptr := 0 in
      let rem_len := 2 in
      let! rem_len := ofor (Z.to_nat topicCount) 0 (fun itr rem_len =>
        let! l := aload pTopicNameLenList itr in
        Done (u32 (rem_len + (l + 2 + 1)))) rem_len in
      if txBufLen <? aws_iot_mqtt_internal_get_final_packet_length_from_remaining_length rem_len
      then Done (MQTT_TX_BUFFER_TOO_SHORT_ERROR, pTxBuf, pSerializedLen)
      else
        let (rc, header) := aws_iot_mqtt_internal_init_header (Some 0) SUBSCRIBE QOS1 dup 0 in
        if decide (rc <> SUCCESS) then Done (rc, pTxBuf, pSerializedLen)
        else
          let! header := deref header in
          let! (m, ptr) := aws_iot_mqtt_internal_write_char m ptr header in
          let! (n, m) := aws_iot_mqtt_internal_write_len_to_buffer m ptr rem_len in
          let ptr := ptr + n in
          let! (m, ptr) := aws_iot_mqtt_internal_write_uint_16 m ptr packetId in
          let! (m, ptr) := ofor (Z.to_nat topicCount) 0 (fun itr '(m, ptr) =>
            let! name := aload pTopicNameList itr in
            let! l := aload pTopicNameLenList itr in
            let! (m, ptr) := aws_iot_mqtt_internal_write_utf8_string m ptr name l in
            let! q := aload pRequestedQoSs itr in
            aws_iot_mqtt_internal_write_char m ptr (u8 q)) (m, ptr) in
          Done (SUCCESS, Some m, Some (u32 ptr))
  | _, _ => Done (NULL_VALUE_ERROR, pTxBuf, pSerializedLen)
  end.

(** Returns the code, [*pPacketId], [*pGrantedQoSCount] and the array [pGrantedQoSs].  The loop
    leaves after at most [maxExpectedQoSCount + 2] rounds. *)
Definition _aws_iot_mqtt_deserialize_suback (pPacketId : option Z) (maxExpectedQoSCount : Z)
    (pGrantedQoSCount : option Z) (pGrantedQoSs : option (list QoS)) (m : bytes) (rxBufLen : Z)
    : outcome (IoT_Error_t * option Z * option Z * option (list QoS)) :=
  match pPacketId, pGrantedQoSCount, pGrantedQoSs with
  | Some _, Some _, Some qoss =>
      let curData := 0 in
      if rxBufLen <? 5
      then Done (MQTT_RX_BUFFER_TOO_SHORT_ERROR, pPacketId, pGrantedQoSCount, pGrantedQoSs)
      else
        let! (header, curData) := aws_iot_mqtt_internal_read_char m curData in
        if negb (MessageTypes_value SUBACK =? MQTTHeader.type header)
        then Done (FAILURE, pPacketId, pGrantedQoSCount, pGrantedQoSs)
        else
          let! (decodeRc, decodedLen, readBytesLen) :=
            aws_iot_mqtt_internal_decode_remaining_length_from_buffer m curData 0 in
          if decide (decodeRc <> SUCCESS)
          then Done (decodeRc, pPacketId, pGrantedQoSCount, pGrantedQoSs)
          else
            let curData := curData + readBytesLen in
            let endData := curData + decodedLen in
            if endData - curData <? 2
            then Done (FAILURE, pPacketId, pGrantedQoSCount, pGrantedQoSs)
            else
              let! (packetId, curData) := aws_iot_mqtt_internal_read_uint16_t m curData in
              oloop (Z.to_nat maxExpectedQoSCount + 3) (fun '(curData, count, qoss) =>
                if negb (curData <? endData)
                then Done (inr (SUCCESS, Some packetId, Some count, Some qoss))
                else if maxExpectedQoSCount <? count
                then Done (inr (FAILURE, Some packetId, Some count, Some qoss))
                else
                  let! (c, curData) := aws_iot_mqtt_internal_read_char m curData in
                  let! qoss := astore qoss count c in
                  Done (inl (curData, u32 (count + 1), qoss))) (curData, 0, qoss)
  | _, _, _ => Done (NULL_VALUE_ERROR, pPacketId, pGrantedQoSCount, pGrantedQoSs)
  end.

(** ** UNSUBSCRIBE and UNSUBACK *)

Definition _aws_iot_mqtt_serialize_unsubscribe (m : bytes) (txBufLen dup packetId count : Z)
    (pTopicNameList : list (option bytes)) (pTopicNameLenList : list Z) (pSerializedLen : Z)
    : outcome (IoT_Error_t * bytes * Z) :=
  let ptr := 0 in
  let rem_len := 2 in
  let! rem_len := ofor (Z.to_nat count) 0 (fun i rem_len =>
    let! l := aload pTopicNameLenList i in
    Done (u32 (rem_len + (l + 2)))) rem_len in
  if txBufLen <? aws_iot_mqtt_internal_get_final_packet_length_from_remaining_length rem_len
  then Done (MQTT_TX_BUFFER_TOO_SHORT_ERROR, m, pSerializedLen)
  else
    let (rc, header) := aws_iot_mqtt_internal_init_header (Some 0) UNSUBSCRIBE QOS1 dup 0 in
    if decide (rc <> SUCCESS) then Done (rc, m, pSerializedLen)
    else
      let! header := deref header in
      let! (m, ptr) := aws_iot_mqtt_internal_write_char m ptr header in
      let! (n, m) := aws_iot_mqtt_internal_write_len_to_buffer m ptr rem_len in
      let ptr := ptr + n in
      let! (m, ptr) := aws_iot_mqtt_internal_write_uint_16 m ptr packetId in
      let! (m, ptr) := ofor (Z.to_nat count) 0 (fun i '(m, ptr) =>
        let! name := aload pTopicNameList i in
        let! l := aload pTopicNameLenList i in
        aws_iot_mqtt_internal_write_utf8_string m ptr name l) (m, ptr) in
      Done (SUCCESS, m, u32 ptr).

Definition _aws_iot_mqtt_deserialize_unsuback (pPacketId : option Z) (pRxBuf : option bytes)
    (rxBufLen : Z) : outcome (IoT_Error_t * option Z) :=
  let! (rc, type, dup, pPacketId) :=
    aws_iot_mqtt_internal_deserialize_ack (Some 0) (Some 0) pPacketId pRxBuf rxBufLen in
  let! type := deref type in
  let rc :=
    if bool_decide (rc = SUCCESS) && negb (MessageTypes_value UNSUBACK =? type)
    then FAILURE else rc in
  Done (rc, pPacketId).

(** ** PINGREQ and DISCONNECT *)

Definition aws_iot_mqtt_internal_serialize_zero (pTxBuf : option bytes) (txBufLen : Z)
    (packetType : MessageTypes) (pSerializedLength : option Z)
    : outcome (IoT_Error_t * option bytes * option Z) :=
  match pTxBuf, pSerializedLength with
  | Some m, Some _ =>
      if txBufLen <? 4 then Done (MQTT_TX_BUFFER_TOO_SHORT_ERROR, pTxBuf, pSerializedLength)
      else
        let ptr := 0 in
        let (rc, header) := aws_iot_mqtt_internal_init_header (Some 0) packetType QOS0 0 0 in
        if decide (rc <> SUCCESS) then Done (rc, pTxBuf, pSerializedLength)
        else
          let! header := deref header in
          let! (m, ptr) := aws_iot_mqtt_internal_write_char m ptr header in
          let! (n, m) := aws_iot_mqtt_internal_write_len_to_buffer m ptr 0 in
          let ptr := ptr + n in
          Done (SUCCESS, Some m, Some (u32 ptr))
  | _, _ => Done (NULL_VALUE_ERROR, pTxBuf, pSerializedLength)
  end.

(** ** Specifications: the bodies of the packets *)

(** [n] bytes [s] are readable through the pointer [p] (which may be NULL when [n] is 0). *)
Definition readable (p : option bytes) (n : Z) (s : bytes) : Prop :=
  zlen s = n /\ (0 < n -> exists mem, p = Some mem /\ load_list mem 0 n = Done s).

Definition opt_string (p : option bytes) (s : bytes) : bytes :=
  if p is Some _ then mqtt_string s else [].

(** Section 3.1 of the standard: variable header and payload of CONNECT. *)
Definition connect_body (p : IoT_Client_Connect_Params) (id wt wm user pass : bytes) : bytes :=
  mqtt_string [77; 81; 84; 84] ++ [4] ++
  [(if isCleanSession p then 2 else 0) +
   (if isWillMsgPresent p
    then 4 + 8 * will_qos (will p) + (if will_isRetained (will p) then 32 else 0) else 0) +
   (if pPassword p is Some _ then 64 else 0) +
   (if pUsername p is Some _ then 128 else 0)] ++
  mqtt_uint16 (keepAliveIntervalInSec p) ++ mqtt_string id ++
  (if isWillMsgPresent p then mqtt_string wt ++ mqtt_string wm else []) ++
  opt_string (pUsername p) user ++ opt_string (pPassword p) pass.

Definition publish_body (topic : bytes) (qos packetId : Z) (payload : bytes) : bytes :=
  mqtt_string topic ++ (if 0 <? qos then mqtt_uint16 packetId else []) ++ payload.

Definition subscribe_body (packetId : Z) (filters : list (bytes * QoS)) : bytes :=
  mqtt_uint16 packetId ++ concat (map (fun '(f, q) => mqtt_string f ++ [q]) filters).

Definition unsubscribe_body (packetId : Z) (filters : list bytes) : bytes :=
  mqtt_uint16 packetId ++ concat (map mqtt_string filters).

(** A buffer whose first bytes are [d]. *)
Definition written (m0 d : bytes) : bytes := d ++ drop (length d) m0.

(** ** Lemmas: writing packets *)

Lemma zlen_written m0 d : zlen d <= zlen m0 -> zlen (written m0 d) = zlen m0.
Proof. unfold written, zlen. intros. rewrite length_app, length_drop. lia. Qed.

Lemma zlen_mqtt_uint16 n : zlen (mqtt_uint16 n) = 2.
Proof. done. Qed.
Lemma zlen_mqtt_string s : zlen (mqtt_string s) = 2 + zlen s.
Proof. unfold mqtt_string. by rewrite zlen_app. Qed.
#[export] Hint Rewrite zlen_mqtt_uint16 zlen_mqtt_string : zlen.

Lemma store_written m0 d e :
  zlen d + zlen e <= zlen m0 -> store (written m0 d) (zlen d) e = Done (written m0 (d ++ e)).
Proof.
  intros H. unfold written.
  destruct (split_at (drop (length d) m0) 0 (zlen e)) as (pre & o & post & Hs & Hp & Ho);
    [lia|apply zlen_nonneg|unfold zlen in *; rewrite length_drop; lia|].
  destruct pre as [|x pre]; [|exfalso; zlia].
  rewrite Hs. cbn [app]. rewrite store_split by done.
  rewrite length_app, <- drop_drop, Hs. cbn [app].
  replace (length e) with (length o) by (unfold zlen in Ho; lia).
  by rewrite drop_app_length, <- app_assoc.
Qed.

Lemma written_nil m0 : written m0 [] = m0.
Proof. done. Qed.

Lemma written_char m0 d c :
  zlen d + 1 <= zlen m0 ->
  aws_iot_mqtt_internal_write_char (written m0 d) (zlen d) c =
    Done (written m0 (d ++ [c]), zlen (d ++ [c])).
Proof.
  intros H. unfold aws_iot_mqtt_internal_write_char.
  rewrite store_written by zlia. cbn [obind]. res_eq. zlia.
Qed.

Lemma written_uint16 m0 d n :
  0 <= n < 65536 -> zlen d + 2 <= zlen m0 ->
  aws_iot_mqtt_internal_write_uint_16 (written m0 d) (zlen d) n =
    Done (written m0 (d ++ mqtt_uint16 n), zlen (d ++ mqtt_uint16 n)).
Proof.
  intros Hn H. rewrite write_uint_16_put by (done || apply zlen_nonneg). unfold put.
  rewrite store_written by zlia. cbn [obind]. res_eq. zlia.
Qed.

Lemma written_string m0 d p n s :
  readable p n s -> n < 65536 -> zlen d + 2 + n <= zlen m0 ->
  aws_iot_mqtt_internal_write_utf8_string (written m0 d) (zlen d) p n =
    Done (written m0 (d ++ mqtt_string s), zlen (d ++ mqtt_string s)).
Proof.
  intros [Hl Hr] Hn H. pose proof (zlen_nonneg s).
  rewrite (write_utf8_string_put _ _ _ _ s).
  - unfold put. rewrite store_written by zlia. cbn [obind]. res_eq. zlia.
  - apply zlen_nonneg.
  - lia.
  - done.
  - intros ->. destruct s as [|x s]; [done|exfalso; zlia].
Qed.

Lemma written_len m0 d n :
  0 <= n < 4294967296 -> zlen d + zlen (remaining_length n) <= zlen m0 ->
  aws_iot_mqtt_internal_write_len_to_buffer (written m0 d) (zlen d) n =
    Done (zlen (remaining_length n), written m0 (d ++ remaining_length n)).
Proof.
  intros Hn H. rewrite write_len_spec by (done || apply zlen_nonneg).
  by rewrite store_written by zlia.
Qed.

Lemma written_memcpy m0 d p n s :
  (exists mem, p = Some mem /\ load_list mem 0 n = Done s) -> zlen s = n ->
  zlen d + n <= zlen m0 ->
  memcpy (written m0 d) (zlen d) p n = Done (written m0 (d ++ s)).
Proof.
  intros (mem & -> & Hm) Hn H. cbn [memcpy]. rewrite Hm. cbn [obind].
  by rewrite store_written by zlia.
Qed.

(** The fixed header of every packet. *)
Lemma written_fixed_header m0 h n :
  0 <= n <= MAX_REMAINING_LENGTH -> 1 + zlen (remaining_length n) <= zlen m0 ->
  aws_iot_mqtt_internal_write_char m0 0 h = Done (written m0 [h], zlen [h]) /\
  aws_iot_mqtt_internal_write_len_to_buffer (written m0 [h]) (zlen [h]) n =
    Done (zlen (remaining_length n), written m0 ([h] ++ remaining_length n)) /\
  zlen [h] + zlen (remaining_length n) = zlen ([h] ++ remaining_length n).
Proof.
  unfold MAX_REMAINING_LENGTH. intros Hn Hl. pose proof (zlen_nonneg (remaining_length n)).
  pose proof (written_char m0 [] h) as E. rewrite written_nil in E. cbn [app] in E.
  change (zlen (@nil Z)) with 0 in E. rewrite E by lia.
  rewrite written_len by zlia. split; [done|]. split; [done|]. zlia.
Qed.

(** What a successful test of the transmit buffer gives. *)
Lemma fits (body : bytes) txBufLen :
  aws_iot_mqtt_internal_get_final_packet_length_from_remaining_length (zlen body) <= txBufLen ->
  zlen body <= MAX_REMAINING_LENGTH ->
  1 + zlen (remaining_length (zlen body)) + zlen body <= txBufLen.
Proof.
  intros H1 H2. pose proof (final_packet_length_value (zlen body)). pose proof (zlen_nonneg body). lia.
Qed.

Lemma written_packet m h body :
  written m (([h] ++ remaining_length (zlen body)) ++ body) = written m (mqtt_packet h body).
Proof. unfold mqtt_packet. by rewrite <- app_assoc. Qed.

(** ** Encoders write the standard's packets *)

(** The outcome of an encoder of [mqtt_packet h body]: the packet at the start of the buffer and
    nothing else changed, or the buffer is reported too short and left alone. *)
Definition encodes (o : outcome (IoT_Error_t * option bytes * option Z)) (m : bytes)
    (txBufLen old : Z) (h : Z) (body : bytes) : Prop :=
  o = (if txBufLen <? aws_iot_mqtt_internal_get_final_packet_length_from_remaining_length (zlen body)
       then Done (MQTT_TX_BUFFER_TOO_SHORT_ERROR, Some m, Some old)
       else Done (SUCCESS, Some (written m (mqtt_packet h body)), Some (zlen (mqtt_packet h body)))).

Lemma MAX_REMAINING_LENGTH_value : MAX_REMAINING_LENGTH = 268435455.
Proof. done. Qed.

Ltac len_lia := rewrite ?MAX_REMAINING_LENGTH_value in *; zlia.

Lemma serialize_publish_spec m txBufLen dup qos retained packetId topicmem topicLen topic
    payloadmem payloadLen payload old :
  0 <= qos < 4 -> 0 <= packetId < 65536 -> topicLen < 65536 ->
  readable topicmem topicLen topic ->
  zlen payload = payloadLen -> load_list payloadmem 0 payloadLen = Done payload ->
  txBufLen <= zlen m -> txBufLen <= MAX_REMAINING_LENGTH ->
  zlen (publish_body topic qos packetId payload) <= MAX_REMAINING_LENGTH ->
  encodes (_aws_iot_mqtt_internal_serialize_publish (Some m) txBufLen dup qos retained packetId
             topicmem topicLen (Some payloadmem) payloadLen (Some old))
    m txBufLen old (mqtt_header PUBLISH (bit dup) (if qos =? 1 then 1 else 0) (bit retained))
    (publish_body topic qos packetId payload).
Proof.
  intros Hq Hid Ht Hr Hp Hpl Hm Hmax Hbody. unfold encodes.
  pose proof (proj1 Hr) as Hrl.
  set (body := publish_body topic qos packetId payload) in *.
  assert (Hlen : zlen body = 2 + topicLen + (if 0 <? qos then 2 else 0) + payloadLen).
  { unfold body, publish_body. destruct (0 <? qos); zlia. }
  unfold _aws_iot_mqtt_internal_serialize_publish. cbv zeta.
  rewrite init_header_spec by done. cbn [deref obind].
  assert (Hrem : (if 0 <? qos then u32 (u32 (0 + u32 (u64 (topicLen + payloadLen + 2))) + 2)
                  else u32 (0 + u32 (u64 (topicLen + payloadLen + 2)))) = zlen body).
  { pose proof (zlen_nonneg topic). pose proof (zlen_nonneg payload).
    rewrite MAX_REMAINING_LENGTH_value in *. revert Hlen Hbody. generalize (zlen body).
    destruct (0 <? qos); intros; rewrite u64_id by lia; rewrite (u32_id (_ + _ + 2)) by lia;
      rewrite Z.add_0_l, (u32_id (topicLen + _ + 2)) by lia; [rewrite u32_id|]; lia. }
  rewrite Hrem. destruct (txBufLen <? _) eqn:E; [done|].
  destruct (decide (SUCCESS <> SUCCESS)) as [|_]; [done|].
  pose proof (fits body txBufLen ltac:(lia) Hbody) as Hfit.
  set (h := mqtt_header _ _ _ _).
  assert (Hidlen : 0 <= (if 0 <? qos then 2 else 0) <= 2) by (destruct (0 <? qos); lia).
  pose proof (zlen_nonneg topic). pose proof (zlen_nonneg payload). pose proof (zlen_nonneg body).
  destruct (written_fixed_header m h (zlen body)) as (-> & E2 & E3); [lia|lia|].
  cbn [obind]. rewrite E2. cbn [obind]. rewrite E3.
  rewrite (written_string _ _ _ _ topic Hr) by zlia. cbn [obind].
  set (d := (_ ++ _) ++ mqtt_string topic).
  assert (Hid' : (if 0 <? qos then aws_iot_mqtt_internal_write_uint_16 (written m d) (zlen d) packetId
                  else Done (written m d, zlen d)) =
                 let d' := d ++ (if 0 <? qos then mqtt_uint16 packetId else []) in
                 Done (written m d', zlen d')).
  { unfold d. destruct (0 <? qos); [|by rewrite app_nil_r]. apply written_uint16; zlia. }
  rewrite Hid'. cbn [obind]. cbv zeta.
  rewrite (written_memcpy _ _ _ _ payload) by
    (eauto || (unfold d; destruct (0 <? qos); zlia)).
  cbn [obind].
  assert (Hb : (d ++ (if 0 <? qos then mqtt_uint16 packetId else [])) ++ payload =
               ([h] ++ remaining_length (zlen body)) ++ body).
  { unfold d, body, publish_body. by rewrite <- !app_assoc. }
  rewrite Hb, written_packet. do 2 f_equal. f_equal.
  rewrite <- Hp, <- zlen_app, Hb, u32_id; [unfold mqtt_packet; by rewrite <- app_assoc|].
  split; [apply zlen_nonneg|]. len_lia.
Qed.

(** A topic filter of a SUBSCRIBE or UNSUBSCRIBE: the pointer, its length, the requested quality of
    service and the bytes meant. *)
Record filter_arg := mkFilter {
  fa_ptr : option bytes; fa_len : Z; fa_qos : QoS; fa_bytes : bytes
}.

Definition filter_ok (f : filter_arg) : Prop :=
  readable (fa_ptr f) (fa_len f) (fa_bytes f) /\ fa_len f < 65536 /\ is_byte (fa_qos f).

Lemma concat_take_S {A} (f : A -> bytes) l j x :
  l !! j = Some x ->
  concat (map f (take (S j) l)) = concat (map f (take j l)) ++ f x.
Proof. intros H. rewrite (take_S_r l j x H), map_app, concat_app. cbn [map concat]. by rewrite app_nil_r. Qed.

Lemma zlen_concat_take {A} (f : A -> bytes) l j :
  zlen (concat (map f (take j l))) <= zlen (concat (map f l)).
Proof. rewrite <- (take_drop j l) at 2. rewrite map_app, concat_app. zlia. Qed.

(** The counting loop of both serialisers. *)
Lemma rem_len_loop (enc : filter_arg -> bytes) (size : Z -> Z) fs :
  (forall f, f ∈ fs -> zlen (enc f) = size (fa_len f)) ->
  2 + zlen (concat (map enc fs)) <= MAX_REMAINING_LENGTH ->
  ofor (length fs) 0 (fun itr rem_len =>
    let! l := aload (map fa_len fs) itr in Done (u32 (rem_len + size l))) 2
  = Done (2 + zlen (concat (map enc fs))).
Proof.
  intros Henc Hmax.
  rewrite (ofor_fun (fun j => 2 + zlen (concat (map enc (take j fs)))) (length fs)).
  { by rewrite take_ge by lia. }
  intros j Hj. destruct (lookup_lt_is_Some_2 fs j Hj) as [f Hf].
  rewrite (aload_map _ _ _ _ Hf). cbn [obind].
  rewrite (concat_take_S _ _ _ _ Hf). pose proof (zlen_concat_take enc fs (S j)) as Hle.
  rewrite (concat_take_S _ _ _ _ Hf) in Hle.
  rewrite <- (Henc f) by (by eapply list_elem_of_lookup_2). autorewrite with zlen in *.
  res_eq. rewrite u32_id; [lia|]. len_lia.
Qed.

(** The writing loop: every round appends [enc f]. *)
Lemma write_loop (enc : filter_arg -> bytes) (body : Z -> bytes * Z -> outcome (bytes * Z)) m d fs :
  zlen d + zlen (concat (map enc fs)) <= zlen m ->
  (forall j f e, fs !! j = Some f -> zlen e + zlen (enc f) <= zlen m ->
     body (Z.of_nat j) (written m e, zlen e) = Done (written m (e ++ enc f), zlen (e ++ enc f))) ->
  ofor (length fs) 0 body (written m d, zlen d) =
    Done (written m (d ++ concat (map enc fs)), zlen (d ++ concat (map enc fs))).
Proof.
  intros Hl Hb. pose (st j := d ++ concat (map enc (take j fs))).
  assert (H0 : st O = d) by (unfold st; by rewrite take_0, app_nil_r).
  assert (Hn : st (length fs) = d ++ concat (map enc fs)) by (unfold st; by rewrite take_ge by lia).
  enough (H : ofor (length fs) 0 body (written m (st O), zlen (st O)) =
    Done (written m (st (length fs)), zlen (st (length fs)))) by (by rewrite H0, Hn in H).
  apply (ofor_fun (fun j => (written m (st j), zlen (st j)))).
  intros j Hj. destruct (lookup_lt_is_Some_2 fs j Hj) as [f Hf]. unfold st.
  rewrite (concat_take_S _ _ _ _ Hf), app_assoc. apply Hb; [done|].
  pose proof (zlen_concat_take enc fs (S j)) as Hle.
  rewrite (concat_take_S _ _ _ _ Hf) in Hle. zlia.
Qed.

Lemma serialize_subscribe_spec m txBufLen dup packetId fs old :
  Forall filter_ok fs -> 0 <= packetId < 65536 ->
  txBufLen <= zlen m -> txBufLen <= MAX_REMAINING_LENGTH ->
  let body := subscribe_body packetId (map (fun f => (fa_bytes f, fa_qos f)) fs) in
  zlen body <= MAX_REMAINING_LENGTH ->
  encodes (_aws_iot_mqtt_serialize_subscribe (Some m) txBufLen dup packetId (zlen fs)
             (map fa_ptr fs) (map fa_len fs) (map fa_qos fs) (Some old))
    m txBufLen old (mqtt_header SUBSCRIBE (bit dup) 1 0) body.
Proof.
  intros Hfs Hid Hm Hmax body Hbody. unfold encodes.
  pose (enc f := mqtt_string (fa_bytes f) ++ [fa_qos f]).
  assert (Hb : body = mqtt_uint16 packetId ++ concat (map enc fs)).
  { unfold body, subscribe_body. by rewrite map_map. }
  assert (Hlen : zlen body = 2 + zlen (concat (map enc fs))) by (rewrite Hb; zlia).
  unfold _aws_iot_mqtt_serialize_subscribe. cbv zeta. rewrite zlen_to_nat.
  assert (Hfs' : forall f, f ∈ fs -> filter_ok f)
    by (intros f Hf; apply list_elem_of_In in Hf; rewrite Forall_forall in Hfs; auto).
  assert (Hloop : ofor (length fs) 0 (fun itr rem_len =>
      let! l := aload (map fa_len fs) itr in Done (u32 (rem_len + (l + 2 + 1)))) 2 = Done (zlen body)).
  { rewrite Hlen. apply (rem_len_loop enc (fun l => l + 2 + 1)); [|lia].
    intros f Hf. destruct (Hfs' f Hf) as [[<- _] _]. unfold enc. zlia. }
  rewrite Hloop. cbn [obind].
  rewrite init_header_spec by done. cbn [deref obind].
  destruct (txBufLen <? _) eqn:E; [done|].
  destruct (decide (SUCCESS <> SUCCESS)) as [|_]; [done|].
  pose proof (fits body txBufLen ltac:(lia) Hbody) as Hfit. pose proof (zlen_nonneg body).
  change (bit 0) with 0. change (if QOS1 =? 1 then 1 else 0) with 1.
  set (h := mqtt_header _ _ _ _).
  destruct (written_fixed_header m h (zlen body)) as (-> & E2 & E3); [lia|lia|].
  cbn [obind]. rewrite E2. cbn [obind]. rewrite E3.
  rewrite written_uint16 by zlia. cbn [obind].
  rewrite (write_loop enc); cycle 1.
  { zlia. }
  { intros j f e Hf He. rewrite !(aload_map _ _ _ _ Hf). cbn [obind].
    destruct (Hfs' f) as (Hr & Hl & Hq); [by eapply list_elem_of_lookup_2|].
    unfold enc in *. pose proof (proj1 Hr).
    rewrite (written_string _ _ _ _ (fa_bytes f) Hr) by zlia. cbn [obind].
    rewrite u8_id by done. rewrite written_char by zlia. by rewrite <- app_assoc. }
  cbn [obind]. rewrite <- app_assoc, <- Hb, written_packet.
  rewrite u32_id.
  - unfold mqtt_packet. by rewrite <- app_assoc.
  - split; [apply zlen_nonneg|]. len_lia.
Qed.

Lemma serialize_unsubscribe_spec m txBufLen dup packetId fs old :
  Forall filter_ok fs -> 0 <= packetId < 65536 ->
  txBufLen <= zlen m -> txBufLen <= MAX_REMAINING_LENGTH ->
  let body := unsubscribe_body packetId (map fa_bytes fs) in
  zlen body <= MAX_REMAINING_LENGTH ->
  _aws_iot_mqtt_serialize_unsubscribe m txBufLen dup packetId (zlen fs)
    (map fa_ptr fs) (map fa_len fs) old =
  if txBufLen <? aws_iot_mqtt_internal_get_final_packet_length_from_remaining_length (zlen body)
  then Done (MQTT_TX_BUFFER_TOO_SHORT_ERROR, m, old)
  else let pkt := mqtt_packet (mqtt_header UNSUBSCRIBE (bit dup) 1 0) body in
       Done (SUCCESS, written m pkt, zlen pkt).
Proof.
  intros Hfs Hid Hm Hmax body Hbody.
  pose (enc f := mqtt_string (fa_bytes f)).
  assert (Hb : body = mqtt_uint16 packetId ++ concat (map enc fs)).
  { unfold body, unsubscribe_body. by rewrite map_map. }
  assert (Hlen : zlen body = 2 + zlen (concat (map enc fs))) by (rewrite Hb; zlia).
  unfold _aws_iot_mqtt_serialize_unsubscribe. cbv zeta. rewrite zlen_to_nat.
  assert (Hfs' : forall f, f ∈ fs -> filter_ok f)
    by (intros f Hf; apply list_elem_of_In in Hf; rewrite Forall_forall in Hfs; auto).
  assert (Hloop : ofor (length fs) 0 (fun itr rem_len =>
      let! l := aload (map fa_len fs) itr in Done (u32 (rem_len + (l + 2)))) 2 = Done (zlen body)).
  { rewrite Hlen. apply (rem_len_loop enc (fun l => l + 2)); [|lia].
    intros f Hf. destruct (Hfs' f Hf) as [[<- _] _]. unfold enc. zlia. }
  rewrite Hloop. cbn [obind].
  rewrite init_header_spec by done. cbn [deref obind].
  destruct (txBufLen <? _) eqn:E; [done|].
  destruct (decide (SUCCESS <> SUCCESS)) as [|_]; [done|].
  pose proof (fits body txBufLen ltac:(lia) Hbody) as Hfit. pose proof (zlen_nonneg body).
  change (bit 0) with 0. change (if QOS1 =? 1 then 1 else 0) with 1.
  set (h := mqtt_header _ _ _ _).
  destruct (written_fixed_header m h (zlen body)) as (-> & E2 & E3); [lia|lia|].
  cbn [obind]. rewrite E2. cbn [obind]. rewrite E3.
  rewrite written_uint16 by zlia. cbn [obind].
  rewrite (write_loop enc); cycle 1.
  { zlia. }
  { intros j f e Hf He. rewrite !(aload_map _ _ _ _ Hf). cbn [obind].
    destruct (Hfs' f) as (Hr & Hl & Hq); [by eapply list_elem_of_lookup_2|].
    unfold enc in *. pose proof (proj1 Hr).
    by rewrite (written_string _ _ _ _ (fa_bytes f) Hr) by zlia. }
  cbn [obind]. rewrite <- app_assoc, <- Hb, written_packet.
  rewrite u32_id.
  - unfold mqtt_packet. by rewrite <- app_assoc.
  - split; [apply zlen_nonneg|]. len_lia.
Qed.

Lemma serialize_ack_spec m txBufLen t dup packetId old :
  t <> UNKNOWN -> 0 <= packetId < 65536 -> txBufLen <= zlen m ->
  aws_iot_mqtt_internal_serialize_ack (Some m) txBufLen t dup packetId (Some old) =
  if txBufLen <? 4 then Done (MQTT_TX_BUFFER_TOO_SHORT_ERROR, Some m, Some old)
  else let pkt := mqtt_packet (mqtt_header t (bit dup) (if decide (PUBREL = t) then 1 else 0) 0)
                    (mqtt_uint16 packetId) in
       Done (SUCCESS, Some (written m pkt), Some 4).
Proof.
  intros Ht Hid Hm. unfold aws_iot_mqtt_internal_serialize_ack. cbv zeta.
  destruct (txBufLen <? 4) eqn:E; [done|].
  rewrite init_header_spec by done. cbn [deref obind].
  destruct (decide (SUCCESS <> SUCCESS)) as [|_]; [done|].
  replace (if (if decide (PUBREL = t) then QOS1 else QOS0) =? 1 then 1 else 0)
    with (if decide (PUBREL = t) then 1 else 0) by (by destruct (decide _)).
  change (bit 0) with 0. set (h := mqtt_header _ _ _ _).
  destruct (written_fixed_header m h (zlen (mqtt_uint16 packetId))) as (-> & E2 & E3);
    [done|change (zlen (remaining_length (zlen (mqtt_uint16 packetId)))) with 1; lia|].
  change (zlen (mqtt_uint16 packetId)) with 2 in *. change (zlen (remaining_length 2)) with 1 in *.
  cbn [obind]. rewrite E2. cbn [obind]. rewrite E3.
  rewrite written_uint16 by (zlia || (change (zlen ([h] ++ remaining_length 2)) with 2; lia)).
  cbn [obind]. done.
Qed.

Lemma serialize_zero_spec m txBufLen t old :
  t <> UNKNOWN -> txBufLen <= zlen m ->
  aws_iot_mqtt_internal_serialize_zero (Some m) txBufLen t (Some old) =
  if txBufLen <? 4 then Done (MQTT_TX_BUFFER_TOO_SHORT_ERROR, Some m, Some old)
  else Done (SUCCESS, Some (written m (mqtt_packet (mqtt_header t 0 0 0) [])), Some 2).
Proof.
  intros Ht Hm. unfold aws_iot_mqtt_internal_serialize_zero. cbv zeta.
  destruct (txBufLen <? 4) eqn:E; [done|].
  rewrite init_header_spec by done. cbn [deref obind].
  destruct (decide (SUCCESS <> SUCCESS)) as [|_]; [done|].
  change (if QOS0 =? 1 then 1 else 0) with 0. change (bit 0) with 0.
  destruct (written_fixed_header m (mqtt_header t 0 0 0) 0) as (-> & E2 & _);
    [done|change (zlen (remaining_length 0)) with 1; lia|].
  cbn [obind]. by rewrite E2.
Qed.

(** *** CONNECT *)

Lemma connect_flags_value p :
  0 <= will_qos (will p) < 4 ->
  connect_flags p =
    (if isCleanSession p then 2 else 0) +
    (if isWillMsgPresent p
     then 4 + 8 * will_qos (will p) + (if will_isRetained (will p) then 32 else 0) else 0) +
    (if pPassword p is Some _ then 64 else 0) +
    (if pUsername p is Some _ then 128 else 0) /\
  MQTT_Connect_Header_Flags.username (connect_flags p) = (if pUsername p is Some _ then 1 else 0) /\
  MQTT_Connect_Header_Flags.password (connect_flags p) = (if pPassword p is Some _ then 1 else 0).
Proof.
  intros Hq. unfold connect_flags.
  assert (Hc : will_qos (will p) = 0 \/ will_qos (will p) = 1 \/ will_qos (will p) = 2 \/
               will_qos (will p) = 3) by lia.
  destruct (isWillMsgPresent p).
  - destruct Hc as [-> |[-> |[-> | ->]]];
      destruct (isCleanSession p), (will_isRetained (will p)), (pUsername p), (pPassword p);
      vm_compute; auto.
  - destruct (isCleanSession p), (pUsername p), (pPassword p); vm_compute; auto.
Qed.

(** Connection parameters the application may pass: the strings have the lengths declared, and an
    identifier is absent exactly when its length is 0. *)
Record connect_ok (p : IoT_Client_Connect_Params) (id wt wm user pass : bytes) : Prop := {
  ok_version : MQTTVersion p = MQTT_3_1_1;
  ok_id_null : pClientID p = None <-> clientIDLen p = 0;
  ok_id : readable (pClientID p) (clientIDLen p) id /\ clientIDLen p < 65536;
  ok_keepalive : 0 <= keepAliveIntervalInSec p < 65536;
  ok_will_topic : isWillMsgPresent p = true ->
    readable (will_pTopicName (will p)) (will_topicNameLen (will p)) wt /\
    will_topicNameLen (will p) < 65536;
  ok_will_msg : isWillMsgPresent p = true ->
    readable (will_pMessage (will p)) (will_msgLen (will p)) wm /\ will_msgLen (will p) < 65536;
  ok_will_qos : 0 <= will_qos (will p) < 4;
  ok_user : pUsername p <> None -> readable (pUsername p) (usernameLen p) user /\ usernameLen p < 65536;
  ok_pass : pPassword p <> None -> readable (pPassword p) (passwordLen p) pass /\ passwordLen p < 65536
}.

Lemma readable_zlen p n s : readable p n s -> zlen s = n /\ 0 <= n.
Proof. intros [H _]. pose proof (zlen_nonneg s). lia. Qed.

Lemma connect_packet_length p id wt wm user pass :
  connect_ok p id wt wm user pass ->
  _aws_iot_get_connect_packet_length p = zlen (connect_body p id wt wm user pass) /\
  zlen (connect_body p id wt wm user pass) <= 400000.
Proof.
  intros []. unfold _aws_iot_get_connect_packet_length, connect_body, opt_string. cbv zeta.
  destruct ok_id0 as [Hid Hidl]. apply readable_zlen in Hid as [Hid Hid0].
  rewrite !zlen_app, !zlen_mqtt_string, Hid, !zlen_cons, !zlen_nil, zlen_mqtt_uint16.
  rewrite (u32_id (10 + _ + 2)) by lia.
  assert (Hw : exists n, 0 <= n <= 140000 /\
    (if isWillMsgPresent p then u32 (10 + clientIDLen p + 2 + will_topicNameLen (will p) + 2 +
       will_msgLen (will p) + 2) else 10 + clientIDLen p + 2) = 10 + clientIDLen p + 2 + n /\
    zlen (if isWillMsgPresent p then mqtt_string wt ++ mqtt_string wm else []) = n).
  { destruct (isWillMsgPresent p).
    - destruct ok_will_topic0 as [H1 ?]; [done|]. destruct ok_will_msg0 as [H2 ?]; [done|].
      apply readable_zlen in H1 as [H1 ?], H2 as [H2 ?].
      exists (2 + will_topicNameLen (will p) + (2 + will_msgLen (will p))).
      rewrite zlen_app, !zlen_mqtt_string, H1, H2, u32_id; lia.
    - exists 0. split; [lia|]. split; [lia|done]. }
  destruct Hw as (nw & Hnw & -> & ->).
  assert (Ho : forall q len s x, 0 <= x <= 300000 ->
    (q <> None -> readable q len s /\ len < 65536) ->
    exists n, 0 <= n <= 65537 /\ (if q is Some _ then u32 (x + len + 2) else x) = x + n /\
      zlen (if q is Some _ then mqtt_string s else []) = n).
  { intros [mem|] len s x Hx Hr.
    - destruct Hr as [H1 ?]; [done|]. apply readable_zlen in H1 as [H1 ?]. exists (2 + len).
      rewrite zlen_mqtt_string, H1, u32_id; lia.
    - exists 0. split; [lia|]. split; [lia|done]. }
  destruct (Ho (pUsername p) (usernameLen p) user (10 + clientIDLen p + 2 + nw))
    as (nu & Hnu & -> & ->); [lia|done|].
  destruct (Ho (pPassword p) (passwordLen p) pass (10 + clientIDLen p + 2 + nw + nu))
    as (np & Hnp & -> & ->); [lia|done|]. lia.
Qed.

(** Writing an optional part: nothing is written when it is absent. *)
Lemma written_if m d (b : bool) e (o : outcome (bytes * Z)) :
  (b = true -> o = Done (written m (d ++ e), zlen (d ++ e))) ->
  (if b then o else Done (written m d, zlen d)) =
    Done (written m (d ++ (if b then e else [])), zlen (d ++ (if b then e else []))).
Proof. intros H. destruct b; [by apply H|]. by rewrite app_nil_r. Qed.

Lemma serialize_connect_spec m txBufLen p id wt wm user pass old :
  connect_ok p id wt wm user pass -> txBufLen <= zlen m -> txBufLen <= MAX_REMAINING_LENGTH ->
  encodes (_aws_iot_mqtt_serialize_connect (Some m) txBufLen (Some p) (Some old))
    m txBufLen old (mqtt_header CONNECT 0 0 0) (connect_body p id wt wm user pass).
Proof.
  intros Hok Hm Hmax. unfold encodes. set (body := connect_body p id wt wm user pass).
  destruct (connect_packet_length _ _ _ _ _ _ Hok) as [Hlen Hbody]. fold body in Hlen, Hbody.
  unfold _aws_iot_mqtt_serialize_connect. cbv zeta. rewrite Hlen.
  destruct (connect_flags_value p (ok_will_qos _ _ _ _ _ _ Hok)) as (Hf & Hfu & Hfp).
  rewrite Hfu, Hfp. destruct Hok. destruct ok_id0 as [Hid Hidl].
  assert (Hnull : (match pClientID p with None => negb (clientIDLen p =? 0) | Some _ => clientIDLen p =? 0 end)
    = false).
  { destruct (pClientID p), (Z.eqb_spec (clientIDLen p) 0) as [Hz|Hz]; try done.
    - by apply ok_id_null0 in Hz.
    - exfalso. by apply Hz, ok_id_null0. }
  rewrite Hnull, ok_version0. change (negb (MQTT_3_1_1 =? MQTT_3_1_1)) with false. cbv match.
  destruct (txBufLen <? _) eqn:E; [done|].
  rewrite init_header_spec by done. change (bit 0) with 0. change (if QOS0 =? 1 then 1 else 0) with 0.
  destruct (decide (SUCCESS <> SUCCESS)) as [|_]; [done|]. cbn [deref obind].
  pose proof (fits body txBufLen ltac:(lia) ltac:(rewrite MAX_REMAINING_LENGTH_value; lia)) as Hfit.
  pose proof (zlen_nonneg body). set (h := mqtt_header _ _ _ _).
  destruct (written_fixed_header m h (zlen body)) as (-> & E2 & E3);
    [rewrite MAX_REMAINING_LENGTH_value; lia|lia|].
  cbn [obind]. rewrite E2. cbn [obind]. rewrite E3.
  (* the length left for each part *)
  assert (Hparts : zlen body = 12 + zlen id +
    zlen (if isWillMsgPresent p then mqtt_string wt ++ mqtt_string wm else []) +
    zlen (opt_string (pUsername p) user) + zlen (opt_string (pPassword p) pass)).
  { unfold body, connect_body. zlia. }
  pose proof (readable_zlen _ _ _ Hid) as [Hid1 Hid2].
  set (d0 := [h] ++ remaining_length (zlen body)).
  assert (Hd0 : zlen d0 + zlen body <= zlen m) by (unfold d0; zlia).
  rewrite (written_string m d0 (Some MQTT_name) 4 [77; 81; 84; 84]) by
    (split; [done|by eexists] || lia || zlia). cbn [obind].
  rewrite (u8_id MQTT_3_1_1) by (by vm_compute).
  rewrite written_char by zlia. cbn [obind]. rewrite written_char by zlia. cbn [obind].
  rewrite written_uint16 by zlia. cbn [obind].
  set (d1 := (((d0 ++ _) ++ _) ++ _) ++ _).
  assert (Hd1 : zlen d1 = zlen d0 + 10) by (unfold d1; zlia).
  assert (Hcid : (match pClientID p with
      | None => aws_iot_mqtt_internal_write_uint_16 (written m d1) (zlen d1) 0
      | Some _ => aws_iot_mqtt_internal_write_utf8_string (written m d1) (zlen d1) (pClientID p) (clientIDLen p)
      end) = Done (written m (d1 ++ mqtt_string id), zlen (d1 ++ mqtt_string id))).
  { destruct (pClientID p) eqn:Ep.
    - rewrite (written_string _ _ _ _ id Hid) by zlia. done.
    - rewrite (proj1 ok_id_null0 eq_refl) in Hid1. destruct id; [|exfalso; zlia].
      by rewrite written_uint16 by zlia. }
  rewrite Hcid. cbn [obind]. set (d2 := d1 ++ mqtt_string id).
  assert (Hd2 : zlen d2 = zlen d0 + 12 + zlen id) by (unfold d2; zlia).
  rewrite (written_if m d2 (isWillMsgPresent p) (mqtt_string wt ++ mqtt_string wm)); cycle 1.
  { intros Hw. rewrite Hw in Hparts. destruct (ok_will_topic0 Hw) as [H1 ?], (ok_will_msg0 Hw) as [H2 ?].
    pose proof (readable_zlen _ _ _ H1) as []. pose proof (readable_zlen _ _ _ H2) as [].
    rewrite (written_string _ _ _ _ wt H1) by zlia. cbn [obind].
    rewrite (written_string _ _ _ _ wm H2) by zlia. by rewrite <- app_assoc. }
  cbn [obind]. set (d3 := d2 ++ _).
  assert (Hopt : forall q len s d, (q <> None -> readable q len s /\ len < 65536) ->
    zlen d + zlen (opt_string q s) <= zlen m ->
    (if negb ((if q is Some _ then 1 else 0) =? 0)
     then aws_iot_mqtt_internal_write_utf8_string (written m d) (zlen d) q len
     else Done (written m d, zlen d)) =
    Done (written m (d ++ opt_string q s), zlen (d ++ opt_string q s))).
  { intros [mem|] len s d Hr Hl; unfold opt_string in *; [|by rewrite app_nil_r].
    change (negb (1 =? 0)) with true. cbv match. destruct Hr as [Hr ?]; [done|]. pose proof (readable_zlen _ _ _ Hr) as [].
    by rewrite (written_string _ _ _ _ s Hr) by zlia. }
  rewrite (Hopt _ _ user) by (done || (unfold d3; zlia)). cbn [obind].
  rewrite (Hopt _ _ pass) by (done || (unfold d3; zlia)). cbn [obind].
  assert (Hall : (d3 ++ opt_string (pUsername p) user) ++ opt_string (pPassword p) pass =
    ([h] ++ remaining_length (zlen body)) ++ body).
  { unfold d3, d2, d1, d0, body, connect_body. rewrite Hf. by rewrite <- !app_assoc. }
  rewrite Hall, written_packet. unfold mqtt_packet. by rewrite <- app_assoc.
Qed.

(** ** Decoders read the standard's packets *)

(** Every decoder starts by reading the fixed header. *)
Lemma read_fixed_header h body rest :
  zlen body <= MAX_REMAINING_LENGTH ->
  let pre := h :: remaining_length (zlen body) in
  mqtt_packet h body ++ rest = pre ++ body ++ rest /\
  aws_iot_mqtt_internal_read_char (pre ++ body ++ rest) 0 = Done (h, 1) /\
  aws_iot_mqtt_internal_decode_remaining_length_from_buffer (pre ++ body ++ rest) 1 0 =
    Done (SUCCESS, zlen body, zlen (remaining_length (zlen body))) /\
  1 + zlen (remaining_length (zlen body)) = zlen pre.
Proof.
  intros Hl pre. split; [unfold mqtt_packet, pre; by rewrite <- app_comm_cons, <- app_assoc|].
  split; [apply (read_char_app [] h)|]. split; [|unfold pre; zlia].
  apply (decode_len_spec [h] (zlen body) (body ++ rest) 0). pose proof (zlen_nonneg body). lia.
Qed.

Lemma deserialize_publish_spec h topic packetId payload rest rxBufLen out id0 :
  is_byte h -> MQTTHeader.type h = MessageTypes_value PUBLISH ->
  zlen topic < 65536 -> 0 <= packetId < 65536 ->
  let body := publish_body topic (MQTTHeader.qos h) packetId payload in
  zlen body <= MAX_REMAINING_LENGTH -> 4 <= rxBufLen ->
  is_Some (po_dup out) -> is_Some (po_qos out) -> is_Some (po_retained out) ->
  po_packetId out = Some id0 ->
  let off := 1 + zlen (remaining_length (zlen body)) in
  aws_iot_mqtt_internal_deserialize_publish out (mqtt_packet h body ++ rest) rxBufLen =
    Done (SUCCESS, mkPublishOut (Some (MQTTHeader.dup h)) (Some (MQTTHeader.qos h))
      (Some (MQTTHeader.retain h))
      (Some (if 0 <? MQTTHeader.qos h then Some packetId else id0))
      (Some (off + 2)) (zlen topic)
      (off + zlen (mqtt_string topic) + (if 0 <? MQTTHeader.qos h then 2 else 0)) (zlen payload)).
Proof.
  intros Hh Htype Ht Hid body Hbody Hrx [d Hd] [q Hq] [r Hr] Hi off.
  destruct (header_fields h Hh) as (_ & _ & _ & Hqos & _).
  destruct (read_fixed_header h body rest Hbody) as (Hm & Hc & Hdec & Hpre).
  rewrite Hm. unfold aws_iot_mqtt_internal_deserialize_publish. rewrite Hd, Hq, Hr, Hi. cbv zeta.
  destruct (rxBufLen <? 4) eqn:E; [lia|]. rewrite Hc. cbn [obind]. rewrite Htype, Z.eqb_refl.
  cbn [negb]. rewrite Hdec. cbn [obind].
  destruct (decide (SUCCESS <> SUCCESS)) as [|_]; [done|].
  set (pre := h :: remaining_length (zlen body)) in *. unfold off. rewrite !Hpre.
  assert (Hlen : zlen body = 2 + zlen topic + (if 0 <? MQTTHeader.qos h then 2 else 0) + zlen payload).
  { unfold body, publish_body. destruct (0 <? MQTTHeader.qos h); zlia. }
  assert (Hidl : 0 <= (if 0 <? MQTTHeader.qos h then 2 else 0)). { destruct (0 <? MQTTHeader.qos h); lia. }
  pose proof (zlen_nonneg topic). pose proof (zlen_nonneg payload). pose proof (zlen_nonneg pre).
  unfold _aws_iot_mqtt_read_string_with_len. cbv zeta.
  destruct (1 <? _) eqn:E1; [|lia].
  assert (Hbr : body ++ rest = mqtt_uint16 (zlen topic) ++ topic ++
    (if 0 <? MQTTHeader.qos h then mqtt_uint16 packetId else []) ++ payload ++ rest).
  { unfold body, publish_body, mqtt_string. by rewrite <- !app_assoc. }
  rewrite Hbr, read_uint16_app by lia. cbn [obind].
  destruct (zlen pre + 2 + zlen topic <=? _) eqn:E2; [|lia]. cbn [obind].
  rewrite bool_decide_eq_false_2 by (by intros []). cbn [orb].
  destruct (_ <? 0) eqn:E3; [lia|].
  assert (Hq0 : negb (MQTTHeader.qos h =? QOS0) = (0 <? MQTTHeader.qos h)).
  { unfold QOS0. destruct (Z.eqb_spec (MQTTHeader.qos h) 0), (Z.ltb_spec 0 (MQTTHeader.qos h)); done || lia. }
  rewrite Hq0.
  replace (zlen pre + 2 + zlen topic) with (zlen (pre ++ mqtt_uint16 (zlen topic) ++ topic)) by zlia.
  rewrite MAX_REMAINING_LENGTH_value in Hbody.
  destruct (0 <? MQTTHeader.qos h).
  - replace (pre ++ mqtt_uint16 (zlen topic) ++ topic ++ mqtt_uint16 packetId ++ payload ++ rest)
      with ((pre ++ mqtt_uint16 (zlen topic) ++ topic) ++ mqtt_uint16 packetId ++ payload ++ rest)
      by (by rewrite <- !app_assoc).
    rewrite read_uint16_app by lia. cbn [obind]. rewrite u64_id by zlia. res_eq. f_equal; zlia.
  - cbn [obind]. rewrite u64_id by zlia. res_eq. f_equal; zlia.
Qed.

Lemma deserialize_ack_spec h packetId extra rest rxBufLen t0 d0 i0 :
  0 <= packetId < 65536 -> 4 <= rxBufLen ->
  let body := mqtt_uint16 packetId ++ extra in
  zlen body <= MAX_REMAINING_LENGTH ->
  aws_iot_mqtt_internal_deserialize_ack (Some t0) (Some d0) (Some i0)
    (Some (mqtt_packet h body ++ rest)) rxBufLen =
  Done (SUCCESS, Some (MQTTHeader.type h), Some (MQTTHeader.dup h), Some packetId).
Proof.
  intros Hid Hrx body Hbody.
  destruct (read_fixed_header h body rest Hbody) as (-> & Hc & Hdec & Hpre).
  unfold aws_iot_mqtt_internal_deserialize_ack.
  destruct (rxBufLen <? 4) eqn:E; [lia|]. rewrite Hc. cbn [obind]. cbv zeta. rewrite Hdec. cbn [obind].
  destruct (decide (SUCCESS <> SUCCESS)) as [|_]; [done|]. rewrite Hpre.
  assert (Hl : 2 <= zlen body) by (unfold body; zlia).
  destruct (_ <? 2) eqn:E2; [lia|].
  unfold body. rewrite <- app_assoc, read_uint16_app by lia. done.
Qed.

Lemma deserialize_connack_spec h flags code rest rxBufLen s0 c0 :
  MQTTHeader.type h = MessageTypes_value CONNACK -> 4 <= rxBufLen ->
  _aws_iot_mqtt_deserialize_connack (Some s0) (Some c0)
    (Some (mqtt_packet h [flags; code] ++ rest)) rxBufLen =
  Done (SUCCESS, Some (MQTT_Connack_Header_Flags.sessionpresent flags), Some (connack_code code)).
Proof.
  intros Ht Hrx. unfold _aws_iot_mqtt_deserialize_connack.
  destruct (rxBufLen <? 4) eqn:E; [lia|]. cbn [obind]. cbv zeta.
  destruct (read_fixed_header h [flags; code] rest) as (-> & Hc & Hdec & Hpre);
    [vm_compute; discriminate|].
  rewrite Hc. cbn [obind]. rewrite Ht, Z.eqb_refl. cbn [negb]. rewrite Hdec. cbn [obind].
  destruct (decide (SUCCESS <> SUCCESS)) as [|_]; [done|]. rewrite Hpre.
  destruct (negb _) eqn:E2; [zlia|].
  set (pre := h :: remaining_length (zlen [flags; code])).
  change ([flags; code] ++ rest) with (flags :: code :: rest).
  rewrite (read_char_app pre flags). cbn [obind].
  replace (zlen pre + 1) with (zlen (pre ++ [flags])) by zlia.
  replace (pre ++ flags :: code :: rest) with ((pre ++ [flags]) ++ code :: rest)
    by (by rewrite <- app_assoc).
  by rewrite read_char_app.
Qed.

Lemma deserialize_suback_spec h packetId max n0 id0 qoss0 qs rest rxBufLen :
  MQTTHeader.type h = MessageTypes_value SUBACK -> 0 <= packetId < 65536 -> 5 <= rxBufLen ->
  0 <= max < 4294967295 -> max + 1 <= zlen qoss0 ->
  let body := mqtt_uint16 packetId ++ qs in
  zlen body <= MAX_REMAINING_LENGTH ->
  let n := Z.min (zlen qs) (max + 1) in
  let qoss := take (Z.to_nat n) qs ++ drop (Z.to_nat n) qoss0 in
  _aws_iot_mqtt_deserialize_suback (Some id0) max (Some n0) (Some qoss0)
    (mqtt_packet h body ++ rest) rxBufLen =
  Done (if zlen qs <=? max + 1 then SUCCESS else FAILURE, Some packetId, Some n, Some qoss).
Proof.
  intros Ht Hid Hrx Hmax Hq body Hbody n qoss.
  destruct (read_fixed_header h body rest Hbody) as (-> & Hc & Hdec & Hpre).
  unfold _aws_iot_mqtt_deserialize_suback.
  destruct (rxBufLen <? 5) eqn:E; [lia|]. rewrite Hc. cbn [obind]. cbv zeta.
  rewrite Ht, Z.eqb_refl. cbn [negb]. rewrite Hdec. cbn [obind].
  destruct (decide (SUCCESS <> SUCCESS)) as [|_]; [done|]. rewrite Hpre.
  set (pre := h :: remaining_length (zlen body)) in *.
  assert (Hl : zlen body = 2 + zlen qs) by (unfold body; zlia). pose proof (zlen_nonneg qs).
  destruct (_ <? 2) eqn:E2; [lia|]. clear E2.
  assert (Hm : pre ++ body ++ rest = pre ++ mqtt_uint16 packetId ++ qs ++ rest)
    by (unfold body; by rewrite <- app_assoc).
  rewrite Hm, read_uint16_app by lia. cbn [obind]. clear Hc Hdec E Hm.
  rewrite Hl. set (p0 := zlen pre + 2). set (M := pre ++ _).
  assert (Hloop : forall k todo seen qtail,
    zlen seen + Z.of_nat k = max + 3 -> zlen seen <= max + 1 ->
    qs = seen ++ todo -> max + 1 <= zlen seen + zlen qtail ->
    oloop k (fun '(curData, count, qoss) =>
      if negb (curData <? zlen pre + (2 + zlen qs))
      then Done (inr (SUCCESS, Some packetId, Some count, Some qoss))
      else if max <? count then Done (inr (FAILURE, Some packetId, Some count, Some qoss))
      else
        let! (c, curData) := aws_iot_mqtt_internal_read_char M curData in
        let! qoss := astore qoss count c in
        Done (inl (curData, u32 (count + 1), qoss))) (p0 + zlen seen, zlen seen, seen ++ qtail) =
    Done (if zlen qs <=? max + 1 then SUCCESS else FAILURE, Some packetId,
      Some (Z.min (zlen qs) (max + 1)),
      Some (take (Z.to_nat (Z.min (zlen qs) (max + 1))) qs ++
            drop (Z.to_nat (Z.min (zlen qs) (max + 1)) - length seen) qtail))).
  { intros k. induction k as [|k IH]; intros todo seen qtail Hk Hs Hqs Hqt; [lia|].
    cbn [oloop]. destruct todo as [|c todo].
    - rewrite app_nil_r in Hqs. subst seen.
      destruct (Z.ltb_spec (p0 + zlen qs) (zlen pre + (2 + zlen qs))); [lia|]. cbn [negb obind].
      destruct (Z.leb_spec (zlen qs) (max + 1)); [|lia]. rewrite Z.min_l by lia.
      rewrite zlen_to_nat, Nat.sub_diag, drop_0, take_ge by lia. done.
    - assert (Hz : zlen qs = zlen seen + 1 + zlen todo) by (rewrite Hqs; zlia).
      pose proof (zlen_nonneg todo).
      destruct (Z.ltb_spec (p0 + zlen seen) (zlen pre + (2 + zlen qs))); [|lia]. cbn [negb].
      destruct (Z.ltb_spec max (zlen seen)).
      + cbn [obind]. destruct (Z.leb_spec (zlen qs) (max + 1)); [lia|]. rewrite Z.min_r by lia.
        replace (max + 1) with (zlen seen) by lia.
        rewrite zlen_to_nat, Nat.sub_diag, drop_0, Hqs, take_app_length. done.
      + assert (HM : M = (pre ++ mqtt_uint16 packetId ++ seen) ++ c :: todo ++ rest).
        { unfold M. rewrite Hqs. by rewrite <- !app_assoc. }
        replace (p0 + zlen seen) with (zlen (pre ++ mqtt_uint16 packetId ++ seen)) by (unfold p0; zlia).
        rewrite HM, read_char_app. cbn [obind]. rewrite <- HM.
        destruct qtail as [|q qtail]; [exfalso; zlia|].
        unfold astore. rewrite zlen_app, zlen_cons. pose proof (zlen_nonneg qtail). pose proof (zlen_nonneg seen).
        destruct (_ && _) eqn:E; [|lia]. cbn [obind].
        rewrite zlen_to_nat, insert_app_r_alt, Nat.sub_diag, u32_id by zlia. cbn [insert list_insert].
        replace (zlen (pre ++ mqtt_uint16 packetId ++ seen) + 1) with (p0 + zlen (seen ++ [c]))
          by (unfold p0; zlia).
        replace (zlen seen + 1) with (zlen (seen ++ [c])) by zlia.
        replace (seen ++ c :: qtail) with ((seen ++ [c]) ++ qtail) by (by rewrite <- app_assoc).
        rewrite (IH todo) by (zlia || (rewrite <- app_assoc; done)).
        do 4 f_equal. unfold zlen in *. rewrite length_app. cbn [length].
        replace (Z.to_nat (Z.min (Z.of_nat (length qs)) (max + 1)) - length seen)%nat
          with (S (Z.to_nat (Z.min (Z.of_nat (length qs)) (max + 1)) - (length seen + 1)))%nat by lia.
        done. }
  pose proof (Hloop (Z.to_nat max + 3)%nat qs [] qoss0) as H1.
  change (zlen (@nil Z)) with 0 in H1. cbn [app length] in H1. rewrite Z.add_0_r, Nat.sub_0_r in H1.
  apply H1; lia || done.
Qed.

(** ** The serialisers and deserialisers always finish and keep the buffers' sizes *)

Lemma write_char_finishes m p c :
  owp total (aws_iot_mqtt_internal_write_char m p c) (fun '(m', _) => zlen m' = zlen m).
Proof. apply owp_bind. eapply owp_mono; [apply store_finishes|]. done. Qed.

Lemma write_uint_16_finishes m p n :
  owp total (aws_iot_mqtt_internal_write_uint_16 m p n) (fun '(m', _) => zlen m' = zlen m).
Proof.
  apply owp_bind. eapply owp_mono; [apply store_finishes|]. intros m1 H1.
  apply owp_bind. eapply owp_mono; [apply store_finishes|]. simpl. congruence.
Qed.

Lemma memcpy_finishes m p s n : owp total (memcpy m p s n) (fun m' => zlen m' = zlen m).
Proof.
  destruct s as [s|]; [|done]. cbn [memcpy]. apply owp_bind. unfold load_list.
  destruct (_ && _); [|done]. apply store_finishes.
Qed.

Lemma write_utf8_string_finishes m p s n :
  owp total (aws_iot_mqtt_internal_write_utf8_string m p s n) (fun '(m', _) => zlen m' = zlen m).
Proof.
  apply owp_bind. eapply owp_mono; [apply write_uint_16_finishes|]. intros [m1 p1] H1.
  destruct (0 <? n); [|done]. apply owp_bind. eapply owp_mono; [apply memcpy_finishes|]. simpl. congruence.
Qed.

Lemma read_char_finishes m p : owp total (aws_iot_mqtt_internal_read_char m p) (fun _ => True).
Proof. apply owp_bind. eapply owp_mono; [apply load_finishes|]. done. Qed.

Lemma read_uint16_finishes m p : owp total (aws_iot_mqtt_internal_read_uint16_t m p) (fun _ => True).
Proof.
  apply owp_bind. eapply owp_mono; [apply load_finishes|]. intros.
  apply owp_bind. eapply owp_mono; [apply load_finishes|]. done.
Qed.

Lemma ofor_finishes {A} n i (body : Z -> A -> outcome A) (I : A -> Prop) a :
  I a -> (forall i a, I a -> owp total (body i a) I) -> owp total (ofor n i body a) I.
Proof.
  intros Ha Hb. revert i a Ha. induction n as [|n IH]; intros i a Ha; cbn [ofor]; [done|].
  apply owp_bind. eapply owp_mono; [by apply Hb|]. intros a' Ha'. by apply IH.
Qed.

Create HintDb encoders discriminated.
#[export] Hint Constants Opaque : encoders.
#[export] Hint Extern 5 (0 <= _ < 4294967296) =>
  repeat case_match; (apply u32_range || lia) : encoders.
#[export] Hint Resolve store_finishes load_finishes deref_finishes write_char_finishes
  write_uint_16_finishes write_utf8_string_finishes memcpy_finishes read_char_finishes
  read_uint16_finishes decode_len_finishes write_len_finishes aload_finishes astore_finishes : encoders.

Lemma plain_success : plain SUCCESS.
Proof. by split. Qed.
Lemma plain_failure : plain FAILURE.
Proof. by split. Qed.
Lemma plain_tx_short : plain MQTT_TX_BUFFER_TOO_SHORT_ERROR.
Proof. by split. Qed.
Lemma plain_rx_short : plain MQTT_RX_BUFFER_TOO_SHORT_ERROR.
Proof. by split. Qed.
Lemma plain_null : plain NULL_VALUE_ERROR.
Proof. by split. Qed.
Lemma plain_length : plain MQTT_DECODE_REMAINING_LENGTH_ERROR.
Proof. by split. Qed.
Lemma plain_version : plain MQTT_CONNACK_UNACCEPTABLE_PROTOCOL_VERSION_ERROR.
Proof. by split. Qed.
#[export] Hint Resolve plain_success plain_failure plain_tx_short plain_rx_short plain_null
  plain_length plain_version : core.

(** Step through straight-line code whose callees are known to finish. *)
Ltac finish_step :=
  lazymatch goal with
  | |- owp _ (obind _ _) _ => apply owp_bind
  | |- owp _ (Done _) _ => apply owp_done
  | |- owp _ Undef _ => exact I || reflexivity
  | |- owp _ (if ?b then _ else _) _ => destruct b eqn:?
  | |- owp _ (match ?x with _ => _ end) _ => destruct x eqn:?
  | |- owp _ (let _ := _ in _) _ => cbv zeta
  | |- owp _ _ _ => eapply owp_mono; [eauto with encoders|]
  end.
Ltac finish :=
  repeat (finish_step; cbv beta zeta; intros); simplify_eq;
  try (split; [eexists; split; [reflexivity|congruence]|]);
  repeat match goal with
  | |- match ?x with _ => _ end => destruct x
  | H : match ?x with _ => _ end |- _ => destruct x
  end; try done; try congruence;
  eauto 6 using init_header_plain; try (by split).

(** The result of a serialiser: the transmit buffer keeps its size, and when the length could be
    stored before it is stored after. *)
Definition serialised (m : bytes) (r : IoT_Error_t * option bytes * option Z) : Prop :=
  let '(rc, buf, len) := r in (exists b, buf = Some b /\ zlen b = zlen m) /\ is_Some len /\ plain rc.

Lemma serialize_publish_finishes m txBufLen dup qos retained packetId topic topicLen payload payloadLen old :
  owp total (_aws_iot_mqtt_internal_serialize_publish (Some m) txBufLen dup qos retained packetId
    topic topicLen payload payloadLen (Some old)) (serialised m).
Proof. unfold _aws_iot_mqtt_internal_serialize_publish, serialised. cbv zeta. finish. Qed.

Lemma serialize_ack_finishes m txBufLen t dup packetId old :
  owp total (aws_iot_mqtt_internal_serialize_ack (Some m) txBufLen t dup packetId (Some old))
    (serialised m).
Proof. unfold aws_iot_mqtt_internal_serialize_ack, serialised. cbv zeta. finish. Qed.

Lemma serialize_zero_finishes m txBufLen t old :
  owp total (aws_iot_mqtt_internal_serialize_zero (Some m) txBufLen t (Some old)) (serialised m).
Proof. unfold aws_iot_mqtt_internal_serialize_zero, serialised. cbv zeta. finish. Qed.

Lemma connect_packet_length_range p : 0 <= _aws_iot_get_connect_packet_length p < 4294967296.
Proof. unfold _aws_iot_get_connect_packet_length. repeat case_match; apply u32_range. Qed.
#[export] Hint Resolve connect_packet_length_range : encoders.

Lemma serialize_connect_finishes m txBufLen p old :
  owp total (_aws_iot_mqtt_serialize_connect (Some m) txBufLen (Some p) (Some old)) (serialised m).
Proof. unfold _aws_iot_mqtt_serialize_connect, serialised. cbv zeta. finish. Qed.

Lemma rem_len_finishes (f : Z -> Z) n lens :
  owp total (ofor n 0 (fun i rem_len => let! l := aload lens i in Done (u32 (rem_len + f l))) 2)
    (fun l => 0 <= l < 4294967296).
Proof.
  apply ofor_finishes; [lia|]. intros. apply owp_bind. eapply owp_mono; [apply aload_finishes|].
  intros. apply owp_done, u32_range.
Qed.

Lemma write_loop_finishes n (body : Z -> bytes * Z -> outcome (bytes * Z)) (m : bytes) (p : Z) :
  (forall i m p, owp total (body i (m, p)) (fun '(m', _) => zlen m' = zlen m)) ->
  owp total (ofor n 0 body (m, p)) (fun '(m', _) => zlen m' = zlen m).
Proof.
  intros H. apply (ofor_finishes n 0 body (fun '(m', _) => zlen m' = zlen m)); [done|].
  intros i [m1 p1] H1. eapply owp_mono; [apply H|]. intros [m2 p2] H2. congruence.
Qed.

Lemma serialize_subscribe_finishes m txBufLen dup packetId n names lens qoss old :
  owp total (_aws_iot_mqtt_serialize_subscribe (Some m) txBufLen dup packetId n names lens qoss (Some old))
    (serialised m).
Proof.
  unfold _aws_iot_mqtt_serialize_subscribe, serialised. cbv zeta.
  apply owp_bind. eapply owp_mono; [apply (rem_len_finishes (fun l => l + 2 + 1))|].
  intros len Hlen. finish_step; [by finish|]. finish_step; cbv beta. finish_step; [by finish|].
  apply owp_bind. eapply owp_mono; [apply deref_finishes|]. intros hd Hhd.
  apply owp_bind. eapply owp_mono; [apply write_char_finishes|]. intros [m1 p1] H1.
  apply owp_bind. eapply owp_mono; [by apply write_len_finishes|]. intros [k m2] H2.
  apply owp_bind. eapply owp_mono; [apply write_uint_16_finishes|]. intros [m3 p3] H3.
  apply owp_bind. eapply owp_mono; [apply write_loop_finishes|].
  - intros. finish.
  - intros [m4 p4] H4. split; [|eauto]. eexists. split; [done|]. congruence.
Qed.

Lemma serialize_unsubscribe_finishes m txBufLen dup packetId n names lens old :
  owp total (_aws_iot_mqtt_serialize_unsubscribe m txBufLen dup packetId n names lens old)
    (fun '(rc, m', _) => zlen m' = zlen m /\ plain rc).
Proof.
  unfold _aws_iot_mqtt_serialize_unsubscribe. cbv zeta.
  apply owp_bind. eapply owp_mono; [apply (rem_len_finishes (fun l => l + 2))|].
  intros len Hlen. finish_step; [by finish|]. finish_step; cbv beta. finish_step; [by finish|].
  apply owp_bind. eapply owp_mono; [apply deref_finishes|]. intros hd Hhd.
  apply owp_bind. eapply owp_mono; [apply write_char_finishes|]. intros [m1 p1] H1.
  apply owp_bind. eapply owp_mono; [by apply write_len_finishes|]. intros [k m2] H2.
  apply owp_bind. eapply owp_mono; [apply write_uint_16_finishes|]. intros [m3 p3] H3.
  apply owp_bind. eapply owp_mono; [apply write_loop_finishes|].
  - intros. finish.
  - intros [m4 p4] H4. simpl. split; [congruence|done].
Qed.

Lemma deserialize_connack_finishes s c m n :
  owp total (_aws_iot_mqtt_deserialize_connack (Some s) (Some c) (Some m) n)
    (fun '(rc, s', c') => is_Some s' /\ is_Some c' /\ plain rc).
Proof. unfold _aws_iot_mqtt_deserialize_connack. cbv zeta. finish; eauto. Qed.

Lemma deserialize_ack_finishes t d i m n :
  owp total (aws_iot_mqtt_internal_deserialize_ack (Some t) (Some d) (Some i) (Some m) n)
    (fun '(rc, t', d', i') => is_Some t' /\ plain rc).
Proof. unfold aws_iot_mqtt_internal_deserialize_ack. cbv zeta. finish; eauto. Qed.

Lemma deserialize_unsuback_finishes i m n :
  owp total (_aws_iot_mqtt_deserialize_unsuback (Some i) (Some m) n) (fun '(rc, _) => plain rc).
Proof.
  unfold _aws_iot_mqtt_deserialize_unsuback. apply owp_bind.
  eapply owp_mono; [apply deserialize_ack_finishes|]. intros [[[rc t] d] i'] [[t' ->] Hp]. simpl.
  by destruct (_ && _).
Qed.

Lemma read_string_finishes m s n p e :
  owp total (_aws_iot_mqtt_read_string_with_len m s n p e) (fun _ => True).
Proof. unfold _aws_iot_mqtt_read_string_with_len. cbv zeta. finish. Qed.
#[export] Hint Resolve read_string_finishes : encoders.

Lemma deserialize_publish_finishes out m n :
  is_Some (po_dup out) -> is_Some (po_qos out) -> is_Some (po_retained out) ->
  is_Some (po_packetId out) ->
  owp total (aws_iot_mqtt_internal_deserialize_publish out m n)
    (fun '(rc, out') => plain rc /\ is_Some (po_dup out') /\ is_Some (po_qos out') /\
       is_Some (po_retained out') /\ is_Some (po_packetId out')).
Proof.
  intros [d Hd] [q Hq] [r Hr] [i Hi]. unfold aws_iot_mqtt_internal_deserialize_publish.
  rewrite Hd, Hq, Hr, Hi. cbv zeta.
  finish; rewrite ?Hd, ?Hq, ?Hr, ?Hi; cbn; rewrite ?Hi; repeat split; eauto.
Qed.

Lemma deserialize_suback_finishes i max n q m len :
  0 <= max < 4294967295 ->
  owp total (_aws_iot_mqtt_deserialize_suback (Some i) max (Some n) (Some q) m len)
    (fun '(rc, i', n', q') => plain rc /\ is_Some i' /\ is_Some n' /\ is_Some q').
Proof.
  intros Hmax. unfold _aws_iot_mqtt_deserialize_suback. cbv zeta.
  repeat (lazymatch goal with |- owp _ (oloop _ _ _) _ => fail | _ => finish_step end;
    cbv beta zeta; intros); simplify_eq; eauto.
  apply (owp_oloop total (fun '(_, count, _) => 0 <= count <= max + 1)
    (fun '(_, count, _) => Z.to_nat (max + 2 - count))); [lia| |lia].
  intros [[p c] qs] Hc. finish_step; [by finish; eauto|]. finish_step; [by finish; eauto|].
  apply owp_bind. eapply owp_mono; [apply read_char_finishes|]. intros [ch p'] _.
  apply owp_bind. eapply owp_mono; [apply astore_finishes|]. intros qs' _. simpl.
  rewrite u32_id by lia. lia.
Qed.

(** ** Properties *)

(** C9: [_aws_iot_mqtt_internal_serialize_publish] writes exactly the PUBLISH packet of MQTT 3.1.1
    section 3.3 at the start of the buffer (fixed header with the minimal remaining length, topic,
    packet id for quality of service above 0, payload), writes nothing behind it, reports its
    length, and refuses with MQTT_TX_BUFFER_TOO_SHORT_ERROR and an untouched buffer when it does not
    fit; the receiving [aws_iot_mqtt_internal_deserialize_publish] then returns the flags, the
    packet id and pointers to the same topic and payload. *)
Theorem publish_roundtrip (m : bytes) (txBufLen dup qos retained packetId : Z)
    (topicmem : option bytes) (topic payloadmem payload rest : bytes) (old : Z) (out : publish_out)
    (id0 : option Z) :
  (qos = 0 \/ qos = 1) -> 0 <= packetId < 65536 -> zlen topic < 65536 ->
  readable topicmem (zlen topic) topic -> load_list payloadmem 0 (zlen payload) = Done payload ->
  4 <= txBufLen <= zlen m -> txBufLen <= MAX_REMAINING_LENGTH ->
  zlen (publish_body topic qos packetId payload) <= MAX_REMAINING_LENGTH ->
  is_Some (po_dup out) -> is_Some (po_qos out) -> is_Some (po_retained out) ->
  po_packetId out = Some id0 ->
  let body := publish_body topic qos packetId payload in
  let pkt := mqtt_packet (mqtt_header PUBLISH (bit dup) qos (bit retained)) body in
  let o := _aws_iot_mqtt_internal_serialize_publish (Some m) txBufLen dup qos retained packetId
             topicmem (zlen topic) (Some payloadmem) (zlen payload) (Some old) in
  o = (if txBufLen <? aws_iot_mqtt_internal_get_final_packet_length_from_remaining_length (zlen body)
       then Done (MQTT_TX_BUFFER_TOO_SHORT_ERROR, Some m, Some old)
       else Done (SUCCESS, Some (pkt ++ drop (length pkt) m), Some (zlen pkt))) /\
  exists topicName payloadOff,
    aws_iot_mqtt_internal_deserialize_publish out (pkt ++ rest) txBufLen =
      Done (SUCCESS, mkPublishOut (Some (bit dup)) (Some qos) (Some (bit retained))
        (Some (if qos =? 1 then Some packetId else id0))
        (Some topicName) (zlen topic) payloadOff (zlen payload)) /\
    load_list (pkt ++ rest) topicName (zlen topic) = Done topic /\
    load_list (pkt ++ rest) payloadOff (zlen payload) = Done payload.
Proof.
  intros Hqos Hid Ht Hr Hp Hm Hmax Hbody Hd Hq Hre Hi body pkt o.
  assert (Hq1 : (if qos =? 1 then 1 else 0) = qos) by (by destruct Hqos as [-> | ->]).
  assert (Hq2 : (0 <? qos) = (qos =? 1)) by (by destruct Hqos as [-> | ->]).
  assert (Hbit : forall z, 0 <= bit z < 2) by (intros z; unfold bit; destruct (1 =? z); lia).
  split.
  - pose proof (serialize_publish_spec m txBufLen dup qos retained packetId topicmem (zlen topic)
      topic payloadmem (zlen payload) payload old) as H. unfold encodes in H. rewrite Hq1 in H.
    apply H; done || lia.
  - destruct (mqtt_header_fields PUBLISH (bit dup) qos (bit retained)) as (Hb & H1 & H2 & H3 & H4);
      [done|apply Hbit|lia|apply Hbit|].
    set (h := mqtt_header PUBLISH (bit dup) qos (bit retained)) in *.
    pose proof (deserialize_publish_spec h topic packetId payload rest txBufLen out id0 Hb H1) as E.
    cbv zeta in E. rewrite H2, !H3, H4, Hq2 in E.
    do 2 eexists. unfold pkt, body. rewrite E by (done || lia). split; [done|].
    unfold publish_body. rewrite Hq2. clear E.
    set (pre := h :: remaining_length (zlen (mqtt_string topic ++
      (if qos =? 1 then mqtt_uint16 packetId else []) ++ payload))).
    assert (Hpre : 1 + zlen (remaining_length (zlen (mqtt_string topic ++
      (if qos =? 1 then mqtt_uint16 packetId else []) ++ payload))) = zlen pre)
      by (unfold pre; rewrite zlen_cons; lia).
    rewrite Hpre. unfold mqtt_packet, mqtt_string.
    change (h :: remaining_length ?n ++ ?b) with ((h :: remaining_length n) ++ b). fold (mqtt_string topic).
    fold pre. split.
    + replace ((pre ++ mqtt_string topic ++ (if qos =? 1 then mqtt_uint16 packetId else []) ++ payload) ++ rest)
        with ((pre ++ mqtt_uint16 (zlen topic)) ++ topic ++
              (if qos =? 1 then mqtt_uint16 packetId else []) ++ payload ++ rest)
        by (unfold mqtt_string; by rewrite <- !app_assoc).
      replace (zlen pre + 2) with (zlen (pre ++ mqtt_uint16 (zlen topic))) by zlia.
      by apply load_list_app.
    + replace ((pre ++ mqtt_string topic ++ (if qos =? 1 then mqtt_uint16 packetId else []) ++ payload) ++ rest)
        with ((pre ++ mqtt_string topic ++ (if qos =? 1 then mqtt_uint16 packetId else [])) ++ payload ++ rest)
        by (by rewrite <- !app_assoc).
      replace (zlen pre + _ + _) with
        (zlen (pre ++ mqtt_string topic ++ (if qos =? 1 then mqtt_uint16 packetId else [])))
        by (destruct (qos =? 1); zlia).
      by apply load_list_app.
Qed.

Lemma publish_roundtrip_witness :
  let pkt := [50; 7; 0; 1; 97; 1; 2; 120; 121] in
  _aws_iot_mqtt_internal_serialize_publish (Some (replicate 16 0)) 16 0 1 0 258 (Some [97; 0]) 1
    (Some [120; 121]) 2 (Some 0) = Done (SUCCESS, Some (pkt ++ replicate 7 0), Some 9).
Proof.
  destruct (publish_roundtrip (replicate 16 0) 16 0 1 0 258 (Some [97; 0]) [97] [120; 121] [120; 121] [] 0
    (mkPublishOut (Some 0) (Some 0) (Some 0) (Some None) None 0 0 0) None) as [H _];
    first [by auto | lia | by vm_compute | by eexists |
      split; [done|intros _; by eexists] | exact H].
Defined.

(** C38: for connection parameters whose strings have the declared lengths,
    [_aws_iot_mqtt_serialize_connect] writes exactly the CONNECT packet of MQTT 3.1.1 section 3.1:
    protocol name and level, the connect flags computed from the parameters, keep-alive, client
    identifier, will topic and message when present, user name and password when present; its
    length is the one [_aws_iot_get_connect_packet_length] computed; a packet that does not fit is
    refused with an untouched buffer. *)
Theorem connect_packet_encoding (m : bytes) (txBufLen : Z) (p : IoT_Client_Connect_Params)
    (id wt wm user pass : bytes) (old : Z) :
  connect_ok p id wt wm user pass -> txBufLen <= zlen m -> txBufLen <= MAX_REMAINING_LENGTH ->
  let body := connect_body p id wt wm user pass in
  let pkt := mqtt_packet (mqtt_header CONNECT 0 0 0) body in
  _aws_iot_get_connect_packet_length p = zlen body /\
  _aws_iot_mqtt_serialize_connect (Some m) txBufLen (Some p) (Some old) =
    (if txBufLen <? aws_iot_mqtt_internal_get_final_packet_length_from_remaining_length (zlen body)
     then Done (MQTT_TX_BUFFER_TOO_SHORT_ERROR, Some m, Some old)
     else Done (SUCCESS, Some (pkt ++ drop (length pkt) m), Some (zlen pkt))).
Proof.
  intros Hok Hm Hmax body pkt.
  split; [by apply connect_packet_length|]. by apply serialize_connect_spec.
Qed.

Definition sample_connect : IoT_Client_Connect_Params :=
  mkConnectParams MQTT_3_1_1 (Some [99; 49; 0]) 2 600 true true
    (mkWill (Some [119; 0]) 1 (Some [98; 121; 101; 0]) 3 true 1) (Some [117; 0]) 1 (Some [112; 0]) 1.

Lemma connect_packet_encoding_witness :
  _aws_iot_mqtt_serialize_connect (Some (replicate 64 7)) 64 (Some sample_connect) (Some 0) =
    Done (SUCCESS, Some ([16; 28; 0; 4; 77; 81; 84; 84; 4; 238; 2; 88; 0; 2; 99; 49; 0; 1; 119; 0; 3; 98;
      121; 101; 0; 1; 117; 0; 1; 112] ++ replicate 34 7), Some 30).
Proof.
  destruct (connect_packet_encoding (replicate 64 7) 64 sample_connect [99; 49] [119] [98; 121; 101]
    [117] [112] 0) as [_ H]; [|by vm_compute|by vm_compute|].
  - constructor; try (by vm_compute); try (intros _);
      try (split; [split; [done|intros _; by eexists]|by vm_compute]); by vm_compute.
  - rewrite H. reflexivity.
Defined.

(** [_aws_iot_mqtt_serialize_subscribe] and [_aws_iot_mqtt_serialize_unsubscribe] write, for any
    number of topic filters, exactly the SUBSCRIBE and UNSUBSCRIBE packets of MQTT 3.1.1 sections
    3.8 and 3.10 (flags 0010, packet id, each filter with its length and, for SUBSCRIBE, its
    requested quality of service), or refuse a packet that does not fit. *)
Theorem subscription_packets_encoding (m : bytes) (txBufLen dup packetId : Z) (fs : list filter_arg)
    (old : Z) :
  Forall filter_ok fs -> 0 <= packetId < 65536 -> txBufLen <= zlen m ->
  txBufLen <= MAX_REMAINING_LENGTH ->
  let sub := subscribe_body packetId (map (fun f => (fa_bytes f, fa_qos f)) fs) in
  let unsub := unsubscribe_body packetId (map fa_bytes fs) in
  zlen sub <= MAX_REMAINING_LENGTH -> zlen unsub <= MAX_REMAINING_LENGTH ->
  let subpkt := mqtt_packet (mqtt_header SUBSCRIBE (bit dup) 1 0) sub in
  let unsubpkt := mqtt_packet (mqtt_header UNSUBSCRIBE (bit dup) 1 0) unsub in
  _aws_iot_mqtt_serialize_subscribe (Some m) txBufLen dup packetId (zlen fs)
    (map fa_ptr fs) (map fa_len fs) (map fa_qos fs) (Some old) =
    (if txBufLen <? aws_iot_mqtt_internal_get_final_packet_length_from_remaining_length (zlen sub)
     then Done (MQTT_TX_BUFFER_TOO_SHORT_ERROR, Some m, Some old)
     else Done (SUCCESS, Some (subpkt ++ drop (length subpkt) m), Some (zlen subpkt))) /\
  _aws_iot_mqtt_serialize_unsubscribe m txBufLen dup packetId (zlen fs)
    (map fa_ptr fs) (map fa_len fs) old =
    (if txBufLen <? aws_iot_mqtt_internal_get_final_packet_length_from_remaining_length (zlen unsub)
     then Done (MQTT_TX_BUFFER_TOO_SHORT_ERROR, m, old)
     else Done (SUCCESS, unsubpkt ++ drop (length unsubpkt) m, zlen unsubpkt)).
Proof.
  intros Hfs Hid Hm Hmax sub unsub Hsub Hunsub subpkt unsubpkt. split.
  - pose proof (serialize_subscribe_spec m txBufLen dup packetId fs old Hfs Hid Hm Hmax Hsub) as H.
    unfold encodes in H. exact H.
  - exact (serialize_unsubscribe_spec m txBufLen dup packetId fs old Hfs Hid Hm Hmax Hunsub).
Qed.

Definition sample_filters : list filter_arg :=
  [mkFilter (Some [97; 47; 35; 0]) 3 1 [97; 47; 35]; mkFilter (Some [98; 0]) 1 0 [98]].

Lemma subscription_packets_encoding_witness :
  _aws_iot_mqtt_serialize_subscribe (Some (replicate 32 0)) 32 0 10 2 (map fa_ptr sample_filters)
    (map fa_len sample_filters) (map fa_qos sample_filters) (Some 0) =
  Done (SUCCESS, Some ([130; 12; 0; 10; 0; 3; 97; 47; 35; 1; 0; 1; 98; 0] ++ replicate 18 0), Some 14).
Proof.
  destruct (subscription_packets_encoding (replicate 32 0) 32 0 10 sample_filters 0) as [H _];
    [|lia|by vm_compute|by vm_compute|by vm_compute|by vm_compute|].
  - repeat constructor; try (intros _; by eexists); by vm_compute.
  - change (zlen sample_filters) with 2 in H. rewrite H. reflexivity.
Defined.

(** An acknowledgement written by [aws_iot_mqtt_internal_serialize_ack] is the four-byte packet
    of the standard and [aws_iot_mqtt_internal_deserialize_ack] reads its type, duplicate flag and
    packet id back; [_aws_iot_mqtt_deserialize_unsuback] accepts it exactly when it is an UNSUBACK. *)
Theorem ack_roundtrip (m rest : bytes) (txBufLen : Z) (t : MessageTypes) (dup packetId old t0 d0 i0 : Z) :
  t <> UNKNOWN -> 0 <= packetId < 65536 -> 4 <= txBufLen <= zlen m ->
  let pkt := mqtt_packet (mqtt_header t (bit dup) (if decide (PUBREL = t) then 1 else 0) 0)
               (mqtt_uint16 packetId) in
  aws_iot_mqtt_internal_serialize_ack (Some m) txBufLen t dup packetId (Some old) =
    Done (SUCCESS, Some (pkt ++ drop 4 m), Some 4) /\
  aws_iot_mqtt_internal_deserialize_ack (Some t0) (Some d0) (Some i0) (Some (pkt ++ rest)) txBufLen =
    Done (SUCCESS, Some (MessageTypes_value t), Some (bit dup), Some packetId) /\
  _aws_iot_mqtt_deserialize_unsuback (Some i0) (Some (pkt ++ rest)) txBufLen =
    Done (if decide (t = UNSUBACK) then SUCCESS else FAILURE, Some packetId).
Proof.
  intros Ht Hid Hm pkt.
  assert (Hbit : 0 <= bit dup < 2) by (unfold bit; destruct (1 =? dup); lia).
  destruct (mqtt_header_fields t (bit dup) (if decide (PUBREL = t) then 1 else 0) 0)
    as (_ & H1 & H2 & _); [done|done|by destruct (decide _)|done|].
  pose proof (fun t0 d0 => deserialize_ack_spec
    (mqtt_header t (bit dup) (if decide (PUBREL = t) then 1 else 0) 0)
    packetId [] rest txBufLen t0 d0 i0 Hid ltac:(lia)) as E.
  cbv zeta in E. rewrite app_nil_r, H1, H2 in E. fold pkt in E. split; [|split].
  - rewrite serialize_ack_spec by (done || lia). destruct (txBufLen <? 4) eqn:E2; [lia|]. done.
  - by apply E.
  - unfold _aws_iot_mqtt_deserialize_unsuback. rewrite E by done. cbn [obind deref].
    rewrite bool_decide_eq_true_2 by done. cbn [andb]. by destruct t.
Qed.

Lemma ack_roundtrip_witness :
  _aws_iot_mqtt_deserialize_unsuback (Some 0) (Some [176; 2; 4; 210]) 4 = Done (SUCCESS, Some 1234).
Proof.
  by destruct (ack_roundtrip [0; 0; 0; 0] [] 4 UNSUBACK 0 1234 0 0 0 0) as (_ & _ & H);
    [done|lia|by vm_compute|].
Defined.

(** On a well-formed CONNACK [_aws_iot_mqtt_deserialize_connack] succeeds and maps each return
    code of MQTT 3.1.1 table 3.1 to its own error code, any other to
    MQTT_CONNACK_UNKNOWN_ERROR; a packet of another type is refused with FAILURE. *)
Theorem connack_return_codes (h flags code rxBufLen s0 : Z) (rest : bytes) (c0 : IoT_Error_t) :
  4 <= rxBufLen ->
  _aws_iot_mqtt_deserialize_connack (Some s0) (Some c0)
    (Some (mqtt_packet h [flags; code] ++ rest)) rxBufLen =
  if MQTTHeader.type h =? 2
  then Done (SUCCESS, Some (MQTT_Connack_Header_Flags.sessionpresent flags),
    Some (if decide (0 <= code <= 5)
          then nth (Z.to_nat code) [MQTT_CONNACK_CONNECTION_ACCEPTED;
                 MQTT_CONNACK_UNACCEPTABLE_PROTOCOL_VERSION_ERROR; MQTT_CONNACK_IDENTIFIER_REJECTED_ERROR;
                 MQTT_CONNACK_SERVER_UNAVAILABLE_ERROR; MQTT_CONNACK_BAD_USERDATA_ERROR;
                 MQTT_CONNACK_NOT_AUTHORIZED_ERROR] MQTT_CONNACK_UNKNOWN_ERROR
          else MQTT_CONNACK_UNKNOWN_ERROR))
  else Done (FAILURE, Some s0, Some c0).
Proof.
  intros Hrx. destruct (Z.eqb_spec (MQTTHeader.type h) 2) as [Ht|Ht].
  - rewrite deserialize_connack_spec by done. do 3 f_equal.
    unfold connack_code. cbn [MQTT_Connack_Return_Codes_value].
    destruct (decide (0 <= code <= 5)) as [Hc|Hc].
    + assert (code = 0 \/ code = 1 \/ code = 2 \/ code = 3 \/ code = 4 \/ code = 5)
        as [-> |[-> |[-> |[-> |[-> | ->]]]]] by lia; reflexivity.
    + repeat (destruct (code =? _) eqn:E; [lia|clear E]). done.
  - unfold _aws_iot_mqtt_deserialize_connack. destruct (rxBufLen <? 4) eqn:E; [lia|].
    destruct (read_fixed_header h [flags; code] rest) as (-> & Hc & _); [vm_compute; discriminate|].
    rewrite Hc. cbn [obind MessageTypes_value].
    destruct (Z.eqb_spec 2 (MQTTHeader.type h)); [congruence|]. done.
Qed.

Lemma connack_return_codes_witness :
  _aws_iot_mqtt_deserialize_connack (Some 0) (Some FAILURE) (Some [32; 2; 0; 5; 0]) 5 =
    Done (SUCCESS, Some 0, Some MQTT_CONNACK_NOT_AUTHORIZED_ERROR).
Proof. apply (connack_return_codes 32 0 5 5 0 [0] FAILURE). lia. Defined.

(** [_aws_iot_mqtt_deserialize_suback] stores the return codes of a SUBACK in order, never
    outside an array of [maxExpectedQoSCount + 1] entries, and reports FAILURE for a packet with
    more than [maxExpectedQoSCount + 1] codes. *)
Theorem suback_return_codes (h packetId max n0 id0 rxBufLen : Z) (qoss0 qs rest : bytes) :
  MQTTHeader.type h = MessageTypes_value SUBACK -> 0 <= packetId < 65536 -> 5 <= rxBufLen ->
  0 <= max < 4294967295 -> max + 1 <= zlen qoss0 ->
  zlen (mqtt_uint16 packetId ++ qs) <= MAX_REMAINING_LENGTH ->
  let n := Z.min (zlen qs) (max + 1) in
  _aws_iot_mqtt_deserialize_suback (Some id0) max (Some n0) (Some qoss0)
    (mqtt_packet h (mqtt_uint16 packetId ++ qs) ++ rest) rxBufLen =
  Done (if zlen qs <=? max + 1 then SUCCESS else FAILURE, Some packetId, Some n,
        Some (take (Z.to_nat n) qs ++ drop (Z.to_nat n) qoss0)).
Proof. intros. by apply deserialize_suback_spec. Qed.

Lemma suback_return_codes_witness :
  _aws_iot_mqtt_deserialize_suback (Some 0) 1 (Some 0) (Some [0; 0; 0]) [144; 3; 0; 7; 128] 5 =
    Done (SUCCESS, Some 7, Some 1, Some [128; 0; 0]).
Proof.
  apply (suback_return_codes 144 7 1 0 0 5 [0; 0; 0] [128] []); (done || lia || by vm_compute).
Defined.

(** [aws_iot_mqtt_internal_deserialize_publish] does not check that a message above quality of
    service 0 has room for its packet id: on the QoS 1 message whose remaining length ends with the
    topic it reads the two bytes behind the packet as the id and returns SUCCESS with a payload
    length of 2^64 - 2. *)
Theorem publish_without_packet_id (topic : bytes) (i1 i2 : Z) (rest : bytes) (rxBufLen : Z) :
  zlen topic < 65536 -> 4 <= rxBufLen ->
  exists out,
    aws_iot_mqtt_internal_deserialize_publish
      (mkPublishOut (Some 0) (Some 0) (Some 0) (Some None) None 0 0 0)
      (mqtt_packet (mqtt_header PUBLISH 0 1 0) (mqtt_string topic) ++ i1 :: i2 :: rest) rxBufLen =
      Done (SUCCESS, out) /\
    po_packetId out = Some (Some (u16 (i2 + 256 * i1))) /\
    po_payloadLen out = 18446744073709551614.
Proof.
  intros Ht Hrx. set (h := mqtt_header PUBLISH 0 1 0).
  destruct (read_fixed_header h (mqtt_string topic) (i1 :: i2 :: rest)) as (-> & Hc & Hdec & Hpre);
    [rewrite MAX_REMAINING_LENGTH_value; pose proof (zlen_nonneg topic); zlia|].
  set (pre := h :: _) in *. pose proof (zlen_nonneg topic).
  unfold aws_iot_mqtt_internal_deserialize_publish.
  cbn [po_dup po_qos po_retained po_packetId po_topicName po_topicNameLen po_payload po_payloadLen].
  cbv zeta. destruct (rxBufLen <? 4) eqn:E; [lia|]. rewrite Hc. cbn [obind].
  change (negb (MessageTypes_value PUBLISH =? MQTTHeader.type h)) with false. cbv match.
  rewrite Hdec. cbn [obind]. destruct (decide (SUCCESS <> SUCCESS)) as [|_]; [done|]. rewrite Hpre.
  unfold _aws_iot_mqtt_read_string_with_len. rewrite zlen_mqtt_string.
  destruct (1 <? _) eqn:E1; [|lia]. unfold mqtt_string. rewrite <- app_assoc.
  rewrite read_uint16_app by lia. cbn [obind].
  destruct (zlen pre + 2 + zlen topic <=? _) eqn:E2; [|lia]. cbn [obind].
  rewrite bool_decide_eq_false_2 by (by intros []). cbn [orb].
  destruct (_ <? 0) eqn:E3; [lia|]. change (negb (MQTTHeader.qos h =? QOS0)) with true. cbv match.
  replace (zlen pre + 2 + zlen topic) with (zlen (pre ++ mqtt_uint16 (zlen topic) ++ topic)) by zlia.
  unfold aws_iot_mqtt_internal_read_uint16_t.
  replace (pre ++ mqtt_uint16 (zlen topic) ++ topic ++ i1 :: i2 :: rest)
    with ((pre ++ mqtt_uint16 (zlen topic) ++ topic) ++ i1 :: i2 :: rest) by (by rewrite <- !app_assoc).
  rewrite load_app. cbn [obind].
  replace (zlen (pre ++ mqtt_uint16 (zlen topic) ++ topic) + 1)
    with (zlen ((pre ++ mqtt_uint16 (zlen topic) ++ topic) ++ [i1])) by zlia.
  replace ((pre ++ mqtt_uint16 (zlen topic) ++ topic) ++ i1 :: i2 :: rest)
    with (((pre ++ mqtt_uint16 (zlen topic) ++ topic) ++ [i1]) ++ i2 :: rest) by (by rewrite <- !app_assoc).
  rewrite load_app. cbn [obind]. eexists. split; [done|]. cbn [po_packetId po_payloadLen]. split; [done|].
  rewrite !zlen_app, zlen_mqtt_uint16.
  replace (zlen pre + (2 + zlen topic) - (zlen pre + (2 + zlen topic) + 2)) with (-2) by lia. done.
Qed.

Lemma publish_without_packet_id_witness :
  exists out,
    aws_iot_mqtt_internal_deserialize_publish
      (mkPublishOut (Some 0) (Some 0) (Some 0) (Some None) None 0 0 0) [50; 3; 0; 1; 97; 0; 0] 7 =
      Done (SUCCESS, out) /\
    po_packetId out = Some (Some 0) /\ po_payloadLen out = 18446744073709551614.
Proof. apply (publish_without_packet_id [97] 0 0 [] 7); [by vm_compute|lia]. Defined.
