(* ===== verification/Topic.v ===== *)
(** * Topic filters: [_aws_iot_mqtt_internal_is_topic_matched]

    (src/aws_iot_mqtt_client_common_internal.c.)  The matcher walks a NUL-terminated filter and a
    topic name that lies at an offset of the receive buffer and has a length.  Its specification
    compares the two level by level, as section 4.7 of MQTT 3.1.1 describes them. *)

From S2P Require Export Types.

Definition SLASH : Z := 47.
Definition PLUS : Z := 43.
Definition HASH : Z := 35.

(** [nextpos = curn + 1; while(nextpos < curn_end && *nextpos != '/') nextpos = ++curn + 1;]
    as a function of [curn]; [m] is the object the topic name lies in. *)
Fixpoint skip_level (fuel : nat) (m : bytes) (curn curn_end : Z) : outcome Z :=
  match fuel with
  | O => NoFuel
  | S fuel' =>
      let nextpos := curn + 1 in
      if nextpos <? curn_end then
        let! c := load m nextpos in
        if negb (c =? SLASH) then skip_level fuel' m (curn + 1) curn_end else Done curn
      else Done curn
  end.

(** The two pointers are offsets, [curf] into the filter object and [curn] into [m]; every round
    moves [curf] and [curn] forward, so [topicNameLen + 1] rounds are enough. *)
Definition _aws_iot_mqtt_internal_is_topic_matched (pTopicFilter : option bytes) (m : bytes)
    (pTopicName : option Z) (topicNameLen : Z) : outcome Z :=
  match pTopicFilter, pTopicName with
  | Some filter, Some pTopicName =>
      let curn_end := pTopicName + topicNameLen in
      let fuel := S (Z.to_nat topicNameLen) in
      let! (curf, curn) :=
        oloop fuel (fun '(curf, curn) =>
          let! f := load filter curf in
          if negb (f =? 0) && (curn <? curn_end) then
            let! n := load m curn in
            if (n =? SLASH) && negb (f =? SLASH) then Done (inr (curf, curn))
            else if negb (f =? PLUS) && negb (f =? HASH) && negb (f =? n)
            then Done (inr (curf, curn))
            else
              let! curn :=
                if f =? PLUS then skip_level fuel m curn curn_end
                else if f =? HASH then Done (curn_end - 1)
                else Done curn in
              Done (inl (curf + 1, curn + 1))
          else Done (inr (curf, curn))) (0, pTopicName) in
      let! f := if curn =? curn_end then load filter curf else Done 1 in
      Done (if (curn =? curn_end) && (f =? 0) then 1 else 0)
  | _, _ => Done (IoT_Error_value NULL_VALUE_ERROR)
  end.

(** ** Specification *)

(** A topic or filter from its levels. *)
Definition separated (ls : list bytes) : bytes := concat (map (cons SLASH) ls).
Definition join (ls : list bytes) : bytes :=
  match ls with [] => [] | l :: ls => l ++ separated ls end.

(** Section 4.7.1 on levels, for non-empty levels: [#] matches all that remains, [+] one level,
    anything else itself. *)
Fixpoint level_match (f n : list bytes) : bool :=
  match f, n with
  | a :: f', b :: n' =>
      if bool_decide (a = [HASH]) then negb (bool_decide (b = []))
      else if bool_decide (a = [PLUS]) then negb (bool_decide (b = [])) && level_match f' n'
      else bool_decide (a = b) && level_match f' n'
  | [], [] => true
  | _, _ => false
  end.

(** A level of a filter: literal characters or one wildcard alone. *)
Definition literal (l : bytes) : Prop :=
  Forall (fun c => c <> 0 /\ c <> SLASH /\ c <> PLUS /\ c <> HASH) l.
Definition no_slash (l : bytes) : Prop := Forall (fun c => c <> SLASH) l.

(** Filters as the comment of the source requires them: [#] only at the end, wildcards only next to
    separators. *)
Fixpoint filter_wf (f : list bytes) : Prop :=
  match f with
  | [] => True
  | [l] => literal l \/ l = [PLUS] \/ l = [HASH]
  | l :: f' => (literal l \/ l = [PLUS]) /\ filter_wf f'
  end.

(** ** Lemmas *)

(** The matcher on character lists. *)
Fixpoint skip_to_slash (t : bytes) : bytes :=
  match t with
  | [] => []
  | c :: t' => if c =? SLASH then t else skip_to_slash t'
  end.

Fixpoint chars_match (f t : bytes) : bool :=
  match f, t with
  | [], [] => true
  | [], _ | _, [] => false
  | c :: f', n :: t' =>
      if (n =? SLASH) && negb (c =? SLASH) then false
      else if negb (c =? PLUS) && negb (c =? HASH) && negb (c =? n) then false
      else if c =? PLUS then chars_match f' (skip_to_slash t')
      else if c =? HASH then chars_match f' []
      else chars_match f' t'
  end.

Lemma skip_to_slash_length t : (length (skip_to_slash t) <= length t)%nat.
Proof. induction t as [|c t IH]; simpl; [lia|]. destruct (c =? SLASH); simpl; lia. Qed.

Lemma skip_level_spec t : forall fuel pre c post,
  (length t < fuel)%nat ->
  skip_level fuel (pre ++ c :: t ++ post) (zlen pre) (zlen pre + 1 + zlen t) =
    Done (zlen pre + zlen t - zlen (skip_to_slash t)).
Proof.
  induction t as [|d t IH]; intros fuel pre c post Hf; (destruct fuel as [|fuel]; [lia|]).
  - cbn [skip_level skip_to_slash]. change (zlen (@nil Z)) with 0.
    destruct (_ <? _) eqn:E; [lia|]. f_equal. lia.
  - cbn [skip_level skip_to_slash]. rewrite zlen_cons. pose proof (zlen_nonneg t).
    destruct (Z.ltb_spec (zlen pre + 1) (zlen pre + 1 + (1 + zlen t))); [|lia].
    replace (pre ++ c :: (d :: t) ++ post) with ((pre ++ [c]) ++ d :: t ++ post)
      by (by rewrite <- app_assoc).
    replace (zlen pre + 1) with (zlen (pre ++ [c])) by zlia.
    rewrite load_app. cbn [obind]. destruct (d =? SLASH) eqn:E; cbn [negb].
    + f_equal. zlia.
    + replace (zlen (pre ++ [c]) + (1 + zlen t)) with (zlen (pre ++ [c]) + 1 + zlen t) by lia.
      rewrite IH by (simpl in Hf; lia). f_equal. zlia.
Qed.

(** The suffix [skip_to_slash] leaves. *)
Lemma skip_to_slash_suffix t : exists skipped, t = skipped ++ skip_to_slash t.
Proof.
  induction t as [|c t [s IH]]; simpl; [by exists []|].
  destruct (c =? SLASH); [by exists []|]. exists (c :: s). simpl. by f_equal.
Qed.

Section matcher.
Variables (filter m : bytes) (curn_end : Z) (fuel0 : nat).

(** One round of the matcher's loop. *)
Definition match_step (x : Z * Z) : outcome (Z * Z + Z * Z) :=
  let '(curf, curn) := x in
  let! f := load filter curf in
  if negb (f =? 0) && (curn <? curn_end) then
    let! n := load m curn in
    if (n =? SLASH) && negb (f =? SLASH) then Done (inr (curf, curn))
    else if negb (f =? PLUS) && negb (f =? HASH) && negb (f =? n)
    then Done (inr (curf, curn))
    else
      let! curn :=
        if f =? PLUS then skip_level fuel0 m curn curn_end
        else if f =? HASH then Done (curn_end - 1)
        else Done curn in
      Done (inl (curf + 1, curn + 1))
  else Done (inr (curf, curn)).

Definition match_end (x : Z * Z) : outcome Z :=
  let '(curf, curn) := x in
  let! f := if curn =? curn_end then load filter curf else Done 1 in
  Done (if (curn =? curn_end) && (f =? 0) then 1 else 0).

Lemma match_loop_spec fs : forall ts fp mp post mpost fuel,
  filter = fp ++ fs ++ 0 :: post -> m = mp ++ ts ++ mpost -> curn_end = zlen mp + zlen ts ->
  no_nul fs -> (length ts < fuel)%nat -> (length ts < fuel0)%nat ->
  (let! x := oloop fuel match_step (zlen fp, zlen mp) in match_end x) =
    Done (if chars_match fs ts then 1 else 0).
Proof.
  induction fs as [|f fs IH]; intros ts fp mp post mpost fuel Hf Hm He Hn Hfuel Hfuel0;
    (destruct fuel as [|fuel]; [lia|]); cbn [oloop]; unfold match_step at 1; cbv beta iota.
  - rewrite Hf. cbn [app]. rewrite load_app. cbn [obind]. change (negb (0 =? 0)) with false.
    cbn [andb obind]. unfold match_end. destruct ts as [|n ts]; cbn [chars_match].
    + change (zlen (@nil Z)) with 0 in He. destruct (zlen mp =? curn_end) eqn:E; [|lia].
      rewrite Hf. cbn [app]. rewrite load_app. done.
    + rewrite zlen_cons in He. pose proof (zlen_nonneg ts).
      destruct (zlen mp =? curn_end) eqn:E; [lia|]. done.
  - inversion Hn as [|?? Hf0 Hn']; subst x l.
    assert (Hl : load filter (zlen fp) = Done f) by (rewrite Hf; apply load_app).
    rewrite Hl. cbn [obind]. destruct (f =? 0) eqn:E0; [lia|]. cbn [negb andb].
    destruct ts as [|n ts]; cbn [chars_match].
    { change (zlen (@nil Z)) with 0 in He. destruct (zlen mp <? curn_end) eqn:E; [lia|].
      cbn [obind]. unfold match_end. destruct (zlen mp =? curn_end) eqn:E2; [|lia].
      rewrite Hl. cbn [obind]. by rewrite E0. }
    rewrite zlen_cons in He. pose proof (zlen_nonneg ts).
    destruct (zlen mp <? curn_end) eqn:E; [|lia].
    rewrite Hm at 1. cbn [app]. rewrite load_app. cbn [obind].
    assert (Hfail : match_end (zlen fp, zlen mp) = Done 0).
    { unfold match_end. destruct (zlen mp =? curn_end) eqn:E2; [lia|]. done. }
    destruct ((n =? SLASH) && negb (f =? SLASH)); cbn [obind]; [exact Hfail|].
    destruct (negb (f =? PLUS) && negb (f =? HASH) && negb (f =? n)); cbn [obind]; [exact Hfail|].
    assert (Hf' : filter = (fp ++ [f]) ++ fs ++ 0 :: post) by (rewrite Hf; by rewrite <- app_assoc).
    replace (zlen fp + 1) with (zlen (fp ++ [f])) by zlia.
    destruct (f =? PLUS) eqn:Ep.
    + assert (Hsk : skip_level fuel0 m (zlen mp) curn_end =
                    Done (zlen mp + zlen ts - zlen (skip_to_slash ts))).
      { rewrite Hm, He. cbn [app].
        replace (zlen mp + (1 + zlen ts)) with (zlen mp + 1 + zlen ts) by lia.
        apply skip_level_spec. simpl in Hfuel0. lia. }
      rewrite Hsk. cbn [obind].
      destruct (skip_to_slash_suffix ts) as [sk Hs].
      replace (zlen mp + zlen ts - zlen (skip_to_slash ts) + 1) with (zlen (mp ++ n :: sk)).
      2: { rewrite Hs at 1. zlia. }
      pose proof (skip_to_slash_length ts). simpl in Hfuel, Hfuel0.
      rewrite (IH (skip_to_slash ts) _ _ post mpost); try done; try lia.
      * rewrite Hm. rewrite Hs at 1. cbn [app]. by rewrite <- !app_assoc.
      * rewrite He. rewrite Hs at 1. zlia.
    + destruct (f =? HASH); cbn [obind].
      * simpl in Hfuel, Hfuel0.
        replace (curn_end - 1 + 1) with (zlen (mp ++ n :: ts)) by zlia.
        rewrite (IH [] _ _ post mpost); try done; try (simpl; lia).
        -- rewrite Hm. cbn [app]. by rewrite <- app_assoc.
        -- change (zlen (@nil Z)) with 0. zlia.
      * simpl in Hfuel, Hfuel0. replace (zlen mp + 1) with (zlen (mp ++ [n])) by zlia.
        apply (IH ts _ _ post mpost); try done; try lia; [|zlia].
        rewrite Hm. by rewrite <- app_assoc.
Qed.
End matcher.

(** The source's matcher is the matcher on character lists. *)
Lemma is_topic_matched_chars fs fpost ts mp mpost :
  no_nul fs ->
  _aws_iot_mqtt_internal_is_topic_matched (Some (cstr fs ++ fpost)) (mp ++ ts ++ mpost)
    (Some (zlen mp)) (zlen ts) = Done (if chars_match fs ts then 1 else 0).
Proof.
  intros Hn. rewrite <- (match_loop_spec (cstr fs ++ fpost) (mp ++ ts ++ mpost) (zlen mp + zlen ts)
    (S (length ts)) fs ts [] mp fpost mpost (S (length ts))); try done; try lia.
  - unfold _aws_iot_mqtt_internal_is_topic_matched. rewrite zlen_to_nat. done.
  - unfold cstr. by rewrite <- app_assoc.
Qed.

(** *** Characters and levels *)

(** What follows a level: nothing, or a separator and the next level. *)
Definition after_level (r : bytes) : Prop := r = [] \/ exists r', r = SLASH :: r'.

Lemma separated_after ls : after_level (separated ls).
Proof. destruct ls; [by left|right; by eexists]. Qed.

Lemma chars_match_literal l : forall t fr tr,
  literal l -> no_slash t -> after_level fr -> after_level tr ->
  chars_match (l ++ fr) (t ++ tr) = bool_decide (l = t) && chars_match fr tr.
Proof.
  induction l as [|a l IH]; intros t fr tr Hl Ht Hfr Htr.
  - destruct Ht as [|c t Hc Ht]; cbn [app]; [by rewrite bool_decide_eq_true_2|].
    rewrite bool_decide_eq_false_2 by done. cbn [andb].
    destruct Hfr as [->|[r ->]]; cbn [chars_match]; [done|].
    destruct (c =? SLASH) eqn:E; [lia|]. cbn [andb].
    destruct (negb (SLASH =? PLUS) && negb (SLASH =? HASH) && negb (SLASH =? c)) eqn:E2; [done|].
    unfold SLASH, PLUS, HASH in *. lia.
  - inversion Hl as [|?? (Ha0 & Has & Hap & Hah) Hl']; subst.
    destruct Ht as [|c t Hc Ht]; cbn [app].
    + rewrite bool_decide_eq_false_2 by done. cbn [andb].
      destruct Htr as [->|[r ->]]; cbn [chars_match]; [done|].
      rewrite Z.eqb_refl. destruct (a =? SLASH) eqn:E; [lia|]. done.
    + cbn [chars_match]. destruct (c =? SLASH) eqn:E; [lia|]. cbn [andb].
      destruct (a =? PLUS) eqn:E1; [lia|]. destruct (a =? HASH) eqn:E2; [lia|]. cbn [negb andb].
      destruct (a =? c) eqn:E3; cbn [negb].
      * rewrite IH by done. f_equal. apply bool_decide_ext.
        assert (a = c) as -> by lia. split; congruence.
      * rewrite bool_decide_eq_false_2; [done|]. intros [= -> _]. lia.
Qed.

Lemma skip_to_slash_after t tr :
  no_slash t -> after_level tr -> skip_to_slash (t ++ tr) = tr.
Proof.
  intros Ht Htr. induction Ht as [|c t Hc Ht IH]; cbn [app skip_to_slash].
  - destruct Htr as [->|[r ->]]; done.
  - destruct (c =? SLASH) eqn:E; [lia|]. done.
Qed.

Lemma chars_match_plus t fr tr :
  no_slash t -> after_level tr ->
  chars_match (PLUS :: fr) (t ++ tr) = negb (bool_decide (t = [])) && chars_match fr tr.
Proof.
  intros Ht Htr. destruct Ht as [|c t Hc Ht]; cbn [app].
  - rewrite bool_decide_eq_true_2 by done. destruct Htr as [->|[r ->]]; done.
  - cbn [chars_match]. destruct (c =? SLASH) eqn:E; [lia|].
    rewrite bool_decide_eq_false_2 by done. change (negb (PLUS =? PLUS)) with false. cbn [andb negb].
    change (PLUS =? PLUS) with true. cbv match. by rewrite skip_to_slash_after.
Qed.

Lemma chars_match_hash t tr :
  no_slash t -> after_level tr -> chars_match [HASH] (t ++ tr) = negb (bool_decide (t = [])).
Proof.
  intros Ht Htr. destruct Ht as [|c t Hc Ht]; cbn [app].
  - rewrite bool_decide_eq_true_2 by done. destruct Htr as [->|[r ->]]; done.
  - cbn [chars_match]. destruct (c =? SLASH) eqn:E; [lia|].
    rewrite bool_decide_eq_false_2 by done. done.
Qed.

Lemma chars_match_separated f t :
  chars_match (separated f) (separated t) =
    match f, t with
    | [], [] => true
    | _ :: _, _ :: _ => chars_match (join f) (join t)
    | _, _ => false
    end.
Proof. destruct f, t; done. Qed.

Lemma literal_not_wild l : literal l -> l <> [PLUS] /\ l <> [HASH].
Proof.
  intros Hl. split; intros ->; inversion Hl as [|?? (_ & _ & Hp & Hh) _]; subst; done.
Qed.

Lemma chars_match_levels f : forall t,
  f <> [] -> t <> [] -> filter_wf f -> Forall no_slash t ->
  chars_match (join f) (join t) = level_match f t.
Proof.
  induction f as [|l f IH]; intros t Hf0 Ht0 Hwf Ht; [done|].
  destruct t as [|n t]; [done|]. inversion Ht as [|?? Hn Ht']; subst. cbn [join level_match].
  assert (Hrec : filter_wf f -> chars_match (separated f) (separated t) = level_match f t).
  { intros Hwf'. rewrite chars_match_separated. destruct f, t; try done. by apply IH. }
  assert (Hcase : (literal l \/ l = [PLUS]) /\ filter_wf f \/ l = [HASH] /\ f = []).
  { destruct f; simpl in Hwf; [|tauto]. destruct Hwf as [?|[?| ->]]; [left|left|right]; simpl; auto. }
  destruct Hcase as [[[Hl| ->] Hwf']|[-> ->]].
  - destruct (literal_not_wild l Hl). rewrite !(bool_decide_eq_false_2 (l = _)) by done.
    rewrite chars_match_literal by (auto using separated_after). by rewrite Hrec.
  - change (bool_decide ([PLUS] = [HASH])) with false. change (bool_decide ([PLUS] = [PLUS])) with true.
    cbn [app]. rewrite chars_match_plus by (auto using separated_after). by rewrite Hrec.
  - change (bool_decide ([HASH] = [HASH])) with true. cbn [separated map concat app].
    by rewrite chars_match_hash by (auto using separated_after).
Qed.

Lemma filter_wf_no_nul f : filter_wf f -> no_nul (join f).
Proof.
  assert (Hl : forall l, literal l \/ l = [PLUS] \/ l = [HASH] -> no_nul l).
  { intros l [Hl|[-> | ->]]; [|by repeat constructor|by repeat constructor].
    eapply Forall_impl; [|exact Hl]. simpl. tauto. }
  destruct f as [|l f]; [constructor|]. revert l. induction f as [|l2 f IH]; intros l Hwf.
  - cbn [join separated map concat]. rewrite app_nil_r. by apply Hl.
  - destruct Hwf as [Hw Hwf]. cbn [join separated map concat]. apply Forall_app. split.
    + apply Hl. tauto.
    + cbn [app]. constructor; [done|]. by apply IH.
Qed.

(** *** The matcher always finishes *)

Lemma skip_level_finishes fuel : forall m curn curn_end,
  (Z.to_nat (curn_end - curn) <= fuel)%nat -> (0 < fuel)%nat ->
  owp total (skip_level fuel m curn curn_end) (fun c => curn <= c).
Proof.
  induction fuel as [|fuel IH]; intros m curn curn_end Hf H0; [lia|]. cbn [skip_level].
  destruct (Z.ltb_spec (curn + 1) curn_end); [|simpl; lia].
  apply owp_bind. unfold load. destruct (0 <=? _); [|done]. destruct (m !! _); [|done]. simpl.
  destruct (negb _); [|simpl; lia]. eapply owp_mono; [apply IH; lia|]. simpl. lia.
Qed.

Lemma is_topic_matched_finishes filter m pTopicName topicNameLen :
  owp total (_aws_iot_mqtt_internal_is_topic_matched filter m pTopicName topicNameLen) (fun _ => True).
Proof.
  unfold _aws_iot_mqtt_internal_is_topic_matched. destruct filter as [filter|], pTopicName as [p|]; try done.
  cbv zeta. apply owp_bind. set (fuel := S (Z.to_nat topicNameLen)).
  assert (Hld : forall m i (Q : outcome Z -> Prop), Q Undef -> (forall c, Q (Done c)) -> Q (load m i)).
  { intros m' i Q H1 H2. unfold load. destruct (0 <=? i); [|done]. by destruct (m' !! _). }
  apply (owp_oloop total (fun '(_, curn) => p <= curn)
    (fun '(_, curn) => Z.to_nat (p + topicNameLen - curn))); [lia| |unfold fuel; lia].
  intros [curf curn] Hc. apply (Hld filter curf); [done|]. intros f. cbn [obind].
  assert (Hend : forall x : Z * Z, owp total
    (let '(curf, curn) := x in let! f := if curn =? p + topicNameLen then load filter curf else Done 1 in
     Done (if (curn =? p + topicNameLen) && (f =? 0) then 1 else 0)) (fun _ => True)).
  { intros [cf cn]. destruct (cn =? _); [|done]. by apply (Hld filter cf). }
  destruct (f =? 0); cbn [negb andb]; [exact (Hend (curf, curn))|].
  destruct (Z.ltb_spec curn (p + topicNameLen)); [|exact (Hend (curf, curn))].
  apply (Hld m curn); [done|]. intros n. cbn [obind].
  destruct (_ && negb _); [exact (Hend (curf, curn))|]. destruct (_ && _ && _); [exact (Hend (curf, curn))|].
  apply owp_bind. destruct (f =? PLUS); [|destruct (f =? HASH)].
  - eapply owp_mono; [apply skip_level_finishes; unfold fuel; lia|]. simpl. lia.
  - simpl. lia.
  - simpl. lia.
Qed.

(** ** Properties *)

(** C11: for a filter whose wildcards each fill a level, [#] last (the format the source assumes), and
    any topic name lying anywhere in the receive buffer,
    [_aws_iot_mqtt_internal_is_topic_matched] terminates, reads only the filter up to its NUL and
    the topic's bytes, and returns 1 exactly when the levels match as MQTT 3.1.1 section 4.7
    prescribes, where a wildcard matches non-empty levels only. *)
Theorem topic_matching (f t : list bytes) (fpost mp mpost : bytes) :
  f <> [] -> t <> [] -> filter_wf f -> Forall no_slash t ->
  _aws_iot_mqtt_internal_is_topic_matched (Some (cstr (join f) ++ fpost)) (mp ++ join t ++ mpost)
    (Some (zlen mp)) (zlen (join t)) = Done (if level_match f t then 1 else 0).
Proof.
  intros Hf Ht Hwf Hs. rewrite is_topic_matched_chars by (by apply filter_wf_no_nul).
  by rewrite chars_match_levels.
Qed.

Lemma topic_matching_witness :
  _aws_iot_mqtt_internal_is_topic_matched (Some [97; 47; 43; 47; 35; 0]) [48; 97; 47; 98; 47; 99; 47; 100]
    (Some 1) 7 = Done 1.
Proof.
  apply (topic_matching [[97]; [PLUS]; [HASH]] [[97]; [98]; [99]; [100]] [] [48] []);
    [done|done| |repeat constructor; done].
  simpl. split; [left; repeat constructor; done|]. split; [by right|]. right. by right.
Defined.
