(* ===== verification/Threads.v ===== *)
(** * Mutexes: platform/linux/pthread/threads_pthread_wrapper.c

    The wrappers of the pthread calls, which the client uses when it is built with
    [_ENABLE_THREAD_SUPPORT_]. *)

From S2P Require Export Env.

Section threads.
Context {W : Type} {mutexes : MutexOps W}.

Definition pthread (op : mutex -> W -> Z * W) (pMutex : mutex) : M W Z :=
  fun w => Done (op pMutex w).

Definition aws_iot_thread_mutex_init (pMutex : mutex) : M W IoT_Error_t :=
  do! rc := pthread pthread_mutex_init pMutex in
  if negb (rc =? 0) then ret MUTEX_INIT_ERROR else ret SUCCESS.

Definition aws_iot_thread_mutex_lock (pMutex : mutex) : M W IoT_Error_t :=
  do! rc := pthread pthread_mutex_lock pMutex in
  if negb (rc =? 0) then ret MUTEX_LOCK_ERROR else ret SUCCESS.

Definition aws_iot_thread_mutex_trylock (pMutex : mutex) : M W IoT_Error_t :=
  do! rc := pthread pthread_mutex_trylock pMutex in
  if negb (rc =? 0) then ret MUTEX_LOCK_ERROR else ret SUCCESS.

Definition aws_iot_thread_mutex_unlock (pMutex : mutex) : M W IoT_Error_t :=
  do! rc := pthread pthread_mutex_unlock pMutex in
  if negb (rc =? 0) then ret MUTEX_UNLOCK_ERROR else ret SUCCESS.

Definition aws_iot_thread_mutex_destroy (pMutex : mutex) : M W IoT_Error_t :=
  do! rc := pthread pthread_mutex_destroy pMutex in
  if negb (rc =? 0) then ret MUTEX_DESTROY_ERROR else ret SUCCESS.
End threads.
