(* ===== verification/Sim.v ===== *)
(** * A concrete environment

    A deterministic instance of every class of [Env], on which the witnesses of the theorems run:
    the clock ticks at each reading, the peer's bytes are a list, what is sent is appended to
    another, and callbacks only log that they ran. *)

From S2P Require Export Env.

Record sim := mkSim {
  sim_time : Z;
  sim_in : bytes;
  sim_out : bytes;
  sim_log : list (fnptr * bytes)
}.

Definition tick (w : sim) : sim := mkSim (sim_time w + 1) (sim_in w) (sim_out w) (sim_log w).

#[export] Instance sim_clock : Clock sim := fun w =>
  (mkTimeval ((sim_time w + 1) / 1000000) ((sim_time w + 1) mod 1000000), tick w).

#[export] Instance sim_net : NetworkOps sim := {|
  iot_tls_init n ca crt key host prt tmo verify w := (SUCCESS, n, w);
  net_connect n p w := Done (SUCCESS, n, w);
  net_read n len t old w :=
    if len <=? zlen (sim_in w) then
      Done (SUCCESS, take (Z.to_nat len) (sim_in w), len,
            mkSim (sim_time w) (drop (Z.to_nat len) (sim_in w)) (sim_out w) (sim_log w))
    else Done (NETWORK_SSL_NOTHING_TO_READ, [], old, w);
  net_write n mem len t old w :=
    let! d := load_list mem 0 len in
    Done (SUCCESS, len, mkSim (sim_time w) (sim_in w) (sim_out w ++ d) (sim_log w));
  net_disconnect n w := Done (SUCCESS, w);
  net_isConnected := Some (fun n w => Done (NETWORK_PHYSICAL_LAYER_CONNECTED, w));
  net_destroy n w := Done (SUCCESS, w)
|}.

#[export] Instance sim_mutexes : MutexOps sim := {|
  thread_support := false;
  pthread_mutex_init m w := (0, w);
  pthread_mutex_lock m w := (0, w);
  pthread_mutex_trylock m w := (0, w);
  pthread_mutex_unlock m w := (0, w);
  pthread_mutex_destroy m w := (0, w)
|}.

#[export] Instance sim_app : AppOps sim := {|
  call_message_handler f p n msg data c w :=
    let! topic := load_list (readBuf (clientData c)) p n in
    Done (msg, c, mkSim (sim_time w) (sim_in w) (sim_out w) (sim_log w ++ [(f, topic)]));
  call_disconnect_handler f data c w :=
    Done (c, mkSim (sim_time w) (sim_in w) (sim_out w) (sim_log w ++ [(f, [])]))
|}.

(** A client with small buffers and short time-outs, subscribed to the filters given. *)
Definition sim_client (s : ClientState) (subs : list MessageHandlers) : AWS_IoT_Client :=
  mkClient (mkTimer (mkTimeval 0 0)) (mkTimer (mkTimeval 0 0)) (mkClientStatus s false true)
    (mkClientData 65534 1 1 0 1000 0 64 64 (replicate 64 0) (replicate 64 0) true
      IoT_Client_Connect_Params_initializer
      (subs ++ replicate (100 - length subs) (mkMessageHandlers None 0 0 None 0)) None 0)
    (mkNetwork (mkTLSConnectParams None None None None 0 0 true) 0).

Definition sim_world (incoming : bytes) : sim := mkSim 0 incoming [] [].
