(* ===== verification/Client.v ===== *)
(** * The client object: src/aws_iot_mqtt_client.c

    Initialisation, connection parameters, the guarded change of the client's state, packet
    identifiers and the accessors.  A function that takes [AWS_IoT_Client *pClient] takes a
    [client_ptr] here and runs over the client and the world. *)

From S2P Require Export Threads Timer Sim.

Section client.
Context {W : Type} {net : NetworkOps W} {mutexes : MutexOps W}.

Definition iotClientInitParamsDefault : IoT_Client_Init_Params := IoT_Client_Init_Params_initializer.
Definition iotMqttWillOptionsDefault : IoT_MQTT_Will_Options := IoT_MQTT_Will_Options_Initializer.
Definition iotClientConnectParamsDefault : IoT_Client_Connect_Params :=
  IoT_Client_Connect_Params_initializer.

Definition aws_iot_mqtt_get_client_state (pClient : client_ptr) : M (St W) ClientState :=
  match pClient with
  | pNULL => ret CLIENT_STATE_INVALID
  | pCLIENT => client (fun c => clientState (clientStatus c))
  end.

Definition aws_iot_mqtt_client_lock_mutex (pClient : client_ptr) (pMutex : option mutex)
    : M (St W) IoT_Error_t :=
  match pClient, pMutex with
  | pCLIENT, Some mtx =>
      do! isBlock := client (fun c => isBlockOnThreadLockEnabled (clientData c)) in
      do! threadRc :=
        if eqb false isBlock then world (aws_iot_thread_mutex_trylock mtx)
        else world (aws_iot_thread_mutex_lock mtx) in
      check threadRc (ret SUCCESS)
  | _, _ => ret NULL_VALUE_ERROR
  end.

Definition aws_iot_mqtt_client_unlock_mutex (pClient : client_ptr) (pMutex : option mutex)
    : M (St W) IoT_Error_t :=
  match pClient, pMutex with
  | pCLIENT, Some mtx => world (aws_iot_thread_mutex_unlock mtx)
  | _, _ => ret NULL_VALUE_ERROR
  end.

Definition aws_iot_mqtt_set_client_state (pClient : client_ptr)
    (expectedCurrentState newState : ClientState) : M (St W) IoT_Error_t :=
  match pClient with
  | pNULL => ret NULL_VALUE_ERROR
  | pCLIENT =>
      do! rc :=
        if thread_support then aws_iot_mqtt_client_lock_mutex pClient (Some state_change_mutex)
        else ret SUCCESS in
      check rc
        (do! s := aws_iot_mqtt_get_client_state pClient in
         do! rc :=
           if decide (expectedCurrentState = s) then
             run! assign (set_clientState newState) in
             ret SUCCESS
           else ret MQTT_UNEXPECTED_CLIENT_STATE_ERROR in
         if thread_support then
           do! threadRc := aws_iot_mqtt_client_unlock_mutex pClient (Some state_change_mutex) in
           ret (if bool_decide (rc = SUCCESS) && bool_decide (threadRc <> SUCCESS)
                then threadRc else rc)
         else ret rc)
  end.

(** The assignments copy field by field; [pPassword] is set from [pUsername], as the source does. *)
Definition aws_iot_mqtt_set_connect_params (pClient : client_ptr)
    (pNewConnectParams : option IoT_Client_Connect_Params) : M (St W) IoT_Error_t :=
  match pClient, pNewConnectParams with
  | pCLIENT, Some p =>
      run! assign (set_options (mkConnectParams
        (MQTTVersion p) (pClientID p) (clientIDLen p) (keepAliveIntervalInSec p) (isCleanSession p)
        (isWillMsgPresent p)
        (mkWill (will_pTopicName (will p)) (will_topicNameLen (will p)) (will_pMessage (will p))
          (will_msgLen (will p)) (will_isRetained (will p)) (will_qos (will p)))
        (pUsername p) (usernameLen p) (pUsername p) (passwordLen p))) in
      ret SUCCESS
  | _, _ => ret NULL_VALUE_ERROR
  end.

(** [pClient->clientData.messageHandlers[i]] *)
Definition handler_at (i : Z) : M (St W) MessageHandlers :=
  do! hs := client (fun c => messageHandlers (clientData c)) in
  lift (aload hs i).

Definition set_handler_at (i : Z) (h : MessageHandlers) : M (St W) unit :=
  do! hs := client (fun c => messageHandlers (clientData c)) in
  do! hs := lift (astore hs i h) in
  assign (set_messageHandlers hs).

Definition aws_iot_mqtt_init (pClient : client_ptr) (pInitParams : option IoT_Client_Init_Params)
    : M (St W) IoT_Error_t :=
  match pClient, pInitParams with
  | pCLIENT, Some p =>
      if negb (bool_decide (is_Some (pHostURL p))) || (0 =? port p)
         || negb (bool_decide (is_Some (pRootCALocation p)))
         || negb (bool_decide (is_Some (pDevicePrivateKeyLocation p)))
         || negb (bool_decide (is_Some (pDeviceCertLocation p)))
      then ret NULL_VALUE_ERROR
      else
        run! for_loop (Z.to_nat AWS_IOT_MQTT_NUM_SUBSCRIBE_HANDLERS) 0 (fun i =>
          do! h := handler_at i in
          run! set_handler_at i (mkMessageHandlers None (mh_topicNameLen h) QOS0 None 0) in
          ret (None : option unit)) in
        run! assign (set_packetTimeoutMs (mqttPacketTimeout_ms p)) in
        run! assign (set_commandTimeoutMs (mqttCommandTimeout_ms p)) in
        run! assign (set_writeBufSize AWS_IOT_MQTT_TX_BUF_LEN) in
        run! assign (set_readBufSize AWS_IOT_MQTT_RX_BUF_LEN) in
        run! assign (set_counterNetworkDisconnected 0) in
        run! assign (set_disconnectHandler (ip_disconnectHandler p)) in
        run! assign (set_disconnectHandlerData (ip_disconnectHandlerData p)) in
        run! assign (set_nextPacketId 1) in
        do! rc := aws_iot_mqtt_set_connect_params pClient (Some IoT_Client_Connect_Params_initializer) in
        check rc
          (do! rc :=
             if thread_support then
               run! assign (set_isBlockOnThreadLockEnabled (ip_isBlockOnThreadLockEnabled p)) in
               do! rc := world (aws_iot_thread_mutex_init state_change_mutex) in
               check rc
                 (do! rc := world (aws_iot_thread_mutex_init tls_read_mutex) in
                  check rc
                    (world (aws_iot_thread_mutex_init tls_write_mutex)))
             else ret SUCCESS in
           check rc
             (run! assign (set_isPingOutstanding false) in
              run! assign (set_isAutoReconnectEnabled (enableAutoReconnect p)) in
              do! n := client networkStack in
              do! (rc, n) := world (fun w =>
                let '(rc, n, w) := iot_tls_init n (pRootCALocation p) (pDeviceCertLocation p)
                  (pDevicePrivateKeyLocation p) (pHostURL p) (port p) (tlsHandshakeTimeout_ms p)
                  (isSSLHostnameVerify p) w in
                Done ((rc, n), w)) in
              run! assign (set_networkStack n) in
              if decide (rc <> SUCCESS) then
                run! assign (set_clientState CLIENT_STATE_INVALID) in
                ret rc
              else
                run! assign (fun c => set_pingTimer (init_timer (pingTimer c)) c) in
                run! assign (fun c => set_reconnectDelayTimer (init_timer (reconnectDelayTimer c)) c) in
                run! assign (set_clientState CLIENT_STATE_INITIALIZED) in
                ret SUCCESS))
  | _, _ => ret NULL_VALUE_ERROR
  end.

Definition next_packet_id (id : Z) : Z := u16 (if MAX_PACKET_ID =? id then 1 else id + 1).

Definition aws_iot_mqtt_get_next_packet_id : M (St W) Z :=
  do! id := client (fun c => nextPacketId (clientData c)) in
  let id := next_packet_id id in
  run! assign (set_nextPacketId id) in
  ret id.

(** The [switch] of [aws_iot_mqtt_is_client_connected]. *)
Definition is_connected_state (s : ClientState) : bool :=
  match s with
  | CLIENT_STATE_INVALID | CLIENT_STATE_INITIALIZED | CLIENT_STATE_CONNECTING => false
  | CLIENT_STATE_CONNECTED_IDLE
  | CLIENT_STATE_CONNECTED_YIELD_IN_PROGRESS
  | CLIENT_STATE_CONNECTED_PUBLISH_IN_PROGRESS
  | CLIENT_STATE_CONNECTED_SUBSCRIBE_IN_PROGRESS
  | CLIENT_STATE_CONNECTED_UNSUBSCRIBE_IN_PROGRESS
  | CLIENT_STATE_CONNECTED_RESUBSCRIBE_IN_PROGRESS
  | CLIENT_STATE_CONNECTED_WAIT_FOR_CB_RETURN => true
  | CLIENT_STATE_DISCONNECTING
  | CLIENT_STATE_DISCONNECTED_ERROR
  | CLIENT_STATE_DISCONNECTED_MANUALLY
  | CLIENT_STATE_PENDING_RECONNECT => false
  end.

Definition aws_iot_mqtt_is_client_connected (pClient : client_ptr) : M (St W) bool :=
  match pClient with
  | pNULL => ret false
  | pCLIENT => client (fun c => is_connected_state (clientState (clientStatus c)))
  end.

Definition aws_iot_is_autoreconnect_enabled (pClient : client_ptr) : M (St W) bool :=
  match pClient with
  | pNULL => ret false
  | pCLIENT => client (fun c => isAutoReconnectEnabled (clientStatus c))
  end.

Definition aws_iot_mqtt_autoreconnect_set_status (pClient : client_ptr) (newStatus : bool)
    : M (St W) IoT_Error_t :=
  match pClient with
  | pNULL => ret NULL_VALUE_ERROR
  | pCLIENT => run! assign (set_isAutoReconnectEnabled newStatus) in ret SUCCESS
  end.

Definition aws_iot_mqtt_set_disconnect_handler (pClient : client_ptr)
    (pDisconnectHandler : option fnptr) (pDisconnectHandlerData : voidptr) : M (St W) IoT_Error_t :=
  match pClient, pDisconnectHandler with
  | pCLIENT, Some _ =>
      run! assign (set_disconnectHandler pDisconnectHandler) in
      run! assign (set_disconnectHandlerData pDisconnectHandlerData) in
      ret SUCCESS
  | _, _ => ret NULL_VALUE_ERROR
  end.

Definition aws_iot_mqtt_get_network_disconnected_count (pClient : client_ptr) : M (St W) Z :=
  match pClient with
  | pNULL => lift Undef
  | pCLIENT => client (fun c => counterNetworkDisconnected (clientData c))
  end.

Definition aws_iot_mqtt_reset_network_disconnected_count (pClient : client_ptr) : M (St W) unit :=
  match pClient with
  | pNULL => lift Undef
  | pCLIENT => assign (set_counterNetworkDisconnected 0)
  end.
End client.

(** ** Lemmas *)

Section lemmas.
Context {W : Type} {net : NetworkOps W} {mutexes : MutexOps W}.

Lemma pthread_wrapper (op : mutex -> W -> Z * W) (e : IoT_Error_t) mtx (w : W) :
  (do! rc := pthread op mtx in if negb (rc =? 0) then ret e else ret SUCCESS) w =
    Done (if (op mtx w).1 =? 0 then SUCCESS else e, (op mtx w).2).
Proof.
  unfold bind, pthread, ret. destruct (op mtx w) as [rc w']. cbn [obind fst snd].
  by destruct (rc =? 0).
Qed.

(** Locking and unlocking never touch the client. *)
Lemma lock_mutex_result mtx (c : AWS_IoT_Client) (w : W) :
  exists rc w', aws_iot_mqtt_client_lock_mutex pCLIENT (Some mtx) (c, w) = Done (rc, (c, w')) /\
    (rc = SUCCESS \/ rc = MUTEX_LOCK_ERROR).
Proof.
  unfold aws_iot_mqtt_client_lock_mutex, aws_iot_thread_mutex_trylock, aws_iot_thread_mutex_lock.
  unfold bind at 1, client, gets. cbn [obind]. unfold bind at 1, world.
  destruct (eqb false _); rewrite pthread_wrapper; cbn [obind]; unfold check, ret;
    (destruct (_ =? 0); [destruct (decide (SUCCESS = SUCCESS)); [|done]|
     destruct (decide (MUTEX_LOCK_ERROR = SUCCESS)); [done|]]); eauto.
Qed.

Lemma unlock_mutex_result mtx (c : AWS_IoT_Client) (w : W) :
  exists rc w', aws_iot_mqtt_client_unlock_mutex pCLIENT (Some mtx) (c, w) = Done (rc, (c, w')) /\
    (rc = SUCCESS \/ rc = MUTEX_UNLOCK_ERROR).
Proof.
  unfold aws_iot_mqtt_client_unlock_mutex, aws_iot_thread_mutex_unlock, world.
  rewrite pthread_wrapper. cbn [obind]. destruct (_ =? 0); eauto.
Qed.

(** The loop of [aws_iot_mqtt_init] over the first [n] entries. *)
Definition clear_handler (h : MessageHandlers) : MessageHandlers :=
  mkMessageHandlers None (mh_topicNameLen h) QOS0 None 0.

Lemma set_messageHandlers_twice hs hs' c :
  set_messageHandlers hs (set_messageHandlers hs' c) = set_messageHandlers hs c.
Proof. done. Qed.

Lemma clear_loop n : forall pre post c (w : W),
  (n <= length post)%nat -> messageHandlers (clientData c) = pre ++ post ->
  for_loop n (zlen pre) (fun i =>
    do! h := handler_at i in
    run! set_handler_at i (mkMessageHandlers None (mh_topicNameLen h) QOS0 None 0) in
    ret (None : option unit)) (c, w) =
  Done (None, (match n with O => c | _ =>
    set_messageHandlers (pre ++ map clear_handler (take n post) ++ drop n post) c end, w)).
Proof.
  induction n as [|n IH]; intros pre post c w Hn Hc; [done|]. cbn [for_loop].
  destruct post as [|h post]; [simpl in Hn; lia|].
  unfold bind at 1. unfold handler_at, set_handler_at.
  unfold bind at 1. unfold bind at 1. unfold client, gets. cbn [obind fst]. rewrite Hc.
  pose proof (zlen_nonneg pre). pose proof (zlen_nonneg post).
  unfold lift at 1, aload. destruct (0 <=? zlen pre) eqn:E; [|lia].
  rewrite zlen_to_nat, list_lookup_middle by done. cbn [deref obind].
  unfold bind at 1. unfold bind at 1. cbn [obind fst]. rewrite Hc.
  unfold bind at 1. unfold lift, astore. rewrite zlen_app, zlen_cons.
  destruct (_ && _) eqn:E2; [|lia]. cbn [obind]. unfold assign, modify, ret. cbn [obind].
  rewrite zlen_to_nat, insert_app_r_alt, Nat.sub_diag by lia. cbn [insert list_insert].
  replace (zlen pre + 1) with (zlen (pre ++ [clear_handler h])) by zlia.
  unfold handler_at, set_handler_at, assign, modify, client, gets, ret, lift in IH.
  rewrite (IH (pre ++ [clear_handler h]) post).
  - destruct n; cbn [take drop map app]; [done|].
    rewrite set_messageHandlers_twice. cbn [take drop map app]. by rewrite <- app_assoc.
  - simpl in Hn. lia.
  - cbn [messageHandlers clientData set_messageHandlers]. by rewrite <- app_assoc.
Qed.
End lemmas.

(** ** Properties *)

(** [aws_iot_mqtt_set_client_state] is a compare-and-swap of the client's state under its mutex,
    in every environment: it stores the new state exactly when the expected one is current and the
    lock was obtained; otherwise it reports why and leaves the client unchanged; it never touches
    any other field. *)
Theorem set_client_state_compare_and_swap {W : Type} {mutexes : MutexOps W}
    (e n : ClientState) (c : AWS_IoT_Client) (w : W) :
  aws_iot_mqtt_set_client_state pNULL e n (c, w) = Done (NULL_VALUE_ERROR, (c, w)) /\
  exists rc c' w',
    aws_iot_mqtt_set_client_state pCLIENT e n (c, w) = Done (rc, (c', w')) /\
    ((rc = SUCCESS \/ rc = MUTEX_UNLOCK_ERROR) /\
       e = clientState (clientStatus c) /\ c' = set_clientState n c \/
     rc = MQTT_UNEXPECTED_CLIENT_STATE_ERROR /\ e <> clientState (clientStatus c) /\ c' = c \/
     rc = MUTEX_LOCK_ERROR /\ thread_support = true /\ c' = c) /\
    (thread_support = false -> w' = w /\ rc <> MUTEX_UNLOCK_ERROR).
Proof.
  split; [done|].
  assert (Hend : forall rc c' w1, rc <> MUTEX_UNLOCK_ERROR -> (thread_support = false -> w1 = w) ->
    exists rc' w', (if thread_support then
       do! threadRc := aws_iot_mqtt_client_unlock_mutex pCLIENT (Some state_change_mutex) in
       ret (if bool_decide (rc = SUCCESS) && bool_decide (threadRc <> SUCCESS) then threadRc else rc)
       else ret rc) (c', w1) = Done (rc', (c', w')) /\
      (rc' = rc \/ rc = SUCCESS /\ rc' = MUTEX_UNLOCK_ERROR) /\
      (thread_support = false -> w' = w /\ rc' <> MUTEX_UNLOCK_ERROR)).
  { intros rc c' w1 Hrc Hw. destruct thread_support eqn:Et.
    - destruct (unlock_mutex_result state_change_mutex c' w1) as (trc & w2 & E & Htrc).
      unfold bind. rewrite E. cbn [obind]. unfold ret. do 2 eexists. split; [done|]. split; [|done].
      destruct (bool_decide_reflect (rc = SUCCESS)) as [->|]; [|by left].
      destruct Htrc as [-> | ->]; [by left|by right].
    - unfold ret. do 2 eexists. split; [done|]. split; [by left|]. intros _. by split; [apply Hw|]. }
  unfold aws_iot_mqtt_set_client_state. unfold bind at 1.
  assert (Hlock : exists rc w1, (if thread_support
      then aws_iot_mqtt_client_lock_mutex pCLIENT (Some state_change_mutex) else ret SUCCESS) (c, w)
      = Done (rc, (c, w1)) /\ (rc = SUCCESS \/ rc = MUTEX_LOCK_ERROR /\ thread_support = true) /\
      (thread_support = false -> w1 = w)).
  { destruct thread_support eqn:Et.
    - destruct (lock_mutex_result state_change_mutex c w) as (rc & w1 & E & H).
      exists rc, w1. split; [done|]. split; [|done]. destruct H; auto.
    - exists SUCCESS, w. repeat split; auto. }
  destruct Hlock as (rc & w1 & E & [-> |[-> Ht]] & Hw); rewrite E; cbn [obind]; unfold check.
  2: { destruct (decide _) as [|_]; [done|]. exists MUTEX_LOCK_ERROR, c, w1. split; [done|]. split; [auto|].
       rewrite Ht. done. }
  destruct (decide (SUCCESS = SUCCESS)) as [_|]; [|done].
  unfold bind at 1. unfold aws_iot_mqtt_get_client_state, client, gets. cbn [obind fst].
  unfold bind at 1. destruct (decide (e = clientState (clientStatus c))) as [He|He].
  - unfold bind at 1. unfold assign, modify, ret at 1. cbn [obind].
    destruct (Hend SUCCESS (set_clientState n c) w1) as (rc' & w' & E' & Hrc & Hw'); [done|done|].
    exists rc', (set_clientState n c), w'. split; [exact E'|]. split; [|done]. left.
    split; [destruct Hrc as [->|[_ ->]]; auto|done].
  - unfold ret at 1. cbn [obind].
    destruct (Hend MQTT_UNEXPECTED_CLIENT_STATE_ERROR c w1) as (rc' & w' & E' & Hrc & Hw'); [done|done|].
    exists rc', c, w'. split; [exact E'|]. split; [|done].
    destruct Hrc as [->|[? _]]; [auto|done].
Qed.

(** [n] calls of [aws_iot_mqtt_get_next_packet_id]. *)
Fixpoint next_packet_ids {W : Type} (n : nat) : M (St W) (list Z) :=
  match n with
  | O => ret []
  | S n' => do! id := aws_iot_mqtt_get_next_packet_id in do! ids := next_packet_ids n' in ret (id :: ids)
  end.

Lemma next_packet_id_value id :
  1 <= id <= 65535 -> next_packet_id id = id mod 65535 + 1.
Proof.
  intros H. unfold next_packet_id, MAX_PACKET_ID. destruct (65535 =? id) eqn:E.
  - assert (id = 65535) as -> by lia. done.
  - rewrite u16_id by lia. rewrite Z.mod_small by lia. done.
Qed.

Lemma next_packet_ids_value {W : Type} n : forall id (c : AWS_IoT_Client) (w : W),
  1 <= id <= 65535 -> nextPacketId (clientData c) = id ->
  exists c', next_packet_ids n (c, w) =
    Done (map (fun k => (id + Z.of_nat k) mod 65535 + 1) (seq 0 n), (c', w)).
Proof.
  induction n as [|n IH]; intros id c w Hid Hc; [by eexists|].
  cbn [next_packet_ids]. unfold bind at 1.
  assert (E : aws_iot_mqtt_get_next_packet_id (c, w) =
    Done (id mod 65535 + 1, (set_nextPacketId (id mod 65535 + 1) c, w))).
  { unfold aws_iot_mqtt_get_next_packet_id, client, gets, bind, assign, modify, ret. cbn [obind fst].
    rewrite Hc, next_packet_id_value by done. done. }
  rewrite E. cbn [obind]. unfold bind.
  pose proof (Z.mod_pos_bound id 65535 eq_refl).
  destruct (IH (id mod 65535 + 1) (set_nextPacketId (id mod 65535 + 1) c) w) as [c' Hc'];
    [lia|done|].
  rewrite Hc'. cbn [obind]. exists c'. unfold ret. do 2 f_equal.
  cbn [seq map]. rewrite Z.add_0_r. f_equal.
  rewrite <- seq_shift, map_map. apply map_ext. intros k.
  replace (id mod 65535 + 1 + Z.of_nat k) with (id mod 65535 + Z.of_nat (S k)) by lia.
  by rewrite Zplus_mod_idemp_l.
Qed.

(** Packet identifiers are never 0 nor above 65535, and successive calls of
    [aws_iot_mqtt_get_next_packet_id] give 65535 distinct identifiers before one repeats. *)
Theorem packet_ids_distinct {W : Type} (n : nat) (c : AWS_IoT_Client) (w : W) :
  1 <= nextPacketId (clientData c) <= 65535 -> Z.of_nat n <= 65535 ->
  exists ids c', next_packet_ids n (c, w) = Done (ids, (c', w)) /\
    length ids = n /\ Forall (fun id => 1 <= id <= 65535) ids /\ NoDup ids.
Proof.
  intros Hid Hn. destruct (next_packet_ids_value n _ c w Hid eq_refl) as [c' E].
  do 2 eexists. split; [exact E|]. split; [by rewrite length_map, length_seq|]. split.
  - apply Forall_forall. intros x Hx. apply in_map_iff in Hx as (k & <- & _).
    pose proof (Z.mod_pos_bound (nextPacketId (clientData c) + Z.of_nat k) 65535 eq_refl). lia.
  - apply (NoDup_fmap_2_strong (fun k => (nextPacketId (clientData c) + Z.of_nat k) mod 65535 + 1));
      [|apply NoDup_seq].
    intros j k Hj Hk Heq. apply elem_of_seq in Hj, Hk.
    assert (H : (Z.of_nat j - Z.of_nat k) mod 65535 = 0).
    { replace (Z.of_nat j - Z.of_nat k) with
        (nextPacketId (clientData c) + Z.of_nat j - (nextPacketId (clientData c) + Z.of_nat k)) by lia.
      cbv beta in Heq. apply Z.add_cancel_r in Heq. by rewrite Zminus_mod, Heq, Z.sub_diag. }
    apply Z.mod_divide in H as [q Hq]; [|lia]. nia.
Qed.

Lemma packet_ids_distinct_witness :
  exists ids c', next_packet_ids 3 (sim_client CLIENT_STATE_CONNECTED_IDLE [], tt) = Done (ids, (c', tt)) /\
    length ids = 3%nat /\ Forall (fun id => 1 <= id <= 65535) ids /\ NoDup ids.
Proof.
  apply (packet_ids_distinct 3 (sim_client CLIENT_STATE_CONNECTED_IDLE []) tt).
  - vm_compute. split; discriminate.
  - lia.
Defined.

(** [aws_iot_mqtt_init] refuses NULL or missing parameters without touching the client; without
    thread support it otherwise succeeds as soon as [iot_tls_init] does, and the client it leaves is
    in state INITIALIZED, has no subscription, its first packet id, the configured timeouts and
    buffer sizes, cleared counters and the default connection options. *)
Theorem init_establishes {W : Type} {net : NetworkOps W} {mutexes : MutexOps W}
    (p : IoT_Client_Init_Params) (c : AWS_IoT_Client) (w : W) n' w' :
  thread_support = false -> length (messageHandlers (clientData c)) = 100%nat ->
  is_Some (pHostURL p) -> port p <> 0 -> is_Some (pRootCALocation p) ->
  is_Some (pDevicePrivateKeyLocation p) -> is_Some (pDeviceCertLocation p) ->
  iot_tls_init (networkStack c) (pRootCALocation p) (pDeviceCertLocation p)
    (pDevicePrivateKeyLocation p) (pHostURL p) (port p) (tlsHandshakeTimeout_ms p)
    (isSSLHostnameVerify p) w = (SUCCESS, n', w') ->
  exists c', aws_iot_mqtt_init pCLIENT (Some p) (c, w) = Done (SUCCESS, (c', w')) /\
    clientStatus c' = mkClientStatus CLIENT_STATE_INITIALIZED false (enableAutoReconnect p) /\
    Forall (fun h => topicName h = None /\ pApplicationHandler h = None) (messageHandlers (clientData c')) /\
    length (messageHandlers (clientData c')) = 100%nat /\
    nextPacketId (clientData c') = 1 /\ counterNetworkDisconnected (clientData c') = 0 /\
    packetTimeoutMs (clientData c') = mqttPacketTimeout_ms p /\
    commandTimeoutMs (clientData c') = mqttCommandTimeout_ms p /\
    writeBufSize (clientData c') = 131072 /\ readBufSize (clientData c') = 131072 /\
    options (clientData c') = IoT_Client_Connect_Params_initializer /\
    disconnectHandler (clientData c') = ip_disconnectHandler p /\ networkStack c' = n'.
Proof.
  intros Ht Hl Hh Hp Hr Hk Hd Hi.
  unfold aws_iot_mqtt_init. rewrite !bool_decide_eq_true_2 by done.
  destruct (0 =? port p) eqn:E; [lia|]. cbn [negb orb]. unfold bind at 1.
  pose proof (clear_loop (Z.to_nat AWS_IOT_MQTT_NUM_SUBSCRIBE_HANDLERS) [] _ c w
    ltac:(rewrite Hl; by vm_compute) eq_refl) as Hloop.
  change (zlen (@nil MessageHandlers)) with 0 in Hloop. rewrite Hloop. clear Hloop. cbn [obind].
  unfold bind at 1 2 3 4 5 6 7 8, assign, modify. cbn [obind].
  unfold bind at 1. cbn [aws_iot_mqtt_set_connect_params]. unfold bind at 1, assign, modify, ret at 1.
  cbn [obind]. unfold check at 1. destruct (decide (SUCCESS = SUCCESS)) as [_|]; [|done].
  rewrite Ht. unfold bind at 1, ret at 1. cbn [obind]. unfold check at 1.
  destruct (decide (SUCCESS = SUCCESS)) as [_|]; [|done].
  unfold bind at 1 2, assign, modify. cbn [obind]. unfold bind at 1, client, gets. cbn [obind fst].
  unfold bind at 1, world. cbn [networkStack set_clientState set_isPingOutstanding
    set_isAutoReconnectEnabled set_clientStatus set_options set_clientData set_nextPacketId
    set_disconnectHandlerData set_disconnectHandler set_counterNetworkDisconnected set_readBufSize
    set_writeBufSize set_commandTimeoutMs set_packetTimeoutMs set_messageHandlers].
  assert (Hz : Z.to_nat AWS_IOT_MQTT_NUM_SUBSCRIBE_HANDLERS = 100%nat) by done. rewrite Hz.
  cbn [networkStack set_messageHandlers set_clientData]. rewrite Hi. cbn [obind].
  unfold bind at 1, assign, modify. cbn [obind].
  destruct (decide (SUCCESS <> SUCCESS)) as [|_]; [done|].
  unfold bind at 1 2 3, assign, modify, ret. cbn [obind].
  eexists. split; [reflexivity|]. cbn [clientStatus clientData messageHandlers nextPacketId
    counterNetworkDisconnected packetTimeoutMs commandTimeoutMs writeBufSize readBufSize options
    disconnectHandler networkStack set_clientState set_isPingOutstanding
    set_isAutoReconnectEnabled set_clientStatus set_options set_clientData set_nextPacketId
    set_disconnectHandlerData set_disconnectHandler set_counterNetworkDisconnected set_readBufSize
    set_writeBufSize set_commandTimeoutMs set_packetTimeoutMs set_messageHandlers
    set_reconnectDelayTimer set_pingTimer set_networkStack isAutoReconnectEnabled clientState
    isPingOutstanding].
  split; [done|]. rewrite app_nil_l, take_ge, drop_ge, app_nil_r by lia. split.
  { apply Forall_fmap, Forall_true. by intros []. }
  split; [by rewrite length_map|]. repeat split.
Qed.

Definition sample_init : IoT_Client_Init_Params :=
  mkInitParams true (Some [104; 0]) 8883 (Some [97; 0]) (Some [98; 0]) (Some [99; 0]) 2000 20000 5000
    true None 0 false.

Lemma init_establishes_witness :
  exists c', aws_iot_mqtt_init pCLIENT (Some sample_init)
      (sim_client CLIENT_STATE_INVALID [], sim_world []) = Done (SUCCESS, (c', sim_world [])) /\
    clientState (clientStatus c') = CLIENT_STATE_INITIALIZED.
Proof.
  destruct (init_establishes sample_init (sim_client CLIENT_STATE_INVALID []) (sim_world [])
    (networkStack (sim_client CLIENT_STATE_INVALID [])) (sim_world [])) as (c' & H & Hs & _);
    [reflexivity|reflexivity|by eexists|discriminate|by eexists|by eexists|by eexists|reflexivity|].
  exists c'. split; [exact H|]. by rewrite Hs.
Defined.

(** [aws_iot_mqtt_set_connect_params] copies every option of the parameters except the password,
    into which it stores the user name: the options equal the parameters exactly when the two
    pointers are the same. *)
Theorem set_connect_params_password {W : Type} (p : IoT_Client_Connect_Params)
    (c : AWS_IoT_Client) (w : W) :
  exists c', aws_iot_mqtt_set_connect_params pCLIENT (Some p) (c, w) = Done (SUCCESS, (c', w)) /\
    pPassword (options (clientData c')) = pUsername p /\
    (options (clientData c') = p <-> pPassword p = pUsername p) /\
    clientStatus c' = clientStatus c /\ messageHandlers (clientData c') = messageHandlers (clientData c).
Proof.
  eexists. split; [reflexivity|]. split; [reflexivity|]. split; [|done]. cbn.
  destruct p as [? ? ? ? ? ? [] ? ? ? ?]; cbn. split; [by intros [= ->]|by intros ->].
Qed.
