(* ===== verification/Laws.v ===== *)
(** * What the client relies on, and how its operations change it

    [EnvLaws] states the behaviour of the environment that termination and the life cycle rest on:
    time advances, the peer sends finitely many bytes, the network interface returns, mutexes work,
    callbacks return and, like the API itself, leave the client in the state they found it in or in
    a state of rest.  [evolves] is that relation: every operation of the library satisfies it. *)

From S2P Require Export Client.

(** States in which no operation is in progress. *)
Definition quiescent (s : ClientState) : bool :=
  match s with
  | CLIENT_STATE_INVALID
  | CLIENT_STATE_INITIALIZED
  | CLIENT_STATE_CONNECTED_IDLE
  | CLIENT_STATE_DISCONNECTED_ERROR
  | CLIENT_STATE_DISCONNECTED_MANUALLY
  | CLIENT_STATE_PENDING_RECONNECT => true
  | _ => false
  end.

Abbreviation state_of c := (clientState (clientStatus c)).

(** What no operation changes between [aws_iot_mqtt_init] calls. *)
Definition same_config (c c' : AWS_IoT_Client) : Prop :=
  packetTimeoutMs (clientData c') = packetTimeoutMs (clientData c) /\
  commandTimeoutMs (clientData c') = commandTimeoutMs (clientData c) /\
  writeBufSize (clientData c') = writeBufSize (clientData c) /\
  readBufSize (clientData c') = readBufSize (clientData c).

Definition moves_to (s s' : ClientState) : Prop := s' = s \/ quiescent s' = true.

Section laws.
Context (W : Type) {clock : Clock W} {net : NetworkOps W} {mutexes : MutexOps W} {app : AppOps W}.

Class EnvLaws := {
  (** The time of the clock in microseconds, and a bound on the bytes still to be received. *)
  now : W -> Z;
  incoming : W -> nat;
  (** Message handlers return when they are called with this client and so many bytes still to be
      received: a handler that calls the API waits for answers, and may be called again meanwhile. *)
  reentry : AWS_IoT_Client -> nat -> Prop;
  world_le (w w' : W) : Prop := now w <= now w' /\ (incoming w' <= incoming w)%nat;
  evolves_to (c : AWS_IoT_Client) (w : W) (c' : AWS_IoT_Client) (w' : W) : Prop :=
    moves_to (state_of c) (state_of c') /\ same_config c c' /\ world_le w w';
  law_clock : forall w,
    normal (gettimeofday w).1 /\ micros (gettimeofday w).1 = now (gettimeofday w).2 /\
    now w < now (gettimeofday w).2 /\ incoming (gettimeofday w).2 = incoming w;
  law_init : forall n a b c d e f g w, world_le w (iot_tls_init n a b c d e f g w).2;
  law_connect : forall n p w,
    owp total (net_connect n p w) (fun '(_, _, w') => world_le w w');
  law_read : forall n len t old w,
    owp total (net_read n len t old w) (fun '(rc, data, read_len, w') =>
      world_le w w' /\ (incoming w' + length data <= incoming w)%nat /\ plain rc /\
      (rc = SUCCESS -> 0 <= len < 18446744073709551616 -> zlen data = len /\ read_len = len));
  law_write : forall n mem len t old w,
    owp total (net_write n mem len t old w) (fun '(_, _, w') => world_le w w');
  law_disconnect : forall n w, owp total (net_disconnect n w) (fun '(_, w') => world_le w w');
  law_isConnected : forall f n w,
    net_isConnected = Some f -> owp total (f n w) (fun '(_, w') => world_le w w');
  law_destroy : forall n w, owp total (net_destroy n w) (fun '(_, w') => world_le w w');
  law_mutex : forall m w, thread_support = true ->
    Forall (fun op : mutex -> W -> Z * W => (op m w).1 = 0 /\ world_le w (op m w).2)
      [pthread_mutex_init; pthread_mutex_lock; pthread_mutex_trylock; pthread_mutex_unlock;
       pthread_mutex_destroy];
  law_message_handler : forall f p n msg d c w, reentry c (incoming w) ->
    owp total (call_message_handler f p n msg d c w)
      (fun '(_, c', w') => evolves_to c w c' w');
  law_disconnect_handler : forall f d c w,
    owp total (call_disconnect_handler f d c w) (fun '(c', w') => evolves_to c w c' w')
}.
End laws.
Arguments EnvLaws W {clock net mutexes app}.
Arguments now {W clock net mutexes app EnvLaws} w.
Arguments incoming {W clock net mutexes app EnvLaws} w.
Arguments reentry W {clock net mutexes app EnvLaws} c k.

(** ** Lemmas *)

Section evolution.
Context {W : Type} {clock : Clock W} {net : NetworkOps W} {mutexes : MutexOps W} {app : AppOps W}.
Context {laws : EnvLaws W}.

#[export] Instance clock_laws : ClockLaws W.
Proof. constructor. intros w. exact (proj1 (law_clock W w)). Qed.

(** An operation that may only settle the client in another state of rest. *)
Definition evolves (s s' : St W) : Prop :=
  moves_to (state_of s.1) (state_of s'.1) /\ same_config s.1 s'.1 /\ world_le W s.2 s'.2.

(** An operation that keeps the client's state. *)
Definition steady (s s' : St W) : Prop :=
  state_of s'.1 = state_of s.1 /\ same_config s.1 s'.1 /\ world_le W s.2 s'.2.

#[export] Instance world_le_preorder : PreOrder (world_le W).
Proof.
  split; unfold world_le; [intros w; lia|]. intros w1 w2 w3. lia.
Qed.

#[export] Instance same_config_preorder : PreOrder same_config.
Proof.
  split; unfold same_config; [by intros c|]. intros c1 c2 c3 (? & ? & ? & ?) (? & ? & ? & ?).
  repeat split; congruence.
Qed.

#[export] Instance steady_preorder : PreOrder steady.
Proof.
  split; unfold steady.
  - intros s. repeat split; lia.
  - intros s1 s2 s3 (? & ? & ?) (? & ? & ?). split; [congruence|]. split; [by etrans|]. by etrans.
Qed.

#[export] Instance evolves_preorder : PreOrder evolves.
Proof.
  split; unfold evolves.
  - intros s. split; [by left|]. by split.
  - intros s1 s2 s3 (H1 & ? & ?) (H2 & ? & ?). split; [|split; by etrans].
    unfold moves_to in *. destruct H2 as [->|?]; [done|by right].
Qed.

Lemma steady_evolves s s' : steady s s' -> evolves s s'.
Proof. intros (H & ? & ?). split; [by left|done]. Qed.

Lemma steady_assign (f : AWS_IoT_Client -> AWS_IoT_Client) c w :
  (forall c, state_of (f c) = state_of c /\ same_config c (f c)) -> steady (c, w) (f c, w).
Proof. intros H. destruct (H c). repeat split; simpl; auto; try lia; apply H. Qed.

Lemma steady_world c w w' : world_le W w w' -> steady (c, w) (c, w').
Proof. intros H. split; [done|]. split; [by split|done]. Qed.

(** *** Specifications of the primitives *)

Lemma wp_clock_expired t (Q : bool -> St W -> Prop) c w :
  (forall b w', world_le W w w' -> now w < now w' ->
     (normal (end_time t) -> b = (expiry t <=? now w')) -> Q b (c, w')) ->
  wp total (world (has_timer_expired t)) Q (c, w).
Proof.
  intros HQ. apply wp_world. pose proof (law_clock W w) as (Hn & Hm & Hlt & Hi).
  unfold wp, has_timer_expired, bind, now_, ret.
  destruct (gettimeofday w) as [tv w'] eqn:E. cbn [obind owp fst snd] in *. apply HQ.
  - unfold world_le. lia.
  - done.
  - intros Ht. rewrite expired_iff by (by apply timersub_normal). rewrite timersub_micros, Hm.
    unfold expiry. apply eq_true_iff_eq. rewrite !Z.leb_le. lia.
Qed.

Lemma wp_clock_countdown_ms t timeout (Q : Timer -> St W -> Prop) c w :
  (forall t' w', world_le W w w' -> normal (end_time t') -> expiry t' = now w' + timeout * 1000 ->
     Q t' (c, w')) ->
  wp total (world (countdown_ms t timeout)) Q (c, w).
Proof.
  intros HQ. apply wp_world, wp_countdown_ms. pose proof (law_clock W w) as (Hn & Hm & Hlt & Hi).
  intros t' Ht He. apply HQ; [unfold world_le; lia|done|lia].
Qed.

Lemma wp_clock_countdown_sec t timeout (Q : Timer -> St W -> Prop) c w :
  (forall t' w', world_le W w w' -> normal (end_time t') -> Q t' (c, w')) ->
  wp total (world (countdown_sec t timeout)) Q (c, w).
Proof.
  intros HQ. apply wp_world, wp_countdown_sec. pose proof (law_clock W w) as (Hn & Hm & Hlt & Hi).
  intros t' Ht He. apply HQ; [unfold world_le; lia|done].
Qed.

Lemma wp_lock_mutex m (Q : IoT_Error_t -> St W -> Prop) c w :
  thread_support = true -> (forall w', world_le W w w' -> Q SUCCESS (c, w')) ->
  wp total (aws_iot_mqtt_client_lock_mutex pCLIENT (Some m)) Q (c, w).
Proof.
  intros Ht HQ. pose proof (law_mutex W m w Ht) as H.
  inversion H as [|?? _ H2]; subst. inversion H2 as [|?? [Hl1 Hl2] H3]; subst.
  inversion H3 as [|?? [Ht1 Ht2] _]; subst.
  unfold aws_iot_mqtt_client_lock_mutex, aws_iot_thread_mutex_trylock, aws_iot_thread_mutex_lock, pthread.
  unfold wp, bind, client, gets, world, check, ret. cbn [obind owp fst].
  destruct (eqb false _).
  - destruct (pthread_mutex_trylock m w) as [rc w'] eqn:E. cbn [obind owp fst snd] in *. subst rc.
    by apply HQ.
  - destruct (pthread_mutex_lock m w) as [rc w'] eqn:E. cbn [obind owp fst snd] in *. subst rc.
    by apply HQ.
Qed.

Lemma wp_unlock_mutex m (Q : IoT_Error_t -> St W -> Prop) c w :
  thread_support = true -> (forall w', world_le W w w' -> Q SUCCESS (c, w')) ->
  wp total (aws_iot_mqtt_client_unlock_mutex pCLIENT (Some m)) Q (c, w).
Proof.
  intros Ht HQ. pose proof (law_mutex W m w Ht) as H.
  inversion H as [|?? _ H2]; subst. inversion H2 as [|?? _ H3]; subst.
  inversion H3 as [|?? _ H4]; subst. inversion H4 as [|?? [Hl1 Hl2] _]; subst.
  unfold aws_iot_mqtt_client_unlock_mutex, aws_iot_thread_mutex_unlock, pthread.
  unfold wp, bind, world, ret. cbn [obind owp fst].
  destruct (pthread_mutex_unlock m w) as [rc w'] eqn:E. cbn [obind owp fst snd] in *. subst rc.
  by apply HQ.
Qed.

(** With or without thread support, taking a lock changes nothing but the world. *)
Lemma wp_locked (op : M (St W) IoT_Error_t) (Q : IoT_Error_t -> St W -> Prop) c w :
  (forall Q, thread_support = true -> (forall w', world_le W w w' -> Q SUCCESS (c, w')) ->
     wp total op Q (c, w)) ->
  (forall w', world_le W w w' -> Q SUCCESS (c, w')) ->
  wp total (if thread_support then op else ret SUCCESS) Q (c, w).
Proof.
  intros Hop HQ. destruct thread_support eqn:E; [by apply Hop|]. apply wp_ret, HQ. reflexivity.
Qed.

(** The compare-and-swap of the client's state. *)
Lemma wp_set_client_state e n (Q : IoT_Error_t -> St W -> Prop) c w :
  (forall w', world_le W w w' -> e = state_of c -> Q SUCCESS (set_clientState n c, w')) ->
  (forall w', world_le W w w' -> e <> state_of c -> Q MQTT_UNEXPECTED_CLIENT_STATE_ERROR (c, w')) ->
  wp total (aws_iot_mqtt_set_client_state pCLIENT e n) Q (c, w).
Proof.
  intros H1 H2. unfold aws_iot_mqtt_set_client_state. apply wp_bind, wp_locked.
  { intros Q' Ht HQ'. by apply wp_lock_mutex. }
  intros w1 Hw1. apply wp_check; [done|]. intros _. apply wp_bind, wp_client, wp_bind.
  assert (Hend : forall rc c',
    (forall w', world_le W w w' -> Q rc (c', w')) ->
    wp total (if thread_support then
       do! threadRc := aws_iot_mqtt_client_unlock_mutex pCLIENT (Some state_change_mutex) in
       ret (if bool_decide (rc = SUCCESS) && bool_decide (threadRc <> SUCCESS) then threadRc else rc)
       else ret rc) Q (c', w1)).
  { intros rc c' HQ. destruct thread_support eqn:E; [|by apply wp_ret, HQ].
    apply wp_bind, wp_unlock_mutex; [done|]. intros w2 Hw2. apply wp_ret.
    rewrite (bool_decide_eq_false_2 (SUCCESS <> SUCCESS)) by auto. rewrite andb_false_r.
    apply HQ. by etrans. }
  destruct (decide (e = clientState (clientStatus (c, w1).1))) as [He|He].
  - apply wp_bind, wp_assign, wp_ret. apply Hend. intros. by apply H1.
  - apply wp_ret. apply Hend. intros. by apply H2.
Qed.

(** Entering and leaving an operation: the state is set to [p] and later back to [st]. *)
Definition near (s s' : St W) : Prop := same_config s.1 s'.1 /\ world_le W s.2 s'.2.

#[export] Instance near_preorder : PreOrder near.
Proof.
  split; unfold near.
  - intros s. by split.
  - intros s1 s2 s3 (? & ?) (? & ?). split; by etrans.
Qed.

Lemma evolves_near s s' : evolves s s' -> near s s'.
Proof. intros [_ H]. exact H. Qed.

Lemma near_evolves s s' : near s s' -> moves_to (state_of s.1) (state_of s'.1) -> evolves s s'.
Proof. intros H1 H2. by split. Qed.

Lemma wp_enter st p (Q : IoT_Error_t -> St W -> Prop) s :
  state_of s.1 = st ->
  (forall s', near s s' -> state_of s'.1 = p -> Q SUCCESS s') ->
  wp total (aws_iot_mqtt_set_client_state pCLIENT st p) Q s.
Proof.
  intros Hst HQ. destruct s as [c w]. apply wp_set_client_state; [|by intros ? ? []].
  intros w' Hw _. by apply HQ.
Qed.

Lemma wp_restore p st (Q : IoT_Error_t -> St W -> Prop) s :
  moves_to p (state_of s.1) ->
  (forall rc s', near s s' -> moves_to st (state_of s'.1) -> plain rc ->
     (rc = SUCCESS -> state_of s.1 = p /\ state_of s'.1 = st) -> Q rc s') ->
  wp total (aws_iot_mqtt_set_client_state pCLIENT p st) Q s.
Proof.
  intros Hm HQ. destruct s as [c w]. apply wp_set_client_state; intros w' Hw Hst; apply HQ; try done.
  - by left.
  - right. destruct Hm as [Hm|Hm]; [|done]. exfalso. by apply Hst.
Qed.

Lemma near_assign (f : AWS_IoT_Client -> AWS_IoT_Client) c w :
  (forall c, same_config c (f c)) -> near (c, w) (f c, w).
Proof. intros H. split; [apply H|reflexivity]. Qed.

Lemma wp_get_next_packet_id md (Q : Z -> St W -> Prop) c w :
  (let id := next_packet_id (nextPacketId (clientData c)) in Q id (set_nextPacketId id c, w)) ->
  wp md aws_iot_mqtt_get_next_packet_id Q (c, w).
Proof. done. Qed.
End evolution.

#[export] Hint Resolve steady_evolves steady_world evolves_near : mqtt.

(** The concrete environment of [Sim] satisfies the laws. *)
#[export] Instance sim_laws : EnvLaws sim.
Proof.
  refine {| now := sim_time; incoming := fun w => length (sim_in w);
    reentry := fun _ _ => True |}.
  - intros w. cbn. pose proof (Z.mod_pos_bound (sim_time w + 1) 1000000 eq_refl).
    split; [done|]. split; [|split; [lia|done]]. unfold micros. cbn.
    pose proof (Z.div_mod (sim_time w + 1) 1000000). lia.
  - intros. split; cbn; lia.
  - intros. split; cbn; lia.
  - intros n len t old w. cbn. destruct (len <=? zlen (sim_in w)) eqn:E; cbn.
    + unfold zlen in *. rewrite length_drop, !length_take. split; [lia|]. split; [lia|]. split; [done|].
      intros _ H. split; [|done]. lia.
    + split; [lia|]. split; [lia|]. by split.
  - intros. cbn. destruct (load_list _ _ _) eqn:E; cbn; [split; cbn; lia|done|].
    unfold load_list in E. by destruct (_ && _).
  - intros. split; cbn; lia.
  - intros f n w [= <-]. split; cbn; lia.
  - intros. split; cbn; lia.
  - done.
  - intros f p n msg d c w _. cbn. destruct (load_list _ _ _) eqn:E; cbn; [|done|].
    + split; [by left|]. split; [by split|]. split; cbn; lia.
    + unfold load_list in E. by destruct (_ && _).
  - intros f d c w. cbn. split; [by left|]. split; [by split|]. split; cbn; lia.
Defined.
