(* ===== verification/Transport.v ===== *)
(** * Sending and receiving packets: src/aws_iot_mqtt_client_common_internal.c

    [aws_iot_mqtt_internal_send_packet], [_aws_iot_mqtt_internal_read_packet] with its decoder of
    the remaining length, the delivery of a PUBLISH to the registered handlers,
    [aws_iot_mqtt_internal_cycle_read] and [aws_iot_mqtt_internal_wait_for_read].  A topic name or
    payload handed around is an offset into the client's receive buffer, read at the moment of use.
    Every loop of the source that ends by a time-out or by the peer's data takes the section's
    [fuel].  A static function without a NULL check has no client parameter: it works on the client
    of the state. *)

From S2P Require Export Packets Topic Laws.

Section transport.
Context {W : Type} {clock : Clock W} {net : NetworkOps W} {mutexes : MutexOps W} {app : AppOps W}.
Context (fuel : nat).

(** [pClient->networkStack.write(&(pClient->networkStack), &pClient->clientData.writeBuf[sent],
    len, pTimer, &sentLen)] *)
Definition network_write (sent len : Z) (timer : Timer) (sentLen : Z) : M (St W) (IoT_Error_t * Z) :=
  do! n := client networkStack in
  do! buf := client (fun c => writeBuf (clientData c)) in
  world (net_write n (drop (Z.to_nat sent) buf) len timer sentLen).

(** [pClient->networkStack.read(&(pClient->networkStack), pClient->clientData.readBuf + off, len,
    pTimer, &read_len)] *)
Definition network_read (off len : Z) (timer : Timer) (read_len : Z) : M (St W) (IoT_Error_t * Z) :=
  do! n := client networkStack in
  do! (rc, data, read_len) := world (net_read n len timer read_len) in
  do! buf := client (fun c => readBuf (clientData c)) in
  do! buf := lift (store buf off data) in
  run! assign (set_readBuf buf) in
  ret (rc, read_len).

Definition aws_iot_mqtt_internal_send_packet (pClient : client_ptr) (length : Z)
    (pTimer : option Timer) : M (St W) IoT_Error_t :=
  match pClient, pTimer with
  | pCLIENT, Some timer =>
      do! writeBufSize := client (fun c => writeBufSize (clientData c)) in
      if writeBufSize <=? length then ret MQTT_TX_BUFFER_TOO_SHORT_ERROR
      else
        do! rc :=
          if thread_support then aws_iot_mqtt_client_lock_mutex pClient (Some tls_write_mutex)
          else ret SUCCESS in
        check rc
          (do! sent := loop fuel (fun '(sent, sentLen) =>
             if sent <? length then
               do! expired := world (has_timer_expired timer) in
               if (expired : bool) then ret (inr sent)
               else
                 do! (rc, sentLen) := network_write sent length timer sentLen in
                 if decide (rc <> SUCCESS) then ret (inr sent)
                 else ret (inl (u64 (sent + sentLen), sentLen))
             else ret (inr sent)) (0, 0) in
           do! rc :=
             if thread_support then aws_iot_mqtt_client_unlock_mutex pClient (Some tls_write_mutex)
             else ret SUCCESS in
           check rc
             (if sent =? length then ret SUCCESS else ret FAILURE))
  | _, _ => ret NULL_VALUE_ERROR
  end.

(** Returns the code and [*rem_len].  [len] is both the digit counter and the length the network
    reports; [encodedByte] is indeterminate until a byte has been stored in it. *)
Definition _aws_iot_mqtt_internal_decode_packet_remaining_len (pTimer : Timer)
    : M (St W) (IoT_Error_t * Z) :=
  loop fuel (fun '(multiplier, len, rem_len, encodedByte) =>
    let len := u64 (len + 1) in
    if MAX_NO_OF_REMAINING_LENGTH_BYTES <? len
    then ret (inr (MQTT_DECODE_REMAINING_LENGTH_ERROR, rem_len))
    else
      do! n := client networkStack in
      do! (rc, data, len) := world (net_read n 1 pTimer len) in
      do! encodedByte := lift (match data with
        | [] => Done encodedByte
        | [b] => Done (Some b)
        | _ => Undef
        end) in
      if decide (rc <> SUCCESS) then ret (inr (rc, rem_len))
      else
        do! b := lift (deref encodedByte) in
        let rem_len := u64 (rem_len + Z.land b 127 * multiplier) in
        let multiplier := u64 (multiplier * 128) in
        if negb (Z.land b 128 =? 0) then ret (inl (multiplier, len, rem_len, encodedByte))
        else ret (inr (rc, rem_len))) (1, 0, 0, None).

(** Returns the code and [*pPacketType]. *)
Definition _aws_iot_mqtt_internal_read_packet (pTimer : Timer) (packetType : Z)
    : M (St W) (IoT_Error_t * Z) :=
  do! packetTimeoutMs := client (fun c => packetTimeoutMs (clientData c)) in
  let packetTimer := init_timer (mkTimer (mkTimeval 0 0)) in
  do! packetTimer := world (countdown_ms packetTimer packetTimeoutMs) in
  do! (rc, read_len) := network_read 0 1 pTimer 0 in
  if decide (NETWORK_SSL_NOTHING_TO_READ = rc) then ret (MQTT_NOTHING_TO_READ, packetType)
  else if decide (rc <> SUCCESS) then ret (rc, packetType)
  else
    let len := 1 in
    let pTimer := packetTimer in
    do! (rc, rem_len) := _aws_iot_mqtt_internal_decode_packet_remaining_len pTimer in
    if decide (rc <> SUCCESS) then ret (rc, packetType)
    else
      do! readBufSize := client (fun c => readBufSize (clientData c)) in
      if readBufSize <=? rem_len then
        run! loop fuel (fun '(bytes_to_be_read, total_bytes_read, read_len) =>
          do! (rc, read_len) := network_read 0 bytes_to_be_read pTimer read_len in
          do! readBufSize := client (fun c => Types.readBufSize (clientData c)) in
          let '(bytes_to_be_read, total_bytes_read) :=
            if decide (SUCCESS = rc) then
              let total_bytes_read := u64 (total_bytes_read + read_len) in
              (if readBufSize <=? u64 (rem_len - total_bytes_read) then readBufSize
               else u64 (rem_len - total_bytes_read), total_bytes_read)
            else (bytes_to_be_read, total_bytes_read) in
          if (total_bytes_read <? rem_len) && bool_decide (SUCCESS = rc)
          then ret (inl (bytes_to_be_read, total_bytes_read, read_len))
          else ret (inr tt)) (readBufSize, 0, read_len) in
        ret (MQTT_RX_BUFFER_TOO_SHORT_ERROR, packetType)
      else
        do! buf := client (fun c => readBuf (clientData c)) in
        do! (n, buf) := lift (aws_iot_mqtt_internal_write_len_to_buffer buf 1 (u32 rem_len)) in
        run! assign (set_readBuf buf) in
        let len := len + n in
        do! (failed, rc) :=
          if 0 <? rem_len then
            do! (rc, read_len) := network_read len rem_len pTimer read_len in
            ret (bool_decide (rc <> SUCCESS) || negb (read_len =? rem_len), rc)
          else ret (false, rc) in
        if (failed : bool) then ret (FAILURE, packetType)
        else
          do! buf := client (fun c => readBuf (clientData c)) in
          do! header := lift (load buf 0) in
          ret (rc, MQTTHeader.type header).

(** The test of a registered handler's topic filter against the topic of a message. *)
Definition handler_matches (h : MessageHandlers) (buf : bytes) (pTopicName topicNameLen : Z)
    : outcome bool :=
  match topicName h with
  | None => Done false
  | Some filter =>
      let! exact :=
        if topicNameLen =? mh_topicNameLen h
        then strncmp_eq (Z.to_nat topicNameLen) (drop (Z.to_nat pTopicName) buf) filter
        else Done false in
      if (exact : bool) then Done true
      else
        let! c := _aws_iot_mqtt_internal_is_topic_matched (Some filter) buf (Some pTopicName)
                    topicNameLen in
        Done (negb (c =? 0))
  end.

(** One round of the loop over the handlers. *)
Definition deliver_to (pTopicName topicNameLen itr : Z) (msg : delivered) : M (St W) delivered :=
  do! h := handler_at itr in
  do! buf := client (fun c => readBuf (clientData c)) in
  do! matches := lift (handler_matches h buf pTopicName topicNameLen) in
  if (matches : bool) then
    match pApplicationHandler h with
    | Some f => fun '(c, w) =>
        let! (msg, c, w) :=
          call_message_handler f pTopicName topicNameLen msg (pApplicationHandlerData h) c w in
        Done (msg, (c, w))
    | None => ret msg
    end
  else ret msg.

(** Returns the code and the message parameters, which handlers reach through a pointer. *)
Definition _aws_iot_mqtt_internal_deliver_message (pTopicName : option Z) (topicNameLen : Z)
    (pMessageParams : delivered) : M (St W) (IoT_Error_t * delivered) :=
  match pTopicName with
  | None => ret (NULL_VALUE_ERROR, pMessageParams)
  | Some pTopicName =>
      do! clientState := aws_iot_mqtt_get_client_state pCLIENT in
      do! rc := aws_iot_mqtt_set_client_state pCLIENT clientState
                  CLIENT_STATE_CONNECTED_WAIT_FOR_CB_RETURN in
      do! msg := mfor (Z.to_nat AWS_IOT_MQTT_NUM_SUBSCRIBE_HANDLERS) 0
                   (deliver_to pTopicName topicNameLen) pMessageParams in
      do! rc := aws_iot_mqtt_set_client_state pCLIENT CLIENT_STATE_CONNECTED_WAIT_FOR_CB_RETURN
                  clientState in
      ret (rc, msg)
  end.

(** Storing the transmit buffer a serialiser returns. *)
Definition store_tx (buf : option bytes) : M (St W) unit :=
  do! buf := lift (deref buf) in
  assign (set_writeBuf buf).

(** The locals the deserialiser fills are uninitialised; only [msg.id] can stay so. *)
Definition _aws_iot_mqtt_internal_handle_publish (pTimer : Timer) : M (St W) IoT_Error_t :=
  do! c := client clientData in
  do! (rc, out) := lift (aws_iot_mqtt_internal_deserialize_publish
    (mkPublishOut (Some 0) (Some 0) (Some 0) (Some None) None 0 0 0) (readBuf c) (readBufSize c)) in
  check rc
    (do! qos := lift (deref (po_qos out)) in
     do! isRetained := lift (deref (po_retained out)) in
     do! isDup := lift (deref (po_dup out)) in
     do! id := lift (deref (po_packetId out)) in
     do! (rc, msg) := _aws_iot_mqtt_internal_deliver_message (po_topicName out)
       (po_topicNameLen out)
       (mkDelivered qos isRetained isDup id (po_payload out) (po_payloadLen out)) in
     check rc
       (if QOS0 =? dm_qos msg then ret SUCCESS
        else
          do! c := client clientData in
          do! id := lift (deref (dm_id msg)) in
          do! (rc, buf, len) := lift (aws_iot_mqtt_internal_serialize_ack (Some (writeBuf c))
            (writeBufSize c) PUBACK 0 id (Some 0)) in
          run! store_tx buf in
          do! len := lift (deref len) in
          check rc
            (do! rc := aws_iot_mqtt_internal_send_packet pCLIENT len (Some pTimer) in
             check rc (ret SUCCESS)))).

(** Returns the code and [*pPacketType]. *)
Definition aws_iot_mqtt_internal_cycle_read (pClient : client_ptr) (pTimer : option Timer)
    (packetType : Z) : M (St W) (IoT_Error_t * Z) :=
  match pClient, pTimer with
  | pCLIENT, Some timer =>
      do! threadRc :=
        if thread_support then aws_iot_mqtt_client_lock_mutex pClient (Some tls_read_mutex)
        else ret SUCCESS in
      if decide (threadRc <> SUCCESS) then ret (threadRc, packetType)
      else
        do! (rc, packetType) := _aws_iot_mqtt_internal_read_packet timer packetType in
        do! threadRc :=
          if thread_support then aws_iot_mqtt_client_unlock_mutex pClient (Some tls_read_mutex)
          else ret SUCCESS in
        if bool_decide (threadRc <> SUCCESS)
           && (bool_decide (MQTT_NOTHING_TO_READ = rc) || bool_decide (SUCCESS = rc))
        then ret (threadRc, packetType)
        else if decide (MQTT_NOTHING_TO_READ = rc) then ret (SUCCESS, packetType)
        else if decide (rc <> SUCCESS) then ret (rc, packetType)
        else
          do! rc :=
            if (packetType =? MessageTypes_value CONNACK) || (packetType =? MessageTypes_value PUBACK)
               || (packetType =? MessageTypes_value SUBACK) || (packetType =? MessageTypes_value UNSUBACK)
            then ret rc
            else if packetType =? MessageTypes_value PUBLISH
            then _aws_iot_mqtt_internal_handle_publish timer
            else if (packetType =? MessageTypes_value PUBREC) || (packetType =? MessageTypes_value PUBCOMP)
            then ret rc
            else if packetType =? MessageTypes_value PINGRESP then
              run! assign (set_isPingOutstanding false) in
              do! c := client id in
              do! t := world (countdown_sec (pingTimer c) (keepAliveInterval (clientData c))) in
              run! assign (set_pingTimer t) in
              ret rc
            else ret MQTT_RX_MESSAGE_PACKET_TYPE_INVALID_ERROR in
          ret (rc, packetType)
  | _, _ => ret (NULL_VALUE_ERROR, packetType)
  end.

Definition aws_iot_mqtt_internal_wait_for_read (pClient : client_ptr) (packetType : Z)
    (pTimer : option Timer) : M (St W) IoT_Error_t :=
  match pClient, pTimer with
  | pCLIENT, Some timer =>
      do! (rc, read_packet_type) := loop fuel (fun read_packet_type =>
        do! expired := world (has_timer_expired timer) in
        if (expired : bool) then ret (inr (MQTT_REQUEST_TIMEOUT_ERROR, read_packet_type))
        else
          do! (rc, read_packet_type) :=
            aws_iot_mqtt_internal_cycle_read pClient pTimer read_packet_type in
          if bool_decide (NETWORK_DISCONNECTED_ERROR <> rc) && negb (read_packet_type =? packetType)
          then ret (inl read_packet_type)
          else ret (inr (rc, read_packet_type))) 0 in
      if bool_decide (MQTT_REQUEST_TIMEOUT_ERROR <> rc)
         && bool_decide (NETWORK_DISCONNECTED_ERROR <> rc) && negb (read_packet_type =? packetType)
      then ret FAILURE
      else ret rc
  | _, _ => ret NULL_VALUE_ERROR
  end.
End transport.

(** ** Termination and the effect on the client, under the laws of the environment *)

Section transport_laws.
Context {W : Type} {clock : Clock W} {net : NetworkOps W} {mutexes : MutexOps W} {app : AppOps W}.
Context {laws : EnvLaws W} (fuel : nat).

(** The fuel covers the microseconds of a command's time-out. *)
Definition fits (c : AWS_IoT_Client) : Prop :=
  0 < readBufSize (clientData c) < 9223372036854775808 /\
  0 <= commandTimeoutMs (clientData c) /\
  commandTimeoutMs (clientData c) * 1000 < Z.of_nat fuel.

(** It also covers the bytes still to come, and handlers return however many of the bytes are left once a
    message has been read. *)
Definition enough (s : St W) : Prop :=
  (incoming s.2 + 2 <= fuel)%nat /\
  0 < readBufSize (clientData s.1) < 9223372036854775808 /\
  0 <= commandTimeoutMs (clientData s.1) /\
  commandTimeoutMs (clientData s.1) * 1000 < Z.of_nat fuel /\
  forall c k, fits c -> (k < incoming s.2)%nat -> reentry W c k.

(** A running timer expires within the fuel. *)
Definition timer_ok (t : Timer) (w : W) : Prop :=
  normal (end_time t) /\ expiry t - now w < Z.of_nat fuel.

Lemma enough_near s s' : enough s -> near s s' -> enough s'.
Proof.
  intros (H1 & H2 & H3 & H4 & H5) [(_ & Hc & _ & Hr) [_ Hw]]. unfold enough. rewrite Hc, Hr.
  split; [lia|]. split; [done|]. split; [done|]. split; [done|]. intros c k Hc5 Hk. apply H5; [done|lia].
Qed.

Lemma enough_fits s : enough s -> fits s.1.
Proof. by intros (_ & H2 & H3 & H4 & _). Qed.

Lemma enough_evolves s s' : enough s -> evolves s s' -> enough s'.
Proof. intros H1 H2. eapply enough_near; [done|by apply evolves_near]. Qed.

Lemma enough_steady s s' : enough s -> steady s s' -> enough s'.
Proof. intros H1 H2. eapply enough_evolves; [done|by apply steady_evolves]. Qed.

Lemma timer_ok_le t w w' : timer_ok t w -> world_le W w w' -> timer_ok t w'.
Proof. intros [? ?] [? _]. split; [done|lia]. Qed.

(** A timer set to the command time-out expires within the fuel. *)
Lemma command_timer_ok s c w t :
  enough s -> same_config s.1 c -> normal (end_time t) ->
  expiry t = now w + commandTimeoutMs (clientData c) * 1000 -> timer_ok t w.
Proof.
  intros (_ & _ & _ & H & _) (_ & Hc & _) Hn He. split; [done|]. rewrite He, Hc. lia.
Qed.

Lemma evolves_world s s' : evolves s s' -> world_le W s.2 s'.2.
Proof. intros H. apply H. Qed.
Lemma steady_world_le s s' : steady s s' -> world_le W s.2 s'.2.
Proof. intros H. apply H. Qed.

Lemma steady_readBuf b c w : steady (c, w) (set_readBuf b c, w).
Proof. by apply (steady_assign (set_readBuf b)). Qed.
Lemma steady_writeBuf b c w : steady (c, w) (set_writeBuf b c, w).
Proof. by apply (steady_assign (set_writeBuf b)). Qed.

Lemma wp_network_write sent len t n (Q : IoT_Error_t * Z -> St W -> Prop) c w :
  (forall r w', world_le W w w' -> Q r (c, w')) -> wp total (network_write sent len t n) Q (c, w).
Proof.
  intros HQ. unfold network_write. apply wp_bind, wp_client, wp_bind, wp_client, wp_world.
  eapply owp_mono; [apply law_write|]. intros [[rc k] w'] H. by apply HQ.
Qed.

Lemma wp_network_read off len t n (Q : IoT_Error_t * Z -> St W -> Prop) c w :
  (forall rc k s' size, steady (c, w) s' -> (incoming s'.2 + size <= incoming w)%nat -> plain rc ->
     (rc = SUCCESS -> 0 <= len < 18446744073709551616 -> Z.of_nat size = len /\ k = len) -> Q (rc, k) s') ->
  wp total (network_read off len t n) Q (c, w).
Proof.
  intros HQ. unfold network_read. apply wp_bind, wp_client, wp_bind, wp_world.
  eapply owp_mono; [apply law_read|]. intros [[[rc data] k] w'] (Hw & Hi & Hp & Hs).
  apply wp_bind, wp_client, wp_bind, wp_lift.
  destruct (store _ _ _) eqn:E; simpl; [|done|unfold store in E; by destruct (_ && _)].
  apply wp_bind, wp_assign, wp_ret. by apply (HQ rc k _ (length data)).
Qed.

Ltac plain := reflexivity.

Lemma send_packet_steady len t s :
  enough s -> timer_ok t s.2 ->
  wp total (aws_iot_mqtt_internal_send_packet fuel pCLIENT len (Some t))
    (fun rc s' => steady s s' /\ plain rc) s.
Proof.
  intros He Ht. destruct s as [c w]. unfold aws_iot_mqtt_internal_send_packet.
  apply wp_bind, wp_client. destruct (_ <=? len).
  { apply wp_ret. split; [reflexivity|plain]. }
  apply wp_bind, wp_locked.
  { intros Q Hth HQ. by apply wp_lock_mutex. }
  intros w1 Hw1. apply wp_check; [done|]. intros _. apply wp_bind.
  apply (wp_loop total (fun _ s' => exists w', s' = (c, w') /\ world_le W w1 w')
    (fun _ s' => Z.to_nat (expiry t - now s'.2))).
  - by exists w1.
  - intros [sent sentLen] s' (w2 & -> & Hw2).
    assert (Hend : forall sent w3, world_le W w2 w3 ->
      wp total
        (do! rc := if thread_support then aws_iot_mqtt_client_unlock_mutex pCLIENT (Some tls_write_mutex)
                   else ret SUCCESS in
         check rc (if sent =? len then ret SUCCESS else ret FAILURE))
        (fun rc s' => steady (c, w) s' /\ plain rc) (c, w3)).
    { intros sent0 w3 Hw3. apply wp_bind, wp_locked.
      { intros Q Hth HQ. by apply wp_unlock_mutex. }
      intros w4 Hw4. apply wp_check; [done|]. intros _.
      assert (Hs : steady (c, w) (c, w4)) by (apply steady_world; chain).
      destruct (sent0 =? len); apply wp_ret; (split; [done|plain]). }
    destruct (sent <? len); [|by apply wp_ret, Hend].
    apply wp_bind, wp_clock_expired. intros b w3 Hw3 Hlt Hb. rewrite Hb by apply Ht.
    destruct (Z.leb_spec (expiry t) (now w3)); [by apply wp_ret, Hend|].
    apply wp_bind, wp_network_write. intros [rc k] w4 Hw4.
    destruct (decide (rc <> SUCCESS)); apply wp_ret.
    + apply Hend. by etrans.
    + simpl. split; [exists w4; split; [done|]; chain|].
      intros _. destruct Hw4. lia.
  - intros _. destruct Ht as [_ Ht], Hw1 as [Hw1 _], He as (He & _). cbn [snd] in *. lia.
Qed.

Lemma decode_packet_remaining_len_steady t s :
  enough s ->
  wp total (_aws_iot_mqtt_internal_decode_packet_remaining_len fuel t)
    (fun '(rc, rem_len) s' => steady s s' /\ plain rc /\ 0 <= rem_len < 18446744073709551616) s.
Proof.
  intros He. unfold _aws_iot_mqtt_internal_decode_packet_remaining_len.
  apply (wp_loop total (fun '(_, _, rem, _) s' => steady s s' /\ 0 <= rem < 18446744073709551616)
    (fun _ s' => incoming s'.2)).
  - split; [reflexivity|lia].
  - intros [[[mu len] rem] enc] [c w] [Hs Hrem]. cbv zeta.
    destruct (_ <? u64 (len + 1)); [apply wp_ret; split; [done|split; [plain|done]]|].
    apply wp_bind, wp_client, wp_bind, wp_world. eapply owp_mono; [apply law_read|].
    intros [[[rc data] k] w1] (Hw & Hi & Hp & Hsz).
    assert (Hs1 : steady s (c, w1)) by (etrans; [exact Hs|by apply steady_world]).
    apply wp_bind, wp_lift. cbn [owp].
    assert (Hcont : forall enc', (rc = SUCCESS -> (1 <= length data)%nat) ->
      wp total (if decide (rc <> SUCCESS) then ret (inr (rc, rem)) else
        do! b := lift (deref enc') in
        if negb (Z.land b 128 =? 0)
        then ret (inl (u64 (mu * 128), k, u64 (rem + Z.land b 127 * mu), enc'))
        else ret (inr (rc, u64 (rem + Z.land b 127 * mu))))
      (fun r s' => match r with
       | inl x' => (let '(_, _, rem, _) := x' in fun s' => steady s s' /\ 0 <= rem < 18446744073709551616) s' /\
           (m_total total = true -> (incoming s'.2 < incoming (c, w).2)%nat)
       | inr a => (let '(rc, rem_len) := a in fun s' => steady s s' /\ plain rc /\
           0 <= rem_len < 18446744073709551616) s'
       end) (c, w1)).
    { intros enc' Hlen. destruct (decide (rc <> SUCCESS)) as [|Hrc]; [by apply wp_ret|].
      assert (rc = SUCCESS) as -> by (destruct (decide (rc = SUCCESS)); [done|exfalso; auto]).
      specialize (Hlen eq_refl). apply wp_bind, wp_lift. destruct enc'; simpl; [|done].
      destruct (negb _); apply wp_ret; simpl.
      - split; [split; [done|apply u64_range]|lia].
      - split; [done|]. split; [plain|apply u64_range]. }
    destruct data as [|b [|b2 data]]; simpl; [|apply (Hcont (Some b)); simpl; lia|done].
    apply (Hcont enc). intros ->. destruct (Hsz eq_refl ltac:(lia)) as [H _]. done.
  - intros _. destruct He as (He & _). lia.
Qed.

Lemma read_packet_steady t pt s :
  enough s ->
  wp total (_aws_iot_mqtt_internal_read_packet fuel t pt)
    (fun '(rc, pt') s' => steady s s' /\ plain rc /\ (rc = SUCCESS -> (incoming s'.2 < incoming s.2)%nat)) s.
Proof.
  intros He. destruct s as [c w]. unfold _aws_iot_mqtt_internal_read_packet.
  apply wp_bind, wp_client, wp_bind, wp_clock_countdown_ms. intros pkt w1 Hw1 _ _.
  assert (Hs1 : steady (c, w) (c, w1)) by (by apply steady_world).
  apply wp_bind, wp_network_read. intros rc k s2 size Hs2 Hi2 Hp Hsz2.
  assert (H2 : steady (c, w) s2) by (by etrans).
  destruct (decide (NETWORK_SSL_NOTHING_TO_READ = rc)); [apply wp_ret; by split|].
  destruct (decide (rc <> SUCCESS)) as [|Hrc2]; [by apply wp_ret|].
  assert (Hlt : (incoming s2.2 < incoming w)%nat).
  { assert (Hrc : rc = SUCCESS) by (destruct (decide (rc = SUCCESS)); [done|exfalso; auto]).
    destruct (Hsz2 Hrc ltac:(lia)), Hw1. lia. }
  assert (Hltw : forall s', steady s2 s' -> (incoming s'.2 < incoming w)%nat) by (intros s' (_ & _ & _ & ?); lia).
  eapply (wp_mono total _ (fun '(rc, pt') s' => steady s2 s' /\ plain rc)).
  2: { intros [rc' pt'] s' [Hs' Hp']. split; [by etrans|]. split; [done|]. intros _. by apply Hltw. }
  pose proof (enough_steady _ _ He H2) as He2. clear He H2 Hltw Hlt Hsz2 Hi2 Hs2 Hs1.
  apply wp_bind. eapply wp_mono; [by apply decode_packet_remaining_len_steady|].
  intros [rc3 rem] s3 (Hs3 & Hp3 & Hrem). assert (H3 : steady s2 s3) by done.
  destruct (decide (rc3 <> SUCCESS)) as [|Hrc3]; [by apply wp_ret|].
  apply wp_bind, wp_client. pose proof (enough_steady _ _ He2 H3) as He3.
  destruct (_ <=? rem) eqn:Erem.
  - (* the packet is dropped *)
    apply wp_bind.
    apply (wp_loop total (fun '(b, tot, _) s' => steady s2 s' /\ 0 < b < 18446744073709551616)
      (fun _ s' => incoming s'.2)).
    + split; [done|]. destruct He3 as (_ & He3 & _). cbn [fst] in *. lia.
    + intros [[b tot] k4] [c4 w4] [Hs4 Hb]. apply wp_bind, wp_network_read.
      intros rc5 k5 s5 size5 Hs5 Hi5 Hp5 Hsz5. apply wp_bind, wp_client.
      assert (H5 : steady s2 s5) by (by etrans). pose proof (enough_steady _ _ He2 H5) as He5.
      destruct (decide (SUCCESS = rc5)) as [<-|Hne].
      * rewrite (bool_decide_eq_true_2 (SUCCESS = SUCCESS)) by done. rewrite andb_true_r.
        destruct (u64 (tot + k5) <? rem) eqn:Elt; apply wp_ret.
        -- split; [|destruct (Hsz5 eq_refl ltac:(lia)); simpl in *; lia].
           split; [done|]. pose proof (u64_range (tot + k5)).
           destruct He5 as (_ & He5 & _). destruct (_ <=? u64 (rem - _)); [cbn [fst] in *; lia|].
           rewrite u64_id; lia.
        -- apply wp_ret. split; [done|plain].
      * rewrite (bool_decide_eq_false_2 (SUCCESS = rc5)) by done. rewrite andb_false_r.
        apply wp_ret, wp_ret. split; [done|plain].
    + intros _. destruct He3 as (He3 & _). lia.
  - apply wp_bind, wp_client, wp_bind, wp_lift.
    eapply owp_mono; [apply write_len_finishes, u32_range|]. intros [nb buf] _.
    destruct s3 as [c3 w3]. apply wp_bind, wp_assign, wp_bind.
    assert (H4 : steady s2 (set_readBuf buf c3, w3)) by (etrans; [exact H3|apply steady_readBuf]).
    assert (Hend : forall (failed : bool) rc' s', steady s2 s' -> plain rc' ->
      wp total (if failed then ret (FAILURE, pt) else
        do! buf := client (fun c => readBuf (clientData c)) in
        do! header := lift (load buf 0) in
        ret (rc', MQTTHeader.type header)) (fun '(rc, pt') s' => steady s2 s' /\ plain rc) s').
    { intros failed rc' s' Hs' Hp'. destruct failed; [apply wp_ret; split; [done|plain]|].
      apply wp_bind, wp_client, wp_bind, wp_lift. eapply owp_mono; [apply load_finishes|].
      intros h _. by apply wp_ret. }
    destruct (0 <? rem).
    + apply wp_bind, wp_network_read. intros rc5 k5 s5 size5 Hs5 _ Hp5 _. apply wp_ret.
      apply Hend; [by etrans|done].
    + apply wp_ret. by apply (Hend false).
Qed.
Lemma evolves_from (s s' : St W) st :
  state_of s.1 = st -> evolves s s' -> state_of s'.1 = st \/ quiescent (state_of s'.1) = true.
Proof. intros <- [H _]. exact H. Qed.

(** One handler: it may leave the state it was called in only for a state of rest. *)
(** Handlers may be called. *)
Definition may_deliver (s : St W) : Prop :=
  fits s.1 /\ forall c k, fits c -> (k <= incoming s.2)%nat -> reentry W c k.

Lemma may_deliver_near s s' : may_deliver s -> near s s' -> may_deliver s'.
Proof.
  intros [Hf H] [(_ & Hc & _ & Hr) [_ Hi]]. split; [unfold fits in *; by rewrite Hc, Hr|].
  intros c k Hfc Hk. apply H; [done|lia].
Qed.

Lemma deliver_to_evolves p n itr msg s :
  may_deliver s -> wp total (deliver_to p n itr msg) (fun _ s' => evolves s s') s.
Proof.
  intros Hmay. destruct s as [c w]. unfold deliver_to, handler_at.
  apply wp_bind, wp_bind, wp_client, wp_lift. eapply owp_mono; [apply aload_finishes|]. intros h _.
  apply wp_bind, wp_client, wp_bind, wp_lift.
  assert (Hm : owp total (handler_matches h (readBuf (clientData (c, w).1)) p n) (fun _ => True)).
  { unfold handler_matches. destruct (topicName h) as [f|]; [|done]. apply owp_bind.
    pose proof finishes_strncmp_eq as Hs.
    assert (He : forall e : bool, owp total (if e then Done true else
      let! c0 := _aws_iot_mqtt_internal_is_topic_matched (Some f) (readBuf (clientData (c, w).1)) (Some p) n in
      Done (negb (c0 =? 0))) (fun _ => True)).
    { intros []; [done|]. apply owp_bind. eapply owp_mono; [apply is_topic_matched_finishes|]. done. }
    destruct (n =? _); [|apply (He false)]. eapply owp_mono; [apply Hs|]. intros e _. apply (He e). }
  eapply owp_mono; [exact Hm|]. intros b _. destruct b; [|by apply wp_ret].
  destruct (pApplicationHandler h) as [f|]; [|by apply wp_ret].
  unfold wp. apply owp_bind. eapply owp_mono; [apply law_message_handler, Hmay; [apply Hmay|cbn; lia]|].
  intros [[m c'] w'] H. exact H.
Qed.

Lemma deliver_message_evolves p n msg s :
  may_deliver s -> wp total (_aws_iot_mqtt_internal_deliver_message p n msg)
    (fun '(rc, _) s' => evolves s s' /\ plain rc) s.
Proof.
  intros Hmay. destruct s as [c w]. unfold _aws_iot_mqtt_internal_deliver_message.
  destruct p as [p|]; [|apply wp_ret; split; [reflexivity|plain]].
  apply wp_bind, wp_client, wp_bind, wp_set_client_state; [|done]. intros w1 Hw1 _.
  apply wp_bind.
  set (c1 := set_clientState CLIENT_STATE_CONNECTED_WAIT_FOR_CB_RETURN c).
  apply (wp_mfor total (fun _ _ s' => evolves (c1, w1) s')).
  - reflexivity.
  - intros j a s' _ Hs'. eapply wp_mono; [apply deliver_to_evolves|].
    { eapply (may_deliver_near (c, w)); [done|]. etrans; [|by apply evolves_near].
      split; [done|exact Hw1]. }
    intros a' s2 H. by etrans.
  - intros a [c2 w2] Hs2. apply wp_bind.
    destruct Hs2 as (Hm & Hcfg & Hw2). cbn [fst snd] in *.
    assert (Hw : world_le W w w2) by (etrans; [exact Hw1|done]).
    apply wp_set_client_state; intros w3 Hw3 Hst; apply wp_ret.
    + split; [|plain]. split; [by left|]. split; [done|]. cbn [snd]. by etrans.
    + split; [|plain]. split; [|split; [done|cbn [snd]; by etrans]]. right. cbn [fst].
      destruct Hm as [Hm|Hm]; [|done]. exfalso. by apply Hst.
Qed.

Lemma wp_store_tx buf (Q : unit -> St W -> Prop) c w b :
  buf = Some b -> Q tt (set_writeBuf b c, w) -> wp total (store_tx buf) Q (c, w).
Proof. by intros ->. Qed.

Lemma handle_publish_evolves t s :
  enough s -> timer_ok t s.2 -> may_deliver s ->
  wp total (_aws_iot_mqtt_internal_handle_publish fuel t) (fun rc s' => evolves s s' /\ plain rc) s.
Proof.
  intros He Ht Hmay. unfold _aws_iot_mqtt_internal_handle_publish.
  apply wp_bind, wp_client, wp_bind, wp_lift.
  eapply owp_mono; [by apply deserialize_publish_finishes|].
  intros [rc out] (Hp & [d ->] & [q ->] & [r ->] & [i ->]). cbv beta iota.
  apply wp_check; [done|]. intros _. cbn [deref].
  do 4 (apply wp_bind, wp_lift, owp_done).
  apply wp_bind. eapply wp_mono; [by apply deliver_message_evolves|].
  intros [rc2 msg] s2 [Hs2 Hp2]. apply wp_check; [done|]. intros _.
  destruct (QOS0 =? dm_qos msg); [by apply wp_ret|].
  apply wp_bind, wp_client, wp_bind, wp_lift.
  destruct (dm_id msg) as [id|]; [|done]. cbn [deref owp].
  apply wp_bind, wp_lift. eapply owp_mono; [apply serialize_ack_finishes|].
  intros [[rc3 buf] len] ((b & -> & _) & [l ->] & Hp3). destruct s2 as [c2 w2].
  apply wp_bind. eapply wp_store_tx; [done|]. apply wp_bind, wp_lift. cbn [deref owp].
  assert (H3 : evolves s (set_writeBuf b c2, w2)).
  { etrans; [exact Hs2|]. apply steady_evolves, steady_writeBuf. }
  apply wp_check; [done|]. intros _. apply wp_bind.
  eapply wp_mono; [apply send_packet_steady|].
  - by eapply enough_evolves.
  - eapply timer_ok_le; [done|]. apply (evolves_world _ _ H3).
  - intros rc4 s4 [Hs4 Hp4].
    assert (evolves s s4) by (etrans; [exact H3|by apply steady_evolves]).
    apply wp_check; [done|]. intros _. by apply wp_ret.
Qed.

Lemma cycle_read_evolves t pt s :
  enough s -> timer_ok t s.2 ->
  wp total (aws_iot_mqtt_internal_cycle_read fuel pCLIENT (Some t) pt)
    (fun '(rc, _) s' => evolves s s' /\ plain rc) s.
Proof.
  intros He Ht. destruct s as [c w]. unfold aws_iot_mqtt_internal_cycle_read.
  apply wp_bind, wp_locked.
  { intros Q Hth HQ. by apply wp_lock_mutex. }
  intros w1 Hw1. destruct (decide (SUCCESS <> SUCCESS)) as [|_]; [done|].
  assert (H1 : steady (c, w) (c, w1)) by (by apply steady_world).
  apply wp_bind. eapply wp_mono; [apply read_packet_steady; by eapply enough_steady|].
  intros [rc pt'] [c2 w2] (Hs2 & Hp2 & Hread). apply wp_bind, wp_locked.
  { intros Q Hth HQ. by apply wp_unlock_mutex. }
  intros w3 Hw3. rewrite (bool_decide_eq_false_2 (SUCCESS <> SUCCESS)) by auto. cbn [andb].
  assert (H3 : steady (c, w) (c2, w3)).
  { etrans; [exact H1|]. etrans; [exact Hs2|]. by apply steady_world. }
  pose proof (steady_evolves _ _ H3) as E3.
  destruct (decide (MQTT_NOTHING_TO_READ = rc)); [apply wp_ret; by split|].
  destruct (decide (rc <> SUCCESS)); [by apply wp_ret|].
  assert (Hend : forall (m : M (St W) IoT_Error_t),
    wp total m (fun rc s' => evolves (c, w) s' /\ plain rc) (c2, w3) ->
    wp total (do! rc := m in ret (rc, pt')) (fun '(rc, _) s' => evolves (c, w) s' /\ plain rc) (c2, w3)).
  { intros m Hm. apply wp_bind. eapply wp_mono; [exact Hm|]. intros rc' s' H. by apply wp_ret. }
  apply Hend. destruct (_ || _ || _ || _); [by apply wp_ret|].
  destruct (pt' =? _).
  { eapply wp_mono; [apply handle_publish_evolves|].
    - by eapply enough_steady.
    - eapply timer_ok_le; [done|]. apply (steady_world_le _ _ H3).
    - split; [eapply enough_fits, enough_steady; [exact He|exact H3]|]. intros c' k Hf Hk.
      destruct He as (_ & _ & _ & _ & He). apply He; [done|]. destruct H1 as (_ & _ & _ & H1), Hw3 as [_ Hw3].
      assert (rc = SUCCESS) as Hrc by (destruct (decide (rc = SUCCESS)); [done|exfalso; auto]).
      specialize (Hread Hrc). cbn [snd] in *. lia.
    - intros rc' s' [H ?]. split; [by etrans|done]. }
  destruct (_ || _); [by apply wp_ret|]. destruct (pt' =? _).
  - apply wp_bind, wp_assign, wp_bind, wp_client, wp_bind, wp_clock_countdown_sec.
    intros t' w4 Hw4 _. apply wp_bind, wp_assign, wp_ret. split; [|done].
    etrans; [exact E3|]. apply steady_evolves. by repeat split; try apply Hw4.
  - apply wp_ret. split; [done|plain].
Qed.

Lemma wait_for_read_evolves pt t s :
  enough s -> timer_ok t s.2 ->
  wp total (aws_iot_mqtt_internal_wait_for_read fuel pCLIENT pt (Some t))
    (fun rc s' => evolves s s' /\ plain rc) s.
Proof.
  intros He Ht. destruct s as [c w]. unfold aws_iot_mqtt_internal_wait_for_read. apply wp_bind.
  apply (wp_loop total (fun _ s' => evolves (c, w) s') (fun _ s' => Z.to_nat (expiry t - now s'.2))).
  - reflexivity.
  - intros rt [c1 w1] H1. apply wp_bind, wp_clock_expired. intros b w2 Hw2 Hlt Hb.
    rewrite Hb by apply Ht.
    assert (H2 : evolves (c, w) (c1, w2)).
    { etrans; [exact H1|]. by apply steady_evolves, steady_world. }
    assert (Hend : forall rc rt' s', evolves (c, w) s' -> plain rc ->
      wp total (if bool_decide (MQTT_REQUEST_TIMEOUT_ERROR <> rc)
         && bool_decide (NETWORK_DISCONNECTED_ERROR <> rc) && negb (rt' =? pt)
         then ret FAILURE else ret rc) (fun rc s' => evolves (c, w) s' /\ plain rc) s').
    { intros rc rt' s' Hs' Hrc. destruct (_ && _ && _); apply wp_ret; by split. }
    destruct (Z.leb_spec (expiry t) (now w2)); [apply wp_ret, Hend; [done|plain]|].
    apply wp_bind. eapply wp_mono; [apply cycle_read_evolves|].
    + by eapply enough_evolves.
    + eapply timer_ok_le; [done|]. apply (evolves_world _ _ H2).
    + intros [rc rt'] s3 [Hs3 Hp3]. assert (evolves (c, w) s3) by (by etrans).
      destruct (_ && _); apply wp_ret; [|by apply Hend].
      split; [done|]. intros _. destruct (evolves_world _ _ Hs3). simpl in *. lia.
  - intros _. destruct Ht as [_ Ht], He as (He & _). cbn [snd] in *. lia.
Qed.
End transport_laws.
