(* ===== verification/Publish.v ===== *)
(** * Publishing: src/aws_iot_mqtt_client_publish.c *)

From S2P Require Export Transport.

Section publish.
Context {W : Type} {clock : Clock W} {net : NetworkOps W} {mutexes : MutexOps W} {app : AppOps W}.
Context (fuel : nat).

(** Returns the code and the caller's parameters, whose [id] the function sets. *)
Definition _aws_iot_mqtt_internal_publish (pTopicName : option bytes) (topicNameLen : Z)
    (pParams : IoT_Publish_Message_Params) : M (St W) (IoT_Error_t * IoT_Publish_Message_Params) :=
  let timer := init_timer (mkTimer (mkTimeval 0 0)) in
  do! commandTimeoutMs := client (fun c => commandTimeoutMs (clientData c)) in
  do! timer := world (countdown_ms timer commandTimeoutMs) in
  do! pParams :=
    if QOS1 =? msg_qos pParams then
      do! id := aws_iot_mqtt_get_next_packet_id in
      ret (mkPublishParams (msg_qos pParams) (msg_isRetained pParams) (msg_isDup pParams) id
             (msg_payload pParams) (msg_payloadLen pParams))
    else ret pParams in
  do! c := client clientData in
  do! (rc, buf, len) := lift (_aws_iot_mqtt_internal_serialize_publish (Some (writeBuf c))
    (writeBufSize c) 0 (msg_qos pParams) (msg_isRetained pParams) (msg_id pParams) pTopicName
    topicNameLen (msg_payload pParams) (msg_payloadLen pParams) (Some 0)) in
  run! store_tx buf in
  do! len := lift (deref len) in
  do! rc :=
    check rc
      (do! rc := aws_iot_mqtt_internal_send_packet fuel pCLIENT len (Some timer) in
       check rc
         (if QOS1 =? msg_qos pParams then
            do! rc := aws_iot_mqtt_internal_wait_for_read fuel pCLIENT (MessageTypes_value PUBACK)
                        (Some timer) in
            check rc
              (do! c := client clientData in
               do! (rc, type, dup, packet_id) := lift (aws_iot_mqtt_internal_deserialize_ack
                 (Some 0) (Some 0) (Some 0) (Some (readBuf c)) (readBufSize c)) in
               check rc (ret SUCCESS))
          else ret SUCCESS)) in
  ret (rc, pParams).

Definition aws_iot_mqtt_publish (pClient : client_ptr) (pTopicName : option bytes)
    (topicNameLen : Z) (pParams : option IoT_Publish_Message_Params)
    : M (St W) (IoT_Error_t * option IoT_Publish_Message_Params) :=
  match pClient, pTopicName, pParams with
  | pCLIENT, Some _, Some params =>
      if 0 =? topicNameLen then ret (NULL_VALUE_ERROR, pParams)
      else
        do! connected := aws_iot_mqtt_is_client_connected pClient in
        if negb connected then ret (NETWORK_DISCONNECTED_ERROR, pParams)
        else
          do! clientState := aws_iot_mqtt_get_client_state pClient in
          if bool_decide (CLIENT_STATE_CONNECTED_IDLE <> clientState)
             && bool_decide (CLIENT_STATE_CONNECTED_WAIT_FOR_CB_RETURN <> clientState)
          then ret (MQTT_CLIENT_NOT_IDLE_ERROR, pParams)
          else
            do! rc := aws_iot_mqtt_set_client_state pClient clientState
                        CLIENT_STATE_CONNECTED_PUBLISH_IN_PROGRESS in
            if decide (rc <> SUCCESS) then ret (rc, pParams)
            else
              do! (pubRc, params) := _aws_iot_mqtt_internal_publish pTopicName topicNameLen params in
              do! rc := aws_iot_mqtt_set_client_state pClient
                          CLIENT_STATE_CONNECTED_PUBLISH_IN_PROGRESS clientState in
              ret (if bool_decide (SUCCESS = pubRc) && bool_decide (rc <> SUCCESS) then rc else pubRc,
                   Some params)
  | _, _, _ => ret (NULL_VALUE_ERROR, pParams)
  end.
End publish.

(** ** Termination and life cycle *)

Section publish_laws.
Context {W : Type} {clock : Clock W} {net : NetworkOps W} {mutexes : MutexOps W} {app : AppOps W}.
Context {laws : EnvLaws W} (fuel : nat).

Lemma internal_publish_evolves topic n params s :
  enough fuel s ->
  wp total (_aws_iot_mqtt_internal_publish fuel topic n params)
    (fun '(rc, _) s' => evolves s s' /\ plain rc) s.
Proof.
  intros He. destruct s as [c w]. unfold _aws_iot_mqtt_internal_publish.
  apply wp_bind, wp_client, wp_bind, wp_clock_countdown_ms. intros t w1 Hw1 Hn Hx. apply wp_bind.
  pose proof (command_timer_ok fuel (c, w) c w1 t He ltac:(reflexivity) Hn Hx) as Ht.
  assert (Hbody : forall params c1, steady (c, w) (c1, w1) ->
    wp total
      (do! c := client clientData in
       do! (rc, buf, len) := lift (_aws_iot_mqtt_internal_serialize_publish (Some (writeBuf c))
         (writeBufSize c) 0 (msg_qos params) (msg_isRetained params) (msg_id params) topic
         n (msg_payload params) (msg_payloadLen params) (Some 0)) in
       run! store_tx buf in
       do! len := lift (deref len) in
       do! rc :=
         check rc
           (do! rc := aws_iot_mqtt_internal_send_packet fuel pCLIENT len (Some t) in
            check rc
              (if QOS1 =? msg_qos params then
                 do! rc := aws_iot_mqtt_internal_wait_for_read fuel pCLIENT (MessageTypes_value PUBACK)
                             (Some t) in
                 check rc
                   (do! c := client clientData in
                    do! (rc, type, dup, packet_id) := lift (aws_iot_mqtt_internal_deserialize_ack
                      (Some 0) (Some 0) (Some 0) (Some (readBuf c)) (readBufSize c)) in
                    check rc (ret SUCCESS))
               else ret SUCCESS)) in
       ret (rc, params)) (fun '(rc, _) s' => evolves (c, w) s' /\ plain rc) (c1, w1)).
  { intros p c1 H1. apply wp_bind, wp_client, wp_bind, wp_lift.
    eapply owp_mono; [apply serialize_publish_finishes|].
    intros [[rc buf] len] ((b & -> & _) & [l ->] & Hp). apply wp_bind. eapply wp_store_tx; [done|].
    apply wp_bind, wp_lift. cbn [deref owp]. apply wp_bind.
    assert (H2 : steady (c, w) (set_writeBuf b c1, w1)) by (etrans; [exact H1|apply steady_writeBuf]).
    pose proof (steady_evolves _ _ H2).
    apply wp_check; [intros _; by apply wp_ret|]. intros _. apply wp_bind.
    eapply wp_mono; [apply send_packet_steady; [by eapply enough_steady|done]|].
    intros rc3 s3 [H3 Hp3]. assert (E3 : evolves (c, w) s3) by (apply steady_evolves; by etrans).
    apply wp_check; [intros _; by apply wp_ret|]. intros _.
    destruct (QOS1 =? msg_qos p); [|by apply wp_ret, wp_ret].
    apply wp_bind. eapply wp_mono.
    { apply wait_for_read_evolves; [by eapply enough_evolves|].
      eapply timer_ok_le; [exact Ht|]. apply (steady_world_le _ _ H3). }
    intros rc4 s4 [H4 Hp4]. assert (E4 : evolves (c, w) s4) by (by etrans).
    apply wp_check; [intros _; by apply wp_ret|]. intros _.
    apply wp_bind, wp_client, wp_bind, wp_lift. eapply owp_mono; [apply deserialize_ack_finishes|].
    intros [[[rc5 ty] d] i] [_ Hp5]. apply wp_check; intros _; [by apply wp_ret|by apply wp_ret, wp_ret]. }
  destruct (QOS1 =? msg_qos params).
  - apply wp_bind, wp_get_next_packet_id, wp_ret. apply Hbody.
    by repeat split; try apply Hw1.
  - apply wp_ret, Hbody. by apply steady_world.
Qed.

Lemma publish_evolves topic n params s :
  enough fuel s ->
  wp total (aws_iot_mqtt_publish fuel pCLIENT topic n params) (fun _ s' => evolves s s') s.
Proof.
  intros He. unfold aws_iot_mqtt_publish.
  destruct topic as [tp|]; [|by apply wp_ret]. destruct params as [p|]; [|by apply wp_ret].
  destruct (0 =? n); [by apply wp_ret|]. apply wp_bind, wp_client.
  destruct (negb _); [by apply wp_ret|]. apply wp_bind, wp_client.
  destruct (_ && _); [by apply wp_ret|]. apply wp_bind, wp_enter; [done|]. intros s1 H1 Hs1.
  destruct (decide (SUCCESS <> SUCCESS)) as [|_]; [done|]. apply wp_bind.
  eapply wp_mono; [apply internal_publish_evolves; by eapply enough_near|].
  intros [rc2 p2] s2 [[Hm Hn] _]. rewrite Hs1 in Hm. apply wp_bind, (wp_restore _ _ _ _ Hm).
  intros rc3 s3 H3 Hm3 _ _. apply wp_ret, near_evolves; [|done].
  etrans; [exact H1|]. by etrans.
Qed.
End publish_laws.
