(* ===== verification/Subscribe.v ===== *)
(** * Subscribing: src/aws_iot_mqtt_client_subscribe.c *)

From S2P Require Export Transport.

Section subscribe.
Context {W : Type} {clock : Clock W} {net : NetworkOps W} {mutexes : MutexOps W} {app : AppOps W}.
Context (fuel : nat).

(** [for(itr = 0; itr < AWS_IOT_MQTT_NUM_SUBSCRIBE_HANDLERS; itr++) if(... == NULL) break;] *)
Fixpoint free_index (n : nat) (itr : Z) (hs : list MessageHandlers) : outcome Z :=
  match n with
  | O => Done itr
  | S n' =>
      let! h := aload hs itr in
      match topicName h with
      | None => Done itr
      | Some _ => free_index n' (itr + 1) hs
      end
  end.

Definition _aws_iot_mqtt_get_free_message_handler_index : M (St W) Z :=
  do! hs := client (fun c => messageHandlers (clientData c)) in
  lift (free_index (Z.to_nat AWS_IOT_MQTT_NUM_SUBSCRIBE_HANDLERS) 0 hs).

Definition _aws_iot_mqtt_internal_subscribe (pTopicName : option bytes) (topicNameLen : Z)
    (qos : QoS) (pApplicationHandler : option fnptr) (pApplicationHandlerData : voidptr)
    : M (St W) IoT_Error_t :=
  let grantedQoS := [QOS0; QOS0; QOS0] in
  let timer := init_timer (mkTimer (mkTimeval 0 0)) in
  do! commandTimeoutMs := client (fun c => commandTimeoutMs (clientData c)) in
  do! timer := world (countdown_ms timer commandTimeoutMs) in
  let serializedLen := 0 in
  let count := 0 in
  do! txPacketId := aws_iot_mqtt_get_next_packet_id in
  let rxPacketId := 0 in
  do! c := client clientData in
  do! (rc, buf, serializedLen) := lift (_aws_iot_mqtt_serialize_subscribe (Some (writeBuf c))
    (writeBufSize c) 0 txPacketId 1 [pTopicName] [topicNameLen] [qos] (Some serializedLen)) in
  run! store_tx buf in
  do! serializedLen := lift (deref serializedLen) in
  check rc
    (do! indexOfFreeMessageHandler := _aws_iot_mqtt_get_free_message_handler_index in
     if AWS_IOT_MQTT_NUM_SUBSCRIBE_HANDLERS <=? indexOfFreeMessageHandler
     then ret MQTT_MAX_SUBSCRIPTIONS_REACHED_ERROR
     else
       do! rc := aws_iot_mqtt_internal_send_packet fuel pCLIENT serializedLen (Some timer) in
       check rc
         (do! rc := aws_iot_mqtt_internal_wait_for_read fuel pCLIENT (MessageTypes_value SUBACK)
                      (Some timer) in
          check rc
            (do! c := client clientData in
             do! (rc, rxPacketId, count, grantedQoS) := lift (_aws_iot_mqtt_deserialize_suback
               (Some rxPacketId) 1 (Some count) (Some grantedQoS) (readBuf c) (readBufSize c)) in
             check rc
               (run! set_handler_at indexOfFreeMessageHandler
                  (mkMessageHandlers pTopicName topicNameLen qos pApplicationHandler
                     pApplicationHandlerData) in
                ret SUCCESS)))).

Definition aws_iot_mqtt_subscribe (pClient : client_ptr) (pTopicName : option bytes)
    (topicNameLen : Z) (qos : QoS) (pApplicationHandler : option fnptr)
    (pApplicationHandlerData : voidptr) : M (St W) IoT_Error_t :=
  match pClient, pTopicName, pApplicationHandler with
  | pCLIENT, Some _, Some _ =>
      do! connected := aws_iot_mqtt_is_client_connected pClient in
      if negb connected then ret NETWORK_DISCONNECTED_ERROR
      else
        do! clientState := aws_iot_mqtt_get_client_state pClient in
        if bool_decide (CLIENT_STATE_CONNECTED_IDLE <> clientState)
           && bool_decide (CLIENT_STATE_CONNECTED_WAIT_FOR_CB_RETURN <> clientState)
        then ret MQTT_CLIENT_NOT_IDLE_ERROR
        else
          do! rc := aws_iot_mqtt_set_client_state pClient clientState
                      CLIENT_STATE_CONNECTED_SUBSCRIBE_IN_PROGRESS in
          check rc
            (do! subRc := _aws_iot_mqtt_internal_subscribe pTopicName topicNameLen qos
                            pApplicationHandler pApplicationHandlerData in
             do! rc := aws_iot_mqtt_set_client_state pClient
                         CLIENT_STATE_CONNECTED_SUBSCRIBE_IN_PROGRESS clientState in
             ret (if bool_decide (SUCCESS = subRc) && bool_decide (rc <> SUCCESS) then rc else subRc))
  | _, _, _ => ret NULL_VALUE_ERROR
  end.

(** One round of the loop over the existing subscriptions; a code leaves the function.  The packet
    id, length, count and granted qualities of service of earlier rounds are never read. *)
Definition resubscribe_one (itr : Z) : M (St W) (option IoT_Error_t) :=
  let timer := init_timer (mkTimer (mkTimeval 0 0)) in
  do! commandTimeoutMs := client (fun c => commandTimeoutMs (clientData c)) in
  do! timer := world (countdown_ms timer commandTimeoutMs) in
  do! txPacketId := aws_iot_mqtt_get_next_packet_id in
  do! h := handler_at itr in
  do! c := client clientData in
  do! (rc, buf, len) := lift (_aws_iot_mqtt_serialize_subscribe (Some (writeBuf c))
    (writeBufSize c) 0 txPacketId 1 [topicName h] [mh_topicNameLen h] [mh_qos h] (Some 0)) in
  run! store_tx buf in
  do! len := lift (deref len) in
  if decide (rc <> SUCCESS) then ret (Some rc)
  else
    do! rc := aws_iot_mqtt_internal_send_packet fuel pCLIENT len (Some timer) in
    if decide (rc <> SUCCESS) then ret (Some rc)
    else
      do! rc := aws_iot_mqtt_internal_wait_for_read fuel pCLIENT (MessageTypes_value SUBACK)
                  (Some timer) in
      if decide (rc <> SUCCESS) then ret (Some rc)
      else
        do! c := client clientData in
        do! (rc, packetId, count, grantedQoS) := lift (_aws_iot_mqtt_deserialize_suback
          (Some 0) 1 (Some 0) (Some [QOS0; QOS0; QOS0]) (readBuf c) (readBufSize c)) in
        if decide (rc <> SUCCESS) then ret (Some rc) else ret None.

Definition _aws_iot_mqtt_internal_resubscribe : M (St W) IoT_Error_t :=
  do! existingSubCount := _aws_iot_mqtt_get_free_message_handler_index in
  do! r := for_loop (Z.to_nat existingSubCount) 0 resubscribe_one in
  match r with
  | Some rc => ret rc
  | None => ret SUCCESS
  end.

Definition aws_iot_mqtt_resubscribe (pClient : client_ptr) : M (St W) IoT_Error_t :=
  match pClient with
  | pNULL => ret NULL_VALUE_ERROR
  | pCLIENT =>
      do! connected := aws_iot_mqtt_is_client_connected pClient in
      if eqb false connected then ret NETWORK_DISCONNECTED_ERROR
      else
        do! s := aws_iot_mqtt_get_client_state pClient in
        if decide (CLIENT_STATE_CONNECTED_IDLE <> s) then ret MQTT_CLIENT_NOT_IDLE_ERROR
        else
          do! rc := aws_iot_mqtt_set_client_state pClient CLIENT_STATE_CONNECTED_IDLE
                      CLIENT_STATE_CONNECTED_RESUBSCRIBE_IN_PROGRESS in
          check rc
            (do! resubRc := _aws_iot_mqtt_internal_resubscribe in
             do! rc := aws_iot_mqtt_set_client_state pClient
                         CLIENT_STATE_CONNECTED_RESUBSCRIBE_IN_PROGRESS CLIENT_STATE_CONNECTED_IDLE in
             ret (if bool_decide (SUCCESS = resubRc) && bool_decide (rc <> SUCCESS)
                  then rc else resubRc))
  end.
End subscribe.

(** ** Termination and life cycle *)

Section subscribe_laws.
Context {W : Type} {clock : Clock W} {net : NetworkOps W} {mutexes : MutexOps W} {app : AppOps W}.
Context {laws : EnvLaws W} (fuel : nat).

Lemma free_index_finishes n : forall i hs, owp total (free_index n i hs) (fun j => i <= j <= i + Z.of_nat n).
Proof.
  induction n as [|n IH]; intros i hs; cbn [free_index]; [simpl; lia|].
  apply owp_bind. eapply owp_mono; [apply aload_finishes|]. intros h _.
  destruct (topicName h); [|simpl; lia]. eapply owp_mono; [apply IH|]. simpl. lia.
Qed.

Lemma set_handler_at_steady i h s :
  wp total (set_handler_at i h) (fun _ s' => steady s s') s.
Proof.
  destruct s as [c w]. unfold set_handler_at. apply wp_bind, wp_client, wp_bind, wp_lift.
  eapply owp_mono; [apply astore_finishes|]. intros hs _. apply wp_assign.
  by apply (steady_assign (set_messageHandlers hs)).
Qed.

(** Sending a packet that is in the transmit buffer and waiting for its acknowledgement. *)
Lemma send_and_wait len t pt s0 s (Q : IoT_Error_t -> St W -> Prop) k :
  enough fuel s0 -> timer_ok fuel t s.2 -> evolves s0 s ->
  (forall rc s', evolves s0 s' -> plain rc -> rc <> SUCCESS -> Q rc s') ->
  (forall s', evolves s0 s' -> wp total k Q s') ->
  wp total
    (do! rc := aws_iot_mqtt_internal_send_packet fuel pCLIENT len (Some t) in
     check rc (do! rc := aws_iot_mqtt_internal_wait_for_read fuel pCLIENT pt (Some t) in check rc k)) Q s.
Proof.
  intros He Ht Hs Hfail Hk. apply wp_bind.
  eapply wp_mono; [apply send_packet_steady; [by eapply enough_evolves|done]|].
  intros rc1 s1 [H1 Hp1]. assert (E1 : evolves s0 s1) by (etrans; [exact Hs|by apply steady_evolves]).
  apply wp_check; [auto|]. intros _. apply wp_bind. eapply wp_mono.
  { apply wait_for_read_evolves; [by eapply enough_evolves|].
    eapply timer_ok_le; [exact Ht|]. apply (steady_world_le _ _ H1). }
  intros rc2 s2 [H2 Hp2]. assert (E2 : evolves s0 s2) by (by etrans).
  apply wp_check; [auto|]. intros _. by apply Hk.
Qed.

Lemma internal_subscribe_evolves topic n q f d s :
  enough fuel s ->
  wp total (_aws_iot_mqtt_internal_subscribe fuel topic n q f d)
    (fun rc s' => evolves s s' /\ plain rc) s.
Proof.
  intros He. destruct s as [c w]. unfold _aws_iot_mqtt_internal_subscribe.
  apply wp_bind, wp_client, wp_bind, wp_clock_countdown_ms. intros t w1 Hw1 Hn Hx.
  pose proof (command_timer_ok fuel (c, w) c w1 t He ltac:(reflexivity) Hn Hx) as Ht.
  apply wp_bind, wp_get_next_packet_id. cbv zeta. apply wp_bind, wp_client, wp_bind, wp_lift.
  eapply owp_mono; [apply serialize_subscribe_finishes|].
  intros [[rc buf] len] ((b & -> & _) & [l ->] & Hp). apply wp_bind. eapply wp_store_tx; [done|].
  apply wp_bind, wp_lift. cbn [deref owp]. set (s2 := (_, w1) : St W).
  assert (H2 : steady (c, w) s2) by (by repeat split; try apply Hw1).
  pose proof (steady_evolves _ _ H2) as E2.
  apply wp_check; [by intros _|]. intros _. unfold _aws_iot_mqtt_get_free_message_handler_index.
  apply wp_bind, wp_bind, wp_client, wp_lift. eapply owp_mono; [apply free_index_finishes|]. intros i _.
  destruct (_ <=? i); [apply wp_ret; split; [done|by split]|].
  eapply send_and_wait; [exact He|exact Ht|exact E2|by auto|].
  intros s3 E3. apply wp_bind, wp_client, wp_bind, wp_lift.
  eapply owp_mono; [apply deserialize_suback_finishes; lia|].
  intros [[[rc4 a] b4] e] (Hp4 & _). apply wp_check; [by intros _|]. intros _.
  apply wp_bind. eapply wp_mono; [apply set_handler_at_steady|]. intros ? s4 H4. apply wp_ret.
  split; [|by split]. etrans; [exact E3|by apply steady_evolves].
Qed.

Lemma subscribe_evolves topic n q f d s :
  enough fuel s ->
  wp total (aws_iot_mqtt_subscribe fuel pCLIENT topic n q f d) (fun _ s' => evolves s s') s.
Proof.
  intros He. unfold aws_iot_mqtt_subscribe.
  destruct topic as [tp|]; [|by apply wp_ret]. destruct f as [f|]; [|by apply wp_ret].
  apply wp_bind, wp_client. destruct (negb _); [by apply wp_ret|]. apply wp_bind, wp_client.
  destruct (_ && _); [by apply wp_ret|]. apply wp_bind, wp_enter; [done|]. intros s1 H1 Hs1.
  apply wp_check; [done|]. intros _. apply wp_bind.
  eapply wp_mono; [apply internal_subscribe_evolves; by eapply enough_near|].
  intros rc2 s2 [[Hm Hn] _]. rewrite Hs1 in Hm. apply wp_bind, (wp_restore _ _ _ _ Hm).
  intros rc3 s3 H3 Hm3 _ _. apply wp_ret, near_evolves; [|done]. etrans; [exact H1|]. by etrans.
Qed.

Lemma resubscribe_one_evolves itr s :
  enough fuel s ->
  wp total (resubscribe_one fuel itr)
    (fun r s' => evolves s s' /\ match r with Some rc => plain rc | None => True end) s.
Proof.
  intros He. destruct s as [c w]. unfold resubscribe_one.
  apply wp_bind, wp_client, wp_bind, wp_clock_countdown_ms. intros t w1 Hw1 Hn Hx.
  pose proof (command_timer_ok fuel (c, w) c w1 t He ltac:(reflexivity) Hn Hx) as Ht.
  apply wp_bind, wp_get_next_packet_id. cbv zeta. unfold handler_at.
  apply wp_bind, wp_bind, wp_client, wp_lift. eapply owp_mono; [apply aload_finishes|]. intros h _.
  apply wp_bind, wp_client, wp_bind, wp_lift.
  eapply owp_mono; [apply serialize_subscribe_finishes|].
  intros [[rc buf] len] ((b & -> & _) & [l ->] & Hp). apply wp_bind. eapply wp_store_tx; [done|].
  apply wp_bind, wp_lift. cbn [deref owp]. set (s2 := (_, w1) : St W).
  assert (H2 : steady (c, w) s2) by (by repeat split; try apply Hw1).
  pose proof (steady_evolves _ _ H2) as E2.
  destruct (decide (rc <> SUCCESS)); [by apply wp_ret|]. apply wp_bind.
  eapply wp_mono; [apply send_packet_steady; [by eapply enough_evolves|done]|].
  intros rc3 s3 [H3 Hp3]. assert (E3 : evolves (c, w) s3) by (etrans; [exact E2|by apply steady_evolves]).
  destruct (decide (rc3 <> SUCCESS)); [by apply wp_ret|]. apply wp_bind. eapply wp_mono.
  { apply wait_for_read_evolves; [by eapply enough_evolves|].
    eapply timer_ok_le; [exact Ht|]. apply (steady_world_le _ _ H3). }
  intros rc4 s4 [H4 Hp4]. assert (E4 : evolves (c, w) s4) by (by etrans).
  destruct (decide (rc4 <> SUCCESS)); [by apply wp_ret|]. apply wp_bind, wp_client, wp_bind, wp_lift.
  eapply owp_mono; [apply deserialize_suback_finishes; lia|].
  intros [[[rc5 a] b5] e] (Hp5 & _). destruct (decide (rc5 <> SUCCESS)); by apply wp_ret.
Qed.

Lemma internal_resubscribe_evolves s :
  enough fuel s ->
  wp total (_aws_iot_mqtt_internal_resubscribe fuel) (fun rc s' => evolves s s' /\ plain rc) s.
Proof.
  intros He. unfold _aws_iot_mqtt_internal_resubscribe, _aws_iot_mqtt_get_free_message_handler_index.
  apply wp_bind, wp_bind, wp_client, wp_lift. eapply owp_mono; [apply free_index_finishes|].
  intros i _. apply wp_bind.
  apply (wp_for_loop total (fun _ s' => evolves s s')).
  - reflexivity.
  - intros j s1 _ H1. eapply wp_mono; [apply resubscribe_one_evolves; by eapply enough_evolves|].
    intros [rc|] s2 [H2 Hp]; [apply wp_ret; split; [by etrans|done]|by etrans].
  - intros s1 H1. apply wp_ret. split; [done|by split].
Qed.

Lemma resubscribe_evolves s :
  enough fuel s ->
  wp total (aws_iot_mqtt_resubscribe fuel pCLIENT)
    (fun rc s' => evolves s s' /\ rc <> NETWORK_RECONNECTED /\
       (rc = SUCCESS -> state_of s'.1 = CLIENT_STATE_CONNECTED_IDLE)) s.
Proof.
  intros He. unfold aws_iot_mqtt_resubscribe. apply wp_bind, wp_client.
  destruct (eqb false _); [by apply wp_ret|]. apply wp_bind, wp_client.
  destruct (decide (_ <> _)) as [|Hst]; [by apply wp_ret|].
  assert (state_of s.1 = CLIENT_STATE_CONNECTED_IDLE) as Hi.
  { destruct (decide (CLIENT_STATE_CONNECTED_IDLE = state_of s.1)); [done|]. exfalso. by apply Hst. }
  apply wp_bind, wp_enter; [done|]. intros s1 H1 Hs1. apply wp_check; [done|]. intros _. apply wp_bind.
  eapply wp_mono; [apply internal_resubscribe_evolves; by eapply enough_near|].
  intros rc2 s2 [[Hm Hn] Hp2]. rewrite Hs1 in Hm. apply wp_bind, (wp_restore _ _ _ _ Hm).
  intros rc3 s3 H3 Hm3 Hp3 Hok. apply wp_ret. split; [|split].
  - apply near_evolves; [etrans; [exact H1|]; by etrans|]. by rewrite Hi.
  - intros E. destruct (_ && _) in E; subst; done.
  - destruct (decide (SUCCESS = rc2)) as [<-|]; [|by rewrite bool_decide_eq_false_2 by done].
    rewrite (bool_decide_eq_true_2 (SUCCESS = SUCCESS)) by done. cbn [andb].
    destruct (decide (rc3 = SUCCESS)) as [->|].
    + intros _. by apply Hok.
    + rewrite bool_decide_eq_true_2 by done. done.
Qed.
End subscribe_laws.
