(* ===== verification/Unsubscribe.v ===== *)
(** * Unsubscribing: src/aws_iot_mqtt_client_unsubscribe.c *)

From S2P Require Export Subscribe.

Section unsubscribe.
Context {W : Type} {clock : Clock W} {net : NetworkOps W} {mutexes : MutexOps W} {app : AppOps W}.
Context (fuel : nat).

(** [messageHandlers[i].topicName != NULL && strcmp(messageHandlers[i].topicName, pTopicFilter) == 0] *)
Definition handler_for (h : MessageHandlers) (pTopicFilter : bytes) : outcome bool :=
  match topicName h with
  | None => Done false
  | Some t => strcmp_eq t pTopicFilter
  end.

(** A static function that is only called with a topic filter. *)
Definition _aws_iot_mqtt_internal_unsubscribe (pTopicFilter : bytes) (topicFilterLen : Z)
    : M (St W) IoT_Error_t :=
  do! subscriptionExists :=
    mfor (Z.to_nat AWS_IOT_MQTT_NUM_SUBSCRIBE_HANDLERS) 0 (fun i subscriptionExists =>
      do! h := handler_at i in
      do! same := lift (handler_for h pTopicFilter) in
      ret (if (same : bool) then true else subscriptionExists)) false in
  if eqb false subscriptionExists then ret FAILURE
  else
    let timer := init_timer (mkTimer (mkTimeval 0 0)) in
    do! commandTimeoutMs := client (fun c => commandTimeoutMs (clientData c)) in
    do! timer := world (countdown_ms timer commandTimeoutMs) in
    do! packetId := aws_iot_mqtt_get_next_packet_id in
    do! c := client clientData in
    do! (rc, buf, serializedLen) := lift (_aws_iot_mqtt_serialize_unsubscribe (writeBuf c)
      (writeBufSize c) 0 packetId 1 [Some pTopicFilter] [topicFilterLen] 0) in
    run! assign (set_writeBuf buf) in
    check rc
      (do! rc := aws_iot_mqtt_internal_send_packet fuel pCLIENT serializedLen (Some timer) in
       check rc
         (do! rc := aws_iot_mqtt_internal_wait_for_read fuel pCLIENT (MessageTypes_value UNSUBACK)
                      (Some timer) in
          check rc
            (do! c := client clientData in
             do! (rc, packet_id) := lift (_aws_iot_mqtt_deserialize_unsuback (Some 0)
               (Some (readBuf c)) (readBufSize c)) in
             check rc
               (run! mfor (Z.to_nat AWS_IOT_MQTT_NUM_SUBSCRIBE_HANDLERS) 0 (fun i _ =>
                  do! h := handler_at i in
                  do! same := lift (handler_for h pTopicFilter) in
                  if (same : bool) then set_handler_at i (set_topicName None h) else ret tt) tt in
                ret SUCCESS)))).

Definition aws_iot_mqtt_unsubscribe (pClient : client_ptr) (pTopicFilter : option bytes)
    (topicFilterLen : Z) : M (St W) IoT_Error_t :=
  match pClient, pTopicFilter with
  | pCLIENT, Some filter =>
      do! connected := aws_iot_mqtt_is_client_connected pClient in
      if negb connected then ret NETWORK_DISCONNECTED_ERROR
      else
        do! clientState := aws_iot_mqtt_get_client_state pClient in
        if bool_decide (CLIENT_STATE_CONNECTED_IDLE <> clientState)
           && bool_decide (CLIENT_STATE_CONNECTED_WAIT_FOR_CB_RETURN <> clientState)
        then ret MQTT_CLIENT_NOT_IDLE_ERROR
        else
          do! rc := aws_iot_mqtt_set_client_state pClient clientState
                      CLIENT_STATE_CONNECTED_UNSUBSCRIBE_IN_PROGRESS in
          if decide (rc <> SUCCESS) then
            aws_iot_mqtt_set_client_state pClient CLIENT_STATE_CONNECTED_UNSUBSCRIBE_IN_PROGRESS
              clientState
          else
            do! unsubRc := _aws_iot_mqtt_internal_unsubscribe filter topicFilterLen in
            do! rc := aws_iot_mqtt_set_client_state pClient
                        CLIENT_STATE_CONNECTED_UNSUBSCRIBE_IN_PROGRESS clientState in
            ret (if bool_decide (SUCCESS = unsubRc) && bool_decide (rc <> SUCCESS)
                 then rc else unsubRc)
  | _, _ => ret NULL_VALUE_ERROR
  end.
End unsubscribe.

(** ** Termination and life cycle *)

Section unsubscribe_laws.
Context {W : Type} {clock : Clock W} {net : NetworkOps W} {mutexes : MutexOps W} {app : AppOps W}.
Context {laws : EnvLaws W} (fuel : nat).

Lemma strcmp_eq_finishes a : forall b, owp total (strcmp_eq a b) (fun _ => True).
Proof.
  induction a as [|x a IH]; intros [|y b]; simpl; try done.
  destruct (negb _); [done|]. destruct (x =? 0); [done|apply IH].
Qed.

Lemma handler_for_finishes h f : owp total (handler_for h f) (fun _ => True).
Proof. unfold handler_for. destruct (topicName h); [apply strcmp_eq_finishes|done]. Qed.

Lemma internal_unsubscribe_evolves f n s :
  enough fuel s ->
  wp total (_aws_iot_mqtt_internal_unsubscribe fuel f n) (fun rc s' => evolves s s' /\ plain rc) s.
Proof.
  intros He. destruct s as [c w]. unfold _aws_iot_mqtt_internal_unsubscribe. apply wp_bind.
  apply (wp_mfor total (fun _ _ s' => s' = (c, w))); [done| |].
  { intros j a s' _ ->. unfold handler_at. apply wp_bind, wp_bind, wp_client, wp_lift.
    eapply owp_mono; [apply aload_finishes|]. intros h _. apply wp_bind, wp_lift.
    eapply owp_mono; [apply handler_for_finishes|]. intros b _. by apply wp_ret. }
  intros ex s' ->. destruct (eqb false ex); [apply wp_ret; split; [reflexivity|by split]|].
  apply wp_bind, wp_client, wp_bind, wp_clock_countdown_ms. intros t w1 Hw1 Hn Hx.
  pose proof (command_timer_ok fuel (c, w) c w1 t He ltac:(reflexivity) Hn Hx) as Ht.
  apply wp_bind, wp_get_next_packet_id. cbv zeta. apply wp_bind, wp_client, wp_bind, wp_lift.
  eapply owp_mono; [apply serialize_unsubscribe_finishes|].
  intros [[rc buf] len] [_ Hp]. apply wp_bind, wp_assign.
  set (s2 := (_, w1) : St W).
  assert (H2 : steady (c, w) s2) by (by repeat split; try apply Hw1).
  pose proof (steady_evolves _ _ H2) as E2.
  apply wp_check; [by intros _|]. intros _.
  eapply send_and_wait; [exact He|exact Ht|exact E2|by auto|].
  intros s3 E3. apply wp_bind, wp_client, wp_bind, wp_lift.
  eapply owp_mono; [apply deserialize_unsuback_finishes|].
  intros [rc4 i] Hp4. apply wp_check; [by intros _|]. intros _. apply wp_bind.
  apply (wp_mfor total (fun _ _ s' => evolves (c, w) s')); [done| |].
  { intros j a s4 _ H4. unfold handler_at. apply wp_bind, wp_bind, wp_client, wp_lift.
    eapply owp_mono; [apply aload_finishes|]. intros h _. apply wp_bind, wp_lift.
    eapply owp_mono; [apply handler_for_finishes|]. intros [] _; [|by apply wp_ret].
    eapply wp_mono; [apply set_handler_at_steady|]. intros ? s5 H5.
    etrans; [exact H4|by apply steady_evolves]. }
  intros a s4 H4. apply wp_ret. split; [done|by split].
Qed.

Lemma unsubscribe_evolves f n s :
  enough fuel s ->
  wp total (aws_iot_mqtt_unsubscribe fuel pCLIENT f n) (fun _ s' => evolves s s') s.
Proof.
  intros He. unfold aws_iot_mqtt_unsubscribe. destruct f as [f|]; [|by apply wp_ret].
  apply wp_bind, wp_client. destruct (negb _); [by apply wp_ret|]. apply wp_bind, wp_client.
  destruct (_ && _); [by apply wp_ret|]. apply wp_bind, wp_enter; [done|]. intros s1 H1 Hs1.
  destruct (decide (SUCCESS <> SUCCESS)) as [|_]; [done|]. apply wp_bind.
  eapply wp_mono; [apply internal_unsubscribe_evolves; by eapply enough_near|].
  intros rc2 s2 [[Hm Hn] _]. rewrite Hs1 in Hm. apply wp_bind, (wp_restore _ _ _ _ Hm).
  intros rc3 s3 H3 Hm3 _ _. apply wp_ret, near_evolves; [|done]. etrans; [exact H1|]. by etrans.
Qed.
End unsubscribe_laws.
