(* ===== verification/Connect.v ===== *)
(** * Connecting and disconnecting: src/aws_iot_mqtt_client_connect.c *)

From S2P Require Export Subscribe.

Section connect.
Context {W : Type} {clock : Clock W} {net : NetworkOps W} {mutexes : MutexOps W} {app : AppOps W}.
Context (fuel : nat).

Definition _aws_iot_mqtt_is_client_state_valid_for_connect (clientState : ClientState) : bool :=
  let isValid := false in
  match clientState with
  | CLIENT_STATE_INVALID => false
  | CLIENT_STATE_INITIALIZED => true
  | CLIENT_STATE_CONNECTING
  | CLIENT_STATE_CONNECTED_IDLE
  | CLIENT_STATE_CONNECTED_YIELD_IN_PROGRESS
  | CLIENT_STATE_CONNECTED_PUBLISH_IN_PROGRESS
  | CLIENT_STATE_CONNECTED_SUBSCRIBE_IN_PROGRESS
  | CLIENT_STATE_CONNECTED_UNSUBSCRIBE_IN_PROGRESS
  | CLIENT_STATE_CONNECTED_RESUBSCRIBE_IN_PROGRESS
  | CLIENT_STATE_CONNECTED_WAIT_FOR_CB_RETURN
  | CLIENT_STATE_DISCONNECTING => false
  | CLIENT_STATE_DISCONNECTED_ERROR
  | CLIENT_STATE_DISCONNECTED_MANUALLY
  | CLIENT_STATE_PENDING_RECONNECT => true
  end.

(** [pClient->networkStack.connect(&(pClient->networkStack), NULL)] and its like. *)
Definition network_connect : M (St W) IoT_Error_t :=
  do! n := client networkStack in
  do! (rc, n) := world (net_connect n None) in
  run! assign (set_networkStack n) in
  ret rc.
Definition network_disconnect : M (St W) IoT_Error_t :=
  do! n := client networkStack in world (net_disconnect n).
Definition network_destroy : M (St W) IoT_Error_t :=
  do! n := client networkStack in world (net_destroy n).

Definition _aws_iot_mqtt_internal_connect (pConnectParams : option IoT_Client_Connect_Params)
    : M (St W) IoT_Error_t :=
  do! rc :=
    match pConnectParams with
    | Some _ => aws_iot_mqtt_set_connect_params pCLIENT pConnectParams
    | None => ret SUCCESS
    end in
  if decide (rc <> SUCCESS) then ret MQTT_CONNECTION_ERROR
  else
    do! rc := network_connect in
    check rc
      (let connect_timer := init_timer (mkTimer (mkTimeval 0 0)) in
       do! commandTimeoutMs := client (fun c => commandTimeoutMs (clientData c)) in
       do! connect_timer := world (countdown_ms connect_timer commandTimeoutMs) in
       do! c := client clientData in
       run! assign (set_keepAliveInterval (keepAliveIntervalInSec (options c))) in
       do! (rc, buf, len) := lift (_aws_iot_mqtt_serialize_connect (Some (writeBuf c))
         (writeBufSize c) (Some (options c)) (Some 0)) in
       run! store_tx buf in
       do! len := lift (deref len) in
       if bool_decide (rc <> SUCCESS) || (len <=? 0) then ret rc
       else
         do! rc := aws_iot_mqtt_internal_send_packet fuel pCLIENT len (Some connect_timer) in
         check rc
           (do! rc := aws_iot_mqtt_internal_wait_for_read fuel pCLIENT (MessageTypes_value CONNACK)
                        (Some connect_timer) in
            check rc
              (do! c := client clientData in
               do! (rc, sessionPresent, connack_rc) := lift (_aws_iot_mqtt_deserialize_connack
                 (Some 0) (Some FAILURE) (Some (readBuf c)) (readBufSize c)) in
               check rc
                 (do! connack_rc := lift (deref connack_rc) in
                  if decide (MQTT_CONNACK_CONNECTION_ACCEPTED <> connack_rc) then ret connack_rc
                  else
                    run! assign (set_isPingOutstanding false) in
                    do! c := client id in
                    do! t := world (countdown_sec (pingTimer c) (keepAliveInterval (clientData c))) in
                    run! assign (set_pingTimer t) in
                    ret SUCCESS)))).

Definition aws_iot_mqtt_connect (pClient : client_ptr)
    (pConnectParams : option IoT_Client_Connect_Params) : M (St W) IoT_Error_t :=
  match pClient with
  | pNULL => ret NULL_VALUE_ERROR
  | pCLIENT =>
      do! clientState := aws_iot_mqtt_get_client_state pClient in
      if eqb false (_aws_iot_mqtt_is_client_state_valid_for_connect clientState)
      then ret NETWORK_ALREADY_CONNECTED_ERROR
      else
        run! aws_iot_mqtt_set_client_state pClient clientState CLIENT_STATE_CONNECTING in
        do! rc := _aws_iot_mqtt_internal_connect pConnectParams in
        run!
          if decide (SUCCESS <> rc) then
            run! network_disconnect in
            run! network_destroy in
            aws_iot_mqtt_set_client_state pClient CLIENT_STATE_CONNECTING
              CLIENT_STATE_DISCONNECTED_ERROR
          else
            aws_iot_mqtt_set_client_state pClient CLIENT_STATE_CONNECTING
              CLIENT_STATE_CONNECTED_IDLE in
        ret rc
  end.

Definition _aws_iot_mqtt_internal_disconnect : M (St W) IoT_Error_t :=
  do! c := client clientData in
  do! (rc, buf, serialized_len) := lift (aws_iot_mqtt_internal_serialize_zero (Some (writeBuf c))
    (writeBufSize c) DISCONNECT (Some 0)) in
  run! store_tx buf in
  do! serialized_len := lift (deref serialized_len) in
  check rc
    (let timer := init_timer (mkTimer (mkTimeval 0 0)) in
     do! commandTimeoutMs := client (fun c => commandTimeoutMs (clientData c)) in
     do! timer := world (countdown_ms timer commandTimeoutMs) in
     do! rc :=
       if 0 <? serialized_len
       then aws_iot_mqtt_internal_send_packet fuel pCLIENT serialized_len (Some timer)
       else ret SUCCESS in
     check rc
       (run! network_disconnect in
        do! rc := network_destroy in
        if decide (SUCCESS <> rc) then ret FAILURE else ret SUCCESS)).

Definition aws_iot_mqtt_disconnect (pClient : client_ptr) : M (St W) IoT_Error_t :=
  match pClient with
  | pNULL => ret NULL_VALUE_ERROR
  | pCLIENT =>
      do! clientState := aws_iot_mqtt_get_client_state pClient in
      do! connected := aws_iot_mqtt_is_client_connected pClient in
      if negb connected then ret NETWORK_DISCONNECTED_ERROR
      else
        do! rc := aws_iot_mqtt_set_client_state pClient clientState CLIENT_STATE_DISCONNECTING in
        check rc
          (do! rc := _aws_iot_mqtt_internal_disconnect in
           run!
             if decide (SUCCESS <> rc) then assign (set_clientState clientState)
             else assign (set_clientState CLIENT_STATE_DISCONNECTED_MANUALLY) in
           ret rc)
  end.

Definition aws_iot_mqtt_attempt_reconnect (pClient : client_ptr) : M (St W) IoT_Error_t :=
  match pClient with
  | pNULL => ret NULL_VALUE_ERROR
  | pCLIENT =>
      do! connected := aws_iot_mqtt_is_client_connected pClient in
      if (connected : bool) then ret NETWORK_ALREADY_CONNECTED_ERROR
      else
        run! aws_iot_mqtt_connect pClient None in
        do! s := aws_iot_mqtt_get_client_state pClient in
        if decide (CLIENT_STATE_CONNECTED_IDLE <> s) then
          run! aws_iot_mqtt_set_client_state pClient CLIENT_STATE_DISCONNECTED_ERROR
                 CLIENT_STATE_PENDING_RECONNECT in
          ret NETWORK_ATTEMPTING_RECONNECT
        else
          do! rc := aws_iot_mqtt_resubscribe fuel pClient in
          check rc (ret NETWORK_RECONNECTED)
  end.
End connect.

(** ** Termination and life cycle *)

Section connect_laws.
Context {W : Type} {clock : Clock W} {net : NetworkOps W} {mutexes : MutexOps W} {app : AppOps W}.
Context {laws : EnvLaws W} (fuel : nat).

Lemma wp_network_connect (Q : IoT_Error_t -> St W -> Prop) s :
  (forall rc s', steady s s' -> Q rc s') -> wp total network_connect Q s.
Proof.
  intros HQ. destruct s as [c w]. unfold network_connect. apply wp_bind, wp_client, wp_bind, wp_world.
  eapply owp_mono; [apply law_connect|]. intros [[rc n] w'] Hw. apply wp_bind, wp_assign, wp_ret.
  apply HQ. by repeat split; try apply Hw.
Qed.

Lemma wp_network_disconnect (Q : IoT_Error_t -> St W -> Prop) s :
  (forall rc s', steady s s' -> Q rc s') -> wp total network_disconnect Q s.
Proof.
  intros HQ. destruct s as [c w]. unfold network_disconnect. apply wp_bind, wp_client, wp_world.
  eapply owp_mono; [apply law_disconnect|]. intros [rc w'] Hw. by apply HQ, steady_world.
Qed.

Lemma wp_network_destroy (Q : IoT_Error_t -> St W -> Prop) s :
  (forall rc s', steady s s' -> Q rc s') -> wp total network_destroy Q s.
Proof.
  intros HQ. destruct s as [c w]. unfold network_destroy. apply wp_bind, wp_client, wp_world.
  eapply owp_mono; [apply law_destroy|]. intros [rc w'] Hw. by apply HQ, steady_world.
Qed.

Lemma internal_connect_evolves p s :
  enough fuel s -> wp total (_aws_iot_mqtt_internal_connect fuel p) (fun _ s' => evolves s s') s.
Proof.
  intros He. unfold _aws_iot_mqtt_internal_connect. apply wp_bind.
  assert (Hset : wp total (match p with
      | Some _ => aws_iot_mqtt_set_connect_params pCLIENT p | None => ret SUCCESS end)
      (fun rc s' => rc = SUCCESS /\ steady s s') s).
  { destruct p as [p|]; [|by apply wp_ret]. destruct s as [c w]. apply wp_bind, wp_assign, wp_ret.
    split; [done|]. by apply (steady_assign (set_options _)). }
  eapply wp_mono; [exact Hset|]. intros rc s1 [-> H1].
  destruct (decide (SUCCESS <> SUCCESS)) as [|_]; [done|].
  apply wp_bind, wp_network_connect. intros rc2 [c2 w2] H2.
  assert (S2 : steady s (c2, w2)) by (by etrans). pose proof (steady_evolves _ _ S2) as E2.
  apply wp_check; [done|]. intros _. cbv zeta. apply wp_bind, wp_client, wp_bind, wp_clock_countdown_ms.
  intros t w3 Hw3 Hn Hx.
  pose proof (command_timer_ok fuel (c2, w2) c2 w3 t (enough_steady fuel _ _ He S2)
    ltac:(reflexivity) Hn Hx) as Ht.
  apply wp_bind, wp_client, wp_bind, wp_assign, wp_bind, wp_lift.
  eapply owp_mono; [apply serialize_connect_finishes|].
  intros [[rc4 buf] len] ((b & -> & _) & [l ->] & Hp). apply wp_bind. eapply wp_store_tx; [done|].
  apply wp_bind, wp_lift. cbn [deref owp]. set (s4 := (_, w3) : St W).
  assert (H4 : steady s s4).
  { etrans; [exact S2|]. by repeat split; try apply Hw3. }
  pose proof (steady_evolves _ _ H4) as E4.
  destruct (_ || _); [by apply wp_ret|].
  eapply send_and_wait; [exact He|exact Ht|exact E4|by auto|].
  intros [c5 w5] E5. apply wp_bind, wp_client, wp_bind, wp_lift.
  eapply owp_mono; [apply deserialize_connack_finishes|].
  intros [[rc6 sp] cr] (_ & [cr' ->] & _). apply wp_check; [done|]. intros _.
  apply wp_bind, wp_lift. cbn [deref owp].
  destruct (decide (_ <> cr')); [by apply wp_ret|].
  apply wp_bind, wp_assign, wp_bind, wp_client, wp_bind, wp_clock_countdown_sec.
  intros t' w6 Hw6 _. apply wp_bind, wp_assign, wp_ret. etrans; [exact E5|]. apply steady_evolves.
  by repeat split; try apply Hw6.
Qed.

(** [aws_iot_mqtt_connect] always leaves a client it accepted at rest. *)
Lemma connect_evolves p s :
  enough fuel s ->
  wp total (aws_iot_mqtt_connect fuel pCLIENT p)
    (fun rc s' => evolves s s' /\
       (rc <> NETWORK_ALREADY_CONNECTED_ERROR -> quiescent (state_of s'.1) = true)) s.
Proof.
  intros He. unfold aws_iot_mqtt_connect. apply wp_bind, wp_client.
  destruct (eqb false _) eqn:Ev; [by apply wp_ret|].
  apply wp_bind, wp_enter; [done|]. intros s1 H1 Hs1. apply wp_bind.
  eapply wp_mono; [apply internal_connect_evolves; by eapply enough_near|].
  intros rc s2 [Hm Hn]. rewrite Hs1 in Hm. apply wp_bind.
  assert (Hend : forall st s3, near s s3 -> moves_to CLIENT_STATE_CONNECTING (state_of s3.1) ->
    quiescent st = true ->
    wp total (aws_iot_mqtt_set_client_state pCLIENT CLIENT_STATE_CONNECTING st)
      (fun _ s' => wp total (ret rc) (fun rc s' => evolves s s' /\
        (rc <> NETWORK_ALREADY_CONNECTED_ERROR -> quiescent (state_of s'.1) = true)) s') s3).
  { intros st s3 H3 Hm3 Hq. apply (wp_restore _ _ _ _ Hm3). intros rc4 s4 H4 Hm4 _ _. apply wp_ret.
    assert (Hq4 : quiescent (state_of s4.1) = true) by (destruct Hm4 as [->|]; done).
    split; [|done]. apply near_evolves; [by etrans|by right]. }
  assert (N2 : near s s2) by (by etrans).
  destruct (decide (SUCCESS <> rc)).
  - apply wp_bind, wp_network_disconnect. intros r3 s3 H3. apply wp_bind, wp_network_destroy.
    intros r4 s4 H4. apply Hend; [|destruct H3 as [E3 _], H4 as [E4 _]; by rewrite E4, E3|done].
    etrans; [exact N2|]. etrans; apply evolves_near, steady_evolves; eassumption.
  - by apply Hend.
Qed.

Lemma internal_disconnect_steady s :
  enough fuel s -> wp total (_aws_iot_mqtt_internal_disconnect fuel) (fun _ s' => steady s s') s.
Proof.
  intros He. destruct s as [c w]. unfold _aws_iot_mqtt_internal_disconnect.
  apply wp_bind, wp_client, wp_bind, wp_lift. eapply owp_mono; [apply serialize_zero_finishes|].
  intros [[rc buf] len] ((b & -> & _) & [l ->] & Hp). apply wp_bind. eapply wp_store_tx; [done|].
  apply wp_bind, wp_lift. cbn [deref owp]. set (c1 := set_writeBuf b c).
  assert (S1 : steady (c, w) (c1, w)) by apply steady_writeBuf.
  apply wp_check; [done|]. intros _. cbv zeta. apply wp_bind, wp_client, wp_bind, wp_clock_countdown_ms.
  intros t w2 Hw2 Hn Hx.
  pose proof (command_timer_ok fuel (c1, w) c1 w2 t (enough_steady fuel _ _ He S1)
    ltac:(reflexivity) Hn Hx) as Ht.
  assert (S2 : steady (c, w) (c1, w2)) by (etrans; [exact S1|by apply steady_world]).
  apply wp_bind.
  assert (Hsend : wp total (if 0 <? l then aws_iot_mqtt_internal_send_packet fuel pCLIENT l (Some t)
                            else ret SUCCESS) (fun _ s' => steady (c, w) s') (c1, w2)).
  { destruct (0 <? l); [|by apply wp_ret].
    eapply wp_mono; [apply send_packet_steady; [by eapply enough_steady|done]|].
    intros rc3 s3 [H3 _]. by etrans. }
  eapply wp_mono; [exact Hsend|]. intros rc3 s3 H3. apply wp_check; [done|]. intros _.
  apply wp_bind, wp_network_disconnect. intros r4 s4 H4. apply wp_bind, wp_network_destroy.
  intros r5 s5 H5. assert (steady (c, w) s5) by (etrans; [exact H3|by etrans]).
  destruct (decide (SUCCESS <> r5)); by apply wp_ret.
Qed.

Lemma disconnect_evolves s :
  enough fuel s ->
  wp total (aws_iot_mqtt_disconnect fuel pCLIENT)
    (fun rc s' => evolves s s' /\
       (rc = SUCCESS -> state_of s'.1 = CLIENT_STATE_DISCONNECTED_MANUALLY)) s.
Proof.
  intros He. unfold aws_iot_mqtt_disconnect. apply wp_bind, wp_client, wp_bind, wp_client.
  destruct (negb _); [by apply wp_ret|]. apply wp_bind, wp_enter; [done|]. intros s1 H1 Hs1.
  apply wp_check; [done|]. intros _. apply wp_bind.
  eapply wp_mono; [apply internal_disconnect_steady; by eapply enough_near|].
  intros rc [c2 w2] (_ & Hn). apply wp_bind.
  assert (N2 : near s (c2, w2)) by (by etrans).
  destruct (decide (SUCCESS <> rc)); apply wp_assign, wp_ret.
  - split; [|congruence]. apply near_evolves; [|by left].
    etrans; [exact N2|by apply (near_assign (set_clientState _))].
  - split; [|done]. apply near_evolves; [|by right].
    etrans; [exact N2|by apply (near_assign (set_clientState _))].
Qed.

Lemma attempt_reconnect_evolves s :
  enough fuel s ->
  wp total (aws_iot_mqtt_attempt_reconnect fuel pCLIENT)
    (fun rc s' => evolves s s' /\
       (rc = NETWORK_RECONNECTED -> state_of s'.1 = CLIENT_STATE_CONNECTED_IDLE)) s.
Proof.
  intros He. unfold aws_iot_mqtt_attempt_reconnect. apply wp_bind, wp_client.
  destruct (is_connected_state _); [by apply wp_ret|]. apply wp_bind.
  eapply wp_mono; [by apply connect_evolves|]. intros rc s1 [H1 _]. apply wp_bind, wp_client.
  destruct (decide (_ <> _)) as [|Hst].
  - apply wp_bind. destruct s1 as [c1 w1].
    apply wp_set_client_state; intros w2 Hw2 Hs; apply wp_ret; (split; [|done]).
    + etrans; [exact H1|]. apply near_evolves; [by split|by right].
    + etrans; [exact H1|]. by apply steady_evolves, steady_world.
  - apply wp_bind. eapply wp_mono; [apply resubscribe_evolves; by eapply enough_evolves|].
    intros rc2 s2 (H2 & Hne & Hok). assert (E2 : evolves s s2) by (by etrans).
    apply wp_check.
    + intros _. split; [done|]. by intros ->.
    + intros ->. apply wp_ret. split; [done|]. intros _. by apply Hok.
Qed.
End connect_laws.
