(* ===== verification/Yield.v ===== *)
(** * Yielding, keep-alive and automatic reconnection: src/aws_iot_mqtt_client_yield.c *)

From S2P Require Export Connect.

Section yield.
Context {W : Type} {clock : Clock W} {net : NetworkOps W} {mutexes : MutexOps W} {app : AppOps W}.
Context (fuel : nat).

Definition _aws_iot_mqtt_force_client_disconnect : M (St W) unit :=
  run! assign (set_clientState CLIENT_STATE_DISCONNECTED_ERROR) in
  run! network_disconnect in
  run! network_destroy in
  ret tt.

Definition _aws_iot_mqtt_handle_disconnect : M (St W) IoT_Error_t :=
  do! rc := aws_iot_mqtt_disconnect fuel pCLIENT in
  run! if decide (rc <> SUCCESS) then _aws_iot_mqtt_force_client_disconnect else ret tt in
  do! c := client clientData in
  run!
    match disconnectHandler c with
    | Some f => fun '(c', w) =>
        let! s := call_disconnect_handler f (disconnectHandlerData c) c' w in Done (tt, s)
    | None => ret tt
    end in
  run! assign (set_clientState CLIENT_STATE_DISCONNECTED_ERROR) in
  ret NETWORK_DISCONNECTED_ERROR.

(** [currentReconnectWaitInterval *= 2] and what follows, when no attempt has succeeded. *)
Definition back_off (rc : IoT_Error_t) : M (St W) IoT_Error_t :=
  run! assign (fun c =>
    set_currentReconnectWaitInterval (u32 (currentReconnectWaitInterval (clientData c) * 2)) c) in
  do! c := client id in
  if AWS_IOT_MQTT_MAX_RECONNECT_WAIT_INTERVAL <? currentReconnectWaitInterval (clientData c)
  then ret NETWORK_RECONNECT_TIMED_OUT_ERROR
  else
    do! t := world (countdown_ms (reconnectDelayTimer c) (currentReconnectWaitInterval (clientData c))) in
    run! assign (set_reconnectDelayTimer t) in
    ret rc.

Definition _aws_iot_mqtt_handle_reconnect : M (St W) IoT_Error_t :=
  do! c := client id in
  do! expired := world (has_timer_expired (reconnectDelayTimer c)) in
  if negb expired then ret NETWORK_ATTEMPTING_RECONNECT
  else
    let rc := NETWORK_PHYSICAL_LAYER_DISCONNECTED in
    do! rc :=
      match net_isConnected with
      | Some isConnected => do! n := client networkStack in world (isConnected n)
      | None => ret rc
      end in
    if decide (NETWORK_PHYSICAL_LAYER_CONNECTED = rc) then
      do! rc := aws_iot_mqtt_attempt_reconnect fuel pCLIENT in
      if decide (NETWORK_RECONNECTED = rc) then
        do! rc := aws_iot_mqtt_set_client_state pCLIENT CLIENT_STATE_CONNECTED_IDLE
                    CLIENT_STATE_CONNECTED_YIELD_IN_PROGRESS in
        check rc (ret NETWORK_RECONNECTED)
      else back_off rc
    else back_off rc.

Definition _aws_iot_mqtt_keep_alive (pClient : client_ptr) : M (St W) IoT_Error_t :=
  match pClient with
  | pNULL => ret NULL_VALUE_ERROR
  | pCLIENT =>
      do! c := client id in
      if 0 =? keepAliveInterval (clientData c) then ret SUCCESS
      else
        do! expired := world (has_timer_expired (pingTimer c)) in
        if negb expired then ret SUCCESS
        else if isPingOutstanding (clientStatus c) then _aws_iot_mqtt_handle_disconnect
        else
          let timer := init_timer (mkTimer (mkTimeval 0 0)) in
          do! timer := world (countdown_ms timer (commandTimeoutMs (clientData c))) in
          let serialized_len := 0 in
          do! (rc, buf, serialized_len) := lift (aws_iot_mqtt_internal_serialize_zero
            (Some (writeBuf (clientData c))) (writeBufSize (clientData c)) PINGREQ
            (Some serialized_len)) in
          run! store_tx buf in
          do! serialized_len := lift (deref serialized_len) in
          check rc
            (do! rc := aws_iot_mqtt_internal_send_packet fuel pCLIENT serialized_len (Some timer) in
             if decide (SUCCESS <> rc) then _aws_iot_mqtt_handle_disconnect
             else
               run! assign (set_isPingOutstanding true) in
               do! c := client id in
               do! t := world (countdown_sec (pingTimer c) (keepAliveInterval (clientData c))) in
               run! assign (set_pingTimer t) in
               ret SUCCESS)
  end.

(** What one round of the loop of [_aws_iot_mqtt_internal_yield] decides: leave the function or the
    loop ([break]), or go on to the loop's condition, with the value of [yieldRc]. *)
Inductive yield_step : Set :=
  | yLEAVE (yieldRc : IoT_Error_t)
  | yCONTINUE (yieldRc : IoT_Error_t).

Definition is_ssl_error (rc : IoT_Error_t) : bool :=
  bool_decide (NETWORK_SSL_READ_ERROR = rc) || bool_decide (NETWORK_SSL_READ_TIMEOUT_ERROR = rc)
  || bool_decide (NETWORK_SSL_WRITE_ERROR = rc) || bool_decide (NETWORK_SSL_WRITE_TIMEOUT_ERROR = rc).

(** The body of the loop; [packet_type] is uninitialised until a packet is read and never used. *)
Definition yield_round (timer : Timer) : M (St W) yield_step :=
  do! clientState := aws_iot_mqtt_get_client_state pCLIENT in
  if decide (CLIENT_STATE_PENDING_RECONNECT = clientState) then
    do! interval := client (fun c => currentReconnectWaitInterval (clientData c)) in
    if AWS_IOT_MQTT_MAX_RECONNECT_WAIT_INTERVAL <? interval
    then ret (yLEAVE NETWORK_RECONNECT_TIMED_OUT_ERROR)
    else
      do! yieldRc := _aws_iot_mqtt_handle_reconnect in
      ret (yCONTINUE yieldRc)
  else
    do! (yieldRc, packet_type) := aws_iot_mqtt_internal_cycle_read fuel pCLIENT (Some timer) 0 in
    do! yieldRc :=
      if decide (SUCCESS = yieldRc) then _aws_iot_mqtt_keep_alive pCLIENT
      else if is_ssl_error yieldRc then _aws_iot_mqtt_handle_disconnect
      else ret yieldRc in
    if decide (NETWORK_DISCONNECTED_ERROR = yieldRc) then
      run! assign (fun c =>
        set_counterNetworkDisconnected (u32 (counterNetworkDisconnected (clientData c) + 1)) c) in
      do! isAutoReconnectEnabled := client (fun c => isAutoReconnectEnabled (clientStatus c)) in
      if eqb true isAutoReconnectEnabled then
        do! yieldRc := aws_iot_mqtt_set_client_state pCLIENT CLIENT_STATE_DISCONNECTED_ERROR
                         CLIENT_STATE_PENDING_RECONNECT in
        if decide (SUCCESS <> yieldRc) then ret (yLEAVE yieldRc)
        else
          run! assign (set_currentReconnectWaitInterval AWS_IOT_MQTT_MIN_RECONNECT_WAIT_INTERVAL) in
          do! c := client id in
          do! t := world (countdown_ms (reconnectDelayTimer c)
                            (currentReconnectWaitInterval (clientData c))) in
          run! assign (set_reconnectDelayTimer t) in
          ret (yCONTINUE NETWORK_ATTEMPTING_RECONNECT)
      else ret (yLEAVE yieldRc)
    else if decide (SUCCESS <> yieldRc) then ret (yLEAVE yieldRc)
    else ret (yCONTINUE yieldRc).

Definition _aws_iot_mqtt_internal_yield (timeout_ms : Z) : M (St W) IoT_Error_t :=
  let timer := init_timer (mkTimer (mkTimeval 0 0)) in
  do! timer := world (countdown_ms timer timeout_ms) in
  loop fuel (fun _ : unit =>
    do! step := yield_round timer in
    match step with
    | yLEAVE yieldRc => ret (inr yieldRc)
    | yCONTINUE yieldRc =>
        do! expired := world (has_timer_expired timer) in
        if negb expired then ret (inl tt) else ret (inr yieldRc)
    end) tt.

Definition aws_iot_mqtt_yield (pClient : client_ptr) (timeout_ms : Z) : M (St W) IoT_Error_t :=
  if bool_decide (pNULL = pClient) || (0 =? timeout_ms) then ret NULL_VALUE_ERROR
  else
    do! clientState := aws_iot_mqtt_get_client_state pClient in
    if decide (CLIENT_STATE_DISCONNECTED_MANUALLY = clientState) then ret NETWORK_MANUALLY_DISCONNECTED
    else
      let run_yield :=
        do! yieldRc := _aws_iot_mqtt_internal_yield timeout_ms in
        if bool_decide (NETWORK_DISCONNECTED_ERROR <> yieldRc)
           && bool_decide (NETWORK_ATTEMPTING_RECONNECT <> yieldRc) then
          do! rc := aws_iot_mqtt_set_client_state pClient CLIENT_STATE_CONNECTED_YIELD_IN_PROGRESS
                      CLIENT_STATE_CONNECTED_IDLE in
          ret (if bool_decide (SUCCESS = yieldRc) && bool_decide (SUCCESS <> rc) then rc else yieldRc)
        else ret yieldRc in
      if decide (CLIENT_STATE_PENDING_RECONNECT <> clientState) then
        do! connected := aws_iot_mqtt_is_client_connected pClient in
        if negb connected then ret NETWORK_DISCONNECTED_ERROR
        else if decide (CLIENT_STATE_CONNECTED_IDLE <> clientState) then ret MQTT_CLIENT_NOT_IDLE_ERROR
        else
          do! rc := aws_iot_mqtt_set_client_state pClient CLIENT_STATE_CONNECTED_IDLE
                      CLIENT_STATE_CONNECTED_YIELD_IN_PROGRESS in
          check rc run_yield
      else run_yield.
End yield.

(** ** Termination and life cycle *)

Section yield_laws.
Context {W : Type} {clock : Clock W} {net : NetworkOps W} {mutexes : MutexOps W} {app : AppOps W}.
Context {laws : EnvLaws W} (fuel : nat).

Lemma handle_disconnect_near s :
  enough fuel s ->
  wp total (_aws_iot_mqtt_handle_disconnect fuel) (fun rc s' =>
    near s s' /\ rc = NETWORK_DISCONNECTED_ERROR /\
    state_of s'.1 = CLIENT_STATE_DISCONNECTED_ERROR) s.
Proof.
  intros He. unfold _aws_iot_mqtt_handle_disconnect. apply wp_bind.
  eapply wp_mono; [by apply disconnect_evolves|]. intros rc s1 [H1 _]. apply wp_bind.
  assert (Hforce : wp total (if decide (rc <> SUCCESS) then _aws_iot_mqtt_force_client_disconnect else ret tt)
    (fun _ s' => near s s') s1).
  { destruct (decide (rc <> SUCCESS)); [|by apply wp_ret, evolves_near]. destruct s1 as [c1 w1].
    apply wp_bind, wp_assign, wp_bind, wp_network_disconnect. intros r2 s2 H2.
    apply wp_bind, wp_network_destroy. intros r3 s3 H3. apply wp_ret.
    etrans; [by apply evolves_near|]. etrans; [by apply (near_assign (set_clientState CLIENT_STATE_DISCONNECTED_ERROR))|].
    etrans; apply evolves_near, steady_evolves; eassumption. }
  eapply wp_mono; [exact Hforce|]. intros ? s2 H2. apply wp_bind, wp_client, wp_bind.
  assert (Hh : wp total (match disconnectHandler (clientData s2.1) with
      | Some f => fun '(c', w) =>
          let! s := call_disconnect_handler f (disconnectHandlerData (clientData s2.1)) c' w in Done (tt, s)
      | None => ret tt end) (fun _ s' => near s s') s2).
  { destruct (disconnectHandler _) as [f|]; [|by apply wp_ret]. destruct s2 as [c2 w2].
    unfold wp. apply owp_bind. eapply owp_mono; [apply law_disconnect_handler|].
    intros [c3 w3] (_ & Hc & Hw). simpl. etrans; [exact H2|]. by split. }
  eapply wp_mono; [exact Hh|]. intros ? [c3 w3] H3. apply wp_bind, wp_assign, wp_ret.
  split; [|done]. etrans; [exact H3|]. by apply (near_assign (set_clientState CLIENT_STATE_DISCONNECTED_ERROR)).
Qed.

Lemma back_off_steady rc s :
  wp total (back_off rc) (fun _ s' => steady s s') s.
Proof.
  destruct s as [c w]. unfold back_off. apply wp_bind, wp_assign, wp_bind, wp_client.
  destruct (_ <? _); [by apply wp_ret|]. apply wp_bind, wp_clock_countdown_ms. intros t w' Hw _ _.
  apply wp_bind, wp_assign, wp_ret. by repeat split; try apply Hw.
Qed.

Lemma handle_reconnect_near s :
  enough fuel s -> quiescent (state_of s.1) = true ->
  wp total (_aws_iot_mqtt_handle_reconnect fuel) (fun rc s' =>
    near s s' /\
    (quiescent (state_of s'.1) = true \/
     rc = NETWORK_RECONNECTED /\ state_of s'.1 = CLIENT_STATE_CONNECTED_YIELD_IN_PROGRESS)) s.
Proof.
  intros He Hq. destruct s as [c w]. unfold _aws_iot_mqtt_handle_reconnect.
  apply wp_bind, wp_client, wp_bind, wp_clock_expired. intros b w1 Hw1 _ _.
  assert (N1 : near (c, w) (c, w1)) by (by split).
  destruct (negb b); [apply wp_ret; by auto|]. cbv zeta. apply wp_bind.
  assert (Hc : wp total (match net_isConnected with
      | Some isConnected => do! n := client networkStack in world (isConnected n)
      | None => ret NETWORK_PHYSICAL_LAYER_DISCONNECTED end)
      (fun _ s' => exists w', s' = (c, w') /\ world_le W w1 w') (c, w1)).
  { destruct net_isConnected as [f|] eqn:Ef; [|apply wp_ret; by exists w1].
    apply wp_bind, wp_client, wp_world. eapply owp_mono; [by apply law_isConnected|].
    intros [rc w'] Hw'. by exists w'. }
  eapply wp_mono; [exact Hc|]. intros rc s2 (w2 & -> & Hw2).
  assert (N2 : near (c, w) (c, w2)) by (split; [done|by etrans]).
  assert (Hback : forall rc s3, near (c, w) s3 -> quiescent (state_of s3.1) = true ->
    wp total (back_off rc) (fun rc s' => near (c, w) s' /\
      (quiescent (state_of s'.1) = true \/
       rc = NETWORK_RECONNECTED /\ state_of s'.1 = CLIENT_STATE_CONNECTED_YIELD_IN_PROGRESS)) s3).
  { intros rc' s3 H3 Hq3. eapply wp_mono; [apply back_off_steady|]. intros rc4 s4 H4.
    split; [etrans; [exact H3|by apply evolves_near, steady_evolves]|]. left.
    destruct H4 as [-> _]. done. }
  destruct (decide (_ = rc)); [|by apply Hback].
  apply wp_bind. eapply wp_mono; [apply attempt_reconnect_evolves; by eapply enough_near|].
  intros rc3 s3 [H3 Hok]. assert (N3 : near (c, w) s3) by (etrans; [exact N2|by apply evolves_near]).
  destruct (decide (NETWORK_RECONNECTED = rc3)) as [<-|].
  - apply wp_bind, wp_enter; [by apply Hok|]. intros s4 H4 Hs4. apply wp_check; [done|]. intros _.
    apply wp_ret. split; [by etrans|]. by right.
  - apply Hback; [done|]. destruct H3 as [[H3|H3] _]; [by rewrite H3|done].
Qed.

Lemma keep_alive_near s :
  enough fuel s ->
  wp total (_aws_iot_mqtt_keep_alive fuel pCLIENT) (fun rc s' =>
    near s s' /\
    (plain rc /\ state_of s'.1 = state_of s.1 \/
     rc = NETWORK_DISCONNECTED_ERROR /\ state_of s'.1 = CLIENT_STATE_DISCONNECTED_ERROR)) s.
Proof.
  intros He. destruct s as [c w]. unfold _aws_iot_mqtt_keep_alive.
  apply wp_bind, wp_client. destruct (0 =? _); [apply wp_ret; split; [reflexivity|by left]|].
  apply wp_bind, wp_clock_expired. intros b w1 Hw1 _ _.
  assert (S1 : steady (c, w) (c, w1)) by (by apply steady_world).
  destruct (negb b); [apply wp_ret; split; [by apply evolves_near, steady_evolves|by left]|].
  assert (Hdisc : forall s2, near (c, w) s2 -> wp total (_aws_iot_mqtt_handle_disconnect fuel) (fun rc s' =>
    near (c, w) s' /\
    (plain rc /\ state_of s'.1 = state_of (c, w).1 \/
     rc = NETWORK_DISCONNECTED_ERROR /\ state_of s'.1 = CLIENT_STATE_DISCONNECTED_ERROR)) s2).
  { intros s2 N2. eapply wp_mono; [apply handle_disconnect_near; by eapply enough_near|].
    intros rc s3 (N3 & -> & Hs3). split; [by etrans|by right]. }
  destruct (isPingOutstanding _); [by apply Hdisc, evolves_near, steady_evolves|]. cbv zeta.
  apply wp_bind, wp_clock_countdown_ms. intros t w2 Hw2 Hn Hx.
  pose proof (command_timer_ok fuel (c, w) c w2 t He ltac:(reflexivity) Hn Hx) as Ht.
  apply wp_bind, wp_lift. eapply owp_mono; [apply serialize_zero_finishes|].
  intros [[rc buf] len] ((bf & -> & _) & [l ->] & Hp). apply wp_bind. eapply wp_store_tx; [done|].
  apply wp_bind, wp_lift. cbn [deref owp].
  assert (S2 : steady (c, w) (set_writeBuf bf c, w2)).
  { etrans; [exact S1|]. etrans; [by apply steady_world|]. apply steady_writeBuf. }
  apply wp_check; [intros _; split; [by apply evolves_near, steady_evolves|by left]|]. intros _.
  apply wp_bind. eapply wp_mono; [apply send_packet_steady; [by eapply enough_steady|done]|].
  intros rc3 [c3 w3] [H3 _]. assert (S3 : steady (c, w) (c3, w3)) by (by etrans).
  destruct (decide (SUCCESS <> rc3)); [by apply Hdisc, evolves_near, steady_evolves|].
  apply wp_bind, wp_assign, wp_bind, wp_client, wp_bind, wp_clock_countdown_sec. intros t' w4 Hw4 _.
  apply wp_bind, wp_assign, wp_ret.
  assert (S4 : steady (c, w) (set_pingTimer t' (set_isPingOutstanding true c3), w4)).
  { etrans; [exact S3|]. by repeat split; try apply Hw4. }
  split; [by apply evolves_near, steady_evolves|]. left. split; [done|]. apply S4.
Qed.

Definition step_rc (r : yield_step) : IoT_Error_t :=
  match r with yLEAVE rc | yCONTINUE rc => rc end.

(** What the caller of the yielding loop relies on. *)
Definition yield_post (s : St W) (rc : IoT_Error_t) (s' : St W) : Prop :=
  near s s' /\ moves_to CLIENT_STATE_CONNECTED_YIELD_IN_PROGRESS (state_of s'.1) /\
  (rc = NETWORK_DISCONNECTED_ERROR \/ rc = NETWORK_ATTEMPTING_RECONNECT ->
   quiescent (state_of s'.1) = true).

Lemma yield_round_post t s :
  enough fuel s -> timer_ok fuel t s.2 ->
  moves_to CLIENT_STATE_CONNECTED_YIELD_IN_PROGRESS (state_of s.1) ->
  wp total (yield_round fuel t) (fun r s' => yield_post s (step_rc r) s') s.
Proof.
  intros He Ht Hm. unfold yield_round. apply wp_bind, wp_client.
  destruct (decide (CLIENT_STATE_PENDING_RECONNECT = state_of s.1)) as [Hst|_].
  { apply wp_bind, wp_client. destruct (_ <? _).
    { apply wp_ret. split; [reflexivity|]. split; [done|]. by intros [|]. }
    apply wp_bind. eapply wp_mono; [apply handle_reconnect_near; [done|by rewrite <- Hst]|].
    intros rc s1 [N1 Hs1]. apply wp_ret. split; [done|].
    destruct Hs1 as [Hq|[-> Hy]]; [split; [by right|done]|]. split; [by left|]. by intros [|]. }
  apply wp_bind. eapply wp_mono; [by apply cycle_read_evolves|].
  intros [rc pt] s1 [[Hm1 N1] Hp1]. apply wp_bind.
  assert (M1 : moves_to CLIENT_STATE_CONNECTED_YIELD_IN_PROGRESS (state_of s1.1)).
  { destruct Hm1 as [->|?]; [done|by right]. }
  assert (Hmid : wp total
    (if decide (SUCCESS = rc) then _aws_iot_mqtt_keep_alive fuel pCLIENT
     else if is_ssl_error rc then _aws_iot_mqtt_handle_disconnect fuel else ret rc)
    (fun rc s' => near s s' /\ moves_to CLIENT_STATE_CONNECTED_YIELD_IN_PROGRESS (state_of s'.1) /\
      (plain rc \/ rc = NETWORK_DISCONNECTED_ERROR /\ state_of s'.1 = CLIENT_STATE_DISCONNECTED_ERROR)) s1).
  { destruct (decide (SUCCESS = rc)) as [<-|].
    - eapply wp_mono; [apply keep_alive_near; by eapply enough_near|].
      intros rc2 s2 [N2 [[Hp2 Hs2]|[-> Hs2]]]; (split; [by etrans|]); rewrite Hs2; auto.
      split; [by right|]. right. by split.
    - destruct (is_ssl_error rc); [|by apply wp_ret; auto].
      eapply wp_mono; [apply handle_disconnect_near; by eapply enough_near|].
      intros rc2 s2 (N2 & -> & Hs2). rewrite Hs2. split; [by etrans|]. split; [by right|]. right. by split. }
  eapply wp_mono; [exact Hmid|]. intros rc2 [c2 w2] (N2 & M2 & Hrc2).
  destruct (decide (NETWORK_DISCONNECTED_ERROR = rc2)) as [<-|Hne].
  - destruct Hrc2 as [Hrc2|[_ Hs2]]; [done|]. cbn [fst] in Hs2. apply wp_bind, wp_assign.
    set (c3 := set_counterNetworkDisconnected _ c2).
    assert (N3 : near s (c3, w2)).
    { etrans; [exact N2|]. by apply (near_assign (set_counterNetworkDisconnected _)). }
    apply wp_bind, wp_client. destruct (eqb true _).
    + apply wp_bind, wp_enter; [done|]. intros [c4 w4] N4 Hs4.
      destruct (decide (SUCCESS <> SUCCESS)) as [|_]; [done|].
      apply wp_bind, wp_assign, wp_bind, wp_client, wp_bind, wp_clock_countdown_ms. intros t' w5 Hw5 _ _.
      apply wp_bind, wp_assign, wp_ret. cbn [step_rc].
      set (c5 := set_reconnectDelayTimer _ _). assert (N5 : near s (c5, w5)).
      { etrans; [exact N3|]. etrans; [exact N4|]. by split. }
      assert (Hq : quiescent (state_of c5) = true).
      { change (state_of c5) with (state_of c4). cbn [fst] in Hs4. by rewrite Hs4. }
      split; [done|]. split; [by right|done].
    + apply wp_ret. assert (Hq : quiescent (state_of c3) = true).
      { change (state_of c3) with (state_of c2). by rewrite Hs2. }
      split; [done|]. split; [by right|done].
  - assert (Hp2 : plain rc2) by (destruct Hrc2 as [|[-> _]]; done).
    destruct (decide (SUCCESS <> rc2)); apply wp_ret; cbn [step_rc];
      (split; [done|]; split; [done|]; by intros [-> | ->]).
Qed.

Lemma internal_yield_post timeout s :
  enough fuel s -> 0 <= timeout -> timeout * 1000 < Z.of_nat fuel ->
  moves_to CLIENT_STATE_CONNECTED_YIELD_IN_PROGRESS (state_of s.1) ->
  wp total (_aws_iot_mqtt_internal_yield fuel timeout) (yield_post s) s.
Proof.
  intros He H0 Hf Hm. destruct s as [c w]. unfold _aws_iot_mqtt_internal_yield. cbv zeta.
  apply wp_bind, wp_clock_countdown_ms. intros t w1 Hw1 Hn Hx.
  assert (Ht : timer_ok fuel t w1) by (split; [done|lia]).
  apply (wp_loop total (fun _ s' => near (c, w) s' /\ world_le W w1 s'.2 /\
    moves_to CLIENT_STATE_CONNECTED_YIELD_IN_PROGRESS (state_of s'.1))
    (fun _ s' => Z.to_nat (expiry t - now s'.2))).
  - split; [by split|]. by split.
  - intros _ s2 (N2 & Hw2 & M2). apply wp_bind. eapply wp_mono.
    { apply yield_round_post; [by eapply enough_near| |done]. eapply timer_ok_le; [exact Ht|done]. }
    intros r s3 (N3 & M3 & Hrc). assert (N : near (c, w) s3) by (by etrans).
    destruct r as [rc|rc]; cbn [step_rc] in Hrc; [by apply wp_ret|].
    destruct s3 as [c3 w3]. apply wp_bind, wp_clock_expired. intros b w4 Hw4 Hlt Hb. rewrite Hb by done.
    assert (N4 : near (c, w) (c3, w4)) by (etrans; [exact N|by split]).
    destruct (Z.leb_spec (expiry t) (now w4)); cbn [negb]; apply wp_ret; [by split|].
    destruct N3 as [_ N3]. cbn [snd] in *. split.
    + split; [done|]. split; [|done]. etrans; [exact Hw2|]. etrans; [exact N3|done].
    + intros _. destruct N3 as [N3 _]. lia.
  - intros _. destruct He as (He & _). destruct Ht as [_ Ht]. cbn [snd] in *. lia.
Qed.

(** [aws_iot_mqtt_yield] returns, and a client it served is at rest. *)
Lemma yield_evolves timeout s :
  enough fuel s -> 0 <= timeout -> timeout * 1000 < Z.of_nat fuel ->
  wp total (aws_iot_mqtt_yield fuel pCLIENT timeout) (fun _ s' => evolves s s') s.
Proof.
  intros He H0 Hf. unfold aws_iot_mqtt_yield.
  destruct (_ || _); [by apply wp_ret|]. apply wp_bind, wp_client.
  destruct (decide (_ = _)); [by apply wp_ret|]. cbv zeta.
  assert (Hrun : forall s1, near s s1 -> quiescent (state_of s.1) = true ->
    moves_to CLIENT_STATE_CONNECTED_YIELD_IN_PROGRESS (state_of s1.1) ->
    wp total
      (do! yieldRc := _aws_iot_mqtt_internal_yield fuel timeout in
       if bool_decide (NETWORK_DISCONNECTED_ERROR <> yieldRc)
          && bool_decide (NETWORK_ATTEMPTING_RECONNECT <> yieldRc) then
         do! rc := aws_iot_mqtt_set_client_state pCLIENT CLIENT_STATE_CONNECTED_YIELD_IN_PROGRESS
                     CLIENT_STATE_CONNECTED_IDLE in
         ret (if bool_decide (SUCCESS = yieldRc) && bool_decide (SUCCESS <> rc) then rc else yieldRc)
       else ret yieldRc) (fun _ s' => evolves s s') s1).
  { intros s1 N1 Hq M1. apply wp_bind.
    eapply wp_mono; [apply internal_yield_post; [by eapply enough_near|done|done|done]|].
    intros rc s2 (N2 & M2 & Hrc). assert (N : near s s2) by (by etrans).
    destruct (bool_decide_reflect (NETWORK_DISCONNECTED_ERROR <> rc)) as [Hd|Hd]; cbn [andb].
    2: { apply wp_ret, near_evolves; [done|]. right. apply Hrc. left.
         destruct (decide (rc = NETWORK_DISCONNECTED_ERROR)); [done|]. exfalso. apply Hd. congruence. }
    destruct (bool_decide_reflect (NETWORK_ATTEMPTING_RECONNECT <> rc)) as [Ha|Ha].
    2: { apply wp_ret, near_evolves; [done|]. right. apply Hrc. right.
         destruct (decide (rc = NETWORK_ATTEMPTING_RECONNECT)); [done|]. exfalso. apply Ha. congruence. }
    apply wp_bind, (wp_restore _ _ _ _ M2). intros rc3 s3 N3 M3 _ _. apply wp_ret, near_evolves.
    - by etrans.
    - right. by destruct M3 as [->|]. }
  destruct (decide (CLIENT_STATE_PENDING_RECONNECT <> state_of s.1)) as [Hp|Hp].
  - apply wp_bind, wp_client. destruct (negb _); [by apply wp_ret|].
    destruct (decide (CLIENT_STATE_CONNECTED_IDLE <> state_of s.1)) as [|Hi]; [by apply wp_ret|].
    assert (Hi' : state_of s.1 = CLIENT_STATE_CONNECTED_IDLE).
    { destruct (decide (CLIENT_STATE_CONNECTED_IDLE = state_of s.1)); [done|]. exfalso. by apply Hi. }
    apply wp_bind, wp_enter; [done|]. intros s1 N1 Hs1. apply wp_check; [done|]. intros _.
    apply Hrun; [done|by rewrite Hi'|by left].
  - assert (Hi' : state_of s.1 = CLIENT_STATE_PENDING_RECONNECT).
    { destruct (decide (CLIENT_STATE_PENDING_RECONNECT = state_of s.1)); [done|]. exfalso. by apply Hp. }
    apply Hrun; [reflexivity|by rewrite Hi'|right; by rewrite Hi'].
Qed.
End yield_laws.
