(* ===== verification/Lifecycle.v ===== *)
(** * The API as a whole

    The operations an application can invoke, as a step function; the states in which each refuses
    to run, as a table; and the life cycle: whatever sequence of operations the application makes,
    every one returns, and between two of them the client is in a state of rest. *)

From S2P Require Export Publish Unsubscribe Yield Sim.

(** The entry points of [aws_iot_mqtt_client_interface.h] that act on a client. *)
Inductive api_call : Type :=
  | api_init (p : option IoT_Client_Init_Params)
  | api_connect (p : option IoT_Client_Connect_Params)
  | api_publish (topic : option bytes) (len : Z) (p : option IoT_Publish_Message_Params)
  | api_subscribe (topic : option bytes) (len : Z) (qos : QoS) (f : option fnptr) (data : voidptr)
  | api_resubscribe
  | api_unsubscribe (topic : option bytes) (len : Z)
  | api_disconnect
  | api_yield (timeout_ms : Z)
  | api_attempt_reconnect
  | api_autoreconnect_set_status (b : bool)
  | api_set_disconnect_handler (f : option fnptr) (data : voidptr).

Section api.
Context {W : Type} {clock : Clock W} {net : NetworkOps W} {mutexes : MutexOps W} {app : AppOps W}.
Context (fuel : nat).

Definition run_call (pClient : client_ptr) (a : api_call) : M (St W) IoT_Error_t :=
  match a with
  | api_init p => aws_iot_mqtt_init pClient p
  | api_connect p => aws_iot_mqtt_connect fuel pClient p
  | api_publish t n p => do! (rc, p) := aws_iot_mqtt_publish fuel pClient t n p in ret rc
  | api_subscribe t n q f d => aws_iot_mqtt_subscribe fuel pClient t n q f d
  | api_resubscribe => aws_iot_mqtt_resubscribe fuel pClient
  | api_unsubscribe t n => aws_iot_mqtt_unsubscribe fuel pClient t n
  | api_disconnect => aws_iot_mqtt_disconnect fuel pClient
  | api_yield t => aws_iot_mqtt_yield fuel pClient t
  | api_attempt_reconnect => aws_iot_mqtt_attempt_reconnect fuel pClient
  | api_autoreconnect_set_status b => aws_iot_mqtt_autoreconnect_set_status pClient b
  | api_set_disconnect_handler f d => aws_iot_mqtt_set_disconnect_handler pClient f d
  end.

Fixpoint run_calls (l : list api_call) : M (St W) (list IoT_Error_t) :=
  match l with
  | [] => ret []
  | a :: l => do! rc := run_call pCLIENT a in do! rcs := run_calls l in ret (rc :: rcs)
  end.
End api.

(** The specification of the guards: the code an operation is refused with in a state, if any. *)
Definition api_refusal (a : api_call) (s : ClientState) : option IoT_Error_t :=
  let idle_or_callback :=
    bool_decide (s = CLIENT_STATE_CONNECTED_IDLE)
    || bool_decide (s = CLIENT_STATE_CONNECTED_WAIT_FOR_CB_RETURN) in
  let needs (args ok : bool) :=
    if negb args then Some NULL_VALUE_ERROR
    else if negb (is_connected_state s) then Some NETWORK_DISCONNECTED_ERROR
    else if negb ok then Some MQTT_CLIENT_NOT_IDLE_ERROR else None in
  let given {A} (p : option A) := match p with Some _ => true | None => false end in
  match a with
  | api_init p =>
      match p with
      | Some p =>
          if given (pHostURL p) && negb (0 =? port p) && given (pRootCALocation p)
             && given (pDevicePrivateKeyLocation p) && given (pDeviceCertLocation p)
          then None else Some NULL_VALUE_ERROR
      | None => Some NULL_VALUE_ERROR
      end
  | api_connect _ =>
      match s with
      | CLIENT_STATE_INITIALIZED | CLIENT_STATE_DISCONNECTED_ERROR
      | CLIENT_STATE_DISCONNECTED_MANUALLY | CLIENT_STATE_PENDING_RECONNECT => None
      | _ => Some NETWORK_ALREADY_CONNECTED_ERROR
      end
  | api_publish t n p => needs (given t && given p && negb (n =? 0)) idle_or_callback
  | api_subscribe t _ _ f _ => needs (given t && given f) idle_or_callback
  | api_unsubscribe t _ => needs (given t) idle_or_callback
  | api_resubscribe => needs true (bool_decide (s = CLIENT_STATE_CONNECTED_IDLE))
  | api_disconnect => if is_connected_state s then None else Some NETWORK_DISCONNECTED_ERROR
  | api_yield timeout =>
      if timeout =? 0 then Some NULL_VALUE_ERROR
      else
        match s with
        | CLIENT_STATE_DISCONNECTED_MANUALLY => Some NETWORK_MANUALLY_DISCONNECTED
        | CLIENT_STATE_PENDING_RECONNECT => None
        | _ => needs true (bool_decide (s = CLIENT_STATE_CONNECTED_IDLE))
        end
  | api_attempt_reconnect => if is_connected_state s then Some NETWORK_ALREADY_CONNECTED_ERROR else None
  | api_autoreconnect_set_status _ => None
  | api_set_disconnect_handler f _ => if given f then None else Some NULL_VALUE_ERROR
  end.

(** ** Lemmas *)

Section lifecycle.
Context {W : Type} {clock : Clock W} {net : NetworkOps W} {mutexes : MutexOps W} {app : AppOps W}.
Context {laws : EnvLaws W} (fuel : nat).

(** The invariant between two calls. *)
Definition at_rest (s : St W) : Prop := enough fuel s /\ quiescent (state_of s.1) = true.

(** Time-outs given to a call must be covered by the fuel. *)
Definition call_ok (a : api_call) : Prop :=
  match a with
  | api_init (Some p) =>
      0 <= mqttCommandTimeout_ms p /\ mqttCommandTimeout_ms p * 1000 < Z.of_nat fuel
  | api_yield t => 0 <= t /\ t * 1000 < Z.of_nat fuel
  | _ => True
  end.

Lemma evolves_at_rest s s' : at_rest s -> evolves s s' -> at_rest s'.
Proof.
  intros [He Hq] Hs. split; [by eapply enough_evolves|]. destruct Hs as [[->|?] _]; done.
Qed.

(** What a call does to a client at rest: it rests again, time has not gone back, no input has come up. *)
Definition settles (s s' : St W) : Prop := at_rest s' /\ world_le W s.2 s'.2.

Lemma evolves_settles s s' : at_rest s -> evolves s s' -> settles s s'.
Proof. intros Hr Hs. split; [by eapply evolves_at_rest|apply Hs]. Qed.

Lemma wp_mutex_init m (Q : IoT_Error_t -> St W -> Prop) c w :
  thread_support = true -> (forall w', world_le W w w' -> Q SUCCESS (c, w')) ->
  wp total (world (aws_iot_thread_mutex_init m)) Q (c, w).
Proof.
  intros Ht HQ. apply wp_world. pose proof (law_mutex W m w Ht) as H.
  inversion H as [|?? [Hr Hw] _]; subst. unfold aws_iot_thread_mutex_init, wp.
  rewrite pthread_wrapper, Hr. cbn [owp]. by apply HQ.
Qed.

Lemma init_settles p s :
  call_ok (api_init p) -> at_rest s ->
  wp total (aws_iot_mqtt_init pCLIENT p) (fun _ s' => settles s s') s.
Proof.
  intros Hok Hs. assert (Hss : settles s s) by (split; [done|reflexivity]).
  destruct p as [p|]; [|by apply wp_ret]. destruct Hok as [Hok1 Hok2].
  unfold aws_iot_mqtt_init. destruct (_ || _); [by apply wp_ret|]. apply wp_bind.
  apply (wp_for_loop total (fun _ s' => steady s s')).
  { reflexivity. }
  { intros j s1 _ H1. destruct s1 as [c1 w1]. unfold handler_at. apply wp_bind, wp_bind, wp_client, wp_lift.
    eapply owp_mono; [apply aload_finishes|]. intros h _. apply wp_bind.
    eapply wp_mono; [apply set_handler_at_steady|]. intros ? s2 H2. apply wp_ret. by etrans. }
  intros [c1 w1] (Hst & _ & Hw1). destruct Hs as [He Hq]. cbn [fst snd] in *.
  do 8 apply wp_bind, wp_assign. apply wp_bind. cbn [aws_iot_mqtt_set_connect_params].
  apply wp_bind, wp_assign, wp_ret.
  apply wp_check; [done|]. intros _. set (c2 := set_options _ _).
  assert (G : forall c w, state_of c = state_of c1 \/ quiescent (state_of c) = true ->
    commandTimeoutMs (clientData c) = mqttCommandTimeout_ms p ->
    readBufSize (clientData c) = 131072 -> world_le W w1 w -> settles s (c, w)).
  { intros c w Hc Ht Hr Hw. split; [split|by etrans].
    - destruct He as (Hi & _ & _ & _ & Hre). unfold enough. cbn [fst snd]. rewrite Ht, Hr.
      destruct Hw as [_ Hw], Hw1 as [_ Hw1]. split; [lia|]. split; [lia|]. split; [done|]. split; [done|].
      intros c' k Hf Hk. apply Hre; [done|lia].
    - destruct Hc as [Hc|Hc]; cbn [fst]; [rewrite Hc, Hst; exact Hq|exact Hc]. }
  apply wp_bind.
  assert (Hm : wp total (if thread_support then
      run! assign (set_isBlockOnThreadLockEnabled (ip_isBlockOnThreadLockEnabled p)) in
      do! rc := world (aws_iot_thread_mutex_init state_change_mutex) in
      check rc
        (do! rc := world (aws_iot_thread_mutex_init tls_read_mutex) in
         check rc (world (aws_iot_thread_mutex_init tls_write_mutex)))
      else ret SUCCESS)
    (fun rc s' => rc = SUCCESS /\ exists b w', s' = (set_isBlockOnThreadLockEnabled b c2, w') /\
       world_le W w1 w') (c2, w1)).
  { destruct thread_support eqn:Et.
    - apply wp_bind, wp_assign, wp_bind, wp_mutex_init; [done|]. intros w2 H2.
      apply wp_check; [done|]. intros _. apply wp_bind, wp_mutex_init; [done|]. intros w3 H3.
      apply wp_check; [done|]. intros _. apply wp_mutex_init; [done|]. intros w4 H4.
      split; [done|]. do 2 eexists. split; [done|]. etrans; [exact H2|]. by etrans.
    - apply wp_ret. split; [done|]. exists (isBlockOnThreadLockEnabled (clientData c2)), w1.
      split; [|reflexivity]. by destruct c2 as [? ? ? [] ?]. }
  eapply wp_mono; [exact Hm|]. intros rc s3 (-> & b & w2 & -> & Hw2). apply wp_check; [done|]. intros _.
  apply wp_bind, wp_assign, wp_bind, wp_assign, wp_bind, wp_client, wp_bind, wp_world.
  pose proof (law_init W (networkStack c2) (pRootCALocation p) (pDeviceCertLocation p)
    (pDevicePrivateKeyLocation p) (pHostURL p) (port p) (tlsHandshakeTimeout_ms p)
    (isSSLHostnameVerify p) w2) as Hi.
  unfold wp. cbv beta.
  change (networkStack (set_isAutoReconnectEnabled (enableAutoReconnect p)
    (set_isPingOutstanding false (set_isBlockOnThreadLockEnabled b c2)), w2).1) with (networkStack c2).
  destruct (iot_tls_init _ _ _ _ _ _ _ _ _) as [[rc n'] w3]. cbn [owp snd] in *.
  apply wp_bind, wp_assign. assert (Hw3 : world_le W w1 w3) by (by etrans).
  destruct (decide (rc <> SUCCESS)).
  - apply wp_bind, wp_assign, wp_ret. apply G; [by right|done|done|done].
  - do 3 apply wp_bind, wp_assign. apply wp_ret. apply G; [by right|done|done|done].
Qed.

(** Every operation returns and leaves the client at rest. *)
Lemma run_call_settles a s :
  call_ok a -> at_rest s -> wp total (run_call fuel pCLIENT a) (fun _ s' => settles s s') s.
Proof.
  intros Ha Hs. pose proof Hs as [He _].
  assert (G : forall (m : M (St W) IoT_Error_t) (Q : IoT_Error_t -> St W -> Prop),
    wp total m Q s -> (forall rc s', Q rc s' -> evolves s s') -> wp total m (fun _ s' => settles s s') s).
  { intros m Q Hm HQ. eapply wp_mono; [exact Hm|]. intros rc s' H.
    eapply evolves_settles; [done|]. by eapply HQ. }
  destruct a as [p|p|t n p|t n q f d| |t n| |t| |b|f d]; cbn [run_call].
  - by apply init_settles.
  - eapply G; [by apply connect_evolves|]. by intros ? ? [? _].
  - apply wp_bind. eapply wp_mono; [by apply publish_evolves|]. intros [rc p'] s' H. apply wp_ret.
    by eapply evolves_settles.
  - eapply G; [by apply subscribe_evolves|done].
  - eapply G; [by apply resubscribe_evolves|]. by intros ? ? [? _].
  - eapply G; [by apply unsubscribe_evolves|done].
  - eapply G; [by apply disconnect_evolves|]. by intros ? ? [? _].
  - destruct Ha. eapply G; [by apply yield_evolves|done].
  - eapply G; [by apply attempt_reconnect_evolves|]. by intros ? ? [? _].
  - destruct s as [c w]. apply wp_bind, wp_assign, wp_ret. eapply evolves_settles; [exact Hs|].
    apply steady_evolves. by apply (steady_assign (set_isAutoReconnectEnabled b)).
  - destruct f as [f|]; [|apply wp_ret; split; [done|reflexivity]]. destruct s as [c w].
    do 2 apply wp_bind, wp_assign. apply wp_ret. eapply evolves_settles; [exact Hs|].
    apply steady_evolves.
    apply (steady_assign (fun c => set_disconnectHandlerData d (set_disconnectHandler (Some f) c))).
    done.
Qed.

Lemma init_at_rest p s :
  call_ok (api_init p) -> at_rest s -> wp total (aws_iot_mqtt_init pCLIENT p) (fun _ s' => at_rest s') s.
Proof. intros Hok Hs. eapply wp_mono; [by apply init_settles|]. by intros ? ? [? _]. Qed.

Lemma run_call_at_rest a s :
  call_ok a -> at_rest s -> wp total (run_call fuel pCLIENT a) (fun _ s' => at_rest s') s.
Proof. intros Hok Hs. eapply wp_mono; [by apply run_call_settles|]. by intros ? ? [? _]. Qed.

Lemma run_calls_settle calls s :
  Forall call_ok calls -> at_rest s ->
  wp total (run_calls fuel calls) (fun rcs s' => length rcs = length calls /\ settles s s') s.
Proof.
  intros Hc. revert s. induction Hc as [|a l Ha Hl IH]; intros s Hs; cbn [run_calls].
  - apply wp_ret. split; [done|]. split; [done|reflexivity].
  - apply wp_bind. eapply wp_mono; [by apply run_call_settles|]. intros rc s1 [H1 L1]. apply wp_bind.
    eapply wp_mono; [by apply IH|]. intros rcs s2 [Hlen [H2 L2]]. apply wp_ret.
    split; [simpl; lia|]. split; [done|by etrans].
Qed.

Lemma run_calls_at_rest calls s :
  Forall call_ok calls -> at_rest s ->
  wp total (run_calls fuel calls) (fun rcs s' => length rcs = length calls /\ at_rest s') s.
Proof. intros Hok Hs. eapply wp_mono; [by apply run_calls_settle|]. by intros ? ? [? [? _]]. Qed.
End lifecycle.

(** ** Properties *)

(** C1: whatever sequence of API operations an application makes on a client at rest, every one of
    them returns (none runs out of fuel: no loop of the library goes on for ever), the client is in a
    state of rest afterwards - never stuck in an "in progress" state - and the environment's clock and
    input have only advanced.  The environment is any one that satisfies [EnvLaws]: callbacks may
    themselves call the API. *)
Theorem api_calls_return_to_rest {W : Type} {clock : Clock W} {net : NetworkOps W}
    {mutexes : MutexOps W} {app : AppOps W} {laws : EnvLaws W} (fuel : nat)
    (calls : list api_call) (s : St W) :
  Forall (call_ok fuel) calls -> at_rest fuel s ->
  wp total (run_calls fuel calls)
    (fun rcs s' => length rcs = length calls /\ quiescent (state_of s'.1) = true /\ at_rest fuel s' /\
      now s.2 <= now s'.2 /\ (incoming s'.2 <= incoming s.2)%nat) s.
Proof.
  intros Hc Hs. eapply wp_mono; [by apply run_calls_settle|].
  intros rcs s' [Hl [Hr [Ht Hi]]]. split; [done|]. split; [apply Hr|by split_and!].
Qed.

Definition sample_session : list api_call :=
  [api_connect None; api_yield 2; api_disconnect; api_yield 1].

Lemma api_calls_return_to_rest_witness :
  let w := sim_world [32; 2; 0; 0] in
  wp total (run_calls 3000 sample_session)
    (fun rcs s' => length rcs = 4%nat /\ quiescent (state_of s'.1) = true /\ at_rest 3000 s' /\
      now w <= now s'.2 /\ (incoming s'.2 <= incoming w)%nat)
    (sim_client CLIENT_STATE_INITIALIZED [], w).
Proof.
  intros w. refine (api_calls_return_to_rest 3000 sample_session (sim_client CLIENT_STATE_INITIALIZED [], w) _ _).
  - repeat constructor; simpl; lia.
  - split; [|done]. split; [simpl; lia|]. simpl. repeat split; lia.
Defined.

(** C39: the guards of the API are the table [api_refusal]: an operation refused in the client's state
    or for its arguments returns the table's code and changes neither the client nor the world; with
    a NULL client every operation answers NULL_VALUE_ERROR. *)
Theorem api_guards {W : Type} {clock : Clock W} {net : NetworkOps W} {mutexes : MutexOps W}
    {app : AppOps W} (fuel : nat) (a : api_call) (c : AWS_IoT_Client) (w : W) :
  run_call fuel pNULL a (c, w) = Done (NULL_VALUE_ERROR, (c, w)) /\
  match api_refusal a (state_of c) with
  | Some rc => run_call fuel pCLIENT a (c, w) = Done (rc, (c, w))
  | None => True
  end.
Proof.
  split.
  { by destruct a. }
  destruct a as [p|p|t n p|t n q f d| |t n| |t| |b|f d]; cbn [run_call api_refusal].
  - destruct p as [p|]; [|done]. unfold aws_iot_mqtt_init.
    destruct (pHostURL p); cbn [andb]; [|done]. destruct (0 =? port p); cbn [negb andb]; [done|].
    destruct (pRootCALocation p); cbn [andb]; [|done].
    destruct (pDevicePrivateKeyLocation p); cbn [andb]; [|done].
    by destruct (pDeviceCertLocation p).
  - unfold aws_iot_mqtt_connect, aws_iot_mqtt_get_client_state, bind, client, gets. cbn [obind fst].
    by destruct c as [? ? [[] ? ?] ? ?].
  - unfold aws_iot_mqtt_publish, aws_iot_mqtt_is_client_connected, aws_iot_mqtt_get_client_state.
    destruct t; [|done]. destruct p; [|done]. rewrite (Z.eqb_sym 0 n).
    unfold bind, client, gets. destruct (n =? 0); [done|]. cbn [obind fst].
    by destruct c as [? ? [[] ? ?] ? ?].
  - unfold aws_iot_mqtt_subscribe, aws_iot_mqtt_is_client_connected, aws_iot_mqtt_get_client_state.
    destruct t; [|done]. destruct f; [|done]. unfold bind, client, gets. cbn [obind fst].
    by destruct c as [? ? [[] ? ?] ? ?].
  - unfold aws_iot_mqtt_resubscribe, aws_iot_mqtt_is_client_connected, aws_iot_mqtt_get_client_state.
    unfold bind, client, gets. cbn [obind fst]. by destruct c as [? ? [[] ? ?] ? ?].
  - unfold aws_iot_mqtt_unsubscribe, aws_iot_mqtt_is_client_connected, aws_iot_mqtt_get_client_state.
    destruct t; [|done]. unfold bind, client, gets. cbn [obind fst]. by destruct c as [? ? [[] ? ?] ? ?].
  - unfold aws_iot_mqtt_disconnect, aws_iot_mqtt_is_client_connected, aws_iot_mqtt_get_client_state.
    unfold bind, client, gets. cbn [obind fst]. by destruct c as [? ? [[] ? ?] ? ?].
  - unfold aws_iot_mqtt_yield, aws_iot_mqtt_is_client_connected, aws_iot_mqtt_get_client_state.
    rewrite (Z.eqb_sym 0 t). destruct (t =? 0); [done|]. unfold bind, client, gets. cbn [obind fst].
    by destruct c as [? ? [[] ? ?] ? ?].
  - unfold aws_iot_mqtt_attempt_reconnect, aws_iot_mqtt_is_client_connected.
    unfold bind, client, gets. cbn [obind fst]. by destruct c as [? ? [[] ? ?] ? ?].
  - done.
  - by destruct f.
Qed.
