(* ===== verification/WellFormed.v ===== *)
(** * Well-formed clients

    The invariant of the client object that every operation of the library keeps, whatever the
    environment does: the arrays have their declared sizes, the sizes recorded in the object are those
    of the arrays, and the next packet identifier is a valid one.  [keeps_wf] is closed under the
    constructs of the embedding, so most operations are settled by their syntax. *)

From S2P Require Export Lifecycle.

(** The client's invariant. *)
Record well_formed (c : AWS_IoT_Client) : Prop := {
  wf_handlers : zlen (messageHandlers (clientData c)) = AWS_IOT_MQTT_NUM_SUBSCRIBE_HANDLERS;
  wf_writeBuf : zlen (writeBuf (clientData c)) = AWS_IOT_MQTT_TX_BUF_LEN;
  wf_readBuf : zlen (readBuf (clientData c)) = AWS_IOT_MQTT_RX_BUF_LEN;
  wf_writeBufSize : writeBufSize (clientData c) = AWS_IOT_MQTT_TX_BUF_LEN;
  wf_readBufSize : readBufSize (clientData c) = AWS_IOT_MQTT_RX_BUF_LEN;
  wf_nextPacketId : 1 <= nextPacketId (clientData c) <= MAX_PACKET_ID
}.

Create HintDb wf.

(** A property of the world that the clock, the network and the mutexes keep. *)
Class Kept (W : Type) {clock : Clock W} {net : NetworkOps W} {mutexes : MutexOps W} (J : W -> Prop) := {
  kept_clock : forall w, J w -> J (gettimeofday w).2;
  kept_init : forall n a b c d e f g w, J w -> J (iot_tls_init n a b c d e f g w).2;
  kept_connect : forall n p w, J w -> owp partial (net_connect n p w) (fun '(_, _, w') => J w');
  kept_read : forall n len t old w, J w -> owp partial (net_read n len t old w) (fun '(_, _, _, w') => J w');
  kept_write : forall n mem len t old w, J w ->
    owp partial (net_write n mem len t old w) (fun '(_, _, w') => J w');
  kept_disconnect : forall n w, J w -> owp partial (net_disconnect n w) (fun '(_, w') => J w');
  kept_isConnected : forall f n w, net_isConnected = Some f -> J w -> owp partial (f n w) (fun '(_, w') => J w');
  kept_destroy : forall n w, J w -> owp partial (net_destroy n w) (fun '(_, w') => J w');
  kept_mutex : forall m w, J w ->
    Forall (fun op : mutex -> W -> Z * W => J (op m w).2)
      [pthread_mutex_init; pthread_mutex_lock; pthread_mutex_trylock; pthread_mutex_unlock;
       pthread_mutex_destroy]
}.

Section well_formed.
Context {W : Type} {clock : Clock W} {net : NetworkOps W} {mutexes : MutexOps W} (J : W -> Prop).

(** The client stays well-formed, the world keeps its property. *)
Definition good (s : St W) : Prop := well_formed s.1 /\ J s.2.

Definition keeps_wf {A} (m : M (St W) A) : Prop :=
  forall s, good s -> wp partial m (fun _ s' => good s') s.

(** ** Closure *)

Lemma keeps_ret {A} (a : A) : keeps_wf (ret a).
Proof. by intros s Hs. Qed.

Lemma keeps_bind {A B} (m : M (St W) A) (k : A -> M (St W) B) :
  keeps_wf m -> (forall a, keeps_wf (k a)) -> keeps_wf (bind m k).
Proof. intros Hm Hk s Hs. apply wp_bind. eapply wp_mono; [by apply Hm|]. intros a s' Hs'. by apply Hk. Qed.

Lemma keeps_client {A} (f : AWS_IoT_Client -> A) : keeps_wf (client f).
Proof. by intros s Hs. Qed.

Lemma keeps_lift {A} (o : outcome A) : keeps_wf (lift o).
Proof. intros s Hs. by apply wp_any_lift. Qed.

Lemma keeps_world {A} (m : M W A) :
  (forall w, J w -> owp partial (m w) (fun '(_, w') => J w')) -> keeps_wf (world m).
Proof.
  intros Hm [c w] [Hc Hw]. apply wp_world. unfold wp. eapply owp_mono; [by apply Hm|].
  intros [a w'] Hw'. by split.
Qed.

Lemma keeps_assign (f : AWS_IoT_Client -> AWS_IoT_Client) :
  (forall c, well_formed c -> well_formed (f c)) -> keeps_wf (assign f).
Proof. intros Hf [c w] [Hc Hw]. apply wp_assign. split; [by apply Hf|done]. Qed.

Lemma keeps_check rc (k : M (St W) IoT_Error_t) : keeps_wf k -> keeps_wf (check rc k).
Proof. intros Hk s Hs. apply wp_check; [done|]. intros _. by apply Hk. Qed.

Lemma keeps_loop {X A} fuel (body : X -> M (St W) (X + A)) x :
  (forall x, keeps_wf (body x)) -> keeps_wf (loop fuel body x).
Proof.
  intros Hb s Hs. apply (wp_loop partial (fun _ s' => good s') (fun _ _ => O)); [done| |done].
  intros x1 s1 H1. eapply wp_mono; [by apply Hb|]. by intros [x2|a] s2 H2.
Qed.

Lemma keeps_mfor {A} n i (body : Z -> A -> M (St W) A) a :
  (forall j a, keeps_wf (body j a)) -> keeps_wf (mfor n i body a).
Proof.
  intros Hb s Hs. apply (wp_mfor partial (fun _ _ s' => good s')); [done| |done].
  intros j a1 s1 _ H1. by apply Hb.
Qed.

Lemma keeps_for_loop {A} n i (body : Z -> M (St W) (option A)) :
  (forall j, keeps_wf (body j)) -> keeps_wf (for_loop n i body).
Proof.
  intros Hb s Hs. apply (wp_for_loop partial (fun _ s' => good s')); [done| |done].
  intros j s1 _ H1. eapply wp_mono; [by apply Hb|]. by intros [a|] s2 H2.
Qed.

(** What is read from the client is known to come from a well-formed one, and a value computed is
    known to be the result of the computation. *)
Lemma keeps_bind_client {A B} (f : AWS_IoT_Client -> A) (k : A -> M (St W) B) :
  (forall c, well_formed c -> keeps_wf (k (f c))) -> keeps_wf (bind (client f) k).
Proof. intros Hk s Hs. apply wp_bind, wp_client. apply (Hk s.1); [apply Hs|done]. Qed.

Lemma keeps_bind_lift {A B} (o : outcome A) (k : A -> M (St W) B) :
  (forall a, o = Done a -> keeps_wf (k a)) -> keeps_wf (bind (lift o) k).
Proof. intros Hk s Hs. apply wp_bind, wp_any_lift. intros a Ha. by apply Hk. Qed.

(** Buffers of the right size can be stored. *)
Lemma keeps_set_writeBuf b : zlen b = AWS_IOT_MQTT_TX_BUF_LEN -> keeps_wf (assign (set_writeBuf b)).
Proof. intros Hb. apply keeps_assign. intros c []. by constructor. Qed.

Lemma keeps_set_readBuf b : zlen b = AWS_IOT_MQTT_RX_BUF_LEN -> keeps_wf (assign (set_readBuf b)).
Proof. intros Hb. apply keeps_assign. intros c []. by constructor. Qed.

Lemma keeps_store_tx m o rc buf len :
  o = Done (rc, buf, len) -> owp total o (serialised m) -> zlen m = AWS_IOT_MQTT_TX_BUF_LEN ->
  keeps_wf (store_tx buf).
Proof.
  intros E Ho Hm. destruct (owp_inv _ _ _ _ Ho E) as ((b & -> & Hb) & _). apply keeps_bind_lift.
  intros b' [= <-]. apply keeps_set_writeBuf. lia.
Qed.
End well_formed.

(** What the theorems ask of the application: its callbacks keep the client well-formed too, and the
    world's property. *)
Class CarefulApp (W : Type) {app : AppOps W} (J : W -> Prop) := {
  careful_message : forall f p n msg d c w, well_formed c -> J w ->
    owp partial (call_message_handler f p n msg d c w) (fun '(_, c', w') => well_formed c' /\ J w');
  careful_disconnect : forall f d c w, well_formed c -> J w ->
    owp partial (call_disconnect_handler f d c w) (fun '(c', w') => well_formed c' /\ J w')
}.

(** The operations on the world. *)
Section kept.
Context {W : Type} {clock : Clock W} {net : NetworkOps W} {mutexes : MutexOps W} (J : W -> Prop).
Context {kept : Kept W J}.

Lemma keeps_expired t : keeps_wf J (world (has_timer_expired t)).
Proof.
  apply keeps_world. intros w Hw. unfold has_timer_expired, bind, now_, ret.
  pose proof (kept_clock w Hw) as H. destruct (gettimeofday w) as [tv w']. exact H.
Qed.
Lemma keeps_countdown_ms t n : keeps_wf J (world (countdown_ms t n)).
Proof.
  apply keeps_world. intros w Hw. unfold countdown_ms, bind, now_, ret.
  pose proof (kept_clock w Hw) as H. destruct (gettimeofday w) as [tv w']. exact H.
Qed.
Lemma keeps_countdown_sec t n : keeps_wf J (world (countdown_sec t n)).
Proof.
  apply keeps_world. intros w Hw. unfold countdown_sec, bind, now_, ret.
  pose proof (kept_clock w Hw) as H. destruct (gettimeofday w) as [tv w']. exact H.
Qed.

Lemma keeps_mutex (op : mutex -> W -> Z * W) m (e : IoT_Error_t) :
  op ∈ [pthread_mutex_init; pthread_mutex_lock; pthread_mutex_trylock; pthread_mutex_unlock;
    pthread_mutex_destroy] ->
  keeps_wf J (world (do! rc := pthread op m in if negb (rc =? 0) then ret e else ret SUCCESS)).
Proof.
  intros Hop. apply keeps_world. intros w Hw.
  pose proof (Forall_forall (fun op : mutex -> W -> Z * W => J (op m w).2) [pthread_mutex_init; pthread_mutex_lock;
    pthread_mutex_trylock; pthread_mutex_unlock; pthread_mutex_destroy]) as [H _].
  specialize (H (kept_mutex m w Hw) op (proj1 (list_elem_of_In _ _) Hop)). cbn beta in H.
  unfold pthread, bind. destruct (op m w) as [rc w']. cbn [obind]. by destruct (negb _).
Qed.
Lemma keeps_mutex_init m : keeps_wf J (world (aws_iot_thread_mutex_init m)).
Proof. apply keeps_mutex. repeat constructor. Qed.
Lemma keeps_mutex_lock m : keeps_wf J (world (aws_iot_thread_mutex_lock m)).
Proof. apply keeps_mutex. repeat constructor. Qed.
Lemma keeps_mutex_trylock m : keeps_wf J (world (aws_iot_thread_mutex_trylock m)).
Proof. apply keeps_mutex. repeat constructor. Qed.
Lemma keeps_mutex_unlock m : keeps_wf J (world (aws_iot_thread_mutex_unlock m)).
Proof. apply keeps_mutex. repeat constructor. Qed.

Lemma keeps_tls_init n a b c d e f g :
  keeps_wf J (world (fun w => let '(rc, n, w) := iot_tls_init n a b c d e f g w in Done (rc, n, w))).
Proof.
  apply keeps_world. intros w Hw. pose proof (kept_init n a b c d e f g w Hw) as H.
  by destruct (iot_tls_init n a b c d e f g w) as [[rc n'] w'].
Qed.
Lemma keeps_net_read n len t old : keeps_wf J (world (net_read n len t old)).
Proof.
  apply keeps_world. intros w Hw. eapply owp_mono; [by apply kept_read|]. by intros [[[rc d] k] w'].
Qed.
Lemma keeps_net_write n mem len t old : keeps_wf J (world (net_write n mem len t old)).
Proof.
  apply keeps_world. intros w Hw. eapply owp_mono; [by apply kept_write|]. by intros [[rc k] w'].
Qed.
Lemma keeps_connect_ n p : keeps_wf J (world (net_connect n p)).
Proof.
  apply keeps_world. intros w Hw. eapply owp_mono; [by apply kept_connect|]. by intros [[rc k] w'].
Qed.
Lemma keeps_disconnect_ n : keeps_wf J (world (net_disconnect n)).
Proof. apply keeps_world. intros w Hw. by apply kept_disconnect. Qed.
Lemma keeps_destroy_ n : keeps_wf J (world (net_destroy n)).
Proof. apply keeps_world. intros w Hw. by apply kept_destroy. Qed.
Lemma keeps_isConnected f n : net_isConnected = Some f -> keeps_wf J (world (f n)).
Proof. intros Hf. apply keeps_world. intros w Hw. by apply (kept_isConnected f). Qed.
End kept.
#[export] Hint Resolve keeps_expired keeps_countdown_ms keeps_countdown_sec keeps_mutex_init keeps_mutex_lock
  keeps_mutex_trylock keeps_mutex_unlock keeps_tls_init keeps_net_read keeps_net_write keeps_connect_
  keeps_disconnect_ keeps_destroy_ keeps_isConnected : wf.

#[export] Hint Resolve serialize_publish_finishes serialize_ack_finishes serialize_zero_finishes
  serialize_connect_finishes serialize_subscribe_finishes wf_writeBuf wf_readBuf : wf.

(** The size of a buffer that a serialiser, a store or the header writer returns. *)
Ltac buffer_size :=
  match goal with
  | H : _aws_iot_mqtt_serialize_unsubscribe _ _ _ _ _ _ _ _ = Done (_, ?b, _) |- zlen ?b = _ =>
      apply (owp_inv _ _ _ _ (serialize_unsubscribe_finishes _ _ _ _ _ _ _ _)) in H as [-> _]
  | H : aws_iot_mqtt_internal_write_len_to_buffer _ _ _ = Done (_, ?b) |- zlen ?b = _ =>
      apply (owp_inv _ _ _ _ (write_len_finishes _ _ _ (u32_range _))) in H as ->
  | H : store _ _ _ = Done ?b |- zlen ?b = _ => apply store_zlen in H as ->
  end; auto with wf.

Ltac keeps_step :=
  match goal with
  | |- keeps_wf _ (bind (client _) _) => apply keeps_bind_client; intros
  | |- keeps_wf _ (bind (lift _) _) => apply keeps_bind_lift; intros
  | |- keeps_wf _ (store_tx _) => eapply keeps_store_tx; [eassumption|eauto with wf|auto with wf]
  | |- keeps_wf _ (assign (set_writeBuf _)) => apply keeps_set_writeBuf; buffer_size
  | |- keeps_wf _ (assign (set_readBuf _)) => apply keeps_set_readBuf; buffer_size
  | |- keeps_wf _ (ret _) => apply keeps_ret
  | |- keeps_wf _ (client _) => apply keeps_client
  | |- keeps_wf _ (lift _) => apply keeps_lift
  | |- keeps_wf _ (assign _) =>
      apply keeps_assign; intros ? []; constructor; solve [assumption | reflexivity | by split]
  | |- keeps_wf _ (check _ _) => apply keeps_check
  | |- keeps_wf _ (loop _ _ _) => apply keeps_loop; intros
  | |- keeps_wf _ (mfor _ _ _ _) => apply keeps_mfor; intros
  | |- keeps_wf _ (for_loop _ _ _) => apply keeps_for_loop; intros
  | |- keeps_wf _ (if ?b then _ else _) => destruct b
  | |- keeps_wf _ (match net_isConnected with _ => _ end) => destruct net_isConnected eqn:?
  | |- keeps_wf _ (match ?x with _ => _ end) => destruct x
  | |- keeps_wf _ _ => solve [eauto with wf nocore]
  | |- keeps_wf _ (bind _ _) => apply keeps_bind; [|intros]
  end.
Ltac keeps := repeat (keeps_step; cbv beta zeta).

Section operations.
Context {W : Type} {clock : Clock W} {net : NetworkOps W} {mutexes : MutexOps W} {app : AppOps W}.
Context (J : W -> Prop) {kept : Kept W J} {careful : CarefulApp W J} (fuel : nat).

Lemma keeps_lock p m : keeps_wf J (aws_iot_mqtt_client_lock_mutex (W := W) p m).
Proof. unfold aws_iot_mqtt_client_lock_mutex. keeps. Qed.
Lemma keeps_unlock p m : keeps_wf J (aws_iot_mqtt_client_unlock_mutex (W := W) p m).
Proof. unfold aws_iot_mqtt_client_unlock_mutex. keeps. Qed.
#[local] Hint Resolve keeps_lock keeps_unlock : wf.

Lemma keeps_get_state p : keeps_wf J (aws_iot_mqtt_get_client_state p).
Proof. unfold aws_iot_mqtt_get_client_state. keeps. Qed.
Lemma keeps_connected p : keeps_wf J (aws_iot_mqtt_is_client_connected p).
Proof. unfold aws_iot_mqtt_is_client_connected. keeps. Qed.
#[local] Hint Resolve keeps_get_state keeps_connected : wf.

Lemma keeps_set_state p e n : keeps_wf J (aws_iot_mqtt_set_client_state p e n).
Proof. unfold aws_iot_mqtt_set_client_state. keeps. Qed.
#[local] Hint Resolve keeps_set_state : wf.

Lemma keeps_next_id : keeps_wf J aws_iot_mqtt_get_next_packet_id.
Proof.
  intros [c w] [[] Hw]. apply wp_bind, wp_client, wp_bind, wp_assign, wp_ret. split; [|done]. constructor; try done.
  cbn in *. unfold next_packet_id, MAX_PACKET_ID in *. destruct (Z.eqb_spec 65535 (nextPacketId (clientData c)));
    rewrite u16_id; lia.
Qed.
#[local] Hint Resolve keeps_next_id : wf.

Lemma keeps_handler_at i : keeps_wf J (handler_at i).
Proof. unfold handler_at. keeps. Qed.
#[local] Hint Resolve keeps_handler_at : wf.

Lemma keeps_set_handler_at i h : keeps_wf J (set_handler_at i h).
Proof.
  intros [c w] Hs. apply wp_bind, wp_client, wp_bind, wp_any_lift. intros hs E. unfold astore in E.
  destruct (_ && _); [|done]. injection E as <-. apply wp_assign. destruct Hs as [[] Hw].
  split; [|done]. constructor; try done.
  cbn in *. unfold zlen in *. by rewrite length_insert.
Qed.
#[local] Hint Resolve keeps_set_handler_at : wf.

Lemma keeps_write sent len t n : keeps_wf J (network_write sent len t n).
Proof. unfold network_write. keeps. Qed.
#[local] Hint Resolve keeps_write : wf.

Lemma keeps_read off len t n : keeps_wf J (network_read off len t n).
Proof. unfold network_read. keeps. Qed.
#[local] Hint Resolve keeps_read : wf.

Lemma keeps_send p len t : keeps_wf J (aws_iot_mqtt_internal_send_packet fuel p len t).
Proof. unfold aws_iot_mqtt_internal_send_packet. keeps. Qed.
#[local] Hint Resolve keeps_send : wf.

Lemma keeps_decode t : keeps_wf J (_aws_iot_mqtt_internal_decode_packet_remaining_len fuel t).
Proof. unfold _aws_iot_mqtt_internal_decode_packet_remaining_len. keeps. Qed.
#[local] Hint Resolve keeps_decode : wf.

Lemma keeps_read_packet t pt : keeps_wf J (_aws_iot_mqtt_internal_read_packet fuel t pt).
Proof. unfold _aws_iot_mqtt_internal_read_packet. keeps. Qed.
#[local] Hint Resolve keeps_read_packet : wf.

Lemma keeps_deliver_to p n i msg : keeps_wf J (deliver_to p n i msg).
Proof.
  unfold deliver_to. apply keeps_bind; [apply keeps_handler_at|]. intros h.
  apply keeps_bind; [apply keeps_client|]. intros buf. apply keeps_bind; [apply keeps_lift|]. intros m.
  destruct m; [|keeps]. destruct (pApplicationHandler h) as [f|]; [|keeps]. intros [c w] [Hc Hw]. unfold wp.
  pose proof (careful_message f p n msg (pApplicationHandlerData h) c w Hc Hw) as Hf.
  by destruct (call_message_handler _ _ _ _ _ _ _) as [[[m2 c2] w2]| |].
Qed.
#[local] Hint Resolve keeps_deliver_to : wf.

Lemma keeps_deliver p n msg : keeps_wf J (_aws_iot_mqtt_internal_deliver_message p n msg).
Proof. unfold _aws_iot_mqtt_internal_deliver_message. keeps. Qed.
#[local] Hint Resolve keeps_deliver : wf.

Lemma keeps_handle_publish t : keeps_wf J (_aws_iot_mqtt_internal_handle_publish fuel t).
Proof.
  unfold _aws_iot_mqtt_internal_handle_publish. keeps.
Qed.
#[local] Hint Resolve keeps_handle_publish : wf.

Lemma keeps_cycle_read p t pt : keeps_wf J (aws_iot_mqtt_internal_cycle_read fuel p t pt).
Proof. unfold aws_iot_mqtt_internal_cycle_read. keeps. Qed.
#[local] Hint Resolve keeps_cycle_read : wf.

Lemma keeps_wait p pt t : keeps_wf J (aws_iot_mqtt_internal_wait_for_read fuel p pt t).
Proof. unfold aws_iot_mqtt_internal_wait_for_read. keeps. Qed.
#[local] Hint Resolve keeps_wait : wf.

Lemma keeps_publish p t n m : keeps_wf J (aws_iot_mqtt_publish fuel p t n m).
Proof. unfold aws_iot_mqtt_publish, _aws_iot_mqtt_internal_publish. keeps. Qed.
#[local] Hint Resolve keeps_publish : wf.

Lemma keeps_free_index : keeps_wf J _aws_iot_mqtt_get_free_message_handler_index.
Proof. unfold _aws_iot_mqtt_get_free_message_handler_index. keeps. Qed.
#[local] Hint Resolve keeps_free_index : wf.

Lemma keeps_subscribe p t n q f d : keeps_wf J (aws_iot_mqtt_subscribe fuel p t n q f d).
Proof. unfold aws_iot_mqtt_subscribe, _aws_iot_mqtt_internal_subscribe. keeps. Qed.

Lemma keeps_resubscribe p : keeps_wf J (aws_iot_mqtt_resubscribe fuel p).
Proof.
  unfold aws_iot_mqtt_resubscribe, _aws_iot_mqtt_internal_resubscribe, resubscribe_one. keeps.
Qed.
#[local] Hint Resolve keeps_resubscribe : wf.

Lemma keeps_unsubscribe p f n : keeps_wf J (aws_iot_mqtt_unsubscribe fuel p f n).
Proof.
  unfold aws_iot_mqtt_unsubscribe, _aws_iot_mqtt_internal_unsubscribe. keeps.
Qed.

Lemma keeps_net_connect : keeps_wf J network_connect.
Proof. unfold network_connect. keeps. Qed.
Lemma keeps_net_disconnect : keeps_wf J network_disconnect.
Proof. unfold network_disconnect. keeps. Qed.
Lemma keeps_net_destroy : keeps_wf J network_destroy.
Proof. unfold network_destroy. keeps. Qed.
#[local] Hint Resolve keeps_net_connect keeps_net_disconnect keeps_net_destroy : wf.

Lemma keeps_set_params p q : keeps_wf J (aws_iot_mqtt_set_connect_params p q).
Proof. unfold aws_iot_mqtt_set_connect_params. keeps. Qed.
#[local] Hint Resolve keeps_set_params : wf.

Lemma keeps_connect p q : keeps_wf J (aws_iot_mqtt_connect fuel p q).
Proof. unfold aws_iot_mqtt_connect, _aws_iot_mqtt_internal_connect. keeps. Qed.
#[local] Hint Resolve keeps_connect : wf.

Lemma keeps_disconnect p : keeps_wf J (aws_iot_mqtt_disconnect fuel p).
Proof. unfold aws_iot_mqtt_disconnect, _aws_iot_mqtt_internal_disconnect. keeps. Qed.
#[local] Hint Resolve keeps_disconnect : wf.

Lemma keeps_attempt_reconnect p : keeps_wf J (aws_iot_mqtt_attempt_reconnect fuel p).
Proof. unfold aws_iot_mqtt_attempt_reconnect. keeps. Qed.
#[local] Hint Resolve keeps_attempt_reconnect : wf.

Lemma keeps_handle_disconnect : keeps_wf J (_aws_iot_mqtt_handle_disconnect fuel).
Proof.
  unfold _aws_iot_mqtt_handle_disconnect, _aws_iot_mqtt_force_client_disconnect.
  apply keeps_bind; [keeps|]. intros rc. apply keeps_bind; [keeps|]. intros ?.
  apply keeps_bind; [keeps|]. intros d. apply keeps_bind; [|intros; keeps].
  destruct (disconnectHandler d) as [f|]; [|keeps]. intros [c w] [Hc Hw]. unfold wp.
  pose proof (careful_disconnect f (disconnectHandlerData d) c w Hc Hw) as Hf.
  by destruct (call_disconnect_handler _ _ _ _) as [[c2 w2]| |].
Qed.
#[local] Hint Resolve keeps_handle_disconnect : wf.

Lemma keeps_back_off rc : keeps_wf J (back_off rc).
Proof. unfold back_off. keeps. Qed.
#[local] Hint Resolve keeps_back_off : wf.

Lemma keeps_handle_reconnect : keeps_wf J (_aws_iot_mqtt_handle_reconnect fuel).
Proof. unfold _aws_iot_mqtt_handle_reconnect. keeps. Qed.
#[local] Hint Resolve keeps_handle_reconnect : wf.

Lemma keeps_keep_alive p : keeps_wf J (_aws_iot_mqtt_keep_alive fuel p).
Proof. unfold _aws_iot_mqtt_keep_alive. keeps. Qed.
#[local] Hint Resolve keeps_keep_alive : wf.

Lemma keeps_yield p t : keeps_wf J (aws_iot_mqtt_yield fuel p t).
Proof. unfold aws_iot_mqtt_yield, _aws_iot_mqtt_internal_yield, yield_round. keeps. Qed.

Lemma keeps_init p q : keeps_wf J (aws_iot_mqtt_init p q).
Proof. unfold aws_iot_mqtt_init. keeps. Qed.

Lemma keeps_call p a : keeps_wf J (run_call fuel p a).
Proof.
  destruct a; cbn [run_call]; unfold aws_iot_mqtt_autoreconnect_set_status, aws_iot_mqtt_set_disconnect_handler;
  auto using keeps_init, keeps_connect, keeps_publish, keeps_subscribe, keeps_resubscribe,
    keeps_unsubscribe, keeps_disconnect, keeps_yield, keeps_attempt_reconnect.
  all: keeps.
Qed.

Lemma keeps_calls calls : keeps_wf J (run_calls fuel calls).
Proof. induction calls as [|a l IH]; cbn [run_calls]; keeps; apply keeps_call. Qed.
End operations.

(** ** Properties *)

(** C15: the client object stays well-formed: from a client whose arrays have their declared sizes,
    whose recorded sizes are those of the arrays and whose next packet identifier is valid, every
    sequence of API calls leads to such a client - whatever the network, the clock and the mutexes do,
    in every outcome of every call, provided the application's callbacks keep the client well-formed.
    Moreover any property of the world that the network, the clock, the mutexes and the callbacks keep is
    kept by the calls. *)
Theorem client_stays_well_formed {W : Type} {clock : Clock W} {net : NetworkOps W}
    {mutexes : MutexOps W} {app : AppOps W} (J : W -> Prop) {kept : Kept W J} {careful : CarefulApp W J}
    (fuel : nat) (calls : list api_call) (s : St W) :
  well_formed s.1 -> J s.2 ->
  wp partial (run_calls fuel calls) (fun _ s' => well_formed s'.1 /\ J s'.2) s.
Proof. intros Hc Hw. apply (keeps_calls J fuel calls). by split. Qed.

(** What has been sent only grows. *)
Definition has_sent (d : bytes) (w : sim) : Prop := exists e, sim_out w = d ++ e.

#[export] Instance sim_kept d : Kept sim (has_sent d).
Proof.
  constructor; try done.
  - intros n len t old w Hw. cbn. by destruct (len <=? zlen (sim_in w)).
  - intros n mem len t old w [e He]. cbn. destruct (load_list mem 0 len) as [x| |]; [|done|done].
    cbn. exists (e ++ x). cbn. by rewrite He, <- app_assoc.
  - by intros f n w [= <-].
  - intros m w Hw. repeat constructor; exact Hw.
Qed.

#[export] Instance sim_careful d : CarefulApp sim (has_sent d).
Proof.
  constructor.
  - intros f p n msg x c w Hc Hw. cbn. by destruct (load_list _ _ _).
  - intros f x c w Hc Hw. by split.
Qed.

(** A client with arrays of the declared sizes, connected. *)
Definition full_client : AWS_IoT_Client :=
  let c := sim_client CLIENT_STATE_CONNECTED_IDLE [] in
  set_readBufSize AWS_IOT_MQTT_RX_BUF_LEN (set_writeBufSize AWS_IOT_MQTT_TX_BUF_LEN
    (set_readBuf (replicate (Z.to_nat AWS_IOT_MQTT_RX_BUF_LEN) 0)
      (set_writeBuf (replicate (Z.to_nat AWS_IOT_MQTT_TX_BUF_LEN) 0) c))).

Lemma zlen_fill {A} n (x : A) : 0 <= n -> zlen (replicate (Z.to_nat n) x) = n.
Proof. intros Hn. unfold zlen. rewrite length_replicate. lia. Qed.

Lemma full_client_well_formed : well_formed full_client.
Proof.
  unfold full_client. cbv zeta. constructor.
  - reflexivity.
  - apply (zlen_fill AWS_IOT_MQTT_TX_BUF_LEN). done.
  - apply (zlen_fill AWS_IOT_MQTT_RX_BUF_LEN). done.
  - reflexivity.
  - reflexivity.
  - by split.
Qed.

Lemma client_stays_well_formed_witness :
  wp partial (run_calls 3000 [api_subscribe (Some [98; 0]) 1 0 (Some 8) 80; api_yield 1; api_disconnect])
    (fun _ s' => well_formed s'.1 /\ has_sent [7] s'.2)
    (full_client, mkSim 0 [144; 3; 0; 1; 0] [7; 8] []).
Proof.
  refine (client_stays_well_formed (has_sent [7]) 3000 _ _ _ _); [exact full_client_well_formed|]. by exists [8].
Defined.
