(* ===== verification/Tls.v ===== *)
(** * The network interface over mbedTLS: platform/linux/mbedtls/network_mbedtls_wrapper.c

    [Mbedtls] is the part of the mbedTLS API the wrapper calls; the library itself is a parameter,
    and [MbedtlsLaws] its documented behaviour: a read or write that returns a positive count has
    transferred that many bytes of the stream, any other has transferred none, and the retry codes
    are returned finitely often.  The contexts of [TLSDataParams] live in the world.  Logging is not
    modelled. *)

From S2P Require Export Timer.

Definition MBEDTLS_ERR_SSL_WANT_READ : Z := -26880.
Definition MBEDTLS_ERR_SSL_WANT_WRITE : Z := -26752.
Definition MBEDTLS_ERR_SSL_TIMEOUT : Z := -26624.
Definition MBEDTLS_ERR_NET_SOCKET_FAILED : Z := -66.
Definition MBEDTLS_ERR_NET_UNKNOWN_HOST : Z := -82.
Definition IOT_SSL_READ_TIMEOUT : Z := 10.

(** The two certificate fields of [TLSDataParams] and the verification modes in use. *)
Inductive crt_field : Set := cacert | clicert.
Inductive authmode : Set := MBEDTLS_SSL_VERIFY_OPTIONAL | MBEDTLS_SSL_VERIFY_REQUIRED.

(** A function without result is a transformation of the world, a function returning an [int]
    gives it first.  [mbedtls_ssl_write mem len]: [mem] are the bytes readable from the buffer on;
    [mbedtls_ssl_read len] returns also the bytes it has stored. *)
Class Mbedtls (W : Type) := {
  mbedtls_net_init : W -> W;
  mbedtls_ssl_init : W -> W;
  mbedtls_ssl_config_init : W -> W;
  mbedtls_ctr_drbg_init : W -> W;
  mbedtls_x509_crt_init : crt_field -> W -> W;
  mbedtls_pk_init : W -> W;
  mbedtls_entropy_init : W -> W;
  mbedtls_ctr_drbg_seed : bytes -> Z -> W -> Z * W;
  mbedtls_x509_crt_parse_file : crt_field -> option bytes -> W -> Z * W;
  mbedtls_pk_parse_keyfile : option bytes -> bytes -> W -> Z * W;
  mbedtls_net_connect : option bytes -> bytes -> W -> Z * W;
  mbedtls_net_set_block : W -> Z * W;
  mbedtls_ssl_config_defaults : W -> Z * W;
  mbedtls_ssl_conf_verify : W -> W;
  mbedtls_ssl_conf_authmode : authmode -> W -> W;
  mbedtls_ssl_conf_rng : W -> W;
  mbedtls_ssl_conf_ca_chain : W -> W;
  mbedtls_ssl_conf_own_cert : W -> Z * W;
  mbedtls_ssl_conf_read_timeout : Z -> W -> W;
  mbedtls_ssl_setup : W -> Z * W;
  mbedtls_ssl_set_hostname : option bytes -> W -> Z * W;
  mbedtls_ssl_set_bio : W -> W;
  mbedtls_ssl_handshake : W -> Z * W;
  mbedtls_ssl_get_record_expansion : W -> Z * W;
  mbedtls_ssl_get_verify_result : W -> Z * W;
  mbedtls_ssl_write : bytes -> Z -> W -> Z * W;
  mbedtls_ssl_read : Z -> W -> Z * bytes * W;
  mbedtls_ssl_close_notify : W -> Z * W;
  mbedtls_net_free : W -> W;
  mbedtls_x509_crt_free : crt_field -> W -> W;
  mbedtls_pk_free : W -> W;
  mbedtls_ssl_free : W -> W;
  mbedtls_ssl_config_free : W -> W;
  mbedtls_ctr_drbg_free : W -> W;
  mbedtls_entropy_free : W -> W
}.

(** [snprintf(buf, size, "%d", n)] for [0 <= n]. *)
Fixpoint decimal (fuel : nat) (n : Z) : bytes :=
  match fuel with
  | O => []
  | S fuel => if n <? 10 then [48 + n] else decimal fuel (n / 10) ++ [48 + n mod 10]
  end.
Definition snprintf_d (size n : Z) : bytes :=
  take (Z.to_nat (size - 1)) (decimal 20 n) ++ [0].

(** "aws_iot_tls_wrapper" *)
Definition pers : bytes :=
  [97; 119; 115; 95; 105; 111; 116; 95; 116; 108; 115; 95; 119; 114; 97; 112; 112; 101; 114; 0].

Definition _iot_tls_set_connect_params (n : Network)
    (pRootCALocation pDeviceCertLocation pDevicePrivateKeyLocation pDestinationURL : option bytes)
    (destinationPort timeout_ms : Z) (ServerVerificationFlag : bool) : Network :=
  mkNetwork (mkTLSConnectParams pRootCALocation pDeviceCertLocation pDevicePrivateKeyLocation
    pDestinationURL destinationPort timeout_ms ServerVerificationFlag) (tls_flags n).

(** The function pointers stored here are those of the instance [tls_net]. *)
Definition iot_tls_init_ (n : Network)
    (pRootCALocation pDeviceCertLocation pDevicePrivateKeyLocation pDestinationURL : option bytes)
    (destinationPort timeout_ms : Z) (ServerVerificationFlag : bool) : IoT_Error_t * Network :=
  let n := _iot_tls_set_connect_params n pRootCALocation pDeviceCertLocation
    pDevicePrivateKeyLocation pDestinationURL destinationPort timeout_ms ServerVerificationFlag in
  (SUCCESS, mkNetwork (tlsConnectParams n) 0).

(** The certificate callback: it only logs, and accepts. *)
Definition _iot_tls_verify_cert (depth flags : Z) : Z := 0.

Definition iot_tls_is_connected {W : Type} (n : Network) : M W IoT_Error_t :=
  ret NETWORK_PHYSICAL_LAYER_CONNECTED.

Section tls.
Context {W : Type} {clock : Clock W} {tls : Mbedtls W}.
Context (fuel : nat).

Definition call (f : W -> Z * W) : M W Z := fun w => Done (f w).

Definition is_retry (r : Z) : bool :=
  (r =? MBEDTLS_ERR_SSL_WANT_READ) || (r =? MBEDTLS_ERR_SSL_WANT_WRITE).

(** [while((ret = mbedtls_ssl_handshake(..)) != 0) ..]: whether it ended with 0. *)
Definition tls_handshake : M W bool :=
  loop fuel (fun _ : unit =>
    do! r := call mbedtls_ssl_handshake in
    if r =? 0 then ret (inr true)
    else if negb (is_retry r) then ret (inr false)
    else ret (inl tt)) tt.

(** [if(!ok) { return e; }] *)
Definition unless (ok : bool) (e : IoT_Error_t) (n : Network)
    (k : M W (IoT_Error_t * option Network)) : M W (IoT_Error_t * option Network) :=
  if ok then k else ret (e, Some n).

Definition iot_tls_connect (pNetwork : option Network) (params : option TLSConnectParams)
    : M W (IoT_Error_t * option Network) :=
  match pNetwork with
  | None => ret (NULL_VALUE_ERROR, None)
  | Some n =>
      let n :=
        match params with
        | Some p => _iot_tls_set_connect_params n (tls_pRootCALocation p) (tls_pDeviceCertLocation p)
            (tls_pDevicePrivateKeyLocation p) (pDestinationURL p) (DestinationPort p) (timeout_ms p)
            (ServerVerificationFlag p)
        | None => n
        end in
      let p := tlsConnectParams n in
      run! modify mbedtls_net_init in
      run! modify mbedtls_ssl_init in
      run! modify mbedtls_ssl_config_init in
      run! modify mbedtls_ctr_drbg_init in
      run! modify (mbedtls_x509_crt_init cacert) in
      run! modify (mbedtls_x509_crt_init clicert) in
      run! modify mbedtls_pk_init in
      run! modify mbedtls_entropy_init in
      do! r := call (mbedtls_ctr_drbg_seed pers (zlen pers - 1)) in
      unless (r =? 0) NETWORK_MBEDTLS_ERR_CTR_DRBG_ENTROPY_SOURCE_FAILED n
      (do! r := call (mbedtls_x509_crt_parse_file cacert (tls_pRootCALocation p)) in
      unless (0 <=? r) NETWORK_X509_ROOT_CRT_PARSE_ERROR n
      (do! r := call (mbedtls_x509_crt_parse_file clicert (tls_pDeviceCertLocation p)) in
      unless (r =? 0) NETWORK_X509_DEVICE_CRT_PARSE_ERROR n
      (do! r := call (mbedtls_pk_parse_keyfile (tls_pDevicePrivateKeyLocation p) [0]) in
      unless (r =? 0) NETWORK_PK_PRIVATE_KEY_PARSE_ERROR n
      (let portBuffer := snprintf_d 6 (DestinationPort p) in
      do! r := call (mbedtls_net_connect (pDestinationURL p) portBuffer) in
      unless (r =? 0)
        (if r =? MBEDTLS_ERR_NET_SOCKET_FAILED then NETWORK_ERR_NET_SOCKET_FAILED
         else if r =? MBEDTLS_ERR_NET_UNKNOWN_HOST then NETWORK_ERR_NET_UNKNOWN_HOST
         else NETWORK_ERR_NET_CONNECT_FAILED) n
      (do! r := call mbedtls_net_set_block in
      unless (r =? 0) SSL_CONNECTION_ERROR n
      (do! r := call mbedtls_ssl_config_defaults in
      unless (r =? 0) SSL_CONNECTION_ERROR n
      (run! modify mbedtls_ssl_conf_verify in
      run! modify (mbedtls_ssl_conf_authmode
        (if ServerVerificationFlag p then MBEDTLS_SSL_VERIFY_REQUIRED
         else MBEDTLS_SSL_VERIFY_OPTIONAL)) in
      run! modify mbedtls_ssl_conf_rng in
      run! modify mbedtls_ssl_conf_ca_chain in
      do! r := call mbedtls_ssl_conf_own_cert in
      unless (r =? 0) SSL_CONNECTION_ERROR n
      (run! modify (mbedtls_ssl_conf_read_timeout (timeout_ms p)) in
      do! r := call mbedtls_ssl_setup in
      unless (r =? 0) SSL_CONNECTION_ERROR n
      (do! r := call (mbedtls_ssl_set_hostname (pDestinationURL p)) in
      unless (r =? 0) SSL_CONNECTION_ERROR n
      (run! modify mbedtls_ssl_set_bio in
      do! shaken := tls_handshake in
      unless shaken SSL_CONNECTION_ERROR n
      (do! r := call mbedtls_ssl_get_record_expansion in
      do! (rc, n) :=
        if ServerVerificationFlag p then
          do! flags := call mbedtls_ssl_get_verify_result in
          let n := mkNetwork p flags in
          ret (if negb (flags =? 0) then SSL_CONNECTION_ERROR else SUCCESS, n)
        else ret (SUCCESS, n) in
      run! modify (mbedtls_ssl_conf_read_timeout IOT_SSL_READ_TIMEOUT) in
      ret (rc, Some n))))))))))))
  end.

(** The inner loop of [iot_tls_write]: [ret] is indeterminate ([None]) before the first write, and
    keeps the previous fragment's count when the timer expires first.  Returns [isErrorFlag]. *)
Definition tls_write_fragment (mem : bytes) (len written_so_far : Z) (timer : Timer)
    (r : option Z) : M W (bool * option Z) :=
  loop fuel (fun r =>
    do! expired := has_timer_expired timer in
    if (expired : bool) then ret (inr (false, r))
    else
      do! r := call (mbedtls_ssl_write (drop (Z.to_nat written_so_far) mem)
                       (u64 (len - written_so_far))) in
      if r <=? 0 then
        if negb (r =? MBEDTLS_ERR_SSL_WANT_READ) && negb (r =? MBEDTLS_ERR_SSL_WANT_WRITE)
        then ret (inr (true, Some r))
        else ret (inl (Some r))
      else ret (inr (false, Some r))) r.

(** Returns the code and [*written_len]. *)
Definition iot_tls_write (mem : bytes) (len : Z) (timer : Timer) : M W (IoT_Error_t * Z) :=
  do! (isErrorFlag, written_so_far) := loop fuel (fun '(written_so_far, r) =>
    if written_so_far <? len then
      do! expired := has_timer_expired timer in
      if (expired : bool) then ret (inr (false, written_so_far))
      else
        do! (isErrorFlag, r) := tls_write_fragment mem len written_so_far timer r in
        if (isErrorFlag : bool) then ret (inr (true, written_so_far))
        else
          do! k := lift (deref r) in
          ret (inl (u64 (written_so_far + k), r))
    else ret (inr (false, written_so_far))) (0, None) in
  let written_len := written_so_far in
  if (isErrorFlag : bool) then ret (NETWORK_SSL_WRITE_ERROR, written_len)
  else
    do! expired := has_timer_expired timer in
    if expired && negb (written_so_far =? len)
    then ret (NETWORK_SSL_WRITE_TIMEOUT_ERROR, written_len)
    else ret (SUCCESS, written_len).

(** Returns the code, the bytes stored from [pMsg] on and [*read_len] ([old] before). *)
Definition iot_tls_read (len : Z) (timer : Timer) (old : Z) : M W (IoT_Error_t * bytes * Z) :=
  do! (failed, rxLen, len, data) := loop fuel (fun '(rxLen, len, data) =>
    if 0 <? len then
      do! (r, d) := fun w => let '(r, d, w) := mbedtls_ssl_read len w in Done ((r, d), w) in
      if (r =? 0) || (r <? 0) && negb (r =? MBEDTLS_ERR_SSL_WANT_READ)
                     && negb (r =? MBEDTLS_ERR_SSL_WANT_WRITE) && negb (r =? MBEDTLS_ERR_SSL_TIMEOUT)
      then ret (inr (true, rxLen, len, data ++ d))
      else
        let '(rxLen, data, len) :=
          if 0 <? r then (u64 (rxLen + r), data ++ d, u64 (len - r)) else (rxLen, data, len) in
        do! expired := has_timer_expired timer in
        if (expired : bool) then ret (inr (false, rxLen, len, data))
        else ret (inl (rxLen, len, data))
    else ret (inr (false, rxLen, len, data))) (0, len, []) in
  if (failed : bool) then ret (NETWORK_SSL_READ_ERROR, data, old)
  else if len =? 0 then ret (SUCCESS, data, rxLen)
  else if rxLen =? 0 then ret (NETWORK_SSL_NOTHING_TO_READ, data, old)
  else ret (NETWORK_SSL_READ_TIMEOUT_ERROR, data, old).

Definition iot_tls_disconnect : M W IoT_Error_t :=
  loop fuel (fun _ : unit =>
    do! r := call mbedtls_ssl_close_notify in
    if r =? MBEDTLS_ERR_SSL_WANT_WRITE then ret (inl tt) else ret (inr SUCCESS)) tt.

Definition iot_tls_destroy : M W IoT_Error_t :=
  run! modify mbedtls_net_free in
  run! modify (mbedtls_x509_crt_free clicert) in
  run! modify (mbedtls_x509_crt_free cacert) in
  run! modify mbedtls_pk_free in
  run! modify mbedtls_ssl_free in
  run! modify mbedtls_ssl_config_free in
  run! modify mbedtls_ctr_drbg_free in
  run! modify mbedtls_entropy_free in
  ret SUCCESS.
End tls.

(** ** What mbedTLS promises *)

Section laws.
Context (W : Type) {clock : Clock W} {tls : Mbedtls W}.

(** The functions without, and those with a result that transfer nothing. *)
Definition void_ops (t : Z) : list (W -> W) :=
  [mbedtls_net_init; mbedtls_ssl_init; mbedtls_ssl_config_init; mbedtls_ctr_drbg_init;
   mbedtls_x509_crt_init cacert; mbedtls_x509_crt_init clicert; mbedtls_pk_init;
   mbedtls_entropy_init; mbedtls_ssl_conf_verify;
   mbedtls_ssl_conf_authmode MBEDTLS_SSL_VERIFY_OPTIONAL;
   mbedtls_ssl_conf_authmode MBEDTLS_SSL_VERIFY_REQUIRED; mbedtls_ssl_conf_rng;
   mbedtls_ssl_conf_ca_chain; mbedtls_ssl_conf_read_timeout t; mbedtls_ssl_set_bio;
   mbedtls_net_free; mbedtls_x509_crt_free clicert; mbedtls_x509_crt_free cacert;
   mbedtls_pk_free; mbedtls_ssl_free; mbedtls_ssl_config_free; mbedtls_ctr_drbg_free;
   mbedtls_entropy_free].

Definition int_ops (p : bytes) (n : Z) (file : option bytes) (pw : bytes) (host : option bytes)
    (port : bytes) : list (W -> Z * W) :=
  [mbedtls_ctr_drbg_seed p n; mbedtls_x509_crt_parse_file cacert file;
   mbedtls_x509_crt_parse_file clicert file; mbedtls_pk_parse_keyfile file pw;
   mbedtls_net_connect host port; mbedtls_net_set_block; mbedtls_ssl_config_defaults;
   mbedtls_ssl_conf_own_cert; mbedtls_ssl_setup; mbedtls_ssl_set_hostname host;
   mbedtls_ssl_get_record_expansion; mbedtls_ssl_get_verify_result].

(** [tls_in] is what is still to be received, in order, [tls_out] what has been accepted for
    sending, [tls_retries] a bound on the retry codes still to be returned, [tls_now] the clock. *)
Class MbedtlsLaws := {
  tls_now : W -> Z;
  tls_in : W -> bytes;
  tls_out : W -> bytes;
  tls_retries : W -> nat;
  tls_le (w w' : W) : Prop :=
    tls_now w <= tls_now w' /\ (length (tls_in w') <= length (tls_in w))%nat /\
    (tls_retries w' <= tls_retries w)%nat;
  tls_clock : forall w,
    normal (gettimeofday w).1 /\ micros (gettimeofday w).1 = tls_now (gettimeofday w).2 /\
    tls_now w < tls_now (gettimeofday w).2 /\ tls_in (gettimeofday w).2 = tls_in w /\
    tls_out (gettimeofday w).2 = tls_out w /\
    (tls_retries (gettimeofday w).2 <= tls_retries w)%nat;
  tls_void : forall t f w, In f (void_ops t) -> tls_le w (f w);
  tls_int : forall p n file pw host port f w,
    In f (int_ops p n file pw host port) -> tls_le w (f w).2;
  tls_handshake_law : forall w, let '(r, w') := mbedtls_ssl_handshake w in
    tls_le w w' /\ (is_retry r = true -> (tls_retries w' < tls_retries w)%nat);
  tls_close_law : forall w, let '(r, w') := mbedtls_ssl_close_notify w in
    tls_le w w' /\ (is_retry r = true -> (tls_retries w' < tls_retries w)%nat);
  tls_write_law : forall mem len w, let '(r, w') := mbedtls_ssl_write mem len w in
    tls_le w w' /\
    (0 <= len <= zlen mem ->
       r <= len /\ tls_out w' = tls_out w ++ take (Z.to_nat r) mem);
  tls_read_law : forall len w, let '(r, data, w') := mbedtls_ssl_read len w in
    tls_le w w' /\ (0 < len -> r <= len) /\ zlen data = Z.max 0 r /\ tls_in w = data ++ tls_in w'
}.
End laws.
Arguments MbedtlsLaws W {clock tls}.
Arguments tls_now {W clock tls MbedtlsLaws} w.
Arguments tls_in {W clock tls MbedtlsLaws} w.
Arguments tls_out {W clock tls MbedtlsLaws} w.
Arguments tls_retries {W clock tls MbedtlsLaws} w.
Arguments tls_le {W clock tls MbedtlsLaws} w w'.

(** ** Lemmas *)

Section contracts.
Context {W : Type} {clock : Clock W} {tls : Mbedtls W} {laws : MbedtlsLaws W}.

#[export] Instance tls_le_preorder : PreOrder (tls_le (W := W)).
Proof. split; unfold tls_le; [intros w; lia|]. intros w1 w2 w3. lia. Qed.

Lemma wp_modify_le (f : W -> W) (Q : unit -> W -> Prop) w :
  (forall w, tls_le w (f w)) -> (forall w', tls_le w w' -> Q tt w') -> wp total (modify f) Q w.
Proof. intros Hf HQ. apply wp_modify. by apply HQ. Qed.

Lemma wp_call_le (f : W -> Z * W) (Q : Z -> W -> Prop) w :
  (forall w, tls_le w (f w).2) -> (forall r w', tls_le w w' -> Q r w') -> wp total (call f) Q w.
Proof.
  intros Hf HQ. unfold wp, call. specialize (Hf w). destruct (f w) as [r w']. cbn [owp]. by apply HQ.
Qed.

(** From [expiry_bound t] on every reading of the clock finds the timer expired, normalised or not. *)
Definition expiry_bound (t : Timer) : Z := (tv_sec (end_time t) + 1) * 1000000.

Lemma wp_tls_expired md t (Q : bool -> W -> Prop) w :
  (forall b w', tls_le w w' -> tls_now w < tls_now w' -> tls_in w' = tls_in w ->
     tls_out w' = tls_out w -> (expiry_bound t <= tls_now w' -> b = true) ->
     (normal (end_time t) -> b = (expiry t <=? tls_now w')) -> Q b w') ->
  wp md (has_timer_expired t) Q w.
Proof.
  intros HQ. pose proof (tls_clock W w) as (Hn & Hm & Hlt & Hi & Ho & Hr).
  unfold wp, has_timer_expired, bind, now_, ret.
  destruct (gettimeofday w) as [tv w'] eqn:E. cbn [obind owp fst snd] in *. apply HQ; try done.
  - unfold tls_le. rewrite Hi. split; [lia|]. split; [lia|done].
  - unfold expiry_bound, micros, normal, timersub in *. intros H.
    apply orb_true_iff. left. apply Z.ltb_lt.
    destruct (tv_usec (end_time t) - tv_usec tv <? 0); cbn [tv_sec]; lia.
  - intros Ht. rewrite expired_iff by (by apply timersub_normal). rewrite timersub_micros, Hm.
    unfold expiry. apply eq_true_iff_eq. rewrite !Z.leb_le. lia.
Qed.

Lemma expiry_le_bound t : normal (end_time t) -> expiry t <= expiry_bound t.
Proof. unfold normal, expiry, expiry_bound, micros. lia. Qed.

(** *** Reading *)

(** Whatever [iot_tls_read] returns, what it stored is what the stream gave, and its code tells how
    much that is. *)
Lemma iot_tls_read_contract fuel len timer old w :
  len < 18446744073709551616 -> expiry_bound timer - tls_now w < Z.of_nat fuel -> (0 < fuel)%nat ->
  wp exact (iot_tls_read fuel len timer old) (fun '(rc, data, read_len) w' =>
    tls_le w w' /\ tls_in w = data ++ tls_in w' /\
    match rc with
    | SUCCESS => zlen data = len /\ read_len = len
    | NETWORK_SSL_NOTHING_TO_READ => data = [] /\ read_len = old
    | NETWORK_SSL_READ_TIMEOUT_ERROR => 0 < zlen data < len /\ read_len = old
    | NETWORK_SSL_READ_ERROR => 0 <= zlen data < len /\ read_len = old
    | _ => False
    end) w.
Proof.
  intros Hlen Hf Hf0. unfold iot_tls_read. apply wp_bind.
  apply (wp_loop exact (fun '(rx, l, data) w' => tls_le w w' /\ tls_in w = data ++ tls_in w' /\
      rx = zlen data /\ l = len - rx /\ (l < 0 -> data = []) /\ (0 <= len -> 0 <= l))
    (fun _ w' => Z.to_nat (expiry_bound timer - tls_now w'))).
  - split; [reflexivity|]. split; [done|]. split; [done|]. split; [lia|]. split; [done|lia].
  - intros [[rx l] data] w1 (Hw1 & Hin & -> & -> & Hneg & Hpos). destruct (0 <? len - zlen data) eqn:El.
    2: { apply wp_ret. cbn beta iota.
         destruct (len - zlen data =? 0) eqn:E0; [apply wp_ret; split; [done|split; [done|lia]]|].
         assert (data = []) as -> by (apply Hneg; lia). by apply wp_ret. }
    apply wp_bind. unfold wp at 1. pose proof (tls_read_law W (len - zlen data) w1) as Hr.
    destruct (mbedtls_ssl_read _ w1) as [[r d] w2]. cbn [obind owp].
    destruct Hr as (Hle & Hr & Hd & Hin2). specialize (Hr ltac:(lia)).
    assert (Hw2 : tls_le w w2) by (by etrans).
    assert (Hin3 : tls_in w = (data ++ d) ++ tls_in w2) by (by rewrite Hin, Hin2, app_assoc).
    destruct (_ || _) eqn:Efail.
    { apply wp_ret. cbn beta iota. apply wp_ret. split; [done|]. split; [done|].
      assert (r <= 0) by (apply orb_true_iff in Efail; destruct Efail; lia). zlia. }
    destruct (0 <? r) eqn:Er.
    + assert (zlen (data ++ d) = zlen data + r) as Hzl by zlia. pose proof (zlen_nonneg data).
      rewrite !u64_id by lia. apply wp_bind, wp_tls_expired. intros b w3 Hw3 Hlt Hi3 _ Hb _.
      assert (Hw3' : tls_le w w3) by (by etrans). rewrite <- Hi3 in Hin3. destruct b.
      * apply wp_ret. cbn beta iota. destruct (len - zlen data - r =? 0) eqn:E0.
        { apply wp_ret. split; [done|]. split; [done|]. lia. }
        destruct (zlen data + r =? 0) eqn:E1; [lia|]. apply wp_ret. split; [done|]. split; [done|]. lia.
      * apply wp_ret. split.
        { split; [done|]. split; [done|]. split; [lia|]. split; [lia|]. split; lia. }
        intros _. destruct Hle as [Hle _]. destruct (decide (expiry_bound timer <= tls_now w3)); [|lia].
        by specialize (Hb ltac:(done)).
    + assert (d = []) as -> by (destruct d; [done|zlia]). rewrite app_nil_r in *.
      apply wp_bind, wp_tls_expired. intros b w3 Hw3 Hlt Hi3 _ Hb _.
      assert (Hw3' : tls_le w w3) by (by etrans). rewrite <- Hi3 in Hin3. destruct b.
      * apply wp_ret. cbn beta iota. destruct (len - zlen data =? 0) eqn:E0; [lia|].
        pose proof (zlen_nonneg data).
        destruct (zlen data =? 0) eqn:E1; apply wp_ret; (split; [done|]; split; [done|]).
        { destruct data; [done|zlia]. }
        lia.
      * apply wp_ret. split.
        { split; [done|]. split; [done|]. split; [lia|]. split; [lia|]. split; lia. }
        intros _. destruct Hle as [Hle _]. destruct (decide (expiry_bound timer <= tls_now w3)); [|lia].
        by specialize (Hb ltac:(done)).
  - intros _. lia.
Qed.

(** *** Writing *)

Lemma tls_write_fragment_contract fuel mem len wr timer r w :
  0 <= wr < len -> len <= zlen mem -> len < 18446744073709551616 ->
  expiry_bound timer - tls_now w < Z.of_nat fuel -> (0 < fuel)%nat ->
  wp exact (tls_write_fragment fuel mem len wr timer r) (fun '(err, r') w' =>
    tls_le w w' /\ tls_now w < tls_now w' /\
    if (err : bool) then tls_out w' = tls_out w
    else (exists k, r' = Some k /\ 0 < k <= len - wr /\
            tls_out w' = tls_out w ++ take (Z.to_nat k) (drop (Z.to_nat wr) mem)) \/
         (normal (end_time timer) -> expiry timer <= tls_now w')) w.
Proof.
  intros Hwr Hmem Hlen Hf Hf0. unfold tls_write_fragment.
  apply (wp_loop exact (fun _ w' => tls_le w w' /\ tls_out w' = tls_out w)
    (fun _ w' => Z.to_nat (expiry_bound timer - tls_now w'))); [by split| |intros; lia].
  intros r1 w1 [Hw1 Ho1]. apply wp_bind, wp_tls_expired. intros b w2 Hw2 Hlt _ Ho2 Hb Hn.
  assert (Hw2' : tls_le w w2) by (by etrans). assert (Hnow : tls_now w < tls_now w2).
  { destruct Hw1 as [? _]. lia. }
  destruct b.
  { apply wp_ret. split; [done|]. split; [done|]. right. intros Ht. specialize (Hn Ht). lia. }
  rewrite u64_id by lia. apply wp_bind. unfold wp at 1, call.
  pose proof (tls_write_law W (drop (Z.to_nat wr) mem) (len - wr) w2) as Hl.
  destruct (mbedtls_ssl_write _ _ w2) as [k w3]. cbn [owp]. destruct Hl as (Hw3 & Hl).
  rewrite zlen_drop in Hl by lia. destruct (Hl ltac:(lia)) as [Hk Ho3].
  assert (Hw3' : tls_le w w3) by (by etrans). pose proof Hw3 as [Hnow3 _].
  destruct (k <=? 0) eqn:Ek.
  - assert (Ho : tls_out w3 = tls_out w).
    { rewrite Ho3, Ho2, Ho1. replace (Z.to_nat k) with O by lia. cbn [take]. by rewrite app_nil_r. }
    destruct (_ && _); apply wp_ret.
    + split; [done|]. split; [lia|done].
    + split; [by split|]. intros _. destruct Hw2 as [_ _].
      destruct (decide (expiry_bound timer <= tls_now w2)) as [H|H]; [by specialize (Hb H)|].
      destruct Hw1 as [? _]. lia.
  - apply wp_ret. split; [done|]. split; [lia|]. left. exists k. split; [done|]. split; [lia|].
    by rewrite Ho3, Ho2, Ho1.
Qed.

(** A return with the timer still running tells exactly what was handed over; past the expiry, the
    count of the last fragment may have been added a second time. *)
Lemma iot_tls_write_contract fuel mem len timer w :
  0 <= len <= zlen mem -> len < 18446744073709551616 ->
  expiry_bound timer - tls_now w < Z.of_nat fuel -> (0 < fuel)%nat ->
  wp total (iot_tls_write fuel mem len timer) (fun '(rc, written_len) w' =>
    tls_le w w' /\
    (rc = SUCCESS \/ rc = NETWORK_SSL_WRITE_ERROR \/ rc = NETWORK_SSL_WRITE_TIMEOUT_ERROR) /\
    (rc = NETWORK_SSL_WRITE_ERROR -> normal (end_time timer) ->
       0 <= written_len < len /\ tls_out w' = tls_out w ++ take (Z.to_nat written_len) mem) /\
    (rc = SUCCESS -> normal (end_time timer) -> tls_now w' < expiry timer ->
       written_len = len /\ tls_out w' = tls_out w ++ take (Z.to_nat len) mem)) w.
Proof.
  intros Hmem Hlen Hf Hf0. unfold iot_tls_write. apply wp_bind.
  apply (wp_loop total (fun '(wr, _) w' => tls_le w w' /\
      (0 <= wr <= len /\ tls_out w' = tls_out w ++ take (Z.to_nat wr) mem \/
       (normal (end_time timer) -> expiry timer <= tls_now w')) /\ 0 <= wr)
    (fun _ w' => Z.to_nat (expiry_bound timer - tls_now w'))).
  - split; [reflexivity|]. split; [|done]. left. split; [lia|]. cbn [take Z.to_nat]. by rewrite app_nil_r.
  - intros [wr r] w1 (Hw1 & Hinv & Hwr0).
    assert (Hend : forall wr' w2, tls_le w w2 ->
      (0 <= wr' <= len /\ tls_out w2 = tls_out w ++ take (Z.to_nat wr') mem \/
       (normal (end_time timer) -> expiry timer <= tls_now w2)) ->
      (wr' < len -> normal (end_time timer) -> expiry timer <= tls_now w2) ->
      wp total (do! expired := has_timer_expired timer in
        if expired && negb (wr' =? len) then ret (NETWORK_SSL_WRITE_TIMEOUT_ERROR, wr')
        else ret (SUCCESS, wr')) (fun '(rc, written_len) w' =>
        tls_le w w' /\
        (rc = SUCCESS \/ rc = NETWORK_SSL_WRITE_ERROR \/ rc = NETWORK_SSL_WRITE_TIMEOUT_ERROR) /\
        (rc = NETWORK_SSL_WRITE_ERROR -> normal (end_time timer) ->
           0 <= written_len < len /\ tls_out w' = tls_out w ++ take (Z.to_nat written_len) mem) /\
        (rc = SUCCESS -> normal (end_time timer) -> tls_now w' < expiry timer ->
           written_len = len /\ tls_out w' = tls_out w ++ take (Z.to_nat len) mem)) w2).
    { intros wr' w2 Hw2 Hi2 Hshort. apply wp_bind, wp_tls_expired. intros b w3 Hw3 Hlt _ Ho3 _ Hn.
      destruct (b && _) eqn:Eb; apply wp_ret; (split; [by etrans|]); (split; [by auto|]);
        (split; [done|]); [done|]. intros _ Ht Hx.
      destruct Hi2 as [[Hr2 Ho2]|Hi2]; [|specialize (Hi2 Ht); lia].
      assert (wr' = len) as ->.
      { destruct (decide (wr' < len)) as [Hs|]; [|lia]. specialize (Hshort Hs Ht). lia. }
      split; [done|]. by rewrite Ho3. }
    destruct (wr <? len) eqn:Elt.
    2: { apply wp_ret. cbn beta iota. apply Hend; [done|done|lia]. }
    apply wp_bind, wp_tls_expired. intros b w2 Hw2 Hlt _ Ho2 Hb Hn.
    assert (Hw2' : tls_le w w2) by (by etrans).
    assert (Hinv2 : 0 <= wr <= len /\ tls_out w2 = tls_out w ++ take (Z.to_nat wr) mem \/
       (normal (end_time timer) -> expiry timer <= tls_now w2)).
    { rewrite Ho2. destruct Hinv as [Hinv|Hinv]; [by left|right]. intros Ht. specialize (Hinv Ht). lia. }
    destruct b.
    { apply wp_ret. cbn beta iota. apply Hend; [done|done|]. intros _ Ht. specialize (Hn Ht). lia. }
    apply wp_bind. destruct Hw2' as [Hnow2 Hw2'']. eapply wp_of_exact.
    { apply tls_write_fragment_contract; lia. }
    intros [err r'] w3 (Hw3 & Hlt3 & H3). assert (Hw3' : tls_le w w3) by (etrans; [|exact Hw3]; by split).
    destruct err.
    { apply wp_ret. cbn beta iota. apply wp_ret. split; [done|]. split; [by auto|]. split; [|done].
      intros _ Ht. rewrite H3. destruct Hinv2 as [[Hr2 Ho]|Hi]; [split; [lia|done]|].
      specialize (Hi Ht). specialize (Hn Ht). lia. }
    apply wp_bind, wp_lift. destruct r' as [k|]; [|done]. cbn [deref owp]. apply wp_ret.
    pose proof (u64_range (wr + k)). split.
    + split; [done|]. split; [|lia]. destruct H3 as [(k' & [= ->] & Hk & Ho3)|H3]; [|by right].
      destruct Hinv2 as [[Hr2 Ho]|Hi]; [|right; intros Ht; specialize (Hi Ht); lia].
      left. rewrite u64_id by lia. split; [lia|]. rewrite Ho3, Ho, <- app_assoc. f_equal.
      rewrite Z2Nat.inj_add by lia. by rewrite take_take_drop.
    + intros _. destruct (decide (expiry_bound timer <= tls_now w2)) as [Hx|Hx]; [by specialize (Hb Hx)|].
      lia.
  - intros _. lia.
Qed.

(** Whatever it is given, it returns within the timer. *)
Lemma iot_tls_write_le fuel mem len timer w :
  expiry_bound timer - tls_now w < Z.of_nat fuel -> (0 < fuel)%nat ->
  wp total (iot_tls_write fuel mem len timer) (fun _ w' => tls_le w w') w.
Proof.
  intros Hf Hf0. unfold iot_tls_write. apply wp_bind.
  assert (Hend : forall (e : bool) wr w1, tls_le w w1 -> wp total
    (if e then ret (NETWORK_SSL_WRITE_ERROR, wr) else
       do! expired := has_timer_expired timer in
       if expired && negb (wr =? len) then ret (NETWORK_SSL_WRITE_TIMEOUT_ERROR, wr)
       else ret (SUCCESS, wr)) (fun _ w' => tls_le w w') w1).
  { intros e wr w1 H1. destruct e; [by apply wp_ret|]. apply wp_bind, wp_tls_expired.
    intros b w2 H2 _ _ _ _ _. assert (tls_le w w2) by (by etrans). by destruct (b && _); apply wp_ret. }
  assert (Hlt : forall b wa wb, (expiry_bound timer <= tls_now wb -> b = true) -> b = false ->
    tls_now wa < tls_now wb ->
    (Z.to_nat (expiry_bound timer - tls_now wb) < Z.to_nat (expiry_bound timer - tls_now wa))%nat).
  { intros b wa wb Hb -> H. destruct (decide (expiry_bound timer <= tls_now wb)) as [Hx|Hx]; [|lia].
    by specialize (Hb Hx). }
  apply (wp_loop total (fun _ w' => tls_le w w')
    (fun _ w' => Z.to_nat (expiry_bound timer - tls_now w'))); [reflexivity| |lia].
  intros [wr r] w1 H1. destruct (wr <? len); [|by apply wp_ret, (Hend false)].
  apply wp_bind, wp_tls_expired. intros b w2 H2 Hnow2 _ _ Hb2 _. assert (H2' : tls_le w w2) by (by etrans).
  destruct b; [by apply wp_ret, (Hend false)|]. apply wp_bind. unfold tls_write_fragment.
  apply (wp_loop total (fun _ w' => tls_le w2 w')
    (fun _ w' => Z.to_nat (expiry_bound timer - tls_now w'))); [reflexivity| |].
  2: { intros _. destruct H2' as [H2' _]. lia. }
  intros r1 w3 H3. apply wp_bind, wp_tls_expired. intros b w4 H4 Hnow4 _ _ Hb4 _.
  assert (H4' : tls_le w2 w4) by (by etrans).
  assert (Hgo : forall r w', tls_le w2 w' ->
    wp total (do! k := lift (deref r) in ret (inl (u64 (wr + k), r)))
      (fun a s' => match a with
        | inl _ => tls_le w s' /\ (m_total total = true ->
            (Z.to_nat (expiry_bound timer - tls_now s') < Z.to_nat (expiry_bound timer - tls_now w1))%nat)
        | inr a => wp total (let '(e, wr) := a : bool * Z in
            if e then ret (NETWORK_SSL_WRITE_ERROR, wr) else
            do! expired := has_timer_expired timer in
            if expired && negb (wr =? len) then ret (NETWORK_SSL_WRITE_TIMEOUT_ERROR, wr)
            else ret (SUCCESS, wr)) (fun _ w' => tls_le w w') s'
        end) w').
  { intros r2 w' H'. apply wp_bind, wp_lift. destruct r2 as [k|]; [|done]. cbn [deref owp]. apply wp_ret.
    split; [by etrans|]. intros _. specialize (Hlt false w1 w2 Hb2 eq_refl Hnow2). destruct H' as [H' _]. lia. }
  destruct b; [by apply wp_ret, Hgo|]. apply wp_bind. unfold wp at 1, call.
  pose proof (tls_write_law W (drop (Z.to_nat wr) mem) (u64 (len - wr)) w4) as Hl.
  destruct (mbedtls_ssl_write _ _ w4) as [k w5]. destruct Hl as [Hl _]. cbn [owp].
  assert (H5 : tls_le w2 w5) by (by etrans). assert (H5' : tls_le w w5) by (by etrans).
  destruct (k <=? 0); [destruct (_ && _)|]; apply wp_ret.
  - by apply wp_ret, (Hend true).
  - split; [done|]. intros _. specialize (Hlt false w3 w4 Hb4 eq_refl Hnow4). destruct Hl as [Hl _]. lia.
  - by apply Hgo.
Qed.

(** *** Connecting and closing *)

Lemma tls_handshake_le fuel w0 w :
  tls_le w0 w -> (tls_retries w0 < fuel)%nat ->
  wp total (tls_handshake fuel) (fun _ w' => tls_le w0 w') w.
Proof.
  intros Hw0 Hf. unfold tls_handshake.
  apply (wp_loop total (fun _ w' => tls_le w0 w') (fun _ w' => tls_retries w')); [done| |].
  - intros _ w1 Hw1. apply wp_bind. unfold wp at 1, call. pose proof (tls_handshake_law W w1) as H.
    destruct (mbedtls_ssl_handshake w1) as [r w2]. destruct H as [H Hr]. cbn [owp].
    assert (H2 : tls_le w0 w2) by (by etrans). destruct (r =? 0); [by apply wp_ret|].
    destruct (is_retry r); apply wp_ret; [|done]. split; [done|]. intros _. by apply Hr.
  - intros _. destruct Hw0 as (_ & _ & ?). lia.
Qed.

Lemma iot_tls_disconnect_le fuel w :
  (tls_retries w < fuel)%nat ->
  wp total (iot_tls_disconnect fuel) (fun rc w' => rc = SUCCESS /\ tls_le w w') w.
Proof.
  intros Hf. unfold iot_tls_disconnect.
  apply (wp_loop total (fun _ w' => tls_le w w') (fun _ w' => tls_retries w')); [reflexivity| |lia].
  intros _ w1 Hw1. apply wp_bind. unfold wp at 1, call. pose proof (tls_close_law W w1) as H.
  destruct (mbedtls_ssl_close_notify w1) as [r w2]. destruct H as [H Hr]. cbn [owp].
  assert (H2 : tls_le w w2) by (by etrans). destruct (r =? MBEDTLS_ERR_SSL_WANT_WRITE) eqn:E;
    apply wp_ret; [|done]. split; [done|]. intros _. apply Hr. unfold is_retry. rewrite E. apply orb_true_r.
Qed.

Ltac void_op t := solve [intros ?; apply (tls_void W t); simpl; tauto].
Ltac int_op := solve [intros ?; eapply (tls_int W); repeat first [left; reflexivity|right]].

Lemma iot_tls_destroy_le w :
  wp total iot_tls_destroy (fun rc w' => rc = SUCCESS /\ tls_le w w') w.
Proof.
  unfold iot_tls_destroy.
  do 8 (apply wp_bind, wp_modify_le; [void_op 0|]; intros ? ?). apply wp_ret. split; [done|]. chain.
Qed.

Definition connect_post (w : W) (r : IoT_Error_t * option Network) (w' : W) : Prop :=
  is_Some r.2 /\ tls_le w w'.

Lemma wp_unless (ok : bool) e n (k : M W (IoT_Error_t * option Network)) w0 w :
  tls_le w0 w ->
  (forall w, tls_le w0 w -> wp total k (connect_post w0) w) ->
  wp total (unless ok e n k) (connect_post w0) w.
Proof.
  intros Hw Hk. unfold unless. destruct ok; [by apply Hk|]. apply wp_ret. split; [by eexists|done].
Qed.

Lemma iot_tls_connect_le fuel n params w :
  (tls_retries w < fuel)%nat ->
  wp total (iot_tls_connect fuel (Some n) params) (connect_post w) w.
Proof.
  intros Hf. unfold iot_tls_connect.
  set (n1 := match params with Some p => _ | None => n end).
  destruct n1 as [p fl]. cbn [tlsConnectParams].
  assert (C : forall (f : W -> Z * W) (k : Z -> M W (IoT_Error_t * option Network)) w1,
    (forall w, tls_le w (f w).2) -> tls_le w w1 ->
    (forall r w2, tls_le w w2 -> wp total (k r) (connect_post w) w2) ->
    wp total (bind (call f) k) (connect_post w) w1).
  { intros f k w1 Hf1 Hw1 Hk. apply wp_bind, wp_call_le; [done|]. intros r w2 Hw2. apply Hk. by etrans. }
  assert (V : forall (f : W -> W) (k : unit -> M W (IoT_Error_t * option Network)) w1,
    (forall w, tls_le w (f w)) -> tls_le w w1 ->
    (forall w2, tls_le w w2 -> wp total (k tt) (connect_post w) w2) ->
    wp total (bind (modify f) k) (connect_post w) w1).
  { intros f k w1 Hf1 Hw1 Hk. apply wp_bind, wp_modify_le; [done|]. intros w2 Hw2. apply Hk. by etrans. }
  assert (H0 : tls_le w w) by reflexivity.
  do 8 (apply V; [void_op 0|eassumption|]; intros ? ?).
  do 7 (apply C; [int_op|eassumption|]; intros ? ? ?;
        apply wp_unless; [done|]; intros ? ?).
  apply V; [void_op 0|eassumption|]; intros ? ?.
  apply V; [destruct (ServerVerificationFlag p); void_op 0|eassumption|]; intros ? ?.
  do 2 (apply V; [void_op 0|eassumption|]; intros ? ?).
  apply C; [int_op|eassumption|]; intros ? ? ?;
        apply wp_unless; [done|]; intros ? ?.
  apply V; [void_op (timeout_ms p)|eassumption|]; intros ? ?.
  do 2 (apply C; [int_op|eassumption|]; intros ? ? ?;
        apply wp_unless; [done|]; intros ? ?).
  apply V; [void_op 0|eassumption|]; intros ? ?. apply wp_bind.
  eapply wp_mono; [by apply (tls_handshake_le fuel w)|]. intros shaken wa Ha. cbv beta in Ha.
  apply wp_unless; [done|]. intros wb Hb.
  apply C; [int_op|done|]. intros rc wc Hc. apply wp_bind.
  assert (Hend : forall (r : IoT_Error_t) n wd, tls_le w wd ->
    wp total (run! modify (mbedtls_ssl_conf_read_timeout IOT_SSL_READ_TIMEOUT) in ret (r, Some n))
      (connect_post w) wd).
  { intros r' n' wd Hd. apply V; [void_op IOT_SSL_READ_TIMEOUT|done|]. intros we He. apply wp_ret. by split; [eexists|]. }
  destruct (ServerVerificationFlag p).
  - apply wp_bind, wp_call_le; [int_op|]. intros rd wd Hd. apply wp_ret.
    apply Hend. by etrans.
  - apply wp_ret. by apply Hend.
  Unshelve. all: first [exact (@nil Z)|exact None|exact 0].
Qed.
End contracts.

(** ** A concrete TLS layer *)

(** The clock ticks at each reading; a read or write transfers at most [ts_chunk] bytes; a read on an
    empty stream times out. *)
Record tls_sim := mkTlsSim { ts_time : Z; ts_in : bytes; ts_out : bytes; ts_chunk : Z }.

#[export] Instance tls_sim_clock : Clock tls_sim := fun w =>
  (mkTimeval ((ts_time w + 1) / 1000000) ((ts_time w + 1) mod 1000000),
   mkTlsSim (ts_time w + 1) (ts_in w) (ts_out w) (ts_chunk w)).

Definition sim_write (mem : bytes) (len : Z) (w : tls_sim) : Z * tls_sim :=
  let k := Z.max 0 (Z.min len (ts_chunk w)) in
  (k, mkTlsSim (ts_time w) (ts_in w) (ts_out w ++ take (Z.to_nat k) mem) (ts_chunk w)).

Definition sim_read (len : Z) (w : tls_sim) : Z * bytes * tls_sim :=
  let d := take (Z.to_nat (Z.min len (ts_chunk w))) (ts_in w) in
  match d with
  | [] => (MBEDTLS_ERR_SSL_TIMEOUT, [], w)
  | _ => (zlen d, d, mkTlsSim (ts_time w) (drop (length d) (ts_in w)) (ts_out w) (ts_chunk w))
  end.

#[export] Instance tls_sim_ops : Mbedtls tls_sim := {|
  mbedtls_net_init w := w; mbedtls_ssl_init w := w; mbedtls_ssl_config_init w := w;
  mbedtls_ctr_drbg_init w := w; mbedtls_x509_crt_init _ w := w; mbedtls_pk_init w := w;
  mbedtls_entropy_init w := w; mbedtls_ctr_drbg_seed _ _ w := (0, w);
  mbedtls_x509_crt_parse_file _ _ w := (0, w); mbedtls_pk_parse_keyfile _ _ w := (0, w);
  mbedtls_net_connect _ _ w := (0, w); mbedtls_net_set_block w := (0, w);
  mbedtls_ssl_config_defaults w := (0, w); mbedtls_ssl_conf_verify w := w;
  mbedtls_ssl_conf_authmode _ w := w; mbedtls_ssl_conf_rng w := w; mbedtls_ssl_conf_ca_chain w := w;
  mbedtls_ssl_conf_own_cert w := (0, w); mbedtls_ssl_conf_read_timeout _ w := w;
  mbedtls_ssl_setup w := (0, w); mbedtls_ssl_set_hostname _ w := (0, w);
  mbedtls_ssl_set_bio w := w; mbedtls_ssl_handshake w := (0, w);
  mbedtls_ssl_get_record_expansion w := (0, w); mbedtls_ssl_get_verify_result w := (0, w);
  mbedtls_ssl_write := sim_write; mbedtls_ssl_read := sim_read;
  mbedtls_ssl_close_notify w := (0, w); mbedtls_net_free w := w; mbedtls_x509_crt_free _ w := w;
  mbedtls_pk_free w := w; mbedtls_ssl_free w := w; mbedtls_ssl_config_free w := w;
  mbedtls_ctr_drbg_free w := w; mbedtls_entropy_free w := w
|}.

#[export] Instance tls_sim_laws : MbedtlsLaws tls_sim.
Proof.
  refine {| tls_now := ts_time; tls_in := ts_in; tls_out := ts_out; tls_retries := fun _ => O |}.
  - intros w. cbn. pose proof (Z.mod_pos_bound (ts_time w + 1) 1000000 eq_refl).
    split; [done|]. split; [|by repeat split; lia]. unfold micros. cbn.
    pose proof (Z.div_mod (ts_time w + 1) 1000000). lia.
  - intros t f w H. assert (E : f w = w) by (cbn in H; decompose [or] H; subst; done). rewrite E. cbn. lia.
  - intros p n file pw host port f w H.
    assert (E : (f w).2 = w) by (cbn in H; decompose [or] H; subst; done). rewrite E. cbn. lia.
  - intros w. cbn. split; [lia|done].
  - intros w. cbn. split; [lia|done].
  - intros mem len w. cbn. split; [cbn; lia|]. intros H. split; [lia|done].
  - intros len w. cbn. unfold sim_read.
    destruct (take _ (ts_in w)) as [|b d] eqn:E; cbn [ts_time ts_in].
    { split; [lia|]. split; [|done]. unfold MBEDTLS_ERR_SSL_TIMEOUT. lia. }
    pose proof (f_equal length E) as El. rewrite length_take in El. cbn [length] in El.
    assert (Ed : take (length (b :: d)) (ts_in w) = b :: d).
    { cbn [length]. rewrite <- El, <- E. destruct (decide (Z.to_nat (len `min` ts_chunk w) <= length (ts_in w))%nat).
      - by rewrite Nat.min_l by lia.
      - rewrite Nat.min_r by lia. rewrite !take_ge by lia. done. }
    split; [|split; [|split]].
    + rewrite length_drop. split; [cbn; lia|]. cbn [length]. lia.
    + unfold zlen. cbn [length]. lia.
    + unfold zlen. lia.
    + rewrite <- Ed at 1. by rewrite take_drop.
Defined.

Definition sim_timer (t : Z) : Timer := mkTimer (mkTimeval 0 t).

(** ** Properties *)

(** C19: [iot_tls_read] always returns, without touching memory it should not, and never loses or
    reorders a byte: what it stored followed by what is left is the stream it was given.  SUCCESS
    means exactly [len] bytes and sets [*read_len] to [len]; NETWORK_SSL_NOTHING_TO_READ means none;
    NETWORK_SSL_READ_TIMEOUT_ERROR and NETWORK_SSL_READ_ERROR mean fewer than [len]; only SUCCESS
    writes [*read_len]. *)
Theorem tls_read_stream {W : Type} {clock : Clock W} {tls : Mbedtls W} {laws : MbedtlsLaws W}
    (fuel : nat) (len old : Z) (timer : Timer) (w : W) :
  len < 18446744073709551616 -> expiry_bound timer - tls_now w < Z.of_nat fuel -> (0 < fuel)%nat ->
  exists rc data read_len w', iot_tls_read fuel len timer old w = Done (rc, data, read_len, w') /\
    tls_in w = data ++ tls_in w' /\
    match rc with
    | SUCCESS => zlen data = len /\ read_len = len
    | NETWORK_SSL_NOTHING_TO_READ => data = [] /\ read_len = old
    | NETWORK_SSL_READ_TIMEOUT_ERROR => 0 < zlen data < len /\ read_len = old
    | NETWORK_SSL_READ_ERROR => 0 <= zlen data < len /\ read_len = old
    | _ => False
    end.
Proof.
  intros H1 H2 H3.
  destruct (wp_exact _ _ _ (iot_tls_read_contract fuel len timer old w H1 H2 H3))
    as ([[rc data] k] & w' & E & _ & Hin & Hrc).
  by exists rc, data, k, w'.
Qed.

Lemma tls_read_stream_witness :
  exists rc data read_len w',
    iot_tls_read 20 5 (sim_timer 999995) 9 (mkTlsSim 999990 [1; 2; 3; 4; 5; 6] [] 2)
      = Done (rc, data, read_len, w') /\
    [1; 2; 3; 4; 5; 6] = data ++ ts_in w' /\
    match rc with
    | SUCCESS => zlen data = 5 /\ read_len = 5
    | NETWORK_SSL_NOTHING_TO_READ => data = [] /\ read_len = 9
    | NETWORK_SSL_READ_TIMEOUT_ERROR => 0 < zlen data < 5 /\ read_len = 9
    | NETWORK_SSL_READ_ERROR => 0 <= zlen data < 5 /\ read_len = 9
    | _ => False
    end.
Proof.
  refine (tls_read_stream 20 5 9 (sim_timer 999995) (mkTlsSim 999990 [1; 2; 3; 4; 5; 6] [] 2) _ _ _);
    [lia|by vm_compute|lia].
Defined.

(** C20: [iot_tls_write] always returns; when it reports SUCCESS while the timer is still running, the
    whole message, in order, has been handed to TLS and [*written_len] is its length; when it reports
    NETWORK_SSL_WRITE_ERROR, exactly the first [*written_len] bytes have been. *)
Theorem tls_write_delivers {W : Type} {clock : Clock W} {tls : Mbedtls W} {laws : MbedtlsLaws W}
    (fuel : nat) (mem : bytes) (len : Z) (timer : Timer) (w : W) :
  0 <= len <= zlen mem -> len < 18446744073709551616 -> normal (end_time timer) ->
  expiry_bound timer - tls_now w < Z.of_nat fuel -> (0 < fuel)%nat ->
  wp total (iot_tls_write fuel mem len timer) (fun '(rc, written_len) w' =>
    (rc = SUCCESS \/ rc = NETWORK_SSL_WRITE_ERROR \/ rc = NETWORK_SSL_WRITE_TIMEOUT_ERROR) /\
    (rc = NETWORK_SSL_WRITE_ERROR ->
       0 <= written_len < len /\ tls_out w' = tls_out w ++ take (Z.to_nat written_len) mem) /\
    (rc = SUCCESS -> tls_now w' < expiry timer ->
       written_len = len /\ tls_out w' = tls_out w ++ take (Z.to_nat len) mem)) w.
Proof.
  intros H1 H2 H3 H4 H5. eapply wp_mono; [by apply iot_tls_write_contract|].
  intros [rc k] w' (_ & Hrc & He & Hs). split; [done|]. split; [intros E; by apply He|].
  intros E Hx. by apply Hs.
Qed.

Lemma tls_write_delivers_witness :
  wp total (iot_tls_write 20 [1; 2; 3; 4; 5] 4 (sim_timer 999995)) (fun '(rc, written_len) w' =>
    (rc = SUCCESS \/ rc = NETWORK_SSL_WRITE_ERROR \/ rc = NETWORK_SSL_WRITE_TIMEOUT_ERROR) /\
    (rc = NETWORK_SSL_WRITE_ERROR ->
       0 <= written_len < 4 /\ ts_out w' = [9] ++ take (Z.to_nat written_len) [1; 2; 3; 4; 5]) /\
    (rc = SUCCESS -> ts_time w' < 999995 ->
       written_len = 4 /\ ts_out w' = [9] ++ take (Z.to_nat 4) [1; 2; 3; 4; 5]))
    (mkTlsSim 999990 [] [9] 3).
Proof.
  refine (tls_write_delivers 20 [1; 2; 3; 4; 5] 4 (sim_timer 999995) (mkTlsSim 999990 [] [9] 3)
    _ _ _ _ _); [by vm_compute|lia|by vm_compute|by vm_compute|lia].
Defined.

(** A timer that expires between two fragments makes [iot_tls_write] add the previous fragment's
    count again: it reports SUCCESS and four bytes written when two have been, over a TLS layer that
    satisfies every law; and if the timer expires before the first fragment, the count it adds is an
    indeterminate value. *)
Theorem tls_write_stale_count :
  iot_tls_write 10 [1; 2; 3; 4] 4 (sim_timer 4) (mkTlsSim 0 [] [] 2) =
    Done (SUCCESS, 4, mkTlsSim 5 [] [1; 2] 2) /\
  iot_tls_write 10 [1; 2; 3; 4] 4 (sim_timer 2) (mkTlsSim 0 [] [] 2) = Undef.
Proof. by split; vm_compute. Qed.

(** C21: when [iot_tls_connect] reports SUCCESS with server verification on, the handshake has
    succeeded and the certificate verification result, read after it, is 0: an unverified server is
    never accepted; and the connection parameters given are those stored. *)
Theorem tls_connect_verifies {W : Type} {tls : Mbedtls W} (fuel : nat) (n : Network)
    (params : option TLSConnectParams) (w : W) n' w' :
  iot_tls_connect fuel (Some n) params w = Done (SUCCESS, n', w') ->
  let p := match params with Some p => p | None => tlsConnectParams n end in
  ServerVerificationFlag p = true ->
  n' = Some (mkNetwork p 0) /\
  exists w1 w2, mbedtls_ssl_handshake w1 = (0, w2) /\
    (mbedtls_ssl_get_verify_result (mbedtls_ssl_get_record_expansion w2).2).1 = 0.
Proof.
  intros H p Hv.
  assert (Hpost : wp partial (iot_tls_connect fuel (Some n) params) (fun '(rc, n') _ =>
    rc = SUCCESS -> n' = Some (mkNetwork p 0) /\
    exists w1 w2, mbedtls_ssl_handshake w1 = (0, w2) /\
      (mbedtls_ssl_get_verify_result (mbedtls_ssl_get_record_expansion w2).2).1 = 0) w).
  2: { by apply (wp_done _ _ _ _ _ _ Hpost H). }
  clear H. unfold iot_tls_connect.
  set (n1 := match params with Some p => _ | None => n end).
  assert (Hn1 : tlsConnectParams n1 = p) by (unfold n1, p; by destruct params as [[]|]).
  rewrite Hn1, Hv. cbv zeta.
  assert (U : forall ok e n k w, e <> SUCCESS ->
    (forall w, wp partial k (fun '(rc, n') _ => rc = SUCCESS -> n' = Some (mkNetwork p 0) /\
      exists w1 w2, mbedtls_ssl_handshake w1 = (0, w2) /\
        (mbedtls_ssl_get_verify_result (mbedtls_ssl_get_record_expansion w2).2).1 = 0) w) ->
    wp partial (unless (W := W) ok e n k) (fun '(rc, n') _ => rc = SUCCESS -> n' = Some (mkNetwork p 0) /\
      exists w1 w2, mbedtls_ssl_handshake w1 = (0, w2) /\
        (mbedtls_ssl_get_verify_result (mbedtls_ssl_get_record_expansion w2).2).1 = 0) w).
  { intros ok e n2 k w1 He Hk. unfold unless. destruct ok; [apply Hk|]. by apply wp_ret. }
  assert (C : forall {A} (f : W -> Z * W) (k : Z -> M W A) Q w1,
    (forall r w2, wp partial (k r) Q w2) -> wp partial (bind (call f) k) Q w1).
  { intros A f k Q w1 Hk. apply wp_bind. unfold wp at 1, call. destruct (f w1) as [r w2]. apply Hk. }
  do 8 apply wp_bind, wp_modify.
  do 6 (apply C; intros ? ?; apply U; [try case_goal; try case_goal; done|]; intros ?).
  apply C; intros ? ?; apply U; [done|]; intros ?.
  do 4 apply wp_bind, wp_modify. apply C; intros ? ?; apply U; [done|]; intros ?.
  apply wp_bind, wp_modify. do 2 (apply C; intros ? ?; apply U; [done|]; intros ?).
  apply wp_bind, wp_modify, wp_bind.
  eapply (wp_mono _ _ (fun shaken w2 => shaken = true -> exists w1, mbedtls_ssl_handshake w1 = (0, w2))).
  { unfold tls_handshake. apply (wp_loop partial (fun _ _ => True) (fun _ _ => O)); [done| |done].
    intros _ v1 _. apply wp_bind. unfold wp at 1, call.
    destruct (mbedtls_ssl_handshake v1) as [rh v2] eqn:E. cbn [owp]. destruct (rh =? 0) eqn:Er.
    - apply wp_ret. intros _. exists v1. rewrite E. f_equal. lia.
    - destruct (is_retry rh); by apply wp_ret. }
  intros shaken v2 Hs. unfold unless. destruct shaken; [|by apply wp_ret].
  destruct (Hs eq_refl) as [v1 Hw1]. apply wp_bind. unfold wp at 1, call.
  destruct (mbedtls_ssl_get_record_expansion v2) as [rx v3] eqn:E3. cbn [owp].
  apply wp_bind, wp_bind. unfold wp at 1, call.
  destruct (mbedtls_ssl_get_verify_result v3) as [fl v4] eqn:E4. cbn [owp].
  apply wp_ret, wp_bind, wp_modify, wp_ret. destruct (fl =? 0) eqn:Ef; [|done]. intros _.
  assert (fl = 0) as -> by lia. split; [done|]. exists v1, v2. rewrite E3. cbn [snd]. by rewrite E4.
Qed.

Lemma tls_connect_verifies_witness :
  let p := mkTLSConnectParams None None None None 8883 2000 true in
  Some (mkNetwork p 0) = Some (mkNetwork p 0) /\
  exists w1 w2 : tls_sim, mbedtls_ssl_handshake w1 = (0, w2) /\
    (mbedtls_ssl_get_verify_result (mbedtls_ssl_get_record_expansion w2).2).1 = 0.
Proof.
  apply (tls_connect_verifies 5
    (mkNetwork (mkTLSConnectParams None None None None 8883 2000 true) 7) None (mkTlsSim 0 [] [] 2)
    (Some (mkNetwork (mkTLSConnectParams None None None None 8883 2000 true) 0)) (mkTlsSim 0 [] [] 2));
    reflexivity.
Defined.
