(* ===== verification/Stream.v ===== *)
(** * Packets on the wire

    What sending and receiving mean for the bytes on the connection.  [SendLaws] describes a network whose
    writes, as long as the timer runs, say how many of the bytes they were given they have sent: over it
    [send_packet] puts exactly the packet on the wire.  [StreamLaws] describes a network
    that has the peer's bytes in a stream: a read for which enough bytes have arrived takes exactly
    them.  Over it [read_packet] takes exactly one packet off it and leaves it in
    the receive buffer - with two exceptions, which are theorems as well: a packet that just fits the
    buffer's size overruns it, and a length of any number of digits is accepted. *)

From S2P Require Export Transport Sim.

Section stream.
Context (W : Type) {clock : Clock W} {net : NetworkOps W}.

Class StreamLaws := {
  rx : W -> bytes;
  tx : W -> bytes;
  stream_clock : forall w, rx (gettimeofday w).2 = rx w /\ tx (gettimeofday w).2 = tx w;
  stream_read : forall n len t old w, 0 < len <= zlen (rx w) ->
    exists w', net_read n len t old w = Done (SUCCESS, take (Z.to_nat len) (rx w), len, w') /\
      rx w' = drop (Z.to_nat len) (rx w) /\ tx w' = tx w;
  stream_write : forall n mem len t old w,
    owp partial (net_write n mem len t old w) (fun '(rc, k, w') =>
      rc = SUCCESS -> 0 <= k <= len /\
        (k <= zlen mem -> tx w' = tx w ++ take (Z.to_nat k) mem))
}.
End stream.
Arguments StreamLaws W {clock net}.
Arguments rx {W clock net StreamLaws} w.
Arguments tx {W clock net StreamLaws} w.

#[export] Instance sim_stream : StreamLaws sim.
Proof.
  refine {| rx := sim_in; tx := sim_out |}.
  - by intros w.
  - intros n len t old w H. cbn. destruct (Z.leb_spec len (zlen (sim_in w))); [|lia].
    eexists. by split.
  - intros n mem len t old w. cbn. destruct (load_list mem 0 len) as [d| |] eqn:E; [|done|done].
    cbn. intros _. apply load_list_Done in E as E'. split; [lia|]. intros _.
    unfold load_list in E. destruct (_ && _); [|done]. injection E as <-. cbn. by rewrite drop_0.
Defined.

(** Sending.  A network that [splits] may take less than it is given; one that does not takes all of it. *)
Section sends.
Context (W : Type) {clock : Clock W} {net : NetworkOps W}.

Class SendLaws := {
  time_of : W -> Z;
  sent_by : W -> bytes;
  splits : Prop;
  send_clock : forall w, time_of w <= time_of (gettimeofday w).2 /\ sent_by (gettimeofday w).2 = sent_by w;
  send_write : forall n mem len t old w, 0 <= len < 18446744073709551616 -> normal (end_time t) ->
    owp partial (net_write n mem len t old w) (fun '(rc, k, w') =>
      time_of w <= time_of w' /\
      (rc = SUCCESS -> time_of w' < expiry t -> len <= zlen mem \/ splits ->
        0 <= k <= len /\ (k <= zlen mem -> sent_by w' = sent_by w ++ take (Z.to_nat k) mem) /\ (k = len \/ splits)))
}.
End sends.
Arguments SendLaws W {clock net}.
Arguments time_of {W clock net SendLaws} w.
Arguments sent_by {W clock net SendLaws} w.
Arguments splits {W clock net SendLaws}.

#[export] Instance sim_sends : SendLaws sim.
Proof.
  refine {| time_of := sim_time; sent_by := sim_out; splits := True |}.
  - intros w. split; [cbn; lia|done].
  - intros n mem len t old w Hl _. cbn. destruct (load_list mem 0 len) as [d| |] eqn:E; [|done|done].
    cbn. split; [lia|]. intros _ _ _. apply load_list_Done in E as E'. split; [lia|]. split; [|by left]. intros _.
    unfold load_list in E. destruct (_ && _); [|done]. injection E as <-. cbn. by rewrite drop_0.
Defined.

Section lemmas.
Context {W : Type} {clock : Clock W} {net : NetworkOps W} {mutexes : MutexOps W} {app : AppOps W}.
Context {stream : StreamLaws W} (fuel : nat).

Lemma expired_stream t (w : W) :
  exists b w', has_timer_expired t w = Done (b, w') /\ rx w' = rx w /\ tx w' = tx w.
Proof.
  pose proof (stream_clock W w) as [H1 H2]. unfold has_timer_expired, bind, now_, ret.
  destruct (gettimeofday w) as [tv w']. cbn [obind snd] in *. eauto.
Qed.

Lemma countdown_stream t n (w : W) :
  exists t' w', countdown_ms t n w = Done (t', w') /\ rx w' = rx w /\ tx w' = tx w.
Proof.
  pose proof (stream_clock W w) as [H1 H2]. unfold countdown_ms, bind, now_, ret.
  destruct (gettimeofday w) as [tv w']. cbn [obind snd] in *. eauto.
Qed.

(** One byte off the stream. *)
Lemma read_byte (n : Network) t old (w : W) b rest :
  rx w = b :: rest ->
  exists w', net_read n 1 t old w = Done (SUCCESS, [b], 1, w') /\ rx w' = rest /\ tx w' = tx w.
Proof.
  intros H. destruct (stream_read W n 1 t old w) as (w' & E & H1 & H2).
  { rewrite H, zlen_cons. pose proof (zlen_nonneg rest). lia. }
  rewrite H in E, H1. exists w'. split; [exact E|]. split; [exact H1|done].
Qed.

(** *** The digits of the remaining length *)

(** The value of a sequence of digits, least significant first. *)
Fixpoint digits_value (ds : bytes) : Z :=
  match ds with
  | [] => 0
  | d :: ds => d mod 128 + 128 * digits_value ds
  end.

Lemma remaining_length_digits_value k v :
  0 <= v < 128 ^ Z.of_nat k -> (0 < k)%nat ->
  exists ds b, remaining_length_digits k v = ds ++ [b] /\ Forall (fun d => 128 <= d < 256) ds /\
    0 <= b < 128 /\ digits_value (ds ++ [b]) = v.
Proof.
  revert v. induction k as [|k IH]; intros v Hv Hk; [lia|]. cbn [remaining_length_digits].
  pose proof (Z.mod_pos_bound v 128). pose proof (Z.div_mod v 128).
  destruct (v <? 128) eqn:E.
  - exists [], v. split; [done|]. split; [done|]. split; [lia|]. cbn. rewrite Z.mod_small; lia.
  - assert (v / 128 < 128 ^ Z.of_nat k).
    { apply Z.div_lt_upper_bound; [lia|]. rewrite Nat2Z.inj_succ, Z.pow_succ_r in Hv by lia. lia. }
    assert (0 < v / 128) by (pose proof (Z.div_le_mono 128 v 128); lia).
    assert (0 < k)%nat by (destruct k; [change (128 ^ Z.of_nat 0) with 1 in *|]; lia).
    destruct (IH (v / 128)) as (ds & b & -> & Hds & Hb & Hval); [lia|done|].
    exists ((v mod 128 + 128) :: ds), b. split; [done|]. split; [constructor; [lia|done]|].
    split; [done|]. cbn [Datatypes.app digits_value]. rewrite Hval.
    replace (v mod 128 + 128) with (v mod 128 + 1 * 128) by lia.
    rewrite Z.mod_add, Z.mod_mod by lia. lia.
Qed.

Lemma u64_step r a m : u64 (u64 r + a * u64 m) = u64 (r + a * m).
Proof.
  unfold u64. by rewrite <- (Zplus_mod_idemp_r (a * _)), Zmult_mod_idemp_r, Zplus_mod_idemp_l,
    Zplus_mod_idemp_r.
Qed.

(** However many digits the peer sends, the decoder takes them all: the counter that should limit
    them to four is overwritten by every read. *)
Lemma decode_stream t ds b : forall rest (c : AWS_IoT_Client) (w : W),
  Forall (fun d => 128 <= d < 256) ds -> 0 <= b < 128 -> rx w = ds ++ b :: rest ->
  (length ds < fuel)%nat ->
  exists w', _aws_iot_mqtt_internal_decode_packet_remaining_len fuel t (c, w) =
    Done ((SUCCESS, u64 (digits_value (ds ++ [b]))), (c, w')) /\ rx w' = rest /\ tx w' = tx w.
Proof.
  intros rest c w Hds Hb Hrx Hf. unfold _aws_iot_mqtt_internal_decode_packet_remaining_len.
  match goal with |- context [loop fuel ?b] => set (body := b) end.
  assert (H : forall ds f (w : W) m r len (enc : option Z), Forall (fun d => 128 <= d < 256) ds -> rx w = ds ++ b :: rest ->
    (length ds < f)%nat -> 0 <= len <= 1 ->
    exists w', loop f body (u64 m, len, u64 r, enc) (c, w) =
      Done ((SUCCESS, u64 (r + m * digits_value (ds ++ [b]))), (c, w')) /\ rx w' = rest /\ tx w' = tx w).
  { clear Hds Hrx Hf ds w. intros ds. induction ds as [|d ds IH]; intros f w m r len enc Hds Hrx Hf Hlen;
      (destruct f as [|f]; [cbn [length] in Hf; lia|]); cbn [loop Datatypes.app] in *; unfold bind at 1;
      unfold body at 1; rewrite (u64_id (len + 1)) by lia; unfold MAX_NO_OF_REMAINING_LENGTH_BYTES;
      (destruct (4 <? len + 1) eqn:E; [lia|]); unfold bind at 1, client, gets; cbn [obind];
      unfold bind at 1, world; cbn [fst].
    - destruct (read_byte (networkStack c) t (len + 1) w b rest Hrx) as (w' & -> & H1 & H2).
      cbn [obind]. unfold bind at 1, lift at 1. cbn [obind].
      destruct (decide (SUCCESS <> SUCCESS)) as [|_]; [done|]. unfold bind at 1, lift at 1. cbn [deref obind].
      rewrite land_128_zero by lia. destruct (b <? 128) eqn:Eb; [|lia]. cbn [negb]. unfold ret. cbn [obind].
      exists w'. split; [|done]. do 3 f_equal. rewrite land_127. cbn [digits_value].
      rewrite u64_step. f_equal. lia.
    - inversion Hds as [|?? Hd Hds']; subst.
      destruct (read_byte (networkStack c) t (len + 1) w d (ds ++ b :: rest) Hrx) as (w' & -> & H1 & H2).
      cbn [obind]. unfold bind at 1, lift at 1. cbn [obind].
      destruct (decide (SUCCESS <> SUCCESS)) as [|_]; [done|]. unfold bind at 1, lift at 1. cbn [deref obind].
      rewrite land_128_zero by lia. destruct (d <? 128) eqn:Ed; [lia|]. cbn [negb]. unfold ret. cbn [obind].
      rewrite land_127. replace (u64 (u64 r + d mod 128 * u64 m)) with (u64 (r + d mod 128 * m)).
      2: { symmetry. apply u64_step. }
      replace (u64 (u64 m * 128)) with (u64 (m * 128)) by (unfold u64; by rewrite Zmult_mod_idemp_l).
      destruct (IH f w' (m * 128) (r + d mod 128 * m) 1 (Some d)) as (w2 & -> & H3 & H4);
        [done|done|cbn [length] in Hf; lia|lia|].
      exists w2. split; [|split; [done|congruence]]. do 4 f_equal. cbn [digits_value]. lia. }
  destruct (H ds fuel w 1 0 0 None) as (w' & E & H1 & H2); [done|done|done|lia|].
  exists w'. split; [|done]. rewrite Z.mul_1_l in E. exact E.
Qed.

(** *** Reading a packet *)

(** A read into the receive buffer behind what is already there. *)
Lemma network_read_stream len t old (c : AWS_IoT_Client) (w : W) m0 d data rest :
  0 < len -> rx w = data ++ rest -> zlen data = len -> readBuf (clientData c) = written m0 d ->
  zlen d + len <= zlen m0 ->
  exists w', network_read (zlen d) len t old (c, w) =
      Done ((SUCCESS, len), (set_readBuf (written m0 (d ++ data)) c, w')) /\ rx w' = rest /\ tx w' = tx w.
Proof.
  intros Hl Hrx Hd Hbuf Hfit. unfold network_read, bind, client, gets, world. cbn [obind fst].
  destruct (stream_read W (networkStack c) len t old w) as (w' & -> & H1 & H2).
  { rewrite Hrx, zlen_app. pose proof (zlen_nonneg rest). lia. }
  cbn [obind fst]. rewrite Hrx, <- Hd, zlen_to_nat, take_app_length. unfold lift. rewrite Hbuf.
  rewrite store_written by lia. cbn [obind]. unfold assign, modify, ret. cbn [obind].
  exists w'. split; [done|]. split; [|done].
  by rewrite H1, Hrx, <- Hd, zlen_to_nat, drop_app_length.
Qed.

Lemma set_readBuf_twice b b' c : set_readBuf b (set_readBuf b' c) = set_readBuf b c.
Proof. done. Qed.

(** The part of [read_packet] both theorems share: the header byte and the remaining length. *)
Lemma read_packet_start t pt hdr body rest (c : AWS_IoT_Client) (w : W) :
  rx w = mqtt_packet hdr body ++ rest -> zlen body <= MAX_REMAINING_LENGTH ->
  zlen body < readBufSize (clientData c) -> 5 <= zlen (readBuf (clientData c)) -> (4 < fuel)%nat ->
  exists t' w', rx w' = body ++ rest /\ tx w' = tx w /\
    let m0 := readBuf (clientData c) in
    let d := hdr :: remaining_length (zlen body) in
    _aws_iot_mqtt_internal_read_packet fuel t pt (c, w) =
    (do! (failed, rc) :=
       if 0 <? zlen body then
         do! (rc, read_len) := network_read (zlen d) (zlen body) t' 1 in
         ret (bool_decide (rc <> SUCCESS) || negb (read_len =? zlen body), rc)
       else ret (false, SUCCESS) in
     if (failed : bool) then ret (FAILURE, pt)
     else
       do! buf := client (fun c => readBuf (clientData c)) in
       do! header := lift (load buf 0) in
       ret (rc, MQTTHeader.type header)) (set_readBuf (written m0 d) c, w').
Proof.
  intros Hrx Hmax Hsize Hbuf Hf. unfold MAX_REMAINING_LENGTH in Hmax. pose proof (zlen_nonneg body) as Hb0.
  unfold _aws_iot_mqtt_internal_read_packet.
  destruct (countdown_stream (init_timer (mkTimer (mkTimeval 0 0))) (packetTimeoutMs (clientData c)) w)
    as (t' & w1 & E1 & Hrx1 & Htx1).
  unfold bind at 1, client, gets. cbn [obind fst]. unfold bind at 1, world at 1. rewrite E1. cbn [obind].
  unfold mqtt_packet in Hrx. cbn [Datatypes.app] in Hrx.
  destruct (network_read_stream 1 t 0 c w1 (readBuf (clientData c)) [] [hdr]
    ((remaining_length (zlen body) ++ body) ++ rest)) as (w2 & E2 & Hrx2 & Htx2);
    [done|by rewrite Hrx1, Hrx|done|done|rewrite zlen_nil; lia|].
  change (zlen []) with 0 in E2. unfold bind at 1. rewrite E2. cbn [obind Datatypes.app].
  destruct (decide (NETWORK_SSL_NOTHING_TO_READ = SUCCESS)) as [|_]; [done|].
  destruct (decide (SUCCESS <> SUCCESS)) as [|_]; [done|].
  set (c2 := set_readBuf _ c).
  destruct (remaining_length_digits_value 5 (zlen body)) as (ds & b & Hds & Hd & Hb & Hval);
    [change (128 ^ Z.of_nat 5) with 34359738368; lia|lia|].
  pose proof (remaining_length_size (zlen body) ltac:(lia)) as Hsz.
  assert (Hszle : 1 <= zlen (remaining_length (zlen body)) <= 4).
  { rewrite Hsz. destruct (zlen body <? 128), (zlen body <? 16384), (zlen body <? 2097152); try lia.
    destruct (zlen body <? 268435456) eqn:E; lia. }
  fold (remaining_length (zlen body)) in Hds.
  destruct (decode_stream t' ds b (body ++ rest) c2 w2 Hd Hb) as (w3 & E3 & Hrx3 & Htx3).
  { rewrite Hrx2, Hds, <- !app_assoc. done. }
  { rewrite Hds in Hszle. autorewrite with zlen in Hszle. unfold zlen in Hszle. lia. }
  unfold bind at 1. rewrite E3. cbn [obind]. rewrite Hval, u64_id by lia.
  destruct (decide (SUCCESS <> SUCCESS)) as [|_]; [done|].
  unfold bind at 1. cbn [obind fst]. change (readBufSize (clientData c2)) with (readBufSize (clientData c)).
  destruct (Z.leb_spec (readBufSize (clientData c)) (zlen body)) as [|_]; [lia|].
  unfold bind at 1. cbn [obind fst]. unfold bind at 1, lift at 1. rewrite u32_id by lia.
  change (readBuf (clientData c2)) with (written (readBuf (clientData c)) [hdr]).
  change 1 with (zlen [hdr]) at 1. rewrite written_len by (try (change (zlen [hdr]) with 1); lia).
  cbn [obind Datatypes.app]. unfold bind at 1, assign, modify. cbn [obind].
  exists t', w3. split; [exact Hrx3|]. split; [congruence|]. cbv zeta. rewrite zlen_cons.
  unfold c2. rewrite set_readBuf_twice. done.
Qed.

Lemma read_packet_stream t pt hdr body rest (c : AWS_IoT_Client) (w : W) :
  rx w = mqtt_packet hdr body ++ rest -> zlen body <= MAX_REMAINING_LENGTH ->
  zlen body < readBufSize (clientData c) -> 5 <= zlen (readBuf (clientData c)) ->
  zlen (mqtt_packet hdr body) <= zlen (readBuf (clientData c)) -> (4 < fuel)%nat ->
  exists w', rx w' = rest /\ tx w' = tx w /\
    _aws_iot_mqtt_internal_read_packet fuel t pt (c, w) =
    Done ((SUCCESS, MQTTHeader.type hdr),
          (set_readBuf (written (readBuf (clientData c)) (mqtt_packet hdr body)) c, w')).
Proof.
  intros Hrx Hmax Hsize Hbuf Hfit Hf.
  destruct (read_packet_start t pt hdr body rest c w) as (t' & w1 & Hrx1 & Htx1 & E); [done..|].
  cbv zeta in E. rewrite E. clear E. unfold mqtt_packet in *. set (m0 := readBuf (clientData c)) in *.
  set (d := hdr :: remaining_length (zlen body)) in *.
  assert (Hload : forall e w', (do! buf := client (fun c => readBuf (clientData c)) in
      do! header := lift (load buf 0) in ret (SUCCESS, MQTTHeader.type header))
      (set_readBuf (written m0 (d ++ e)) c, w') =
    Done ((SUCCESS, MQTTHeader.type hdr), (set_readBuf (written m0 (d ++ e)) c, w') : St W)).
  { intros e w'. done. }
  destruct (Z.ltb_spec 0 (zlen body)) as [Hb|Hb].
  - destruct (network_read_stream (zlen body) t' 1 (set_readBuf (written m0 d) c) w1 m0 d body rest)
      as (w2 & E2 & Hrx2 & Htx2); [done|done|done|done| |].
    { unfold d in *. autorewrite with zlen in *. lia. }
    unfold bind at 1 2. rewrite E2. cbn [obind]. unfold ret at 1. cbn [obind].
    rewrite bool_decide_eq_false_2 by auto. rewrite Z.eqb_refl. cbn [negb orb].
    rewrite set_readBuf_twice, Hload. exists w2. split; [done|]. split; [congruence|done].
  - assert (body = []) as -> by (destruct body; [done|zlia]). unfold bind at 1, ret at 1. cbn [obind].
    rewrite <- (app_nil_r d). rewrite Hload. exists w1. split; [done|]. split; [done|].
    unfold d. by rewrite !app_nil_r.
Qed.

(** *** The overrun *)

(** A packet whose remaining length is below [readBufSize] but which, with its header, does not fit:
    the body is stored past the end of the receive buffer. *)
Lemma read_packet_overrun t pt hdr body rest (c : AWS_IoT_Client) (w : W) :
  rx w = mqtt_packet hdr body ++ rest -> zlen body <= MAX_REMAINING_LENGTH ->
  zlen body < readBufSize (clientData c) -> 5 <= zlen (readBuf (clientData c)) -> 0 < zlen body ->
  zlen (readBuf (clientData c)) < zlen (mqtt_packet hdr body) -> (4 < fuel)%nat ->
  _aws_iot_mqtt_internal_read_packet fuel t pt (c, w) = Undef.
Proof.
  intros Hrx Hmax Hsize Hbuf Hb Hfit Hf.
  destruct (read_packet_start t pt hdr body rest c w) as (t' & w1 & Hrx1 & Htx1 & E); [done..|].
  cbv zeta in E. rewrite E. clear E. destruct (Z.ltb_spec 0 (zlen body)); [|lia].
  unfold mqtt_packet in *. set (m0 := readBuf (clientData c)) in *.
  set (d := hdr :: remaining_length (zlen body)) in *.
  unfold bind at 1 2, network_read. unfold bind at 1, client, gets. cbn [obind fst].
  unfold bind at 1, world. destruct (stream_read W (networkStack (set_readBuf (written m0 d) c)) (zlen body)
    t' 1 w1) as (w2 & -> & _ & _). { rewrite Hrx1, zlen_app. pose proof (zlen_nonneg rest). lia. }
  cbn [obind]. unfold bind at 1. cbn [obind fst]. unfold bind at 1, lift at 1.
  change (readBuf (clientData (set_readBuf (written m0 d) c))) with (written m0 d).
  rewrite Hrx1, zlen_to_nat, take_app_length, store_out; [done|].
  assert (zlen d <= 5).
  { pose proof (remaining_length_digits_length 5 (zlen body) ltac:(lia)). unfold MAX_REMAINING_LENGTH in *.
    pose proof (remaining_length_size (zlen body) ltac:(lia)) as Hsz. unfold d. rewrite zlen_cons, Hsz.
    destruct (zlen body <? 128), (zlen body <? 16384), (zlen body <? 2097152); try lia.
    destruct (zlen body <? 268435456) eqn:E; lia. }
  rewrite zlen_written by lia. unfold d in *. autorewrite with zlen in *. lia.
Qed.
End lemmas.

Section sending.
Context {W : Type} {clock : Clock W} {net : NetworkOps W} {mutexes : MutexOps W}.
Context {sends : SendLaws W} (fuel : nat).

Lemma expired_sends t (w : W) :
  exists b w', has_timer_expired t w = Done (b, w') /\ time_of w <= time_of w' /\ sent_by w' = sent_by w.
Proof.
  pose proof (send_clock W w) as [H1 H2]. unfold has_timer_expired, bind, now_, ret.
  destruct (gettimeofday w) as [tv w']. cbn [obind snd] in *. eauto.
Qed.

Lemma send_packet_sends len t (c : AWS_IoT_Client) (w : W) :
  thread_support = false -> 0 <= len <= zlen (writeBuf (clientData c)) -> len < 4611686018427387904 -> normal (end_time t) ->
  wp partial (aws_iot_mqtt_internal_send_packet fuel pCLIENT len (Some t)) (fun rc s' =>
    s'.1 = c /\
    (rc = SUCCESS -> len < writeBufSize (clientData c) /\
       (time_of s'.2 < expiry t -> sent_by s'.2 = sent_by w ++ take (Z.to_nat len) (writeBuf (clientData c))))) (c, w).
Proof.
  intros Ht Hlen Hmax Hnt. unfold aws_iot_mqtt_internal_send_packet. apply wp_bind, wp_client.
  destruct (Z.leb_spec (writeBufSize (clientData (c, w).1)) len) as [|Hsize]; [by apply wp_ret|].
  rewrite Ht. apply wp_bind, wp_ret, wp_check; [done|]. intros _. apply wp_bind.
  set (on_wire sent (w' : W) := expiry t <= time_of w' \/
    0 <= sent /\ (sent <= len -> sent_by w' = sent_by w ++ take (Z.to_nat sent) (writeBuf (clientData c)) /\ (sent = 0 \/ sent = len \/ splits))).
  apply (wp_loop partial (fun '(sent, _) s' => s'.1 = c /\ on_wire sent s'.2) (fun _ _ => O)); [| |done].
  { split; [done|]. right. split; [done|]. intros _. cbn. rewrite app_nil_r. by split; [|left]. }
  intros [sent sentLen] [c' w1] (Hc & Hs). cbn [fst snd] in *. subst c'.
  assert (Hend : forall w', on_wire sent w' \/ sent < len ->
    wp partial (do! rc := ret SUCCESS in check rc (if sent =? len then ret SUCCESS else ret FAILURE))
      (fun rc s' => s'.1 = c /\ (rc = SUCCESS -> len < writeBufSize (clientData c) /\
         (time_of s'.2 < expiry t -> sent_by s'.2 = sent_by w ++ take (Z.to_nat len) (writeBuf (clientData c))))) (c, w')).
  { intros w' Hw'. apply wp_bind, wp_ret, wp_check; [done|]. intros _.
    destruct (Z.eqb_spec sent len) as [->|]; apply wp_ret; split; try done. intros _. split; [done|]. intros Hx. cbn [snd] in *.
    destruct Hw' as [[Hw'|[_ Hw']]|Hw']; [lia|by apply Hw'|lia]. }
  destruct (Z.ltb_spec sent len) as [Hlt|]; [|apply wp_ret, Hend; by left].
  apply wp_bind, wp_world. destruct (expired_sends t w1) as (b & w2 & E & Hw2 & Htx2).
  unfold wp at 1. rewrite E. cbn [owp].
  destruct b; [apply wp_ret, Hend; by right|]. apply wp_bind. unfold network_write.
  apply wp_bind, wp_client, wp_bind, wp_client, wp_world. cbn [fst].
  eapply owp_mono; [apply (send_write W (networkStack c) (drop (Z.to_nat sent) (writeBuf (clientData c))) len t sentLen w2); [lia|done]|].
  intros [[rc k] w3] [Hw3 Hw].
  destruct (decide (rc <> SUCCESS)) as [Hrc|Hrc]; apply wp_ret; [apply Hend; by right|].
  assert (rc = SUCCESS) as -> by (destruct (decide (rc = SUCCESS)); [done|exfalso; auto]).
  split; [|done]. split; [done|]. cbn [snd]. destruct (decide (expiry t <= time_of w3)) as [|Hx]; [by left|right].
  destruct Hs as [Hs|[Hs0 Hs]]; [lia|]. destruct (Hs ltac:(lia)) as [Htx Hsp].
  assert (Hok : len <= zlen (drop (Z.to_nat sent) (writeBuf (clientData c))) \/ splits).
  { destruct Hsp as [->|[?|?]]; [left; change (Z.to_nat 0) with O; rewrite drop_0; lia|lia|by right]. }
  destruct (Hw eq_refl ltac:(lia) Hok) as (Hk & Hw4 & Hkl). rewrite u64_id by lia. split; [lia|]. intros Hle.
  rewrite Hw4 by (rewrite zlen_drop; lia). rewrite Htx2, Htx, <- app_assoc. split.
  - f_equal. rewrite Z2Nat.inj_add by lia. by rewrite take_take_drop.
  - right. destruct Hkl as [->|?]; [left; lia|by right].
Qed.
End sending.

(** ** Properties *)

(** C8: over a network that satisfies [SendLaws] (a write that reports SUCCESS while the timer still runs has
    sent the bytes it counts; the shipped layer does, [TlsClient.tls_sends]), in a build without threads: when
    [aws_iot_mqtt_internal_send_packet] reports SUCCESS, the packet was shorter than the buffer's size and, if the
    time-out has not passed when it returns, what went out on the connection is exactly the first [length]
    bytes of the transmit buffer.  It never changes the client.  The length is within the buffer and below 2^62,
    the timer normalised.  After the time-out SUCCESS tells
    nothing ([TlsClient.send_packet_stale_count]). *)
Theorem send_packet_exact {W : Type} {clock : Clock W} {net : NetworkOps W} {mutexes : MutexOps W}
    {sends : SendLaws W} (fuel : nat) (len : Z) (t : Timer) (c : AWS_IoT_Client) (w : W) rc c' w' :
  thread_support = false -> 0 <= len <= zlen (writeBuf (clientData c)) -> len < 4611686018427387904 -> normal (end_time t) ->
  aws_iot_mqtt_internal_send_packet fuel pCLIENT len (Some t) (c, w) = Done (rc, (c', w')) ->
  c' = c /\
  (rc = SUCCESS -> len < writeBufSize (clientData c) /\
     (time_of w' < expiry t -> sent_by w' = sent_by w ++ take (Z.to_nat len) (writeBuf (clientData c)))).
Proof. intros Ht Hl Hm Hn H. exact (wp_done _ _ _ _ _ _ (send_packet_sends fuel len t c w Ht Hl Hm Hn) H). Qed.

Definition stream_client : AWS_IoT_Client :=
  set_writeBuf ([192; 0] ++ replicate 62 0) (sim_client CLIENT_STATE_CONNECTED_IDLE []).

Definition later : Timer := mkTimer (mkTimeval 9 0).

Lemma send_packet_exact_witness :
  stream_client = stream_client /\
  (SUCCESS = SUCCESS -> 2 < writeBufSize (clientData stream_client) /\
     (sim_time (mkSim 1 [] [192; 0] []) < expiry later ->
      sim_out (mkSim 1 [] [192; 0] []) = sim_out (sim_world []) ++ take (Z.to_nat 2) (writeBuf (clientData stream_client)))).
Proof.
  refine (send_packet_exact 5 2 later stream_client (sim_world []) SUCCESS stream_client
    (mkSim 1 [] [192; 0] []) _ _ _ _ _); [reflexivity|vm_compute; split; congruence|lia|done|vm_compute; reflexivity].
Defined.

(** A network that sends at most [k] bytes at a time. *)
Definition chunked (k : Z) : NetworkOps sim := {|
  iot_tls_init n ca crt key host prt tmo verify w := (SUCCESS, n, w);
  net_connect n p w := Done (SUCCESS, n, w);
  net_read n len t old w := Done (NETWORK_SSL_NOTHING_TO_READ, [], old, w);
  net_write n mem len t old w :=
    let! d := load_list mem 0 (Z.min k len) in
    Done (SUCCESS, Z.min k len, mkSim (sim_time w) (sim_in w) (sim_out w ++ d) (sim_log w));
  net_disconnect n w := Done (SUCCESS, w);
  net_isConnected := None;
  net_destroy n w := Done (SUCCESS, w)
|}.

(** After a partial write [aws_iot_mqtt_internal_send_packet] asks for [length] more bytes instead
    of what is left: over a connection that takes three bytes at a time, a four-byte packet goes out
    whole but with two stray bytes of the buffer behind it, and FAILURE is reported. *)
Theorem send_packet_partial_write :
  let c := set_writeBuf ([64; 2; 0; 1; 7; 8] ++ replicate 58 0) (sim_client CLIENT_STATE_CONNECTED_IDLE []) in
  @aws_iot_mqtt_internal_send_packet sim sim_clock (chunked 3) sim_mutexes 9 pCLIENT 4 (Some later)
    (c, sim_world []) = Done (FAILURE, (c, mkSim 2 [] [64; 2; 0; 1; 7; 8] [])).
Proof. by vm_compute. Qed.

(** C7: [_aws_iot_mqtt_internal_read_packet] takes exactly one packet off the stream: a packet of any
    length up to the protocol's maximum that fits the receive buffer is stored there from the start,
    byte for byte, its type is reported, nothing of what follows it is consumed, and the rest of the
    buffer and of the client is unchanged. *)
Theorem read_packet_exact {W : Type} {clock : Clock W} {net : NetworkOps W}
    {stream : StreamLaws W} (fuel : nat) (t : Timer) (pt hdr : Z) (body rest : bytes)
    (c : AWS_IoT_Client) (w : W) :
  rx w = mqtt_packet hdr body ++ rest -> zlen body <= MAX_REMAINING_LENGTH ->
  zlen body < readBufSize (clientData c) -> 5 <= zlen (readBuf (clientData c)) ->
  zlen (mqtt_packet hdr body) <= zlen (readBuf (clientData c)) -> (4 < fuel)%nat ->
  exists w', rx w' = rest /\ tx w' = tx w /\
    _aws_iot_mqtt_internal_read_packet fuel t pt (c, w) =
    Done ((SUCCESS, MQTTHeader.type hdr),
          (set_readBuf (written (readBuf (clientData c)) (mqtt_packet hdr body)) c, w')).
Proof. intros. by apply read_packet_stream. Qed.

Lemma read_packet_exact_witness :
  let c := sim_client CLIENT_STATE_CONNECTED_IDLE [] in
  exists w', rx w' = [208] /\ tx w' = [] /\
    _aws_iot_mqtt_internal_read_packet 5 later 0 (c, sim_world [32; 2; 0; 5; 208]) =
    Done ((SUCCESS, MQTTHeader.type 32), (set_readBuf (written (readBuf (clientData c)) [32; 2; 0; 5]) c, w')).
Proof.
  refine (read_packet_exact 5 later 0 32 [0; 5] [208] (sim_client CLIENT_STATE_CONNECTED_IDLE [])
    (sim_world [32; 2; 0; 5; 208]) _ _ _ _ _ _);
    [reflexivity|vm_compute; congruence|vm_compute; congruence|vm_compute; congruence|
     vm_compute; congruence|lia].
Defined.

(** C40: the size check of [_aws_iot_mqtt_internal_read_packet] compares the remaining length alone with
    the buffer size: a packet that passes it but does not fit together with its header is written past
    the end of the receive buffer (undefined behaviour), at the peer's choice. *)
Theorem read_packet_overflow {W : Type} {clock : Clock W} {net : NetworkOps W}
    {stream : StreamLaws W} (fuel : nat) (t : Timer) (pt hdr : Z) (body rest : bytes)
    (c : AWS_IoT_Client) (w : W) :
  readBufSize (clientData c) = zlen (readBuf (clientData c)) -> 5 <= zlen (readBuf (clientData c)) ->
  rx w = mqtt_packet hdr body ++ rest -> 0 < zlen body <= MAX_REMAINING_LENGTH ->
  zlen body < readBufSize (clientData c) < zlen (mqtt_packet hdr body) -> (4 < fuel)%nat ->
  _aws_iot_mqtt_internal_read_packet fuel t pt (c, w) = Undef.
Proof. intros Hs H5 Hrx Hb Hf Hfuel. apply (read_packet_overrun fuel t pt hdr body rest); auto; lia. Qed.

Lemma read_packet_overflow_witness :
  _aws_iot_mqtt_internal_read_packet 5 later 0
    (sim_client CLIENT_STATE_CONNECTED_IDLE [], sim_world (mqtt_packet 48 (replicate 63 7))) = Undef.
Proof.
  refine (read_packet_overflow 5 later 0 48 (replicate 63 7) [] (sim_client CLIENT_STATE_CONNECTED_IDLE [])
    (sim_world (mqtt_packet 48 (replicate 63 7))) _ _ _ _ _ _);
    [reflexivity|vm_compute; congruence|reflexivity|vm_compute; split; congruence|
     vm_compute; split; congruence|lia].
Defined.

(** [_aws_iot_mqtt_internal_decode_packet_remaining_len] does not enforce the four-byte limit of
    MQTT: a remaining length of any number of digits is accepted, and its value taken modulo 2^64,
    whereas the limit would have it refused from the fifth digit on. *)
Theorem decode_packet_remaining_len_unbounded {W : Type} {clock : Clock W} {net : NetworkOps W}
    {stream : StreamLaws W} (fuel : nat) (t : Timer) (digits : bytes) (last : Z) (rest : bytes)
    (c : AWS_IoT_Client) (w : W) :
  Forall (fun d => 128 <= d < 256) digits -> 0 <= last < 128 -> rx w = digits ++ last :: rest ->
  (length digits < fuel)%nat ->
  exists w', _aws_iot_mqtt_internal_decode_packet_remaining_len fuel t (c, w) =
    Done ((SUCCESS, u64 (digits_value (digits ++ [last]))), (c, w')) /\ rx w' = rest.
Proof.
  intros H1 H2 H3 H4. destruct (decode_stream fuel t digits last rest c w H1 H2 H3 H4) as (w' & E & H & _).
  by exists w'.
Qed.

Lemma decode_packet_remaining_len_unbounded_witness :
  exists w', _aws_iot_mqtt_internal_decode_packet_remaining_len 9 later
      (sim_client CLIENT_STATE_CONNECTED_IDLE [], sim_world [129; 128; 128; 128; 128; 0; 9]) =
    Done ((SUCCESS, u64 (digits_value ([129; 128; 128; 128; 128] ++ [0]))),
          (sim_client CLIENT_STATE_CONNECTED_IDLE [], w')) /\ rx w' = [9].
Proof.
  apply (decode_packet_remaining_len_unbounded 9 later [129; 128; 128; 128; 128] 0 [9]
    (sim_client CLIENT_STATE_CONNECTED_IDLE []) (sim_world [129; 128; 128; 128; 128; 0; 9])).
  - repeat constructor; lia.
  - lia.
  - reflexivity.
  - simpl. lia.
Defined.

