(* ===== verification/TlsClient.v ===== *)
(** * The client over the shipped network layer

    [tls_net] plugs the functions of [Tls] into the network interface of the client, as
    [iot_tls_init] does, with the fuel each of them needs; [tls_env_laws] shows that it then keeps
    every promise [EnvLaws] asks of a network, so the life-cycle theorem holds of the client as it is
    shipped, over any mbedTLS that satisfies [MbedtlsLaws].  [tls_sends] shows the same of [SendLaws], so a
    packet sent in time is sent exactly; [send_packet_stale_count] is what happens after the time-out. *)

From S2P Require Export Lifecycle Tls Stream.

Section tls_client.
Context {W : Type} {clock : Clock W} {tls : Mbedtls W} {tlaws : MbedtlsLaws W}.

(** The lengths are [size_t] parameters.  Enough fuel for a transfer that the timer bounds: a round takes at least one tick. *)
Definition io_fuel (t : Timer) (w : W) : nat := S (Z.to_nat (expiry_bound t - tls_now w)).

#[export] Instance tls_net : NetworkOps W := {|
  iot_tls_init n ca crt key host prt tmo verify w :=
    (iot_tls_init_ n ca crt key host prt tmo verify, w);
  net_connect n p w :=
    let! (rc, n', w) := iot_tls_connect (S (tls_retries w)) (Some n) p w in
    let! n' := deref n' in
    Done (rc, n', w);
  net_read n len t old w := iot_tls_read (io_fuel t w) (u64 len) t old w;
  net_write n mem len t old w := iot_tls_write (io_fuel t w) mem (u64 len) t w;
  net_disconnect n w := iot_tls_disconnect (S (tls_retries w)) w;
  net_isConnected := Some (fun n w => iot_tls_is_connected n w);
  net_destroy n w := iot_tls_destroy w
|}.

(** What is left to ask of the system and of the application. *)
Context {mutexes : MutexOps W} {app : AppOps W}.

Definition host_evolves (c : AWS_IoT_Client) (w : W) (c' : AWS_IoT_Client) (w' : W) : Prop :=
  moves_to (state_of c) (state_of c') /\ same_config c c' /\ tls_le w w'.

Class HostLaws := {
  host_mutex : forall m w, thread_support = true ->
    Forall (fun op : mutex -> W -> Z * W => (op m w).1 = 0 /\ tls_le w (op m w).2)
      [pthread_mutex_init; pthread_mutex_lock; pthread_mutex_trylock; pthread_mutex_unlock;
       pthread_mutex_destroy];
  host_message_handler : forall f p n msg d c w,
    owp total (call_message_handler f p n msg d c w) (fun '(_, c', w') => host_evolves c w c' w');
  host_disconnect_handler : forall f d c w,
    owp total (call_disconnect_handler f d c w) (fun '(c', w') => host_evolves c w c' w')
}.

Lemma io_fuel_enough t w :
  expiry_bound t - tls_now w < Z.of_nat (io_fuel t w) /\ (0 < io_fuel t w)%nat.
Proof. unfold io_fuel. lia. Qed.

Lemma tls_le_world w w' :
  tls_le w w' -> tls_now w <= tls_now w' /\ (length (tls_in w') <= length (tls_in w))%nat.
Proof. by intros (? & ? & ?). Qed.

#[export] Instance tls_env_laws {host : HostLaws} : EnvLaws W (net := tls_net).
Proof.
  refine {| now := tls_now; incoming := fun w => length (tls_in w); reentry := fun _ _ => True |}.
  - intros w. pose proof (tls_clock W w) as (H1 & H2 & H3 & -> & _ & _). done.
  - intros. simpl. lia.
  - intros n p w. simpl. apply owp_bind.
    eapply owp_mono; [apply (iot_tls_connect_le (S (tls_retries w)) n p w); lia|].
    intros [[rc n'] w'] [[n2 E] H]. cbn [snd] in E. rewrite E. by apply tls_le_world.
  - intros n len t old w. simpl. destruct (io_fuel_enough t w).
    pose proof (u64_range len) as Hl.
    pose proof (iot_tls_read_contract (io_fuel t w) (u64 len) t old w) as Hr. unfold wp in Hr.
    destruct (owp_exact _ _ (Hr ltac:(lia) ltac:(done) ltac:(done)))
      as ([[[rc data] k] w'] & -> & H1 & H2 & H3).
    simpl. split; [by apply tls_le_world|]. split; [rewrite H2, length_app; lia|].
    destruct rc; try done; (split; [done|]); intros E Hlen; [by rewrite u64_id in H3|done..].
  - intros n mem len t old w. simpl. destruct (io_fuel_enough t w).
    eapply owp_mono; [by apply (iot_tls_write_le (io_fuel t w) mem (u64 len) t w)|].
    intros [[rc k] w'] H1. by apply tls_le_world.
  - intros n w. simpl. eapply owp_mono; [apply (iot_tls_disconnect_le (S (tls_retries w)) w); lia|].
    intros [rc w'] [_ H]. by apply tls_le_world.
  - intros f n w [= <-]. simpl. lia.
  - intros n w. exact (tls_le_world _ _ (proj2 (iot_tls_destroy_le w))).
  - intros m w Ht. eapply Forall_impl; [|exact (host_mutex m w Ht)]. intros op [H1 H2].
    split; [done|by apply tls_le_world].
  - intros f p n msg d c w _. eapply owp_mono; [apply host_message_handler|].
    intros [[m' c'] w'] (H1 & H2 & H3). split; [done|]. split; [done|by apply tls_le_world].
  - intros f d c w. eapply owp_mono; [apply host_disconnect_handler|].
    intros [c' w'] (H1 & H2 & H3). split; [done|]. split; [done|by apply tls_le_world].
Defined.

(** A write of the shipped layer that reports SUCCESS while the timer still runs has sent all its
    bytes, so the layer keeps the promise [send_packet] relies on. *)
#[export] Instance tls_sends : SendLaws W (net := tls_net).
Proof.
  refine {| time_of := tls_now; sent_by := tls_out; splits := False |}.
  - intros w. pose proof (tls_clock W w) as (_ & _ & Hlt & _ & -> & _). split; [lia|done].
  - intros n mem len t old w Hlen Ht. simpl. destruct (io_fuel_enough t w) as [Hf Hf0].
    rewrite u64_id by done. apply owp_partial_intro. intros [[rc k] w'] E.
    split.
    { pose proof (iot_tls_write_le (io_fuel t w) mem len t w Hf Hf0) as H. by apply (wp_done _ _ _ _ _ _ H) in E as (? & _). }
    intros -> Hw' [Hmem|[]].
    pose proof (iot_tls_write_contract (io_fuel t w) mem len t w ltac:(lia) ltac:(lia) Hf Hf0) as H.
    apply (wp_done _ _ _ _ _ _ H) in E as (_ & _ & _ & Hok). destruct (Hok eq_refl Ht Hw') as [-> Hout].
    split; [lia|]. by split; [|left].
Defined.

(** Hence a packet sent in time over the shipped layer is handed to TLS exactly. *)
Lemma shipped_send_packet fuel len t c w :
  thread_support = false -> 0 <= len <= zlen (writeBuf (clientData c)) -> len < 4611686018427387904 ->
  normal (end_time t) ->
  wp partial (aws_iot_mqtt_internal_send_packet (net := tls_net) fuel pCLIENT len (Some t))
    (fun rc s' => s'.1 = c /\ (rc = SUCCESS -> len < writeBufSize (clientData c) /\
       (tls_now s'.2 < expiry t ->
        tls_out s'.2 = tls_out w ++ take (Z.to_nat len) (writeBuf (clientData c))))) (c, w).
Proof. intros. by apply (send_packet_sends (net := tls_net) (sends := tls_sends)). Qed.
End tls_client.
Arguments HostLaws W {clock tls tlaws mutexes app}.

(** The concrete TLS layer of [Tls] with the mutexes and callbacks of a single-threaded program whose
    callbacks do nothing. *)
#[export] Instance idle_mutexes {W : Type} : MutexOps W := {|
  thread_support := false;
  pthread_mutex_init m w := (0, w);
  pthread_mutex_lock m w := (0, w);
  pthread_mutex_trylock m w := (0, w);
  pthread_mutex_unlock m w := (0, w);
  pthread_mutex_destroy m w := (0, w)
|}.

#[export] Instance idle_app {W : Type} : AppOps W := {|
  call_message_handler f p n msg data c w := Done (msg, c, w);
  call_disconnect_handler f data c w := Done (c, w)
|}.

#[export] Instance idle_host {W : Type} {clock : Clock W} {tls : Mbedtls W} {tlaws : MbedtlsLaws W} :
  HostLaws W.
Proof.
  constructor; [done|..]; intros; simpl; (split; [by left|]); (split; [by split|reflexivity]).
Defined.

(** The defect of [Tls.tls_write_stale_count] reaches the packets: [send_packet] over the shipped layer
    reports SUCCESS for a packet of four bytes of which two have been sent, when the timer expires
    between two fragments. *)
Lemma send_packet_stale_count :
  let c := set_writeBuf ([1; 2; 3; 4] ++ replicate 60 0) (sim_client CLIENT_STATE_CONNECTED_IDLE []) in
  aws_iot_mqtt_internal_send_packet (net := tls_net) 5 pCLIENT 4 (Some (sim_timer 5)) (c, mkTlsSim 0 [] [] 2) =
    Done (SUCCESS, (c, mkTlsSim 6 [] [1; 2] 2)).
Proof. by vm_compute. Qed.

(** ** Properties *)

(** C2: the client as it is shipped, over the mbedTLS network layer: whatever sequence of API calls an
    application makes on a client at rest, every call returns and leaves the client at rest, provided
    mbedTLS keeps its promises, the mutexes work and the callbacks return. *)
Theorem shipped_client_returns_to_rest {W : Type} {clock : Clock W} {tls : Mbedtls W}
    {tlaws : MbedtlsLaws W} {mutexes : MutexOps W} {app : AppOps W} {host : HostLaws W}
    (fuel : nat) (calls : list api_call) (s : St W) :
  Forall (call_ok fuel) calls -> quiescent (state_of s.1) = true ->
  (length (tls_in s.2) + 2 <= fuel)%nat ->
  0 < readBufSize (clientData s.1) < 9223372036854775808 ->
  0 <= commandTimeoutMs (clientData s.1) -> commandTimeoutMs (clientData s.1) * 1000 < Z.of_nat fuel ->
  wp total (run_calls (net := tls_net) fuel calls)
    (fun rcs s' => length rcs = length calls /\ quiescent (state_of s'.1) = true) s.
Proof.
  intros Hc Hq H1 H2 H3 H4.
  eapply wp_mono; [apply (run_calls_at_rest (net := tls_net) (laws := tls_env_laws)); [exact Hc|]|].
  - split; [|done]. by repeat split; try apply H2.
  - by intros rcs s' (Hl & [_ Hr]).
Qed.

Lemma shipped_client_returns_to_rest_witness :
  wp total (run_calls (net := tls_net) 3000 sample_session)
    (fun rcs s' => length rcs = 4%nat /\ quiescent (state_of s'.1) = true)
    (sim_client CLIENT_STATE_INITIALIZED [], mkTlsSim 0 [32; 2; 0; 0] [] 2).
Proof.
  refine (shipped_client_returns_to_rest 3000 sample_session
    (sim_client CLIENT_STATE_INITIALIZED [], mkTlsSim 0 [32; 2; 0; 0] [] 2) _ _ _ _ _ _).
  - repeat constructor; simpl; lia.
  - done.
  - simpl. lia.
  - simpl. lia.
  - simpl. lia.
  - simpl. lia.
Defined.
