(* ===== verification/Jsmn.v ===== *)
(** * The JSON tokeniser: external_libs/jsmn/jsmn.c

    The parser as the SDK builds it: neither [JSMN_STRICT] nor [JSMN_PARENT_LINKS] is defined.  It
    writes the tokens of a JSON text into an array the caller gives; [tokens] is [None] when the
    caller only counts.  [js] are the bytes readable from the text's address. *)

From S2P Require Export Prelude.

Inductive jsmntype_t : Set :=
  | JSMN_UNDEFINED
  | JSMN_OBJECT
  | JSMN_ARRAY
  | JSMN_STRING
  | JSMN_PRIMITIVE.

#[export] Instance jsmntype_t_eq_dec : EqDecision jsmntype_t.
Proof. solve_decision. Defined.

Definition JSMN_ERROR_NOMEM : Z := -1.
Definition JSMN_ERROR_INVAL : Z := -2.
Definition JSMN_ERROR_PART : Z := -3.

Record jsmntok_t := mkTok { tok_type : jsmntype_t; tok_start : Z; tok_end : Z; tok_size : Z }.

Record jsmn_parser := mkParser { pos : Z; toknext : Z; toksuper : Z }.

Definition set_pos (p : Z) (parser : jsmn_parser) : jsmn_parser :=
  mkParser p (toknext parser) (toksuper parser).
Definition set_toksuper (i : Z) (parser : jsmn_parser) : jsmn_parser :=
  mkParser (pos parser) (toknext parser) i.

(** The conversion of an [unsigned int] to [int]. *)
Definition i32 (z : Z) : Z := (z + 2147483648) mod 4294967296 - 2147483648.

Definition jsmn_init : jsmn_parser := mkParser 0 0 (-1).

(** Returns the index of the token in the array. *)
Definition jsmn_alloc_token (parser : jsmn_parser) (tokens : list jsmntok_t) (num_tokens : Z)
    : outcome (option (Z * jsmn_parser * list jsmntok_t)) :=
  if num_tokens <=? toknext parser then Done None
  else
    let tok := toknext parser in
    let! t := aload tokens tok in
    let! tokens := astore tokens tok (mkTok (tok_type t) (-1) (-1) 0) in
    Done (Some (tok, mkParser (pos parser) (u32 (toknext parser + 1)) (toksuper parser), tokens)).

Definition jsmn_fill_token (type : jsmntype_t) (start end_ : Z) : jsmntok_t :=
  mkTok type start end_ 0.

(** What a parse function returns: the code, the parser and the tokens. *)
Abbreviation parsed := (Z * jsmn_parser * option (list jsmntok_t))%type.

(** Storing a finished token: the end of the two functions below. *)
Definition new_token (parser : jsmn_parser) (tokens : list jsmntok_t) (num_tokens start : Z)
    (t : jsmntok_t) (k : jsmn_parser -> jsmn_parser) : outcome parsed :=
  let! r := jsmn_alloc_token parser tokens num_tokens in
  match r with
  | None => Done (JSMN_ERROR_NOMEM, set_pos (u32 start) parser, Some tokens)
  | Some (token, parser, tokens) =>
      let! tokens := astore tokens token t in
      Done (0, k parser, Some tokens)
  end.

Definition is_delimiter (c : Z) : bool :=
  (c =? 58) || (c =? 9) || (c =? 13) || (c =? 10) || (c =? 32) || (c =? 44) || (c =? 93) || (c =? 125).

Definition jsmn_parse_primitive (fuel : nat) (parser : jsmn_parser) (js : bytes) (len : Z)
    (tokens : option (list jsmntok_t)) (num_tokens : Z) : outcome parsed :=
  let start := i32 (pos parser) in
  let! found := oloop fuel (fun p =>
    if p <? len then
      let! c := load js p in
      if c =? 0 then Done (inr (Some p))
      else if is_delimiter c then Done (inr (Some p))
      else if (c <? 32) || (127 <=? c) then Done (inr None)
      else Done (inl (u32 (p + 1)))
    else Done (inr (Some p))) (pos parser) in
  match found with
  | None => Done (JSMN_ERROR_INVAL, set_pos (u32 start) parser, tokens)
  | Some p =>
      let parser := set_pos p parser in
      match tokens with
      | None => Done (0, set_pos (u32 (p - 1)) parser, tokens)
      | Some toks =>
          new_token parser toks num_tokens start (jsmn_fill_token JSMN_PRIMITIVE start (i32 p))
            (fun parser => set_pos (u32 (p - 1)) parser)
      end
  end.

Definition is_hex (c : Z) : bool :=
  (48 <=? c) && (c <=? 57) || (65 <=? c) && (c <=? 70) || (97 <=? c) && (c <=? 102).

(** The [for] loop over the four digits of an escaped code point; [None] is a digit that is none. *)
Fixpoint jsmn_hex (n : nat) (p : Z) (js : bytes) (len : Z) : outcome (option Z) :=
  match n with
  | O => Done (Some p)
  | S n =>
      if p <? len then
        let! c := load js p in
        if c =? 0 then Done (Some p)
        else if negb (is_hex c) then Done None
        else jsmn_hex n (u32 (p + 1)) js len
      else Done (Some p)
  end.

Definition is_escaped (c : Z) : bool :=
  (c =? 34) || (c =? 47) || (c =? 92) || (c =? 98) || (c =? 102) || (c =? 114) || (c =? 110)
  || (c =? 116).

(** How the loop over a string ends: at the closing quote, with an invalid escape, or at the end of
    the text. *)
Inductive string_end : Set := sQUOTE (p : Z) | sINVAL | sPART.

Definition jsmn_string_round (js : bytes) (len p : Z) : outcome (Z + string_end) :=
  if p <? len then
    let! c := load js p in
    if c =? 0 then Done (inr sPART)
    else if c =? 34 then Done (inr (sQUOTE p))
    else if (c =? 92) && (u32 (p + 1) <? len) then
      let p := u32 (p + 1) in
      let! c := load js p in
      if is_escaped c then Done (inl (u32 (p + 1)))
      else if c =? 117 then
        let! r := jsmn_hex 4 (u32 (p + 1)) js len in
        match r with
        | None => Done (inr sINVAL)
        | Some p => Done (inl (u32 (u32 (p - 1) + 1)))
        end
      else Done (inr sINVAL)
    else Done (inl (u32 (p + 1)))
  else Done (inr sPART).

Definition jsmn_parse_string (fuel : nat) (parser : jsmn_parser) (js : bytes) (len : Z)
    (tokens : option (list jsmntok_t)) (num_tokens : Z) : outcome parsed :=
  let start := i32 (pos parser) in
  let! e := oloop fuel (jsmn_string_round js len) (u32 (pos parser + 1)) in
  match e with
  | sQUOTE p =>
      let parser := set_pos p parser in
      match tokens with
      | None => Done (0, parser, tokens)
      | Some toks =>
          new_token parser toks num_tokens start (jsmn_fill_token JSMN_STRING (start + 1) (i32 p)) id
      end
  | sINVAL => Done (JSMN_ERROR_INVAL, set_pos (u32 start) parser, tokens)
  | sPART => Done (JSMN_ERROR_PART, set_pos (u32 start) parser, tokens)
  end.

(** [for(i = n - 1; i >= 0; i--) if(p(tokens[i])) break;]: the index found, or -1. *)
Fixpoint find_back (p : jsmntok_t -> bool) (tokens : list jsmntok_t) (n : nat) : outcome Z :=
  match n with
  | O => Done (-1)
  | S n =>
      let! t := aload tokens (Z.of_nat n) in
      if p t then Done (Z.of_nat n) else find_back p tokens n
  end.

Definition is_open (t : jsmntok_t) : bool := negb (tok_start t =? -1) && (tok_end t =? -1).

Definition is_container (t : jsmntok_t) : bool :=
  bool_decide (tok_type t = JSMN_ARRAY) || bool_decide (tok_type t = JSMN_OBJECT).

(** [if(parser->toksuper != -1 && tokens != NULL) tokens[parser->toksuper].size++;] *)
Definition count_child (parser : jsmn_parser) (tokens : option (list jsmntok_t))
    : outcome (option (list jsmntok_t)) :=
  match tokens with
  | Some toks =>
      if toksuper parser =? -1 then Done tokens
      else
        let! t := aload toks (toksuper parser) in
        let! toks := astore toks (toksuper parser)
          (mkTok (tok_type t) (tok_start t) (tok_end t) (tok_size t + 1)) in
        Done (Some toks)
  | None => Done tokens
  end.

(** The [switch] of [jsmn_parse] on one character: a code leaves the function, otherwise the loop
    goes on with the parser, the tokens and [count]. *)
Abbreviation jsmn_state := (jsmn_parser * option (list jsmntok_t) * Z)%type.

Definition jsmn_open (c : Z) (parser : jsmn_parser) (toks : list jsmntok_t) (num_tokens count : Z)
    : outcome (jsmn_state + parsed) :=
  let! r := jsmn_alloc_token parser toks num_tokens in
  match r with
  | None => Done (inr (JSMN_ERROR_NOMEM, parser, Some toks))
  | Some (token, parser, toks) =>
      let! tokens := count_child parser (Some toks) in
      let! toks := deref tokens in
      let! t := aload toks token in
      let! toks := astore toks token
        (mkTok (if c =? 123 then JSMN_OBJECT else JSMN_ARRAY) (i32 (pos parser)) (tok_end t)
           (tok_size t)) in
      Done (inl (set_toksuper (i32 (u32 (toknext parser - 1))) parser, Some toks, count))
  end.

Definition jsmn_close (c : Z) (parser : jsmn_parser) (toks : list jsmntok_t) (count : Z)
    : outcome (jsmn_state + parsed) :=
  let type := if c =? 125 then JSMN_OBJECT else JSMN_ARRAY in
  let! i := find_back is_open toks (Z.to_nat (toknext parser)) in
  if i =? -1 then Done (inr (JSMN_ERROR_INVAL, parser, Some toks))
  else
    let! t := aload toks i in
    if decide (tok_type t <> type) then Done (inr (JSMN_ERROR_INVAL, parser, Some toks))
    else
      let parser := set_toksuper (-1) parser in
      let! toks := astore toks i
        (mkTok (tok_type t) (tok_start t) (i32 (u32 (pos parser + 1))) (tok_size t)) in
      let! i := find_back is_open toks (Z.to_nat (i + 1)) in
      Done (inl (if i =? -1 then parser else set_toksuper i parser, Some toks, count)).

Definition jsmn_comma (parser : jsmn_parser) (toks : list jsmntok_t) : outcome jsmn_parser :=
  if toksuper parser =? -1 then Done parser
  else
    let! t := aload toks (toksuper parser) in
    if is_container t then Done parser
    else
      let! i := find_back (fun t => is_container t && is_open t) toks (Z.to_nat (toknext parser)) in
      Done (if i =? -1 then parser else set_toksuper i parser).

(** A string or a primitive. *)
Definition jsmn_item (r : outcome parsed) (count : Z) : outcome (jsmn_state + parsed) :=
  let! (rc, parser, tokens) := r in
  if rc <? 0 then Done (inr (rc, parser, tokens))
  else
    let! tokens := count_child parser tokens in
    Done (inl (parser, tokens, count + 1)).

Definition jsmn_switch (fuel : nat) (c : Z) (js : bytes) (len num_tokens : Z) (st : jsmn_state)
    : outcome (jsmn_state + parsed) :=
  let '(parser, tokens, count) := st in
  if (c =? 123) || (c =? 91) then
    let count := count + 1 in
    match tokens with
    | None => Done (inl (parser, tokens, count))
    | Some toks => jsmn_open c parser toks num_tokens count
    end
  else if (c =? 125) || (c =? 93) then
    match tokens with
    | None => Done (inl (parser, tokens, count))
    | Some toks => jsmn_close c parser toks count
    end
  else if c =? 34 then jsmn_item (jsmn_parse_string fuel parser js len tokens num_tokens) count
  else if (c =? 9) || (c =? 13) || (c =? 10) || (c =? 32) then Done (inl (parser, tokens, count))
  else if c =? 58 then
    Done (inl (set_toksuper (i32 (u32 (toknext parser - 1))) parser, tokens, count))
  else if c =? 44 then
    match tokens with
    | None => Done (inl (parser, tokens, count))
    | Some toks => let! parser := jsmn_comma parser toks in Done (inl (parser, tokens, count))
    end
  else jsmn_item (jsmn_parse_primitive fuel parser js len tokens num_tokens) count.

(** One round of the loop of [jsmn_parse]; what follows the loop is done by its last round. *)
Definition jsmn_round (fuel : nat) (js : bytes) (len num_tokens : Z) (st : jsmn_state)
    : outcome (jsmn_state + parsed) :=
  let '(parser, tokens, count) := st in
  let finish :=
    match tokens with
    | Some toks =>
        let! i := find_back is_open toks (Z.to_nat (toknext parser)) in
        Done (inr (if i =? -1 then count else JSMN_ERROR_PART, parser, tokens))
    | None => Done (inr (count, parser, tokens))
    end in
  if pos parser <? len then
    let! c := load js (pos parser) in
    if c =? 0 then finish
    else
      let! r := jsmn_switch fuel c js len num_tokens (parser, tokens, count) in
      match r with
      | inr p => Done (inr p)
      | inl (parser, tokens, count) => Done (inl (set_pos (u32 (pos parser + 1)) parser, tokens, count))
      end
  else finish.

Definition jsmn_parse (fuel : nat) (parser : jsmn_parser) (js : bytes) (len : Z)
    (tokens : option (list jsmntok_t)) (num_tokens : Z) : outcome parsed :=
  oloop fuel (jsmn_round fuel js len num_tokens) (parser, tokens, toknext parser).

Definition blank : jsmntok_t := mkTok JSMN_UNDEFINED 0 0 0.
(** {"a":[1,true]} *)
Example parse_sample :
  jsmn_parse 20 jsmn_init [123; 34; 97; 34; 58; 91; 49; 44; 116; 114; 117; 101; 93; 125] 14
    (Some (replicate 6 blank)) 6 =
  Done (5, mkParser 14 5 (-1), Some
    [mkTok JSMN_OBJECT 0 14 1; mkTok JSMN_STRING 2 3 1; mkTok JSMN_ARRAY 5 13 2;
     mkTok JSMN_PRIMITIVE 6 7 0; mkTok JSMN_PRIMITIVE 8 12 0; blank]).
Proof. vm_compute. reflexivity. Qed.

(** ** Lemmas *)

Lemma aload_in {A} (l : list A) i :
  0 <= i < zlen l -> exists x, aload l i = Done x /\ l !! Z.to_nat i = Some x.
Proof.
  unfold zlen. intros H. unfold aload. destruct (0 <=? i) eqn:E; [|lia].
  destruct (l !! Z.to_nat i) eqn:E2; [by eexists|]. apply lookup_ge_None in E2. lia.
Qed.

Lemma astore_in {A} (l : list A) i x : 0 <= i < zlen l -> astore l i x = Done (<[Z.to_nat i := x]> l).
Proof. intros H. unfold astore. destruct (_ && _) eqn:E; [done|lia]. Qed.

Lemma zlen_insert {A} (l : list A) i x : zlen (<[i := x]> l) = zlen l.
Proof. unfold zlen. by rewrite length_insert. Qed.

Lemma i32_id z : -2147483648 <= z < 2147483648 -> i32 z = z.
Proof. intros. unfold i32. rewrite Z.mod_small; lia. Qed.

Lemma find_back_spec p toks n :
  Z.of_nat n <= zlen toks ->
  owp exact (find_back p toks n) (fun i =>
    i = -1 /\ (forall j t, (j < n)%nat -> toks !! j = Some t -> p t = false) \/
    0 <= i < Z.of_nat n /\ exists t, toks !! Z.to_nat i = Some t /\ p t = true).
Proof.
  induction n as [|n IH]; intros Hn; cbn [find_back].
  - left. split; [done|]. intros j t Hj. lia.
  - apply owp_bind. destruct (aload_in toks (Z.of_nat n)) as (t & -> & Ht); [lia|]. cbn [owp].
    rewrite Nat2Z.id in Ht. destruct (p t) eqn:Ep.
    + right. split; [lia|]. exists t. by rewrite Nat2Z.id.
    + eapply owp_mono; [apply IH; lia|]. intros i [[-> H]|[H1 H2]]; [left|right; split; [lia|done]].
      split; [done|]. intros j t' Hj Ht'. destruct (decide (j = n)) as [->|]; [congruence|].
      eapply H; [|done]. lia.
Qed.

Section safety.
Context (js : bytes) (len num_tokens : Z).
Hypothesis Hlen : 0 <= len < 2147483647.
Hypothesis Hjs : len <= zlen js.
Hypothesis Hnum : 0 <= num_tokens < 2147483647.

(** A token starts within what has been read and lies within the text; an open one is a container. *)
Definition tok_ok (p : Z) (t : jsmntok_t) : Prop :=
  0 <= tok_start t <= p /\
  (tok_end t = -1 /\ is_container t = true \/ tok_start t <= tok_end t <= len).

Definition parser_ok (parser : jsmn_parser) (toks : list jsmntok_t) : Prop :=
  0 <= pos parser <= len /\ 0 <= toknext parser <= num_tokens /\ num_tokens <= zlen toks /\
  -1 <= toksuper parser < Z.max 0 (toknext parser) /\
  forall j t, Z.of_nat j < toknext parser -> toks !! j = Some t -> tok_ok (pos parser) t.

Lemma tok_ok_mono p p' t : tok_ok p t -> p <= p' -> tok_ok p' t.
Proof. intros [? ?] ?. split; [lia|done]. Qed.

Lemma toks_ok_store (n p : Z) toks i t :
  (forall j t, Z.of_nat j < n -> toks !! j = Some t -> tok_ok p t) -> tok_ok p t -> 0 <= i < zlen toks ->
  forall j t', Z.of_nat j < n -> <[Z.to_nat i := t]> toks !! j = Some t' -> tok_ok p t'.
Proof.
  intros H Ht Hi j t' Hj Hl. destruct (decide (j = Z.to_nat i)) as [->|Hne].
  - rewrite list_lookup_insert_eq in Hl by (unfold zlen in *; lia). congruence.
  - rewrite list_lookup_insert_ne in Hl by done. by eapply H.
Qed.

Lemma parser_ok_store parser toks i t :
  parser_ok parser toks -> tok_ok (pos parser) t -> 0 <= i < toknext parser ->
  parser_ok parser (<[Z.to_nat i := t]> toks).
Proof.
  intros (H1 & H2 & H3 & H4 & H5) Ht Hi. split; [done|]. split; [done|].
  split; [by rewrite zlen_insert|]. split; [done|]. apply toks_ok_store; [done|done|lia].
Qed.

Lemma parser_ok_super parser toks i :
  parser_ok parser toks -> -1 <= i < Z.max 0 (toknext parser) -> parser_ok (set_toksuper i parser) toks.
Proof. intros (H1 & H2 & H3 & H4 & H5) Hi. by split; [|split; [|split; [|split]]]. Qed.

Lemma parser_ok_pos parser toks p :
  parser_ok parser toks -> pos parser <= p <= len -> parser_ok (set_pos p parser) toks.
Proof.
  intros (H1 & H2 & H3 & H4 & H5) Hp. split; [cbn; lia|]. split; [|split; [|split]]; [done..|].
  intros j t Hj Ht. eapply tok_ok_mono; [by eapply H5|cbn; lia].
Qed.

(** The outcome of parsing one item that starts at the parser's position. *)
Definition item_post (parser : jsmn_parser) (n : Z) (r : parsed) : Prop :=
  let '(rc, parser', tokens') := r in
  exists toks', tokens' = Some toks' /\ zlen toks' = n /\ parser_ok parser' toks' /\
    (-3 <= rc < 0 \/ rc = 0 /\ pos parser <= pos parser' < len /\
       toknext parser' = toknext parser + 1).

Lemma new_token_ok parser q toks t k p :
  parser_ok parser toks -> tok_ok p t -> pos parser <= p < len ->
  (forall r, pos r = q -> k r = set_pos p r) ->
  owp exact (new_token (set_pos q parser) toks num_tokens (pos parser) t k) (item_post parser (zlen toks)).
Proof.
  intros Hok Ht Hp Hk. pose proof Hok as (H1 & H2 & H3 & H4 & H5). cbn [toknext set_pos pos toksuper].
  unfold new_token, jsmn_alloc_token. cbn [toknext set_pos pos toksuper].
  destruct (num_tokens <=? toknext parser) eqn:E.
  { cbn [obind owp item_post]. exists toks. split; [done|]. split; [done|]. rewrite u32_id by lia.
    split; [exact (parser_ok_pos parser toks (pos parser) Hok ltac:(lia))|]. left. unfold JSMN_ERROR_NOMEM. lia. }
  destruct (aload_in toks (toknext parser)) as (t0 & -> & _); [lia|]. cbn [obind].
  rewrite astore_in by lia. cbn [obind]. rewrite astore_in by (rewrite zlen_insert; lia). cbn [obind owp].
  rewrite u32_id by lia. rewrite Hk by done. eexists. split; [done|]. rewrite !zlen_insert.
  split; [done|]. split; [|right; cbn; lia]. rewrite list_insert_insert_eq.
  split; [cbn; lia|]. split; [cbn; lia|]. split; [rewrite zlen_insert; lia|]. split; [cbn; lia|]. cbn.
  intros j t' Hj Hl. destruct (decide (j = Z.to_nat (toknext parser))) as [->|Hne].
  - rewrite list_lookup_insert_eq in Hl by (unfold zlen in *; lia). congruence.
  - rewrite list_lookup_insert_ne in Hl by done. eapply tok_ok_mono; [eapply H5; [|done]|]; lia.
Qed.

Lemma primitive_ok fuel parser toks c :
  parser_ok parser toks -> pos parser < len -> len - pos parser < Z.of_nat fuel ->
  load js (pos parser) = Done c -> c <> 0 -> is_delimiter c = false ->
  owp exact (jsmn_parse_primitive fuel parser js len (Some toks) num_tokens) (item_post parser (zlen toks)).
Proof.
  intros Hok Hpos Hf Hc Hc0 Hd. pose proof Hok as (H1 & H2 & H3 & H4 & H5).
  unfold jsmn_parse_primitive. rewrite i32_id by lia. apply owp_bind.
  apply (owp_oloop exact (fun p => pos parser <= p <= len) (fun p => Z.to_nat (len - p))); [lia| |lia].
  assert (Hend : forall p, pos parser < p <= len -> owp exact
    (new_token (set_pos p parser) toks num_tokens (pos parser)
       (jsmn_fill_token JSMN_PRIMITIVE (pos parser) (i32 p)) (fun q => set_pos (u32 (p - 1)) q))
    (item_post parser (zlen toks))).
  { intros p Hp. rewrite i32_id, u32_id by lia. apply (new_token_ok _ _ _ _ _ (p - 1)); [done| |lia|done].
    split; cbn; [lia|]. right. lia. }
  intros p Hp. destruct (p <? len) eqn:Ep; [|cbn; apply Hend; lia].
  apply owp_bind. destruct (load_in js p) as [d Hd']; [lia|]. rewrite Hd'. cbn [owp].
  assert (Hne : d = 0 \/ is_delimiter d = true -> pos parser < p).
  { intros H. destruct (decide (p = pos parser)) as [->|]; [|lia]. rewrite Hc in Hd'. injection Hd' as <-.
    destruct H; congruence. }
  destruct (d =? 0) eqn:E0; [cbn; apply Hend; lia|].
  destruct (is_delimiter d) eqn:Ed; [cbn; apply Hend; split; [by apply Hne; right|lia]|].
  destruct (_ || _); cbn.
  - exists toks. split; [done|]. split; [done|]. rewrite u32_id by lia.
    split; [apply parser_ok_pos; [done|lia]|]. left. unfold JSMN_ERROR_INVAL. lia.
  - rewrite u32_id by lia. split; [lia|]. intros _. lia.
Qed.

Lemma hex_ok n p :
  0 <= p <= len -> owp exact (jsmn_hex n p js len) (fun r => match r with Some q => p <= q <= len | None => True end).
Proof.
  revert p. induction n as [|n IH]; intros p Hp; cbn [jsmn_hex]; [cbn; lia|].
  destruct (p <? len) eqn:E; [|cbn; lia]. apply owp_bind.
  destruct (load_in js p) as [c ->]; [lia|]. cbn [owp]. destruct (c =? 0); [cbn; lia|].
  destruct (negb _); [done|]. rewrite u32_id by lia. eapply owp_mono; [apply IH; lia|].
  intros [q|]; [lia|done].
Qed.

Lemma string_round_ok p :
  0 <= p <= len -> owp exact (jsmn_string_round js len p) (fun r => match r with
    | inl q => p < q <= len
    | inr (sQUOTE q) => q = p /\ q < len
    | inr _ => True
    end).
Proof.
  intros Hp. unfold jsmn_string_round. destruct (p <? len) eqn:E; [|done]. apply owp_bind.
  destruct (load_in js p) as [c ->]; [lia|]. cbn [owp]. destruct (c =? 0); [done|].
  destruct (c =? 34); [cbn; lia|]. rewrite !(u32_id (p + 1)) by lia. destruct ((c =? 92) && _) eqn:Eb.
  2: { cbn. lia. }
  apply owp_bind. destruct (load_in js (p + 1)) as [d ->]; [lia|]. cbn [owp].
  rewrite (u32_id (p + 1 + 1)) by lia. destruct (is_escaped d); [cbn; lia|].
  destruct (d =? 117); [|done]. apply owp_bind. eapply owp_mono; [apply hex_ok; lia|].
  intros [q|] Hq; [|done]. cbn [owp]. rewrite !u32_id; lia || (rewrite u32_id; lia).
Qed.

Lemma string_ok fuel parser toks :
  parser_ok parser toks -> pos parser < len -> len - pos parser < Z.of_nat fuel ->
  owp exact (jsmn_parse_string fuel parser js len (Some toks) num_tokens) (item_post parser (zlen toks)).
Proof.
  intros Hok Hpos Hf. pose proof Hok as (H1 & H2 & H3 & H4 & H5).
  unfold jsmn_parse_string. rewrite i32_id by lia. rewrite (u32_id (pos parser + 1)) by lia. apply owp_bind.
  assert (Herr : forall rc, -3 <= rc < 0 ->
    item_post parser (zlen toks) (rc, set_pos (u32 (pos parser)) parser, Some toks)).
  { intros rc Hrc. exists toks. split; [done|]. split; [done|]. rewrite u32_id by lia.
    split; [apply parser_ok_pos; [done|lia]|]. by left. }
  apply (owp_oloop exact (fun p => pos parser < p <= len) (fun p => Z.to_nat (len - p))); [lia| |lia].
  intros p Hp. eapply owp_mono; [apply string_round_ok; lia|]. intros [q|[q| |]] Hq.
  - split; [lia|]. intros _. lia.
  - destruct Hq as [-> Hq]. apply (new_token_ok _ _ _ _ _ p); [done| |lia|].
    + rewrite i32_id by lia. split; cbn; [lia|]. right. lia.
    + intros [] Hpq. cbn in *. by subst.
  - apply Herr. unfold JSMN_ERROR_INVAL. lia.
  - apply Herr. unfold JSMN_ERROR_PART. lia.
Qed.

Lemma count_child_ok parser toks n p :
  (forall j t, Z.of_nat j < n -> toks !! j = Some t -> tok_ok p t) ->
  -1 <= toksuper parser < Z.max 0 n -> n <= zlen toks ->
  owp exact (count_child parser (Some toks)) (fun r => exists toks', r = Some toks' /\
    zlen toks' = zlen toks /\ (forall j t, Z.of_nat j < n -> toks' !! j = Some t -> tok_ok p t) /\
    (forall j, n <= Z.of_nat j -> toks' !! j = toks !! j)).
Proof.
  intros Hok Hs Hn. unfold count_child. destruct (toksuper parser =? -1) eqn:E; [by exists toks|].
  destruct (aload_in toks (toksuper parser)) as (t & -> & Ht); [lia|]. cbn [obind].
  rewrite astore_in by lia. cbn [obind owp]. eexists. split; [done|]. rewrite zlen_insert.
  split; [done|]. split.
  - apply toks_ok_store; [done| |lia]. exact (Hok (Z.to_nat (toksuper parser)) t ltac:(lia) Ht).
  - intros j Hj. apply list_lookup_insert_ne. lia.
Qed.

(** What one round preserves; a round that leaves the function returns an error code. *)
Definition round_post (n p : Z) (r : jsmn_state + parsed) : Prop :=
  match r with
  | inl (parser, tokens, count) => exists toks, tokens = Some toks /\ zlen toks = n /\
      parser_ok parser toks /\ count = toknext parser /\ p <= pos parser < len
  | inr (rc, parser, tokens) => exists toks, tokens = Some toks /\ zlen toks = n /\
      parser_ok parser toks /\ -3 <= rc < 0
  end.

Lemma open_ok c parser toks :
  parser_ok parser toks -> pos parser < len ->
  owp exact (jsmn_open c parser toks num_tokens (toknext parser + 1)) (round_post (zlen toks) (pos parser)).
Proof.
  intros Hok Hpos. pose proof Hok as (H1 & H2 & H3 & H4 & H5). unfold jsmn_open, jsmn_alloc_token.
  destruct (num_tokens <=? toknext parser) eqn:E.
  { cbn [obind owp round_post]. exists toks. split; [done|]. split; [done|]. split; [done|].
    unfold JSMN_ERROR_NOMEM. lia. }
  destruct (aload_in toks (toknext parser)) as (t0 & -> & _); [lia|]. cbn [obind].
  rewrite astore_in by lia. cbn [obind]. rewrite u32_id by lia. apply owp_bind.
  eapply owp_mono; [apply (count_child_ok _ _ (toknext parser) (pos parser))|].
  - intros j t Hj Ht. rewrite list_lookup_insert_ne in Ht by lia. by eapply H5.
  - done.
  - rewrite zlen_insert. lia.
  - intros r (toks' & -> & Hl & Hok' & Hrest). rewrite zlen_insert in Hl. cbn [deref obind].
    destruct (aload_in toks' (toknext parser)) as (t1 & -> & Ht1); [lia|]. cbn [obind].
    rewrite astore_in by lia. cbn [obind owp round_post]. eexists. split; [done|]. rewrite zlen_insert.
    split; [done|]. cbn [toknext pos]. split; [|cbn; lia].
    assert (Hi : i32 (u32 (toknext parser + 1 - 1)) = toknext parser) by (rewrite u32_id, i32_id; lia).
    cbn [set_toksuper toknext pos toksuper]. rewrite Hi.
    split; [cbn; lia|]. split; [cbn; lia|]. split; [rewrite zlen_insert; lia|].
    split; [cbn; lia|]. intros j t Hj Ht. cbn in Hj.
    destruct (decide (j = Z.to_nat (toknext parser))) as [->|Hne].
    + rewrite list_lookup_insert_eq in Ht by (unfold zlen in *; lia). injection Ht as <-.
      rewrite Hrest, list_lookup_insert_eq in Ht1 by (unfold zlen in *; lia). injection Ht1 as <-.
      rewrite i32_id by lia. split; cbn; [lia|]. left. split; [done|]. by destruct (c =? 123).
    + rewrite list_lookup_insert_ne in Ht by done. eapply Hok'; [|done]. lia.
Qed.

Lemma close_ok c parser toks :
  parser_ok parser toks -> pos parser < len ->
  owp exact (jsmn_close c parser toks (toknext parser)) (round_post (zlen toks) (pos parser)).
Proof.
  intros Hok Hpos. pose proof Hok as (H1 & H2 & H3 & H4 & H5). unfold jsmn_close. apply owp_bind.
  assert (Herr : round_post (zlen toks) (pos parser) (inr (JSMN_ERROR_INVAL, parser, Some toks))).
  { exists toks. by split; [|split; [|split]]. }
  eapply owp_mono; [apply find_back_spec; lia|]. intros i [[-> _]|(Hi & t & Ht & Hopen)]; [done|].
  destruct (i =? -1) eqn:Ei; [lia|]. destruct (aload_in toks i) as (t' & -> & Ht'); [lia|].
  assert (t' = t) as -> by congruence. cbn [obind]. destruct (decide (tok_type t <> _)); [done|].
  rewrite astore_in by lia. cbn [obind]. apply owp_bind.
  pose proof (H5 (Z.to_nat i) t ltac:(lia) Ht) as [Hs _].
  assert (Hnew : tok_ok (pos parser)
    (mkTok (tok_type t) (tok_start t) (i32 (u32 (pos parser + 1))) (tok_size t))).
  { rewrite u32_id, i32_id by lia. split; cbn; [done|]. right. lia. }
  eapply owp_mono; [apply find_back_spec; rewrite zlen_insert; lia|]. intros k Hk. cbn [owp].
  assert (Hok2 : parser_ok (set_toksuper (-1) parser) (<[Z.to_nat i := mkTok (tok_type t) (tok_start t)
      (i32 (u32 (pos parser + 1))) (tok_size t)]> toks)).
  { apply parser_ok_store; [apply parser_ok_super; [done|lia]|done|cbn; lia]. }
  eexists. split; [done|]. rewrite zlen_insert. split; [done|].
  destruct (k =? -1) eqn:Ek; [by split; [|split]|].
  split; [|done]. apply parser_ok_super; [exact Hok2|]. cbn.
  destruct Hk as [[-> _]|[Hk _]]; lia.
Qed.

Lemma comma_ok parser toks :
  parser_ok parser toks ->
  owp exact (jsmn_comma parser toks) (fun parser' => parser_ok parser' toks /\
    pos parser' = pos parser /\ toknext parser' = toknext parser).
Proof.
  intros Hok. pose proof Hok as (H1 & H2 & H3 & H4 & H5). unfold jsmn_comma.
  destruct (toksuper parser =? -1) eqn:E; [done|].
  destruct (aload_in toks (toksuper parser)) as (t & -> & _); [lia|]. cbn [obind].
  destruct (is_container t); [done|]. apply owp_bind.
  eapply owp_mono; [apply find_back_spec; lia|]. intros i Hi. cbn [owp].
  destruct (i =? -1) eqn:Ei; [done|]. split; [|done]. apply parser_ok_super; [done|].
  destruct Hi as [[-> _]|[Hi _]]; lia.
Qed.

Lemma item_ok parser n r :
  owp exact r (item_post parser n) ->
  owp exact (jsmn_item r (toknext parser)) (round_post n (pos parser)).
Proof.
  intros Hr. unfold jsmn_item. apply owp_bind. eapply owp_mono; [exact Hr|].
  intros [[rc parser'] tokens'] (toks' & -> & Hn & Hok & Hrc).
  destruct (rc <? 0) eqn:E.
  { exists toks'. split; [done|]. split; [done|]. split; [done|]. lia. }
  destruct Hrc as [|(-> & Hp & Hk)]; [lia|]. pose proof Hok as (H1 & H2 & H3 & H4 & H5). apply owp_bind.
  eapply owp_mono; [apply (count_child_ok _ _ (toknext parser') (pos parser')); [done|done|lia]|].
  intros o (toks2 & -> & Hl & Hok2 & _). exists toks2. split; [done|]. split; [lia|].
  split; [|split; [lia|done]]. by split; [|split; [|split; [lia|split]]].
Qed.

Lemma switch_ok fuel c parser toks :
  parser_ok parser toks -> pos parser < len -> len - pos parser < Z.of_nat fuel ->
  load js (pos parser) = Done c -> c <> 0 ->
  owp exact (jsmn_switch fuel c js len num_tokens (parser, Some toks, toknext parser))
    (round_post (zlen toks) (pos parser)).
Proof.
  intros Hok Hpos Hf Hc Hc0. pose proof Hok as (H1 & H2 & H3 & H4 & H5). unfold jsmn_switch.
  assert (Hsame : forall parser', parser_ok parser' toks -> pos parser' = pos parser ->
    toknext parser' = toknext parser ->
    round_post (zlen toks) (pos parser) (inl (parser', Some toks, toknext parser))).
  { intros parser' Hok' Hp Hn. exists toks. split; [done|]. split; [done|]. split; [done|]. lia. }
  destruct ((c =? 123) || (c =? 91)) eqn:E1; [by apply open_ok|].
  destruct ((c =? 125) || (c =? 93)) eqn:E2; [by apply close_ok|].
  destruct (c =? 34) eqn:E3; [by apply item_ok, string_ok|].
  destruct ((c =? 9) || (c =? 13) || (c =? 10) || (c =? 32)) eqn:E4; [by apply Hsame|].
  destruct (c =? 58) eqn:E5.
  { apply Hsame; [|done|done]. apply parser_ok_super; [done|].
    destruct (decide (toknext parser = 0)) as [->|]; [by vm_compute|]. rewrite u32_id, i32_id; lia. }
  destruct (c =? 44) eqn:E6.
  { apply owp_bind. eapply owp_mono; [by apply comma_ok|]. intros parser' (Hok' & Hp & Hn). by apply Hsame. }
  apply item_ok. eapply primitive_ok; [done..|]. unfold is_delimiter.
  repeat rewrite orb_false_iff in *. tauto.
Qed.

(** What [jsmn_parse] returns. *)
Definition parse_post (n : Z) (r : parsed) : Prop :=
  let '(rc, parser, tokens) := r in
  exists toks, tokens = Some toks /\ zlen toks = n /\ 0 <= toknext parser <= num_tokens /\
    (-3 <= rc < 0 \/
     rc = toknext parser /\
     forall j t, Z.of_nat j < rc -> toks !! j = Some t -> 0 <= tok_start t /\ tok_start t <= tok_end t <= len).

Lemma parse_ok fuel parser toks :
  parser_ok parser toks -> len - pos parser < Z.of_nat fuel ->
  owp exact (jsmn_parse fuel parser js len (Some toks) num_tokens) (parse_post (zlen toks)).
Proof.
  intros Hok Hf. unfold jsmn_parse, jsmn_round.
  apply (owp_oloop exact (fun '(p, tokens, count) => exists toks', tokens = Some toks' /\
      zlen toks' = zlen toks /\ parser_ok p toks' /\ count = toknext p /\ len - pos p < Z.of_nat fuel)
    (fun '(p, _, _) => Z.to_nat (len - pos p))); [by exists toks| |].
  2: { intros _. destruct Hok as (H1 & _). lia. }
  intros [[p tokens] count] (toks' & -> & Hn & Hok' & -> & Hf'). pose proof Hok' as (H1 & H2 & H3 & H4 & H5).
  assert (Hfin : owp exact (let! i := find_back is_open toks' (Z.to_nat (toknext p)) in
      Done (inr (if i =? -1 then toknext p else JSMN_ERROR_PART, p, Some toks') : jsmn_state + parsed))
    (fun r => match r with inl _ => False | inr r => parse_post (zlen toks) r end)).
  { apply owp_bind. eapply owp_mono; [apply find_back_spec; lia|]. intros i Hi. exists toks'.
    split; [done|]. split; [done|]. split; [done|]. destruct Hi as [[-> Hi]|[Hi _]].
    2: { left. destruct (i =? -1) eqn:E; [lia|]. unfold JSMN_ERROR_PART. lia. }
    right. split; [done|]. intros j t Hj Ht. change (-1 =? -1) with true in Hj. cbn iota in Hj. specialize (Hi j t ltac:(lia) Ht).
    destruct (H5 j t Hj Ht) as [Hs [[He _]|He]]; [|lia].
    unfold is_open in Hi. rewrite He in Hi. destruct (tok_start t =? -1) eqn:E; [lia|]. done. }
  assert (Hfin' := owp_mono exact _ _ (fun r => match r with
    | inl x => (let '(p0, tokens, count) := x in exists toks', tokens = Some toks' /\
        zlen toks' = zlen toks /\ parser_ok p0 toks' /\ count = toknext p0 /\
        len - pos p0 < Z.of_nat fuel) /\
        (m_total exact = true -> ((let '(p, _, _) := x in Z.to_nat (len - pos p)) < Z.to_nat (len - pos p))%nat)
    | inr r => parse_post (zlen toks) r end) Hfin ltac:(by intros [|])).
  destruct (pos p <? len) eqn:Ep; [|exact Hfin'].
  apply owp_bind. destruct (load_in js (pos p)) as [c Hc]; [lia|]. rewrite Hc. cbn [owp].
  destruct (c =? 0) eqn:E0; [exact Hfin'|]. apply owp_bind.
  eapply owp_mono; [apply (switch_ok fuel c p toks'); [done|lia|lia|done|lia]|].
  intros [[[p2 tok2] count2]|[[rc p2] tok2]].
  - intros (toks2 & -> & Hn2 & Hok2 & -> & Hp2). cbn [owp]. rewrite u32_id by lia. split; [|cbn; lia].
    exists toks2. split; [done|]. split; [lia|]. split; [apply parser_ok_pos; [done|lia]|]. cbn. lia.
  - intros (toks2 & -> & Hn2 & Hok2 & Hrc). exists toks2. split; [done|]. split; [lia|].
    split; [apply Hok2|]. by left.
Qed.

Lemma init_ok toks : num_tokens <= zlen toks -> parser_ok jsmn_init toks.
Proof.
  intros H. split; [cbn; lia|]. split; [cbn; lia|]. split; [done|]. split; [cbn; lia|].
  intros j t Hj. cbn in Hj. lia.
Qed.
End safety.

(** *** Termination, whatever the token array *)

Section finishes.
Context (js : bytes) (len num_tokens : Z).
Hypothesis Hlen : 0 <= len < 2147483647.

Lemma find_back_returns p toks n : owp total (find_back p toks n) (fun _ => True).
Proof.
  induction n as [|n IH]; cbn [find_back]; [done|]. apply owp_bind.
  eapply owp_mono; [apply aload_finishes|]. intros t _. by destruct (p t).
Qed.

(** A code that is no error leaves the parser where it was or further on, within the text. *)
Definition advanced (p : Z) (r : parsed) : Prop := r.1.1 < 0 \/ p <= pos r.1.2 < len.

Lemma new_token_returns parser toks start t k p :
  (forall r, pos r = pos parser -> p <= pos (k r) < len) ->
  owp total (new_token parser toks num_tokens start t k) (advanced p).
Proof.
  intros Hk. unfold new_token, jsmn_alloc_token. destruct (_ <=? _).
  { left. cbn. unfold JSMN_ERROR_NOMEM. lia. }
  apply owp_bind, owp_bind. eapply owp_mono; [apply aload_finishes|]. intros t0 _. apply owp_bind.
  eapply owp_mono; [apply astore_finishes|]. intros l _. cbn [owp]. apply owp_bind.
  eapply owp_mono; [apply astore_finishes|]. intros l2 _. right. by apply Hk.
Qed.

Lemma primitive_returns fuel parser toks c :
  0 <= pos parser < len -> len < Z.of_nat fuel ->
  load js (pos parser) = Done c -> c <> 0 -> is_delimiter c = false ->
  owp total (jsmn_parse_primitive fuel parser js len toks num_tokens) (advanced (pos parser)).
Proof.
  intros Hp Hf Hc Hc0 Hd. unfold jsmn_parse_primitive. apply owp_bind.
  apply (owp_oloop total (fun p => pos parser <= p <= len) (fun p => Z.to_nat (len - p))); [lia| |lia].
  intros p Hp2.
  assert (Hend : pos parser < p -> owp total (match toks with
      | Some toks => new_token (set_pos p parser) toks num_tokens (i32 (pos parser))
          (jsmn_fill_token JSMN_PRIMITIVE (i32 (pos parser)) (i32 p)) (fun q => set_pos (u32 (p - 1)) q)
      | None => Done (0, set_pos (u32 (p - 1)) (set_pos p parser), toks)
      end) (advanced (pos parser))).
  { intros Hlt. destruct toks as [toks|]; [apply new_token_returns; intros r _|right]; cbn;
      rewrite u32_id; lia. }
  destruct (Z.ltb_spec p len); [|cbn [owp]; apply Hend; lia].
  apply owp_bind. destruct (load js p) as [d| |] eqn:Ed; cbn [owp]; [|done|].
  2: { by pose proof (load_finishes js p) as H0; rewrite Ed in H0. }
  assert (Hne : d = 0 \/ is_delimiter d = true -> pos parser < p).
  { intros H0. destruct (decide (p = pos parser)) as [->|]; [|lia]. rewrite Hc in Ed. injection Ed as <-.
    destruct H0; congruence. }
  destruct (Z.eqb_spec d 0); [cbn [owp]; apply Hend, Hne; by left|].
  destruct (is_delimiter d); [cbn [owp]; apply Hend, Hne; by right|].
  destruct (_ || _); cbn [owp]; [left; cbn; unfold JSMN_ERROR_INVAL; lia|].
  rewrite u32_id by lia. split; [lia|]. intros _. lia.
Qed.

Lemma hex_returns n p :
  0 <= p <= len ->
  owp total (jsmn_hex n p js len) (fun r => match r with Some q => p <= q <= len | None => True end).
Proof.
  revert p. induction n as [|n IH]; intros p Hp; cbn [jsmn_hex]; [cbn; lia|].
  destruct (p <? len) eqn:E; [|cbn; lia]. apply owp_bind. eapply owp_mono; [apply load_finishes|].
  intros c _. destruct (c =? 0); [cbn; lia|]. destruct (negb _); [done|]. rewrite u32_id by lia.
  eapply owp_mono; [apply IH; lia|]. intros [q|]; [lia|done].
Qed.

Lemma string_round_returns p :
  0 <= p <= len -> owp total (jsmn_string_round js len p) (fun r => match r with
    | inl q => p < q <= len
    | inr (sQUOTE q) => q = p /\ q < len
    | inr _ => True
    end).
Proof.
  intros Hp. unfold jsmn_string_round. destruct (p <? len) eqn:E; [|done]. apply owp_bind.
  eapply owp_mono; [apply load_finishes|]. intros c _. destruct (c =? 0); [done|].
  destruct (c =? 34); [cbn; lia|]. rewrite !(u32_id (p + 1)) by lia. destruct ((c =? 92) && _) eqn:Eb.
  2: { cbn. lia. }
  apply owp_bind. eapply owp_mono; [apply load_finishes|]. intros d _.
  rewrite (u32_id (p + 1 + 1)) by lia. destruct (is_escaped d); [cbn; lia|].
  destruct (d =? 117); [|done]. apply owp_bind. eapply owp_mono; [apply hex_returns; lia|].
  intros [q|] Hq; [|done]. cbn [owp]. rewrite !u32_id; lia || (rewrite u32_id; lia).
Qed.

Lemma string_returns fuel parser toks :
  0 <= pos parser < len -> len < Z.of_nat fuel ->
  owp total (jsmn_parse_string fuel parser js len toks num_tokens) (advanced (pos parser)).
Proof.
  intros Hp Hf. unfold jsmn_parse_string. rewrite (u32_id (pos parser + 1)) by lia. apply owp_bind.
  apply (owp_oloop total (fun p => pos parser < p <= len) (fun p => Z.to_nat (len - p))); [lia| |lia].
  intros p Hp2. eapply owp_mono; [apply string_round_returns; lia|]. intros [q|[q| |]] Hq.
  - split; [lia|]. intros _. lia.
  - destruct toks as [toks|]; [|right; cbn; lia]. apply new_token_returns. intros r E. cbn in *. lia.
  - left. cbn. unfold JSMN_ERROR_INVAL. lia.
  - left. cbn. unfold JSMN_ERROR_PART. lia.
Qed.

Lemma count_child_returns parser toks : owp total (count_child parser toks) (fun _ => True).
Proof.
  unfold count_child. destruct toks as [toks|]; [|done]. destruct (_ =? _); [done|]. apply owp_bind.
  eapply owp_mono; [apply aload_finishes|]. intros t _. apply owp_bind.
  by eapply owp_mono; [apply astore_finishes|].
Qed.

(** A round that stays in the loop leaves the parser within the text. *)
Definition stays (p : Z) (r : jsmn_state + parsed) : Prop :=
  match r with inl (parser, _, _) => p <= pos parser < len | inr _ => True end.

Lemma item_returns p r count : owp total r (advanced p) -> owp total (jsmn_item r count) (stays p).
Proof.
  intros Hr. unfold jsmn_item. apply owp_bind. eapply owp_mono; [exact Hr|].
  intros [[rc parser] toks] Ha. destruct (Z.ltb_spec rc 0); [done|]. apply owp_bind.
  eapply owp_mono; [apply count_child_returns|]. intros o _. destruct Ha as [Ha|Ha]; cbn in *; lia.
Qed.

Lemma open_returns c parser toks count :
  pos parser < len -> owp total (jsmn_open c parser toks num_tokens count) (stays (pos parser)).
Proof.
  intros Hp. unfold jsmn_open, jsmn_alloc_token. destruct (_ <=? _); [done|]. apply owp_bind, owp_bind.
  eapply owp_mono; [apply aload_finishes|]. intros t0 _. apply owp_bind.
  eapply owp_mono; [apply astore_finishes|]. intros l _. cbn [owp]. apply owp_bind.
  eapply owp_mono; [apply count_child_returns|]. intros [l2|] _; [|done]. cbn [deref obind]. apply owp_bind.
  eapply owp_mono; [apply aload_finishes|]. intros t _. apply owp_bind.
  eapply owp_mono; [apply astore_finishes|]. intros l3 _. cbn. lia.
Qed.

Lemma close_returns c parser toks count :
  pos parser < len -> owp total (jsmn_close c parser toks count) (stays (pos parser)).
Proof.
  intros Hp. unfold jsmn_close. apply owp_bind. eapply owp_mono; [apply find_back_returns|]. intros i _.
  destruct (i =? -1); [done|]. apply owp_bind. eapply owp_mono; [apply aload_finishes|]. intros t _.
  destruct (decide _); [done|]. apply owp_bind. eapply owp_mono; [apply astore_finishes|]. intros l _.
  apply owp_bind. eapply owp_mono; [apply find_back_returns|]. intros k _. cbn. destruct (k =? -1); cbn; lia.
Qed.

Lemma switch_returns fuel c parser toks count :
  0 <= pos parser < len -> len < Z.of_nat fuel -> load js (pos parser) = Done c -> c <> 0 ->
  owp total (jsmn_switch fuel c js len num_tokens (parser, toks, count)) (stays (pos parser)).
Proof.
  intros Hp Hf Hc Hc0. unfold jsmn_switch.
  destruct ((c =? 123) || (c =? 91)); [destruct toks; [apply open_returns|cbn]; lia|].
  destruct ((c =? 125) || (c =? 93)) eqn:E2; [destruct toks; [apply close_returns|cbn]; lia|].
  destruct (c =? 34); [by apply item_returns, string_returns|].
  destruct ((c =? 9) || (c =? 13) || (c =? 10) || (c =? 32)) eqn:E4; [cbn; lia|].
  destruct (c =? 58) eqn:E5; [cbn; lia|].
  destruct (c =? 44) eqn:E6.
  - destruct toks as [toks|]; [|cbn; lia]. apply owp_bind. unfold jsmn_comma.
    destruct (_ =? -1); [cbn; lia|]. apply owp_bind. eapply owp_mono; [apply aload_finishes|]. intros t _.
    destruct (is_container t); [cbn; lia|]. apply owp_bind.
    eapply owp_mono; [apply find_back_returns|]. intros i _. destruct (i =? -1); cbn; lia.
  - apply item_returns. eapply primitive_returns; [done..|]. unfold is_delimiter.
    repeat rewrite orb_false_iff in *. tauto.
Qed.

(** The tokeniser returns on every text and for every token array, sound or not. *)
Lemma parse_returns fuel toks :
  len < Z.of_nat fuel ->
  owp total (jsmn_parse fuel jsmn_init js len toks num_tokens) (fun _ => True).
Proof.
  intros Hf. unfold jsmn_parse.
  apply (owp_oloop total (fun '(p, _, _) => 0 <= pos p <= len) (fun '(p, _, _) => Z.to_nat (len - pos p)));
    [cbn; lia| |intros _; cbn; lia].
  intros [[p tokens] count] Hp. unfold jsmn_round.
  assert (Hfin : owp total (match tokens with
    | Some toks => let! i := find_back is_open toks (Z.to_nat (toknext p)) in
        Done (inr (if i =? -1 then count else JSMN_ERROR_PART, p, tokens))
    | None => Done (inr (count, p, tokens))
    end) (fun r : jsmn_state + parsed => match r with
      | inl x => (let '(q, _, _) := x in 0 <= pos q <= len) /\
          (m_total total = true -> ((let '(q, _, _) := x in Z.to_nat (len - pos q)) < Z.to_nat (len - pos p))%nat)
      | inr _ => True
      end)).
  { destruct tokens as [l|]; [|done]. apply owp_bind. by eapply owp_mono; [apply find_back_returns|]. }
  destruct (Z.ltb_spec (pos p) len); [|exact Hfin]. apply owp_bind.
  destruct (load js (pos p)) as [c| |] eqn:Ec; cbn [owp]; [|done|].
  2: { by pose proof (load_finishes js (pos p)) as H0; rewrite Ec in H0. }
  destruct (Z.eqb_spec c 0); [exact Hfin|]. apply owp_bind.
  eapply owp_mono; [apply (switch_returns fuel c p); [lia|lia|done|done]|]. intros [[[p2 t2] n2]|r]; [|done].
  cbn. intros Hs. rewrite u32_id by lia. split; [lia|]. intros _. lia.
Qed.
End finishes.

(** *** Counting *)

(** Two results agree when the first is an error, or the second stands at the same position. *)
Definition counts_as (r1 r2 : outcome parsed) : Prop :=
  forall rc p toks, r1 = Done (rc, p, toks) -> 0 <= rc ->
    is_Some toks /\ exists q, r2 = Done (rc, q, None) /\ pos q = pos p.

Lemma new_token_counts q parser toks num start t k n :
  (forall r, pos r = pos parser -> pos (k r) = n) -> pos q = n ->
  counts_as (new_token parser toks num start t k) (Done (0, q, None)).
Proof.
  intros Hk Hq rc p o H Hrc. unfold new_token in H. apply obind_done in H as (a & H & H').
  destruct a as [[[i p1] toks1]|]; [|injection H' as <- _ _; unfold JSMN_ERROR_NOMEM in Hrc; lia].
  apply obind_done in H' as (toks2 & _ & [= <- <- <-]). split; [by eexists|]. exists q. split; [done|].
  unfold jsmn_alloc_token in H. destruct (_ <=? _); [done|].
  apply obind_done in H as (t0 & _ & H). apply obind_done in H as (toks3 & _ & [= _ <- _]).
  rewrite Hk; done.
Qed.

Lemma string_counts fuel p q js len toks num num' :
  pos q = pos p ->
  counts_as (jsmn_parse_string fuel p js len (Some toks) num) (jsmn_parse_string fuel q js len None num').
Proof.
  intros Hpos. unfold jsmn_parse_string. rewrite Hpos.
  destruct (oloop _ _ _) as [[n| |]| |]; cbn [obind].
  - by eapply new_token_counts.
  - intros rc p' o [= <- _ _]. unfold JSMN_ERROR_INVAL. lia.
  - intros rc p' o [= <- _ _]. unfold JSMN_ERROR_PART. lia.
  - done.
  - done.
Qed.

Lemma primitive_counts fuel p q js len toks num num' :
  pos q = pos p ->
  counts_as (jsmn_parse_primitive fuel p js len (Some toks) num)
    (jsmn_parse_primitive fuel q js len None num').
Proof.
  intros Hpos. unfold jsmn_parse_primitive. rewrite Hpos.
  destruct (oloop _ _ _) as [[n|]| |]; cbn [obind]; [|intros rc p' o [= <- _ _]|done|done].
  - apply (new_token_counts _ _ _ _ _ _ (fun r => set_pos (u32 (n - 1)) r) (u32 (n - 1))); done.
  - unfold JSMN_ERROR_INVAL. lia.
Qed.

Definition round_counts (r1 r2 : outcome (jsmn_state + parsed)) : Prop :=
  match r1 with
  | Done (inl (p, tokens, count)) => is_Some tokens /\
      exists q, r2 = Done (inl (q, None, count)) /\ pos q = pos p
  | Done (inr (rc, _, _)) => 0 <= rc -> exists q, r2 = Done (inr (rc, q, None))
  | _ => True
  end.

Lemma item_counts r1 r2 count :
  counts_as r1 r2 -> round_counts (jsmn_item r1 count) (jsmn_item r2 count).
Proof.
  intros H. unfold jsmn_item. destruct r1 as [[[rc p] o]| |]; [|done|done]. cbn [obind].
  destruct (rc <? 0) eqn:E; [cbn; lia|].
  destruct (H rc p o eq_refl ltac:(lia)) as ([toks ->] & q & -> & Hq). cbn [obind]. rewrite E.
  unfold count_child at 2. cbn [obind]. destruct (count_child p (Some toks)) as [o'| |] eqn:Ec; [|done|done].
  cbn [obind round_counts]. split; [|by exists q]. unfold count_child in Ec.
  destruct (_ =? -1); [injection Ec as <-; by eexists|].
  apply obind_done in Ec as (t & _ & Ec). apply obind_done in Ec as (toks' & _ & [= <-]). by eexists.
Qed.

Lemma open_counts c p q toks num count :
  pos q = pos p ->
  round_counts (jsmn_open c p toks num count) (Done (inl (q, None, count))).
Proof.
  intros Hpos. unfold jsmn_open, jsmn_alloc_token. destruct (num <=? toknext p).
  { cbn [obind round_counts]. unfold JSMN_ERROR_NOMEM. lia. }
  destruct (aload toks _) as [t0| |]; [|done|done]. cbn [obind].
  destruct (astore toks _ _) as [toks1| |]; [|done|done]. cbn [obind].
  destruct (count_child _ _) as [o| |]; [|done|done]. cbn [obind].
  destruct o as [toks2|]; [|done]. cbn [deref obind].
  destruct (aload toks2 _) as [t2| |]; [|done|done]. cbn [obind].
  destruct (astore toks2 _ _) as [toks3| |]; [|done|done]. cbn [obind round_counts].
  split; [by eexists|]. by exists q.
Qed.

Lemma close_counts c p q toks count :
  pos q = pos p -> round_counts (jsmn_close c p toks count) (Done (inl (q, None, count))).
Proof.
  intros Hpos. unfold jsmn_close. destruct (find_back _ _ _) as [i| |]; [|done|done]. cbn [obind].
  destruct (i =? -1); [cbn; unfold JSMN_ERROR_INVAL; lia|].
  destruct (aload toks i) as [t| |]; [|done|done]. cbn [obind].
  destruct (decide _); [cbn; unfold JSMN_ERROR_INVAL; lia|].
  destruct (astore toks i _) as [toks'| |]; [|done|done]. cbn [obind].
  destruct (find_back _ _ _) as [j| |]; [|done|done]. cbn [obind round_counts].
  split; [by eexists|]. exists q. split; [done|]. by destruct (j =? -1).
Qed.

Lemma round_counts_ok fuel js len num num' p q toks count :
  pos q = pos p ->
  round_counts (jsmn_round fuel js len num (p, Some toks, count))
    (jsmn_round fuel js len num' (q, None, count)).
Proof.
  intros Hpos. unfold jsmn_round. rewrite Hpos.
  assert (Hfin : round_counts
    (let! i := find_back is_open toks (Z.to_nat (toknext p)) in
     Done (inr (if i =? -1 then count else JSMN_ERROR_PART, p, Some toks)))
    (Done (inr (count, q, None)))).
  { destruct (find_back _ _ _) as [i| |]; [|done|done]. cbn [obind round_counts].
    destruct (i =? -1); [by exists q|]. unfold JSMN_ERROR_PART. lia. }
  destruct (pos p <? len); [|exact Hfin]. destruct (load js (pos p)) as [c| |]; [|done|done]. cbn [obind].
  destruct (c =? 0); [exact Hfin|].
  assert (Hs : round_counts (jsmn_switch fuel c js len num (p, Some toks, count))
    (jsmn_switch fuel c js len num' (q, None, count))).
  { clear Hfin. unfold jsmn_switch. destruct (_ || _); [by apply open_counts|]. destruct (_ || _); [by apply close_counts|].
    destruct (c =? 34); [by apply item_counts, string_counts|].
    destruct (_ || _); [split; [by eexists|by exists q]|].
    destruct (c =? 58); [split; [by eexists|by eexists]|].
    destruct (c =? 44); [|by apply item_counts, primitive_counts].
    unfold jsmn_comma. destruct (toksuper p =? -1); [split; [by eexists|by exists q]|].
    destruct (aload toks _) as [t| |]; [|exact I|exact I]. cbn [obind].
    destruct (is_container t); [split; [by eexists|by exists q]|].
    destruct (find_back _ _ _) as [i| |]; [|exact I|exact I]. cbn [obind].
    destruct (i =? -1); (split; [by eexists|by exists q]). }
  destruct (jsmn_switch fuel c js len num (p, Some toks, count)) as [[[[p1 o1] n1]|[[rc p1] o1]]| |];
    [..|done|done]; cbn [obind round_counts] in *.
  - destruct Hs as (Ho & q1 & -> & Hq). cbn [obind]. split; [done|]. eexists. split; [done|]. cbn. by rewrite Hq.
  - intros Hrc. destruct (Hs Hrc) as [q1 ->]. by exists q1.
Qed.

Lemma parse_counts fuel0 js len num num' fuel : forall p q toks count rc p' o,
  pos q = pos p ->
  oloop fuel (jsmn_round fuel0 js len num) (p, Some toks, count) = Done (rc, p', o) -> 0 <= rc ->
  exists q', oloop fuel (jsmn_round fuel0 js len num') (q, None, count) = Done (rc, q', None).
Proof.
  induction fuel as [|fuel IH]; intros p q toks count rc p' o Hpos H Hrc; [done|]. cbn [oloop] in *.
  pose proof (round_counts_ok fuel0 js len num num' p q toks count Hpos) as Hr.
  destruct (jsmn_round fuel0 js len num (p, Some toks, count)) as [[[[p1 o1] n1]|[[rc1 p1] o1]]| |];
    [..|done|done]; cbn [obind round_counts] in *.
  - destruct Hr as ([toks1 ->] & q1 & -> & Hq). cbn [obind]. by eapply IH.
  - injection H as -> -> ->. destruct (Hr Hrc) as [q1 ->]. by exists q1.
Qed.

(** The whole parse, from a fresh parser. *)
Lemma jsmn_parse_in_bounds (fuel : nat) (js : bytes) (len : Z) (toks : list jsmntok_t) (num_tokens : Z) :
  0 <= len < 2147483647 -> len <= zlen js -> 0 <= num_tokens < 2147483647 ->
  num_tokens <= zlen toks -> len < Z.of_nat fuel ->
  exists rc parser toks', jsmn_parse fuel jsmn_init js len (Some toks) num_tokens
      = Done (rc, parser, Some toks') /\
    zlen toks' = zlen toks /\
    (rc = JSMN_ERROR_NOMEM \/ rc = JSMN_ERROR_INVAL \/ rc = JSMN_ERROR_PART \/
     0 <= rc <= num_tokens /\ rc = toknext parser /\
     forall j t, Z.of_nat j < rc -> toks' !! j = Some t -> 0 <= tok_start t /\ tok_start t <= tok_end t <= len).
Proof.
  intros H1 H2 H3 H4 H5.
  destruct (owp_exact _ _ (parse_ok js len num_tokens H1 H2 H3 fuel jsmn_init toks
    ltac:(by apply init_ok) ltac:(cbn; lia))) as ([[rc p] o] & E & toks' & -> & Hl & Hn & Hrc).
  exists rc, p, toks'. split; [done|]. split; [done|].
  unfold JSMN_ERROR_NOMEM, JSMN_ERROR_INVAL, JSMN_ERROR_PART.
  destruct Hrc as [|[-> Hr]]; [lia|]. right. right. right. by split.
Qed.

(** ** Properties *)

(** C33: on every text of [len] readable bytes and every token array, both of fewer than 2^31 - 1 elements,
    [jsmn_parse] terminates without
    reading outside the text or writing outside the array; it returns one of its three error codes
    or the number of tokens it has stored, and every token it reports lies within the text, its start
    before its end, no object or array left open. *)
Theorem jsmn_parse_safe (fuel : nat) (js : bytes) (len : Z) (toks : list jsmntok_t) (num_tokens : Z) :
  0 <= len < 2147483647 -> len <= zlen js -> 0 <= num_tokens < 2147483647 ->
  num_tokens <= zlen toks -> len < Z.of_nat fuel ->
  exists rc parser toks', jsmn_parse fuel jsmn_init js len (Some toks) num_tokens
      = Done (rc, parser, Some toks') /\
    zlen toks' = zlen toks /\
    (rc = JSMN_ERROR_NOMEM \/ rc = JSMN_ERROR_INVAL \/ rc = JSMN_ERROR_PART \/
     0 <= rc <= num_tokens /\ rc = toknext parser /\
     forall j t, Z.of_nat j < rc -> toks' !! j = Some t -> 0 <= tok_start t /\ tok_start t <= tok_end t <= len).
Proof. apply jsmn_parse_in_bounds. Qed.

Lemma jsmn_parse_safe_witness :
  let js := [123; 34; 97; 34; 58; 91; 49; 93; 125] in
  exists rc parser toks', jsmn_parse 10 jsmn_init js 9 (Some (replicate 4 blank)) 4
      = Done (rc, parser, Some toks') /\
    zlen toks' = 4 /\
    (rc = JSMN_ERROR_NOMEM \/ rc = JSMN_ERROR_INVAL \/ rc = JSMN_ERROR_PART \/
     0 <= rc <= 4 /\ rc = toknext parser /\
     forall j t, Z.of_nat j < rc -> toks' !! j = Some t -> 0 <= tok_start t /\ tok_start t <= tok_end t <= 9).
Proof.
  apply (jsmn_parse_safe 10 [123; 34; 97; 34; 58; 91; 49; 93; 125] 9 (replicate 4 blank) 4);
    vm_compute; (split || idtac); congruence.
Defined.

(** Counting agrees with parsing: when [jsmn_parse] fills a token array without an error, the same
    call with a NULL array returns the same number, so that number is the size of array to provide. *)
Theorem jsmn_count_agrees (fuel : nat) (js : bytes) (len num_tokens num_tokens' : Z)
    (toks : list jsmntok_t) rc parser tokens :
  jsmn_parse fuel jsmn_init js len (Some toks) num_tokens = Done (rc, parser, tokens) -> 0 <= rc ->
  exists parser', jsmn_parse fuel jsmn_init js len None num_tokens' = Done (rc, parser', None).
Proof. intros H Hrc. exact (parse_counts _ _ _ _ num_tokens' _ _ jsmn_init _ _ _ _ _ eq_refl H Hrc). Qed.

Lemma jsmn_count_agrees_witness :
  exists parser', jsmn_parse 10 jsmn_init [123; 34; 97; 34; 58; 49; 125] 7 None 0 = Done (3, parser', None).
Proof.
  apply (jsmn_count_agrees 10 [123; 34; 97; 34; 58; 49; 125] 7 3 0 (replicate 3 blank) 3
    (mkParser 7 3 (-1))
    (Some [mkTok JSMN_OBJECT 0 7 1; mkTok JSMN_STRING 2 3 1; mkTok JSMN_PRIMITIVE 5 6 0])).
  - reflexivity.
  - lia.
Defined.
