(* ===== verification/JsonUtils.v ===== *)
(** * Reading values out of JSON tokens: src/aws_iot_json_utils.c

    The functions the shadow code uses on the tokens [Jsmn] produces.  [jsonString] are the bytes
    readable from the text's address.  A function that stores through a pointer takes the value stored
    there before and returns the one stored there afterwards.  The conversions of [sscanf] that the code
    uses are modelled after the C standard: %u reads a decimal number, %i a decimal, octal or
    hexadecimal one, and a number the object cannot hold is undefined behaviour.  The floating-point
    types and their conversions are parameters. *)

From S2P Require Export Types Jsmn.

(** ** The C library *)

(** A pointer into an object, as the bytes from there on. *)
Definition from (m : bytes) (p : Z) : outcome bytes :=
  if (0 <=? p) && (p <=? zlen m) then Done (drop (Z.to_nat p) m) else Undef.

Definition isspace (c : Z) : bool := (c =? 32) || ((9 <=? c) && (c <=? 13)).

Fixpoint skip_spaces (s : bytes) : bytes :=
  match s with
  | c :: s' => if isspace c then skip_spaces s' else s
  | [] => []
  end.

Definition digit (base c : Z) : option Z :=
  let d := if (48 <=? c) && (c <=? 57) then c - 48
           else if (97 <=? c) && (c <=? 122) then c - 87
           else if (65 <=? c) && (c <=? 90) then c - 55
           else 36 in
  if d <? base then Some d else None.

(** The longest sequence of digits; [None] when there is no digit. *)
Fixpoint scan_digits (base acc : Z) (seen : bool) (s : bytes) : option Z :=
  match s with
  | c :: s' =>
      match digit base c with
      | Some d => scan_digits base (acc * base + d) true s'
      | None => if seen then Some acc else None
      end
  | [] => if seen then Some acc else None
  end.

(** The subject of %u ([auto] is false) and of %i, whose base depends on the prefix. *)
Definition scan_number (auto : bool) (s : bytes) : option Z :=
  match s with
  | c :: x :: s' =>
      if auto && (c =? 48) then
        if (x =? 120) || (x =? 88) then scan_digits 16 0 false s' else scan_digits 8 0 false s
      else scan_digits 10 0 false s
  | _ => scan_digits 10 0 false s
  end.

(** [sscanf(s, "%u" or "%i", &i)] for an object that holds the integers from [lo] up to [hi]: the number
    of conversions and the value of [i] afterwards.  Undefined when [s] has no NUL. *)
Definition sscanf_int (auto : bool) (lo hi : Z) (s : bytes) (i : Z) : outcome (Z * Z) :=
  let! n := strlen s in
  let s := skip_spaces (take (Z.to_nat n) s) in
  let r :=
    match s with
    | c :: s' =>
        if c =? 45 then option_map Z.opp (scan_number auto s')
        else if c =? 43 then scan_number auto s'
        else scan_number auto s
    | [] => None
    end in
  match r with
  | None => Done (0, i)
  | Some v => if (lo <=? v) && (v <? hi) then Done (1, v) else Undef
  end.

(** ** The code *)

Definition jsoneq (json : bytes) (tok : jsmntok_t) (s : option bytes) : outcome Z :=
  if decide (tok_type tok = JSMN_STRING) then
    let! s := deref s in
    let! n := strlen s in
    if n =? tok_end tok - tok_start tok then
      let! t := from json (tok_start tok) in
      let! same := strncmp_eq (Z.to_nat (tok_end tok - tok_start tok)) t s in
      if (same : bool) then Done 0 else Done (-1)
    else Done (-1)
  else Done (-1).

Definition parseUnsignedInteger32Value (i : Z) (jsonString : bytes) (token : jsmntok_t)
    : outcome (IoT_Error_t * Z) :=
  if decide (tok_type token <> JSMN_PRIMITIVE) then Done (JSON_PARSE_ERROR, i)
  else
    let! c := load jsonString (tok_start token) in
    if c =? 45 then Done (JSON_PARSE_ERROR, i)
    else
      let! s := from jsonString (tok_start token) in
      let! (n, i) := sscanf_int false 0 4294967296 s i in
      if negb (1 =? n) then Done (JSON_PARSE_ERROR, i) else Done (SUCCESS, i).

Definition parseUnsignedInteger16Value (i : Z) (jsonString : bytes) (token : jsmntok_t)
    : outcome (IoT_Error_t * Z) :=
  if decide (tok_type token <> JSMN_PRIMITIVE) then Done (JSON_PARSE_ERROR, i)
  else
    let! c := load jsonString (tok_start token) in
    if c =? 45 then Done (JSON_PARSE_ERROR, i)
    else
      let! s := from jsonString (tok_start token) in
      let! (n, i) := sscanf_int false 0 65536 s i in
      if negb (1 =? n) then Done (JSON_PARSE_ERROR, i) else Done (SUCCESS, i).

Definition parseUnsignedInteger8Value (i : Z) (jsonString : bytes) (token : jsmntok_t)
    : outcome (IoT_Error_t * Z) :=
  if decide (tok_type token <> JSMN_PRIMITIVE) then Done (JSON_PARSE_ERROR, i)
  else
    let! c := load jsonString (tok_start token) in
    if c =? 45 then Done (JSON_PARSE_ERROR, i)
    else
      let! s := from jsonString (tok_start token) in
      let! (n, i) := sscanf_int false 0 256 s i in
      if negb (1 =? n) then Done (JSON_PARSE_ERROR, i) else Done (SUCCESS, i).

Definition parseInteger32Value (i : Z) (jsonString : bytes) (token : jsmntok_t)
    : outcome (IoT_Error_t * Z) :=
  if decide (tok_type token <> JSMN_PRIMITIVE) then Done (JSON_PARSE_ERROR, i)
  else
    let! s := from jsonString (tok_start token) in
    let! (n, i) := sscanf_int true (-2147483648) 2147483648 s i in
    if negb (1 =? n) then Done (JSON_PARSE_ERROR, i) else Done (SUCCESS, i).

Definition parseInteger16Value (i : Z) (jsonString : bytes) (token : jsmntok_t)
    : outcome (IoT_Error_t * Z) :=
  if decide (tok_type token <> JSMN_PRIMITIVE) then Done (JSON_PARSE_ERROR, i)
  else
    let! s := from jsonString (tok_start token) in
    let! (n, i) := sscanf_int true (-32768) 32768 s i in
    if negb (1 =? n) then Done (JSON_PARSE_ERROR, i) else Done (SUCCESS, i).

Definition parseInteger8Value (i : Z) (jsonString : bytes) (token : jsmntok_t)
    : outcome (IoT_Error_t * Z) :=
  if decide (tok_type token <> JSMN_PRIMITIVE) then Done (JSON_PARSE_ERROR, i)
  else
    let! s := from jsonString (tok_start token) in
    let! (n, i) := sscanf_int true (-128) 128 s i in
    if negb (1 =? n) then Done (JSON_PARSE_ERROR, i) else Done (SUCCESS, i).

(** The floating-point types, the conversions %f and %lf of [sscanf] on a string (the value stored, if
    there is a number) and those of [printf]. *)
Class FloatingPoint := {
  float : Type;
  double : Type;
  scan_f : bytes -> option float;
  scan_lf : bytes -> option double;
  print_f : float -> bytes;
  print_lf : double -> bytes
}.

Section floating_point.
Context {fp : FloatingPoint}.

Definition parseFloatValue (f : float) (jsonString : bytes) (token : jsmntok_t)
    : outcome (IoT_Error_t * float) :=
  if decide (tok_type token <> JSMN_PRIMITIVE) then Done (JSON_PARSE_ERROR, f)
  else
    let! s := from jsonString (tok_start token) in
    let! n := strlen s in
    match scan_f (take (Z.to_nat n) s) with
    | None => Done (JSON_PARSE_ERROR, f)
    | Some f => Done (SUCCESS, f)
    end.

Definition parseDoubleValue (d : double) (jsonString : bytes) (token : jsmntok_t)
    : outcome (IoT_Error_t * double) :=
  if decide (tok_type token <> JSMN_PRIMITIVE) then Done (JSON_PARSE_ERROR, d)
  else
    let! s := from jsonString (tok_start token) in
    let! n := strlen s in
    match scan_lf (take (Z.to_nat n) s) with
    | None => Done (JSON_PARSE_ERROR, d)
    | Some d => Done (SUCCESS, d)
    end.

End floating_point.

(** [jsonString[p] == s[0] && jsonString[p + 1] == s[1] && ...]: no byte is read after one that
    differs. *)
Fixpoint bytes_at (jsonString : bytes) (p : Z) (s : bytes) : outcome bool :=
  match s with
  | [] => Done true
  | b :: s' =>
      let! c := load jsonString p in
      if c =? b then bytes_at jsonString (p + 1) s' else Done false
  end.

Definition parseBooleanValue (b : bool) (jsonString : bytes) (token : jsmntok_t)
    : outcome (IoT_Error_t * bool) :=
  if decide (tok_type token <> JSMN_PRIMITIVE) then Done (JSON_PARSE_ERROR, b)
  else
    let! is_true := bytes_at jsonString (tok_start token) [116; 114; 117; 101] in
    if (is_true : bool) then Done (SUCCESS, true)
    else
      let! is_false := bytes_at jsonString (tok_start token) [102; 97; 108; 115; 101] in
      if (is_false : bool) then Done (SUCCESS, false) else Done (JSON_PARSE_ERROR, b).

Definition parseStringValue (buf : bytes) (jsonString : bytes) (token : jsmntok_t)
    : outcome (IoT_Error_t * bytes) :=
  if decide (tok_type token <> JSMN_STRING) then Done (JSON_PARSE_ERROR, buf)
  else
    let size := u16 (tok_end token - tok_start token) in
    let! d := load_list jsonString (tok_start token) size in
    let! buf := store buf 0 d in
    let! buf := store buf size [0] in
    Done (SUCCESS, buf).

(** ** Specification: numbers as text *)

(** The decimal digits of a number below [10^k]. *)
Fixpoint decimal_digits (k : nat) (n : Z) : bytes :=
  match k with
  | O => []
  | S k => (if n <? 10 then [] else decimal_digits k (n / 10)) ++ [48 + n mod 10]
  end.

Definition decimal (n : Z) : bytes :=
  if n <? 0 then 45 :: decimal_digits 10 (- n) else decimal_digits 10 n.

(** What a decimal numeral is, said by its value: digits of which the first is not 0 unless it is the only
    one, behind a minus sign when the number is negative. *)
Definition numeral_value (v : bytes) : Z := fold_left (fun a c => 10 * a + (c - 48)) v 0.

Definition natural_numeral (n : Z) (v : bytes) : Prop :=
  Forall (fun c => 48 <= c <= 57) v /\ numeral_value v = n /\
  match v with [] => False | c :: v => c = 48 -> v = [] end.

Definition numeral (n : Z) (v : bytes) : Prop :=
  if n <? 0 then exists u, v = 45 :: u /\ natural_numeral (- n) u else natural_numeral n v.

(** What may follow a number: neither a digit nor the x of a hexadecimal number. *)
Definition number_ends (after : bytes) : Prop :=
  match after with
  | c :: _ => digit 10 c = None /\ c <> 120 /\ c <> 88
  | [] => True
  end.

(** ** Lemmas *)

Lemma decimal_digits_head k n :
  0 <= n < 10 ^ Z.of_nat k -> (0 < k)%nat ->
  exists c s, decimal_digits k n = c :: s /\ 48 <= c <= 57 /\ (n <> 0 -> c <> 48) /\ (n = 0 -> s = []).
Proof.
  revert n. induction k as [|k IH]; intros n Hn Hk; [lia|]. cbn [decimal_digits].
  rewrite Nat2Z.inj_succ, Z.pow_succ_r in Hn by lia.
  destruct (Z.ltb_spec n 10).
  - rewrite Z.mod_small by lia. exists (48 + n), []. split; [done|]. split; [lia|]. split; [lia|done].
  - pose proof (Z.div_mod n 10 ltac:(lia)). pose proof (Z.mod_pos_bound n 10 ltac:(lia)).
    destruct k as [|k]; [change (10 ^ Z.of_nat 0) with 1 in Hn; lia|].
    destruct (IH (n / 10)) as (c & s & -> & Hc & Hc0 & _); [nia|lia|].
    exists c, (s ++ [48 + n mod 10]). split; [done|]. split; [done|]. split; [|intros; lia]. intros _. apply Hc0. lia.
Qed.

Lemma numeral_value_app u c : numeral_value (u ++ [c]) = 10 * numeral_value u + (c - 48).
Proof. unfold numeral_value. by rewrite fold_left_app. Qed.

Lemma numeral_value_nonneg v : Forall (fun c => 48 <= c <= 57) v -> 0 <= numeral_value v.
Proof.
  induction v as [|c v IH] using rev_ind; intros H; [done|]. apply Forall_app in H as [H1 H2].
  apply Forall_cons_1 in H2 as [Hc _]. rewrite numeral_value_app. specialize (IH H1). lia.
Qed.

(** A numeral of more than one digit is above 0 without its last digit. *)
Lemma numeral_value_pos c v : Forall (fun c => 48 <= c <= 57) (c :: v) -> c <> 48 -> 0 < numeral_value (c :: v).
Proof.
  induction v as [|x v IH] using rev_ind; intros H Hc.
  - apply Forall_cons_1 in H as [H _]. cbn. lia.
  - rewrite app_comm_cons in *. apply Forall_app in H as [H1 H2]. apply Forall_cons_1 in H2 as [Hx _].
    rewrite numeral_value_app. specialize (IH H1 Hc). lia.
Qed.

Lemma natural_numeral_digits v : forall k n, natural_numeral n v -> n < 10 ^ Z.of_nat k -> (0 < k)%nat ->
  decimal_digits k n = v.
Proof.
  induction v as [|c v IH] using rev_ind; intros k n (Hd & Hv & Hz) Hn Hk; [done|].
  destruct k as [|k]; [lia|]. cbn [decimal_digits]. apply Forall_app in Hd as [Hd Hc].
  apply Forall_cons_1 in Hc as [Hc _]. rewrite numeral_value_app in Hv.
  rewrite Nat2Z.inj_succ, Z.pow_succ_r in Hn by lia. destruct v as [|x v].
  - cbn [app] in *. cbn in Hv. destruct (Z.ltb_spec n 10); [|lia]. cbn [app]. f_equal. rewrite Z.mod_small; lia.
  - assert (Hx : x <> 48) by (intros ->; cbn [app] in Hz; specialize (Hz eq_refl); by destruct v).
    pose proof (numeral_value_pos x v Hd Hx) as Hpos. destruct (Z.ltb_spec n 10); [lia|].
    assert (E : n / 10 = numeral_value (x :: v)) by (symmetry; apply (Z.div_unique _ _ _ (c - 48)); lia).
    assert (Em : n mod 10 = c - 48) by (symmetry; apply (Z.mod_unique _ _ (numeral_value (x :: v))); lia).
    rewrite E, Em. f_equal; [|f_equal; lia]. destruct k as [|k]; [change (10 ^ Z.of_nat 0) with 1 in Hn; lia|].
    apply IH; [|lia|lia]. split; [done|]. split; [done|]. cbn. intros ->. by destruct Hx.
Qed.

Lemma decimal_digits_numeral k n : 0 <= n < 10 ^ Z.of_nat k -> (0 < k)%nat -> natural_numeral n (decimal_digits k n).
Proof.
  intros Hn Hk. split; [|split].
  - clear Hk. revert n Hn. induction k as [|k IH]; intros n Hn; [constructor|]. cbn [decimal_digits].
    rewrite Nat2Z.inj_succ, Z.pow_succ_r in Hn by lia. pose proof (Z.mod_pos_bound n 10). apply Forall_app.
    split; [|by repeat constructor; lia]. destruct (n <? 10); [constructor|]. apply IH.
    split; [apply Z.div_pos; lia|apply Z.div_lt_upper_bound; lia].
  - revert n Hn. induction k as [|k IH]; intros n Hn; [lia|]. cbn [decimal_digits].
    rewrite Nat2Z.inj_succ, Z.pow_succ_r in Hn by lia. rewrite numeral_value_app.
    pose proof (Z.div_mod n 10 ltac:(lia)). destruct (Z.ltb_spec n 10).
    + cbn. rewrite Z.mod_small; lia.
    + destruct k as [|k]; [change (10 ^ Z.of_nat 0) with 1 in Hn; lia|].
      rewrite IH; [lia|lia|]. split; [apply Z.div_pos; lia|apply Z.div_lt_upper_bound; lia].
  - destruct (decimal_digits_head k n Hn Hk) as (c & s & -> & _ & Hc & Hs). intros E.
    apply Hs. destruct (decide (n = 0)) as [|Hn0]; [done|]. by destruct (Hc Hn0).
Qed.

Lemma decimal_numeral n : -10000000000 < n < 10000000000 -> numeral n (decimal n).
Proof.
  intros Hn. unfold numeral, decimal. destruct (Z.ltb_spec n 0); [eexists; split; [done|]|];
    (apply decimal_digits_numeral; [change (10 ^ Z.of_nat 10) with 10000000000; lia|lia]).
Qed.

(** The only numeral of a number is what %d prints. *)
Lemma numeral_decimal n v : -10000000000 < n < 10000000000 -> numeral n v -> v = decimal n.
Proof.
  intros Hn. unfold numeral, decimal. destruct (Z.ltb_spec n 0); [intros (u & -> & Hu); f_equal|intros Hu]; symmetry;
    (apply natural_numeral_digits; [done|change (10 ^ Z.of_nat 10) with 10000000000; lia|lia]).
Qed.

Lemma scan_decimal_digits k : forall n s,
  0 <= n < 10 ^ Z.of_nat k -> (0 < k)%nat ->
  scan_digits 10 0 false (decimal_digits k n ++ s) = scan_digits 10 n true s.
Proof.
  assert (Hd : forall acc seen d s, 0 <= d < 10 ->
    scan_digits 10 acc seen ((48 + d) :: s) = scan_digits 10 (acc * 10 + d) true s).
  { intros acc seen d s Hd. cbn [scan_digits]. unfold digit.
    destruct (_ && _) eqn:E; [|lia]. replace (48 + d - 48) with d by lia.
    by destruct (Z.ltb_spec d 10); [|lia]. }
  induction k as [|k IH]; intros n s Hn Hk; [lia|]. cbn [decimal_digits].
  rewrite Nat2Z.inj_succ, Z.pow_succ_r in Hn by lia.
  pose proof (Z.div_mod n 10 ltac:(lia)). pose proof (Z.mod_pos_bound n 10 ltac:(lia)).
  destruct (Z.ltb_spec n 10).
  - cbn [app]. rewrite Hd by lia. f_equal. rewrite Z.mod_small; lia.
  - destruct k as [|k]; [change (10 ^ Z.of_nat 0) with 1 in Hn; lia|]. rewrite <- app_assoc, IH by lia.
    cbn [app]. rewrite Hd by lia. f_equal. lia.
Qed.

Lemma scan_digits_ends base v after :
  base <= 10 -> number_ends after -> scan_digits base v true after = Some v.
Proof.
  intros Hb Ha. destruct after as [|c after]; [done|]. destruct Ha as [Ha _]. cbn [scan_digits].
  unfold digit in *. destruct (_ <? 10) eqn:E; [done|]. destruct (_ <? base) eqn:E2; [lia|done].
Qed.

Lemma scan_number_decimal auto n after :
  0 <= n < 10000000000 -> number_ends after ->
  scan_number auto (decimal_digits 10 n ++ after) = Some n.
Proof.
  intros Hn Ha. destruct (decimal_digits_head 10 n ltac:(lia) ltac:(lia)) as (c & s & E & Hc & Hc0 & Hn0).
  assert (Hdec : scan_digits 10 0 false (decimal_digits 10 n ++ after) = Some n).
  { rewrite scan_decimal_digits by lia. by apply scan_digits_ends. }
  rewrite E in *. cbn [app] in *. unfold scan_number. destruct (s ++ after) as [|x s'] eqn:Es; [done|].
  destruct (auto && (c =? 48)) eqn:Ea; [|done]. apply andb_prop in Ea as [_ Ec].
  assert (n = 0) as -> by lia. rewrite (Hn0 eq_refl) in Es. cbn [app] in Es. rewrite Es in Ha.
  destruct Ha as (Hx & Hx1 & Hx2). destruct (_ || _) eqn:E2; [lia|].
  assert (c = 48) as -> by lia. change (scan_digits 8 0 false (48 :: x :: s')) with
    (scan_digits 8 0 true (x :: s')).
  apply scan_digits_ends; [lia|]. done.
Qed.

Lemma decimal_digits_no_nul k n : 0 <= n -> no_nul (decimal_digits k n).
Proof.
  revert n. induction k as [|k IH]; intros n Hn; [constructor|]. cbn [decimal_digits]. apply Forall_app. split.
  - destruct (n <? 10); [constructor|apply IH; by apply Z.div_pos].
  - repeat constructor. pose proof (Z.mod_pos_bound n 10 ltac:(lia)). lia.
Qed.

Lemma decimal_no_nul n : no_nul (decimal n).
Proof. unfold decimal. destruct (Z.ltb_spec n 0); [constructor; [done|]|]; apply decimal_digits_no_nul; lia. Qed.

(** [sscanf] on a number in decimal notation. *)
Lemma sscanf_decimal auto lo hi n i after rest :
  -10000000000 < n < 10000000000 -> no_nul after -> number_ends after ->
  sscanf_int auto lo hi (decimal n ++ after ++ 0 :: rest) i =
    if (lo <=? n) && (n <? hi) then Done (1, n) else Undef.
Proof.
  intros Hn Hnul Ha. unfold sscanf_int.
  pose proof (decimal_no_nul n) as Hdn.
  replace (decimal n ++ after ++ 0 :: rest) with (cstr (decimal n ++ after) ++ rest)
    by (unfold cstr; by rewrite <- !app_assoc).
  rewrite strlen_cstr by (by apply Forall_app). cbn [obind].
  unfold cstr. rewrite <- !app_assoc, app_assoc, zlen_to_nat, take_app_length.
  unfold decimal. destruct (Z.ltb_spec n 0).
  - cbn [app skip_spaces]. change (isspace 45) with false. cbv iota. change (45 =? 45) with true. cbv iota.
    rewrite scan_number_decimal by (lia || done). cbn [option_map]. by rewrite Z.opp_involutive.
  - destruct (decimal_digits_head 10 n ltac:(lia) ltac:(lia)) as (c & s & E & Hc & _).
    pose proof (scan_number_decimal auto n after ltac:(lia) Ha) as Hs. rewrite E in *. cbn [app skip_spaces] in *.
    assert (isspace c = false) as -> by (unfold isspace; lia).
    destruct (Z.eqb_spec c 45); [lia|]. destruct (Z.eqb_spec c 43); [lia|]. by rewrite Hs.
Qed.

Lemma from_app (pre post : bytes) : from (pre ++ post) (zlen pre) = Done post.
Proof.
  unfold from. rewrite zlen_app. pose proof (zlen_nonneg pre). pose proof (zlen_nonneg post).
  destruct (_ && _) eqn:E; [|lia]. by rewrite zlen_to_nat, drop_app_length.
Qed.

(** Comparing a token of a text with a key. *)
Lemma jsoneq_spec (key text pre post keypost : bytes) (tok : jsmntok_t) :
  no_nul key -> no_nul text -> tok_start tok = zlen pre -> tok_end tok = zlen pre + zlen text ->
  jsoneq (pre ++ text ++ post) tok (Some (cstr key ++ keypost)) =
    Done (if decide (tok_type tok = JSMN_STRING) then if decide (text = key) then 0 else -1 else -1).
Proof.
  intros Hk Ht Hs He. unfold jsoneq. destruct (decide (tok_type tok = JSMN_STRING)); [|done].
  cbn [deref obind]. rewrite strlen_cstr by done. cbn [obind]. rewrite Hs, He.
  replace (zlen pre + zlen text - zlen pre) with (zlen text) by lia.
  destruct (Z.eqb_spec (zlen key) (zlen text)) as [E|E].
  - rewrite from_app. cbn [obind]. rewrite zlen_to_nat.
    assert (El : length key = length text) by (unfold zlen in E; lia).
    rewrite strncmp_eq_take.
    + cbn [obind]. rewrite take_app_length, <- El. unfold cstr. rewrite <- app_assoc, take_app_length.
      destruct (bool_decide_reflect (text = key)); by destruct (decide (text = key)).
    + rewrite length_app. lia.
    + unfold cstr. rewrite !length_app. lia.
    + by rewrite take_app_length.
  - destruct (decide (text = key)); [congruence|done].
Qed.

(** ** Properties *)

(** Each unsigned parser reads the decimal text of every number its object can hold back to that
    number; a number one too large or larger is undefined behaviour (the conversion is not
    range-checked); a negative number and a token that is no primitive are refused and the object is
    not touched. *)
Theorem parse_unsigned_decimal (n i : Z) (pre after rest : bytes) (tok : jsmntok_t) :
  0 <= n < 10000000000 -> no_nul after -> number_ends after -> tok_start tok = zlen pre ->
  Forall (fun '(parse, hi) =>
    (tok_type tok = JSMN_PRIMITIVE ->
      parse i (pre ++ decimal n ++ after ++ 0 :: rest) tok = (if n <? hi then Done (SUCCESS, n) else Undef) /\
      parse i (pre ++ 45 :: rest) tok = Done (JSON_PARSE_ERROR, i)) /\
    (tok_type tok <> JSMN_PRIMITIVE -> forall js, parse i js tok = Done (JSON_PARSE_ERROR, i)))
  [(parseUnsignedInteger32Value, 4294967296); (parseUnsignedInteger16Value, 65536);
   (parseUnsignedInteger8Value, 256)].
Proof.
  intros Hn Hnul Ha Hs.
  destruct (decimal_digits_head 10 n ltac:(lia) ltac:(lia)) as (c & s & E & Hc & _).
  assert (Ed : decimal n = c :: s) by (unfold decimal; destruct (Z.ltb_spec n 0); [lia|done]).
  pose proof (fun lo hi => sscanf_decimal false lo hi n i after rest ltac:(lia) Hnul Ha) as Hsc.
  rewrite Ed in *. cbn [app] in *.
  apply Forall_cons_2; [|apply Forall_cons_2; [|apply Forall_cons_2; [|constructor]]]; split; intros Ht.
  all: unfold parseUnsignedInteger32Value, parseUnsignedInteger16Value, parseUnsignedInteger8Value;
    rewrite ?Hs; try intros js.
  all: destruct (decide (tok_type tok <> JSMN_PRIMITIVE)); try done; split.
  all: rewrite load_app; cbn [obind].
  all: try (by change (45 =? 45) with true).
  all: destruct (Z.eqb_spec c 45); [lia|]; rewrite from_app; cbn [obind]; rewrite Hsc.
  all: destruct (Z.leb_spec 0 n); [|lia]; cbn [andb]; by destruct (n <? _).
Qed.

Definition sample_token (type : jsmntype_t) : jsmntok_t := mkTok type 1 4 0.

(** [{257}] *)
Lemma parse_unsigned_decimal_witness :
  parseUnsignedInteger16Value 9 [123; 50; 53; 55; 125; 0] (sample_token JSMN_PRIMITIVE) = Done (SUCCESS, 257) /\
  parseUnsignedInteger8Value 9 [123; 50; 53; 55; 125; 0] (sample_token JSMN_PRIMITIVE) = Undef.
Proof.
  pose proof (parse_unsigned_decimal 257 9 [123] [125] [] (sample_token JSMN_PRIMITIVE)
    ltac:(lia) ltac:(by repeat constructor) ltac:(by repeat constructor) eq_refl) as H.
  apply Forall_cons_1 in H as [_ H]. apply Forall_cons_1 in H as [H16 H].
  apply Forall_cons_1 in H as [H8 _].
  split; [exact (proj1 (proj1 H16 eq_refl))|exact (proj1 (proj1 H8 eq_refl))].
Defined.

(** Each signed parser reads the decimal text, with its sign, of every number its object can hold
    back to that number, although the conversion it uses also knows octal and hexadecimal numbers; a
    number outside the object's range is undefined behaviour; a token that is no primitive is refused
    and the object is not touched. *)
Theorem parse_signed_decimal (n i : Z) (pre after rest : bytes) (tok : jsmntok_t) :
  -10000000000 < n < 10000000000 -> no_nul after -> number_ends after -> tok_start tok = zlen pre ->
  Forall (fun '(parse, half) =>
    (tok_type tok = JSMN_PRIMITIVE ->
      parse i (pre ++ decimal n ++ after ++ 0 :: rest) tok =
        (if (- half <=? n) && (n <? half) then Done (SUCCESS, n) else Undef)) /\
    (tok_type tok <> JSMN_PRIMITIVE -> forall js, parse i js tok = Done (JSON_PARSE_ERROR, i)))
  [(parseInteger32Value, 2147483648); (parseInteger16Value, 32768); (parseInteger8Value, 128)].
Proof.
  intros Hn Hnul Ha Hs.
  pose proof (fun lo hi => sscanf_decimal true lo hi n i after rest Hn Hnul Ha) as Hsc.
  apply Forall_cons_2; [|apply Forall_cons_2; [|apply Forall_cons_2; [|constructor]]]; split; intros Ht.
  all: unfold parseInteger32Value, parseInteger16Value, parseInteger8Value; rewrite ?Hs; try intros js.
  all: destruct (decide (tok_type tok <> JSMN_PRIMITIVE)); try done.
  all: rewrite from_app; cbn [obind]; rewrite Hsc; cbn [Z.opp]; by destruct (_ && _).
Qed.

(** [:-12,] *)
Lemma parse_signed_decimal_witness :
  parseInteger32Value 9 [58; 45; 49; 50; 44; 0] (sample_token JSMN_PRIMITIVE) = Done (SUCCESS, -12).
Proof.
  pose proof (parse_signed_decimal (-12) 9 [58] [44] [] (sample_token JSMN_PRIMITIVE)
    ltac:(lia) ltac:(by repeat constructor) ltac:(by repeat constructor) eq_refl) as H.
  apply Forall_cons_1 in H as [H32 _]. exact (proj1 H32 eq_refl).
Defined.

(** Comparing and copying the text of a token.  [jsoneq] answers 0 exactly for a string token whose
    text is the key; [parseStringValue] copies the text of a string token of up to 65535 bytes and a
    NUL to the start of the buffer, whatever else the buffer holds; its only bound is the buffer the
    caller gives: a buffer that cannot hold the text and the NUL is overrun. *)
Theorem string_tokens (key text pre post keypost buf : bytes) (tok : jsmntok_t) :
  no_nul key -> no_nul text -> tok_start tok = zlen pre -> tok_end tok = zlen pre + zlen text ->
  jsoneq (pre ++ text ++ post) tok (Some (cstr key ++ keypost)) =
    Done (if decide (tok_type tok = JSMN_STRING) then if decide (text = key) then 0 else -1 else -1) /\
  (zlen text < 65536 -> tok_type tok = JSMN_STRING ->
   parseStringValue buf (pre ++ text ++ post) tok =
     if zlen text <? zlen buf
     then Done (SUCCESS, cstr text ++ drop (S (length text)) buf) else Undef).
Proof.
  intros Hk Ht Hs He. pose proof (zlen_nonneg text) as Hl. split; [by apply jsoneq_spec|].
  intros Hu Hstr. unfold parseStringValue. destruct (decide (tok_type tok <> JSMN_STRING)); [done|].
  rewrite Hs, He. replace (zlen pre + zlen text - zlen pre) with (zlen text) by lia.
  rewrite u16_id by lia. cbv zeta. rewrite load_list_app by done. cbn [obind].
  destruct (Z.ltb_spec (zlen text) (zlen buf)) as [Hb|Hb].
  - rewrite store_zero by lia. cbn [obind].
    destruct (drop (length text) buf) as [|b0 bs] eqn:Ed.
    { exfalso. apply (f_equal length) in Ed. rewrite length_drop in Ed. unfold zlen in Hb. simpl in Ed. lia. }
    change (b0 :: bs) with ([b0] ++ bs). rewrite (store_split text [b0] bs [0]) by done. cbn [obind].
    do 2 f_equal. unfold cstr. rewrite <- app_assoc. do 2 f_equal.
    replace (S (length text)) with (length text + 1)%nat by lia. by rewrite <- drop_drop, Ed.
  - destruct (decide (zlen text = zlen buf)) as [E|E].
    * rewrite store_zero by lia. cbn [obind]. rewrite store_out; [done|].
      rewrite zlen_app. unfold zlen in *. rewrite length_drop. simpl. lia.
    * by rewrite store_out by (unfold zlen in *; lia).
Qed.

(** ["abc":] and the key abc *)
Lemma string_tokens_witness :
  jsoneq [34; 97; 98; 99; 34; 58; 0] (sample_token JSMN_STRING) (Some [97; 98; 99; 0]) = Done 0 /\
  parseStringValue [1; 2; 3; 4; 5] [34; 97; 98; 99; 34; 58; 0] (sample_token JSMN_STRING) =
    Done (SUCCESS, [97; 98; 99; 0; 5]).
Proof.
  assert (Hn : no_nul [97; 98; 99]) by (repeat (apply Forall_cons_2; [done|]); constructor).
  destruct (string_tokens [97; 98; 99] [97; 98; 99] [34] [34; 58; 0] [] [1; 2; 3; 4; 5]
    (sample_token JSMN_STRING) Hn Hn eq_refl eq_refl) as [H1 H2].
  split; [exact H1|]. apply H2; done.
Defined.
