(* ===== verification/ShadowJson.v ===== *)
(** * Reading a received shadow document: src/aws_iot_shadow_json.c

    The half of the file that reads JSON: parsing a document into the static token array, finding a key
    and converting its value, the client token and the version.  The functions that write documents are
    in [ShadowDocument]. *)

From S2P Require Export JsonUtils.

Definition MAX_JSON_TOKEN_EXPECTED : Z := 120.

(** "clientToken" and "version" *)
Definition SHADOW_CLIENT_TOKEN_STRING : bytes := [99; 108; 105; 101; 110; 116; 84; 111; 107; 101; 110; 0].
Definition SHADOW_VERSION_STRING : bytes := [118; 101; 114; 115; 105; 111; 110; 0].

Inductive JsonPrimitiveType : Set :=
  | SHADOW_JSON_INT32
  | SHADOW_JSON_INT16
  | SHADOW_JSON_INT8
  | SHADOW_JSON_UINT32
  | SHADOW_JSON_UINT16
  | SHADOW_JSON_UINT8
  | SHADOW_JSON_FLOAT
  | SHADOW_JSON_DOUBLE
  | SHADOW_JSON_BOOL
  | SHADOW_JSON_STRING
  | SHADOW_JSON_OBJECT.

(** The file's static variables. *)
Record shadow_json := mkShadowJson {
  shadowJsonParser : jsmn_parser;
  jsonTokenStruct : list jsmntok_t
}.

Section shadow_json.
Context {fp : FloatingPoint}.

(** What [pData] of a [jsonStruct_t] points to. *)
Inductive json_data : Type :=
  | data_int (i : Z)
  | data_float (f : float)
  | data_double (d : double)
  | data_bool (b : bool)
  | data_string (buf : bytes).

Record jsonStruct_t := mkJsonStruct {
  pKey : option bytes;
  pData : option json_data;
  js_type : JsonPrimitiveType;
  cb : option fnptr
}.

(** Parsing into the static tokens, common to three functions: [Some tokenCount] when the text is a JSON
    object. *)
Definition parse_object (fuel : nat) (pJsonDocument : bytes) (s : shadow_json)
    : outcome (option Z * shadow_json) :=
  let! n := strlen pJsonDocument in
  let! (tokenCount, parser, tokens) :=
    jsmn_parse fuel jsmn_init pJsonDocument n (Some (jsonTokenStruct s)) MAX_JSON_TOKEN_EXPECTED in
  let! tokens := deref tokens in
  let s := mkShadowJson parser tokens in
  if tokenCount <? 0 then Done (None, s)
  else if tokenCount <? 1 then Done (None, s)
  else
    let! t := aload tokens 0 in
    if decide (tok_type t <> JSMN_OBJECT) then Done (None, s) else Done (Some tokenCount, s).

(** Returns the result, [*pTokenCount] and the static variables. *)
Definition isJsonValidAndParse (fuel : nat) (pJsonDocument : bytes) (pTokenCount : Z) (s : shadow_json)
    : outcome (bool * Z * shadow_json) :=
  let! (r, s) := parse_object fuel pJsonDocument s in
  match r with
  | None => Done (false, pTokenCount, s)
  | Some tokenCount => Done (true, tokenCount, s)
  end.

Definition isReceivedJsonValid (fuel : nat) (pJsonDocument : bytes) (s : shadow_json)
    : outcome (bool * shadow_json) :=
  let! (r, s) := parse_object fuel pJsonDocument s in
  match r with
  | None => Done (false, s)
  | Some _ => Done (true, s)
  end.

Definition UpdateValueIfNoObject (pJsonString : bytes) (pDataStruct : jsonStruct_t) (token : jsmntok_t)
    : outcome (IoT_Error_t * option json_data) :=
  match js_type pDataStruct, pData pDataStruct with
  | SHADOW_JSON_BOOL, Some (data_bool b) =>
      let! (ret_val, b) := parseBooleanValue b pJsonString token in Done (ret_val, Some (data_bool b))
  | SHADOW_JSON_INT32, Some (data_int i) =>
      let! (ret_val, i) := parseInteger32Value i pJsonString token in Done (ret_val, Some (data_int i))
  | SHADOW_JSON_INT16, Some (data_int i) =>
      let! (ret_val, i) := parseInteger16Value i pJsonString token in Done (ret_val, Some (data_int i))
  | SHADOW_JSON_INT8, Some (data_int i) =>
      let! (ret_val, i) := parseInteger8Value i pJsonString token in Done (ret_val, Some (data_int i))
  | SHADOW_JSON_UINT32, Some (data_int i) =>
      let! (ret_val, i) := parseUnsignedInteger32Value i pJsonString token in Done (ret_val, Some (data_int i))
  | SHADOW_JSON_UINT16, Some (data_int i) =>
      let! (ret_val, i) := parseUnsignedInteger16Value i pJsonString token in Done (ret_val, Some (data_int i))
  | SHADOW_JSON_UINT8, Some (data_int i) =>
      let! (ret_val, i) := parseUnsignedInteger8Value i pJsonString token in Done (ret_val, Some (data_int i))
  | SHADOW_JSON_FLOAT, Some (data_float f) =>
      let! (ret_val, f) := parseFloatValue f pJsonString token in Done (ret_val, Some (data_float f))
  | SHADOW_JSON_DOUBLE, Some (data_double d) =>
      let! (ret_val, d) := parseDoubleValue d pJsonString token in Done (ret_val, Some (data_double d))
  | SHADOW_JSON_STRING, Some (data_string buf) =>
      let! (ret_val, buf) := parseStringValue buf pJsonString token in Done (ret_val, Some (data_string buf))
  | SHADOW_JSON_OBJECT, data => Done (SUCCESS, data)
  | _, _ => Undef
  end.

(** [for(i = i0; i < i0 + n; i++) if(jsoneq(json, &jsonTokenStruct[i], key) == 0) ...]: the first match. *)
Fixpoint find_key (n : nat) (i : Z) (json : bytes) (tokens : list jsmntok_t)
    (key : option bytes) : outcome (option Z) :=
  match n with
  | O => Done None
  | S n =>
      let! t := aload tokens i in
      let! c := jsoneq json t key in
      if c =? 0 then Done (Some i) else find_key n (i + 1) json tokens key
  end.

(** Returns the result, the data, [*pDataLength] and [*pDataPosition]. *)
Definition isJsonKeyMatchingAndUpdateValue (pJsonDocument : bytes) (tokenCount : Z)
    (pDataStruct : jsonStruct_t) (pDataLength pDataPosition : Z) (s : shadow_json)
    : outcome (bool * option json_data * Z * Z) :=
  let! r := find_key (Z.to_nat (tokenCount - 1)) 1 pJsonDocument (jsonTokenStruct s) (pKey pDataStruct) in
  match r with
  | None => Done (false, pData pDataStruct, pDataLength, pDataPosition)
  | Some i =>
      let! dataToken := aload (jsonTokenStruct s) (i + 1) in
      let dataLength := u32 (tok_end dataToken - tok_start dataToken) in
      let! (rc, data) := UpdateValueIfNoObject pJsonDocument pDataStruct dataToken in
      Done (true, data, dataLength, tok_start dataToken)
  end.

(** [strncpy(dst, src, n)]: the bytes stored. *)
Fixpoint strncpy_bytes (n : nat) (src : bytes) : outcome bytes :=
  match n with
  | O => Done []
  | S n =>
      match src with
      | [] => Undef
      | b :: src => if b =? 0 then Done (0 :: replicate n 0)
                    else let! d := strncpy_bytes n src in Done (b :: d)
      end
  end.

Definition extractClientToken (fuel : nat) (pJsonDocument pExtractedClientToken : bytes) (s : shadow_json)
    : outcome (bool * bytes * shadow_json) :=
  let! (r, s) := parse_object fuel pJsonDocument s in
  match r with
  | None => Done (false, pExtractedClientToken, s)
  | Some tokenCount =>
      let! r := find_key (Z.to_nat (tokenCount - 1)) 1 pJsonDocument (jsonTokenStruct s)
                  (Some SHADOW_CLIENT_TOKEN_STRING) in
      match r with
      | None => Done (false, pExtractedClientToken, s)
      | Some i =>
          let! ClientJsonToken := aload (jsonTokenStruct s) (i + 1) in
          let length := u8 (tok_end ClientJsonToken - tok_start ClientJsonToken) in
          let! src := from pJsonDocument (tok_start ClientJsonToken) in
          let! d := strncpy_bytes (Z.to_nat length) src in
          let! buf := store pExtractedClientToken 0 d in
          let! buf := store buf length [0] in
          Done (true, buf, s)
      end
  end.

(** The loop of [extractVersionNumber]: a key whose value is no number does not end it. *)
Fixpoint find_version (n : nat) (i : Z) (json : bytes) (tokens : list jsmntok_t) (version : Z)
    : outcome (bool * Z) :=
  match n with
  | O => Done (false, version)
  | S n =>
      let! t := aload tokens i in
      let! c := jsoneq json t (Some SHADOW_VERSION_STRING) in
      if c =? 0 then
        let! v := aload tokens (i + 1) in
        let! (ret_val, version) := parseUnsignedInteger32Value version json v in
        if decide (ret_val = SUCCESS) then Done (true, version)
        else find_version n (i + 1) json tokens version
      else find_version n (i + 1) json tokens version
  end.

Definition extractVersionNumber (pJsonDocument : bytes) (tokenCount pVersionNumber : Z) (s : shadow_json)
    : outcome (bool * Z) :=
  find_version (Z.to_nat (tokenCount - 1)) 1 pJsonDocument (jsonTokenStruct s) pVersionNumber.
End shadow_json.

(** ** Specification: looking up a key *)

Definition token_text (text : bytes) (t : jsmntok_t) : bytes :=
  take (Z.to_nat (tok_end t - tok_start t)) (drop (Z.to_nat (tok_start t)) text).

(** A string token that spells the key. *)
Definition is_key (text key : bytes) (t : jsmntok_t) : bool :=
  bool_decide (tok_type t = JSMN_STRING) && bool_decide (token_text text t = key).

(** The first token from index [i] on, of those before [i + n], that spells the key. *)
Definition first_key (text key : bytes) (tokens : list jsmntok_t) (n i : nat) (r : option nat) : Prop :=
  match r with
  | Some j => (i <= j < i + n)%nat /\ (exists t, tokens !! j = Some t /\ is_key text key t = true) /\
      forall k t, (i <= k < j)%nat -> tokens !! k = Some t -> is_key text key t = false
  | None => forall k t, (i <= k < i + n)%nat -> tokens !! k = Some t -> is_key text key t = false
  end.

(** The token lies within the text. *)
Definition within (text : bytes) (t : jsmntok_t) : Prop :=
  0 <= tok_start t /\ tok_start t <= tok_end t <= zlen text.

(** ** Lemmas *)

Lemma jsoneq_within text rest key keypost t :
  no_nul text -> no_nul key -> within text t ->
  jsoneq (cstr text ++ rest) t (Some (cstr key ++ keypost)) = Done (if is_key text key t then 0 else -1).
Proof.
  intros Ht Hk [H1 H2].
  destruct (split_at text (tok_start t) (tok_end t - tok_start t)) as (pre & mid & post & E & Hp & Hm);
    [lia|lia|lia|].
  assert (Etok : token_text text t = mid).
  { unfold token_text. rewrite <- Hm, <- Hp, !zlen_to_nat, E, drop_app_length. apply take_app_length. }
  unfold is_key. rewrite Etok.
  replace (cstr text ++ rest) with (pre ++ mid ++ post ++ 0 :: rest)
    by (unfold cstr; by rewrite E, <- !app_assoc).
  rewrite (jsoneq_spec key mid pre).
  - destruct (decide (tok_type t = JSMN_STRING)); [|by rewrite bool_decide_eq_false_2].
    rewrite bool_decide_eq_true_2 by done. cbn [andb].
    destruct (decide (mid = key)); [by rewrite bool_decide_eq_true_2|by rewrite bool_decide_eq_false_2].
  - done.
  - rewrite E in Ht. apply Forall_app in Ht as [_ Ht]. by apply Forall_app in Ht as [Ht _].
  - by rewrite Hp.
  - lia.
Qed.

Lemma find_key_spec text rest key keypost tokens n : forall i,
  no_nul text -> no_nul key ->
  (forall k, (i <= k < i + n)%nat -> exists t, tokens !! k = Some t /\ within text t) ->
  exists r, find_key n (Z.of_nat i) (cstr text ++ rest) tokens (Some (cstr key ++ keypost)) =
      Done (option_map Z.of_nat r) /\ first_key text key tokens n i r.
Proof.
  induction n as [|n IH]; intros i Ht Hk Hin; cbn [find_key].
  { exists None. split; [done|]. simpl. lia. }
  destruct (Hin i ltac:(lia)) as (t & Hi & Hw). unfold aload. destruct (Z.leb_spec 0 (Z.of_nat i)); [|lia].
  rewrite Nat2Z.id, Hi. cbn [deref obind]. rewrite jsoneq_within by done. cbn [obind].
  destruct (is_key text key t) eqn:E; [change (0 =? 0) with true|change (-1 =? 0) with false]; cbv iota.
  { exists (Some i). split; [done|]. split; [lia|]. split; [by exists t|]. lia. }
  replace (Z.of_nat i + 1) with (Z.of_nat (S i)) by lia.
  destruct (IH (S i) Ht Hk) as (r & -> & Hr); [intros k Hk'; apply Hin; lia|]. exists r. split; [done|].
  assert (Hfirst : forall k t2, k = i -> tokens !! k = Some t2 -> is_key text key t2 = false).
  { intros k t2 -> H2. congruence. }
  destruct r as [j|]; simpl in *.
  - destruct Hr as (H1 & H2 & H3). split; [lia|]. split; [done|]. intros k t2 Hk2 Hl.
    destruct (decide (k = i)); [by eapply Hfirst|]. apply (H3 k); [lia|done].
  - intros k t2 Hk2 Hl. destruct (decide (k = i)); [by eapply Hfirst|]. apply (Hr k); [lia|done].
Qed.

(** A document is parsed within bounds, and the tokens counted lie within it. *)
Lemma parse_object_spec fuel text rest s :
  no_nul text -> zlen text < 2147483647 -> zlen text < Z.of_nat fuel ->
  zlen (jsonTokenStruct s) = MAX_JSON_TOKEN_EXPECTED ->
  exists r s', parse_object fuel (cstr text ++ rest) s = Done (r, s') /\
    zlen (jsonTokenStruct s') = MAX_JSON_TOKEN_EXPECTED /\
    match r with
    | None => True
    | Some count => 1 <= count <= MAX_JSON_TOKEN_EXPECTED /\
        forall k, Z.of_nat k < count -> exists t, jsonTokenStruct s' !! k = Some t /\ within text t
    end.
Proof.
  intros Ht Hl Hf Hs. pose proof (zlen_nonneg text). unfold parse_object.
  rewrite strlen_cstr by done. cbn [obind].
  destruct (jsmn_parse_in_bounds fuel (cstr text ++ rest) (zlen text) (jsonTokenStruct s)
    MAX_JSON_TOKEN_EXPECTED) as (rc & p & toks & -> & Hlen & Hrc); [lia| |done| |done|].
  { unfold cstr. rewrite !zlen_app. pose proof (zlen_nonneg rest). change (zlen [0]) with 1. lia. }
  { lia. }
  cbn [obind deref]. rewrite Hs in Hlen.
  destruct (Z.ltb_spec rc 0); [by exists None, (mkShadowJson p toks)|].
  destruct (Z.ltb_spec rc 1); [by exists None, (mkShadowJson p toks)|].
  destruct Hrc as [->|[->|[->|(Hrc & _ & Hin)]]]; [done|done|done|].
  assert (Hall : forall k, Z.of_nat k < rc -> exists t, toks !! k = Some t /\ within text t).
  { intros k Hk. destruct (toks !! k) as [t|] eqn:E.
    - exists t. split; [done|]. by apply (Hin k).
    - apply lookup_ge_None in E. unfold zlen in Hlen. lia. }
  destruct (Hall O ltac:(lia)) as (t & E & _). unfold aload. change (0 <=? 0) with true. cbv iota.
  change (Z.to_nat 0) with O. rewrite E. cbn [deref obind].
  destruct (decide (tok_type t <> JSMN_OBJECT)); cbn [obind].
  - by exists None, (mkShadowJson p toks).
  - exists (Some rc), (mkShadowJson p toks). split; [done|]. split; [exact Hlen|]. split; [lia|exact Hall].
Qed.

(** ** Properties *)

(** C34: on every NUL-terminated document of fewer than 2^31 - 1 bytes a received text is parsed without undefined behaviour into the
    120 static tokens.  When it is a JSON object, looking up a key among its tokens finds the first
    string token that spells the key, wherever in the document it is nested, and converts the token
    after it, reporting that token's place; without such a token nothing changes; and when the token
    found is the last of the array the next one is read outside it. *)
Theorem shadow_key_lookup {fp : FloatingPoint} (fuel : nat) (text rest key keypost : bytes)
    (data : option json_data) (ty : JsonPrimitiveType) (callback : option fnptr)
    (len0 pos0 : Z) (s : shadow_json) :
  no_nul text -> zlen text < 2147483647 -> zlen text < Z.of_nat fuel ->
  zlen (jsonTokenStruct s) = MAX_JSON_TOKEN_EXPECTED -> no_nul key ->
  exists r s', parse_object fuel (cstr text ++ rest) s = Done (r, s') /\
    match r with
    | None => True
    | Some count => 1 <= count <= MAX_JSON_TOKEN_EXPECTED /\
        exists j, first_key text key (jsonTokenStruct s') (Z.to_nat (count - 1)) 1 j /\
          let ds := mkJsonStruct (Some (cstr key ++ keypost)) data ty callback in
          isJsonKeyMatchingAndUpdateValue (cstr text ++ rest) count ds len0 pos0 s' =
            match j with
            | None => Done (false, data, len0, pos0)
            | Some j =>
                match jsonTokenStruct s' !! S j with
                | None => Undef
                | Some v =>
                    let! (_, data') := UpdateValueIfNoObject (cstr text ++ rest) ds v in
                    Done (true, data', u32 (tok_end v - tok_start v), tok_start v)
                end
            end
    end.
Proof.
  intros Ht Hl Hf Hs Hk.
  destruct (parse_object_spec fuel text rest s Ht Hl Hf Hs) as (r & s' & E & Hl' & Hr).
  exists r, s'. split; [exact E|]. destruct r as [count|]; [|done]. destruct Hr as [Hc Hall].
  split; [done|].
  destruct (find_key_spec text rest key keypost (jsonTokenStruct s') (Z.to_nat (count - 1)) 1 Ht Hk)
    as (j & Ej & Hj); [intros k Hk'; apply Hall; lia|].
  exists j. split; [exact Hj|]. cbv zeta. unfold isJsonKeyMatchingAndUpdateValue. cbn [pKey pData].
  change 1 with (Z.of_nat 1) at 2. rewrite Ej. cbn [obind]. destruct j as [j|]; cbn [option_map]; [|done].
  unfold aload. destruct (Z.leb_spec 0 (Z.of_nat j + 1)); [|lia].
  replace (Z.to_nat (Z.of_nat j + 1)) with (S j) by lia.
  by destruct (jsonTokenStruct s' !! S j).
Qed.

(** Floating-point numbers that are never there. *)
#[local] Instance no_floats : FloatingPoint := {|
  float := unit; double := unit; scan_f _ := None; scan_lf _ := None;
  print_f _ := []; print_lf _ := []
|}.

(** [{"version":12}] *)
Definition sample_document : bytes :=
  [123; 34; 118; 101; 114; 115; 105; 111; 110; 34; 58; 49; 50; 125].

Lemma shadow_key_lookup_witness :
  exists r s', parse_object 100 (cstr sample_document ++ [])
      (mkShadowJson jsmn_init (replicate 120 blank)) = Done (r, s') /\
    match r with
    | None => True
    | Some count => 1 <= count <= MAX_JSON_TOKEN_EXPECTED /\
        exists j, first_key sample_document [118; 101; 114; 115; 105; 111; 110] (jsonTokenStruct s')
            (Z.to_nat (count - 1)) 1 j /\
          let ds := mkJsonStruct (Some (cstr [118; 101; 114; 115; 105; 111; 110] ++ [])) (Some (data_int 0))
            SHADOW_JSON_UINT32 None in
          isJsonKeyMatchingAndUpdateValue (cstr sample_document ++ []) count ds 0 0 s' =
            match j with
            | None => Done (false, Some (data_int 0), 0, 0)
            | Some j =>
                match jsonTokenStruct s' !! S j with
                | None => Undef
                | Some v =>
                    let! (_, data') := UpdateValueIfNoObject (cstr sample_document ++ []) ds v in
                    Done (true, data', u32 (tok_end v - tok_start v), tok_start v)
                end
            end
    end.
Proof.
  refine (shadow_key_lookup 100 sample_document [] [118; 101; 114; 115; 105; 111; 110] []
    (Some (data_int 0)) SHADOW_JSON_UINT32 None 0 0 (mkShadowJson jsmn_init (replicate 120 blank)) _ _ _ _ _).
  - repeat (apply Forall_cons_2; [done|]); constructor.
  - reflexivity.
  - reflexivity.
  - reflexivity.
  - repeat (apply Forall_cons_2; [done|]); constructor.
Defined.

(** What the lookup above finds. *)
Example sample_lookup :
  (let! (r, s) := parse_object 100 (cstr sample_document) (mkShadowJson jsmn_init (replicate 120 blank)) in
   isJsonKeyMatchingAndUpdateValue (cstr sample_document) 3
     (mkJsonStruct (Some SHADOW_VERSION_STRING) (Some (data_int 0)) SHADOW_JSON_UINT32 None) 0 0 s) =
  Done (true, Some (data_int 12), 2, 11).
Proof. vm_compute. reflexivity. Qed.
