(* ===== verification/ShadowDocument.v ===== *)
(** * Writing shadow documents: src/aws_iot_shadow_json.c

    The half of the file that builds JSON with [snprintf]: the state document with its sections, the
    client token and the two empty requests.  A document is a C string at the start of an object
    ([pJsonDocument]); the sequence number of the client token is the static variable
    [clientTokenNum]; [mqttClientID] is the array aws_iot_shadow_records.c defines.  The specification
    ([document_json], [spells]) is that of the JSON text, built from names and values. *)

From stdpp Require Import strings.
From S2P Require Export ShadowJson.

(** ** The C library *)

(** The argument of a %s. *)
Definition string_arg (s : option bytes) : outcome bytes :=
  let! m := deref s in
  let! n := strlen m in
  Done (take (Z.to_nat n) m).

(** [snprintf(m + p, size, ...)] with [text] the formatted text: the object and the value returned. *)
Definition snprintf (m : bytes) (p size : Z) (text : bytes) : outcome (bytes * Z) :=
  if size =? 0 then Done (m, i32 (zlen text))
  else
    let! m := store m p (take (Z.to_nat (size - 1)) text ++ [0]) in
    Done (m, i32 (zlen text)).

Definition sprintf (m : bytes) (p : Z) (text : bytes) : outcome bytes := store m p (text ++ [0]).

(** The conversion to [int8_t]. *)
Definition i8 (z : Z) : Z := (z + 128) mod 256 - 128.

(** ** Pieces of text *)

Definition quote : bytes := [34].
(** [{"state":{] *)
Definition state_open : bytes := [123; 34; 115; 116; 97; 116; 101; 34; 58; 123].
(** ["desired":{] and ["reported":{] *)
Definition desired_open : bytes := [34; 100; 101; 115; 105; 114; 101; 100; 34; 58; 123].
Definition reported_open : bytes := [34; 114; 101; 112; 111; 114; 116; 101; 100; 34; 58; 123].
(** [},] *)
Definition section_close : bytes := [125; 44].
(** The end of the state and the key "clientToken" with the quote that opens its value, and what closes
    value and document. *)
Definition token_open : bytes :=
  [125; 44; 32; 34; 99; 108; 105; 101; 110; 116; 84; 111; 107; 101; 110; 34; 58; 34].
Definition token_close : bytes := [34; 125].
(** The document up to the quote that opens the value of "clientToken". *)
Definition request_open : bytes :=
  [123; 34; 99; 108; 105; 101; 110; 116; 84; 111; 107; 101; 110; 34; 58; 34].
(** [true,] and [false,] *)
Definition true_text : bytes := [116; 114; 117; 101; 44].
Definition false_text : bytes := [102; 97; 108; 115; 101; 44].

(** ** The code *)

(** "%s-%d" with the client identifier and the sequence number, which is unsigned. *)
Definition client_token (mqttClientID : bytes) (clientTokenNum : Z) : outcome bytes :=
  let! id := string_arg (Some mqttClientID) in
  Done (id ++ 45 :: decimal (i32 clientTokenNum)).

(** Each function that writes a client token also returns [clientTokenNum] afterwards. *)
Definition FillWithClientToken (mqttClientID : bytes) (clientTokenNum : Z) (m : bytes) (p : Z)
    : outcome (bytes * Z) :=
  let! t := client_token mqttClientID clientTokenNum in
  let! m := sprintf m p t in
  Done (m, u32 (clientTokenNum + 1)).

Definition FillWithClientTokenSize (mqttClientID : bytes) (clientTokenNum : Z) (m : bytes)
    (p maxSizeOfJsonDocument : Z) : outcome (bytes * Z * Z) :=
  let! t := client_token mqttClientID clientTokenNum in
  let! (m, snPrintfReturn) := snprintf m p maxSizeOfJsonDocument t in
  Done (m, snPrintfReturn, u32 (clientTokenNum + 1)).

Definition emptyJsonWithClientToken (mqttClientID : bytes) (clientTokenNum : Z) (pJsonDocument : bytes)
    : outcome (bytes * Z) :=
  let! m := sprintf pJsonDocument 0 request_open in
  let! n := strlen m in
  let! (m, clientTokenNum) := FillWithClientToken mqttClientID clientTokenNum m n in
  let! n := strlen m in
  let! m := sprintf m n token_close in
  Done (m, clientTokenNum).

Definition aws_iot_shadow_internal_get_request_json (mqttClientID : bytes) (clientTokenNum : Z)
    (pJsonDocument : bytes) : outcome (bytes * Z) :=
  emptyJsonWithClientToken mqttClientID clientTokenNum pJsonDocument.

Definition aws_iot_shadow_internal_delete_request_json (mqttClientID : bytes) (clientTokenNum : Z)
    (pJsonDocument : bytes) : outcome (bytes * Z) :=
  emptyJsonWithClientToken mqttClientID clientTokenNum pJsonDocument.

Definition checkReturnValueOfSnPrintf (snPrintfReturn maxSizeOfJsonDocument : Z) : IoT_Error_t :=
  if snPrintfReturn <? 0 then SHADOW_JSON_ERROR
  else if maxSizeOfJsonDocument <=? snPrintfReturn then SHADOW_JSON_BUFFER_TRUNCATED
  else SUCCESS.

Definition aws_iot_shadow_init_json_document (pJsonDocument : option bytes)
    (maxSizeOfJsonDocument : Z) : outcome (IoT_Error_t * option bytes) :=
  match pJsonDocument with
  | None => Done (NULL_VALUE_ERROR, None)
  | Some m =>
      let! (m, snPrintfReturn) := snprintf m 0 maxSizeOfJsonDocument state_open in
      Done (checkReturnValueOfSnPrintf snPrintfReturn maxSizeOfJsonDocument, Some m)
  end.

Section documents.
Context {fp : FloatingPoint}.

(** The text of a value; a type without a branch prints nothing. *)
Definition data_text (type : JsonPrimitiveType) (pData : json_data) : outcome bytes :=
  match type, pData with
  | SHADOW_JSON_INT32, data_int i | SHADOW_JSON_INT16, data_int i | SHADOW_JSON_INT8, data_int i
  | SHADOW_JSON_UINT32, data_int i | SHADOW_JSON_UINT16, data_int i | SHADOW_JSON_UINT8, data_int i =>
      Done (decimal i ++ [44])
  | SHADOW_JSON_DOUBLE, data_double d => Done (print_lf d ++ [44])
  | SHADOW_JSON_FLOAT, data_float f => Done (print_f f ++ [44])
  | SHADOW_JSON_BOOL, data_bool b => Done (if b then true_text else false_text)
  | SHADOW_JSON_STRING, data_string buf =>
      let! s := string_arg (Some buf) in Done (quote ++ s ++ quote ++ [44])
  | _, _ => Undef
  end.

Definition convertDataToString (m : bytes) (p maxSizoStringBuffer : Z) (type : JsonPrimitiveType)
    (pData : json_data) : outcome (IoT_Error_t * bytes) :=
  if maxSizoStringBuffer =? 0 then Done (SHADOW_JSON_ERROR, m)
  else
    match type with
    | SHADOW_JSON_OBJECT => Done (checkReturnValueOfSnPrintf 0 maxSizoStringBuffer, m)
    | _ =>
        let! text := data_text type pData in
        let! (m, snPrintfReturn) := snprintf m p maxSizoStringBuffer text in
        Done (checkReturnValueOfSnPrintf snPrintfReturn maxSizoStringBuffer, m)
    end.

(** The loop over the variable arguments; returns the code that leaves the function, if any, the object
    and [remSizeOfJsonBuffer].  Taking an argument that was not given is undefined. *)
Fixpoint add_members (maxSizeOfJsonDocument count : Z) (pArgs : list (option jsonStruct_t)) (i : Z)
    (m : bytes) (remSizeOfJsonBuffer : Z) : outcome (option IoT_Error_t * bytes * Z) :=
  if i <? count then
    let! n := strlen m in
    let tempSize := u64 (maxSizeOfJsonDocument - n) in
    if tempSize <=? 1 then Done (Some SHADOW_JSON_ERROR, m, remSizeOfJsonBuffer)
    else
      let remSizeOfJsonBuffer := tempSize in
      match pArgs with
      | [] => Undef
      | None :: _ => Done (Some NULL_VALUE_ERROR, m, remSizeOfJsonBuffer)
      | Some pTemporary :: pArgs =>
          let! key := string_arg (pKey pTemporary) in
          let! n := strlen m in
          let! (m, snPrintfReturn) := snprintf m n remSizeOfJsonBuffer (quote ++ key ++ quote ++ [58]) in
          let ret_val := checkReturnValueOfSnPrintf snPrintfReturn remSizeOfJsonBuffer in
          if decide (ret_val <> SUCCESS) then Done (Some ret_val, m, remSizeOfJsonBuffer)
          else
            match pData pTemporary with
            | None => Done (Some NULL_VALUE_ERROR, m, remSizeOfJsonBuffer)
            | Some data =>
                let! n := strlen m in
                let! (ret_val, m) := convertDataToString m n remSizeOfJsonBuffer (js_type pTemporary) data in
                if decide (ret_val <> SUCCESS) then Done (Some ret_val, m, remSizeOfJsonBuffer)
                else add_members maxSizeOfJsonDocument count pArgs (i8 (i + 1)) m remSizeOfJsonBuffer
            end
      end
  else Done (None, m, remSizeOfJsonBuffer).

(** [aws_iot_shadow_add_desired] and [aws_iot_shadow_add_reported] differ in the section they open. *)
Definition add_section (open : bytes) (pJsonDocument : option bytes) (maxSizeOfJsonDocument count : Z)
    (pArgs : list (option jsonStruct_t)) : outcome (IoT_Error_t * option bytes) :=
  match pJsonDocument with
  | None => Done (NULL_VALUE_ERROR, None)
  | Some m =>
      let! n := strlen m in
      let tempSize := u64 (maxSizeOfJsonDocument - n) in
      if tempSize <=? 1 then Done (SHADOW_JSON_ERROR, Some m)
      else
        let remSizeOfJsonBuffer := tempSize in
        let! n := strlen m in
        let! (m, snPrintfReturn) := snprintf m n remSizeOfJsonBuffer open in
        let ret_val := checkReturnValueOfSnPrintf snPrintfReturn remSizeOfJsonBuffer in
        if decide (ret_val <> SUCCESS) then Done (ret_val, Some m)
        else
          let! (exit, m, remSizeOfJsonBuffer) :=
            add_members maxSizeOfJsonDocument count pArgs 0 m remSizeOfJsonBuffer in
          match exit with
          | Some ret_val => Done (ret_val, Some m)
          | None =>
              let! n := strlen m in
              let! (m, snPrintfReturn) := snprintf m (n - 1) remSizeOfJsonBuffer section_close in
              Done (checkReturnValueOfSnPrintf snPrintfReturn remSizeOfJsonBuffer, Some m)
          end
  end.

Definition aws_iot_shadow_add_desired := add_section desired_open.
Definition aws_iot_shadow_add_reported := add_section reported_open.
End documents.

Definition aws_iot_fill_with_client_token (mqttClientID : bytes) (clientTokenNum : Z)
    (pBufferToBeUpdatedWithClientToken : bytes) (maxSizeOfJsonDocument : Z)
    : outcome (IoT_Error_t * bytes * Z) :=
  let! (m, snPrintfRet, clientTokenNum) := FillWithClientTokenSize mqttClientID clientTokenNum
    pBufferToBeUpdatedWithClientToken 0 maxSizeOfJsonDocument in
  Done (checkReturnValueOfSnPrintf snPrintfRet maxSizeOfJsonDocument, m, clientTokenNum).

(** The end of the two functions: [k] goes on when room for more than a NUL is left. *)
Definition with_room {A : Type} (maxSizeOfJsonDocument : Z) (m : bytes) (full : A)
    (k : Z -> Z -> outcome A) : outcome A :=
  let! n := strlen m in
  let tempSize := u64 (maxSizeOfJsonDocument - n) in
  if tempSize <=? 1 then Done full else k n tempSize.

Definition aws_iot_finalize_json_document (mqttClientID : bytes) (clientTokenNum : Z)
    (pJsonDocument : option bytes) (maxSizeOfJsonDocument : Z)
    : outcome (IoT_Error_t * option bytes * Z) :=
  match pJsonDocument with
  | None => Done (NULL_VALUE_ERROR, None, clientTokenNum)
  | Some m =>
      with_room maxSizeOfJsonDocument m (SHADOW_JSON_ERROR, Some m, clientTokenNum) (fun n room =>
        let! (m, snPrintfReturn) := snprintf m (n - 1) room token_open in
        let ret_val := checkReturnValueOfSnPrintf snPrintfReturn room in
        if decide (ret_val <> SUCCESS) then Done (ret_val, Some m, clientTokenNum)
        else
          with_room maxSizeOfJsonDocument m (SHADOW_JSON_ERROR, Some m, clientTokenNum) (fun n room =>
            let! (m, snPrintfReturn, clientTokenNum) :=
              FillWithClientTokenSize mqttClientID clientTokenNum m n room in
            let ret_val := checkReturnValueOfSnPrintf snPrintfReturn room in
            if decide (ret_val <> SUCCESS) then Done (ret_val, Some m, clientTokenNum)
            else
              with_room maxSizeOfJsonDocument m (SHADOW_JSON_ERROR, Some m, clientTokenNum) (fun n room =>
                let! (m, snPrintfReturn) := snprintf m n room token_close in
                Done (checkReturnValueOfSnPrintf snPrintfReturn room, Some m, clientTokenNum))))
  end.

(** ** Lemmas: a string in a buffer *)

(** The object [m] of [n] bytes holds the C string [d]. *)
Definition holds (m d : bytes) (n : Z) : Prop :=
  zlen m = n /\ no_nul d /\ exists rest, m = cstr d ++ rest.

Lemma holds_strlen m d n : holds m d n -> strlen m = Done (zlen d).
Proof. intros (_ & Hd & rest & ->). by apply strlen_cstr. Qed.

Lemma string_arg_cstr s rest : no_nul s -> string_arg (Some (cstr s ++ rest)) = Done s.
Proof.
  intros Hs. unfold string_arg. cbn [deref obind]. rewrite strlen_cstr by done. cbn [obind].
  unfold cstr. by rewrite zlen_to_nat, <- app_assoc, take_app_length.
Qed.

(** Writing a text and its NUL over what follows the first [zlen d] bytes. *)
Lemma store_holds m d tail text n :
  holds m (d ++ tail) n -> no_nul text -> zlen tail <= zlen text -> zlen d + zlen text < n ->
  exists m', store m (zlen d) (text ++ [0]) = Done m' /\ holds m' (d ++ text) n.
Proof.
  intros (Hm & Hd & rest & ->) Ht Hl Hn. unfold cstr in *.
  replace (((d ++ tail) ++ [0]) ++ rest) with (d ++ (tail ++ [0] ++ rest)) in * by (by rewrite <- !app_assoc).
  set (old := tail ++ [0] ++ rest) in *.
  assert (Hold : zlen text + 1 <= zlen old) by (rewrite zlen_app in Hm; lia).
  destruct (split_at old 0 (zlen text + 1)) as (pre & mid & post & E & Hpre & Hmid);
    [lia|pose proof (zlen_nonneg text); lia|lia|].
  destruct pre as [|x pre]; [|rewrite zlen_cons in Hpre; pose proof (zlen_nonneg pre); lia].
  cbn [app] in E. rewrite E. exists (d ++ (text ++ [0]) ++ post). split.
  - apply store_split. rewrite zlen_app. change (zlen [0]) with 1. lia.
  - split; [|split].
    + rewrite E, !zlen_app in Hm. rewrite !zlen_app. change (zlen [0]) with 1. lia.
    + apply Forall_app in Hd as [Hd _]. by apply Forall_app.
    + exists post. unfold cstr. by rewrite <- !app_assoc.
Qed.

Lemma snprintf_holds m d tail text size n :
  holds m (d ++ tail) n -> no_nul text -> zlen tail <= zlen text -> zlen d + zlen text < n ->
  zlen text < size -> n < 2147483648 ->
  exists m', snprintf m (zlen d) size text = Done (m', zlen text) /\ holds m' (d ++ text) n.
Proof.
  intros Hm Ht Hl Hn Hs Hb. pose proof (zlen_nonneg text). pose proof (zlen_nonneg d). unfold snprintf.
  destruct (Z.eqb_spec size 0); [lia|].
  rewrite (take_ge text) by (unfold zlen in *; lia).
  destruct (store_holds m d tail text n Hm Ht Hl Hn) as (m' & E & H'). exists m'. split; [|done].
  rewrite E. cbn [obind]. by rewrite i32_id by lia.
Qed.

Lemma snprintf_append m d text size n :
  holds m d n -> no_nul text -> zlen d + zlen text < n -> zlen text < size -> n < 2147483648 ->
  exists m', snprintf m (zlen d) size text = Done (m', zlen text) /\ holds m' (d ++ text) n.
Proof.
  intros Hm. rewrite <- (app_nil_r d) in Hm. intros. apply (snprintf_holds m d []); try done.
  apply zlen_nonneg.
Qed.

Lemma snprintf_fresh m text size :
  no_nul text -> zlen text < size <= zlen m -> zlen m < 2147483648 ->
  exists m', snprintf m 0 size text = Done (m', zlen text) /\ holds m' text (zlen m).
Proof.
  intros Ht Hs Hb. pose proof (zlen_nonneg text). unfold snprintf. destruct (Z.eqb_spec size 0); [lia|].
  rewrite (take_ge text) by (unfold zlen in *; lia).
  assert (El : zlen (text ++ [0]) = zlen text + 1) by (by rewrite zlen_app).
  rewrite store_zero by lia. cbn [obind]. rewrite i32_id by lia. eexists. split; [done|].
  split; [|split; [done|by eexists]]. rewrite zlen_app, El. unfold zlen in *. rewrite length_drop. lia.
Qed.

Lemma check_fits (text : bytes) size : zlen text < size -> checkReturnValueOfSnPrintf (zlen text) size = SUCCESS.
Proof.
  intros H. pose proof (zlen_nonneg text). unfold checkReturnValueOfSnPrintf.
  destruct (Z.ltb_spec (zlen text) 0); [lia|]. by destruct (Z.leb_spec size (zlen text)); [lia|].
Qed.

(** ** Specification: the text of a document *)

(** The characters of a string. *)
Definition bytes_of (s : string) : bytes := map (fun c => Z.of_N (Ascii.N_of_ascii c)) (String.list_ascii_of_string s).

(** The elements with commas between them. *)
Fixpoint commas (l : list bytes) : bytes :=
  match l with
  | [] => []
  | x :: l => x ++ (match l with [] => [] | _ => 44 :: commas l end)
  end.

(** JSON: a string that needs no escapes, a member of an object, an object. *)
Definition json_string (s : bytes) : bytes := 34 :: s ++ [34].
Definition json_field (key value : bytes) : bytes := json_string key ++ 58 :: value.
Definition json_object (fields : list bytes) : bytes := 123 :: commas fields ++ [125].

(** The numbers of an integer type. *)
Definition int_range (type : JsonPrimitiveType) (i : Z) : Prop :=
  match type with
  | SHADOW_JSON_INT32 => -2147483648 <= i < 2147483648
  | SHADOW_JSON_INT16 => -32768 <= i < 32768
  | SHADOW_JSON_INT8 => -128 <= i < 128
  | SHADOW_JSON_UINT32 => 0 <= i < 4294967296
  | SHADOW_JSON_UINT16 => 0 <= i < 65536
  | SHADOW_JSON_UINT8 => 0 <= i < 256
  | _ => False
  end.

(** The text of a section and of a document: {"state":{<sections>}, "clientToken":"<token>"}. *)
Definition section_json (desired : bool) (kvs : list (bytes * bytes)) : bytes :=
  json_field (bytes_of (if desired then "desired" else "reported"))
    (json_object (map (fun kv => json_field kv.1 kv.2) kvs)).

Definition document_json (sections : list bytes) (token : bytes) : bytes :=
  123 :: json_field (bytes_of "state") (json_object sections) ++ bytes_of ", " ++
  json_field (bytes_of "clientToken") (json_string token) ++ [125].

(** "<client id>-<n>" with [n] in decimal: the number is unsigned but printed with %d. *)
Definition token_of (id : bytes) (num : Z) (token : bytes) : Prop :=
  exists n, numeral (i32 num) n /\ token = id ++ 45 :: n.

Section documents.
Context {fp : FloatingPoint}.

(** The JSON text of a value of the given type; what %f prints is a parameter. *)
Inductive spells : JsonPrimitiveType -> json_data -> bytes -> Prop :=
  | spells_int type i v : int_range type i -> numeral i v -> spells type (data_int i) v
  | spells_true : spells SHADOW_JSON_BOOL (data_bool true) (bytes_of "true")
  | spells_false : spells SHADOW_JSON_BOOL (data_bool false) (bytes_of "false")
  | spells_string s rest : no_nul s -> spells SHADOW_JSON_STRING (data_string (cstr s ++ rest)) (json_string s)
  | spells_double d : spells SHADOW_JSON_DOUBLE (data_double d) (print_lf d)
  | spells_float f : spells SHADOW_JSON_FLOAT (data_float f) (print_f f).

Lemma spells_text type data v :
  spells type data v -> type <> SHADOW_JSON_OBJECT /\ data_text type data = Done (v ++ [44]).
Proof.
  intros [type' i v' Hi Hv| | |s rest Hs|d|f]; [|by split|by split|split; [done|]|by split|by split].
  - apply numeral_decimal in Hv as ->; [by destruct type'|]. unfold int_range in Hi. destruct type'; lia.
  - cbn [data_text]. rewrite string_arg_cstr by done. cbn [obind]. unfold quote, json_string.
    cbn [app]. by rewrite <- !app_assoc.
Qed.

(** A member that can be written, its key and the text of its value. *)
Definition member_ok (s : jsonStruct_t) (key value : bytes) : Prop :=
  no_nul key /\ no_nul value /\ (exists rest, pKey s = Some (cstr key ++ rest)) /\
  exists data, pData s = Some data /\ spells (js_type s) data value.

(** The same texts, put together from the pieces the code writes. *)
Definition member_text (kv : bytes * bytes) : bytes := quote ++ kv.1 ++ quote ++ [58] ++ kv.2.
Definition section_text (open : bytes) (kvs : list (bytes * bytes)) : bytes :=
  open ++ commas (map member_text kvs) ++ [125].
Definition document_text (sections : list bytes) (token : bytes) : bytes :=
  state_open ++ commas sections ++ token_open ++ token ++ token_close.

Lemma member_text_json kv : member_text kv = json_field kv.1 kv.2.
Proof. unfold member_text, json_field, json_string, quote. cbn [app]. by rewrite <- app_assoc. Qed.

Lemma document_text_json sections token : document_text sections token = document_json sections token.
Proof.
  unfold document_text, document_json, json_field, json_object, json_string. cbn.
  unfold state_open, token_open, token_close. rewrite <- !app_assoc. cbn [app]. done.
Qed.

Lemma convert_fits s key value data m d size n :
  member_ok s key value -> pData s = Some data -> holds m d n -> zlen d + zlen value + 1 < n ->
  zlen value + 1 < size -> n < 2147483648 ->
  exists m', convertDataToString m (zlen d) size (js_type s) data = Done (SUCCESS, m') /\
    holds m' (d ++ value ++ [44]) n.
Proof.
  intros (_ & Hv & _ & data' & Ed & Hsp) Ed2 Hm Hn Hs Hb. pose proof (zlen_nonneg value).
  apply spells_text in Hsp as [Hty Htext].
  assert (data' = data) as -> by congruence. unfold convertDataToString.
  destruct (Z.eqb_spec size 0); [lia|].
  assert (Hlen : zlen (value ++ [44]) = zlen value + 1) by (rewrite zlen_app; done).
  destruct (snprintf_append m d (value ++ [44]) size n) as (m' & E & H'); try done; try lia.
  { apply Forall_app. split; [done|]. by constructor. }
  exists m'. split; [|done]. rewrite Htext. cbn [obind]. rewrite E. cbn [obind].
  rewrite (check_fits (value ++ [44]) size) by lia. by destruct (js_type s).
Qed.

Lemma no_nul_member kv : no_nul kv.1 -> no_nul kv.2 -> no_nul (member_text kv).
Proof.
  intros H1 H2. unfold member_text. repeat (apply Forall_app; split); try done; by repeat constructor.
Qed.

(** The elements, each followed by a comma, as the code writes them. *)
Lemma concat_commas x l : concat (map (fun y => y ++ [44]) (x :: l)) = commas (x :: l) ++ [44].
Proof.
  revert x. induction l as [|y l IH]; intros x; [cbn; by rewrite !app_nil_r|].
  change (concat (map _ (x :: y :: l)))
    with ((x ++ [44]) ++ concat (map (fun y => y ++ [44]) (y :: l))).
  rewrite IH. cbn [commas]. rewrite <- !app_assoc. cbn [app]. by rewrite <- ?app_assoc.
Qed.

(** What the loop writes when it fits; [remSizeOfJsonBuffer] stays large enough for what closes the
    section. *)
Lemma members_fit max args kvs i m d room n :
  Forall2 (fun s kv => member_ok s kv.1 kv.2) args kvs -> 0 <= i -> i + zlen args <= 127 ->
  holds m d n -> 2 < room -> max <= n < 2147483648 ->
  zlen (d ++ concat (map (fun kv => member_text kv ++ [44]) kvs)) < max ->
  exists m' room', add_members max (i + zlen args) (map Some args) i m room = Done (None, m', room') /\
    2 < room' /\ holds m' (d ++ concat (map (fun kv => member_text kv ++ [44]) kvs)) n.
Proof.
  intros H. revert i m d room. induction H as [|s kv args kvs Hs Hargs IH]; intros i m d room Hi Hc Hm Hr Hmax Hfit.
  { exists m, room. cbn [map concat]. rewrite app_nil_r. rewrite zlen_nil, Z.add_0_r. cbn [add_members].
    destruct (Z.ltb_spec i i); [lia|]. done. }
  cbn [map concat] in *. pose proof Hs as (Hk & Hv & (rest & Ek) & data & Ed & _).
  set (key := quote ++ kv.1 ++ quote ++ [58]).
  assert (Etext : member_text kv ++ [44] = key ++ kv.2 ++ [44]) by (unfold member_text, key; by rewrite <- !app_assoc).
  rewrite Etext in *. set (tl := concat _) in *.
  assert (Hkey : no_nul key) by (unfold key; repeat (apply Forall_app; split); try done; by repeat constructor).
  assert (Hkl : zlen key = zlen kv.1 + 3) by (unfold key; rewrite !zlen_app; change (zlen quote) with 1; change (zlen [58]) with 1; lia).
  rewrite zlen_cons in *. rewrite !zlen_app in Hfit. change (zlen [44]) with 1 in Hfit.
  pose proof (zlen_nonneg kv.1). pose proof (zlen_nonneg kv.2). pose proof (zlen_nonneg d).
  pose proof (zlen_nonneg tl). pose proof (zlen_nonneg args).
  cbn [add_members]. destruct (Z.ltb_spec i (i + (1 + zlen args))); [|lia].
  rewrite (holds_strlen _ _ _ Hm). cbn [obind]. rewrite u64_id by lia.
  destruct (Z.leb_spec (max - zlen d) 1); [lia|].
  rewrite Ek, string_arg_cstr by done. cbn [obind].
  fold key. destruct (snprintf_append m d key (max - zlen d) n) as (m1 & -> & Hm1); [done|done|lia..|].
  cbn [obind]. rewrite check_fits by lia. rewrite decide_False by (by intros []).
  rewrite Ed, (holds_strlen _ _ _ Hm1). cbn [obind].
  destruct (convert_fits s kv.1 kv.2 data m1 (d ++ key) (max - zlen d) n) as (m2 & -> & Hm2);
    [done|done|done|rewrite ?zlen_app; lia..|].
  cbn [obind]. rewrite decide_False by (by intros []).
  replace (i8 (i + 1)) with (i + 1) by (unfold i8; rewrite Z.mod_small by lia; lia).
  destruct (IH (i + 1) m2 ((d ++ key) ++ kv.2 ++ [44]) (max - zlen d)) as (m3 & room3 & E & Hr3 & Hm3);
    [lia|lia|done|lia|done| |].
  { rewrite !zlen_app. change (zlen [44]) with 1. fold tl. lia. }
  replace (i + 1 + zlen args) with (i + (1 + zlen args)) in E by lia. rewrite E.
  exists m3, room3. split; [done|]. split; [done|]. by rewrite <- !app_assoc in *.
Qed.

(** A section with members, appended to a document: it ends with the comma the next one needs. *)
Lemma section_fit open max args kvs m d n :
  Forall2 (fun s kv => member_ok s kv.1 kv.2) args kvs -> kvs <> [] -> zlen args <= 127 ->
  no_nul open -> 2 <= zlen open -> holds m d n -> max <= n < 2147483648 ->
  zlen (d ++ section_text open kvs ++ [44]) < max ->
  exists m', add_section open (Some m) max (zlen args) (map Some args) = Done (SUCCESS, Some m') /\
    holds m' (d ++ section_text open kvs ++ [44]) n.
Proof.
  intros Hargs Hne Hc Ho Ho2 Hm Hmax Hfit. destruct kvs as [|kv kvs]; [done|].
  set (body := commas (map member_text (kv :: kvs))) in *.
  assert (Ebody : concat (map (fun kv => member_text kv ++ [44]) (kv :: kvs)) = body ++ [44]).
  { etransitivity; [|apply (concat_commas (member_text kv) (map member_text kvs))].
    by rewrite <- map_cons, map_map. }
  unfold section_text in *. fold body in Hfit |- *. rewrite !zlen_app in Hfit.
  change (zlen [44]) with 1 in Hfit. change (zlen [125]) with 1 in Hfit.
  pose proof (zlen_nonneg d). pose proof (zlen_nonneg body). pose proof (zlen_nonneg args).
  cbn [add_section]. rewrite (holds_strlen _ _ _ Hm). cbn [obind]. rewrite u64_id by lia.
  destruct (Z.leb_spec (max - zlen d) 1); [lia|].
  destruct (snprintf_append m d open (max - zlen d) n) as (m1 & -> & Hm1); [done|done|lia..|].
  cbn [obind]. rewrite check_fits by lia. rewrite decide_False by (by intros []).
  destruct (members_fit max args (kv :: kvs) 0 m1 (d ++ open) (max - zlen d) n)
    as (m2 & room & E & Hr & Hm2); [done|lia|lia|done|lia|done| |].
  { rewrite Ebody, !zlen_app. change (zlen [44]) with 1. lia. }
  rewrite Z.add_0_l in E. rewrite E. cbn [obind]. rewrite Ebody, app_assoc in Hm2.
  rewrite (holds_strlen _ _ _ Hm2). cbn [obind]. rewrite (zlen_app _ [44]). change (zlen [44]) with 1.
  replace (zlen ((d ++ open) ++ body) + 1 - 1) with (zlen ((d ++ open) ++ body)) by lia.
  destruct (snprintf_holds m2 ((d ++ open) ++ body) [44] section_close room n) as (m3 & -> & Hm3);
    [done|by repeat constructor|done|rewrite !zlen_app; change (zlen section_close) with 2; lia|done|lia|].
  cbn [obind]. rewrite check_fits by done. exists m3. split; [done|].
  replace (d ++ (open ++ body ++ [125]) ++ [44]) with (((d ++ open) ++ body) ++ section_close); [done|].
  by rewrite <- !app_assoc.
Qed.

(** The end of a document, written over its last comma. *)
Lemma finalize_fits id rest num max m d n :
  no_nul id -> 0 <= num < 4294967296 -> holds m (d ++ [44]) n -> max <= n < 2147483648 ->
  zlen (d ++ token_open ++ (id ++ 45 :: decimal (i32 num)) ++ token_close) < max ->
  exists m', aws_iot_finalize_json_document (cstr id ++ rest) num (Some m) max =
      Done (SUCCESS, Some m', u32 (num + 1)) /\
    holds m' (d ++ token_open ++ (id ++ 45 :: decimal (i32 num)) ++ token_close) n.
Proof.
  intros Hid Hnum Hm Hmax Hfit. set (token := id ++ 45 :: decimal (i32 num)) in *.
  assert (Htoken : no_nul token).
  { apply Forall_app. split; [done|]. apply Forall_cons_2; [lia|apply decimal_no_nul]. }
  assert (Ht : 1 <= zlen token).
  { unfold token. rewrite zlen_app, zlen_cons. pose proof (zlen_nonneg id).
    pose proof (zlen_nonneg (decimal (i32 num))). lia. }
  rewrite !zlen_app in Hfit. change (zlen token_open) with 18 in Hfit. change (zlen token_close) with 2 in Hfit.
  pose proof (zlen_nonneg d).
  assert (Ed : zlen (d ++ [44]) = zlen d + 1) by (by rewrite zlen_app).
  unfold aws_iot_finalize_json_document, with_room, FillWithClientTokenSize, client_token.
  rewrite (holds_strlen _ _ _ Hm). cbn [obind]. rewrite Ed, u64_id by lia.
  destruct (Z.leb_spec (max - (zlen d + 1)) 1); [lia|].
  replace (zlen d + 1 - 1) with (zlen d) by lia.
  destruct (snprintf_holds m d [44] token_open (max - (zlen d + 1)) n) as (m1 & -> & Hm1);
    [done|by repeat constructor|done|change (zlen token_open) with 18; lia|change (zlen token_open) with 18; lia|lia|].
  cbn [obind]. rewrite check_fits by (change (zlen token_open) with 18; lia).
  rewrite decide_False by (by intros []).
  assert (E1 : zlen (d ++ token_open) = zlen d + 18) by (by rewrite zlen_app).
  rewrite (holds_strlen _ _ _ Hm1). cbn [obind]. rewrite u64_id by lia.
  destruct (Z.leb_spec (max - zlen (d ++ token_open)) 1); [lia|].
  rewrite string_arg_cstr by done. cbn [obind]. fold token.
  destruct (snprintf_append m1 (d ++ token_open) token (max - zlen (d ++ token_open)) n) as (m2 & -> & Hm2);
    [done|done|lia..|].
  cbn [obind]. rewrite check_fits by lia. rewrite decide_False by (by intros []).
  assert (E2 : zlen ((d ++ token_open) ++ token) = zlen d + 18 + zlen token) by (rewrite zlen_app; lia).
  rewrite (holds_strlen _ _ _ Hm2). cbn [obind]. rewrite u64_id by lia.
  destruct (Z.leb_spec (max - zlen ((d ++ token_open) ++ token)) 1); [lia|].
  destruct (snprintf_append m2 ((d ++ token_open) ++ token) token_close
    (max - zlen ((d ++ token_open) ++ token)) n) as (m3 & -> & Hm3);
    [done|by repeat constructor|change (zlen token_close) with 2; lia..|].
  cbn [obind]. rewrite check_fits by (change (zlen token_close) with 2; lia). exists m3. split; [done|].
  by rewrite <- !app_assoc in Hm3.
Qed.

(** ** Theorem: a document that fits is written as specified *)

(** How an application builds a document: the calls in order, up to the first that fails.  A section is
    [true] for "desired" and [false] for "reported", with its members. *)
Definition section : Type := bool * list jsonStruct_t.

Fixpoint add_sections (m : option bytes) (max : Z) (l : list section) : outcome (IoT_Error_t * option bytes) :=
  match l with
  | [] => Done (SUCCESS, m)
  | (desired, args) :: l =>
      let! (ret_val, m) :=
        if desired then aws_iot_shadow_add_desired m max (zlen args) (map Some args)
        else aws_iot_shadow_add_reported m max (zlen args) (map Some args) in
      if decide (ret_val = SUCCESS) then add_sections m max l else Done (ret_val, m)
  end.

Definition write_document (id : bytes) (num : Z) (m : option bytes) (max : Z) (l : list section)
    : outcome (IoT_Error_t * option bytes * Z) :=
  let! (ret_val, m) := aws_iot_shadow_init_json_document m max in
  if decide (ret_val = SUCCESS) then
    let! (ret_val, m) := add_sections m max l in
    if decide (ret_val = SUCCESS) then aws_iot_finalize_json_document id num m max
    else Done (ret_val, m, num)
  else Done (ret_val, m, num).

Definition open_of (desired : bool) : bytes := if desired then desired_open else reported_open.

(** The members of a section are writable as these keys and values; there are between 1 and 127. *)
Definition section_ok (s : section) (kvs : list (bytes * bytes)) : Prop :=
  Forall2 (fun x kv => member_ok x kv.1 kv.2) s.2 kvs /\ kvs <> [] /\ zlen s.2 <= 127.

Definition sections_text (l : list section) (kvss : list (list (bytes * bytes))) : list bytes :=
  zip_with (fun s kvs => section_text (open_of s.1) kvs) l kvss.

Definition sections_json (l : list section) (kvss : list (list (bytes * bytes))) : list bytes :=
  zip_with (fun s kvs => section_json s.1 kvs) l kvss.

Lemma sections_text_json l kvss : sections_text l kvss = sections_json l kvss.
Proof.
  unfold sections_text, sections_json. revert kvss. induction l as [|[b args] l IH]; intros [|kvs kvss]; try done.
  cbn [zip_with fst]. f_equal; [|apply IH]. unfold section_text, section_json.
  rewrite (map_ext _ _ member_text_json). by destruct b.
Qed.

Lemma sections_fit max l kvss m d n :
  Forall2 section_ok l kvss -> holds m d n -> max <= n < 2147483648 ->
  zlen (d ++ concat (map (fun s => s ++ [44]) (sections_text l kvss))) < max ->
  exists m', add_sections (Some m) max l = Done (SUCCESS, Some m') /\
    holds m' (d ++ concat (map (fun s => s ++ [44]) (sections_text l kvss))) n.
Proof.
  intros H. revert m d. induction H as [|[b args] kvs l kvss (Hargs & Hne & Hc) Hl IH]; intros m d Hm Hmax Hfit.
  { exists m. cbn. by rewrite app_nil_r. }
  cbn [sections_text zip_with map concat add_sections fst snd] in *. fold (sections_text l kvss) in *.
  set (tl := concat _) in *. set (text := section_text (open_of b) kvs) in *.
  rewrite !zlen_app in Hfit. pose proof (zlen_nonneg tl).
  destruct (section_fit (open_of b) max args kvs m d n) as (m1 & E & Hm1); try done.
  { destruct b; by repeat constructor. }
  { by destruct b. }
  { rewrite !zlen_app. unfold text in Hfit. lia. }
  replace (if b then aws_iot_shadow_add_desired (Some m) max (zlen args) (map Some args)
    else aws_iot_shadow_add_reported (Some m) max (zlen args) (map Some args))
    with (add_section (open_of b) (Some m) max (zlen args) (map Some args)) by (by destruct b).
  rewrite E. cbn [obind]. rewrite decide_True by done. rewrite app_assoc.
  apply IH; [done|done|]. fold tl. fold text. rewrite !zlen_app. lia.
Qed.

(** The token has one form only. *)
Lemma token_of_decimal id num token : token_of id num token -> token = id ++ 45 :: decimal (i32 num).
Proof.
  intros (n & Hn & ->). do 2 f_equal. apply numeral_decimal; [|done].
  unfold i32. pose proof (Z.mod_pos_bound (num + 2147483648) 4294967296). lia.
Qed.

Lemma write_document_text id rest num m max l kvss :
  Forall2 section_ok l kvss -> l <> [] -> no_nul id -> 0 <= num < 4294967296 ->
  max <= zlen m < 2147483648 ->
  zlen (document_text (sections_text l kvss) (id ++ 45 :: decimal (i32 num))) < max ->
  exists m', write_document (cstr id ++ rest) num (Some m) max l = Done (SUCCESS, Some m', u32 (num + 1)) /\
    zlen m' = zlen m /\
    exists after, m' = cstr (document_text (sections_text l kvss) (id ++ 45 :: decimal (i32 num))) ++ after.
Proof.
  intros Hl Hne Hid Hnum Hmax Hfit. unfold document_text in *.
  set (token := id ++ 45 :: decimal (i32 num)) in *.
  destruct Hl as [|s kvs l kvss Hs Hl]; [done|]. assert (Hall : Forall2 section_ok (s :: l) (kvs :: kvss)) by (by constructor).
  set (texts := sections_text (s :: l) (kvs :: kvss)) in *.
  assert (Etexts : concat (map (fun s => s ++ [44]) texts) = commas texts ++ [44]) by apply concat_commas.
  rewrite !zlen_app in Hfit. change (zlen state_open) with 10 in Hfit.
  change (zlen token_open) with 18 in Hfit. change (zlen token_close) with 2 in Hfit.
  pose proof (zlen_nonneg (commas texts)). pose proof (zlen_nonneg token).
  unfold write_document. cbn [aws_iot_shadow_init_json_document].
  destruct (snprintf_fresh m state_open max) as (m1 & -> & Hm1);
    [by repeat constructor|change (zlen state_open) with 10; lia|lia|].
  cbn [obind]. rewrite check_fits by (change (zlen state_open) with 10; lia). rewrite decide_True by done.
  destruct (sections_fit max (s :: l) (kvs :: kvss) m1 state_open (zlen m)) as (m2 & -> & Hm2);
    [done|done|lia| |].
  { fold texts. rewrite Etexts, !zlen_app. change (zlen state_open) with 10. change (zlen [44]) with 1. lia. }
  cbn [obind]. rewrite decide_True by done. fold texts in Hm2. rewrite Etexts, app_assoc in Hm2.
  destruct (finalize_fits id rest num max m2 (state_open ++ commas texts) (zlen m)) as (m3 & -> & Hm3);
    [done|done|done|lia| |].
  { fold token. rewrite !zlen_app. change (zlen state_open) with 10. change (zlen token_open) with 18.
    change (zlen token_close) with 2. lia. }
  exists m3. split; [done|]. fold token in Hm3. rewrite <- app_assoc in Hm3. by destruct Hm3 as (? & _ & ?).
Qed.
(** C18: a shadow document with at least one section, each with one to 127 members of a type other than
    OBJECT (such a member is written without a value: [object_member]) whose keys and values contain no NUL,
    is written by [aws_iot_shadow_init_json_document], [aws_iot_shadow_add_desired],
    [aws_iot_shadow_add_reported] and [aws_iot_finalize_json_document] exactly as specified whenever its
    text with the NUL fits the given size, which is at most that of the object and below 2^31: every call
    returns SUCCESS, the object keeps its length and holds the text
    {"state":{<sections>}, "clientToken":"<client id>-<n>"} with the members "key":value of each section in
    order, and the sequence number moves on, modulo 2^32.  Integers are written as their decimal numeral,
    booleans as true and false, strings between quotes and as they are: like the keys and the client
    identifier they are not escaped, so the text is JSON when they hold no quote, backslash or control
    character.  What %f prints for a float or double is a parameter. *)
Theorem document_written id rest num token m max l kvss :
  Forall2 section_ok l kvss -> l <> [] -> no_nul id -> 0 <= num < 4294967296 -> token_of id num token ->
  max <= zlen m < 2147483648 -> zlen (document_json (sections_json l kvss) token) < max ->
  exists m', write_document (cstr id ++ rest) num (Some m) max l = Done (SUCCESS, Some m', u32 (num + 1)) /\
    zlen m' = zlen m /\ exists after, m' = cstr (document_json (sections_json l kvss) token) ++ after.
Proof.
  intros Hl Hne Hid Hnum Htok Hmax Hfit. apply token_of_decimal in Htok as ->.
  rewrite <- sections_text_json, <- document_text_json in *. by apply write_document_text.
Qed.
End documents.

(** ** Theorem: a request carries its client token *)

(** A character that a JSON string spells as itself. *)
Definition plain (c : Z) : Prop := c <> 0 /\ c <> 34 /\ c <> 92.

Lemma scan_plain pre mid post len fuel :
  Forall plain mid -> (length mid < fuel)%nat -> zlen pre + zlen mid < len <= 4294967295 ->
  oloop fuel (jsmn_string_round (pre ++ mid ++ 34 :: post) len) (zlen pre) =
    Done (sQUOTE (zlen pre + zlen mid)).
Proof.
  intros Hmid. revert pre fuel. induction Hmid as [|c mid (H0 & H34 & H92) Hmid IH]; intros pre fuel Hf Hl;
    (destruct fuel as [|fuel]; [cbn in Hf; lia|]); pose proof (zlen_nonneg pre); cbn [oloop app];
    unfold jsmn_string_round at 1; rewrite load_app.
  - rewrite zlen_nil in *. destruct (Z.ltb_spec (zlen pre) len); [|lia]. cbn [obind].
    change (34 =? 0) with false. change (34 =? 34) with true. cbv iota. cbn [obind]. by rewrite Z.add_0_r.
  - rewrite zlen_cons in *. pose proof (zlen_nonneg mid).
    destruct (Z.ltb_spec (zlen pre) len); [|lia]. cbn [obind].
    destruct (Z.eqb_spec c 0); [done|]. destruct (Z.eqb_spec c 34); [done|].
    destruct (Z.eqb_spec c 92); [done|]. cbn [andb obind]. rewrite u32_id by lia.
    replace (zlen pre + 1) with (zlen (pre ++ [c])) by (by rewrite zlen_app).
    replace (pre ++ c :: mid ++ 34 :: post) with ((pre ++ [c]) ++ mid ++ 34 :: post) by (by rewrite <- app_assoc).
    rewrite IH; [|cbn in Hf; lia|]; rewrite zlen_app; change (zlen [c]) with 1; [|lia].
    do 2 f_equal. lia.
Qed.

(** A string without escapes becomes one token. *)
Lemma parse_string_plain pre mid post len fuel toks num next super :
  Forall plain mid -> (length mid < fuel)%nat -> zlen pre + 1 + zlen mid < len <= 2147483647 ->
  0 <= next < num -> num <= zlen toks -> num < 4294967295 ->
  exists t, jsmn_parse_string fuel (mkParser (zlen pre) next super) (pre ++ 34 :: mid ++ 34 :: post) len
      (Some toks) num =
    Done (0, mkParser (zlen pre + 1 + zlen mid) (next + 1) super,
      Some (<[Z.to_nat next := mkTok JSMN_STRING (zlen pre + 1) (zlen pre + 1 + zlen mid) 0]>
             (<[Z.to_nat next := t]> toks))).
Proof.
  intros Hmid Hf Hl Hn Ht Hnum. pose proof (zlen_nonneg pre). pose proof (zlen_nonneg mid).
  unfold jsmn_parse_string. cbn [pos]. rewrite i32_id by lia. rewrite u32_id by lia.
  replace (pre ++ 34 :: mid ++ 34 :: post) with ((pre ++ [34]) ++ mid ++ 34 :: post) by (by rewrite <- app_assoc).
  assert (E : zlen (pre ++ [34]) = zlen pre + 1) by (by rewrite zlen_app).
  rewrite <- E, scan_plain by (done || lia). rewrite E. cbn [obind].
  unfold new_token, jsmn_alloc_token, set_pos. cbn [toknext pos toksuper].
  destruct (Z.leb_spec num next); [lia|]. destruct (aload_in toks next) as (t & -> & _); [lia|].
  cbn [obind]. rewrite astore_in by lia. cbn [obind]. rewrite astore_in by (rewrite zlen_insert; lia).
  cbn [obind]. rewrite i32_id, u32_id by lia. by exists (mkTok (tok_type t) (-1) (-1) 0).
Qed.

(** The text of a request with the given client token. *)
Definition request_text (token : bytes) : bytes := request_open ++ token ++ token_close.

Definition clientToken_text : bytes := [99; 108; 105; 101; 110; 116; 84; 111; 107; 101; 110].

#[local] Arguments Z.eqb !_ !_ : simpl nomatch.
#[local] Arguments Z.leb !_ !_ : simpl nomatch.
#[local] Arguments Z.ltb !_ !_ : simpl nomatch.
#[local] Arguments Z.to_nat !_ : simpl nomatch.

(** Runs a round on the three tokens. *)
#[local] Ltac crunch :=
  cbn; unfold is_open; change (Z.of_nat 2) with 2; change (Z.of_nat 1) with 1; change (Z.of_nat 0) with 0; cbn;
  change (Pos.to_nat 2) with 2%nat; change (Pos.to_nat 1) with 1%nat; cbn.

Lemma parse_request fuel token rest toks :
  Forall plain token -> zlen token + 18 < Z.of_nat fuel -> zlen token + 18 < 2147483647 ->
  zlen toks = MAX_JSON_TOKEN_EXPECTED ->
  exists toks', jsmn_parse fuel jsmn_init (cstr (request_text token) ++ rest) (zlen token + 18) (Some toks)
      MAX_JSON_TOKEN_EXPECTED =
    Done (3, mkParser (zlen token + 18) 3 (-1), Some
      (mkTok JSMN_OBJECT 0 (zlen token + 18) 1 :: mkTok JSMN_STRING 2 13 1 ::
       mkTok JSMN_STRING 16 (zlen token + 16) 0 :: toks')).
Proof.
  intros Htok Hf Hl Ht. pose proof (zlen_nonneg token). unfold MAX_JSON_TOKEN_EXPECTED in *.
  destruct toks as [|t0 [|t1 [|t2 toks]]]; [done..|]. rewrite !zlen_cons in Ht.
  exists toks. set (js := cstr (request_text token) ++ rest). set (len := zlen token + 18) in *.
  assert (Ejs1 : js = [123] ++ 34 :: clientToken_text ++ 34 :: (58 :: 34 :: token ++ token_close ++ [0] ++ rest)).
  { unfold js, cstr, request_text. by rewrite <- !app_assoc. }
  assert (Ejs2 : js = take 15 request_open ++ 34 :: token ++ 34 :: (125 :: 0 :: rest)).
  { unfold js, cstr, request_text. by rewrite <- !app_assoc. }
  assert (Ejs3 : js = (request_open ++ token ++ [34]) ++ 125 :: 0 :: rest).
  { unfold js, cstr, request_text. by rewrite <- !app_assoc. }
  assert (L0 : load js 0 = Done 123) by (rewrite Ejs1; apply (load_app [])).
  assert (L1 : load js 1 = Done 34) by (rewrite Ejs1; apply (load_app [123])).
  assert (L14 : load js 14 = Done 58) by (rewrite Ejs2; done).
  assert (L15 : load js 15 = Done 34) by (rewrite Ejs2; apply (load_app (take 15 request_open))).
  assert (L17 : load js (zlen token + 17) = Done 125).
  { rewrite Ejs3. replace (zlen token + 17) with (zlen (request_open ++ token ++ [34])); [apply load_app|].
    rewrite !zlen_app. change (zlen request_open) with 16. change (zlen [34]) with 1. lia. }
  clearbody js.
  assert (R1 : jsmn_round fuel js len 120 (jsmn_init, Some (t0 :: t1 :: t2 :: toks), 0) =
    Done (inl (mkParser 1 1 0, Some (mkTok JSMN_OBJECT 0 (-1) 0 :: t1 :: t2 :: toks), 1))).
  { unfold jsmn_round. cbn [pos jsmn_init]. destruct (Z.ltb_spec 0 len); [|lia]. rewrite L0. cbn.
    unfold jsmn_open, jsmn_alloc_token. cbn. rewrite astore_in by zlia. cbn.
    rewrite astore_in by zlia. reflexivity. }
  assert (R2 : jsmn_round fuel js len 120
      (mkParser 1 1 0, Some (mkTok JSMN_OBJECT 0 (-1) 0 :: t1 :: t2 :: toks), 1) =
    Done (inl (mkParser 14 2 0, Some (mkTok JSMN_OBJECT 0 (-1) 1 :: mkTok JSMN_STRING 2 13 0 :: t2 :: toks), 2))).
  { unfold jsmn_round. cbn [pos]. destruct (Z.ltb_spec 1 len); [|lia]. rewrite L1. cbn.
    destruct (parse_string_plain [123] clientToken_text (58 :: 34 :: token ++ token_close ++ [0] ++ rest) len fuel
      (mkTok JSMN_OBJECT 0 (-1) 0 :: t1 :: t2 :: toks) 120 1 0) as (t' & E);
      [|change (length clientToken_text) with 11%nat; lia|change (zlen [123]) with 1; change (zlen clientToken_text) with 11; lia|lia|zlia|lia|].
    { repeat (apply Forall_cons_2; [split; lia|]). constructor. }
    rewrite <- Ejs1 in E. change (zlen [123]) with 1 in E. change (1 + 1 + zlen clientToken_text) with 13 in E.
    change (Z.to_nat 1) with 1%nat in E. rewrite E. cbn.
    rewrite astore_in by zlia. reflexivity. }
  assert (R3 : jsmn_round fuel js len 120
      (mkParser 14 2 0, Some (mkTok JSMN_OBJECT 0 (-1) 1 :: mkTok JSMN_STRING 2 13 0 :: t2 :: toks), 2) =
    Done (inl (mkParser 15 2 1, Some (mkTok JSMN_OBJECT 0 (-1) 1 :: mkTok JSMN_STRING 2 13 0 :: t2 :: toks), 2))).
  { unfold jsmn_round. cbn [pos]. destruct (Z.ltb_spec 14 len); [|lia]. rewrite L14. reflexivity. }
  assert (R4 : jsmn_round fuel js len 120
      (mkParser 15 2 1, Some (mkTok JSMN_OBJECT 0 (-1) 1 :: mkTok JSMN_STRING 2 13 0 :: t2 :: toks), 2) =
    Done (inl (mkParser (zlen token + 17) 3 1, Some (mkTok JSMN_OBJECT 0 (-1) 1 :: mkTok JSMN_STRING 2 13 1 ::
      mkTok JSMN_STRING 16 (zlen token + 16) 0 :: toks), 3))).
  { unfold jsmn_round. cbn [pos]. destruct (Z.ltb_spec 15 len); [|lia]. rewrite L15. cbn.
    destruct (parse_string_plain (take 15 request_open) token (125 :: 0 :: rest) len fuel
      (mkTok JSMN_OBJECT 0 (-1) 1 :: mkTok JSMN_STRING 2 13 0 :: t2 :: toks) 120 2 1)
      as (t' & E); [done|unfold zlen in *; lia|change (zlen (take 15 request_open)) with 15; lia|lia|zlia|lia|].
    rewrite <- Ejs2 in E. change (zlen (take 15 request_open)) with 15 in E. change (Z.to_nat 2) with 2%nat in E.
    rewrite E. cbn.
    change (Pos.to_nat 1) with 1%nat. cbn. rewrite astore_in by zlia. cbn. rewrite u32_id by lia.
    change (Pos.to_nat 1) with 1%nat. cbn.
    replace (15 + 1 + zlen token + 1) with (zlen token + 17) by lia.
    by replace (15 + 1 + zlen token) with (zlen token + 16) by lia. }
  assert (R5 : jsmn_round fuel js len 120
      (mkParser (zlen token + 17) 3 1, Some (mkTok JSMN_OBJECT 0 (-1) 1 :: mkTok JSMN_STRING 2 13 1 ::
      mkTok JSMN_STRING 16 (zlen token + 16) 0 :: toks), 3) =
    Done (inl (mkParser len 3 (-1), Some (mkTok JSMN_OBJECT 0 len 1 :: mkTok JSMN_STRING 2 13 1 ::
      mkTok JSMN_STRING 16 (zlen token + 16) 0 :: toks), 3))).
  { unfold jsmn_round. cbn [pos]. destruct (Z.ltb_spec (zlen token + 17) len); [|lia]. rewrite L17. cbn.
    unfold jsmn_close. cbn [toknext pos]. change (Z.to_nat 3) with 3%nat. crunch.
    destruct (Z.eqb_spec (zlen token + 16) (-1)); [lia|]. cbn.
    rewrite astore_in by zlia. crunch. rewrite u32_id, i32_id by lia. crunch.
    rewrite decide_False by (by intros []). change (Z.to_nat (0 + 1)) with 1%nat. crunch. rewrite ?u32_id by lia.
    replace (zlen token + 17 + 1) with len by lia.
    destruct (Z.eqb_spec len (-1)); [lia|]. cbn. rewrite u32_id by lia.
    by replace (zlen token + 17 + 1) with len by lia. }
  assert (R6 : jsmn_round fuel js len 120
      (mkParser len 3 (-1), Some (mkTok JSMN_OBJECT 0 len 1 :: mkTok JSMN_STRING 2 13 1 ::
      mkTok JSMN_STRING 16 (zlen token + 16) 0 :: toks), 3) =
    Done (inr (3, mkParser len 3 (-1), Some (mkTok JSMN_OBJECT 0 len 1 :: mkTok JSMN_STRING 2 13 1 ::
      mkTok JSMN_STRING 16 (zlen token + 16) 0 :: toks)))).
  { unfold jsmn_round. cbn [pos]. destruct (Z.ltb_spec len len); [lia|]. cbn [toknext].
    change (Z.to_nat 3) with 3%nat. crunch.
    destruct (Z.eqb_spec (zlen token + 16) (-1)); [lia|]. cbn.
    destruct (Z.eqb_spec len (-1)); [lia|]. reflexivity. }
  unfold jsmn_parse. change (toknext jsmn_init) with 0.
  assert (Ef : exists f, fuel = S (S (S (S (S (S f)))))) by (exists (fuel - 6)%nat; lia).
  destruct Ef as [f Ef]. rewrite Ef at 1. cbn [oloop].
  rewrite R1. cbn [obind]. rewrite R2. cbn [obind]. rewrite R3. cbn [obind]. rewrite R4. cbn [obind].
  rewrite R5. cbn [obind]. rewrite R6. reflexivity.
Qed.

Lemma strncpy_plain token post :
  no_nul token -> strncpy_bytes (length token) (token ++ post) = Done token.
Proof.
  induction 1 as [|b token Hb Ht IH]; [by destruct post|]. cbn [length app strncpy_bytes].
  destruct (Z.eqb_spec b 0); [done|]. by rewrite IH.
Qed.

(** A request is a JSON object whose client token is read back. *)
Lemma extract_request_token fuel token rest buf s :
  Forall plain token -> zlen token < 256 -> zlen token < zlen buf ->
  zlen token + 18 < Z.of_nat fuel -> zlen (jsonTokenStruct s) = MAX_JSON_TOKEN_EXPECTED ->
  exists buf' s', extractClientToken fuel (cstr (request_text token) ++ rest) buf s = Done (true, buf', s') /\
    zlen buf' = zlen buf /\ exists after, buf' = cstr token ++ after.
Proof.
  intros Htok Hl Hb Hf Hs. pose proof (zlen_nonneg token).
  assert (Hn : no_nul token) by (eapply List.Forall_impl; [|exact Htok]; by intros c [? _]).
  assert (Ht : no_nul (request_text token)).
  { unfold request_text. repeat (apply Forall_app; split); try done; repeat (apply Forall_cons_2; [done|]); constructor. }
  assert (El : zlen (request_text token) = zlen token + 18).
  { unfold request_text. rewrite !zlen_app. change (zlen request_open) with 16.
    change (zlen token_close) with 2. lia. }
  assert (Hk : no_nul clientToken_text) by (repeat (apply Forall_cons; [done|]); apply Forall_nil).
  unfold extractClientToken, parse_object. rewrite strlen_cstr, El by done. cbn [obind].
  destruct (parse_request fuel token rest (jsonTokenStruct s)) as (toks & ->); [done|lia|lia|done|].
  cbn [obind deref]. change (3 <? 0) with false. change (3 <? 1) with false. cbv iota.
  change (aload (_ :: _) 0) with (Done (mkTok JSMN_OBJECT 0 (zlen token + 18) 1)). cbn [obind tok_type].
  rewrite decide_False by (by intros []). cbn [obind jsonTokenStruct].
  change (Z.to_nat (3 - 1)) with 2%nat. cbn [find_key].
  change (aload (_ :: _) 1) with (Done (mkTok JSMN_STRING 2 13 1)). cbn [obind].
  change SHADOW_CLIENT_TOKEN_STRING with (cstr clientToken_text ++ []).
  rewrite jsoneq_within by (done || (unfold within; rewrite El; cbn [tok_start tok_end]; lia)).
  replace (is_key (request_text token) clientToken_text (mkTok JSMN_STRING 2 13 1)) with true by done.
  cbn [obind]. change (0 =? 0) with true. cbv iota. cbn [obind].
  change (aload (_ :: _) (1 + 1)) with (Done (mkTok JSMN_STRING 16 (zlen token + 16) 0)).
  cbn [obind tok_end tok_start].
  replace (zlen token + 16 - 16) with (zlen token) by lia.
  replace (u8 (zlen token)) with (zlen token) by (unfold u8; rewrite Z.mod_small; lia).
  replace (cstr (request_text token) ++ rest) with (request_open ++ token ++ token_close ++ [0] ++ rest)
    by (unfold cstr, request_text; by rewrite <- !app_assoc).
  change 16 with (zlen request_open) at 1. rewrite from_app. cbn [obind].
  rewrite zlen_to_nat, strncpy_plain by done. cbn [obind].
  rewrite store_zero by lia. cbn [obind].
  destruct (drop (length token) buf) as [|b after] eqn:Ed.
  { apply (f_equal length) in Ed. rewrite length_drop in Ed. unfold zlen in *. cbn in Ed. lia. }
  change (b :: after) with ([b] ++ after). rewrite store_split by done. cbn [obind].
  eexists _, _. split; [done|]. split.
  - apply (f_equal length) in Ed. rewrite length_drop in Ed. cbn in Ed.
    rewrite !zlen_app. change (zlen [0]) with 1. unfold zlen in *. lia.
  - exists after. unfold cstr. by rewrite <- app_assoc.
Qed.

Lemma decimal_digits_chars k n :
  0 <= n -> Forall (fun c => 48 <= c <= 57) (decimal_digits k n) /\ (length (decimal_digits k n) <= k)%nat.
Proof.
  revert n. induction k as [|k IH]; intros n Hn; [by split; [constructor|cbn; lia]|]. cbn [decimal_digits].
  pose proof (Z.mod_pos_bound n 10). rewrite length_app. cbn [length].
  destruct (n <? 10); [split; [constructor; [lia|constructor]|cbn; lia]|].
  destruct (IH (n / 10)) as [H1 H2]; [apply Z.div_pos; lia|]. split; [|lia].
  apply Forall_app. split; [done|]. constructor; [lia|constructor].
Qed.

Lemma decimal_chars n : Forall plain (decimal n) /\ zlen (decimal n) <= 11.
Proof.
  assert (Hd : forall m, 0 <= m -> Forall plain (decimal_digits 10 m) /\ zlen (decimal_digits 10 m) <= 10).
  { intros m Hm. destruct (decimal_digits_chars 10 m Hm) as [H1 H2]. split; [|unfold zlen; lia].
    eapply List.Forall_impl; [|exact H1]. intros c Hc. unfold plain. cbv beta in Hc. lia. }
  unfold decimal. destruct (Z.ltb_spec n 0).
  - destruct (Hd (- n)); [lia|]. split; [constructor; [by unfold plain|done]|rewrite zlen_cons; lia].
  - destruct (Hd n); [lia|]. split; [done|lia].
Qed.

Lemma sprintf_append m d text n :
  holds m d n -> no_nul text -> zlen d + zlen text < n ->
  exists m', sprintf m (zlen d) text = Done m' /\ holds m' (d ++ text) n.
Proof.
  intros Hm. rewrite <- (app_nil_r d) in Hm. intros. apply (store_holds m d []); try done. apply zlen_nonneg.
Qed.

Definition request_token (id : bytes) (num : Z) : bytes := id ++ 45 :: decimal (i32 num).

Lemma request_text_json token :
  request_text token = json_object [json_field (bytes_of "clientToken") (json_string token)].
Proof.
  unfold request_text, json_object, json_field, json_string. cbn. unfold request_open, token_close.
  by rewrite <- !app_assoc.
Qed.

Lemma request_written (id idpost m buf : bytes) (num : Z) (fuel : nat) (s : shadow_json) :
  Forall plain id -> zlen id <= 79 -> zlen m = 110 ->
  zlen (request_token id num) < zlen buf -> (128 <= fuel)%nat ->
  zlen (jsonTokenStruct s) = MAX_JSON_TOKEN_EXPECTED ->
  exists m', aws_iot_shadow_internal_get_request_json (cstr id ++ idpost) num m = Done (m', u32 (num + 1)) /\
    aws_iot_shadow_internal_delete_request_json (cstr id ++ idpost) num m = Done (m', u32 (num + 1)) /\
    zlen m' = 110 /\ (exists after, m' = cstr (request_text (request_token id num)) ++ after) /\
    exists buf' s', extractClientToken fuel m' buf s = Done (true, buf', s') /\
      zlen buf' = zlen buf /\ exists after, buf' = cstr (request_token id num) ++ after.
Proof.
  intros Hid Hl Hm Hb Hf Hs. destruct (decimal_chars (i32 num)) as [Hd Hdl].
  set (token := request_token id num) in *.
  assert (Ht : Forall plain token) by (apply Forall_app; split; [done|constructor; done]).
  assert (Htl : zlen token <= 91) by (unfold token, request_token; rewrite zlen_app, zlen_cons; lia).
  assert (Hn : forall l, Forall plain l -> no_nul l).
  { intros l H. eapply List.Forall_impl; [|exact H]. by intros c [? _]. }
  unfold aws_iot_shadow_internal_get_request_json, aws_iot_shadow_internal_delete_request_json,
    emptyJsonWithClientToken, FillWithClientToken, client_token.
  assert (Hf1 : exists m1, sprintf m 0 request_open = Done m1 /\ holds m1 request_open 110).
  { destruct (snprintf_fresh m request_open 110) as (m1 & E & H1);
      [repeat (apply Forall_cons; [done|]); apply Forall_nil|change (zlen request_open) with 16; lia|lia|].
    unfold snprintf in E. change (110 =? 0) with false in E. cbv iota in E. exists m1. unfold sprintf.
    change (take (Z.to_nat (110 - 1)) request_open) with request_open in E.
    destruct (store m 0 (request_open ++ [0])); [|done..]. cbn [obind] in E. rewrite <- Hm. by split; congruence. }
  destruct Hf1 as (m1 & -> & H1). cbn [obind]. rewrite (holds_strlen _ _ _ H1). cbn [obind].
  rewrite string_arg_cstr by auto. cbn [obind]. fold (request_token id num). fold token.
  destruct (sprintf_append m1 request_open token 110) as (m2 & -> & H2);
    [done|auto|change (zlen request_open) with 16; lia|].
  cbn [obind]. rewrite (holds_strlen _ _ _ H2). cbn [obind].
  destruct (sprintf_append m2 (request_open ++ token) token_close 110) as (m3 & -> & H3);
    [done|repeat (apply Forall_cons; [done|]); apply Forall_nil| |].
  { rewrite zlen_app. change (zlen request_open) with 16. change (zlen token_close) with 2. lia. }
  cbn [obind]. exists m3. do 2 (split; [done|]). destruct H3 as (L3 & _ & after & E3).
  rewrite <- app_assoc in E3. fold (request_text token) in E3. split; [done|]. split; [by exists after|].
  rewrite E3. apply extract_request_token; (done || lia).
Qed.

(** The token of the longest identifier with a number of ten digits has 90 characters:
    [aws_iot_shadow_internal_action] reads it back into an array of 90 bytes, and its NUL is written behind
    that array. *)
Definition longest_id : bytes := replicate 79 97.

Example token_overflows_array :
  let token := request_token longest_id 1000000000 in
  (let! (m, _) := aws_iot_shadow_internal_get_request_json (cstr longest_id) 1000000000 (replicate 110 85) in
   Done m) = Done (cstr (request_text token) ++ [85]) /\
  extractClientToken 128 (cstr (request_text token) ++ [85]) (replicate 90 0)
    (mkShadowJson jsmn_init (replicate 120 blank)) = Undef.
Proof. by split; vm_compute. Qed.

(** C36: when the client identifier has at most 79 characters, none of them a quote, a backslash or a NUL,
    the request documents of get and delete fit their buffer of 110 bytes whatever the sequence number; they
    hold {"clientToken":"<client id>-<n>"}, and [extractClientToken] reads exactly that token back from them
    into an array longer than the token, parsing within the 120 static tokens; the sequence number moves on,
    modulo 2^32.  The array of [aws_iot_shadow_internal_action] has 90 bytes, so there the identifier
    and the number must not both have their full length ([token_overflows_array]). *)
Theorem request_token_roundtrip (id idpost m buf token : bytes) (num : Z) (fuel : nat) (s : shadow_json) :
  Forall plain id -> zlen id <= 79 -> zlen m = 110 -> token_of id num token ->
  zlen token < zlen buf -> (128 <= fuel)%nat -> zlen (jsonTokenStruct s) = MAX_JSON_TOKEN_EXPECTED ->
  exists m', aws_iot_shadow_internal_get_request_json (cstr id ++ idpost) num m = Done (m', u32 (num + 1)) /\
    aws_iot_shadow_internal_delete_request_json (cstr id ++ idpost) num m = Done (m', u32 (num + 1)) /\
    zlen m' = 110 /\
    (exists after, m' = cstr (json_object [json_field (bytes_of "clientToken") (json_string token)]) ++ after) /\
    exists buf' s', extractClientToken fuel m' buf s = Done (true, buf', s') /\
      zlen buf' = zlen buf /\ exists after, buf' = cstr token ++ after.
Proof.
  intros Hid Hl Hm Htok Hb Hf Hs. apply token_of_decimal in Htok as ->. change (zlen (request_token id num) < zlen buf) in Hb.
  rewrite <- (request_text_json (id ++ _)). by apply request_written.
Qed.

Lemma request_token_roundtrip_witness :
  exists m', aws_iot_shadow_internal_get_request_json (cstr [100; 49] ++ []) 7 (replicate 110 85) = Done (m', 8) /\
    aws_iot_shadow_internal_delete_request_json (cstr [100; 49] ++ []) 7 (replicate 110 85) = Done (m', 8) /\
    zlen m' = 110 /\
    (exists after, m' = cstr (json_object [json_field (bytes_of "clientToken") (json_string [100; 49; 45; 55])]) ++ after) /\
    exists buf' s', extractClientToken 128 m' (replicate 90 0) (mkShadowJson jsmn_init (replicate 120 blank)) =
        Done (true, buf', s') /\
      zlen buf' = zlen (replicate 90 0) /\ exists after, buf' = cstr [100; 49; 45; 55] ++ after.
Proof.
  refine (request_token_roundtrip [100; 49] [] (replicate 110 85) (replicate 90 0) [100; 49; 45; 55] 7 128
    (mkShadowJson jsmn_init (replicate 120 blank)) _ _ _ _ _ _ _).
  - repeat (apply Forall_cons; [by unfold plain|]). apply Forall_nil.
  - by vm_compute.
  - reflexivity.
  - exists [55]. split; [by apply (decimal_numeral 7)|done].
  - reflexivity.
  - lia.
  - reflexivity.
Defined.

(** What the two documents of a session look like: client d1, sequence number 7. *)
Example request_sample :
  (let! (m, n) := aws_iot_shadow_internal_get_request_json (cstr [100; 49]) 7 (replicate 110 85) in
   string_arg (Some m)) =
  Done [123; 34; 99; 108; 105; 101; 110; 116; 84; 111; 107; 101; 110; 34; 58; 34; 100; 49; 45; 55; 34; 125].
Proof. vm_compute. reflexivity. Qed.

(** ** Defects *)

Section defects.
Context {fp : FloatingPoint}.

(** The room [convertDataToString] is given was measured before the key was written.  In an object
    of exactly the size passed, a member whose key fits and whose value alone fits, but which do not fit
    together, is written past the end of the object: undefined behaviour where the code means to return
    SHADOW_JSON_BUFFER_TRUNCATED. *)
Theorem member_overflows open m d s key value max :
  holds m d max -> max < 2147483648 -> no_nul open -> member_ok s key value ->
  zlen d + zlen open + zlen key + 4 <= max ->
  zlen d + zlen open + zlen value + 2 <= max ->
  max <= zlen d + zlen open + zlen key + zlen value + 4 ->
  add_section open (Some m) max 1 [Some s] = Undef.
Proof.
  intros Hm Hmax Ho (Hk & Hv & (rest & Ek) & data & Ed & Hsp) H1 H2 H3.
  apply spells_text in Hsp as [Hty Htext].
  pose proof (zlen_nonneg d). pose proof (zlen_nonneg open). pose proof (zlen_nonneg key).
  pose proof (zlen_nonneg value). set (ktext := quote ++ key ++ quote ++ [58]).
  assert (Hkn : no_nul ktext).
  { unfold ktext. repeat (apply Forall_app; split); try done; by repeat constructor. }
  assert (Hkl : zlen ktext = zlen key + 3).
  { unfold ktext. rewrite !zlen_app. change (zlen quote) with 1. change (zlen [58]) with 1. lia. }
  cbn [add_section]. rewrite (holds_strlen _ _ _ Hm). cbn [obind]. rewrite u64_id by lia.
  destruct (Z.leb_spec (max - zlen d) 1); [lia|].
  destruct (snprintf_append m d open (max - zlen d) max) as (m1 & -> & Hm1); [done|done|lia..|].
  cbn [obind]. rewrite check_fits by lia. rewrite decide_False by (by intros []).
  assert (E1 : zlen (d ++ open) = zlen d + zlen open) by apply zlen_app.
  cbn [add_members]. change (0 <? 1) with true. cbv iota. rewrite (holds_strlen _ _ _ Hm1). cbn [obind].
  rewrite u64_id by lia. destruct (Z.leb_spec (max - zlen (d ++ open)) 1); [lia|].
  rewrite Ek, string_arg_cstr by done. cbn [obind]. fold ktext.
  destruct (snprintf_append m1 (d ++ open) ktext (max - zlen (d ++ open)) max) as (m2 & -> & Hm2);
    [done|done|lia..|].
  cbn [obind]. rewrite check_fits by lia. rewrite decide_False by (by intros []).
  rewrite Ed, (holds_strlen _ _ _ Hm2). cbn [obind].
  assert (E2 : zlen ((d ++ open) ++ ktext) = zlen d + zlen open + zlen key + 3) by (rewrite zlen_app; lia).
  assert (Ev : zlen (value ++ [44]) = zlen value + 1) by (by rewrite zlen_app).
  assert (E : convertDataToString m2 (zlen ((d ++ open) ++ ktext)) (max - zlen (d ++ open)) (js_type s) data =
    Undef); [|by rewrite E].
  unfold convertDataToString. destruct (Z.eqb_spec (max - zlen (d ++ open)) 0); [lia|].
  rewrite Htext. cbn [obind]. unfold snprintf. destruct (Z.eqb_spec (max - zlen (d ++ open)) 0); [lia|].
  rewrite (take_ge (value ++ [44])) by (unfold zlen in *; lia).
  rewrite store_out; [by destruct (js_type s)|]. destruct Hm2 as (-> & _ & _).
  rewrite E2, zlen_app, Ev. change (zlen [0]) with 1. lia.
Qed.

End defects.

#[local] Existing Instance no_floats.

(** {"a":12} under "desired", as a member to write. *)
Definition sample_member : jsonStruct_t :=
  mkJsonStruct (Some [97; 0]) (Some (data_int 12)) SHADOW_JSON_INT32 None.

Lemma sample_member_ok : member_ok sample_member [97] [49; 50].
Proof.
  refine (conj _ (conj _ (conj _ _))).
  - repeat (apply Forall_cons; [done|]); apply Forall_nil.
  - repeat (apply Forall_cons; [done|]); apply Forall_nil.
  - by exists [].
  - exists (data_int 12). split; [done|]. apply spells_int; [cbn; lia|]. by apply (decimal_numeral 12).
Qed.

Lemma member_overflows_witness :
  add_section desired_open (Some (cstr state_open ++ replicate 16 85)) 27 1 [Some sample_member] = Undef.
Proof.
  refine (member_overflows desired_open (cstr state_open ++ replicate 16 85) state_open sample_member
    [97] [49; 50] 27 _ _ _ sample_member_ok _ _ _).
  - split; [reflexivity|]. split; [|by eexists].
    repeat (apply Forall_cons; [done|]); apply Forall_nil.
  - lia.
  - repeat (apply Forall_cons; [done|]); apply Forall_nil.
  - vm_compute. discriminate.
  - vm_compute. discriminate.
  - vm_compute. discriminate.
Defined.

Lemma document_written_witness :
  exists m', write_document (cstr [100; 49] ++ []) 7 (Some (replicate 100 85)) 100
      [(true, [sample_member; sample_member]); (false, [sample_member])] = Done (SUCCESS, Some m', 8) /\
    zlen m' = zlen (replicate 100 85) /\
    exists after, m' = cstr (document_json
      (sections_json [(true, [sample_member; sample_member]); (false, [sample_member])]
        [[([97], [49; 50]); ([97], [49; 50])]; [([97], [49; 50])]]) ([100; 49] ++ [45; 55])) ++ after.
Proof.
  refine (document_written [100; 49] [] 7 [100; 49; 45; 55] (replicate 100 85) 100
    [(true, [sample_member; sample_member]); (false, [sample_member])]
    [[([97], [49; 50]); ([97], [49; 50])]; [([97], [49; 50])]] _ _ _ _ _ _ _).
  - pose proof sample_member_ok as H. constructor; [|constructor; [|constructor]].
    + split; [|by split]. repeat (apply Forall2_cons_2; [exact H|]). apply Forall2_nil_2.
    + split; [|by split]. apply Forall2_cons_2; [exact H|apply Forall2_nil_2].
  - discriminate.
  - repeat (apply Forall_cons; [done|]); apply Forall_nil.
  - lia.
  - exists [55]. split; [by apply (decimal_numeral 7)|done].
  - vm_compute. split; discriminate || reflexivity.
  - vm_compute. reflexivity.
Defined.

(** {"state":{"desired":{"a":12}}, "clientToken":"d1-7"} *)
Example document_sample :
  (let! (rc, m, num) := write_document [100; 49; 0] 7 (Some (replicate 100 85)) 100 [(true, [sample_member])] in
   string_arg m) =
  Done [123; 34; 115; 116; 97; 116; 101; 34; 58; 123; 34; 100; 101; 115; 105; 114; 101; 100; 34; 58; 123; 34;
        97; 34; 58; 49; 50; 125; 125; 44; 32; 34; 99; 108; 105; 101; 110; 116; 84; 111; 107; 101; 110; 34; 58;
        34; 100; 49; 45; 55; 34; 125].
Proof. vm_compute. reflexivity. Qed.

(** A member of type OBJECT loses its colon and has no value: {"state":{"desired":{"a"}}, "clientToken":"d1-7"}
    is written and SUCCESS returned. *)
Example object_member :
  (let! (rc, m, num) := write_document [100; 49; 0] 7 (Some (replicate 100 85)) 100
     [(true, [mkJsonStruct (Some [97; 0]) (Some (data_string [0])) SHADOW_JSON_OBJECT None])] in
   let! text := string_arg m in Done (rc, text)) =
  Done (SUCCESS,
       [123; 34; 115; 116; 97; 116; 101; 34; 58; 123; 34; 100; 101; 115; 105; 114; 101; 100; 34; 58; 123; 34;
        97; 34; 125; 125; 44; 32; 34; 99; 108; 105; 101; 110; 116; 84; 111; 107; 101; 110; 34; 58; 34; 100; 49; 45;
        55; 34; 125]).
Proof. vm_compute. reflexivity. Qed.

(** A section without members loses its opening brace: {"state":{"desired":}}, "clientToken":"d1-7"} is
    written and SUCCESS returned. *)
Example empty_section :
  (let! (rc, m, num) := write_document [100; 49; 0] 7 (Some (replicate 100 85)) 100 [(true, [])] in
   let! text := string_arg m in Done (rc, text)) =
  Done (SUCCESS,
       [123; 34; 115; 116; 97; 116; 101; 34; 58; 123; 34; 100; 101; 115; 105; 114; 101; 100; 34; 58; 125; 125;
        44; 32; 34; 99; 108; 105; 101; 110; 116; 84; 111; 107; 101; 110; 34; 58; 34; 100; 49; 45; 55; 34; 125]).
Proof. vm_compute. reflexivity. Qed.
