(* ===== verification/ShadowRecords.v ===== *)
(** * The shadow's tables: src/aws_iot_shadow_records.c

    The requests that wait for an answer, the subscriptions to the topics of the answers, and the table of
    keys to look for in a delta, with the two message handlers the shadow registers with the MQTT client.
    The file's static variables are the record [shadow], part of the state of the world: whatever the
    application's callbacks do to them is part of what they do to the world. *)

From S2P Require Export Subscribe Unsubscribe Publish ShadowDocument.

Definition SHADOW_MAX_SIZE_OF_RX_BUFFER : Z := AWS_IOT_MQTT_RX_BUF_LEN + 1.
Definition MAX_SIZE_OF_UNIQUE_CLIENT_ID_BYTES : Z := 80.
Definition MAX_SIZE_CLIENT_ID_WITH_SEQUENCE : Z := MAX_SIZE_OF_UNIQUE_CLIENT_ID_BYTES + 10.
Definition MAX_SIZE_CLIENT_TOKEN_CLIENT_SEQUENCE : Z := MAX_SIZE_CLIENT_ID_WITH_SEQUENCE + 20.
Definition MAX_ACKS_TO_COMEIN_AT_ANY_GIVEN_TIME : Z := 10.
Definition MAX_THINGNAME_HANDLED_AT_ANY_GIVEN_TIME : Z := 10.
Definition MAX_SIZE_OF_THING_NAME : Z := 50.
Definition MAX_SHADOW_TOPIC_LENGTH_BYTES : Z := 60 + MAX_SIZE_OF_THING_NAME.
Definition MAX_TOPICS_AT_ANY_GIVEN_TIME : Z := 2 * MAX_THINGNAME_HANDLED_AT_ANY_GIVEN_TIME.
Definition SUBSCRIBE_SETTLING_TIME : Z := 2.

Inductive ShadowActions_t : Set := SHADOW_GET | SHADOW_UPDATE | SHADOW_DELETE.
Inductive Shadow_Ack_Status_t : Set := SHADOW_ACK_TIMEOUT | SHADOW_ACK_REJECTED | SHADOW_ACK_ACCEPTED.
Inductive ShadowAckTopicTypes_t : Set := SHADOW_ACCEPTED | SHADOW_REJECTED | SHADOW_ACTION.

#[export] Instance ShadowActions_eq_dec : EqDecision ShadowActions_t.
Proof. solve_decision. Defined.
#[export] Instance Shadow_Ack_Status_eq_dec : EqDecision Shadow_Ack_Status_t.
Proof. solve_decision. Defined.
#[export] Instance ShadowAckTopicTypes_eq_dec : EqDecision ShadowAckTopicTypes_t.
Proof. solve_decision. Defined.

Record ToBeReceivedAckRecord_t := mkAck {
  clientTokenID : bytes;
  ack_thingName : bytes;
  ack_action : ShadowActions_t;
  ack_callback : option fnptr;
  pCallbackContext : voidptr;
  ack_isFree : bool;
  ack_timer : Timer
}.

(** [pStruct] points to a [jsonStruct_t] of the application, by its index in [json_structs]. *)
Record JsonTokenTable_t := mkJsonToken {
  jt_pKey : option bytes;
  jt_pStruct : Z;
  jt_callback : option fnptr;
  jt_isFree : bool
}.

Record SubscriptionRecord_t := mkSubscription {
  sr_Topic : bytes;
  sr_count : Z;
  sr_isFree : bool;
  sr_isSticky : bool
}.

(** ** The C library *)

(** Does [h] start with the string [n]? *)
Fixpoint starts_with (h n : bytes) {struct n} : outcome bool :=
  match n with
  | [] => Done true
  | c :: n =>
      match h with
      | [] => Undef
      | b :: h => if b =? c then starts_with h n else Done false
      end
  end.

(** [strstr(h, n) != NULL]: undefined when the search reaches the end of the object. *)
Fixpoint strstr (h n : bytes) : outcome bool :=
  let! found := starts_with h n in
  if (found : bool) then Done true
  else
    match h with
    | [] => Undef
    | b :: h => if b =? 0 then Done false else strstr h n
    end.

(** [strncpy(m, src, n)] *)
Definition strncpy (m src : bytes) (n : Z) : outcome bytes :=
  let! d := strncpy_bytes (Z.to_nat n) src in store m 0 d.

(** A local array, whose bytes are overwritten before they are read. *)
Definition local (n : Z) : bytes := replicate (Z.to_nat n) 0.

(** ** Pieces of topics *)

(** [$aws/things/] and [/shadow/] *)
Definition things_text : bytes := [36; 97; 119; 115; 47; 116; 104; 105; 110; 103; 115; 47].
Definition shadow_text : bytes := [47; 115; 104; 97; 100; 111; 119; 47].
Definition get_text : bytes := [103; 101; 116].
Definition update_text : bytes := [117; 112; 100; 97; 116; 101].
Definition delete_text : bytes := [100; 101; 108; 101; 116; 101].
Definition accepted_text : bytes := [97; 99; 99; 101; 112; 116; 101; 100].
Definition rejected_text : bytes := [114; 101; 106; 101; 99; 116; 101; 100].
Definition delta_text : bytes := [100; 101; 108; 116; 97].

Definition actionBuf (action : ShadowActions_t) : bytes :=
  match action with
  | SHADOW_GET => get_text
  | SHADOW_UPDATE => update_text
  | SHADOW_DELETE => delete_text
  end.

(** The text [topicNameFromThingAndAction] formats. *)
Definition topic_text (thing : bytes) (action : ShadowActions_t) (ackType : ShadowAckTopicTypes_t) : bytes :=
  things_text ++ thing ++ shadow_text ++ actionBuf action ++
  match ackType with
  | SHADOW_ACCEPTED => 47 :: accepted_text
  | SHADOW_REJECTED => 47 :: rejected_text
  | SHADOW_ACTION => []
  end.

Definition topicNameFromThingAndAction (pTopic : bytes) (pThingName : option bytes)
    (action : ShadowActions_t) (ackType : ShadowAckTopicTypes_t) : outcome bytes :=
  let! thing := string_arg pThingName in
  let! (pTopic, n) := snprintf pTopic 0 MAX_SHADOW_TOPIC_LENGTH_BYTES (topic_text thing action ackType) in
  Done pTopic.

(** The topic of the deltas. *)
Definition delta_topic_text (thing : bytes) : bytes :=
  things_text ++ thing ++ shadow_text ++ update_text ++ 47 :: delta_text.

(** ** State *)

Section state.
Context {fp : FloatingPoint}.

(** The static variables of aws_iot_shadow_records.c and aws_iot_shadow_json.c, and the application's
    [jsonStruct_t] objects. *)
Record shadow := mkShadow {
  AckWaitList : list ToBeReceivedAckRecord_t;
  pMqttClient : client_ptr;
  myThingName : bytes;
  mqttClientID : bytes;
  shadowDeltaTopic : bytes;
  SubscriptionList : list SubscriptionRecord_t;
  shadowRxBuf : bytes;
  tokenTable : list JsonTokenTable_t;
  tokenTableIndex : Z;
  deltaTopicSubscribedFlag : bool;
  shadowJsonVersionNum : Z;
  shadowDiscardOldDeltaFlag : bool;
  clientTokenNum : Z;
  json : shadow_json;
  json_structs : list jsonStruct_t
}.

Definition set_AckWaitList (v : list ToBeReceivedAckRecord_t) (s : shadow) : shadow :=
  mkShadow v (pMqttClient s) (myThingName s) (mqttClientID s) (shadowDeltaTopic s)
    (SubscriptionList s) (shadowRxBuf s) (tokenTable s) (tokenTableIndex s)
    (deltaTopicSubscribedFlag s) (shadowJsonVersionNum s) (shadowDiscardOldDeltaFlag s)
    (clientTokenNum s) (json s) (json_structs s) .
Definition set_pMqttClient (v : client_ptr) (s : shadow) : shadow :=
  mkShadow (AckWaitList s) v (myThingName s) (mqttClientID s) (shadowDeltaTopic s)
    (SubscriptionList s) (shadowRxBuf s) (tokenTable s) (tokenTableIndex s)
    (deltaTopicSubscribedFlag s) (shadowJsonVersionNum s) (shadowDiscardOldDeltaFlag s)
    (clientTokenNum s) (json s) (json_structs s) .
Definition set_myThingName (v : bytes) (s : shadow) : shadow :=
  mkShadow (AckWaitList s) (pMqttClient s) v (mqttClientID s) (shadowDeltaTopic s)
    (SubscriptionList s) (shadowRxBuf s) (tokenTable s) (tokenTableIndex s)
    (deltaTopicSubscribedFlag s) (shadowJsonVersionNum s) (shadowDiscardOldDeltaFlag s)
    (clientTokenNum s) (json s) (json_structs s) .
Definition set_mqttClientID (v : bytes) (s : shadow) : shadow :=
  mkShadow (AckWaitList s) (pMqttClient s) (myThingName s) v (shadowDeltaTopic s)
    (SubscriptionList s) (shadowRxBuf s) (tokenTable s) (tokenTableIndex s)
    (deltaTopicSubscribedFlag s) (shadowJsonVersionNum s) (shadowDiscardOldDeltaFlag s)
    (clientTokenNum s) (json s) (json_structs s) .
Definition set_shadowDeltaTopic (v : bytes) (s : shadow) : shadow :=
  mkShadow (AckWaitList s) (pMqttClient s) (myThingName s) (mqttClientID s) v (SubscriptionList s)
    (shadowRxBuf s) (tokenTable s) (tokenTableIndex s) (deltaTopicSubscribedFlag s)
    (shadowJsonVersionNum s) (shadowDiscardOldDeltaFlag s) (clientTokenNum s) (json s)
    (json_structs s) .
Definition set_SubscriptionList (v : list SubscriptionRecord_t) (s : shadow) : shadow :=
  mkShadow (AckWaitList s) (pMqttClient s) (myThingName s) (mqttClientID s) (shadowDeltaTopic s) v
    (shadowRxBuf s) (tokenTable s) (tokenTableIndex s) (deltaTopicSubscribedFlag s)
    (shadowJsonVersionNum s) (shadowDiscardOldDeltaFlag s) (clientTokenNum s) (json s)
    (json_structs s) .
Definition set_shadowRxBuf (v : bytes) (s : shadow) : shadow :=
  mkShadow (AckWaitList s) (pMqttClient s) (myThingName s) (mqttClientID s) (shadowDeltaTopic s)
    (SubscriptionList s) v (tokenTable s) (tokenTableIndex s) (deltaTopicSubscribedFlag s)
    (shadowJsonVersionNum s) (shadowDiscardOldDeltaFlag s) (clientTokenNum s) (json s)
    (json_structs s) .
Definition set_tokenTable (v : list JsonTokenTable_t) (s : shadow) : shadow :=
  mkShadow (AckWaitList s) (pMqttClient s) (myThingName s) (mqttClientID s) (shadowDeltaTopic s)
    (SubscriptionList s) (shadowRxBuf s) v (tokenTableIndex s) (deltaTopicSubscribedFlag s)
    (shadowJsonVersionNum s) (shadowDiscardOldDeltaFlag s) (clientTokenNum s) (json s)
    (json_structs s) .
Definition set_tokenTableIndex (v : Z) (s : shadow) : shadow :=
  mkShadow (AckWaitList s) (pMqttClient s) (myThingName s) (mqttClientID s) (shadowDeltaTopic s)
    (SubscriptionList s) (shadowRxBuf s) (tokenTable s) v (deltaTopicSubscribedFlag s)
    (shadowJsonVersionNum s) (shadowDiscardOldDeltaFlag s) (clientTokenNum s) (json s)
    (json_structs s) .
Definition set_deltaTopicSubscribedFlag (v : bool) (s : shadow) : shadow :=
  mkShadow (AckWaitList s) (pMqttClient s) (myThingName s) (mqttClientID s) (shadowDeltaTopic s)
    (SubscriptionList s) (shadowRxBuf s) (tokenTable s) (tokenTableIndex s) v
    (shadowJsonVersionNum s) (shadowDiscardOldDeltaFlag s) (clientTokenNum s) (json s)
    (json_structs s) .
Definition set_shadowJsonVersionNum (v : Z) (s : shadow) : shadow :=
  mkShadow (AckWaitList s) (pMqttClient s) (myThingName s) (mqttClientID s) (shadowDeltaTopic s)
    (SubscriptionList s) (shadowRxBuf s) (tokenTable s) (tokenTableIndex s)
    (deltaTopicSubscribedFlag s) v (shadowDiscardOldDeltaFlag s) (clientTokenNum s) (json s)
    (json_structs s) .
Definition set_shadowDiscardOldDeltaFlag (v : bool) (s : shadow) : shadow :=
  mkShadow (AckWaitList s) (pMqttClient s) (myThingName s) (mqttClientID s) (shadowDeltaTopic s)
    (SubscriptionList s) (shadowRxBuf s) (tokenTable s) (tokenTableIndex s)
    (deltaTopicSubscribedFlag s) (shadowJsonVersionNum s) v (clientTokenNum s) (json s)
    (json_structs s) .
Definition set_clientTokenNum (v : Z) (s : shadow) : shadow :=
  mkShadow (AckWaitList s) (pMqttClient s) (myThingName s) (mqttClientID s) (shadowDeltaTopic s)
    (SubscriptionList s) (shadowRxBuf s) (tokenTable s) (tokenTableIndex s)
    (deltaTopicSubscribedFlag s) (shadowJsonVersionNum s) (shadowDiscardOldDeltaFlag s) v (json s)
    (json_structs s) .
Definition set_json (v : shadow_json) (s : shadow) : shadow :=
  mkShadow (AckWaitList s) (pMqttClient s) (myThingName s) (mqttClientID s) (shadowDeltaTopic s)
    (SubscriptionList s) (shadowRxBuf s) (tokenTable s) (tokenTableIndex s)
    (deltaTopicSubscribedFlag s) (shadowJsonVersionNum s) (shadowDiscardOldDeltaFlag s)
    (clientTokenNum s) v (json_structs s) .
Definition set_json_structs (v : list jsonStruct_t) (s : shadow) : shadow :=
  mkShadow (AckWaitList s) (pMqttClient s) (myThingName s) (mqttClientID s) (shadowDeltaTopic s)
    (SubscriptionList s) (shadowRxBuf s) (tokenTable s) (tokenTableIndex s)
    (deltaTopicSubscribedFlag s) (shadowJsonVersionNum s) (shadowDiscardOldDeltaFlag s)
    (clientTokenNum s) (json s) v.
End state.

(** ** What the shadow calls and does not define *)

Section environment.
Context {fp : FloatingPoint}.

(** Where the static variables are in the state of the world. *)
Class ShadowState (W : Type) := {
  shadow_of : W -> shadow;
  set_shadow : shadow -> W -> W
}.

(** The application's callbacks.  An action callback gets a pointer to the thing name of an entry of
    [AckWaitList], here the entry's index, and one to [shadowRxBuf], which it finds in the world; a JSON
    callback gets an offset into [shadowRxBuf], a length and its structure. *)
Class ShadowAppOps (W : Type) := {
  call_action_callback : fnptr -> Z -> ShadowActions_t -> Shadow_Ack_Status_t -> voidptr ->
    AWS_IoT_Client -> W -> outcome (AWS_IoT_Client * W);
  call_json_callback : fnptr -> Z -> Z -> Z -> AWS_IoT_Client -> W -> outcome (AWS_IoT_Client * W)
}.
End environment.

(** The addresses of the two message handlers and of [myThingName], and what the fields of two local
    structures that are never assigned happen to hold. *)
Class ShadowCode := {
  AckStatusCallback_address : fnptr;
  shadow_delta_callback_address : fnptr;
  myThingName_address : voidptr;
  indeterminate_message : IoT_Publish_Message_Params;
  indeterminate_init : IoT_Client_Init_Params
}.

(** Fuel for the tokeniser: it needs one round for each character. *)
Definition parse_fuel (doc : bytes) : nat := S (S (length doc)).

Section records.
Context {fp : FloatingPoint}.
Context {W : Type} {clock : Clock W} {net : NetworkOps W} {mutexes : MutexOps W} {app : AppOps W}.
Context {statics : ShadowState W} {callbacks : ShadowAppOps W} {code : ShadowCode}.
Context (fuel : nat).

Definition static {A : Type} (f : shadow -> A) : M (St W) A := gets (fun s => f (shadow_of s.2)).
Definition assign_static (f : shadow -> shadow) : M (St W) unit :=
  modify (fun '(c, w) => (c, set_shadow (f (shadow_of w)) w)).

(** Elements of the arrays. *)
Definition ack_at (i : Z) : M (St W) ToBeReceivedAckRecord_t :=
  do! l := static AckWaitList in lift (aload l i).
Definition set_ack_at (i : Z) (a : ToBeReceivedAckRecord_t) : M (St W) unit :=
  do! l := static AckWaitList in do! l := lift (astore l i a) in assign_static (set_AckWaitList l).
Definition subscription_at (i : Z) : M (St W) SubscriptionRecord_t :=
  do! l := static SubscriptionList in lift (aload l i).
Definition set_subscription_at (i : Z) (r : SubscriptionRecord_t) : M (St W) unit :=
  do! l := static SubscriptionList in do! l := lift (astore l i r) in assign_static (set_SubscriptionList l).

Definition ack_freed (free : bool) (a : ToBeReceivedAckRecord_t) : ToBeReceivedAckRecord_t :=
  mkAck (clientTokenID a) (ack_thingName a) (ack_action a) (ack_callback a) (pCallbackContext a) free
    (ack_timer a).
Definition sr_freed (free : bool) (r : SubscriptionRecord_t) : SubscriptionRecord_t :=
  mkSubscription (sr_Topic r) (sr_count r) free (sr_isSticky r).
Definition sr_counted (count : Z) (r : SubscriptionRecord_t) : SubscriptionRecord_t :=
  mkSubscription (sr_Topic r) count (sr_isFree r) (sr_isSticky r).

Definition initDeltaTokens : M (St W) unit :=
  run! for_loop (Z.to_nat MAX_JSON_TOKEN_EXPECTED) 0 (fun i =>
    do! l := static tokenTable in
    do! t := lift (aload l i) in
    do! l := lift (astore l i (mkJsonToken (jt_pKey t) (jt_pStruct t) (jt_callback t) true)) in
    run! assign_static (set_tokenTable l) in
    ret (None : option unit)) in
  run! assign_static (set_tokenTableIndex 0) in
  assign_static (set_deltaTopicSubscribedFlag false).

Definition registerJsonTokenOnDelta (pStruct : Z) : M (St W) IoT_Error_t :=
  do! subscribed := static deltaTopicSubscribedFlag in
  do! rc :=
    if negb subscribed then
      do! name := static myThingName in
      do! thing := lift (string_arg (Some name)) in
      do! topic := static shadowDeltaTopic in
      do! (topic, n) := lift (snprintf topic 0 MAX_SHADOW_TOPIC_LENGTH_BYTES (delta_topic_text thing)) in
      run! assign_static (set_shadowDeltaTopic topic) in
      do! p := static pMqttClient in
      do! n := lift (strlen topic) in
      do! rc := aws_iot_mqtt_subscribe fuel p (Some topic) (u16 n) QOS0
                  (Some shadow_delta_callback_address) 0 in
      run! assign_static (set_deltaTopicSubscribedFlag true) in
      ret rc
    else ret SUCCESS in
  do! index := static tokenTableIndex in
  if MAX_JSON_TOKEN_EXPECTED <=? index then ret FAILURE
  else
    do! structs := static json_structs in
    do! s := lift (aload structs pStruct) in
    do! l := static tokenTable in
    do! l := lift (astore l index (mkJsonToken (pKey s) pStruct (cb s) false)) in
    run! assign_static (set_tokenTable l) in
    run! assign_static (set_tokenTableIndex (u32 (index + 1))) in
    ret rc.

(** [for(i = i0; i < i0 + n; i++) if(p(list[i])) return i; return -1;] *)
Fixpoint find_index {A : Type} (p : A -> outcome bool) (l : list A) (n : nat) (i : Z) : outcome Z :=
  match n with
  | O => Done (-1)
  | S n =>
      let! x := aload l i in
      let! b := p x in
      if (b : bool) then Done i else find_index p l n (i + 1)
  end.

Definition getNextFreeIndexOfSubscriptionList : M (St W) Z :=
  do! l := static SubscriptionList in
  do! i := lift (find_index (fun r => Done (sr_isFree r)) l (Z.to_nat MAX_TOPICS_AT_ANY_GIVEN_TIME) 0) in
  if i =? -1 then ret (-1)
  else
    do! r := lift (aload l i) in
    run! set_subscription_at i (sr_freed false r) in
    ret i.

(** [pTopicName]: the bytes from the topic on. *)
Definition isAckForMyThingName (thing pTopicName : bytes) : outcome bool :=
  let! name := string_arg (Some thing) in
  let! mine := strstr pTopicName name in
  if negb mine then Done false
  else
    let! get_accepted := strstr pTopicName (get_text ++ 47 :: accepted_text) in
    if (get_accepted : bool) then Done true
    else
      let! update_accepted := strstr pTopicName (update_text ++ 47 :: accepted_text) in
      if (update_accepted : bool) then Done true else strstr pTopicName delta_text.

Definition findIndexOfSubscriptionList (pTopic : bytes) (l : list SubscriptionRecord_t) : outcome Z :=
  find_index (fun r => if sr_isFree r then Done false else strcmp_eq pTopic (sr_Topic r)) l
    (Z.to_nat MAX_TOPICS_AT_ANY_GIVEN_TIME) 0.

(** What [unsubscribeFromAcceptedAndRejected] does for each of the two topics. *)
Definition release_subscription (topic : bytes) : M (St W) unit :=
  do! l := static SubscriptionList in
  do! indexSubList := lift (findIndexOfSubscriptionList topic l) in
  if 0 <=? indexSubList then
    do! r := subscription_at indexSubList in
    if negb (sr_isSticky r) && (sr_count r =? 1) then
      do! p := static pMqttClient in
      do! n := lift (strlen topic) in
      do! ret_val := aws_iot_mqtt_unsubscribe fuel p (Some topic) (u16 n) in
      if decide (ret_val = SUCCESS) then
        do! r := subscription_at indexSubList in set_subscription_at indexSubList (sr_freed true r)
      else ret tt
    else if 1 <? sr_count r then set_subscription_at indexSubList (sr_counted (u8 (sr_count r - 1)) r)
    else ret tt
  else ret tt.

Definition unsubscribeFromAcceptedAndRejected (index : Z) : M (St W) unit :=
  do! a := ack_at index in
  do! accepted := lift (topicNameFromThingAndAction (local MAX_SHADOW_TOPIC_LENGTH_BYTES)
    (Some (ack_thingName a)) (ack_action a) SHADOW_ACCEPTED) in
  do! rejected := lift (topicNameFromThingAndAction (local MAX_SHADOW_TOPIC_LENGTH_BYTES)
    (Some (ack_thingName a)) (ack_action a) SHADOW_REJECTED) in
  run! release_subscription accepted in
  release_subscription rejected.

(** How both message handlers start: the payload is copied to [shadowRxBuf], a NUL put behind it, and the
    text parsed; the number of tokens when it is a JSON object. *)
Definition receive_json (params : delivered) : M (St W) (option Z) :=
  if SHADOW_MAX_SIZE_OF_RX_BUFFER <? dm_payloadLen params then ret None
  else
    do! buf := client (fun c => readBuf (clientData c)) in
    do! d := lift (load_list buf (dm_payload params) (dm_payloadLen params)) in
    do! rx := static shadowRxBuf in
    do! rx := lift (store rx 0 d) in
    do! rx := lift (store rx (dm_payloadLen params) [0]) in
    run! assign_static (set_shadowRxBuf rx) in
    do! j := static json in
    do! (valid, tokenCount, j) := lift (isJsonValidAndParse (parse_fuel rx) rx 0 j) in
    run! assign_static (set_json j) in
    ret (if (valid : bool) then Some tokenCount else None).

(** The status the topic stands for; a topic with neither word leaves [status] indeterminate. *)
Definition ack_status (topicName : bytes) : outcome (option Shadow_Ack_Status_t) :=
  let! accepted := strstr topicName accepted_text in
  if (accepted : bool) then Done (Some SHADOW_ACK_ACCEPTED)
  else
    let! rejected := strstr topicName rejected_text in
    Done (if (rejected : bool) then Some SHADOW_ACK_REJECTED else None).

(** One round of the loop over [AckWaitList]; [Some tt] leaves the function. *)
Definition acknowledge (topicName temporaryClientToken : bytes) (i : Z) : M (St W) (option unit) :=
  do! a := ack_at i in
  if ack_isFree a then ret None
  else
    do! same := lift (strcmp_eq (clientTokenID a) temporaryClientToken) in
    if negb same then ret None
    else
      do! status := lift (ack_status topicName) in
      do! status := lift (deref status) in
      if bool_decide (status = SHADOW_ACK_ACCEPTED) || bool_decide (status = SHADOW_ACK_REJECTED) then
        run! match ack_callback a with
             | Some f => fun '(c, w) =>
                 let! s := call_action_callback f i (ack_action a) status (pCallbackContext a) c w in
                 Done (tt, s)
             | None => ret tt
             end in
        run! unsubscribeFromAcceptedAndRejected i in
        do! a := ack_at i in
        run! set_ack_at i (ack_freed true a) in
        ret (Some tt)
      else ret None.

Definition AckStatusCallback (topicName : Z) (params : delivered) : M (St W) unit :=
  do! r := receive_json params in
  match r with
  | None => ret tt
  | Some tokenCount =>
      do! buf := client (fun c => readBuf (clientData c)) in
      do! topic := lift (from buf topicName) in
      do! name := static myThingName in
      do! mine := lift (isAckForMyThingName name topic) in
      do! rx := static shadowRxBuf in
      do! j := static json in
      run! (if (mine : bool) then
              do! (found, tempVersionNumber) := lift (extractVersionNumber rx tokenCount 0 j) in
              if (found : bool) then
                do! version := static shadowJsonVersionNum in
                if version <? tempVersionNumber then assign_static (set_shadowJsonVersionNum tempVersionNumber)
                else ret tt
              else ret tt
            else ret tt) in
      do! (found, temporaryClientToken, j) := lift (extractClientToken (parse_fuel rx) rx
        (local MAX_SIZE_CLIENT_TOKEN_CLIENT_SEQUENCE) j) in
      run! assign_static (set_json j) in
      if (found : bool) then
        run! for_loop (Z.to_nat MAX_ACKS_TO_COMEIN_AT_ANY_GIVEN_TIME) 0
          (acknowledge topic temporaryClientToken) in
        ret tt
      else ret tt
  end.

Definition initializeRecords (pClient : client_ptr) : M (St W) unit :=
  run! for_loop (Z.to_nat MAX_ACKS_TO_COMEIN_AT_ANY_GIVEN_TIME) 0 (fun i =>
    do! a := ack_at i in
    run! set_ack_at i (ack_freed true a) in
    ret (None : option unit)) in
  run! for_loop (Z.to_nat MAX_TOPICS_AT_ANY_GIVEN_TIME) 0 (fun i =>
    do! r := subscription_at i in
    run! set_subscription_at i (mkSubscription (sr_Topic r) 0 true false) in
    ret (None : option unit)) in
  assign_static (set_pMqttClient pClient).

(** Is there an entry in use with the topic? *)
Fixpoint topic_present (topic other : bytes) (l : list SubscriptionRecord_t) (n : nat) (i : Z)
    (present other_present : bool) : outcome (bool * bool) :=
  match n with
  | O => Done (present, other_present)
  | S n =>
      let! r := aload l i in
      if sr_isFree r then topic_present topic other l n (i + 1) present other_present
      else
        let! b := strcmp_eq topic (sr_Topic r) in
        if (b : bool) then topic_present topic other l n (i + 1) true other_present
        else
          let! b := strcmp_eq other (sr_Topic r) in
          topic_present topic other l n (i + 1) present (if (b : bool) then true else other_present)
  end.

Definition isSubscriptionPresent (pThingName : option bytes) (action : ShadowActions_t) : M (St W) bool :=
  do! accepted := lift (topicNameFromThingAndAction (local MAX_SHADOW_TOPIC_LENGTH_BYTES) pThingName action
    SHADOW_ACCEPTED) in
  do! rejected := lift (topicNameFromThingAndAction (local MAX_SHADOW_TOPIC_LENGTH_BYTES) pThingName action
    SHADOW_REJECTED) in
  do! l := static SubscriptionList in
  do! (isAcceptedPresent, isRejectedPresent) := lift (topic_present accepted rejected l
    (Z.to_nat MAX_TOPICS_AT_ANY_GIVEN_TIME) 0 false false) in
  ret (isRejectedPresent && isAcceptedPresent).

(** Writing a topic into an entry of [SubscriptionList] and subscribing to it. *)
Definition subscribe_entry (index : Z) (pThingName : option bytes) (action : ShadowActions_t)
    (ackType : ShadowAckTopicTypes_t) : M (St W) IoT_Error_t :=
  do! r := subscription_at index in
  do! topic := lift (topicNameFromThingAndAction (sr_Topic r) pThingName action ackType) in
  run! set_subscription_at index (mkSubscription topic (sr_count r) (sr_isFree r) (sr_isSticky r)) in
  do! p := static pMqttClient in
  do! n := lift (strlen topic) in
  aws_iot_mqtt_subscribe fuel p (Some topic) (u16 n) QOS0 (Some AckStatusCallback_address) 0.

(** [SubscriptionList[index].count = 1; SubscriptionList[index].isSticky = isSticky;] *)
Definition entry_subscribed (index : Z) (isSticky : bool) : M (St W) unit :=
  do! r := subscription_at index in
  set_subscription_at index (mkSubscription (sr_Topic r) 1 (sr_isFree r) isSticky).

(** [while(!has_timer_expired(&subSettlingtimer));] *)
Definition settle (subSettlingtimer : Timer) : M (St W) unit :=
  loop fuel (fun _ : unit =>
    do! expired := world (has_timer_expired subSettlingtimer) in
    ret (if (expired : bool) then inr tt else inl tt)) tt.

Definition subscribeToShadowActionAcks (pThingName : option bytes) (action : ShadowActions_t)
    (isSticky : bool) : M (St W) IoT_Error_t :=
  do! indexAcceptedSubList := getNextFreeIndexOfSubscriptionList in
  do! indexRejectedSubList := getNextFreeIndexOfSubscriptionList in
  do! (ret_val, clearBothEntriesFromList) :=
    if (0 <=? indexAcceptedSubList) && (0 <=? indexRejectedSubList) then
      do! ret_val := subscribe_entry indexAcceptedSubList pThingName action SHADOW_ACCEPTED in
      if decide (ret_val = SUCCESS) then
        run! entry_subscribed indexAcceptedSubList isSticky in
        do! ret_val := subscribe_entry indexRejectedSubList pThingName action SHADOW_REJECTED in
        if decide (ret_val = SUCCESS) then
          run! entry_subscribed indexRejectedSubList isSticky in
          do! t := world (countdown_sec (init_timer (mkTimer (mkTimeval 0 0))) SUBSCRIBE_SETTLING_TIME) in
          run! settle t in
          ret (ret_val, false)
        else ret (ret_val, true)
      else ret (ret_val, true)
    else ret (SUCCESS, true) in
  run! (if (clearBothEntriesFromList : bool) then
          run! (if 0 <=? indexAcceptedSubList then
                  do! r := subscription_at indexAcceptedSubList in
                  set_subscription_at indexAcceptedSubList (sr_freed true r)
                else if 0 <=? indexRejectedSubList then
                  do! r := subscription_at indexRejectedSubList in
                  set_subscription_at indexRejectedSubList (sr_freed true r)
                else ret tt) in
          do! r := subscription_at indexAcceptedSubList in
          if sr_count r =? 1 then
            do! p := static pMqttClient in
            do! n := lift (strlen (sr_Topic r)) in
            do! rc := aws_iot_mqtt_unsubscribe fuel p (Some (sr_Topic r)) (u16 n) in
            ret tt
          else ret tt
        else ret tt) in
  ret ret_val.

Definition incrementSubscriptionCnt (pThingName : option bytes) (action : ShadowActions_t)
    (isSticky : bool) : M (St W) unit :=
  do! accepted := lift (topicNameFromThingAndAction (local MAX_SHADOW_TOPIC_LENGTH_BYTES) pThingName action
    SHADOW_ACCEPTED) in
  do! rejected := lift (topicNameFromThingAndAction (local MAX_SHADOW_TOPIC_LENGTH_BYTES) pThingName action
    SHADOW_REJECTED) in
  run! for_loop (Z.to_nat MAX_TOPICS_AT_ANY_GIVEN_TIME) 0 (fun i =>
    do! r := subscription_at i in
    if sr_isFree r then ret (None : option unit)
    else
      do! b := lift (strcmp_eq accepted (sr_Topic r)) in
      do! b := if (b : bool) then ret true else lift (strcmp_eq rejected (sr_Topic r)) in
      if (b : bool) then
        run! set_subscription_at i (mkSubscription (sr_Topic r) (u8 (sr_count r + 1)) (sr_isFree r) isSticky) in
        ret None
      else ret None) in
  ret tt.

(** Of the message's fields only these are assigned. *)
Definition publishToShadowAction (pThingName : option bytes) (action : ShadowActions_t)
    (pJsonDocumentToBeSent : option bytes) : M (St W) IoT_Error_t :=
  match pThingName, pJsonDocumentToBeSent with
  | Some _, Some doc =>
      do! topic := lift (topicNameFromThingAndAction (local MAX_SHADOW_TOPIC_LENGTH_BYTES) pThingName action
        SHADOW_ACTION) in
      do! payloadLen := lift (strlen doc) in
      let msgParams := mkPublishParams QOS0 (msg_isRetained indeterminate_message)
        (msg_isDup indeterminate_message) (msg_id indeterminate_message) (Some doc) payloadLen in
      do! p := static pMqttClient in
      do! n := lift (strlen topic) in
      do! (ret_val, msgParams) := aws_iot_mqtt_publish fuel p (Some topic) (u16 n) (Some msgParams) in
      ret ret_val
  | _, _ => ret NULL_VALUE_ERROR
  end.

(** Returns the index as well. *)
Definition getNextFreeIndexOfAckWaitList : M (St W) (option Z) :=
  do! l := static AckWaitList in
  do! i := lift (find_index (fun a => Done (ack_isFree a)) l
    (Z.to_nat MAX_ACKS_TO_COMEIN_AT_ANY_GIVEN_TIME) 0) in
  ret (if i =? -1 then None else Some i).

Definition addToAckWaitList (indexAckWaitList : Z) (pThingName : option bytes) (action : ShadowActions_t)
    (pExtractedClientToken : bytes) (callback : option fnptr) (pContext : voidptr)
    (timeout_seconds : Z) : M (St W) unit :=
  do! a := ack_at indexAckWaitList in
  do! token := lift (strncpy (clientTokenID a) pExtractedClientToken MAX_SIZE_CLIENT_ID_WITH_SEQUENCE) in
  do! name := lift (deref pThingName) in
  do! thing := lift (strncpy (ack_thingName a) name MAX_SIZE_OF_THING_NAME) in
  do! t := world (countdown_sec (init_timer (ack_timer a)) timeout_seconds) in
  set_ack_at indexAckWaitList (mkAck token thing action callback pContext false t).

(** One round of the loop of [HandleExpiredResponseCallbacks]. *)
Definition expire (i : Z) : M (St W) unit :=
  do! a := ack_at i in
  if ack_isFree a then ret tt
  else
    do! expired := world (has_timer_expired (ack_timer a)) in
    if (expired : bool) then
      run! match ack_callback a with
           | Some f => fun '(c, w) =>
               let! s := call_action_callback f i (ack_action a) SHADOW_ACK_TIMEOUT (pCallbackContext a) c w in
               Done (tt, s)
           | None => ret tt
           end in
      do! a := ack_at i in
      run! set_ack_at i (ack_freed true a) in
      unsubscribeFromAcceptedAndRejected i
    else ret tt.

Definition HandleExpiredResponseCallbacks : M (St W) unit :=
  run! for_loop (Z.to_nat MAX_ACKS_TO_COMEIN_AT_ANY_GIVEN_TIME) 0 (fun i =>
    run! expire i in ret (None : option unit)) in
  ret tt.

(** One round of the loop over [tokenTable]. *)
Definition apply_delta (tokenCount i : Z) : M (St W) unit :=
  do! l := static tokenTable in
  do! t := lift (aload l i) in
  if jt_isFree t then ret tt
  else
    do! rx := static shadowRxBuf in
    do! j := static json in
    do! structs := static json_structs in
    do! s := lift (aload structs (jt_pStruct t)) in
    do! (found, data, dataLength, DataPosition) :=
      lift (isJsonKeyMatchingAndUpdateValue rx tokenCount s 0 0 j) in
    if (found : bool) then
      do! structs := lift (astore structs (jt_pStruct t) (mkJsonStruct (pKey s) data (js_type s) (cb s))) in
      run! assign_static (set_json_structs structs) in
      match jt_callback t with
      | Some f => fun '(c, w) =>
          let! s := call_json_callback f DataPosition dataLength (jt_pStruct t) c w in
          Done (tt, s)
      | None => ret tt
      end
    else ret tt.

(** [for(i = 0; i < tokenTableIndex; i++)]: a callback may register further keys, but the array has no
    more elements than it had before.  [i + 1] is at most [tokenTableIndex]: it does not wrap. *)
Definition apply_deltas (tokenCount : Z) : M (St W) unit :=
  do! l := static tokenTable in
  loop (S (length l)) (fun i =>
    do! n := static tokenTableIndex in
    if i <? n then run! apply_delta tokenCount i in ret (inl (i + 1)) else ret (inr tt)) 0.

Definition shadow_delta_callback (params : delivered) : M (St W) unit :=
  do! r := receive_json params in
  match r with
  | None => ret tt
  | Some tokenCount =>
      do! discard := static shadowDiscardOldDeltaFlag in
      do! old :=
        if (discard : bool) then
          do! rx := static shadowRxBuf in
          do! j := static json in
          do! (found, tempVersionNumber) := lift (extractVersionNumber rx tokenCount 0 j) in
          if (found : bool) then
            do! version := static shadowJsonVersionNum in
            if version <? tempVersionNumber then
              run! assign_static (set_shadowJsonVersionNum tempVersionNumber) in ret false
            else ret true
          else ret false
        else ret false in
      if (old : bool) then ret tt else apply_deltas tokenCount
  end.
End records.
