(* ===== verification/ShadowActions.v ===== *)
(** * The shadow's actions and interface: src/aws_iot_shadow_actions.c, src/aws_iot_shadow.c

    An action - get, update or delete - publishes a request and, when the caller gave a callback and the
    request carries a client token, remembers it until the answer arrives or its time is over.  The
    interface adds initialisation, connecting and yielding around the MQTT client. *)

From S2P Require Export ShadowRecords Connect Yield.

(** ** Data *)

Record ShadowInitParameters_t := mkShadowInit {
  si_pHost : option bytes;
  si_port : Z;
  si_pRootCA : option bytes;
  si_pClientCRT : option bytes;
  si_pClientKey : option bytes;
  si_enableAutoReconnect : bool;
  si_disconnectHandler : option fnptr
}.

Record ShadowConnectParameters_t := mkShadowConnect {
  pMyThingName : option bytes;
  pMqttClientId : option bytes;
  mqttClientIdLen : Z;
  deleteActionHandler : option fnptr
}.

(** ** Actions and interface *)

Section shadow.
Context {fp : FloatingPoint}.
Context {W : Type} {clock : Clock W} {net : NetworkOps W} {mutexes : MutexOps W} {app : AppOps W}.
Context {statics : ShadowState W} {callbacks : ShadowAppOps W} {code : ShadowCode}.
Context (fuel : nat).

Definition aws_iot_shadow_internal_action (pThingName : option bytes) (action : ShadowActions_t)
    (pJsonDocumentToBeSent : option bytes) (callback : option fnptr) (pContext : voidptr)
    (timeout_seconds : Z) (isSticky : bool) : M (St W) IoT_Error_t :=
  match pThingName, pJsonDocumentToBeSent with
  | Some _, Some doc =>
      do! j := static json in
      do! (isClientTokenPresent, extractedClientToken, j) := lift (extractClientToken (parse_fuel doc) doc
        (local MAX_SIZE_CLIENT_ID_WITH_SEQUENCE) j) in
      run! assign_static (set_json j) in
      let tracked := isClientTokenPresent && bool_decide (is_Some callback) in
      do! (ret_val, index) :=
        if tracked then
          do! index := getNextFreeIndexOfAckWaitList in
          match index with
          | Some _ =>
              do! present := isSubscriptionPresent pThingName action in
              if negb present then
                do! ret_val := subscribeToShadowActionAcks fuel pThingName action isSticky in
                ret (ret_val, index)
              else
                run! incrementSubscriptionCnt pThingName action isSticky in
                ret (SUCCESS, index)
          | None => ret (FAILURE, None)
          end
        else ret (SUCCESS, None) in
      do! ret_val :=
        if decide (SUCCESS = ret_val) then publishToShadowAction fuel pThingName action pJsonDocumentToBeSent
        else ret ret_val in
      run! match index with
           | Some i =>
               if decide (SUCCESS = ret_val) then
                 addToAckWaitList i pThingName action extractedClientToken callback pContext timeout_seconds
               else ret tt
           | None => ret tt
           end in
      ret ret_val
  | _, _ => ret NULL_VALUE_ERROR
  end.

Definition resetClientTokenSequenceNum : M (St W) unit := assign_static (set_clientTokenNum 0).

Definition aws_iot_shadow_reset_last_received_version : M (St W) unit := assign_static (set_shadowJsonVersionNum 0).
Definition aws_iot_shadow_get_last_received_version : M (St W) Z := static shadowJsonVersionNum.
Definition aws_iot_shadow_enable_discard_old_delta_msgs : M (St W) unit :=
  assign_static (set_shadowDiscardOldDeltaFlag true).
Definition aws_iot_shadow_disable_discard_old_delta_msgs : M (St W) unit :=
  assign_static (set_shadowDiscardOldDeltaFlag false).

(** The fields of [mqttInitParams] that are not assigned are indeterminate. *)
Definition aws_iot_shadow_init (pClient : client_ptr) (pParams : option ShadowInitParameters_t)
    : M (St W) IoT_Error_t :=
  match pClient, pParams with
  | pCLIENT, Some p =>
      let mqttInitParams := mkInitParams (si_enableAutoReconnect p) (si_pHost p) (si_port p) (si_pRootCA p)
        (si_pClientCRT p) (si_pClientKey p) (mqttPacketTimeout_ms indeterminate_init) 20000 5000 true
        (si_disconnectHandler p) (ip_disconnectHandlerData indeterminate_init)
        (ip_isBlockOnThreadLockEnabled indeterminate_init) in
      do! rc := aws_iot_mqtt_init pClient (Some mqttInitParams) in
      check rc
        (run! resetClientTokenSequenceNum in
         run! aws_iot_shadow_reset_last_received_version in
         run! initDeltaTokens in
         ret SUCCESS)
  | _, _ => ret NULL_VALUE_ERROR
  end.

Definition aws_iot_shadow_connect (pClient : client_ptr) (pParams : option ShadowConnectParameters_t)
    : M (St W) IoT_Error_t :=
  match pClient, pParams with
  | pCLIENT, Some p =>
      match pMqttClientId p with
      | None => ret NULL_VALUE_ERROR
      | Some _ =>
          do! thing := lift (string_arg (pMyThingName p)) in
          do! name := static myThingName in
          do! (name, n) := lift (snprintf name 0 MAX_SIZE_OF_THING_NAME thing) in
          run! assign_static (set_myThingName name) in
          do! id := lift (string_arg (pMqttClientId p)) in
          do! buf := static mqttClientID in
          do! (buf, n) := lift (snprintf buf 0 MAX_SIZE_OF_UNIQUE_CLIENT_ID_BYTES id) in
          run! assign_static (set_mqttClientID buf) in
          let d := iotClientConnectParamsDefault in
          let ConnectParams := mkConnectParams MQTT_3_1_1 (pMqttClientId p) (mqttClientIdLen p) 10 true false
            (will d) None (usernameLen d) None (passwordLen d) in
          do! rc := aws_iot_mqtt_connect fuel pClient (Some ConnectParams) in
          run! (if decide (SUCCESS = rc) then initializeRecords pClient else ret tt) in
          match deleteActionHandler p with
          | Some f =>
              do! name := static myThingName in
              do! thing := lift (string_arg (Some name)) in
              do! (deleteAcceptedTopic, n) := lift (snprintf (local MAX_SHADOW_TOPIC_LENGTH_BYTES) 0
                MAX_SHADOW_TOPIC_LENGTH_BYTES (topic_text thing SHADOW_DELETE SHADOW_ACCEPTED)) in
              do! n := lift (strlen deleteAcceptedTopic) in
              aws_iot_mqtt_subscribe fuel pClient (Some deleteAcceptedTopic) (u16 n) QOS1 (Some f)
                myThingName_address
          | None => ret rc
          end
      end
  | _, _ => ret NULL_VALUE_ERROR
  end.

(** The parameter named [pMqttClient] hides the static variable. *)
Definition aws_iot_shadow_register_delta (pMqttClient : client_ptr) (pStruct : option Z)
    : M (St W) IoT_Error_t :=
  match pMqttClient, pStruct with
  | pCLIENT, Some pStruct =>
      do! connected := aws_iot_mqtt_is_client_connected pMqttClient in
      if negb connected then ret MQTT_CONNECTION_ERROR else registerJsonTokenOnDelta fuel pStruct
  | _, _ => ret NULL_VALUE_ERROR
  end.

Definition aws_iot_shadow_yield (pClient : client_ptr) (timeout : Z) : M (St W) IoT_Error_t :=
  match pClient with
  | pNULL => ret NULL_VALUE_ERROR
  | pCLIENT =>
      run! HandleExpiredResponseCallbacks fuel in
      aws_iot_mqtt_yield fuel pClient timeout
  end.

Definition aws_iot_shadow_disconnect (pClient : client_ptr) : M (St W) IoT_Error_t :=
  aws_iot_mqtt_disconnect fuel pClient.

(** The guard of the three actions. *)
Definition if_connected (pClient : client_ptr) (k : M (St W) IoT_Error_t) : M (St W) IoT_Error_t :=
  match pClient with
  | pNULL => ret NULL_VALUE_ERROR
  | pCLIENT =>
      do! connected := aws_iot_mqtt_is_client_connected pClient in
      if negb connected then ret MQTT_CONNECTION_ERROR else k
  end.

Definition aws_iot_shadow_update (pClient : client_ptr) (pThingName pJsonString : option bytes)
    (callback : option fnptr) (pContextData : voidptr) (timeout_seconds : Z) (isPersistentSubscribe : bool)
    : M (St W) IoT_Error_t :=
  if_connected pClient
    (aws_iot_shadow_internal_action pThingName SHADOW_UPDATE pJsonString callback pContextData
       timeout_seconds isPersistentSubscribe).

Definition aws_iot_shadow_delete (pClient : client_ptr) (pThingName : option bytes) (callback : option fnptr)
    (pContextData : voidptr) (timeout_seconds : Z) (isPersistentSubscribe : bool) : M (St W) IoT_Error_t :=
  if_connected pClient
    (do! id := static mqttClientID in
     do! num := static clientTokenNum in
     do! (deleteRequestJsonBuf, num) := lift (aws_iot_shadow_internal_delete_request_json id num
       (local MAX_SIZE_CLIENT_TOKEN_CLIENT_SEQUENCE)) in
     run! assign_static (set_clientTokenNum num) in
     aws_iot_shadow_internal_action pThingName SHADOW_DELETE (Some deleteRequestJsonBuf) callback pContextData
       timeout_seconds isPersistentSubscribe).

Definition aws_iot_shadow_get (pClient : client_ptr) (pThingName : option bytes) (callback : option fnptr)
    (pContextData : voidptr) (timeout_seconds : Z) (isPersistentSubscribe : bool) : M (St W) IoT_Error_t :=
  if_connected pClient
    (do! id := static mqttClientID in
     do! num := static clientTokenNum in
     do! (getRequestJsonBuf, num) := lift (aws_iot_shadow_internal_get_request_json id num
       (local MAX_SIZE_CLIENT_TOKEN_CLIENT_SEQUENCE)) in
     run! assign_static (set_clientTokenNum num) in
     aws_iot_shadow_internal_action pThingName SHADOW_GET (Some getRequestJsonBuf) callback pContextData
       timeout_seconds isPersistentSubscribe).

Definition aws_iot_shadow_set_autoreconnect_status (pClient : client_ptr) (newStatus : bool)
    : M (St W) IoT_Error_t :=
  aws_iot_mqtt_autoreconnect_set_status pClient newStatus.
End shadow.

(** ** The message handlers installed *)

Section tie.
Context {fp : FloatingPoint}.
Context {W : Type} {clock : Clock W} {net : NetworkOps W} {mutexes : MutexOps W}.
Context {statics : ShadowState W} {callbacks : ShadowAppOps W} {code : ShadowCode}.
Context (fuel : nat) (user : AppOps W).

(** The message handlers by address: the shadow's two, and otherwise the application's own.  While
    [AckStatusCallback] unsubscribes, messages are delivered, to it among others: [depth] bounds how deep
    the deliveries nest. *)
Fixpoint shadow_app (depth : nat) : AppOps W := {|
  call_message_handler f p n msg data c w :=
    if f =? AckStatusCallback_address then
      match depth with
      | O => NoFuel
      | S depth => let! (_, s) := AckStatusCallback (app := shadow_app depth) fuel p msg (c, w) in Done (msg, s.1, s.2)
      end
    else if f =? shadow_delta_callback_address then
      let! (_, s) := shadow_delta_callback msg (c, w) in Done (msg, s.1, s.2)
    else @call_message_handler W user f p n msg data c w;
  call_disconnect_handler := @call_disconnect_handler W user
|}.
End tie.
