(* ===== verification/ShadowLifecycle.v ===== *)
(** * Termination and life cycle of the shadow

    Every call of the shadow's interface returns and leaves the MQTT client at rest, as those of the
    client's own interface do ([Lifecycle]): the two message handlers of the shadow, installed in the
    client among the application's, satisfy what [EnvLaws] asks of message handlers.  The nesting of
    deliveries - [AckStatusCallback] unsubscribes, waits for the answer and may receive further messages
    meanwhile - is bounded by the bytes still to come. *)

From S2P Require Export ShadowActions Lifecycle TlsClient.

(** ** The tokeniser and the readers return *)

Lemma finishes_jsmn_parse fuel js len num toks :
  0 <= len < 2147483647 -> len < Z.of_nat fuel -> finishes (jsmn_parse fuel jsmn_init js len toks num).
Proof. intros. by apply parse_returns. Qed.

Lemma finishes_from m p : finishes (from m p).
Proof. unfold from. by destruct (_ && _). Qed.

Lemma finishes_jsoneq j t s : finishes (jsoneq j t s).
Proof. unfold jsoneq. pose proof finishes_from. finishes. Qed.

Lemma finishes_sscanf_int auto lo hi s i : finishes (sscanf_int auto lo hi s i).
Proof. unfold sscanf_int. finishes. Qed.

Lemma finishes_bytes_at j p s : finishes (bytes_at j p s).
Proof. revert p. induction s as [|b s IH]; intros p; cbn [bytes_at]; finishes. Qed.

#[export] Hint Resolve finishes_from finishes_jsoneq finishes_sscanf_int finishes_bytes_at : finishes.

Lemma finishes_strncpy_bytes n src : finishes (strncpy_bytes n src).
Proof. revert src. induction n as [|n IH]; intros [|b src]; cbn [strncpy_bytes]; finishes. Qed.

Lemma finishes_find_key n i j tokens key : finishes (find_key n i j tokens key).
Proof. revert i. induction n as [|n IH]; intros i; cbn [find_key]; finishes. Qed.

Lemma finishes_u32 i s t : finishes (parseUnsignedInteger32Value i s t).
Proof. unfold parseUnsignedInteger32Value. finishes. Qed.

Lemma finishes_find_version n i j tokens v : finishes (find_version n i j tokens v).
Proof. revert i v. induction n as [|n IH]; intros i v; cbn [find_version]; pose proof finishes_u32; finishes. Qed.

#[export] Hint Resolve finishes_strncpy_bytes finishes_find_key finishes_u32 finishes_find_version : finishes.

Lemma finishes_starts_with h n : finishes (starts_with h n).
Proof. revert h. induction n as [|c n IH]; intros h; cbn [starts_with]; finishes. Qed.
#[export] Hint Resolve finishes_starts_with : finishes.

Lemma finishes_strstr h n : finishes (strstr h n).
Proof. induction h as [|b h IH]; cbn [strstr]; finishes. Qed.

Lemma finishes_string_arg s : finishes (string_arg s).
Proof. unfold string_arg. finishes. Qed.

Lemma finishes_snprintf m p n t : finishes (snprintf m p n t).
Proof. unfold snprintf. finishes. Qed.

Lemma finishes_strncpy m s n : finishes (strncpy m s n).
Proof. unfold strncpy. finishes. Qed.
#[export] Hint Resolve finishes_strstr finishes_string_arg finishes_snprintf finishes_strncpy : finishes.

Lemma finishes_topic t th a k : finishes (topicNameFromThingAndAction t th a k).
Proof. unfold topicNameFromThingAndAction. finishes. Qed.

Lemma finishes_find_index {A} (p : A -> outcome bool) l n i :
  (forall x, finishes (p x)) -> finishes (find_index p l n i).
Proof. intros Hp. revert i. induction n as [|n IH]; intros i; cbn [find_index]; finishes. Qed.

Lemma finishes_isAckForMyThingName a b : finishes (isAckForMyThingName a b).
Proof. unfold isAckForMyThingName. finishes. Qed.

Lemma finishes_ack_status t : finishes (ack_status t).
Proof. unfold ack_status. finishes. Qed.

Lemma finishes_topic_present a b l n i x y : finishes (topic_present a b l n i x y).
Proof. revert i x y. induction n as [|n IH]; intros i x y; cbn [topic_present]; finishes. Qed.
#[export] Hint Resolve finishes_topic finishes_isAckForMyThingName finishes_ack_status
  finishes_topic_present : finishes.

Lemma finishes_find_subscription t l : finishes (findIndexOfSubscriptionList t l).
Proof. apply finishes_find_index. intros x. finishes. Qed.

Lemma finishes_find_free_subscription l n i :
  finishes (find_index (fun r => Done (sr_isFree r)) l n i).
Proof. by apply finishes_find_index. Qed.

Lemma finishes_find_free_ack l n i : finishes (find_index (fun a => Done (ack_isFree a)) l n i).
Proof. by apply finishes_find_index. Qed.
#[export] Hint Resolve finishes_find_subscription finishes_find_free_subscription finishes_find_free_ack : finishes.

Section readers.
Context {fp : FloatingPoint}.

Lemma finishes_update j ds t : finishes (UpdateValueIfNoObject j ds t).
Proof.
  unfold UpdateValueIfNoObject. destruct (js_type ds), (pData ds) as [[]|]; try done;
    unfold parseBooleanValue, parseInteger32Value, parseInteger16Value, parseInteger8Value,
      parseUnsignedInteger16Value, parseUnsignedInteger8Value, parseFloatValue, parseDoubleValue,
      parseStringValue; finishes.
Qed.

Lemma finishes_key_matching doc n ds l p s :
  finishes (isJsonKeyMatchingAndUpdateValue doc n ds l p s).
Proof. unfold isJsonKeyMatchingAndUpdateValue. pose proof finishes_update. finishes. Qed.

Lemma finishes_extract_version doc n v s : finishes (extractVersionNumber doc n v s).
Proof. unfold extractVersionNumber. finishes. Qed.

(** A text that ends early enough is parsed with the fuel given. *)
Definition int_sized (doc : bytes) : Prop := forall n, strlen doc = Done n -> n < 2147483647.

Lemma strlen_length doc n : strlen doc = Done n -> 0 <= n < zlen doc.
Proof.
  revert n. induction doc as [|b doc IH]; intros n; cbn [strlen]; [done|]. rewrite zlen_cons.
  pose proof (zlen_nonneg doc). destruct (b =? 0); [intros [= <-]; lia|].
  destruct (strlen doc) as [k| |]; [|done..]. intros [= <-]. specialize (IH k eq_refl). lia.
Qed.

Lemma short_int_sized doc : zlen doc < 2147483647 -> int_sized doc.
Proof. intros H n Hn. apply strlen_length in Hn. lia. Qed.

Lemma finishes_parse_object doc s : int_sized doc -> finishes (parse_object (parse_fuel doc) doc s).
Proof.
  intros Hr. unfold parse_object. destruct (strlen doc) as [n| |] eqn:E; [|done|].
  2: { by pose proof (finishes_strlen doc) as H; rewrite E in H. }
  cbn [obind]. apply finishes_bind; [|finishes]. pose proof (strlen_length doc n E). specialize (Hr n E).
  apply finishes_jsmn_parse; [lia|]. unfold parse_fuel, zlen in *. lia.
Qed.

Lemma finishes_valid doc n s : int_sized doc -> finishes (isJsonValidAndParse (parse_fuel doc) doc n s).
Proof. intros Hr. apply finishes_bind; [by apply finishes_parse_object|]. finishes. Qed.

Lemma finishes_extract_token doc buf s :
  int_sized doc -> finishes (extractClientToken (parse_fuel doc) doc buf s).
Proof. intros Hr. apply finishes_bind; [by apply finishes_parse_object|]. finishes. Qed.
End readers.
#[export] Hint Resolve finishes_key_matching finishes_extract_version : finishes.

(** ** Operations return and let the client evolve *)

Section returns.
Context {fp : FloatingPoint}.
Context {W : Type} {clock : Clock W} {net : NetworkOps W} {mutexes : MutexOps W} {app : AppOps W}.
Context {statics : ShadowState W} {callbacks : ShadowAppOps W} {code : ShadowCode}.
Context {laws : EnvLaws W}.

(** The shadow's variables are apart from what the client relies on, and the application's callbacks
    behave as message handlers have to; no callback resizes the table of keys. *)
Class ShadowLaws := {
  law_shadow_of : forall x w, shadow_of (set_shadow x w) = x;
  law_set_shadow : forall x w, now (set_shadow x w) = now w /\ incoming (set_shadow x w) = incoming w;
  law_action_callback : forall f i a st d c w,
    owp total (call_action_callback f i a st d c w) (fun '(c', w') => evolves_to W c w c' w');
  law_json_callback : forall f p n i c w,
    owp total (call_json_callback f p n i c w) (fun '(c', w') => evolves_to W c w c' w' /\
      length (tokenTable (shadow_of w')) = length (tokenTable (shadow_of w)))
}.
Context {slaws : ShadowLaws} (fuel : nat).

(** From a state with enough fuel the operation returns, and has let the client evolve. *)
Definition returns {A : Type} (m : M (St W) A) : Prop :=
  forall s, enough fuel s -> wp total m (fun _ s' => evolves s s') s.

Lemma returns_ret {A} (a : A) : returns (ret a).
Proof. intros s _. apply wp_ret. reflexivity. Qed.

Lemma returns_bind {A B} (m : M (St W) A) (k : A -> M (St W) B) :
  returns m -> (forall a, returns (k a)) -> returns (bind m k).
Proof.
  intros Hm Hk s Hs. apply wp_bind. eapply wp_mono; [by apply Hm|]. intros a s1 H1.
  eapply wp_mono; [apply Hk; by eapply enough_evolves|]. intros b s2 H2. etrans; [exact H1|exact H2].
Qed.

Lemma returns_gets {A} (f : St W -> A) : returns (gets f).
Proof. intros s _. apply wp_gets. reflexivity. Qed.

Lemma returns_lift {A} (o : outcome A) : finishes o -> returns (lift o).
Proof. intros Ho s _. apply wp_lift. eapply owp_mono; [exact Ho|]. intros a _. reflexivity. Qed.

Lemma steady_set_shadow x c w : steady (c, w) (c, set_shadow x w).
Proof.
  destruct (law_set_shadow x w) as [H1 H2]. apply steady_world. unfold world_le. rewrite H1, H2. lia.
Qed.

Lemma returns_assign_static f : returns (assign_static f).
Proof. intros [c w] _. apply wp_modify, steady_evolves, steady_set_shadow. Qed.

Lemma returns_for_loop {A} n i (body : Z -> M (St W) (option A)) :
  (forall i, returns (body i)) -> returns (for_loop n i body).
Proof.
  intros Hb. revert i. induction n as [|n IH]; intros i; cbn [for_loop]; [apply returns_ret|].
  apply returns_bind; [apply Hb|]. intros [a|]; [apply returns_ret|apply IH].
Qed.

Lemma returns_check rc (k : M (St W) IoT_Error_t) : returns k -> returns (check rc k).
Proof. intros Hk. unfold check. destruct (decide _); [done|apply returns_ret]. Qed.

Lemma returns_expired t : returns (world (has_timer_expired t)).
Proof.
  intros [c w] _. apply wp_clock_expired. intros b w' H _ _. by apply steady_evolves, steady_world.
Qed.

Lemma returns_countdown_sec t n : returns (world (countdown_sec t n)).
Proof.
  intros [c w] _. apply wp_clock_countdown_sec. intros t' w' H _. by apply steady_evolves, steady_world.
Qed.

(** The operations of the client. *)
Lemma returns_subscribe p topic n q f d : returns (aws_iot_mqtt_subscribe fuel p topic n q f d).
Proof. destruct p; [apply returns_ret|]. intros s Hs. by apply subscribe_evolves. Qed.

Lemma returns_unsubscribe p topic n : returns (aws_iot_mqtt_unsubscribe fuel p topic n).
Proof. destruct p; [apply returns_ret|]. intros s Hs. by apply unsubscribe_evolves. Qed.

Lemma returns_publish p topic n m : returns (aws_iot_mqtt_publish fuel p topic n m).
Proof. destruct p; [apply returns_ret|]. intros s Hs. by apply publish_evolves. Qed.

Lemma returns_connect p ps : returns (aws_iot_mqtt_connect fuel p ps).
Proof.
  destruct p; [apply returns_ret|]. intros s Hs. eapply wp_mono; [by apply connect_evolves|].
  by intros ? ? [? _].
Qed.

Lemma returns_disconnect p : returns (aws_iot_mqtt_disconnect fuel p).
Proof.
  destruct p; [apply returns_ret|]. intros s Hs. eapply wp_mono; [by apply disconnect_evolves|].
  by intros ? ? [? _].
Qed.

Lemma returns_yield p t :
  0 <= t -> t * 1000 < Z.of_nat fuel -> returns (aws_iot_mqtt_yield fuel p t).
Proof. intros H0 H1. destruct p; [apply returns_ret|]. intros s Hs. by apply yield_evolves. Qed.
End returns.

Create HintDb returns.
#[export] Hint Resolve returns_ret returns_gets returns_assign_static returns_expired returns_countdown_sec
  returns_subscribe returns_unsubscribe returns_publish returns_connect returns_disconnect : returns.

(** Follows the structure of an operation down to those of the database. *)
Ltac returns_step :=
  cbv beta zeta;
    match goal with
    | |- forall _, _ => intros ?
    | |- returns _ (bind _ _) => apply returns_bind
    | |- returns _ (lift _) => apply returns_lift; finishes
    | |- returns _ (for_loop _ _ _) => apply returns_for_loop
    | |- returns _ (check _ _) => apply returns_check
    | |- returns _ (match ?x with _ => _ end) => destruct x
    | |- returns _ (static _) => apply returns_gets
    | |- returns _ (client _) => apply returns_gets
    | |- returns _ _ => solve [eauto with returns]
    end.
Ltac returns := repeat returns_step.

(** *** The tables *)

Section tables.
Context {fp : FloatingPoint}.
Context {W : Type} {clock : Clock W} {net : NetworkOps W} {mutexes : MutexOps W} {app : AppOps W}.
Context {statics : ShadowState W} {callbacks : ShadowAppOps W} {code : ShadowCode}.
Context {laws : EnvLaws W} {slaws : ShadowLaws} (fuel : nat).

Lemma returns_ack_at i : returns fuel (ack_at i).
Proof. unfold ack_at. returns. Qed.
Lemma returns_set_ack_at i a : returns fuel (set_ack_at i a).
Proof. unfold set_ack_at. returns. Qed.
Lemma returns_subscription_at i : returns fuel (subscription_at i).
Proof. unfold subscription_at. returns. Qed.
Lemma returns_set_subscription_at i r : returns fuel (set_subscription_at i r).
Proof. unfold set_subscription_at. returns. Qed.
Hint Resolve returns_ack_at returns_set_ack_at returns_subscription_at returns_set_subscription_at : returns.

Lemma returns_initDeltaTokens : returns fuel initDeltaTokens.
Proof. unfold initDeltaTokens. returns. Qed.

Lemma returns_registerJsonTokenOnDelta p : returns fuel (registerJsonTokenOnDelta fuel p).
Proof. unfold registerJsonTokenOnDelta. returns. Qed.

Lemma returns_next_subscription : returns fuel getNextFreeIndexOfSubscriptionList.
Proof. unfold getNextFreeIndexOfSubscriptionList. returns. Qed.

Lemma returns_release topic : returns fuel (release_subscription fuel topic).
Proof. unfold release_subscription. returns. Qed.
Hint Resolve returns_next_subscription returns_release : returns.

Lemma returns_unsubscribe_both i : returns fuel (unsubscribeFromAcceptedAndRejected fuel i).
Proof. unfold unsubscribeFromAcceptedAndRejected. returns. Qed.
Hint Resolve returns_unsubscribe_both : returns.

Lemma returns_action_callback f i a st d :
  returns fuel (fun '(c, w) => let! s := call_action_callback f i a st d c w in Done (tt, s)).
Proof.
  intros [c w] _. unfold wp. apply owp_bind. eapply owp_mono; [apply law_action_callback|].
  intros [c' w'] H. exact H.
Qed.
Hint Resolve returns_action_callback : returns.

Lemma returns_acknowledge topic token i : returns fuel (acknowledge fuel topic token i).
Proof. unfold acknowledge. returns. Qed.

Lemma returns_initializeRecords p : returns fuel (initializeRecords p).
Proof. unfold initializeRecords. returns. Qed.

Lemma returns_isSubscriptionPresent t a : returns fuel (isSubscriptionPresent t a).
Proof. unfold isSubscriptionPresent. returns. Qed.

Lemma returns_increment t a b : returns fuel (incrementSubscriptionCnt t a b).
Proof. unfold incrementSubscriptionCnt. returns. Qed.

Lemma returns_publish_action t a d : returns fuel (publishToShadowAction fuel t a d).
Proof. unfold publishToShadowAction. returns. Qed.

Lemma returns_next_ack : returns fuel getNextFreeIndexOfAckWaitList.
Proof. unfold getNextFreeIndexOfAckWaitList. returns. Qed.

Lemma returns_add_ack i t a tok cb d n : returns fuel (addToAckWaitList i t a tok cb d n).
Proof. unfold addToAckWaitList. returns. Qed.

Lemma returns_HandleExpired : returns fuel (HandleExpiredResponseCallbacks fuel).
Proof. unfold HandleExpiredResponseCallbacks, expire. returns. Qed.

Lemma returns_subscribe_entry i t a k : returns fuel (subscribe_entry fuel i t a k).
Proof. unfold subscribe_entry. returns. Qed.

Lemma returns_entry_subscribed i b : returns fuel (entry_subscribed i b).
Proof. unfold entry_subscribed. returns. Qed.
End tables.

(** *** Receiving, settling, deltas *)

Section handlers.
Context {fp : FloatingPoint}.
Context {W : Type} {clock : Clock W} {net : NetworkOps W} {mutexes : MutexOps W} {app : AppOps W}.
Context {statics : ShadowState W} {callbacks : ShadowAppOps W} {code : ShadowCode}.
Context {laws : EnvLaws W} {slaws : ShadowLaws} (fuel : nat).

(** A text ends at its first NUL. *)
Lemma strlen_le m p n : load m p = Done 0 -> strlen m = Done n -> n <= p.
Proof.
  unfold load. destruct (Z.leb_spec 0 p); [|done]. destruct (m !! Z.to_nat p) as [b|] eqn:E; [|done].
  intros [= ->]. revert p H n E. induction m as [|x m IH]; intros p Hp n E; cbn [strlen]; [done|].
  destruct (Z.eqb_spec x 0) as [->|Hx]; [intros [= <-]; lia|].
  destruct (strlen m) as [k| |] eqn:Ek; [|done..]. intros [= <-].
  destruct (Z.to_nat p) as [|q] eqn:Eq; [cbn in E; congruence|]. cbn in E.
  specialize (IH (p - 1) ltac:(lia) k). replace (Z.to_nat (p - 1)) with q in IH by lia.
  specialize (IH E eq_refl). lia.
Qed.

Lemma load_stored m p b m' : store m p [b] = Done m' -> load m' p = Done b.
Proof.
  intros H. pose proof (store_Done _ _ _ _ H) as Hb. change (zlen [b]) with 1 in Hb.
  destruct (split_at m p 1) as (pre & mid & post & -> & Hp & Hm); [lia..|].
  destruct mid as [|x [|y mid]]; [done| |rewrite !zlen_cons in Hm; pose proof (zlen_nonneg mid); lia].
  rewrite <- Hp in H. rewrite (store_split pre [x] post [b]) in H by done. injection H as <-.
  rewrite <- Hp. apply (load_app pre).
Qed.

(** What the tokeniser reads has a length an [int] can hold, because of the NUL behind the payload. *)
Lemma receive_json_returns params s :
  enough fuel s ->
  wp total (receive_json params) (fun r s' => steady s s' /\
    (is_Some r -> int_sized (shadowRxBuf (shadow_of s'.2)))) s.
Proof.
  intros Hs. destruct s as [c w]. unfold receive_json.
  destruct (Z.ltb_spec SHADOW_MAX_SIZE_OF_RX_BUFFER (dm_payloadLen params)).
  { apply wp_ret. split; [reflexivity|by intros []]. }
  apply wp_bind, wp_client, wp_bind, wp_lift. eapply owp_mono; [apply finishes_load_list|]. intros d _.
  apply wp_bind, wp_gets, wp_bind, wp_lift. eapply owp_mono; [apply finishes_store|]. intros rx1 _.
  apply wp_bind, wp_lift. destruct (store rx1 _ [0]) as [rx| |] eqn:E; [|done|].
  2: { by pose proof (finishes_store rx1 (dm_payloadLen params) [0]) as H0; rewrite E in H0. }
  assert (Hr : int_sized rx).
  { intros n Hn. pose proof (strlen_le _ _ _ (load_stored _ _ _ _ E) Hn).
    assert (SHADOW_MAX_SIZE_OF_RX_BUFFER = 131073) by done. lia. }
  cbn [owp]. apply wp_bind, wp_modify. set (w1 := set_shadow _ w).
  assert (H1 : steady (c, w) (c, w1)) by apply steady_set_shadow.
  apply wp_bind, wp_gets, wp_bind, wp_lift. eapply owp_mono; [by apply finishes_valid|].
  intros [[valid n] j] _. apply wp_bind, wp_modify, wp_ret. split; [etrans; [exact H1|apply steady_set_shadow]|].
  intros _. cbn [snd]. rewrite law_shadow_of. unfold w1. rewrite law_shadow_of. exact Hr.
Qed.

Lemma returns_AckStatusCallback p params : returns fuel (AckStatusCallback fuel p params).
Proof.
  intros s Hs. unfold AckStatusCallback. apply wp_bind.
  eapply wp_mono; [by apply receive_json_returns|].
  intros r [c1 w1] [H1 Hr]. pose proof (enough_steady _ _ _ Hs H1) as Hs1.
  destruct r as [n|]; [|apply wp_ret; by apply steady_evolves]. specialize (Hr ltac:(by eexists)).
  apply wp_bind, wp_client, wp_bind, wp_lift. eapply owp_mono; [apply finishes_from|]. intros topic _.
  apply wp_bind, wp_gets, wp_bind, wp_lift. eapply owp_mono; [apply finishes_isAckForMyThingName|]. intros mine _.
  apply wp_bind, wp_gets, wp_bind, wp_gets. cbn [fst snd] in *.
  set (rx := shadowRxBuf (shadow_of w1)) in *. apply wp_bind.
  eapply (wp_mono total _ (fun _ s' => evolves s s')).
  - eapply wp_mono; [|intros ? s' H; etrans; [apply steady_evolves; exact H1|exact H]].
    destruct mine; [|by apply wp_ret].
    refine (returns_bind fuel (lift _) _ _ _ (c1, w1) Hs1).
    + apply returns_lift. finishes.
    + intros [found v]. returns.
  - intros _ s2 H2. refine (wp_mono total _ _ _ _ (returns_bind fuel (lift _) _ _ _ s2 _) _).
    + apply returns_lift. by apply finishes_extract_token.
    + intros [[found tok] j]. pose proof (returns_acknowledge fuel). returns.
    + eapply enough_evolves; [exact Hs|exact H2].
    + intros ? s3 H3. etrans; [exact H2|exact H3].
Qed.

(** The loop over the table ends: callbacks may extend the part in use, but the array stays. *)
Lemma apply_delta_returns n i c w :
  wp total (apply_delta n i) (fun _ s' => evolves (c, w) s' /\
    length (tokenTable (shadow_of s'.2)) = length (tokenTable (shadow_of w)) /\
    0 <= i < zlen (tokenTable (shadow_of w))) (c, w).
Proof.
  unfold apply_delta. apply wp_bind, wp_gets, wp_bind, wp_lift.
  cbn [snd]. unfold aload at 1. destruct (Z.leb_spec 0 i); [|done].
  destruct (tokenTable (shadow_of w) !! Z.to_nat i) as [t|] eqn:E; [|done]. cbn [deref owp].
  assert (Hi : 0 <= i < zlen (tokenTable (shadow_of w))).
  { split; [done|]. apply lookup_lt_Some in E. unfold zlen. lia. }
  destruct (jt_isFree t); [apply wp_ret; split; [reflexivity|by split]|].
  do 3 apply wp_bind, wp_gets. apply wp_bind, wp_lift. eapply owp_mono; [apply finishes_aload|]. intros x _.
  apply wp_bind, wp_lift. eapply owp_mono; [apply finishes_key_matching|]. intros [[[found data] l] p] _.
  destruct found; [|apply wp_ret; split; [reflexivity|by split]].
  apply wp_bind, wp_lift. eapply owp_mono; [apply finishes_astore|]. intros structs _.
  apply wp_bind, wp_modify. set (w1 := set_shadow _ w).
  assert (H1 : steady (c, w) (c, w1)) by apply steady_set_shadow.
  assert (Hl : length (tokenTable (shadow_of w1)) = length (tokenTable (shadow_of w))).
  { unfold w1. by rewrite law_shadow_of. }
  destruct (jt_callback t) as [f|]; [|apply wp_ret; split; [by apply steady_evolves|done]].
  unfold wp. apply owp_bind. eapply owp_mono; [apply law_json_callback|].
  intros [c' w'] [H2 Hl2]. split; [|split; [cbn [snd]; congruence|done]].
  etrans; [by apply steady_evolves|exact H2].
Qed.

Lemma returns_apply_deltas n : returns fuel (apply_deltas n).
Proof.
  intros [c w] Hs. unfold apply_deltas. apply wp_bind, wp_gets. cbn [snd].
  set (L := length (tokenTable (shadow_of w))).
  apply (wp_loop total (fun i s' => evolves (c, w) s' /\ length (tokenTable (shadow_of s'.2)) = L /\
      0 <= i <= Z.of_nat L) (fun i _ => Z.to_nat (Z.of_nat L - i))).
  - split; [reflexivity|]. split; [done|]. lia.
  - intros i [c1 w1] (H1 & Hl & Hi). apply wp_bind, wp_gets. destruct (_ <? _); [|by apply wp_ret].
    apply wp_bind. eapply wp_mono; [apply apply_delta_returns|]. intros _ s2 (H2 & Hl2 & Hi2). apply wp_ret.
    cbn [snd] in *. unfold zlen in Hi2.
    split; [split; [etrans; [exact H1|exact H2]|split; [congruence|lia]]|]. intros _. lia.
  - intros _. lia.
Qed.

Lemma returns_receive_json params : returns fuel (receive_json params).
Proof.
  intros s Hs. eapply wp_mono; [by apply receive_json_returns|]. intros r s' [H _]. by apply steady_evolves.
Qed.

Lemma returns_shadow_delta_callback params : returns fuel (shadow_delta_callback params).
Proof.
  unfold shadow_delta_callback. pose proof returns_apply_deltas. pose proof returns_receive_json. returns.
Qed.

(** Waiting for a subscription to settle takes two seconds of clock readings. *)
Hypothesis Hsettle : 2000000 < Z.of_nat fuel.

Lemma returns_settle t0 {A} (k : M (St W) A) :
  returns fuel k ->
  returns fuel (do! t := world (countdown_sec t0 SUBSCRIBE_SETTLING_TIME) in run! settle fuel t in k).
Proof.
  intros Hk [c w] Hs. apply wp_bind, wp_world, wp_countdown_sec.
  pose proof (law_clock W w) as (Hn & Hm & Hlt & Hi). intros t Ht He.
  set (w1 := (gettimeofday w).2) in *.
  assert (H1 : steady (c, w) (c, w1)) by (apply steady_world; unfold world_le; lia).
  apply wp_bind. unfold settle.
  apply (wp_loop total (fun _ s' => steady (c, w) s') (fun _ s' => Z.to_nat (expiry t - now s'.2))).
  - exact H1.
  - intros _ [c2 w2] H2. apply wp_bind, wp_clock_expired. intros b w3 Hw3 Hlt3 Hb. rewrite Hb by done.
    assert (H3 : steady (c, w) (c2, w3)) by (etrans; [exact H2|by apply steady_world]).
    destruct (Z.leb_spec (expiry t) (now w3)); apply wp_ret.
    + eapply wp_mono; [apply Hk; by eapply enough_steady|]. intros a s4 H4.
      etrans; [by apply steady_evolves|exact H4].
    + split; [exact H3|]. intros _. cbn [snd]. lia.
  - intros _. cbn [snd]. rewrite He, Hm. unfold SUBSCRIBE_SETTLING_TIME. lia.
Qed.

Lemma returns_subscribeToShadowActionAcks t a b :
  returns fuel (subscribeToShadowActionAcks fuel t a b).
Proof.
  unfold subscribeToShadowActionAcks. pose proof (returns_next_subscription fuel).
  pose proof (returns_subscribe_entry fuel). pose proof (returns_entry_subscribed fuel).
  pose proof (returns_subscription_at fuel). pose proof (returns_set_subscription_at fuel).
  repeat match goal with
    | |- returns _ (bind (world (countdown_sec _ SUBSCRIBE_SETTLING_TIME)) _) => apply returns_settle
    | _ => returns_step
    end.
Qed.
End handlers.

(** *** Actions and interface *)

Section interface.
Context {fp : FloatingPoint}.
Context {W : Type} {clock : Clock W} {net : NetworkOps W} {mutexes : MutexOps W} {app : AppOps W}.
Context {statics : ShadowState W} {callbacks : ShadowAppOps W} {code : ShadowCode}.
Context {laws : EnvLaws W} {slaws : ShadowLaws} (fuel : nat).
Hypothesis Hsettle : 2000000 < Z.of_nat fuel.

Lemma returns_internal_action t a doc f d n b :
  (forall x, doc = Some x -> int_sized x) ->
  returns fuel (aws_iot_shadow_internal_action fuel t a doc f d n b).
Proof.
  intros Hdoc. unfold aws_iot_shadow_internal_action. destruct t as [t|]; [|apply returns_ret].
  destruct doc as [doc|]; [|apply returns_ret]. specialize (Hdoc doc eq_refl).
  pose proof (fun buf j => finishes_extract_token doc buf j Hdoc).
  pose proof (returns_next_ack fuel). pose proof (returns_isSubscriptionPresent fuel).
  pose proof (returns_subscribeToShadowActionAcks fuel Hsettle). pose proof (returns_increment fuel).
  pose proof (returns_publish_action fuel). pose proof (returns_add_ack fuel). returns.
Qed.

Lemma sprintf_zlen m p t m' : sprintf m p t = Done m' -> zlen m' = zlen m.
Proof. apply store_zlen. Qed.

Lemma empty_json_returns id num m :
  owp total (emptyJsonWithClientToken id num m) (fun '(m', _) => zlen m' = zlen m).
Proof.
  unfold emptyJsonWithClientToken, FillWithClientToken, client_token. unfold sprintf. apply owp_bind.
  eapply owp_mono; [apply store_finishes|]. intros m1 H1. apply owp_bind.
  eapply owp_mono; [apply finishes_strlen|]. intros n _. apply owp_bind, owp_bind, owp_bind.
  eapply owp_mono; [apply finishes_string_arg|]. intros s _. cbn [owp]. apply owp_bind.
  eapply owp_mono; [apply store_finishes|]. intros m2 H2. cbn [owp]. apply owp_bind.
  eapply owp_mono; [apply finishes_strlen|]. intros n2 _. apply owp_bind.
  eapply owp_mono; [apply store_finishes|]. intros m3 H3. cbn [owp]. congruence.
Qed.

(** The part of get and of delete behind the guard. *)
Lemma returns_request a t f d n b :
  returns fuel
    (do! id := static mqttClientID in
     do! num := static clientTokenNum in
     do! (buf, num) := lift (emptyJsonWithClientToken id num (local MAX_SIZE_CLIENT_TOKEN_CLIENT_SEQUENCE)) in
     run! assign_static (set_clientTokenNum num) in
     aws_iot_shadow_internal_action fuel t a (Some buf) f d n b).
Proof.
  apply returns_bind; [apply returns_gets|]. intros id. apply returns_bind; [apply returns_gets|]. intros num.
  intros s Hs. apply wp_bind, wp_lift. eapply owp_mono; [apply empty_json_returns|].
  intros [buf num'] Hb. refine (returns_bind fuel _ _ (returns_assign_static fuel _) _ s Hs).
  intros _. apply returns_internal_action. intros x [= <-]. apply short_int_sized. rewrite Hb. by vm_compute.
Qed.

Lemma returns_if_connected p k : returns fuel k -> returns fuel (if_connected p k).
Proof. intros Hk. unfold if_connected. destruct p; returns. Qed.

Lemma returns_shadow_connect p ps : returns fuel (aws_iot_shadow_connect fuel p ps).
Proof. unfold aws_iot_shadow_connect. pose proof (returns_initializeRecords fuel). returns. Qed.

Lemma returns_shadow_register p ps : returns fuel (aws_iot_shadow_register_delta fuel p ps).
Proof. unfold aws_iot_shadow_register_delta. pose proof (returns_registerJsonTokenOnDelta fuel). returns. Qed.

Lemma returns_shadow_yield p t :
  0 <= t -> t * 1000 < Z.of_nat fuel -> returns fuel (aws_iot_shadow_yield fuel p t).
Proof.
  intros H0 H1. unfold aws_iot_shadow_yield. destruct p; [apply returns_ret|].
  apply returns_bind; [apply returns_HandleExpired|]. intros _. by apply returns_yield.
Qed.
End interface.

(** *** The interface as a language of calls *)

(** The entry points of aws_iot_shadow_interface.h, and those of the client's own interface. *)
Inductive shadow_call : Type :=
  | client_call (a : api_call)
  | shadow_init (p : option ShadowInitParameters_t)
  | shadow_connect (p : option ShadowConnectParameters_t)
  | shadow_register_delta (pStruct : option Z)
  | shadow_yield (timeout : Z)
  | shadow_disconnect
  | shadow_update (thing doc : option bytes) (f : option fnptr) (d : voidptr) (timeout : Z) (sticky : bool)
  | shadow_delete (thing : option bytes) (f : option fnptr) (d : voidptr) (timeout : Z) (sticky : bool)
  | shadow_get (thing : option bytes) (f : option fnptr) (d : voidptr) (timeout : Z) (sticky : bool)
  | shadow_set_autoreconnect_status (b : bool)
  | shadow_reset_last_received_version
  | shadow_discard_old_delta_msgs (b : bool).

Section calls.
Context {fp : FloatingPoint}.
Context {W : Type} {clock : Clock W} {net : NetworkOps W} {mutexes : MutexOps W} {app : AppOps W}.
Context {statics : ShadowState W} {callbacks : ShadowAppOps W} {code : ShadowCode}.
Context (fuel : nat).

(** A call; those that return nothing count as SUCCESS. *)
Definition run_shadow_call (pClient : client_ptr) (a : shadow_call) : M (St W) IoT_Error_t :=
  match a with
  | client_call a => run_call fuel pClient a
  | shadow_init p => aws_iot_shadow_init pClient p
  | shadow_connect p => aws_iot_shadow_connect fuel pClient p
  | shadow_register_delta p => aws_iot_shadow_register_delta fuel pClient p
  | shadow_yield t => aws_iot_shadow_yield fuel pClient t
  | shadow_disconnect => aws_iot_shadow_disconnect fuel pClient
  | shadow_update t doc f d n b => aws_iot_shadow_update fuel pClient t doc f d n b
  | shadow_delete t f d n b => aws_iot_shadow_delete fuel pClient t f d n b
  | shadow_get t f d n b => aws_iot_shadow_get fuel pClient t f d n b
  | shadow_set_autoreconnect_status b => aws_iot_shadow_set_autoreconnect_status pClient b
  | shadow_reset_last_received_version => run! aws_iot_shadow_reset_last_received_version in ret SUCCESS
  | shadow_discard_old_delta_msgs b =>
      run! (if b then aws_iot_shadow_enable_discard_old_delta_msgs
            else aws_iot_shadow_disable_discard_old_delta_msgs) in ret SUCCESS
  end.

Fixpoint run_shadow_calls (l : list shadow_call) : M (St W) (list IoT_Error_t) :=
  match l with
  | [] => ret []
  | a :: l => do! rc := run_shadow_call pCLIENT a in do! rcs := run_shadow_calls l in ret (rc :: rcs)
  end.

(** The time-outs of a call must be covered by the fuel, and a document must not be longer than an [int]
    can count. *)
Definition shadow_call_ok (a : shadow_call) : Prop :=
  match a with
  | client_call a => call_ok fuel a
  | shadow_init _ => 20000000 < Z.of_nat fuel
  | shadow_yield t => 0 <= t /\ t * 1000 < Z.of_nat fuel
  | shadow_update _ (Some doc) _ _ _ _ => zlen doc < 2147483647
  | _ => True
  end.

Context {laws : EnvLaws W} {slaws : ShadowLaws}.
Hypothesis Hsettle : 2000000 < Z.of_nat fuel.

Lemma returns_at_rest {A} (m : M (St W) A) s :
  returns fuel m -> at_rest fuel s -> wp total m (fun _ s' => at_rest fuel s') s.
Proof.
  intros Hm Hs. eapply wp_mono; [apply Hm; apply Hs|]. intros a s' H. by eapply evolves_at_rest.
Qed.

Lemma shadow_init_at_rest p s :
  20000000 < Z.of_nat fuel -> at_rest fuel s ->
  wp total (aws_iot_shadow_init pCLIENT p) (fun _ s' => at_rest fuel s') s.
Proof.
  intros Hf Hs. unfold aws_iot_shadow_init. destruct p as [p|]; [|by apply wp_ret]. apply wp_bind.
  eapply wp_mono; [apply init_at_rest; [|done]|].
  - cbn. lia.
  - intros rc s1 H1. apply returns_at_rest; [|done]. pose proof (returns_initDeltaTokens fuel).
    unfold resetClientTokenSequenceNum, aws_iot_shadow_reset_last_received_version. returns.
Qed.

Lemma run_shadow_call_at_rest a s :
  shadow_call_ok a -> at_rest fuel s ->
  wp total (run_shadow_call pCLIENT a) (fun _ s' => at_rest fuel s') s.
Proof.
  intros Ha Hs. destruct a as [a|p|p|p|t| |t doc f d n b|t f d n b|t f d n b|b| |b]; cbn [run_shadow_call].
  - by apply run_call_at_rest.
  - by apply shadow_init_at_rest.
  - apply returns_at_rest; [apply returns_shadow_connect|done].
  - apply returns_at_rest; [apply returns_shadow_register|done].
  - apply returns_at_rest; [apply returns_shadow_yield; apply Ha|done].
  - apply returns_at_rest; [apply returns_disconnect|done].
  - apply returns_at_rest; [|done]. apply returns_if_connected, returns_internal_action; [done|].
    intros x ->. by apply short_int_sized.
  - apply returns_at_rest; [|done]. by apply returns_if_connected, returns_request.
  - apply returns_at_rest; [|done]. by apply returns_if_connected, returns_request.
  - by apply (run_call_at_rest fuel (api_autoreconnect_set_status b)).
  - apply returns_at_rest; [|done]. unfold aws_iot_shadow_reset_last_received_version. returns.
  - apply returns_at_rest; [|done].
    unfold aws_iot_shadow_enable_discard_old_delta_msgs, aws_iot_shadow_disable_discard_old_delta_msgs. returns.
Qed.

Lemma run_shadow_calls_at_rest calls s :
  Forall shadow_call_ok calls -> at_rest fuel s ->
  wp total (run_shadow_calls calls) (fun rcs s' => length rcs = length calls /\ at_rest fuel s') s.
Proof.
  intros Hc. revert s. induction Hc as [|a l Ha Hl IH]; intros s Hs; cbn [run_shadow_calls].
  - apply wp_ret. by split.
  - apply wp_bind. eapply wp_mono; [by apply run_shadow_call_at_rest|]. intros rc s1 H1. apply wp_bind.
    eapply wp_mono; [by apply IH|]. intros rcs s2 [Hlen H2]. apply wp_ret. split; [simpl; lia|done].
Qed.
End calls.

(** ** The shadow's message handlers among the application's *)

Section tie.
Context {fp : FloatingPoint}.
Context {W : Type} {clock : Clock W} {net : NetworkOps W} {mutexes : MutexOps W} {user : AppOps W}.
Context {statics : ShadowState W} {callbacks : ShadowAppOps W} {code : ShadowCode}.
Context {laws : EnvLaws W} {slaws : ShadowLaws} (fuel : nat).

(** The application's own handlers return from wherever they are called. *)
Hypothesis user_returns : forall c k, reentry W c k.

(** A client with which, and bytes still to come with which, handlers nested [depth] deep return. *)
Definition nests (depth : nat) (c : AWS_IoT_Client) (k : nat) : Prop :=
  fits fuel c /\ (k + 2 <= fuel)%nat /\ (k < depth)%nat.

Definition handlers_return (depth : nat) : Prop :=
  forall f p n msg d c w, nests depth c (incoming w) ->
    owp total (@call_message_handler W (shadow_app fuel user depth) f p n msg d c w)
      (fun '(_, c', w') => evolves_to W c w c' w').

Definition tie_laws (depth : nat) (H : handlers_return depth) : EnvLaws W (app := shadow_app fuel user depth).
Proof.
  refine {| now := now; incoming := incoming; reentry := nests depth |}.
  - exact (law_clock W).
  - exact (law_init W).
  - exact (law_connect W).
  - exact (law_read W).
  - exact (law_write W).
  - exact (law_disconnect W).
  - exact (law_isConnected W).
  - exact (law_destroy W).
  - exact (law_mutex W).
  - exact H.
  - destruct depth; exact (law_disconnect_handler W).
Defined.

Definition tie_shadow_laws (depth : nat) (H : handlers_return depth) :
  ShadowLaws (app := shadow_app fuel user depth) (laws := tie_laws depth H).
Proof.
  constructor.
  - exact (law_shadow_of (ShadowLaws := slaws)).
  - exact (law_set_shadow (ShadowLaws := slaws)).
  - exact (law_action_callback (ShadowLaws := slaws)).
  - exact (law_json_callback (ShadowLaws := slaws)).
Defined.

(** One level: the handlers run over those of the level below. *)
Lemma handlers_return_all depth : handlers_return depth.
Proof.
  induction depth as [|depth IH]; intros f p n msg d c w (Hf & Hk & Hd); [lia|].
  cbn [shadow_app call_message_handler].
  assert (Huser : enough fuel (c, w)).
  { destruct Hf as (H1 & H2 & H3). repeat split; cbn [fst snd]; try done; lia. }
  destruct (f =? AckStatusCallback_address).
  { apply owp_bind.
    pose proof (returns_AckStatusCallback (laws := tie_laws depth IH) (slaws := tie_shadow_laws depth IH)
      fuel p msg (c, w)) as H. eapply owp_mono; [apply H|].
    - destruct Hf as (H1 & H2 & H3). split; [exact Hk|]. split; [done|]. split; [done|]. split; [done|].
      intros c' k Hf' Hlt. cbn in Hlt. split; [done|]. lia.
    - intros [_ [c' w']] He. exact He. }
  destruct (f =? shadow_delta_callback_address).
  { apply owp_bind. eapply owp_mono; [exact (returns_shadow_delta_callback fuel msg (c, w) Huser)|].
    intros [_ [c' w']] He. exact He. }
  eapply owp_mono; [apply law_message_handler, user_returns|]. intros [[m c'] w'] He. exact He.
Qed.
End tie.

(** ** Properties *)

(** C3: with the shadow's message handlers installed among the application's, every call of the shadow's
    interface and of the client's - whatever their sequence, starting from a client at rest - returns and
    leaves the client at rest: waiting for a subscription to settle, answers that arrive while an earlier
    answer is being handled, unsubscribing from within a message handler, the loops over the tables and
    the tokeniser all end.  Handlers nest at most as deep as there are bytes still to come. *)
Theorem shadow_calls_return_to_rest {fp : FloatingPoint} {W : Type} {clock : Clock W} {net : NetworkOps W}
    {mutexes : MutexOps W} {user : AppOps W} {statics : ShadowState W} {callbacks : ShadowAppOps W}
    {code : ShadowCode} {laws : EnvLaws W} {slaws : ShadowLaws} (fuel depth : nat)
    (calls : list shadow_call) (s : St W) :
  (forall c k, reentry W c k) -> Forall (shadow_call_ok fuel) calls -> at_rest fuel s ->
  (incoming s.2 <= depth)%nat -> 2000000 < Z.of_nat fuel ->
  wp total (run_shadow_calls (app := shadow_app fuel user depth) fuel calls)
    (fun rcs s' => length rcs = length calls /\ quiescent (state_of s'.1) = true) s.
Proof.
  intros Hu Hc [He Hq] Hd Hsettle.
  set (H := handlers_return_all fuel Hu depth).
  eapply wp_mono; [apply (run_shadow_calls_at_rest (laws := tie_laws fuel depth H)
    (slaws := tie_shadow_laws fuel depth H) fuel Hsettle); [exact Hc|]|].
  - split; [|exact Hq]. destruct He as (H1 & H2 & H3 & H4 & _). split; [exact H1|].
    split; [done|]. split; [done|]. split; [done|]. intros c k Hf Hk. cbn in Hk. split; [done|]. lia.
  - intros rcs s' (Hl & [_ Hr]). by split.
Qed.

(** *** A concrete world *)

(** The shadow's variables beside the world of [Sim]. *)
Definition no_ack : ToBeReceivedAckRecord_t :=
  mkAck (local 90) (local 50) SHADOW_GET None 0 true (mkTimer (mkTimeval 0 0)).

#[export] Existing Instance ShadowJson.no_floats.

Definition static_shadow : shadow :=
  mkShadow (replicate 10 no_ack) pNULL (local 50) (local 80) (local 110)
    (replicate 20 (mkSubscription (local 110) 0 true false)) (local 131073)
    (replicate 120 (mkJsonToken None 0 None true)) 0 false 0 true 0
    (mkShadowJson jsmn_init (replicate 120 blank)) [].

Definition shadow_sim : Type := shadow * sim.

#[export] Instance shadow_sim_clock : Clock shadow_sim := fun w =>
  ((gettimeofday w.2).1, (w.1, (gettimeofday w.2).2)).

#[export] Instance shadow_sim_net : NetworkOps shadow_sim := {|
  iot_tls_init n ca crt key host prt tmo verify w := (SUCCESS, n, w);
  net_connect n p w := Done (SUCCESS, n, w);
  net_read n len t old '(x, w) :=
    let! (rc, d, k, w) := net_read n len t old w in Done (rc, d, k, (x, w));
  net_write n mem len t old '(x, w) :=
    let! (rc, k, w) := net_write n mem len t old w in Done (rc, k, (x, w));
  net_disconnect n w := Done (SUCCESS, w);
  net_isConnected := Some (fun n w => Done (NETWORK_PHYSICAL_LAYER_CONNECTED, w));
  net_destroy n w := Done (SUCCESS, w)
|}.

#[export] Instance shadow_sim_state : ShadowState shadow_sim := {|
  shadow_of w := w.1;
  set_shadow x w := (x, w.2)
|}.

(** Callbacks log their address and what they were told. *)
Definition note (f : fnptr) (what : bytes) (w : shadow_sim) : shadow_sim :=
  (w.1, mkSim (sim_time w.2) (sim_in w.2) (sim_out w.2) (sim_log w.2 ++ [(f, what)])).

#[export] Instance shadow_sim_callbacks : ShadowAppOps shadow_sim := {|
  call_action_callback f i a st d c w :=
    Done (c, note f [i; match st with SHADOW_ACK_TIMEOUT => 0 | SHADOW_ACK_REJECTED => 1 | SHADOW_ACK_ACCEPTED => 2 end] w);
  call_json_callback f p n i c w := Done (c, note f [p; n; i] w)
|}.

#[export] Instance shadow_sim_code : ShadowCode := {|
  AckStatusCallback_address := 1001;
  shadow_delta_callback_address := 1002;
  myThingName_address := 1003;
  indeterminate_message := mkPublishParams 0 0 0 0 None 0;
  indeterminate_init := IoT_Client_Init_Params_initializer
|}.

#[export] Instance shadow_sim_laws : EnvLaws shadow_sim (mutexes := idle_mutexes) (app := idle_app).
Proof.
  refine {| now w := sim_time w.2; incoming w := length (sim_in w.2); reentry := fun _ _ => True |}.
  - intros [x w]. exact (law_clock sim w).
  - intros. cbn. lia.
  - intros. cbn. lia.
  - intros n len t old [x w]. pose proof (law_read sim n len t old w) as H. unfold net_read, shadow_sim_net.
    apply owp_bind. eapply owp_mono; [exact H|]. intros [[[rc d] k] w'] H'. exact H'.
  - intros n mem len t old [x w]. pose proof (law_write sim n mem len t old w) as H.
    unfold net_write, shadow_sim_net. apply owp_bind. eapply owp_mono; [exact H|].
    intros [[rc k] w'] H'. exact H'.
  - intros. cbn. lia.
  - intros f n w [= <-]. cbn. lia.
  - intros. cbn. lia.
  - done.
  - intros. cbn. split; [by left|]. split; [by split|]. lia.
  - intros. cbn. split; [by left|]. split; [by split|]. lia.
Defined.

#[export] Instance shadow_sim_shadow_laws :
  ShadowLaws (mutexes := idle_mutexes) (app := idle_app) (laws := shadow_sim_laws).
Proof.
  constructor; try done.
  - intros. cbn. split; [by left|]. split; [by split|]. split; cbn; lia.
  - intros. cbn. split; [|done]. split; [by left|]. split; [by split|]. split; cbn; lia.
Defined.

(** A session: connecting, an update to be acknowledged, waiting. *)
Definition sample_shadow_session : list shadow_call :=
  [shadow_init None;
   shadow_connect (Some (mkShadowConnect (Some (cstr [116; 49])) (Some (cstr [100; 49])) 2 None));
   shadow_get (Some (cstr [116; 49])) (Some 7) 70 1 true;
   shadow_yield 2].

Definition session_fuel : nat := Z.to_nat 21000000.
Lemma session_fuel_value : Z.of_nat session_fuel = 21000000.
Proof. apply Z2Nat.id. lia. Qed.
#[local] Opaque session_fuel.

Lemma shadow_calls_return_to_rest_witness :
  wp total (run_shadow_calls (mutexes := idle_mutexes) (app := shadow_app (mutexes := idle_mutexes)
      session_fuel idle_app 4) session_fuel sample_shadow_session)
    (fun rcs s' => length rcs = 4%nat /\ quiescent (state_of s'.1) = true)
    (sim_client CLIENT_STATE_INITIALIZED [], (static_shadow, sim_world [32; 2; 0; 0])).
Proof.
  refine (shadow_calls_return_to_rest session_fuel 4 sample_shadow_session
    (sim_client CLIENT_STATE_INITIALIZED [], (static_shadow, sim_world [32; 2; 0; 0])) _ _ _ _ _).
  - done.
  - apply Forall_cons_2; [cbn [shadow_call_ok]; rewrite session_fuel_value; lia|].
    apply Forall_cons_2; [exact I|]. apply Forall_cons_2; [exact I|].
    apply Forall_cons_2; [cbn [shadow_call_ok]; rewrite session_fuel_value; lia|apply Forall_nil_2].
  - pose proof session_fuel_value as E. generalize dependent session_fuel. intros k E.
    split; [|done]. split; [cbn; lia|]. split; [cbn; lia|]. split; [cbn; lia|]. split; [cbn; lia|done].
  - cbn. lia.
  - rewrite session_fuel_value. lia.
Defined.
