(* ===== verification/ShadowWellFormed.v ===== *)
(** * Well-formed shadow variables

    The invariant of the shadow's static variables: the tables have their declared numbers of entries, the
    arrays in them and beside them their declared sizes, the counters are in the range of their types and
    the next free entry of the table of keys is within it or just behind.  Every call of the shadow's
    interface keeps it, together with the invariant of the MQTT client; and where it holds, what is entered
    in a table goes to the entry meant, or the table is reported full ([tables_usable]). *)

From S2P Require Export ShadowLifecycle WellFormed.

(** ** The invariant *)

Definition ack_ok (a : ToBeReceivedAckRecord_t) : Prop :=
  zlen (clientTokenID a) = MAX_SIZE_CLIENT_ID_WITH_SEQUENCE /\ zlen (ack_thingName a) = MAX_SIZE_OF_THING_NAME.

Definition subscription_ok (r : SubscriptionRecord_t) : Prop :=
  zlen (sr_Topic r) = MAX_SHADOW_TOPIC_LENGTH_BYTES /\ 0 <= sr_count r < 256.

Definition tokens_ok {fp : FloatingPoint} (j : shadow_json) : Prop :=
  zlen (jsonTokenStruct j) = MAX_JSON_TOKEN_EXPECTED.

Record shadow_ok {fp : FloatingPoint} (x : shadow) : Prop := {
  so_acks : zlen (AckWaitList x) = MAX_ACKS_TO_COMEIN_AT_ANY_GIVEN_TIME;
  so_ack : Forall ack_ok (AckWaitList x);
  so_subscriptions : zlen (SubscriptionList x) = MAX_TOPICS_AT_ANY_GIVEN_TIME;
  so_subscription : Forall subscription_ok (SubscriptionList x);
  so_myThingName : zlen (myThingName x) = MAX_SIZE_OF_THING_NAME;
  so_mqttClientID : zlen (mqttClientID x) = MAX_SIZE_OF_UNIQUE_CLIENT_ID_BYTES;
  so_shadowDeltaTopic : zlen (shadowDeltaTopic x) = MAX_SHADOW_TOPIC_LENGTH_BYTES;
  so_shadowRxBuf : zlen (shadowRxBuf x) = SHADOW_MAX_SIZE_OF_RX_BUFFER;
  so_tokenTable : zlen (tokenTable x) = MAX_JSON_TOKEN_EXPECTED;
  so_tokenTableIndex : 0 <= tokenTableIndex x <= MAX_JSON_TOKEN_EXPECTED;
  so_tokens : tokens_ok (json x)
}.

Lemma snprintf_zlen m p n text m' k : snprintf m p n text = Done (m', k) -> zlen m' = zlen m.
Proof.
  unfold snprintf. destruct (n =? 0); [by intros [= <- _]|]. destruct (store _ _ _) eqn:E; [|done|done].
  cbn [obind]. intros [= <- _]. by apply store_zlen in E.
Qed.

Lemma topic_zlen m thing action ackType m' :
  topicNameFromThingAndAction m thing action ackType = Done m' -> zlen m' = zlen m.
Proof.
  unfold topicNameFromThingAndAction. destruct (string_arg thing) as [t| |]; cbn [obind]; [|done|done].
  destruct (snprintf _ _ _ _) as [[m2 k]| |] eqn:E; cbn [obind]; [|done|done]. intros [= <-].
  by apply snprintf_zlen in E.
Qed.

Lemma strncpy_zlen m src n m' : strncpy m src n = Done m' -> zlen m' = zlen m.
Proof.
  unfold strncpy. destruct (strncpy_bytes _ _) as [d| |]; cbn [obind]; [|done|done]. by apply store_zlen.
Qed.

Lemma astore_zlen {A} (l : list A) i x l' : astore l i x = Done l' -> zlen l' = zlen l.
Proof. unfold astore. destruct (_ && _); [|done]. intros [= <-]. unfold zlen. by rewrite length_insert. Qed.

Lemma astore_Forall {A} (P : A -> Prop) l i x l' : astore l i x = Done l' -> Forall P l -> P x -> Forall P l'.
Proof. unfold astore. destruct (_ && _); [|done]. intros [= <-] Hl Hx. by apply Forall_insert. Qed.

Lemma aload_Forall {A} (P : A -> Prop) l i x : aload l i = Done x -> Forall P l -> P x.
Proof.
  unfold aload. destruct (0 <=? i); [|done]. destruct (l !! Z.to_nat i) eqn:E; [|done]. intros [= <-] Hl.
  by eapply Forall_lookup_1.
Qed.

(** The tokeniser keeps the size of the static array. *)
Lemma parse_object_tokens {fp : FloatingPoint} doc j :
  int_sized doc -> tokens_ok j ->
  owp partial (parse_object (parse_fuel doc) doc j) (fun '(_, j') => tokens_ok j').
Proof.
  intros Hr Hj. unfold parse_object. apply owp_bind. destruct (strlen doc) as [n| |] eqn:En; [|done|done]. cbn [owp].
  pose proof (strlen_length _ _ En) as Hn. specialize (Hr n En).
  assert (Hm : 0 <= MAX_JSON_TOKEN_EXPECTED < 2147483647) by done.
  assert (Hpos : n - pos jsmn_init < Z.of_nat (parse_fuel doc)) by (unfold parse_fuel, zlen in *; cbn [pos jsmn_init]; lia).
  assert (Hinit : parser_ok n MAX_JSON_TOKEN_EXPECTED jsmn_init (jsonTokenStruct j)).
  { apply init_ok; [lia|lia|]. unfold tokens_ok in Hj. lia. }
  pose proof (parse_ok doc n MAX_JSON_TOKEN_EXPECTED ltac:(lia) ltac:(lia) Hm (parse_fuel doc) jsmn_init
    (jsonTokenStruct j) Hinit Hpos) as H.
  apply owp_bind. destruct (jsmn_parse _ _ _ _ _ _) as [[[rc p] toks]| |]; cbn [owp] in *; [|done|done].
  destruct H as (toks' & -> & Hn' & _). cbn [deref obind].
  assert (Ht : tokens_ok (mkShadowJson p toks')) by (unfold tokens_ok in *; cbn; congruence).
  destruct (rc <? 0); [exact Ht|]. destruct (rc <? 1); [exact Ht|]. apply owp_bind.
  destruct (aload toks' 0) as [t| |]; cbn [owp]; [|done|done]. by destruct (decide _).
Qed.

Lemma valid_tokens {fp : FloatingPoint} doc n j valid k j' :
  isJsonValidAndParse (parse_fuel doc) doc n j = Done (valid, k, j') -> int_sized doc -> tokens_ok j -> tokens_ok j'.
Proof.
  unfold isJsonValidAndParse. intros E Hr Hj. pose proof (parse_object_tokens doc j Hr Hj) as H.
  destruct (parse_object (parse_fuel doc) doc j) as [[r j2]| |]; cbn [obind owp] in *; [|done|done].
  destruct r; injection E as <- <- <-; exact H.
Qed.

Lemma client_token_tokens {fp : FloatingPoint} doc buf j found buf' j' :
  extractClientToken (parse_fuel doc) doc buf j = Done (found, buf', j') -> int_sized doc -> tokens_ok j -> tokens_ok j'.
Proof.
  unfold extractClientToken. intros E Hr Hj. pose proof (parse_object_tokens doc j Hr Hj) as H.
  destruct (parse_object (parse_fuel doc) doc j) as [[r j2]| |]; cbn [obind owp] in *; [|done|done].
  destruct r as [k|]; [|by injection E as <- <- <-].
  destruct (find_key _ _ _ _ _) as [[i|]| |]; cbn [obind] in E; [|by injection E as <- <- <-|done|done].
  destruct (aload _ _) as [t| |]; cbn [obind] in E; [|done|done].
  destruct (from _ _) as [src| |]; cbn [obind] in E; [|done|done].
  destruct (strncpy_bytes _ _) as [d| |]; cbn [obind] in E; [|done|done].
  destruct (store _ 0 _) as [b| |]; cbn [obind] in E; [|done|done].
  destruct (store _ _ _) as [b2| |]; cbn [obind] in E; [|done|done]. by injection E as <- <- <-.
Qed.

(** ** Closure *)

Section closure.
Context {fp : FloatingPoint}.
Context {W : Type} {clock : Clock W} {net : NetworkOps W} {mutexes : MutexOps W}.
Context {statics : ShadowState W} {callbacks : ShadowAppOps W}.

Definition shadow_kept (w : W) : Prop := shadow_ok (shadow_of w).

(** What the theorems ask of the application: the static variables can be read and written, and the
    action and JSON callbacks keep both invariants. *)
Class CarefulShadow := {
  careful_shadow_of : forall x w, shadow_of (set_shadow x w) = x;
  careful_action : forall f i a st d c w, well_formed c -> shadow_kept w ->
    owp partial (call_action_callback f i a st d c w) (fun '(c', w') => well_formed c' /\ shadow_kept w');
  careful_json : forall f p n i c w, well_formed c -> shadow_kept w ->
    owp partial (call_json_callback f p n i c w) (fun '(c', w') => well_formed c' /\ shadow_kept w')
}.
Context {careful_shadow : CarefulShadow}.

Lemma keeps_static {A} (f : shadow -> A) : keeps_wf shadow_kept (static f).
Proof. by intros s Hs. Qed.

Lemma keeps_bind_static {A B} (f : shadow -> A) (k : A -> M (St W) B) :
  (forall x, shadow_ok x -> keeps_wf shadow_kept (k (f x))) -> keeps_wf shadow_kept (bind (static f) k).
Proof. intros Hk s Hs. apply wp_bind, wp_gets. apply (Hk (shadow_of s.2)); [apply Hs|done]. Qed.

Lemma keeps_assign_static g :
  (forall x, shadow_ok x -> shadow_ok (g x)) -> keeps_wf shadow_kept (assign_static g).
Proof.
  intros Hg [c w] [Hc Hw]. apply wp_modify. split; [exact Hc|]. unfold shadow_kept. cbn [snd].
  rewrite careful_shadow_of. by apply Hg.
Qed.

Lemma keeps_bind_ack {B} i (k : ToBeReceivedAckRecord_t -> M (St W) B) :
  (forall a, ack_ok a -> keeps_wf shadow_kept (k a)) -> keeps_wf shadow_kept (bind (ack_at i) k).
Proof.
  intros Hk s Hs. apply wp_bind. unfold ack_at, static. apply wp_bind, wp_gets, wp_any_lift. intros a Ha.
  apply Hk; [|done]. eapply aload_Forall; [exact Ha|]. apply Hs.
Qed.

Lemma keeps_set_ack i a : ack_ok a -> keeps_wf shadow_kept (set_ack_at i a).
Proof.
  intros Ha. apply keeps_bind_static. intros x Hx. apply keeps_bind_lift. intros l El. apply keeps_assign_static.
  intros y []. constructor; cbn; try done.
  - rewrite (astore_zlen _ _ _ _ El). apply Hx.
  - eapply astore_Forall; [exact El|apply Hx|done].
Qed.

Lemma keeps_bind_subscription {B} i (k : SubscriptionRecord_t -> M (St W) B) :
  (forall r, subscription_ok r -> keeps_wf shadow_kept (k r)) -> keeps_wf shadow_kept (bind (subscription_at i) k).
Proof.
  intros Hk s Hs. apply wp_bind. unfold subscription_at, static. apply wp_bind, wp_gets, wp_any_lift. intros a Ha.
  apply Hk; [|done]. eapply aload_Forall; [exact Ha|]. apply Hs.
Qed.

Lemma keeps_set_subscription i r : subscription_ok r -> keeps_wf shadow_kept (set_subscription_at i r).
Proof.
  intros Hr. apply keeps_bind_static. intros x Hx. apply keeps_bind_lift. intros l El. apply keeps_assign_static.
  intros y []. constructor; cbn; try done.
  - rewrite (astore_zlen _ _ _ _ El). apply Hx.
  - eapply astore_Forall; [exact El|apply Hx|done].
Qed.

Lemma keeps_action_callback f i a st d :
  keeps_wf shadow_kept (fun '(c, w) => let! s := call_action_callback f i a st d c w in Done (tt, s)).
Proof.
  intros [c w] [Hc Hw]. unfold wp. pose proof (careful_action f i a st d c w Hc Hw) as H.
  by destruct (call_action_callback f i a st d c w) as [[c' w']| |].
Qed.

Lemma keeps_json_callback f p n i :
  keeps_wf shadow_kept (fun '(c, w) => let! s := call_json_callback f p n i c w in Done (tt, s)).
Proof.
  intros [c w] [Hc Hw]. unfold wp. pose proof (careful_json f p n i c w Hc Hw) as H.
  by destruct (call_json_callback f p n i c w) as [[c' w']| |].
Qed.
End closure.
Arguments CarefulShadow {fp} W {statics callbacks}.
#[export] Hint Resolve keeps_static keeps_action_callback keeps_json_callback : wf.

(** The sizes of what has been written. *)
Ltac sizes :=
  repeat match goal with
  | H : shadow_ok _ |- _ => destruct H
  | H : ack_ok _ |- _ => destruct H
  | H : subscription_ok _ |- _ => destruct H
  | H : topicNameFromThingAndAction _ _ _ _ = Done _ |- _ => apply topic_zlen in H
  | H : snprintf _ _ _ _ = Done (_, _) |- _ => apply snprintf_zlen in H
  | H : strncpy _ _ _ = Done _ |- _ => apply strncpy_zlen in H
  | H : store _ _ _ = Done _ |- _ => apply store_zlen in H
  | H : astore _ _ _ = Done _ |- _ => apply astore_zlen in H
  end;
  cbn in *; first [apply u8_range | congruence | done | lia].

Ltac keeps_shadow_step :=
  match goal with
  | |- keeps_wf _ (bind (static _) _) => apply keeps_bind_static; intros
  | |- keeps_wf _ (bind (ack_at _) _) => apply keeps_bind_ack; intros
  | |- keeps_wf _ (bind (subscription_at _) _) => apply keeps_bind_subscription; intros
  | |- keeps_wf _ (set_ack_at _ _) => apply keeps_set_ack; split; sizes
  | |- keeps_wf _ (set_subscription_at _ _) => apply keeps_set_subscription; split; sizes
  | |- keeps_wf _ (assign_static _) =>
      apply keeps_assign_static; intros ? []; constructor; solve [assumption | sizes]
  | |- keeps_wf _ (if ?x <=? ?y then _ else _) => destruct (Z.leb_spec x y)
  | |- keeps_wf _ (if ?x <? ?y then _ else _) => destruct (Z.ltb_spec x y)
  | _ => keeps_step
  end.
Ltac keeps_shadow := repeat (keeps_shadow_step; cbv beta zeta).

(** ** Operations *)

Section operations.
Context {fp : FloatingPoint}.
Context {W : Type} {clock : Clock W} {net : NetworkOps W} {mutexes : MutexOps W} {app : AppOps W}.
Context {statics : ShadowState W} {callbacks : ShadowAppOps W} {code : ShadowCode}.
Context {kept : Kept W shadow_kept} {careful : CarefulApp W shadow_kept}.
Context {careful_shadow : CarefulShadow W} (fuel : nat).

#[local] Notation keeps m := (keeps_wf shadow_kept m).
#[local] Hint Resolve keeps_subscribe keeps_unsubscribe keeps_publish keeps_connect keeps_disconnect
  keeps_yield keeps_init keeps_connected : wf.

Lemma keeps_initDeltaTokens : keeps initDeltaTokens.
Proof. unfold initDeltaTokens. keeps_shadow. Qed.
#[local] Hint Resolve keeps_initDeltaTokens : wf.

Lemma keeps_registerJsonTokenOnDelta i : keeps (registerJsonTokenOnDelta fuel i).
Proof.
  unfold registerJsonTokenOnDelta. keeps_shadow. apply keeps_assign_static. intros y []. constructor; try done.
  match goal with H : shadow_ok ?x |- context [tokenTableIndex ?x + 1] => pose proof (so_tokenTableIndex _ H) end.
  cbn [tokenTableIndex set_tokenTableIndex]. rewrite u32_id; unfold MAX_JSON_TOKEN_EXPECTED in *; lia.
Qed.
#[local] Hint Resolve keeps_registerJsonTokenOnDelta : wf.

Lemma keeps_next_subscription : keeps getNextFreeIndexOfSubscriptionList.
Proof.
  unfold getNextFreeIndexOfSubscriptionList. apply keeps_bind_static. intros x Hx. keeps_shadow.
  apply keeps_set_subscription.
  match goal with H : aload _ _ = Done _ |- _ => exact (aload_Forall _ _ _ _ H (so_subscription _ Hx)) end.
Qed.
#[local] Hint Resolve keeps_next_subscription : wf.

Lemma keeps_release topic : keeps (release_subscription fuel topic).
Proof. unfold release_subscription. keeps_shadow. Qed.
#[local] Hint Resolve keeps_release : wf.

Lemma keeps_unsubscribe_both i : keeps (unsubscribeFromAcceptedAndRejected fuel i).
Proof. unfold unsubscribeFromAcceptedAndRejected. keeps_shadow. Qed.
#[local] Hint Resolve keeps_unsubscribe_both : wf.

Lemma keeps_acknowledge topic token i : keeps (acknowledge fuel topic token i).
Proof. unfold acknowledge. keeps_shadow. Qed.
#[local] Hint Resolve keeps_acknowledge : wf.

Lemma keeps_initializeRecords p : keeps (initializeRecords p).
Proof. unfold initializeRecords. keeps_shadow. Qed.
#[local] Hint Resolve keeps_initializeRecords : wf.

Lemma keeps_isSubscriptionPresent t a : keeps (isSubscriptionPresent t a).
Proof. unfold isSubscriptionPresent. keeps_shadow. Qed.
#[local] Hint Resolve keeps_isSubscriptionPresent : wf.

Lemma keeps_subscribe_entry i t a k : keeps (subscribe_entry fuel i t a k).
Proof. unfold subscribe_entry. keeps_shadow. Qed.
Lemma keeps_entry_subscribed i b : keeps (entry_subscribed i b).
Proof. unfold entry_subscribed. keeps_shadow. Qed.
Lemma keeps_settle t : keeps (settle fuel t).
Proof. unfold settle. keeps_shadow. Qed.
#[local] Hint Resolve keeps_subscribe_entry keeps_entry_subscribed keeps_settle : wf.

Lemma keeps_subscribe_acks t a b : keeps (subscribeToShadowActionAcks fuel t a b).
Proof. unfold subscribeToShadowActionAcks. keeps_shadow. Qed.
#[local] Hint Resolve keeps_subscribe_acks : wf.

Lemma keeps_increment t a b : keeps (incrementSubscriptionCnt t a b).
Proof. unfold incrementSubscriptionCnt. keeps_shadow. Qed.
Lemma keeps_publish_action t a d : keeps (publishToShadowAction fuel t a d).
Proof. unfold publishToShadowAction. keeps_shadow. Qed.
Lemma keeps_next_ack : keeps getNextFreeIndexOfAckWaitList.
Proof. unfold getNextFreeIndexOfAckWaitList. keeps_shadow. Qed.
Lemma keeps_add_ack i t a tok cb d n : keeps (addToAckWaitList i t a tok cb d n).
Proof. unfold addToAckWaitList. keeps_shadow. Qed.
Lemma keeps_expire i : keeps (expire fuel i).
Proof. unfold expire. keeps_shadow. Qed.
#[local] Hint Resolve keeps_increment keeps_publish_action keeps_next_ack keeps_add_ack keeps_expire : wf.
Lemma keeps_HandleExpired : keeps (HandleExpiredResponseCallbacks fuel).
Proof. unfold HandleExpiredResponseCallbacks. keeps_shadow. Qed.
#[local] Hint Resolve keeps_HandleExpired : wf.

Lemma rx_int_sized b : zlen b = SHADOW_MAX_SIZE_OF_RX_BUFFER -> int_sized b.
Proof. intros Hb. apply short_int_sized. by rewrite Hb. Qed.

Lemma keeps_receive_json params : keeps (receive_json params).
Proof.
  unfold receive_json. keeps_shadow. apply keeps_assign_static. intros y []. constructor; try done.
  eapply valid_tokens; [eassumption|apply rx_int_sized; sizes|by eapply so_tokens].
Qed.
#[local] Hint Resolve keeps_receive_json : wf.

Lemma keeps_AckStatusCallback p params : keeps (AckStatusCallback fuel p params).
Proof.
  unfold AckStatusCallback. keeps_shadow.
  all: try (apply keeps_assign_static; intros y []; constructor; try done).
  all: try (eapply client_token_tokens; [eassumption|apply rx_int_sized|]; by eauto using so_shadowRxBuf, so_tokens).
Qed.

Lemma keeps_apply_delta n i : keeps (apply_delta n i).
Proof. unfold apply_delta. keeps_shadow. Qed.
#[local] Hint Resolve keeps_apply_delta : wf.

Lemma keeps_shadow_delta_callback params : keeps (shadow_delta_callback params).
Proof. unfold shadow_delta_callback, apply_deltas. keeps_shadow. Qed.

Lemma keeps_internal_action t a doc f d n b :
  (forall x, doc = Some x -> int_sized x) -> keeps (aws_iot_shadow_internal_action fuel t a doc f d n b).
Proof.
  intros Hdoc. unfold aws_iot_shadow_internal_action. destruct t as [t|]; [|keeps_shadow].
  destruct doc as [doc|]; [|keeps_shadow]. specialize (Hdoc doc eq_refl). keeps_shadow.
  apply keeps_assign_static; intros y []; constructor; try done.
  eapply client_token_tokens; [eassumption|done|]. by eauto using so_tokens.
Qed.

Lemma keeps_request action t f d n b :
  keeps (do! id := static mqttClientID in
         do! num := static clientTokenNum in
         do! (buf, num) := lift (emptyJsonWithClientToken id num (local MAX_SIZE_CLIENT_TOKEN_CLIENT_SEQUENCE)) in
         run! assign_static (set_clientTokenNum num) in
         aws_iot_shadow_internal_action fuel t action (Some buf) f d n b).
Proof.
  apply keeps_bind_static. intros x _. apply keeps_bind_static. intros y _. apply keeps_bind_lift.
  intros [m num] E. apply keeps_bind; [keeps_shadow|]. intros _. apply keeps_internal_action. intros z [= <-].
  pose proof (empty_json_returns (mqttClientID x) (clientTokenNum y) (local MAX_SIZE_CLIENT_TOKEN_CLIENT_SEQUENCE)) as H.
  rewrite E in H. cbn [owp] in H. apply short_int_sized. rewrite H. by vm_compute.
Qed.

Lemma keeps_if_connected p k : keeps k -> keeps (if_connected p k).
Proof. intros Hk. unfold if_connected. keeps_shadow. Qed.

Lemma keeps_shadow_init p q : keeps (aws_iot_shadow_init p q).
Proof.
  unfold aws_iot_shadow_init, resetClientTokenSequenceNum, aws_iot_shadow_reset_last_received_version. keeps_shadow.
Qed.

Lemma keeps_shadow_connect p q : keeps (aws_iot_shadow_connect fuel p q).
Proof. unfold aws_iot_shadow_connect. keeps_shadow. Qed.

Lemma keeps_shadow_call p a : shadow_call_ok fuel a -> keeps (run_shadow_call fuel p a).
Proof.
  intros Ha. destruct a as [a|q|q|q|t| |t doc f d n b|t f d n b|t f d n b|b| |b]; cbn [run_shadow_call].
  - exact (keeps_call shadow_kept fuel p a).
  - apply keeps_shadow_init.
  - apply keeps_shadow_connect.
  - unfold aws_iot_shadow_register_delta. keeps_shadow.
  - unfold aws_iot_shadow_yield. keeps_shadow.
  - unfold aws_iot_shadow_disconnect. keeps_shadow.
  - apply keeps_if_connected, keeps_internal_action. intros x ->. by apply short_int_sized.
  - apply keeps_if_connected, keeps_request.
  - apply keeps_if_connected, keeps_request.
  - unfold aws_iot_shadow_set_autoreconnect_status, aws_iot_mqtt_autoreconnect_set_status. keeps_shadow.
  - unfold aws_iot_shadow_reset_last_received_version. keeps_shadow.
  - unfold aws_iot_shadow_enable_discard_old_delta_msgs, aws_iot_shadow_disable_discard_old_delta_msgs. keeps_shadow.
Qed.

Lemma keeps_shadow_calls calls : Forall (shadow_call_ok fuel) calls -> keeps (run_shadow_calls fuel calls).
Proof.
  induction 1 as [|a l Ha Hl IH]; cbn [run_shadow_calls]; [apply keeps_ret|].
  apply keeps_bind; [by apply keeps_shadow_call|]. intros rc. apply keeps_bind; [exact IH|]. intros rcs. apply keeps_ret.
Qed.
End operations.

(** ** The tables are used within their bounds *)

(** The search for an entry ends at the first one there is. *)
Lemma find_index_first {A} (p : A -> bool) (l : list A) n : forall i, (i + n = length l)%nat ->
  find_index (fun x => Done (p x)) l n (Z.of_nat i) =
    Done (match list_find (fun x => p x = true) (drop i l) with
          | Some (j, _) => Z.of_nat (i + j)
          | None => -1
          end).
Proof.
  induction n as [|n IH]; intros i Hi; cbn [find_index].
  { by rewrite drop_ge by lia. }
  destruct (lookup_lt_is_Some_2 l i) as [x Hx]; [lia|]. rewrite (drop_S _ _ _ Hx). cbn [list_find].
  unfold aload. rewrite (proj2 (Z.leb_le 0 _)), Nat2Z.id, Hx by lia. cbn [deref obind].
  destruct (p x) eqn:E; [rewrite decide_True by done; by rewrite Nat.add_0_r|rewrite decide_False by done].
  replace (Z.of_nat i + 1) with (Z.of_nat (S i)) by lia. rewrite (IH (S i)) by lia.
  destruct (list_find _ (drop (S i) l)) as [[j y]|]; cbn; [|done]. do 2 f_equal. lia.
Qed.

Lemma strncpy_bytes_cstr t rest n : no_nul t -> (length t < n)%nat ->
  exists after, strncpy_bytes n (cstr t ++ rest) = Done (cstr t ++ after) /\ (length (cstr t ++ after) = n)%nat.
Proof.
  unfold cstr. intros Ht. revert n. induction Ht as [|b t Hb Ht IH]; intros [|n] Hn; cbn [length] in Hn; [lia| |lia|].
  - exists (replicate n 0). cbn. by rewrite length_replicate.
  - destruct (IH n) as (after & E & Hl); [lia|]. exists after. cbn [app strncpy_bytes].
    rewrite (proj2 (Z.eqb_neq b 0)), E by done. cbn [obind]. split; [done|]. cbn [length]. by rewrite Hl.
Qed.

Lemma strncpy_cstr m t rest : no_nul t -> zlen t < zlen m ->
  exists after, strncpy m (cstr t ++ rest) (zlen m) = Done (cstr t ++ after) /\ zlen (cstr t ++ after) = zlen m.
Proof.
  intros Ht Hm. unfold strncpy. rewrite zlen_to_nat.
  destruct (strncpy_bytes_cstr t rest (length m) Ht) as (after & -> & Hl); [unfold zlen in Hm; lia|]. cbn [obind].
  exists after. assert (Hz : zlen (cstr t ++ after) = zlen m) by (unfold zlen; by rewrite Hl). split; [|done].
  rewrite store_in by lia. rewrite Hz, Z.add_0_l, zlen_to_nat, drop_ge by done. by rewrite app_nil_r.
Qed.

Section tables.
Context {fp : FloatingPoint}.
Context {W : Type} {clock : Clock W} {net : NetworkOps W} {mutexes : MutexOps W} {app : AppOps W}.
Context {statics : ShadowState W} {callbacks : ShadowAppOps W} {code : ShadowCode}.
Context {kept : Kept W shadow_kept} {careful_shadow : CarefulShadow W} (fuel : nat).

(** Registering the structure [i] behind the first registration: the next entry of the table of keys is
    filled and nothing else changes, or the table is full and nothing changes at all. *)
Definition registers (i : Z) (st : jsonStruct_t) (s : St W) : Prop :=
  let x := shadow_of s.2 in
  let n := tokenTableIndex x in
  wp exact (registerJsonTokenOnDelta fuel i) (fun rc s' =>
    if n <? MAX_JSON_TOKEN_EXPECTED then
      rc = SUCCESS /\ s'.1 = s.1 /\
      shadow_of s'.2 = set_tokenTableIndex (n + 1)
        (set_tokenTable (<[Z.to_nat n := mkJsonToken (pKey st) i (cb st) false]> (tokenTable x)) x)
    else rc = FAILURE /\ s' = s) s.

(** The first free entry of [AckWaitList], which is not changed. *)
Definition finds_free_ack (s : St W) : Prop :=
  wp exact getNextFreeIndexOfAckWaitList (fun r s' => s' = s /\
    r = (fun x => Z.of_nat x.1) <$> list_find (fun a => ack_isFree a = true) (AckWaitList (shadow_of s.2))) s.

(** The request is written into entry [i], the identifier and the name ended by a NUL within their arrays. *)
Definition adds_ack (i : Z) (name token : bytes) (action : ShadowActions_t) (f : option fnptr) (d : voidptr)
    (timeout : Z) (s : St W) : Prop :=
  forall rest rest',
  wp exact (addToAckWaitList i (Some (cstr name ++ rest)) action (cstr token ++ rest') f d timeout) (fun _ s' =>
    s'.1 = s.1 /\ shadow_ok (shadow_of s'.2) /\ exists after after' t,
      AckWaitList (shadow_of s'.2) !! Z.to_nat i =
        Some (mkAck (cstr token ++ after') (cstr name ++ after) action f d false t)) s.

(** The first free entry of [SubscriptionList] is taken, or -1 returned and nothing changed. *)
Definition takes_subscription (s : St W) : Prop :=
  let x := shadow_of s.2 in
  wp exact getNextFreeIndexOfSubscriptionList (fun r s' =>
    match list_find (fun r => sr_isFree r = true) (SubscriptionList x) with
    | Some (j, e) => r = Z.of_nat j /\ s'.1 = s.1 /\
        shadow_of s'.2 = set_SubscriptionList (<[j := sr_freed false e]> (SubscriptionList x)) x
    | None => r = -1 /\ s' = s
    end) s.

(** What can be done with the three tables in a state, always defined. *)
Record tables_usable (s : St W) : Prop := {
  tu_register : forall i st, 0 <= i -> json_structs (shadow_of s.2) !! Z.to_nat i = Some st ->
    deltaTopicSubscribedFlag (shadow_of s.2) = true -> registers i st s;
  tu_free_ack : finds_free_ack s;
  tu_add_ack : forall i name token action f d timeout,
    0 <= i < MAX_ACKS_TO_COMEIN_AT_ANY_GIVEN_TIME -> no_nul name -> zlen name < MAX_SIZE_OF_THING_NAME ->
    no_nul token -> zlen token < MAX_SIZE_CLIENT_ID_WITH_SEQUENCE -> adds_ack i name token action f d timeout s;
  tu_subscription : takes_subscription s
}.

Lemma ok_registers i st s : shadow_ok (shadow_of s.2) -> 0 <= i ->
  json_structs (shadow_of s.2) !! Z.to_nat i = Some st -> deltaTopicSubscribedFlag (shadow_of s.2) = true -> registers i st s.
Proof.
  intros Hok Hi Hst Hsub. destruct s as [c w]. unfold registers, registerJsonTokenOnDelta. cbn [fst snd] in *.
  set (x := shadow_of w) in *. set (n := tokenTableIndex x).
  pose proof (so_tokenTableIndex _ Hok) as Hn. pose proof (so_tokenTable _ Hok) as Hlen. fold n in Hn.
  apply wp_bind, wp_gets. cbn [snd]. fold x. rewrite Hsub. cbn [negb]. apply wp_bind, wp_ret, wp_bind, wp_gets. cbn [snd]. fold x n.
  destruct (Z.leb_spec MAX_JSON_TOKEN_EXPECTED n); destruct (Z.ltb_spec n MAX_JSON_TOKEN_EXPECTED); [lia|by apply wp_ret| |lia].
  apply wp_bind, wp_gets, wp_bind, wp_lift. cbn [snd]. fold x. unfold aload. rewrite (proj2 (Z.leb_le 0 i)), Hst by done.
  cbn [deref owp]. apply wp_bind, wp_gets, wp_bind, wp_lift. cbn [snd]. fold x. rewrite astore_in by lia. cbn [owp].
  apply wp_bind, wp_modify, wp_bind, wp_modify, wp_ret. cbn [fst snd]. rewrite !careful_shadow_of.
  rewrite u32_id by (unfold MAX_JSON_TOKEN_EXPECTED in *; lia). by fold x.
Qed.

Lemma ok_finds_free_ack s : shadow_ok (shadow_of s.2) -> finds_free_ack s.
Proof.
  intros Hok. unfold finds_free_ack, getNextFreeIndexOfAckWaitList. apply wp_bind, wp_gets, wp_bind, wp_lift.
  pose proof (find_index_first ack_isFree (AckWaitList (shadow_of s.2)) (Z.to_nat MAX_ACKS_TO_COMEIN_AT_ANY_GIVEN_TIME) 0) as E.
  rewrite drop_0 in E. change (Z.of_nat 0) with 0 in E. rewrite E; [|rewrite <- (so_acks _ Hok), zlen_to_nat; lia].
  apply owp_done, wp_ret. split; [done|]. destruct (list_find _ _) as [[j a]|]; cbn; [|done].
  by destruct (Z.eqb_spec (Z.of_nat j) (-1)); [lia|].
Qed.

Lemma ok_adds_ack i name token action f d timeout s : shadow_ok (shadow_of s.2) ->
  0 <= i < MAX_ACKS_TO_COMEIN_AT_ANY_GIVEN_TIME -> no_nul name -> zlen name < MAX_SIZE_OF_THING_NAME ->
  no_nul token -> zlen token < MAX_SIZE_CLIENT_ID_WITH_SEQUENCE -> adds_ack i name token action f d timeout s.
Proof.
  intros Hok Hi Hn Hnl Ht Htl rest rest'. destruct s as [c w]. unfold addToAckWaitList, ack_at. cbn [snd] in *.
  apply wp_bind, wp_bind, wp_gets, wp_lift. cbn [snd].
  destruct (aload_in (AckWaitList (shadow_of w)) i) as (a & Ea & Hla); [by rewrite (so_acks _ Hok)|]. rewrite Ea. apply owp_done.
  destruct (Forall_lookup_1 _ _ _ _ (so_ack _ Hok) Hla) as [Hid Hname].
  destruct (strncpy_cstr (clientTokenID a) token rest' Ht) as (after' & E1 & L1); [lia|].
  destruct (strncpy_cstr (ack_thingName a) name rest Hn) as (after & E2 & L2); [lia|]. rewrite Hid in E1. rewrite Hname in E2.
  apply wp_bind, wp_lift. rewrite E1. apply owp_done, wp_bind, wp_lift. cbn [deref]. apply owp_done, wp_bind, wp_lift.
  rewrite E2. apply owp_done, wp_bind, wp_world. unfold wp at 1, countdown_sec, bind at 1, now_, ret at 1.
  pose proof (kept_clock (J := shadow_kept) w Hok) as Hk. destruct (gettimeofday w) as [tv w']. cbn [obind owp snd] in *.
  set (t := mkTimer _). unfold set_ack_at. apply wp_bind, wp_gets, wp_bind, wp_lift. cbn [snd].
  rewrite astore_in by (by rewrite (so_acks _ Hk)). apply owp_done, wp_modify. cbn [fst snd]. rewrite careful_shadow_of.
  split; [done|]. split.
  - destruct Hk. constructor; cbn; try done; [by rewrite zlen_insert|]. apply Forall_insert; [done|]. split; cbn; congruence.
  - exists after, after', t. cbn [AckWaitList set_AckWaitList]. apply list_lookup_insert_eq.
    pose proof (so_acks _ Hk). unfold zlen in *. lia.
Qed.

Lemma ok_takes_subscription s : shadow_ok (shadow_of s.2) -> takes_subscription s.
Proof.
  intros Hok. destruct s as [c w]. unfold takes_subscription, getNextFreeIndexOfSubscriptionList. cbn [fst snd] in *.
  apply wp_bind, wp_gets, wp_bind, wp_lift. cbn [snd]. set (l := SubscriptionList (shadow_of w)) in *.
  pose proof (find_index_first sr_isFree l (Z.to_nat MAX_TOPICS_AT_ANY_GIVEN_TIME) 0) as E.
  rewrite drop_0 in E. change (Z.of_nat 0) with 0 in E. rewrite E; [|rewrite <- (so_subscriptions _ Hok), zlen_to_nat; unfold l; lia].
  apply owp_done. destruct (list_find _ l) as [[j e]|] eqn:Ef; cbn; [|by apply wp_ret].
  apply list_find_Some in Ef as (Hj & _ & _). destruct (Z.eqb_spec (Z.of_nat j) (-1)); [lia|].
  assert (Hjl : 0 <= Z.of_nat j < zlen l) by (apply lookup_lt_Some in Hj; unfold zlen; lia).
  apply wp_bind, wp_lift. unfold aload. rewrite (proj2 (Z.leb_le 0 _)), Nat2Z.id, Hj by lia. apply owp_done, wp_bind.
  unfold set_subscription_at. apply wp_bind, wp_gets, wp_bind, wp_lift. cbn [snd]. fold l. rewrite astore_in by done.
  apply owp_done, wp_modify, wp_ret. cbn [fst snd]. rewrite careful_shadow_of, Nat2Z.id. by repeat split.
Qed.

Lemma ok_tables_usable s : shadow_ok (shadow_of s.2) -> tables_usable s.
Proof.
  intros Hok. constructor.
  - intros i st. by apply ok_registers.
  - by apply ok_finds_free_ack.
  - intros i name token action f d timeout. by apply ok_adds_ack.
  - by apply ok_takes_subscription.
Qed.
End tables.

(** The shadow's message handlers keep both invariants, however deep they nest. *)
Lemma careful_handlers {fp : FloatingPoint} {W : Type} {clock : Clock W} {net : NetworkOps W} {mutexes : MutexOps W}
    {user : AppOps W} {statics : ShadowState W} {callbacks : ShadowAppOps W} {code : ShadowCode}
    {kept : Kept W shadow_kept} {careful : CarefulApp W (app := user) shadow_kept}
    {careful_shadow : CarefulShadow W} (fuel depth : nat) :
  CarefulApp W (app := shadow_app fuel user depth) shadow_kept.
Proof.
  induction depth as [|depth IH]; (constructor; [|exact (@careful_disconnect W user shadow_kept careful)]);
    intros f p n msg d c w Hc Hw; cbn [shadow_app call_message_handler].
  - destruct (f =? AckStatusCallback_address); [done|].
    destruct (f =? shadow_delta_callback_address); [|by apply careful_message].
    pose proof (keeps_shadow_delta_callback msg (c, w) (conj Hc Hw)) as H. apply owp_bind.
    eapply owp_mono; [exact H|]. intros [_ [c' w']] Hs. exact Hs.
  - destruct (f =? AckStatusCallback_address).
    { pose proof (keeps_AckStatusCallback (app := shadow_app fuel user depth) fuel p msg (c, w) (conj Hc Hw)) as H.
      apply owp_bind. eapply owp_mono; [exact H|]. intros [_ [c' w']] Hs. exact Hs. }
    destruct (f =? shadow_delta_callback_address); [|by apply careful_message].
    pose proof (keeps_shadow_delta_callback msg (c, w) (conj Hc Hw)) as H. apply owp_bind.
    eapply owp_mono; [exact H|]. intros [_ [c' w']] Hs. exact Hs.
Qed.

(** ** Properties *)


(** The concrete world. *)
#[export] Instance shadow_sim_kept : Kept shadow_sim shadow_kept (mutexes := idle_mutexes).
Proof.
  constructor; try done.
  - intros n len t old [x w] Hw. cbn. by destruct (len <=? zlen (sim_in w)).
  - intros n mem len t old [x w] Hw. cbn. by destruct (load_list mem 0 len).
  - by intros f n w [= <-].
  - intros m w Hw. do 5 (apply List.Forall_cons; [exact Hw|]). apply List.Forall_nil.
Qed.

#[export] Instance shadow_sim_careful : CarefulApp shadow_sim (app := idle_app) shadow_kept.
Proof. by constructor. Qed.

#[export] Instance shadow_sim_careful_shadow : CarefulShadow shadow_sim.
Proof. by constructor. Qed.

Lemma static_shadow_ok : shadow_ok static_shadow.
Proof.
  constructor.
  - reflexivity.
  - apply Forall_replicate. by split.
  - reflexivity.
  - apply Forall_replicate. by split.
  - reflexivity.
  - reflexivity.
  - reflexivity.
  - apply (zlen_fill 131073). done.
  - reflexivity.
  - by split.
  - reflexivity.
Qed.

