(* ===== verification/ShadowBehaviour.v ===== *)
(** * What the shadow does

    The topics of requests and answers, the dispatch of an answer to the request that waits for it, and
    the versions of deltas; and three defects of the code: an answer taken for another kind, an answer
    reported twice, and entries that are lost. *)

From S2P Require Export ShadowWellFormed.

(** ** Topics *)

(** Writing into an array of 110 bytes. *)
Lemma topic_fits m thing post action ackType :
  no_nul thing -> zlen thing <= 74 -> zlen m = MAX_SHADOW_TOPIC_LENGTH_BYTES ->
  exists m', topicNameFromThingAndAction m (Some (cstr thing ++ post)) action ackType = Done m' /\
    holds m' (topic_text thing action ackType) MAX_SHADOW_TOPIC_LENGTH_BYTES.
Proof.
  intros Ht Hl Hm. unfold topicNameFromThingAndAction. rewrite string_arg_cstr by done. cbn [obind].
  change MAX_SHADOW_TOPIC_LENGTH_BYTES with 110 in *. rewrite <- Hm.
  destruct (snprintf_fresh m (topic_text thing action ackType) (zlen m)) as (m' & -> & H').
  - unfold topic_text. repeat (apply Forall_app; split); try done;
      destruct action, ackType; repeat (apply Forall_cons; [done|]); apply Forall_nil.
  - rewrite Hm. unfold topic_text. rewrite !zlen_app. change (zlen things_text) with 12.
    change (zlen shadow_text) with 8.
    assert (zlen (actionBuf action) <= 6) by (destruct action; by vm_compute).
    assert (zlen (match ackType with SHADOW_ACCEPTED => 47 :: accepted_text | SHADOW_REJECTED => 47 :: rejected_text
      | SHADOW_ACTION => [] end) <= 9) by (destruct ackType; by vm_compute).
    lia.
  - lia.
  - by exists m'.
Qed.

(** The first slash ends the thing's name. *)
Lemma split_slash a b s t :
  Forall (fun c => c <> 47) a -> Forall (fun c => c <> 47) b -> a ++ 47 :: s = b ++ 47 :: t -> a = b /\ s = t.
Proof.
  intros Ha. revert b. induction Ha as [|x a Hx Ha IH]; intros b Hb E; destruct Hb as [|y b Hy Hb]; cbn in E.
  - by injection E.
  - injection E as E _. congruence.
  - injection E as E _. congruence.
  - injection E as -> E. destruct (IH b Hb E) as [-> ->]. done.
Qed.

(** C37: for every thing name of at most 74 characters the topic of an action or of its answers is written
    in full - [$aws/things/<thing>/shadow/<action>[/accepted|/rejected]], within the 110 bytes of the
    array - and it tells thing, action and kind apart: two topics are equal only when they stand for the
    same request, provided the names hold no slash. *)
Theorem topics_tell_requests_apart (m post thing thing' : bytes) (action action' : ShadowActions_t)
    (ackType ackType' : ShadowAckTopicTypes_t) :
  no_nul thing -> zlen thing <= 74 -> zlen m = MAX_SHADOW_TOPIC_LENGTH_BYTES ->
  Forall (fun c => c <> 47) thing -> Forall (fun c => c <> 47) thing' ->
  (exists m' after, topicNameFromThingAndAction m (Some (cstr thing ++ post)) action ackType = Done m' /\
    zlen m' = zlen m /\ m' = cstr (topic_text thing action ackType) ++ after) /\
  (topic_text thing action ackType = topic_text thing' action' ackType' ->
   thing = thing' /\ action = action' /\ ackType = ackType').
Proof.
  intros Ht Hl Hm Hs Hs'. split.
  - destruct (topic_fits m thing post action ackType Ht Hl Hm) as (m' & E & Hz & _ & after & Em').
    exists m', after. split; [exact E|]. split; [congruence|exact Em'].
  - unfold topic_text. intros E. apply app_inv_head in E.
    unfold shadow_text in E. cbn [app] in E. apply split_slash in E as [-> E]; [|done|done].
    split; [done|]. destruct action, ackType, action', ackType'; cbn in E; try done; by split.
Qed.

Lemma topics_tell_requests_apart_witness :
  (exists m' after, topicNameFromThingAndAction (local 110) (Some (cstr [116; 49] ++ [])) SHADOW_GET SHADOW_ACCEPTED =
      Done m' /\ zlen m' = zlen (local 110) /\
      m' = cstr (topic_text [116; 49] SHADOW_GET SHADOW_ACCEPTED) ++ after) /\
  (topic_text [116; 49] SHADOW_GET SHADOW_ACCEPTED = topic_text [116; 50] SHADOW_GET SHADOW_ACCEPTED ->
   [116; 49] = [116; 50] /\ SHADOW_GET = SHADOW_GET /\ SHADOW_ACCEPTED = SHADOW_ACCEPTED).
Proof.
  refine (topics_tell_requests_apart (local 110) [] [116; 49] [116; 50] SHADOW_GET SHADOW_GET SHADOW_ACCEPTED
    SHADOW_ACCEPTED _ _ _ _ _); first [reflexivity|by vm_compute|
    repeat (apply Forall_cons; [done|]); apply Forall_nil].
Defined.

(** $aws/things/t1/shadow/update/rejected *)
Example topic_sample :
  (let! m := topicNameFromThingAndAction (local 110) (Some [116; 49; 0]) SHADOW_UPDATE SHADOW_REJECTED in
   string_arg (Some m)) =
  Done [36; 97; 119; 115; 47; 116; 104; 105; 110; 103; 115; 47; 116; 49; 47; 115; 104; 97; 100; 111; 119; 47;
        117; 112; 100; 97; 116; 101; 47; 114; 101; 106; 101; 99; 116; 101; 100].
Proof. vm_compute. reflexivity. Qed.

(** ** Searching for a word *)

Definition contains (text n : bytes) : Prop := exists p q, text = p ++ n ++ q.

(** A word without NULs is compared up to the NUL behind the text. *)
Lemma starts_with_text text rest n :
  no_nul n -> exists b, starts_with (text ++ 0 :: rest) n = Done b /\ (b = true <-> exists q, text = n ++ q).
Proof.
  intros Hn. revert text. induction Hn as [|c n Hc Hn IH]; intros text; cbn [starts_with].
  { exists true. split; [done|]. split; [by exists text|done]. }
  destruct text as [|x text]; cbn [app].
  - destruct (Z.eqb_spec 0 c); [by subst|]. exists false. split; [done|]. split; [done|by intros [q [=]]].
  - destruct (Z.eqb_spec x c) as [->|Hx].
    + destruct (IH text) as (b & E & Hb). exists b. split; [exact E|]. rewrite Hb. split.
      * intros [q ->]. by exists q.
      * intros [q [= ->]]. by exists q.
    + exists false. split; [done|]. split; [done|]. intros [q [= E _]]. done.
Qed.

(** [strstr] finds a word exactly when the text before the NUL contains it. *)
Lemma strstr_spec text rest n :
  no_nul text -> no_nul n ->
  exists b, strstr (text ++ 0 :: rest) n = Done b /\ (b = true <-> contains text n).
Proof.
  intros Ht Hn. induction Ht as [|x text Hx Ht IH]; cbn [strstr app].
  - destruct (starts_with_text [] rest n Hn) as (b & E & Hb). cbn [app] in E. rewrite E. cbn [obind].
    destruct b.
    + exists true. split; [done|]. split; [|done]. intros _. destruct Hb as [Hb _]. destruct (Hb eq_refl) as [q Hq].
      exists [], q. done.
    + exists false. split; [done|]. split; [done|]. intros (p & q & E2).
      destruct p; [|done]. destruct Hb as [_ Hb]. apply Hb. by exists q.
  - destruct (starts_with_text (x :: text) rest n Hn) as (b & E & Hb). cbn [app] in E. rewrite E. cbn [obind].
    destruct b.
    + exists true. split; [done|]. split; [|done]. intros _. destruct Hb as [Hb _]. destruct (Hb eq_refl) as [q Hq].
      exists [], q. done.
    + destruct (Z.eqb_spec x 0); [done|]. destruct IH as (b & E' & Hb'). exists b. split; [exact E'|].
      rewrite Hb'. split.
      * intros (p & q & ->). by exists (x :: p), q.
      * intros (p & q & E2). destruct p as [|y p].
        -- exfalso. destruct Hb as [_ Hb]. assert (false = true) by (apply Hb; by exists q). done.
        -- injection E2 as _ ->. by exists p, q.
Qed.

(** The kind of an answer is taken from the first word "accepted" or "rejected" found in the receive
    buffer from the topic on - and the topic is not followed by a NUL but by the payload.  When the word
    "accepted" occurs nowhere in the topic and the payload, an answer on a topic of rejections is a
    rejection; an answer on a topic of acceptances always is an acceptance; but a rejection whose payload
    holds the word "accepted" anywhere is reported to the application as accepted. *)
Theorem answer_kind (thing payload rest : bytes) (action : ShadowActions_t) :
  no_nul thing -> no_nul payload ->
  ack_status (topic_text thing action SHADOW_ACCEPTED ++ payload ++ 0 :: rest) =
    Done (Some SHADOW_ACK_ACCEPTED) /\
  (~ contains (topic_text thing action SHADOW_REJECTED ++ payload) accepted_text ->
   ack_status (topic_text thing action SHADOW_REJECTED ++ payload ++ 0 :: rest) =
     Done (Some SHADOW_ACK_REJECTED)) /\
  (contains payload accepted_text ->
   ack_status (topic_text thing action SHADOW_REJECTED ++ payload ++ 0 :: rest) =
     Done (Some SHADOW_ACK_ACCEPTED)).
Proof.
  intros Ht Hp.
  assert (Hw : no_nul accepted_text /\ no_nul rejected_text).
  { split; repeat (apply Forall_cons; [done|]); apply Forall_nil. }
  assert (Htext : forall k, no_nul (topic_text thing action k ++ payload)).
  { intros k. apply Forall_app. split; [|done]. unfold topic_text. repeat (apply Forall_app; split); try done;
      destruct action, k; repeat (apply Forall_cons; [done|]); apply Forall_nil. }
  assert (Hacc : forall k, contains (topic_text thing action k ++ payload) accepted_text ->
    ack_status (topic_text thing action k ++ payload ++ 0 :: rest) = Done (Some SHADOW_ACK_ACCEPTED)).
  { intros k Hc. unfold ack_status.
    destruct (strstr_spec (topic_text thing action k ++ payload) rest accepted_text) as (b & E & Hb);
      [apply Htext|apply Hw|]. rewrite <- app_assoc in E. rewrite E. cbn [obind].
    by rewrite (proj2 Hb Hc). }
  split; [|split].
  - apply Hacc. exists (things_text ++ thing ++ shadow_text ++ actionBuf action ++ [47]), payload.
    unfold topic_text. by rewrite <- !app_assoc.
  - intros Hnot. unfold ack_status.
    destruct (strstr_spec (topic_text thing action SHADOW_REJECTED ++ payload) rest accepted_text) as (b & E & Hb);
      [apply Htext|apply Hw|]. rewrite <- app_assoc in E. rewrite E. cbn [obind].
    destruct b; [by destruct Hnot; apply Hb|]. cbv iota.
    destruct (strstr_spec (topic_text thing action SHADOW_REJECTED ++ payload) rest rejected_text) as (b & E2 & Hb2);
      [apply Htext|apply Hw|]. rewrite <- app_assoc in E2. rewrite E2. cbn [obind].
    rewrite (proj2 Hb2); [done|]. exists (things_text ++ thing ++ shadow_text ++ actionBuf action ++ [47]), payload.
    unfold topic_text. by rewrite <- !app_assoc.
  - intros (p & q & ->). apply Hacc. exists (topic_text thing action SHADOW_REJECTED ++ p), q.
    by rewrite <- !app_assoc.
Qed.

Lemma answer_kind_witness :
  ack_status (topic_text [116; 49] SHADOW_GET SHADOW_ACCEPTED ++ accepted_text ++ [0]) =
    Done (Some SHADOW_ACK_ACCEPTED) /\
  (~ contains (topic_text [116; 49] SHADOW_GET SHADOW_REJECTED ++ accepted_text) accepted_text ->
   ack_status (topic_text [116; 49] SHADOW_GET SHADOW_REJECTED ++ accepted_text ++ [0]) =
     Done (Some SHADOW_ACK_REJECTED)) /\
  (contains accepted_text accepted_text ->
   ack_status (topic_text [116; 49] SHADOW_GET SHADOW_REJECTED ++ accepted_text ++ [0]) =
     Done (Some SHADOW_ACK_ACCEPTED)).
Proof.
  refine (answer_kind [116; 49] accepted_text [] SHADOW_GET _ _); repeat (apply Forall_cons; [done|]); apply Forall_nil.
Defined.

(** ** Answers *)

Section answers.
Context {fp : FloatingPoint}.
Context {W : Type} {clock : Clock W} {net : NetworkOps W} {mutexes : MutexOps W} {app : AppOps W}.
Context {statics : ShadowState W} {callbacks : ShadowAppOps W} {code : ShadowCode}.
Context (fuel : nat).

(** The client token of an entry in use is the string [t]. *)
Definition entry_token (a : ToBeReceivedAckRecord_t) (t : bytes) : Prop :=
  ack_isFree a = false -> no_nul t /\ exists after, clientTokenID a = cstr t ++ after.

(** An entry in use with the token. *)
Definition waits_for (token : bytes) (x : ToBeReceivedAckRecord_t * bytes) : Prop :=
  ack_isFree x.1 = false /\ x.2 = token.

#[export] Instance waits_for_decision token x : Decision (waits_for token x).
Proof. unfold waits_for. apply _. Defined.

(** Telling the application the kind of the answer to entry [i], giving its subscriptions back and freeing
    it. *)
Definition settle_entry (i : Z) (a : ToBeReceivedAckRecord_t) (kind : Shadow_Ack_Status_t)
    : M (St W) (option unit) :=
  run! match ack_callback a with
       | Some f => fun '(c, w) =>
           let! s := call_action_callback f i (ack_action a) kind (pCallbackContext a) c w in Done (tt, s)
       | None => ret tt
       end in
  run! unsubscribeFromAcceptedAndRejected fuel i in
  do! a := ack_at i in
  run! set_ack_at i (ack_freed true a) in
  ret (Some tt).

Lemma acknowledge_round topic token rest i a t (c : AWS_IoT_Client) w :
  AckWaitList (shadow_of w) !! Z.to_nat i = Some a -> 0 <= i -> entry_token a t -> no_nul token ->
  acknowledge fuel topic (cstr token ++ rest) i (c, w) =
    if decide (waits_for token (a, t)) then
      match ack_status topic with
      | Done (Some kind) => settle_entry i a kind (c, w)
      | Done None => Undef
      | Undef => Undef
      | NoFuel => NoFuel
      end
    else Done (None, (c, w)).
Proof.
  intros Ha Hi Ht Hk. unfold acknowledge, ack_at, static, bind, gets, lift. cbn [obind snd].
  unfold aload at 1. destruct (Z.leb_spec 0 i); [|lia]. rewrite Ha. cbn [deref obind].
  destruct (ack_isFree a) eqn:Ef; [rewrite decide_False; [done|intros [E _]; cbn in E; congruence]|].
  destruct (Ht Ef) as [Htn [after Ea]]. rewrite Ea, strcmp_eq_cstr by done. cbn [obind].
  destruct (decide (t = token)) as [->|Hne].
  - rewrite bool_decide_eq_true_2 by done. rewrite decide_True by done. cbn [negb].
    destruct (ack_status topic) as [[kind|]| |] eqn:Es; cbn [obind deref]; [|done..].
    assert (Hkind : kind = SHADOW_ACK_ACCEPTED \/ kind = SHADOW_ACK_REJECTED).
    { unfold ack_status in Es. destruct (strstr topic accepted_text) as [[]| |]; cbn in Es; [|destruct (strstr topic rejected_text) as [[]| |]; cbn in Es|..]; try done;
        injection Es as <-; auto. }
    by destruct Hkind as [-> | ->].
  - rewrite bool_decide_eq_false_2 by done. cbn [negb].
    rewrite decide_False; [done|intros [_ E]; done].
Qed.

Lemma settle_entry_last i a kind (rest : M (St W) (option unit)) s :
  obind (settle_entry i a kind s) (fun '(r, s) => (match r with
    | None => rest
    | Some x => ret (Some x)
    end) s) = settle_entry i a kind s.
Proof.
  unfold settle_entry, bind.
  repeat match goal with
    | |- context [obind ?m _] =>
        lazymatch m with obind _ _ => fail | ret _ _ => fail | _ => destruct m as [[? ?]| |]; cbn [obind]; [|done|done] end
    end.
  done.
Qed.

(** The loop stops at the first entry that waits for the token. *)
Lemma acknowledge_loop topic token rest l toks (c : AWS_IoT_Client) w n : forall i,
  AckWaitList (shadow_of w) = l -> Forall2 entry_token l toks -> no_nul token -> (i + n = length l)%nat ->
  for_loop n (Z.of_nat i) (acknowledge fuel topic (cstr token ++ rest)) (c, w) =
    match list_find (waits_for token) (drop i (zip l toks)) with
    | None => Done (None, (c, w))
    | Some (j, (a, _)) =>
        match ack_status topic with
        | Done (Some kind) => settle_entry (Z.of_nat (i + j)) a kind (c, w)
        | Done None => Undef
        | Undef => Undef
        | NoFuel => NoFuel
        end
    end.
Proof.
  induction n as [|n IH]; intros i Hl Ht Hk Hn.
  { rewrite drop_ge; [done|]. rewrite length_zip_with_l_eq by (by eapply Forall2_length). lia. }
  destruct (lookup_lt_is_Some_2 l i) as [a Ha]; [lia|].
  destruct (Forall2_lookup_l _ _ _ _ _ Ht Ha) as (t & Htok & Hat).
  assert (Hz : zip l toks !! i = Some (a, t)).
  { rewrite lookup_zip_with, Ha. cbn. by rewrite Htok. }
  rewrite (drop_S _ _ _ Hz). cbn [for_loop list_find]. unfold bind at 1.
  rewrite (acknowledge_round topic token rest (Z.of_nat i) a t c w); [|by rewrite Nat2Z.id, Hl|lia|done|done].
  destruct (decide (waits_for token (a, t))).
  - rewrite Nat.add_0_r. destruct (ack_status topic) as [[kind|]| |]; try done.
    apply settle_entry_last.
  - cbn [obind]. replace (Z.of_nat i + 1) with (Z.of_nat (S i)) by lia. rewrite (IH (S i)) by (done || lia).
    destruct (list_find (waits_for token) (drop (S i) (zip l toks))) as [[j [a' t']]|]; cbn; [|done].
    by replace (i + S j)%nat with (S (i + j)) by lia.
Qed.

End answers.

(** *** What answering a request does *)

Lemma strlen_inv m n : strlen m = Done n -> exists s rest, m = cstr s ++ rest /\ no_nul s /\ zlen s = n.
Proof.
  revert n. induction m as [|b m IH]; intros n; cbn [strlen]; [done|]. destruct (Z.eqb_spec b 0) as [->|Hb].
  - intros [= <-]. exists [], m. by repeat split; try constructor.
  - destruct (strlen m) as [k| |] eqn:E; cbn [obind]; [|done|done]. intros [= <-].
    destruct (IH k eq_refl) as (s & rest & -> & Hs & <-). exists (b :: s), rest.
    split; [done|]. split; [by constructor|]. rewrite zlen_cons. lia.
Qed.

(** The comparison of a string with an array tells whether the array holds the string. *)
Lemma strcmp_eq_inv t rest m b : no_nul t -> strcmp_eq (cstr t ++ rest) m = Done b ->
  b = true <-> exists after, m = cstr t ++ after.
Proof.
  intros Ht H. split.
  - intros ->. unfold cstr in *. revert m H. induction Ht as [|x t Hx Ht IH]; intros [|y m]; cbn; try done.
    + destruct (Z.eqb_spec 0 y) as [<-|]; cbn; [|done]. intros _. by exists m.
    + destruct (Z.eqb_spec x y) as [<-|]; cbn; [|done]. destruct (Z.eqb_spec x 0); [done|].
      intros H. destruct (IH m H) as [after ->]. by exists after.
  - intros [after ->]. rewrite strcmp_eq_cstr in H by done. rewrite bool_decide_eq_true_2 in H by done. congruence.
Qed.

Section answered.
Context {fp : FloatingPoint}.
Context {W : Type} {clock : Clock W} {net : NetworkOps W} {mutexes : MutexOps W} {app : AppOps W}.
Context {statics : ShadowState W} {callbacks : ShadowAppOps W} {code : ShadowCode}.
Context (fuel : nat).

(** The application is told of the answer: one call of the request's callback, if it has one. *)
Definition told (i : nat) (a : ToBeReceivedAckRecord_t) (kind : Shadow_Ack_Status_t) (s s1 : St W) : Prop :=
  match ack_callback a with
  | Some f => call_action_callback f (Z.of_nat i) (ack_action a) kind (pCallbackContext a) s.1 s.2 = Done s1
  | None => s1 = s
  end.

(** A subscription in use for the topic. *)
Definition subscribed_to (topic : bytes) (r : SubscriptionRecord_t) : Prop :=
  sr_isFree r = false /\ exists after, sr_Topic r = cstr topic ++ after.

(** A topic given back: the first entry in use for it loses one user; the last user of an entry that is not
    sticky unsubscribes, and when that succeeds the entry is free. *)
Definition given_back (topic : bytes) (s s' : St W) : Prop :=
  let x := shadow_of s.2 in
  let l := SubscriptionList x in
  ((forall r, r ∈ take (Z.to_nat MAX_TOPICS_AT_ANY_GIVEN_TIME) l -> ~ subscribed_to topic r) /\ s' = s) \/
  exists j r, l !! j = Some r /\ subscribed_to topic r /\ (forall q, q ∈ take j l -> ~ subscribed_to topic q) /\
    if negb (sr_isSticky r) && (sr_count r =? 1) then
      exists array rc s1,
        aws_iot_mqtt_unsubscribe fuel (pMqttClient x) (Some (cstr topic ++ array)) (zlen topic) s = Done (rc, s1) /\
        let x1 := shadow_of s1.2 in
        if decide (rc = SUCCESS) then
          s'.1 = s1.1 /\ exists r1, SubscriptionList x1 !! j = Some r1 /\
            shadow_of s'.2 = set_SubscriptionList (<[j := sr_freed true r1]> (SubscriptionList x1)) x1
        else s' = s1
    else if 1 <? sr_count r then
      s'.1 = s.1 /\ shadow_of s'.2 = set_SubscriptionList (<[j := sr_counted (u8 (sr_count r - 1)) r]> l) x
    else s' = s.

(** The request in entry [i] is answered: the application is told, the two topics of the request are given
    back, then the entry is free and nothing else has changed. *)
Definition answered (i : nat) (a : ToBeReceivedAckRecord_t) (kind : Shadow_Ack_Status_t) (s s' : St W) : Prop :=
  exists s1 s2 s3 name after a',
    told i a kind s s1 /\ ack_thingName a = cstr name ++ after /\
    given_back (topic_text name (ack_action a) SHADOW_ACCEPTED) s1 s2 /\
    given_back (topic_text name (ack_action a) SHADOW_REJECTED) s2 s3 /\
    let x := shadow_of s3.2 in
    AckWaitList x !! i = Some a' /\ s'.1 = s3.1 /\
    shadow_of s'.2 = set_AckWaitList (<[i := ack_freed true a']> (AckWaitList x)) x.

Hypothesis get_set : forall x w, shadow_of (set_shadow x w) = x.

(** The search among the subscriptions. *)
Lemma find_subscription topic array l n i k : no_nul topic ->
  find_index (fun r => if sr_isFree r then Done false else strcmp_eq (cstr topic ++ array) (sr_Topic r)) l n (Z.of_nat i) = Done k ->
  (k = -1 /\ forall j r, (i <= j < i + n)%nat -> l !! j = Some r -> ~ subscribed_to topic r) \/
  exists j r, k = Z.of_nat j /\ (i <= j)%nat /\ l !! j = Some r /\ subscribed_to topic r /\
    forall j' q, (i <= j' < j)%nat -> l !! j' = Some q -> ~ subscribed_to topic q.
Proof.
  intros Ht. revert i. induction n as [|n IH]; intros i; cbn [find_index].
  { intros [= <-]. left. split; [done|]. intros; lia. }
  unfold aload. rewrite (proj2 (Z.leb_le 0 _)), Nat2Z.id by lia. destruct (l !! i) as [x|] eqn:Ex; cbn [deref obind]; [|done].
  destruct (if sr_isFree x then Done false else strcmp_eq (cstr topic ++ array) (sr_Topic x)) as [b| |] eqn:Eb; cbn [obind]; [|done|done].
  assert (Hb : b = true <-> subscribed_to topic x).
  { unfold subscribed_to. destruct (sr_isFree x); [injection Eb as <-; by split; [|intros [? _]]|].
    rewrite (strcmp_eq_inv _ _ _ _ Ht Eb). by split; [split|intros [_ ?]]. }
  destruct b.
  - intros [= <-]. right. exists i, x. split; [done|]. split; [done|]. split; [done|]. split; [by apply Hb|]. intros; lia.
  - replace (Z.of_nat i + 1) with (Z.of_nat (S i)) by lia. intros H.
    assert (Hx : ~ subscribed_to topic x) by (intros Hs; by apply Hb in Hs).
    destruct (IH (S i) H) as [[-> Hn]|(j & r & -> & Hj & Hr & Hs & Hbefore)]; [left|right].
    + split; [done|]. intros j r Hj Hr. destruct (decide (j = i)) as [->|]; [by simplify_eq|by apply (Hn j r); [lia|]].
    + exists j, r. split; [done|]. split; [lia|]. split; [done|]. split; [done|]. intros j' q Hj' Hq.
      destruct (decide (j' = i)) as [->|]; [by simplify_eq|by apply (Hbefore j' q); [lia|]].
Qed.

Lemma topic_text_length name action kind : zlen name <= 74 -> zlen (topic_text name action kind) < 110.
Proof.
  intros Hl. unfold topic_text. rewrite !zlen_app. change (zlen things_text) with 12. change (zlen shadow_text) with 8.
  assert (zlen (actionBuf action) <= 6) by (destruct action; by vm_compute).
  assert (zlen (match kind with SHADOW_ACCEPTED => 47 :: accepted_text | SHADOW_REJECTED => 47 :: rejected_text
      | SHADOW_ACTION => [] end) <= 9) by (destruct kind; by vm_compute). lia.
Qed.

(** Storing into one of the tables. *)
Lemma wp_set_subscription j r c w l (Q : unit -> St W -> Prop) :
  SubscriptionList (shadow_of w) = l ->
  (forall w', shadow_of w' = set_SubscriptionList (<[j := r]> l) (shadow_of w) -> Q tt (c, w')) ->
  wp partial (set_subscription_at (Z.of_nat j) r) Q (c, w).
Proof.
  intros El HQ. unfold set_subscription_at. apply wp_bind, wp_gets, wp_bind, wp_any_lift. intros l' E. cbn [snd] in E.
  apply wp_modify. apply HQ. rewrite get_set. unfold astore in E. destruct (_ && _); [|done].
  injection E as <-. by rewrite El, Nat2Z.id.
Qed.

Lemma release_gives_back topic array s : no_nul topic -> zlen topic < 110 ->
  wp partial (release_subscription fuel (cstr topic ++ array)) (fun _ s' => given_back topic s s') s.
Proof.
  intros Ht Hlen. destruct s as [c w]. unfold release_subscription, findIndexOfSubscriptionList.
  apply wp_bind, wp_gets, wp_bind, wp_any_lift. cbn [snd]. intros k Ek. change 0 with (Z.of_nat 0) in Ek.
  set (l := SubscriptionList (shadow_of w)) in *. unfold given_back. cbn [snd]. fold l.
  destruct (find_subscription topic array l _ _ _ Ht Ek) as [[-> Hn]|(j & r & -> & _ & Hr & Hs & Hbefore)].
  { apply wp_ret. left. split; [|done]. intros r [j Hj]%list_elem_of_lookup_1.
    apply lookup_take_Some in Hj as [Hj ?]. apply (Hn j r); [lia|done]. }
  rewrite (proj2 (Z.leb_le 0 _)) by lia. apply wp_bind. unfold subscription_at at 1. apply wp_bind, wp_gets, wp_lift. cbn [snd]. fold l.
  unfold aload. rewrite (proj2 (Z.leb_le 0 _)), Nat2Z.id, Hr by lia. cbn [deref owp].
  assert (Hfirst : forall q, q ∈ take j l -> ~ subscribed_to topic q).
  { intros q [j' Hj']%list_elem_of_lookup_1. apply lookup_take_Some in Hj' as [Hq ?]. apply (Hbefore j' q); [lia|done]. }
  destruct (negb (sr_isSticky r) && (sr_count r =? 1)) eqn:Elast.
  - apply wp_bind, wp_gets, wp_bind, wp_lift. cbn [snd]. rewrite strlen_cstr by done. cbn [owp].
    rewrite u16_id by (pose proof (zlen_nonneg topic); lia). apply wp_bind.
    unfold wp at 1. destruct (aws_iot_mqtt_unsubscribe fuel _ _ _ (c, w)) as [[rc [c1 w1]]| |] eqn:Eu; [|done|done]. cbn [owp].
    destruct (decide (rc = SUCCESS)) as [->|Hrc].
    + unfold subscription_at. apply wp_bind, wp_bind, wp_gets, wp_any_lift. cbn [snd]. intros r1 Hr1.
      unfold aload in Hr1. rewrite (proj2 (Z.leb_le 0 _)), Nat2Z.id in Hr1 by lia.
      destruct (SubscriptionList (shadow_of w1) !! j) as [r1'|] eqn:E1; [|done]. injection Hr1 as ->.
      eapply wp_set_subscription; [done|]. intros w' Ew'. right. exists j, r. split; [done|]. split; [done|]. split; [done|].
      rewrite Elast. exists array, SUCCESS, (c1, w1). split; [exact Eu|]. cbv zeta. rewrite decide_True by done.
      cbn [fst snd]. split; [done|]. by exists r1.
    + apply wp_ret. right. exists j, r. split; [done|]. split; [done|]. split; [done|].
      rewrite Elast. exists array, rc, (c1, w1). split; [exact Eu|]. cbv zeta. by rewrite decide_False.
  - destruct (Z.ltb_spec 1 (sr_count r)) as [Hc|Hc].
    + eapply wp_set_subscription; [done|]. intros w' Ew'. right. exists j, r. split; [done|]. split; [done|]. split; [done|].
      rewrite Elast, (proj2 (Z.ltb_lt _ _)) by done. by split.
    + apply wp_ret. right. exists j, r. split; [done|]. split; [done|]. split; [done|].
      rewrite Elast, (proj2 (Z.ltb_ge _ _)) by done. done.
Qed.

(** The array of a topic, written from the name in the entry. *)
Lemma topic_of_entry a action kind array : zlen (ack_thingName a) = MAX_SIZE_OF_THING_NAME ->
  topicNameFromThingAndAction (local MAX_SHADOW_TOPIC_LENGTH_BYTES) (Some (ack_thingName a)) action kind = Done array ->
  exists name after rest, ack_thingName a = cstr name ++ after /\ zlen name <= 74 /\
    array = cstr (topic_text name action kind) ++ rest /\ no_nul (topic_text name action kind).
Proof.
  intros Hl E. destruct (strlen (ack_thingName a)) as [n| |] eqn:En;
    [|unfold topicNameFromThingAndAction, string_arg in E; cbn [deref obind] in E; by rewrite En in E..].
  apply strlen_inv in En as (name & after & Ea & Hn & <-).
  assert (Hname : zlen name <= 74).
  { unfold MAX_SIZE_OF_THING_NAME in Hl. rewrite Ea in Hl. unfold cstr in Hl. rewrite !zlen_app in Hl.
    change (zlen [0]) with 1 in Hl. pose proof (zlen_nonneg after). lia. }
  rewrite Ea in E. destruct (topic_fits (local MAX_SHADOW_TOPIC_LENGTH_BYTES) name after action kind Hn Hname eq_refl)
    as (m' & Em & _ & Ht & rest & ->). rewrite Em in E. injection E as <-. by exists name, after, rest.
Qed.

Lemma entry_name_unique name name' after after' : no_nul name -> no_nul name' ->
  cstr name ++ after = cstr name' ++ after' -> name = name'.
Proof.
  intros H H' E. pose proof (strcmp_eq_cstr name name' after after' H H') as E1. rewrite <- E in E1.
  rewrite strcmp_eq_cstr in E1 by done. rewrite bool_decide_eq_true_2 in E1 by done. injection E1 as E1. symmetry in E1.
  by apply bool_decide_eq_true_1 in E1.
Qed.

(** The callbacks of the application leave the shadow's static variables alone. *)
Hypothesis told_keeps : forall f i act kind d c w c' w',
  call_action_callback f i act kind d c w = Done (c', w') -> shadow_of w' = shadow_of w.

Lemma settle_entry_answers i a kind s : ack_ok a -> AckWaitList (shadow_of s.2) !! i = Some a ->
  wp partial (settle_entry fuel (Z.of_nat i) a kind) (fun r s' => r = Some tt /\ answered i a kind s s') s.
Proof.
  intros [_ Hname] Ha. destruct s as [c w]. unfold settle_entry. apply wp_bind.
  assert (Htold : wp partial (match ack_callback a with
       | Some f => fun '(c, w) =>
           let! s := call_action_callback f (Z.of_nat i) (ack_action a) kind (pCallbackContext a) c w in Done (tt, s)
       | None => ret tt
       end) (fun _ s1 => told i a kind (c, w) s1 /\ shadow_of s1.2 = shadow_of w) (c, w)).
  { unfold told. destruct (ack_callback a) as [f|]; [|by apply wp_ret]. unfold wp.
    destruct (call_action_callback f (Z.of_nat i) (ack_action a) kind (pCallbackContext a) c w) as [[c1 w1]| |] eqn:E; cbn; [|done|done].
    split; [done|]. by eapply told_keeps. }
  eapply wp_mono; [exact Htold|]. cbn beta. intros _ [c1 w1] [H1 Ew1]. cbn [snd] in *.
  apply wp_bind. unfold unsubscribeFromAcceptedAndRejected, ack_at at 1. apply wp_bind, wp_bind, wp_gets, wp_lift. cbn [snd].
  rewrite Ew1. unfold aload. rewrite (proj2 (Z.leb_le 0 _)), Nat2Z.id, Ha by lia. apply owp_done.
  apply wp_bind, wp_any_lift. intros accepted Eacc. apply wp_bind, wp_any_lift. intros rejected Erej.
  apply (topic_of_entry _ _ _ _ Hname) in Eacc as (name & after & rest1 & Ea & Hl & -> & Hn1).
  apply (topic_of_entry _ _ _ _ Hname) in Erej as (name' & after' & rest2 & Ea' & _ & -> & Hn2).
  assert (Hinf : forall n k, no_nul (topic_text n (ack_action a) k) -> no_nul n).
  { intros n k H. unfold topic_text in H. apply Forall_app in H as [_ H]. by apply Forall_app in H as [H _]. }
  assert (name' = name) as ->.
  { rewrite Ea in Ea'. symmetry. apply (entry_name_unique _ _ after after'); [by eapply Hinf|by eapply Hinf|done]. }
  apply wp_bind. eapply wp_mono; [apply release_gives_back; [exact Hn1|by apply topic_text_length]|]. cbn beta. intros _ s2 H2.
  eapply wp_mono; [apply release_gives_back; [exact Hn2|by apply topic_text_length]|]. cbn beta. intros _ [c3 w3] H3.
  unfold ack_at, set_ack_at. apply wp_bind, wp_bind, wp_gets, wp_any_lift. cbn [snd]. intros a' Ha'.
  unfold aload in Ha'. rewrite (proj2 (Z.leb_le 0 _)), Nat2Z.id in Ha' by lia.
  destruct (AckWaitList (shadow_of w3) !! i) as [a2|] eqn:E2; [|done]. injection Ha' as ->.
  apply wp_bind, wp_bind, wp_gets, wp_bind, wp_any_lift. cbn [snd]. intros l El. apply wp_modify, wp_ret. split; [done|].
  exists (c1, w1), s2, (c3, w3), name, after, a'. split; [exact H1|]. split; [done|]. split; [exact H2|]. split; [exact H3|].
  cbn [fst snd]. split; [exact E2|]. split; [done|]. rewrite get_set. unfold astore in El.
  destruct (_ && _); [|done]. injection El as <-. by rewrite Nat2Z.id.
Qed.
End answered.

(** C17: an answer reaches exactly the request that waits for it.  The shadow's variables are well-formed and
    the entries in use hold tokens ended by a NUL.  The topic in the receive buffer is that of
    an acceptance or a rejection, the payload behind it ends with a NUL and, for a rejection, the word
    accepted is nowhere in them ([answer_kind]).  The loop of [AckStatusCallback] finds the first entry in
    use whose client token is that of the answer.  If there is none nothing changes.  Otherwise the loop,
    when it returns, has done this in this order and nothing else: it has called the entry's callback, if
    there is one, once, with the entry's action and context and ACCEPTED or REJECTED as the topic says; it
    has given back the subscriptions to the two topics of the entry's thing and action, each losing one
    user, the last user of one that is not sticky unsubscribing; and it has freed the entry.  The
    application's callback is taken not to touch the shadow's variables.  The entry is freed last: a second
    answer with the same token that arrives during the unsubscribing makes the shadow's own handlers,
    which run inside it, call the callback again ([answer_twice]). *)
Theorem answer_dispatch {fp : FloatingPoint} {W : Type} {clock : Clock W} {net : NetworkOps W}
    {mutexes : MutexOps W} {app : AppOps W} {statics : ShadowState W} {callbacks : ShadowAppOps W}
    {code : ShadowCode} (fuel : nat) (thing payload after token rest : bytes) (action : ShadowActions_t)
    (accepted : bool) (toks : list bytes) (c : AWS_IoT_Client) (w : W) :
  (forall x w, shadow_of (set_shadow x w) = x) ->
  (forall f i act kind d c w c' w',
     call_action_callback f i act kind d c w = Done (c', w') -> shadow_of w' = shadow_of w) ->
  shadow_ok (shadow_of w) -> Forall2 entry_token (AckWaitList (shadow_of w)) toks ->
  no_nul token -> no_nul thing -> no_nul payload ->
  (accepted = false -> ~ contains (topic_text thing action SHADOW_REJECTED ++ payload) accepted_text) ->
  let topic := topic_text thing action (if accepted then SHADOW_ACCEPTED else SHADOW_REJECTED) ++ payload ++ 0 :: after in
  let kind := if accepted then SHADOW_ACK_ACCEPTED else SHADOW_ACK_REJECTED in
  let loop := for_loop (Z.to_nat MAX_ACKS_TO_COMEIN_AT_ANY_GIVEN_TIME) 0
                (acknowledge fuel topic (cstr token ++ rest)) in
  match list_find (waits_for token) (zip (AckWaitList (shadow_of w)) toks) with
  | None => loop (c, w) = Done (None, (c, w))
  | Some (i, (a, _)) => wp partial loop (fun r s' => r = Some tt /\ answered fuel i a kind (c, w) s') (c, w)
  end.
Proof.
  intros Hget Hcb Hok Ht Hk Hth Hpay Hnot topic kind loop.
  assert (Hl : length (AckWaitList (shadow_of w)) = 10%nat) by exact (Nat2Z.inj _ 10 (so_acks _ Hok)).
  assert (Hkind : ack_status topic = Done (Some kind)).
  { destruct (answer_kind thing payload after action Hth Hpay) as (H1 & H2 & _). unfold topic, kind.
    destruct accepted; [exact H1|by apply H2, Hnot]. }
  pose proof (acknowledge_loop fuel topic token rest (AckWaitList (shadow_of w)) toks c w 10 0 eq_refl Ht Hk ltac:(lia)) as E.
  rewrite Hkind, drop_0 in E. change (Z.of_nat 0) with 0 in E. unfold loop.
  change (Z.to_nat MAX_ACKS_TO_COMEIN_AT_ANY_GIVEN_TIME) with 10%nat.
  destruct (list_find _ _) as [[i [a t]]|] eqn:Ef; [|exact E]. apply list_find_Some in Ef as (Hi & _ & _).
  apply lookup_zip_with_Some in Hi as (a' & t' & [= <- <-] & Ha & _).
  unfold wp at 1. rewrite E. apply (settle_entry_answers fuel Hget Hcb i a kind (c, w)); [|exact Ha].
  exact (Forall_lookup_1 _ _ _ _ (so_ack _ Hok) Ha).
Qed.

(** One request, waiting in the fourth entry for the answer to the token "d1-0". *)
Definition waiting : ToBeReceivedAckRecord_t :=
  mkAck (cstr [100; 49; 45; 48] ++ local 85) (cstr [116; 49] ++ local 47) SHADOW_GET (Some 7) 70 false
    (mkTimer (mkTimeval 0 0)).

Definition one_request : shadow :=
  set_AckWaitList (replicate 3 no_ack ++ [waiting] ++ replicate 6 no_ack) static_shadow.

Lemma one_request_ok : shadow_ok one_request.
Proof.
  destruct static_shadow_ok. constructor; try assumption.
  apply Forall_app. split; [apply Forall_replicate; by split|]. apply Forall_app.
  split; [by repeat constructor|apply Forall_replicate; by split].
Qed.

Lemma answer_dispatch_witness :
  wp partial (for_loop (Z.to_nat MAX_ACKS_TO_COMEIN_AT_ANY_GIVEN_TIME) 0
      (acknowledge (W := shadow_sim) (mutexes := idle_mutexes) (app := idle_app) 9
        (topic_text [116; 49] SHADOW_GET SHADOW_REJECTED ++ [] ++ [0]) (cstr [100; 49; 45; 48] ++ [0])))
    (fun r s' => r = Some tt /\
       answered (W := shadow_sim) (mutexes := idle_mutexes) (app := idle_app) 9 3 waiting SHADOW_ACK_REJECTED
         (sim_client CLIENT_STATE_CONNECTED_IDLE [], (one_request, sim_world [])) s')
    (sim_client CLIENT_STATE_CONNECTED_IDLE [], (one_request, sim_world [])).
Proof.
  refine (answer_dispatch (W := shadow_sim) (mutexes := idle_mutexes) (app := idle_app) 9
    [116; 49] [] [] [100; 49; 45; 48] [0] SHADOW_GET false
    (replicate 3 [] ++ [[100; 49; 45; 48]] ++ replicate 6 [])
    (sim_client CLIENT_STATE_CONNECTED_IDLE []) (one_request, sim_world []) _ _ _ _ _ _ _ _).
  - done.
  - by intros f i act kind d c w c' w' [= <- <-].
  - exact one_request_ok.
  - repeat (apply Forall2_cons; [try done|]); [|apply Forall2_nil_2].
    intros _. split; [repeat (apply Forall_cons; [done|]); apply Forall_nil|]. by exists (local 85).
  - repeat (apply Forall_cons; [done|]); apply Forall_nil.
  - repeat (apply Forall_cons; [done|]); apply Forall_nil.
  - apply Forall_nil.
  - intros _ Hc. destruct (strstr_spec (topic_text [116; 49] SHADOW_GET SHADOW_REJECTED ++ []) [] accepted_text) as (b & E & Hb).
    + repeat (apply Forall_cons; [done|]); apply Forall_nil.
    + repeat (apply Forall_cons; [done|]); apply Forall_nil.
    + apply Hb in Hc as ->. by vm_compute in E.
Defined.

(** A second answer with the same token, read while the first makes the shadow unsubscribe, calls the
    request's callback a second time: the entry is not yet free. *)
Definition answer_topic (k : ShadowAckTopicTypes_t) : bytes := topic_text [116; 49] SHADOW_GET k.

Definition subscribed_request : shadow :=
  set_SubscriptionList
    (map (fun k => mkSubscription (cstr (answer_topic k) ++ local 75) 1 false false) [SHADOW_ACCEPTED; SHADOW_REJECTED] ++
     replicate 18 (mkSubscription (local 110) 0 true false))
    (set_pMqttClient pCLIENT one_request).

Definition second_answer : bytes :=
  let body := [0; 34] ++ answer_topic SHADOW_ACCEPTED ++ request_text [100; 49; 45; 48] in 48 :: zlen body :: body.

Definition answered_client : AWS_IoT_Client :=
  sim_client CLIENT_STATE_CONNECTED_IDLE
    (map (fun k => mkMessageHandlers (Some (cstr (answer_topic k))) 34 0 (Some 1001) 0) [SHADOW_ACCEPTED; SHADOW_REJECTED]).

Example answer_twice :
  (let! (r, s) := for_loop 10 0 (acknowledge (W := shadow_sim) (mutexes := idle_mutexes)
      (app := shadow_app (mutexes := idle_mutexes) 3000 idle_app 3) 3000
      (answer_topic SHADOW_ACCEPTED ++ [0]) (cstr [100; 49; 45; 48]))
    (answered_client, (subscribed_request, sim_world (second_answer ++ [176; 2; 0; 2; 176; 2; 0; 3; 176; 2; 0; 4]))) in
   Done (r, sim_log s.2.2)) = Done (Some tt, [(7, [3; 2]); (7, [3; 2])]).
Proof. by vm_compute. Qed.

(** ** Versions of deltas *)

Section deltas.
Context {fp : FloatingPoint}.
Context {W : Type} {clock : Clock W} {net : NetworkOps W} {mutexes : MutexOps W} {app : AppOps W}.
Context {statics : ShadowState W} {callbacks : ShadowAppOps W} {code : ShadowCode}.

(** Only the receive buffer and the parser's tokens have changed. *)
Definition received (s s' : St W) : Prop :=
  s'.1 = s.1 /\ exists rx j, s'.2 = set_shadow (set_json j (set_shadowRxBuf rx (shadow_of s.2))) s.2.

Hypothesis get_set : forall x w, shadow_of (set_shadow x w) = x.
Hypothesis set_set : forall x y (w : W), set_shadow x (set_shadow y w) = set_shadow x w.
Hypothesis set_get : forall w : W, set_shadow (shadow_of w) w = w.

Lemma receive_json_received params s :
  wp partial (receive_json params) (fun _ s' => received s s') s.
Proof.
  destruct s as [c w]. unfold receive_json, static, assign_static.
  destruct (_ <? _).
  { apply wp_ret. split; [done|]. exists (shadowRxBuf (shadow_of w)), (json (shadow_of w)). cbn.
    etrans; [symmetry; apply set_get|]. f_equal. by destruct (shadow_of w). }
  apply wp_bind, wp_client, wp_bind, wp_any_lift. intros d _. apply wp_bind, wp_gets, wp_bind, wp_any_lift.
  intros rx1 _. apply wp_bind, wp_any_lift. intros rx2 _. apply wp_bind, wp_modify, wp_bind, wp_gets.
  apply wp_bind, wp_any_lift. intros [[valid n] j] _. apply wp_bind, wp_modify, wp_ret.
  split; [done|]. exists rx2, j. cbn [snd]. by rewrite get_set, set_set.
Qed.
End deltas.

(** C35: with [shadowDiscardOldDeltaFlag] set, a delta that is not newer than the version known is
    discarded.  When the text received holds a version that is not above [shadowJsonVersionNum], the handler
    returns having changed nothing but the receive buffer and the parser's tokens: no callback is called,
    no structure of the application is assigned, the MQTT client is untouched.  A higher version is
    recorded first, so that the same delta is discarded when it comes again, and then the registered keys
    are looked up. *)
Theorem old_deltas_discarded {fp : FloatingPoint} {W : Type} {clock : Clock W} {net : NetworkOps W}
    {mutexes : MutexOps W} {app : AppOps W} {statics : ShadowState W} {callbacks : ShadowAppOps W}
    {code : ShadowCode} (params : delivered) (c c1 : AWS_IoT_Client) (w w1 : W) (n version : Z) :
  (forall x w, shadow_of (set_shadow x w) = x) ->
  (forall x y (w : W), set_shadow x (set_shadow y w) = set_shadow x w) ->
  (forall w : W, set_shadow (shadow_of w) w = w) ->
  receive_json params (c, w) = Done (Some n, (c1, w1)) ->
  extractVersionNumber (shadowRxBuf (shadow_of w1)) n 0 (json (shadow_of w1)) = Done (true, version) ->
  shadowDiscardOldDeltaFlag (shadow_of w) = true ->
  received (c, w) (c1, w1) /\
  (version <= shadowJsonVersionNum (shadow_of w) ->
   shadow_delta_callback params (c, w) = Done (tt, (c1, w1))) /\
  (shadowJsonVersionNum (shadow_of w) < version ->
   shadow_delta_callback params (c, w) =
     apply_deltas n (c1, set_shadow (set_shadowJsonVersionNum version (shadow_of w1)) w1)).
Proof.
  intros Hget Hset Hsame Hr Hv Hflag.
  pose proof (wp_done _ _ _ _ _ _ (receive_json_received Hget Hset Hsame params (c, w)) Hr) as Hrec.
  split; [exact Hrec|]. destruct Hrec as [_ (rx & j & Ew)]. cbn [snd] in Ew.
  assert (H1 : shadowDiscardOldDeltaFlag (shadow_of w1) = true) by (by rewrite Ew, Hget).
  assert (H2 : shadowJsonVersionNum (shadow_of w1) = shadowJsonVersionNum (shadow_of w)) by (by rewrite Ew, Hget).
  assert (E : shadow_delta_callback params (c, w) =
    if shadowJsonVersionNum (shadow_of w1) <? version
    then apply_deltas n (c1, set_shadow (set_shadowJsonVersionNum version (shadow_of w1)) w1)
    else Done (tt, (c1, w1))).
  { unfold shadow_delta_callback. unfold bind at 1. rewrite Hr. cbn [obind].
    unfold static, assign_static, bind, gets, lift, modify, ret. cbn [obind snd fst]. rewrite H1. cbn [obind snd].
    rewrite Hv. cbn [obind snd]. by destruct (shadowJsonVersionNum (shadow_of w1) <? version). }
  rewrite E, H2. split; intros Hle.
  - by rewrite (proj2 (Z.ltb_ge _ _)).
  - by rewrite (proj2 (Z.ltb_lt _ _)).
Qed.

(** A world that has received {"version":5} and knows version 5. *)
Definition version_delta : bytes := [123; 34; 118; 101; 114; 115; 105; 111; 110; 34; 58; 53; 125].
Definition delta_client : AWS_IoT_Client :=
  set_readBuf (version_delta ++ replicate 51 0) (sim_client CLIENT_STATE_CONNECTED_IDLE []).
Definition delta_shadow : shadow := set_shadowDiscardOldDeltaFlag true
  (set_shadowJsonVersionNum 5 (set_shadowRxBuf (local 32) static_shadow)).
Definition delta_message : delivered := mkDelivered 0 0 0 None 0 13.
Definition delta_world : shadow_sim :=
  match receive_json (W := shadow_sim) delta_message (delta_client, (delta_shadow, sim_world [])) with
  | Done (_, (_, w)) => w
  | _ => (delta_shadow, sim_world [])
  end.

Lemma old_deltas_discarded_witness :
  received (W := shadow_sim) (delta_client, (delta_shadow, sim_world [])) (delta_client, delta_world) /\
  (5 <= 5 -> shadow_delta_callback delta_message (delta_client, (delta_shadow, sim_world [])) =
     Done (tt, (delta_client, delta_world))) /\
  (5 < 5 -> shadow_delta_callback delta_message (delta_client, (delta_shadow, sim_world [])) =
     apply_deltas 3 (delta_client, set_shadow (set_shadowJsonVersionNum 5 (shadow_of delta_world)) delta_world)).
Proof.
  refine (old_deltas_discarded (W := shadow_sim) delta_message delta_client delta_client
    (delta_shadow, sim_world []) delta_world 3 5 _ _ _ _ _ _).
  - reflexivity.
  - reflexivity.
  - intros [x w]. reflexivity.
  - vm_compute. reflexivity.
  - vm_compute. reflexivity.
  - vm_compute. reflexivity.
Defined.

(** ** Subscription entries that are lost *)

Definition free_entries (l : list SubscriptionRecord_t) : nat := length (List.filter sr_isFree l).

Lemma free_entries_insert l i x y :
  l !! i = Some x ->
  (free_entries (<[i := y]> l) + (if sr_isFree x then 1 else 0) = free_entries l + (if sr_isFree y then 1 else 0))%nat.
Proof.
  intros Hx. pose proof (lookup_lt_Some _ _ _ Hx) as Hi.
  assert (E : <[i := y]> l = take i l ++ y :: drop (S i) l) by (by apply insert_take_drop).
  pose proof (take_drop_middle l i x Hx) as E'. rewrite E. rewrite <- E' at 3.
  unfold free_entries. rewrite !List.filter_app, !length_app. cbn [List.filter].
  destruct (sr_isFree x), (sr_isFree y); cbn [length]; lia.
Qed.

Section leak.
Context {fp : FloatingPoint}.
Context {W : Type} {clock : Clock W} {net : NetworkOps W} {mutexes : MutexOps W} {app : AppOps W}.
Context {statics : ShadowState W} {callbacks : ShadowAppOps W} {code : ShadowCode}.
Context (fuel : nat).
Hypothesis get_set : forall x w, shadow_of (set_shadow x w) = x.
Hypothesis set_set : forall x y (w : W), set_shadow x (set_shadow y w) = set_shadow x w.

(** The world with another list of subscriptions. *)
Definition listing (l : list SubscriptionRecord_t) (w : W) : W :=
  set_shadow (set_SubscriptionList l (shadow_of w)) w.

Lemma listing_listing l l' w : listing l (listing l' w) = listing l w.
Proof. unfold listing. by rewrite get_set, set_set. Qed.
Lemma listing_list l w : SubscriptionList (shadow_of (listing l w)) = l.
Proof. unfold listing. by rewrite get_set. Qed.
Lemma listing_client l w : pMqttClient (shadow_of (listing l w)) = pMqttClient (shadow_of w).
Proof. unfold listing. by rewrite get_set. Qed.

Lemma find_free_spec l n : forall i, (i + n = length l)%nat ->
  (find_index (fun r => Done (sr_isFree r)) l n (Z.of_nat i) = Done (-1) /\
   forall j r, (i <= j)%nat -> l !! j = Some r -> sr_isFree r = false) \/
  (exists j r, find_index (fun r => Done (sr_isFree r)) l n (Z.of_nat i) = Done (Z.of_nat j) /\
     l !! j = Some r /\ sr_isFree r = true).
Proof.
  induction n as [|n IH]; intros i Hi; cbn [find_index].
  { left. split; [done|]. intros j r Hj Hr. pose proof (lookup_lt_Some _ _ _ Hr). lia. }
  destruct (lookup_lt_is_Some_2 l i) as [x Hx]; [lia|]. unfold aload. destruct (Z.leb_spec 0 (Z.of_nat i)); [|lia].
  rewrite Nat2Z.id, Hx. cbn [deref obind]. destruct (sr_isFree x) eqn:Ex; [right; by exists i, x|].
  replace (Z.of_nat i + 1) with (Z.of_nat (S i)) by lia.
  destruct (IH (S i)) as [[E H']|H']; [lia| |by right]. left. split; [exact E|].
  intros j r Hj Hr. destruct (decide (j = i)) as [->|]; [|by apply (H' j); [lia|]].
  rewrite Hx in Hr. injection Hr as <-. done.
Qed.

Lemma none_free l : (forall j r, l !! j = Some r -> sr_isFree r = false) <-> free_entries l = 0%nat.
Proof.
  unfold free_entries. split.
  - intros H. induction l as [|x l IH]; [done|]. cbn [List.filter]. rewrite (H 0%nat x) by done.
    apply IH. intros j r Hr. by apply (H (S j)).
  - intros H j r Hr. destruct (sr_isFree r) eqn:E; [|done]. exfalso.
    assert (Hin : In r (List.filter sr_isFree l)).
    { apply List.filter_In. split; [|done]. apply list_elem_of_In. by eapply list_elem_of_lookup_2. }
    by destruct (List.filter sr_isFree l).
Qed.

(** Taking a free entry, if there is one. *)
Lemma next_subscription_wp l (c : AWS_IoT_Client) w (Q : Z -> St W -> Prop) :
  SubscriptionList (shadow_of w) = l -> length l = 20%nat ->
  (free_entries l = 0%nat -> Q (-1) (c, w)) ->
  (forall i r, l !! i = Some r -> sr_isFree r = true ->
     Q (Z.of_nat i) (c, listing (<[i := sr_freed false r]> l) w)) ->
  wp exact getNextFreeIndexOfSubscriptionList Q (c, w).
Proof.
  intros Hl Hn H0 H1. unfold getNextFreeIndexOfSubscriptionList, static.
  apply wp_bind, wp_gets, wp_bind, wp_lift. cbn [snd]. rewrite Hl.
  change (Z.to_nat MAX_TOPICS_AT_ANY_GIVEN_TIME) with 20%nat.
  destruct (find_free_spec l 20 0 ltac:(lia)) as [[E Hnone]|(i & r & E & Hr & Hfree)]; change (Z.of_nat 0) with 0 in E;
    rewrite E; cbn [owp].
  - apply wp_ret, H0. apply none_free. intros j r Hr. by apply (Hnone j); [lia|].
  - destruct (Z.eqb_spec (Z.of_nat i) (-1)); [lia|]. apply wp_bind, wp_lift. unfold aload.
    destruct (Z.leb_spec 0 (Z.of_nat i)); [|lia]. rewrite Nat2Z.id, Hr. cbn [deref owp].
    unfold set_subscription_at, static, assign_static. apply wp_bind, wp_bind, wp_gets, wp_bind, wp_lift. cbn [snd].
    rewrite Hl. unfold astore. pose proof (lookup_lt_Some _ _ _ Hr). unfold zlen.
    destruct (_ && _) eqn:E2; [|lia]. cbn [owp]. rewrite Nat2Z.id. apply wp_modify, wp_ret. by apply H1.
Qed.

Lemma next_subscription l (c : AWS_IoT_Client) w :
  SubscriptionList (shadow_of w) = l -> length l = 20%nat ->
  (free_entries l = 0%nat /\ getNextFreeIndexOfSubscriptionList (c, w) = Done (-1, (c, w))) \/
  (exists i r, l !! i = Some r /\ sr_isFree r = true /\
     getNextFreeIndexOfSubscriptionList (c, w) =
       Done (Z.of_nat i, (c, listing (<[i := sr_freed false r]> l) w))).
Proof.
  intros Hl Hn.
  assert (H : wp exact getNextFreeIndexOfSubscriptionList (fun k s =>
    (free_entries l = 0%nat /\ Done (k, s) = Done (-1, (c, w))) \/
    (exists i r, l !! i = Some r /\ sr_isFree r = true /\
       Done (k, s) = Done (Z.of_nat i, (c, listing (<[i := sr_freed false r]> l) w)))) (c, w)).
  { apply (next_subscription_wp l); [done|done|by left|]. intros i r Hr Hf. right. by exists i, r. }
  unfold wp in H. by destruct (getNextFreeIndexOfSubscriptionList (c, w)) as [[k s]| |].
Qed.

(** A client that is not connected or is in the middle of another call. *)
Definition busy (c : AWS_IoT_Client) : Prop :=
  is_connected_state (state_of c) = false \/
  (state_of c <> CLIENT_STATE_CONNECTED_IDLE /\ state_of c <> CLIENT_STATE_CONNECTED_WAIT_FOR_CB_RETURN).

Lemma subscribe_busy topic n q f d (c : AWS_IoT_Client) (w : W) :
  busy c -> exists rc, rc <> SUCCESS /\
    aws_iot_mqtt_subscribe fuel pCLIENT (Some topic) n q (Some f) d (c, w) = Done (rc, (c, w)).
Proof.
  intros Hb. unfold aws_iot_mqtt_subscribe, aws_iot_mqtt_is_client_connected, aws_iot_mqtt_get_client_state,
    client, bind, gets. cbn [obind fst].
  change (clientState (clientStatus c)) with (state_of c). destruct (is_connected_state (state_of c)) eqn:E; cbn [negb].
  - destruct Hb as [Hb|[H1 H2]]; [congruence|]. rewrite !bool_decide_eq_true_2 by auto.
    by exists MQTT_CLIENT_NOT_IDLE_ERROR.
  - by exists NETWORK_DISCONNECTED_ERROR.
Qed.

Lemma unsubscribe_busy topic n (c : AWS_IoT_Client) (w : W) :
  busy c -> exists rc, aws_iot_mqtt_unsubscribe fuel pCLIENT (Some topic) n (c, w) = Done (rc, (c, w)).
Proof.
  intros Hb. unfold aws_iot_mqtt_unsubscribe, aws_iot_mqtt_is_client_connected, aws_iot_mqtt_get_client_state,
    client, bind, gets. cbn [obind fst].
  change (clientState (clientStatus c)) with (state_of c). destruct (is_connected_state (state_of c)) eqn:E; cbn [negb].
  - destruct Hb as [Hb|[H1 H2]]; [congruence|]. rewrite !bool_decide_eq_true_2 by auto. by eexists.
  - by eexists.
Qed.

Lemma wp_subscription_at md l i r (c : AWS_IoT_Client) w (Q : SubscriptionRecord_t -> St W -> Prop) :
  SubscriptionList (shadow_of w) = l -> l !! i = Some r -> Q r (c, w) ->
  wp md (subscription_at (Z.of_nat i)) Q (c, w).
Proof.
  intros Hl Hr HQ. unfold subscription_at, static. apply wp_bind, wp_gets, wp_lift. cbn [snd]. rewrite Hl.
  unfold aload. destruct (Z.leb_spec 0 (Z.of_nat i)); [|lia]. by rewrite Nat2Z.id, Hr.
Qed.

Lemma wp_set_subscription_at md l i r x (c : AWS_IoT_Client) w (Q : unit -> St W -> Prop) :
  SubscriptionList (shadow_of w) = l -> l !! i = Some r -> Q tt (c, listing (<[i := x]> l) w) ->
  wp md (set_subscription_at (Z.of_nat i) x) Q (c, w).
Proof.
  intros Hl Hr HQ. unfold set_subscription_at, static, assign_static. apply wp_bind, wp_gets, wp_bind, wp_lift.
  cbn [snd]. rewrite Hl. unfold astore. pose proof (lookup_lt_Some _ _ _ Hr). unfold zlen.
  destruct (_ && _) eqn:E; [|lia]. cbn [owp]. rewrite Nat2Z.id. by apply wp_modify.
Qed.

(** A subscription that is refused has only written the topic. *)
Lemma wp_subscribe_entry_busy md l i r thing post action ackType (c : AWS_IoT_Client) w
    (Q : IoT_Error_t -> St W -> Prop) :
  SubscriptionList (shadow_of w) = l -> l !! i = Some r -> pMqttClient (shadow_of w) = pCLIENT -> busy c ->
  no_nul thing -> zlen thing <= 74 -> zlen (sr_Topic r) = MAX_SHADOW_TOPIC_LENGTH_BYTES ->
  (forall rc topic, rc <> SUCCESS -> holds topic (topic_text thing action ackType) MAX_SHADOW_TOPIC_LENGTH_BYTES ->
     Q rc (c, listing (<[i := mkSubscription topic (sr_count r) (sr_isFree r) (sr_isSticky r)]> l) w)) ->
  wp md (subscribe_entry fuel (Z.of_nat i) (Some (cstr thing ++ post)) action ackType) Q (c, w).
Proof.
  intros Hl Hr Hp Hb Ht Htl Hz HQ. unfold subscribe_entry. apply wp_bind. apply (wp_subscription_at md l i r); [done..|].
  destruct (topic_fits (sr_Topic r) thing post action ackType Ht Htl Hz) as (m & E & Hm).
  apply wp_bind, wp_lift. rewrite E. cbn [owp]. apply wp_bind. apply (wp_set_subscription_at md l i r); [done..|].
  unfold static. apply wp_bind, wp_gets. cbn [snd]. rewrite listing_client, Hp. apply wp_bind, wp_lift.
  rewrite (holds_strlen _ _ _ Hm). cbn [owp].
  match goal with |- wp _ _ _ (_, ?w') => destruct (subscribe_busy m (u16 (zlen (topic_text thing action ackType)))
    QOS0 AckStatusCallback_address 0 c w' Hb) as (rc & Hrc & E2) end.
  unfold wp. rewrite E2. by apply HQ.
Qed.


(** What [subscribeToShadowActionAcks] does without a free entry, and with just one. *)
Lemma subscribe_none_free name action sticky (c : AWS_IoT_Client) w :
  length (SubscriptionList (shadow_of w)) = 20%nat -> free_entries (SubscriptionList (shadow_of w)) = 0%nat ->
  subscribeToShadowActionAcks fuel name action sticky (c, w) = Undef.
Proof.
  intros Hn H0.
  destruct (next_subscription _ c w eq_refl Hn) as [[_ E]|(i & r & Hr & Hf & _)].
  - unfold subscribeToShadowActionAcks. unfold bind at 1. rewrite E. cbn [obind]. unfold bind at 1. rewrite E. done.
  - by rewrite (proj2 (none_free _) H0 i r Hr) in Hf.
Qed.

Lemma subscribe_one_free name action sticky (c : AWS_IoT_Client) w :
  let l := SubscriptionList (shadow_of w) in
  length l = 20%nat -> free_entries l = 1%nat ->
  (forall r, r ∈ l -> sr_isFree r = true -> sr_count r <> 1) ->
  wp exact (subscribeToShadowActionAcks fuel name action sticky) (fun rc s' =>
    rc = SUCCESS /\ s' = (c, listing l w)) (c, w).
Proof.
  intros l Hn H1 Hcount. unfold subscribeToShadowActionAcks. apply wp_bind.
  apply (next_subscription_wp l); [done|done|by rewrite H1|]. intros i r Hr Hf.
  set (l1 := <[i := sr_freed false r]> l).
  pose proof (free_entries_insert l i r (sr_freed false r) Hr) as Hc1. fold l1 in Hc1. rewrite Hf in Hc1.
  cbn [sr_freed sr_isFree] in Hc1.
  apply wp_bind. apply (next_subscription_wp l1); [apply listing_list|by unfold l1; rewrite length_insert| |].
  - intros _. rewrite andb_false_r. apply wp_bind, wp_ret, wp_bind, wp_bind.
    destruct (Z.leb_spec 0 (Z.of_nat i)) as [_|]; [|lia].
    assert (Hi : l1 !! i = Some (sr_freed false r)) by (apply list_lookup_insert_eq; by eapply lookup_lt_Some).
    apply wp_bind. apply (wp_subscription_at exact l1 i (sr_freed false r)); [apply listing_list|done|].
    apply (wp_set_subscription_at exact l1 i (sr_freed false r)); [apply listing_list|done|].
    assert (El : <[i := sr_freed true (sr_freed false r)]> l1 = l).
    { unfold l1. rewrite list_insert_insert_eq. apply list_insert_id. rewrite Hr. f_equal. destruct r. cbn in Hf. by subst. }
    rewrite El, listing_listing. apply wp_bind.
    apply (wp_subscription_at exact l i r); [apply listing_list|done|].
    destruct (Z.eqb_spec (sr_count r) 1) as [Hc|_].
    { exfalso. apply (Hcount r); [by eapply list_elem_of_lookup_2|done|done]. }
    by apply wp_ret, wp_ret.
  - intros j x Hx Hfx. exfalso. assert (H0 : free_entries l1 = 0%nat) by lia. by rewrite (proj2 (none_free _) H0 j x Hx) in Hfx.
Qed.

(** A refused request. *)
Lemma subscribe_refused thing post action sticky (c : AWS_IoT_Client) w :
  let l := SubscriptionList (shadow_of w) in
  length l = 20%nat -> (2 <= free_entries l)%nat ->
  (forall r, r ∈ l -> zlen (sr_Topic r) = MAX_SHADOW_TOPIC_LENGTH_BYTES) ->
  no_nul thing -> zlen thing <= 74 -> pMqttClient (shadow_of w) = pCLIENT -> busy c ->
  wp exact (subscribeToShadowActionAcks fuel (Some (cstr thing ++ post)) action sticky) (fun rc s' =>
    rc <> SUCCESS /\ exists l', s' = (c, listing l' w) /\ (free_entries l' + 1 = free_entries l)%nat) (c, w).
Proof.
  intros l Hn H2 Hz Ht Htl Hp Hb. unfold subscribeToShadowActionAcks. apply wp_bind.
  apply (next_subscription_wp l); [done|done|lia|]. intros i r Hr Hf.
  set (l1 := <[i := sr_freed false r]> l).
  pose proof (free_entries_insert l i r (sr_freed false r) Hr) as Hc1. fold l1 in Hc1. rewrite Hf in Hc1.
  cbn [sr_freed sr_isFree] in Hc1. pose proof (lookup_lt_Some _ _ _ Hr) as Hilt.
  assert (Hi : l1 !! i = Some (sr_freed false r)) by (by apply list_lookup_insert_eq).
  apply wp_bind. apply (next_subscription_wp l1); [apply listing_list|by unfold l1; rewrite length_insert|lia|].
  intros j x Hx Hfx. rewrite listing_listing. set (l2 := <[j := sr_freed false x]> l1).
  pose proof (free_entries_insert l1 j x (sr_freed false x) Hx) as Hc2. fold l2 in Hc2. rewrite Hfx in Hc2.
  cbn [sr_freed sr_isFree] in Hc2.
  assert (Hij : j <> i) by (intros ->; rewrite Hi in Hx; injection Hx as <-; done).
  assert (Hi2 : l2 !! i = Some (sr_freed false r)) by (unfold l2; by rewrite list_lookup_insert_ne).
  destruct (Z.leb_spec 0 (Z.of_nat i)) as [_|]; [|lia]. destruct (Z.leb_spec 0 (Z.of_nat j)) as [_|]; [|lia].
  cbn [andb]. apply wp_bind, wp_bind.
  apply (wp_subscribe_entry_busy exact l2 i (sr_freed false r) thing post); try done;
    [apply listing_list|by rewrite listing_client|exact (Hz r (list_elem_of_lookup_2 _ _ _ Hr))|].
  intros rc topic Hrc Htopic. rewrite listing_listing. destruct (decide (rc = SUCCESS)) as [|_]; [done|].
  apply wp_ret, wp_bind, wp_bind, wp_bind. cbn [sr_freed sr_count sr_isFree sr_isSticky].
  set (r3 := mkSubscription topic (sr_count r) false (sr_isSticky r)). set (l3 := <[i := r3]> l2).
  assert (Hi3 : l3 !! i = Some r3).
  { unfold l3. apply list_lookup_insert_eq. by eapply lookup_lt_Some. }
  pose proof (free_entries_insert l2 i _ r3 Hi2) as Hc3. fold l3 in Hc3. cbn in Hc3.
  apply (wp_subscription_at exact l3 i r3); [apply listing_list|done|].
  apply (wp_set_subscription_at exact l3 i r3); [apply listing_list|done|]. rewrite listing_listing.
  set (r4 := sr_freed true r3). set (l4 := <[i := r4]> l3).
  pose proof (free_entries_insert l3 i _ r4 Hi3) as Hc4. fold l4 in Hc4. cbn in Hc4.
  assert (Hi4 : l4 !! i = Some r4).
  { unfold l4. apply list_lookup_insert_eq. by eapply lookup_lt_Some. }
  apply wp_bind. apply (wp_subscription_at exact l4 i r4); [apply listing_list|done|].
  assert (Hend : rc <> SUCCESS /\ exists l', (c, listing l4 w) = (c, listing l' w) /\
    (free_entries l' + 1 = free_entries l)%nat).
  { split; [done|]. exists l4. split; [done|]. lia. }
  destruct (Z.eqb_spec (sr_count r4) 1) as [_|_]; [|by apply wp_ret, wp_ret].
  unfold static. apply wp_bind, wp_gets. cbn [snd]. rewrite listing_client, Hp. apply wp_bind, wp_lift.
  change (sr_Topic r4) with topic. rewrite (holds_strlen _ _ _ Htopic). cbn [owp]. apply wp_bind.
  match goal with |- wp _ (aws_iot_mqtt_unsubscribe _ _ _ ?n) _ (_, ?w') =>
    destruct (unsubscribe_busy topic n c w' Hb) as (rc2 & E2) end.
  unfold wp at 1. rewrite E2. cbn [owp]. by apply wp_ret, wp_ret.
Qed.
End leak.

(** Entries of [SubscriptionList] are lost.  A request for the topics of an action's answers takes two
    of the 20 entries, and when the MQTT client refuses the subscription - it is not connected, or in the
    middle of another call - an error is returned but only one of the two is given back: one entry fewer
    is free afterwards.  With a single entry left the request returns SUCCESS although nothing has been
    subscribed to and nothing has been sent; with none left it reads [SubscriptionList[-1]], which is
    undefined. *)
Theorem subscription_entries_leak {fp : FloatingPoint} {W : Type} {clock : Clock W} {net : NetworkOps W}
    {mutexes : MutexOps W} {app : AppOps W} {statics : ShadowState W} {callbacks : ShadowAppOps W}
    {code : ShadowCode} (fuel : nat) (thing post : bytes) (action : ShadowActions_t) (sticky : bool)
    (c : AWS_IoT_Client) (w : W) :
  (forall x w, shadow_of (set_shadow x w) = x) ->
  (forall x y (w : W), set_shadow x (set_shadow y w) = set_shadow x w) ->
  no_nul thing -> zlen thing <= 74 -> pMqttClient (shadow_of w) = pCLIENT ->
  let l := SubscriptionList (shadow_of w) in
  let request := subscribeToShadowActionAcks fuel (Some (cstr thing ++ post)) action sticky in
  shadow_ok (shadow_of w) ->
  ((2 <= free_entries l)%nat -> busy c ->
     wp exact request (fun rc s' => rc <> SUCCESS /\
       exists l', s' = (c, listing l' w) /\ (free_entries l' + 1 = free_entries l)%nat) (c, w)) /\
  (free_entries l = 1%nat -> (forall r, r ∈ l -> sr_isFree r = true -> sr_count r <> 1) ->
     wp exact request (fun rc s' => rc = SUCCESS /\ s' = (c, listing l w)) (c, w)) /\
  (free_entries l = 0%nat -> request (c, w) = Undef).
Proof.
  intros Hget Hset Ht Htl Hp l request Hok.
  assert (Hn : length l = 20%nat) by exact (Nat2Z.inj _ 20 (so_subscriptions _ Hok)).
  assert (Hz : forall r, r ∈ l -> zlen (sr_Topic r) = MAX_SHADOW_TOPIC_LENGTH_BYTES).
  { intros r Hr. by apply (proj1 (Forall_forall _ _) (so_subscription _ Hok) r), list_elem_of_In. }
  split; [|split].
  - intros. by apply subscribe_refused.
  - intros. by apply subscribe_one_free.
  - intros. by apply subscribe_none_free.
Qed.

Lemma subscription_entries_leak_witness :
  let c := sim_client CLIENT_STATE_DISCONNECTED_ERROR [] in
  let w : shadow_sim := (set_pMqttClient pCLIENT static_shadow, sim_world []) in
  let l := SubscriptionList (shadow_of w) in
  let request := subscribeToShadowActionAcks (mutexes := idle_mutexes) (app := idle_app) 9
    (Some (cstr [116; 49] ++ [])) SHADOW_GET false in
  ((2 <= free_entries l)%nat -> busy c ->
     wp exact request (fun rc s' => rc <> SUCCESS /\
       exists l', s' = (c, listing l' w) /\ (free_entries l' + 1 = free_entries l)%nat) (c, w)) /\
  (free_entries l = 1%nat -> (forall r, r ∈ l -> sr_isFree r = true -> sr_count r <> 1) ->
     wp exact request (fun rc s' => rc = SUCCESS /\ s' = (c, listing l w)) (c, w)) /\
  (free_entries l = 0%nat -> request (c, w) = Undef).
Proof.
  refine (subscription_entries_leak (W := shadow_sim) (mutexes := idle_mutexes) (app := idle_app) 9 [116; 49] []
    SHADOW_GET false (sim_client CLIENT_STATE_DISCONNECTED_ERROR [])
    (set_pMqttClient pCLIENT static_shadow, sim_world []) _ _ _ _ _ _).
  - reflexivity.
  - reflexivity.
  - repeat (apply Forall_cons; [done|]); apply Forall_nil.
  - by vm_compute.
  - reflexivity.
  - destruct static_shadow_ok. constructor; assumption.
Defined.
