(* ===== verification/Delivery.v ===== *)
(** * Delivery of messages

    The reference of message delivery is [dispatch]: the callbacks of the subscriptions whose filter
    matches the topic by levels, in the order of the table. *)

From S2P Require Export Stream Unsubscribe Yield.

(** A table entry that holds the filter [f]. *)
Definition registered (f : option (list bytes)) (h : MessageHandlers) : Prop :=
  match f with
  | None => topicName h = None
  | Some f => f <> [] /\ filter_wf f /\ mh_topicNameLen h = zlen (Topic.join f) /\
      exists fpost, topicName h = Some (cstr (Topic.join f) ++ fpost)
  end.

(** ** Lemmas: matching an entry *)

Lemma filter_wf_no_slash f : filter_wf f -> Forall no_slash f.
Proof.
  assert (Hl : forall l, literal l \/ l = [PLUS] \/ l = [HASH] -> no_slash l).
  { intros l [Hl|[-> | ->]]; [|by repeat constructor|by repeat constructor].
    eapply Forall_impl; [|exact Hl]. simpl. tauto. }
  induction f as [|l f IH]; [constructor|]. intros H. destruct f as [|l2 f].
  - constructor; [by apply Hl|constructor].
  - destruct H as [H1 H2]. constructor; [apply Hl; tauto|by apply IH].
Qed.

Lemma level_match_refl f : filter_wf f -> level_match f f = true.
Proof.
  induction f as [|l f IH]; [done|]. intros H. cbn [level_match].
  destruct (bool_decide_reflect (l = [HASH])) as [->|]; [done|].
  assert (Hf : filter_wf f) by (destruct f; [done|apply H]).
  destruct (bool_decide_reflect (l = [PLUS])) as [->|]; cbn; [by apply IH|].
  rewrite bool_decide_eq_true_2 by done. by apply IH.
Qed.

Lemma handler_matches_levels f h mp mpost t :
  registered f h -> t <> [] -> Forall no_slash t -> no_nul (Topic.join t) ->
  handler_matches h (mp ++ Topic.join t ++ mpost) (zlen mp) (zlen (Topic.join t)) =
    Done (match f with Some f => level_match f t | None => false end).
Proof.
  intros Hr Ht Hs Hn. unfold handler_matches. destruct f as [f|]; [|by rewrite Hr].
  destruct Hr as (Hf & Hwf & Hl & fpost & ->). rewrite Hl.
  assert (Hmatch : _aws_iot_mqtt_internal_is_topic_matched (Some (cstr (Topic.join f) ++ fpost))
    (mp ++ Topic.join t ++ mpost) (Some (zlen mp)) (zlen (Topic.join t)) = Done (if level_match f t then 1 else 0)).
  { rewrite is_topic_matched_chars by (by apply filter_wf_no_nul). by rewrite chars_match_levels. }
  destruct (Z.eqb_spec (zlen (Topic.join t)) (zlen (Topic.join f))) as [El|El].
  - rewrite !zlen_to_nat, drop_app_length. rewrite strncmp_eq_take.
    + rewrite take_app_length. replace (length (Topic.join t)) with (length (Topic.join f)) by (unfold zlen in El; lia).
      unfold cstr. rewrite <- app_assoc, take_app_length. cbn [obind].
      destruct (bool_decide_reflect (Topic.join t = Topic.join f)) as [E|E].
      * f_equal. rewrite <- (chars_match_levels f t) by done. rewrite E, chars_match_levels by
          (auto using filter_wf_no_slash). by rewrite level_match_refl.
      * unfold cstr in Hmatch. rewrite <- app_assoc in Hmatch. rewrite Hmatch. cbn [obind].
        by destruct (level_match f t).
    + rewrite length_app. lia.
    + unfold cstr. rewrite !length_app. unfold zlen in El. lia.
    + by rewrite take_app_length.
  - cbn [obind]. rewrite Hmatch. cbn [obind]. by destruct (level_match f t).
Qed.

(** ** Specification of delivery *)

Section delivery.
Context {W : Type} {clock : Clock W} {net : NetworkOps W} {mutexes : MutexOps W} {app : AppOps W}.

(** The callbacks of the entries that match, in order; each gets the message parameters as the one
    before left them. *)
Fixpoint dispatch (table : list (option (list bytes) * MessageHandlers)) (t : list bytes) (p : Z)
    (msg : delivered) (s : St W) : outcome (delivered * St W) :=
  match table with
  | [] => Done (msg, s)
  | (f, h) :: table =>
      match f, pApplicationHandler h with
      | Some f, Some fn =>
          if level_match f t then
            let! (msg, c, w) := call_message_handler fn p (zlen (Topic.join t)) msg
                                  (pApplicationHandlerData h) s.1 s.2 in
            dispatch table t p msg (c, w)
          else dispatch table t p msg s
      | _, _ => dispatch table t p msg s
      end
  end.

(** What delivery relies on: callbacks leave the receive buffer, the table and the state alone. *)
Definition keeps (c c' : AWS_IoT_Client) : Prop :=
  readBuf (clientData c') = readBuf (clientData c) /\
  messageHandlers (clientData c') = messageHandlers (clientData c) /\ state_of c' = state_of c.

Class PassiveApp := callbacks_keep : forall f p n msg d c w,
  owp partial (call_message_handler f p n msg d c w) (fun '(_, c', _) => keeps c c').

Context {passive : PassiveApp}.

Lemma deliver_loop mp mpost t : forall fs post pre msg (s : St W),
  messageHandlers (clientData s.1) = pre ++ post -> Forall2 registered fs post ->
  t <> [] -> Forall no_slash t -> no_nul (Topic.join t) -> readBuf (clientData s.1) = mp ++ Topic.join t ++ mpost ->
  mfor (length post) (zlen pre) (deliver_to (zlen mp) (zlen (Topic.join t))) msg s =
    dispatch (zip fs post) t (zlen mp) msg s /\
  owp partial (dispatch (zip fs post) t (zlen mp) msg s) (fun '(_, s') => keeps s.1 s'.1).
Proof.
  induction fs as [|f fs IH]; intros post pre msg s Hh Hr Ht Hs Hn Hb; inversion Hr as [|? h ? post' Hf Hfs]; subst.
  { by repeat split. }
  cbn [length mfor zip zip_with dispatch].
  assert (Hstep : forall msg2 s2, keeps s.1 s2.1 ->
    mfor (length post') (zlen pre + 1) (deliver_to (zlen mp) (zlen (Topic.join t))) msg2 s2 =
      dispatch (zip fs post') t (zlen mp) msg2 s2 /\
    owp partial (dispatch (zip fs post') t (zlen mp) msg2 s2) (fun '(_, s') => keeps s.1 s'.1)).
  { intros msg2 s2 (K1 & K2 & K3).
    destruct (IH post' (pre ++ [h]) msg2 s2) as [E1 E2]; try done.
    - by rewrite K2, Hh, <- app_assoc.
    - by rewrite K1.
    - replace (zlen (pre ++ [h])) with (zlen pre + 1) in E1 by zlia. split; [exact E1|].
      eapply owp_mono; [exact E2|]. intros [? s3] (L1 & L2 & L3). repeat split; congruence. }
  assert (Hone : forall k : delivered -> M (St W) delivered,
    bind (deliver_to (zlen mp) (zlen (Topic.join t)) (zlen pre) msg) k s =
    (match f, pApplicationHandler h with
      | Some f, Some fn => if level_match f t then
          let! (msg, c, w) := call_message_handler fn (zlen mp) (zlen (Topic.join t)) msg
                                (pApplicationHandlerData h) s.1 s.2 in k msg (c, w)
          else k msg s
      | _, _ => k msg s end)).
  { intros k. unfold deliver_to, handler_at, bind, client, gets. cbn [obind]. rewrite Hh. unfold lift, aload.
    pose proof (zlen_nonneg pre). destruct (Z.leb_spec 0 (zlen pre)); [|lia].
    rewrite zlen_to_nat, list_lookup_middle by done. cbn [deref obind]. rewrite Hb.
    rewrite (handler_matches_levels f h mp mpost t) by done. cbn [obind].
    destruct f as [f|]; [|by destruct (pApplicationHandler h)].
    destruct (level_match f t); [|by destruct (pApplicationHandler h)].
    destruct (pApplicationHandler h) as [fn|]; [|done]. destruct s as [c w]. cbn [fst snd].
    by destruct (call_message_handler _ _ _ _ _ _ _) as [[[? ?] ?]| |]. }
  rewrite Hone. destruct f as [f|]; [|by apply Hstep].
  destruct (pApplicationHandler h) as [fn|]; [|by apply Hstep].
  destruct (level_match f t); [|by apply Hstep].
  pose proof (callbacks_keep fn (zlen mp) (zlen (Topic.join t)) msg (pApplicationHandlerData h) s.1 s.2) as Hk.
  destruct (call_message_handler _ _ _ _ _ _ _) as [[[msg2 c2] w2]| |]; [|done|done].
  cbn [obind]. by apply Hstep.
Qed.

Lemma set_state_unthreaded e n (c : AWS_IoT_Client) (w : W) :
  thread_support = false ->
  aws_iot_mqtt_set_client_state pCLIENT e n (c, w) =
    if decide (e = state_of c) then Done (SUCCESS, (set_clientState n c, w))
    else Done (MQTT_UNEXPECTED_CLIENT_STATE_ERROR, (c, w)).
Proof.
  intros Ht. unfold aws_iot_mqtt_set_client_state. rewrite Ht. unfold bind at 1, ret at 1. cbn [obind].
  unfold check. destruct (decide (SUCCESS = SUCCESS)); [|done].
  unfold aws_iot_mqtt_get_client_state, bind, client, gets. cbn [obind fst].
  by destruct (decide (e = state_of c)).
Qed.
End delivery.

(** ** Properties *)

(** C10: delivering a message calls exactly the callbacks of the subscriptions whose filter matches the
    topic level by level, each once, in the order of the table, each with the topic, the message and
    the data it was registered with; the client is in state WAIT_FOR_CB_RETURN meanwhile and in its
    former state afterwards. *)
Theorem deliver_message_dispatches {W : Type} {mutexes : MutexOps W} {app : AppOps W}
    {passive : PassiveApp} (fs : list (option (list bytes))) (t : list bytes) (mp mpost : bytes)
    (msg : delivered) (c : AWS_IoT_Client) (w : W) :
  thread_support = false -> length (messageHandlers (clientData c)) = 100%nat ->
  Forall2 registered fs (messageHandlers (clientData c)) ->
  t <> [] -> Forall no_slash t -> no_nul (Topic.join t) -> readBuf (clientData c) = mp ++ Topic.join t ++ mpost ->
  _aws_iot_mqtt_internal_deliver_message (Some (zlen mp)) (zlen (Topic.join t)) msg (c, w) =
    let! (msg', (c', w')) := dispatch (zip fs (messageHandlers (clientData c))) t (zlen mp) msg
      (set_clientState CLIENT_STATE_CONNECTED_WAIT_FOR_CB_RETURN c, w) in
    Done ((SUCCESS, msg'), (set_clientState (state_of c) c', w')).
Proof.
  intros Ht Hl Hr Ht0 Hs Hn Hb. unfold _aws_iot_mqtt_internal_deliver_message.
  unfold aws_iot_mqtt_get_client_state. unfold bind at 1, client, gets. cbn [obind fst].
  unfold bind at 1. rewrite set_state_unthreaded by done.
  destruct (decide (state_of c = state_of c)) as [_|]; [|done]. cbn [obind].
  set (c1 := set_clientState _ c).
  destruct (deliver_loop mp mpost t fs (messageHandlers (clientData c)) [] msg (c1, w)) as [E K]; try done.
  unfold bind at 1. change (Z.to_nat AWS_IOT_MQTT_NUM_SUBSCRIBE_HANDLERS) with 100%nat. rewrite <- Hl.
  change 0 with (zlen (@nil MessageHandlers)) at 1. rewrite E.
  destruct (dispatch _ t (zlen mp) msg (c1, w)) as [[msg' [c' w']]| |]; [|done|done].
  cbn [obind]. destruct K as (_ & _ & Hst). cbn [fst] in Hst.
  unfold bind at 1. rewrite set_state_unthreaded by done. rewrite Hst.
  by destruct (decide (CLIENT_STATE_CONNECTED_WAIT_FOR_CB_RETURN = state_of c1)).
Qed.

#[export] Instance sim_passive : PassiveApp (W := sim).
Proof. intros f p n msg d c w. cbn. by destruct (load_list _ _ _). Qed.

(** Two subscriptions, a/+ and b, and the message "hi" on a/x. *)
Definition sub_ab : list MessageHandlers :=
  [mkMessageHandlers (Some [97; 47; 43; 0]) 3 0 (Some 7) 70;
   mkMessageHandlers (Some [98; 0]) 1 0 (Some 8) 80].
Definition client_ab : AWS_IoT_Client :=
  set_readBuf ([48; 7; 0; 3; 97; 47; 120; 104; 105] ++ replicate 55 0)
    (sim_client CLIENT_STATE_CONNECTED_IDLE sub_ab).
Definition msg_hi : delivered := mkDelivered 0 0 0 None 7 2.

Lemma deliver_message_dispatches_witness :
  _aws_iot_mqtt_internal_deliver_message (Some 4) 3 msg_hi (client_ab, sim_world []) =
    let! (msg', (c', w')) := dispatch
      (zip ([Some [[97]; [PLUS]]; Some [[98]]] ++ replicate 98 None) (messageHandlers (clientData client_ab)))
      [[97]; [120]] 4 msg_hi
      (set_clientState CLIENT_STATE_CONNECTED_WAIT_FOR_CB_RETURN client_ab, sim_world []) in
    Done ((SUCCESS, msg'), (set_clientState CLIENT_STATE_CONNECTED_IDLE c', w')).
Proof.
  refine (deliver_message_dispatches ([Some [[97]; [PLUS]]; Some [[98]]] ++ replicate 98 None)
    [[97]; [120]] [48; 7; 0; 3] ([104; 105] ++ replicate 55 0) msg_hi client_ab (sim_world [])
    _ _ _ _ _ _ _).
  - reflexivity.
  - reflexivity.
  - constructor; [|constructor].
    + split; [done|]. split; [|by split; [|exists []]]. simpl. split; [left; repeat constructor; done|].
      by right; left.
    + split; [done|]. split; [|by split; [|exists []]]. simpl. left. repeat constructor; done.
    + repeat constructor.
  - done.
  - repeat constructor; done.
  - repeat constructor; done.
  - reflexivity.
Defined.
