(* ===== verification/Exchange.v ===== *)
(** * What the outcome of an exchange tells

    In the default build (no thread support) and with callbacks that leave the receive buffer, the
    table of subscriptions and the state alone ([PassiveApp]): what a SUCCESS of the exchanges built on
    [aws_iot_mqtt_internal_wait_for_read] says of the packet received, and how the exchanges change the
    table of subscriptions and the state.  Nothing is assumed of the network or the clock. *)

From S2P Require Export Delivery Lifecycle.

Section frame.
Context {W : Type} {clock : Clock W} {net : NetworkOps W} {mutexes : MutexOps W} {app : AppOps W}.
Context {passive : PassiveApp} (fuel : nat).
Hypothesis unthreaded : thread_support = false.

(** What no exchange changes but by its result. *)
Definition same_table (c c' : AWS_IoT_Client) : Prop :=
  messageHandlers (clientData c') = messageHandlers (clientData c) /\ state_of c' = state_of c.

#[local] Instance same_table_preorder : PreOrder same_table.
Proof.
  split; [by split|]. intros c1 c2 c3 [H1 H2] [H3 H4]. split; congruence.
Qed.

Lemma same_table_assign (f : AWS_IoT_Client -> AWS_IoT_Client) c c0 :
  (forall c, same_table c (f c)) -> same_table c0 c -> same_table c0 (f c).
Proof. intros H1 H2. etrans; [exact H2|apply H1]. Qed.

Lemma send_packet_frame len t s :
  wp partial (aws_iot_mqtt_internal_send_packet fuel pCLIENT len (Some t)) (fun _ s' => s'.1 = s.1) s.
Proof.
  destruct s as [c w]. unfold aws_iot_mqtt_internal_send_packet. apply wp_bind, wp_client.
  destruct (_ <=? len); [by apply wp_ret|]. rewrite unthreaded. apply wp_bind, wp_ret, wp_check; [done|].
  intros _. apply wp_bind.
  apply (wp_loop partial (fun _ s' => s'.1 = c) (fun _ _ => O)); [done| |done].
  intros [sent sl] [c1 w1] Hc. cbn [fst] in Hc. subst c1.
  assert (Hend : forall sent' w', wp partial (do! rc := ret SUCCESS in
      check rc (if sent' =? len then ret SUCCESS else ret FAILURE)) (fun _ (s' : St W) => s'.1 = c) (c, w')).
  { intros sent' w'. apply wp_bind, wp_ret, wp_check; [done|]. intros _. by destruct (_ =? len); apply wp_ret. }
  destruct (sent <? len); [|by apply wp_ret, Hend]. apply wp_bind, wp_any_world. intros b w2.
  destruct b; [by apply wp_ret, Hend|]. apply wp_bind. unfold network_write.
  apply wp_bind, wp_client, wp_bind, wp_client, wp_any_world. intros [rc k] w3.
  destruct (decide (rc <> SUCCESS)); apply wp_ret; [apply Hend|by split].
Qed.

Lemma network_read_frame off len t old s :
  wp partial (network_read off len t old) (fun _ s' => same_table s.1 s'.1) s.
Proof.
  destruct s as [c w]. unfold network_read. apply wp_bind, wp_client, wp_bind, wp_any_world.
  intros [[rc d] k] w'. apply wp_bind, wp_client, wp_bind, wp_any_lift. intros buf _.
  apply wp_bind, wp_assign, wp_ret. by split.
Qed.

Lemma decode_frame t s :
  wp partial (_aws_iot_mqtt_internal_decode_packet_remaining_len fuel t) (fun _ s' => s'.1 = s.1) s.
Proof.
  destruct s as [c w]. unfold _aws_iot_mqtt_internal_decode_packet_remaining_len.
  apply (wp_loop partial (fun _ s' => s'.1 = c) (fun _ _ => O)); [done| |done].
  intros [[[m l] r] e] [c1 w1] Hc. cbn [fst] in Hc. subst c1. cbv zeta.
  destruct (_ <? _); [by apply wp_ret|]. apply wp_bind, wp_client, wp_bind, wp_any_world.
  intros [[rc d] k] w'. apply wp_bind, wp_any_lift. intros e' _.
  destruct (decide (rc <> SUCCESS)); [by apply wp_ret|]. apply wp_bind, wp_any_lift. intros b _.
  by destruct (negb _); apply wp_ret.
Qed.

(** The packet in the receive buffer is of type [pt]. *)
Definition in_buffer (pt : Z) (c : AWS_IoT_Client) : Prop :=
  exists b, load (readBuf (clientData c)) 0 = Done b /\ MQTTHeader.type b = pt.

(** A packet that has been read is the one whose header is in the receive buffer. *)
Lemma read_packet_frame t pt s :
  wp partial (_aws_iot_mqtt_internal_read_packet fuel t pt) (fun '(rc, pt') s' =>
    same_table s.1 s'.1 /\ if decide (rc = SUCCESS) then in_buffer pt' s'.1 else pt' = pt) s.
Proof.
  destruct s as [c w]. unfold _aws_iot_mqtt_internal_read_packet.
  set (Q := fun '(rc, pt') (s' : St W) =>
    same_table (c, w).1 s'.1 /\ if decide (rc = SUCCESS) then in_buffer pt' s'.1 else pt' = pt).
  assert (Herr : forall rc s', rc <> SUCCESS -> same_table c s'.1 -> wp partial (ret (rc, pt)) Q s').
  { intros rc s' Hrc Hs'. apply wp_ret. split; [done|]. by destruct (decide (rc = SUCCESS)). }
  apply wp_bind, wp_client, wp_bind, wp_any_world. intros pkt w1. apply wp_bind.
  eapply wp_mono; [apply network_read_frame|]. intros [rc k] s2 H2. cbn [fst] in H2.
  destruct (decide (NETWORK_SSL_NOTHING_TO_READ = rc)); [by apply Herr|].
  destruct (decide (rc <> SUCCESS)) as [|_]; [by apply Herr|]. apply wp_bind.
  eapply wp_mono; [apply decode_frame|]. intros [rc3 rem] s3 H3. rewrite <- H3 in H2. clear H3.
  destruct (decide (rc3 <> SUCCESS)) as [|Hrc3]; [by apply Herr|]. apply wp_bind, wp_client.
  destruct (_ <=? rem).
  - apply wp_bind.
    apply (wp_loop partial (fun _ s' => same_table c s'.1) (fun _ _ => O)); [done| |done].
    intros [[b tot] k4] s4 H4. apply wp_bind. eapply wp_mono; [apply network_read_frame|].
    intros [rc5 k5] s5 H5. assert (H5' : same_table c s5.1) by (by etrans). apply wp_bind, wp_client.
    destruct (if decide (SUCCESS = rc5) then _ else _) as [b' tot'].
    destruct (_ && _); apply wp_ret; [by split|by apply Herr].
  - apply wp_bind, wp_client, wp_bind, wp_any_lift. intros [nb buf] _. destruct s3 as [c3 w3].
    apply wp_bind, wp_assign, wp_bind.
    assert (Hend : forall (failed : bool) rc' s', (failed = false -> rc' = SUCCESS) -> same_table c s'.1 ->
      wp partial (if failed then ret (FAILURE, pt) else
        do! buf := client (fun c => readBuf (clientData c)) in
        do! header := lift (load buf 0) in
        ret (rc', MQTTHeader.type header)) Q s').
    { intros failed rc' s' Hf Hs'. destruct failed; [by apply Herr|]. rewrite Hf by done.
      apply wp_bind, wp_client, wp_bind, wp_any_lift. intros h Hh. apply wp_ret. split; [done|]. by exists h. }
    destruct (0 <? rem).
    + apply wp_bind. eapply wp_mono; [apply network_read_frame|]. intros [rc5 k5] s5 H5. apply wp_ret.
      apply Hend; [|etrans; [exact H2|exact H5]].
      destruct (bool_decide_reflect (rc5 <> SUCCESS)) as [|Hn]; [done|]. intros _.
      destruct (decide (rc5 = SUCCESS)); [done|by exfalso].
    + apply wp_ret, (Hend false); [|done]. intros _.
      destruct (decide (rc3 = SUCCESS)); [done|by exfalso].
Qed.

Lemma deliver_to_frame p n itr msg s :
  wp partial (deliver_to p n itr msg) (fun _ s' => same_table s.1 s'.1) s.
Proof.
  destruct s as [c w]. unfold deliver_to, handler_at. apply wp_bind, wp_bind, wp_client, wp_any_lift.
  intros h _. apply wp_bind, wp_client, wp_bind, wp_any_lift. intros m _.
  destruct m; [|by apply wp_ret]. destruct (pApplicationHandler h) as [f|]; [|by apply wp_ret].
  unfold wp. pose proof (callbacks_keep f p n msg (pApplicationHandlerData h) c w) as Hk.
  destruct (call_message_handler _ _ _ _ _ _ _) as [[[m2 c2] w2]| |]; [|done|done]. cbn.
  destruct Hk as (_ & H1 & H2). by split.
Qed.

Lemma deliver_message_frame p n msg s :
  wp partial (_aws_iot_mqtt_internal_deliver_message p n msg) (fun _ s' => same_table s.1 s'.1) s.
Proof.
  destruct s as [c w]. unfold _aws_iot_mqtt_internal_deliver_message.
  destruct p as [p|]; [|by apply wp_ret]. apply wp_bind, wp_client, wp_bind. unfold wp at 1. cbn [fst].
  rewrite set_state_unthreaded by done. destruct (decide (state_of c = state_of c)); [|done]. cbn [owp].
  apply wp_bind. set (c1 := set_clientState _ c).
  apply (wp_mfor partial (fun _ _ s' => same_table c1 s'.1)); [done| |].
  { intros j m s1 _ H1. eapply wp_mono; [apply deliver_to_frame|]. intros m2 s2 H2. by etrans. }
  intros m [c2 w2] [H1 H2]. cbn [fst] in *. apply wp_bind. unfold wp at 1.
  rewrite set_state_unthreaded by done.
  destruct (decide _) as [_|Hne]; [|by exfalso; apply Hne; rewrite H2]. cbn [owp]. apply wp_ret. by split.
Qed.

Lemma handle_publish_frame t s :
  wp partial (_aws_iot_mqtt_internal_handle_publish fuel t) (fun _ s' => same_table s.1 s'.1) s.
Proof.
  destruct s as [c w]. unfold _aws_iot_mqtt_internal_handle_publish.
  apply wp_bind, wp_client, wp_bind, wp_any_lift. intros [rc out] _. apply wp_check; [done|]. intros _.
  do 4 (apply wp_bind, wp_any_lift; intros ? _). apply wp_bind.
  eapply wp_mono; [apply deliver_message_frame|]. intros [rc2 msg] s2 H2. apply wp_check; [done|]. intros _.
  destruct (QOS0 =? dm_qos msg); [by apply wp_ret|]. apply wp_bind, wp_client, wp_bind, wp_any_lift.
  intros i _. apply wp_bind, wp_any_lift. intros [[rc3 buf] len] _. apply wp_bind. unfold store_tx.
  destruct s2 as [c2 w2]. apply wp_bind, wp_any_lift. intros b _. apply wp_assign, wp_bind, wp_any_lift.
  intros l _. apply wp_check; [by intros _; etrans; [exact H2|]|]. intros _. apply wp_bind.
  eapply wp_mono; [apply send_packet_frame|]. intros rc4 s4 H4.
  assert (H4' : same_table c s4.1) by (rewrite H4; by etrans; [exact H2|]).
  apply wp_check; [done|]. intros _. by apply wp_ret.
Qed.

(** The acknowledgements: packets [cycle_read] leaves in the receive buffer. *)
Definition is_ack (pt : Z) : bool :=
  (pt =? MessageTypes_value CONNACK) || (pt =? MessageTypes_value PUBACK)
  || (pt =? MessageTypes_value SUBACK) || (pt =? MessageTypes_value UNSUBACK).

Lemma cycle_read_frame t pt0 s :
  wp partial (aws_iot_mqtt_internal_cycle_read fuel pCLIENT (Some t) pt0) (fun '(rc, pt) s' =>
    same_table s.1 s'.1 /\ (rc = SUCCESS -> is_ack pt = true -> pt = pt0 \/ in_buffer pt s'.1)) s.
Proof.
  unfold aws_iot_mqtt_internal_cycle_read. rewrite unthreaded. apply wp_bind, wp_ret.
  destruct (decide (SUCCESS <> SUCCESS)) as [|_]; [done|]. apply wp_bind.
  eapply wp_mono; [apply read_packet_frame|]. intros [rc pt] s1 [H1 Hpt]. apply wp_bind, wp_ret.
  rewrite (bool_decide_eq_false_2 (SUCCESS <> SUCCESS)) by auto. cbn [andb].
  destruct (decide (MQTT_NOTHING_TO_READ = rc)) as [<-|].
  { apply wp_ret. split; [done|]. intros _ _. by left. }
  destruct (decide (rc <> SUCCESS)) as [|Hrc]; [by apply wp_ret|].
  destruct (decide (rc = SUCCESS)) as [->|]; [|by exfalso].
  fold (is_ack pt). apply wp_bind.
  assert (Hk : forall m : M (St W) IoT_Error_t,
    wp partial m (fun _ s' => same_table s1.1 s'.1) s1 -> is_ack pt = false ->
    wp partial m (fun rc s' => wp partial (ret (rc, pt)) (fun '(rc, pt) s' =>
      same_table s.1 s'.1 /\ (rc = SUCCESS -> is_ack pt = true -> pt = pt0 \/ in_buffer pt s'.1)) s') s1).
  { intros m Hm Ea. eapply wp_mono; [exact Hm|]. intros rc' s' Hs'. apply wp_ret.
    split; [by etrans|by rewrite Ea]. }
  destruct (is_ack pt) eqn:Ea; [by apply wp_ret, wp_ret; split; [|by right]|]. apply Hk; [|done].
  destruct (pt =? _); [apply handle_publish_frame|]. destruct (_ || _); [by apply wp_ret|].
  destruct (pt =? _); [|by apply wp_ret]. destruct s1 as [c1 w1].
  apply wp_bind, wp_assign, wp_bind, wp_client, wp_bind, wp_any_world. intros t' w2.
  by apply wp_bind, wp_assign, wp_ret.
Qed.

(** A wait that succeeds has the packet awaited in the receive buffer. *)
Lemma wait_for_read_frame pt t s :
  is_ack pt = true ->
  wp partial (aws_iot_mqtt_internal_wait_for_read fuel pCLIENT pt (Some t)) (fun rc s' =>
    same_table s.1 s'.1 /\ (rc = SUCCESS -> in_buffer pt s'.1)) s.
Proof.
  intros Ea. unfold aws_iot_mqtt_internal_wait_for_read. apply wp_bind.
  set (Q := fun rc (s' : St W) => same_table s.1 s'.1 /\ (rc = SUCCESS -> in_buffer pt s'.1)).
  assert (Hend : forall rc rt s', same_table s.1 s'.1 -> (rc = SUCCESS -> rt = pt -> in_buffer pt s'.1) ->
    wp partial (if bool_decide (MQTT_REQUEST_TIMEOUT_ERROR <> rc)
      && bool_decide (NETWORK_DISCONNECTED_ERROR <> rc) && negb (rt =? pt) then ret FAILURE else ret rc) Q s').
  { intros rc rt s' H1 H2. destruct (_ && _ && _) eqn:E; apply wp_ret; [by split|]. split; [done|].
    intros ->. apply H2; [done|]. by destruct (Z.eqb_spec rt pt). }
  apply (wp_loop partial (fun rt s' => same_table s.1 s'.1 /\ rt <> pt) (fun _ _ => O)); [| |done].
  { split; [done|]. by intros <-. }
  intros rt [c1 w1] [H1 Hrt]. apply wp_bind, wp_any_world. intros b w2.
  destruct b; [by apply wp_ret, Hend|]. apply wp_bind. eapply wp_mono; [apply cycle_read_frame|].
  intros [rc rt'] s3 [H3 Hp]. assert (same_table s.1 s3.1) by (by etrans).
  destruct (_ && _) eqn:E; apply wp_ret.
  { split; [|done]. split; [done|]. by destruct (Z.eqb_spec rt' pt); [rewrite andb_false_r in E|]. }
  apply Hend; [done|]. intros Hrc ->. by destruct (Hp Hrc Ea).
Qed.

(** Sending a request and waiting for its acknowledgement. *)
Lemma exchange_frame len t pt c0 s (Q : IoT_Error_t -> St W -> Prop) k :
  is_ack pt = true -> same_table c0 s.1 ->
  (forall rc s', rc <> SUCCESS -> same_table c0 s'.1 -> Q rc s') ->
  (forall s', same_table c0 s'.1 -> in_buffer pt s'.1 -> wp partial k Q s') ->
  wp partial
    (do! rc := aws_iot_mqtt_internal_send_packet fuel pCLIENT len (Some t) in
     check rc (do! rc := aws_iot_mqtt_internal_wait_for_read fuel pCLIENT pt (Some t) in check rc k)) Q s.
Proof.
  intros Ea Hs Hfail Hk. apply wp_bind. eapply wp_mono; [apply send_packet_frame|]. intros rc s1 H1.
  assert (T1 : same_table c0 s1.1) by (by rewrite H1). apply wp_check; [by intros; apply Hfail|]. intros _.
  apply wp_bind. eapply wp_mono; [by apply wait_for_read_frame|]. intros rc2 s2 [H2 Hb].
  assert (T2 : same_table c0 s2.1) by (by etrans).
  apply wp_check; intros Hrc; [by apply Hfail|]. apply Hk; auto.
Qed.

Lemma wp_cas e n (Q : IoT_Error_t -> St W -> Prop) c w :
  (state_of c = e -> Q SUCCESS (set_clientState n c, w)) ->
  (state_of c <> e -> Q MQTT_UNEXPECTED_CLIENT_STATE_ERROR (c, w)) ->
  wp partial (aws_iot_mqtt_set_client_state pCLIENT e n) Q (c, w).
Proof.
  intros H1 H2. unfold wp. rewrite set_state_unthreaded by done. by destruct (decide _); [apply H1|apply H2].
Qed.

Lemma wp_store_tx_frame buf (Q : unit -> St W -> Prop) c w :
  (forall b, Q tt (set_writeBuf b c, w)) -> wp partial (store_tx buf) Q (c, w).
Proof. intros HQ. by apply wp_bind, wp_any_lift; intros b _; apply wp_assign. Qed.

Lemma wp_next_id_frame (Q : Z -> St W -> Prop) c w :
  (forall id, Q id (set_nextPacketId id c, w)) -> wp partial aws_iot_mqtt_get_next_packet_id Q (c, w).
Proof. intros HQ. apply wp_bind, wp_client, wp_bind, wp_assign, wp_ret, HQ. Qed.

(** *** The table of subscriptions *)

Definition used (h : MessageHandlers) : bool := match topicName h with Some _ => true | None => false end.

(** [i] is the index of the first unused entry. *)
Definition first_free (hs : list MessageHandlers) (i : nat) : Prop :=
  (exists h, hs !! i = Some h /\ used h = false) /\
  forall j h, (j < i)%nat -> hs !! j = Some h -> used h = true.

Lemma free_index_first n : forall i hs,
  (forall k h, (k < i)%nat -> hs !! k = Some h -> used h = true) ->
  owp partial (free_index n (Z.of_nat i) hs) (fun j =>
    j < Z.of_nat i + Z.of_nat n -> first_free hs (Z.to_nat j)).
Proof.
  induction n as [|n IH]; intros i hs Hi; cbn [free_index]; [simpl; lia|].
  apply owp_bind, owp_partial_intro. intros h Hh. unfold aload in Hh.
  destruct (0 <=? Z.of_nat i); [|done]. rewrite Nat2Z.id in Hh.
  destruct (hs !! i) as [h'|] eqn:E; [|done]. injection Hh as ->.
  destruct (topicName h) eqn:Et.
  - replace (Z.of_nat i + 1) with (Z.of_nat (S i)) by lia. eapply owp_mono; [apply IH|].
    + intros k h2 Hk Hk2. destruct (decide (k = i)) as [->|]; [|apply (Hi k); [lia|done]].
      rewrite E in Hk2. injection Hk2 as <-. unfold used. by rewrite Et.
    + intros j Hj ?. apply Hj. lia.
  - simpl. intros _. rewrite Nat2Z.id. split; [|done]. exists h. unfold used. by rewrite Et.
Qed.

Lemma wp_set_handler_frame i h (Q : unit -> St W -> Prop) c w :
  (0 <= i < zlen (messageHandlers (clientData c)) ->
   Q tt (set_messageHandlers (<[Z.to_nat i := h]> (messageHandlers (clientData c))) c, w)) ->
  wp partial (set_handler_at i h) Q (c, w).
Proof.
  intros HQ. apply wp_bind, wp_client, wp_bind, wp_any_lift. intros hs Hhs. unfold astore in Hhs.
  cbn [fst] in Hhs. destruct (_ && _) eqn:E; [|done]. injection Hhs as <-. apply wp_assign, HQ. lia.
Qed.


(** What a subscription leaves behind: SUCCESS fills the first free entry, anything else nothing. *)
Definition subscribed (h : MessageHandlers) (c : AWS_IoT_Client) (rc : IoT_Error_t)
    (c' : AWS_IoT_Client) : Prop :=
  if decide (rc = SUCCESS) then
    in_buffer (MessageTypes_value SUBACK) c' /\
    exists i, first_free (messageHandlers (clientData c)) i /\
      messageHandlers (clientData c') = <[i := h]> (messageHandlers (clientData c))
  else messageHandlers (clientData c') = messageHandlers (clientData c).

Lemma subscribed_failed h c rc c' : rc <> SUCCESS -> same_table c c' -> subscribed h c rc c'.
Proof. intros Hrc [H _]. unfold subscribed. by destruct (decide _). Qed.

Lemma internal_subscribe_frame topic n q f d s :
  wp partial (_aws_iot_mqtt_internal_subscribe fuel topic n q f d) (fun rc s' =>
    state_of s'.1 = state_of s.1 /\ subscribed (mkMessageHandlers topic n q f d) s.1 rc s'.1) s.
Proof.
  destruct s as [c w]. unfold _aws_iot_mqtt_internal_subscribe.
  apply wp_bind, wp_client, wp_bind, wp_any_world. intros t w1.
  apply wp_bind, wp_next_id_frame. intros id. cbv zeta.
  apply wp_bind, wp_client, wp_bind, wp_any_lift. intros [[rc b] l] _.
  apply wp_bind, wp_store_tx_frame. intros b2. apply wp_bind, wp_any_lift. intros len _.
  apply wp_check; [intros; split; [done|by apply subscribed_failed]|]. intros _.
  apply wp_bind. unfold _aws_iot_mqtt_get_free_message_handler_index. apply wp_bind, wp_client, wp_lift.
  eapply owp_mono; [apply (free_index_first _ 0); intros; lia|]. intros j Hj. cbn [fst] in Hj.
  destruct (Z.leb_spec AWS_IOT_MQTT_NUM_SUBSCRIBE_HANDLERS j) as [|Hlt];
    [apply wp_ret; split; [done|by apply subscribed_failed]|].
  apply (exchange_frame _ _ _ c); [done|done| |].
  - intros rc2 s2 Hrc2 H2. split; [apply H2|by apply subscribed_failed].
  - intros [c2 w2] H2 Hb. apply wp_bind, wp_client, wp_bind, wp_any_lift. intros [[[rc3 x] y] z] _.
    apply wp_check; [intros; split; [apply H2|by apply subscribed_failed]|]. intros _.
    apply wp_bind, wp_set_handler_frame. intros _. apply wp_ret. split; [apply H2|]. split; [done|].
    exists (Z.to_nat j). cbn [fst]. destruct H2 as [H2 _]. cbn in H2 |- *. rewrite H2.
    split; [apply Hj; exact Hlt|done].
Qed.

Lemma subscribe_frame topic n q f d s :
  wp partial (aws_iot_mqtt_subscribe fuel pCLIENT topic n q f d) (fun rc s' =>
    state_of s'.1 = state_of s.1 /\ subscribed (mkMessageHandlers topic n q f d) s.1 rc s'.1) s.
Proof.
  destruct s as [c w]. unfold aws_iot_mqtt_subscribe.
  assert (Hfail : forall rc, rc <> SUCCESS -> wp partial (ret rc) (fun rc s' =>
    state_of s'.1 = state_of (c, w).1 /\
    subscribed (mkMessageHandlers topic n q f d) (c, w).1 rc s'.1) (c, w)).
  { intros rc Hrc. apply wp_ret. split; [done|by apply subscribed_failed]. }
  destruct topic as [tp|]; [|by apply Hfail]. destruct f as [f|]; [|by apply Hfail].
  apply wp_bind, wp_client. destruct (negb _); [by apply Hfail|]. apply wp_bind, wp_client.
  destruct (_ && _); [by apply Hfail|]. apply wp_bind, wp_cas; [|done]. intros _.
  apply wp_check; [done|]. intros _. apply wp_bind.
  eapply wp_mono; [apply internal_subscribe_frame|]. intros rc [c2 w2] [Hst Hsub]. cbn [fst] in Hst, Hsub.
  apply wp_bind, wp_cas; [|by rewrite Hst]. intros _. rewrite (bool_decide_eq_false_2 (SUCCESS <> SUCCESS)) by auto.
  rewrite andb_false_r. by apply wp_ret.
Qed.

(** *** Unsubscribing *)

(** Every entry registered for the filter loses its topic name. *)
Definition unregister (filter : bytes) (h : MessageHandlers) : MessageHandlers :=
  match handler_for h filter with
  | Done true => set_topicName None h
  | _ => h
  end.

Lemma clear_matching_loop filter n : forall pre post c (w : W),
  length post = n -> messageHandlers (clientData c) = pre ++ post ->
  wp partial (mfor n (zlen pre) (fun i _ =>
    do! h := handler_at i in
    do! same := lift (handler_for h filter) in
    if (same : bool) then set_handler_at i (set_topicName None h) else ret tt) tt)
    (fun _ s' => s' = (set_messageHandlers (pre ++ map (unregister filter) post) c, w)) (c, w).
Proof.
  induction n as [|n IH]; intros pre post c w Hn Hc; destruct post as [|h post]; try done; cbn [mfor].
  { apply wp_ret. f_equal. cbn [map]. rewrite <- Hc. by destruct c as [? ? ? [] ?]. }
  injection Hn as Hn. apply wp_bind. unfold handler_at. apply wp_bind, wp_bind, wp_client, wp_lift.
  cbn [fst]. unfold aload. rewrite Hc. pose proof (zlen_nonneg pre) as Hp. destruct (Z.leb_spec 0 (zlen pre)); [|lia].
  rewrite zlen_to_nat, list_lookup_middle by done. cbn [deref owp].
  apply wp_bind, wp_any_lift. intros same Hs.
  assert (Hu : unregister filter h = if same then set_topicName None h else h)
    by (unfold unregister; by rewrite Hs).
  assert (Hnext : forall c', c' = set_messageHandlers (pre ++ unregister filter h :: post) c ->
    wp partial (mfor n (zlen pre + 1) (fun i _ =>
      do! h := handler_at i in
      do! same := lift (handler_for h filter) in
      if (same : bool) then set_handler_at i (set_topicName None h) else ret tt) tt)
      (fun _ s' => s' = (set_messageHandlers (pre ++ map (unregister filter) (h :: post)) c, w)) (c', w)).
  { intros c' ->. replace (zlen pre + 1) with (zlen (pre ++ [unregister filter h])) by zlia.
    eapply wp_mono; [apply (IH (pre ++ [unregister filter h]) post); [done|]|].
    - cbn. by rewrite <- app_assoc.
    - intros [] s' ->. cbn [map]. by rewrite <- app_assoc. }
  destruct same.
  - apply wp_set_handler_frame. intros _. rewrite Hc, zlen_to_nat, insert_app_r_alt, Nat.sub_diag by lia.
    apply Hnext. by rewrite Hu.
  - apply wp_ret, Hnext. rewrite Hu, <- Hc. by destruct c as [? ? ? [] ?].
Qed.


Definition unsubscribed (filter : bytes) (c : AWS_IoT_Client) (rc : IoT_Error_t)
    (c' : AWS_IoT_Client) : Prop :=
  if decide (rc = SUCCESS) then
    in_buffer (MessageTypes_value UNSUBACK) c' /\
    messageHandlers (clientData c') = map (unregister filter) (messageHandlers (clientData c))
  else messageHandlers (clientData c') = messageHandlers (clientData c).

Lemma unsubscribed_failed f c rc c' : rc <> SUCCESS -> same_table c c' -> unsubscribed f c rc c'.
Proof. intros Hrc [H _]. unfold unsubscribed. by destruct (decide _). Qed.

Lemma internal_unsubscribe_frame filter n c w :
  length (messageHandlers (clientData c)) = 100%nat ->
  wp partial (_aws_iot_mqtt_internal_unsubscribe fuel filter n) (fun rc s' =>
    state_of s'.1 = state_of c /\ unsubscribed filter c rc s'.1) (c, w).
Proof.
  intros Hl. unfold _aws_iot_mqtt_internal_unsubscribe. apply wp_bind.
  apply (wp_mfor partial (fun _ _ s' => s' = (c, w))); [done| |].
  { intros j b s _ ->. apply wp_bind, wp_bind, wp_client, wp_any_lift. intros h _.
    apply wp_bind, wp_any_lift. intros same _. by apply wp_ret. }
  intros b s ->. destruct (eqb false b); [apply wp_ret; split; [done|by apply unsubscribed_failed]|].
  apply wp_bind, wp_client, wp_bind, wp_any_world. intros t w1. apply wp_bind, wp_next_id_frame. intros id.
  apply wp_bind, wp_client, wp_bind, wp_any_lift. intros [[rc buf] len] _. apply wp_bind, wp_assign.
  apply wp_check; [intros; split; [done|by apply unsubscribed_failed]|]. intros _.
  apply (exchange_frame _ _ _ c); [done|done| |].
  - intros rc2 s2 Hrc2 H2. split; [apply H2|by apply unsubscribed_failed].
  - intros [c2 w2] H2 Hb. apply wp_bind, wp_client, wp_bind, wp_any_lift. intros [rc3 x] _.
    apply wp_check; [intros; split; [apply H2|by apply unsubscribed_failed]|]. intros _. apply wp_bind.
    destruct H2 as [Hh Hst]. cbn [fst] in Hh, Hst.
    eapply wp_mono; [apply (clear_matching_loop filter 100 [] (messageHandlers (clientData c)) c2 w2);
      [done|by rewrite Hh]|].
    intros ? ? ->. apply wp_ret. split; [done|]. by split.
Qed.

Lemma unsubscribe_frame filter n c w :
  length (messageHandlers (clientData c)) = 100%nat ->
  wp partial (aws_iot_mqtt_unsubscribe fuel pCLIENT (Some filter) n) (fun rc s' =>
    state_of s'.1 = state_of c /\ unsubscribed filter c rc s'.1) (c, w).
Proof.
  intros Hl. unfold aws_iot_mqtt_unsubscribe.
  assert (Hfail : forall rc, rc <> SUCCESS -> wp partial (ret rc) (fun rc s' =>
    state_of s'.1 = state_of c /\ unsubscribed filter c rc s'.1) (c, w)).
  { intros rc Hrc. apply wp_ret. split; [done|by apply unsubscribed_failed]. }
  apply wp_bind, wp_client. destruct (negb _); [by apply Hfail|]. apply wp_bind, wp_client.
  destruct (_ && _); [by apply Hfail|]. apply wp_bind, wp_cas; [|done]. intros _.
  destruct (decide (SUCCESS <> SUCCESS)) as [|_]; [done|]. apply wp_bind.
  eapply wp_mono; [by apply internal_unsubscribe_frame|]. intros rc [c2 w2] [Hst Hsub]. cbn [fst] in Hst, Hsub.
  apply wp_bind, wp_cas; [|by rewrite Hst]. intros _. rewrite (bool_decide_eq_false_2 (SUCCESS <> SUCCESS)) by auto.
  rewrite andb_false_r. by apply wp_ret.
Qed.

(** *** Connecting *)

Lemma write_len_advances m p n :
  owp partial (aws_iot_mqtt_internal_write_len_to_buffer m p n) (fun '(k, _) => 0 < k).
Proof.
  apply (owp_oloop partial (fun '(k, _, _) => 0 <= k) (fun _ => O)); [lia| |done].
  intros [[k len] m2] Hk. cbv zeta. apply owp_bind, owp_partial_intro. intros m3 _.
  by destruct (0 <? len / 128); simpl; lia.
Qed.

Lemma write_char_advances m p b :
  owp partial (aws_iot_mqtt_internal_write_char m p b) (fun '(_, q) => p < q).
Proof. apply owp_bind, owp_partial_intro. intros m2 _. simpl. lia. Qed.

Lemma write_uint_16_advances m p n :
  owp partial (aws_iot_mqtt_internal_write_uint_16 m p n) (fun '(_, q) => p < q).
Proof. do 2 (apply owp_bind, owp_partial_intro; intros ? _). simpl. lia. Qed.

Lemma write_utf8_string_advances m p s n :
  owp partial (aws_iot_mqtt_internal_write_utf8_string m p s n) (fun '(_, q) => p < q).
Proof.
  apply owp_bind. eapply owp_mono; [apply write_uint_16_advances|]. intros [m2 q] Hq.
  destruct (Z.ltb_spec 0 n); [|done]. apply owp_bind, owp_partial_intro. intros m3 _. simpl. lia.
Qed.

Lemma serialize_connect_nonempty m n p old :
  owp partial (_aws_iot_mqtt_serialize_connect (Some m) n (Some p) (Some old))
    (fun '(rc, _, len) => rc = SUCCESS -> match len with Some l => 0 < l | None => False end).
Proof.
  assert (Hif : forall (b : bool) (o : outcome (bytes * Z)) m p, owp partial o (fun '(_, q) => p < q) ->
    owp partial (if b then o else Done (m, p)) (fun '(_, q) => p <= q)).
  { intros b o m1 p1 Ho. destruct b; [|simpl; lia]. eapply owp_mono; [exact Ho|]. intros [m2 q]. lia. }
  unfold _aws_iot_mqtt_serialize_connect. destruct (match pClientID p with None => _ | _ => _ end); [done|].
  destruct (negb _); [done|]. cbv zeta. destruct (_ <? _); [done|].
  destruct (aws_iot_mqtt_internal_init_header _ _ _ _ _) as [rc header].
  destruct (decide (rc <> SUCCESS)) as [|_]; [simpl; congruence|]. apply owp_bind, owp_partial_intro. intros h _.
  apply owp_bind. eapply owp_mono; [apply write_char_advances|]. intros [m1 p1] H1.
  apply owp_bind. eapply owp_mono; [apply write_len_advances|]. intros [k m2] H2.
  apply owp_bind. eapply owp_mono; [apply write_utf8_string_advances|]. intros [m3 p3] H3.
  apply owp_bind. eapply owp_mono; [apply write_char_advances|]. intros [m4 p4] H4.
  apply owp_bind. eapply owp_mono; [apply write_char_advances|]. intros [m5 p5] H5.
  apply owp_bind. eapply owp_mono; [apply write_uint_16_advances|]. intros [m6 p6] H6.
  apply owp_bind. apply (owp_mono partial _ (fun '(_, q) => p6 < q)).
  { destruct (pClientID p); [apply write_utf8_string_advances|apply write_uint_16_advances]. }
  intros [m7 p7] H7. apply owp_bind. apply (owp_mono partial _ (fun '(_, q) => p7 <= q)).
  { apply Hif, owp_bind. eapply owp_mono; [apply write_utf8_string_advances|]. intros [m8 p8] H8.
    eapply owp_mono; [apply write_utf8_string_advances|]. intros [m9 p9]. lia. }
  intros [m8 p8] H8. apply owp_bind. eapply owp_mono; [apply Hif, write_utf8_string_advances|].
  intros [m9 p9] H9. apply owp_bind. eapply owp_mono; [apply Hif, write_utf8_string_advances|].
  intros [m10 p10] H10. simpl. lia.
Qed.


(** The packet in the receive buffer is a CONNACK that accepts the connection. *)
Definition accepted (c : AWS_IoT_Client) : Prop :=
  in_buffer (MessageTypes_value CONNACK) c /\
  exists sp, _aws_iot_mqtt_deserialize_connack (Some 0) (Some FAILURE) (Some (readBuf (clientData c)))
    (readBufSize (clientData c)) = Done (SUCCESS, sp, Some MQTT_CONNACK_CONNECTION_ACCEPTED).

Lemma deserialize_connack_code m n sp r sp' code :
  _aws_iot_mqtt_deserialize_connack (Some sp) (Some FAILURE) (Some m) n = Done (r, sp', code) ->
  code <> Some SUCCESS.
Proof.
  intros E. apply (owp_inv partial _ (fun '(_, _, code) => code <> Some SUCCESS) _ ) in E; [done|].
  unfold _aws_iot_mqtt_deserialize_connack. destruct (n <? 4); [done|]. cbv zeta.
  apply owp_bind, owp_partial_intro. intros [h p] _. destruct (negb _); [done|].
  apply owp_bind, owp_partial_intro. intros [[rc l] k] _. destruct (decide _); [done|].
  destruct (negb _); [done|]. apply owp_bind, owp_partial_intro. intros [f p2] _.
  apply owp_bind, owp_partial_intro. intros [code2 p3] _. simpl.
  unfold connack_code. by repeat case_match.
Qed.

Lemma network_connect_frame s :
  wp partial network_connect (fun _ s' => same_table s.1 s'.1) s.
Proof.
  destruct s as [c w]. apply wp_bind, wp_client, wp_bind, wp_any_world. intros [rc n] w1.
  by apply wp_bind, wp_assign, wp_ret.
Qed.

Lemma internal_connect_frame p s :
  wp partial (_aws_iot_mqtt_internal_connect fuel p) (fun rc s' =>
    same_table s.1 s'.1 /\ (rc = SUCCESS -> accepted s'.1 /\ isPingOutstanding (clientStatus s'.1) = false)) s.
Proof.
  destruct s as [c w]. unfold _aws_iot_mqtt_internal_connect. apply wp_bind.
  apply (wp_mono partial _ (fun rc s' => rc = SUCCESS /\ same_table c s'.1)).
  { destruct p as [p|]; [|by apply wp_ret]. by apply wp_bind, wp_assign, wp_ret. }
  intros rc s1 [-> H1]. destruct (decide (SUCCESS <> SUCCESS)) as [|_]; [done|]. apply wp_bind.
  eapply wp_mono; [apply network_connect_frame|]. intros rc [c2 w2] H2.
  assert (T2 : same_table c c2) by (etrans; [exact H1|exact H2]). clear H1 H2.
  apply wp_check; [done|]. intros _. apply wp_bind, wp_client, wp_bind, wp_any_world. intros t w3.
  apply wp_bind, wp_client, wp_bind, wp_assign, wp_bind, wp_any_lift. intros [[rc2 b] len] Hser.
  apply wp_bind, wp_store_tx_frame. intros b2. apply wp_bind, wp_any_lift. intros l Hl.
  destruct (bool_decide_reflect (rc2 <> SUCCESS)) as [Hrc2|Hrc2]; cbn [orb]; [by apply wp_ret|].
  destruct (Z.leb_spec l 0) as [Hl0|_].
  { exfalso. apply (owp_inv partial _ _ _ (serialize_connect_nonempty _ _ _ _)) in Hser.
    destruct len as [l'|]; [|done]. injection Hl as ->. destruct (decide (rc2 = SUCCESS)); [|done].
    specialize (Hser ltac:(done)). lia. }
  apply (exchange_frame _ _ _ c); [done|done| |]; [by intros rc3 s3 ? ?|].
  intros [c4 w4] T4 Hb. apply wp_bind, wp_client, wp_bind, wp_any_lift. intros [[rc4 sp] code] Hd.
  apply wp_check; [done|]. intros ->. apply wp_bind, wp_any_lift. intros code' Hc.
  destruct code as [code|]; [|done]. injection Hc as ->.
  destruct (decide (MQTT_CONNACK_CONNECTION_ACCEPTED <> code')) as [|Ha].
  { apply wp_ret. split; [done|]. intros ->. by apply deserialize_connack_code in Hd. }
  destruct (decide (MQTT_CONNACK_CONNECTION_ACCEPTED = code')) as [<-|]; [|done].
  apply wp_bind, wp_assign, wp_bind, wp_client, wp_bind, wp_any_world. intros t2 w5.
  apply wp_bind, wp_assign, wp_ret. split; [exact T4|]. intros _. split; [|done]. split; [exact Hb|]. by exists sp.
Qed.

(** What a connection attempt leaves behind. *)
Definition connection_result (c : AWS_IoT_Client) (rc : IoT_Error_t) (c' : AWS_IoT_Client) : Prop :=
  messageHandlers (clientData c') = messageHandlers (clientData c) /\
  if decide (rc = SUCCESS) then
    state_of c' = CLIENT_STATE_CONNECTED_IDLE /\ accepted c' /\ isPingOutstanding (clientStatus c') = false
  else state_of c' = CLIENT_STATE_DISCONNECTED_ERROR.

(** The states a client can connect from. *)
Definition may_connect (st : ClientState) : bool :=
  bool_decide (st ∈ [CLIENT_STATE_INITIALIZED; CLIENT_STATE_DISCONNECTED_ERROR;
                     CLIENT_STATE_DISCONNECTED_MANUALLY; CLIENT_STATE_PENDING_RECONNECT]).

Lemma may_connect_iff st : may_connect st = _aws_iot_mqtt_is_client_state_valid_for_connect st.
Proof. by destruct st. Qed.

Lemma connect_frame p c w :
  _aws_iot_mqtt_is_client_state_valid_for_connect (state_of c) = true ->
  wp partial (aws_iot_mqtt_connect fuel pCLIENT p) (fun rc s' => connection_result c rc s'.1) (c, w).
Proof.
  intros Hv. unfold aws_iot_mqtt_connect. apply wp_bind, wp_client. cbn [fst]. rewrite Hv. cbn [eqb].
  apply wp_bind, wp_cas; [|done]. intros _. apply wp_bind. eapply wp_mono; [apply internal_connect_frame|].
  intros rc [c2 w2] [[Hh Hs] Hok]. cbn [fst] in *. apply wp_bind.
  destruct (decide (SUCCESS <> rc)) as [Hrc|Hrc].
  - apply wp_bind, wp_bind, wp_client, wp_any_world. intros r3 w3.
    apply wp_bind, wp_bind, wp_client, wp_any_world. intros r4 w4. apply wp_cas; [|by rewrite Hs].
    intros _. apply wp_ret. split; [exact Hh|]. by destruct (decide (rc = SUCCESS)).
  - destruct (decide (rc = SUCCESS)) as [->|]; [|by exfalso; apply Hrc]. apply wp_cas; [|by rewrite Hs].
    intros _. apply wp_ret. split; [exact Hh|]. destruct (Hok ltac:(done)) as [? ?]. by split.
Qed.

End frame.

(** *** Keeping the connection alive *)

Section keep_alive.
Context {W : Type} {clock : Clock W} {net : NetworkOps W} {mutexes : MutexOps W} {app : AppOps W}.
Context {laws : EnvLaws W} (fuel : nat).

(** The connection has been given up. *)
Definition gave_up (rc : IoT_Error_t) (c' : AWS_IoT_Client) : Prop :=
  rc = NETWORK_DISCONNECTED_ERROR /\ state_of c' = CLIENT_STATE_DISCONNECTED_ERROR.

(** The client with a PINGREQ packet serialised into its transmit buffer. *)
Definition with_pingreq (c : AWS_IoT_Client) : AWS_IoT_Client :=
  set_writeBuf (written (writeBuf (clientData c)) [192; 0]) c.

(** From the state (c, w) the PINGREQ packet is handed to [send_packet], with a timer armed with the
    command time-out.  When that call reports success the ping is outstanding and the ping timer runs
    for one keep-alive interval from then on; when it does not, the connection is given up. *)
Definition ping_attempt (c : AWS_IoT_Client) (w : W) (rc : IoT_Error_t) (s' : St W) : Prop :=
  let w1 := (gettimeofday w).2 in
  exists t rc1 w2,
    expiry t = now w1 + commandTimeoutMs (clientData c) * 1000 /\
    aws_iot_mqtt_internal_send_packet fuel pCLIENT 2 (Some t) (with_pingreq c, w1) =
      Done (rc1, (with_pingreq c, w2)) /\
    if decide (rc1 = SUCCESS) then
      rc = SUCCESS /\
      exists t', expiry t' = now s'.2 + keepAliveInterval (clientData c) * 1000000 /\
        s' = (set_pingTimer t' (set_isPingOutstanding true (with_pingreq c)), (gettimeofday w2).2)
    else gave_up rc s'.1.

Definition keep_alive_result (s : St W) (rc : IoT_Error_t) (s' : St W) : Prop :=
  let (c, w) := s in
  if keepAliveInterval (clientData c) =? 0 then rc = SUCCESS /\ s' = s
  else
    let w1 := (gettimeofday w).2 in
    if now w1 <? expiry (pingTimer c) then rc = SUCCESS /\ s' = (c, w1)
    else if isPingOutstanding (clientStatus c) then gave_up rc s'.1
    else if writeBufSize (clientData c) <? 4 then
      rc = MQTT_TX_BUFFER_TOO_SHORT_ERROR /\ s'.1 = c
    else ping_attempt c w1 rc s'.

Lemma wp_expired_at t (Q : bool -> St W -> Prop) c w :
  normal (end_time t) ->
  Q (expiry t <=? now (gettimeofday w).2) (c, (gettimeofday w).2) ->
  wp total (world (has_timer_expired t)) Q (c, w).
Proof.
  intros Ht HQ. apply wp_world, wp_has_timer_expired; [done|].
  pose proof (law_clock W w) as (_ & Hm & _). by rewrite Hm.
Qed.

(** A run that ends can be named. *)
Lemma wp_run {S A} md (m : M S A) (Q : A -> S -> Prop) s :
  wp md m Q s -> wp md m (fun a s' => m s = Done (a, s') /\ Q a s') s.
Proof. unfold wp. by destruct (m s) as [[a s']| |]. Qed.

Lemma set_writeBuf_same c : set_writeBuf (writeBuf (clientData c)) c = c.
Proof. by destruct c as [? ? ? [] ?]. Qed.

(** What follows once the packet is in the transmit buffer and the timer [t] runs. *)
Lemma ping_attempt_spec s t c w :
  thread_support = false -> enough fuel s -> timer_ok fuel t (gettimeofday w).2 ->
  steady s (with_pingreq c, (gettimeofday w).2) ->
  expiry t = now (gettimeofday w).2 + commandTimeoutMs (clientData c) * 1000 ->
  wp total (
    do! rc := aws_iot_mqtt_internal_send_packet fuel pCLIENT 2 (Some t) in
    if decide (SUCCESS <> rc) then _aws_iot_mqtt_handle_disconnect fuel
    else
      run! assign (set_isPingOutstanding true) in
      do! c := client id in
      do! t := world (countdown_sec (pingTimer c) (keepAliveInterval (clientData c))) in
      run! assign (set_pingTimer t) in
      ret SUCCESS) (ping_attempt c w) (with_pingreq c, (gettimeofday w).2).
Proof.
  intros Hth He Ht S Hx. pose proof (enough_steady fuel _ _ He S) as He1.
  pose proof (send_packet_steady fuel 2 t _ He1 Ht) as H1.
  apply wp_bind. eapply wp_mono; [apply wp_run, wp_total_partial; [exact H1|apply send_packet_frame; exact Hth]|].
  cbn beta.
  intros rc [c3 w3] (Hrun & [H3 _] & Hc3). cbn [fst] in Hc3. subst c3.
  destruct (decide (SUCCESS <> rc)) as [Hrc|Hrc].
  - eapply wp_mono; [apply handle_disconnect_near; by eapply enough_near, evolves_near, steady_evolves, H3|].
    intros rc' s4 (_ & -> & H4). exists t, rc, w3. repeat split; [done|done|].
    rewrite decide_False by (intros ->; by apply Hrc). by split.
  - apply wp_bind, wp_assign, wp_bind, wp_client, wp_bind, wp_world, wp_countdown_sec.
    intros t' Hnt' Ht'. apply wp_bind, wp_assign, wp_ret. exists t, rc, w3. repeat split; [done|done|].
    destruct (decide (rc = SUCCESS)) as [_|Hrc']; [|by destruct Hrc; intros ?; apply Hrc'].
    split; [done|]. exists t'. split; [|done].
    destruct (law_clock W w3) as (_ & Hm3 & _). rewrite Hm3 in Ht'. exact Ht'.
Qed.

Lemma keep_alive_spec s :
  thread_support = false -> enough fuel s -> normal (end_time (pingTimer s.1)) ->
  writeBufSize (clientData s.1) <= zlen (writeBuf (clientData s.1)) ->
  wp total (_aws_iot_mqtt_keep_alive fuel pCLIENT) (keep_alive_result s) s.
Proof.
  intros Hth He Hpt Hbuf. destruct s as [c w]. unfold _aws_iot_mqtt_keep_alive, keep_alive_result.
  cbn [fst snd] in *. apply wp_bind, wp_client. cbn [fst]. unfold id. rewrite (Z.eqb_sym 0).
  destruct (_ =? 0); [by apply wp_ret|]. apply wp_bind, wp_expired_at; [done|].
  pose proof (law_clock W w) as (_ & _ & Hlt & Hi). set (w1 := (gettimeofday w).2) in *.
  destruct (Z.leb_spec (expiry (pingTimer c)) (now w1)); destruct (Z.ltb_spec (now w1) (expiry (pingTimer c)));
    cbn [negb]; [lia| |by apply wp_ret|lia].
  assert (S1 : steady (c, w) (c, w1)) by (apply steady_world; unfold world_le; lia).
  destruct (isPingOutstanding _).
  { eapply wp_mono; [apply handle_disconnect_near; by eapply enough_near, evolves_near, steady_evolves, S1|].
    intros rc s3 (_ & -> & H3). by split. }
  cbv zeta. apply wp_bind, wp_world, wp_countdown_ms. intros t Hnt Hx.
  pose proof (law_clock W w1) as (_ & Hm2 & Hlt2 & Hi2). rewrite Hm2 in Hx.
  pose proof (command_timer_ok fuel (c, w) c _ t He ltac:(reflexivity) Hnt Hx) as Ht.
  apply wp_bind, wp_lift. rewrite serialize_zero_spec by done.
  destruct (Z.ltb_spec (writeBufSize (clientData c)) 4).
  { cbn [owp]. apply wp_bind. eapply wp_store_tx; [done|]. apply wp_bind, wp_lift. cbn [deref owp].
    apply wp_check; [|done]. intros _. split; [done|]. apply set_writeBuf_same. }
  cbn [owp]. change (mqtt_packet (mqtt_header PINGREQ 0 0 0) []) with [192; 0].
  apply wp_bind. eapply wp_store_tx; [done|].
  apply wp_bind, wp_lift. cbn [deref owp]. apply wp_check; [done|]. intros _.
  apply (ping_attempt_spec (c, w)); [done|done|done| |done].
  etrans; [exact S1|]. etrans; [apply steady_world; unfold world_le; split; [|by rewrite Hi2]; lia|].
  apply steady_writeBuf.
Qed.
End keep_alive.

(** *** Reconnecting *)

Section reconnect.
Context {W : Type} {clock : Clock W} {net : NetworkOps W} {mutexes : MutexOps W} {app : AppOps W}.
Context {claws : ClockLaws W} (fuel : nat).

(** The physical layer is down: [isConnected] says so, or is not there to be asked. *)
Definition link_down : Prop :=
  match net_isConnected with
  | Some f => forall n w, exists w', f n w = Done (NETWORK_PHYSICAL_LAYER_DISCONNECTED, w')
  | None => True
  end.

Definition reconnect_result (s : St W) (step : yield_step) (s' : St W) : Prop :=
  let (c, w) := s in
  let wait := currentReconnectWaitInterval (clientData c) in
  let time := micros (gettimeofday w).1 in
  if AWS_IOT_MQTT_MAX_RECONNECT_WAIT_INTERVAL <? wait
  then step = yLEAVE NETWORK_RECONNECT_TIMED_OUT_ERROR /\ s' = s
  else if time <? expiry (reconnectDelayTimer c)
  then step = yCONTINUE NETWORK_ATTEMPTING_RECONNECT /\ s' = (c, (gettimeofday w).2)
  else
    currentReconnectWaitInterval (clientData s'.1) = 2 * wait /\ state_of s'.1 = state_of c /\
    if AWS_IOT_MQTT_MAX_RECONNECT_WAIT_INTERVAL <? 2 * wait
    then step = yCONTINUE NETWORK_RECONNECT_TIMED_OUT_ERROR
    else step = yCONTINUE NETWORK_PHYSICAL_LAYER_DISCONNECTED /\
      exists w1, expiry (reconnectDelayTimer s'.1) = micros (gettimeofday w1).1 + 2 * wait * 1000.

Lemma back_off_spec rc (c : AWS_IoT_Client) (w : W) :
  let wait := currentReconnectWaitInterval (clientData c) in
  0 <= wait <= AWS_IOT_MQTT_MAX_RECONNECT_WAIT_INTERVAL ->
  wp exact (back_off rc) (fun rc' s' =>
    currentReconnectWaitInterval (clientData s'.1) = 2 * wait /\ state_of s'.1 = state_of c /\
    if AWS_IOT_MQTT_MAX_RECONNECT_WAIT_INTERVAL <? 2 * wait then rc' = NETWORK_RECONNECT_TIMED_OUT_ERROR
    else rc' = rc /\
      exists w1, expiry (reconnectDelayTimer s'.1) = micros (gettimeofday w1).1 + 2 * wait * 1000) (c, w).
Proof.
  intros wait Hw. change AWS_IOT_MQTT_MAX_RECONNECT_WAIT_INTERVAL with 128000 in *. unfold back_off.
  assert (E : u32 (wait * 2) = 2 * wait) by (rewrite u32_id; lia).
  apply wp_bind, wp_assign, wp_bind, wp_client. unfold id. cbn [fst].
  change (currentReconnectWaitInterval (clientData (set_currentReconnectWaitInterval
    (u32 (currentReconnectWaitInterval (clientData c) * 2)) c))) with (u32 (wait * 2)). rewrite E.
  destruct (_ <? _); [by apply wp_ret|]. apply wp_bind, wp_world, wp_countdown_ms.
  intros t _ Ht. apply wp_bind, wp_assign, wp_ret. split; [exact E|]. split; [done|]. split; [done|]. by exists w.
Qed.

Lemma reconnect_spec t s :
  link_down -> state_of s.1 = CLIENT_STATE_PENDING_RECONNECT ->
  normal (end_time (reconnectDelayTimer s.1)) ->
  0 <= currentReconnectWaitInterval (clientData s.1) ->
  wp exact (yield_round fuel t) (reconnect_result s) s.
Proof.
  intros Hdown Hst Hn Hw. destruct s as [c w]. cbn [fst] in *. unfold yield_round, reconnect_result.
  apply wp_bind, wp_client. cbn [fst]. rewrite Hst.
  destruct (decide (CLIENT_STATE_PENDING_RECONNECT = CLIENT_STATE_PENDING_RECONNECT)) as [_|]; [|done].
  apply wp_bind, wp_client. cbn [fst].
  destruct (Z.ltb_spec AWS_IOT_MQTT_MAX_RECONNECT_WAIT_INTERVAL (currentReconnectWaitInterval (clientData c)));
    [by apply wp_ret|].
  apply wp_bind. unfold _aws_iot_mqtt_handle_reconnect. apply wp_bind, wp_client, wp_bind, wp_world.
  apply wp_has_timer_expired; [done|]. unfold id. cbn [fst]. rewrite Z.leb_antisym.
  destruct (micros (gettimeofday w).1 <? _); cbn [negb]; [by apply wp_ret, wp_ret|]. apply wp_bind.
  set (w1 := (gettimeofday w).2).
  assert (Hq : wp exact (match net_isConnected with
    | Some isConnected => do! n := client networkStack in world (isConnected n)
    | None => ret NETWORK_PHYSICAL_LAYER_DISCONNECTED end)
    (fun rc s' => rc = NETWORK_PHYSICAL_LAYER_DISCONNECTED /\ s'.1 = c) (c, w1)).
  { unfold link_down in Hdown. destruct net_isConnected as [f|]; [|by apply wp_ret].
    apply wp_bind, wp_client, wp_world. unfold wp. cbn [fst].
    by destruct (Hdown (networkStack c) w1) as [w2 ->]. }
  eapply wp_mono; [exact Hq|]. intros rc [c2 w2] [-> E]. cbn [fst] in E. subst c2.
  destruct (decide (NETWORK_PHYSICAL_LAYER_CONNECTED = NETWORK_PHYSICAL_LAYER_DISCONNECTED)) as [|_]; [done|].
  eapply wp_mono; [apply back_off_spec; lia|]. intros rc s3 (H1 & H2 & H3). apply wp_ret.
  split; [exact H1|]. split; [by rewrite H2|]. destruct (_ <? 2 * _); [by rewrite H3|].
  by destruct H3 as [-> H3].
Qed.
End reconnect.

(** ** Properties *)

Section properties.
Context {W : Type} {clock : Clock W} {net : NetworkOps W} {mutexes : MutexOps W} {app : AppOps W}.
Context {laws : EnvLaws W} (fuel : nat).

(** C4: connecting, in a build without threads and with message callbacks that leave the client alone
    ([PassiveApp]), returns, and its code tells what happened.  From a state other than INITIALIZED,
    DISCONNECTED_ERROR, DISCONNECTED_MANUALLY and PENDING_RECONNECT it reports
    NETWORK_ALREADY_CONNECTED_ERROR and neither the client nor the world has changed.  From these four,
    SUCCESS: the packet in the receive buffer is a CONNACK
    whose return code accepts the connection, the client is in CONNECTED_IDLE and no ping is
    outstanding; any other code: the client is in DISCONNECTED_ERROR.  The table of subscriptions is not
    touched in any of these cases. *)
Theorem connect_outcome {passive : PassiveApp} (params : option IoT_Client_Connect_Params)
    (c : AWS_IoT_Client) (w : W) :
  thread_support = false -> enough fuel (c, w) ->
  wp total (aws_iot_mqtt_connect fuel pCLIENT params) (fun rc s' =>
    if may_connect (state_of c) then connection_result c rc s'.1
    else rc = NETWORK_ALREADY_CONNECTED_ERROR /\ s' = (c, w)) (c, w).
Proof.
  intros Hth He. rewrite may_connect_iff.
  destruct (_aws_iot_mqtt_is_client_state_valid_for_connect _) eqn:Hv.
  2: { unfold aws_iot_mqtt_connect. apply wp_bind, wp_client. cbn [fst]. rewrite Hv. by apply wp_ret. }
  eapply wp_mono.
  { apply wp_total_partial; [by apply connect_evolves|by apply connect_frame]. }
  by intros rc s' [_ H].
Qed.

(** C5: subscribing returns, leaves the client in the state it was in, and its code tells what happened
    to the table of subscriptions.  SUCCESS: a SUBACK is in the receive buffer and the first free entry
    (and no other) now holds the filter, its length, the quality of service, the callback and its data.
    Any other code: the table is as before. *)
Theorem subscribe_outcome {passive : PassiveApp} (topic : option bytes) (n : Z) (qos : QoS)
    (f : option fnptr) (d : voidptr) (c : AWS_IoT_Client) (w : W) :
  thread_support = false -> enough fuel (c, w) ->
  wp total (aws_iot_mqtt_subscribe fuel pCLIENT topic n qos f d) (fun rc s' =>
    state_of s'.1 = state_of c /\ subscribed (mkMessageHandlers topic n qos f d) c rc s'.1) (c, w).
Proof.
  intros Hth He. eapply wp_mono.
  { apply wp_total_partial; [by apply subscribe_evolves|by apply subscribe_frame]. }
  by intros rc s' [_ H].
Qed.

(** C12: unsubscribing returns, leaves the client in the state it was in, and its code tells what
    happened to the table of subscriptions.  SUCCESS: an UNSUBACK is in the receive buffer and exactly
    the entries registered for the filter are free.  Any other code: the table is as before. *)
Theorem unsubscribe_outcome {passive : PassiveApp} (filter : bytes) (n : Z)
    (c : AWS_IoT_Client) (w : W) :
  thread_support = false -> enough fuel (c, w) -> length (messageHandlers (clientData c)) = 100%nat ->
  wp total (aws_iot_mqtt_unsubscribe fuel pCLIENT (Some filter) n) (fun rc s' =>
    state_of s'.1 = state_of c /\ unsubscribed filter c rc s'.1) (c, w).
Proof.
  intros Hth He Hl. eapply wp_mono.
  { apply wp_total_partial; [by apply unsubscribe_evolves|by apply unsubscribe_frame]. }
  by intros rc s' [_ H].
Qed.

(** C13: the keep-alive logic.  Without a keep-alive interval nothing happens; before the ping timer
    expires nothing but a look at the clock happens; when it expires while the answer to a ping is
    still outstanding the connection is given up (DISCONNECTED_ERROR).  Otherwise, when the transmit
    buffer has fewer than 4 bytes that is the code and the client is unchanged; else the two bytes of a
    PINGREQ are put into it and handed to [send_packet] with a timer armed with the command time-out:
    when that call reports SUCCESS the ping is marked outstanding and the ping timer set to one interval
    from then; when it reports anything else the connection is given up.  All this in a build without
    threads, with a normalised ping timer and a transmit buffer of at least the size recorded for it. *)
Theorem keep_alive_behaviour (s : St W) :
  thread_support = false -> enough fuel s -> normal (end_time (pingTimer s.1)) ->
  writeBufSize (clientData s.1) <= zlen (writeBuf (clientData s.1)) ->
  wp total (_aws_iot_mqtt_keep_alive fuel pCLIENT) (keep_alive_result fuel s) s.
Proof. apply keep_alive_spec. Qed.

End properties.

(** C14: reconnecting backs off.  While the physical layer is down, a round of yielding in state
    PENDING_RECONNECT only reads the clock until the delay has passed, then doubles the delay and waits
    for that long; when the doubled delay exceeds 128 s the round reports that reconnecting has timed
    out, and every later round leaves the loop at once with that code and does nothing. *)
Theorem reconnect_back_off {W : Type} {clock : Clock W} {net : NetworkOps W} {mutexes : MutexOps W}
    {app : AppOps W} {claws : ClockLaws W} (fuel : nat) (t : Timer) (s : St W) :
  link_down -> state_of s.1 = CLIENT_STATE_PENDING_RECONNECT ->
  normal (end_time (reconnectDelayTimer s.1)) ->
  0 <= currentReconnectWaitInterval (clientData s.1) ->
  wp exact (yield_round fuel t) (reconnect_result s) s.
Proof. apply reconnect_spec. Qed.

(** A connected client with two subscriptions and its keep-alive timer running. *)
Definition idle_ab : AWS_IoT_Client :=
  set_keepAliveInterval 5 (sim_client CLIENT_STATE_CONNECTED_IDLE sub_ab).

Lemma idle_ab_enough bs : (length bs + 2 <= 3000)%nat -> enough 3000 (idle_ab, sim_world bs).
Proof. intros H. split; [exact H|]. simpl. repeat split; lia. Qed.

Lemma connect_outcome_witness :
  wp total (aws_iot_mqtt_connect 3000 pCLIENT None) (fun rc s' =>
    connection_result (sim_client CLIENT_STATE_INITIALIZED []) rc s'.1)
    (sim_client CLIENT_STATE_INITIALIZED [], sim_world [32; 2; 0; 0]).
Proof.
  refine (connect_outcome 3000 None (sim_client CLIENT_STATE_INITIALIZED []) (sim_world [32; 2; 0; 0]) _ _).
  - reflexivity.
  - split; [simpl; lia|]. simpl. repeat split; lia.
Defined.

Lemma subscribe_outcome_witness :
  wp total (aws_iot_mqtt_subscribe 3000 pCLIENT (Some [99; 0]) 1 1 (Some 9) 90) (fun rc s' =>
    state_of s'.1 = state_of idle_ab /\
    subscribed (mkMessageHandlers (Some [99; 0]) 1 1 (Some 9) 90) idle_ab rc s'.1)
    (idle_ab, sim_world [144; 3; 0; 1; 0]).
Proof.
  refine (subscribe_outcome 3000 (Some [99; 0]) 1 1 (Some 9) 90 idle_ab (sim_world [144; 3; 0; 1; 0]) _ _).
  - reflexivity.
  - apply idle_ab_enough. simpl. lia.
Defined.

Lemma unsubscribe_outcome_witness :
  wp total (aws_iot_mqtt_unsubscribe 3000 pCLIENT (Some [98; 0]) 1) (fun rc s' =>
    state_of s'.1 = state_of idle_ab /\ unsubscribed [98; 0] idle_ab rc s'.1)
    (idle_ab, sim_world [176; 2; 0; 1]).
Proof.
  refine (unsubscribe_outcome 3000 [98; 0] 1 idle_ab (sim_world [176; 2; 0; 1]) _ _ _).
  - reflexivity.
  - apply idle_ab_enough. simpl. lia.
  - reflexivity.
Defined.

Lemma keep_alive_behaviour_witness :
  wp total (_aws_iot_mqtt_keep_alive 3000 pCLIENT) (keep_alive_result 3000 (idle_ab, sim_world []))
    (idle_ab, sim_world []).
Proof.
  refine (keep_alive_behaviour 3000 (idle_ab, sim_world []) _ _ _ _).
  - reflexivity.
  - apply idle_ab_enough. simpl. lia.
  - done.
  - done.
Defined.

(** The same world with the cable unplugged. *)
#[local] Instance unplugged : NetworkOps sim := {|
  iot_tls_init := @iot_tls_init sim sim_net;
  net_connect n p w := Done (FAILURE, n, w);
  net_read n len t old w := Done (NETWORK_SSL_NOTHING_TO_READ, [], old, w);
  net_write n mem len t old w := Done (NETWORK_SSL_WRITE_ERROR, old, w);
  net_disconnect n w := Done (SUCCESS, w);
  net_isConnected := Some (fun n w => Done (NETWORK_PHYSICAL_LAYER_DISCONNECTED, w));
  net_destroy n w := Done (SUCCESS, w)
|}.

Lemma reconnect_back_off_witness :
  wp exact (yield_round (net := unplugged) 1 (mkTimer (mkTimeval 0 0)))
    (reconnect_result (sim_client CLIENT_STATE_PENDING_RECONNECT [], sim_world []))
    (sim_client CLIENT_STATE_PENDING_RECONNECT [], sim_world []).
Proof.
  refine (reconnect_back_off (net := unplugged) 1 (mkTimer (mkTimeval 0 0))
    (sim_client CLIENT_STATE_PENDING_RECONNECT [], sim_world []) _ _ _ _).
  - unfold link_down. cbn. intros n w. by exists w.
  - reflexivity.
  - done.
  - done.
Defined.
