(* ===== verification/Progress.v ===== *)
(** * Progress

    The transport and the exchanges are safe and return whatever the peer does; here is the other half:
    over a link that is alive the calls get through.  [LiveLaws] describes such a link, beside the stream
    of [StreamLaws]: a write takes all it is given, and neither a reading of the clock nor a write takes
    longer than [pace] microseconds. *)

From S2P Require Export Stream Exchange.

Section live.
Context (W : Type) {clock : Clock W} {net : NetworkOps W} {stream : StreamLaws W}.

Class LiveLaws := {
  elapsed : W -> Z;
  pace : Z;
  live_clock : forall w,
    normal (gettimeofday w).1 /\ micros (gettimeofday w).1 = elapsed (gettimeofday w).2 /\
    elapsed w <= elapsed (gettimeofday w).2 <= elapsed w + pace;
  live_write : forall n mem len t old w, 0 <= len <= zlen mem ->
    exists w', net_write n mem len t old w = Done (SUCCESS, len, w') /\ rx w' = rx w /\
      elapsed w <= elapsed w' <= elapsed w + pace
}.
End live.
Arguments LiveLaws W {clock net stream}.
Arguments elapsed {W clock net stream LiveLaws} w.
Arguments pace W {clock net stream LiveLaws}.

#[export] Instance sim_live : LiveLaws sim.
Proof.
  refine {| elapsed := sim_time; pace := 1 |}.
  - intros w. unfold normal, micros. cbn. pose proof (Z.mod_pos_bound (sim_time w + 1) 1000000).
    pose proof (Z.div_mod (sim_time w + 1) 1000000). lia.
  - intros n mem len t old w Hl. cbn. unfold load_list. destruct (_ && _) eqn:E; [|lia].
    eexists. split; [reflexivity|]. cbn. split; [done|lia].
Defined.

Section progress.
Context {W : Type} {clock : Clock W} {net : NetworkOps W} {mutexes : MutexOps W} {app : AppOps W}.
Context {stream : StreamLaws W} {live : LiveLaws W} (fuel : nat).

#[local] Instance live_clock_laws : ClockLaws W.
Proof. constructor. intros w. exact (proj1 (live_clock W w)). Qed.

(** The later world has sent [d] more, has not received more, and [n] steps have been taken. *)
Definition after (n : Z) (d : bytes) (w w' : W) : Prop :=
  rx w' = rx w /\ tx w' = tx w ++ d /\ elapsed w <= elapsed w' <= elapsed w + n * pace W.

Lemma after_trans n m d e w1 w2 w3 : after n d w1 w2 -> after m e w2 w3 -> after (n + m) (d ++ e) w1 w3.
Proof.
  intros (H1 & H2 & H3) (H4 & H5 & H6). split; [congruence|]. split; [by rewrite H5, H2, <- app_assoc|]. lia.
Qed.

Lemma clock_after w : after 1 [] w (gettimeofday w).2.
Proof.
  destruct (live_clock W w) as (_ & _ & H). destruct (stream_clock W w) as [H1 H2].
  split; [done|]. rewrite app_nil_r. split; [done|]. lia.
Qed.

(** A timer that is not due within the next [n] steps has not expired. *)
Definition due_after (n : Z) (t : Timer) (w : W) : Prop :=
  normal (end_time t) /\ elapsed w + n * pace W < expiry t.

Lemma due_later n m d t w w' : due_after (n + m) t w -> after n d w w' -> due_after m t w'.
Proof. intros [H1 H2] (_ & _ & H3). split; [done|]. lia. Qed.

Lemma pace_nonneg (w : W) : 0 <= pace W.
Proof. destruct (live_clock W w) as (_ & _ & H). lia. Qed.

Lemma due_fewer n m t w : due_after n t w -> m <= n -> due_after m t w.
Proof. intros [H1 H2] H. split; [done|]. pose proof (pace_nonneg w). nia. Qed.

Lemma not_expired t (c : AWS_IoT_Client) w (Q : bool -> St W -> Prop) :
  due_after 1 t w -> (forall w', after 1 [] w w' -> Q false (c, w')) ->
  wp exact (world (has_timer_expired t)) Q (c, w).
Proof.
  intros [Ht Hd] HQ. apply wp_world, wp_has_timer_expired; [done|].
  destruct (live_clock W w) as (_ & Hm & Hp). rewrite Hm.
  destruct (Z.leb_spec (expiry t) (elapsed (gettimeofday w).2)); [lia|]. apply HQ, clock_after.
Qed.

Lemma countdown_due n t (c : AWS_IoT_Client) w (Q : Timer -> St W -> Prop) timeout :
  n * pace W < timeout * 1000 ->
  (forall t' w', due_after n t' w' -> after 1 [] w w' -> Q t' (c, w')) ->
  wp exact (world (countdown_ms t timeout)) Q (c, w).
Proof.
  intros Hn HQ. apply wp_world, wp_countdown_ms. intros t' Ht' Ex. apply HQ; [|apply clock_after].
  destruct (live_clock W w) as (_ & Hm & _). split; [done|]. rewrite Ex, Hm. lia.
Qed.
Hypothesis unthreaded : thread_support = false.

(** A packet in the transmit buffer goes out whole, and nothing else. *)
Lemma send_goes_out d m t (c : AWS_IoT_Client) w (Q : IoT_Error_t -> St W -> Prop) :
  writeBuf (clientData c) = written m d -> zlen d <= zlen m -> zlen d < writeBufSize (clientData c) -> 0 < zlen d ->
  zlen d < 4294967296 -> due_after 1 t w -> (1 < fuel)%nat ->
  (forall w', after 2 d w w' -> Q SUCCESS (c, w')) ->
  wp exact (aws_iot_mqtt_internal_send_packet fuel pCLIENT (zlen d) (Some t)) Q (c, w).
Proof.
  intros Hb Hm Hs H0 Hmax Ht Hf HQ. destruct fuel as [|[|f]]; [lia..|]. clear Hf.
  unfold aws_iot_mqtt_internal_send_packet. apply wp_bind, wp_client. cbn [fst].
  destruct (Z.leb_spec (writeBufSize (clientData c)) (zlen d)) as [|_]; [lia|].
  rewrite unthreaded. apply wp_bind, wp_ret, wp_check; [done|]. intros _. apply wp_bind. cbn [loop].
  destruct (Z.ltb_spec 0 (zlen d)) as [_|]; [|lia]. apply wp_bind, wp_bind.
  apply (not_expired t); [done|]. intros w1 H1. apply wp_bind. unfold network_write.
  apply wp_bind, wp_client, wp_bind, wp_client, wp_world. cbn [fst].
  assert (Hw : zlen (writeBuf (clientData c)) = zlen m) by (by rewrite Hb, zlen_written).
  destruct (live_write W (networkStack c) (drop (Z.to_nat 0) (writeBuf (clientData c))) (zlen d) t 0 w1)
    as (w2 & E & Hrx & Hel). { rewrite drop_0. lia. }
  pose proof (stream_write W (networkStack c) (drop (Z.to_nat 0) (writeBuf (clientData c))) (zlen d) t 0 w1) as Htx.
  unfold wp at 1. rewrite E in Htx |- *. cbn [owp] in Htx |- *. destruct (Htx eq_refl) as [_ Htx'].
  rewrite drop_0 in Htx'. specialize (Htx' ltac:(lia)). rewrite Hb in Htx'. unfold written in Htx'.
  rewrite zlen_to_nat, take_app_length in Htx'.
  assert (H2 : after 2 d w w2).
  { change d with ([] ++ d). change 2 with (1 + 1). eapply after_trans; [exact H1|]. split; [done|]. split; [done|lia]. }
  destruct (decide (SUCCESS <> SUCCESS)) as [|_]; [done|]. apply wp_ret. rewrite Z.add_0_l, u64_id by lia.
  apply wp_bind. rewrite Z.ltb_irrefl. apply wp_ret, wp_ret, wp_bind, wp_ret, wp_check; [done|]. intros _.
  rewrite Z.eqb_refl. exact (wp_ret exact SUCCESS Q (c, w2) (HQ w2 H2)).
Qed.

(** An acknowledgement at the head of the stream ends the wait for it. *)
Lemma wait_goes_through t body rest (c : AWS_IoT_Client) w hdr pt (Q : IoT_Error_t -> St W -> Prop) :
  is_ack pt = true -> MQTTHeader.type hdr = pt ->
  rx w = mqtt_packet hdr body ++ rest -> zlen body <= MAX_REMAINING_LENGTH ->
  zlen body < readBufSize (clientData c) -> 5 <= zlen (readBuf (clientData c)) ->
  zlen (mqtt_packet hdr body) <= zlen (readBuf (clientData c)) -> (4 < fuel)%nat -> due_after 1 t w ->
  (forall w', rx w' = rest -> tx w' = tx w ->
     Q SUCCESS (set_readBuf (written (readBuf (clientData c)) (mqtt_packet hdr body)) c, w')) ->
  wp exact (aws_iot_mqtt_internal_wait_for_read fuel pCLIENT pt (Some t)) Q (c, w).
Proof.
  intros Ha Hpt Hrx Hmax Hsize Hbuf Hfit Hf Ht HQ. unfold aws_iot_mqtt_internal_wait_for_read.
  apply wp_bind. destruct fuel as [|f] eqn:Ef; [lia|]. cbn [loop]. rewrite <- Ef in *. clear Ef.
  apply wp_bind, wp_bind. apply (not_expired t); [done|]. intros w1 (Hrx1 & Htx1 & _).
  rewrite app_nil_r in Htx1. apply wp_bind. unfold aws_iot_mqtt_internal_cycle_read. rewrite unthreaded.
  apply wp_bind, wp_ret. destruct (decide (SUCCESS <> SUCCESS)) as [|_]; [done|]. apply wp_bind.
  destruct (read_packet_stream fuel t 0 hdr body rest c w1) as (w2 & Hrx2 & Htx2 & E); [congruence|done..|].
  unfold wp at 1. rewrite E. cbn [owp]. apply wp_bind, wp_ret.
  rewrite (bool_decide_eq_false_2 (SUCCESS <> SUCCESS)) by auto. cbn [andb].
  destruct (decide (MQTT_NOTHING_TO_READ = SUCCESS)) as [|_]; [done|].
  destruct (decide (SUCCESS <> SUCCESS)) as [|_]; [done|]. fold (is_ack (MQTTHeader.type hdr)). rewrite Hpt, Ha.
  apply wp_bind, wp_ret, wp_ret. rewrite Z.eqb_refl. cbn [negb]. rewrite andb_false_r. apply wp_ret, wp_ret.
  rewrite Z.eqb_refl. cbn [negb]. rewrite andb_false_r. apply wp_ret, HQ; congruence.
Qed.

(** *** Publishing *)

(** A message: the caller's topic and parameters, and the bytes they point to. *)
Record message := mkMessage {
  m_topicmem : bytes; m_topicLen : Z; m_params : IoT_Publish_Message_Params;
  m_topic : bytes; m_payload : bytes
}.

(** The packet identifier a message goes out with, after the last one used. *)
Definition message_id (last : Z) (m : message) : Z :=
  if QOS1 =? msg_qos (m_params m) then next_packet_id last else msg_id (m_params m).

Definition last_id (last : Z) (m : message) : Z :=
  if QOS1 =? msg_qos (m_params m) then next_packet_id last else last.

Definition message_packet (last : Z) (m : message) : bytes :=
  mqtt_packet (mqtt_header PUBLISH 0 (if msg_qos (m_params m) =? 1 then 1 else 0) (bit (msg_isRetained (m_params m))))
    (publish_body (m_topic m) (msg_qos (m_params m)) (message_id last m) (m_payload m)).

(** What the broker answers. *)
Definition message_answer (last : Z) (m : message) : bytes :=
  if QOS1 =? msg_qos (m_params m)
  then mqtt_packet (mqtt_header PUBACK 0 0 0) (mqtt_uint16 (message_id last m)) else [].

(** The message can be sent through a transmit buffer of the size. *)
Definition sendable (size last : Z) (m : message) : Prop :=
  (msg_qos (m_params m) = QOS0 \/ msg_qos (m_params m) = QOS1) /\ 0 <= msg_id (m_params m) < 65536 /\
  0 < m_topicLen m < 65536 /\ readable (Some (m_topicmem m)) (m_topicLen m) (m_topic m) /\
  (exists mem, msg_payload (m_params m) = Some mem /\
     load_list mem 0 (msg_payloadLen (m_params m)) = Done (m_payload m)) /\
  zlen (message_packet last m) < size.

(** A client that can publish: its buffers are as large as it says, and the command time-out is longer
    than the few steps a publication takes. *)
Definition equipped (size : Z) (c : AWS_IoT_Client) : Prop :=
  writeBufSize (clientData c) = size /\
  size <= zlen (writeBuf (clientData c)) /\ size <= MAX_REMAINING_LENGTH /\
  5 <= readBufSize (clientData c) <= zlen (readBuf (clientData c)) /\
  1 <= nextPacketId (clientData c) <= 65535 /\ 4 * pace W < commandTimeoutMs (clientData c) * 1000.

Lemma next_packet_id_range id : 1 <= id <= 65535 -> 1 <= next_packet_id id <= 65535.
Proof. intros H. rewrite next_packet_id_value by done. pose proof (Z.mod_pos_bound id 65535). lia. Qed.

Lemma packet_longer h body : zlen body < zlen (mqtt_packet h body).
Proof. unfold mqtt_packet. rewrite zlen_cons, zlen_app. pose proof (zlen_nonneg (remaining_length (zlen body))). lia. Qed.

Lemma final_length_packet h body :
  zlen body <= MAX_REMAINING_LENGTH ->
  aws_iot_mqtt_internal_get_final_packet_length_from_remaining_length (zlen body)
    <= zlen (mqtt_packet h body) + 1.
Proof.
  intros Hb. pose proof (zlen_nonneg body). pose proof (final_packet_length_value (zlen body) ltac:(lia)).
  unfold mqtt_packet. rewrite zlen_cons, zlen_app. lia.
Qed.

(** The serialiser puts the message's packet into the transmit buffer. *)
Lemma message_serialised size last m (mem : bytes) :
  sendable size last m -> size <= zlen mem -> size <= MAX_REMAINING_LENGTH -> 1 <= last <= 65535 ->
  let p := m_params m in
  _aws_iot_mqtt_internal_serialize_publish (Some mem) size 0 (msg_qos p) (msg_isRetained p) (message_id last m)
    (Some (m_topicmem m)) (m_topicLen m) (msg_payload p) (msg_payloadLen p) (Some 0) =
  Done (SUCCESS, Some (written mem (message_packet last m)), Some (zlen (message_packet last m))).
Proof.
  intros (Hq & Hid & Ht & Hr & (pl & Hpl & Hload) & Hfit) Hm Hmax Hl. cbv zeta.
  pose proof (next_packet_id_range last Hl) as Hnext. unfold message_packet in *.
  set (h := mqtt_header _ _ _ _) in *. set (body := publish_body _ _ _ _) in *.
  pose proof (packet_longer h body) as Hlong. pose proof (final_length_packet h body ltac:(lia)) as Hfin.
  rewrite Hpl. apply load_list_Done in Hload as Hlen. destruct Hlen as (_ & _ & _ & Hlen).
  rewrite (serialize_publish_spec mem size 0 (msg_qos (m_params m)) (msg_isRetained (m_params m))
    (message_id last m) (Some (m_topicmem m)) (m_topicLen m) (m_topic m) pl (msg_payloadLen (m_params m))
    (m_payload m) 0).
  - fold body. destruct (Z.ltb_spec size
      (aws_iot_mqtt_internal_get_final_packet_length_from_remaining_length (zlen body))); [lia|]. done.
  - destruct Hq as [-> | ->]; by cbv.
  - unfold message_id. destruct (QOS1 =? msg_qos (m_params m)); lia.
  - lia.
  - done.
  - done.
  - done.
  - lia.
  - lia.
  - fold body. lia.
Qed.

Lemma internal_publish_live size m (c : AWS_IoT_Client) w rest
    (Q : IoT_Error_t * IoT_Publish_Message_Params -> St W -> Prop) :
  let last := nextPacketId (clientData c) in
  equipped size c -> sendable size last m -> (4 < fuel)%nat -> rx w = message_answer last m ++ rest ->
  (forall p c' w', equipped size c' -> state_of c' = state_of c -> nextPacketId (clientData c') = last_id last m ->
     rx w' = rest -> tx w' = tx w ++ message_packet last m -> Q (SUCCESS, p) (c', w')) ->
  wp exact (_aws_iot_mqtt_internal_publish fuel (Some (m_topicmem m)) (m_topicLen m) (m_params m)) Q (c, w).
Proof.
  cbv zeta. intros (Hsz & Hbuf & Hmax & Hrx & Hid & Hto) Hm Hf Hans HQ.
  unfold _aws_iot_mqtt_internal_publish. apply wp_bind, wp_client, wp_bind. cbn [fst].
  apply (countdown_due 4); [done|]. intros t w1 Ht H1. apply wp_bind.
  set (last := nextPacketId (clientData c)) in *.
  set (c1 := set_nextPacketId (last_id last m) c).
  set (p1 := mkPublishParams (msg_qos (m_params m)) (msg_isRetained (m_params m)) (msg_isDup (m_params m))
    (message_id last m) (msg_payload (m_params m)) (msg_payloadLen (m_params m))).
  assert (Hnext : 1 <= last_id last m <= 65535).
  { unfold last_id. destruct (QOS1 =? _); [by apply next_packet_id_range|done]. }
  match goal with |- wp _ _ ?K _ => enough (Hrest : K p1 (c1, w1)) end.
  { revert Hrest. unfold c1, p1, last_id, message_id. destruct (QOS1 =? msg_qos (m_params m)) eqn:Eq; intros Hrest.
    - apply wp_bind. unfold aws_iot_mqtt_get_next_packet_id. apply wp_bind, wp_client, wp_bind, wp_assign, wp_ret.
      by apply wp_ret.
    - apply wp_ret. destruct (m_params m), c as [? ? ? cd ?], cd. exact Hrest. }
  apply wp_bind, wp_client, wp_bind, wp_lift. cbn [fst].
  change (writeBuf (clientData c1)) with (writeBuf (clientData c)).
  change (writeBufSize (clientData c1)) with (writeBufSize (clientData c)). rewrite Hsz.
  unfold p1. cbn [msg_qos msg_isRetained msg_id msg_payload msg_payloadLen].
  rewrite (message_serialised size last m (writeBuf (clientData c))) by done. cbn [owp].
  set (d := message_packet last m) in *. destruct Hm as (Hq & _ & _ & _ & _ & Hfit). fold d in Hfit.
  apply wp_bind. unfold store_tx. apply wp_bind, wp_lift. cbn [deref owp]. apply wp_assign, wp_bind, wp_lift.
  cbn [owp]. apply wp_bind, wp_check; [done|]. intros _. apply wp_bind.
  set (c2 := set_writeBuf _ c1).
  apply (send_goes_out d (writeBuf (clientData c))); [done|lia|cbn; lia| | |by eapply due_fewer; [exact Ht|]|lia|].
  { unfold d, message_packet, mqtt_packet. rewrite zlen_cons. pose proof (zlen_nonneg
      (remaining_length (zlen (publish_body (m_topic m) (msg_qos (m_params m)) (message_id last m) (m_payload m))) ++
       publish_body (m_topic m) (msg_qos (m_params m)) (message_id last m) (m_payload m))). lia. }
  { unfold MAX_REMAINING_LENGTH in *. lia. }
  intros w2 H2. apply wp_check; [done|]. intros _.
  pose proof (after_trans _ _ _ _ _ _ _ H1 H2) as (Hrx2 & Htx2 & _).
  assert (Hc2 : equipped size c2).
  { split; [done|]. split; [|done]. change (writeBuf (clientData c2)) with (written (writeBuf (clientData c)) d).
    rewrite zlen_written; lia. }
  unfold message_answer in Hans. unfold QOS1 in Hans |- *. cbn [msg_qos].
  destruct (1 =? msg_qos (m_params m)) eqn:Eq.
  - pose proof (due_later 2 2 _ _ _ _ Ht H2) as Ht2.
    assert (Hidr : 0 <= message_id last m < 65536).
    { unfold message_id, QOS1. rewrite Eq. pose proof (next_packet_id_range last Hid). lia. }
    apply wp_bind. apply (wait_goes_through t (mqtt_uint16 (message_id last m)) rest c2 w2 (mqtt_header PUBACK 0 0 0));
      [done|done|congruence|done| |cbn; lia| |lia|by eapply due_fewer; [exact Ht2|]|].
    { change (2 < readBufSize (clientData c)). lia. }
    { change (4 <= zlen (readBuf (clientData c))). lia. }
    intros w3 Hrx3 Htx3. apply wp_check; [done|]. intros _. apply wp_bind, wp_client, wp_bind, wp_lift. cbn [fst].
    set (c3 := set_readBuf _ c2).
    assert (E : aws_iot_mqtt_internal_deserialize_ack (Some 0) (Some 0) (Some 0)
      (Some (readBuf (clientData c3))) (readBufSize (clientData c3)) =
      Done (SUCCESS, Some (MessageTypes_value PUBACK), Some 0, Some (message_id last m))).
    { apply (deserialize_ack_spec (mqtt_header PUBACK 0 0 0) (message_id last m) []
        (drop 4 (readBuf (clientData c2)))); [done| |done]. change (4 <= readBufSize (clientData c)). lia. }
    rewrite E. cbn [owp]. apply wp_check; [done|]. intros _. apply wp_ret, wp_ret. apply HQ; [|done..|].
    + destruct Hc2 as (? & ? & ? & Hr2 & ?). split; [done|]. split; [done|]. split; [done|]. split; [|done].
      change (5 <= readBufSize (clientData c) <= zlen (written (readBuf (clientData c))
        (mqtt_packet (mqtt_header PUBACK 0 0 0) (mqtt_uint16 (message_id last m))))).
      rewrite zlen_written; [lia|]. change (4 <= zlen (readBuf (clientData c))). lia.
    + by rewrite Htx3, Htx2.
  - apply wp_ret, wp_ret. apply HQ; [exact Hc2|done|done|rewrite Hrx2; exact Hans|exact Htx2].
Qed.

Definition ready (size : Z) (c : AWS_IoT_Client) : Prop :=
  equipped size c /\ state_of c = CLIENT_STATE_CONNECTED_IDLE.

Lemma publish_live size m (c : AWS_IoT_Client) w rest (Q : IoT_Error_t * option IoT_Publish_Message_Params -> St W -> Prop) :
  let last := nextPacketId (clientData c) in
  ready size c -> sendable size last m -> (4 < fuel)%nat -> rx w = message_answer last m ++ rest ->
  (forall p c' w', ready size c' -> nextPacketId (clientData c') = last_id last m ->
     rx w' = rest -> tx w' = tx w ++ message_packet last m -> Q (SUCCESS, p) (c', w')) ->
  wp exact (aws_iot_mqtt_publish fuel pCLIENT (Some (m_topicmem m)) (m_topicLen m) (Some (m_params m))) Q (c, w).
Proof.
  cbv zeta. intros [He Hst] Hm Hf Hans HQ. unfold aws_iot_mqtt_publish.
  assert (Hn : 0 < m_topicLen m) by apply Hm. destruct (Z.eqb_spec 0 (m_topicLen m)) as [|_]; [lia|].
  apply wp_bind, wp_client. cbn [fst]. change (clientState (clientStatus c)) with (state_of c). rewrite Hst. cbn [is_connected_state negb].
  apply wp_bind, wp_client. cbn [fst]. change (clientState (clientStatus c)) with (state_of c). rewrite Hst.
  rewrite bool_decide_eq_false_2 by auto. cbn [andb]. apply wp_bind. unfold wp at 1.
  rewrite set_state_unthreaded by done. destruct (decide _) as [_|Hne]; [|by exfalso; apply Hne]. cbn [owp].
  destruct (decide (SUCCESS <> SUCCESS)) as [|_]; [done|]. apply wp_bind.
  eapply internal_publish_live; [exact He|exact Hm|done|exact Hans|].
  intros p c' w' He' Hst' Hid' Hrx' Htx'. cbn in Hst'. apply wp_bind. unfold wp at 1.
  rewrite set_state_unthreaded by done. destruct (decide _) as [_|Hne]; [|by exfalso; apply Hne].
  cbn [owp]. rewrite (bool_decide_eq_false_2 (SUCCESS <> SUCCESS)) by auto. rewrite andb_false_r.
  apply wp_ret, HQ; done.
Qed.

(** Publishing messages one after the other. *)
Fixpoint publish_all (ms : list message) : M (St W) (list IoT_Error_t) :=
  match ms with
  | [] => ret []
  | m :: ms =>
      do! (rc, p) := aws_iot_mqtt_publish fuel pCLIENT (Some (m_topicmem m)) (m_topicLen m) (Some (m_params m)) in
      do! rcs := publish_all ms in
      ret (rc :: rcs)
  end.

(** What [f] says of each message, with the packet identifier in use when its turn comes. *)
Fixpoint in_turn {A : Type} (f : Z -> message -> A) (last : Z) (ms : list message) : list A :=
  match ms with
  | [] => []
  | m :: ms => f last m :: in_turn f (last_id last m) ms
  end.

Fixpoint all_sendable (size last : Z) (ms : list message) : Prop :=
  match ms with
  | [] => True
  | m :: ms => sendable size last m /\ all_sendable size (last_id last m) ms
  end.

Lemma publish_all_live size ms rest : forall (c : AWS_IoT_Client) w,
  let last := nextPacketId (clientData c) in
  ready size c -> all_sendable size last ms -> (4 < fuel)%nat ->
  rx w = concat (in_turn message_answer last ms) ++ rest ->
  wp exact (publish_all ms) (fun rcs s' =>
    rcs = replicate (length ms) SUCCESS /\ ready size s'.1 /\ rx s'.2 = rest /\
    tx s'.2 = tx w ++ concat (in_turn message_packet last ms)) (c, w).
Proof.
  induction ms as [|m ms IH]; intros c w last Hr Hm Hf Hans; cbn [publish_all].
  { apply wp_ret. split; [done|]. split; [done|]. split; [exact Hans|]. by rewrite app_nil_r. }
  destruct Hm as [Hm Hms]. cbn [in_turn concat] in *. rewrite <- app_assoc in Hans. apply wp_bind.
  eapply publish_live; [exact Hr|exact Hm|done|exact Hans|]. intros p c' w' Hr' Hid' Hrx' Htx'.
  apply wp_bind. fold last in Hid'. eapply wp_mono.
  { apply IH; [exact Hr'|by rewrite Hid'|done|by rewrite Hid']. }
  intros rcs s' (-> & Hr2 & Hrx2 & Htx2). apply wp_ret. split; [done|]. split; [done|]. split; [done|].
  rewrite Htx2, Htx', Hid'. by rewrite <- app_assoc.
Qed.
End progress.

(** C6: over a live link, whatever an idle client publishes gets through: every message of a sequence,
    with quality of service 0 or 1, that fits the transmit buffer is sent - its packet, whole, in the
    order of the calls, with consecutive packet identifiers where it needs one, and nothing else -, the
    acknowledgements the broker sends for those with quality of service 1 are taken off the stream, every
    call returns SUCCESS, and the client is idle and ready to publish again. *)
Theorem messages_get_through {W : Type} {clock : Clock W} {net : NetworkOps W} {mutexes : MutexOps W}
    {app : AppOps W} {stream : StreamLaws W} {live : LiveLaws W} (fuel : nat) (size : Z) (ms : list message)
    (rest : bytes) (c : AWS_IoT_Client) (w : W) :
  thread_support = false -> ready size c -> (4 < fuel)%nat ->
  let last := nextPacketId (clientData c) in
  all_sendable size last ms -> rx w = concat (in_turn message_answer last ms) ++ rest ->
  wp exact (publish_all fuel ms) (fun rcs s' =>
    rcs = replicate (length ms) SUCCESS /\ ready size s'.1 /\ rx s'.2 = rest /\
    tx s'.2 = tx w ++ concat (in_turn message_packet last ms)) (c, w).
Proof. intros Hu Hr Hf last Hm Hans. by apply publish_all_live. Qed.

(** Publishing "hi" to "a/b" with quality of service 1 and then 0. *)
Definition hi_message (qos : QoS) : message :=
  mkMessage [97; 47; 98] 3 (mkPublishParams qos 0 0 0 (Some [104; 105]) 2) [97; 47; 98] [104; 105].

Lemma messages_get_through_witness :
  wp exact (publish_all 5 [hi_message QOS1; hi_message QOS0]) (fun rcs s' =>
    rcs = [SUCCESS; SUCCESS] /\ ready 64 s'.1 /\ rx s'.2 = [] /\
    tx s'.2 = [50; 9; 0; 3; 97; 47; 98; 255; 255; 104; 105; 48; 7; 0; 3; 97; 47; 98; 104; 105])
    (sim_client CLIENT_STATE_CONNECTED_IDLE [], sim_world [64; 2; 255; 255]).
Proof.
  assert (H : forall qos last, qos = QOS0 \/ qos = QOS1 -> sendable 64 last (hi_message qos)).
  { intros qos last Hq. split; [done|]. split; [done|]. split; [done|].
    split; [split; [done|by exists [97; 47; 98]]|]. split; [by exists [104; 105]|].
    by destruct Hq as [-> | ->]. }
  refine (messages_get_through 5 64 [hi_message QOS1; hi_message QOS0] []
    (sim_client CLIENT_STATE_CONNECTED_IDLE []) (sim_world [64; 2; 255; 255]) _ _ _ _ _).
  - reflexivity.
  - split; [|done]. vm_compute. repeat split; congruence.
  - lia.
  - split; [apply H; by right|]. split; [apply H; by left|exact I].
  - reflexivity.
Defined.
