(* ===== verification/Mpi.v ===== *)
(** * Multi-precision integers: objects, memory, conversions

    The first half of external_libs/mbedTLS/library/bignum.c: the type [mbedtls_mpi], the functions that
    allocate, copy and set it, access to bits, and the conversion from and to big-endian bytes.  A 64-bit
    build: a limb ([mbedtls_mpi_uint]) is an integer below 2^64.  The functions take pointers to integers
    that may be the same, so the integers live in a store; [calloc] may fail at any call. *)

From stdpp Require Import functions.
From S2P Require Import Prelude.

(** ** The store *)

(** [n] is the length of [mpi_p]; [p] is NULL when it is empty. *)
Record mbedtls_mpi := mkMpi { mpi_s : Z; mpi_p : list Z }.

(** The integers by their addresses, the next address for a local variable, and the answers of the next
    calls of [calloc]: [false] is NULL; when the list is used up every call succeeds. *)
Record bn := mkBn { bn_obj : nat -> mbedtls_mpi; bn_next : nat; bn_calloc : list bool }.

Definition set_obj (f : nat -> mbedtls_mpi) (s : bn) : bn := mkBn f (bn_next s) (bn_calloc s).
Definition set_next (n : nat) (s : bn) : bn := mkBn (bn_obj s) n (bn_calloc s).

Definition mpi_at (X : nat) : M bn mbedtls_mpi := gets (fun s => bn_obj s X).
Definition assign (X : nat) (m : mbedtls_mpi) : M bn unit :=
  modify (fun s => set_obj (<[X := m]> (bn_obj s)) s).
Definition set_s (X : nat) (z : Z) : M bn unit := do! m := mpi_at X in assign X (mkMpi z (mpi_p m)).
Definition set_p (X : nat) (p : list Z) : M bn unit := do! m := mpi_at X in assign X (mkMpi (mpi_s m) p).

(** [X->n], [X->p[i]] and [X->p[i] = v] *)
Definition size_of (X : nat) : M bn Z := do! m := mpi_at X in ret (zlen (mpi_p m)).
Definition limb (X : nat) (i : Z) : M bn Z := do! m := mpi_at X in lift (aload (mpi_p m) i).
Definition set_limb (X : nat) (i v : Z) : M bn unit :=
  do! m := mpi_at X in do! p := lift (astore (mpi_p m) i v) in set_p X p.

(** A local variable of type [mbedtls_mpi]. *)
Definition local_mpi {A : Type} (k : nat -> M bn A) : M bn A :=
  do! T := gets bn_next in
  run! modify (set_next (S T)) in
  do! r := k T in
  run! modify (set_next T) in
  ret r.

Definition mbedtls_calloc : M bn bool := fun s =>
  match bn_calloc s with
  | [] => Done (true, s)
  | b :: l => Done (b, mkBn (bn_obj s) (bn_next s) l)
  end.

Definition MBEDTLS_ERR_MPI_BAD_INPUT_DATA : Z := -4.
Definition MBEDTLS_ERR_MPI_BUFFER_TOO_SMALL : Z := -8.
Definition MBEDTLS_ERR_MPI_NEGATIVE_VALUE : Z := -10.
Definition MBEDTLS_ERR_MPI_DIVISION_BY_ZERO : Z := -12.
Definition MBEDTLS_ERR_MPI_ALLOC_FAILED : Z := -16.
Definition MBEDTLS_MPI_MAX_LIMBS : Z := 10000.
Definition ciL : Z := 8.
Definition biL : Z := 64.
Definition BITS_TO_LIMBS (i : Z) : Z := i / biL + (if i mod biL =? 0 then 0 else 1).
Definition CHARS_TO_LIMBS (i : Z) : Z := i / ciL + (if i mod ciL =? 0 then 0 else 1).

(** [MBEDTLS_MPI_CHK(f)]: a code other than 0 goes to [cleanup] and is returned there. *)
Notation "'chk!' f 'in' k" := (bind f (fun r => if r =? 0 then k else ret r))
  (at level 10, f at level 100, k at level 200) : c_scope.

(** ** Operations *)

Definition mbedtls_mpi_init (X : nat) : M bn unit := assign X (mkMpi 1 []).
Definition mbedtls_mpi_free (X : nat) : M bn unit := assign X (mkMpi 1 []).

Definition mbedtls_mpi_grow (X : nat) (nblimbs : Z) : M bn Z :=
  if MBEDTLS_MPI_MAX_LIMBS <? nblimbs then ret MBEDTLS_ERR_MPI_ALLOC_FAILED
  else
    do! m := mpi_at X in
    if zlen (mpi_p m) <? nblimbs then
      do! ok := mbedtls_calloc in
      if negb ok then ret MBEDTLS_ERR_MPI_ALLOC_FAILED
      else
        do! p := lift (store (replicate (Z.to_nat nblimbs) 0) 0 (mpi_p m)) in
        run! set_p X p in
        ret 0
    else ret 0.

(** [for( i = n - 1; i > 0; i-- ) if( p[i] != 0 ) break;] *)
Fixpoint last_limb (n : nat) (p : list Z) : outcome Z :=
  match n with
  | O => Done 0
  | S O => Done 0
  | S n =>
      let! x := aload p (Z.of_nat n) in
      if x =? 0 then last_limb n p else Done (Z.of_nat n)
  end.

(** [for( i = n; i > 0; i-- ) if( p[i - 1] != 0 ) break;] *)
Fixpoint top_limb (n : nat) (p : list Z) : outcome Z :=
  match n with
  | O => Done 0
  | S n' =>
      let! x := aload p (Z.of_nat n') in
      if x =? 0 then top_limb n' p else Done (Z.of_nat n)
  end.

Definition mbedtls_mpi_shrink (X : nat) (nblimbs : Z) : M bn Z :=
  do! m := mpi_at X in
  if zlen (mpi_p m) <=? nblimbs then mbedtls_mpi_grow X nblimbs
  else
    do! i := lift (last_limb (length (mpi_p m)) (mpi_p m)) in
    let i := i + 1 in
    let i := if i <? nblimbs then nblimbs else i in
    do! ok := mbedtls_calloc in
    if negb ok then ret MBEDTLS_ERR_MPI_ALLOC_FAILED
    else
      do! d := lift (load_list (mpi_p m) 0 i) in
      do! p := lift (store (replicate (Z.to_nat i) 0) 0 d) in
      run! set_p X p in
      ret 0.

Definition mbedtls_mpi_copy (X Y : nat) : M bn Z :=
  if Nat.eqb X Y then ret 0
  else
    do! y := mpi_at Y in
    match mpi_p y with
    | [] => run! mbedtls_mpi_free X in ret 0
    | _ =>
        do! i := lift (last_limb (length (mpi_p y)) (mpi_p y)) in
        let i := i + 1 in
        run! set_s X (mpi_s y) in
        chk! mbedtls_mpi_grow X i in
        do! n := size_of X in
        do! d := lift (load_list (mpi_p y) 0 i) in
        do! p := lift (store (replicate (Z.to_nat n) 0) 0 d) in
        run! set_p X p in
        ret 0
    end.

Definition mbedtls_mpi_swap (X Y : nat) : M bn unit :=
  do! T := mpi_at X in
  do! y := mpi_at Y in
  run! assign X y in
  assign Y T.

(** [assign = (assign | (unsigned char)-assign) >> 7] *)
Definition as_bit (b : Z) : Z := Z.shiftr (Z.lor b (u8 (- b))) 7.

Definition mbedtls_mpi_safe_cond_assign (X Y : nat) (flag : Z) : M bn Z :=
  let flag := as_bit flag in
  do! n := size_of Y in
  chk! mbedtls_mpi_grow X n in
  do! x := mpi_at X in
  do! y := mpi_at Y in
  run! set_s X (mpi_s x * (1 - flag) + mpi_s y * flag) in
  run! mfor (Z.to_nat n) 0 (fun i _ =>
    do! a := limb X i in
    do! b := limb Y i in
    set_limb X i (u64 (a * u64 (1 - flag) + b * flag))) tt in
  do! m := size_of X in
  run! mfor (Z.to_nat (m - n)) n (fun i _ =>
    do! a := limb X i in
    set_limb X i (u64 (a * u64 (1 - flag)))) tt in
  ret 0.

Definition mbedtls_mpi_safe_cond_swap (X Y : nat) (flag : Z) : M bn Z :=
  if Nat.eqb X Y then ret 0
  else
    let flag := as_bit flag in
    do! n := size_of Y in
    chk! mbedtls_mpi_grow X n in
    do! n := size_of X in
    chk! mbedtls_mpi_grow Y n in
    do! x := mpi_at X in
    do! y := mpi_at Y in
    run! set_s X (mpi_s x * (1 - flag) + mpi_s y * flag) in
    run! set_s Y (mpi_s y * (1 - flag) + mpi_s x * flag) in
    do! n := size_of X in
    run! mfor (Z.to_nat n) 0 (fun i _ =>
      do! tmp := limb X i in
      do! b := limb Y i in
      run! set_limb X i (u64 (tmp * u64 (1 - flag) + b * flag)) in
      do! b := limb Y i in
      set_limb Y i (u64 (b * u64 (1 - flag) + tmp * flag))) tt in
    ret 0.

(** The parameter is a signed 64-bit integer; its absolute value as a limb.  (For -2^63 the negation
    overflows in C; the theorems leave this value out.) *)
Definition sint_abs (z : Z) : Z := u64 (if z <? 0 then - z else z).
Definition sint_sign (z : Z) : Z := if z <? 0 then -1 else 1.

Definition mbedtls_mpi_lset (X : nat) (z : Z) : M bn Z :=
  chk! mbedtls_mpi_grow X 1 in
  do! n := size_of X in
  run! set_p X (replicate (Z.to_nat n) 0) in
  run! set_limb X 0 (sint_abs z) in
  run! set_s X (sint_sign z) in
  ret 0.

Definition mbedtls_mpi_get_bit (X : nat) (pos : Z) : M bn Z :=
  do! n := size_of X in
  if n * biL <=? pos then ret 0
  else
    do! x := limb X (pos / biL) in
    ret (Z.land (Z.shiftr x (pos mod biL)) 1).

Definition mbedtls_mpi_set_bit (X : nat) (pos val : Z) : M bn Z :=
  let off := pos / biL in
  let idx := pos mod biL in
  if negb (val =? 0) && negb (val =? 1) then ret MBEDTLS_ERR_MPI_BAD_INPUT_DATA
  else
    do! n := size_of X in
    if (n * biL <=? pos) && (val =? 0) then ret 0
    else
      chk! (if n * biL <=? pos then mbedtls_mpi_grow X (off + 1) else ret 0) in
      do! x := limb X off in
      run! set_limb X off (Z.land x (u64 (Z.lnot (u64 (Z.shiftl 1 idx))))) in
      do! x := limb X off in
      run! set_limb X off (Z.lor x (u64 (Z.shiftl val idx))) in
      ret 0.

(** The inner loop of [mbedtls_mpi_lsb]: the first set bit of a limb from bit [j] on. *)
Fixpoint lsb_limb (n : nat) (x j : Z) : option Z :=
  match n with
  | O => None
  | S n => if Z.land (Z.shiftr x j) 1 =? 0 then lsb_limb n x (j + 1) else Some j
  end.

Fixpoint lsb_from (p : list Z) (count : Z) : Z :=
  match p with
  | [] => 0
  | x :: p =>
      match lsb_limb (Z.to_nat biL) x 0 with
      | Some j => count + j
      | None => lsb_from p (count + biL)
      end
  end.

Definition mbedtls_mpi_lsb (X : nat) : M bn Z := do! m := mpi_at X in ret (lsb_from (mpi_p m) 0).

Fixpoint clz_from (n : nat) (x mask j : Z) : Z :=
  match n with
  | O => j
  | S n => if Z.land x mask =? 0 then clz_from n x (Z.shiftr mask 1) (j + 1) else j
  end.
Definition mbedtls_clz (x : Z) : Z := clz_from (Z.to_nat biL) x (Z.shiftl 1 (biL - 1)) 0.

Definition mbedtls_mpi_bitlen (X : nat) : M bn Z :=
  do! m := mpi_at X in
  match mpi_p m with
  | [] => ret 0
  | _ =>
      do! i := lift (last_limb (length (mpi_p m)) (mpi_p m)) in
      do! x := limb X i in
      ret (i * biL + (biL - mbedtls_clz x))
  end.

Definition mbedtls_mpi_size (X : nat) : M bn Z :=
  do! b := mbedtls_mpi_bitlen X in ret (Z.shiftr (b + 7) 3).

(** [for( n = 0; n < buflen; n++ ) if( buf[n] != 0 ) break;] *)
Fixpoint leading_zeros (k : nat) (buf : bytes) (n : Z) : outcome Z :=
  match k with
  | O => Done n
  | S k =>
      let! b := load buf n in
      if b =? 0 then leading_zeros k buf (n + 1) else Done n
  end.

Definition mbedtls_mpi_read_binary (X : nat) (buf : bytes) (buflen : Z) : M bn Z :=
  do! n := lift (leading_zeros (Z.to_nat buflen) buf 0) in
  chk! mbedtls_mpi_grow X (CHARS_TO_LIMBS (buflen - n)) in
  chk! mbedtls_mpi_lset X 0 in
  run! mfor (Z.to_nat (buflen - n)) 0 (fun j _ =>
    do! b := lift (load buf (buflen - j - 1)) in
    do! x := limb X (j / ciL) in
    set_limb X (j / ciL) (Z.lor x (u64 (Z.shiftl b (Z.shiftl (j mod ciL) 3))))) tt in
  ret 0.

Definition mbedtls_mpi_write_binary (X : nat) (buf : bytes) (buflen : Z) : M bn (Z * bytes) :=
  do! n := mbedtls_mpi_size X in
  if buflen <? n then ret (MBEDTLS_ERR_MPI_BUFFER_TOO_SMALL, buf)
  else
    do! buf := lift (store buf 0 (replicate (Z.to_nat buflen) 0)) in
    do! buf := mfor (Z.to_nat n) 0 (fun j buf =>
      do! x := limb X (j / ciL) in
      lift (store buf (buflen - 1 - j) [u8 (Z.shiftr x (Z.shiftl (j mod ciL) 3))])) buf in
    ret (0, buf).

(** ** Values *)

Definition base : Z := 18446744073709551616.
Definition limb_ok (x : Z) : Prop := 0 <= x < base.

Fixpoint limbs (p : list Z) : Z :=
  match p with [] => 0 | x :: p => x + base * limbs p end.

Lemma base_pow n : base ^ n = 2 ^ (64 * n) \/ n < 0.
Proof. destruct (decide (n < 0)); [by right|left]. change base with (2 ^ 64). rewrite Z.pow_mul_r by lia. done. Qed.

Lemma base_pow_pos n : 0 <= n -> 0 < base ^ n.
Proof. intros. by apply Z.pow_pos_nonneg. Qed.

Lemma base_pow_succ n : 0 <= n -> base ^ (n + 1) = base * base ^ n.
Proof. intros. rewrite Z.pow_add_r, Z.pow_1_r by lia. lia. Qed.

Lemma limbs_app p q : limbs (p ++ q) = limbs p + base ^ zlen p * limbs q.
Proof.
  induction p as [|x p IH]; cbn [limbs app].
  - change (base ^ zlen []) with 1. lia.
  - rewrite IH, zlen_cons, (Z.add_comm 1 (zlen p)), base_pow_succ by apply zlen_nonneg. ring.
Qed.

Lemma limbs_bound p : Forall limb_ok p -> 0 <= limbs p < base ^ zlen p.
Proof.
  induction 1 as [|x p Hx _ IH]; cbn [limbs].
  - change (base ^ zlen []) with 1. lia.
  - rewrite zlen_cons, (Z.add_comm 1), base_pow_succ by apply zlen_nonneg. unfold limb_ok, base in *. nia.
Qed.

Lemma limbs_zeros n : limbs (replicate n 0) = 0.
Proof. induction n as [|n IH]; cbn [limbs replicate]; [done|]. rewrite IH. lia. Qed.

Lemma limbs_app_zeros p n : limbs (p ++ replicate n 0) = limbs p.
Proof. rewrite limbs_app, limbs_zeros. lia. Qed.

Lemma limbs_zero p : Forall limb_ok p -> limbs p = 0 -> p = replicate (length p) 0.
Proof.
  induction 1 as [|x p Hx Hp IH]; cbn [limbs length replicate]; [done|]. intros E.
  pose proof (limbs_bound p Hp). unfold limb_ok, base in *. assert (x = 0) as -> by nia. f_equal. apply IH. nia.
Qed.

Lemma limbs_insert p (i : nat) x y :
  p !! i = Some x -> limbs (<[i := y]> p) = limbs p + (y - x) * base ^ Z.of_nat i.
Proof.
  revert i. induction p as [|z p IH]; intros [|i] H; try done.
  - injection H as ->. change (limbs (<[0%nat := y]> (x :: p))) with (y + base * limbs p).
    change (base ^ Z.of_nat 0) with 1. cbn [limbs]. lia.
  - change (limbs (<[S i := y]> (z :: p))) with (z + base * limbs (<[i := y]> p)).
    cbn [limbs]. rewrite (IH i H), Nat2Z.inj_succ, <- Z.add_1_r, base_pow_succ by lia. ring.
Qed.

Lemma limbs_lookup p (i : nat) x :
  p !! i = Some x ->
  limbs p = limbs (take i p) + base ^ Z.of_nat i * (x + base * limbs (drop (S i) p)).
Proof.
  intros H. rewrite <- (take_drop_middle p i x H) at 1. rewrite limbs_app. cbn [limbs].
  assert (zlen (take i p) = Z.of_nat i) as ->; [|done].
  unfold zlen. apply lookup_lt_Some in H. rewrite length_take. lia.
Qed.

(** The number of limbs up to the highest one that is not 0. *)
Fixpoint sig (p : list Z) : nat :=
  match p with
  | [] => O
  | x :: p => match sig p with O => if x =? 0 then O else 1%nat | S n => S (S n) end
  end.

Lemma sig_snoc p x : sig (p ++ [x]) = if x =? 0 then sig p else S (length p).
Proof.
  induction p as [|y p IH]; cbn [app sig length]; [done|]. rewrite IH. destruct (x =? 0); [done|].
  by destruct p.
Qed.

Lemma sig_le p : (sig p <= length p)%nat.
Proof. induction p as [|x p IH]; cbn [sig length]; [lia|]. destruct (sig p), (x =? 0); lia. Qed.

Lemma sig_drop p : drop (sig p) p = replicate (length p - sig p) 0.
Proof.
  induction p as [|x p IH]; cbn [sig]; [done|]. destruct (sig p) as [|n] eqn:E.
  - rewrite drop_0, Nat.sub_0_r in IH. destruct (Z.eqb_spec x 0) as [->|]; cbn [drop length].
    + rewrite Nat.sub_0_r. cbn [replicate]. by rewrite <- IH.
    + by rewrite Nat.sub_succ, Nat.sub_0_r.
  - cbn [drop length]. by rewrite IH.
Qed.

Lemma sig_take p : limbs (take (sig p) p) = limbs p.
Proof.
  transitivity (limbs (take (sig p) p ++ drop (sig p) p)); [by rewrite sig_drop, limbs_app_zeros|by rewrite take_drop].
Qed.

Lemma sig_bound p : Forall limb_ok p ->
  limbs p < base ^ Z.of_nat (sig p) /\ ((0 < sig p)%nat -> base ^ (Z.of_nat (sig p) - 1) <= limbs p).
Proof.
  induction 1 as [|x p Hx Hp IH]; cbn [sig limbs]; [split; [done|lia]|]. destruct IH as [IH1 IH2].
  pose proof (limbs_bound p Hp) as Hb. unfold limb_ok in Hx. destruct (sig p) as [|n].
  - change (base ^ Z.of_nat 0) with 1 in IH1. assert (limbs p = 0) as -> by lia.
    destruct (Z.eqb_spec x 0) as [->|]; [split; [done|lia]|]. change (base ^ Z.of_nat 1) with base.
    change (base ^ (Z.of_nat 1 - 1)) with 1. unfold base in *. lia.
  - specialize (IH2 ltac:(lia)). replace (Z.of_nat (S n) - 1) with (Z.of_nat n) in IH2 by lia.
    replace (Z.of_nat (S (S n)) - 1) with (Z.of_nat n + 1) by lia.
    rewrite !Nat2Z.inj_succ, <- !Z.add_1_r, !base_pow_succ in * by lia. unfold base in *. split; [nia|]. intros _. nia.
Qed.

Lemma top_limb_sig p : forall n, (n <= length p)%nat -> top_limb n p = Done (Z.of_nat (sig (take n p))).
Proof.
  induction n as [|n IH]; intros Hn; [done|]. cbn [top_limb].
  destruct (lookup_lt_is_Some_2 p n) as [x Hx]; [lia|]. unfold aload.
  destruct (Z.leb_spec 0 (Z.of_nat n)); [|lia]. rewrite Nat2Z.id, Hx. cbn [deref obind].
  rewrite (take_S_r p n x Hx), sig_snoc. destruct (x =? 0); [apply IH; lia|].
  by rewrite length_take, Nat.min_l by lia.
Qed.

Lemma last_limb_sig p : forall n, (n <= length p)%nat -> last_limb n p = Done (Z.of_nat (pred (sig (take n p)))).
Proof.
  induction n as [|n IH]; intros Hn; [done|]. destruct n as [|n].
  { destruct p as [|x p]; cbn [length] in Hn; [lia|]. cbn. by destruct (x =? 0). }
  cbn [last_limb]. destruct (lookup_lt_is_Some_2 p (S n)) as [x Hx]; [lia|]. unfold aload.
  destruct (Z.leb_spec 0 (Z.of_nat (S n))); [|lia]. rewrite Nat2Z.id, Hx. cbn [deref obind].
  rewrite (take_S_r p (S n) x Hx), sig_snoc. destruct (x =? 0); [apply IH; lia|].
  by rewrite length_take, Nat.min_l by lia.
Qed.

Lemma top_limb_all p : top_limb (length p) p = Done (Z.of_nat (sig p)).
Proof. by rewrite top_limb_sig, firstn_all by lia. Qed.
Lemma last_limb_all p : last_limb (length p) p = Done (Z.of_nat (pred (sig p))).
Proof. by rewrite last_limb_sig, firstn_all by lia. Qed.

(** ** What an operation changes *)

Definition mpi_ok (m : mbedtls_mpi) : Prop :=
  (mpi_s m = 1 \/ mpi_s m = -1) /\ Forall limb_ok (mpi_p m) /\ zlen (mpi_p m) <= MBEDTLS_MPI_MAX_LIMBS.
Definition magnitude (m : mbedtls_mpi) : Z := limbs (mpi_p m).
Definition mpi_val (m : mbedtls_mpi) : Z := mpi_s m * magnitude m.

(** Of the objects that exist only those of [L] may have changed, and memory has not become scarce. *)
Record changes (L : list nat) (s s' : bn) : Prop := {
  ch_next : bn_next s' = bn_next s;
  ch_obj : forall Y, (Y < bn_next s)%nat -> Y ∉ L -> bn_obj s' Y = bn_obj s Y;
  ch_calloc : bn_calloc s = [] -> bn_calloc s' = [];
}.

Lemma changes_refl L s : changes L s s.
Proof. by split. Qed.

Lemma changes_trans L s1 s2 s3 : changes L s1 s2 -> changes L s2 s3 -> changes L s1 s3.
Proof.
  intros [N1 O1 C1] [N2 O2 C2]. split; [congruence| |auto].
  intros Y HY HL. rewrite O2 by (rewrite ?N1; done). by apply O1.
Qed.

Lemma changes_mono L L' s s' : L ⊆ L' -> changes L s s' -> changes L' s s'.
Proof. intros HL [N O C]. split; [done| |done]. intros Y HY HY'. apply O; [done|]. by intros H%HL. Qed.

Lemma changes_nil L s s' : changes [] s s' -> changes L s s'.
Proof. apply changes_mono. by intros ? ?%not_elem_of_nil. Qed.

#[export] Instance changes_preorder L : PreOrder (changes L).
Proof. split; [intros s; apply changes_refl|intros s1 s2 s3; apply changes_trans]. Qed.

Definition upd (X : nat) (m : mbedtls_mpi) (s : bn) : bn := set_obj (<[X := m]> (bn_obj s)) s.

Lemma wp_mpi_assign md X m (Q : unit -> bn -> Prop) s :
  Q tt (upd X m s) -> wp md (assign X m) Q s.
Proof. done. Qed.

Lemma obj_upd X m s : bn_obj (upd X m s) X = m.
Proof. apply fn_lookup_insert. Qed.
Lemma obj_upd_ne X Y m s : Y <> X -> bn_obj (upd X m s) Y = bn_obj s Y.
Proof. intros. apply fn_lookup_insert_ne. congruence. Qed.

Lemma changes_upd X m s : changes [X] s (upd X m s).
Proof.
  split; [done| |done]. intros Y _ HY. apply obj_upd_ne. intros ->. apply HY. by left.
Qed.

(** A local variable is gone when the function returns. *)
Lemma wp_local_mpi {A} md L (k : nat -> M bn A) (Q : A -> bn -> Prop) s :
  wp md (k (bn_next s)) (fun r s' => changes (bn_next s :: L) (set_next (S (bn_next s)) s) s' /\
    (changes L s (set_next (bn_next s) s') -> Q r (set_next (bn_next s) s'))) (set_next (S (bn_next s)) s) ->
  wp md (local_mpi k) Q s.
Proof.
  intros H. unfold local_mpi. do 4 wp_step. wp_step. eapply wp_mono; [exact H|]. cbn beta.
  intros r s' [[N O C] HQ]. apply wp_bind, wp_modify, wp_ret, HQ. split; [done| |done].
  intros Y HY HL. cbn in *. apply O; [lia|]. intros [->|?]%elem_of_cons; [lia|done].
Qed.

Lemma wp_mpi_at md X (Q : mbedtls_mpi -> bn -> Prop) s : Q (bn_obj s X) s -> wp md (mpi_at X) Q s.
Proof. done. Qed.
Lemma wp_set_p md X p (Q : unit -> bn -> Prop) s :
  Q tt (upd X (mkMpi (mpi_s (bn_obj s X)) p) s) -> wp md (set_p X p) Q s.
Proof. done. Qed.
Lemma wp_set_s md X z (Q : unit -> bn -> Prop) s :
  Q tt (upd X (mkMpi z (mpi_p (bn_obj s X))) s) -> wp md (set_s X z) Q s.
Proof. done. Qed.
Lemma wp_size_of md X (Q : Z -> bn -> Prop) s : Q (zlen (mpi_p (bn_obj s X))) s -> wp md (size_of X) Q s.
Proof. done. Qed.

Lemma aload_some {A} (l : list A) (i : nat) x : l !! i = Some x -> aload l (Z.of_nat i) = Done x.
Proof. intros H. unfold aload. destruct (Z.leb_spec 0 (Z.of_nat i)); [|lia]. by rewrite Nat2Z.id, H. Qed.

Lemma wp_limb md X i (Q : Z -> bn -> Prop) s x :
  mpi_p (bn_obj s X) !! i = Some x -> Q x s -> wp md (limb X (Z.of_nat i)) Q s.
Proof. intros H HQ. apply wp_bind, wp_mpi_at, wp_lift. by rewrite (aload_some _ _ _ H). Qed.

Lemma wp_set_limb md X i v (Q : unit -> bn -> Prop) s :
  (i < length (mpi_p (bn_obj s X)))%nat ->
  Q tt (upd X (mkMpi (mpi_s (bn_obj s X)) (<[i := v]> (mpi_p (bn_obj s X)))) s) ->
  wp md (set_limb X (Z.of_nat i) v) Q s.
Proof.
  intros Hi HQ. apply wp_bind, wp_mpi_at, wp_bind, wp_lift. unfold astore, zlen.
  destruct (_ && _) eqn:E; [|lia]. apply owp_done, wp_set_p. by rewrite Nat2Z.id.
Qed.

(** [MBEDTLS_MPI_CHK] *)
Lemma wp_chk md (m k : M bn Z) (Q : Z -> bn -> Prop) s :
  wp md m (fun r s' => if r =? 0 then wp md k Q s' else Q r s') s -> wp md (chk! m in k) Q s.
Proof. intros H. apply wp_bind. eapply wp_mono; [exact H|]. cbn beta. intros r s'. by destruct (r =? 0). Qed.

Lemma wp_calloc md (Q : bool -> bn -> Prop) s :
  (forall b s', bn_obj s' = bn_obj s -> changes [] s s' -> (b = false -> bn_calloc s <> []) -> Q b s') ->
  wp md mbedtls_calloc Q s.
Proof.
  intros H. unfold wp, mbedtls_calloc. destruct (bn_calloc s) as [|b l] eqn:E; cbn; apply H; try done.
  split; [done|done|]. by rewrite E.
Qed.

(** The ways an operation that needs [need] limbs fails. *)
Definition short_of_memory (need : Z) (s : bn) : Prop := bn_calloc s <> [] \/ MBEDTLS_MPI_MAX_LIMBS < need.

Definition grown (n : Z) (p : list Z) : list Z := p ++ replicate (Z.to_nat (n - zlen p)) 0.

Lemma grown_limbs n p : limbs (grown n p) = limbs p.
Proof. apply limbs_app_zeros. Qed.
Lemma grown_zlen n p : zlen (grown n p) = Z.max n (zlen p).
Proof. unfold grown, zlen. rewrite length_app, length_replicate. unfold zlen. lia. Qed.

Lemma zeros_ok n : Forall limb_ok (replicate n 0).
Proof. by apply Forall_replicate. Qed.

Lemma grown_ok n p : Forall limb_ok p -> Forall limb_ok (grown n p).
Proof. intros. apply Forall_app. split; [done|apply zeros_ok]. Qed.

Lemma store_zeros n p : zlen p <= n -> store (replicate (Z.to_nat n) 0) 0 p = Done (grown n p).
Proof.
  intros H. pose proof (zlen_nonneg p). rewrite store_zero by (unfold zlen in *; rewrite length_replicate; lia).
  rewrite drop_replicate. unfold grown, zlen in *. do 3 f_equal. lia.
Qed.

Lemma grow_spec X n s :
  wp exact (mbedtls_mpi_grow X n) (fun r s' => changes [X] s s' /\
    ((r = 0 /\ n <= MBEDTLS_MPI_MAX_LIMBS /\
      bn_obj s' X = mkMpi (mpi_s (bn_obj s X)) (grown n (mpi_p (bn_obj s X)))) \/
     (r = MBEDTLS_ERR_MPI_ALLOC_FAILED /\ short_of_memory n s /\ bn_obj s' X = bn_obj s X))) s.
Proof.
  unfold mbedtls_mpi_grow. destruct (Z.ltb_spec MBEDTLS_MPI_MAX_LIMBS n).
  { apply wp_ret. split; [done|]. right. split; [done|]. split; [by right|done]. }
  apply wp_bind, wp_mpi_at. destruct (Z.ltb_spec (zlen (mpi_p (bn_obj s X))) n).
  - apply wp_bind, wp_calloc. intros b s1 E C Hb. destruct b; cbn [negb].
    + apply wp_bind, wp_lift. rewrite store_zeros by lia. apply owp_done, wp_bind, wp_set_p, wp_ret.
      split; [etrans; [exact (changes_nil _ _ _ C)|apply changes_upd]|].
      left. rewrite obj_upd, E. done.
    + apply wp_ret. split; [exact (changes_nil _ _ _ C)|]. right. rewrite E.
      split; [done|]. split; [left; auto|done].
  - apply wp_ret. split; [done|]. left. split; [done|]. split; [done|]. unfold grown.
    replace (Z.to_nat _) with O by lia. rewrite app_nil_r. by destruct (bn_obj s X).
Qed.

Definition copied (px py : list Z) : list Z :=
  match py with [] => [] | _ => grown (zlen px) (take (Nat.max 1 (sig py)) py) end.

Lemma limbs_take_sig p n : (sig p <= n)%nat -> limbs (take n p) = limbs p.
Proof.
  intros Hn. rewrite <- (sig_take (take n p)).
  transitivity (limbs (take (sig p) p ++ take (n - sig p) (drop (sig p) p))).
  - rewrite sig_take, <- (take_drop (sig p) (take n p)), take_take, Nat.min_l, skipn_firstn_comm by done. done.
  - rewrite sig_drop, take_replicate, limbs_app_zeros. apply sig_take.
Qed.

Lemma copied_limbs px py : limbs (copied px py) = limbs py.
Proof. destruct py; [done|]. unfold copied. rewrite grown_limbs. apply limbs_take_sig. lia. Qed.

Lemma copied_ok px py : Forall limb_ok py -> Forall limb_ok (copied px py).
Proof. intros H. destruct py; [done|]. by apply grown_ok, Forall_take. Qed.

Lemma copied_zlen px py : py <> [] -> zlen (copied px py) = Z.max (zlen px) (Z.of_nat (Nat.max 1 (sig py))).
Proof.
  intros H. destruct py as [|y py]; [done|]. unfold copied. rewrite grown_zlen. f_equal. unfold zlen.
  rewrite length_take. pose proof (sig_le (y :: py)). cbn [length] in *. lia.
Qed.

Lemma wp_free md X (Q : unit -> bn -> Prop) s : Q tt (upd X (mkMpi 1 []) s) -> wp md (mbedtls_mpi_free X) Q s.
Proof. done. Qed.
Lemma wp_init md X (Q : unit -> bn -> Prop) s : Q tt (upd X (mkMpi 1 []) s) -> wp md (mbedtls_mpi_init X) Q s.
Proof. done. Qed.

Lemma load_list_take (p : list Z) n : (n <= length p)%nat -> load_list p 0 (Z.of_nat n) = Done (take n p).
Proof.
  intros H. unfold load_list, zlen. destruct (_ && _) eqn:E; [|lia]. by rewrite Nat2Z.id.
Qed.

Lemma copy_spec X Y s : X <> Y -> mpi_ok (bn_obj s Y) ->
  wp exact (mbedtls_mpi_copy X Y) (fun r s' => changes [X] s s' /\
    ((r = 0 /\ bn_obj s' X = mkMpi (match mpi_p (bn_obj s Y) with [] => 1 | _ => mpi_s (bn_obj s Y) end)
                                (copied (mpi_p (bn_obj s X)) (mpi_p (bn_obj s Y)))) \/
     (r = MBEDTLS_ERR_MPI_ALLOC_FAILED /\ bn_calloc s <> [] /\
      bn_obj s' X = mkMpi (mpi_s (bn_obj s Y)) (mpi_p (bn_obj s X))))) s.
Proof.
  intros HXY (_ & _ & HY). unfold mbedtls_mpi_copy. destruct (Nat.eqb_spec X Y) as [|_]; [done|].
  apply wp_bind, wp_mpi_at. destruct (mpi_p (bn_obj s Y)) as [|y py] eqn:E.
  { apply wp_bind, wp_free, wp_ret. split; [apply changes_upd|left]. by rewrite obj_upd. }
  rewrite <- E in *. apply wp_bind, wp_lift. rewrite last_limb_all.
  apply owp_done, wp_bind, wp_set_s, wp_chk. set (sg := Nat.max 1 (sig (mpi_p (bn_obj s Y)))).
  assert (Hsg : Z.of_nat (pred (sig (mpi_p (bn_obj s Y)))) + 1 = Z.of_nat sg) by lia. rewrite Hsg.
  assert (Hle : (sg <= length (mpi_p (bn_obj s Y)))%nat).
  { pose proof (sig_le (mpi_p (bn_obj s Y))). rewrite E in *. cbn [length] in *. lia. }
  eapply wp_mono; [apply grow_spec|]. cbn beta. intros r s1 [C H]. rewrite !obj_upd in H. cbn [mpi_s mpi_p] in H.
  assert (C' : changes [X] s s1) by (etrans; [apply changes_upd|exact C]).
  destruct H as [(-> & H1 & H2)|(-> & [H1|H1] & H2)].
  - change (0 =? 0) with true. cbv iota. apply wp_bind, wp_size_of, wp_bind, wp_lift. rewrite H2. cbn [mpi_p].
    rewrite load_list_take by done. apply owp_done, wp_bind, wp_lift.
    assert (Hz : zlen (take sg (mpi_p (bn_obj s Y))) = Z.of_nat sg) by (unfold zlen; rewrite length_take; lia).
    rewrite store_zeros by (rewrite grown_zlen; lia). apply owp_done, wp_bind, wp_set_p, wp_ret.
    split; [etrans; [exact C'|apply changes_upd]|]. left. split; [done|]. rewrite obj_upd, H2. cbn [mpi_s].
    replace (match mpi_p (bn_obj s Y) with [] => 1 | _ => mpi_s (bn_obj s Y) end) with (mpi_s (bn_obj s Y)) by (by rewrite E).
    f_equal. transitivity (grown (zlen (mpi_p (bn_obj s X))) (take sg (mpi_p (bn_obj s Y)))).
    + unfold grown at 1 3. rewrite grown_zlen, Hz. do 2 f_equal. lia.
    + unfold copied, sg. by rewrite E.
  - split; [done|]. right. done.
  - unfold zlen in HY. lia.
Qed.

Lemma lset_spec X z s : - 9223372036854775808 < z < 9223372036854775808 -> mpi_ok (bn_obj s X) ->
  wp exact (mbedtls_mpi_lset X z) (fun r s' => changes [X] s s' /\
    ((r = 0 /\ bn_obj s' X = mkMpi (sint_sign z) (Z.abs z :: replicate (pred (length (mpi_p (bn_obj s X)))) 0)) \/
     (r = MBEDTLS_ERR_MPI_ALLOC_FAILED /\ bn_calloc s <> [] /\ bn_obj s' X = bn_obj s X))) s.
Proof.
  intros Hz (_ & _ & HX). unfold mbedtls_mpi_lset. apply wp_chk. eapply wp_mono; [apply grow_spec|]. cbn beta.
  intros r s1 [C H]. destruct H as [(-> & H1 & H2)|(-> & [H1|H1] & H2)].
  - change (0 =? 0) with true. cbv iota. apply wp_bind, wp_size_of, wp_bind, wp_set_p.
    rewrite H2. cbn [mpi_p mpi_s]. apply wp_bind.
    apply (wp_set_limb exact X 0 (sint_abs z)); rewrite obj_upd; cbn [mpi_p mpi_s].
    { rewrite length_replicate, grown_zlen. lia. }
    apply wp_bind, wp_set_s, wp_ret. rewrite !obj_upd. cbn [mpi_p].
    split; [etrans; [exact C|]; do 2 (etrans; [apply changes_upd|]); apply changes_upd|].
    left. split; [done|]. f_equal. rewrite grown_zlen.
    replace (Z.to_nat _) with (S (pred (length (mpi_p (bn_obj s X))))) by (unfold zlen; lia).
    cbn [replicate]. change (sint_abs z :: replicate (pred (length (mpi_p (bn_obj s X)))) 0 = Z.abs z :: replicate (pred (length (mpi_p (bn_obj s X)))) 0). f_equal.
    unfold sint_abs. rewrite u64_id; destruct (Z.ltb_spec z 0); lia.
  - split; [done|]. right. done.
  - unfold MBEDTLS_MPI_MAX_LIMBS in H1. lia.
Qed.

(** ** Bits *)

(** The number of bits of a non-negative integer. *)
Definition bits (v : Z) : Z := if v =? 0 then 0 else Z.log2 v + 1.

Lemma bits_spec v : 0 <= v -> v < 2 ^ bits v /\ (0 < v -> 0 < bits v /\ 2 ^ (bits v - 1) <= v).
Proof.
  intros Hv. unfold bits. destruct (Z.eqb_spec v 0) as [->|]; [split; [done|lia]|].
  pose proof (Z.log2_spec v ltac:(lia)). pose proof (Z.log2_nonneg v).
  replace (Z.log2 v + 1 - 1) with (Z.log2 v) by lia. rewrite Z.add_1_r. lia.
Qed.

Lemma bits_unique v b : 0 <= b -> 0 <= v < 2 ^ b -> (0 < b -> 2 ^ (b - 1) <= v) -> bits v = b.
Proof.
  intros Hb Hv H. unfold bits. destruct (Z.eqb_spec v 0) as [->|].
  - destruct (decide (0 < b)) as [Hp|]; [|lia]. specialize (H Hp).
    pose proof (Z.pow_pos_nonneg 2 (b - 1)). lia.
  - assert (0 < b). { destruct (decide (b = 0)) as [->|]; [|lia]. change (2 ^ 0) with 1 in Hv. lia. }
    rewrite (Z.log2_unique v (b - 1)); [lia..|]. rewrite <- Z.add_1_r. replace (b - 1 + 1) with b by lia.
    split; [by apply H|lia].
Qed.

Lemma bits_le v b : 0 <= v < 2 ^ b -> 0 <= b -> bits v <= b.
Proof.
  intros Hv Hb. unfold bits. destruct (Z.eqb_spec v 0) as [->|]; [lia|].
  enough (Z.log2 v < b) by lia. apply Z.log2_lt_pow2; lia.
Qed.

Lemma bits_nonneg v : 0 <= bits v.
Proof. unfold bits. destruct (v =? 0); [lia|]. pose proof (Z.log2_nonneg v). lia. Qed.

Lemma land_bit x n : 0 <= n -> Z.land x (2 ^ n) = if Z.testbit x n then 2 ^ n else 0.
Proof.
  intros Hn. apply Z.bits_inj'. intros k Hk. rewrite Z.land_spec, Z.pow2_bits_eqb by lia.
  destruct (Z.eqb_spec n k) as [->|Hne].
  - destruct (Z.testbit x k) eqn:E; cbn; [by rewrite Z.pow2_bits_true|by rewrite Z.bits_0].
  - rewrite andb_false_r. destruct (Z.testbit x n); [by rewrite Z.pow2_bits_false|by rewrite Z.bits_0].
Qed.

Lemma clz_from_spec n : forall x j, 0 <= x < 2 ^ Z.of_nat n ->
  clz_from n x (2 ^ (Z.of_nat n - 1)) j = j + Z.of_nat n - bits x.
Proof.
  induction n as [|n IH]; intros x j Hx; cbn [clz_from].
  { change (2 ^ Z.of_nat 0) with 1 in Hx. assert (x = 0) as -> by lia. change (bits 0) with 0. lia. }
  replace (Z.of_nat (S n) - 1) with (Z.of_nat n) by lia. rewrite land_bit by lia.
  assert (Hb : Z.testbit x (Z.of_nat n) = (2 ^ Z.of_nat n <=? x)).
  { rewrite Nat2Z.inj_succ, Z.pow_succ_r in Hx by lia. rewrite Z.testbit_eqb by lia.
    destruct (Z.leb_spec (2 ^ Z.of_nat n) x).
    - replace (x / 2 ^ Z.of_nat n) with 1; [done|]. apply (Z.div_unique _ _ _ (x - 2 ^ Z.of_nat n)); lia.
    - by rewrite Z.div_small by lia. }
  rewrite Hb. destruct (Z.leb_spec (2 ^ Z.of_nat n) x).
  - destruct (Z.eqb_spec (2 ^ Z.of_nat n) 0); [lia|]. rewrite (bits_unique x (Z.of_nat (S n))); [lia..|].
    intros _. by replace (Z.of_nat (S n) - 1) with (Z.of_nat n) by lia.
  - change (0 =? 0) with true. cbv iota. destruct n as [|n].
    { change (2 ^ Z.of_nat 0) with 1 in *. assert (x = 0) as -> by lia. cbn [clz_from]. change (bits 0) with 0. lia. }
    rewrite <- Z.div2_spec, Z.div2_div. replace (2 ^ Z.of_nat (S n) / 2) with (2 ^ (Z.of_nat (S n) - 1)).
    { rewrite IH by lia. lia. }
    replace (Z.of_nat (S n)) with (Z.of_nat (S n) - 1 + 1) at 2 by lia.
    rewrite Z.pow_add_r, Z.pow_1_r, Z.div_mul by lia. done.
Qed.

Lemma clz_spec x : limb_ok x -> mbedtls_clz x = 64 - bits x.
Proof.
  intros H. unfold mbedtls_clz. change (Z.shiftl 1 (biL - 1)) with (2 ^ (Z.of_nat 64 - 1)).
  change (Z.to_nat biL) with 64%nat. rewrite clz_from_spec; [done|exact H].
Qed.

Lemma limb_lookup p (i : nat) x : Forall limb_ok p -> p !! i = Some x -> limb_ok x.
Proof. intros H Hi. eapply (Forall_lookup_1 _ _ _ _ H Hi). Qed.

Lemma bits_limbs p : Forall limb_ok p -> forall x, p !! pred (sig p) = Some x ->
  bits (limbs p) = Z.of_nat (pred (sig p)) * 64 + bits x.
Proof.
  intros Hp x Hx. pose proof (limb_lookup _ _ _ Hp Hx) as Hxo. pose proof (limbs_lookup _ _ _ Hx) as E.
  pose proof (sig_drop p) as Hd. destruct (sig p) as [|n] eqn:Es.
  { pose proof (sig_bound p Hp) as [H _]. rewrite Es in H. change (base ^ Z.of_nat 0) with 1 in H.
    pose proof (limbs_bound p Hp). assert (limbs p = 0) as -> by lia. cbn [pred] in *.
    rewrite drop_0 in Hd. rewrite Hd in Hx. apply lookup_replicate in Hx as [-> _]. done. }
  cbn [pred] in *. rewrite Hd, limbs_zeros in E.
  pose proof (limbs_bound _ (Forall_take _ n _ Hp)) as Hb.
  assert (zlen (take n p) = Z.of_nat n) as Hz.
  { unfold zlen. apply lookup_lt_Some in Hx. rewrite length_take. lia. }
  rewrite Hz in Hb. destruct (bits_spec x) as [B1 B2]; [unfold limb_ok in Hxo; lia|].
  assert (Hpw : base ^ Z.of_nat n = 2 ^ (Z.of_nat n * 64)).
  { change base with (2 ^ 64). rewrite <- Z.pow_mul_r by lia. f_equal. lia. }
  assert (Hx0 : 0 < x).
  { pose proof (sig_bound p Hp) as [_ H]. rewrite Es in H. specialize (H ltac:(lia)).
    replace (Z.of_nat (S n) - 1) with (Z.of_nat n) in H by lia. unfold limb_ok in Hxo.
    destruct (decide (x = 0)) as [->|]; [lia|lia]. }
  destruct B2 as [B2 B3]; [done|]. pose proof (Z.pow_pos_nonneg 2 (Z.of_nat n * 64)).
  apply bits_unique; [lia| |]; rewrite E, Z.mul_0_r, Z.add_0_r, Hpw in *.
  - rewrite Z.pow_add_r by lia. nia.
  - intros _. replace (Z.of_nat n * 64 + bits x - 1) with (Z.of_nat n * 64 + (bits x - 1)) by lia.
    rewrite Z.pow_add_r by lia. nia.
Qed.

Lemma wp_bitlen md X (Q : Z -> bn -> Prop) s : mpi_ok (bn_obj s X) ->
  Q (bits (magnitude (bn_obj s X))) s -> wp md (mbedtls_mpi_bitlen X) Q s.
Proof.
  intros (_ & Hp & _) HQ. unfold mbedtls_mpi_bitlen, magnitude in *. apply wp_bind, wp_mpi_at.
  destruct (mpi_p (bn_obj s X)) as [|y p] eqn:E; [exact HQ|]. rewrite <- E in *.
  apply wp_bind, wp_lift. rewrite last_limb_all. apply owp_done.
  destruct (lookup_lt_is_Some_2 (mpi_p (bn_obj s X)) (pred (sig (mpi_p (bn_obj s X))))) as [x Hx].
  { pose proof (sig_le (mpi_p (bn_obj s X))). rewrite E in *. cbn [length] in *. lia. }
  apply wp_bind. eapply wp_limb; [exact Hx|]. apply wp_ret.
  rewrite clz_spec by (by eapply limb_lookup). unfold biL.
  replace (64 - (64 - bits x)) with (bits x) by lia. by rewrite <- bits_limbs.
Qed.

Definition byte_size (v : Z) : Z := (bits v + 7) / 8.

Lemma wp_size md X (Q : Z -> bn -> Prop) s : mpi_ok (bn_obj s X) ->
  Q (byte_size (magnitude (bn_obj s X))) s -> wp md (mbedtls_mpi_size X) Q s.
Proof.
  intros HX HQ. unfold mbedtls_mpi_size. apply wp_bind, wp_bitlen; [done|]. apply wp_ret.
  rewrite Z.shiftr_div_pow2 by lia. exact HQ.
Qed.

(** ** Big-endian bytes *)

Fixpoint be_acc (l : bytes) (v : Z) : Z := match l with [] => v | b :: l => be_acc l (v * 256 + b) end.
(** The integer that the bytes spell, most significant byte first. *)
Definition be_val (l : bytes) : Z := be_acc l 0.
Fixpoint be_bytes (n : nat) (v : Z) : bytes :=
  match n with O => [] | S n => be_bytes n (v / 256) ++ [v mod 256] end.

Lemma be_acc_app l1 l2 v : be_acc (l1 ++ l2) v = be_acc l2 (be_acc l1 v).
Proof. revert v. induction l1 as [|b l1 IH]; intros v; cbn [app be_acc]; auto. Qed.

Lemma be_acc_val l v : be_acc l v = v * 256 ^ zlen l + be_val l.
Proof.
  unfold be_val. revert v. induction l as [|b l IH]; intros v; cbn [be_acc].
  { change (256 ^ zlen (@nil Z)) with 1. lia. }
  rewrite (IH (v * 256 + b)), (IH (0 * 256 + b)), zlen_cons, Z.pow_add_r, Z.pow_1_r by (try apply zlen_nonneg; lia).
  ring.
Qed.

Lemma be_val_cons b l : be_val (b :: l) = b * 256 ^ zlen l + be_val l.
Proof. unfold be_val at 1. cbn [be_acc]. by rewrite be_acc_val. Qed.

Lemma be_val_snoc l b : be_val (l ++ [b]) = be_val l * 256 + b.
Proof. unfold be_val. by rewrite be_acc_app. Qed.

Lemma be_val_bound l : Forall is_byte l -> 0 <= be_val l < 256 ^ zlen l.
Proof.
  induction 1 as [|b l Hb _ IH]; [done|]. rewrite be_val_cons, zlen_cons.
  pose proof (zlen_nonneg l). rewrite Z.pow_add_r, Z.pow_1_r by lia. unfold is_byte in Hb. nia.
Qed.

Lemma be_bytes_length n v : length (be_bytes n v) = n.
Proof. revert v. induction n as [|n IH]; intros v; [done|]. cbn. rewrite length_app, IH. cbn. lia. Qed.

Lemma be_bytes_ok n v : Forall is_byte (be_bytes n v).
Proof.
  revert v. induction n as [|n IH]; intros v; cbn; [done|]. apply Forall_app. split; [done|].
  constructor; [by apply Z.mod_pos_bound|done].
Qed.

Lemma be_val_bytes n v : be_val (be_bytes n v) = v mod 256 ^ Z.of_nat n.
Proof.
  revert v. induction n as [|n IH]; intros v; [by rewrite Z.mod_1_r|]. cbn [be_bytes].
  rewrite be_val_snoc, IH, Nat2Z.inj_succ, Z.pow_succ_r by lia.
  pose proof (Z.pow_pos_nonneg 256 (Z.of_nat n) ltac:(lia) ltac:(lia)). rewrite Z.rem_mul_r by lia. lia.
Qed.

Lemma be_bytes_val l : Forall is_byte l -> be_bytes (length l) (be_val l) = l.
Proof.
  induction l as [|b l IH] using rev_ind; intros H; [done|]. apply Forall_app in H as [Hl Hb].
  inversion Hb as [|?? Hb' _]; subst. unfold is_byte in Hb'. rewrite length_app, Nat.add_comm, be_val_snoc. cbn.
  rewrite Z.div_add_l, (Z.div_small b), Z.add_0_r by lia.
  rewrite IH by done. f_equal. f_equal. rewrite Z.add_comm, Z.mod_add, Z.mod_small by lia. done.
Qed.

Lemma wp_leading_zeros md (Q : Z -> Prop) buf : forall k n, n + Z.of_nat k <= zlen buf -> 0 <= n ->
  Forall (fun b => b = 0) (take (Z.to_nat n) buf) ->
  (forall i, n <= i <= n + Z.of_nat k -> Forall (fun b => b = 0) (take (Z.to_nat i) buf) -> Q i) ->
  owp md (leading_zeros k buf n) Q.
Proof.
  induction k as [|k IH]; intros n Hn H0 Hz HQ; cbn [leading_zeros]; [apply HQ; [lia|done]|].
  destruct (load_in buf n) as [b Hb]; [lia|]. rewrite Hb. cbn [obind]. apply load_Done in Hb as [_ Hb].
  destruct (Z.eqb_spec b 0) as [->|]; [|apply HQ; [lia|done]].
  apply IH; [lia|lia| |].
  - replace (Z.to_nat (n + 1)) with (S (Z.to_nat n)) by lia. rewrite (take_S_r _ _ _ Hb).
    apply Forall_app. split; [done|]. by constructor.
  - intros i Hi. apply HQ. lia.
Qed.

Lemma be_val_zeros l : Forall (fun b => b = 0) l -> be_val l = 0.
Proof. induction 1 as [|b l -> _ IH]; [done|]. by rewrite be_val_cons, IH. Qed.

(** One more byte from the right. *)
Lemma be_val_drop_pred (l : bytes) n b : (S n <= length l)%nat -> l !! n = Some b ->
  be_val (drop n l) = b * 256 ^ (zlen l - Z.of_nat n - 1) + be_val (drop (S n) l).
Proof.
  intros Hn Hb. rewrite (drop_S l b n Hb), be_val_cons. do 3 f_equal.
  unfold zlen. rewrite length_drop. lia.
Qed.

Lemma pow256 j : 0 <= j -> 256 ^ j = base ^ (j / 8) * 2 ^ (j mod 8 * 8).
Proof.
  intros Hj. pose proof (Z.div_mod j 8 ltac:(lia)). pose proof (Z.mod_pos_bound j 8 ltac:(lia)).
  pose proof (Z.div_pos j 8 Hj ltac:(lia)).
  change 256 with (2 ^ 8). change base with (2 ^ 64). rewrite <- !Z.pow_mul_r, <- Z.pow_add_r by lia. f_equal. lia.
Qed.

Lemma limb_small p (i : nat) x n : Forall limb_ok p -> p !! i = Some x -> 0 <= n ->
  limbs p < base ^ Z.of_nat i * 2 ^ n -> 0 <= x < 2 ^ n.
Proof.
  intros Hp Hi Hn H. rewrite (limbs_lookup p i x Hi) in H.
  pose proof (limbs_bound _ (Forall_take _ i _ Hp)). pose proof (limbs_bound _ (Forall_drop _ (S i) _ Hp)).
  pose proof (base_pow_pos (Z.of_nat i) ltac:(lia)). pose proof (limb_lookup _ _ _ Hp Hi) as Hx.
  unfold limb_ok, base in *. split; [lia|]. nia.
Qed.

Lemma chars_to_limbs_spec n : 0 <= n -> 8 * (CHARS_TO_LIMBS n - 1) < n <= 8 * CHARS_TO_LIMBS n /\ 0 <= CHARS_TO_LIMBS n.
Proof.
  intros Hn. unfold CHARS_TO_LIMBS, ciL. pose proof (Z.div_mod n 8 ltac:(lia)).
  pose proof (Z.mod_pos_bound n 8 ltac:(lia)). pose proof (Z.div_pos n 8 Hn ltac:(lia)).
  destruct (Z.eqb_spec (n mod 8) 0); lia.
Qed.

Lemma byte_in_limb b j : is_byte b -> 0 <= j ->
  u64 (Z.shiftl b (Z.shiftl (j mod ciL) 3)) = b * 2 ^ (j mod 8 * 8) /\
  0 <= b * 2 ^ (j mod 8 * 8) <= (2 ^ 8 - 1) * 2 ^ (j mod 8 * 8).
Proof.
  intros Hb Hj. unfold ciL. pose proof (Z.mod_pos_bound j 8 ltac:(lia)) as Hm.
  rewrite (Z.shiftl_mul_pow2 _ 3) by lia. change (2 ^ 3) with 8. rewrite Z.shiftl_mul_pow2 by lia.
  pose proof (Z.pow_pos_nonneg 2 (j mod 8 * 8) ltac:(lia) ltac:(lia)) as Hp.
  assert (Hle : (2 ^ 8 - 1) * 2 ^ (j mod 8 * 8) < 18446744073709551616).
  { assert (2 ^ (j mod 8 * 8) <= 2 ^ 56) by (apply Z.pow_le_mono_r; lia). lia. }
  unfold is_byte in Hb. change (2 ^ 8) with 256 in *. rewrite u64_id; [split; [done|nia]|nia].
Qed.

(** One round of the loop of [mbedtls_mpi_read_binary]. *)
Lemma put_byte p j b : Forall limb_ok p -> 0 <= j < 8 * zlen p -> is_byte b -> limbs p < 256 ^ j ->
  exists x, p !! Z.to_nat (j / 8) = Some x /\
    let y := Z.lor x (u64 (Z.shiftl b (Z.shiftl (j mod ciL) 3))) in
    limb_ok y /\ limbs (<[Z.to_nat (j / 8) := y]> p) = b * 256 ^ j + limbs p.
Proof.
  intros Hp Hj Hb Hl. destruct (byte_in_limb b j Hb ltac:(lia)) as [E1 E2].
  pose proof (Z.mod_pos_bound j 8 ltac:(lia)) as Hm. pose proof (Z.div_mod j 8 ltac:(lia)) as Hd.
  assert (Hi : 0 <= j / 8 < zlen p) by lia.
  destruct (lookup_lt_is_Some_2 p (Z.to_nat (j / 8))) as [x Hx]; [unfold zlen in Hi; lia|].
  exists x. split; [done|]. cbv zeta. rewrite E1.
  pose proof (pow256 j ltac:(lia)) as Hpow. rewrite Hpow in *. rewrite <- (Z2Nat.id (j / 8)) in Hl by lia.
  pose proof (limb_small p _ x (j mod 8 * 8) Hp Hx ltac:(lia) Hl) as Hsm.
  rewrite lor_add by lia. split.
  - unfold limb_ok. assert (2 ^ (j mod 8 * 8) <= 2 ^ 56) by (apply Z.pow_le_mono_r; lia). unfold base. lia.
  - rewrite (limbs_insert p _ x) by done. rewrite Z2Nat.id by lia. ring.
Qed.

(** The loop of [mbedtls_mpi_read_binary] puts the bytes of [d] into zeroed limbs. *)
Lemma put_bytes (d buf : bytes) (z : nat) X s q : Forall is_byte d -> d = take (length d) buf -> (z <= length d)%nat ->
  bn_obj s X = mkMpi 1 q -> Forall limb_ok q -> limbs q = 0 -> Z.of_nat (length d - z) <= 8 * zlen q ->
  wp exact (mfor (length d - z) 0 (fun j _ =>
      do! b := lift (load buf (zlen d - j - 1)) in
      do! x := limb X (j / ciL) in
      set_limb X (j / ciL) (Z.lor x (u64 (Z.shiftl b (Z.shiftl (j mod ciL) 3))))) tt)
    (fun _ s' => changes [X] s s' /\ exists p, bn_obj s' X = mkMpi 1 p /\ zlen p = zlen q /\
       Forall limb_ok p /\ limbs p = be_val (drop z d)) s.
Proof.
  intros Hd Eb Hz Eq Hq H0 Hl.
  apply (wp_mfor exact (fun j _ s' => changes [X] s s' /\ exists p, bn_obj s' X = mkMpi 1 p /\ zlen p = zlen q /\
       Forall limb_ok p /\ limbs p = be_val (drop (Z.to_nat (zlen d - j)) d))).
  - split; [done|]. exists q. do 3 (split; [done|]). rewrite H0, drop_ge; [done|]. unfold zlen. lia.
  - intros j _ s1 Hj (C & p & Ep & Lp & Hp & Vp).
    destruct (lookup_lt_is_Some_2 d (Z.to_nat (zlen d - j - 1))) as [b Hb]; [unfold zlen; lia|].
    assert (Hload : load buf (zlen d - j - 1) = Done b).
    { unfold load. destruct (Z.leb_spec 0 (zlen d - j - 1)); [|unfold zlen in *; lia].
      pose proof (f_equal (fun l => l !! Z.to_nat (zlen d - j - 1)) Eb) as E. cbn beta in E. rewrite Hb in E.
      symmetry in E. by apply lookup_take_Some in E as [-> _]. }
    pose proof (Forall_lookup_1 _ _ _ _ Hd Hb) as Hbb.
    assert (Hsmall : limbs p < 256 ^ j).
    { rewrite Vp. pose proof (be_val_bound _ (Forall_drop _ (Z.to_nat (zlen d - j)) _ Hd)) as Hbd.
      replace (zlen (drop _ d)) with j in Hbd by (unfold zlen in *; rewrite length_drop; lia). lia. }
    destruct (put_byte p j b Hp ltac:(lia) Hbb Hsmall) as (x & Hx & Hy & Vy).
    apply wp_bind, wp_lift. rewrite Hload. apply owp_done, wp_bind.
    pose proof (Z.div_pos j 8 ltac:(lia) ltac:(lia)) as Hdiv.
    replace (j / ciL) with (Z.of_nat (Z.to_nat (j / 8))) by (unfold ciL; lia).
    eapply wp_limb; [by rewrite Ep|]. apply wp_set_limb; rewrite Ep; cbn [mpi_p mpi_s].
    { by apply lookup_lt_Some in Hx. }
    split; [etrans; [exact C|apply changes_upd]|]. eexists. rewrite obj_upd. split; [done|].
    split; [unfold zlen; by rewrite length_insert|]. split; [by apply Forall_insert|].
    cbv zeta in Vy. rewrite Vy, Vp.
    replace (Z.to_nat (zlen d - j)) with (S (Z.to_nat (zlen d - j - 1))) by (unfold zlen in *; lia).
    replace (zlen d - (j + 1)) with (zlen d - j - 1) by lia.
    rewrite (be_val_drop_pred d (Z.to_nat (zlen d - j - 1)) b); [|unfold zlen in *; lia|done]. do 3 f_equal. unfold zlen in *; lia.
  - intros _ s1 (C & p & Ep & Lp & Hp & Vp). split; [done|]. exists p. do 3 (split; [done|]).
    rewrite Vp. do 2 f_equal. unfold zlen. lia.
Qed.

Lemma be_val_skip_zeros d z : Forall (fun b => b = 0) (take z d) -> be_val (drop z d) = be_val d.
Proof.
  intros H. rewrite <- (take_drop z d) at 2. unfold be_val. rewrite be_acc_app.
  change (be_acc (take z d) 0) with (be_val (take z d)). by rewrite be_val_zeros.
Qed.

Lemma read_binary_spec X buf n s : mpi_ok (bn_obj s X) -> Forall is_byte buf -> 0 <= n <= zlen buf ->
  wp exact (mbedtls_mpi_read_binary X buf n) (fun r s' => changes [X] s s' /\ mpi_ok (bn_obj s' X) /\
    ((r = 0 /\ mpi_s (bn_obj s' X) = 1 /\ magnitude (bn_obj s' X) = be_val (take (Z.to_nat n) buf)) \/
     (r = MBEDTLS_ERR_MPI_ALLOC_FAILED /\ short_of_memory (CHARS_TO_LIMBS n) s))) s.
Proof.
  intros HX Hbuf Hn. unfold mbedtls_mpi_read_binary. apply wp_bind, wp_lift.
  eapply owp_mono; [apply (wp_leading_zeros exact
    (fun z => 0 <= z <= n /\ Forall (fun b => b = 0) (take (Z.to_nat z) buf)));
    [lia|lia|done|intros i Hi Hz; split; [lia|done]]|].
  cbn beta. intros z [Hz Hzero]. pose proof (chars_to_limbs_spec (n - z) ltac:(lia)) as Hc.
  pose proof (chars_to_limbs_spec n ltac:(lia)) as Hcn. destruct HX as (Hs & Hp & Hmax).
  apply wp_chk. eapply wp_mono; [apply grow_spec|]. cbn beta. intros r s1 [C1 [(-> & H1 & E1)|(-> & H1 & E1)]].
  2: { split; [done|]. rewrite E1. split; [done|]. right. split; [done|].
    destruct H1 as [H1|H1]; [by left|right; lia]. }
  change (0 =? 0) with true. cbv iota. apply wp_chk.
  assert (Hok1 : mpi_ok (bn_obj s1 X)).
  { rewrite E1. split; [done|]. split; [by apply grown_ok|]. cbn [mpi_p]. rewrite grown_zlen. lia. }
  eapply wp_mono; [apply lset_spec; [lia|done]|]. cbn beta. intros r s2 [C2 [(-> & E2)|(-> & H2 & E2)]].
  2: { split; [by etrans|]. rewrite E2. split; [done|]. right. split; [done|]. left. intros H. by apply H2, C1. }
  change (0 =? 0) with true. cbv iota. apply wp_bind.
  set (d := take (Z.to_nat n) buf). assert (Hd : length d = Z.to_nat n) by (unfold d, zlen in *; rewrite length_take; lia).
  assert (Hdz : Z.of_nat (length d) = n) by lia.
  rewrite E1 in E2. cbn [mpi_p] in E2. change (sint_sign 0) with 1 in E2. change (Z.abs 0) with 0 in E2.
  set (q := 0 :: replicate _ 0) in E2.
  assert (Lq : zlen q = Z.max 1 (zlen (grown (CHARS_TO_LIMBS (n - z)) (mpi_p (bn_obj s X))))).
  { unfold q, zlen. cbn [length]. rewrite length_replicate. lia. }
  rewrite grown_zlen in Lq.
  replace (Z.to_nat (n - z)) with (length d - Z.to_nat z)%nat by lia.
  replace (fun j (_ : unit) => bind (lift (load buf (n - j - 1))) _) with
    (fun j (_ : unit) => bind (lift (load buf (zlen d - j - 1))) (fun b => bind (limb X (j / ciL)) (fun x =>
      set_limb X (j / ciL) (Z.lor x (u64 (Z.shiftl b (Z.shiftl (j mod ciL) 3))))))) by (unfold zlen; by rewrite Hdz).
  eapply wp_mono; [apply (put_bytes d buf (Z.to_nat z) X s2 q)|].
  - by apply Forall_take.
  - unfold d at 1. by rewrite Hd.
  - lia.
  - exact E2.
  - constructor; [done|apply zeros_ok].
  - unfold q. cbn [limbs]. by rewrite limbs_zeros.
  - rewrite Lq. lia.
  - cbn beta. intros _ s3 (C3 & p & E3 & L3 & Hp3 & V3). apply wp_ret. split; [by do 2 (etrans; [eassumption|])|].
    rewrite E3. unfold mpi_ok, magnitude. cbn [mpi_s mpi_p]. split; [split; [by left|]; split; [done|]|].
    + rewrite L3, Lq. unfold MBEDTLS_MPI_MAX_LIMBS in *. lia.
    + left. split; [done|]. split; [done|]. rewrite V3. apply be_val_skip_zeros. unfold d.
      rewrite take_take, Nat.min_l by lia. exact Hzero.
Qed.

Lemma limbs_div p (i : nat) x : Forall limb_ok p -> p !! i = Some x ->
  limbs p / base ^ Z.of_nat i = x + base * limbs (drop (S i) p).
Proof.
  intros Hp Hi. rewrite (limbs_lookup p i x Hi).
  pose proof (limbs_bound _ (Forall_take _ i _ Hp)) as Hb.
  assert (zlen (take i p) = Z.of_nat i) as Hz.
  { unfold zlen. apply lookup_lt_Some in Hi. rewrite length_take. lia. }
  rewrite Hz in Hb. rewrite Z.mul_comm, Z.div_add, Z.div_small by lia. lia.
Qed.

Lemma get_byte p j x : Forall limb_ok p -> 0 <= j -> p !! Z.to_nat (j / 8) = Some x ->
  u8 (Z.shiftr x (Z.shiftl (j mod ciL) 3)) = limbs p / 256 ^ j mod 256.
Proof.
  intros Hp Hj Hx. unfold ciL. pose proof (Z.mod_pos_bound j 8 ltac:(lia)) as Hm.
  pose proof (Z.div_pos j 8 ltac:(lia) ltac:(lia)) as Hd.
  rewrite (Z.shiftl_mul_pow2 _ 3) by lia. change (2 ^ 3) with 8. rewrite Z.shiftr_div_pow2 by lia.
  pose proof (Z.pow_pos_nonneg 2 (j mod 8 * 8) ltac:(lia) ltac:(lia)) as Hpos.
  rewrite pow256 by lia. pose proof (base_pow_pos (j / 8) ltac:(lia)).
  rewrite <- Z.div_div by lia. rewrite <- (Z2Nat.id (j / 8)) at 1 by lia. rewrite (limbs_div _ _ _ Hp Hx).
  change base with (2 ^ 64). replace (2 ^ 64) with (2 ^ (64 - j mod 8 * 8) * 2 ^ (j mod 8 * 8)).
  2: { rewrite <- Z.pow_add_r by lia. f_equal. lia. }
  replace (x + _) with (x + 2 ^ (64 - j mod 8 * 8) * limbs (drop (S (Z.to_nat (j / 8))) p) * 2 ^ (j mod 8 * 8)) by ring.
  rewrite Z.div_add by lia. replace (64 - j mod 8 * 8) with (56 - j mod 8 * 8 + 8) by lia.
  rewrite Z.pow_add_r by lia. change (2 ^ 8) with 256. unfold u8.
  replace (x / _ + _) with (x / 2 ^ (j mod 8 * 8) + 2 ^ (56 - j mod 8 * 8) * limbs (drop (S (Z.to_nat (j / 8))) p) * 256) by ring.
  by rewrite Z.mod_add by lia.
Qed.

Lemma be_bytes_front n v : be_bytes (S n) v = v / 256 ^ Z.of_nat n mod 256 :: be_bytes n v.
Proof.
  revert v. induction n as [|n IH]; intros v.
  - cbn. by rewrite Z.div_1_r.
  - change (be_bytes (S (S n)) v) with (be_bytes (S n) (v / 256) ++ [v mod 256]). rewrite IH. cbn [app be_bytes].
    f_equal. rewrite Nat2Z.inj_succ, Z.pow_succ_r, Z.div_div by lia. done.
Qed.

Lemma be_octets k v : be_bytes (S k) v = Z.land (Z.shiftr v (8 * Z.of_nat k)) 255 :: be_bytes k v.
Proof.
  rewrite be_bytes_front. f_equal. rewrite Z.shiftr_div_pow2 by lia. change 255 with (Z.ones 8). rewrite Z.land_ones by lia.
  by rewrite Z.pow_mul_r by lia.
Qed.

Lemma be_bytes_pad n k v : 0 <= v < 256 ^ Z.of_nat k -> (k <= n)%nat ->
  be_bytes n v = replicate (n - k) 0 ++ be_bytes k v.
Proof.
  intros Hv. induction 1 as [|n Hn IH]; [by rewrite Nat.sub_diag|].
  rewrite be_bytes_front, IH, Nat.sub_succ_l by lia. cbn [replicate app]. f_equal.
  rewrite Z.div_small; [done|]. split; [lia|]. eapply Z.lt_le_trans; [apply Hv|]. apply Z.pow_le_mono_r; lia.
Qed.

Lemma byte_size_spec v : 0 <= v -> v < 256 ^ byte_size v /\ 0 <= byte_size v /\ (0 < v -> 256 ^ (byte_size v - 1) <= v).
Proof.
  intros Hv. destruct (bits_spec v Hv) as [B1 B2]. pose proof (bits_nonneg v). unfold byte_size.
  pose proof (Z.div_mod (bits v + 7) 8 ltac:(lia)). pose proof (Z.mod_pos_bound (bits v + 7) 8 ltac:(lia)).
  pose proof (Z.div_pos (bits v + 7) 8 ltac:(lia) ltac:(lia)). change 256 with (2 ^ 8). split; [|split; [done|]].
  - rewrite <- Z.pow_mul_r by lia. eapply Z.lt_le_trans; [exact B1|]. apply Z.pow_le_mono_r; lia.
  - intros Hv0. destruct (B2 Hv0) as [B3 B4]. rewrite <- Z.pow_mul_r by lia.
    etrans; [|exact B4]. apply Z.pow_le_mono_r; lia.
Qed.

Lemma byte_size_limbs p : Forall limb_ok p -> byte_size (limbs p) <= 8 * zlen p.
Proof.
  intros Hp. pose proof (limbs_bound p Hp). pose proof (zlen_nonneg p).
  assert (bits (limbs p) <= 64 * zlen p).
  { apply bits_le; [|lia]. change base with (2 ^ 64) in *. rewrite <- Z.pow_mul_r in * by lia. lia. }
  unfold byte_size. pose proof (Z.div_mod (bits (limbs p) + 7) 8 ltac:(lia)).
  pose proof (Z.mod_pos_bound (bits (limbs p) + 7) 8 ltac:(lia)). lia.
Qed.

(** Only the memory written to is new. *)
Lemma write_binary_spec X buf n s : mpi_ok (bn_obj s X) -> 0 <= n <= zlen buf ->
  mbedtls_mpi_write_binary X buf n s = Done (
    if n <? byte_size (magnitude (bn_obj s X)) then (MBEDTLS_ERR_MPI_BUFFER_TOO_SMALL, buf)
    else (0, be_bytes (Z.to_nat n) (magnitude (bn_obj s X)) ++ drop (Z.to_nat n) buf), s).
Proof.
  intros HX Hn. apply wp_exact_eq. unfold mbedtls_mpi_write_binary. apply wp_bind, wp_size; [done|].
  destruct (Z.ltb_spec n (byte_size (magnitude (bn_obj s X)))) as [|Hsz]; [by apply wp_ret|].
  pose proof HX as (_ & Hp & _). unfold magnitude in *. set (p := mpi_p (bn_obj s X)) in *.
  pose proof (limbs_bound p Hp) as Hb. destruct (byte_size_spec (limbs p) ltac:(lia)) as (Hlt & H0 & _).
  pose proof (byte_size_limbs p Hp) as Hbl. set (k := byte_size (limbs p)) in *.
  apply wp_bind, wp_lift. rewrite store_zero by (unfold zlen in *; rewrite length_replicate; lia).
  rewrite length_replicate. apply owp_done, wp_bind.
  apply (wp_mfor exact (fun j b s' => s' = s /\
    b = replicate (Z.to_nat (n - j)) 0 ++ be_bytes (Z.to_nat j) (limbs p) ++ drop (Z.to_nat n) buf)).
  - split; [done|]. by rewrite Z.sub_0_r.
  - intros j b s1 Hj (-> & ->). pose proof (Z.div_mod j 8 ltac:(lia)). pose proof (Z.mod_pos_bound j 8 ltac:(lia)).
    pose proof (Z.div_pos j 8 ltac:(lia) ltac:(lia)).
    destruct (lookup_lt_is_Some_2 p (Z.to_nat (j / 8))) as [x Hx]; [unfold zlen in *; lia|].
    apply wp_bind. replace (j / ciL) with (Z.of_nat (Z.to_nat (j / 8))) by (unfold ciL; lia).
    eapply wp_limb; [exact Hx|]. apply wp_lift. rewrite (get_byte p j x Hp) by (done || lia).
    replace (Z.to_nat (n - j)) with (Z.to_nat (n - 1 - j) + 1)%nat by lia.
    rewrite replicate_add, <- app_assoc. cbn [replicate].
    replace (n - 1 - j) with (zlen (replicate (Z.to_nat (n - 1 - j)) 0)) at 2 by (unfold zlen; rewrite length_replicate; lia).
    rewrite (store_split _ [0] _ [_]) by done. apply owp_done. split; [done|].
    replace (n - (j + 1)) with (n - 1 - j) by lia. f_equal.
    replace (Z.to_nat (j + 1)) with (S (Z.to_nat j)) by lia.
    rewrite be_bytes_front, Z2Nat.id by lia. done.
  - intros b s1 (-> & ->). apply wp_ret. split; [|done]. f_equal. rewrite Z2Nat.id, Z.add_0_l by lia.
    rewrite (be_bytes_pad (Z.to_nat n) (Z.to_nat k)) by (rewrite ?Z2Nat.id; lia).
    rewrite <- app_assoc. do 2 f_equal. lia.
Qed.

(** ** Single bits *)

Lemma limbs_testbit p (i : nat) x k : Forall limb_ok p -> p !! i = Some x -> 0 <= k < 64 ->
  Z.testbit (limbs p) (64 * Z.of_nat i + k) = Z.testbit x k.
Proof.
  intros Hp Hi Hk. rewrite Z.add_comm, <- Z.div_pow2_bits by lia. rewrite Z.pow_mul_r by lia. change (2 ^ 64) with base.
  rewrite (limbs_div p i x Hp Hi). pose proof (limb_lookup _ _ _ Hp Hi) as Hx. unfold limb_ok in Hx.
  rewrite <- (Z.mod_pow2_bits_low (x + _) 64) by lia. change (2 ^ 64) with base.
  rewrite (Z.mul_comm base), Z.mod_add, Z.mod_small by (unfold base in *; lia). done.
Qed.

Lemma testbit_above v n k : 0 <= v < 2 ^ n -> n <= k -> Z.testbit v k = false.
Proof.
  intros Hv Hk. destruct (decide (0 <= n)); [|rewrite Z.pow_neg_r in Hv by lia; lia].
  rewrite <- (Z.mod_small v (2 ^ n)) by lia. apply Z.mod_pow2_bits_high. lia.
Qed.

Lemma limbs_testbit_above p k : Forall limb_ok p -> 64 * zlen p <= k -> Z.testbit (limbs p) k = false.
Proof.
  intros Hp Hk. pose proof (limbs_bound p Hp) as Hb. apply (testbit_above _ (64 * zlen p)); [|done].
  rewrite Z.pow_mul_r by (try apply zlen_nonneg; lia). exact Hb.
Qed.

Lemma shiftr_land_1 x k : 0 <= k -> Z.land (Z.shiftr x k) 1 = Z.b2z (Z.testbit x k).
Proof. intros Hk. change 1 with (Z.ones 1). by rewrite Z.land_ones, Z.testbit_spec' by lia; rewrite Z.shiftr_div_pow2 by lia. Qed.

Lemma get_bit_spec X pos s : mpi_ok (bn_obj s X) -> 0 <= pos ->
  mbedtls_mpi_get_bit X pos s = Done (Z.b2z (Z.testbit (magnitude (bn_obj s X)) pos), s).
Proof.
  intros (_ & Hp & _) Hpos. apply wp_exact_eq. unfold mbedtls_mpi_get_bit, magnitude. apply wp_bind, wp_size_of.
  unfold biL. set (p := mpi_p (bn_obj s X)) in *. destruct (Z.leb_spec (zlen p * 64) pos).
  { apply wp_ret. by rewrite limbs_testbit_above by (done || lia). }
  pose proof (Z.div_mod pos 64 ltac:(lia)). pose proof (Z.mod_pos_bound pos 64 ltac:(lia)).
  pose proof (Z.div_pos pos 64 ltac:(lia) ltac:(lia)).
  destruct (lookup_lt_is_Some_2 p (Z.to_nat (pos / 64))) as [x Hx]; [unfold zlen in *; lia|].
  apply wp_bind. rewrite <- (Z2Nat.id (pos / 64)) by lia. eapply wp_limb; [exact Hx|]. apply wp_ret.
  split; [|done]. rewrite shiftr_land_1 by lia. f_equal.
  rewrite <- (limbs_testbit p _ x (pos mod 64) Hp Hx) by lia. f_equal. lia.
Qed.

Lemma lsb_limb_spec n : forall x j, 0 <= j -> (forall i, 0 <= i < j -> Z.testbit x i = false) ->
  match lsb_limb n x j with
  | Some r => j <= r < j + Z.of_nat n /\ Z.testbit x r = true /\ forall i, 0 <= i < r -> Z.testbit x i = false
  | None => forall i, 0 <= i < j + Z.of_nat n -> Z.testbit x i = false
  end.
Proof.
  induction n as [|n IH]; intros x j Hj H; cbn [lsb_limb].
  { intros i Hi. apply H. lia. }
  rewrite shiftr_land_1 by lia. destruct (Z.testbit x j) eqn:E; cbn [Z.b2z].
  { change (1 =? 0) with false. cbv iota. split; [lia|done]. }
  change (0 =? 0) with true. cbv iota. specialize (IH x (j + 1) ltac:(lia)).
  assert (Hn : forall i, 0 <= i < j + 1 -> Z.testbit x i = false).
  { intros i Hi. destruct (decide (i = j)) as [->|]; [done|]. apply H. lia. }
  specialize (IH Hn). destruct (lsb_limb n x (j + 1)).
  - destruct IH as (? & ? & ?). split; [lia|done].
  - intros i Hi. apply IH. lia.
Qed.

Lemma lsb_from_spec p : Forall limb_ok p -> forall count,
  (limbs p = 0 /\ lsb_from p count = 0) \/
  (limbs p <> 0 /\ count <= lsb_from p count /\ Z.testbit (limbs p) (lsb_from p count - count) = true /\
   forall i, 0 <= i < lsb_from p count - count -> Z.testbit (limbs p) i = false).
Proof.
  induction 1 as [|x p Hx Hp IH]; intros count; cbn [lsb_from]; [by left|].
  pose proof (lsb_limb_spec 64 x 0 ltac:(lia) ltac:(lia)) as Hl. change (Z.to_nat biL) with 64%nat.
  assert (Hall : Forall limb_ok (x :: p)) by by constructor.
  destruct (lsb_limb 64 x 0) as [r|].
  - right. destruct Hl as (Hr & Ht & Hz).
    assert (Hlow : forall i, 0 <= i < 64 -> Z.testbit (limbs (x :: p)) i = Z.testbit x i).
    { intros i Hi. rewrite <- (limbs_testbit (x :: p) 0 x i Hall) by (done || lia). f_equal. }
    split; [|split; [lia|]].
    + intros E. assert (Z.testbit (limbs (x :: p)) r = true) as Hc by (rewrite Hlow by lia; done).
      rewrite E, Z.bits_0 in Hc. done.
    + replace (count + r - count) with r by lia. rewrite Hlow by lia. split; [done|].
      intros i Hi. rewrite Hlow by lia. by apply Hz.
  - assert (x = 0) as ->.
    { apply Z.bits_inj'. intros k Hk. rewrite Z.bits_0. destruct (decide (k < 64)); [apply Hl; lia|].
      apply (testbit_above _ 64); [exact Hx|lia]. }
    cbn [limbs]. unfold biL. destruct (IH (count + 64)) as [[E1 E2]|(E1 & E2 & E3 & E4)].
    + left. rewrite E1. done.
    + right. split; [unfold base; lia|]. split; [lia|].
      assert (Hhi : forall i, 64 <= i -> Z.testbit (0 + base * limbs p) i = Z.testbit (limbs p) (i - 64)).
      { intros i Hi. rewrite Z.add_0_l, Z.mul_comm. change base with (2 ^ 64). by rewrite Z.mul_pow2_bits by lia. }
      assert (Hlo : forall i, i < 64 -> Z.testbit (0 + base * limbs p) i = false).
      { intros i Hi. rewrite Z.add_0_l, Z.mul_comm. change base with (2 ^ 64). by apply Z.mul_pow2_bits_low. }
      rewrite Hhi by lia. split; [rewrite <- E3; f_equal; lia|].
      intros i Hi. destruct (decide (i < 64)); [by apply Hlo|]. rewrite Hhi by lia. apply E4. lia.
Qed.

Lemma shrink_spec X n s : mpi_ok (bn_obj s X) -> 0 <= n ->
  wp exact (mbedtls_mpi_shrink X n) (fun r s' => changes [X] s s' /\ mpi_ok (bn_obj s' X) /\
    mpi_val (bn_obj s' X) = mpi_val (bn_obj s X) /\
    ((r = 0 /\ n <= zlen (mpi_p (bn_obj s' X)) /\
      zlen (mpi_p (bn_obj s' X)) <= Z.max n (Z.max 1 (Z.of_nat (sig (mpi_p (bn_obj s X)))))) \/
     (r = MBEDTLS_ERR_MPI_ALLOC_FAILED /\ short_of_memory n s))) s.
Proof.
  intros HX Hn0. pose proof HX as (Hs & Hp & Hmax). unfold mbedtls_mpi_shrink. apply wp_bind, wp_mpi_at.
  set (p := mpi_p (bn_obj s X)) in *. destruct (Z.leb_spec (zlen p) n) as [Hn|Hn].
  - eapply wp_mono; [apply grow_spec|]. cbn beta. unfold mpi_val, magnitude, mpi_ok.
    intros r s1 [C [(-> & H1 & E)|(-> & H1 & E)]]; (split; [done|]); rewrite E; cbn [mpi_s mpi_p].
    + fold p. rewrite grown_limbs, grown_zlen. split; [split; [done|]; split; [by apply grown_ok|lia]|].
      split; [done|]. left. lia.
    + split; [done|]. split; [done|]. by right.
  - apply wp_bind, wp_lift. rewrite last_limb_all. apply owp_done. pose proof (sig_le p).
    pose proof (zlen_nonneg p). set (i := if _ <? n then n else _).
    assert (Hi : Z.of_nat (sig p) <= i <= zlen p /\ n <= i /\ i <= Z.max n (Z.max 1 (Z.of_nat (sig p)))).
    { unfold i, zlen in *. destruct (Z.ltb_spec (Z.of_nat (pred (sig p)) + 1) n); [lia|].
      lia. }
    clearbody i. apply wp_bind, wp_calloc. intros b s1 E C Hb. destruct b; cbn [negb].
    + apply wp_bind, wp_lift. rewrite <- (Z2Nat.id i) at 1 by lia.
      rewrite load_list_take by (unfold zlen in *; lia). apply owp_done, wp_bind, wp_lift.
      assert (Hz : zlen (take (Z.to_nat i) p) = i) by (unfold zlen in *; rewrite length_take; lia).
      rewrite store_zeros by lia. apply owp_done, wp_bind, wp_set_p, wp_ret.
      split; [etrans; [exact (changes_nil _ _ _ C)|apply changes_upd]|].
      rewrite obj_upd, E. unfold mpi_ok, mpi_val, magnitude. cbn [mpi_s mpi_p]. fold p.
      rewrite grown_limbs, limbs_take_sig, grown_zlen by lia. split; [|split; [done|left; lia]].
      split; [done|]. split; [by apply grown_ok, Forall_take|lia].
    + apply wp_ret. split; [exact (changes_nil _ _ _ C)|]. rewrite E. split; [done|]. split; [done|]. right.
      split; [done|left; auto].
Qed.

(** ** Round trip *)

(** C25: integers survive the way through big-endian bytes.  Exporting into a buffer of [n] bytes leaves the
    integer alone and either writes exactly [n] bytes, or, when the integer needs more, returns
    BUFFER_TOO_SMALL and writes nothing; importing these [n] bytes into any object gives the magnitude
    back, with sign 1, or fails with ALLOC_FAILED because memory is short; no other object changes, and no
    byte outside the buffer is touched. *)
Theorem mpi_binary_roundtrip (X Y : nat) (buf : bytes) (n : Z) (s : bn) :
  mpi_ok (bn_obj s X) -> mpi_ok (bn_obj s Y) -> Forall is_byte buf -> 0 <= n <= zlen buf ->
  exists r buf', mbedtls_mpi_write_binary X buf n s = Done ((r, buf'), s) /\
    ((r = MBEDTLS_ERR_MPI_BUFFER_TOO_SMALL /\ n < byte_size (magnitude (bn_obj s X)) /\ buf' = buf) \/
     (r = 0 /\ zlen buf' = zlen buf /\ drop (Z.to_nat n) buf' = drop (Z.to_nat n) buf /\
      wp exact (mbedtls_mpi_read_binary Y buf' n) (fun r' s' => changes [Y] s s' /\ mpi_ok (bn_obj s' Y) /\
        ((r' = 0 /\ mpi_val (bn_obj s' Y) = magnitude (bn_obj s X)) \/
         (r' = MBEDTLS_ERR_MPI_ALLOC_FAILED /\ short_of_memory (CHARS_TO_LIMBS n) s))) s)).
Proof.
  intros HX HY Hbuf Hn. pose proof HX as (_ & Hp & _). pose proof (limbs_bound _ Hp) as Hb.
  set (v := magnitude (bn_obj s X)) in *. change (limbs (mpi_p (bn_obj s X))) with v in Hb.
  rewrite write_binary_spec by done. fold v. destruct (byte_size_spec v ltac:(lia)) as (Hlt & Hsz & _).
  destruct (Z.ltb_spec n (byte_size v)) as [Hs|Hs]; [exists MBEDTLS_ERR_MPI_BUFFER_TOO_SMALL, buf; split; [done|by left]|].
  eexists _, _. split; [done|]. right. split; [done|].
  set (w := be_bytes (Z.to_nat n) v). assert (Lw : length w = Z.to_nat n) by apply be_bytes_length.
  assert (Lz : zlen (w ++ drop (Z.to_nat n) buf) = zlen buf) by (unfold zlen in *; rewrite length_app, length_drop; lia).
  split; [exact Lz|]. split; [by rewrite <- Lw at 1; rewrite drop_app_length|].
  eapply wp_mono; [apply read_binary_spec; [done| |lia]|].
  { apply Forall_app. split; [apply be_bytes_ok|by apply Forall_drop]. }
  cbn beta. intros r s1 (C & Hok & [(-> & Hsg & Hv)|H]); (split; [done|]); (split; [done|]); [left|by right].
  split; [done|]. unfold mpi_val. rewrite Hsg, Hv, <- Lw, take_app_length. unfold w. rewrite be_val_bytes.
  rewrite Z2Nat.id, Z.mod_small; [lia| |lia]. split; [lia|]. eapply Z.lt_le_trans; [exact Hlt|].
  apply Z.pow_le_mono_r; lia.
Qed.

(** The integer -(2^64 + 5) and an object with room. *)
Definition sample_store : bn :=
  mkBn (<[0%nat := mkMpi (-1) [5; 1]]> (<[1%nat := mkMpi 1 [7; 7; 7]]> (fun _ => mkMpi 1 []))) 2 [].

Lemma sample_ok X : mpi_ok (bn_obj sample_store X).
Proof.
  destruct X as [|[|X]]; (split; [by (left + right)|]; split; [|by vm_compute]);
    repeat (apply Forall_cons_2; [done|]); by apply Forall_nil_2.
Qed.

Lemma mpi_binary_roundtrip_witness :
  exists r buf', mbedtls_mpi_write_binary 0 (replicate 12 85) 10 sample_store = Done ((r, buf'), sample_store) /\
    ((r = MBEDTLS_ERR_MPI_BUFFER_TOO_SMALL /\ 10 < byte_size (magnitude (bn_obj sample_store 0)) /\ buf' = replicate 12 85) \/
     (r = 0 /\ zlen buf' = 12 /\ drop 10 buf' = drop 10 (replicate 12 85) /\
      wp exact (mbedtls_mpi_read_binary 1 buf' 10) (fun r' s' => changes [1%nat] sample_store s' /\ mpi_ok (bn_obj s' 1) /\
        ((r' = 0 /\ mpi_val (bn_obj s' 1) = magnitude (bn_obj sample_store 0)) \/
         (r' = MBEDTLS_ERR_MPI_ALLOC_FAILED /\ short_of_memory (CHARS_TO_LIMBS 10) sample_store))) sample_store)).
Proof.
  refine (mpi_binary_roundtrip 0 1 (replicate 12 85) 10 sample_store (sample_ok 0) (sample_ok 1) _ _).
  - by apply Forall_replicate.
  - by vm_compute.
Defined.
