(* ===== verification/MpiArith.v ===== *)
(** * Multi-precision integers: shifts, comparison, addition, subtraction, multiplication

    The second part of external_libs/mbedTLS/library/bignum.c.  The result may be the same object as an
    operand in every function; the theorems hold whatever objects are the same. *)

From stdpp Require Import functions.
From S2P Require Import Prelude Mpi.

(** ** Shifts *)

(** [for( i = n; i > v0; i-- ) p[i - 1] = p[i - v0 - 1]; for( ; i > 0; i-- ) p[i - 1] = 0;] *)
Definition shift_limbs_up (n v0 : Z) (p : list Z) : outcome (list Z) :=
  let! p := ofor (Z.to_nat (n - v0)) 0 (fun k p =>
    let i := n - k in
    let! x := aload p (i - v0 - 1) in
    astore p (i - 1) x) p in
  ofor (Z.to_nat (Z.min n v0)) 0 (fun k p => astore p (Z.min n v0 - k - 1) 0) p.

(** [for( i = v0; i < n; i++ ) { r1 = p[i] >> (biL - t1); p[i] <<= t1; p[i] |= r0; r0 = r1; }] *)
Definition shift_bits_up (n v0 t1 : Z) (p : list Z) : outcome (list Z) :=
  let! (p, _) := ofor (Z.to_nat (n - v0)) v0 (fun i '(p, r0) =>
    let! x := aload p i in
    let r1 := Z.shiftr x (biL - t1) in
    let! p := astore p i (Z.lor (u64 (Z.shiftl x t1)) r0) in
    Done (p, r1)) (p, 0) in
  Done p.

(** The loops above, on the limbs of an object. *)
Definition update_p (X : nat) (f : list Z -> outcome (list Z)) : M bn unit :=
  do! m := mpi_at X in do! p := lift (f (mpi_p m)) in set_p X p.

Definition mbedtls_mpi_shift_l (X : nat) (count : Z) : M bn Z :=
  let v0 := count / biL in
  let t1 := Z.land count (biL - 1) in
  do! b := mbedtls_mpi_bitlen X in
  let i := u64 (b + count) in
  do! n := size_of X in
  chk! (if n * biL <? i then mbedtls_mpi_grow X (BITS_TO_LIMBS i) else ret 0) in
  do! n := size_of X in
  run! (if 0 <? v0 then update_p X (shift_limbs_up n v0) else ret tt) in
  run! (if 0 <? t1 then update_p X (shift_bits_up n v0 t1) else ret tt) in
  ret 0.

(** [for( i = 0; i < n - v0; i++ ) p[i] = p[i + v0]; for( ; i < n; i++ ) p[i] = 0;] *)
Definition shift_limbs_down (n v0 : Z) (p : list Z) : outcome (list Z) :=
  let! p := ofor (Z.to_nat (n - v0)) 0 (fun i p =>
    let! x := aload p (i + v0) in
    astore p i x) p in
  ofor (Z.to_nat v0) (n - v0) (fun i p => astore p i 0) p.

(** [for( i = n; i > 0; i-- ) { r1 = p[i-1] << (biL - v1); p[i-1] >>= v1; p[i-1] |= r0; r0 = r1; }] *)
Definition shift_bits_down (n v1 : Z) (p : list Z) : outcome (list Z) :=
  let! (p, _) := ofor (Z.to_nat n) 0 (fun k '(p, r0) =>
    let i := n - k in
    let! x := aload p (i - 1) in
    let r1 := u64 (Z.shiftl x (biL - v1)) in
    let! p := astore p (i - 1) (Z.lor (Z.shiftr x v1) r0) in
    Done (p, r1)) (p, 0) in
  Done p.

Definition mbedtls_mpi_shift_r (X : nat) (count : Z) : M bn Z :=
  let v0 := count / biL in
  let v1 := Z.land count (biL - 1) in
  do! n := size_of X in
  if (n <? v0) || ((v0 =? n) && (0 <? v1)) then mbedtls_mpi_lset X 0
  else
    run! (if 0 <? v0 then update_p X (shift_limbs_down n v0) else ret tt) in
    run! (if 0 <? v1 then update_p X (shift_bits_down n v1) else ret tt) in
    ret 0.

(** ** Comparison *)

(** [for( ; n > 0; n-- ) { if( p[n-1] > q[n-1] ) return( s ); if( p[n-1] < q[n-1] ) return( -s ); }] *)
Fixpoint cmp_limbs (n : nat) (s : Z) (p q : list Z) : outcome Z :=
  match n with
  | O => Done 0
  | S n =>
      let! x := aload p (Z.of_nat n) in
      let! y := aload q (Z.of_nat n) in
      if y <? x then Done s else if x <? y then Done (- s) else cmp_limbs n s p q
  end.

Definition top_of (X : nat) : M bn Z :=
  do! m := mpi_at X in lift (top_limb (length (mpi_p m)) (mpi_p m)).

Definition mbedtls_mpi_cmp_abs (X Y : nat) : M bn Z :=
  do! i := top_of X in
  do! j := top_of Y in
  if (i =? 0) && (j =? 0) then ret 0
  else if j <? i then ret 1
  else if i <? j then ret (-1)
  else
    do! x := mpi_at X in
    do! y := mpi_at Y in
    lift (cmp_limbs (Z.to_nat i) 1 (mpi_p x) (mpi_p y)).

Definition mbedtls_mpi_cmp_mpi (X Y : nat) : M bn Z :=
  do! i := top_of X in
  do! j := top_of Y in
  do! x := mpi_at X in
  do! y := mpi_at Y in
  if (i =? 0) && (j =? 0) then ret 0
  else if j <? i then ret (mpi_s x)
  else if i <? j then ret (- mpi_s y)
  else if (0 <? mpi_s x) && (mpi_s y <? 0) then ret 1
  else if (0 <? mpi_s y) && (mpi_s x <? 0) then ret (-1)
  else lift (cmp_limbs (Z.to_nat i) (mpi_s x) (mpi_p x) (mpi_p y)).

(** A local [mbedtls_mpi] whose limb is a local array of one element. *)
Definition with_int {A : Type} (s limb : Z) (k : nat -> M bn A) : M bn A :=
  local_mpi (fun Y => run! assign Y (mkMpi s [limb]) in k Y).

Definition mbedtls_mpi_cmp_int (X : nat) (z : Z) : M bn Z :=
  with_int (sint_sign z) (sint_abs z) (fun Y => mbedtls_mpi_cmp_mpi X Y).

(** ** Addition and subtraction *)

(** The loop that adds the limbs of [B], [tmp = *o; *p += c; c = ( *p < c ); *p += tmp; c += ( *p < tmp )]. *)
Definition add_limbs (X B : nat) (j : Z) : M bn Z :=
  mfor (Z.to_nat j) 0 (fun i c =>
    do! tmp := limb B i in
    do! x := limb X i in
    let x1 := u64 (x + c) in
    let c := Z.b2z (x1 <? c) in
    let x2 := u64 (x1 + tmp) in
    run! set_limb X i x2 in
    ret (c + Z.b2z (x2 <? tmp))) 0.

(** [while( c != 0 )]: the carry runs on, the number grows when it runs out of limbs. *)
Definition add_carry (fuel : nat) (X : nat) (i c : Z) : M bn Z :=
  loop fuel (fun '(i, c) =>
    if c =? 0 then ret (inr 0)
    else
      do! n := size_of X in
      do! r := (if n <=? i then mbedtls_mpi_grow X (i + 1) else ret 0) in
      if negb (r =? 0) then ret (inr r)
      else
        do! x := limb X i in
        let y := u64 (x + c) in
        run! set_limb X i y in
        ret (inl (i + 1, Z.b2z (y <? c)))) (i, c).

Definition mbedtls_mpi_add_abs (X A B : nat) : M bn Z :=
  let '(A, B) := if Nat.eqb X B then (X, A) else (A, B) in
  chk! (if Nat.eqb X A then ret 0 else mbedtls_mpi_copy X A) in
  run! set_s X 1 in
  do! j := top_of B in
  chk! mbedtls_mpi_grow X j in
  do! c := add_limbs X B j in
  do! n := size_of X in
  add_carry (Z.to_nat n + 2) X j c.

Definition mpi_sub_hlp (n : Z) (s d : list Z) : outcome (list Z) :=
  let! (d, c) := ofor (Z.to_nat n) 0 (fun i '(d, c) =>
    let! x := aload d i in
    let z := Z.b2z (x <? c) in
    let x1 := u64 (x - c) in
    let! y := aload s i in
    let c := Z.b2z (x1 <? y) + z in
    let! d := astore d i (u64 (x1 - y)) in
    Done (d, c)) (d, 0) in
  oloop (length d + 1) (fun '(d, i, c) =>
    if c =? 0 then Done (inr d)
    else
      let! x := aload d i in
      let! d := astore d i (u64 (x - c)) in
      Done (inl (d, i + 1, Z.b2z (x <? c)))) (d, n, c).

Definition mbedtls_mpi_sub_abs (X A B : nat) : M bn Z :=
  do! c := mbedtls_mpi_cmp_abs A B in
  if c <? 0 then ret MBEDTLS_ERR_MPI_NEGATIVE_VALUE
  else
    local_mpi (fun TB =>
      run! mbedtls_mpi_init TB in
      do! r := (
        chk! (if Nat.eqb X B then mbedtls_mpi_copy TB B else ret 0) in
        let B := if Nat.eqb X B then TB else B in
        chk! (if Nat.eqb X A then ret 0 else mbedtls_mpi_copy X A) in
        run! set_s X 1 in
        do! n := top_of B in
        do! b := mpi_at B in
        do! x := mpi_at X in
        do! p := lift (mpi_sub_hlp n (mpi_p b) (mpi_p x)) in
        run! set_p X p in
        ret 0) in
      run! mbedtls_mpi_free TB in
      ret r).

(** The common part of the signed functions: the operands have different signs for the addition. *)
Definition mbedtls_mpi_add_mpi (X A B : nat) : M bn Z :=
  do! a := mpi_at A in
  do! b := mpi_at B in
  let s := mpi_s a in
  if mpi_s a * mpi_s b <? 0 then
    do! c := mbedtls_mpi_cmp_abs A B in
    if 0 <=? c then
      chk! mbedtls_mpi_sub_abs X A B in
      run! set_s X s in
      ret 0
    else
      chk! mbedtls_mpi_sub_abs X B A in
      run! set_s X (- s) in
      ret 0
  else
    chk! mbedtls_mpi_add_abs X A B in
    run! set_s X s in
    ret 0.

Definition mbedtls_mpi_sub_mpi (X A B : nat) : M bn Z :=
  do! a := mpi_at A in
  do! b := mpi_at B in
  let s := mpi_s a in
  if 0 <? mpi_s a * mpi_s b then
    do! c := mbedtls_mpi_cmp_abs A B in
    if 0 <=? c then
      chk! mbedtls_mpi_sub_abs X A B in
      run! set_s X s in
      ret 0
    else
      chk! mbedtls_mpi_sub_abs X B A in
      run! set_s X (- s) in
      ret 0
  else
    chk! mbedtls_mpi_add_abs X A B in
    run! set_s X s in
    ret 0.

Definition mbedtls_mpi_add_int (X A : nat) (b : Z) : M bn Z :=
  with_int (sint_sign b) (sint_abs b) (fun B => mbedtls_mpi_add_mpi X A B).
Definition mbedtls_mpi_sub_int (X A : nat) (b : Z) : M bn Z :=
  with_int (sint_sign b) (sint_abs b) (fun B => mbedtls_mpi_sub_mpi X A B).

(** ** Multiplication *)

(** [MULADDC_CORE], the C version of include/mbedtls/bn_mul.h for a compiler with 128-bit integers: from the
    limbs [*s], [*d], the factor [b] and the carry [c] to the new [*d] and the new carry. *)
Definition MULADDC_CORE (s d b c : Z) : Z * Z :=
  let r := s * b in
  let r0 := u64 r in
  let r1 := u64 (Z.shiftr r biL) in
  let r0 := u64 (r0 + c) in
  let r1 := u64 (r1 + Z.b2z (r0 <? c)) in
  let r0 := u64 (r0 + d) in
  let r1 := u64 (r1 + Z.b2z (r0 <? d)) in
  (r0, r1).

(** [d] is the array [X->p], [o] the offset of the pointer into it.  The loops by 16 and by 8 run the same
    core as the last one. *)
Definition mpi_mul_hlp (i : Z) (s d : list Z) (o b : Z) : outcome (list Z) :=
  let! (d, c) := ofor (Z.to_nat i) 0 (fun k '(d, c) =>
    let! x := aload s k in
    let! y := aload d (o + k) in
    let '(y, c) := MULADDC_CORE x y b c in
    let! d := astore d (o + k) y in
    Done (d, c)) (d, 0) in
  oloop (length d + 1) (fun '(d, k, c) =>
    let! y := aload d k in
    let y := u64 (y + c) in
    let! d := astore d k y in
    let c := Z.b2z (y <? c) in
    Done (if c =? 0 then inr d else inl (d, k + 1, c))) (d, o + i, c).

(** [for( i++; j > 0; j-- ) mpi_mul_hlp( i - 1, A->p, X->p + j - 1, B->p[j - 1] );] *)
Fixpoint mul_rows (j : nat) (i : Z) (a b x : list Z) : outcome (list Z) :=
  match j with
  | O => Done x
  | S j =>
      let! y := aload b (Z.of_nat j) in
      let! x := mpi_mul_hlp i a x (Z.of_nat j) y in
      mul_rows j i a b x
  end.

Definition mbedtls_mpi_mul_mpi (X A B : nat) : M bn Z :=
  local_mpi (fun TA => local_mpi (fun TB =>
    run! mbedtls_mpi_init TA in
    run! mbedtls_mpi_init TB in
    do! r := (
      chk! (if Nat.eqb X A then mbedtls_mpi_copy TA A else ret 0) in
      let A' := if Nat.eqb X A then TA else A in
      chk! (if Nat.eqb X B then mbedtls_mpi_copy TB B else ret 0) in
      let B' := if Nat.eqb X B then TB else B in
      do! i := top_of A' in
      do! j := top_of B' in
      chk! mbedtls_mpi_grow X (i + j) in
      chk! mbedtls_mpi_lset X 0 in
      do! a := mpi_at A' in
      do! b := mpi_at B' in
      do! x := mpi_at X in
      do! p := lift (mul_rows (Z.to_nat j) i (mpi_p a) (mpi_p b) (mpi_p x)) in
      run! set_p X p in
      run! set_s X (mpi_s a * mpi_s b) in
      ret 0) in
    run! mbedtls_mpi_free TB in
    run! mbedtls_mpi_free TA in
    ret r)).

Definition mbedtls_mpi_mul_int (X A : nat) (b : Z) : M bn Z :=
  with_int 1 b (fun B => mbedtls_mpi_mul_mpi X A B).

Example mul_sample :
  (let! (r, s) := mbedtls_mpi_mul_mpi 1 0 0 sample_store in Done (r, mpi_val (bn_obj s 1))) =
  Done (0, (2 ^ 64 + 5) ^ 2).
Proof. by vm_compute. Qed.
Example sub_sample :
  (let! (r, s) := (chk! mbedtls_mpi_sub_int 0 0 7 in mbedtls_mpi_add_mpi 0 0 0) sample_store in
   Done (r, mpi_val (bn_obj s 0))) = Done (0, -2 * (2 ^ 64 + 12)).
Proof. by vm_compute. Qed.
Example shift_sample :
  (let! (r, s) := (chk! mbedtls_mpi_shift_l 0 131 in mbedtls_mpi_shift_r 0 3) sample_store in
   Done (r, mpi_val (bn_obj s 0))) = Done (0, -(2 ^ 64 + 5) * 2 ^ 128).
Proof. by vm_compute. Qed.

(** ** Comparison: theorems *)

Lemma wp_top_of md X (Q : Z -> bn -> Prop) s : Q (Z.of_nat (sig (mpi_p (bn_obj s X)))) s -> wp md (top_of X) Q s.
Proof. intros HQ. apply wp_bind, wp_mpi_at, wp_lift. by rewrite top_limb_all. Qed.

Lemma limbs_take_snoc p (n : nat) x : p !! n = Some x ->
  limbs (take (S n) p) = limbs (take n p) + x * base ^ Z.of_nat n.
Proof.
  intros H. rewrite (take_S_r _ _ _ H), limbs_app. cbn [limbs].
  assert (zlen (take n p) = Z.of_nat n) as ->.
  { unfold zlen. apply lookup_lt_Some in H. rewrite length_take. lia. }
  ring.
Qed.

Lemma limbs_take_bound p (n : nat) : Forall limb_ok p -> (n <= length p)%nat -> 0 <= limbs (take n p) < base ^ Z.of_nat n.
Proof.
  intros Hp Hn. pose proof (limbs_bound _ (Forall_take _ n _ Hp)) as H.
  assert (zlen (take n p) = Z.of_nat n) as E by (unfold zlen; rewrite length_take; lia). by rewrite E in H.
Qed.

Lemma cmp_limbs_spec p q s : Forall limb_ok p -> Forall limb_ok q -> forall n,
  (n <= length p)%nat -> (n <= length q)%nat ->
  cmp_limbs n s p q = Done (s * Z.sgn (limbs (take n p) - limbs (take n q))).
Proof.
  intros Hp Hq. induction n as [|n IH]; intros Hn Hm; cbn [cmp_limbs]; [by rewrite Z.mul_0_r|].
  destruct (lookup_lt_is_Some_2 p n) as [x Hx]; [lia|]. destruct (lookup_lt_is_Some_2 q n) as [y Hy]; [lia|].
  rewrite (aload_some _ _ _ Hx), (aload_some _ _ _ Hy). cbn [obind].
  rewrite (limbs_take_snoc p n x Hx), (limbs_take_snoc q n y Hy).
  pose proof (limbs_take_bound p n Hp ltac:(lia)). pose proof (limbs_take_bound q n Hq ltac:(lia)).
  destruct (Z.ltb_spec y x); [|destruct (Z.ltb_spec x y)].
  - rewrite Z.sgn_pos by nia. f_equal. lia.
  - rewrite Z.sgn_neg by nia. f_equal. lia.
  - assert (x = y) as -> by lia. rewrite IH by lia. do 3 f_equal. lia.
Qed.

Lemma sig_lt p q : Forall limb_ok p -> Forall limb_ok q -> (sig p < sig q)%nat -> limbs p < limbs q.
Proof.
  intros Hp Hq Hlt. destruct (sig_bound p Hp) as [H1 _]. destruct (sig_bound q Hq) as [_ H2]. specialize (H2 ltac:(lia)).
  eapply Z.lt_le_trans; [exact H1|]. etrans; [|exact H2]. apply Z.pow_le_mono_r; [done|lia].
Qed.

Lemma sig_zero p : Forall limb_ok p -> sig p = O -> limbs p = 0.
Proof.
  intros Hp E. destruct (sig_bound p Hp) as [H _]. rewrite E in H. change (base ^ Z.of_nat 0) with 1 in H.
  pose proof (limbs_bound p Hp). lia.
Qed.

Lemma sig_zero_inv p : Forall limb_ok p -> limbs p = 0 -> sig p = O.
Proof.
  intros Hp E. destruct (sig p) as [|n] eqn:Es; [done|]. destruct (sig_bound p Hp) as [_ H]. rewrite Es, E in H.
  pose proof (base_pow_pos (Z.of_nat (S n) - 1) ltac:(lia)). specialize (H ltac:(lia)). lia.
Qed.

(** The tail of both comparisons, on numbers with equally many limbs. *)
Lemma cmp_equal_length p q s : Forall limb_ok p -> Forall limb_ok q -> sig p = sig q ->
  cmp_limbs (Z.to_nat (Z.of_nat (sig p))) s p q = Done (s * Z.sgn (limbs p - limbs q)).
Proof.
  intros Hp Hq E. pose proof (sig_le p). pose proof (sig_le q).
  rewrite Nat2Z.id, cmp_limbs_spec by (done || lia). rewrite sig_take. rewrite E at 1. by rewrite sig_take.
Qed.

Lemma cmp_abs_spec X Y s : mpi_ok (bn_obj s X) -> mpi_ok (bn_obj s Y) ->
  mbedtls_mpi_cmp_abs X Y s = Done (Z.sgn (magnitude (bn_obj s X) - magnitude (bn_obj s Y)), s).
Proof.
  intros (_ & Hp & _) (_ & Hq & _). apply wp_exact_eq. unfold mbedtls_mpi_cmp_abs, magnitude.
  apply wp_bind, wp_top_of, wp_bind, wp_top_of. set (p := mpi_p (bn_obj s X)) in *. set (q := mpi_p (bn_obj s Y)) in *.
  destruct (_ && _) eqn:E0.
  { apply wp_ret. rewrite !sig_zero by (done || lia). done. }
  destruct (Z.ltb_spec (Z.of_nat (sig q)) (Z.of_nat (sig p))).
  { apply wp_ret. split; [|done]. pose proof (sig_lt q p Hq Hp ltac:(lia)). rewrite Z.sgn_pos; lia. }
  destruct (Z.ltb_spec (Z.of_nat (sig p)) (Z.of_nat (sig q))).
  { apply wp_ret. split; [|done]. pose proof (sig_lt p q Hp Hq ltac:(lia)). rewrite Z.sgn_neg; lia. }
  apply wp_bind, wp_mpi_at, wp_bind, wp_mpi_at, wp_lift. fold p q.
  rewrite cmp_equal_length by (done || lia). split; [lia|done].
Qed.

Lemma sgn_mul_sign s a : s = 1 \/ s = -1 -> Z.sgn (s * a) = s * Z.sgn a.
Proof. intros [-> | ->]; lia. Qed.

Lemma cmp_mpi_spec X Y s : mpi_ok (bn_obj s X) -> mpi_ok (bn_obj s Y) ->
  mbedtls_mpi_cmp_mpi X Y s = Done (Z.sgn (mpi_val (bn_obj s X) - mpi_val (bn_obj s Y)), s).
Proof.
  intros (Hx & Hp & _) (Hy & Hq & _). apply wp_exact_eq. unfold mbedtls_mpi_cmp_mpi, mpi_val, magnitude.
  apply wp_bind, wp_top_of, wp_bind, wp_top_of, wp_bind, wp_mpi_at, wp_bind, wp_mpi_at.
  set (p := mpi_p (bn_obj s X)) in *. set (q := mpi_p (bn_obj s Y)) in *.
  set (a := mpi_s (bn_obj s X)) in *. set (b := mpi_s (bn_obj s Y)) in *.
  pose proof (limbs_bound p Hp). pose proof (limbs_bound q Hq).
  destruct (_ && _) eqn:E0.
  { apply wp_ret. rewrite !sig_zero by (done || lia). by rewrite !Z.mul_0_r. }
  assert (Hn0 : sig p = sig q -> 0 < limbs p /\ 0 < limbs q).
  { intros E. split; apply Z.le_neq; (split; [lia|]); intros Hz; symmetry in Hz; apply sig_zero_inv in Hz; (done || lia). }
  destruct (Z.ltb_spec (Z.of_nat (sig q)) (Z.of_nat (sig p))).
  { apply wp_ret. split; [|done]. pose proof (sig_lt q p Hq Hp ltac:(lia)). destruct Hx as [-> | ->], Hy as [-> | ->]; lia. }
  destruct (Z.ltb_spec (Z.of_nat (sig p)) (Z.of_nat (sig q))).
  { apply wp_ret. split; [|done]. pose proof (sig_lt p q Hp Hq ltac:(lia)). destruct Hx as [-> | ->], Hy as [-> | ->]; lia. }
  destruct Hn0 as [Hn1 Hn2]; [lia|].
  destruct Hx as [Hx | Hx], Hy as [Hy | Hy]; rewrite Hx, Hy; cbn [Z.ltb Z.compare andb].
  - apply wp_lift. rewrite cmp_equal_length by (done || lia). split; [lia|done].
  - apply wp_ret. split; [lia|done].
  - apply wp_ret. split; [lia|done].
  - apply wp_lift. rewrite cmp_equal_length by (done || lia). split; [lia|done].
Qed.

(** The number of limbs of a value. *)
Definition nlimbs (v : Z) : Z := (bits v + 63) / 64.

Lemma nlimbs_nonneg v : 0 <= nlimbs v.
Proof. unfold nlimbs. pose proof (bits_nonneg v). apply Z.div_pos; lia. Qed.

Lemma nlimbs_le v n : 0 <= n -> 0 <= v < base ^ n -> nlimbs v <= n.
Proof.
  intros Hn Hv. unfold nlimbs. assert (bits v <= 64 * n).
  { apply bits_le; [|lia]. rewrite Z.pow_mul_r by lia. exact Hv. }
  pose proof (Z.div_lt_upper_bound (bits v + 63) 64 (n + 1) ltac:(lia) ltac:(lia)). lia.
Qed.

Lemma nlimbs_gt v n : 0 <= n -> base ^ n <= v -> n < nlimbs v.
Proof.
  intros Hn Hv. pose proof (base_pow_pos n Hn). destruct (bits_spec v ltac:(lia)) as [Hb _].
  change base with (2 ^ 64) in Hv. rewrite <- Z.pow_mul_r in Hv by lia.
  assert (64 * n < bits v) by (apply (Z.pow_lt_mono_r_iff 2); [lia|apply bits_nonneg|lia]).
  unfold nlimbs. assert (n + 1 <= (bits v + 63) / 64); [|lia]. apply Z.div_le_lower_bound; lia.
Qed.

Lemma nlimbs_mono a b : 0 <= a <= b -> nlimbs a <= nlimbs b.
Proof.
  intros Hab. unfold nlimbs. apply Z.div_le_mono; [lia|]. enough (bits a <= bits b) by lia.
  apply bits_le; [|apply bits_nonneg]. destruct (bits_spec b ltac:(lia)) as [Hb _]. lia.
Qed.

Lemma nlimbs_sig p : Forall limb_ok p -> nlimbs (limbs p) = Z.of_nat (sig p).
Proof.
  intros Hp. destruct (sig_bound p Hp) as [H1 H2]. pose proof (limbs_bound p Hp).
  pose proof (nlimbs_le (limbs p) (Z.of_nat (sig p)) ltac:(lia) ltac:(lia)). pose proof (nlimbs_nonneg (limbs p)).
  destruct (sig p) as [|k]; [lia|]. pose proof (nlimbs_gt (limbs p) (Z.of_nat (S k) - 1) ltac:(lia) (H2 ltac:(lia))). lia.
Qed.

(** ** Addition: theorems *)

(** What an operation that stores [v] into [X] does, which needs room for at most [need] limbs and leaves
    [X] with at least [low] of them. *)
Definition computes (X : nat) (low need v : Z) (s : bn) (r : Z) (s' : bn) : Prop :=
  changes [X] s s' /\ mpi_ok (bn_obj s' X) /\ low <= zlen (mpi_p (bn_obj s' X)) <= need /\
  ((r = 0 /\ mpi_val (bn_obj s' X) = v) \/
   (r = MBEDTLS_ERR_MPI_ALLOC_FAILED /\ short_of_memory need s)).

Lemma magnitude_nonneg m : mpi_ok m -> 0 <= magnitude m.
Proof. intros (_ & Hp & _). pose proof (limbs_bound _ Hp). unfold magnitude. lia. Qed.

Lemma magnitude_val m : mpi_ok m -> magnitude m = Z.abs (mpi_val m).
Proof. intros Hm. pose proof (magnitude_nonneg m Hm). destruct Hm as ([E|E] & _ & _); unfold mpi_val; rewrite E; lia. Qed.

Lemma changes_other X s s' Y : changes [X] s s' -> (Y < bn_next s)%nat -> Y <> X -> bn_obj s' Y = bn_obj s Y.
Proof. intros C HY Hne. apply (ch_obj _ _ _ C); [done|]. by rewrite list_elem_of_singleton. Qed.

(** One addition with carry out, as the code detects it. *)
Lemma add_wraps a b : limb_ok a -> limb_ok b ->
  limb_ok (u64 (a + b)) /\ a + b = u64 (a + b) + base * Z.b2z (u64 (a + b) <? b).
Proof.
  unfold limb_ok, u64, base. intros Ha Hb. destruct (decide (a + b < 18446744073709551616)).
  - rewrite Z.mod_small by lia. destruct (Z.ltb_spec (a + b) b); cbn [Z.b2z]; lia.
  - rewrite <- (Z.mod_unique (a + b) 18446744073709551616 1 (a + b - 18446744073709551616)) by lia.
    destruct (Z.ltb_spec (a + b - 18446744073709551616) b); cbn [Z.b2z]; lia.
Qed.

Lemma b2z_range b : 0 <= Z.b2z b <= 1.
Proof. destruct b; cbn; lia. Qed.

Lemma add_step x y c : limb_ok x -> limb_ok y -> 0 <= c <= 1 ->
  let x1 := u64 (x + c) in let x2 := u64 (x1 + y) in
  let c2 := Z.b2z (x1 <? c) + Z.b2z (x2 <? y) in
  limb_ok x2 /\ 0 <= c2 <= 1 /\ x + c + y = x2 + base * c2.
Proof.
  intros Hx Hy Hc x1 x2 c2. destruct (add_wraps x c Hx) as [H1 E1]; [unfold limb_ok, base; lia|].
  destruct (add_wraps x1 y H1 Hy) as [H2 E2]. fold x1 in E1. fold x2 in E2, H2. split; [done|].
  pose proof (b2z_range (x1 <? c)). pose proof (b2z_range (x2 <? y)).
  assert (E : x + c + y = x2 + base * c2) by (unfold c2; lia). split; [|exact E].
  unfold limb_ok, base in *. lia.
Qed.

(** Replacing limb [i] turns the first [i + 1] limbs. *)
Lemma take_insert_limb p (i : nat) y : (i < length p)%nat ->
  limbs (take (S i) (<[i := y]> p)) = limbs (take i p) + y * base ^ Z.of_nat i.
Proof.
  intros Hi. rewrite (limbs_take_snoc _ i y) by (by apply list_lookup_insert_eq).
  by rewrite take_insert_ge by lia.
Qed.

Lemma lookup_drop_eq {A} (p q : list A) (i : nat) : drop i p = drop i q -> p !! i = q !! i.
Proof. intros E. rewrite <- (Nat.add_0_r i), <- !lookup_drop. by rewrite E. Qed.

Lemma drop_succ_eq {A} (p q : list A) (i : nat) : drop i p = drop i q -> drop (S i) p = drop (S i) q.
Proof. intros E. rewrite <- (Nat.add_1_r i), <- !drop_drop. by rewrite E. Qed.

Lemma add_limbs_spec X B (j : nat) sg p q s : (X < bn_next s)%nat -> (B < bn_next s)%nat ->
  bn_obj s X = mkMpi sg p -> mpi_p (bn_obj s B) = q -> Forall limb_ok p -> Forall limb_ok q ->
  (j <= length p)%nat -> (j <= length q)%nat ->
  wp exact (add_limbs X B (Z.of_nat j)) (fun c s' => changes [X] s s' /\ 0 <= c <= 1 /\
    exists p', bn_obj s' X = mkMpi sg p' /\ Forall limb_ok p' /\ length p' = length p /\
      drop j p' = drop j p /\
      limbs (take j p') + c * base ^ Z.of_nat j = limbs (take j p) + limbs (take j q)) s.
Proof.
  intros HXn HBn EX EB Hp Hq Hjp Hjq. unfold add_limbs. rewrite Nat2Z.id.
  set (I := fun (i c : Z) (s' : bn) => changes [X] s s' /\ 0 <= c <= 1 /\
    exists p', bn_obj s' X = mkMpi sg p' /\ Forall limb_ok p' /\ length p' = length p /\
      drop (Z.to_nat i) p' = drop (Z.to_nat i) p /\
      limbs (take (Z.to_nat i) p') + c * base ^ i = limbs (take (Z.to_nat i) p) + limbs (take (Z.to_nat i) q)).
  apply (wp_mfor exact I).
  - split; [done|]. split; [lia|]. by exists p.
  - intros i c s1 Hi (C & Hc & p' & E1 & Hp' & Lp' & Dp' & V). assert (0 <= i) by lia.
    set (k := Z.to_nat i) in *. assert (Hk : Z.of_nat k = i) by lia. rewrite <- Hk in *.
    destruct (lookup_lt_is_Some_2 p k) as [x Hx]; [lia|]. destruct (lookup_lt_is_Some_2 q k) as [y Hy]; [lia|].
    assert (Hx' : p' !! k = Some x) by (by rewrite (lookup_drop_eq _ _ _ Dp')).
    apply wp_bind. eapply (wp_limb _ _ _ _ _ y).
    { destruct (decide (B = X)) as [->|Hne]; [rewrite E1; cbn; rewrite EX in EB; cbn in EB; congruence|].
      by rewrite (changes_other X s s1 B), EB. }
    apply wp_bind. eapply (wp_limb _ _ _ _ _ x); [by rewrite E1|].
    pose proof (add_step x y c (limb_lookup _ _ _ Hp Hx) (limb_lookup _ _ _ Hq Hy) Hc) as (Hy2 & Hc2 & E).
    apply wp_bind, wp_set_limb; rewrite E1; cbn [mpi_p mpi_s]; [lia|]. apply wp_ret.
    split; [etrans; [exact C|apply changes_upd]|]. split; [done|]. eexists. rewrite obj_upd. split; [done|].
    split; [by apply Forall_insert|]. split; [by rewrite length_insert|].
    replace (Z.to_nat (Z.of_nat k + 1)) with (S k) by lia.
    split; [rewrite drop_insert_lt by lia; by apply drop_succ_eq|].
    rewrite take_insert_limb, (limbs_take_snoc p k x Hx), (limbs_take_snoc q k y Hy), base_pow_succ by lia. nia.
  - intros c s1 (C & Hc & H). split; [done|]. split; [done|]. rewrite Z.add_0_l, Nat2Z.id in H. exact H.
Qed.

Lemma wp_limb_Z md X i (Q : Z -> bn -> Prop) s sg p x : bn_obj s X = mkMpi sg p -> 0 <= i ->
  p !! Z.to_nat i = Some x -> Q x s -> wp md (limb X i) Q s.
Proof. intros E Hi Hx HQ. rewrite <- (Z2Nat.id i) by done. eapply wp_limb; [by rewrite E|done]. Qed.

Lemma wp_set_limb_Z md X i v (Q : unit -> bn -> Prop) s sg p : bn_obj s X = mkMpi sg p -> 0 <= i < zlen p ->
  Q tt (upd X (mkMpi sg (<[Z.to_nat i := v]> p)) s) -> wp md (set_limb X i v) Q s.
Proof.
  intros E Hi HQ. rewrite <- (Z2Nat.id i) by lia. apply wp_set_limb; rewrite E; cbn [mpi_p mpi_s]; [|done].
  unfold zlen in Hi. lia.
Qed.

(** The state of the loop that carries [c] into limb [k]; [len] limbs at the start, [V] in the end. *)
Definition carrying (X : nat) (sg len V : Z) (s : bn) (kc : Z * Z) (s' : bn) : Prop :=
  let '(k, c) := kc in
  changes [X] s s' /\ 0 <= c <= 1 /\ 0 <= k /\
  exists p', bn_obj s' X = mkMpi sg p' /\ Forall limb_ok p' /\ zlen p' <= MBEDTLS_MPI_MAX_LIMBS /\
    limbs p' + c * base ^ k = V /\
    ((zlen p' = len /\ k <= len) \/ (zlen p' = len + 1 /\ c = 0 /\ len < nlimbs V)).

Lemma carry_step X sg len V s k s2 p2 : changes [X] s s2 -> bn_obj s2 X = mkMpi sg p2 -> Forall limb_ok p2 ->
  zlen p2 <= MBEDTLS_MPI_MAX_LIMBS -> limbs p2 + base ^ k = V -> 0 <= k < zlen p2 ->
  (zlen p2 = len \/ (zlen p2 = len + 1 /\ p2 !! Z.to_nat k = Some 0 /\ len < nlimbs V)) ->
  wp exact (do! x := limb X k in
    let y := u64 (x + 1) in
    run! set_limb X k y in
    ret (inl (k + 1, Z.b2z (y <? 1)) : (Z * Z) + Z))
  (fun r s' => exists c, r = inl (k + 1, c) /\ carrying X sg len V s (k + 1, c) s' /\ (zlen p2 = len + 1 -> c = 0)) s2.
Proof.
  intros C2 E2 Hp2 Hm2 V2 Hk2 L2.
  destruct (lookup_lt_is_Some_2 p2 (Z.to_nat k)) as [x Hx]; [unfold zlen in *; lia|].
  destruct (add_wraps x 1 (limb_lookup _ _ _ Hp2 Hx)) as [Hy Ey]; [by unfold limb_ok, base|].
  apply wp_bind. eapply wp_limb_Z; [exact E2|lia|exact Hx|]. apply wp_bind.
  eapply wp_set_limb_Z; [exact E2|lia|]. apply wp_ret. pose proof (b2z_range (u64 (x + 1) <? 1)).
  assert (H0 : zlen p2 = len + 1 -> Z.b2z (u64 (x + 1) <? 1) = 0).
  { intros Hl. destruct L2 as [L2|(_ & L2 & _)]; [lia|]. rewrite Hx in L2. by injection L2 as ->. }
  eexists. split; [done|]. split; [|exact H0]. split; [etrans; [exact C2|apply changes_upd]|]. split; [done|]. split; [lia|].
  eexists. rewrite obj_upd. split; [done|]. split; [by apply Forall_insert|].
  unfold zlen in *. rewrite length_insert. split; [done|]. split.
  - rewrite (limbs_insert _ _ x) by done. rewrite Z2Nat.id, base_pow_succ by lia. nia.
  - destruct L2 as [L2|(L2 & _ & L3)]; [left; lia|]. right. split; [done|]. split; [by apply H0|done].
Qed.

(** The carry runs on from limb [i]: the number grows by [c * base ^ i]. *)
Lemma add_carry_spec X sg p (i : nat) c s : bn_obj s X = mkMpi sg p -> Forall limb_ok p -> (i <= length p)%nat ->
  0 <= c <= 1 -> zlen p <= MBEDTLS_MPI_MAX_LIMBS ->
  wp exact (add_carry (Z.to_nat (zlen p) + 2) X (Z.of_nat i) c) (fun r s' => changes [X] s s' /\
    let V := limbs p + c * base ^ Z.of_nat i in
    exists p', bn_obj s' X = mkMpi sg p' /\ Forall limb_ok p' /\ zlen p <= zlen p' <= Z.max (zlen p) (nlimbs V) /\
      zlen p' <= MBEDTLS_MPI_MAX_LIMBS /\
      ((r = 0 /\ limbs p' = V) \/ (r = MBEDTLS_ERR_MPI_ALLOC_FAILED /\ short_of_memory (nlimbs V) s))) s.
Proof.
  intros E Hp Hi Hc Hmax. unfold add_carry. cbv zeta. set (V := limbs p + c * base ^ Z.of_nat i).
  apply (wp_loop exact (carrying X sg (zlen p) V s)
    (fun '(k, c) _ => if c =? 0 then O else S (Z.to_nat (zlen p - k)))).
  - split; [done|]. split; [done|]. split; [lia|]. exists p. do 4 (split; [done|]). left. unfold zlen. lia.
  - intros [k b] s1 (C & Hb & Hk & p' & E1 & Hp' & Hm' & V1 & L1).
    destruct (Z.eqb_spec b 0) as [->|Hb0].
    { apply wp_ret. split; [done|]. exists p'. split; [done|]. split; [done|]. split; [lia|]. split; [done|]. left. lia. }
    destruct L1 as [[L1 Hkp]|(_ & ? & _)]; [|lia]. assert (b = 1) as -> by lia. rewrite Z.mul_1_l in V1.
    apply wp_bind, wp_size_of. rewrite E1. cbn [mpi_p]. apply wp_bind.
    destruct (Z.leb_spec (zlen p') k) as [Hge|Hlt].
    + assert (HV : zlen p < nlimbs V).
      { apply nlimbs_gt; [apply zlen_nonneg|]. pose proof (limbs_bound p' Hp'). replace (zlen p) with k by lia. lia. }
      eapply wp_mono; [apply grow_spec|]. cbn beta. rewrite E1. cbn [mpi_p mpi_s].
      intros r s2 [C2 [(-> & H2 & E2)|(-> & H2 & E2)]].
      * change (negb (0 =? 0)) with false. cbv iota. pose proof (grown_zlen (k + 1) p') as Lg.
        eapply wp_mono; [apply (carry_step X sg (zlen p) V s k s2 (grown (k + 1) p')); [by etrans|exact E2|by apply grown_ok|lia| |lia|]|].
        -- by rewrite grown_limbs.
        -- right. split; [lia|]. split; [|done]. unfold grown. rewrite lookup_app_r by (unfold zlen in *; lia).
           apply lookup_replicate. split; [done|]. unfold zlen in *. lia.
        -- cbn beta. intros r s3 (b & -> & Hb' & H0). split; [exact Hb'|]. intros _. rewrite H0 by lia. apply Nat.lt_0_succ.
      * change (negb (MBEDTLS_ERR_MPI_ALLOC_FAILED =? 0)) with true. cbv iota. apply wp_ret. split; [by etrans|].
        exists p'. split; [done|]. split; [done|]. split; [lia|]. split; [done|]. right. split; [done|].
        destruct H2 as [H2|H2]; [left; intros H; by apply H2, C|right; lia].
    + apply wp_ret. change (negb (0 =? 0)) with false. cbv iota.
      eapply wp_mono; [apply (carry_step X sg (zlen p) V s k s1 p'); first [done|lia|by left]|].
      cbn beta. intros r s3 (b & -> & Hb' & _). split; [exact Hb'|]. intros _. change (1 =? 0) with false. destruct (b =? 0); lia.
  - intros _. destruct (c =? 0); lia.
Qed.

(** The limbs a result of adding or subtracting may need. *)
Definition add_need (X A B : nat) (s : bn) : Z :=
  Z.max (Z.max 1 (zlen (mpi_p (bn_obj s X)))) (nlimbs (magnitude (bn_obj s A) + magnitude (bn_obj s B))).

(** A copy of a number without limbs frees [X]; otherwise [X] keeps the limbs it has. *)
Definition low1 (X A : nat) (s : bn) : Z :=
  match mpi_p (bn_obj s A) with [] => 0 | _ => zlen (mpi_p (bn_obj s X)) end.
Definition low2 (X A B : nat) (s : bn) : Z := Z.min (low1 X A s) (low1 X B s).

Lemma low1_le X A s : 0 <= low1 X A s <= zlen (mpi_p (bn_obj s X)).
Proof. unfold low1. pose proof (zlen_nonneg (mpi_p (bn_obj s X))). destruct (mpi_p (bn_obj s A)); lia. Qed.

(** [if( X != A ) copy( X, A )]: [X] has the magnitude of [A], and [B] is as before. *)
Lemma copy_unless_same X A s : (X < bn_next s)%nat -> mpi_ok (bn_obj s X) -> mpi_ok (bn_obj s A) ->
  wp exact (if Nat.eqb X A then ret 0 else mbedtls_mpi_copy X A) (fun r s' => changes [X] s s' /\
    mpi_ok (bn_obj s' X) /\
    low1 X A s <= zlen (mpi_p (bn_obj s' X)) <= Z.max (Z.max 1 (zlen (mpi_p (bn_obj s X)))) (nlimbs (magnitude (bn_obj s A))) /\
    ((r = 0 /\ magnitude (bn_obj s' X) = magnitude (bn_obj s A) /\ (X = A -> s' = s)) \/
     (r = MBEDTLS_ERR_MPI_ALLOC_FAILED /\ bn_calloc s <> []))) s.
Proof.
  intros HXn HX HA. pose proof (low1_le X A s) as Hlow. destruct (Nat.eqb_spec X A) as [->|Hne].
  { apply wp_ret. split; [done|]. split; [done|]. split; [lia|]. by left. }
  eapply wp_mono; [by apply copy_spec|]. cbn beta. destruct HX as (Hs & Hp & Hm). destruct HA as (Hsa & Hpa & Hma).
  intros r s1 [C [(-> & E)|(-> & H & E)]]; (split; [done|]); rewrite E; unfold mpi_ok, magnitude; cbn [mpi_s mpi_p].
  - unfold low1 in *. set (a := mpi_p (bn_obj s A)) in *. rewrite (nlimbs_sig a Hpa).
    assert (Hz : match a with [] => 0 | _ => zlen (mpi_p (bn_obj s X)) end <= zlen (copied (mpi_p (bn_obj s X)) a) <=
      Z.max (Z.max 1 (zlen (mpi_p (bn_obj s X)))) (Z.of_nat (sig a))).
    { destruct a as [|y a'] eqn:Ea; [unfold copied; zlia|]. rewrite copied_zlen, <- Ea by done. lia. }
    pose proof (sig_le a). split; [split; [by destruct a; [left|]|]; split; [by apply copied_ok|]|].
    { unfold zlen, MBEDTLS_MPI_MAX_LIMBS in *. lia. }
    split; [done|]. left. split; [done|]. split; [apply copied_limbs|done].
  - split; [done|]. split; [lia|]. by right.
Qed.

Lemma take_app_sig p n : limbs (take (sig p) (grown n p)) = limbs p.
Proof. unfold grown. rewrite take_app_le by apply sig_le. apply sig_take. Qed.

Lemma limbs_split p n : (n <= length p)%nat -> limbs p = limbs (take n p) + base ^ Z.of_nat n * limbs (drop n p).
Proof.
  intros Hn. rewrite <- (take_drop n p) at 1. rewrite limbs_app. unfold zlen. by rewrite length_take, Nat.min_l by lia.
Qed.

(** The part of [mbedtls_mpi_add_abs] after the operands have been put in place. *)
Lemma add_abs_tail X B s need : (X < bn_next s)%nat -> (B < bn_next s)%nat ->
  mpi_ok (bn_obj s X) -> mpi_ok (bn_obj s B) ->
  zlen (mpi_p (bn_obj s X)) <= need -> nlimbs (magnitude (bn_obj s X) + magnitude (bn_obj s B)) <= need ->
  wp exact (run! set_s X 1 in
    do! j := top_of B in
    chk! mbedtls_mpi_grow X j in
    do! c := add_limbs X B j in
    do! n := size_of X in
    add_carry (Z.to_nat n + 2) X j c)
   (computes X (zlen (mpi_p (bn_obj s X))) need (magnitude (bn_obj s X) + magnitude (bn_obj s B)) s) s.
Proof.
  intros HXn HBn (HsX & HpX & HmX) (HsB & HpB & HmB) HnX HnB. unfold magnitude.
  unfold magnitude in *. set (p := mpi_p (bn_obj s X)) in *. set (q := mpi_p (bn_obj s B)) in *.
  assert (Hsq : Z.of_nat (sig q) <= need).
  { rewrite <- (nlimbs_sig q HpB). pose proof (limbs_bound p HpX). pose proof (limbs_bound q HpB).
    etrans; [|exact HnB]. apply nlimbs_mono. lia. }
  apply wp_bind, wp_set_s, wp_bind, wp_top_of. fold p. set (s1 := upd X (mkMpi 1 p) s).
  assert (EB1 : mpi_p (bn_obj s1 B) = q).
  { destruct (decide (B = X)) as [->|]; [unfold s1; by rewrite obj_upd|unfold s1; by rewrite obj_upd_ne]. }
  rewrite EB1. pose proof (sig_le q). assert (C1 : changes [X] s s1) by apply changes_upd.
  assert (Ex1 : bn_obj s1 X = mkMpi 1 p) by apply obj_upd.
  apply wp_chk. eapply wp_mono; [apply grow_spec|]. cbn beta. rewrite Ex1. cbn [mpi_s mpi_p].
  intros r s2 [C2 [(-> & H2 & E2)|(-> & H2 & E2)]].
  2: { split; [by etrans|]. rewrite E2. split; [split; [by left|done]|]. split; [fold p; cbn [mpi_p]; lia|]. right.
    split; [done|]. destruct H2 as [H2|H2]; [by left|right; unfold zlen in *; lia]. }
  change (0 =? 0) with true. cbv iota. set (p2 := grown (Z.of_nat (sig q)) p) in *.
  pose proof (grown_zlen (Z.of_nat (sig q)) p) as L2. fold p2 in L2.
  pose proof (grown_ok (Z.of_nat (sig q)) p HpX) as Hp2. fold p2 in Hp2.
  assert (EB2 : mpi_p (bn_obj s2 B) = if decide (B = X) then p2 else q).
  { destruct (decide (B = X)) as [->|]; [by rewrite E2|]. by rewrite (changes_other X s1 s2 B) by done. }
  set (q2 := if decide (B = X) then p2 else q) in EB2.
  assert (Hq2 : Forall limb_ok q2 /\ (sig q <= length q2)%nat /\ limbs (take (sig q) q2) = limbs q).
  { unfold q2. destruct (decide (B = X)) as [->|].
    - split; [done|]. split; [unfold zlen in *; lia|]. apply take_app_sig.
    - split; [done|]. split; [done|]. apply sig_take. }
  destruct Hq2 as (Hq2 & Lq2 & Vq2). apply wp_bind.
  assert (Hj2 : (sig q <= length p2)%nat) by (unfold zlen in *; lia).
  assert (Hn2 : bn_next s2 = bn_next s) by (rewrite (ch_next _ _ _ C2); done).
  eapply wp_mono; [apply (add_limbs_spec X B (sig q) 1 p2 q2 s2); try done; by rewrite Hn2|].
  cbn beta. intros c s3 (C3 & Hc & p3 & E3 & Hp3 & Lp3 & D3 & V3).
  apply wp_bind, wp_size_of. rewrite E3. cbn [mpi_p]. assert (Z3 : zlen p3 = zlen p2) by (unfold zlen; lia).
  assert (C : changes [X] s s3) by (do 2 (etrans; [eassumption|]); done).
  eapply wp_mono; [apply (add_carry_spec X 1 p3 (sig q) c s3); try done; unfold zlen in *; lia|].
  cbn beta zeta. intros r s4 (C4 & p4 & E4 & Hp4 & L4 & M4 & R4).
  assert (V : limbs p3 + c * base ^ Z.of_nat (sig q) = limbs p + limbs q).
  { transitivity (limbs p2 + limbs q); [|unfold p2; by rewrite grown_limbs].
    rewrite (limbs_split p3 (sig q)), (limbs_split p2 (sig q)) by lia. rewrite D3. rewrite Vq2 in V3. lia. }
  rewrite V in *. split; [by etrans|]. rewrite E4.
  split; [split; [by left|done]|]. split; [fold p; cbn [mpi_p]; unfold zlen in *; lia|].
  destruct R4 as [(-> & V4)|(-> & R4)]; [left|right]; (split; [done|]).
  - unfold mpi_val, magnitude. cbn [mpi_s mpi_p]. rewrite V4. lia.
  - destruct R4 as [R4|R4]; [left; intros H0; by apply R4, C|right; unfold zlen in *; lia].
Qed.

Lemma add_abs_spec X A B s : (X < bn_next s)%nat -> (A < bn_next s)%nat -> (B < bn_next s)%nat ->
  mpi_ok (bn_obj s X) -> mpi_ok (bn_obj s A) -> mpi_ok (bn_obj s B) ->
  wp exact (mbedtls_mpi_add_abs X A B)
    (computes X (low2 X A B s) (add_need X A B s) (magnitude (bn_obj s A) + magnitude (bn_obj s B)) s) s.
Proof.
  intros HXn HAn HBn HX HA HB. unfold mbedtls_mpi_add_abs.
  set (A' := if Nat.eqb X B then X else A). set (B' := if Nat.eqb X B then A else B).
  replace (if Nat.eqb X B then (X, A) else (A, B)) with (A', B') by (unfold A', B'; by destruct (Nat.eqb X B)).
  assert (Hab : mpi_ok (bn_obj s A') /\ mpi_ok (bn_obj s B') /\ (B' < bn_next s)%nat /\ (X = A' \/ B' <> X) /\
    magnitude (bn_obj s A) + magnitude (bn_obj s B) = magnitude (bn_obj s A') + magnitude (bn_obj s B') /\
    nlimbs (magnitude (bn_obj s A')) <= add_need X A B s /\
    low2 X A B s <= low1 X A' s).
  { pose proof (low1_le X B s). pose proof (magnitude_nonneg _ HA) as Ha. pose proof (magnitude_nonneg _ HB) as Hb.
    pose proof (nlimbs_mono (magnitude (bn_obj s A)) (magnitude (bn_obj s A) + magnitude (bn_obj s B)) ltac:(lia)).
    pose proof (nlimbs_mono (magnitude (bn_obj s B)) (magnitude (bn_obj s A) + magnitude (bn_obj s B)) ltac:(lia)).
    unfold A', B', add_need, low2. destruct (Nat.eqb_spec X B) as [->|].
    - repeat (split; [done|]). split; [by left|]. lia.
    - repeat (split; [done|]). split; [right; congruence|]. lia. }
  destruct Hab as (HA' & HB' & HBn' & Hdist & Hsum & HnA & Hlow). rewrite Hsum.
  assert (Hneed : zlen (mpi_p (bn_obj s X)) <= add_need X A B s /\ 1 <= add_need X A B s /\
    nlimbs (magnitude (bn_obj s A') + magnitude (bn_obj s B')) <= add_need X A B s) by (rewrite <- Hsum; unfold add_need; lia).
  apply wp_chk. eapply wp_mono; [by apply (copy_unless_same X A')|]. cbn beta.
  intros r s1 (C1 & Hok1 & L1 & [(-> & V1 & Hsame)|(-> & R1)]).
  - change (0 =? 0) with true. cbv iota.
    assert (EB : bn_obj s1 B' = bn_obj s B').
    { destruct Hdist as [Heq|Hne]; [by rewrite Hsame|by apply (changes_other X)]. }
    pose proof (ch_next _ _ _ C1) as N1.
    eapply wp_mono; [apply (add_abs_tail X B' s1 (add_need X A B s)); rewrite ?N1, ?EB, ?V1; try done; lia|].
    cbn beta. intros r s2 (C2 & Hok2 & L2 & R2). rewrite EB, V1 in R2.
    split; [by etrans|]. split; [done|]. split; [lia|]. destruct R2 as [R2|(-> & R2)]; [by left|right].
    split; [done|]. destruct R2 as [R2|R2]; [left; intros H0; by apply R2, C1|by right].
  - split; [done|]. split; [done|]. split; [lia|]. right. split; [done|]. by left.
Qed.

(** ** Subtraction: theorems *)

(** An invariant of a counted loop without effects. *)
Lemma owp_ofor {A} (I : Z -> A -> Prop) md n i (body : Z -> A -> outcome A) (Q : A -> Prop) a :
  I i a -> (forall j a, i <= j < i + Z.of_nat n -> I j a -> owp md (body j a) (I (j + 1))) ->
  (forall a, I (i + Z.of_nat n) a -> Q a) -> owp md (ofor n i body a) Q.
Proof.
  revert i a. induction n as [|n IH]; intros i a HI Hbody HQ; cbn [ofor].
  { apply HQ. rewrite Z.add_0_r. exact HI. }
  apply owp_bind. eapply owp_mono; [apply Hbody; [lia|done]|]. intros a' HI'. apply IH; [done| |].
  - intros j a2 Hj. apply Hbody. lia.
  - intros a2. replace (i + 1 + Z.of_nat n) with (i + Z.of_nat (S n)) by lia. apply HQ.
Qed.

Lemma aload_Z {A} (l : list A) i x : 0 <= i -> l !! Z.to_nat i = Some x -> aload l i = Done x.
Proof. intros Hi H. unfold aload. destruct (Z.leb_spec 0 i); [|lia]. by rewrite H. Qed.
Lemma astore_Z {A} (l : list A) i x : 0 <= i < zlen l -> astore l i x = Done (<[Z.to_nat i := x]> l).
Proof. intros Hi. unfold astore. destruct (_ && _) eqn:E; [done|lia]. Qed.

Lemma lookup_in (p : list Z) k : 0 <= k < zlen p -> exists x, p !! Z.to_nat k = Some x.
Proof. intros Hk. destruct (lookup_lt_is_Some_2 p (Z.to_nat k)) as [x Hx]; [unfold zlen in Hk; lia|]. by exists x. Qed.

Lemma sub_wraps a b : limb_ok a -> limb_ok b ->
  limb_ok (u64 (a - b)) /\ a - b = u64 (a - b) - base * Z.b2z (a <? b).
Proof.
  unfold limb_ok, u64, base. intros Ha Hb. destruct (Z.ltb_spec a b); cbn [Z.b2z].
  - rewrite <- (Z.mod_unique (a - b) 18446744073709551616 (-1) (a - b + 18446744073709551616)) by lia. lia.
  - rewrite Z.mod_small by lia. lia.
Qed.

Lemma sub_step x y c : limb_ok x -> limb_ok y -> 0 <= c <= 1 ->
  let x1 := u64 (x - c) in let x2 := u64 (x1 - y) in
  let c2 := Z.b2z (x1 <? y) + Z.b2z (x <? c) in
  limb_ok x2 /\ 0 <= c2 <= 1 /\ x - c - y = x2 - base * c2.
Proof.
  intros Hx Hy Hc x1 x2 c2. destruct (sub_wraps x c Hx) as [H1 E1]; [unfold limb_ok, base; lia|].
  destruct (sub_wraps x1 y H1 Hy) as [H2 E2]. fold x1 in E1. fold x2 in E2, H2. split; [done|].
  pose proof (b2z_range (x <? c)). pose proof (b2z_range (x1 <? y)).
  assert (E : x - c - y = x2 - base * c2) by (unfold c2; lia). split; [|exact E].
  unfold limb_ok, base in *. lia.
Qed.

Lemma sub_rows n s d : Forall limb_ok s -> Forall limb_ok d -> (n <= length s)%nat -> (n <= length d)%nat ->
  owp exact (ofor n 0 (fun i '(d, c) =>
    let! x := aload d i in
    let z := Z.b2z (x <? c) in
    let x1 := u64 (x - c) in
    let! y := aload s i in
    let c := Z.b2z (x1 <? y) + z in
    let! d := astore d i (u64 (x1 - y)) in
    Done (d, c)) (d, 0))
   (fun '(d', c) => 0 <= c <= 1 /\ Forall limb_ok d' /\ length d' = length d /\
      limbs d' - c * base ^ Z.of_nat n = limbs d - limbs (take n s)).
Proof.
  intros Hs Hd Hns Hnd.
  apply (owp_ofor (fun i '(d', c) => 0 <= c <= 1 /\ Forall limb_ok d' /\ length d' = length d /\
    limbs d' - c * base ^ i = limbs d - limbs (take (Z.to_nat i) s))).
  - split; [lia|]. do 2 (split; [done|]). change (limbs (take (Z.to_nat 0) s)) with 0. lia.
  - intros i [d1 c] Hi (Hc & Hd1 & L1 & V1).
    destruct (lookup_in d1 i) as [x Hx]; [unfold zlen; lia|]. destruct (lookup_in s i) as [y Hy]; [unfold zlen; lia|].
    rewrite (aload_Z d1 i x) by (done || lia). cbn [obind]. rewrite (aload_Z s i y) by (done || lia). cbn [obind].
    rewrite astore_Z by (unfold zlen; lia). cbn [obind owp].
    pose proof (sub_step x y c (limb_lookup _ _ _ Hd1 Hx) (limb_lookup _ _ _ Hs Hy) Hc) as (Hy2 & Hc2 & E).
    split; [done|]. split; [by apply Forall_insert|]. split; [by rewrite length_insert|].
    replace (Z.to_nat (i + 1)) with (S (Z.to_nat i)) by lia.
    rewrite (limbs_insert _ _ x), (limbs_take_snoc s _ y Hy), Z2Nat.id, base_pow_succ by (done || lia). nia.
  - intros [d1 c] H. by rewrite Z.add_0_l, Nat2Z.id in H.
Qed.

(** A limb pattern with a borrow still to take is not the end: a limb above must be there. *)
Lemma borrow_in_range d c k : Forall limb_ok d -> c = 1 -> 0 <= k -> 0 <= limbs d - c * base ^ k -> k < zlen d.
Proof.
  intros Hd -> Hk H. pose proof (limbs_bound d Hd). destruct (decide (zlen d <= k)); [|lia].
  assert (base ^ zlen d <= base ^ k) by (apply Z.pow_le_mono_r; [done|lia]). lia.
Qed.

Lemma sub_hlp_spec n s d : Forall limb_ok s -> Forall limb_ok d -> (n <= length s)%nat -> (n <= length d)%nat ->
  limbs (take n s) <= limbs d ->
  owp exact (mpi_sub_hlp (Z.of_nat n) s d) (fun d' => Forall limb_ok d' /\ length d' = length d /\
    limbs d' = limbs d - limbs (take n s)).
Proof.
  intros Hs Hd Hns Hnd Hle. unfold mpi_sub_hlp. rewrite Nat2Z.id. apply owp_bind.
  eapply owp_mono; [by apply sub_rows|]. intros [d1 c1] (Hc1 & Hd1 & L1 & V1).
  apply (owp_oloop exact (fun '(d', k, c) => 0 <= c <= 1 /\ 0 <= k <= zlen d /\ Forall limb_ok d' /\
      length d' = length d /\ limbs d' - c * base ^ k = limbs d - limbs (take n s))
    (fun '(d', k, c) => if c =? 0 then O else Z.to_nat (zlen d - k))).
  - split; [done|]. split; [unfold zlen; lia|]. split; [done|]. by split.
  - intros [[d' k] c] (Hc & Hk & Hd' & L' & V'). destruct (Z.eqb_spec c 0) as [->|Hc0].
    { apply owp_done. split; [done|]. split; [done|]. lia. }
    assert (c = 1) as -> by lia. pose proof (borrow_in_range d' 1 k Hd' eq_refl ltac:(lia) ltac:(lia)) as Hlt.
    destruct (lookup_in d' k) as [x Hx]; [lia|].
    assert (Z' : zlen d' = zlen d) by (unfold zlen; lia).
    rewrite (aload_Z d' k x) by (done || lia). cbn [obind]. rewrite astore_Z by lia. cbn [obind owp].
    destruct (sub_wraps x 1 (limb_lookup _ _ _ Hd' Hx)) as [Hy Ey]; [by unfold limb_ok, base|].
    pose proof (b2z_range (x <? 1)). split.
    + split; [done|]. split; [lia|]. split; [by apply Forall_insert|]. split; [by rewrite length_insert|].
      rewrite (limbs_insert _ _ x), Z2Nat.id, base_pow_succ by (done || lia). nia.
    + intros _. destruct (Z.b2z (x <? 1) =? 0); lia.
  - intros _. unfold zlen. destruct (c1 =? 0); lia.
Qed.

Lemma sub_abs_tail X B s : X <> B -> mpi_ok (bn_obj s X) -> mpi_ok (bn_obj s B) ->
  magnitude (bn_obj s B) <= magnitude (bn_obj s X) ->
  wp exact (run! set_s X 1 in
    do! n := top_of B in
    do! b := mpi_at B in
    do! x := mpi_at X in
    do! p := lift (mpi_sub_hlp n (mpi_p b) (mpi_p x)) in
    run! set_p X p in
    ret 0)
   (fun r s' => r = 0 /\ changes [X] s s' /\ mpi_ok (bn_obj s' X) /\
      zlen (mpi_p (bn_obj s' X)) = zlen (mpi_p (bn_obj s X)) /\
      mpi_val (bn_obj s' X) = magnitude (bn_obj s X) - magnitude (bn_obj s B)) s.
Proof.
  intros Hne (HsX & HpX & HmX) (HsB & HpB & HmB) Hle. unfold magnitude in *.
  set (p := mpi_p (bn_obj s X)) in *. set (q := mpi_p (bn_obj s B)) in *.
  apply wp_bind, wp_set_s, wp_bind, wp_top_of, wp_bind, wp_mpi_at, wp_bind, wp_mpi_at, wp_bind, wp_lift.
  rewrite obj_upd_ne, obj_upd by done. cbn [mpi_p]. fold p q. pose proof (sig_le q). pose proof (sig_le p).
  assert (Hsig : (sig q <= sig p)%nat).
  { destruct (decide (sig p < sig q)%nat) as [Hlt|]; [|lia]. pose proof (sig_lt p q HpX HpB Hlt). lia. }
  eapply owp_mono; [apply (sub_hlp_spec (sig q) q p); try done; [lia|by rewrite sig_take]|].
  cbn beta. intros d (Hd & Ld & Vd). apply wp_bind, wp_set_p, wp_ret. rewrite !obj_upd. cbn [mpi_s mpi_p].
  split; [done|]. split; [etrans; apply changes_upd|]. unfold mpi_ok, mpi_val, magnitude. cbn [mpi_s mpi_p].
  unfold zlen in *. rewrite Ld. split; [split; [by left|done]|]. split; [done|]. rewrite Vd, sig_take. lia.
Qed.

Lemma changes_set_next L n s s' : changes L (set_next n s) s' -> n = bn_next s -> changes L s s'.
Proof. intros C ->. by destruct s. Qed.

(** Assignments to a local variable and to [X]. *)
Lemma changes_weaken (X : nat) s s' L : changes [X] s s' -> X ∈ L -> changes L s s'.
Proof. intros C HX. eapply changes_mono; [|exact C]. intros Y ->%list_elem_of_singleton. done. Qed.

(** [if( X == B ) { copy( &T, B ); B = &T; }]: an operand that is also the result is put aside. *)
Lemma put_aside T X B s : T <> B -> (B < bn_next s)%nat -> bn_obj s T = mkMpi 1 [] -> mpi_ok (bn_obj s B) ->
  wp exact (if Nat.eqb X B then mbedtls_mpi_copy T B else ret 0) (fun r s' => changes [T] s s' /\
    mpi_ok (bn_obj s' T) /\
    ((r = 0 /\ let m := bn_obj s' (if Nat.eqb X B then T else B) in
       mpi_ok m /\ mpi_val m = mpi_val (bn_obj s B) /\ zlen (mpi_p m) <= zlen (mpi_p (bn_obj s B))) \/
     (r = MBEDTLS_ERR_MPI_ALLOC_FAILED /\ bn_calloc s <> []))) s.
Proof.
  intros HT HBn ET HB. assert (Hok : mpi_ok (bn_obj s T)) by (rewrite ET; by repeat split; try left).
  destruct (Nat.eqb X B); [|apply wp_ret; split; [done|]; split; [done|]; by left].
  eapply wp_mono; [by apply copy_spec|]. cbn beta. destruct HB as (Hsb & Hpb & Hmb). rewrite ET. cbn [mpi_p].
  intros r s1 [C [(-> & E)|(-> & H & E)]]; (split; [done|]); rewrite E; unfold mpi_ok, mpi_val, magnitude; cbn [mpi_s mpi_p].
  - set (q := mpi_p (bn_obj s B)) in *.
    assert (Hz : zlen (copied [] q) <= zlen q).
    { destruct q as [|y q'] eqn:Eq; [done|]. rewrite copied_zlen, <- Eq by done. pose proof (sig_le q).
      unfold zlen in *. rewrite Eq in *. cbn [length] in *. lia. }
    assert (Hk : (match q with [] => 1 | _ => mpi_s (bn_obj s B) end = 1 \/
      match q with [] => 1 | _ => mpi_s (bn_obj s B) end = -1) /\ Forall limb_ok (copied [] q) /\
      zlen (copied [] q) <= MBEDTLS_MPI_MAX_LIMBS).
    { split; [by destruct q; [left|]|]. split; [by apply copied_ok|lia]. }
    split; [exact Hk|]. left. split; [done|]. split; [exact Hk|]. split; [|exact Hz]. rewrite copied_limbs.
    destruct q; [cbn; lia|done].
  - split; [by repeat split|]. by right.
Qed.

(** The body of [mbedtls_mpi_sub_abs], with its local variable. *)
Lemma sub_abs_body X A B T need s : T <> X -> T <> A -> T <> B ->
  (T < bn_next s)%nat -> (X < bn_next s)%nat -> (A < bn_next s)%nat -> (B < bn_next s)%nat ->
  bn_obj s T = mkMpi 1 [] -> mpi_ok (bn_obj s X) -> mpi_ok (bn_obj s A) -> mpi_ok (bn_obj s B) ->
  magnitude (bn_obj s B) <= magnitude (bn_obj s A) ->
  Z.max 1 (zlen (mpi_p (bn_obj s X))) <= need -> nlimbs (magnitude (bn_obj s A)) <= need ->
  wp exact (chk! (if Nat.eqb X B then mbedtls_mpi_copy T B else ret 0) in
      let B' := if Nat.eqb X B then T else B in
      chk! (if Nat.eqb X A then ret 0 else mbedtls_mpi_copy X A) in
      run! set_s X 1 in
      do! n := top_of B' in
      do! b := mpi_at B' in
      do! x := mpi_at X in
      do! p := lift (mpi_sub_hlp n (mpi_p b) (mpi_p x)) in
      run! set_p X p in
      ret 0)
    (fun r s' => changes [T; X] s s' /\ mpi_ok (bn_obj s' X) /\ low1 X A s <= zlen (mpi_p (bn_obj s' X)) <= need /\
      ((r = 0 /\ mpi_val (bn_obj s' X) = magnitude (bn_obj s A) - magnitude (bn_obj s B)) \/
       (r = MBEDTLS_ERR_MPI_ALLOC_FAILED /\ bn_calloc s <> []))) s.
Proof.
  intros HTX HTA HTB HTn HXn HAn HBn ET HX HA HB Hab HnX HnA. pose proof (low1_le X A s) as Hlow. apply wp_chk.
  eapply wp_mono; [by apply put_aside|]. cbn beta zeta. intros r s1 (C1 & _ & [(-> & HB1 & VB1 & _)|(-> & R1)]);
    assert (C1' : changes [T; X] s s1) by (eapply changes_weaken; [exact C1|by left]);
    pose proof (ch_next _ _ _ C1) as N1;
    assert (EX1 : bn_obj s1 X = bn_obj s X) by (by apply (changes_other T));
    assert (EA1 : bn_obj s1 A = bn_obj s A) by (by apply (changes_other T)).
  2: { split; [done|]. rewrite EX1. split; [done|]. split; [lia|by right]. }
  assert (El : low1 X A s1 = low1 X A s) by (unfold low1; by rewrite EX1, EA1).
  change (0 =? 0) with true. cbv iota. set (B' := if Nat.eqb X B then T else B) in *.
  assert (HXB : X <> B') by (unfold B'; destruct (Nat.eqb_spec X B); congruence).
  assert (MB1 : magnitude (bn_obj s1 B') = magnitude (bn_obj s B)).
  { rewrite !magnitude_val by done. by rewrite VB1. }
  apply wp_chk. eapply wp_mono; [apply (copy_unless_same X A s1); by rewrite ?EX1, ?EA1, ?N1|].
  rewrite EX1, EA1, El. cbn beta. intros r s2 (C2 & Hok2 & L2 & R2).
  assert (C2' : changes [T; X] s s2) by (etrans; [exact C1'|eapply changes_weaken; [exact C2|by right; left]]).
  destruct R2 as [(-> & V2 & _)|(-> & R2)].
  2: { split; [done|]. split; [done|]. split; [lia|]. right. split; [done|]. intros H0. by apply R2, C1. }
  change (0 =? 0) with true. cbv iota.
  assert (EB2 : bn_obj s2 B' = bn_obj s1 B').
  { apply (changes_other X); [done| |congruence]. rewrite N1. unfold B'. by destruct (Nat.eqb X B). }
  eapply wp_mono; [apply (sub_abs_tail X B' s2); rewrite ?EB2; try done; by rewrite MB1, V2|].
  cbn beta. intros r s3 (-> & C3 & Hok3 & L3 & V3). rewrite EB2, MB1, V2 in V3.
  split; [etrans; [exact C2'|eapply changes_weaken; [exact C3|by right; left]]|]. split; [done|]. split; [lia|by left].
Qed.

Lemma sub_abs_spec X A B s : (X < bn_next s)%nat -> (A < bn_next s)%nat -> (B < bn_next s)%nat ->
  mpi_ok (bn_obj s X) -> mpi_ok (bn_obj s A) -> mpi_ok (bn_obj s B) ->
  wp exact (mbedtls_mpi_sub_abs X A B) (fun r s' =>
    if magnitude (bn_obj s A) <? magnitude (bn_obj s B) then r = MBEDTLS_ERR_MPI_NEGATIVE_VALUE /\ s' = s
    else computes X (low2 X A B s) (add_need X A B s) (magnitude (bn_obj s A) - magnitude (bn_obj s B)) s r s') s.
Proof.
  intros HXn HAn HBn HX HA HB. unfold mbedtls_mpi_sub_abs. apply wp_bind. unfold wp at 1.
  rewrite cmp_abs_spec by done. cbn [owp]. set (a := magnitude (bn_obj s A)). set (b := magnitude (bn_obj s B)).
  destruct (Z.ltb_spec (Z.sgn (a - b)) 0) as [Hneg|Hpos].
  { apply wp_ret. destruct (Z.ltb_spec a b); [done|lia]. }
  destruct (Z.ltb_spec a b) as [|Hab]; [lia|]. apply (wp_local_mpi exact [X]).
  set (T := bn_next s). set (s1 := set_next (S T) s). apply wp_bind, wp_init.
  set (s2 := upd T (mkMpi 1 []) s1). assert (N2 : bn_next s2 = S T) by done.
  assert (Hold : forall Y, (Y < T)%nat -> bn_obj s2 Y = bn_obj s Y) by (intros Y HY; unfold s2; by rewrite obj_upd_ne by lia).
  assert (C2 : changes [T; X] s1 s2) by (eapply changes_weaken; [apply changes_upd|by left]).
  apply wp_bind. set (need := add_need X A B s).
  eapply wp_mono; [apply (sub_abs_body X A B T need s2); rewrite ?N2, ?(Hold X), ?(Hold A), ?(Hold B) by lia; try (done || lia)|].
  - apply obj_upd.
  - unfold need, add_need. lia.
  - pose proof (magnitude_nonneg _ HA). pose proof (magnitude_nonneg _ HB). unfold need, add_need.
    pose proof (nlimbs_mono (magnitude (bn_obj s A)) (magnitude (bn_obj s A) + magnitude (bn_obj s B)) ltac:(lia)). lia.
  - assert (El : low1 X A s2 = low1 X A s) by (unfold low1; by rewrite (Hold X), (Hold A) by lia).
    rewrite (Hold A), (Hold B), El by lia. cbn beta. intros r s3 (C3 & Hok3 & L3 & R3). apply wp_bind, wp_free, wp_ret.
    set (s4 := upd T _ s3). assert (EX : bn_obj s4 X = bn_obj s3 X) by (unfold s4; by rewrite obj_upd_ne by lia).
    split; [do 2 (etrans; [eassumption|]); eapply changes_weaken; [apply changes_upd|by left]|]. intros C.
    split; [exact C|]. change (bn_obj (set_next T s4) X) with (bn_obj s4 X). rewrite EX. split; [done|].
    split; [unfold low2; lia|]. destruct R3 as [R3|[-> R3]]; [by left|right]. split; [done|by left].
Qed.

(** *** Signed addition and subtraction *)

Lemma signed_result X low need v sg (m : M bn Z) s : wp exact m (computes X low need v s) s -> 0 <= v -> sg = 1 \/ sg = -1 ->
  wp exact (chk! m in run! set_s X sg in ret 0) (computes X low need (sg * v) s) s.
Proof.
  intros Hm Hv Hsg. apply wp_chk. eapply wp_mono; [exact Hm|]. cbn beta.
  intros r s1 (C & Hok & L & [(-> & V)|(-> & R)]).
  - change (0 =? 0) with true. cbv iota. apply wp_bind, wp_set_s, wp_ret.
    split; [etrans; [exact C|apply changes_upd]|]. rewrite obj_upd. pose proof (magnitude_val _ Hok) as Hmag.
    destruct Hok as (_ & Hp & Hmax). split; [by split|]. split; [done|]. left. split; [done|].
    unfold mpi_val, magnitude in *. cbn [mpi_s mpi_p]. rewrite Hmag, V. f_equal. lia.
  - split; [done|]. split; [done|]. split; [done|]. by right.
Qed.

Lemma computes_room X l1 l2 n1 n2 v s r s' : l2 <= l1 -> n1 <= n2 -> computes X l1 n1 v s r s' -> computes X l2 n2 v s r s'.
Proof.
  intros Hl Hn (C & Hok & L & R). split; [done|]. split; [done|]. split; [lia|]. destruct R as [R|(-> & [R|R])]; [by left|right..].
  - split; [done|by left].
  - split; [done|right; lia].
Qed.

Section signed.
Context (X A B : nat) (s : bn).
Context (HXn : (X < bn_next s)%nat) (HAn : (A < bn_next s)%nat) (HBn : (B < bn_next s)%nat).
Context (HX : mpi_ok (bn_obj s X)) (HA : mpi_ok (bn_obj s A)) (HB : mpi_ok (bn_obj s B)).

(** The difference of the magnitudes, with the sign [sg] when it is not negative. *)
Lemma signed_difference sg : sg = 1 \/ sg = -1 ->
  wp exact (do! c := mbedtls_mpi_cmp_abs A B in
    if 0 <=? c then chk! mbedtls_mpi_sub_abs X A B in run! set_s X sg in ret 0
    else chk! mbedtls_mpi_sub_abs X B A in run! set_s X (- sg) in ret 0)
   (computes X (low2 X A B s) (add_need X A B s) (sg * (magnitude (bn_obj s A) - magnitude (bn_obj s B))) s) s.
Proof.
  intros Hsg. apply wp_bind. unfold wp at 1. rewrite cmp_abs_spec by done. cbn [owp].
  set (a := magnitude (bn_obj s A)). set (b := magnitude (bn_obj s B)).
  destruct (Z.leb_spec 0 (Z.sgn (a - b))).
  - apply signed_result; [|lia|done]. eapply wp_mono; [by apply sub_abs_spec|]. cbn beta. fold a b. intros r s1.
    destruct (Z.ltb_spec a b); [lia|done].
  - replace (sg * (a - b)) with (- sg * (b - a)) by ring. apply signed_result; [|lia|lia].
    eapply wp_mono; [by apply (sub_abs_spec X B A)|]. cbn beta. fold a b. intros r s1.
    destruct (Z.ltb_spec b a); [lia|]. apply computes_room; [unfold low2; lia|].
    unfold add_need. rewrite (Z.add_comm (magnitude _)). lia.
Qed.

Lemma signed_sum sg : sg = 1 \/ sg = -1 ->
  wp exact (chk! mbedtls_mpi_add_abs X A B in run! set_s X sg in ret 0)
   (computes X (low2 X A B s) (add_need X A B s) (sg * (magnitude (bn_obj s A) + magnitude (bn_obj s B))) s) s.
Proof.
  intros Hsg. apply signed_result; [by apply add_abs_spec| |done].
  pose proof (magnitude_nonneg _ HA). pose proof (magnitude_nonneg _ HB). lia.
Qed.

Lemma add_mpi_spec :
  wp exact (mbedtls_mpi_add_mpi X A B)
    (computes X (low2 X A B s) (add_need X A B s) (mpi_val (bn_obj s A) + mpi_val (bn_obj s B)) s) s.
Proof.
  unfold mbedtls_mpi_add_mpi. apply wp_bind, wp_mpi_at, wp_bind, wp_mpi_at. cbv zeta.
  pose proof (proj1 HA) as Ha. pose proof (proj1 HB) as Hb.
  destruct (Z.ltb_spec (mpi_s (bn_obj s A) * mpi_s (bn_obj s B)) 0).
  - replace (_ + _) with (mpi_s (bn_obj s A) * (magnitude (bn_obj s A) - magnitude (bn_obj s B))); [by apply signed_difference|].
    unfold mpi_val. destruct Ha as [Ha|Ha], Hb as [Hb|Hb]; rewrite Ha, Hb in *; lia.
  - replace (_ + _) with (mpi_s (bn_obj s A) * (magnitude (bn_obj s A) + magnitude (bn_obj s B))); [by apply signed_sum|].
    unfold mpi_val. destruct Ha as [Ha|Ha], Hb as [Hb|Hb]; rewrite Ha, Hb in *; lia.
Qed.

Lemma sub_mpi_spec :
  wp exact (mbedtls_mpi_sub_mpi X A B)
    (computes X (low2 X A B s) (add_need X A B s) (mpi_val (bn_obj s A) - mpi_val (bn_obj s B)) s) s.
Proof.
  unfold mbedtls_mpi_sub_mpi. apply wp_bind, wp_mpi_at, wp_bind, wp_mpi_at. cbv zeta.
  pose proof (proj1 HA) as Ha. pose proof (proj1 HB) as Hb.
  destruct (Z.ltb_spec 0 (mpi_s (bn_obj s A) * mpi_s (bn_obj s B))).
  - replace (mpi_val _ - _) with (mpi_s (bn_obj s A) * (magnitude (bn_obj s A) - magnitude (bn_obj s B))); [by apply signed_difference|].
    unfold mpi_val. destruct Ha as [Ha|Ha], Hb as [Hb|Hb]; rewrite Ha, Hb in *; lia.
  - replace (mpi_val _ - _) with (mpi_s (bn_obj s A) * (magnitude (bn_obj s A) + magnitude (bn_obj s B))); [by apply signed_sum|].
    unfold mpi_val. destruct Ha as [Ha|Ha], Hb as [Hb|Hb]; rewrite Ha, Hb in *; lia.
Qed.
End signed.

(** The integer operands; the negation of -2^63 overflows. *)
Definition sint (z : Z) : Prop := - 9223372036854775808 < z < 9223372036854775808.

Lemma sint_val z : sint z -> mpi_ok (mkMpi (sint_sign z) [sint_abs z]) /\ mpi_val (mkMpi (sint_sign z) [sint_abs z]) = z.
Proof.
  intros Hz. unfold sint in Hz. assert (E : sint_abs z = Z.abs z) by (unfold sint_abs; destruct (Z.ltb_spec z 0); rewrite u64_id; lia).
  split.
  - split; [unfold sint_sign; cbn; destruct (z <? 0); lia|]. split; [|done]. cbn. constructor; [|done]. rewrite E. unfold limb_ok, base. lia.
  - unfold mpi_val, magnitude, sint_sign. cbn [mpi_s mpi_p limbs]. rewrite E. destruct (Z.ltb_spec z 0); lia.
Qed.

(** An operation on [X], [A] and a local integer of one limb. *)
Lemma wp_with_int X A sg l need v (op : nat -> M bn Z) s : (X < bn_next s)%nat -> (A < bn_next s)%nat ->
  mpi_ok (mkMpi sg [l]) ->
  (forall B s1, bn_obj s1 B = mkMpi sg [l] -> B = bn_next s -> bn_next s1 = S B -> bn_calloc s1 = bn_calloc s ->
     (forall Y, (Y < bn_next s)%nat -> bn_obj s1 Y = bn_obj s Y) ->
     wp exact (op B) (computes X (low1 X A s) need v s1) s1) ->
  wp exact (with_int sg l op)
    (computes X (low1 X A s) need v s) s.
Proof.
  intros HXn HAn Hok Hop. apply (wp_local_mpi exact [X]). set (T := bn_next s). apply wp_bind, wp_mpi_assign.
  set (s1 := upd T _ _). eapply wp_mono; [apply (Hop T s1); try done|].
  - apply obj_upd.
  - intros Y HY. unfold s1. rewrite obj_upd_ne by (unfold T; lia). done.
  - cbn beta. intros r s2 (C & Hok2 & L & R). split.
    + etrans; [eapply changes_weaken; [apply changes_upd|by left]|]. eapply changes_weaken; [exact C|by right; left].
    + intros C'. split; [done|]. split; [done|]. split; [done|]. exact R.
Qed.

Lemma low2_int X A B s s1 : mpi_p (bn_obj s1 B) <> [] -> bn_obj s1 X = bn_obj s X -> bn_obj s1 A = bn_obj s A ->
  low2 X A B s1 = low1 X A s.
Proof.
  intros HB EX EA. pose proof (low1_le X A s). unfold low2, low1 in *. rewrite EX, EA.
  destruct (mpi_p (bn_obj s1 B)); [done|]. lia.
Qed.

(** What adding the integer [b] to [A] may need. *)
Definition int_need (X A : nat) (b : Z) (s : bn) : Z :=
  Z.max (Z.max 1 (zlen (mpi_p (bn_obj s X)))) (nlimbs (magnitude (bn_obj s A) + Z.abs b)).

Lemma add_need_int X A B b s s1 : sint b -> bn_obj s1 B = mkMpi (sint_sign b) [sint_abs b] ->
  bn_obj s1 X = bn_obj s X -> bn_obj s1 A = bn_obj s A -> add_need X A B s1 = int_need X A b s.
Proof.
  intros Hb EB EX EA. destruct (sint_val b Hb) as [Hok Hv]. unfold add_need, int_need.
  rewrite EB, EX, EA, (magnitude_val (mkMpi _ _)) by done. by rewrite Hv.
Qed.

Lemma add_int_spec X A b s : (X < bn_next s)%nat -> (A < bn_next s)%nat -> mpi_ok (bn_obj s X) -> mpi_ok (bn_obj s A) -> sint b ->
  wp exact (mbedtls_mpi_add_int X A b)
    (computes X (low1 X A s) (int_need X A b s) (mpi_val (bn_obj s A) + b) s) s.
Proof.
  intros HXn HAn HX HA Hb. destruct (sint_val b Hb) as [Hok Hv]. apply wp_with_int; try done.
  intros B s1 EB HB HN HC Hold. rewrite <- (low2_int X A B s s1) by (rewrite ?EB; auto).
  rewrite <- (add_need_int X A B b s s1) by (rewrite ?EB; auto).
  pose proof (add_mpi_spec X A B s1) as H. rewrite EB, Hv, (Hold X), (Hold A) in H by done. apply H; (done || lia).
Qed.

Lemma sub_int_spec X A b s : (X < bn_next s)%nat -> (A < bn_next s)%nat -> mpi_ok (bn_obj s X) -> mpi_ok (bn_obj s A) -> sint b ->
  wp exact (mbedtls_mpi_sub_int X A b)
    (computes X (low1 X A s) (int_need X A b s) (mpi_val (bn_obj s A) - b) s) s.
Proof.
  intros HXn HAn HX HA Hb. destruct (sint_val b Hb) as [Hok Hv]. apply wp_with_int; try done.
  intros B s1 EB HB HN HC Hold. rewrite <- (low2_int X A B s s1) by (rewrite ?EB; auto).
  rewrite <- (add_need_int X A B b s s1) by (rewrite ?EB; auto).
  pose proof (sub_mpi_spec X A B s1) as H. rewrite EB, Hv, (Hold X), (Hold A) in H by done. apply H; (done || lia).
Qed.

Lemma cmp_int_spec X z s : (X < bn_next s)%nat -> mpi_ok (bn_obj s X) -> sint z ->
  wp exact (mbedtls_mpi_cmp_int X z) (fun r s' => r = Z.sgn (mpi_val (bn_obj s X) - z) /\ changes [] s s') s.
Proof.
  intros HXn HX Hz. destruct (sint_val z Hz) as [Hok Hv]. apply (wp_local_mpi exact []). set (T := bn_next s).
  apply wp_bind, wp_mpi_assign. set (s1 := upd T _ _).
  assert (EX : bn_obj s1 X = bn_obj s X) by (unfold s1; by rewrite obj_upd_ne by (unfold T; lia)).
  assert (ET : bn_obj s1 T = mkMpi (sint_sign z) [sint_abs z]) by apply obj_upd.
  unfold wp. rewrite cmp_mpi_spec by (rewrite ?EX, ?ET; done). rewrite EX, ET, Hv. cbn [owp].
  split; [apply changes_upd|done].
Qed.

(** ** Multiplication: theorems *)

Lemma MULADDC_CORE_spec s d b c : limb_ok s -> limb_ok d -> limb_ok b -> limb_ok c ->
  let '(y, c') := MULADDC_CORE s d b c in limb_ok y /\ limb_ok c' /\ s * b + d + c = y + base * c'.
Proof.
  intros Hs Hd Hb Hc. unfold MULADDC_CORE. set (r := s * b).
  set (r0 := u64 r). rewrite Z.shiftr_div_pow2 by done. change (2 ^ biL) with base.
  assert (Hr : 0 <= r <= (base - 1) * (base - 1)) by (unfold r, limb_ok, base in *; nia).
  assert (Er : r = r0 + base * (r / base)).
  { unfold r0, u64. change 18446744073709551616 with base. pose proof (Z.div_mod r base ltac:(done)). lia. }
  assert (H0 : limb_ok r0) by apply u64_range.
  assert (Hq : 0 <= r / base <= base - 2).
  { split; [apply Z.div_pos; [lia|done]|]. unfold limb_ok, base in *. lia. }
  replace (u64 (r / base)) with (r / base) by (symmetry; apply u64_id; unfold base in *; lia).
  destruct (add_wraps r0 c H0 Hc) as [H1 E1]. set (r0' := u64 (r0 + c)) in *. pose proof (b2z_range (r0' <? c)).
  rewrite (u64_id (r / base + _)) by (unfold base in *; lia).
  destruct (add_wraps r0' d H1 Hd) as [H2 E2]. set (r0'' := u64 (r0' + d)) in *. pose proof (b2z_range (r0'' <? d)).
  assert (Htot : s * b + d + c = r0'' + base * (r / base + Z.b2z (r0' <? c) + Z.b2z (r0'' <? d))) by (fold r; lia).
  assert (Hlt : r / base + Z.b2z (r0' <? c) + Z.b2z (r0'' <? d) < base).
  { fold r in Htot. unfold limb_ok, base in *. lia. }
  rewrite u64_id by (unfold base in *; lia). split; [done|]. split; [|exact Htot]. unfold limb_ok. lia.
Qed.

Lemma mul_rows_loop i s d o b : Forall limb_ok s -> Forall limb_ok d -> limb_ok b -> (i <= length s)%nat ->
  0 <= o -> o + Z.of_nat i <= zlen d ->
  owp exact (ofor i 0 (fun k '(d, c) =>
    let! x := aload s k in
    let! y := aload d (o + k) in
    let '(y, c) := MULADDC_CORE x y b c in
    let! d := astore d (o + k) y in
    Done (d, c)) (d, 0))
   (fun '(d', c) => limb_ok c /\ Forall limb_ok d' /\ length d' = length d /\
      limbs d' + c * base ^ (o + Z.of_nat i) = limbs d + limbs (take i s) * b * base ^ o).
Proof.
  intros Hs Hd Hb His Ho Hoi.
  apply (owp_ofor (fun k '(d', c) => limb_ok c /\ Forall limb_ok d' /\ length d' = length d /\
    limbs d' + c * base ^ (o + k) = limbs d + limbs (take (Z.to_nat k) s) * b * base ^ o)).
  - split; [done|]. do 2 (split; [done|]). change (limbs (take (Z.to_nat 0) s)) with 0. lia.
  - intros k [d1 c] Hk (Hc & Hd1 & L1 & V1). assert (Z1 : zlen d1 = zlen d) by (unfold zlen; lia).
    destruct (lookup_in s k) as [x Hx]; [unfold zlen; lia|]. destruct (lookup_in d1 (o + k)) as [y Hy]; [lia|].
    rewrite (aload_Z s k x) by (done || lia). cbn [obind]. rewrite (aload_Z d1 (o + k) y) by (done || lia). cbn [obind].
    pose proof (MULADDC_CORE_spec x y b c (limb_lookup _ _ _ Hs Hx) (limb_lookup _ _ _ Hd1 Hy) Hb Hc) as H.
    destruct (MULADDC_CORE x y b c) as [y' c']. destruct H as (Hy' & Hc' & E).
    rewrite astore_Z by lia. cbn [obind owp]. split; [done|]. split; [by apply Forall_insert|].
    split; [by rewrite length_insert|]. replace (Z.to_nat (k + 1)) with (S (Z.to_nat k)) by lia.
    rewrite (limbs_insert _ _ y), (limbs_take_snoc s _ x Hx), !Z2Nat.id by (done || lia).
    rewrite Z.add_assoc, base_pow_succ by lia. rewrite (Z.pow_add_r base o k) in * by lia. nia.
  - intros [d1 c] H. by rewrite Z.add_0_l, Nat2Z.id in H.
Qed.

Lemma mul_hlp_spec i s d o b : Forall limb_ok s -> Forall limb_ok d -> limb_ok b -> (i <= length s)%nat ->
  0 <= o -> o + Z.of_nat i < zlen d -> limbs d + limbs (take i s) * b * base ^ o < base ^ zlen d ->
  owp exact (mpi_mul_hlp (Z.of_nat i) s d o b) (fun d' => Forall limb_ok d' /\ length d' = length d /\
    limbs d' = limbs d + limbs (take i s) * b * base ^ o).
Proof.
  intros Hs Hd Hb His Ho Hoi Hlt. unfold mpi_mul_hlp. rewrite Nat2Z.id. apply owp_bind.
  eapply owp_mono; [apply mul_rows_loop; (done || lia)|]. intros [d1 c1] (Hc1 & Hd1 & L1 & V1).
  set (V := limbs d + limbs (take i s) * b * base ^ o) in *.
  apply (owp_oloop exact (fun '(d', k, c) => limb_ok c /\ 0 <= k < zlen d /\ Forall limb_ok d' /\
      length d' = length d /\ limbs d' + c * base ^ k = V) (fun '(d', k, c) => Z.to_nat (zlen d - k))).
  - split; [done|]. split; [lia|]. split; [done|]. by split.
  - intros [[d' k] c] (Hc & Hk & Hd' & L' & V'). assert (Z' : zlen d' = zlen d) by (unfold zlen; lia).
    destruct (lookup_in d' k) as [x Hx]; [lia|].
    rewrite (aload_Z d' k x) by (done || lia). cbn [obind]. rewrite astore_Z by lia. cbn [obind owp].
    destruct (add_wraps x c (limb_lookup _ _ _ Hd' Hx) Hc) as [Hy Ey]. set (y := u64 (x + c)) in *.
    pose proof (b2z_range (y <? c)) as Hbr. set (d2 := <[Z.to_nat k := y]> d').
    assert (Hd2 : Forall limb_ok d2) by (by apply Forall_insert).
    assert (L2 : length d2 = length d) by (unfold d2; by rewrite length_insert).
    assert (V2 : limbs d2 + Z.b2z (y <? c) * base ^ (k + 1) = V).
    { unfold d2. rewrite (limbs_insert _ _ x), Z2Nat.id, base_pow_succ by (done || lia). nia. }
    destruct (Z.eqb_spec (Z.b2z (y <? c)) 0) as [E0|E0].
    + split; [done|]. split; [done|]. rewrite E0 in V2. lia.
    + assert (E1 : Z.b2z (y <? c) = 1) by lia. rewrite E1 in *. pose proof (limbs_bound d2 Hd2).
      assert (k + 1 < zlen d).
      { destruct (decide (zlen d <= k + 1)) as [Hle|]; [|lia].
        assert (base ^ zlen d <= base ^ (k + 1)) by (apply Z.pow_le_mono_r; [done|lia]). lia. }
      split; [|lia]. split; [by unfold limb_ok, base|]. split; [lia|]. done.
  - intros _. unfold zlen. lia.
Qed.

Lemma mul_rows_spec i a b : Forall limb_ok a -> Forall limb_ok b -> (i <= length a)%nat -> forall j x,
  (j <= length b)%nat -> Forall limb_ok x -> (i + j <= length x)%nat ->
  limbs x + limbs (take i a) * limbs (take j b) < base ^ zlen x ->
  owp exact (mul_rows j (Z.of_nat i) a b x) (fun x' => Forall limb_ok x' /\ length x' = length x /\
    limbs x' = limbs x + limbs (take i a) * limbs (take j b)).
Proof.
  intros Ha Hb Hi. induction j as [|j IH]; intros x Hj Hx Hij Hlt; cbn [mul_rows].
  { apply owp_done. split; [done|]. split; [done|]. change (limbs (take 0 b)) with 0. lia. }
  destruct (lookup_lt_is_Some_2 b j) as [y Hy]; [lia|]. rewrite (aload_some b j y Hy). cbn [obind].
  rewrite (limbs_take_snoc b j y Hy) in Hlt |- *. pose proof (limb_lookup _ _ _ Hb Hy) as Hyo.
  pose proof (limbs_take_bound a i Ha Hi). pose proof (limbs_take_bound b j Hb ltac:(lia)).
  apply owp_bind. eapply owp_mono; [apply (mul_hlp_spec i a x (Z.of_nat j) y); try done; try lia|].
  { unfold zlen. lia. }
  cbn beta. intros x1 (Hx1 & L1 & V1). eapply owp_mono; [apply IH; try done; [lia|lia|]|].
  - assert (Z1 : zlen x1 = zlen x) by (unfold zlen; lia). rewrite Z1, V1. lia.
  - cbn beta. intros x2 (Hx2 & L2 & V2). split; [done|]. split; [lia|]. rewrite V2, V1. ring.
Qed.

(** The part of [mbedtls_mpi_mul_mpi] after the operands have been put aside. *)
Lemma mul_tail X A B need s : X <> A -> X <> B -> (X < bn_next s)%nat -> (A < bn_next s)%nat -> (B < bn_next s)%nat ->
  mpi_ok (bn_obj s X) -> mpi_ok (bn_obj s A) -> mpi_ok (bn_obj s B) ->
  zlen (mpi_p (bn_obj s X)) <= need -> 1 <= need ->
  nlimbs (magnitude (bn_obj s A)) + nlimbs (magnitude (bn_obj s B)) <= need ->
  wp exact (do! i := top_of A in
      do! j := top_of B in
      chk! mbedtls_mpi_grow X (i + j) in
      chk! mbedtls_mpi_lset X 0 in
      do! a := mpi_at A in
      do! b := mpi_at B in
      do! x := mpi_at X in
      do! p := lift (mul_rows (Z.to_nat j) i (mpi_p a) (mpi_p b) (mpi_p x)) in
      run! set_p X p in
      run! set_s X (mpi_s a * mpi_s b) in
      ret 0)
    (computes X (zlen (mpi_p (bn_obj s X))) need (mpi_val (bn_obj s A) * mpi_val (bn_obj s B)) s) s.
Proof.
  intros HXA HXB HXn HAn HBn HX (HsA & HpA & HmA) (HsB & HpB & HmB) HnX Hn1 HnAB.
  unfold magnitude in HnAB. rewrite !nlimbs_sig in HnAB by done.
  set (a := mpi_p (bn_obj s A)) in *. set (b := mpi_p (bn_obj s B)) in *.
  apply wp_bind, wp_top_of, wp_bind, wp_top_of. fold a b. pose proof (sig_le a). pose proof (sig_le b).
  set (n := Z.of_nat (sig a) + Z.of_nat (sig b)). assert (Hn : n <= need) by (unfold n, zlen in *; lia).
  destruct HX as (HsX & HpX & HmX).
  apply wp_chk. eapply wp_mono; [apply grow_spec|]. cbn beta. intros r s1 [C1 [(-> & H1 & E1)|(-> & H1 & E1)]].
  2: { split; [done|]. rewrite E1. split; [done|]. split; [done|]. right. split; [done|].
    destruct H1 as [H1|H1]; [by left|right; lia]. }
  change (0 =? 0) with true. cbv iota. set (p := mpi_p (bn_obj s X)) in *.
  pose proof (grown_zlen n p) as L1. pose proof (grown_ok n p HpX) as Hp1. set (p1 := grown n p) in *.
  assert (Hok1 : mpi_ok (bn_obj s1 X)) by (rewrite E1; split; [done|]; split; [done|cbn; lia]).
  apply wp_chk. eapply wp_mono; [apply lset_spec; [lia|done]|]. rewrite E1. cbn [mpi_p].
  intros r s2 [C2 [(-> & E2)|(-> & R2 & E2)]].
  2: { split; [by etrans|]. rewrite E2. rewrite E1 in Hok1. split; [done|]. split; [cbn; lia|]. right. split; [done|].
    left. intros Hc. by apply R2, C1. }
  change (0 =? 0) with true. cbv iota. set (z := _ :: replicate _ 0) in E2.
  assert (Hz : Forall limb_ok z /\ limbs z = 0 /\ zlen z = Z.max 1 (zlen p1)).
  { unfold z. split; [constructor; [done|apply zeros_ok]|]. cbn [limbs]. rewrite limbs_zeros.
    split; [done|]. unfold zlen. cbn [length]. rewrite length_replicate. lia. }
  destruct Hz as (Hz & V0 & Lz). assert (C12 : changes [X] s s2) by by etrans.
  apply wp_bind, wp_mpi_at, wp_bind, wp_mpi_at, wp_bind, wp_mpi_at, wp_bind, wp_lift.
  rewrite (changes_other X s s2 A), (changes_other X s s2 B), E2, Nat2Z.id by (done || congruence).
  cbn [mpi_p mpi_s]. fold a b. pose proof (magnitude_nonneg (bn_obj s A)) as Ha. pose proof (magnitude_nonneg (bn_obj s B)) as Hb.
  assert (Hlt : limbs z + limbs (take (sig a) a) * limbs (take (sig b) b) < base ^ zlen z).
  { rewrite V0, !sig_take. destruct (sig_bound a HpA) as [Ba _]. destruct (sig_bound b HpB) as [Bb _].
    pose proof (limbs_bound a HpA). pose proof (limbs_bound b HpB).
    eapply Z.lt_le_trans; [apply Z.mul_lt_mono_nonneg; [lia|exact Ba|lia|exact Bb]|].
    rewrite <- Z.pow_add_r by lia. apply Z.pow_le_mono_r; [reflexivity|]. clear -L1 Lz. unfold n in *. lia. }
  eapply owp_mono; [apply (mul_rows_spec (sig a) a b HpA HpB); [assumption|assumption|exact Hz| |exact Hlt]|].
  { clear -L1 Lz. unfold n, zlen in *. lia. }
  clear Hlt. cbn beta. intros x (Hx & Lx & Vx). rewrite V0, !sig_take in Vx. apply wp_bind, wp_set_p, wp_bind, wp_set_s, wp_ret.
  rewrite !obj_upd. cbn [mpi_p]. split; [etrans; [exact C12|]; etrans; apply changes_upd|]. rewrite obj_upd.
  assert (Zx : zlen x = zlen z) by (unfold zlen; by rewrite Lx). unfold mpi_ok, mpi_val, magnitude. cbn [mpi_s mpi_p]. fold a b.
  clear Hz Hp1 HpX HpA HpB. split; [split; [lia|]; split; [done|unfold MBEDTLS_MPI_MAX_LIMBS in *; lia]|]. split; [lia|]. left. split; [done|].
  rewrite Vx. ring.
Qed.

Definition mul_need (X A B : nat) (s : bn) : Z :=
  Z.max (Z.max 1 (zlen (mpi_p (bn_obj s X)))) (nlimbs (magnitude (bn_obj s A)) + nlimbs (magnitude (bn_obj s B))).

Section product.
Context (X A B TA TB : nat) (need : Z) (s : bn).
Context (HTA : TA <> X) (HTAA : TA <> A) (HTAB : TA <> B) (HTB : TB <> X) (HTBA : TB <> A) (HTBB : TB <> B) (HT : TA <> TB).
Context (HXn : (X < bn_next s)%nat) (HAn : (A < bn_next s)%nat) (HBn : (B < bn_next s)%nat).
Context (HTAn : (TA < bn_next s)%nat) (HTBn : (TB < bn_next s)%nat).
Context (ETA : bn_obj s TA = mkMpi 1 []) (ETB : bn_obj s TB = mkMpi 1 []).
Context (HX : mpi_ok (bn_obj s X)) (HA : mpi_ok (bn_obj s A)) (HB : mpi_ok (bn_obj s B)).
Context (HnX : zlen (mpi_p (bn_obj s X)) <= need) (Hn1 : 1 <= need).
Context (HnAB : nlimbs (magnitude (bn_obj s A)) + nlimbs (magnitude (bn_obj s B)) <= need).

(** The body of [mbedtls_mpi_mul_mpi], with its local variables. *)
Lemma mul_body :
  wp exact (chk! (if Nat.eqb X A then mbedtls_mpi_copy TA A else ret 0) in
      let A' := if Nat.eqb X A then TA else A in
      chk! (if Nat.eqb X B then mbedtls_mpi_copy TB B else ret 0) in
      let B' := if Nat.eqb X B then TB else B in
      do! i := top_of A' in
      do! j := top_of B' in
      chk! mbedtls_mpi_grow X (i + j) in
      chk! mbedtls_mpi_lset X 0 in
      do! a := mpi_at A' in
      do! b := mpi_at B' in
      do! x := mpi_at X in
      do! p := lift (mul_rows (Z.to_nat j) i (mpi_p a) (mpi_p b) (mpi_p x)) in
      run! set_p X p in
      run! set_s X (mpi_s a * mpi_s b) in
      ret 0)
    (fun r s' => changes [TA; TB; X] s s' /\ mpi_ok (bn_obj s' X) /\
      zlen (mpi_p (bn_obj s X)) <= zlen (mpi_p (bn_obj s' X)) <= need /\
      ((r = 0 /\ mpi_val (bn_obj s' X) = mpi_val (bn_obj s A) * mpi_val (bn_obj s B)) \/
       (r = MBEDTLS_ERR_MPI_ALLOC_FAILED /\ short_of_memory need s))) s.
Proof using All.
  apply wp_chk. eapply wp_mono; [by apply put_aside|]. cbn beta zeta. intros r s1 (C1 & _ & R1).
  assert (C1' : changes [TA; TB; X] s s1) by (eapply changes_weaken; [exact C1|by left]).
  pose proof (ch_next _ _ _ C1) as N1. pose proof (fun Y => changes_other TA s s1 Y C1) as O1.
  destruct R1 as [(-> & HA1 & VA1 & LA1)|(-> & R1)].
  2: { split; [done|]. rewrite (O1 X) by congruence. split; [done|]. split; [lia|]. right. split; [done|by left]. }
  change (0 =? 0) with true. cbv iota. set (A' := if Nat.eqb X A then TA else A) in *.
  assert (HXA : X <> A' /\ A' <> TB /\ (A' < bn_next s)%nat) by (unfold A'; destruct (Nat.eqb_spec X A); repeat split; congruence).
  destruct HXA as (HXA & HATB & HA'n).
  apply wp_chk. eapply wp_mono; [apply put_aside; rewrite ?O1 by congruence; congruence|]. rewrite (O1 B) by congruence.
  cbn beta zeta. intros r s2 (C2 & _ & R2).
  assert (C2' : changes [TA; TB; X] s s2) by (etrans; [exact C1'|eapply changes_weaken; [exact C2|by right; left]]).
  pose proof (ch_next _ _ _ C2) as N2. pose proof (fun Y => changes_other TB s1 s2 Y C2) as O2. rewrite N1 in O2.
  assert (EX2 : bn_obj s2 X = bn_obj s X) by (rewrite O2, O1 by congruence; done).
  destruct R2 as [(-> & HB2 & VB2 & LB2)|(-> & R2)].
  2: { split; [done|]. rewrite EX2. split; [done|]. split; [lia|]. right. split; [done|]. left. intros Hc. by apply R2, C1. }
  change (0 =? 0) with true. cbv iota. set (B' := if Nat.eqb X B then TB else B) in *.
  assert (HXB : X <> B' /\ (B' < bn_next s)%nat) by (unfold B'; destruct (Nat.eqb_spec X B); split; congruence).
  destruct HXB as [HXB HB'n]. pose proof (O2 A' HA'n HATB) as EA2.
  eapply wp_mono; [apply (mul_tail X A' B' need s2); rewrite ?N2, ?N1, ?EX2, ?EA2; try (done || lia)|].
  { rewrite (magnitude_val _ HA1), (magnitude_val _ HB2), VA1, VB2, <- !magnitude_val by done. exact HnAB. }
  rewrite EA2, VA1, VB2, EX2. cbn beta. intros r s3 (C3 & Hok3 & L3 & R3).
  split; [etrans; [exact C2'|eapply changes_weaken; [exact C3|by do 2 right; left]]|]. split; [done|]. split; [done|].
  destruct R3 as [R3|(-> & R3)]; [by left|right]. split; [done|]. destruct R3 as [R3|R3]; [left|by right].
  intros Hc. by apply R3, C2', Hc.
Qed.
End product.

Lemma mul_mpi_spec X A B s : (X < bn_next s)%nat -> (A < bn_next s)%nat -> (B < bn_next s)%nat ->
  mpi_ok (bn_obj s X) -> mpi_ok (bn_obj s A) -> mpi_ok (bn_obj s B) ->
  wp exact (mbedtls_mpi_mul_mpi X A B)
    (computes X (zlen (mpi_p (bn_obj s X))) (mul_need X A B s) (mpi_val (bn_obj s A) * mpi_val (bn_obj s B)) s) s.
Proof.
  intros HXn HAn HBn HX HA HB. set (need := mul_need X A B s). set (TA := bn_next s). set (TB := S TA).
  apply (wp_local_mpi exact [X]). fold TA. apply (wp_local_mpi exact [TA; X]).
  set (s1 := set_next (S TA) s). change (bn_next s1) with TB. set (s2 := set_next (S TB) s1).
  apply wp_bind, wp_init, wp_bind, wp_init. set (s3 := upd TB _ _).
  assert (Hold : forall Y, (Y < TA)%nat -> bn_obj s3 Y = bn_obj s Y).
  { intros Y HY. unfold s3. by rewrite !obj_upd_ne by (unfold TB; lia). }
  assert (C3 : changes [TB; TA; X] s2 s3).
  { etrans; eapply changes_weaken; [apply changes_upd|by right; left|apply changes_upd|by left]. }
  assert (N3 : bn_next s3 = S TB) by done. apply wp_bind.
  assert (ETA : bn_obj s3 TA = mkMpi 1 []) by (unfold s3; rewrite obj_upd_ne, obj_upd by (unfold TB; lia); done).
  eapply wp_mono; [apply (mul_body X A B TA TB need s3); rewrite ?(Hold X), ?(Hold A), ?(Hold B) by lia; try done; try (unfold TB, TA in *; lia)|].
  - apply obj_upd.
  - unfold need, mul_need. lia.
  - unfold need, mul_need. lia.
  - unfold need, mul_need. lia.
  - rewrite (Hold X), (Hold A), (Hold B) by lia. cbn beta. intros r s4 (C4 & Hok4 & L4 & R4).
    apply wp_bind, wp_free, wp_bind, wp_free, wp_ret. set (s5 := upd TA _ _).
    assert (EX : bn_obj s5 X = bn_obj s4 X) by (unfold s5; by rewrite !obj_upd_ne by (unfold TB, TA; lia)).
    assert (C4' : changes [TB; TA; X] s2 s4).
    { etrans; [exact C3|]. eapply changes_mono; [|exact C4]. intros Y. rewrite !elem_of_cons. tauto. }
    split.
    + etrans; [exact C4'|]. etrans; eapply changes_weaken; [apply changes_upd|by left|apply changes_upd|by right; left].
    + intros C5. split; [exact C5|]. intros C6. split; [exact C6|]. change (bn_obj (set_next TA (set_next TB s5)) X) with (bn_obj s5 X).
      rewrite EX. split; [done|]. split; [done|]. exact R4.
Qed.

Lemma mul_int_spec X A b s : (X < bn_next s)%nat -> (A < bn_next s)%nat -> mpi_ok (bn_obj s X) -> mpi_ok (bn_obj s A) -> limb_ok b ->
  wp exact (mbedtls_mpi_mul_int X A b)
    (computes X (low1 X A s) (Z.max (Z.max 1 (zlen (mpi_p (bn_obj s X)))) (nlimbs (magnitude (bn_obj s A)) + nlimbs b)) (mpi_val (bn_obj s A) * b) s) s.
Proof.
  intros HXn HAn HX HA Hb. assert (Hok : mpi_ok (mkMpi 1 [b])) by (split; [by left|]; split; [by constructor|done]).
  apply wp_with_int; try done. intros B s1 EB HB HN HC Hold. pose proof (mul_mpi_spec X A B s1) as H.
  rewrite EB, (Hold X), (Hold A) in H by done. replace (mpi_val (mkMpi 1 [b])) with b in H by (unfold mpi_val, magnitude; cbn [mpi_s mpi_p limbs]; lia).
  eapply wp_mono; [apply H; (done || lia)|]. cbn beta. intros r s2. pose proof (low1_le X A s). apply computes_room; [lia|]. unfold mul_need.
  rewrite EB, (Hold X), (Hold A) by done. unfold magnitude at 2. cbn [mpi_p limbs]. rewrite Z.mul_0_r, Z.add_0_r. lia.
Qed.

(** ** Shifts: theorems *)

Lemma insert_at_split (l1 l2 : list Z) x y : <[length l1 := y]> (l1 ++ x :: l2) = l1 ++ y :: l2.
Proof. rewrite insert_app_r_alt by lia. by rewrite Nat.sub_diag. Qed.

(** The loop rule [ofor_fun] for a loop that starts at [i]. *)
Lemma ofor_fun_from {A} (f : nat -> A) n : forall i (body : Z -> A -> outcome A),
  (forall j, (j < n)%nat -> body (i + Z.of_nat j) (f j) = Done (f (S j))) -> ofor n i body (f O) = Done (f n).
Proof.
  revert f. induction n as [|n IH]; intros f i body H; [done|]. cbn [ofor].
  pose proof (H O ltac:(lia)) as E. change (Z.of_nat 0) with 0 in E. rewrite Z.add_0_r in E. rewrite E. cbn [obind]. apply (IH (fun j => f (S j))).
  intros j Hj. replace (i + 1 + Z.of_nat j) with (i + Z.of_nat (S j)) by lia. apply H. lia.
Qed.

(** A store into the element just below those that have been written. *)
Lemma astore_below (p t : list Z) (k : nat) y : (k < length p)%nat ->
  astore (take (S k) p ++ t) (Z.of_nat k) y = Done (take k p ++ y :: t).
Proof.
  intros Hk. destruct (lookup_lt_is_Some_2 p k Hk) as [x Hx]. rewrite (take_S_r _ _ _ Hx), <- app_assoc. cbn [app].
  rewrite astore_Z by (unfold zlen; rewrite length_app, length_take; cbn [length]; lia). rewrite Nat2Z.id. f_equal.
  replace k with (length (take k p)) at 1 by (rewrite length_take; lia). apply insert_at_split.
Qed.

Lemma move_limbs_up (p : list Z) (v0 : nat) : let n := length p in (v0 <= n)%nat ->
  ofor (n - v0) 0 (fun k p0 => let! x := aload p0 (Z.of_nat n - k - Z.of_nat v0 - 1) in
      astore p0 (Z.of_nat n - k - 1) x) p = Done (take v0 p ++ take (n - v0) p).
Proof.
  intros n Hv. pose (f := fun k => take (n - k) p ++ take k (drop (n - v0 - k) p)).
  replace (take v0 p ++ take (n - v0) p) with (f (n - v0)%nat).
  2: { unfold f. rewrite Nat.sub_diag, drop_0. do 2 f_equal. lia. }
  transitivity (ofor (n - v0) 0 (fun k p0 => let! x := aload p0 (Z.of_nat n - k - Z.of_nat v0 - 1) in
    astore p0 (Z.of_nat n - k - 1) x) (f O)).
  { unfold f. by rewrite Nat.sub_0_r, take_ge, take_0, app_nil_r by done. }
  apply ofor_fun. intros k Hk. unfold f.
  destruct (lookup_lt_is_Some_2 p (n - v0 - S k)) as [x Hx]; [unfold n in *; lia|].
  replace (Z.of_nat n - Z.of_nat k - Z.of_nat v0 - 1) with (Z.of_nat (n - v0 - S k)) by lia.
  rewrite (aload_some _ _ x).
  2: { rewrite lookup_app_l by (rewrite length_take; unfold n in *; lia). by rewrite lookup_take_lt by lia. }
  cbn [obind]. replace (n - k)%nat with (S (n - S k)) by lia.
  replace (Z.of_nat n - Z.of_nat k - 1) with (Z.of_nat (n - S k)) by lia.
  rewrite astore_below by (unfold n in *; lia). do 2 f_equal.
  replace (n - v0 - k)%nat with (S (n - v0 - S k)) by lia. by rewrite (drop_S p x _ Hx).
Qed.

Lemma zero_limbs_low (p t : list Z) (v0 : nat) : (v0 <= length p)%nat ->
  ofor v0 0 (fun k p => astore p (Z.of_nat v0 - k - 1) 0) (take v0 p ++ t) = Done (replicate v0 0 ++ t).
Proof.
  intros Hv. pose (f := fun k => take (v0 - k) p ++ replicate k 0 ++ t).
  replace (take v0 p ++ t) with (f O) by (unfold f; by rewrite Nat.sub_0_r).
  replace (replicate v0 0 ++ t) with (f v0) by (unfold f; by rewrite Nat.sub_diag).
  apply ofor_fun. intros k Hk. unfold f. replace (v0 - k)%nat with (S (v0 - S k)) by lia.
  replace (Z.of_nat v0 - Z.of_nat k - 1) with (Z.of_nat (v0 - S k)) by lia. by rewrite astore_below by lia.
Qed.

Lemma shift_limbs_up_spec (p : list Z) (v0 : nat) : (v0 <= length p)%nat ->
  shift_limbs_up (zlen p) (Z.of_nat v0) p = Done (replicate v0 0 ++ take (length p - v0) p).
Proof.
  intros Hv. unfold shift_limbs_up. rewrite Z.min_r by (unfold zlen; lia). unfold zlen.
  replace (Z.to_nat (Z.of_nat (length p) - Z.of_nat v0)) with (length p - v0)%nat by lia.
  rewrite Nat2Z.id, move_limbs_up by done. cbn [obind]. by apply zero_limbs_low.
Qed.

Lemma shift_limbs_down_spec (p : list Z) (v0 : nat) : (v0 <= length p)%nat ->
  shift_limbs_down (zlen p) (Z.of_nat v0) p = Done (drop v0 p ++ replicate v0 0).
Proof.
  intros Hv. unfold shift_limbs_down, zlen. set (n := length p) in *.
  replace (Z.to_nat (Z.of_nat n - Z.of_nat v0)) with (n - v0)%nat by lia. rewrite Nat2Z.id.
  pose (f := fun k => take k (drop v0 p) ++ drop k p).
  assert (E : ofor (n - v0) 0 (fun i p => let! x := aload p (i + Z.of_nat v0) in astore p i x) p = Done (f (n - v0)%nat)).
  { change p with (f O) at 1. apply ofor_fun. intros k Hk. unfold f.
    destruct (lookup_lt_is_Some_2 p (v0 + k)) as [x Hx]; [unfold n in *; lia|].
    destruct (lookup_lt_is_Some_2 p k) as [y Hy]; [unfold n in *; lia|].
    assert (Lt : length (take k (drop v0 p)) = k) by (rewrite length_take, length_drop; unfold n in *; lia).
    replace (Z.of_nat k + Z.of_nat v0) with (Z.of_nat (v0 + k)) by lia. rewrite (aload_some _ _ x).
    2: { rewrite lookup_app_r, Lt, lookup_drop by lia. rewrite <- Hx. f_equal. lia. }
    cbn [obind]. rewrite (drop_S p y k Hy), astore_Z, Nat2Z.id by (unfold zlen; rewrite length_app, Lt; cbn [length]; lia).
    rewrite <- Lt at 1. rewrite insert_at_split. f_equal.
    rewrite (take_S_r (drop v0 p) k x) by (by rewrite lookup_drop). by rewrite <- app_assoc. }
  rewrite E. cbn [obind].
  assert (Ef : f (n - v0)%nat = drop v0 p ++ drop (n - v0) p) by (unfold f; by rewrite take_ge by (rewrite length_drop; unfold n; lia)).
  rewrite Ef. pose (g := fun k => drop v0 p ++ replicate k 0 ++ drop (n - v0 + k) p).
  replace (drop v0 p ++ drop (n - v0) p) with (g O) by (unfold g; by rewrite Nat.add_0_r).
  replace (drop v0 p ++ replicate v0 0) with (g v0).
  2: { unfold g. replace (n - v0 + v0)%nat with n by lia. unfold n. by rewrite drop_all, app_nil_r. }
  apply ofor_fun_from. intros k Hk. unfold g.
  destruct (lookup_lt_is_Some_2 p (n - v0 + k)) as [x Hx]; [unfold n in *; lia|].
  rewrite (drop_S p x _ Hx), app_assoc.
  assert (Lt : length (drop v0 p ++ replicate k 0) = (n - v0 + k)%nat).
  { rewrite length_app, length_drop, length_replicate. unfold n. lia. }
  replace (Z.of_nat n - Z.of_nat v0 + Z.of_nat k) with (Z.of_nat (n - v0 + k)) by lia.
  rewrite astore_Z, Nat2Z.id by (unfold zlen; rewrite length_app, Lt; cbn [length]; lia).
  rewrite <- Lt at 1. rewrite insert_at_split. f_equal. rewrite replicate_S_end, <- !app_assoc. cbn [app].
  by replace (n - v0 + S k)%nat with (S (n - v0 + k)) by lia.
Qed.

(** A shifted limb and the bits carried in from the limb below. *)
Lemma shift_up_limb x t r : limb_ok x -> 0 < t < 64 -> 0 <= r < 2 ^ t ->
  let y := Z.lor (u64 (Z.shiftl x t)) r in let r' := Z.shiftr x (64 - t) in
  limb_ok y /\ 0 <= r' < 2 ^ t /\ x * 2 ^ t + r = y + base * r'.
Proof.
  intros Hx Ht Hr. cbv zeta. rewrite Z.shiftl_mul_pow2, Z.shiftr_div_pow2 by lia.
  assert (Ep : base = 2 ^ (64 - t) * 2 ^ t) by (rewrite <- Z.pow_add_r by lia; change base with (2 ^ 64); f_equal; lia).
  pose proof (Z.pow_pos_nonneg 2 t ltac:(lia) ltac:(lia)). pose proof (Z.pow_pos_nonneg 2 (64 - t) ltac:(lia) ltac:(lia)).
  pose proof (Z.div_mod x (2 ^ (64 - t)) ltac:(lia)) as Hd. pose proof (Z.mod_pos_bound x (2 ^ (64 - t)) ltac:(lia)) as Hm.
  set (q := x / 2 ^ (64 - t)) in *. set (m := x mod 2 ^ (64 - t)) in *.
  assert (Hq : 0 <= q < 2 ^ t) by (unfold limb_ok in Hx; split; [apply Z.div_pos; lia|apply Z.div_lt_upper_bound; lia]).
  assert (Eu : u64 (x * 2 ^ t) = m * 2 ^ t).
  { unfold u64. change 18446744073709551616 with base. symmetry. apply (Z.mod_unique _ _ q); [left; nia|nia]. }
  rewrite Eu, Z.lor_comm, lor_add by lia. split; [|split; [done|nia]]. unfold limb_ok. nia.
Qed.

Lemma shift_bits_up_spec p (v0 : nat) t : Forall limb_ok p -> (v0 <= length p)%nat -> 0 < t < 64 ->
  limbs (take v0 p) = 0 -> limbs p * 2 ^ t < base ^ zlen p ->
  owp exact (shift_bits_up (zlen p) (Z.of_nat v0) t p) (fun p' => Forall limb_ok p' /\ length p' = length p /\
    limbs p' = limbs p * 2 ^ t).
Proof.
  intros Hp Hv Ht H0 Hlt. unfold shift_bits_up. apply owp_bind.
  apply (owp_ofor (fun i '(p', r) => Forall limb_ok p' /\ length p' = length p /\ 0 <= r < 2 ^ t /\
    drop (Z.to_nat i) p' = drop (Z.to_nat i) p /\
    limbs (take (Z.to_nat i) p') + r * base ^ i = limbs (take (Z.to_nat i) p) * 2 ^ t)).
  - split; [done|]. split; [done|]. split; [split; [done|by apply Z.pow_pos_nonneg; lia]|]. split; [done|].
    rewrite Nat2Z.id, H0. lia.
  - intros i [p' r] Hi (Hp' & L' & Hr & D' & V'). rewrite Z2Nat.id in Hi by (unfold zlen; lia).
    destruct (lookup_in p i) as [x Hx]; [lia|].
    assert (Hx' : p' !! Z.to_nat i = Some x) by (by rewrite (lookup_drop_eq _ _ _ D')).
    assert (Hi' : i < zlen p') by (unfold zlen in *; lia).
    rewrite (aload_Z p' i x) by (done || lia). cbn [obind]. rewrite astore_Z by lia. cbn [obind owp]. unfold biL.
    destruct (shift_up_limb x t r (limb_lookup _ _ _ Hp Hx) Ht Hr) as (Hy & Hr' & E).
    set (y := Z.lor (u64 (Z.shiftl x t)) r) in *. split; [by apply Forall_insert|]. split; [by rewrite length_insert|].
    split; [done|]. replace (Z.to_nat (i + 1)) with (S (Z.to_nat i)) by lia.
    split; [rewrite drop_insert_lt by lia; by apply drop_succ_eq|].
    rewrite take_insert_limb, (limbs_take_snoc p _ x Hx), Z2Nat.id, base_pow_succ by (unfold zlen in *; lia). nia.
  - intros [p' r] (Hp' & L' & Hr & _ & V'). apply owp_done. split; [done|]. split; [done|].
    rewrite Z2Nat.id in V' by (unfold zlen; lia). replace (Z.of_nat v0 + (zlen p - Z.of_nat v0)) with (zlen p) in V' by lia.
    rewrite !zlen_to_nat in V'. rewrite <- L' in V' at 1. rewrite !firstn_all in V'.
    pose proof (limbs_bound p' Hp'). destruct (decide (r = 0)) as [->|Hne]; [lia|].
    pose proof (base_pow_pos (zlen p) (zlen_nonneg p)). nia.
Qed.

Lemma shift_down_limb x v h : limb_ok x -> 0 < v < 64 -> 0 <= h ->
  let r := h mod 2 ^ v * 2 ^ (64 - v) in
  let y := Z.lor (Z.shiftr x v) r in
  limb_ok y /\ (x + base * h) / 2 ^ v = y + base * (h / 2 ^ v) /\
  u64 (Z.shiftl x (64 - v)) = (x + base * h) mod 2 ^ v * 2 ^ (64 - v).
Proof.
  intros Hx Hv Hh. cbv zeta. rewrite Z.shiftl_mul_pow2, Z.shiftr_div_pow2 by lia.
  assert (Ep : base = 2 ^ (64 - v) * 2 ^ v) by (rewrite <- Z.pow_add_r by lia; change base with (2 ^ 64); f_equal; lia).
  pose proof (Z.pow_pos_nonneg 2 v ltac:(lia) ltac:(lia)). pose proof (Z.pow_pos_nonneg 2 (64 - v) ltac:(lia) ltac:(lia)).
  pose proof (Z.div_mod x (2 ^ v) ltac:(lia)) as Hd. pose proof (Z.mod_pos_bound x (2 ^ v) ltac:(lia)) as Hm.
  pose proof (Z.div_mod h (2 ^ v) ltac:(lia)) as Hdh. pose proof (Z.mod_pos_bound h (2 ^ v) ltac:(lia)) as Hmh.
  set (q := x / 2 ^ v) in *. set (m := x mod 2 ^ v) in *. set (qh := h / 2 ^ v) in *. set (mh := h mod 2 ^ v) in *.
  assert (Hq : 0 <= q < 2 ^ (64 - v)) by (unfold limb_ok in Hx; split; [apply Z.div_pos; lia|apply Z.div_lt_upper_bound; lia]).
  rewrite lor_add by lia. split; [unfold limb_ok; nia|].
  assert (Ex : x + base * h = 2 ^ v * (q + mh * 2 ^ (64 - v) + base * qh) + m) by nia. split.
  - symmetry. apply (Z.div_unique _ _ _ m); [lia|exact Ex].
  - rewrite <- (Z.mod_unique (x + base * h) (2 ^ v) _ m (or_introl Hm) Ex). unfold u64. change 18446744073709551616 with base.
    symmetry. apply (Z.mod_unique _ _ q); [left; nia|nia].
Qed.

Lemma drop_insert_limb (p : list Z) (i : nat) y : (i < length p)%nat -> drop i (<[i := y]> p) = y :: drop (S i) p.
Proof.
  intros Hi. rewrite (drop_S _ y) by (by apply list_lookup_insert_eq). by rewrite drop_insert_lt by lia.
Qed.

Lemma take_pred_eq (p q : list Z) (i : nat) : take (S i) p = take (S i) q -> take i p = take i q.
Proof.
  intros E. transitivity (take i (take (S i) p)); [by rewrite take_take, Nat.min_l by lia|].
  by rewrite E, take_take, Nat.min_l by lia.
Qed.

Lemma shift_bits_down_spec p v : Forall limb_ok p -> 0 < v < 64 ->
  owp exact (shift_bits_down (zlen p) v p) (fun p' => Forall limb_ok p' /\ length p' = length p /\
    limbs p' = limbs p / 2 ^ v).
Proof.
  intros Hp Hv. unfold shift_bits_down. apply owp_bind. set (n := length p). rewrite zlen_to_nat.
  pose proof (Z.pow_pos_nonneg 2 v ltac:(lia) ltac:(lia)) as Hpos.
  apply (owp_ofor (fun k '(p', r) => let i := (n - Z.to_nat k)%nat in
    Forall limb_ok p' /\ length p' = n /\ take i p' = take i p /\
    limbs (drop i p') = limbs (drop i p) / 2 ^ v /\ r = limbs (drop i p) mod 2 ^ v * 2 ^ (64 - v))).
  - split; [done|]. split; [done|]. split; [done|]. change (Z.to_nat 0) with O. rewrite Nat.sub_0_r.
    unfold n. by rewrite !drop_all.
  - intros k [p' r] Hk (Hp' & L' & T' & V' & R'). set (j := (n - S (Z.to_nat k))%nat).
    replace (n - Z.to_nat k)%nat with (S j) in * by lia.
    destruct (lookup_lt_is_Some_2 p j) as [x Hx]; [unfold n in *; lia|].
    assert (Hx' : p' !! j = Some x).
    { rewrite <- (lookup_take_lt p' (S j)), T', lookup_take_lt by lia. done. }
    unfold zlen. fold n. replace (Z.of_nat n - k - 1) with (Z.of_nat j) by lia.
    rewrite (aload_some _ _ _ Hx'). cbn [obind]. rewrite astore_Z, Nat2Z.id by (unfold zlen; lia). cbn [obind owp].
    pose proof (limbs_bound _ (Forall_drop _ (S j) _ Hp)) as Hh.
    destruct (shift_down_limb x v (limbs (drop (S j) p)) (limb_lookup _ _ _ Hp Hx) Hv ltac:(lia)) as (Hy & E & Er).
    rewrite <- R' in *. set (y := Z.lor (Z.shiftr x v) r) in *.
    replace (n - Z.to_nat (k + 1))%nat with j by lia.
    split; [by apply Forall_insert|]. split; [by rewrite length_insert|].
    split; [rewrite take_insert_ge by lia; by apply take_pred_eq|].
    rewrite drop_insert_limb, (drop_S p x j Hx) by lia. cbn [limbs]. rewrite V'. by rewrite E.
  - intros [p' r] (Hp' & L' & _ & V' & _). apply owp_done. split; [done|]. split; [done|].
    rewrite Z.add_0_l, Nat2Z.id, Nat.sub_diag, !drop_0 in V'. exact V'.
Qed.

Lemma land_63 c : 0 <= c -> Z.land c (biL - 1) = c mod 64.
Proof. intros Hc. change (biL - 1) with (Z.ones 6). by rewrite Z.land_ones by lia. Qed.

Lemma pow_count c : 0 <= c -> 2 ^ c = base ^ (c / 64) * 2 ^ (c mod 64).
Proof.
  intros Hc. pose proof (Z.div_mod c 64 ltac:(lia)). pose proof (Z.mod_pos_bound c 64 ltac:(lia)).
  pose proof (Z.div_pos c 64 Hc ltac:(lia)). change base with (2 ^ 64). rewrite <- Z.pow_mul_r, <- Z.pow_add_r by lia.
  f_equal. lia.
Qed.

Lemma bits_to_limbs_spec i : 0 <= i -> i <= 64 * BITS_TO_LIMBS i.
Proof.
  intros Hi. unfold BITS_TO_LIMBS, biL. pose proof (Z.div_mod i 64 ltac:(lia)). pose proof (Z.mod_pos_bound i 64 ltac:(lia)).
  destruct (Z.eqb_spec (i mod 64) 0); lia.
Qed.

(** A loop over the limbs that may be skipped. *)
Lemma wp_update_if (b : bool) X sg p f (P : list Z -> Prop) (k : M bn Z) (Q : Z -> bn -> Prop) s :
  bn_obj s X = mkMpi sg p -> owp exact (if b then f p else Done p) P ->
  (forall p' s', P p' -> changes [X] s s' -> bn_obj s' X = mkMpi sg p' -> wp exact k Q s') ->
  wp exact (run! (if b then update_p X f else ret tt) in k) Q s.
Proof.
  intros E H Hk. apply wp_bind. destruct b.
  - apply wp_bind, wp_mpi_at, wp_bind, wp_lift. rewrite E. eapply owp_mono; [exact H|]. cbn beta. intros p' Hp'.
    apply wp_set_p. rewrite E. eapply Hk; [exact Hp'|apply changes_upd|apply obj_upd].
  - apply wp_ret. by apply (Hk p).
Qed.

(** A number so small that its upper limbs are 0. *)
Lemma limbs_low p (v0 : nat) : Forall limb_ok p -> (v0 <= length p)%nat -> limbs p * base ^ Z.of_nat v0 < base ^ zlen p ->
  limbs (take (length p - v0) p) = limbs p.
Proof.
  intros Hp Hv Hlt. rewrite (limbs_split p (length p - v0)) by lia. set (k := (length p - v0)%nat).
  pose proof (limbs_bound _ (Forall_drop _ k _ Hp)) as [Hd _].
  destruct (Z.eq_dec (limbs (drop k p)) 0) as [->|Hne]; [lia|exfalso].
  assert (Hk : base ^ Z.of_nat k <= limbs p).
  { rewrite (limbs_split p k) by (unfold k; lia). pose proof (limbs_bound _ (Forall_take _ k _ Hp)) as [Ht _].
    assert (base ^ Z.of_nat k * 1 <= base ^ Z.of_nat k * limbs (drop k p)); [|lia].
    apply Z.mul_le_mono_nonneg_l; [apply Z.pow_nonneg; done|lia]. }
  apply (Z.mul_le_mono_nonneg_r _ _ (base ^ Z.of_nat v0)) in Hk; [|apply Z.pow_nonneg; done].
  rewrite <- Z.pow_add_r in Hk by (clear; lia). replace (Z.of_nat k + Z.of_nat v0) with (zlen p) in Hk by (unfold k, zlen; clear -Hv; lia).
  clear -Hk Hlt. lia.
Qed.

Lemma move_up_value p (v0 : nat) : Forall limb_ok p -> (v0 <= length p)%nat -> limbs p * base ^ Z.of_nat v0 < base ^ zlen p ->
  let p1 := replicate v0 0 ++ take (length p - v0) p in
  Forall limb_ok p1 /\ length p1 = length p /\ limbs (take v0 p1) = 0 /\ limbs p1 = limbs p * base ^ Z.of_nat v0.
Proof.
  intros Hp Hv Hlt p1. unfold p1. split; [apply Forall_app; split; [apply zeros_ok|by apply Forall_take]|].
  split; [rewrite length_app, length_replicate, length_take; clear -Hv; lia|].
  split; [rewrite take_app_length' by (by rewrite length_replicate); apply limbs_zeros|].
  rewrite limbs_app, limbs_zeros, limbs_low by done. unfold zlen. rewrite length_replicate. ring.
Qed.

(** The two loops of [mbedtls_mpi_shift_l] on a number with room for the result. *)
Lemma shift_l_loops X sg p count s : bn_obj s X = mkMpi sg p -> Forall limb_ok p -> 0 <= count ->
  limbs p * 2 ^ count < base ^ zlen p -> count / 64 <= zlen p ->
  wp exact (run! (if 0 <? count / biL then update_p X (shift_limbs_up (zlen p) (count / biL)) else ret tt) in
    run! (if 0 <? Z.land count (biL - 1) then update_p X (shift_bits_up (zlen p) (count / biL) (Z.land count (biL - 1))) else ret tt) in
    ret 0)
   (fun r s' => r = 0 /\ changes [X] s s' /\ exists p', bn_obj s' X = mkMpi sg p' /\ Forall limb_ok p' /\
      length p' = length p /\ limbs p' = limbs p * 2 ^ count) s.
Proof.
  intros E Hp Hc Hlt Hv. rewrite land_63 by done. change biL with 64. pose proof (pow_count count Hc) as Hpc.
  pose proof (Z.mod_pos_bound count 64 ltac:(lia)) as Ht. pose proof (Z.div_pos count 64 Hc ltac:(lia)) as Hd.
  set (t := count mod 64) in *. set (v := Z.to_nat (count / 64)). assert (Ev : count / 64 = Z.of_nat v) by lia.
  rewrite Ev in *. pose proof (Z.pow_pos_nonneg 2 t ltac:(lia) ltac:(lia)). pose proof (limbs_bound p Hp).
  pose proof (base_pow_pos (Z.of_nat v) ltac:(lia)).
  apply (wp_update_if _ X sg p _
    (fun p1 => Forall limb_ok p1 /\ length p1 = length p /\ limbs (take v p1) = 0 /\ limbs p1 = limbs p * base ^ Z.of_nat v)); [done| |].
  { destruct (Z.ltb_spec 0 (Z.of_nat v)).
    - rewrite shift_limbs_up_spec by (unfold zlen in *; lia). apply move_up_value; [done|unfold zlen in *; lia|].
      rewrite Hpc in Hlt. nia.
    - apply owp_done. assert (v = O) as -> by lia. change (base ^ Z.of_nat 0) with 1. rewrite Z.mul_1_r. by repeat split. }
  intros p1 s1 (Hp1 & L1 & T1 & V1) C1 E1. assert (Z1 : zlen p1 = zlen p) by (unfold zlen; lia). rewrite <- Z1 in *.
  apply (wp_update_if _ X sg p1 _ (fun p2 => Forall limb_ok p2 /\ length p2 = length p1 /\ limbs p2 = limbs p1 * 2 ^ t)); [done| |].
  { destruct (Z.ltb_spec 0 t).
    - apply shift_bits_up_spec; [done|unfold zlen in *; lia|lia|done|]. rewrite V1, <- Z.mul_assoc, <- Hpc. done.
    - apply owp_done. assert (t = 0) as -> by lia. change (2 ^ 0) with 1. rewrite Z.mul_1_r. by repeat split. }
  intros p2 s2 (Hp2 & L2 & V2) C2 E2. apply wp_ret. split; [done|]. split; [by etrans|]. exists p2. split; [done|].
  split; [done|]. split; [lia|]. rewrite V2, V1, Hpc. ring.
Qed.

Lemma shift_l_exact X count s : mpi_ok (bn_obj s X) -> 0 <= count -> bits (magnitude (bn_obj s X)) + count < 2 ^ 64 ->
  wp exact (mbedtls_mpi_shift_l X count)
    (computes X (zlen (mpi_p (bn_obj s X))) (Z.max (zlen (mpi_p (bn_obj s X))) (BITS_TO_LIMBS (bits (magnitude (bn_obj s X)) + count)))
       (mpi_val (bn_obj s X) * 2 ^ count) s) s.
Proof.
  intros HX Hc Hmax. set (need := Z.max _ _). unfold mbedtls_mpi_shift_l. apply wp_bind, wp_bitlen; [done|].
  pose proof HX as (Hsg & Hp & Hm). unfold magnitude in *. set (p := mpi_p (bn_obj s X)) in *.
  pose proof (limbs_bound p Hp) as Hb. destruct (bits_spec (limbs p) ltac:(lia)) as [Hb1 _].
  pose proof (bits_nonneg (limbs p)) as Hb0.
  assert (Hbl : bits (limbs p) <= 64 * zlen p).
  { apply bits_le; [|pose proof (zlen_nonneg p); lia]. change base with (2 ^ 64) in Hb.
    rewrite <- Z.pow_mul_r in Hb by (try apply zlen_nonneg; lia). exact Hb. }
  rewrite u64_id by (unfold MBEDTLS_MPI_MAX_LIMBS in *; lia). set (i := bits (limbs p) + count) in *.
  apply wp_bind, wp_size_of, wp_chk. fold p.
  assert (Hgrow : wp exact (if zlen p * biL <? i then mbedtls_mpi_grow X (BITS_TO_LIMBS i) else ret 0) (fun r s1 =>
    changes [X] s s1 /\ ((r = 0 /\ exists p1, bn_obj s1 X = mkMpi (mpi_s (bn_obj s X)) p1 /\ Forall limb_ok p1 /\
      zlen p <= zlen p1 <= need /\ zlen p1 <= MBEDTLS_MPI_MAX_LIMBS /\ i <= 64 * zlen p1 /\ limbs p1 = limbs p) \/
      (r = MBEDTLS_ERR_MPI_ALLOC_FAILED /\ short_of_memory need s /\ bn_obj s1 X = bn_obj s X))) s).
  { unfold biL. destruct (Z.ltb_spec (zlen p * 64) i).
    - pose proof (bits_to_limbs_spec i ltac:(lia)). eapply wp_mono; [apply grow_spec|]. cbn beta.
      intros r s1 [C1 [(-> & H1 & E1)|(-> & H1 & E1)]]; (split; [done|]); [left|right]; (split; [done|]).
      + exists (grown (BITS_TO_LIMBS i) p). pose proof (grown_zlen (BITS_TO_LIMBS i) p). split; [done|].
        split; [by apply grown_ok|]. split; [lia|]. split; [lia|]. split; [lia|]. apply grown_limbs.
      + split; [|done]. destruct H1 as [H1|H1]; [by left|right; lia].
    - apply wp_ret. split; [done|]. left. split; [done|]. exists p. split; [unfold p; by destruct (bn_obj s X)|].
      split; [done|]. split; [lia|]. split; [done|]. split; [lia|done]. }
  eapply wp_mono; [exact Hgrow|]. cbn beta. intros r s1 (C1 & [(-> & p1 & E1 & Hp1 & L1 & M1 & R1 & V1)|(-> & R1 & E1)]).
  2: { split; [done|]. rewrite E1. fold p. split; [done|]. split; [lia|]. by right. }
  change (0 =? 0) with true. cbv iota. apply wp_bind, wp_size_of. rewrite E1. cbn [mpi_p].
  eapply wp_mono; [apply (shift_l_loops X (mpi_s (bn_obj s X)) p1 count s1 E1 Hp1 ltac:(lia))|].
  - rewrite V1. change base with (2 ^ 64). rewrite <- Z.pow_mul_r by (try apply zlen_nonneg; lia).
    eapply Z.lt_le_trans; [apply Z.mul_lt_mono_pos_r; [apply Z.pow_pos_nonneg; lia|exact Hb1]|].
    rewrite <- Z.pow_add_r by lia. apply Z.pow_le_mono_r; lia.
  - apply Z.div_le_upper_bound; lia.
  - cbn beta. intros r s2 (-> & C2 & p2 & E2 & Hp2 & L2 & V2). split; [by etrans|]. rewrite E2.
    assert (Z2 : zlen p2 = zlen p1) by (unfold zlen; lia). unfold mpi_ok, mpi_val, magnitude. cbn [mpi_s mpi_p].
    split; [split; [done|]; split; [done|lia]|]. split; [lia|]. left. split; [done|]. fold p. rewrite V2, V1. ring.
Qed.

(** No number is so long that a count of less than 2^62 could wrap around. *)
Lemma shift_l_spec X count s : mpi_ok (bn_obj s X) -> 0 <= count < 4611686018427387904 ->
  wp exact (mbedtls_mpi_shift_l X count)
    (computes X (zlen (mpi_p (bn_obj s X))) (Z.max (zlen (mpi_p (bn_obj s X))) (BITS_TO_LIMBS (bits (magnitude (bn_obj s X)) + count)))
       (mpi_val (bn_obj s X) * 2 ^ count) s) s.
Proof.
  intros HX [Hc Hmax]. apply shift_l_exact; [done|done|]. destruct HX as (_ & Hp & Hm). unfold magnitude.
  pose proof (limbs_bound _ Hp) as Hb. pose proof (zlen_nonneg (mpi_p (bn_obj s X))).
  assert (bits (limbs (mpi_p (bn_obj s X))) <= 64 * zlen (mpi_p (bn_obj s X))); [|unfold MBEDTLS_MPI_MAX_LIMBS in *; lia].
  apply bits_le; [|lia]. change base with (2 ^ 64) in Hb. rewrite <- Z.pow_mul_r in Hb by lia. exact Hb.
Qed.

Lemma drop_value p (v : nat) : Forall limb_ok p -> (v <= length p)%nat -> limbs (drop v p) = limbs p / base ^ Z.of_nat v.
Proof.
  intros Hp Hv. rewrite (limbs_split p v Hv). pose proof (limbs_take_bound p v Hp Hv).
  rewrite Z.mul_comm, Z.div_add, Z.div_small by lia. lia.
Qed.

Lemma shift_r_spec X count s : mpi_ok (bn_obj s X) -> 0 <= count ->
  wp exact (mbedtls_mpi_shift_r X count)
    (computes X (zlen (mpi_p (bn_obj s X))) (Z.max 1 (zlen (mpi_p (bn_obj s X)))) (mpi_s (bn_obj s X) * (magnitude (bn_obj s X) / 2 ^ count)) s) s.
Proof.
  intros HX Hc. pose proof HX as (Hsg & Hp & Hm). unfold mbedtls_mpi_shift_r. apply wp_bind, wp_size_of. unfold magnitude.
  rewrite land_63 by done. change biL with 64. pose proof (pow_count count Hc) as Hpc. set (p := mpi_p (bn_obj s X)) in *.
  pose proof (Z.mod_pos_bound count 64 ltac:(lia)) as Ht. pose proof (Z.div_pos count 64 Hc ltac:(lia)) as Hd.
  set (t := count mod 64) in *. pose proof (limbs_bound p Hp) as Hb. pose proof (zlen_nonneg p).
  destruct ((zlen p <? count / 64) || ((count / 64 =? zlen p) && (0 <? t))) eqn:Ebig.
  { eapply wp_mono; [apply lset_spec; [lia|done]|]. cbn beta. intros r s1 [C1 [(-> & E1)|(-> & R1 & E1)]]; (split; [done|]); rewrite E1.
    - set (q := Z.abs 0 :: replicate _ 0). assert (Hq : Forall limb_ok q /\ limbs q = 0 /\ zlen q = Z.max 1 (zlen p)).
      { unfold q. split; [constructor; [done|apply zeros_ok]|]. cbn [limbs]. rewrite limbs_zeros. split; [done|].
        unfold zlen. cbn [length]. rewrite length_replicate. fold p. lia. }
      destruct Hq as (Hq1 & Hq2 & Hq3). split; [split; [by left|]; split; [done|cbn [mpi_p]; unfold MBEDTLS_MPI_MAX_LIMBS in *; lia]|].
      split; [cbn [mpi_p]; lia|]. left. split; [done|]. unfold mpi_val, magnitude. cbn [mpi_s mpi_p]. rewrite Hq2.
      rewrite Z.div_small; [lia|]. split; [lia|]. eapply Z.lt_le_trans; [apply Hb|]. rewrite Hpc.
      assert (base ^ zlen p <= base ^ (count / 64)) by (apply Z.pow_le_mono_r; [done|lia]).
      pose proof (Z.pow_pos_nonneg 2 t ltac:(lia) ltac:(lia)). nia.
    - split; [done|]. fold p. split; [lia|]. right. split; [done|by left]. }
  set (v := Z.to_nat (count / 64)) in *. assert (Ev : count / 64 = Z.of_nat v) by lia. rewrite Ev in *.
  assert (Hv : (v <= length p)%nat) by (unfold zlen in *; lia). pose proof (base_pow_pos (Z.of_nat v) ltac:(lia)).
  assert (E : bn_obj s X = mkMpi (mpi_s (bn_obj s X)) p) by (unfold p; by destruct (bn_obj s X)).
  apply (wp_update_if _ X _ p _ (fun p1 => Forall limb_ok p1 /\ length p1 = length p /\ limbs p1 = limbs p / base ^ Z.of_nat v)
    _ _ _ E).
  { destruct (Z.ltb_spec 0 (Z.of_nat v)).
    - rewrite shift_limbs_down_spec by done. apply owp_done. rewrite limbs_app_zeros, drop_value by done.
      split; [apply Forall_app; split; [by apply Forall_drop|apply zeros_ok]|]. split; [|done].
      rewrite length_app, length_drop, length_replicate. lia.
    - apply owp_done. assert (v = O) as -> by lia. change (base ^ Z.of_nat 0) with 1. rewrite Z.div_1_r. by repeat split. }
  intros p1 s1 (Hp1 & L1 & V1) C1 E1. assert (Z1 : zlen p1 = zlen p) by (unfold zlen; lia). rewrite <- Z1 in *.
  apply (wp_update_if _ X _ p1 _ (fun p2 => Forall limb_ok p2 /\ length p2 = length p1 /\ limbs p2 = limbs p1 / 2 ^ t) _ _ _ E1).
  { destruct (Z.ltb_spec 0 t).
    - apply shift_bits_down_spec; [done|lia].
    - apply owp_done. assert (t = 0) as -> by lia. change (2 ^ 0) with 1. rewrite Z.div_1_r. by repeat split. }
  intros p2 s2 (Hp2 & L2 & V2) C2 E2. apply wp_ret. split; [by etrans|]. rewrite E2.
  unfold mpi_ok, mpi_val, magnitude. cbn [mpi_s mpi_p]. assert (Z2 : zlen p2 = zlen p1) by (unfold zlen; lia).
  split; [split; [exact Hsg|]; split; [exact Hp2|lia]|]. split; [fold p; lia|]. left. split; [done|]. rewrite V2, V1, Hpc, Z.div_div by lia. done.
Qed.

(** ** The arithmetic is exact *)

(** C24: addition, subtraction and multiplication of signed integers are exact, whichever of the three
    objects are the same.  Given objects that exist and are well-formed, each function ends without touching
    memory it does not own, changes no object but [X], leaves [X] well-formed, and either returns 0 with
    the sum, difference or product of the operands' values before the call, or returns ALLOC_FAILED because
    [calloc] failed or the result would need more than the allowed 10000 limbs ([add_need], [mul_need]
    bound what it needs). *)
Theorem mpi_arithmetic (X A B : nat) (s : bn) :
  (X < bn_next s)%nat -> (A < bn_next s)%nat -> (B < bn_next s)%nat ->
  mpi_ok (bn_obj s X) -> mpi_ok (bn_obj s A) -> mpi_ok (bn_obj s B) ->
  let a := mpi_val (bn_obj s A) in
  let b := mpi_val (bn_obj s B) in
  wp exact (mbedtls_mpi_add_mpi X A B) (computes X (low2 X A B s) (add_need X A B s) (a + b) s) s /\
  wp exact (mbedtls_mpi_sub_mpi X A B) (computes X (low2 X A B s) (add_need X A B s) (a - b) s) s /\
  wp exact (mbedtls_mpi_mul_mpi X A B) (computes X (zlen (mpi_p (bn_obj s X))) (mul_need X A B s) (a * b) s) s /\
  wp exact (mbedtls_mpi_sub_abs X A B) (fun r s' =>
    if Z.abs a <? Z.abs b then r = MBEDTLS_ERR_MPI_NEGATIVE_VALUE /\ s' = s
    else computes X (low2 X A B s) (add_need X A B s) (Z.abs a - Z.abs b) s r s') s.
Proof.
  intros HX HA HB HoX HoA HoB a b. split; [by apply add_mpi_spec|]. split; [by apply sub_mpi_spec|].
  split; [by apply mul_mpi_spec|]. unfold a, b. rewrite <- !magnitude_val by done. by apply sub_abs_spec.
Qed.

Lemma mpi_arithmetic_witness :
  let a := mpi_val (bn_obj sample_store 0) in
  let b := mpi_val (bn_obj sample_store 1) in
  wp exact (mbedtls_mpi_add_mpi 1 0 1) (computes 1 3 (add_need 1 0 1 sample_store) (a + b) sample_store) sample_store /\
  wp exact (mbedtls_mpi_sub_mpi 1 0 1) (computes 1 3 (add_need 1 0 1 sample_store) (a - b) sample_store) sample_store /\
  wp exact (mbedtls_mpi_mul_mpi 1 0 1) (computes 1 3 (mul_need 1 0 1 sample_store) (a * b) sample_store) sample_store /\
  wp exact (mbedtls_mpi_sub_abs 1 0 1) (fun r s' =>
    if Z.abs a <? Z.abs b then r = MBEDTLS_ERR_MPI_NEGATIVE_VALUE /\ s' = sample_store
    else computes 1 3 (add_need 1 0 1 sample_store) (Z.abs a - Z.abs b) sample_store r s') sample_store.
Proof.
  refine (mpi_arithmetic 1 0 1 sample_store _ _ _ (sample_ok 1) (sample_ok 0) (sample_ok 1)).
  - cbn; lia.
  - cbn; lia.
  - cbn; lia.
Defined.

(** The sum of the bit length and the count is computed in [size_t]: when it wraps around the number is not
    grown, all its bits are shifted out, and the call reports success. *)
Example shift_l_wraps :
  (let! (r, s) := mbedtls_mpi_shift_l 0 (2 ^ 64 - 1) (mkBn (fun _ => mkMpi 1 [3]) 1 []) in
   Done (r, mpi_val (bn_obj s 0))) = Done (0, 0).
Proof. by vm_compute. Qed.

(** C26: comparison and shifts of well-formed numbers of at most 10000 limbs.  Comparison is that of the
    values, or of the magnitudes, and changes nothing.  A shift to the left by [count] multiplies by
    [2 ^ count], growing the number as needed, provided that the bit length and [count] together are below
    2^64 (otherwise the sum wraps around and the result is wrong: [shift_l_wraps]).  A shift to the right by
    any [size_t] count divides the magnitude by [2 ^ count], discarding the remainder.  A shift fails only
    with ALLOC_FAILED, when [calloc] failed or more than 10000 limbs would be needed. *)
Theorem mpi_comparison_and_shifts (X Y : nat) (count : Z) (s : bn) :
  mpi_ok (bn_obj s X) -> mpi_ok (bn_obj s Y) -> 0 <= count < 2 ^ 64 ->
  let x := mpi_val (bn_obj s X) in
  let y := mpi_val (bn_obj s Y) in
  mbedtls_mpi_cmp_mpi X Y s = Done (Z.sgn (x - y), s) /\
  mbedtls_mpi_cmp_abs X Y s = Done (Z.sgn (Z.abs x - Z.abs y), s) /\
  (bits (Z.abs x) + count < 2 ^ 64 -> wp exact (mbedtls_mpi_shift_l X count)
    (computes X (zlen (mpi_p (bn_obj s X))) (Z.max (zlen (mpi_p (bn_obj s X))) (BITS_TO_LIMBS (bits (Z.abs x) + count))) (x * 2 ^ count) s) s) /\
  wp exact (mbedtls_mpi_shift_r X count)
    (computes X (zlen (mpi_p (bn_obj s X))) (Z.max 1 (zlen (mpi_p (bn_obj s X)))) (Z.sgn x * (Z.abs x / 2 ^ count)) s) s.
Proof.
  intros HX HY Hc x y. unfold x, y. rewrite <- !magnitude_val by done.
  split; [by apply cmp_mpi_spec|]. split; [by apply cmp_abs_spec|]. split; [by intros; apply shift_l_exact; [|apply Hc|]|].
  replace (Z.sgn (mpi_val (bn_obj s X)) * (magnitude (bn_obj s X) / 2 ^ count))
    with (mpi_s (bn_obj s X) * (magnitude (bn_obj s X) / 2 ^ count)); [apply shift_r_spec; [done|lia]|].
  pose proof (magnitude_nonneg _ HX) as Hm. destruct (decide (magnitude (bn_obj s X) = 0)) as [E|E].
  { rewrite E, Z.div_0_l by (apply Z.pow_nonzero; lia). by rewrite !Z.mul_0_r. }
  f_equal. unfold mpi_val. destruct HX as ([Hs|Hs] & _ & _); rewrite Hs; lia.
Qed.

Lemma mpi_comparison_and_shifts_witness :
  let x := mpi_val (bn_obj sample_store 0) in
  let y := mpi_val (bn_obj sample_store 1) in
  mbedtls_mpi_cmp_mpi 0 1 sample_store = Done (Z.sgn (x - y), sample_store) /\
  mbedtls_mpi_cmp_abs 0 1 sample_store = Done (Z.sgn (Z.abs x - Z.abs y), sample_store) /\
  wp exact (mbedtls_mpi_shift_l 0 131)
    (computes 0 2 (Z.max 2 (BITS_TO_LIMBS (bits (Z.abs x) + 131))) (x * 2 ^ 131) sample_store) sample_store /\
  wp exact (mbedtls_mpi_shift_r 0 131)
    (computes 0 2 (Z.max 1 2) (Z.sgn x * (Z.abs x / 2 ^ 131)) sample_store) sample_store.
Proof.
  destruct (mpi_comparison_and_shifts 0 1 131 sample_store (sample_ok 0) (sample_ok 1) ltac:(lia)) as (H1 & H2 & H3 & H4).
  split; [exact H1|]. split; [exact H2|]. split; [apply H3; by vm_compute|exact H4].
Defined.
