(* ===== verification/MpiDiv.v ===== *)
(** * Multi-precision integers: division

    The third part of external_libs/mbedTLS/library/bignum.c: division with remainder ([mbedtls_mpi_div_mpi],
    after HAC 14.20) and the functions built on it.  The divisor is shifted until its top limb has 63 bits;
    each digit of the quotient is guessed from the two highest limbs of the remainder and corrected. *)

From stdpp Require Import functions.
From S2P Require Import Prelude Mpi MpiArith.

(** The quotient and what is stored through [r]: the version for a compiler with 128-bit integers. *)
Definition mbedtls_int_div_int (u1 u0 d : Z) : Z * Z :=
  if (d =? 0) || (d <=? u1) then (base - 1, base - 1)
  else
    let dividend := Z.lor (Z.shiftl u1 biL) u0 in
    let quotient := dividend / d in
    let quotient := if base - 1 <? quotient then base - 1 else quotient in
    (quotient, u64 (dividend - quotient * d)).

(** [while( cmp_mpi( &X, &Y ) >= 0 ) { Z.p[n - t]++; X -= Y; }] *)
Definition top_digit (fuel : nat) (X Y Zq : nat) (k : Z) : M bn Z :=
  loop fuel (fun _ : unit =>
    do! c := mbedtls_mpi_cmp_mpi X Y in
    if c <? 0 then ret (inr 0)
    else
      do! z := limb Zq k in
      run! set_limb Zq k (u64 (z + 1)) in
      do! r := mbedtls_mpi_sub_mpi X X Y in
      ret (if r =? 0 then inl tt else inr r)) tt.

(** The part of that loop that may fail: [T1] gets the product of the digit and the two highest limbs of the
    divisor, [T2] the three highest limbs of the remainder. *)
Definition load_tops (X Y Zq T1 T2 : nat) (i t k : Z) : M bn Z :=
  chk! mbedtls_mpi_lset T1 0 in
  do! y0 := (if t <? 1 then ret 0 else limb Y (t - 1)) in
  run! set_limb T1 0 y0 in
  do! y1 := limb Y t in
  run! set_limb T1 1 y1 in
  do! z := limb Zq k in
  chk! mbedtls_mpi_mul_int T1 T1 z in
  chk! mbedtls_mpi_lset T2 0 in
  do! x0 := (if i <? 2 then ret 0 else limb X (i - 2)) in
  run! set_limb T2 0 x0 in
  do! x1 := (if i <? 1 then ret 0 else limb X (i - 1)) in
  run! set_limb T2 1 x1 in
  do! x2 := limb X i in
  run! set_limb T2 2 x2 in
  ret 0.

(** The loop that corrects the digit [Z.p[k]] of the quotient; [i] and [t] are the highest limbs of the
    remainder and of the divisor. *)
Definition correct_digit (fuel : nat) (X Y Zq T1 T2 : nat) (i t k : Z) : M bn Z :=
  loop fuel (fun _ : unit =>
    do! z := limb Zq k in
    run! set_limb Zq k (u64 (z - 1)) in
    do! r := load_tops X Y Zq T1 T2 i t k in
    if negb (r =? 0) then ret (inr r)
    else
      do! c := mbedtls_mpi_cmp_mpi T1 T2 in
      ret (if 0 <? c then inl tt else inr 0)) tt.

(** One round of the main loop, for the limb [i] of the remainder. *)
Definition div_round (X Y Zq T1 T2 : nat) (t i : Z) : M bn Z :=
  let k := i - t - 1 in
  do! xi := limb X i in
  do! yt := limb Y t in
  run! (if yt <=? xi then set_limb Zq k (base - 1)
        else do! xi1 := limb X (i - 1) in set_limb Zq k (fst (mbedtls_int_div_int xi xi1 yt))) in
  do! z := limb Zq k in
  run! set_limb Zq k (u64 (z + 1)) in
  chk! correct_digit 9 X Y Zq T1 T2 i t k in
  do! z := limb Zq k in
  chk! mbedtls_mpi_mul_int T1 Y z in
  chk! mbedtls_mpi_shift_l T1 (biL * k) in
  chk! mbedtls_mpi_sub_mpi X X T1 in
  do! c := mbedtls_mpi_cmp_int X 0 in
  if c <? 0 then
    chk! mbedtls_mpi_copy T1 Y in
    chk! mbedtls_mpi_shift_l T1 (biL * k) in
    chk! mbedtls_mpi_add_mpi X X T1 in
    do! z := limb Zq k in
    run! set_limb Zq k (u64 (z - 1)) in
    ret 0
  else ret 0.

(** [for( i = n; i > t; i-- )], [m] rounds. *)
Fixpoint div_rounds (m : nat) (X Y Zq T1 T2 : nat) (t i : Z) : M bn Z :=
  match m with
  | O => ret 0
  | S m =>
      chk! div_round X Y Zq T1 T2 t i in
      div_rounds m X Y Zq T1 T2 t (i - 1)
  end.

(** From the copies of the operands to quotient [Zq] and remainder [X], still shifted by the result. *)
Definition div_digits (X Y Zq T1 T2 : nat) : M bn (Z * Z) :=
  do! b := mbedtls_mpi_bitlen Y in
  let k := b mod biL in
  let k := if k <? biL - 1 then biL - 1 - k else 0 in
  do! r := (
    chk! (if k =? 0 then ret 0 else mbedtls_mpi_shift_l X k) in
    chk! (if k =? 0 then ret 0 else mbedtls_mpi_shift_l Y k) in
    do! nx := size_of X in
    do! ny := size_of Y in
    let n := nx - 1 in
    let t := ny - 1 in
    chk! mbedtls_mpi_shift_l Y (biL * (n - t)) in
    chk! top_digit 5 X Y Zq (n - t) in
    chk! mbedtls_mpi_shift_r Y (biL * (n - t)) in
    div_rounds (Z.to_nat (n - t)) X Y Zq T1 T2 t n) in
  ret (r, k).

(** The code leaves the locals unfreed when it returns early for |A| < |B|; they own no memory at that point, so
    freeing them, as here on every path, has no effect. *)
Definition mbedtls_mpi_div_mpi (Q R : option nat) (A B : nat) : M bn Z :=
  do! zero := mbedtls_mpi_cmp_int B 0 in
  if zero =? 0 then ret MBEDTLS_ERR_MPI_DIVISION_BY_ZERO
  else
    local_mpi (fun X => local_mpi (fun Y => local_mpi (fun Zq => local_mpi (fun T1 => local_mpi (fun T2 =>
      run! mbedtls_mpi_init X in
      run! mbedtls_mpi_init Y in
      run! mbedtls_mpi_init Zq in
      run! mbedtls_mpi_init T1 in
      run! mbedtls_mpi_init T2 in
      do! c := mbedtls_mpi_cmp_abs A B in
      do! r := (
        if c <? 0 then
          chk! (match Q with Some q => mbedtls_mpi_lset q 0 | None => ret 0 end) in
          chk! (match R with Some r => mbedtls_mpi_copy r A | None => ret 0 end) in
          ret 0
        else
          chk! mbedtls_mpi_copy X A in
          chk! mbedtls_mpi_copy Y B in
          run! set_s Y 1 in
          run! set_s X 1 in
          do! na := size_of A in
          chk! mbedtls_mpi_grow Zq (na + 2) in
          chk! mbedtls_mpi_lset Zq 0 in
          chk! mbedtls_mpi_grow T1 2 in
          chk! mbedtls_mpi_grow T2 3 in
          do! (r, k) := div_digits X Y Zq T1 T2 in
          if negb (r =? 0) then ret r
          else
            chk! (match Q with
                  | Some q =>
                      chk! mbedtls_mpi_copy q Zq in
                      do! a := mpi_at A in
                      do! b := mpi_at B in
                      run! set_s q (mpi_s a * mpi_s b) in
                      ret 0
                  | None => ret 0
                  end) in
            match R with
            | Some rm =>
                chk! mbedtls_mpi_shift_r X k in
                do! a := mpi_at A in
                run! set_s X (mpi_s a) in
                chk! mbedtls_mpi_copy rm X in
                do! zero := mbedtls_mpi_cmp_int rm 0 in
                run! (if zero =? 0 then set_s rm 1 else ret tt) in
                ret 0
            | None => ret 0
            end) in
      run! mbedtls_mpi_free X in
      run! mbedtls_mpi_free Y in
      run! mbedtls_mpi_free Zq in
      run! mbedtls_mpi_free T1 in
      run! mbedtls_mpi_free T2 in
      ret r))))).

Definition mbedtls_mpi_div_int (Q R : option nat) (A : nat) (b : Z) : M bn Z :=
  with_int (sint_sign b) (sint_abs b) (fun B => mbedtls_mpi_div_mpi Q R A B).

(** [while( cmp_int( R, 0 ) < 0 ) R += B; while( cmp_mpi( R, B ) >= 0 ) R -= B;] *)
Definition mbedtls_mpi_mod_mpi (R A B : nat) : M bn Z :=
  do! c := mbedtls_mpi_cmp_int B 0 in
  if c <? 0 then ret MBEDTLS_ERR_MPI_NEGATIVE_VALUE
  else
    chk! mbedtls_mpi_div_mpi None (Some R) A B in
    chk! loop 3 (fun _ : unit =>
      do! c := mbedtls_mpi_cmp_int R 0 in
      if c <? 0 then do! r := mbedtls_mpi_add_mpi R R B in ret (if r =? 0 then inl tt else inr r)
      else ret (inr 0)) tt in
    loop 3 (fun _ : unit =>
      do! c := mbedtls_mpi_cmp_mpi R B in
      if 0 <=? c then do! r := mbedtls_mpi_sub_mpi R R B in ret (if r =? 0 then inl tt else inr r)
      else ret (inr 0)) tt.

(** One step of the general case of [mbedtls_mpi_mod_int]: half a limb goes into the remainder. *)
Definition mod_half (b y x : Z) : Z :=
  let y := Z.lor (u64 (Z.shiftl y 32)) (Z.shiftr x 32) in
  y - y / b * b.

Fixpoint mod_limbs (n : nat) (p : list Z) (b y : Z) : outcome Z :=
  match n with
  | O => Done y
  | S n =>
      let! x := aload p (Z.of_nat n) in
      let y := mod_half b y x in
      let x := u64 (Z.shiftl x 32) in
      mod_limbs n p b (mod_half b y x)
  end.

(** The code returned and [*r], 0 where the code leaves it alone. *)
Definition mbedtls_mpi_mod_int (A : nat) (b : Z) : M bn (Z * Z) :=
  if b =? 0 then ret (MBEDTLS_ERR_MPI_DIVISION_BY_ZERO, 0)
  else if b <? 0 then ret (MBEDTLS_ERR_MPI_NEGATIVE_VALUE, 0)
  else if b =? 1 then ret (0, 0)
  else if b =? 2 then do! x := limb A 0 in ret (0, Z.land x 1)
  else
    do! m := mpi_at A in
    do! y := lift (mod_limbs (length (mpi_p m)) (mpi_p m) b 0) in
    ret (0, if (mpi_s m <? 0) && negb (y =? 0) then b - y else y).

Definition div_store (a b : list Z) : bn :=
  mkBn (<[0%nat := mkMpi (-1) a]> (<[1%nat := mkMpi 1 b]> (fun _ => mkMpi 1 []))) 4 [].
Example div_sample :
  (let! (r, s) := mbedtls_mpi_div_mpi (Some 2%nat) (Some 3%nat) 0 1 (div_store [7; 3; base - 1; base - 1; 0] [base - 1; base - 2]) in
   Done (r, mpi_val (bn_obj s 2), mpi_val (bn_obj s 3))) =
  (let a := limbs [7; 3; base - 1; base - 1] in let b := limbs [base - 1; base - 2] in
   Done (0, - (a / b), - (a mod b))).
Proof. by vm_compute. Qed.

(** ** The arithmetic of one digit *)

(** The digit [k] of a number. *)
Lemma limb_digit p k x : Forall limb_ok p -> 0 <= k -> p !! Z.to_nat k = Some x -> x = limbs p / base ^ k mod base.
Proof.
  intros Hp Hk Hx. rewrite <- (Z2Nat.id k Hk) at 1. rewrite (limbs_div p _ x Hp Hx).
  pose proof (limb_lookup _ _ _ Hp Hx) as Hl. rewrite (Z.mul_comm base), Z.mod_add by done. by rewrite Z.mod_small.
Qed.

(** The highest digits of [x < base ^ (i + 1)], as the code reads them. *)
Lemma div_div_base x k : 0 <= k -> x / base ^ k / base = x / base ^ (k + 1).
Proof. intros Hk. rewrite base_pow_succ, (Z.mul_comm base) by done. rewrite Z.div_div; [done|pose proof (base_pow_pos k Hk); lia|done]. Qed.

Lemma two_digits x k : 0 <= k -> x / base ^ k = x / base ^ (k + 1) * base + x / base ^ k mod base.
Proof. intros Hk. rewrite <- div_div_base by done. pose proof (Z.div_mod (x / base ^ k) base ltac:(done)). lia. Qed.

Lemma top_digit_value x i : 0 <= x < base ^ (i + 1) -> 0 <= i -> x / base ^ i mod base = x / base ^ i /\ 0 <= x / base ^ i < base.
Proof.
  intros Hx Hi. pose proof (base_pow_pos i Hi). rewrite base_pow_succ in Hx by done.
  assert (0 <= x / base ^ i < base).
  { split; [apply Z.div_pos; lia|apply Z.div_lt_upper_bound; lia]. }
  split; [by apply Z.mod_small|done].
Qed.

(** The product of the quotient's digit and the two highest digits of the divisor. *)
Lemma digit_le_test x y t k q : 0 <= t -> 0 <= k -> 0 <= x -> 0 <= q ->
  q * (y * base ^ k) <= x -> q * (y * base / base ^ t) <= x * base ^ 2 / base ^ (t + 1 + k).
Proof.
  intros Ht Hk Hx Hq H. pose proof (base_pow_pos t Ht). pose proof (base_pow_pos k Hk).
  pose proof (base_pow_pos (t + 1 + k) ltac:(lia)). apply Z.div_le_lower_bound; [done|].
  pose proof (Z.mul_div_le (y * base) (base ^ t) ltac:(done)) as Hd. set (D := y * base / base ^ t) in *.
  replace (base ^ (t + 1 + k)) with (base ^ t * (base * base ^ k)) by (rewrite !Z.pow_add_r, Z.pow_1_r by lia; ring).
  transitivity (q * (y * base ^ k) * base ^ 2); [|apply Z.mul_le_mono_nonneg_r; [done|exact H]].
  replace (base ^ t * (base * base ^ k) * (q * D)) with (q * base * base ^ k * (base ^ t * D)) by ring.
  replace (q * (y * base ^ k) * base ^ 2) with (q * base * base ^ k * (y * base)) by ring.
  apply Z.mul_le_mono_nonneg_l; [|exact Hd]. apply Z.mul_nonneg_nonneg; [apply Z.mul_nonneg_nonneg; [done|done]|lia].
Qed.

(** A digit that passes the test is too large by at most one. *)
Lemma digit_test_le x y t k q : 0 <= t -> 0 <= k -> 0 <= y -> 0 <= q <= base -> base <= y * base / base ^ t ->
  q * (y * base / base ^ t) <= x * base ^ 2 / base ^ (t + 1 + k) -> (q - 1) * (y * base ^ k) <= x.
Proof.
  intros Ht Hk Hy Hq HD H. pose proof (base_pow_pos t Ht). pose proof (base_pow_pos k Hk).
  pose proof (base_pow_pos (t + 1 + k) ltac:(lia)) as Hi.
  pose proof (Z.mul_div_le (x * base ^ 2) _ Hi) as Hx. pose proof (Z.mul_succ_div_gt (y * base) (base ^ t) ltac:(done)) as Hd.
  set (D := y * base / base ^ t) in *. set (N := x * base ^ 2 / base ^ (t + 1 + k)) in *.
  assert (Epow : base ^ (t + 1 + k) = base ^ t * (base * base ^ k)) by (rewrite !Z.pow_add_r, Z.pow_1_r by lia; ring).
  rewrite Epow in Hx. apply (Z.mul_le_mono_pos_r _ _ (base ^ 2)); [done|].
  transitivity (base ^ t * (base * base ^ k) * N); [|exact Hx].
  destruct (decide (q = 0)) as [->|].
  { transitivity 0; [|apply Z.mul_nonneg_nonneg; [apply Z.mul_nonneg_nonneg; [lia|apply Z.mul_nonneg_nonneg; [done|lia]]|lia]].
    assert (0 <= y * base ^ k) by (apply Z.mul_nonneg_nonneg; lia). change (base ^ 2) with (base * base). unfold base. lia. }
  transitivity (base ^ t * (base * base ^ k) * (q * D)).
  2: { apply Z.mul_le_mono_nonneg_l; [apply Z.mul_nonneg_nonneg; [lia|apply Z.mul_nonneg_nonneg; [done|lia]]|exact H]. }
  replace ((q - 1) * (y * base ^ k) * base ^ 2) with ((q - 1) * (base * base ^ k) * (y * base)) by ring.
  transitivity ((q - 1) * (base * base ^ k) * (base ^ t * Z.succ D)).
  { apply Z.mul_le_mono_nonneg_l; [|lia]. apply Z.mul_nonneg_nonneg; [lia|apply Z.mul_nonneg_nonneg; [done|lia]]. }
  replace ((q - 1) * (base * base ^ k) * (base ^ t * Z.succ D)) with (base ^ t * (base * base ^ k) * ((q - 1) * Z.succ D)) by ring.
  apply Z.mul_le_mono_nonneg_l; [apply Z.mul_nonneg_nonneg; [lia|apply Z.mul_nonneg_nonneg; [done|lia]]|]. lia.
Qed.

(** The first guess, from the two highest digits of the remainder and the highest of the divisor. *)
Lemma guess_high q yt D N2 N3 : 0 <= q < base -> 4611686018427387904 <= yt -> yt * base <= D <= yt * base + (base - 1) ->
  N2 * base <= N3 -> q * yt <= N2 -> (q - 4) * D <= N3.
Proof. unfold base. intros. nia. Qed.

Lemma guess_low q yt D N2 N3 : 0 <= q -> yt * base <= D -> N3 <= N2 * base + (base - 1) -> q * D <= N3 -> q * yt <= N2.
Proof. unfold base. intros. nia. Qed.

Lemma shifted_div v j : 1 <= j -> v * base / base ^ j = v / base ^ (j - 1).
Proof.
  intros Hj. replace j with (j - 1 + 1) at 1 by lia. rewrite Z.pow_add_r, Z.pow_1_r by lia.
  apply Z.div_mul_cancel_r; [|done]. pose proof (base_pow_pos (j - 1) ltac:(lia)). lia.
Qed.

(** The two highest digits of the divisor, the three highest of the remainder. *)
Lemma divisor_digits y t : 0 <= t -> 0 <= y < base ^ (t + 1) ->
  y * base / base ^ t = (if t <? 1 then 0 else y / base ^ (t - 1) mod base) + base * (y / base ^ t mod base).
Proof.
  intros Ht Hy. destruct (top_digit_value y t Hy Ht) as [-> _]. destruct (Z.ltb_spec t 1) as [|Ht1].
  - assert (t = 0) as -> by lia. change (base ^ 0) with 1. rewrite !Z.div_1_r. ring.
  - rewrite shifted_div by lia. pose proof (two_digits y (t - 1) ltac:(lia)) as H.
    replace (t - 1 + 1) with t in H by lia. rewrite H at 1. ring.
Qed.

Lemma remainder_digits x i : 1 <= i -> 0 <= x < base ^ (i + 1) ->
  x * base ^ 2 / base ^ i =
  (if i <? 2 then 0 else x / base ^ (i - 2) mod base) + base * (x / base ^ (i - 1) mod base + base * (x / base ^ i mod base)).
Proof.
  intros Hi Hx. destruct (top_digit_value x i Hx ltac:(lia)) as [-> _].
  pose proof (two_digits x (i - 1) ltac:(lia)) as H1. replace (i - 1 + 1) with i in H1 by lia.
  replace (x * base ^ 2) with (x * base * base) by ring. rewrite shifted_div by done. destruct (Z.ltb_spec i 2) as [|Hi2].
  - assert (i = 1) as -> by lia. change (1 - 1) with 0 in *. change (base ^ 0) with 1 in *. rewrite !Z.div_1_r in *. lia.
  - rewrite shifted_div by lia. replace (i - 1 - 1) with (i - 2) by lia.
    pose proof (two_digits x (i - 2) ltac:(lia)) as H2. replace (i - 2 + 1) with (i - 1) in H2 by lia. lia.
Qed.

Lemma mkMpi_eta m : mkMpi (mpi_s m) (mpi_p m) = m.
Proof. by destruct m. Qed.

Lemma mpi_val_pos p : mpi_val (mkMpi 1 p) = limbs p.
Proof. unfold mpi_val, magnitude. cbn [mpi_s mpi_p]. lia. Qed.

Lemma wp_digit md V k (Q : Z -> bn -> Prop) s : mpi_ok (bn_obj s V) -> 0 <= k < zlen (mpi_p (bn_obj s V)) ->
  (limb_ok (magnitude (bn_obj s V) / base ^ k mod base) -> Q (magnitude (bn_obj s V) / base ^ k mod base) s) ->
  wp md (limb V k) Q s.
Proof.
  intros (_ & Hp & _) Hk HQ. destruct (lookup_in _ k Hk) as [x Hx]. pose proof (limb_lookup _ _ _ Hp Hx) as Hl.
  pose proof (limb_digit _ k x Hp ltac:(lia) Hx) as E. unfold magnitude in *. rewrite <- E in HQ.
  apply (wp_limb_Z _ _ _ _ _ (mpi_s (bn_obj s V)) _ _ (eq_sym (mkMpi_eta _)) (proj1 Hk) Hx). by apply HQ.
Qed.

Lemma wp_set_limb_obj md V k v m (Q : unit -> bn -> Prop) s : bn_obj s V = m -> 0 <= k < zlen (mpi_p m) ->
  Q tt (upd V (mkMpi (mpi_s m) (<[Z.to_nat k := v]> (mpi_p m))) s) -> wp md (set_limb V k v) Q s.
Proof. intros <- Hk HQ. exact (wp_set_limb_Z _ _ _ _ _ _ _ _ (eq_sym (mkMpi_eta _)) Hk HQ). Qed.

(** Small numbers written limb by limb. *)
Lemma two_limbs (n : nat) a b : (2 <= n)%nat -> limb_ok a -> limb_ok b ->
  let p := <[1%nat := b]> (<[0%nat := a]> (replicate n 0)) in
  limbs p = a + base * b /\ Forall limb_ok p /\ length p = n.
Proof.
  intros Hn Ha Hb. destruct n as [|[|n]]; [lia..|]. cbn -[base]. rewrite limbs_zeros, length_replicate. split; [ring|].
  split; [|done]. repeat (constructor; [done|]). apply zeros_ok.
Qed.

Lemma three_limbs (n : nat) a b c : (3 <= n)%nat -> limb_ok a -> limb_ok b -> limb_ok c ->
  let p := <[2%nat := c]> (<[1%nat := b]> (<[0%nat := a]> (replicate n 0))) in
  limbs p = a + base * (b + base * c) /\ Forall limb_ok p /\ length p = n.
Proof.
  intros Hn Ha Hb Hc. destruct n as [|[|[|n]]]; [lia..|]. cbn -[base]. rewrite limbs_zeros, length_replicate. split; [ring|].
  split; [|done]. repeat (constructor; [done|]). apply zeros_ok.
Qed.

Lemma low1_self X s : low1 X X s = zlen (mpi_p (bn_obj s X)).
Proof. unfold low1. by destruct (mpi_p (bn_obj s X)). Qed.

Lemma le_div_iff d n z : 0 < d -> z <= n / d <-> d * z <= n.
Proof. intros Hd. split; [intros H; pose proof (Z.mul_div_le n d Hd); nia|intros H; apply Z.div_le_lower_bound; lia]. Qed.

Lemma u64_pred z : limb_ok z -> u64 (u64 (z + 1) - 1) = z.
Proof.
  intros Hz. rewrite <- (u64_id z) at 2 by exact Hz. unfold u64. rewrite Zminus_mod_idemp_l. f_equal. lia.
Qed.

Lemma wp_cmp_mpi md V W (Q : Z -> bn -> Prop) s : mpi_ok (bn_obj s V) -> mpi_ok (bn_obj s W) ->
  Q (Z.sgn (mpi_val (bn_obj s V) - mpi_val (bn_obj s W))) s -> wp md (mbedtls_mpi_cmp_mpi V W) Q s.
Proof. intros HV HW HQ. unfold wp. by rewrite cmp_mpi_spec. Qed.

(** The test of the loop that corrects a digit. *)
Lemma sgn_test d n z : 0 < d -> 0 < Z.sgn (d * z - n) <-> n / d < z.
Proof. intros Hd. pose proof (le_div_iff d n z Hd) as H. revert H. generalize (n / d), (d * z). intros. lia. Qed.

Lemma lor_high x y : 0 <= x < base -> Z.lor (y * base) x = y * base + x.
Proof. intros Hx. rewrite Z.lor_comm. change base with (2 ^ 64) at 1. rewrite (lor_add x y 64) by (done || exact Hx). change (2 ^ 64) with base. lia. Qed.

(** The limbs a shift by whole limbs needs. *)
Lemma shift_room v m k : 0 <= v < base ^ m -> 0 <= m -> 0 <= k -> 0 <= BITS_TO_LIMBS (bits v + biL * k) <= m + k.
Proof.
  intros Hv Hm Hk. change base with (2 ^ 64) in Hv. rewrite <- Z.pow_mul_r in Hv by lia.
  pose proof (bits_le v (64 * m) Hv ltac:(lia)) as Hb. pose proof (bits_nonneg v) as Hb0.
  unfold BITS_TO_LIMBS, biL. set (b := bits v + 64 * k). assert (Hbk : 0 <= b <= 64 * (m + k)) by lia. clearbody b.
  pose proof (Z.div_mod b 64 ltac:(lia)). pose proof (Z.mod_pos_bound b 64 ltac:(lia)).
  destruct (Z.eqb_spec (b mod 64) 0); lia.
Qed.

Lemma wp_chk_ret md (m : M bn Z) (Q : Z -> bn -> Prop) s : wp md (chk! m in ret 0) Q s -> wp md m Q s.
Proof.
  unfold wp, bind, obind, ret. destruct (m s) as [[r s']| |]; [|done|done]. cbn. by destruct (Z.eqb_spec r 0) as [->|].
Qed.

(** ** Normalisation *)

Lemma BITS_TO_LIMBS_up i : 0 <= i -> BITS_TO_LIMBS i = (i + 63) / 64.
Proof.
  intros Hi. unfold BITS_TO_LIMBS, biL. pose proof (Z.div_mod i 64 ltac:(lia)) as E. pose proof (Z.mod_pos_bound i 64 ltac:(lia)) as Hm.
  set (q := i / 64) in *. destruct (Z.eqb_spec (i mod 64) 0) as [H0|H0].
  - apply (Z.div_unique _ _ _ 63); lia.
  - apply (Z.div_unique _ _ _ (i mod 64 - 1)); lia.
Qed.

Lemma bits_shift v k : 0 < v -> 0 <= k -> bits (v * 2 ^ k) = bits v + k.
Proof.
  intros Hv Hk. pose proof (Z.pow_pos_nonneg 2 k ltac:(lia) Hk) as Hp. destruct (bits_spec v ltac:(lia)) as [Hb1 Hb2].
  specialize (Hb2 Hv). apply bits_unique; [lia| |].
  - rewrite Z.pow_add_r by lia. split; [nia|]. by apply Z.mul_lt_mono_pos_r.
  - intros _. replace (bits v + k - 1) with (bits v - 1 + k) by lia. rewrite Z.pow_add_r by lia. apply Z.mul_le_mono_nonneg_r; lia.
Qed.

Lemma nlimbs_shift v k : 0 < v -> 0 <= k -> BITS_TO_LIMBS (bits v + k) = nlimbs (v * 2 ^ k).
Proof. intros Hv Hk. rewrite BITS_TO_LIMBS_up by (pose proof (bits_nonneg v); lia). unfold nlimbs. by rewrite bits_shift. Qed.

Lemma nlimbs_zlen m : mpi_ok m -> nlimbs (magnitude m) <= zlen (mpi_p m).
Proof. intros (_ & Hp & _). apply nlimbs_le; [apply zlen_nonneg|by apply limbs_bound]. Qed.

(** The shift of [mbedtls_mpi_div_mpi] gives the divisor a highest limb of 63 bits. *)
Definition normalising (b : Z) : Z := let k := b mod 64 in if k <? 63 then 63 - k else 0.

Lemma normalised v : 0 < v -> let k := normalising (bits v) in let y := v * 2 ^ k in let t := nlimbs y - 1 in
  0 <= k < 64 /\ 0 <= t /\ 4611686018427387904 * base ^ t <= y /\ 2 * y < base ^ (t + 1).
Proof.
  intros Hv k y t. pose proof (Z.mod_pos_bound (bits v) 64 ltac:(lia)) as Hm. pose proof (Z.div_mod (bits v) 64 ltac:(lia)) as Hd.
  assert (Hk : 0 <= k < 64 /\ (bits v + k = 64 * (bits v / 64) + 63)).
  { unfold k, normalising. destruct (Z.ltb_spec (bits v mod 64) 63); lia. }
  destruct Hk as [Hk Hbk]. assert (Eb : bits y = 64 * (bits v / 64) + 63) by (unfold y; rewrite bits_shift by lia; exact Hbk).
  set (m := bits v / 64) in *. assert (Hm0 : 0 <= m) by (apply Z.div_pos; [apply bits_nonneg|lia]).
  assert (Ht : t = m). { unfold t, nlimbs. rewrite Eb. rewrite <- (Z.div_unique (64 * m + 63 + 63) 64 (m + 1) 62); lia. }
  assert (Hy : 0 < y) by (apply Z.mul_pos_pos; [done|apply Z.pow_pos_nonneg; lia]).
  destruct (bits_spec y ltac:(lia)) as [Hb1 Hb2]. destruct (Hb2 Hy) as [_ Hb3]. rewrite Eb in *. clear Hb2.
  rewrite Ht. split; [exact Hk|]. split; [exact Hm0|].
  replace (64 * m + 63 - 1) with (62 + 64 * m) in Hb3 by lia. rewrite Z.pow_add_r, Z.pow_mul_r in Hb3 by lia.
  replace (64 * m + 63) with (63 + 64 * m) in Hb1 by lia. rewrite Z.pow_add_r, Z.pow_mul_r in Hb1 by lia.
  change (2 ^ 64) with base in *. change (2 ^ 62) with 4611686018427387904 in Hb3. split; [exact Hb3|].
  rewrite base_pow_succ by lia. replace (base * base ^ m) with (2 * (2 ^ 63 * base ^ m)); [lia|].
  rewrite Z.mul_assoc. done.
Qed.

Lemma lt_nlimbs v : 0 <= v -> v < base ^ nlimbs v.
Proof.
  intros Hv. destruct (bits_spec v Hv) as [Hb _]. eapply Z.lt_le_trans; [exact Hb|].
  change base with (2 ^ 64). rewrite <- Z.pow_mul_r by (done || apply nlimbs_nonneg). apply Z.pow_le_mono_r; [done|].
  unfold nlimbs. pose proof (Z.div_mod (bits v + 63) 64 ltac:(done)). pose proof (Z.mod_pos_bound (bits v + 63) 64 ltac:(done)). lia.
Qed.
(** ** Steps of the division *)

(** The operations used, as [computes]. *)
Lemma lset_computes X z s : sint z -> mpi_ok (bn_obj s X) ->
  wp exact (mbedtls_mpi_lset X z)
    (computes X (zlen (mpi_p (bn_obj s X))) (Z.max 1 (zlen (mpi_p (bn_obj s X)))) z s) s.
Proof.
  intros Hz HX. eapply wp_mono; [by apply lset_spec|]. cbn beta. destruct (sint_val z Hz) as [Hok Hv].
  destruct HX as (Hs & Hp & Hm). intros r s1 [C [(-> & E)|(-> & H & E)]]; (split; [done|]); rewrite E.
  - set (q := replicate _ 0). assert (Hq : zlen (Z.abs z :: q) = Z.max 1 (zlen (mpi_p (bn_obj s X)))).
    { unfold q, zlen. cbn [length]. rewrite length_replicate. lia. }
    assert (Ez : sint_abs z = Z.abs z) by (unfold sint_abs, sint in *; destruct (Z.ltb_spec z 0); rewrite u64_id; lia).
    assert (Vq : limbs q = 0) by apply limbs_zeros. assert (Hqo : Forall limb_ok q) by apply zeros_ok.
    rewrite Ez in *. unfold mpi_ok, mpi_val, magnitude in *. cbn [mpi_s mpi_p limbs] in *. rewrite Vq, Hq.
    destruct Hok as (Hs1 & Hl & _). apply Forall_inv in Hl.
    split; [split; [done|]; split; [by constructor|unfold MBEDTLS_MPI_MAX_LIMBS in *; lia]|].
    split; [lia|]. by left.
  - split; [by split|]. split; [lia|]. right. split; [done|by left].
Qed.

Lemma copy_computes X Y s : (X < bn_next s)%nat -> X <> Y -> mpi_ok (bn_obj s X) -> mpi_ok (bn_obj s Y) ->
  wp exact (mbedtls_mpi_copy X Y)
    (computes X (low1 X Y s) (Z.max (Z.max 1 (zlen (mpi_p (bn_obj s X)))) (nlimbs (magnitude (bn_obj s Y)))) (mpi_val (bn_obj s Y)) s) s.
Proof.
  intros HXn Hne HX HY. pose proof (copy_unless_same X Y s HXn HX HY) as H.
  destruct (Nat.eqb_spec X Y) as [|_]; [done|]. pose proof (copy_spec X Y s Hne HY) as H2.
  eapply wp_mono; [exact (wp_conj _ _ _ _ _ H H2)|]. cbn beta.
  intros r s1 [(C & Hok & L & R) [_ R2]]. split; [done|]. split; [done|]. split; [done|].
  destruct R as [(-> & V & _)|(-> & R)]; [left|right; split; [done|by left]]. split; [done|].
  destruct R2 as [(_ & E)|(? & _)]; [|done]. unfold mpi_val, magnitude. rewrite E. cbn [mpi_s mpi_p]. rewrite copied_limbs.
  destruct (mpi_p (bn_obj s Y)); [cbn; lia|done].
Qed.

Lemma chk_computes X low need v (m k : M bn Z) (Q : Z -> bn -> Prop) s :
  wp exact m (computes X low need v s) s ->
  (forall s', changes [X] s s' -> mpi_ok (bn_obj s' X) -> low <= zlen (mpi_p (bn_obj s' X)) <= need ->
     mpi_val (bn_obj s' X) = v -> wp exact k Q s') ->
  (forall s', changes [X] s s' -> short_of_memory need s -> Q MBEDTLS_ERR_MPI_ALLOC_FAILED s') ->
  wp exact (chk! m in k) Q s.
Proof.
  intros Hm Hk Hf. apply wp_chk. eapply wp_mono; [exact Hm|]. cbn beta.
  intros r s' (C & Hok & Hz & [(-> & V)|(-> & R)]); [by apply Hk|by apply Hf].
Qed.

Section steps.
Context (X Y Zq T1 T2 : nat) (cap : Z) (s0 : bn).

(** The local variables of [mbedtls_mpi_div_mpi], pairwise different. *)
Definition locals : list nat := [X; Y; Zq; T1; T2].

(** The operation ends with 0 and [I], or for want of memory; only the local variables have changed. *)
Definition ends (I : bn -> Prop) (r : Z) (s : bn) : Prop :=
  changes locals s0 s /\ ((r = 0 /\ I s) \/ (r = MBEDTLS_ERR_MPI_ALLOC_FAILED /\ short_of_memory cap s0)).

Context (Hlocal : X <> Y /\ X <> Zq /\ X <> T1 /\ X <> T2 /\ Y <> Zq /\ Y <> T1 /\ Y <> T2 /\ Zq <> T1 /\ Zq <> T2 /\ T1 <> T2).
Context (Hexist : forall V, V ∈ locals -> (V < bn_next s0)%nat).

Lemma in_X : X ∈ locals.
Proof. unfold locals. by left. Qed.
Lemma in_Y : Y ∈ locals.
Proof. unfold locals. by right; left. Qed.
Lemma in_Z : Zq ∈ locals.
Proof. unfold locals. by do 2 right; left. Qed.
Lemma in_T1 : T1 ∈ locals.
Proof. unfold locals. by do 3 right; left. Qed.
Lemma in_T2 : T2 ∈ locals.
Proof. unfold locals. by do 4 right; left. Qed.

Lemma changes_local V s s' : changes locals s0 s -> changes [V] s s' -> V ∈ locals -> changes locals s0 s'.
Proof. intros C0 C HV. etrans; [exact C0|]. by eapply changes_weaken. Qed.

Lemma locals_next s V : changes locals s0 s -> V ∈ locals -> (V < bn_next s)%nat.
Proof using Hexist. intros C HV. rewrite (ch_next _ _ _ C). by apply Hexist. Qed.

Lemma chk_step V low need v (m k : M bn Z) I s : V ∈ locals -> changes locals s0 s -> need <= cap ->
  wp exact m (computes V low need v s) s ->
  (forall s', changes [V] s s' -> changes locals s0 s' -> mpi_ok (bn_obj s' V) ->
     low <= zlen (mpi_p (bn_obj s' V)) <= need -> mpi_val (bn_obj s' V) = v -> wp exact k (ends I) s') ->
  wp exact (chk! m in k) (ends I) s.
Proof.
  intros HV C0 Hcap Hm Hk.
  assert (HC : forall s', changes [V] s s' -> changes locals s0 s').
  { intros s' C. by apply (changes_local V s). }
  eapply chk_computes; [exact Hm| |].
  - intros s' C. apply Hk; auto.
  - intros s' C [H|H]; (split; [by apply HC|]); right; (split; [done|]); [left|right; lia].
    intros H0. by apply H, (ch_calloc _ _ _ C0).
Qed.

(** A temporary of at least [n] limbs. *)
Definition temp (n : Z) (m : mbedtls_mpi) : Prop := mpi_ok m /\ n <= zlen (mpi_p m) <= cap.

(** [lset( V, 0 )] clears the limbs of a temporary. *)
Lemma clear_step V n (k : M bn Z) I s : V ∈ locals -> changes locals s0 s -> 1 <= n -> temp n (bn_obj s V) ->
  (forall s' (m : nat), changes [V] s s' -> changes locals s0 s' -> bn_obj s' V = mkMpi 1 (replicate m 0) ->
     n <= Z.of_nat m <= cap -> Z.of_nat m <= MBEDTLS_MPI_MAX_LIMBS -> wp exact k (ends I) s') ->
  wp exact (chk! mbedtls_mpi_lset V 0 in k) (ends I) s.
Proof.
  intros HV C0 Hn [Hok Hz] Hk. pose proof Hok as (_ & _ & Hmax). apply wp_chk. eapply wp_mono; [by apply lset_spec|]. cbn beta.
  intros r s' [C [(-> & E)|(-> & R & E)]].
  - change (0 =? 0) with true. cbv iota. apply (Hk _ (length (mpi_p (bn_obj s V)))); [done| | |done|done].
    + by apply (changes_local V s).
    + rewrite E. unfold zlen in Hz. destruct (length (mpi_p (bn_obj s V))); [lia|]. done.
  - change (MBEDTLS_ERR_MPI_ALLOC_FAILED =? 0) with false. cbv iota. split.
    + by apply (changes_local V s).
    + right. split; [done|]. left. intros H0. by apply R, (ch_calloc _ _ _ C0).
Qed.

(** One digit: remainder [mX], divisor [mY], digits [pz] of the quotient. *)
Section digit.
Context (mX mY : mbedtls_mpi) (pz : list Z) (t i k : Z).
Context (HX : mpi_ok mX) (HY : mpi_ok mY) (Hpz : Forall limb_ok pz) (Hzmax : zlen pz <= MBEDTLS_MPI_MAX_LIMBS).
Context (Ht : 0 <= t) (Hk : 0 <= k < zlen pz) (Hi : i = t + 1 + k) (Hix : i < zlen (mpi_p mX)) (Hty : t < zlen (mpi_p mY)).
Context (HsY : mpi_s mY = 1).
Context (Hcap : 3 <= cap).

Definition digit_state (z : Z) (s : bn) : Prop :=
  changes locals s0 s /\ bn_obj s X = mX /\ bn_obj s Y = mY /\
  bn_obj s Zq = mkMpi 1 (<[Z.to_nat k := z]> pz) /\ temp 2 (bn_obj s T1) /\ temp 3 (bn_obj s T2).

Lemma digit_state_set z z' s : digit_state z s -> digit_state z' (upd Zq (mkMpi 1 (<[Z.to_nat k := z']> pz)) s).
Proof using All.
  intros (C & EX & EY & EZ & E1 & E2). pose proof Hlocal as (?&?&?&?&?&?&?&?&?&?).
  split; [apply (changes_local Zq s); [exact C|apply changes_upd|apply in_Z]|].
  rewrite obj_upd, !obj_upd_ne by congruence. split; [done|]. split; [done|]. split; [done|]. by split.
Qed.

Lemma wp_get_digit z (Q : Z -> bn -> Prop) s : digit_state z s -> Q z s -> wp exact (limb Zq k) Q s.
Proof using All.
  intros (_ & _ & _ & EZ & _) HQ. eapply (wp_limb_Z _ _ _ _ _ _ _ z); [exact EZ|lia| |exact HQ].
  apply list_lookup_insert_eq. unfold zlen in Hk. lia.
Qed.

Lemma wp_set_digit z z' (Q : unit -> bn -> Prop) s : digit_state z s ->
  (forall s', digit_state z' s' -> Q tt s') -> wp exact (set_limb Zq k z') Q s.
Proof using All.
  intros HS HQ. pose proof HS as (_ & _ & _ & EZ & _). eapply wp_set_limb_obj; [exact EZ| |].
  - cbn [mpi_p]. unfold zlen in *. rewrite length_insert. lia.
  - cbn [mpi_s mpi_p]. rewrite list_insert_insert_eq. apply HQ. by apply (digit_state_set z).
Qed.

Lemma digit_frame V z s s' : digit_state z s -> changes [V] s s' -> V = T1 \/ V = T2 ->
  temp 2 (bn_obj s' T1) -> temp 3 (bn_obj s' T2) -> digit_state z s'.
Proof using All.
  intros (C & EX & EY & EZ & E1 & E2) C' HV H1 H2. pose proof Hlocal as (?&?&?&?&?&?&?&?&?&?).
  split; [apply (changes_local V s); [exact C|exact C'|destruct HV as [->| ->]; [apply in_T1|apply in_T2]]|].
  assert (Hold : forall W, W ∈ locals -> W <> V -> bn_obj s' W = bn_obj s W).
  { intros W HW Hne. apply (changes_other V); [done|by apply locals_next|done]. }
  assert (HXYZ : X <> V /\ Y <> V /\ Zq <> V) by (destruct HV as [->| ->]; done). destruct HXYZ as (?&?&?).
  rewrite (Hold X), (Hold Y), (Hold Zq); try done; [apply in_Z|apply in_Y|apply in_X].
Qed.

(** The loop, given what one round computes. *)
Lemma correct_loop d n : 0 < d -> 0 <= n ->
  (forall z s, digit_state z s -> limb_ok z -> wp exact (load_tops X Y Zq T1 T2 i t k)
    (ends (fun s' => digit_state z s' /\ mpi_val (bn_obj s' T1) = d * z /\ mpi_val (bn_obj s' T2) = n)) s) ->
  forall fuel z s, digit_state (u64 (z + 1)) s -> limb_ok z -> Z.max 0 (z - n / d) < Z.of_nat fuel ->
  wp exact (correct_digit fuel X Y Zq T1 T2 i t k) (ends (digit_state (Z.min z (n / d)))) s.
Proof using All.
  intros Hd Hn Hstep. pose proof (sgn_test d n) as Htest. pose proof (Z.div_pos n d Hn Hd) as Hq0.
  generalize dependent (n / d). intros qf Htest Hq0. unfold correct_digit.
  induction fuel as [|fuel IH]; intros z s HS Hz Hf; [clear -Hf; lia|].
  cbn [loop]. apply wp_bind, wp_bind, (wp_get_digit _ _ _ HS), wp_bind.
  rewrite u64_pred by done. apply (wp_set_digit _ _ _ _ HS). intros s1 HS1. apply wp_bind.
  eapply wp_mono; [by apply (Hstep z)|]. cbn beta. intros r s2 (C2 & [(-> & HS2 & V1 & V2)|(-> & R)]).
  2: { change (negb (MBEDTLS_ERR_MPI_ALLOC_FAILED =? 0)) with true. cbv iota. apply wp_ret, wp_ret. split; [done|]. by right. }
  change (negb (0 =? 0)) with false. cbv iota. pose proof HS2 as (_ & _ & _ & _ & [Ok1 _] & [Ok2 _]).
  apply wp_bind, wp_cmp_mpi; [done|done|]. rewrite V1, V2. apply wp_ret. specialize (Htest z Hd).
  destruct (Z.ltb_spec 0 (Z.sgn (d * z - n))) as [Hc|Hc].
  - apply Htest in Hc. replace (Z.min z qf) with (Z.min (z - 1) qf) by lia. apply IH; [|unfold limb_ok in *; lia|lia].
    replace (z - 1 + 1) with z by lia. rewrite u64_id by exact Hz. exact HS2.
  - apply wp_ret. split; [done|]. left. split; [done|]. replace (Z.min z qf) with z by lia. exact HS2.
Qed.

Context (Hx : magnitude mX < base ^ (i + 1)) (Hy : magnitude mY < base ^ (t + 1)).

Definition divisor_top : Z := magnitude mY * base / base ^ t.
Definition remainder_top : Z := magnitude mX * base ^ 2 / base ^ i.

(** [T1] gets the two highest digits of the divisor. *)
Lemma load_divisor z (kk : M bn Z) I s : digit_state z s ->
  (forall s', digit_state z s' -> mpi_val (bn_obj s' T1) = divisor_top -> wp exact kk (ends I) s') ->
  wp exact (chk! mbedtls_mpi_lset T1 0 in
    do! y0 := (if t <? 1 then ret 0 else limb Y (t - 1)) in
    run! set_limb T1 0 y0 in
    do! y1 := limb Y t in
    run! set_limb T1 1 y1 in
    kk) (ends I) s.
Proof using All.
  intros HS HQ. pose proof HS as (C0 & _ & EY & _ & E1 & E2).
  pose proof (magnitude_nonneg mY HY) as Hy0. pose proof Hlocal as (?&?&?&?&?&?&?&?&?&?).
  apply (clear_step T1 2 _ _ _ in_T1 C0); [lia|done|]. intros s1 n C1 C01 ET1 Hn Hmax.
  assert (EY1 : bn_obj s1 Y = mY) by (rewrite <- EY; apply (changes_other T1); [done|by apply locals_next, in_Y|congruence]).
  apply wp_bind. set (y0 := if t <? 1 then 0 else magnitude mY / base ^ (t - 1) mod base).
  assert (W : limb_ok y0 -> wp exact (run! set_limb T1 0 y0 in do! y1 := limb Y t in run! set_limb T1 1 y1 in kk) (ends I) s1).
  { intros Hl. apply wp_bind. eapply wp_set_limb_obj; [exact ET1|cbn [mpi_p]; unfold zlen; rewrite length_replicate; lia|].
    cbn [mpi_s mpi_p]. set (s2 := upd T1 _ s1). apply wp_bind. apply wp_digit; unfold s2; rewrite obj_upd_ne by congruence; rewrite EY1; [done|lia|].
    intros Hl1. apply wp_bind. eapply wp_set_limb_obj; [apply obj_upd|cbn [mpi_p]; unfold zlen; rewrite length_insert, length_replicate; lia|].
    cbn [mpi_s mpi_p]. set (s3 := upd T1 _ _).
    destruct (two_limbs n y0 (magnitude mY / base ^ t mod base) ltac:(lia) Hl Hl1) as (V & Hok & Hlen).
    assert (E3 : bn_obj s3 T1 = mkMpi 1 (<[1%nat := magnitude mY / base ^ t mod base]> (<[0%nat := y0]> (replicate n 0)))) by apply obj_upd.
    change (Z.to_nat 1) with 1%nat in *. change (Z.to_nat 0) with 0%nat in *.
    apply HQ.
    - apply (digit_frame T1 z s); [done| |by left| |].
      + do 2 (etrans; [|apply changes_upd]). exact C1.
      + rewrite E3. split; [split; [by left|]; split; [exact Hok|]|]; cbn [mpi_p]; unfold zlen; rewrite Hlen; lia.
      + unfold s3. rewrite !obj_upd_ne by congruence. rewrite (changes_other T1 s s1 T2); [done|done|by apply locals_next, in_T2|congruence].
    - rewrite E3, mpi_val_pos, V. unfold divisor_top.
      rewrite (divisor_digits (magnitude mY) t Ht (conj Hy0 Hy)). fold y0. ring. }
  unfold y0 in *. clear y0. destruct (t <? 1) eqn:Et; [apply wp_ret, W; done|].
  apply wp_digit; rewrite EY1; [done|lia|]. exact W.
Qed.

(** [T2] gets the three highest digits of the remainder. *)
Lemma load_remainder z I s : digit_state z s ->
  (forall s', digit_state z s' -> bn_obj s' T1 = bn_obj s T1 -> mpi_val (bn_obj s' T2) = remainder_top -> I s') ->
  wp exact (chk! mbedtls_mpi_lset T2 0 in
    do! x0 := (if i <? 2 then ret 0 else limb X (i - 2)) in
    run! set_limb T2 0 x0 in
    do! x1 := (if i <? 1 then ret 0 else limb X (i - 1)) in
    run! set_limb T2 1 x1 in
    do! x2 := limb X i in
    run! set_limb T2 2 x2 in
    ret 0) (ends I) s.
Proof using All.
  intros HS HQ. pose proof HS as (C0 & EX & _ & _ & E1 & E2).
  pose proof (magnitude_nonneg mX HX) as Hx0. pose proof Hlocal as (?&?&?&?&?&?&?&?&?&?).
  apply (clear_step T2 3 _ _ _ in_T2 C0); [lia|done|]. intros s1 n C1 C01 ET2 Hn Hmax.
  assert (EX1 : bn_obj s1 X = mX) by (rewrite <- EX; apply (changes_other T2); [done|by apply locals_next, in_X|congruence]).
  apply wp_bind. set (x0 := if i <? 2 then 0 else magnitude mX / base ^ (i - 2) mod base).
  assert (W : limb_ok x0 -> wp exact (run! set_limb T2 0 x0 in
    do! x1 := (if i <? 1 then ret 0 else limb X (i - 1)) in
    run! set_limb T2 1 x1 in do! x2 := limb X i in run! set_limb T2 2 x2 in ret 0) (ends I) s1).
  { intros Hl. apply wp_bind. eapply wp_set_limb_obj; [exact ET2|cbn [mpi_p]; unfold zlen; rewrite length_replicate; lia|].
    cbn [mpi_s mpi_p]. set (s2 := upd T2 _ s1). assert (EX2 : bn_obj s2 X = mX) by (unfold s2; by rewrite obj_upd_ne).
    destruct (Z.ltb_spec i 1) as [Hi1|_]; [exfalso; clear -Hi Hi1 Ht Hk; lia|]. apply wp_bind, wp_digit; rewrite EX2; [done|clear -Hix Hi Ht Hk; lia|]. intros Hl1.
    apply wp_bind. eapply wp_set_limb_obj; [apply obj_upd|cbn [mpi_p]; unfold zlen; rewrite length_insert, length_replicate; clear -Hn; lia|].
    cbn [mpi_s mpi_p]. set (s3 := upd T2 _ s2). assert (EX3 : bn_obj s3 X = mX) by (unfold s3; by rewrite obj_upd_ne).
    apply wp_bind, wp_digit; rewrite EX3; [done|clear -Hix Hi Ht Hk; lia|]. intros Hl2.
    apply wp_bind. eapply wp_set_limb_obj; [apply obj_upd|cbn [mpi_p]; unfold zlen; rewrite !length_insert, length_replicate; clear -Hn; lia|].
    cbn [mpi_s mpi_p]. set (s4 := upd T2 _ s3). apply wp_ret.
    destruct (three_limbs n x0 (magnitude mX / base ^ (i - 1) mod base) (magnitude mX / base ^ i mod base) ltac:(clear -Hn; lia) Hl Hl1 Hl2) as (V & Hok & Hlen).
    assert (E4 : bn_obj s4 T2 = mkMpi 1 (<[2%nat := magnitude mX / base ^ i mod base]> (<[1%nat := magnitude mX / base ^ (i - 1) mod base]>
      (<[0%nat := x0]> (replicate n 0))))) by apply obj_upd.
    assert (C4 : changes [T2] s s4) by (do 3 (etrans; [|apply changes_upd]); exact C1).
    assert (ET1 : bn_obj s4 T1 = bn_obj s T1) by (apply (changes_other T2); [done|by apply locals_next, in_T1|congruence]).
    assert (HS4 : digit_state z s4).
    { apply (digit_frame T2 z s); [done|done|by right|by rewrite ET1|]. rewrite E4.
      split; [split; [by left|]; split; [exact Hok|]|]; cbn [mpi_p]; unfold zlen; rewrite Hlen; clear -Hn Hmax; lia. }
    split; [apply HS4|]. left. split; [done|]. apply HQ; [done|done|]. rewrite E4, mpi_val_pos, V. unfold remainder_top.
    rewrite (remainder_digits (magnitude mX) i ltac:(clear -Hi Ht Hk; lia) (conj Hx0 Hx)). fold x0. ring. }
  unfold x0 in *. clear x0. destruct (i <? 2) eqn:Et; [apply wp_ret, W; done|].
  apply wp_digit; rewrite EX1; [done|lia|]. exact W.
Qed.

(** One round of the loop that corrects the digit: whether [z] is too large is decided on the top digits. *)
Lemma correct_step z s : digit_state z s -> limb_ok z ->
  wp exact (load_tops X Y Zq T1 T2 i t k)
   (ends (fun s' => digit_state z s' /\ mpi_val (bn_obj s' T1) = divisor_top * z /\ mpi_val (bn_obj s' T2) = remainder_top)) s.
Proof using All.
  intros HS Hz. apply (load_divisor z _ _ s HS). intros s1 HS1 V1. apply wp_bind, (wp_get_digit z _ _ HS1).
  pose proof HS1 as (C1 & _ & _ & _ & [Ok1 L1] & T2ok). pose proof (locals_next _ _ C1 in_T1) as N1.
  assert (Hd : 0 <= divisor_top < base ^ 2).
  { unfold divisor_top. pose proof (base_pow_pos t Ht). pose proof (magnitude_nonneg mY HY).
    split; [apply Z.div_pos; [by apply Z.mul_nonneg_nonneg|done]|]. apply Z.div_lt_upper_bound; [done|].
    rewrite base_pow_succ in Hy by done.
    replace (base ^ t * base ^ 2) with (base * base ^ t * base) by (change (base ^ 2) with (base * base); ring). apply Z.mul_lt_mono_pos_r; [done|exact Hy]. }
  pose proof (nlimbs_le _ 2 ltac:(lia) Hd) as Hn2. pose proof (nlimbs_le z 1 ltac:(lia)) as Hn1.
  specialize (Hn1 ltac:(change (base ^ 1) with base; exact Hz)).
  apply (chk_step T1 (low1 T1 T1 s1) (Z.max (Z.max 1 (zlen (mpi_p (bn_obj s1 T1)))) (nlimbs (magnitude (bn_obj s1 T1)) + nlimbs z))
    (mpi_val (bn_obj s1 T1) * z)); [apply in_T1|done| |by apply mul_int_spec|].
  { rewrite magnitude_val, V1, Z.abs_eq by (done || apply Hd). clear -L1 Hn1 Hn2 Hcap. lia. }
  intros s2 C2 C02 Ok2 L2 V2. pose proof Hlocal as (?&?&?&?&?&?&?&?&?&?).
  assert (HS2 : digit_state z s2).
  { apply (digit_frame T1 z s1); [done|done|by left| |].
    - split; [done|]. rewrite low1_self, magnitude_val, V1, Z.abs_eq in L2 by (done || apply Hd). clear -L1 L2 Hn1 Hn2 Hcap. lia.
    - rewrite (changes_other T1 s1 s2 T2); [done|done|by apply locals_next, in_T2|congruence]. }
  apply (load_remainder z _ s2 HS2). intros s3 HS3 E3 V3. split; [done|]. split; [|done]. rewrite E3, V2, V1. done.
Qed.


(** The first guess is the greatest digit that the two highest digits of the remainder and the highest digit
    of the divisor allow. *)
Lemma first_guess z0 (kk : M bn Z) Q s : digit_state z0 s -> 4611686018427387904 <= magnitude mY / base ^ t ->
  (forall g s', digit_state g s' -> limb_ok g -> g * (magnitude mY / base ^ t) <= magnitude mX / base ^ (i - 1) ->
     (forall q, q < base -> q * (magnitude mY / base ^ t) <= magnitude mX / base ^ (i - 1) -> q <= g) ->
     wp exact kk Q s') ->
  wp exact (do! xi := limb X i in
    do! yt := limb Y t in
    run! (if yt <=? xi then set_limb Zq k (base - 1)
          else do! xi1 := limb X (i - 1) in set_limb Zq k (fst (mbedtls_int_div_int xi xi1 yt))) in
    kk) Q s.
Proof using All.
  intros HS Hnorm HQ. pose proof HS as (C0 & EX & EY & _).
  pose proof (magnitude_nonneg mX HX) as Hx0. pose proof (magnitude_nonneg mY HY) as Hy0.
  assert (Hi1 : 1 <= i) by (clear -Hi Ht Hk; lia).
  destruct (top_digit_value (magnitude mX) i (conj Hx0 Hx) ltac:(clear -Hi1; lia)) as [Exi Hxi].
  destruct (top_digit_value (magnitude mY) t (conj Hy0 Hy) Ht) as [Eyt Hyt].
  pose proof (two_digits (magnitude mX) (i - 1) ltac:(clear -Hi1; lia)) as E2. replace (i - 1 + 1) with i in E2 by (clear; lia).
  apply wp_bind, wp_digit; rewrite EX; [done|clear -Hix Hi1; lia|]. rewrite Exi. intros _.
  apply wp_bind, wp_digit; rewrite EY; [done|clear -Hty Ht; lia|]. rewrite Eyt. intros _.
  pose proof (Z.mod_pos_bound (magnitude mX / base ^ (i - 1)) base ltac:(done)) as Hx1.
  set (xi := magnitude mX / base ^ i) in *. set (yt := magnitude mY / base ^ t) in *.
  set (n2 := magnitude mX / base ^ (i - 1)) in *. apply wp_bind. clear Exi Eyt Hx Hy.
  destruct (Z.leb_spec yt xi) as [Hle|Hlt].
  - apply (wp_set_digit z0 _ _ _ HS). intros s' HS'. apply (HQ _ _ HS'); [done| |].
    + rewrite E2. clear -Hle Hx1 Hyt. clearbody xi yt. unfold base in *. nia.
    + clear. intros q Hq _. lia.
  - apply wp_bind, wp_digit; rewrite EX; [done|clear -Hix Hi1; lia|]. fold n2. intros _.
    assert (Eq : fst (mbedtls_int_div_int xi (n2 mod base) yt) = n2 / yt /\ 0 <= n2 / yt < base).
    { unfold mbedtls_int_div_int. destruct (Z.eqb_spec yt 0) as [Hz|_]; [rewrite Hz in Hnorm; clear -Hnorm; lia|].
      destruct (Z.leb_spec yt xi); [clear -Hlt H; lia|]. cbn [orb]. cbv zeta.
      rewrite Z.shiftl_mul_pow2 by done. change (2 ^ biL) with base.
      rewrite lor_high, <- E2 by done.
      assert (Hb : 0 <= n2 / yt < base).
      { split; [apply Z.div_pos; [unfold n2; apply Z.div_pos; [done|apply base_pow_pos; clear -Hi1; lia]|clear -Hnorm; lia]|].
        apply Z.div_lt_upper_bound; [clear -Hnorm; lia|]. rewrite E2. clear -Hlt Hx1. clearbody xi yt n2. unfold base in *. nia. }
      destruct (Z.ltb_spec (base - 1) (n2 / yt)) as [Hbig|]; [clear -Hb Hbig; lia|]. done. }
    destruct Eq as [-> Hb]. apply (wp_set_digit z0 _ _ _ HS). intros s' HS'. apply (HQ _ _ HS'); [exact Hb| |].
    + rewrite Z.mul_comm. apply Z.mul_div_le. clear -Hnorm. lia.
    + intros q _ Hq. apply Z.div_le_lower_bound; [clear -Hnorm; lia|]. by rewrite Z.mul_comm.
Qed.

Lemma tops_near : magnitude mY / base ^ t * base <= divisor_top <= magnitude mY / base ^ t * base + (base - 1) /\
  magnitude mX / base ^ (i - 1) * base <= remainder_top <= magnitude mX / base ^ (i - 1) * base + (base - 1).
Proof using All.
  pose proof (magnitude_nonneg mX HX) as Hx0. pose proof (magnitude_nonneg mY HY) as Hy0.
  assert (Hi1 : 1 <= i) by (clear -Hi Ht Hk; lia). split.
  - unfold divisor_top. rewrite (divisor_digits _ t Ht (conj Hy0 Hy)).
    destruct (top_digit_value (magnitude mY) t (conj Hy0 Hy) Ht) as [-> _].
    set (d := if t <? 1 then 0 else _). assert (Hd : 0 <= d < base).
    { unfold d. destruct (t <? 1); [done|]. by apply Z.mod_pos_bound. }
    clear -Hd. clearbody d. generalize (magnitude mY / base ^ t). intros a. rewrite (Z.mul_comm base a). lia.
  - unfold remainder_top. rewrite (remainder_digits _ i Hi1 (conj Hx0 Hx)).
    destruct (top_digit_value (magnitude mX) i (conj Hx0 Hx) ltac:(clear -Hi1; lia)) as [-> _].
    pose proof (two_digits (magnitude mX) (i - 1) ltac:(clear -Hi1; lia)) as E2. replace (i - 1 + 1) with i in E2 by (clear; lia).
    set (d := if i <? 2 then 0 else _). assert (Hd : 0 <= d < base).
    { unfold d. destruct (i <? 2); [done|]. by apply Z.mod_pos_bound. }
    set (a := magnitude mX / base ^ i) in *. set (c := magnitude mX / base ^ (i - 1)) in *. set (b := c mod base) in *.
    clear -Hd E2. clearbody a b d. rewrite E2. lia.
Qed.

(** The digit that is found is the right one or one too large. *)
Lemma digit_found z0 (kk : M bn Z) I s : digit_state z0 s -> 4611686018427387904 <= magnitude mY / base ^ t ->
  magnitude mX < magnitude mY * base ^ (k + 1) ->
  (forall q s', digit_state q s' -> limb_ok q -> (q - 1) * (magnitude mY * base ^ k) <= magnitude mX ->
     magnitude mX < (q + 1) * (magnitude mY * base ^ k) -> wp exact kk (ends I) s') ->
  wp exact (do! xi := limb X i in
    do! yt := limb Y t in
    run! (if yt <=? xi then set_limb Zq k (base - 1)
          else do! xi1 := limb X (i - 1) in set_limb Zq k (fst (mbedtls_int_div_int xi xi1 yt))) in
    do! z := limb Zq k in
    run! set_limb Zq k (u64 (z + 1)) in
    chk! correct_digit 9 X Y Zq T1 T2 i t k in
    kk) (ends I) s.
Proof using All.
  intros HS Hnorm Hlt HQ. pose proof (magnitude_nonneg mX HX) as Hx0. pose proof (magnitude_nonneg mY HY) as Hy0.
  destruct tops_near as [HD HN]. pose proof correct_step as Hstep.
  pose proof (digit_le_test (magnitude mX) (magnitude mY) t k) as Hle.
  pose proof (digit_test_le (magnitude mX) (magnitude mY) t k) as Htest. rewrite <- Hi in Hle, Htest.
  fold divisor_top remainder_top in Hle, Htest. apply (first_guess z0 _ _ _ HS Hnorm). intros g s1 HS1 Hg Hgle Hgmax.
  assert (HyB : 0 < magnitude mY * base ^ k).
  { apply Z.mul_pos_pos; [|apply base_pow_pos; apply Hk]. destruct (decide (magnitude mY = 0)) as [E|]; [|clear -Hy0 n; lia].
    rewrite E, Z.div_0_l in Hnorm by (pose proof (base_pow_pos t Ht) as Hp; clear -Hp; lia). done. }
  assert (Hq1 : magnitude mX / (magnitude mY * base ^ k) < base).
  { apply Z.div_lt_upper_bound; [done|]. replace (magnitude mY * base ^ k * base) with (magnitude mY * base ^ (k + 1)); [done|].
    rewrite base_pow_succ by apply Hk. ring. }
  clear Hx Hy. pose proof (Z.div_pos _ _ Hx0 HyB) as Hq0. pose proof (Z.mul_div_le (magnitude mX) _ HyB) as Hq2.
  pose proof (Z.mul_succ_div_gt (magnitude mX) _ HyB) as Hq3. set (W := magnitude mY * base ^ k) in *.
  set (qs := magnitude mX / W) in *. rewrite (Z.mul_comm W qs) in Hq2. specialize (Hle qs Ht (proj1 Hk) Hx0 Hq0 Hq2).
  generalize dependent divisor_top. generalize dependent remainder_top. intros n3 HN d HD Hstep Hle Htest.
  set (yt := magnitude mY / base ^ t) in *. set (n2 := magnitude mX / base ^ (i - 1)) in *.
  assert (Hd : 0 < d) by (clear -HD Hnorm; unfold base in *; lia). assert (Hn3 : 0 <= n3) by (clear -Hle Hd Hq0; nia).
  assert (Hqs : qs <= g).
  { apply Hgmax; [exact Hq1|]. apply (guess_low qs yt d n2 n3); [done|apply HD|apply HN|exact Hle]. }
  apply wp_bind, (wp_get_digit _ _ _ HS1), wp_bind, (wp_set_digit _ _ _ _ HS1). intros s2 HS2. apply wp_chk.
  eapply wp_mono; [apply (correct_loop d n3 Hd Hn3 Hstep 9 g s2 HS2 Hg)|].
  { assert (g - 4 <= n3 / d); [|clear -H; lia]. apply le_div_iff; [done|]. rewrite Z.mul_comm.
    apply (guess_high g yt d n2 n3); [done|done|apply HD|apply HN|exact Hgle]. }
  cbn beta. intros r s3 (C3 & [(-> & HS3)|(-> & R)]).
  2: { change (MBEDTLS_ERR_MPI_ALLOC_FAILED =? 0) with false. cbv iota. split; [done|]. by right. }
  change (0 =? 0) with true. cbv iota. set (q := Z.min g (n3 / d)) in *.
  assert (Hqsq : qs <= n3 / d) by (apply le_div_iff; [done|]; rewrite Z.mul_comm; exact Hle).
  assert (Hqd : d * q <= n3) by (apply le_div_iff; [done|]; unfold q; clear; lia).
  assert (Hqr : qs <= q <= g) by (unfold q; clear -Hqs Hqsq; lia).
  assert (Hqok : limb_ok q) by (clear -Hg Hqr Hq0; unfold limb_ok in *; lia). apply (HQ _ _ HS3 Hqok).
  - apply Htest; [done|apply Hk|done|clear -Hqok; unfold limb_ok in *; lia|clear -HD Hnorm; unfold base in *; lia|by rewrite Z.mul_comm].
  - eapply Z.lt_le_trans; [exact Hq3|]. rewrite (Z.mul_comm W). apply Z.mul_le_mono_pos_r; [done|]. clear -Hqr. lia.
Qed.
End digit.

Lemma keep V W s s' : changes locals s0 s -> changes [V] s s' -> W ∈ locals -> W <> V -> bn_obj s' W = bn_obj s W.
Proof using Hexist. intros C0 C HW Hne. apply (changes_other V); [done|by apply locals_next|done]. Qed.

Lemma wp_cmp_int V z (Q : Z -> bn -> Prop) s : (V < bn_next s)%nat -> mpi_ok (bn_obj s V) -> sint z ->
  (forall s', changes [] s s' -> Q (Z.sgn (mpi_val (bn_obj s V) - z)) s') -> wp exact (mbedtls_mpi_cmp_int V z) Q s.
Proof.
  intros HV Hok Hz HQ. eapply wp_mono; [by apply cmp_int_spec|]. cbn beta. intros r s' [-> C]. by apply HQ.
Qed.

Section rounds.
Context (mY : mbedtls_mpi) (n t nz N : Z).
Context (HY : mpi_ok mY) (HsY : mpi_s mY = 1) (Ht : 0 <= t) (Hty : t < zlen (mpi_p mY)).
Context (Hlow : 4611686018427387904 * base ^ t <= magnitude mY) (Hhigh : 2 * magnitude mY < base ^ (t + 1)).
Context (Hn : n < cap) (Hcap : 3 <= cap) (Hnz : n - t <= nz).

(** After the rounds for the limbs above [i]: what is left of the dividend is below the divisor shifted by
    [i - t] limbs, and the digits of the quotient from [i - t] on are there. *)
Definition divided (i : Z) (s : bn) : Prop :=
  changes locals s0 s /\ bn_obj s Y = mY /\ temp (n + 1) (bn_obj s X) /\ temp 2 (bn_obj s T1) /\ temp 3 (bn_obj s T2) /\
  0 <= mpi_val (bn_obj s X) < magnitude mY * base ^ (i - t) /\
  exists pz h, bn_obj s Zq = mkMpi 1 pz /\ Forall limb_ok pz /\ zlen pz = nz /\ nz <= MBEDTLS_MPI_MAX_LIMBS /\
    limbs pz = h * base ^ (i - t) /\ limbs pz * magnitude mY + mpi_val (bn_obj s X) = N.

(** [T1] holds a number below [base ^ (t + 2)] and is shifted to the position of the digit. *)
Lemma shift_step v k (kk : M bn Z) I s : changes locals s0 s -> temp 2 (bn_obj s T1) -> mpi_val (bn_obj s T1) = v ->
  0 <= v < base ^ (t + 2) -> 0 <= k -> t + 2 + k <= cap -> k <= MBEDTLS_MPI_MAX_LIMBS ->
  (forall s', changes [T1] s s' -> changes locals s0 s' -> temp 2 (bn_obj s' T1) -> mpi_val (bn_obj s' T1) = v * base ^ k ->
     wp exact kk (ends I) s') ->
  wp exact (chk! mbedtls_mpi_shift_l T1 (biL * k) in kk) (ends I) s.
Proof using All.
  intros C0 [Hok Hz] Hv Hvb Hk Hkcap Hkm HQ.
  pose proof (shift_room v (t + 2) k Hvb ltac:(clear -Ht; lia) Hk) as Hroom.
  assert (Hc : 0 <= biL * k < 4611686018427387904) by (clear -Hk Hkm; unfold biL, MBEDTLS_MPI_MAX_LIMBS in *; lia).
  pose proof (shift_l_spec T1 (biL * k) s Hok Hc) as Hs. rewrite magnitude_val, Hv, Z.abs_eq in Hs by (done || apply Hvb).
  eapply (chk_step T1 _ _ _ _ _ _ _ in_T1 C0); [|exact Hs|]; [clear -Hroom Hz Hkcap; lia|].
  intros s' C C1 Hok' L' V'. apply HQ; [done|done| |].
  - split; [done|]. clear -L' Hroom Hz Hkcap. lia.
  - rewrite V'. f_equal. unfold biL. change base with (2 ^ 64). by rewrite <- Z.pow_mul_r by done.
Qed.

(** Sums and differences in a round fit into [n + 1] limbs. *)
Lemma round_room a b k : 0 <= k -> t + 1 + k <= n -> 0 <= a <= magnitude mY * base ^ (k + 1) -> 0 <= b <= magnitude mY * base ^ (k + 1) ->
  nlimbs (a + b) <= n + 1.
Proof using Ht Hhigh.
  intros Hk Hkn Ha Hb. etrans; [apply (nlimbs_le _ (t + 1 + (k + 1)))|]; [clear -Ht Hk; lia| |clear -Hkn; lia].
  pose proof (base_pow_pos (k + 1) ltac:(clear -Hk; lia)) as Hp. rewrite Z.pow_add_r by (clear -Ht Hk; lia).
  split; [clear -Ha Hb; lia|]. apply Z.le_lt_trans with (2 * magnitude mY * base ^ (k + 1)); [clear -Ha Hb; lia|].
  apply Z.mul_lt_mono_pos_r; [exact Hp|exact Hhigh].
Qed.

(** [X] plus or minus [T1] or [Y]. *)
Lemma combine_step (op : nat -> nat -> nat -> M bn Z) sg W v (kk : M bn Z) I s :
  (op = mbedtls_mpi_sub_mpi /\ sg = -1) \/ (op = mbedtls_mpi_add_mpi /\ sg = 1) -> W ∈ locals ->
  changes locals s0 s -> temp (n + 1) (bn_obj s X) -> temp 1 (bn_obj s W) -> mpi_val (bn_obj s W) = v ->
  nlimbs (Z.abs (mpi_val (bn_obj s X)) + Z.abs v) <= cap ->
  (forall s', changes [X] s s' -> changes locals s0 s' -> temp (n + 1) (bn_obj s' X) ->
     mpi_val (bn_obj s' X) = mpi_val (bn_obj s X) + sg * v -> wp exact kk (ends I) s') ->
  wp exact (chk! op X X W in kk) (ends I) s.
Proof using Hn Hcap Hexist Hlocal.
  intros Hop HW C0 [HoX HzX] [Ho1 Hz1] Hv Hroom HQ.
  pose proof (locals_next _ _ C0 in_X) as HXn. pose proof (locals_next _ _ C0 HW) as HTn.
  assert (Hs : wp exact (op X X W) (computes X (low2 X X W s) (add_need X X W s) (mpi_val (bn_obj s X) + sg * v) s) s).
  { rewrite <- Hv. destruct Hop as [[-> ->]|[-> ->]].
    - replace (_ + -1 * _) with (mpi_val (bn_obj s X) - mpi_val (bn_obj s W)) by ring. by apply sub_mpi_spec.
    - rewrite Z.mul_1_l. by apply add_mpi_spec. }
  unfold add_need in Hs. rewrite !magnitude_val, Hv in Hs by done.
  assert (Hlow2 : low2 X X W s = zlen (mpi_p (bn_obj s X))).
  { unfold low2. rewrite low1_self. unfold low1. destruct (mpi_p (bn_obj s W)) eqn:E; [exfalso; change (1 <= 0 <= cap) in Hz1; clear -Hz1; lia|].
    apply Z.min_id. }
  rewrite Hlow2 in Hs. eapply (chk_step X _ _ _ _ _ _ _ in_X C0); [|exact Hs|].
  - clear -Hroom HzX Hn Hcap. lia.
  - intros s' C C1 Hok' L' V'. apply HQ; [done|done| |done]. split; [done|]. clear -L' HzX Hroom Hn Hcap. lia.
Qed.

Lemma temp_mono a b m : a <= b -> temp b m -> temp a m.
Proof. intros Hab [Hok Hz]. split; [done|]. lia. Qed.

Lemma low1_divisor V s : bn_obj s Y = mY -> low1 V Y s = zlen (mpi_p (bn_obj s V)).
Proof using Ht Hty.
  intros EY. unfold low1. rewrite EY. destruct (mpi_p mY); [exfalso; change (t < 0) in Hty; clear -Hty Ht; lia|done].
Qed.

(** The round is complete once the digit [q] is right. *)
Lemma digit_done i k pz h x q s : i = t + 1 + k -> 0 <= k < zlen pz -> Forall limb_ok pz -> zlen pz = nz -> nz <= MBEDTLS_MPI_MAX_LIMBS ->
  limbs pz = h * base ^ (k + 1) -> limbs pz * magnitude mY + x = N -> limb_ok q ->
  changes locals s0 s -> bn_obj s Y = mY -> temp (n + 1) (bn_obj s X) -> temp 2 (bn_obj s T1) -> temp 3 (bn_obj s T2) ->
  bn_obj s Zq = mkMpi 1 (<[Z.to_nat k := q]> pz) ->
  mpi_val (bn_obj s X) = x - q * (magnitude mY * base ^ k) ->
  0 <= x - q * (magnitude mY * base ^ k) < magnitude mY * base ^ k ->
  ends (divided (i - 1)) 0 s.
Proof using All.
  intros Hi Hk Hpz Lz Mz Vz Vn Hq C EY HX H1 H2 EZ V Hr. split; [done|]. left. split; [done|]. do 5 (split; [done|]).
  replace (i - 1 - t) with k by (clear -Hi; lia). rewrite V. split; [exact Hr|].
  pose proof (base_pow_pos k (proj1 Hk)) as HBk. destruct (lookup_in pz k Hk) as [z0 Hz0].
  assert (Hz00 : z0 = 0).
  { rewrite (limb_digit pz k z0 Hpz (proj1 Hk) Hz0), Vz, base_pow_succ by apply Hk.
    replace (h * (base * base ^ k)) with (h * base * base ^ k) by ring. rewrite Z.div_mul by (clear -HBk; lia). by apply Z.mod_mul. }
  exists (<[Z.to_nat k := q]> pz), (h * base + q). split; [done|]. split; [by apply Forall_insert|].
  split; [unfold zlen; rewrite length_insert; exact Lz|]. split; [done|].
  rewrite (limbs_insert pz _ z0) by done. rewrite Z2Nat.id by apply Hk. rewrite Hz00, Vz, base_pow_succ in * by apply Hk.
  split; [ring|]. rewrite <- Vn. ring.
Qed.

(** [T1] gets the product of the divisor and [q], at the position of the digit. *)
Lemma product_step q k (kk : M bn Z) I s : limb_ok q -> changes locals s0 s -> bn_obj s Y = mY -> temp 2 (bn_obj s T1) ->
  0 <= k -> t + 2 + k <= cap -> k <= MBEDTLS_MPI_MAX_LIMBS ->
  (forall s', changes locals s0 s' -> (forall W, W ∈ locals -> W <> T1 -> bn_obj s' W = bn_obj s W) ->
     temp 2 (bn_obj s' T1) -> mpi_val (bn_obj s' T1) = magnitude mY * q * base ^ k -> wp exact kk (ends I) s') ->
  wp exact (chk! mbedtls_mpi_mul_int T1 Y q in chk! mbedtls_mpi_shift_l T1 (biL * k) in kk) (ends I) s.
Proof using All.
  intros Hq C1 EY [Ho1 Hz1] Hk Hkc Hkm HQ. pose proof (magnitude_nonneg mY HY) as Hy0.
  assert (Hyb : magnitude mY < base ^ (t + 1)) by (clear -Hhigh Hy0; lia).
  assert (Eym : mpi_val mY = magnitude mY) by (unfold mpi_val; rewrite HsY; apply Z.mul_1_l).
  pose proof (nlimbs_le _ (t + 1) ltac:(clear -Ht; lia) (conj Hy0 Hyb)) as Hny.
  pose proof (nlimbs_le q 1 ltac:(done) ltac:(change (base ^ 1) with base; exact Hq)) as Hnq.
  pose proof (mul_int_spec T1 Y q s (locals_next _ _ C1 in_T1) (locals_next _ _ C1 in_Y) Ho1 ltac:(by rewrite EY) Hq) as Hs.
  rewrite EY, Eym, (low1_divisor T1 s EY) in Hs.
  eapply (chk_step T1 _ _ _ _ _ _ _ in_T1 C1); [|exact Hs|]; [clear -Hz1 Hny Hnq Hk Hkc; lia|].
  intros s2 C12 C2 Ho2 L2 V2. clear Hs.
  assert (H2 : temp 2 (bn_obj s2 T1)) by (split; [done|]; clear -L2 Hz1 Hny Hnq Hk Hkc; lia).
  assert (Hyq : 0 <= magnitude mY * q < base ^ (t + 2)).
  { replace (t + 2) with (t + 1 + 1) by (clear; lia). rewrite base_pow_succ by (clear -Ht; lia). rewrite (Z.mul_comm base).
    clear -Hq Hy0 Hyb. unfold limb_ok in Hq. split; [nia|]. apply Z.mul_lt_mono_nonneg; lia. }
  apply (shift_step (magnitude mY * q) k _ _ _ C2 H2 V2 Hyq Hk Hkc Hkm). intros s3 C23 C3 H3 V3.
  apply HQ; [done| |done|done]. intros W HW Hne. rewrite (keep T1 W s2 s3), (keep T1 W s s2) by done. done.
Qed.

(** The divisor is added back when the digit was too large by one. *)
Lemma add_back x q k pz1 (kk : M bn Z) I s : changes locals s0 s -> bn_obj s Y = mY -> temp (n + 1) (bn_obj s X) -> temp 2 (bn_obj s T1) ->
  0 <= k -> t + 1 + k <= n -> k <= MBEDTLS_MPI_MAX_LIMBS -> k < zlen pz1 -> pz1 !! Z.to_nat k = Some q -> bn_obj s Zq = mkMpi 1 pz1 ->
  mpi_val (bn_obj s X) = x - q * (magnitude mY * base ^ k) ->
  - (magnitude mY * base ^ k) <= x - q * (magnitude mY * base ^ k) <= 0 -> limb_ok (q - 1) ->
  (forall s', changes locals s0 s' -> bn_obj s' Y = mY -> temp (n + 1) (bn_obj s' X) -> temp 2 (bn_obj s' T1) ->
     bn_obj s' T2 = bn_obj s T2 -> bn_obj s' Zq = mkMpi 1 (<[Z.to_nat k := q - 1]> pz1) ->
     mpi_val (bn_obj s' X) = x - (q - 1) * (magnitude mY * base ^ k) -> wp exact kk (ends I) s') ->
  wp exact (chk! mbedtls_mpi_copy T1 Y in
    chk! mbedtls_mpi_shift_l T1 (biL * k) in
    chk! mbedtls_mpi_add_mpi X X T1 in
    do! z := limb Zq k in
    run! set_limb Zq k (u64 (z - 1)) in
    kk) (ends I) s.
Proof using All.
  intros C5 EY5 H5X H15 Hk Hkn Hkm Hkz Hqz EZ5 V5 Hneg Hq0 HQ. pose proof (magnitude_nonneg mY HY) as Hy0.
  pose proof Hlocal as (?&?&?&?&?&?&?&?&?&?). set (y := magnitude mY) in *.
  assert (Hyb : y < base ^ (t + 1)) by (clear -Hhigh Hy0; lia). pose proof (base_pow_pos k Hk) as HBk.
  assert (Eym : mpi_val mY = y) by (unfold mpi_val; rewrite HsY; apply Z.mul_1_l).
  pose proof (nlimbs_le y (t + 1) ltac:(clear -Ht; lia) (conj Hy0 Hyb)) as Hny.
  pose proof (copy_computes T1 Y s (locals_next _ _ C5 in_T1) ltac:(congruence) (proj1 H15) ltac:(by rewrite EY5)) as Hs.
  rewrite EY5, Eym, (low1_divisor T1 s EY5) in Hs. fold y in Hs. pose proof (proj2 H15) as Hz15.
  eapply (chk_step T1 _ _ _ _ _ _ _ in_T1 C5); [|exact Hs|]; [clear -Hz15 Hny Hk Hkn Hn Hcap; lia|].
  intros s6 C56 C6 Ho16 L6 V6. clear Hs.
  assert (H16 : temp 2 (bn_obj s6 T1)) by (split; [done|]; clear -L6 Hz15 Hny Hk Hkn Hn Hcap; lia).
  assert (Hyb2 : 0 <= y < base ^ (t + 2)).
  { split; [done|]. eapply Z.lt_le_trans; [exact Hyb|]. apply Z.pow_le_mono_r; [done|clear; lia]. }
  apply (shift_step y k _ _ _ C6 H16 V6 Hyb2 Hk ltac:(clear -Hkn Hn; lia) Hkm). intros s7 C67 C7 H17 V7.
  assert (K7 : forall W, W ∈ locals -> W <> T1 -> bn_obj s7 W = bn_obj s W).
  { intros W HW Hne. rewrite (keep T1 W s6 s7), (keep T1 W s s6) by done. done. }
  assert (EX7 : bn_obj s7 X = bn_obj s X) by (apply K7; [apply in_X|done]).
  assert (HyB : 0 <= y * base ^ k) by (apply Z.mul_nonneg_nonneg; [done|clear -HBk; lia]).
  apply (combine_step mbedtls_mpi_add_mpi 1 T1 (y * base ^ k) _ _ _ ltac:(by right) in_T1 C7);
    [by rewrite EX7|by apply (temp_mono 1 2)|done| |].
  { rewrite EX7, V5. assert (Hb1 : Z.abs (x - q * (y * base ^ k)) <= y * base ^ k) by (clear -Hneg; lia).
    assert (Hb2 : y * base ^ k <= y * base ^ (k + 1)).
    { apply Z.mul_le_mono_nonneg_l; [done|]. apply Z.pow_le_mono_r; [done|clear; lia]. }
    apply Z.le_trans with (n + 1); [|clear -Hn; lia].
    apply (round_room _ _ k); [done|done|clear -Hb1 Hb2; lia|]. rewrite (Z.abs_eq (y * base ^ k)) by done. by split. }
  rewrite EX7, V5. intros s8 C78 C8 H8X V8.
  assert (K8 : forall W, W ∈ locals -> W <> X -> bn_obj s8 W = bn_obj s7 W) by (intros W HW Hne; by apply (keep X W s7 s8)).
  assert (EZ8 : bn_obj s8 Zq = mkMpi 1 pz1) by (rewrite K8, K7 by (apply in_Z || done); done).
  apply wp_bind. eapply wp_limb_Z; [exact EZ8|done|exact Hqz|].
  rewrite u64_id by exact Hq0. apply wp_bind. eapply wp_set_limb_Z; [exact EZ8|by split|].
  set (s9 := upd Zq _ s8). assert (C89 : changes [Zq] s8 s9) by apply changes_upd.
  assert (K9 : forall W, W ∈ locals -> W <> Zq -> bn_obj s9 W = bn_obj s8 W) by (intros W HW Hne; by apply obj_upd_ne).
  apply HQ; [by apply (changes_local Zq s8); [| |apply in_Z]| | | | | |].
  - rewrite K9, K8, K7 by (apply in_Y || congruence). done.
  - rewrite K9 by (apply in_X || done). done.
  - rewrite K9, K8 by (apply in_T1 || congruence). done.
  - rewrite K9, K8, K7 by (apply in_T2 || congruence). done.
  - apply obj_upd.
  - rewrite K9 by (apply in_X || done). rewrite V8. ring.
Qed.

(** One round brings down one digit. *)
Lemma div_round_spec i s : t < i <= n -> divided i s -> wp exact (div_round X Y Zq T1 T2 t i) (ends (divided (i - 1))) s.
Proof using All.
  intros Hi (C0 & EY & HX & H1 & H2 & Hx & pz & h & EZ & Hpz & Lz & Mz & Vz & Vn).
  pose proof HX as [HoX HzX]. pose proof (magnitude_nonneg mY HY) as Hy0. pose proof Hlocal as (?&?&?&?&?&?&?&?&?&?).
  set (mX := bn_obj s X) in *. set (k := i - t - 1) in *. assert (Hk : 0 <= k < zlen pz) by (clear -Hi Hnz Lz; lia).
  replace (i - t) with (k + 1) in * by (unfold k; clear; lia).
  assert (Exm : magnitude mX = mpi_val mX) by (rewrite magnitude_val, Z.abs_eq by (done || apply Hx); done).
  pose proof (base_pow_pos (k + 1) ltac:(clear -Hk; lia)) as HBk1. pose proof (base_pow_pos k ltac:(clear -Hk; lia)) as HBk.
  assert (Hi' : i = t + 1 + k) by (unfold k; clear; lia).
  assert (Hxb : magnitude mX < base ^ (i + 1)).
  { rewrite Exm. eapply Z.lt_trans; [apply Hx|]. replace (i + 1) with (t + 1 + (k + 1)) by (clear -Hi'; lia).
    rewrite (Z.pow_add_r base (t + 1) (k + 1)) by (clear -Ht Hk; lia). apply Z.mul_lt_mono_pos_r; [done|]. clear -Hhigh Hy0. lia. }
  assert (Hyb : magnitude mY < base ^ (t + 1)) by (clear -Hhigh Hy0; lia).
  assert (Hnorm : 4611686018427387904 <= magnitude mY / base ^ t).
  { apply Z.div_le_lower_bound; [by apply base_pow_pos|]. rewrite Z.mul_comm. exact Hlow. }
  destruct (lookup_in pz k Hk) as [z0 Hz0].
  assert (HS : digit_state mX mY pz k z0 s).
  { split; [done|]. split; [done|]. split; [done|]. split; [|done]. rewrite list_insert_id by done. done. }
  unfold div_round. fold k. change (i - t - 1) with k. cbv zeta.
  apply (digit_found mX mY pz t i k HoX HY Hpz ltac:(by rewrite Lz) Ht Hk Hi' ltac:(clear -HzX Hi; lia) Hty HsY Hcap Hxb Hyb z0 _ _ s HS Hnorm);
    [rewrite Exm; apply Hx|].
  intros q s1 (C1 & EX1 & EY1 & EZ1 & H11 & H21) Hq Hq1 Hq2. clear HS C0. rewrite Exm in Hq1, Hq2.
  set (y := magnitude mY) in *. set (x := mpi_val mX) in *. set (pz1 := <[Z.to_nat k := q]> pz) in *.
  assert (Hpz1 : pz1 !! Z.to_nat k = Some q) by (apply list_lookup_insert_eq; clear -Hk; unfold zlen in Hk; lia).
  apply wp_bind. eapply wp_limb_Z; [exact EZ1|apply Hk|exact Hpz1|].
  assert (Hkn : t + 2 + k <= cap /\ k <= MBEDTLS_MPI_MAX_LIMBS) by (clear -Hi Hn Hk Hi' Lz Mz; lia). destruct Hkn as [Hkc Hkm].
  apply (product_step q k _ _ _ Hq C1 EY1 H11 (proj1 Hk) Hkc Hkm). fold y. intros s3 C3 K3 H13 V3.
  assert (EX3 : bn_obj s3 X = mX) by (rewrite K3 by (apply in_X || done); done).
  assert (HyB : 0 <= y * base ^ k) by (apply Z.mul_nonneg_nonneg; [done|clear -HBk; lia]).
  assert (Hprod : 0 <= y * q * base ^ k <= y * base ^ (k + 1)).
  { rewrite base_pow_succ by apply Hk. clear -Hq Hy0 HBk. unfold limb_ok in Hq.
    replace (y * (base * base ^ k)) with (y * base * base ^ k) by ring. split; [apply Z.mul_nonneg_nonneg; nia|].
    apply Z.mul_le_mono_nonneg_r; [lia|]. apply Z.mul_le_mono_nonneg_l; lia. }
  apply (combine_step mbedtls_mpi_sub_mpi (-1) T1 (y * q * base ^ k) _ _ _ ltac:(by left) in_T1 C3);
    [by rewrite EX3|by apply (temp_mono 1 2)|done| |].
  { rewrite EX3. fold x. rewrite !Z.abs_eq by (apply Hx || apply Hprod). apply Z.le_trans with (n + 1); [|clear -Hn; lia].
    apply (round_room x _ k); [apply Hk|clear -Hi' Hi; lia|clear -Hx; lia|exact Hprod]. }
  rewrite EX3. fold x. intros s4 C34 C4 H4X V4.
  apply wp_bind, wp_cmp_int; [by apply locals_next, in_X|apply H4X|done|]. rewrite Z.sub_0_r. intros s5 C45.
  assert (K5 : forall W, W ∈ locals -> bn_obj s5 W = bn_obj s4 W).
  { intros W HW. apply (ch_obj _ _ _ C45); [by apply locals_next|apply not_elem_of_nil]. }
  assert (K51 : forall W, W ∈ locals -> W <> X -> W <> T1 -> bn_obj s5 W = bn_obj s1 W).
  { intros W HW Hne Hne1. rewrite K5, (keep X W s3 s4), K3 by done. done. }
  assert (C5 : changes locals s0 s5) by (etrans; [exact C4|by apply changes_nil]).
  assert (EY5 : bn_obj s5 Y = mY) by (rewrite K51 by (apply in_Y || done); done).
  assert (EZ5 : bn_obj s5 Zq = mkMpi 1 pz1) by (rewrite K51 by (apply in_Z || done); done).
  assert (H25 : temp 3 (bn_obj s5 T2)) by (rewrite K51 by (apply in_T2 || done); done).
  assert (H15 : temp 2 (bn_obj s5 T1)) by (rewrite K5, (keep X T1 s3 s4) by (apply in_T1 || done); done).
  assert (H5X : temp (n + 1) (bn_obj s5 X)) by (rewrite K5 by apply in_X; done).
  rewrite <- (K5 X in_X) in V4. rewrite <- (K5 X in_X). rewrite V4.
  replace (x + -1 * (y * q * base ^ k)) with (x - q * (y * base ^ k)) in * by ring.
  destruct (Z.ltb_spec (Z.sgn (x - q * (y * base ^ k))) 0) as [Hneg|Hpos].
  - assert (Hq0 : limb_ok (q - 1)).
    { clear -Hq Hneg Hx HyB. unfold limb_ok in *. assert (q <> 0); [|lia]. intros ->. lia. }
    apply (add_back x q k pz1 _ _ _ C5 EY5 H5X H15 (proj1 Hk) ltac:(clear -Hi' Hi; lia) Hkm ltac:(unfold pz1, zlen; rewrite length_insert; apply Hk)
      Hpz1 EZ5 V4); fold y; [clear -Hneg Hq1; lia|exact Hq0|]. intros s6 C6 EY6 HX6 H16 E26 EZ6 V6. apply wp_ret.
    apply (digit_done i k pz h x (q - 1) s6); try done; [by rewrite E26| |fold y; clear -Hneg Hq1; lia].
    rewrite EZ6. unfold pz1. by rewrite list_insert_insert_eq.
  - apply wp_ret, (digit_done i k pz h x q s5); try done. fold y. clear -Hpos Hq2. lia.
Qed.

Lemma div_rounds_spec m : forall s, t + Z.of_nat m <= n -> divided (t + Z.of_nat m) s ->
  wp exact (div_rounds m X Y Zq T1 T2 t (t + Z.of_nat m)) (ends (divided t)) s.
Proof using All.
  induction m as [|m IH]; intros s Hm HS; cbn [div_rounds].
  { apply wp_ret. rewrite Z.add_0_r in HS. split; [apply HS|]. by left. }
  apply wp_chk. eapply wp_mono; [apply div_round_spec; [clear -Hm; lia|done]|]. cbn beta.
  replace (t + Z.of_nat (S m) - 1) with (t + Z.of_nat m) by (clear; lia). intros r s' (C & [(-> & HS')|(-> & R)]).
  - change (0 =? 0) with true. cbv iota. apply IH; [clear -Hm; lia|done].
  - change (MBEDTLS_ERR_MPI_ALLOC_FAILED =? 0) with false. cbv iota. split; [done|]. by right.
Qed.

(** The digit above: the divisor, shifted to the top, is subtracted while it can be. *)
Lemma top_digit_spec fuel k x mY' (zs : nat) : forall j s, 0 <= k < Z.of_nat zs -> 0 <= j ->
  changes locals s0 s -> bn_obj s Y = mY' -> temp 1 mY' -> temp (n + 1) (bn_obj s X) -> temp 2 (bn_obj s T1) -> temp 3 (bn_obj s T2) ->
  bn_obj s Zq = mkMpi 1 (<[Z.to_nat k := j]> (replicate zs 0)) ->
  mpi_val (bn_obj s X) = x - j * mpi_val mY' -> 0 <= x - j * mpi_val mY' < Z.of_nat fuel * mpi_val mY' ->
  nlimbs (x + mpi_val mY') <= cap -> 0 < mpi_val mY' -> j + Z.of_nat fuel <= 10 ->
  wp exact (top_digit fuel X Y Zq k) (ends (fun s' => bn_obj s' Y = mY' /\ temp (n + 1) (bn_obj s' X) /\
    temp 2 (bn_obj s' T1) /\ temp 3 (bn_obj s' T2) /\ exists j', 0 <= j' < 10 /\
    bn_obj s' Zq = mkMpi 1 (<[Z.to_nat k := j']> (replicate zs 0)) /\
    mpi_val (bn_obj s' X) = x - j' * mpi_val mY' /\ 0 <= x - j' * mpi_val mY' < mpi_val mY')) s.
Proof using Hcap Hexist Hlocal Hn t.
  pose proof Hlocal as (?&?&?&?&?&?&?&?&?&?). unfold top_digit.
  induction fuel as [|fuel IH]; intros j s Hk Hj C EY HoY HX H1' H2' EZ V Hr Hroom Hy Hf; [exfalso; clear -Hr; lia|].
  cbn [loop]. apply wp_bind, wp_bind, wp_cmp_mpi; [apply HX|rewrite EY; apply HoY|]. rewrite V, EY.
  set (y := mpi_val mY') in *. destruct (Z.ltb_spec (Z.sgn (x - j * y - y)) 0) as [Hlt|Hge].
  { apply wp_ret, wp_ret. split; [done|]. left. split; [done|]. do 4 (split; [done|]). exists j.
    split; [clear -Hj Hf; lia|]. split; [done|]. split; [done|]. clear -Hlt Hr. lia. }
  assert (Hk' : (Z.to_nat k < zs)%nat) by (clear -Hk; lia).
  apply wp_bind. eapply wp_limb_Z; [exact EZ|apply Hk|apply list_lookup_insert_eq; by rewrite length_replicate|].
  apply wp_bind. eapply wp_set_limb_Z; [exact EZ|unfold zlen; rewrite length_insert, length_replicate; exact Hk|].
  rewrite list_insert_insert_eq, u64_id by (clear -Hj Hf; lia). set (s1 := upd Zq _ s).
  assert (C1 : changes locals s0 s1) by (apply (changes_local Zq s); [done|apply changes_upd|apply in_Z]).
  assert (K1 : forall W, W <> Zq -> bn_obj s1 W = bn_obj s W) by (intros W HW; by apply obj_upd_ne).
  apply wp_bind.
  assert (Hsub : wp exact (chk! mbedtls_mpi_sub_mpi X X Y in ret 0) (ends (fun s' => changes [X] s1 s' /\ temp (n + 1) (bn_obj s' X) /\
    mpi_val (bn_obj s' X) = x - (j + 1) * y)) s1).
  { apply (combine_step mbedtls_mpi_sub_mpi (-1) Y y _ _ _ ltac:(by left) in_Y C1).
    - by rewrite K1.
    - rewrite K1 by done. by rewrite EY.
    - rewrite K1 by done. by rewrite EY.
    - rewrite K1, V by done. etrans; [apply nlimbs_mono|exact Hroom]. rewrite !Z.abs_eq by (clear -Hr Hy; lia).
      split; [clear -Hr Hy; lia|]. assert (0 <= j * y) by (apply Z.mul_nonneg_nonneg; [done|clear -Hy; lia]). lia.
    - intros s' C' C2 HX' V'. apply wp_ret. split; [done|]. left. split; [done|]. split; [done|]. split; [done|].
      rewrite V', K1, V by done. ring. }
  eapply wp_mono; [exact (wp_chk_ret _ _ _ _ Hsub)|]. cbn beta. intros r s2 (C2 & [(-> & C12 & HX2 & V2)|(-> & R)]); apply wp_ret.
  2: { change (MBEDTLS_ERR_MPI_ALLOC_FAILED =? 0) with false. cbv iota. apply wp_ret. split; [done|]. by right. }
  change (0 =? 0) with true. cbv iota.
  assert (K2 : forall W, W ∈ locals -> W <> Zq -> W <> X -> bn_obj s2 W = bn_obj s W).
  { intros W HW Hne HneX. rewrite (keep X W s1 s2), K1 by done. done. }
  apply (IH (j + 1)); [done|clear -Hj; lia|done| |done|done| | | |done| |done|done|clear -Hf; lia].
  - rewrite K2 by (apply in_Y || done). done.
  - rewrite K2 by (apply in_T1 || congruence). done.
  - rewrite K2 by (apply in_T2 || congruence). done.
  - rewrite (keep X Zq s1 s2) by (apply in_Z || congruence). apply obj_upd.
  - fold y. clear -Hr Hge Hy. lia.
Qed.
End rounds.

(** A number without leading zero limbs keeps that form when it is shifted. *)
Lemma norm_step V k v (kk : M bn Z) I s : V ∈ locals -> changes locals s0 s -> mpi_ok (bn_obj s V) -> mpi_val (bn_obj s V) = v ->
  0 < v -> zlen (mpi_p (bn_obj s V)) = nlimbs v -> 0 <= k < 64 -> nlimbs v + 1 <= cap ->
  (forall s', changes [V] s s' -> changes locals s0 s' -> mpi_ok (bn_obj s' V) -> mpi_val (bn_obj s' V) = v * 2 ^ k ->
     zlen (mpi_p (bn_obj s' V)) = nlimbs (v * 2 ^ k) -> nlimbs v <= nlimbs (v * 2 ^ k) <= nlimbs v + 1 -> wp exact kk (ends I) s') ->
  wp exact (chk! (if k =? 0 then ret 0 else mbedtls_mpi_shift_l V k) in kk) (ends I) s.
Proof using Hexist Hlocal.
  intros HV C Hok Ev Hv Hz Hk Hcapv HQ. destruct (Z.eqb_spec k 0) as [->|Hk0].
  { apply wp_chk, wp_ret. change (0 =? 0) with true. cbv iota. change (2 ^ 0) with 1 in HQ. rewrite Z.mul_1_r in HQ.
    apply HQ; try done. clear. lia. }
  pose proof (shift_l_spec V k s Hok ltac:(clear -Hk; lia)) as Hs. rewrite magnitude_val, Ev, Z.abs_eq in Hs by (done || (clear -Hv; lia)).
  rewrite nlimbs_shift, Hz in Hs by (done || apply Hk).
  assert (Hroom : nlimbs v <= nlimbs (v * 2 ^ k) <= nlimbs v + 1).
  { pose proof (Z.pow_pos_nonneg 2 k ltac:(done) ltac:(apply Hk)) as Hp. split; [apply nlimbs_mono; clear -Hv Hp; nia|].
    rewrite <- nlimbs_shift, BITS_TO_LIMBS_up by (done || apply Hk || (pose proof (bits_nonneg v); clear -H Hk; lia)). unfold nlimbs.
    transitivity ((bits v + 63 + 1 * 64) / 64); [apply Z.div_le_mono; [done|clear -Hk; lia]|]. rewrite Z.div_add by done. done. }
  eapply (chk_step V _ _ _ _ _ _ _ HV C); [|exact Hs|]; [clear -Hroom Hcapv; lia|].
  intros s' C' C2 Hok' L' V'. apply HQ; try done.
  pose proof (nlimbs_zlen _ Hok') as Hn. rewrite magnitude_val, V', Z.abs_eq in Hn.
  - clear -Hn L' Hroom. lia.
  - apply Z.mul_nonneg_nonneg; [clear -Hv; lia|apply Z.pow_nonneg; done].
  - done.
Qed.

(** What [div_digits] finds for the dividend [a] and the divisor [b]. *)
Definition digits_found (a b k : Z) (zs : nat) (s : bn) : Prop :=
  temp 1 (bn_obj s X) /\ mpi_val (bn_obj s X) = 2 ^ k * (a mod b) /\
  exists pz, bn_obj s Zq = mkMpi 1 pz /\ Forall limb_ok pz /\ zlen pz = Z.of_nat zs /\ limbs pz = a / b.

Lemma digit_zeros (k : Z) j (zs : nat) : 0 <= k < Z.of_nat zs -> limb_ok j ->
  limbs (<[Z.to_nat k := j]> (replicate zs 0)) = j * base ^ k /\ Forall limb_ok (<[Z.to_nat k := j]> (replicate zs 0)).
Proof.
  intros Hk Hj. split; [|apply Forall_insert; [apply zeros_ok|exact Hj]].
  rewrite (limbs_insert _ _ 0) by (apply lookup_replicate; split; [done|lia]). rewrite limbs_zeros, Z2Nat.id by lia. ring.
Qed.

Lemma scaled_division a b k q x : 0 < b -> 0 <= a -> 0 <= k -> q * (b * 2 ^ k) + x = a * 2 ^ k -> 0 <= x < b * 2 ^ k ->
  q = a / b /\ x = 2 ^ k * (a mod b).
Proof.
  intros Hb Ha Hk E Hx. pose proof (Z.pow_pos_nonneg 2 k ltac:(done) Hk) as Hp.
  assert (Eq : a * 2 ^ k / (b * 2 ^ k) = q) by (symmetry; apply (Z.div_unique _ _ _ x); lia).
  assert (Em : (a * 2 ^ k) mod (b * 2 ^ k) = x) by (symmetry; apply (Z.mod_unique _ _ q); lia).
  rewrite Z.div_mul_cancel_r in Eq by lia. rewrite Z.mul_mod_distr_r in Em by lia. split; [done|]. rewrite <- Em. ring.
Qed.

(** The digits below the highest one, the divisor being still at the top. *)
Lemma lower_digits x y j n t (zs : nat) s : changes locals s0 s ->
  temp (n + 1) (bn_obj s X) -> temp (t + 1) (bn_obj s Y) -> mpi_val (bn_obj s Y) = y * base ^ (n - t) ->
  temp 2 (bn_obj s T1) -> temp 3 (bn_obj s T2) -> 0 <= j < 10 ->
  bn_obj s Zq = mkMpi 1 (<[Z.to_nat (n - t) := j]> (replicate zs 0)) ->
  mpi_val (bn_obj s X) = x - j * (y * base ^ (n - t)) -> 0 <= x - j * (y * base ^ (n - t)) < y * base ^ (n - t) ->
  4611686018427387904 * base ^ t <= y -> 2 * y < base ^ (t + 1) -> 0 <= t <= n ->
  n + 2 <= Z.of_nat zs <= cap -> 3 <= cap -> Z.of_nat zs <= MBEDTLS_MPI_MAX_LIMBS ->
  wp exact (chk! mbedtls_mpi_shift_r Y (biL * (n - t)) in div_rounds (Z.to_nat (n - t)) X Y Zq T1 T2 t n)
   (ends (fun s' => temp 1 (bn_obj s' X) /\ 0 <= mpi_val (bn_obj s' X) < y /\
      exists pz, bn_obj s' Zq = mkMpi 1 pz /\ Forall limb_ok pz /\ zlen pz = Z.of_nat zs /\ limbs pz * y + mpi_val (bn_obj s' X) = x)) s.
Proof using Hexist Hlocal.
  intros C HX [HoY LY] VY H1 H2 Hj EZ VX Hr Hlow Hhigh Htn Hzs Hcap Hmax. pose proof Hlocal as (?&?&?&?&?&?&?&?&?&?).
  pose proof (base_pow_pos t (proj1 Htn)) as Hbt. pose proof (base_pow_pos (n - t) ltac:(clear -Htn; lia)) as Hbnt.
  assert (Hy0 : 0 < y) by (clear -Hlow Hbt; lia). set (c := biL * (n - t)).
  assert (Ec : 2 ^ c = base ^ (n - t)) by (unfold c, biL; change base with (2 ^ 64); by rewrite <- Z.pow_mul_r by (clear -Htn; lia)).
  assert (Hsg : mpi_s (bn_obj s Y) = 1).
  { pose proof (magnitude_nonneg _ HoY) as Hm. assert (0 < y * base ^ (n - t)) as Hp by (by apply Z.mul_pos_pos).
    unfold mpi_val in VY. destruct (proj1 HoY) as [Hs|Hs]; [done|]. rewrite Hs in VY. clear -Hm Hp VY. lia. }
  pose proof (shift_r_spec Y c s HoY ltac:(clear -Htn; unfold c, biL; lia)) as Hs.
  assert (Hmag : magnitude (bn_obj s Y) = y * base ^ (n - t)).
  { rewrite magnitude_val, VY by done. apply Z.abs_eq, Z.mul_nonneg_nonneg; clear -Hy0 Hbnt; lia. }
  rewrite Hsg, Hmag, Ec, Z.div_mul, Z.mul_1_l in Hs by (clear -Hbnt; lia).
  eapply (chk_step Y _ _ _ _ _ _ _ in_Y C); [|exact Hs|]; [clear -LY Hcap; lia|].
  intros s3 C23 C3 HoY3 L3 V3. clear Hs. assert (K3 : forall W, W ∈ locals -> W <> Y -> bn_obj s3 W = bn_obj s W) by (intros W HW Hne; by apply (keep Y W s s3)).
  assert (Hsg3 : mpi_s (bn_obj s3 Y) = 1).
  { pose proof (magnitude_nonneg _ HoY3) as Hm. unfold mpi_val in V3.
    destruct (proj1 HoY3) as [Hs|Hs]; [done|]. rewrite Hs in V3. clear -Hm Hy0 V3. lia. }
  assert (Hm3 : magnitude (bn_obj s3 Y) = y) by (rewrite magnitude_val, V3 by done; apply Z.abs_eq; clear -Hy0; lia).
  destruct (digit_zeros (n - t) j zs ltac:(clear -Htn Hzs; lia) ltac:(clear -Hj; unfold limb_ok, base; lia)) as [Vz Hz].
  assert (En : n = t + Z.of_nat (Z.to_nat (n - t))) by (clear -Htn; lia).
  eapply wp_mono.
  { rewrite En at 2. apply (div_rounds_spec (bn_obj s3 Y) n t (Z.of_nat zs) x HoY3 Hsg3 (proj1 Htn)).
    - clear -L3 LY. lia.
    - by rewrite Hm3.
    - by rewrite Hm3.
    - clear -Hzs. lia.
    - done.
    - clear -Htn Hzs. lia.
    - rewrite <- En. apply Z.le_refl.
    - rewrite <- En. split; [done|]. split; [done|]. rewrite !K3 by (apply in_X || apply in_T1 || apply in_T2 || congruence).
      do 3 (split; [done|]). rewrite Hm3, VX. split; [done|]. eexists _, j. rewrite K3 by (apply in_Z || congruence).
      split; [exact EZ|]. split; [done|]. split; [unfold zlen; by rewrite length_insert, length_replicate|]. split; [done|].
      split; [exact Vz|]. rewrite Vz. ring. }
  cbn beta. intros r s4 (C4 & [(-> & HS)|HR]); (split; [done|]); [left|by right]. split; [done|].
  destruct HS as (_ & _ & HX4 & _ & _ & Hx4 & pz & h & EZ4 & Hpz & Lz & _ & _ & V4).
  rewrite Z.sub_diag, Hm3 in *. change (base ^ 0) with 1 in Hx4. rewrite Z.mul_1_r in Hx4.
  destruct HX4 as [Ho4 Hz4]. split; [split; [done|clear -Hz4 Htn; lia]|]. split; [done|]. by exists pz.
Qed.

(** From the normalised operands on; [x] and [y] are the values, [n] and [t] their highest limbs. *)
Lemma normal_division x y n t (zs : nat) s : changes locals s0 s ->
  mpi_ok (bn_obj s X) -> mpi_val (bn_obj s X) = x -> zlen (mpi_p (bn_obj s X)) = n + 1 -> 0 <= x < base ^ (n + 1) ->
  mpi_ok (bn_obj s Y) -> mpi_val (bn_obj s Y) = y -> zlen (mpi_p (bn_obj s Y)) = t + 1 ->
  4611686018427387904 * base ^ t <= y -> 2 * y < base ^ (t + 1) -> nlimbs y = t + 1 -> 0 <= t <= n ->
  bn_obj s Zq = mkMpi 1 (replicate zs 0) -> temp 2 (bn_obj s T1) -> temp 3 (bn_obj s T2) ->
  n + 2 <= Z.of_nat zs <= cap -> 3 <= cap -> Z.of_nat zs <= MBEDTLS_MPI_MAX_LIMBS ->
  wp exact (do! nx := size_of X in
    do! ny := size_of Y in
    let n := nx - 1 in
    let t := ny - 1 in
    chk! mbedtls_mpi_shift_l Y (biL * (n - t)) in
    chk! top_digit 5 X Y Zq (n - t) in
    chk! mbedtls_mpi_shift_r Y (biL * (n - t)) in
    div_rounds (Z.to_nat (n - t)) X Y Zq T1 T2 t n)
   (ends (fun s' => temp 1 (bn_obj s' X) /\ 0 <= mpi_val (bn_obj s' X) < y /\
      exists pz, bn_obj s' Zq = mkMpi 1 pz /\ Forall limb_ok pz /\ zlen pz = Z.of_nat zs /\ limbs pz * y + mpi_val (bn_obj s' X) = x)) s.
Proof using Hexist Hlocal.
  intros C HoX Ex Zx Hx HoY Ey Zy Hlow Hhigh Hny Htn EZ H1 H2 Hzs Hcap Hmax.
  pose proof Hlocal as (?&?&?&?&?&?&?&?&?&?).
  apply wp_bind, wp_size_of, wp_bind, wp_size_of. rewrite Zx, Zy. cbv zeta.
  replace (n + 1 - 1) with n by (clear; lia). replace (t + 1 - 1) with t by (clear; lia).
  pose proof (base_pow_pos t (proj1 Htn)) as Hbt. set (c := biL * (n - t)).
  assert (Hc : 0 <= c < 4611686018427387904) by (clear -Htn Hzs Hmax; unfold c, biL, MBEDTLS_MPI_MAX_LIMBS in *; lia).
  assert (Ec : 2 ^ c = base ^ (n - t)) by (unfold c, biL; change base with (2 ^ 64); by rewrite <- Z.pow_mul_r by (clear -Htn; lia)).
  assert (Hy0 : 0 < y) by (clear -Hlow Hbt; lia). pose proof (base_pow_pos (n - t) ltac:(clear -Htn; lia)) as Hbnt.
  (* the divisor shifted to the top *)
  pose proof (shift_l_spec Y c s HoY Hc) as Hs. rewrite magnitude_val, Ey, Z.abs_eq in Hs by (done || (clear -Hy0; lia)).
  pose proof (shift_room y (t + 1) (n - t) ltac:(clear -Hhigh Hy0; lia) ltac:(clear -Htn; lia) ltac:(clear -Htn; lia)) as Hroom. fold c in Hroom.
  eapply (chk_step Y _ _ _ _ _ _ _ in_Y C); [|exact Hs|]; [clear -Hroom Zy Hzs Htn; lia|].
  intros s1 C01 C1 HoY1 L1 V1. rewrite Zy, Ec in *. set (mY1 := bn_obj s1 Y) in *. set (y1 := y * base ^ (n - t)) in *.
  assert (K1 : forall W, W ∈ locals -> W <> Y -> bn_obj s1 W = bn_obj s W) by (intros W HW Hne; by apply (keep Y W s s1)).
  (* the highest digit *)
  assert (Hy1 : 4611686018427387904 * base ^ n <= y1 /\ 2 * y1 < base ^ (n + 1)).
  { replace n with (t + (n - t)) at 1 by (clear; lia). replace (n + 1) with (t + 1 + (n - t)) by (clear; lia).
    rewrite !Z.pow_add_r by (clear -Htn; lia). unfold y1. rewrite !Z.mul_assoc. split.
    - apply Z.mul_le_mono_nonneg_r; [clear -Hbnt; lia|exact Hlow].
    - apply Z.mul_lt_mono_pos_r; [exact Hbnt|]. rewrite <- Z.pow_add_r by (clear -Htn; lia). exact Hhigh. }
  assert (Hx5 : x < 5 * y1).
  { rewrite base_pow_succ in Hx by (clear -Htn; lia). clear -Hx Hy1. unfold base in *. lia. }
  assert (HX1 : temp (n + 1) (bn_obj s1 X)).
  { rewrite K1 by (apply in_X || done). split; [done|]. rewrite Zx. clear -Hzs. lia. }
  apply wp_chk. eapply wp_mono; [apply (top_digit_spec n t ltac:(clear -Hzs; lia) Hcap 5 (n - t) x mY1 zs 0 s1)|].
  { clear -Htn Hzs. lia. } { done. } { done. } { done. } { split; [done|]. clear -L1 Hroom Hzs Htn. lia. } { done. }
  { rewrite K1 by (apply in_T1 || congruence). done. } { rewrite K1 by (apply in_T2 || congruence). done. }
  { rewrite K1 by (apply in_Z || congruence). rewrite EZ. f_equal. symmetry. apply list_insert_id, lookup_replicate.
    split; [done|clear -Htn Hzs; lia]. }
  { rewrite K1 by (apply in_X || congruence). rewrite Ex, Z.mul_0_l. clear. lia. }
  { rewrite V1. clear -Hx5 Hx. lia. }
  { rewrite V1. etrans; [apply (nlimbs_le _ (n + 1 + 1))|clear -Hzs; lia]; [clear -Htn; lia|].
    rewrite (base_pow_succ (n + 1)) by (clear -Htn; lia). clear -Hx Hy1 Hy0 Hbnt Htn. pose proof (base_pow_pos n ltac:(lia)). unfold base in *. lia. }
  { rewrite V1. by apply Z.mul_pos_pos. } { done. }
  rewrite V1. cbn beta. intros r s2 (C2 & [(-> & EY2 & HX2 & H12 & H22 & j & Hj & EZ2 & V2 & Hr2)|(-> & R)]).
  2: { change (MBEDTLS_ERR_MPI_ALLOC_FAILED =? 0) with false. cbv iota. split; [done|]. by right. }
  change (0 =? 0) with true. cbv iota. apply (lower_digits x y j n t zs s2); try done.
  - rewrite EY2. split; [done|]. clear -L1 Hroom Hzs Htn. lia.
  - by rewrite EY2, V1.
Qed.

Lemma div_digits_spec a b (zs : nat) s : changes locals s0 s ->
  mpi_ok (bn_obj s X) -> mpi_val (bn_obj s X) = a -> zlen (mpi_p (bn_obj s X)) = nlimbs a ->
  mpi_ok (bn_obj s Y) -> mpi_val (bn_obj s Y) = b -> zlen (mpi_p (bn_obj s Y)) = nlimbs b ->
  bn_obj s Zq = mkMpi 1 (replicate zs 0) -> temp 2 (bn_obj s T1) -> temp 3 (bn_obj s T2) ->
  0 < b <= a -> nlimbs a + 2 <= Z.of_nat zs <= cap -> Z.of_nat zs <= MBEDTLS_MPI_MAX_LIMBS ->
  let k := normalising (bits b) in
  wp exact (div_digits X Y Zq T1 T2) (fun '(r, k') s' => k' = k /\ ends (digits_found a b k zs) r s') s.
Proof using Hexist Hlocal.
  intros C HoX Ea Za HoY Eb Zb EZ H1 H2 Hab Hzs Hmax k.
  destruct (normalised b (proj1 Hab)) as (Hk & Ht & Hlow & Hhigh). fold k in Hk, Ht, Hlow, Hhigh.
  unfold div_digits. apply wp_bind, wp_bitlen; [done|]. rewrite magnitude_val, Eb, Z.abs_eq by (done || (clear -Hab; lia)).

  change (let k0 := bits b mod biL in let k1 := if k0 <? biL - 1 then biL - 1 - k0 else 0 in _)
    with (let k1 := normalising (bits b) in
      do! r := (chk! (if k1 =? 0 then ret 0 else mbedtls_mpi_shift_l X k1) in
        chk! (if k1 =? 0 then ret 0 else mbedtls_mpi_shift_l Y k1) in
        do! nx := size_of X in do! ny := size_of Y in
        let n := nx - 1 in let t := ny - 1 in
        chk! mbedtls_mpi_shift_l Y (biL * (n - t)) in
        chk! top_digit 5 X Y Zq (n - t) in
        chk! mbedtls_mpi_shift_r Y (biL * (n - t)) in
        div_rounds (Z.to_nat (n - t)) X Y Zq T1 T2 t n) in ret (r, k1)).
  fold k. cbv zeta.
  set (x := a * 2 ^ k) in *. set (y := b * 2 ^ k) in *. set (t := nlimbs y - 1) in *.
  pose proof (Z.pow_pos_nonneg 2 k ltac:(done) ltac:(apply Hk)) as Hp. pose proof Hlocal as (?&?&?&?&?&?&?&?&?&?).
  assert (Hxy : y <= x) by (unfold x, y; clear -Hab Hp; nia). assert (Hy0 : 0 < y) by (apply Z.mul_pos_pos; [apply Hab|done]).
  assert (Hbn : nlimbs b <= nlimbs a) by (apply nlimbs_mono; clear -Hab; lia).
  assert (Hnn : nlimbs y <= nlimbs x) by (apply nlimbs_mono; clear -Hxy Hy0; lia).
  apply wp_bind. eapply (wp_mono _ _ (ends (digits_found a b k zs))).
  2: { intros r s' HE. apply wp_ret. by split. }
  apply (norm_step X k a _ _ _ in_X C HoX Ea ltac:(clear -Hab; lia) Za Hk ltac:(clear -Hzs; lia)).
  intros s1 C01 C1 HoX1 V1 Z1 R1. fold x in V1, Z1, R1. pose proof (fun W => keep X W s s1 C C01) as K1.
  assert (EY1 : bn_obj s1 Y = bn_obj s Y) by (apply K1; [apply in_Y|congruence]).
  apply (norm_step Y k b _ _ _ in_Y C1); [by rewrite EY1|by rewrite EY1|apply Hab|by rewrite EY1|done|clear -Hbn Hzs; lia|].
  intros s2 C12 C2 HoY2 V2 Z2 R2. fold y in V2, Z2, R2. pose proof (fun W => keep Y W s1 s2 C1 C12) as K2.
  assert (Hlt : x < base ^ (nlimbs x - 1 + 1)).
  { rewrite Z.sub_add. apply lt_nlimbs. clear -Hxy Hy0. lia. }
  eapply wp_mono; [apply (normal_division x y (nlimbs x - 1) t zs s2 C2)|].
  { rewrite K2 by (apply in_X || congruence). done. } { rewrite K2 by (apply in_X || congruence). done. }
  { rewrite K2, Z1 by (apply in_X || congruence). clear. lia. } { split; [clear -Hxy Hy0; lia|exact Hlt]. }
  { done. } { done. } { rewrite Z2. unfold t. clear. lia. } { done. } { done. } { unfold t. clear. lia. }
  { split; [done|]. unfold t. clear -Hnn. lia. } { rewrite K2, K1 by (apply in_Z || congruence). done. }
  { rewrite K2, K1 by (apply in_T1 || congruence). done. } { rewrite K2, K1 by (apply in_T2 || congruence). done. }
  { clear -Hzs R1. lia. } { destruct H2 as [_ H2]. clear -H2. lia. } { done. }
  cbn beta. intros r s' (C' & [(-> & HX' & Hx' & pz & EZ' & Hpz & Lz & Vz)|HR]); (split; [done|]); [left|by right].
  split; [done|]. destruct (scaled_division a b k (limbs pz) (mpi_val (bn_obj s' X))) as [E1 E2]; try done;
    [apply Hab|clear -Hab; lia|apply Hk|]. split; [done|]. split; [done|]. by exists pz.
Qed.
End steps.
