(* ===== verification/MpiMod.v ===== *)
(** * Multi-precision integers: quotient, remainder, residue

    The rest of the division of external_libs/mbedTLS/library/bignum.c: the theorems on
    [mbedtls_mpi_div_mpi], [mbedtls_mpi_mod_mpi] and [mbedtls_mpi_mod_int], from those of MpiDiv.v on the
    digits. *)

From stdpp Require Import functions.
From S2P Require Import Prelude Mpi MpiArith MpiDiv.

Lemma signed_division s1 s2 a b : s1 = 1 \/ s1 = -1 -> s2 = 1 \/ s2 = -1 -> 0 <= a -> 0 < b ->
  s1 * s2 * (a / b) = Z.quot (s1 * a) (s2 * b) /\ s1 * (a mod b) = Z.rem (s1 * a) (s2 * b).
Proof.
  intros H1 H2 Ha Hb. pose proof (Z.quot_div_nonneg a b Ha Hb) as Eq. pose proof (Z.rem_mod_nonneg a b Ha Hb) as Em.
  destruct H1 as [->| ->], H2 as [->| ->]; rewrite <- ?Z.opp_eq_mul_m1, ?Z.mul_1_l, ?(Z.mul_comm (-1)), <- ?Z.opp_eq_mul_m1.
  all: rewrite ?Z.quot_opp_l, ?Z.quot_opp_r, ?Z.rem_opp_l, ?Z.rem_opp_r, ?Z.quot_opp_l, ?Z.rem_opp_l by lia; rewrite Eq, Em; split; ring.
Qed.

(** The objects a division stores into, and the limbs it needs. *)
Definition dest (Q R : option nat) : list nat :=
  match Q with Some q => [q] | None => [] end ++ match R with Some r => [r] | None => [] end.
Definition room (V : option nat) (s : bn) : Z := match V with Some q => zlen (mpi_p (bn_obj s q)) | None => 0 end.
Definition div_need (Q R : option nat) (A : nat) (s : bn) : Z :=
  Z.max (zlen (mpi_p (bn_obj s A)) + 2) (Z.max (room Q s) (room R s)).

(** The results of a division: [q] and [m], or a failure for want of memory. *)
Definition stored (Q R : option nat) (q m need : Z) (s : bn) (r : Z) (s' : bn) : Prop :=
  (forall V, V ∈ dest Q R -> mpi_ok (bn_obj s' V) /\ zlen (mpi_p (bn_obj s' V)) <= need) /\
  ((r = 0 /\ (forall V, Q = Some V -> mpi_val (bn_obj s' V) = q) /\ (forall V, R = Some V -> mpi_val (bn_obj s' V) = m)) \/
   (r = MBEDTLS_ERR_MPI_ALLOC_FAILED /\ short_of_memory need s)).

Lemma in_option (o : option nat) V : V ∈ match o with Some q => [q] | None => [] end -> o = Some V.
Proof. destruct o; [|by intros ?%not_elem_of_nil]. by intros ->%list_elem_of_singleton. Qed.

Lemma in_dest Q R V : V ∈ dest Q R <-> Q = Some V \/ R = Some V.
Proof.
  unfold dest. rewrite elem_of_app. destruct Q as [q|], R as [r|]; rewrite ?list_elem_of_singleton, ?elem_of_nil; naive_solver.
Qed.


(** ** From the operands to the result *)

Section division.
Context (A B X Y Zq T1 T2 : nat) (s0 : bn).
#[local] Notation locals := (locals X Y Zq T1 T2).
Let cap : Z := zlen (mpi_p (bn_obj s0 A)) + 2.
Context (Hlocal : X <> Y /\ X <> Zq /\ X <> T1 /\ X <> T2 /\ Y <> Zq /\ Y <> T1 /\ Y <> T2 /\ Zq <> T1 /\ Zq <> T2 /\ T1 <> T2).
Context (Hexist : forall V, V ∈ locals -> (V < bn_next s0)%nat).
Context (Hfresh : forall V, V ∈ locals -> bn_obj s0 V = mkMpi 1 []).
Context (HAn : (A < bn_next s0)%nat) (HBn : (B < bn_next s0)%nat) (HAl : A ∉ locals) (HBl : B ∉ locals).
Context (HA : mpi_ok (bn_obj s0 A)) (HB : mpi_ok (bn_obj s0 B)).
#[local] Notation a := (magnitude (bn_obj s0 A)).
#[local] Notation b := (magnitude (bn_obj s0 B)).
Context (Hab : 0 < b <= a).

Lemma fails_with (Q : Z -> bn -> Prop) V n (m k : M bn Z) s : V ∈ locals -> changes locals s0 s -> n <= cap ->
  (forall s', changes locals s0 s' -> short_of_memory cap s0 -> Q MBEDTLS_ERR_MPI_ALLOC_FAILED s') ->
  wp exact m (fun r s' => changes [V] s s' /\ ((r = 0 /\ wp exact k Q s') \/
    (r = MBEDTLS_ERR_MPI_ALLOC_FAILED /\ short_of_memory n s))) s ->
  wp exact (chk! m in k) Q s.
Proof using All.
  intros HV C Hn Hf Hm. apply wp_chk. eapply wp_mono; [exact Hm|]. cbn beta. intros r s' (C' & [(-> & Hk)|(-> & R)]); [exact Hk|].
  change (MBEDTLS_ERR_MPI_ALLOC_FAILED =? 0) with false. cbv iota. apply Hf.
  - etrans; [exact C|by eapply changes_weaken].
  - destruct R as [R|R]; [left; intros H0; by apply R, (ch_calloc _ _ _ C)|right; clear -R Hn; clearbody cap; lia].
Qed.

(** A fresh local variable is allocated. *)
Lemma grow_fresh (Q : Z -> bn -> Prop) V n (k : M bn Z) s : V ∈ locals -> changes locals s0 s -> bn_obj s V = mkMpi 1 [] -> 0 <= n <= cap ->
  (forall s', changes locals s0 s' -> short_of_memory cap s0 -> Q MBEDTLS_ERR_MPI_ALLOC_FAILED s') ->
  (forall s', changes [V] s s' -> changes locals s0 s' -> bn_obj s' V = mkMpi 1 (replicate (Z.to_nat n) 0) ->
     n <= MBEDTLS_MPI_MAX_LIMBS -> wp exact k Q s') ->
  wp exact (chk! mbedtls_mpi_grow V n in k) Q s.
Proof using All.
  intros HV C E Hn Hf Hk. apply (fails_with Q V n _ _ s HV C ltac:(apply Hn) Hf). eapply wp_mono; [apply grow_spec|]. cbn beta.
  rewrite E. cbn [mpi_s mpi_p]. intros r s' (C' & [(-> & Hm & E')|(-> & R & _)]); (split; [exact C'|]); [left|right; by split].
  split; [done|]. apply Hk; [exact C'|etrans; [exact C|by eapply changes_weaken]| |exact Hm].
  rewrite E'. unfold grown. change (zlen []) with 0. rewrite Z.sub_0_r. done.
Qed.

(** The copy of an operand, without its sign. *)
Lemma copy_operand (Q : Z -> bn -> Prop) V W v (k : M bn Z) s : V ∈ locals -> W ∉ locals -> (W < bn_next s0)%nat -> changes locals s0 s ->
  bn_obj s V = mkMpi 1 [] -> mpi_ok (bn_obj s0 W) -> magnitude (bn_obj s0 W) = v -> 0 < v -> nlimbs v <= cap ->
  (forall s', changes locals s0 s' -> short_of_memory cap s0 -> Q MBEDTLS_ERR_MPI_ALLOC_FAILED s') ->
  (forall s', changes [V] s s' -> changes locals s0 s' -> mpi_ok (bn_obj s' V) -> magnitude (bn_obj s' V) = v ->
     zlen (mpi_p (bn_obj s' V)) = nlimbs v -> wp exact k Q s') ->
  wp exact (chk! mbedtls_mpi_copy V W in k) Q s.
Proof using All.
  intros HV HW HWn C E HoW Ev Hv Hn Hf Hk. assert (EW : bn_obj s W = bn_obj s0 W) by (by apply (ch_obj _ _ _ C)).
  assert (HVW : V <> W) by (intros ->; done). assert (Hn1 : 1 <= nlimbs v).
  { destruct (decide (1 <= nlimbs v)); [done|]. pose proof (lt_nlimbs v ltac:(clear -Hv; lia)) as Hl.
    pose proof (nlimbs_nonneg v). replace (nlimbs v) with 0 in Hl by lia. change (base ^ 0) with 1 in Hl. lia. }
  pose proof (copy_computes V W s ltac:(rewrite (ch_next _ _ _ C); by apply Hexist) HVW ltac:(rewrite E; by repeat split; try left) ltac:(by rewrite EW)) as Hs.
  rewrite EW, Ev, E in Hs. cbn [mpi_p] in Hs. change (zlen []) with 0 in Hs.
  apply (fails_with Q V (nlimbs v) _ _ s HV C Hn Hf). eapply wp_mono; [exact Hs|]. cbn beta. intros r s' (C' & Hok & L & HR).
  split; [exact C'|]. replace (Z.max (Z.max 1 0) (nlimbs v)) with (nlimbs v) in * by (clear -Hn1; lia).
  destruct HR as [(-> & V')|HR]; [left|by right]. split; [done|].
  assert (Em : magnitude (bn_obj s' V) = v) by (rewrite magnitude_val, V', <- magnitude_val by done; done).
  apply Hk; [exact C'|etrans; [exact C|by eapply changes_weaken]|done|done|]. pose proof (nlimbs_zlen _ Hok) as Hz. rewrite Em in Hz.
  clear -Hz L. lia.
Qed.

(** The digits of [|A|] by [|B|], from the first copy on. *)
Lemma operand_digits (Q : Z -> bn -> Prop) (kk : Z * Z -> M bn Z) :
  (forall s', changes locals s0 s' -> short_of_memory cap s0 -> Q MBEDTLS_ERR_MPI_ALLOC_FAILED s') ->
  (forall r s', cap <= MBEDTLS_MPI_MAX_LIMBS -> ends X Y Zq T1 T2 cap s0 (digits_found X Zq cap a b (normalising (bits b)) (Z.to_nat cap)) r s' ->
     wp exact (kk (r, normalising (bits b))) Q s') ->
  wp exact (chk! mbedtls_mpi_copy X A in
    chk! mbedtls_mpi_copy Y B in
    run! set_s Y 1 in
    run! set_s X 1 in
    do! na := size_of A in
    chk! mbedtls_mpi_grow Zq (na + 2) in
    chk! mbedtls_mpi_lset Zq 0 in
    chk! mbedtls_mpi_grow T1 2 in
    chk! mbedtls_mpi_grow T2 3 in
    do! x := div_digits X Y Zq T1 T2 in
    kk x) Q s0.
Proof using All.
  intros Hf HQ. pose proof Hlocal as (?&?&?&?&?&?&?&?&?&?).
  pose proof (in_X X Y Zq T1 T2) as IX. pose proof (in_Y X Y Zq T1 T2) as IY. pose proof (in_Z X Y Zq T1 T2) as IZ.
  pose proof (in_T1 X Y Zq T1 T2) as I1. pose proof (in_T2 X Y Zq T1 T2) as I2.
  assert (Hcap : 3 <= cap /\ nlimbs a + 2 <= cap /\ nlimbs b <= nlimbs a).
  { pose proof (nlimbs_zlen _ HA) as Hz. unfold cap. split; [|split; [clear -Hz; lia|apply nlimbs_mono; clear -Hab; lia]].
    assert (0 < zlen (mpi_p (bn_obj s0 A))) as Hz0; [|clear -Hz0; lia]. unfold magnitude in Hab.
    destruct (mpi_p (bn_obj s0 A)); [cbn [limbs] in Hab; clear -Hab; lia|]. rewrite zlen_cons. pose proof (zlen_nonneg l) as Hl. clear -Hl. lia. }
  destruct Hcap as (Hcap & Hna & Hnb). pose proof (keep X Y Zq T1 T2 s0 Hexist) as K.
  apply (copy_operand Q X A a _ _ IX HAl HAn (changes_refl _ _) (Hfresh X IX) HA eq_refl); [apply (Z.lt_le_trans _ _ _ (proj1 Hab) (proj2 Hab))|clear -Hna; lia|done|].
  intros s1 C01 C1 HoX1 MX1 ZX1. pose proof (fun W => K X W s0 s1 (changes_refl _ _) C01) as K1.
  apply (copy_operand Q Y B b _ s1 IY HBl HBn C1); [rewrite K1 by (done || congruence); by apply Hfresh|done|done|apply Hab|clear -Hna Hnb; lia|done|].
  intros s2 C12 C2 HoY2 MY2 ZY2. pose proof (fun W => K Y W s1 s2 C1 C12) as K2.
  apply wp_bind, wp_set_s, wp_bind, wp_set_s. rewrite (obj_upd_ne Y X) by congruence. rewrite K2 by (done || congruence).
  set (mX := mkMpi 1 (mpi_p (bn_obj s1 X))). set (mY := mkMpi 1 (mpi_p (bn_obj s2 Y))). set (s3 := upd Y mY s2). set (s4 := upd X mX s3).
  assert (C3 : changes locals s0 s3) by (etrans; [exact C2|eapply changes_weaken; [apply changes_upd|exact IY]]).
  assert (C4 : changes locals s0 s4) by (etrans; [exact C3|eapply changes_weaken; [apply changes_upd|exact IX]]).
  assert (EX4 : bn_obj s4 X = mX) by apply obj_upd.
  assert (EY4 : bn_obj s4 Y = mY) by (unfold s4; rewrite obj_upd_ne by congruence; apply obj_upd).
  assert (K4 : forall W, W ∈ locals -> W <> X -> W <> Y -> bn_obj s4 W = mkMpi 1 []).
  { intros W HW HneX HneY. unfold s4, s3. rewrite !obj_upd_ne, K2, K1 by done. by apply Hfresh. }
  apply wp_bind, wp_size_of. rewrite (ch_obj _ _ _ C4 A HAn HAl). fold cap.
  apply (grow_fresh Q Zq cap _ s4 IZ C4); [apply K4; congruence|clear -Hcap; lia|done|].
  intros s5 C45 C5 EZ5 Hmax. pose proof (fun W => K Zq W s4 s5 C4 C45) as K5.
  apply (fails_with Q Zq cap _ _ s5 IZ C5 ltac:(apply Z.le_refl) Hf). eapply wp_mono; [apply lset_spec; [done|]|].
  { rewrite EZ5. split; [by left|]. split; [apply zeros_ok|]. cbn [mpi_p]. unfold zlen. rewrite length_replicate. clear -Hmax Hcap. lia. }
  cbn beta. rewrite EZ5. cbn [mpi_p]. rewrite length_replicate. intros r s6 (C56 & [(-> & EZ6)|(-> & R & _)]); (split; [exact C56|]); [left|right; split; [done|by left]].
  split; [done|]. assert (C6 : changes locals s0 s6) by (etrans; [exact C5|by eapply changes_weaken]).
  change (mkMpi (sint_sign 0) (Z.abs 0 :: replicate (pred (Z.to_nat cap)) 0)) with (mkMpi 1 (replicate (S (pred (Z.to_nat cap))) 0)) in EZ6.
  replace (S (pred (Z.to_nat cap))) with (Z.to_nat cap) in EZ6 by (clear -Hcap; lia). pose proof (fun W => K Zq W s5 s6 C5 C56) as K6.
  apply (grow_fresh Q T1 2 _ s6 I1 C6); [rewrite K6, K5, K4 by (done || congruence); done|clear -Hcap; lia|done|].
  intros s7 C67 C7 E17 _. pose proof (fun W => K T1 W s6 s7 C6 C67) as K7.
  apply (grow_fresh Q T2 3 _ s7 I2 C7); [rewrite K7, K6, K5, K4 by (done || congruence); done|clear -Hcap; lia|done|].
  intros s8 C78 C8 E28 _. pose proof (fun W => K T2 W s7 s8 C7 C78) as K8.
  assert (Kx : forall W, W ∈ locals -> W <> T2 -> W <> T1 -> W <> Zq -> bn_obj s8 W = bn_obj s4 W).
  { intros W HW H1' H2' H3'. rewrite K8, K7, K6, K5 by done. done. }
  apply wp_bind. eapply wp_mono.
  { apply (div_digits_spec X Y Zq T1 T2 cap s0 Hlocal Hexist a b (Z.to_nat cap) s8 C8); rewrite ?Kx, ?EX4, ?EY4 by (done || congruence).
    - split; [by left|]. apply HoX1.
    - unfold mX. rewrite mpi_val_pos. exact MX1.
    - exact ZX1.
    - split; [by left|]. apply HoY2.
    - unfold mY. rewrite mpi_val_pos. exact MY2.
    - exact ZY2.
    - rewrite K8, K7 by (done || congruence). exact EZ6.
    - rewrite K8, E17 by (done || congruence). split; [|change (2 <= 2 <= cap); clear -Hcap; lia]. split; [by left|]. split; [apply zeros_ok|done].
    - rewrite E28. split; [|change (3 <= 3 <= cap); clear -Hcap; lia]. split; [by left|]. split; [apply zeros_ok|done].
    - exact Hab.
    - clear -Hna Hcap. lia.
    - clear -Hmax Hcap. lia. }
  cbn beta. intros [r k] s9 [-> HE]. by apply HQ.
Qed.

(** *** The results *)

Context (Q R : option nat).
Context (Hdest : forall V, V ∈ dest Q R -> (V < bn_next s0)%nat /\ V ∉ locals /\ mpi_ok (bn_obj s0 V)).
Context (HQ : forall q, Q = Some q -> q <> A /\ q <> B /\ R <> Some q).
#[local] Notation need := (div_need Q R A s0).
#[local] Notation sa := (mpi_s (bn_obj s0 A)).
#[local] Notation sb := (mpi_s (bn_obj s0 B)).

Lemma need_ge : cap <= need /\ (forall V, V ∈ dest Q R -> zlen (mpi_p (bn_obj s0 V)) <= need).
Proof using All.
  unfold div_need. fold cap. split; [lia|]. intros V [->| ->]%in_dest; cbn [room]; lia.
Qed.

(** The digits are copied to the quotient. *)
Lemma store_quotient (P : Z -> bn -> Prop) pz (kk : M bn Z) s : changes locals s0 s ->
  bn_obj s Zq = mkMpi 1 pz -> Forall limb_ok pz -> zlen pz <= MBEDTLS_MPI_MAX_LIMBS -> limbs pz = a / b ->
  (forall s', changes (match Q with Some q => [q] | None => [] end) s s' ->
     (forall q, Q = Some q -> mpi_ok (bn_obj s' q) /\ zlen (mpi_p (bn_obj s' q)) <= need /\ mpi_val (bn_obj s' q) = sa * sb * (a / b)) ->
     wp exact kk P s') ->
  (forall s', changes (dest Q R) s s' -> (forall V, V ∈ dest Q R -> mpi_ok (bn_obj s' V) /\ zlen (mpi_p (bn_obj s' V)) <= need) ->
     short_of_memory need s0 -> P MBEDTLS_ERR_MPI_ALLOC_FAILED s') ->
  wp exact (chk! (match Q with
                  | Some q =>
                      chk! mbedtls_mpi_copy q Zq in
                      do! a := mpi_at A in
                      do! b := mpi_at B in
                      run! set_s q (mpi_s a * mpi_s b) in
                      ret 0
                  | None => ret 0
                  end) in kk) P s.
Proof using All.
  intros C EZ Hpz Hmax Vz Hk Hf. destruct need_ge as [Hcap Hroom]. destruct Q as [q|].
  2: { apply wp_chk, wp_ret. change (0 =? 0) with true. cbv iota. apply Hk; [done|]. intros q Hq. discriminate Hq. }
  destruct (HQ q eq_refl) as (HqA & HqB & HqR). destruct (Hdest q) as (Hqn & Hql & Hqok); [by apply in_dest; left|].
  pose proof (in_Z X Y Zq T1 T2) as IZ. assert (HqZ : q <> Zq) by (intros ->; done).
  assert (Hold : forall W, W ∉ locals -> (W < bn_next s0)%nat -> bn_obj s W = bn_obj s0 W) by (intros W HW HWn; by apply (ch_obj _ _ _ C)).
  assert (HoZ : mpi_ok (bn_obj s Zq)) by (rewrite EZ; split; [by left|by split]).
  pose proof (copy_computes q Zq s ltac:(rewrite (ch_next _ _ _ C); done) HqZ ltac:(by rewrite Hold) HoZ) as Hs.
  rewrite EZ, (Hold q Hql Hqn) in Hs. rewrite mpi_val_pos in Hs. unfold magnitude at 1 in Hs. cbn [mpi_p] in Hs. rewrite Vz in Hs.
  assert (Hbound : forall z, z <= Z.max (Z.max 1 (zlen (mpi_p (bn_obj s0 q)))) (nlimbs (a / b)) -> z <= div_need (Some q) R A s0).
  { intros z Hz. specialize (Hroom q ltac:(by apply in_dest; left)). pose proof (nlimbs_zlen _ HA) as Hna.
    assert (Hd : nlimbs (a / b) <= nlimbs a).
    { apply nlimbs_mono. split; [apply Z.div_pos; [apply magnitude_nonneg, HA|apply Hab]|]. apply Z.div_le_upper_bound; [apply Hab|].
      clear -Hab. nia. }
    pose proof (zlen_nonneg (mpi_p (bn_obj s0 A))) as Hz0. unfold cap in Hcap.
    set (n1 := nlimbs (a / b)) in *. set (n2 := nlimbs a) in *. clearbody n1 n2. clear -Hz Hroom Hna Hd Hcap Hz0. lia. }
  apply wp_bind, wp_chk. eapply wp_mono; [exact Hs|]. cbn beta. intros r s1 (C1 & Hok1 & L1 & [(-> & V1)|(-> & R1)]).
  - change (0 =? 0) with true. cbv iota. apply wp_bind, wp_mpi_at, wp_bind, wp_mpi_at, wp_bind, wp_set_s, wp_ret.
    change (0 =? 0) with true. cbv iota. assert (EA : bn_obj s1 A = bn_obj s0 A /\ bn_obj s1 B = bn_obj s0 B).
    { split; (rewrite (changes_other q s s1) by (rewrite ?(ch_next _ _ _ C); done || congruence); by apply Hold). }
    destruct EA as [-> ->]. pose proof Hok1 as (Hs1 & Hp1 & Hm1). apply Hk; [etrans; [exact C1|apply changes_upd]|].
    intros q' [= <-]. rewrite obj_upd. unfold mpi_val, magnitude in *. cbn [mpi_s mpi_p].
    assert (Hpos : limbs (mpi_p (bn_obj s1 q)) = limbs (mpi_p (bn_obj s0 A)) / limbs (mpi_p (bn_obj s0 B))).
    { pose proof (limbs_bound _ Hp1) as Hb1. assert (0 <= limbs (mpi_p (bn_obj s0 A)) / limbs (mpi_p (bn_obj s0 B))) as Hd0.
      { apply Z.div_pos; [apply (magnitude_nonneg _ HA)|apply Hab]. }
      revert V1 Hb1 Hd0. generalize (limbs (mpi_p (bn_obj s0 A)) / limbs (mpi_p (bn_obj s0 B))). intros d V1 Hb1 Hd0.
      clear -Hs1 V1 Hb1 Hd0. destruct Hs1 as [Hs1|Hs1]; rewrite Hs1 in V1; lia. }
    split; [|split; [apply Hbound, L1|by rewrite Hpos]]. split; [|by split]. cbn [mpi_s].
    destruct (proj1 HA) as [->| ->], (proj1 HB) as [->| ->]; [left|right|right|left]; done.
  - change (MBEDTLS_ERR_MPI_ALLOC_FAILED =? 0) with false. cbv iota. apply Hf.
    + eapply changes_weaken; [exact C1|by apply in_dest; left].
    + intros V HV. destruct (Hdest V HV) as (HVn & HVl & HVok). destruct (decide (V = q)) as [->|Hne]; [split; [done|apply Hbound, L1]|].
      rewrite (changes_other q s s1 V) by (rewrite ?(ch_next _ _ _ C); done). rewrite Hold by done. split; [done|by apply Hroom].
    + destruct R1 as [R1|R1]; [left; intros H0; by apply R1, (ch_calloc _ _ _ C)|right].
      eapply Z.lt_le_trans; [exact R1|]. apply Hbound. apply Z.le_refl.
Qed.

(** The remainder is shifted back, gets the sign of the dividend and is copied. *)
Lemma store_remainder k s : bn_next s = bn_next s0 -> (bn_calloc s0 = [] -> bn_calloc s = []) ->
  (forall W, W ∉ locals -> (W < bn_next s0)%nat -> Q <> Some W -> bn_obj s W = bn_obj s0 W) ->
  0 <= k -> mpi_ok (bn_obj s X) -> 1 <= zlen (mpi_p (bn_obj s X)) <= cap -> mpi_val (bn_obj s X) = 2 ^ k * (a mod b) ->
  wp exact (match R with
            | Some rm =>
                chk! mbedtls_mpi_shift_r X k in
                do! a := mpi_at A in
                run! set_s X (mpi_s a) in
                chk! mbedtls_mpi_copy rm X in
                do! zero := mbedtls_mpi_cmp_int rm 0 in
                run! (if zero =? 0 then set_s rm 1 else ret tt) in
                ret 0
            | None => ret 0
            end)
   (fun r s' => changes (X :: match R with Some m => [m] | None => [] end) s s' /\
      (forall m, R = Some m -> mpi_ok (bn_obj s' m) /\ zlen (mpi_p (bn_obj s' m)) <= need) /\
      ((r = 0 /\ forall m, R = Some m -> mpi_val (bn_obj s' m) = sa * (a mod b)) \/
       (r = MBEDTLS_ERR_MPI_ALLOC_FAILED /\ short_of_memory need s0))) s.
Proof using All.
  intros Hnext Hcal Hold Hk HoX HzX VX. destruct need_ge as [Hcap Hroom]. destruct R as [m|].
  2: { apply wp_ret. split; [done|]. split; [done|]. left. by split. }
  destruct (Hdest m) as (Hmn & Hml & Hmok); [by apply in_dest; right|]. specialize (Hroom m ltac:(by apply in_dest; right)).
  pose proof (in_X X Y Zq T1 T2) as IX. assert (HmX : m <> X) by (intros ->; done). assert (HAX : A <> X) by (intros ->; done).
  assert (HQm : Q <> Some m) by (intros Hq; by destruct (HQ m Hq) as (_ & _ & ?)).
  assert (HQA : Q <> Some A) by (intros Hq; by destruct (HQ A Hq)).
  assert (Hmod : 0 <= a mod b < b) by (apply Z.mod_pos_bound, Hab). pose proof (Z.pow_pos_nonneg 2 k ltac:(done) Hk) as Hp.
  (* shifted *)
  assert (Hshift : mpi_s (bn_obj s X) * (magnitude (bn_obj s X) / 2 ^ k) = a mod b).
  { rewrite magnitude_val, VX, Z.abs_eq by (done || (apply Z.mul_nonneg_nonneg; [clear -Hp; lia|apply Hmod])).
    rewrite (Z.mul_comm (2 ^ k)), Z.div_mul by (clear -Hp; lia). pose proof (magnitude_nonneg _ HoX) as Hm0.
    unfold mpi_val in VX. revert VX Hmod Hm0. generalize (a mod b), (magnitude (bn_obj s X)). intros c d VX Hmod Hm0.
    clear -VX Hmod Hm0 HoX Hp. destruct (proj1 HoX) as [E|E]; rewrite E in *; nia. }
  pose proof (shift_r_spec X k s HoX Hk) as Hs. rewrite Hshift in Hs.
  apply wp_chk. eapply wp_mono; [exact Hs|]. cbn beta. clear Hs. intros r s1 (C1 & Ho1 & L1 & [(-> & V1)|(-> & R1)]).
  2: { change (MBEDTLS_ERR_MPI_ALLOC_FAILED =? 0) with false. cbv iota. split; [eapply changes_weaken; [exact C1|by left]|].
    split; [|right; split; [done|]].
    - intros m' [= <-]. rewrite (changes_other X s s1 m), Hold by (rewrite ?Hnext; done). by split.
    - destruct R1 as [R1|R1]; [left; intros H0; by apply R1, Hcal|right]. eapply Z.lt_le_trans; [exact R1|]. clear -HzX Hcap. clearbody cap. lia. }
  change (0 =? 0) with true. cbv iota. apply wp_bind, wp_mpi_at, wp_bind, wp_set_s.
  assert (K1 : forall W, W ∉ locals -> (W < bn_next s0)%nat -> Q <> Some W -> bn_obj s1 W = bn_obj s0 W).
  { intros W HW HWn HWQ. rewrite (changes_other X s s1 W), Hold by (rewrite ?Hnext; done || (intros ->; done)). done. }
  rewrite (K1 A) by done. set (s2 := upd X _ s1). assert (C2 : changes [X] s s2) by (etrans; [exact C1|apply changes_upd]).
  assert (E2 : bn_obj s2 X = mkMpi sa (mpi_p (bn_obj s1 X))) by apply obj_upd.
  assert (Em2 : bn_obj s2 m = bn_obj s0 m) by (unfold s2; rewrite obj_upd_ne by done; by apply K1).
  assert (Ho2 : mpi_ok (bn_obj s2 X)) by (rewrite E2; split; [apply HA|apply Ho1]).
  assert (M2 : magnitude (bn_obj s2 X) = a mod b).
  { rewrite E2. change (magnitude (bn_obj s1 X) = a mod b). rewrite magnitude_val, V1 by done. apply Z.abs_eq, Hmod. }
  assert (V2 : mpi_val (bn_obj s2 X) = sa * (a mod b)) by (unfold mpi_val; rewrite M2, E2; done).
  (* copied *)
  pose proof (copy_computes m X s2 ltac:(rewrite (ch_next _ _ _ C2), Hnext; done) HmX ltac:(by rewrite Em2) Ho2) as Hs.
  rewrite M2, V2, Em2 in Hs.
  assert (Hneed : forall z, z <= Z.max (Z.max 1 (zlen (mpi_p (bn_obj s0 m)))) (nlimbs (a mod b)) -> z <= div_need Q (Some m) A s0).
  { intros z Hz. pose proof (nlimbs_zlen _ HA) as Hna.
    assert (Hd : nlimbs (a mod b) <= nlimbs a) by (apply nlimbs_mono; clear -Hmod Hab; lia).
    pose proof (zlen_nonneg (mpi_p (bn_obj s0 A))) as Hz0. unfold cap in Hcap.
    set (n1 := nlimbs (a mod b)) in *. set (n2 := nlimbs a) in *. clearbody n1 n2. clear -Hz Hroom Hna Hd Hcap Hz0. lia. }
  apply wp_chk. eapply wp_mono; [exact Hs|]. cbn beta. clear Hs. intros r s3 (C3 & Ho3 & L3 & R3).
  assert (C23 : changes [X; m] s s3).
  { etrans; [eapply changes_weaken; [exact C2|by left]|eapply changes_weaken; [exact C3|by right; left]]. }
  destruct R3 as [(-> & V3)|(-> & R3)].
  2: { change (MBEDTLS_ERR_MPI_ALLOC_FAILED =? 0) with false. cbv iota. split; [exact C23|].
    split; [intros m' [= <-]; split; [done|apply Hneed, L3]|right; split; [done|]].
    destruct R3 as [R3|R3]; [left; intros H0; by apply R3, (ch_calloc _ _ _ C2), Hcal|right]. eapply Z.lt_le_trans; [exact R3|].
    apply Hneed, Z.le_refl. }
  change (0 =? 0) with true. cbv iota.
  apply wp_bind, wp_cmp_int; [rewrite (ch_next _ _ _ C23), Hnext; done|done|done|]. rewrite V3, Z.sub_0_r. intros s4 C4.
  assert (E4 : bn_obj s4 m = bn_obj s3 m) by (apply (ch_obj _ _ _ C4); [rewrite (ch_next _ _ _ C23), Hnext; done|apply not_elem_of_nil]).
  assert (C24 : changes [X; m] s s4) by (etrans; [exact C23|by apply changes_nil]). apply wp_bind.
  destruct (Z.eqb_spec (Z.sgn (sa * (a mod b))) 0) as [Hz|Hz].
  - apply wp_set_s, wp_ret. split; [etrans; [exact C24|eapply changes_weaken; [apply changes_upd|by right; left]]|].
    assert (Hm4 : magnitude (bn_obj s3 m) = 0) by (rewrite magnitude_val, V3 by done; by rewrite (proj1 (Z.sgn_null_iff _) Hz)).
    split; [|left; split; [done|]]; intros m' [= <-]; rewrite obj_upd, E4.
    + split; [split; [by left|apply Ho3]|]. apply Hneed, L3.
    + unfold mpi_val. cbn [mpi_s]. change (1 * magnitude (bn_obj s3 m) = sa * (a mod b)). rewrite Hm4.
      by rewrite (proj1 (Z.sgn_null_iff _) Hz).
  - apply wp_ret, wp_ret. split; [exact C24|]. split; [|left; split; [done|]]; intros m' [= <-]; rewrite E4; [|exact V3].
    split; [done|apply Hneed, L3].
Qed.

(** The whole division of magnitudes, [|A| >= |B|]. *)
Lemma long_division :
  wp exact (chk! mbedtls_mpi_copy X A in
    chk! mbedtls_mpi_copy Y B in
    run! set_s Y 1 in
    run! set_s X 1 in
    do! na := size_of A in
    chk! mbedtls_mpi_grow Zq (na + 2) in
    chk! mbedtls_mpi_lset Zq 0 in
    chk! mbedtls_mpi_grow T1 2 in
    chk! mbedtls_mpi_grow T2 3 in
    do! (r, k) := div_digits X Y Zq T1 T2 in
    if negb (r =? 0) then ret r
    else
      chk! (match Q with
            | Some q =>
                chk! mbedtls_mpi_copy q Zq in
                do! a := mpi_at A in
                do! b := mpi_at B in
                run! set_s q (mpi_s a * mpi_s b) in
                ret 0
            | None => ret 0
            end) in
      match R with
      | Some rm =>
          chk! mbedtls_mpi_shift_r X k in
          do! a := mpi_at A in
          run! set_s X (mpi_s a) in
          chk! mbedtls_mpi_copy rm X in
          do! zero := mbedtls_mpi_cmp_int rm 0 in
          run! (if zero =? 0 then set_s rm 1 else ret tt) in
          ret 0
      | None => ret 0
      end)
   (fun r s' => changes (locals ++ dest Q R) s0 s' /\ stored Q R (sa * sb * (a / b)) (sa * (a mod b)) need s0 r s') s0.
Proof using All.
  destruct need_ge as [Hcap Hroom].
  assert (HL : forall s', changes locals s0 s' -> changes (locals ++ dest Q R) s0 s').
  { intros s' C. eapply changes_mono; [|exact C]. intros V HV. apply elem_of_app. by left. }
  assert (Hkept : forall s', changes locals s0 s' -> forall V, V ∈ dest Q R -> mpi_ok (bn_obj s' V) /\ zlen (mpi_p (bn_obj s' V)) <= need).
  { intros s' C V HV. destruct (Hdest V HV) as (HVn & HVl & HVok). rewrite (ch_obj _ _ _ C V HVn HVl). split; [done|by apply Hroom]. }
  assert (Hshort : short_of_memory cap s0 -> short_of_memory need s0).
  { intros [H|H]; [by left|right]. clear -H Hcap. clearbody cap. lia. }
  apply (operand_digits _ (fun x => let '(r, k) := x in _)).
  { intros s' C Hs. split; [by apply HL|]. split; [by apply Hkept|]. right. split; [done|by apply Hshort]. }
  intros r s1 Hmax (C1 & [(-> & HS)|(-> & R1)]).
  2: { change (negb (MBEDTLS_ERR_MPI_ALLOC_FAILED =? 0)) with true. cbv iota. apply wp_ret. split; [by apply HL|].
    split; [by apply Hkept|]. right. split; [done|by apply Hshort]. }
  change (negb (0 =? 0)) with false. cbv iota. destruct HS as ([HoX HzX] & VX & pz & EZ & Hpz & Lz & Vz).
  destruct (normalised b (proj1 Hab)) as (Hk & _).
  pose proof (zlen_nonneg (mpi_p (bn_obj s0 A))) as Hz0. assert (Hc0 : 0 <= cap) by (unfold cap; clear -Hz0; lia).
  rewrite Z2Nat.id in Lz by done.
  apply (store_quotient _ pz _ s1 C1 EZ Hpz ltac:(by rewrite Lz) Vz).
  - intros s2 C2 HQ2. pose proof (ch_next _ _ _ C1) as N1. pose proof (ch_next _ _ _ C2) as N2.
    assert (C2' : changes (locals ++ dest Q R) s0 s2).
    { etrans; [by apply HL|]. eapply changes_mono; [|exact C2]. intros V HV. apply elem_of_app. right. apply in_dest. left.
      by apply in_option. }
    assert (HoldX : bn_obj s2 X = bn_obj s1 X).
    { apply (ch_obj _ _ _ C2); [rewrite N1; apply Hexist, in_X|]. intros HV. assert (HX : X ∈ dest Q R).
      { apply in_dest. left. by apply in_option. }
      destruct (Hdest X HX) as (_ & HXl & _). apply HXl, in_X. }
    assert (Hold : forall W, W ∉ locals -> (W < bn_next s0)%nat -> Q <> Some W -> bn_obj s2 W = bn_obj s0 W).
    { intros W HW HWn HWQ. rewrite (ch_obj _ _ _ C2 W); [by apply (ch_obj _ _ _ C1)|by rewrite N1|].
      intros HV. by apply HWQ, in_option. }
    eapply wp_mono; [apply (store_remainder (normalising (bits b)) s2)|].
    + by rewrite N2.
    + intros H0. by apply (ch_calloc _ _ _ C2), (ch_calloc _ _ _ C1).
    + exact Hold.
    + apply Hk.
    + by rewrite HoldX.
    + by rewrite HoldX.
    + by rewrite HoldX.
    + cbn beta. intros r s3 (C3 & HR3 & HR4). assert (C3' : changes (locals ++ dest Q R) s0 s3).
      { etrans; [exact C2'|]. eapply changes_mono; [|exact C3]. intros V [->|HV]%elem_of_cons; apply elem_of_app; [left; apply in_X|right].
        apply in_dest. right. by apply in_option. }
      assert (HQ3 : forall q, Q = Some q -> bn_obj s3 q = bn_obj s2 q).
      { intros q Hq. destruct (Hdest q) as (Hqn & Hql & _); [apply in_dest; by left|]. destruct (HQ q Hq) as (_ & _ & HqR).
        apply (ch_obj _ _ _ C3); [by rewrite N2, N1|]. intros [->|HV]%elem_of_cons; [apply Hql, in_X|].
        apply HqR. by apply in_option. }
      split; [exact C3'|]. split.
      * intros V [HV|HV]%in_dest; [rewrite (HQ3 V HV); split; by apply HQ2|by apply HR3].
      * destruct HR4 as [[-> HR4]|HR4]; [left|by right]. split; [done|]. split; [|exact HR4].
        intros q Hq. rewrite (HQ3 q Hq). by apply HQ2.
  - intros s2 C2 HV2 Hs. split; [|split; [exact HV2|by right]]. etrans; [by apply HL|].
    eapply changes_mono; [|exact C2]. intros V HV. apply elem_of_app. by right.
Qed.
End division.

(** A dividend below the divisor. *)
Lemma short_division Q R A s : (A < bn_next s)%nat -> mpi_ok (bn_obj s A) ->
  (forall V, V ∈ dest Q R -> (V < bn_next s)%nat /\ mpi_ok (bn_obj s V)) ->
  (forall q, Q = Some q -> q <> A /\ R <> Some q) ->
  wp exact (chk! (match Q with Some q => mbedtls_mpi_lset q 0 | None => ret 0 end) in
    chk! (match R with Some r => mbedtls_mpi_copy r A | None => ret 0 end) in
    ret 0)
   (fun r s' => changes (dest Q R) s s' /\ stored Q R 0 (mpi_val (bn_obj s A)) (div_need Q R A s) s r s') s.
Proof.
  intros HAn HA Hdest HQ. set (need := div_need Q R A s).
  assert (Hneed : 2 <= need /\ zlen (mpi_p (bn_obj s A)) <= need /\ (forall V, V ∈ dest Q R -> zlen (mpi_p (bn_obj s V)) <= need)).
  { unfold need, div_need. pose proof (zlen_nonneg (mpi_p (bn_obj s A))). split; [lia|]. split; [lia|].
    intros V [->| ->]%in_dest; cbn [room]; lia. }
  destruct Hneed as (Hn2 & HnA & Hroom). clearbody need. pose proof (nlimbs_zlen _ HA) as Hna.
  (* the quotient is 0 *)
  apply wp_chk. eapply (wp_mono _ _ (fun r s1 => changes (dest Q R) s s1 /\ (forall W, (W < bn_next s)%nat -> Q <> Some W -> bn_obj s1 W = bn_obj s W) /\
    (forall q, Q = Some q -> mpi_ok (bn_obj s1 q) /\ zlen (mpi_p (bn_obj s1 q)) <= need) /\
    ((r = 0 /\ forall q, Q = Some q -> mpi_val (bn_obj s1 q) = 0) \/ (r = MBEDTLS_ERR_MPI_ALLOC_FAILED /\ short_of_memory need s)))).
  { destruct Q as [q|]; [|by apply wp_ret; repeat split; try left].
    destruct (Hdest q) as [Hqn Hqok]; [by apply in_dest; left|]. specialize (Hroom q ltac:(by apply in_dest; left)).
    eapply wp_mono; [by apply (lset_computes q 0)|]. cbn beta. intros r s1 (C1 & Ho1 & L1 & R1).
    split; [eapply changes_weaken; [exact C1|by apply in_dest; left]|]. split; [intros W HW HWq; apply (changes_other q); congruence|].
    split; [intros q' [= <-]; split; [done|clear -L1 Hroom Hn2; lia]|]. destruct R1 as [[-> V1]|(-> & [R1|R1])].
    - left. split; [done|]. by intros q' [= <-].
    - right. split; [done|by left].
    - right. split; [done|right]. clear -R1 Hroom Hn2. lia. }
  cbn beta. intros r s1 (C1 & Hold & HQ1 & [(-> & VQ)|(-> & R1)]).
  2: { change (MBEDTLS_ERR_MPI_ALLOC_FAILED =? 0) with false. cbv iota. split; [exact C1|]. split; [|by right].
    intros V HV. destruct (decide (Q = Some V)) as [Hq|Hq]; [by apply HQ1|]. destruct (Hdest V HV). rewrite Hold by done. split; [done|by apply Hroom]. }
  change (0 =? 0) with true. cbv iota. assert (EA : bn_obj s1 A = bn_obj s A).
  { apply Hold; [done|]. intros Hq. by destruct (HQ A Hq). }
  (* the remainder is the dividend *)
  apply wp_chk. destruct R as [m|].
  2: { apply wp_ret. change (0 =? 0) with true. cbv iota. apply wp_ret. split; [exact C1|]. split; [|left; split; [done|by split]].
    intros V [HV|HV]%in_dest; [by apply HQ1|done]. }
  destruct (Hdest m) as [Hmn Hmok]; [by apply in_dest; right|]. specialize (Hroom m ltac:(by apply in_dest; right)).
  assert (HQm : Q <> Some m) by (intros Hq; by destruct (HQ m Hq)). assert (Em : bn_obj s1 m = bn_obj s m) by (by apply Hold).
  eapply (wp_mono _ _ (fun r s2 => changes [m] s1 s2 /\ mpi_ok (bn_obj s2 m) /\ zlen (mpi_p (bn_obj s2 m)) <= need /\
    ((r = 0 /\ mpi_val (bn_obj s2 m) = mpi_val (bn_obj s A)) \/ (r = MBEDTLS_ERR_MPI_ALLOC_FAILED /\ short_of_memory need s1)))).
  { destruct (decide (m = A)) as [->|Hne].
    - unfold mbedtls_mpi_copy. rewrite Nat.eqb_refl. apply wp_ret. rewrite EA. split; [done|]. split; [done|]. split; [done|]. by left.
    - eapply wp_mono; [apply (copy_computes m A s1); rewrite ?(ch_next _ _ _ C1), ?Em, ?EA; done|]. rewrite Em, EA. cbn beta.
      intros r s2 (C2 & Ho2 & L2 & R2). split; [done|]. split; [done|]. set (nl := nlimbs _) in *. clearbody nl.
      split; [clear -L2 Hroom Hna HnA Hn2; lia|]. destruct R2 as [R2|(-> & [R2|R2])]; [by left|right; split; [done|by left]|].
      right. split; [done|right]. clear -R2 Hroom Hna HnA Hn2. lia. }
  cbn beta. intros r s2 (C2 & Ho2 & L2 & R2).
  assert (C02 : changes (dest Q (Some m)) s s2) by (etrans; [exact C1|eapply changes_weaken; [exact C2|by apply in_dest; right]]).
  assert (HQ2 : forall q, Q = Some q -> bn_obj s2 q = bn_obj s1 q).
  { intros q Hq. apply (changes_other m); [done| |intros ->; done]. rewrite (ch_next _ _ _ C1). apply Hdest, in_dest. by left. }
  assert (Hst : forall V, V ∈ dest Q (Some m) -> mpi_ok (bn_obj s2 V) /\ zlen (mpi_p (bn_obj s2 V)) <= need).
  { intros V [HV|[= <-]]%in_dest; [|by split]. rewrite (HQ2 V HV). by apply HQ1. }
  destruct R2 as [(-> & V2)|(-> & R2)].
  - change (0 =? 0) with true. cbv iota. apply wp_ret. split; [done|]. split; [done|]. left. split; [done|].
    split; [intros q Hq; rewrite (HQ2 q Hq); by apply VQ|]. by intros m' [= <-].
  - change (MBEDTLS_ERR_MPI_ALLOC_FAILED =? 0) with false. cbv iota. split; [done|]. split; [done|]. right. split; [done|].
    destruct R2 as [R2|R2]; [left; intros H0; by apply R2, (ch_calloc _ _ _ C1)|by right].
Qed.

Lemma wp_five_locals {Rt} md L (k : nat -> nat -> nat -> nat -> nat -> M bn Rt) (P : Rt -> bn -> Prop) s :
  let X := bn_next s in let Y := S X in let Zq := S Y in let T1 := S Zq in let T2 := S T1 in
  wp md (k X Y Zq T1 T2) (fun r s' => changes (locals X Y Zq T1 T2 ++ L) (set_next (S T2) s) s' /\
    (changes L s (set_next X s') -> P r (set_next X s'))) (set_next (S T2) s) ->
  wp md (local_mpi (fun X => local_mpi (fun Y => local_mpi (fun Zq => local_mpi (fun T1 => local_mpi (fun T2 => k X Y Zq T1 T2)))))) P s.
Proof.
  intros X Y Zq T1 T2 H. apply (wp_local_mpi md L). apply (wp_local_mpi md (X :: L)). apply (wp_local_mpi md (Y :: X :: L)).
  apply (wp_local_mpi md (Zq :: Y :: X :: L)). apply (wp_local_mpi md (T1 :: Zq :: Y :: X :: L)).
  eapply wp_mono; [exact H|]. cbn beta. intros r s' [C HP]. split.
  { eapply changes_mono; [|exact C]. intros V. unfold locals. rewrite elem_of_app, !elem_of_cons, elem_of_nil.
    change (bn_next s) with X. cbn. fold Y Zq T1 T2. tauto. }
  intros C4. split; [exact C4|]. intros C3. split; [exact C3|]. intros C2. split; [exact C2|]. intros C1. split; [exact C1|].
  exact HP.
Qed.

(** The locals of a function that starts in [s]. *)
Lemma stored_mono Q R q m n1 n2 s1 s2 r s : n1 <= n2 -> (bn_calloc s2 = [] -> bn_calloc s1 = []) ->
  stored Q R q m n1 s1 r s -> stored Q R q m n2 s2 r s.
Proof.
  intros Hn Hc [H1 H2]. split.
  - intros V HV. destruct (H1 V HV). split; [done|lia].
  - destruct H2 as [H2|(-> & [H2|H2])]; [by left|right; split; [done|]..].
    + left. intros H0. by apply H2, Hc.
    + right. lia.
Qed.

Lemma stored_obj Q R q m need s r s1 s2 : (forall V, V ∈ dest Q R -> bn_obj s2 V = bn_obj s1 V) ->
  stored Q R q m need s r s1 -> stored Q R q m need s r s2.
Proof.
  intros HV [H1 H2]. split; [intros V Hd; rewrite (HV V Hd); by apply H1|]. destruct H2 as [(-> & HQ & HR)|H2]; [left|by right].
  split; [done|]. split; intros V E; rewrite (HV V) by (apply in_dest; auto); auto.
Qed.

Lemma div_mpi_spec Q R A B s : (A < bn_next s)%nat -> (B < bn_next s)%nat -> mpi_ok (bn_obj s A) -> mpi_ok (bn_obj s B) ->
  (forall V, V ∈ dest Q R -> (V < bn_next s)%nat /\ mpi_ok (bn_obj s V)) ->
  (forall q, Q = Some q -> q <> A /\ q <> B /\ R <> Some q) ->
  wp exact (mbedtls_mpi_div_mpi Q R A B) (fun r s' =>
    if mpi_val (bn_obj s B) =? 0 then r = MBEDTLS_ERR_MPI_DIVISION_BY_ZERO /\ changes [] s s'
    else changes (dest Q R) s s' /\
      stored Q R (Z.quot (mpi_val (bn_obj s A)) (mpi_val (bn_obj s B))) (Z.rem (mpi_val (bn_obj s A)) (mpi_val (bn_obj s B)))
        (div_need Q R A s) s r s') s.
Proof.
  intros HAn HBn HA HB Hdest HQ. unfold mbedtls_mpi_div_mpi. apply wp_bind, wp_cmp_int; [done|done|done|]. rewrite Z.sub_0_r.
  intros s0 C0. assert (Hold : forall V, (V < bn_next s)%nat -> bn_obj s0 V = bn_obj s V) by (intros V HV; apply (ch_obj _ _ _ C0); [done|apply not_elem_of_nil]).
  destruct (Z.eqb_spec (Z.sgn (mpi_val (bn_obj s B))) 0) as [Hz|Hz].
  { apply wp_ret. rewrite (proj1 (Z.sgn_null_iff _) Hz). done. }
  destruct (Z.eqb_spec (mpi_val (bn_obj s B)) 0) as [Hz0|Hb0]; [by rewrite Hz0 in Hz|]. clear Hz.
  pose proof (ch_next _ _ _ C0) as N0. rewrite <- N0 in *. rewrite <- (Hold A), <- (Hold B) in * by done.
  apply (wp_five_locals _ (dest Q R)). set (X := bn_next s0). set (Y := S X). set (Zq := S Y). set (T1 := S Zq). set (T2 := S T1).
  set (s1 := set_next (S T2) s0). do 5 (apply wp_bind, wp_init). set (s2 := upd T2 _ _).
  pose proof (in_X X Y Zq T1 T2) as IX. pose proof (in_Y X Y Zq T1 T2) as IY. pose proof (in_Z X Y Zq T1 T2) as IZ.
  pose proof (in_T1 X Y Zq T1 T2) as I1. pose proof (in_T2 X Y Zq T1 T2) as I2. set (L := locals X Y Zq T1 T2) in *.
  assert (C2 : changes L s1 s2) by (unfold s2; repeat (etrans; [|eapply changes_weaken; [apply changes_upd|done]]); done).
  assert (Hl : forall V, V ∈ L <-> (X <= V < S T2)%nat).
  { intros V. unfold L, locals. rewrite !elem_of_cons, elem_of_nil. unfold T2, T1, Zq, Y. lia. }
  assert (Hlow : forall V, (V < X)%nat -> V ∉ L) by (intros V HV; rewrite Hl; lia).
  assert (H2 : forall V, (V < X)%nat -> bn_obj s2 V = bn_obj s V).
  { intros V HV. rewrite (ch_obj _ _ _ C2 V) by (cbn; (unfold T2, T1, Zq, Y; lia) || by apply Hlow). rewrite <- Hold by done. done. }
  assert (Hfresh : forall V, V ∈ L -> bn_obj s2 V = mkMpi 1 []).
  { intros V HV. apply Hl in HV. unfold s2. destruct (decide (V = T2)) as [->|]; [apply obj_upd|rewrite obj_upd_ne by done].
    destruct (decide (V = T1)) as [->|]; [apply obj_upd|rewrite obj_upd_ne by done].
    destruct (decide (V = Zq)) as [->|]; [apply obj_upd|rewrite obj_upd_ne by done].
    destruct (decide (V = Y)) as [->|]; [apply obj_upd|rewrite obj_upd_ne by done].
    destruct (decide (V = X)) as [->|]; [apply obj_upd|]. unfold T2, T1, Zq, Y in *. lia. }
  assert (N2 : bn_next s2 = S T2) by done.
  rewrite !(Hold A), !(Hold B) in * by done.
  assert (Hneed : div_need Q R A s2 = div_need Q R A s).
  { unfold div_need, room. rewrite H2 by done. destruct Q as [q|], R as [m|]; rewrite ?H2; try done; apply Hdest, in_dest; auto. }
  assert (Hdest2 : forall V, V ∈ dest Q R -> (V < bn_next s2)%nat /\ V ∉ L /\ mpi_ok (bn_obj s2 V)).
  { intros V HV. destruct (Hdest V HV) as [HVn HVok]. rewrite H2 by done. split; [rewrite N2; unfold T2, T1, Zq, Y; lia|].
    split; [by apply Hlow|done]. }
  set (a := mpi_val (bn_obj s A)) in *. set (b := mpi_val (bn_obj s B)) in *.
  set (body := fun r s' => changes (L ++ dest Q R) s2 s' /\ stored Q R (Z.quot a b) (Z.rem a b) (div_need Q R A s) s2 r s').
  assert (Hfinish : forall r s3, body r s3 -> wp exact (run! mbedtls_mpi_free X in run! mbedtls_mpi_free Y in run! mbedtls_mpi_free Zq in
      run! mbedtls_mpi_free T1 in run! mbedtls_mpi_free T2 in ret r)
    (fun r s' => changes (L ++ dest Q R) s1 s' /\ (changes (dest Q R) s0 (set_next X s') ->
       changes (dest Q R) s (set_next X s') /\ stored Q R (Z.quot a b) (Z.rem a b) (div_need Q R A s) s r (set_next X s'))) s3).
  { intros r s3 [C3 HS]. do 5 (apply wp_bind, wp_free). apply wp_ret. set (s4 := upd T2 _ _).
    assert (C4 : changes L s3 s4) by (unfold s4; repeat (etrans; [|eapply changes_weaken; [apply changes_upd|done]]); done).
    assert (HLd : L ⊆ L ++ dest Q R) by (intros V HV; apply elem_of_app; by left).
    split; [etrans; [eapply changes_mono; [exact HLd|exact C2]|]; etrans; [exact C3|by eapply changes_mono]|].
    intros C5. split; [etrans; [apply changes_nil, C0|exact C5]|].
    apply (stored_mono _ _ _ _ (div_need Q R A s) _ s2); [done| |].
    { intros H0. apply (ch_calloc _ _ _ C2). by apply (ch_calloc _ _ _ C0). }
    eapply stored_obj; [|exact HS]. intros V HV. destruct (Hdest2 V HV) as (HVn & HVl & _).
    change (bn_obj (set_next X s4) V) with (bn_obj s4 V). apply (ch_obj _ _ _ C4); [by rewrite (ch_next _ _ _ C3)|done]. }
  apply wp_bind. unfold wp at 1. rewrite cmp_abs_spec by (rewrite H2; done). rewrite !H2 by done. cbn [owp].
  apply wp_bind. eapply wp_mono; [|exact Hfinish].
  pose proof (magnitude_val _ HA) as Ma. pose proof (magnitude_val _ HB) as Mb. fold a in Ma. fold b in Mb. rewrite Ma, Mb.
  destruct (Z.ltb_spec (Z.sgn (Z.abs a - Z.abs b)) 0) as [Hlt|Hge].
  - eapply wp_mono; [apply (short_division Q R A s2)|].
    + rewrite N2. unfold T2, T1, Zq, Y. lia.
    + by rewrite H2.
    + intros V HV. by destruct (Hdest2 V HV) as (? & _ & ?).
    + intros q Hq. by destruct (HQ q Hq) as (? & _ & ?).
    + cbn beta. rewrite H2, Hneed by done. fold a. intros r s3 [C3 HS]. split; [eapply changes_mono; [|exact C3]; intros V HV; apply elem_of_app; by right|].
      assert (Hsm : Z.abs a < Z.abs b) by lia. rewrite (proj2 (Z.quot_small_iff a b Hb0) Hsm), (proj2 (Z.rem_small_iff a b Hb0) Hsm). done.
  - assert (Hab : 0 < magnitude (bn_obj s2 B) <= magnitude (bn_obj s2 A)) by (rewrite !H2, Ma, Mb by done; lia).
    eapply wp_mono; [apply (long_division A B X Y Zq T1 T2 s2)|].
    + unfold T2, T1, Zq, Y. lia.
    + intros V HV. apply Hl in HV. rewrite N2. lia.
    + exact Hfresh.
    + rewrite N2. unfold T2, T1, Zq, Y. lia.
    + rewrite N2. unfold T2, T1, Zq, Y. lia.
    + by apply Hlow.
    + by apply Hlow.
    + by rewrite H2.
    + by rewrite H2.
    + exact Hab.
    + exact Hdest2.
    + exact HQ.
    + cbn beta. rewrite Hneed, !H2 by done. unfold body.
      destruct (signed_division (mpi_s (bn_obj s A)) (mpi_s (bn_obj s B)) (magnitude (bn_obj s A)) (magnitude (bn_obj s B)) (proj1 HA) (proj1 HB)
        ltac:(by apply magnitude_nonneg) ltac:(rewrite H2 in Hab by done; apply Hab)) as [-> ->]. done.
Qed.

(** ** Reduction *)

Definition mod_need (R A B : nat) (s : bn) : Z :=
  Z.max (div_need None (Some R) A s) (zlen (mpi_p (bn_obj s B)) + 1).

Lemma nlimbs_sum a b n : 0 <= a -> 0 <= b -> 0 <= n -> nlimbs a <= n -> nlimbs b <= n -> nlimbs (a + b) <= n + 1.
Proof.
  intros Ha Hb Hn Ha1 Hb1. apply nlimbs_le; [lia|]. pose proof (lt_nlimbs a Ha). pose proof (lt_nlimbs b Hb).
  assert (base ^ nlimbs a <= base ^ n) by (by apply Z.pow_le_mono_r). assert (base ^ nlimbs b <= base ^ n) by (by apply Z.pow_le_mono_r).
  rewrite base_pow_succ by done. unfold base in *. lia.
Qed.

Lemma mod_mpi_computes R A B s : (R < bn_next s)%nat -> (A < bn_next s)%nat -> (B < bn_next s)%nat -> R <> B ->
  mpi_ok (bn_obj s R) -> mpi_ok (bn_obj s A) -> mpi_ok (bn_obj s B) ->
  wp exact (mbedtls_mpi_mod_mpi R A B) (fun r s' =>
    let a := mpi_val (bn_obj s A) in
    let b := mpi_val (bn_obj s B) in
    if b <? 0 then r = MBEDTLS_ERR_MPI_NEGATIVE_VALUE /\ changes [] s s'
    else if b =? 0 then r = MBEDTLS_ERR_MPI_DIVISION_BY_ZERO /\ changes [] s s'
    else computes R 0 (mod_need R A B s) (a mod b) s r s') s.
Proof.
  intros HRn HAn HBn HRB HR HA HB. cbv zeta. set (a := mpi_val (bn_obj s A)). set (b := mpi_val (bn_obj s B)).
  unfold mbedtls_mpi_mod_mpi. apply wp_bind, wp_cmp_int; [done|done|done|]. rewrite Z.sub_0_r. fold b. intros s0 C0.
  assert (H0 : forall V, (V < bn_next s)%nat -> bn_obj s0 V = bn_obj s V) by (intros V HV; apply (ch_obj _ _ _ C0); [done|apply not_elem_of_nil]).
  pose proof (ch_next _ _ _ C0) as N0. destruct (Z.ltb_spec (Z.sgn b) 0) as [Hneg|Hpos].
  { apply wp_ret. destruct (Z.ltb_spec b 0); [done|lia]. }
  destruct (Z.ltb_spec b 0); [lia|]. apply wp_chk.
  assert (Hneed : div_need None (Some R) A s0 = div_need None (Some R) A s) by (unfold div_need, room; by rewrite !H0).
  eapply wp_mono; [apply (div_mpi_spec None (Some R) A B s0)|]; rewrite ?N0, ?H0; try done.
  { intros V [HV|[= <-]]%in_dest; [done|]. rewrite H0 by done. by split. }
  cbn beta. fold a b. rewrite Hneed. set (need := div_need None (Some R) A s) in *. intros r s1 H1.
  destruct (Z.eqb_spec b 0) as [Hb0|Hb0].
  { destruct H1 as [-> C1]. change (MBEDTLS_ERR_MPI_DIVISION_BY_ZERO =? 0) with false. cbv iota. split; [done|by etrans]. }
  destruct H1 as [C1 [Hst HR1]]. change (dest None (Some R)) with [R] in *. destruct (Hst R ltac:(by left)) as [HoR HzR]. clear Hst.
  assert (C01 : changes [R] s s1) by (etrans; [by apply changes_nil|exact C1]).
  destruct HR1 as [(-> & _ & VR)|(-> & R1)].
  2: { change (MBEDTLS_ERR_MPI_ALLOC_FAILED =? 0) with false. cbv iota. split; [exact C01|]. split; [exact HoR|]. split; [split; [apply zlen_nonneg|unfold mod_need; fold need; lia]|]. right. split; [done|].
    destruct R1 as [R1|R1]; [left; intros Hc; by apply R1, (ch_calloc _ _ _ C0)|right; unfold mod_need; fold need; lia]. }
  change (0 =? 0) with true. cbv iota. specialize (VR R eq_refl). pose proof (Z.rem_bound_abs a b Hb0) as Hrem.
  pose proof (Z.quot_rem' a b) as Eqr. set (rr := Z.rem a b) in *.
  assert (Hmod : a mod b = if rr <? 0 then rr + b else rr).
  { symmetry. destruct (Z.ltb_spec rr 0).
    - apply (Z.mod_unique _ _ (Z.quot a b - 1)); lia.
    - apply (Z.mod_unique _ _ (Z.quot a b)); lia. }
  pose proof (ch_next _ _ _ C01) as N1. assert (EB : bn_obj s1 B = bn_obj s B) by (apply (changes_other R); congruence).
  apply wp_chk.
  assert (Hroom : need <= mod_need R A B s) by (unfold mod_need; fold need; lia).
  assert (Hl : forall s2, changes [] s1 s2 -> add_need R R B s2 <= mod_need R A B s).
  { intros s2 C2. assert (E2 : forall V, (V < bn_next s1)%nat -> bn_obj s2 V = bn_obj s1 V) by (intros V HV; apply (ch_obj _ _ _ C2); [done|apply not_elem_of_nil]).
    unfold add_need, mod_need. fold need. rewrite !E2, EB by congruence. rewrite !magnitude_val, VR by done. fold b.
    pose proof (nlimbs_zlen _ HB) as Hnb. rewrite magnitude_val in Hnb by done. fold b in Hnb. pose proof (zlen_nonneg (mpi_p (bn_obj s B))) as Hz.
    assert (nlimbs (Z.abs rr) <= nlimbs (Z.abs b)) by (apply nlimbs_mono; lia).
    pose proof (nlimbs_sum (Z.abs rr) (Z.abs b) (zlen (mpi_p (bn_obj s B))) ltac:(lia) ltac:(lia) Hz ltac:(lia) Hnb) as Hsum.
    assert (2 <= need) by (unfold need, div_need; pose proof (zlen_nonneg (mpi_p (bn_obj s A))); lia). lia. }
  (* the first loop *)
  eapply (wp_mono _ _ (computes R 0 (mod_need R A B s) (a mod b) s)).
  { cbn [loop]. apply wp_bind, wp_bind, wp_cmp_int; [congruence|done|done|]. rewrite VR, Z.sub_0_r. intros s2 C2.
    assert (E2 : forall V, (V < bn_next s1)%nat -> bn_obj s2 V = bn_obj s1 V) by (intros V HV; apply (ch_obj _ _ _ C2); [done|apply not_elem_of_nil]).
    assert (C02 : changes [R] s s2) by (etrans; [exact C01|by apply changes_nil]). rewrite Hmod. destruct (Z.ltb_spec rr 0) as [Hr|Hr].
    2: { destruct (Z.ltb_spec (Z.sgn rr) 0); [lia|]. apply wp_ret, wp_ret. split; [done|]. rewrite E2 by congruence. split; [done|]. split; [split; [apply zlen_nonneg|lia]|]. by left. }
    destruct (Z.ltb_spec (Z.sgn rr) 0); [|lia]. apply wp_bind.
    pose proof (add_mpi_spec R R B s2) as Hadd. rewrite (ch_next _ _ _ C2), !E2, EB, VR in Hadd by congruence. fold b in Hadd.
    eapply wp_mono; [apply Hadd; (done || congruence)|]. clear Hadd. cbn beta. intros r s3 (C3 & Ho3 & L3 & R3). apply wp_ret.
    assert (C03 : changes [R] s s3) by by etrans. destruct R3 as [(-> & V3)|(-> & R3)].
    - change (0 =? 0) with true. cbv iota. apply wp_bind, wp_bind, wp_cmp_int; [rewrite (ch_next _ _ _ C03); done|done|done|].
      rewrite V3, Z.sub_0_r. intros s4 C4. destruct (Z.ltb_spec (Z.sgn (rr + b)) 0); [lia|]. apply wp_ret, wp_ret.
      assert (E4 : bn_obj s4 R = bn_obj s3 R) by (apply (ch_obj _ _ _ C4); [rewrite (ch_next _ _ _ C03); done|apply not_elem_of_nil]).
      split; [etrans; [exact C03|by apply changes_nil]|]. rewrite E4. split; [done|]. split; [split; [apply zlen_nonneg|specialize (Hl s2 C2); lia]|]. by left.
    - change (MBEDTLS_ERR_MPI_ALLOC_FAILED =? 0) with false. cbv iota. apply wp_ret. split; [done|]. split; [done|]. split; [split; [apply zlen_nonneg|specialize (Hl s2 C2); lia]|]. right. split; [done|].
      destruct R3 as [R3|R3]; [left; intros Hc; by apply R3, (ch_calloc _ _ _ C02)|right].
      specialize (Hl s2 C2). lia. }
  cbn beta. intros r s2 (C2 & Ho2 & Hz2 & [(-> & V2)|(-> & R2)]).
  2: { change (MBEDTLS_ERR_MPI_ALLOC_FAILED =? 0) with false. cbv iota. split; [done|]. split; [done|]. split; [done|]. by right. }
  change (0 =? 0) with true. cbv iota.
  (* the second loop *)
  assert (EB2 : bn_obj s2 B = bn_obj s B) by (apply (changes_other R); congruence).
  cbn [loop]. apply wp_bind, wp_bind, wp_cmp_mpi; [done|by rewrite EB2|]. rewrite V2, EB2. fold b.
  pose proof (Z.mod_pos_bound a b ltac:(lia)). destruct (Z.leb_spec 0 (Z.sgn (a mod b - b))); [lia|].
  apply wp_ret, wp_ret. split; [done|]. split; [done|]. split; [done|]. by left.
Qed.

Lemma mod_mpi_spec R A B s : (R < bn_next s)%nat -> (A < bn_next s)%nat -> (B < bn_next s)%nat -> R <> B ->
  mpi_ok (bn_obj s R) -> mpi_ok (bn_obj s A) -> mpi_ok (bn_obj s B) ->
  wp exact (mbedtls_mpi_mod_mpi R A B) (fun r s' =>
    let a := mpi_val (bn_obj s A) in
    let b := mpi_val (bn_obj s B) in
    if b <? 0 then r = MBEDTLS_ERR_MPI_NEGATIVE_VALUE /\ changes [] s s'
    else if b =? 0 then r = MBEDTLS_ERR_MPI_DIVISION_BY_ZERO /\ changes [] s s'
    else changes [R] s s' /\ mpi_ok (bn_obj s' R) /\
      ((r = 0 /\ mpi_val (bn_obj s' R) = a mod b) \/
       (r = MBEDTLS_ERR_MPI_ALLOC_FAILED /\ short_of_memory (mod_need R A B s) s))) s.
Proof.
  intros HRn HAn HBn HRB HR HA HB. eapply wp_mono; [by apply mod_mpi_computes|]. cbv zeta beta. intros r s'.
  destruct (_ <? _); [done|]. destruct (_ =? _); [done|]. intros (C & Hok & _ & H). by split_and!.
Qed.

(** ** The remainder by a small integer *)

Lemma mod_half_spec b y x v : 0 < b <= 4294967296 -> 0 <= y < b -> 0 <= x < base -> y = v mod b ->
  mod_half b y x = (v * 4294967296 + x / 4294967296) mod b /\ 0 <= mod_half b y x < b.
Proof.
  intros Hb Hy Hx Ey. unfold mod_half. rewrite Z.shiftl_mul_pow2, Z.shiftr_div_pow2 by done. change (2 ^ 32) with 4294967296.
  assert (Hxd : 0 <= x / 4294967296 < 4294967296) by (unfold base in Hx; split; [apply Z.div_pos; lia|apply Z.div_lt_upper_bound; lia]).
  rewrite u64_id by lia. set (h := x / 4294967296) in *. set (w := h + y * 4294967296).
  assert (Ew : Z.lor (y * 4294967296) h = w) by (rewrite Z.lor_comm; exact (lor_add h y 32 ltac:(done) Hxd)). rewrite Ew.
  replace (w - w / b * b) with (w mod b) by (rewrite Z.mod_eq by lia; lia). split; [|apply Z.mod_pos_bound; lia].
  unfold w. rewrite Ey, (Z.add_comm h), <- Z.add_mod_idemp_l, Z.mul_mod_idemp_l, Z.add_mod_idemp_l by lia. done.
Qed.

Lemma mod_limbs_spec p b : Forall limb_ok p -> 0 < b <= 4294967296 -> forall n v y, (n <= length p)%nat -> y = v mod b ->
  mod_limbs n p b y = Done ((v * base ^ Z.of_nat n + limbs (take n p)) mod b).
Proof.
  intros Hp Hb. induction n as [|n IH]; intros v y Hn Ey; cbn [mod_limbs].
  { change (base ^ Z.of_nat 0) with 1. change (limbs (take 0 p)) with 0. by rewrite Z.mul_1_r, Z.add_0_r, Ey. }
  destruct (lookup_lt_is_Some_2 p n) as [x Hx]; [lia|]. rewrite (aload_some p n x Hx). cbn [obind].
  pose proof (limb_lookup _ _ _ Hp Hx) as Hxl. pose proof (Z.mod_pos_bound v b ltac:(lia)) as Hy.
  destruct (mod_half_spec b y x v Hb ltac:(by rewrite Ey) Hxl Ey) as [E1 B1].
  set (x2 := u64 (Z.shiftl x 32)). assert (Ex2 : x2 / 4294967296 = x mod 4294967296 /\ 0 <= x2 < base).
  { unfold x2, u64. rewrite Z.shiftl_mul_pow2 by done. change (2 ^ 32) with 4294967296. split; [|by apply Z.mod_pos_bound].
    change 18446744073709551616 with (4294967296 * 4294967296) at 1. rewrite Z.mul_mod_distr_r by lia. by rewrite Z.div_mul. }
  destruct Ex2 as [Ex2 Bx2]. destruct (mod_half_spec b (mod_half b y x) x2 _ Hb B1 Bx2 E1) as [E2 _].
  rewrite (IH ((v * 4294967296 + x / 4294967296) * 4294967296 + x2 / 4294967296)) by (lia || exact E2).
  rewrite (limbs_take_snoc p n x Hx). replace (Z.of_nat (S n)) with (Z.of_nat n + 1) by lia. rewrite base_pow_succ by lia.
  rewrite Ex2. do 2 f_equal. pose proof (Z.div_mod x 4294967296 ltac:(lia)) as Ed.
  replace ((v * 4294967296 + x / 4294967296) * 4294967296 + x mod 4294967296) with (v * base + x) by (unfold base; lia). ring.
Qed.

(** The remainder of [A] by a positive [b] of at most 32 bits; an [A] without limbs must not be reduced by 2. *)
Lemma mod_int_spec A b s : mpi_ok (bn_obj s A) -> b <= 4294967296 -> (b = 2 -> mpi_p (bn_obj s A) <> []) ->
  mbedtls_mpi_mod_int A b s = Done
    (if b =? 0 then (MBEDTLS_ERR_MPI_DIVISION_BY_ZERO, 0) else if b <? 0 then (MBEDTLS_ERR_MPI_NEGATIVE_VALUE, 0)
     else (0, mpi_val (bn_obj s A) mod b), s).
Proof.
  intros HA Hb H2. apply wp_exact_eq. unfold mbedtls_mpi_mod_int. destruct (Z.eqb_spec b 0) as [->|Hb0]; [by apply wp_ret|].
  destruct (Z.ltb_spec b 0); [by apply wp_ret|]. destruct (Z.eqb_spec b 1) as [->|Hb1]; [apply wp_ret; by rewrite Z.mod_1_r|].
  pose proof HA as (Hsg & Hp & _). destruct (Z.eqb_spec b 2) as [->|Hb2].
  { specialize (H2 eq_refl). unfold mpi_val, magnitude. destruct (mpi_p (bn_obj s A)) as [|x p] eqn:E; [done|].
    apply wp_bind, (wp_limb _ _ 0 _ _ x); [by rewrite E|]. apply wp_ret. split; [|done]. f_equal.
    change 1 with (Z.ones 1) at 1. rewrite Z.land_ones by done. change (2 ^ 1) with 2. cbn [limbs].
    assert (Eb : base * limbs p = 2 * (9223372036854775808 * limbs p)) by (unfold base; lia).
    pose proof (Z.div_mod x 2 ltac:(done)) as Ex. pose proof (Z.mod_pos_bound x 2 ltac:(done)). rewrite Eb.
    destruct Hsg as [->| ->].
    - apply (Z.mod_unique _ _ (x / 2 + 9223372036854775808 * limbs p)); lia.
    - apply (Z.mod_unique _ _ (- (x / 2) - x mod 2 - 9223372036854775808 * limbs p)); lia. }
  apply wp_bind, wp_mpi_at, wp_bind, wp_lift.
  rewrite (mod_limbs_spec _ b Hp ltac:(lia) _ 0) by (done || (symmetry; apply Z.mod_0_l; lia)).
  apply owp_done, wp_ret. split; [|done]. f_equal. rewrite firstn_all, Z.mul_0_l, Z.add_0_l. unfold mpi_val, magnitude.
  set (m := limbs (mpi_p (bn_obj s A))). pose proof (Z.mod_pos_bound m b ltac:(lia)). pose proof (Z.div_mod m b Hb0).
  destruct Hsg as [->| ->].
  - by rewrite Z.mul_1_l.
  - change (-1 <? 0) with true. destruct (Z.eqb_spec (m mod b) 0) as [Hz|Hz]; cbn [andb negb].
    + rewrite Hz. apply (Z.mod_unique _ _ (- (m / b))); lia.
    + apply (Z.mod_unique _ _ (- (m / b) - 1)); lia.
Qed.

(** With a larger divisor the half-limb steps overflow. *)
Example mod_int_overflow :
  let s := div_store [0; 1] [] in
  let b := 2 ^ 40 + 1 in
  mpi_val (bn_obj s 0) mod b = 16777216 /\
  (let! (r, _) := mbedtls_mpi_mod_int 0 b s in Done r) = Done (0, 0).
Proof. by split; vm_compute. Qed.

(** With the divisor itself as the destination the residue is subtracted from itself for ever: however
    often the loop of [mbedtls_mpi_mod_mpi] goes round, it is not left with the code 0. *)
Definition three_and_five : bn :=
  mkBn (<[0%nat := mkMpi 1 [3]]> (<[1%nat := mkMpi 1 [5]]> (fun _ => mkMpi 1 []))) 4 [].

Example mod_mpi_into_divisor : mbedtls_mpi_mod_mpi 1 0 1 three_and_five = NoFuel.
Proof. by vm_compute. Qed.

Lemma mod_mpi_into_divisor_forever fuel R s : (R < bn_next s)%nat -> mpi_ok (bn_obj s R) ->
  wp partial (loop fuel (fun _ : unit =>
    do! c := mbedtls_mpi_cmp_mpi R R in
    if 0 <=? c then do! r := mbedtls_mpi_sub_mpi R R R in ret (if r =? 0 then inl tt else inr r)
    else ret (inr 0)) tt) (fun r _ => r <> 0) s.
Proof.
  intros HR Hok. apply (wp_loop partial (fun _ s => (R < bn_next s)%nat /\ mpi_ok (bn_obj s R)) (fun _ _ => O)); [done| |done].
  clear. intros [] s [HR Hok]. apply wp_bind, wp_cmp_mpi; [done|done|]. rewrite Z.sub_diag. change (0 <=? Z.sgn 0) with true.
  cbv iota. apply wp_bind. eapply wp_of_exact; [by apply sub_mpi_spec|]. intros r s' (C & Hok' & _ & Hr).
  pose proof (ch_next _ _ _ C). apply wp_ret. destruct Hr as [(-> & _)|(-> & _)]; cbn; [|done]. by split; [split; [lia|]|].
Qed.

(** The shortcut for 2 reads the lowest limb of a number that may have none. *)
Example mod_int_no_limbs : mbedtls_mpi_mod_int 2 2 three_and_five = Undef.
Proof. by vm_compute. Qed.

(** When the quotient is stored into the dividend its sign is lost: the sign is read after the copy. *)
Example quotient_over_dividend :
  let s := div_store [7] [2] in
  Z.quot (mpi_val (bn_obj s 0)) (mpi_val (bn_obj s 1)) = -3 /\
  (let! (r, s') := mbedtls_mpi_div_mpi (Some 0%nat) None 0 1 s in Done (r, mpi_val (bn_obj s' 0))) = Done (0, 3).
Proof. by split; vm_compute. Qed.

(** ** Division is exact *)

(** C22: division is exact, for well-formed numbers of at most 10000 limbs.  [mbedtls_mpi_div_mpi] refuses a
    divisor of 0; otherwise it ends, changes no object but the quotient and the remainder, and stores the
    quotient rounded towards 0 and the remainder with the sign of the dividend, or returns ALLOC_FAILED because
    [calloc] failed or more than 10000 limbs would be needed; both stay well-formed.  The remainder may be
    stored over an operand, the quotient over neither operand nor the remainder ([quotient_over_dividend]).
    [mbedtls_mpi_mod_mpi] refuses a divisor that is not positive and stores the residue in [0, B), provided the
    destination is not the divisor B itself ([mod_mpi_into_divisor]: it then never ends).
    [mbedtls_mpi_mod_int] refuses 0 and negative divisors and computes the residue for a divisor of at most
    2^32 ([mod_int_overflow]), provided that for the divisor 2 the number has a limb ([mod_int_no_limbs]:
    it otherwise reads through a null pointer). *)
Theorem mpi_division (Q R : option nat) (M A B : nat) (d : Z) (s : bn) :
  (A < bn_next s)%nat -> (B < bn_next s)%nat -> mpi_ok (bn_obj s A) -> mpi_ok (bn_obj s B) ->
  (forall V, V ∈ dest Q R -> (V < bn_next s)%nat /\ mpi_ok (bn_obj s V)) ->
  (forall q, Q = Some q -> q <> A /\ q <> B /\ R <> Some q) ->
  (M < bn_next s)%nat -> M <> B -> mpi_ok (bn_obj s M) -> d <= 2 ^ 32 -> (d = 2 -> mpi_p (bn_obj s A) <> []) ->
  let a := mpi_val (bn_obj s A) in
  let b := mpi_val (bn_obj s B) in
  wp exact (mbedtls_mpi_div_mpi Q R A B) (fun r s' =>
    if b =? 0 then r = MBEDTLS_ERR_MPI_DIVISION_BY_ZERO /\ changes [] s s'
    else changes (dest Q R) s s' /\ stored Q R (Z.quot a b) (Z.rem a b) (div_need Q R A s) s r s') s /\
  wp exact (mbedtls_mpi_mod_mpi M A B) (fun r s' =>
    if b <? 0 then r = MBEDTLS_ERR_MPI_NEGATIVE_VALUE /\ changes [] s s'
    else if b =? 0 then r = MBEDTLS_ERR_MPI_DIVISION_BY_ZERO /\ changes [] s s'
    else changes [M] s s' /\ mpi_ok (bn_obj s' M) /\
      ((r = 0 /\ mpi_val (bn_obj s' M) = a mod b) \/
       (r = MBEDTLS_ERR_MPI_ALLOC_FAILED /\ short_of_memory (mod_need M A B s) s))) s /\
  mbedtls_mpi_mod_int A d s = Done
    (if d =? 0 then (MBEDTLS_ERR_MPI_DIVISION_BY_ZERO, 0) else if d <? 0 then (MBEDTLS_ERR_MPI_NEGATIVE_VALUE, 0)
     else (0, a mod d), s).
Proof.
  intros HAn HBn HA HB Hdest HQ HMn HMB HM Hd H2. split; [by apply div_mpi_spec|]. split; [by apply mod_mpi_spec|].
  by apply mod_int_spec.
Qed.

Lemma div_store_ok V : mpi_ok (bn_obj (div_store [7; 3] [base - 1]) V).
Proof.
  unfold div_store. cbn [bn_obj]. destruct V as [|[|V]]; (split; [cbn; auto|split; [repeat constructor; done|done]]).
Qed.

Lemma mpi_division_witness :
  let s := div_store [7; 3] [base - 1] in
  let a := mpi_val (bn_obj s 0) in
  let b := mpi_val (bn_obj s 1) in
  wp exact (mbedtls_mpi_div_mpi (Some 2%nat) (Some 0%nat) 0 1) (fun r s' =>
    if b =? 0 then r = MBEDTLS_ERR_MPI_DIVISION_BY_ZERO /\ changes [] s s'
    else changes (dest (Some 2%nat) (Some 0%nat)) s s' /\
      stored (Some 2%nat) (Some 0%nat) (Z.quot a b) (Z.rem a b) (div_need (Some 2%nat) (Some 0%nat) 0 s) s r s') s /\
  wp exact (mbedtls_mpi_mod_mpi 0 0 1) (fun r s' =>
    if b <? 0 then r = MBEDTLS_ERR_MPI_NEGATIVE_VALUE /\ changes [] s s'
    else if b =? 0 then r = MBEDTLS_ERR_MPI_DIVISION_BY_ZERO /\ changes [] s s'
    else changes [0%nat] s s' /\ mpi_ok (bn_obj s' 0) /\
      ((r = 0 /\ mpi_val (bn_obj s' 0) = a mod b) \/
       (r = MBEDTLS_ERR_MPI_ALLOC_FAILED /\ short_of_memory (mod_need 0 0 1 s) s))) s /\
  mbedtls_mpi_mod_int 0 10 s = Done
    (if 10 =? 0 then (MBEDTLS_ERR_MPI_DIVISION_BY_ZERO, 0) else if 10 <? 0 then (MBEDTLS_ERR_MPI_NEGATIVE_VALUE, 0)
     else (0, a mod 10), s).
Proof.
  refine (mpi_division (Some 2%nat) (Some 0%nat) 0 0 1 10 (div_store [7; 3] [base - 1]) _ _ (div_store_ok 0) (div_store_ok 1)
    _ _ _ _ (div_store_ok 0) _ _).
  - cbn; lia.
  - cbn; lia.
  - intros V [[= <-]|[= <-]]%in_dest; (split; [cbn; lia|apply div_store_ok]).
  - by intros q [= <-].
  - cbn; lia.
  - done.
  - done.
  - done.
Defined.
