(* ===== verification/MpiFrame.v ===== *)
(** * Multi-precision integers: local variables

    The functions of external_libs/mbedTLS/library/bignum.c that work on several local integers: how they are
    declared, initialised and freed, their loops, and a frame - the values of the local variables, the rest of
    the store as it was - against which each call is one step. *)

From stdpp Require Import functions.
From S2P Require Import Prelude Mpi MpiArith MpiDiv.

(** [mbedtls_mpi T; mbedtls_mpi_init( &T ); ... cleanup: mbedtls_mpi_free( &T );] *)
Definition with_mpi (k : nat -> M bn Z) : M bn Z :=
  local_mpi (fun T =>
    run! mbedtls_mpi_init T in
    do! r := k T in
    run! mbedtls_mpi_free T in
    ret r).

(** [while( test ) { ... }] with calls whose code is checked. *)
Definition chk_while (fuel : nat) (test : M bn bool) (body : M bn Z) : M bn Z :=
  loop fuel (fun _ =>
    do! b := test in
    if (b : bool) then do! r := body in ret (if r =? 0 then inl tt else inr r)
    else ret (inr 0)) tt.

(** [n] is a measure of the rounds that can still come. *)
Lemma wp_chk_while (I : nat -> bn -> Prop) (Q : Z -> bn -> Prop) test body : forall n fuel s, I n s -> (n < fuel)%nat ->
  (forall n s, I n s -> wp exact test (fun b s1 => if (b : bool) then
      wp exact body (fun r s2 => if r =? 0 then exists n', (n' < n)%nat /\ I n' s2 else Q r s2) s1
    else Q 0 s1) s) ->
  wp exact (chk_while fuel test body) Q s.
Proof.
  intros n fuel s HI Hf Hstep. revert n s HI Hf. induction fuel as [|fuel IH]; intros n s HI Hf; [lia|].
  unfold chk_while. cbn [loop]. apply wp_bind, wp_bind. eapply wp_mono; [exact (Hstep n s HI)|]. cbn beta. intros b s1 Hb.
  destruct b; [|by apply wp_ret, wp_ret]. apply wp_bind. eapply wp_mono; [exact Hb|]. cbn beta. intros r s2 Hr. apply wp_ret.
  destruct (r =? 0); [|by apply wp_ret]. destruct Hr as (n' & Hn & HI'). apply (IH n' s2 HI'). lia.
Qed.

(** The last call of a body. *)
Lemma wp_last md (m : M bn Z) (Q : Z -> bn -> Prop) s : wp md (chk! m in ret 0) Q s -> wp md m Q s.
Proof. unfold wp, bind, ret. destruct (m s) as [[r s']| |]; cbn; [|done..]. by destruct (Z.eqb_spec r 0) as [->|]. Qed.

(** ** Frames *)

Section frame.
Context (s0 : bn) (cap : Z).
#[local] Notation b0 := (bn_next s0).

(** [T] is well-formed, has the value [fst e], at least [snd e] and at most [cap] limbs. *)
Definition var (s : bn) (T : nat) (e : Z * Z) : Prop :=
  mpi_ok (bn_obj s T) /\ mpi_val (bn_obj s T) = fst e /\ snd e <= zlen (mpi_p (bn_obj s T)) <= cap.

(** The local variables [b0], [b0 + 1], ... are those of [l], the objects below except [W] as in [s0]. *)
Record frame (W : list nat) (l : list (Z * Z)) (s : bn) : Prop := {
  fr_next : bn_next s = (b0 + length l)%nat;
  fr_old : forall Y, (Y < b0)%nat -> Y ∉ W -> bn_obj s Y = bn_obj s0 Y;
  fr_calloc : bn_calloc s0 = [] -> bn_calloc s = [];
  fr_var : forall i e, l !! i = Some e -> var s (b0 + i) e }.

(** What a function ends with: the result is in [X]. *)
Definition result (X : nat) (n : nat) (Post : Z -> mbedtls_mpi -> Prop) (r : Z) (s : bn) : Prop :=
  exists l, length l = n /\ frame [X] l s /\ Post r (bn_obj s X).

Lemma frame_start : frame [] [] s0.
Proof. split; [cbn; lia|done|done|by intros [|i] e]. Qed.

Lemma frame_write X l s : frame [] l s -> frame [X] l s.
Proof. intros [N O C V]. split; [done| |done|done]. intros Y HY _. apply O; [done|by intros ?%elem_of_nil]. Qed.

Lemma frame_changes X Post r s : result X 0 Post r s -> changes [X] s0 s /\ Post r (bn_obj s X).
Proof. intros ([|] & Hl & [N O C V] & HP); [|done]. split; [|done]. split; [cbn in N; lia|done|done]. Qed.

Lemma frame_same l s s' : frame [] l s -> changes [] s s' -> frame [] l s'.
Proof.
  intros [N O C V] [N' O' C']. split; [congruence| |auto|].
  - intros Y HY HW. rewrite O' by (done || lia). by apply O.
  - intros i e Hi. specialize (V i e Hi). unfold var in *. pose proof (lookup_lt_Some _ _ _ Hi). rewrite O'; [done|lia|by intros ?%elem_of_nil].
Qed.

(** A local variable gets a new value. *)
Lemma frame_set l s s' i e : frame [] l s -> (i < length l)%nat -> changes [(b0 + i)%nat] s s' -> var s' (b0 + i) e -> frame [] (<[i := e]> l) s'.
Proof.
  intros [N O C V] Hi [N' O' C'] He. split; [by rewrite length_insert, N'| |auto|].
  - intros Y HY HW. rewrite O'; [by apply O|lia|]. intros ->%list_elem_of_singleton. lia.
  - intros j e' Hj. destruct (decide (j = i)) as [->|Hne].
    + rewrite list_lookup_insert_eq in Hj by done. by injection Hj as <-.
    + rewrite list_lookup_insert_ne in Hj by done. specialize (V j e' Hj). pose proof (lookup_lt_Some _ _ _ Hj). unfold var in *.
      rewrite O'; [done|lia|]. intros ?%list_elem_of_singleton. lia.
Qed.

Lemma frame_local l s T : frame [] l s -> T = (b0 + length l)%nat -> 0 <= cap ->
  frame [] (l ++ [(0, 0)]) (upd T (mkMpi 1 []) (set_next (S T) s)).
Proof.
  intros [N O C V] -> Hcap. split; cbn [upd set_obj set_next bn_next bn_calloc].
  - rewrite length_app. cbn [length]. lia.
  - intros Y HY HW. rewrite obj_upd_ne by lia. by apply O.
  - done.
  - intros i e Hi. unfold var. destruct (decide (i = length l)) as [->|Hne].
    + rewrite lookup_app_r, Nat.sub_diag in Hi by done. injection Hi as <-. rewrite obj_upd. unfold mpi_val, magnitude. cbn.
      split; [|split; [done|change (zlen []) with 0; lia]]. split; [by left|]. split; [apply Forall_nil_2|done].
    + pose proof (lookup_lt_Some _ _ _ Hi) as Hlt. rewrite length_app in Hlt. cbn [length] in Hlt.
      rewrite lookup_app_l in Hi by lia. rewrite obj_upd_ne by lia. by apply V.
Qed.

Lemma with_mpi_frame X l s k Post : (X < b0)%nat -> frame [] l s -> 0 <= cap ->
  (forall s', frame [] (l ++ [(0, 0)]) s' -> wp exact (k (b0 + length l)%nat) (result X (S (length l)) Post) s') ->
  wp exact (with_mpi k) (result X (length l) Post) s.
Proof.
  intros HX F Hcap Hk. unfold with_mpi, local_mpi. apply wp_bind, wp_gets, wp_bind, wp_modify, wp_bind.
  rewrite (fr_next _ _ _ F). apply wp_bind, wp_init, wp_bind.
  eapply wp_mono; [apply Hk, frame_local; done|]. cbn beta. intros r s1 (l1 & Hl1 & [N O C V] & HP).
  apply wp_bind, wp_free, wp_ret, wp_bind, wp_modify, wp_ret. exists (take (length l) l1). rewrite length_take. split; [lia|].
  unfold upd, set_obj, set_next. cbn [bn_obj bn_next bn_calloc]. split.
  - split; cbn [bn_next bn_calloc].
    + rewrite length_take. lia.
    + intros Y HY HW. cbn [bn_obj]. rewrite fn_lookup_insert_ne by lia. by apply O.
    + done.
    + intros i e Hi. rewrite lookup_take_Some in Hi. destruct Hi as [Hi Hlt]. unfold var. cbn [bn_obj].
      rewrite fn_lookup_insert_ne by lia. by apply V.
  - rewrite fn_lookup_insert_ne by lia. done.
Qed.

(** ** Steps *)

(** An object that is not a local variable. *)
Lemma frame_old l s Y v lo : frame [] l s -> (Y < b0)%nat -> var s0 Y (v, lo) -> var s Y (v, lo).
Proof. intros F HY H. unfold var. rewrite (fr_old _ _ _ F Y HY); [done|by intros ?%elem_of_nil]. Qed.

Lemma short_frame W l s need : frame W l s -> need <= cap -> short_of_memory need s -> short_of_memory cap s0.
Proof. intros F Hn [H|H]; [left; intros H0; by apply H, (fr_calloc _ _ _ F)|right; lia]. Qed.

Context (Q : Z -> bn -> Prop).
Definition fails (n : nat) : Prop := forall l s, length l = n -> frame [] l s -> short_of_memory cap s0 -> Q MBEDTLS_ERR_MPI_ALLOC_FAILED s.

Lemma frame_op l s i m k v lo low need : frame [] l s -> fails (length l) -> (i < length l)%nat ->
  wp exact m (computes (b0 + i) low need v s) s -> need <= cap -> lo <= low ->
  (forall s', frame [] (<[i := (v, lo)]> l) s' -> wp exact k Q s') -> wp exact (chk! m in k) Q s.
Proof.
  intros F Hf Hi Hm Hneed Hlo Hk. apply wp_chk. eapply wp_mono; [exact Hm|]. cbn beta. intros r s1 (C & Hok & Hz & [(-> & Hv)|(-> & Hs)]).
  - apply Hk. eapply frame_set; [done..|]. unfold var. cbn [fst snd]. split; [done|]. split; [done|lia].
  - eapply (Hf (<[i := (mpi_val (bn_obj s1 (b0 + i)), 0)]> l)); [by rewrite length_insert| |by eapply short_frame].
    eapply frame_set; [done..|]. unfold var. cbn [fst snd]. split; [done|]. split; [done|]. pose proof (zlen_nonneg (mpi_p (bn_obj s1 (b0 + i)))). lia.
Qed.

Lemma fits_nlimbs v : 0 <= cap -> 0 <= v < base ^ cap -> nlimbs v <= cap.
Proof. intros Hc Hv. by apply nlimbs_le. Qed.

Lemma var_magnitude s T e : var s T e -> magnitude (bn_obj s T) = Z.abs (fst e).
Proof. intros (Hok & Hv & _). by rewrite magnitude_val, Hv. Qed.

Lemma var_low s T V e eV : var s T e -> var s V eV -> 1 <= snd eV -> snd e <= low1 T V s.
Proof. intros (_ & _ & Hz) (_ & _ & HzV) H1. unfold low1. destruct (mpi_p (bn_obj s V)) eqn:E; [rewrite zlen_nil in HzV; lia|lia]. Qed.

Lemma var_low0 s T V : 0 <= low1 T V s.
Proof. apply low1_le. Qed.

Context (Hcap : 1 <= cap).
(** Whether a result keeps its limbs: copying an operand without limbs frees them. *)
Definition kept (la lb lo : Z) : Z := if (0 <? la) && (0 <? lb) then lo else 0.

Lemma frame_in l s i e : frame [] l s -> l !! i = Some e -> var s (b0 + i) e /\ (b0 + i < bn_next s)%nat /\ (i < length l)%nat.
Proof. intros F Hi. pose proof (lookup_lt_Some _ _ _ Hi). split; [by apply (fr_var _ _ _ F)|]. rewrite (fr_next _ _ _ F). lia. Qed.

Lemma var_room s T e v : var s T e -> 0 <= v < base ^ cap -> Z.max (Z.max 1 (zlen (mpi_p (bn_obj s T)))) (nlimbs v) <= cap.
Proof. intros (_ & _ & Hz) Hv. pose proof (fits_nlimbs v ltac:(lia) Hv). lia. Qed.

Lemma kept_low s T A B e ea eb : var s T e -> var s A ea -> var s B eb -> 0 <= snd e -> kept (snd ea) (snd eb) (snd e) <= low2 T A B s.
Proof.
  intros HT HA HB He. unfold kept, low2. pose proof (var_low0 s T A). pose proof (var_low0 s T B).
  destruct (Z.ltb_spec 0 (snd ea)), (Z.ltb_spec 0 (snd eb)); cbn [andb]; [|lia..].
  pose proof (var_low _ _ _ _ _ HT HA ltac:(lia)). pose proof (var_low _ _ _ _ _ HT HB ltac:(lia)). lia.
Qed.

Lemma frame_add l s i k A B v lo a la b lb : frame [] l s -> fails (length l) -> l !! i = Some (v, lo) -> var s A (a, la) -> var s B (b, lb) ->
  (A < bn_next s)%nat -> (B < bn_next s)%nat -> 0 <= lo -> Z.abs a + Z.abs b < base ^ cap ->
  (forall s', frame [] (<[i := (a + b, kept la lb lo)]> l) s' -> wp exact k Q s') -> wp exact (chk! mbedtls_mpi_add_mpi (b0 + i) A B in k) Q s.
Proof.
  intros F Hf Hi HA HB HAn HBn Hlo Hfit Hk. destruct (frame_in _ _ _ _ F Hi) as (HT & HTn & Hil).
  eapply frame_op; [exact F|exact Hf|exact Hil|apply add_mpi_spec; try done; [apply HT|apply HA|apply HB]| |by eapply (kept_low s (b0 + i) A B (v, lo) (a, la) (b, lb))|].
  - unfold add_need. rewrite (var_magnitude _ _ _ HA), (var_magnitude _ _ _ HB). eapply var_room; [done|cbn [fst]; lia].
  - rewrite (proj1 (proj2 HA)), (proj1 (proj2 HB)). exact Hk.
Qed.

Lemma frame_sub l s i k A B v lo a la b lb : frame [] l s -> fails (length l) -> l !! i = Some (v, lo) -> var s A (a, la) -> var s B (b, lb) ->
  (A < bn_next s)%nat -> (B < bn_next s)%nat -> 0 <= lo -> Z.abs a + Z.abs b < base ^ cap ->
  (forall s', frame [] (<[i := (a - b, kept la lb lo)]> l) s' -> wp exact k Q s') -> wp exact (chk! mbedtls_mpi_sub_mpi (b0 + i) A B in k) Q s.
Proof.
  intros F Hf Hi HA HB HAn HBn Hlo Hfit Hk. destruct (frame_in _ _ _ _ F Hi) as (HT & HTn & Hil).
  eapply frame_op; [exact F|exact Hf|exact Hil|apply sub_mpi_spec; try done; [apply HT|apply HA|apply HB]| |by eapply (kept_low s (b0 + i) A B (v, lo) (a, la) (b, lb))|].
  - unfold add_need. rewrite (var_magnitude _ _ _ HA), (var_magnitude _ _ _ HB). eapply var_room; [done|cbn [fst]; lia].
  - rewrite (proj1 (proj2 HA)), (proj1 (proj2 HB)). exact Hk.
Qed.

(** The difference of magnitudes, the larger first. *)
Lemma frame_sub_abs l s i k A B v lo a la b lb : frame [] l s -> fails (length l) -> l !! i = Some (v, lo) -> var s A (a, la) -> var s B (b, lb) ->
  (A < bn_next s)%nat -> (B < bn_next s)%nat -> 0 <= lo -> Z.abs b <= Z.abs a -> Z.abs a + Z.abs b < base ^ cap ->
  (forall s', frame [] (<[i := (Z.abs a - Z.abs b, kept la lb lo)]> l) s' -> wp exact k Q s') -> wp exact (chk! mbedtls_mpi_sub_abs (b0 + i) A B in k) Q s.
Proof.
  intros F Hf Hi HA HB HAn HBn Hlo Hab Hfit Hk. destruct (frame_in _ _ _ _ F Hi) as (HT & HTn & Hil).
  pose proof (sub_abs_spec (b0 + i) A B s HTn HAn HBn (proj1 HT) (proj1 HA) (proj1 HB)) as Hs. rewrite (var_magnitude _ _ _ HA), (var_magnitude _ _ _ HB) in Hs. cbn [fst] in Hs.
  eapply frame_op; [exact F|exact Hf|exact Hil| | |by eapply (kept_low s (b0 + i) A B (v, lo) (a, la) (b, lb))|exact Hk].
  - eapply wp_mono; [exact Hs|]. cbn beta. intros r s'. by rewrite (proj2 (Z.ltb_ge _ _)) by lia.
  - unfold add_need. rewrite (var_magnitude _ _ _ HA), (var_magnitude _ _ _ HB). eapply var_room; [done|cbn [fst]; lia].
Qed.

Lemma frame_copy l s i k V v lo a la : frame [] l s -> fails (length l) -> l !! i = Some (v, lo) -> var s V (a, la) ->
  (b0 + i)%nat <> V -> Z.abs a < base ^ cap ->
  (forall s', frame [] (<[i := (a, 0)]> l) s' -> wp exact k Q s') -> wp exact (chk! mbedtls_mpi_copy (b0 + i) V in k) Q s.
Proof.
  intros F Hf Hi HV Hne Hfit Hk. destruct (frame_in _ _ _ _ F Hi) as (HT & HTn & Hil).
  eapply frame_op; [exact F|exact Hf|exact Hil|apply copy_computes; try done; [apply HT|apply HV]| |apply low1_le|].
  - rewrite (var_magnitude _ _ _ HV). eapply var_room; [done|cbn [fst]; lia].
  - rewrite (proj1 (proj2 HV)). exact Hk.
Qed.

Lemma frame_lset l s i k z v lo : frame [] l s -> fails (length l) -> l !! i = Some (v, lo) -> sint z ->
  (forall s', frame [] (<[i := (z, 1)]> l) s' -> wp exact k Q s') -> wp exact (chk! mbedtls_mpi_lset (b0 + i) z in k) Q s.
Proof.
  intros F Hf Hi Hz Hk. destruct (frame_in _ _ _ _ F Hi) as (HT & HTn & Hil).
  assert (Hs : wp exact (mbedtls_mpi_lset (b0 + i) z) (computes (b0 + i) 0 (Z.max 1 (zlen (mpi_p (bn_obj s (b0 + i))))) z s) s).
  { eapply wp_mono; [apply lset_computes; [done|apply HT]|]. cbn beta. intros r s'. apply computes_room; [apply zlen_nonneg|done]. }
  apply wp_chk. eapply wp_mono; [exact (wp_conj _ _ _ _ _ Hs (lset_spec (b0 + i) z s Hz (proj1 HT)))|]. cbn beta.
  intros r s1 [(C & Hok & HL & HR) [_ HE]]. destruct HR as [(-> & HV)|(-> & HR)].
  - change (0 =? 0) with true. cbv iota. apply Hk. eapply frame_set; [done..|]. split; [done|]. cbn [fst snd]. split; [done|].
    destruct HE as [(_ & E)|(H & _)]; [|by unfold MBEDTLS_ERR_MPI_ALLOC_FAILED in H]. rewrite E in *. cbn [mpi_p] in *. rewrite zlen_cons in *.
    pose proof (zlen_nonneg (replicate (pred (length (mpi_p (bn_obj s (b0 + i))))) 0)). destruct HT as (_ & _ & HT). lia.
  - change (MBEDTLS_ERR_MPI_ALLOC_FAILED =? 0) with false. cbv iota.
    eapply (Hf (<[i := (mpi_val (bn_obj s1 (b0 + i)), 0)]> l)); [by rewrite length_insert| |].
    + eapply frame_set; [done..|]. split; [done|]. cbn [fst snd]. split; [done|]. destruct HT as (_ & _ & HT). lia.
    + eapply short_frame; [done| |done]. destruct HT as (_ & _ & HT). lia.
Qed.

Lemma frame_shift_r l s i k c v lo : frame [] l s -> fails (length l) -> l !! i = Some (v, lo) -> 0 <= c ->
  (forall s', frame [] (<[i := (Z.sgn v * (Z.abs v / 2 ^ c), lo)]> l) s' -> wp exact k Q s') -> wp exact (chk! mbedtls_mpi_shift_r (b0 + i) c in k) Q s.
Proof.
  intros F Hf Hi Hc Hk. destruct (frame_in _ _ _ _ F Hi) as (HT & HTn & Hil). destruct HT as (Hok & Hv & Hz).
  eapply frame_op; [exact F|exact Hf|exact Hil|by apply shift_r_spec|lia|apply Hz|]. cbn [fst snd] in *.
  rewrite magnitude_val, Hv by done. replace (mpi_s (bn_obj s (b0 + i)) * (Z.abs v / 2 ^ c)) with (Z.sgn v * (Z.abs v / 2 ^ c)); [exact Hk|].
  pose proof (magnitude_nonneg _ Hok) as Hm. destruct Hok as ([E|E] & _); unfold mpi_val in Hv; rewrite E in Hv |- *.
  - destruct (decide (v = 0)) as [->|]; [change (Z.abs 0) with 0; rewrite Z.div_0_l; [lia|pose proof (Z.pow_pos_nonneg 2 c); lia]|]. replace (Z.sgn v) with 1 by lia. done.
  - destruct (decide (v = 0)) as [->|]; [change (Z.abs 0) with 0; rewrite Z.div_0_l; [lia|pose proof (Z.pow_pos_nonneg 2 c); lia]|]. replace (Z.sgn v) with (-1) by lia. done.
Qed.

Lemma frame_shift_l l s i k c v lo : frame [] l s -> fails (length l) -> l !! i = Some (v, lo) -> 0 <= c < 4611686018427387904 ->
  BITS_TO_LIMBS (bits (Z.abs v) + c) <= cap ->
  (forall s', frame [] (<[i := (v * 2 ^ c, lo)]> l) s' -> wp exact k Q s') -> wp exact (chk! mbedtls_mpi_shift_l (b0 + i) c in k) Q s.
Proof.
  intros F Hf Hi Hc Hfit Hk. destruct (frame_in _ _ _ _ F Hi) as (HT & HTn & Hil). destruct HT as (Hok & Hv & Hz).
  eapply frame_op; [exact F|exact Hf|exact Hil|by apply shift_l_spec| |apply Hz|]; cbn [fst snd] in *.
  - rewrite magnitude_val, Hv by done. lia.
  - by rewrite Hv.
Qed.

Lemma frame_abs l s i v lo (k : M bn Z) : frame [] l s -> l !! i = Some (v, lo) ->
  (forall s', frame [] (<[i := (Z.abs v, lo)]> l) s' -> wp exact k Q s') -> wp exact (run! set_s (b0 + i) 1 in k) Q s.
Proof.
  intros F Hi Hk. destruct (frame_in _ _ _ _ F Hi) as (HT & HTn & Hil). apply wp_bind, wp_set_s. apply Hk. eapply frame_set; [done..|apply changes_upd|].
  unfold var in *. rewrite obj_upd. cbn [mpi_p]. destruct HT as (Hok & Hv & Hz). split.
  - destruct Hok as (_ & Hp). split; [by left|done].
  - split; [|done]. rewrite mpi_val_pos. cbn [fst] in *. rewrite <- Hv. exact (magnitude_val _ Hok).
Qed.

(** A value that is not 0 has limbs. *)
Lemma frame_limbs l s i v lo : frame [] l s -> l !! i = Some (v, lo) -> v <> 0 -> frame [] (<[i := (v, 1)]> l) s.
Proof.
  intros F Hi Hv. destruct (frame_in _ _ _ _ F Hi) as (HT & HTn & Hil). eapply frame_set; [exact F|exact Hil|done|].
  destruct HT as (Hok & E & Hz). split; [done|]. split; [done|]. cbn [fst snd] in *. split; [|lia].
  destruct (mpi_p (bn_obj s (b0 + i))) as [|x p] eqn:Ep; [|rewrite zlen_cons; pose proof (zlen_nonneg p); lia].
  exfalso. unfold mpi_val, magnitude in E. rewrite Ep in E. cbn in E. lia.
Qed.

Lemma frame_cmp_int {B} l s V v lo z (k : Z -> M bn B) P : frame [] l s -> var s V (v, lo) -> (V < bn_next s)%nat -> sint z ->
  (forall s', frame [] l s' -> wp exact (k (Z.sgn (v - z))) P s') -> wp exact (do! c := mbedtls_mpi_cmp_int V z in k c) P s.
Proof.
  intros F (Hok & Hv & _) HVn Hz Hk. apply wp_bind, wp_cmp_int; [done..|]. intros s' C. cbn [fst] in Hv. rewrite Hv. apply Hk. by eapply frame_same.
Qed.

Lemma frame_cmp_mpi {B} l s V W v lv w lw (k : Z -> M bn B) P : frame [] l s -> var s V (v, lv) -> var s W (w, lw) ->
  wp exact (k (Z.sgn (v - w))) P s -> wp exact (do! c := mbedtls_mpi_cmp_mpi V W in k c) P s.
Proof. intros F (Hok & Hv & _) (Hok' & Hv' & _) Hk. apply wp_bind, wp_cmp_mpi; [done..|]. cbn [fst] in *. by rewrite Hv, Hv'. Qed.

(** Parity, as [T.p[0] & 1]. *)
Lemma frame_odd {B} l s V v lo (k : Z -> M bn B) P : frame [] l s -> var s V (v, lo) -> 1 <= lo ->
  (forall x, Z.land x 1 = (if Z.odd v then 1 else 0) -> wp exact (k x) P s) -> wp exact (do! x := limb V 0 in k x) P s.
Proof.
  intros F (Hok & Hv & Hz) Hlo Hk. cbn [fst snd] in *. apply wp_bind. destruct (mpi_p (bn_obj s V)) as [|x p] eqn:E; [rewrite zlen_nil in Hz; lia|].
  apply (wp_limb _ _ 0 _ _ x); [by rewrite E|]. apply Hk. change 1 with (Z.ones 1) at 1. rewrite Z.land_ones by lia. change (2 ^ 1) with 2. rewrite Zmod_odd.
  rewrite <- Hv. unfold mpi_val, magnitude. rewrite E. cbn [limbs]. rewrite Z.odd_mul, Z.odd_add, Z.odd_mul. change (Z.odd base) with false. cbn [andb].
  rewrite xorb_false_r. destruct Hok as ([->| ->] & _); done.
Qed.

(** *** The lowest set bit *)

Lemma lsb_val p : Forall limb_ok p -> let k := lsb_from p 0 in 0 <= k /\ (limbs p = 0 -> k = 0) /\ (limbs p <> 0 -> exists y, limbs p = 2 ^ k * y /\ Z.odd y = true).
Proof.
  intros Hp. cbv zeta. pose proof (lsb_from_spec p Hp 0) as H. generalize dependent (lsb_from p 0). intros k [[E0 E1]|(Hne & Hk & Hbit & Hlow)].
  - rewrite E1. split; [done|]. split; [done|]. by rewrite E0.
  - rewrite Z.sub_0_r in *. split; [done|]. split; [done|]. intros _. exists (limbs p / 2 ^ k). pose proof (Z.pow_pos_nonneg 2 k ltac:(lia) Hk). split.
    + assert (E : limbs p mod 2 ^ k = 0).
      { apply Z.bits_inj'. intros n Hn. rewrite Z.bits_0. destruct (decide (n < k)); [rewrite Z.mod_pow2_bits_low by lia; apply Hlow; lia|by rewrite Z.mod_pow2_bits_high by lia]. }
      pose proof (Z.div_mod (limbs p) (2 ^ k)). lia.
    + rewrite <- Z.bit0_odd, Z.div_pow2_bits, Z.add_0_l by lia. done.
Qed.

Lemma frame_lsb {B} l s V v lo (k : Z -> M bn B) P : frame [] l s -> var s V (v, lo) ->
  (forall j, 0 <= j -> (v = 0 -> j = 0) -> (v <> 0 -> exists y, Z.abs v = 2 ^ j * y /\ Z.odd y = true) -> wp exact (k j) P s) ->
  wp exact (do! j := mbedtls_mpi_lsb V in k j) P s.
Proof.
  intros F HV Hk. pose proof (var_magnitude _ _ _ HV) as Hm. cbn [fst] in Hm. destruct HV as (Hok & Hv & _). apply wp_bind, wp_bind, wp_mpi_at, wp_ret.
  destruct (lsb_val _ (proj1 (proj2 Hok))) as (H0 & H1 & H2). unfold magnitude in Hm. apply Hk; [done| |]; intros Hz.
  - apply H1. lia.
  - rewrite <- Hm. apply H2. lia.
Qed.

End frame.

Lemma fails_if s0 cap Q P n : fails s0 cap Q n -> fails s0 cap (fun r s => if r =? 0 then P s else Q r s) n.
Proof. intros Hf l s Hl F Hs. change (MBEDTLS_ERR_MPI_ALLOC_FAILED =? 0) with false. by apply (Hf l). Qed.

(** ** The end of a function *)

Section finish.
Context (X : nat) (s0 : bn) (cap : Z) (HX : (X < bn_next s0)%nat) (Hcap : 1 <= cap).
Context (Post : Z -> mbedtls_mpi -> Prop) (Hok : mpi_ok (bn_obj s0 X)) (HXcap : zlen (mpi_p (bn_obj s0 X)) <= cap).
Context (Hfail : forall m, mpi_ok m -> zlen (mpi_p m) <= cap -> short_of_memory cap s0 -> Post MBEDTLS_ERR_MPI_ALLOC_FAILED m).

Lemma fails_result n : fails s0 cap (result s0 cap X n Post) n.
Proof.
  intros l s Hl F Hs. exists l. split; [done|]. split; [by apply frame_write|].
  assert (E : bn_obj s X = bn_obj s0 X) by (apply (fr_old _ _ _ _ _ F); [done|by intros ?%elem_of_nil]). rewrite E. by apply Hfail.
Qed.

(** [CHK( mbedtls_mpi_copy( X, &T ) )] *)
Lemma frame_out l s i v lo : frame s0 cap [] l s -> l !! i = Some (v, lo) -> Z.abs v < base ^ cap ->
  (forall m, mpi_ok m -> mpi_val m = v -> zlen (mpi_p m) <= cap -> Post 0 m) ->
  wp exact (chk! mbedtls_mpi_copy X (bn_next s0 + i) in ret 0) (result s0 cap X (length l) Post) s.
Proof.
  intros F Hi Hfit Hk. destruct (frame_in _ _ _ _ _ _ F Hi) as (HT & HTn & Hil).
  assert (EX : bn_obj s X = bn_obj s0 X) by (apply (fr_old _ _ _ _ _ F); [done|by intros ?%elem_of_nil]).
  pose proof (copy_computes X (bn_next s0 + i) s ltac:(rewrite (fr_next _ _ _ _ _ F); lia) ltac:(lia) ltac:(by rewrite EX) (proj1 HT)) as Hs.
  rewrite (var_magnitude _ _ _ _ HT), (proj1 (proj2 HT)) in Hs. cbn [fst] in Hs.
  assert (Hn : nlimbs (Z.abs v) <= cap) by (apply fits_nlimbs; lia).
  apply wp_chk. eapply wp_mono; [exact Hs|]. cbn beta. rewrite EX. intros r s1 (C & Hok1 & Hz & HR).
  assert (F1 : frame s0 cap [X] l s1).
  { destruct F as [N O Cc V], C as [N' O' C']. split; [congruence| |auto|].
    - intros Y HY HW. rewrite O' by (done || lia). apply O; [done|by intros ?%elem_of_nil].
    - intros j e Hj. specialize (V j e Hj). pose proof (lookup_lt_Some _ _ _ Hj). unfold var in *. rewrite O'; [done|lia|].
      intros ?%list_elem_of_singleton. lia. }
  destruct HR as [(-> & Hv)|(-> & Hsh)].
  - apply wp_ret. exists l. split; [done|]. split; [done|]. apply Hk; [done..|lia].
  - change (MBEDTLS_ERR_MPI_ALLOC_FAILED =? 0) with false. cbv iota. exists l. split; [done|]. split; [done|].
    apply Hfail; [done|lia|]. eapply (short_frame _ _ _ _ _ _ F); [|exact Hsh]. lia.
Qed.
End finish.
