(* ===== verification/MpiGcd.v ===== *)
(** * Multi-precision integers: greatest common divisor, inverse

    [mbedtls_mpi_gcd] and [mbedtls_mpi_inv_mod] of external_libs/mbedTLS/library/bignum.c: the binary algorithms,
    that they end, and what they compute. *)

From stdpp Require Import functions.
From S2P Require Import Prelude Mpi MpiArith MpiDiv MpiMod MpiFrame.

(** ** Functions *)

Definition MBEDTLS_ERR_MPI_NOT_ACCEPTABLE : Z := -14.

(** One round of the loop of [mbedtls_mpi_gcd]. *)
Definition gcd_round (TA TB : nat) : M bn Z :=
  do! j := mbedtls_mpi_lsb TA in
  chk! mbedtls_mpi_shift_r TA j in
  do! j := mbedtls_mpi_lsb TB in
  chk! mbedtls_mpi_shift_r TB j in
  do! c := mbedtls_mpi_cmp_mpi TA TB in
  if 0 <=? c then
    chk! mbedtls_mpi_sub_abs TA TA TB in
    chk! mbedtls_mpi_shift_r TA 1 in
    ret 0
  else
    chk! mbedtls_mpi_sub_abs TB TB TA in
    chk! mbedtls_mpi_shift_r TB 1 in
    ret 0.

(** Each round shortens [TA] or [TB] by a bit. *)
Definition mbedtls_mpi_gcd (G A B : nat) : M bn Z :=
  with_mpi (fun TG => with_mpi (fun TA => with_mpi (fun TB =>
    chk! mbedtls_mpi_copy TA A in
    chk! mbedtls_mpi_copy TB B in
    do! lz := mbedtls_mpi_lsb TA in
    do! lzt := mbedtls_mpi_lsb TB in
    let lz := if lzt <? lz then lzt else lz in
    chk! mbedtls_mpi_shift_r TA lz in
    chk! mbedtls_mpi_shift_r TB lz in
    run! set_s TB 1 in
    run! set_s TA 1 in
    do! na := size_of TA in
    do! nb := size_of TB in
    chk! chk_while (Z.to_nat (biL * (na + nb)) + 1) (do! c := mbedtls_mpi_cmp_int TA 0 in ret (negb (c =? 0))) (gcd_round TA TB) in
    chk! mbedtls_mpi_shift_l TB lz in
    chk! mbedtls_mpi_copy G TB in
    ret 0))).

(** One of the two inner loops of [mbedtls_mpi_inv_mod]: [T], and its coefficients [C1], [C2]. *)
Definition halve (fuel : nat) (T C1 C2 TA TB : nat) : M bn Z :=
  chk_while fuel (do! x := limb T 0 in ret (Z.land x 1 =? 0))
    (chk! mbedtls_mpi_shift_r T 1 in
     do! x := limb C1 0 in
     do! odd := (if negb (Z.land x 1 =? 0) then ret true else do! y := limb C2 0 in ret (negb (Z.land y 1 =? 0))) in
     chk! (if (odd : bool) then
             chk! mbedtls_mpi_add_mpi C1 C1 TB in
             chk! mbedtls_mpi_sub_mpi C2 C2 TA in
             ret 0
           else ret 0) in
     chk! mbedtls_mpi_shift_r C1 1 in
     chk! mbedtls_mpi_shift_r C2 1 in
     ret 0).

(** The body of [do { ... } while( TU != 0 )]. *)
Definition inv_round (fuel : nat) (TU U1 U2 TV V1 V2 TA TB : nat) : M bn Z :=
  chk! halve fuel TU U1 U2 TA TB in
  chk! halve fuel TV V1 V2 TA TB in
  do! c := mbedtls_mpi_cmp_mpi TU TV in
  if 0 <=? c then
    chk! mbedtls_mpi_sub_mpi TU TU TV in
    chk! mbedtls_mpi_sub_mpi U1 U1 V1 in
    chk! mbedtls_mpi_sub_mpi U2 U2 V2 in
    ret 0
  else
    chk! mbedtls_mpi_sub_mpi TV TV TU in
    chk! mbedtls_mpi_sub_mpi V1 V1 U1 in
    chk! mbedtls_mpi_sub_mpi V2 V2 U2 in
    ret 0.

(** The number of rounds and of halvings is bounded by the bits of [N]. *)
Definition mbedtls_mpi_inv_mod (X A N : nat) : M bn Z :=
  do! c := mbedtls_mpi_cmp_int N 0 in
  if c <=? 0 then ret MBEDTLS_ERR_MPI_BAD_INPUT_DATA
  else
    with_mpi (fun TA => with_mpi (fun TU => with_mpi (fun U1 => with_mpi (fun U2 =>
    with_mpi (fun G => with_mpi (fun TB => with_mpi (fun TV => with_mpi (fun V1 => with_mpi (fun V2 =>
      chk! mbedtls_mpi_gcd G A N in
      do! c := mbedtls_mpi_cmp_int G 1 in
      if negb (c =? 0) then ret MBEDTLS_ERR_MPI_NOT_ACCEPTABLE
      else
        chk! mbedtls_mpi_mod_mpi TA A N in
        chk! mbedtls_mpi_copy TU TA in
        chk! mbedtls_mpi_copy TB N in
        chk! mbedtls_mpi_copy TV N in
        chk! mbedtls_mpi_lset U1 1 in
        chk! mbedtls_mpi_lset U2 0 in
        chk! mbedtls_mpi_lset V1 0 in
        chk! mbedtls_mpi_lset V2 1 in
        do! n := size_of N in
        let fuel := (Z.to_nat (2 * biL * n) + 2)%nat in
        chk! inv_round fuel TU U1 U2 TV V1 V2 TA TB in
        chk! chk_while fuel (do! c := mbedtls_mpi_cmp_int TU 0 in ret (negb (c =? 0))) (inv_round fuel TU U1 U2 TV V1 V2 TA TB) in
        chk! chk_while fuel (do! c := mbedtls_mpi_cmp_int V1 0 in ret (c <? 0)) (mbedtls_mpi_add_mpi V1 V1 N) in
        chk! chk_while fuel (do! c := mbedtls_mpi_cmp_mpi V1 N in ret (0 <=? c)) (mbedtls_mpi_sub_mpi V1 V1 N) in
        chk! mbedtls_mpi_copy X V1 in
        ret 0))))))))).

Definition two_store (a b : Z) : bn :=
  mkBn (<[0%nat := mkMpi (if a <? 0 then -1 else 1) [Z.abs a]]> (<[1%nat := mkMpi (if b <? 0 then -1 else 1) [Z.abs b]]> (fun _ => mkMpi 1 []))) 3 [].
Definition value_of (X : nat) (o : outcome (Z * bn)) : outcome (Z * Z) := let! (r, s) := o in Done (r, mpi_val (bn_obj s X)).

Example gcd_sample : value_of 2 (mbedtls_mpi_gcd 2 0 1 (two_store 24 (-36))) = Done (0, 12).
Proof. by vm_compute. Qed.
Example inv_mod_sample : value_of 2 (mbedtls_mpi_inv_mod 2 0 1 (two_store 17 3120)) = Done (0, 2753).
Proof. by vm_compute. Qed.
Example inv_mod_negative : value_of 2 (mbedtls_mpi_inv_mod 2 0 1 (two_store (-5) 7)) = Done (0, 4).
Proof. by vm_compute. Qed.
(** The greatest common divisor of a number and 0 comes out wrong when 0 is the second argument. *)
Example gcd_with_zero :
  value_of 2 (mbedtls_mpi_gcd 2 0 1 (two_store 0 5)) = Done (0, 5) /\ value_of 2 (mbedtls_mpi_gcd 2 0 1 (two_store 5 0)) = Done (0, 0).
Proof. by split; vm_compute. Qed.

(** ** Lemmas: powers of two and divisors *)

Lemma gcd_halve x y g : Z.odd g = true -> Z.gcd (2 * x) y = g -> Z.gcd x y = g.
Proof.
  intros Hg E. apply Z.divide_antisym_nonneg; [apply Z.gcd_nonneg|rewrite <- E; apply Z.gcd_nonneg| |].
  - rewrite <- E. apply Z.gcd_greatest; [apply Z.divide_mul_r, Z.gcd_divide_l|apply Z.gcd_divide_r].
  - apply Z.gcd_greatest; [|rewrite <- E; apply Z.gcd_divide_r]. apply (Z.gauss _ 2); [rewrite <- E; apply Z.gcd_divide_l|].
    assert (H2 : Z.gcd g 2 = 1 \/ Z.gcd g 2 = 2).
    { pose proof (Z.gcd_nonneg g 2). pose proof (Z.divide_pos_le _ 2 ltac:(lia) (Z.gcd_divide_r g 2)).
      assert (Z.gcd g 2 <> 0) by (intros [_ ?]%Z.gcd_eq_0; lia). lia. }
    destruct H2 as [|H2]; [done|]. pose proof (Z.gcd_divide_l g 2) as [q Hq]. rewrite H2 in Hq. rewrite Hq, Z.odd_mul, andb_false_r in Hg. done.
Qed.

Lemma gcd_strip n x y g : 0 <= n -> Z.odd g = true -> Z.gcd (2 ^ n * x) y = g -> Z.gcd x y = g.
Proof.
  intros Hn. revert x. pattern n. apply natlike_ind; [|clear n Hn; intros n Hn IH|done]; intros x Hg E.
  - by rewrite Z.pow_0_r, Z.mul_1_l in E.
  - apply gcd_halve; [done|]. apply (IH (2 * x)); [done|]. rewrite Z.pow_succ_r in E by done. rewrite <- E. f_equal. lia.
Qed.

(** A difference of odd numbers may be halved. *)
Lemma gcd_difference x y : Z.odd x = true -> Z.odd y = true -> Z.gcd ((x - y) / 2) y = Z.gcd x y.
Proof.
  intros Hx Hy. assert (Hg : Z.odd (Z.gcd x y) = true).
  { pose proof (Z.gcd_divide_l x y) as [q Hq]. rewrite Hq, Z.odd_mul in Hx. by destruct (Z.odd (Z.gcd x y)); [|rewrite andb_false_r in Hx]. }
  apply gcd_halve; [done|]. replace (2 * ((x - y) / 2)) with (x - y).
  - rewrite Z.gcd_comm, (Z.gcd_comm x). by apply Z.gcd_sub_diag_r.
  - pose proof (Z.div_mod (x - y) 2 ltac:(lia)) as E. rewrite Zmod_odd, Z.odd_sub, Hx, Hy in E. cbn in E. lia.
Qed.

Lemma bits_less x v : 0 <= x -> 2 * x <= v -> 0 < v -> bits x < bits v.
Proof.
  intros Hx Hv H. destruct (bits_spec v ltac:(lia)) as [B1 B2]. destruct (B2 H) as [B3 B4]. enough (bits x <= bits v - 1) by lia.
  apply bits_le; [|lia]. replace (bits v) with (bits v - 1 + 1) in B1 by lia. rewrite Z.pow_add_r in B1 by lia. lia.
Qed.

Lemma bits_mono x v : 0 <= x <= v -> bits x <= bits v.
Proof. intros H. apply bits_le; [|apply bits_nonneg]. destruct (bits_spec v ltac:(lia)) as [B _]. lia. Qed.

Lemma bits_mul x k : 0 < x -> 0 <= k -> bits (x * 2 ^ k) = bits x + k.
Proof.
  intros Hx Hk. pose proof (bits_nonneg x). destruct (bits_spec x ltac:(lia)) as [B1 B2]. destruct (B2 Hx) as [B3 B4].
  pose proof (Z.pow_pos_nonneg 2 k ltac:(lia) Hk). apply bits_unique; [lia| |].
  - rewrite Z.pow_add_r by lia. nia.
  - intros _. replace (bits x + k - 1) with (bits x - 1 + k) by lia. rewrite Z.pow_add_r by lia. nia.
Qed.

Lemma bits_base v n : 0 <= n -> 0 <= v < base ^ n -> bits v <= biL * n.
Proof. intros Hn Hv. unfold biL. apply bits_le; [|lia]. rewrite Z.pow_mul_r by lia. change (2 ^ 64) with base. done. Qed.

Lemma stripped v j y : v = 2 ^ j * y -> 0 <= j -> v / 2 ^ j = y.
Proof. intros -> Hj. pose proof (Z.pow_pos_nonneg 2 j ltac:(lia) Hj). rewrite Z.mul_comm. by apply Z.div_mul; lia. Qed.

Lemma shifted v j : 0 <= v -> Z.sgn v * (Z.abs v / 2 ^ j) = v / 2 ^ j.
Proof. intros Hv. rewrite Z.abs_eq by done. destruct (decide (v = 0)) as [->|]; [by rewrite Zdiv_0_l|]. replace (Z.sgn v) with 1 by lia. lia. Qed.

(** ** The greatest common divisor *)

(** When the second argument is 0 the code gives 0. *)
Definition gcd_value (a b : Z) : Z := if b =? 0 then 0 else Z.gcd a b.

Section gcd.
Context (s0 : bn) (cap g : Z) (Hcap : 1 <= cap).
#[local] Notation b0 := (bn_next s0).
#[local] Notation TA := (b0 + 1)%nat.
#[local] Notation TB := (b0 + 2)%nat.

(** [tb] stays 0, or the divisors are kept. *)
Definition gcd_kept (ta tb : Z) : Prop := (tb = 0 /\ g = 0) \/ (0 < tb /\ Z.gcd ta tb = g /\ (ta = 0 \/ Z.odd g = true)).

Definition gcd_inv (n : nat) (s : bn) : Prop :=
  exists ta tb, frame s0 cap [] [(0, 0); (ta, 0); (tb, 0)] s /\ 0 <= ta /\ 0 <= tb /\ ta + tb < base ^ cap /\ n = Z.to_nat (bits ta + bits tb) /\ gcd_kept ta tb.

Lemma strip_odd v (j : Z) : 0 <= v -> 0 <= j -> (v = 0 -> j = 0) -> (v <> 0 -> exists y, Z.abs v = 2 ^ j * y /\ Z.odd y = true) ->
  0 <= v / 2 ^ j <= v /\ (v <> 0 -> v = 2 ^ j * (v / 2 ^ j) /\ Z.odd (v / 2 ^ j) = true /\ 0 < v / 2 ^ j).
Proof.
  intros Hv Hj H0 H1. destruct (decide (v = 0)) as [->|Hne]; [by rewrite Zdiv_0_l|]. destruct (H1 Hne) as (y & E & Hy). rewrite Z.abs_eq in E by done.
  rewrite (stripped v j y E Hj). pose proof (Z.pow_pos_nonneg 2 j ltac:(lia) Hj). assert (0 < y) by nia. split; [nia|]. intros _. done.
Qed.

Lemma gcd_round_spec (Q : Z -> bn -> Prop) n ta tb s : frame s0 cap [] [(0, 0); (ta, 0); (tb, 0)] s -> fails s0 cap Q 3 ->
  0 < ta -> 0 <= tb -> ta + tb < base ^ cap -> n = Z.to_nat (bits ta + bits tb) -> gcd_kept ta tb ->
  wp exact (gcd_round TA TB) (fun r s2 => if r =? 0 then exists n', (n' < n)%nat /\ gcd_inv n' s2 else Q r s2) s.
Proof.
  intros F Hf Ha Hb Hfit Hn HK.
  assert (Hf' : fails s0 cap (fun r s2 => if r =? 0 then exists n', (n' < n)%nat /\ gcd_inv n' s2 else Q r s2) 3)
    by exact (fails_if s0 cap Q (fun s2 => exists n', (n' < n)%nat /\ gcd_inv n' s2) 3 Hf).
  unfold gcd_round. eapply frame_lsb; [exact F|by apply (fr_var _ _ _ _ _ F 1)|]. intros j Hj Hj0 Hjy.
  destruct (strip_odd ta j ltac:(lia) Hj Hj0 Hjy) as [Ba Ea]. destruct (Ea ltac:(lia)) as (Ea1 & Oa & Pa). clear Ea Hj0 Hjy.
  eapply (frame_shift_r _ _ _ Hcap _ _ 1); [exact F|exact Hf'|reflexivity|done|]. cbn [insert list_insert]. rewrite shifted by lia. clear s F. intros s F.
  eapply frame_lsb; [exact F|by apply (fr_var _ _ _ _ _ F 2)|]. intros i Hi Hi0 Hiy.
  destruct (strip_odd tb i Hb Hi Hi0 Hiy) as [Bb Eb]. clear Hi0 Hiy.
  eapply (frame_shift_r _ _ _ Hcap _ _ 2); [exact F|exact Hf'|reflexivity|done|]. cbn [insert list_insert]. rewrite shifted by lia. clear s F. intros s F.
  set (x := ta / 2 ^ j) in *. set (y := tb / 2 ^ i) in *.
  assert (HK' : (y = 0 /\ tb = 0 /\ g = 0) \/ (0 < y /\ Z.odd y = true /\ Z.gcd x y = g /\ Z.odd g = true)).
  { destruct HK as [[Hz Hg]|(Hp & Hg & [|Og])]; [left; by rewrite Hz in *; assert (y = 0) by lia|lia|right]. destruct (Eb ltac:(lia)) as (Eb1 & Ob & Pb). split; [done|]. split; [done|].
    split; [|done]. rewrite Ea1, Eb1 in Hg. apply (gcd_strip j _ _ _ Hj Og) in Hg. rewrite Z.gcd_comm in Hg. apply (gcd_strip i _ _ _ Hi Og) in Hg. by rewrite Z.gcd_comm. }
  pose proof (bits_mono x ta ltac:(lia)). pose proof (bits_mono y tb ltac:(lia)). pose proof (bits_nonneg x). pose proof (bits_nonneg y). clearbody x y.
  eapply frame_cmp_mpi; [exact F|by apply (fr_var _ _ _ _ _ F 1)|by apply (fr_var _ _ _ _ _ F 2)|].
  destruct (Z.leb_spec 0 (Z.sgn (x - y))) as [Hxy|Hxy].
  - eapply (frame_sub_abs _ _ _ Hcap _ _ 1); [exact F|exact Hf'|reflexivity|by apply (fr_var _ _ _ _ _ F 1)|by apply (fr_var _ _ _ _ _ F 2)|rewrite (fr_next _ _ _ _ _ F); cbn; lia..|done|lia|lia|].
    cbn [insert list_insert]. clear s F. intros s F. change (kept 0 0 0) with 0 in F. rewrite !Z.abs_eq in F by lia.
    eapply (frame_shift_r _ _ _ Hcap _ _ 1); [exact F|exact Hf'|reflexivity|lia|]. cbn [insert list_insert]. rewrite shifted by lia. clear s F. intros s F. apply wp_ret.
    change (0 =? 0) with true. cbv iota. set (h := (x - y) / 2 ^ 1) in *. assert (Bh : 0 <= h /\ 2 * h <= x - y).
    { unfold h. change (2 ^ 1) with 2. split; [apply Z.div_pos; lia|apply Z.mul_div_le; lia]. }
    pose proof (bits_less h x ltac:(lia) ltac:(lia) ltac:(lia)). pose proof (bits_nonneg h).
    exists (Z.to_nat (bits h + bits y)). split; [lia|]. exists h, y. split; [exact F|]. split_and!; try lia.
    destruct HK' as [(-> & _ & Hg)|(Py & Oy & Hg & Og)]; [by left|right]. split; [done|]. split; [|by right]. rewrite <- Hg. by apply gcd_difference.
  - assert (Hy : 0 < y) by lia. destruct HK' as [(-> & _)|(_ & Oy & Hg & Og)]; [lia|].
    eapply (frame_sub_abs _ _ _ Hcap _ _ 2); [exact F|exact Hf'|reflexivity|by apply (fr_var _ _ _ _ _ F 2)|by apply (fr_var _ _ _ _ _ F 1)|rewrite (fr_next _ _ _ _ _ F); cbn; lia..|done|lia|lia|].
    cbn [insert list_insert]. clear s F. intros s F. change (kept 0 0 0) with 0 in F. rewrite !Z.abs_eq in F by lia.
    eapply (frame_shift_r _ _ _ Hcap _ _ 2); [exact F|exact Hf'|reflexivity|lia|]. cbn [insert list_insert]. rewrite shifted by lia. clear s F. intros s F. apply wp_ret.
    change (0 =? 0) with true. cbv iota. set (h := (y - x) / 2 ^ 1) in *. assert (Bh : 0 <= h /\ 2 * h <= y - x).
    { unfold h. change (2 ^ 1) with 2. split; [apply Z.div_pos; lia|apply Z.mul_div_le; lia]. }
    pose proof (bits_less h y ltac:(lia) ltac:(lia) ltac:(lia)). pose proof (bits_nonneg h).
    exists (Z.to_nat (bits x + bits h)). split; [lia|]. exists x, h. split; [exact F|].
    assert (Hgh : Z.gcd x h = g) by (rewrite Z.gcd_comm; unfold h; rewrite gcd_difference by done; by rewrite Z.gcd_comm).
    assert (0 < h); [|split_and!; try lia; right; split; [done|]; split; [done|by right]]. destruct (decide (h = 0)) as [E|]; [|lia].
    pose proof (Z.div_mod (y - x) 2 ltac:(lia)) as Ed. rewrite Zmod_odd, Z.odd_sub, Oa, Oy in Ed. cbn in Ed. change (2 ^ 1) with 2 in h. fold h in Ed. lia.
Qed.

Lemma gcd_loop_spec (Q : Z -> bn -> Prop) fuel ta tb (k : M bn Z) s : frame s0 cap [] [(0, 0); (ta, 0); (tb, 0)] s -> fails s0 cap Q 3 ->
  0 <= ta -> 0 <= tb -> ta + tb < base ^ cap -> gcd_kept ta tb -> (Z.to_nat (bits ta + bits tb) < fuel)%nat ->
  (forall tb' s', frame s0 cap [] [(0, 0); (0, 0); (tb', 0)] s' -> tb' = g -> 0 <= g -> wp exact k Q s') ->
  wp exact (chk! chk_while fuel (do! c := mbedtls_mpi_cmp_int TA 0 in ret (negb (c =? 0))) (gcd_round TA TB) in k) Q s.
Proof.
  intros F Hf Ha Hb Hfit HK Hfuel Hk. apply wp_chk. apply (wp_chk_while gcd_inv _ _ _ (Z.to_nat (bits ta + bits tb))); [by exists ta, tb|done|].
  clear s F ta tb Ha Hb Hfit HK Hfuel. intros n s (ta & tb & F & Ha & Hb & Hfit & Hn & HK).
  destruct (frame_in _ _ _ _ 1 _ F eq_refl) as (HT & HTn & _). apply wp_bind, wp_cmp_int; [done|apply HT|done|]. intros s1 C.
  rewrite (proj1 (proj2 HT)), Z.sub_0_r. cbn [fst]. apply (frame_same _ _ _ _ _ F) in C. apply wp_ret. destruct (Z.eqb_spec (Z.sgn ta) 0) as [E|E]; cbn [negb].
  - change (0 =? 0) with true. cbv iota. assert (ta = 0) as -> by lia. apply (Hk tb); [exact C| |].
    + destruct HK as [[-> ->]|(Hp & Hg & _)]; [done|]. rewrite Z.gcd_0_l, Z.abs_eq in Hg by lia. done.
    + destruct HK as [[-> ->]|(Hp & Hg & _)]; [done|]. rewrite <- Hg. apply Z.gcd_nonneg.
  - apply (gcd_round_spec (fun r s => if r =? 0 then wp exact k Q s else Q r s) n ta tb s1 C (fails_if s0 cap Q (fun s => wp exact k Q s) 3 Hf)); (done || lia).
Qed.
End gcd.

Definition gcd_need (G A B : nat) (s : bn) : Z :=
  Z.max (Z.max (zlen (mpi_p (bn_obj s A))) (zlen (mpi_p (bn_obj s B))) + 1) (zlen (mpi_p (bn_obj s G))).

Lemma frame_size l s0 cap s i v lo (k : Z -> M bn Z) P : frame s0 cap [] l s -> l !! i = Some (v, lo) ->
  (forall n, bits (Z.abs v) <= biL * n -> 0 <= n <= cap -> wp exact (k n) P s) -> wp exact (do! n := size_of (bn_next s0 + i)%nat in k n) P s.
Proof.
  intros F Hi Hk. destruct (frame_in _ _ _ _ _ _ F Hi) as (HT & _ & _). apply wp_bind, wp_size_of. pose proof (var_magnitude _ _ _ _ HT) as Hm.
  pose proof (zlen_nonneg (mpi_p (bn_obj s (bn_next s0 + i)))). apply Hk; [|destruct HT as (_ & _ & HT); lia].
  apply bits_base; [done|]. cbn [fst] in Hm. rewrite <- Hm. apply limbs_bound, HT.
Qed.

Lemma var_start cap s V : mpi_ok (bn_obj s V) -> zlen (mpi_p (bn_obj s V)) <= cap -> var cap s V (mpi_val (bn_obj s V), 0).
Proof. intros Hok Hz. split; [done|]. split; [done|]. cbn [snd]. pose proof (zlen_nonneg (mpi_p (bn_obj s V))). lia. Qed.

Lemma value_bound n s V : mpi_ok (bn_obj s V) -> zlen (mpi_p (bn_obj s V)) <= n -> 0 <= n -> Z.abs (mpi_val (bn_obj s V)) < base ^ n.
Proof.
  intros Hok Hz Hn. rewrite <- (magnitude_val _ Hok). pose proof (limbs_bound _ (proj1 (proj2 Hok))) as [_ B].
  eapply Z.lt_le_trans; [exact B|]. apply Z.pow_le_mono_r; [done|lia].
Qed.

Lemma shifted_abs a c : Z.abs (Z.sgn a * (Z.abs a / 2 ^ c)) = Z.abs a / 2 ^ c.
Proof.
  rewrite Z.abs_mul. destruct (decide (a = 0)) as [->|Ha]; [by rewrite Zdiv_0_l|]. replace (Z.abs (Z.sgn a)) with 1 by lia. rewrite Z.mul_1_l.
  apply Z.abs_eq. destruct (Z.lt_ge_cases (2 ^ c) 0) as [Hc|Hc]; [pose proof (Z.pow_nonneg 2 c); lia|].
  destruct (decide (2 ^ c = 0)) as [->|]; [by rewrite Zdiv_0_r|]. apply Z.div_pos; lia.
Qed.

(** What [mbedtls_mpi_lsb] tells. *)
Definition lowest (v j : Z) : Prop := 0 <= j /\ (v = 0 -> j = 0) /\ (v <> 0 -> exists y, Z.abs v = 2 ^ j * y /\ Z.odd y = true).

Lemma lowest_odd v j : lowest v j -> v <> 0 -> exists y, Z.abs v = y * 2 ^ j /\ Z.odd y = true /\ 0 < y /\ 0 < 2 ^ j.
Proof.
  intros (Hj & _ & H) Hv. destruct (H Hv) as (y & E & Hy). exists y. pose proof (Z.pow_pos_nonneg 2 j ltac:(lia) Hj). split_and!; [lia|done|nia|done].
Qed.

(** Common factors of two are taken out first. *)
Lemma common_twos a b ja jb : lowest a ja -> lowest b jb ->
  let lz := if jb <? ja then jb else ja in
  0 <= lz /\ 2 ^ lz <= Z.max 1 (Z.abs a) /\
  exists g, gcd_kept g (Z.abs a / 2 ^ lz) (Z.abs b / 2 ^ lz) /\ g * 2 ^ lz = gcd_value a b /\ 0 <= g * 2 ^ lz <= Z.abs b /\ bits g + lz <= bits (Z.abs b).
Proof.
  intros La Lb lz. pose proof La as (Hja & Ha0 & _). pose proof Lb as (Hjb & Hb0 & _).
  assert (Hlz : 0 <= lz <= ja /\ lz <= jb /\ (lz = ja \/ lz = jb)) by (unfold lz; destruct (Z.ltb_spec jb ja); lia). clearbody lz.
  destruct Hlz as (Hlz & Hlb & Hor). split; [lia|]. pose proof (Z.pow_pos_nonneg 2 lz ltac:(lia) ltac:(lia)) as Hp. split.
  { destruct (decide (a = 0)) as [->|Ha]; [replace lz with 0 by lia; change (2 ^ 0) with 1; lia|].
    destruct (lowest_odd a ja La Ha) as (y & E & _ & Hy & Hpj). pose proof (Z.pow_le_mono_r 2 lz ja ltac:(lia) ltac:(lia)). nia. }
  unfold gcd_value. destruct (Z.eqb_spec b 0) as [->|Hb].
  { exists 0. rewrite Z.mul_0_l. split_and!; [left; by rewrite Zdiv_0_l|done|done|done|change (bits 0 + lz <= 0); change (bits 0) with 0; lia]. }
  destruct (lowest_odd b jb Lb Hb) as (yb & Eb & Oyb & Pyb & Ppb).
  assert (Eb2 : Z.abs b = yb * 2 ^ (jb - lz) * 2 ^ lz) by (rewrite <- Z.mul_assoc, <- Z.pow_add_r by lia; by replace (jb - lz + lz) with jb by lia).
  assert (Ea2 : exists x, Z.abs a = x * 2 ^ lz /\ (x = 0 \/ Z.odd x = true \/ lz = jb)).
  { destruct (decide (a = 0)) as [->|Ha]; [exists 0; split; [done|by left]|]. destruct (lowest_odd a ja La Ha) as (y & E & Oy & Py & Pp).
    exists (y * 2 ^ (ja - lz)). split; [rewrite <- Z.mul_assoc, <- Z.pow_add_r by lia; by replace (ja - lz + lz) with ja by lia|].
    right. destruct Hor as [->|Hor]; [left; by rewrite Z.sub_diag, Z.pow_0_r, Z.mul_1_r|by right]. }
  destruct Ea2 as (x & Ea2 & Hox). set (y := yb * 2 ^ (jb - lz)) in *. rewrite Ea2, Eb2, !Z.div_mul by lia.
  assert (Hgcd : Z.gcd x y * 2 ^ lz = Z.gcd a b) by (rewrite <- (Z.gcd_abs_l a), <- (Z.gcd_abs_r _ b), Ea2, Eb2, Z.gcd_mul_mono_r_nonneg by lia; done).
  assert (Hle : 0 < Z.gcd a b <= Z.abs b).
  { assert (Z.gcd a b <> 0) by (intros [_ ?]%Z.gcd_eq_0; done). pose proof (Z.gcd_nonneg a b). split; [lia|].
    apply Z.divide_pos_le; [lia|]. apply Z.divide_abs_r, Z.gcd_divide_r. }
  exists (Z.gcd x y). rewrite <- (bits_mul (Z.gcd x y) lz), Hgcd by nia. pose proof (Z.pow_pos_nonneg 2 (jb - lz) ltac:(lia) ltac:(lia)). split.
  - right. split; [unfold y; nia|]. split; [done|]. destruct Hox as [->|Hox]; [by left|right].
    assert (Hodd : Z.odd x = true \/ Z.odd y = true).
    { destruct Hox as [Hox| ->]; [by left|right]. unfold y. by rewrite Z.sub_diag, Z.pow_0_r, Z.mul_1_r. }
    destruct (Z.odd (Z.gcd x y)) eqn:Eo; [done|]. exfalso. destruct (Z.gcd_divide_l x y) as [p Hx], (Z.gcd_divide_r x y) as [q Hy].
    destruct Hodd as [Ho|Ho]; [rewrite Hx in Ho|rewrite Hy in Ho]; rewrite Z.odd_mul, Eo, andb_false_r in Ho; done.
  - split; [done|]. split; [lia|]. apply bits_mono. lia.
Qed.

Lemma gcd_spec G A B s : (G < bn_next s)%nat -> (A < bn_next s)%nat -> (B < bn_next s)%nat ->
  mpi_ok (bn_obj s G) -> mpi_ok (bn_obj s A) -> mpi_ok (bn_obj s B) ->
  wp exact (mbedtls_mpi_gcd G A B) (computes G 0 (gcd_need G A B s) (gcd_value (mpi_val (bn_obj s A)) (mpi_val (bn_obj s B))) s) s.
Proof.
  intros HGn HAn HBn HG HA HB. set (a := mpi_val (bn_obj s A)). set (b := mpi_val (bn_obj s B)). set (cap := gcd_need G A B s).
  pose proof (zlen_nonneg (mpi_p (bn_obj s A))). pose proof (zlen_nonneg (mpi_p (bn_obj s B))).
  assert (Hc : 1 <= cap /\ zlen (mpi_p (bn_obj s A)) <= cap - 1 /\ zlen (mpi_p (bn_obj s B)) <= cap - 1 /\ zlen (mpi_p (bn_obj s G)) <= cap) by (unfold cap, gcd_need; lia).
  clearbody cap. destruct Hc as (Hcap & HAc & HBc & HGc).
  set (Post r m := mpi_ok m /\ zlen (mpi_p m) <= cap /\ ((r = 0 /\ mpi_val m = gcd_value a b) \/ (r = MBEDTLS_ERR_MPI_ALLOC_FAILED /\ short_of_memory cap s))).
  apply (wp_mono _ _ (result s cap G 0 Post)).
  2: { intros r s' [C (Hok & Hz & HR)]%frame_changes. split; [done|]. split; [done|]. split; [|done]. split; [apply zlen_nonneg|done]. }
  assert (Hfail : forall m, mpi_ok m -> zlen (mpi_p m) <= cap -> short_of_memory cap s -> Post MBEDTLS_ERR_MPI_ALLOC_FAILED m) by (intros m ? ? ?; split; [done|]; split; [done|by right]).
  pose proof (fails_result G s cap HGn Post HG HGc Hfail 3) as Hf. assert (Hcap1 : 1 <= cap) by lia.
  pose proof (var_start cap s A HA ltac:(lia)) as VA. pose proof (var_start cap s B HB ltac:(lia)) as VB. fold a in VA. fold b in VB.
  pose proof (value_bound (cap - 1) s A HA HAc ltac:(lia)) as BA. pose proof (value_bound (cap - 1) s B HB HBc ltac:(lia)) as BB. fold a in BA. fold b in BB.
  assert (Hbase : base ^ cap = base * base ^ (cap - 1)) by (rewrite <- base_pow_succ by lia; f_equal; lia).
  assert (Hfit : Z.abs a + Z.abs b < base ^ cap) by (rewrite Hbase; unfold base at 1; lia).
  unfold mbedtls_mpi_gcd. apply (with_mpi_frame _ _ _ []); [done|apply frame_start|lia|]. intros s1 F1.
  apply (with_mpi_frame _ _ _ [(0, 0)]); [done|exact F1|lia|]. clear s1 F1. intros s1 F1.
  apply (with_mpi_frame _ _ _ [(0, 0); (0, 0)]); [done|exact F1|lia|]. clear s1 F1. intros s1 F1. cbn [app length] in *.
  eapply (frame_copy _ _ _ Hcap1 _ _ 1); [exact F1|exact Hf|reflexivity|by eapply frame_old|lia|lia|]. cbn [insert list_insert]. clear s1 F1. intros s1 F1.
  eapply (frame_copy _ _ _ Hcap1 _ _ 2); [exact F1|exact Hf|reflexivity|by eapply frame_old|lia|lia|]. cbn [insert list_insert]. clear s1 F1. intros s1 F1.
  eapply frame_lsb; [exact F1|by apply (fr_var _ _ _ _ _ F1 1)|]. intros ja Ja1 Ja2 Ja3.
  eapply frame_lsb; [exact F1|by apply (fr_var _ _ _ _ _ F1 2)|]. intros jb Jb1 Jb2 Jb3.
  destruct (common_twos a b ja jb) as (Hlz & Hlz2 & g & HK & Hg & Hgb & Hgl); [by split_and!..|]. cbv zeta. set (lz := if jb <? ja then jb else ja) in *. clearbody lz.
  eapply (frame_shift_r _ _ _ Hcap1 _ _ 1); [exact F1|exact Hf|reflexivity|done|]. cbn [insert list_insert]. clear s1 F1. intros s1 F1.
  eapply (frame_shift_r _ _ _ Hcap1 _ _ 2); [exact F1|exact Hf|reflexivity|done|]. cbn [insert list_insert]. clear s1 F1. intros s1 F1.
  eapply (frame_abs _ _ _ _ _ 2); [exact F1|reflexivity|]. cbn [insert list_insert]. clear s1 F1. intros s1 F1.
  eapply (frame_abs _ _ _ _ _ 1); [exact F1|reflexivity|]. cbn [insert list_insert]. clear s1 F1. intros s1 F1. rewrite !shifted_abs in F1.
  pose proof (Z.pow_pos_nonneg 2 lz ltac:(lia) Hlz) as Hp. set (ta := Z.abs a / 2 ^ lz) in *. set (tb := Z.abs b / 2 ^ lz) in *.
  assert (Bt : 0 <= ta <= Z.abs a /\ 0 <= tb <= Z.abs b).
  { unfold ta, tb. split; (split; [apply Z.div_pos; lia|apply Z.div_le_upper_bound; nia]). }
  eapply (frame_size _ _ _ _ 1); [exact F1|reflexivity|]. intros na Na1 Na2. eapply (frame_size _ _ _ _ 2); [exact F1|reflexivity|]. intros nb Nb1 Nb2.
  rewrite Z.abs_eq in Na1, Nb1 by lia. pose proof (bits_nonneg ta). pose proof (bits_nonneg tb).
  eapply (gcd_loop_spec s cap g Hcap1 _ _ ta tb); [exact F1|exact Hf|lia|lia|lia|exact HK|unfold biL in *; lia|].
  clear s1 F1. intros tb' s1 F1 -> Hg0.
  assert (Hb64 : bits (Z.abs b) <= biL * (cap - 1)) by (apply bits_base; lia).
  assert (Hlz3 : lz < 64 * 10000).
  { pose proof (value_bound (zlen (mpi_p (bn_obj s A))) s A HA ltac:(lia) ltac:(lia)) as BA'. fold a in BA'. destruct HA as (_ & _ & HAm).
    unfold MBEDTLS_MPI_MAX_LIMBS in HAm. set (z := zlen (mpi_p (bn_obj s A))) in *. clearbody z.
    destruct (base_pow z) as [E|]; [|lia]. pose proof (base_pow_pos z ltac:(lia)).
    assert (2 ^ lz < 2 ^ (64 * z) \/ lz = 0) as [Hl|]; [|apply Z.pow_lt_mono_r_iff in Hl; lia|lia].
    rewrite <- E. destruct (decide (a = 0)) as [Ea|]; [right|left; lia]. rewrite Ea in Hlz2. change (1 `max` Z.abs 0) with 1 in Hlz2.
    destruct (decide (lz = 0)); [done|]. pose proof (Z.pow_gt_1 2 lz ltac:(lia)). lia. }
  eapply frame_shift_l; [exact F1|exact Hf|reflexivity|lia| |].
  { rewrite Z.abs_eq by done. unfold BITS_TO_LIMBS, biL in *. pose proof (Z.div_mod (bits g + lz) 64 ltac:(lia)). destruct (Z.eqb_spec ((bits g + lz) mod 64) 0); [|pose proof (Z.mod_pos_bound (bits g + lz) 64 ltac:(lia))]; lia. }
  cbn [insert list_insert]. clear s1 F1. intros s1 F1.
  eapply (frame_out _ _ _ HGn Hcap1 _ HG HGc Hfail [(0, 0); (0, 0); (g * 2 ^ lz, 0)] _ 2); [exact F1|reflexivity|lia|].
  intros m Hm Hv Hz. split; [done|]. split; [done|]. left. split; [done|]. by rewrite Hv.
Qed.

(** ** The inverse *)

Lemma halved v : Z.odd v = false -> Z.sgn v * (Z.abs v / 2 ^ 1) = v / 2 /\ v = 2 * (v / 2).
Proof.
  intros Ho. pose proof (Z.div_mod v 2 ltac:(lia)) as E. rewrite Zmod_odd, Ho in E. split; [|lia]. change (2 ^ 1) with 2.
  set (h := v / 2) in *. clearbody h. destruct (Z.lt_trichotomy v 0) as [Hv|[->|Hv]].
  - rewrite Z.abs_neq by lia. replace (- v) with (- h * 2) by lia. rewrite Z.div_mul by lia. lia.
  - cbn. lia.
  - rewrite Z.abs_eq by lia. replace v with (h * 2) at 2 by lia. rewrite Z.div_mul by lia. lia.
Qed.

Section inverse.
Context (s0 : bn) (cap a n : Z) (Hcap : 1 <= cap).
Context (Hn : 1 < n) (Han : 0 < a < n) (Hprime : Z.gcd a n = 1).
#[local] Notation b0 := (bn_next s0).

(** Bezout's equation, and the parities that follow. *)
Definition bezout (t c1 c2 : Z) : Prop := t = c1 * a + c2 * n.

Lemma not_both_even : Z.odd a = true \/ Z.odd n = true.
Proof.
  destruct (Z.odd a) eqn:Ea; [by left|]. destruct (Z.odd n) eqn:En; [by right|]. exfalso.
  assert (H : (2 | Z.gcd a n)).
  { apply Z.gcd_greatest; [exists (a / 2)|exists (n / 2)].
    - pose proof (Z.div_mod a 2 ltac:(lia)) as E. rewrite Zmod_odd, Ea in E. lia.
    - pose proof (Z.div_mod n 2 ltac:(lia)) as E. rewrite Zmod_odd, En in E. lia. }
  rewrite Hprime in H. apply Z.divide_1_r_nonneg in H; lia.
Qed.

Lemma bezout_even t c1 c2 : bezout t c1 c2 -> Z.odd t = false -> Z.odd c1 || Z.odd c2 = true -> Z.odd (c1 + n) = false /\ Z.odd (c2 - a) = false.
Proof.
  intros -> Ht Hc. rewrite Z.odd_add, !Z.odd_mul in Ht. rewrite Z.odd_add, Z.odd_sub.
  pose proof not_both_even as H. destruct (Z.odd c1), (Z.odd c2), (Z.odd a), (Z.odd n); try done; by destruct H.
Qed.

(** One halving, on the integers. *)
Definition halve_step (c1 c2 : Z) : Z * Z := if Z.odd c1 || Z.odd c2 then ((c1 + n) / 2, (c2 - a) / 2) else (c1 / 2, c2 / 2).

Lemma halve_bezout t c1 c2 : bezout t c1 c2 -> Z.odd t = false -> bezout (t / 2) (fst (halve_step c1 c2)) (snd (halve_step c1 c2)).
Proof.
  intros Hb Ht. destruct (halved t Ht) as [_ E]. unfold halve_step, bezout in *. destruct (Z.odd c1 || Z.odd c2) eqn:Ec; cbn [fst snd].
  - destruct (bezout_even t c1 c2 Hb Ht Ec) as [H1 H2]. destruct (halved _ H1) as [_ E1], (halved _ H2) as [_ E2].
    set (x := (c1 + n) / 2) in *. set (y := (c2 - a) / 2) in *. set (z := t / 2) in *. clearbody x y z. nia.
  - apply orb_false_iff in Ec as [H1 H2]. destruct (halved _ H1) as [_ E1], (halved _ H2) as [_ E2].
    set (x := c1 / 2) in *. set (y := c2 / 2) in *. set (z := t / 2) in *. clearbody x y z. nia.
Qed.

Lemma halve_bound c1 c2 w : Z.abs c1 <= w -> Z.abs c2 <= w -> 2 * Z.abs (fst (halve_step c1 c2)) <= w + n /\ 2 * Z.abs (snd (halve_step c1 c2)) <= w + n.
Proof.
  intros H1 H2. unfold halve_step. destruct (_ || _); cbn [fst snd].
  - pose proof (Z.div_mod (c1 + n) 2 ltac:(lia)). pose proof (Z.mod_pos_bound (c1 + n) 2 ltac:(lia)).
    pose proof (Z.div_mod (c2 - a) 2 ltac:(lia)). pose proof (Z.mod_pos_bound (c2 - a) 2 ltac:(lia)). lia.
  - pose proof (Z.div_mod c1 2 ltac:(lia)). pose proof (Z.mod_pos_bound c1 2 ltac:(lia)).
    pose proof (Z.div_mod c2 2 ltac:(lia)). pose proof (Z.mod_pos_bound c2 2 ltac:(lia)). lia.
Qed.

(** *** The two inner loops *)

Section halve.
Context (mk : Z -> Z -> Z -> list (Z * Z)) (i j k : nat).
Context (Hi : forall t c1 c2, mk t c1 c2 !! i = Some (t, 1)) (Hj : forall t c1 c2, mk t c1 c2 !! j = Some (c1, 1)) (Hk : forall t c1 c2, mk t c1 c2 !! k = Some (c2, 1)).
Context (HTA : forall t c1 c2, mk t c1 c2 !! 0%nat = Some (a, 1)) (HTB : forall t c1 c2, mk t c1 c2 !! 5%nat = Some (n, 1)) (Hlen : forall t c1 c2, length (mk t c1 c2) = 9%nat).
Context (Ui : forall t c1 c2 v, <[i := (v, 1)]> (mk t c1 c2) = mk v c1 c2) (Uj : forall t c1 c2 v, <[j := (v, 1)]> (mk t c1 c2) = mk t v c2)
  (Uk : forall t c1 c2 v, <[k := (v, 1)]> (mk t c1 c2) = mk t c1 v).

Lemma odd_test x (b : bool) : Z.land x 1 = (if b then 1 else 0) -> (Z.land x 1 =? 0) = negb b.
Proof. intros ->. by destruct b. Qed.

(** The body of the loop on an even [t]. *)
Lemma halve_body (Q : Z -> bn -> Prop) t c1 c2 w s : frame s0 cap [] (mk t c1 c2) s -> fails s0 cap Q 9 -> bezout t c1 c2 -> Z.odd t = false -> 0 < t ->
  Z.abs c1 <= w -> Z.abs c2 <= w -> w + n < base ^ cap ->
  (forall s', frame s0 cap [] (mk (t / 2) (fst (halve_step c1 c2)) (snd (halve_step c1 c2))) s' -> Q 0 s') ->
  wp exact (chk! mbedtls_mpi_shift_r (b0 + i) 1 in
     do! x := limb (b0 + j) 0 in
     do! odd := (if negb (Z.land x 1 =? 0) then ret true else do! y := limb (b0 + k) 0 in ret (negb (Z.land y 1 =? 0))) in
     chk! (if (odd : bool) then
             chk! mbedtls_mpi_add_mpi (b0 + j) (b0 + j) (b0 + 5) in
             chk! mbedtls_mpi_sub_mpi (b0 + k) (b0 + k) (b0 + 0) in
             ret 0
           else ret 0) in
     chk! mbedtls_mpi_shift_r (b0 + j) 1 in
     chk! mbedtls_mpi_shift_r (b0 + k) 1 in
     ret 0) Q s.
Proof.
  intros F Hf Hb Ht Htp Hw1 Hw2 Hfit HQ.
  eapply (frame_shift_r s0 cap Q Hcap); [exact F|by rewrite Hlen|apply Hi|lia|]. rewrite Ui, (proj1 (halved t Ht)). clear s F. intros s F.
  eapply frame_odd; [exact F|eapply fr_var; [exact F|apply Hj]|done|]. intros x Hx. rewrite (odd_test _ _ Hx), negb_involutive.
  apply wp_bind. apply (wp_mono _ _ (fun odd s' => s' = s /\ odd = Z.odd c1 || Z.odd c2)).
  { destruct (Z.odd c1); cbn [orb]; [by apply wp_ret|]. eapply frame_odd; [exact F|eapply fr_var; [exact F|apply Hk]|done|].
    intros y Hy. apply wp_ret. by rewrite (odd_test _ _ Hy), negb_involutive. }
  cbn beta. intros odd s' [-> ->]. clear x Hx. unfold halve_step in HQ. destruct (Z.odd c1 || Z.odd c2) eqn:Ec; cbn [fst snd] in HQ.
  - destruct (bezout_even t c1 c2 Hb Ht Ec) as [H1 H2]. apply wp_chk.
    eapply (frame_add s0 cap _ Hcap); [exact F|rewrite Hlen; exact (fails_if s0 cap Q _ 9 Hf)|apply Hj|eapply fr_var; [exact F|apply Hj]|eapply fr_var; [exact F|apply HTB]| | |done|lia|].
    { rewrite (fr_next _ _ _ _ _ F). pose proof (lookup_lt_Some _ _ _ (Hj (t/2) c1 c2)). lia. }
    { rewrite (fr_next _ _ _ _ _ F), Hlen. lia. }
    change (kept 1 1 1) with 1. rewrite Uj. clear s F. intros s F.
    eapply (frame_sub s0 cap _ Hcap); [exact F|rewrite Hlen; exact (fails_if s0 cap Q _ 9 Hf)|apply Hk|eapply fr_var; [exact F|apply Hk]|eapply fr_var; [exact F|apply HTA]| | |done|lia|].
    { rewrite (fr_next _ _ _ _ _ F). pose proof (lookup_lt_Some _ _ _ (Hk (t/2) (c1+n) c2)). lia. }
    { rewrite (fr_next _ _ _ _ _ F), Hlen. lia. }
    change (kept 1 1 1) with 1. rewrite Uk. clear s F. intros s F. apply wp_ret. change (0 =? 0) with true. cbv iota.
    eapply (frame_shift_r s0 cap Q Hcap); [exact F|by rewrite Hlen|apply Hj|lia|]. rewrite Uj, (proj1 (halved _ H1)). clear s F. intros s F.
    eapply (frame_shift_r s0 cap Q Hcap); [exact F|by rewrite Hlen|apply Hk|lia|]. rewrite Uk, (proj1 (halved _ H2)). clear s F. intros s F.
    by apply wp_ret, HQ.
  - apply orb_false_iff in Ec as [H1 H2]. apply wp_chk, wp_ret. change (0 =? 0) with true. cbv iota.
    eapply (frame_shift_r s0 cap Q Hcap); [exact F|by rewrite Hlen|apply Hj|lia|]. rewrite Uj, (proj1 (halved _ H1)). clear s F. intros s F.
    eapply (frame_shift_r s0 cap Q Hcap); [exact F|by rewrite Hlen|apply Hk|lia|]. rewrite Uk, (proj1 (halved _ H2)). clear s F. intros s F.
    by apply wp_ret, HQ.
Qed.

(** What the loop leaves: an odd number, and coefficients that have not grown much. *)
Definition odd_part (t c1 c2 w t' c1' c2' : Z) : Prop :=
  bezout t' c1' c2' /\ 0 < t' /\ (t' | t) /\ ((t' = t /\ c1' = c1 /\ c2' = c2) \/ (2 * t' <= t /\ 2 * Z.abs c1' <= w + n /\ 2 * Z.abs c2' <= w + n)).

Definition halving (t c1 c2 w : Z) (m : nat) (s : bn) : Prop :=
  exists t' c1' c2', frame s0 cap [] (mk t' c1' c2') s /\ m = Z.to_nat (bits t') /\ odd_part t c1 c2 w t' c1' c2'.

Lemma halve_spec (Q : Z -> bn -> Prop) fuel t c1 c2 w (kk : M bn Z) s : frame s0 cap [] (mk t c1 c2) s -> fails s0 cap Q 9 -> bezout t c1 c2 -> 0 < t ->
  Z.abs c1 <= w -> Z.abs c2 <= w -> n <= w -> w + n < base ^ cap -> (Z.to_nat (bits t) < fuel)%nat ->
  (forall t' c1' c2' s', frame s0 cap [] (mk t' c1' c2') s' -> Z.odd t' = true -> odd_part t c1 c2 w t' c1' c2' -> wp exact kk Q s') ->
  wp exact (chk! halve fuel (b0 + i) (b0 + j) (b0 + k) (b0 + 0) (b0 + 5) in kk) Q s.
Proof.
  intros F Hf Hb Ht Hw1 Hw2 Hnw Hfit Hfuel HQ. apply wp_chk. unfold halve.
  apply (wp_chk_while (halving t c1 c2 w) _ _ _ (Z.to_nat (bits t))); [|done|].
  { exists t, c1, c2. split; [done|]. split; [done|]. split; [done|]. split; [done|]. split; [apply Z.divide_refl|by left]. }
  clear s F. intros m s (t' & c1' & c2' & F & Em & P). pose proof P as (Hb' & Ht' & Hdiv & Hor).
  eapply frame_odd; [exact F|eapply fr_var; [exact F|apply Hi]|done|]. intros x Hx. apply wp_ret. rewrite (odd_test _ _ Hx).
  destruct (Z.odd t') eqn:Eo; cbn [negb].
  - change (0 =? 0) with true. cbv iota. by eapply HQ.
  - assert (Hc : Z.abs c1' <= w /\ Z.abs c2' <= w) by (destruct Hor as [(-> & -> & ->)|Hor]; lia).
    destruct (halved t' Eo) as [_ Et]. assert (Hle : t' <= t) by (apply Z.divide_pos_le; done). pose proof (halve_bound c1' c2' w (proj1 Hc) (proj2 Hc)).
    refine (halve_body _ t' c1' c2' w s F _ Hb' Eo Ht' (proj1 Hc) (proj2 Hc) Hfit _); [exact (fails_if s0 cap _ _ 9 (fails_if s0 cap Q _ 9 Hf))|].
    intros s' F'. change (0 =? 0) with true. cbv iota. pose proof (bits_less (t' / 2) t' ltac:(lia) ltac:(lia) ltac:(lia)). pose proof (bits_nonneg (t' / 2)).
    exists (Z.to_nat (bits (t' / 2))). split; [lia|]. eexists _, _, _. split; [exact F'|]. split; [done|].
    split; [by apply halve_bezout|]. split; [lia|]. split; [|right; lia]. etrans; [|exact Hdiv]. exists 2. lia.
Qed.
End halve.

(** *** Rounds *)

Definition vars (tu u1 u2 tv v1 v2 : Z) : list (Z * Z) := [(a, 1); (tu, 1); (u1, 1); (u2, 1); (1, 0); (n, 1); (tv, 1); (v1, 1); (v2, 1)].

(** The coefficients of an even number may be twice as large: it will be halved. *)
Definition side (k t c1 c2 : Z) : Prop :=
  bezout t c1 c2 /\ t <= n /\
  ((2 * Z.abs c1 <= k * n /\ 2 * Z.abs c2 <= k * n) \/ (Z.odd t = false /\ Z.abs c1 <= (k - 1) * n /\ Z.abs c2 <= (k - 1) * n)).

Lemma side_next k t c1 c2 : side k t c1 c2 -> side (k + 1) t c1 c2.
Proof. intros (Hb & Ht & H). split; [done|]. split; [done|]. destruct H as [H|(Ho & H)]; [left; lia|right]. split; [done|lia]. Qed.

Lemma side_bound k t c1 c2 : 2 <= k -> side k t c1 c2 -> Z.abs c1 <= (k - 1) * n /\ Z.abs c2 <= (k - 1) * n.
Proof. intros Hk (_ & _ & [H|H]); [|lia]. assert (k * n <= 2 * ((k - 1) * n)) by nia. lia. Qed.

Lemma side_odd k t c1 c2 t' c1' c2' : 2 <= k -> 0 < t -> side k t c1 c2 -> Z.odd t' = true -> odd_part t c1 c2 ((k - 1) * n) t' c1' c2' ->
  bezout t' c1' c2' /\ 0 < t' <= t /\ (t' | t) /\ 2 * Z.abs c1' <= k * n /\ 2 * Z.abs c2' <= k * n /\ (Z.odd t = false -> 2 * t' <= t).
Proof.
  intros Hk Ht (_ & _ & HS) Ho (Hb & Hp & Hd & H). split; [done|]. split; [split; [done|by apply Z.divide_pos_le]|]. split; [done|].
  destruct H as [(-> & -> & ->)|H].
  - destruct HS as [HS|(He & _)]; [|congruence]. split_and!; [lia|lia|congruence].
  - split_and!; lia.
Qed.

Lemma gcd_parts x y x' y' : Z.gcd x y = 1 -> (x' | x) -> (y' | y) -> Z.gcd x' y' = 1.
Proof.
  intros H Hx Hy. assert (Hd : (Z.gcd x' y' | 1)).
  { rewrite <- H. apply Z.gcd_greatest; (etrans; [|eassumption]); [apply Z.gcd_divide_l|apply Z.gcd_divide_r]. }
  apply Z.divide_1_r_nonneg in Hd; [done|apply Z.gcd_nonneg].
Qed.

Lemma side_difference k x c1 c2 y d1 d2 : 2 <= k -> bezout x c1 c2 -> bezout y d1 d2 -> Z.odd x = true -> Z.odd y = true -> x <= n -> 0 < y ->
  2 * Z.abs c1 <= k * n -> 2 * Z.abs c2 <= k * n -> 2 * Z.abs d1 <= k * n -> 2 * Z.abs d2 <= k * n ->
  side (k + 1) (x - y) (c1 - d1) (c2 - d2) /\ Z.odd (x - y) = false.
Proof.
  intros Hk Hb1 Hb2 Hx Hy Hxn Hyp ????. assert (Ho : Z.odd (x - y) = false) by (by rewrite Z.odd_sub, Hx, Hy). split; [|done].
  split; [unfold bezout in *; lia|]. split; [lia|]. right. split; [done|]. replace ((k + 1 - 1) * n) with (k * n) by lia. lia.
Qed.

Definition in_range (k tu u1 u2 tv v1 v2 : Z) : Prop := Z.gcd tu tv = 1 /\ side k tu u1 u2 /\ side k tv v1 v2.

Lemma inv_round_spec (Q : Z -> bn -> Prop) fuel k tu u1 u2 tv v1 v2 s : frame s0 cap [] (vars tu u1 u2 tv v1 v2) s -> fails s0 cap Q 9 ->
  2 <= k -> 0 < tu -> 0 < tv -> in_range k tu u1 u2 tv v1 v2 -> (k + 2) * n < base ^ cap -> (Z.to_nat (bits n) < fuel)%nat ->
  (forall tu' u1' u2' tv' v1' v2' s', frame s0 cap [] (vars tu' u1' u2' tv' v1' v2') s' -> in_range (k + 1) tu' u1' u2' tv' v1' v2' ->
     0 <= tu' -> 0 < tv' -> bits tu' + bits tv' <= bits tu + bits tv -> (Z.odd tu = false \/ Z.odd tv = false -> bits tu' + bits tv' < bits tu + bits tv) ->
     Z.odd tu' = false \/ Z.odd tv' = false -> Q 0 s') ->
  wp exact (inv_round fuel (b0 + 1) (b0 + 2) (b0 + 3) (b0 + 6) (b0 + 7) (b0 + 8) (b0 + 0) (b0 + 5)) Q s.
Proof.
  intros F Hf Hk Htu Htv (Hg & Su & Sv) Hfit Hfuel HQ. unfold inv_round. pose proof (side_bound k _ _ _ Hk Su) as [Bu1 Bu2]. pose proof (side_bound k _ _ _ Hk Sv) as [Bv1 Bv2].
  assert (Hw : n <= (k - 1) * n) by nia. pose proof (proj1 (proj2 Su)) as Hun. pose proof (proj1 (proj2 Sv)) as Hvn.
  pose proof (bits_mono tu n ltac:(lia)). pose proof (bits_mono tv n ltac:(lia)).
  apply (halve_spec (fun t c1 c2 => vars t c1 c2 tv v1 v2) 1 2 3) with (Q := Q) (t := tu) (c1 := u1) (c2 := u2) (w := (k - 1) * n); try done; [apply Su|lia|lia|].
  clear s F. intros x c1 c2 s F Ox Px. destruct (side_odd k _ _ _ _ _ _ Hk Htu Su Ox Px) as (Bx & Rx & Dx & X1 & X2 & X3).
  apply (halve_spec (fun t d1 d2 => vars x c1 c2 t d1 d2) 6 7 8) with (Q := Q) (t := tv) (c1 := v1) (c2 := v2) (w := (k - 1) * n); try done; [apply Sv|lia|lia|].
  clear s F. intros y d1 d2 s F Oy Py. destruct (side_odd k _ _ _ _ _ _ Hk Htv Sv Oy Py) as (By & Ry & Dy & Y1 & Y2 & Y3).
  pose proof (gcd_parts _ _ _ _ Hg Dx Dy) as Hgxy. pose proof (bits_mono x tu ltac:(lia)). pose proof (bits_mono y tv ltac:(lia)).
  assert (Hstrict : Z.odd tu = false \/ Z.odd tv = false -> bits x + bits y < bits tu + bits tv).
  { intros [Ho|Ho]; [pose proof (bits_less x tu ltac:(lia) (X3 Ho) Htu)|pose proof (bits_less y tv ltac:(lia) (Y3 Ho) Htv)]; lia. }
  assert (Hroom : 2 * n < base ^ cap /\ k * n < base ^ cap) by nia. clear Px Py Bu1 Bu2 Bv1 Bv2 Su Sv.
  assert (Hin : forall (i : nat) e, vars x c1 c2 y d1 d2 !! i = Some e -> var cap s (b0 + i) e) by (intros i e Hi; by apply (fr_var _ _ _ _ _ F)).
  eapply frame_cmp_mpi; [exact F|by apply (Hin 1%nat)|by apply (Hin 6%nat)|]. clear Hin.
  destruct (Z.leb_spec 0 (Z.sgn (x - y))) as [Hxy|Hxy].
  - eapply (frame_sub s0 cap Q Hcap) with (i := 1%nat); [exact F|done|reflexivity|by apply (fr_var _ _ _ _ _ F 1)|by apply (fr_var _ _ _ _ _ F 6)|rewrite (fr_next _ _ _ _ _ F); cbn; lia..|done|lia|].
    clear s F. intros s F. change (<[1%nat := _]> _) with (vars (x - y) c1 c2 y d1 d2) in F.
    eapply (frame_sub s0 cap Q Hcap) with (i := 2%nat); [exact F|done|reflexivity|by apply (fr_var _ _ _ _ _ F 2)|by apply (fr_var _ _ _ _ _ F 7)|rewrite (fr_next _ _ _ _ _ F); cbn; lia..|done|lia|].
    clear s F. intros s F. change (<[2%nat := _]> _) with (vars (x - y) (c1 - d1) c2 y d1 d2) in F.
    eapply (frame_sub s0 cap Q Hcap) with (i := 3%nat); [exact F|done|reflexivity|by apply (fr_var _ _ _ _ _ F 3)|by apply (fr_var _ _ _ _ _ F 8)|rewrite (fr_next _ _ _ _ _ F); cbn; lia..|done|lia|].
    clear s F. intros s F. change (<[3%nat := _]> _) with (vars (x - y) (c1 - d1) (c2 - d2) y d1 d2) in F. apply wp_ret.
    destruct (side_difference k x c1 c2 y d1 d2) as [HS HO]; try done; [lia|lia|]. pose proof (bits_mono (x - y) x ltac:(lia)).
    eapply HQ; [exact F| |lia|lia|lia|intros ?%Hstrict; lia|by left]. split; [|split; [done|]].
    + rewrite Z.gcd_comm, Z.gcd_sub_diag_r, Z.gcd_comm. done.
    + apply side_next. split; [done|]. split; [lia|]. left. lia.
  - eapply (frame_sub s0 cap Q Hcap) with (i := 6%nat); [exact F|done|reflexivity|by apply (fr_var _ _ _ _ _ F 6)|by apply (fr_var _ _ _ _ _ F 1)|rewrite (fr_next _ _ _ _ _ F); cbn; lia..|done|lia|].
    clear s F. intros s F. change (<[6%nat := _]> _) with (vars x c1 c2 (y - x) d1 d2) in F.
    eapply (frame_sub s0 cap Q Hcap) with (i := 7%nat); [exact F|done|reflexivity|by apply (fr_var _ _ _ _ _ F 7)|by apply (fr_var _ _ _ _ _ F 2)|rewrite (fr_next _ _ _ _ _ F); cbn; lia..|done|lia|].
    clear s F. intros s F. change (<[7%nat := _]> _) with (vars x c1 c2 (y - x) (d1 - c1) d2) in F.
    eapply (frame_sub s0 cap Q Hcap) with (i := 8%nat); [exact F|done|reflexivity|by apply (fr_var _ _ _ _ _ F 8)|by apply (fr_var _ _ _ _ _ F 3)|rewrite (fr_next _ _ _ _ _ F); cbn; lia..|done|lia|].
    clear s F. intros s F. change (<[8%nat := _]> _) with (vars x c1 c2 (y - x) (d1 - c1) (d2 - c2)) in F. apply wp_ret.
    destruct (side_difference k y d1 d2 x c1 c2) as [HS HO]; try done; [lia|lia|]. pose proof (bits_mono (y - x) y ltac:(lia)).
    eapply HQ; [exact F| |lia|lia|lia|intros ?%Hstrict; lia|by right]. split; [|split; [|done]].
    + rewrite Z.gcd_sub_diag_r. done.
    + apply side_next. split; [done|]. split; [lia|]. left. lia.
Qed.

(** *** The loops *)

Context (Hfit : (bits a + bits n + 6) * n < base ^ cap).
#[local] Notation most := (3 + bits a + bits n).

Definition inv_loop (m : nat) (s : bn) : Prop :=
  exists k tu u1 u2 tv v1 v2, frame s0 cap [] (vars tu u1 u2 tv v1 v2) s /\ in_range k tu u1 u2 tv v1 v2 /\ 0 <= tu /\ 0 < tv /\
    m = Z.to_nat (bits tu + bits tv) /\ 2 <= k /\ k + (bits tu + bits tv) <= most /\ (Z.odd tu = false \/ Z.odd tv = false).

Lemma in_range_start : in_range 2 a 1 0 n 0 1.
Proof. split; [exact Hprime|]. split; (split; [unfold bezout; lia|split; [lia|left; lia]]). Qed.

Lemma inv_loop_spec (Q : Z -> bn -> Prop) fuel (kk : M bn Z) s : frame s0 cap [] (vars a 1 0 n 0 1) s -> fails s0 cap Q 9 -> (Z.to_nat (bits a + bits n) < fuel)%nat ->
  (forall u1 u2 v1 v2 s', frame s0 cap [] (vars 0 u1 u2 1 v1 v2) s' -> bezout 1 v1 v2 -> 2 * Z.abs v1 <= most * n -> wp exact kk Q s') ->
  wp exact (chk! inv_round fuel (b0 + 1) (b0 + 2) (b0 + 3) (b0 + 6) (b0 + 7) (b0 + 8) (b0 + 0) (b0 + 5) in
    chk! chk_while fuel (do! c := mbedtls_mpi_cmp_int (b0 + 1) 0 in ret (negb (c =? 0)))
      (inv_round fuel (b0 + 1) (b0 + 2) (b0 + 3) (b0 + 6) (b0 + 7) (b0 + 8) (b0 + 0) (b0 + 5)) in kk) Q s.
Proof.
  intros F Hf Hfuel HQ. pose proof (bits_nonneg a) as Ba. pose proof (bits_nonneg n) as Bn. apply wp_chk.
  refine (inv_round_spec _ fuel 2 a 1 0 n 0 1 s F (fails_if s0 cap Q _ 9 Hf) ltac:(lia) ltac:(lia) ltac:(lia) in_range_start ltac:(nia) ltac:(lia) _).
  clear s F. intros tu u1 u2 tv v1 v2 s F HI Htu Htv Hb _ Ho. change (0 =? 0) with true. cbv iota. apply wp_chk.
  apply (wp_chk_while inv_loop _ _ _ (Z.to_nat (bits tu + bits tv))); [|lia|].
  { exists 3, tu, u1, u2, tv, v1, v2. split_and!; try done; lia. }
  clear dependent tu u1 u2 tv v1 v2 s. intros m s (k & tu & u1 & u2 & tv & v1 & v2 & F & HI & Htu & Htv & Em & Hk & HkM & Ho).
  eapply frame_cmp_int; [exact F|by apply (fr_var _ _ _ _ _ F 1)|rewrite (fr_next _ _ _ _ _ F); cbn; lia|done|].
  clear s F. intros s F. rewrite Z.sub_0_r. apply wp_ret. pose proof (bits_nonneg tu) as Btu. pose proof (bits_nonneg tv) as Btv.
  destruct (Z.eqb_spec (Z.sgn tu) 0) as [E|E]; cbn [negb].
  - change (0 =? 0) with true. cbv iota. assert (tu = 0) as -> by lia. destruct HI as (Hg & _ & (Hb & _ & HS)).
    rewrite Z.gcd_0_l, Z.abs_eq in Hg by lia. subst tv. eapply HQ; [exact F|done|]. destruct HS as [HS|[HS _]]; [|done]. nia.
  - refine (inv_round_spec _ fuel k tu u1 u2 tv v1 v2 s F (fails_if s0 cap _ _ 9 (fails_if s0 cap Q _ 9 Hf)) Hk ltac:(lia) Htv HI ltac:(nia) _ _).
    { pose proof (bits_nonneg a). lia. }
    intros tu' u1' u2' tv' v1' v2' s' F' HI' Htu' Htv' _ Hless Ho'. change (0 =? 0) with true. cbv iota. specialize (Hless Ho).
    pose proof (bits_nonneg tu'). pose proof (bits_nonneg tv').
    exists (Z.to_nat (bits tu' + bits tv')). split; [lia|]. exists (k + 1), tu', u1', u2', tv', v1', v2'. split_and!; try done; lia.
Qed.

(** The coefficient is brought into [0, n). *)
Lemma adjust_spec (Q : Z -> bn -> Prop) fuel N lN u1 u2 v1 v2 (kk : M bn Z) s : frame s0 cap [] (vars 0 u1 u2 1 v1 v2) s -> fails s0 cap Q 9 ->
  (N < b0)%nat -> var cap s0 N (n, lN) -> 2 * Z.abs v1 <= most * n -> most / 2 + 1 < Z.of_nat fuel ->
  (forall x lx s', frame s0 cap [] [(a, 1); (0, 1); (u1, 1); (u2, 1); (1, 0); (n, 1); (1, 1); (x, lx); (v2, 1)] s' -> (n | x - v1) -> 0 <= x < n -> wp exact kk Q s') ->
  wp exact (chk! chk_while fuel (do! c := mbedtls_mpi_cmp_int (b0 + 7) 0 in ret (c <? 0)) (mbedtls_mpi_add_mpi (b0 + 7) (b0 + 7) N) in
    chk! chk_while fuel (do! c := mbedtls_mpi_cmp_mpi (b0 + 7) N in ret (0 <=? c)) (mbedtls_mpi_sub_mpi (b0 + 7) (b0 + 7) N) in kk) Q s.
Proof.
  intros F Hf HN VN Hv Hfuel HQ. pose proof (bits_nonneg a) as Ba. pose proof (bits_nonneg n) as Bn.
  set (ls x lx := [(a, 1); (0, 1); (u1, 1); (u2, 1); (1, 0); (n, 1); (1, 1); (x, lx); (v2, 1)]).
  assert (Hbig : most * n + n < base ^ cap) by nia. assert (Hmost : 2 * Z.abs v1 <= 2 * ((most / 2 + 1) * n)).
  { pose proof (Z.div_mod most 2 ltac:(lia)). pose proof (Z.mod_pos_bound most 2 ltac:(lia)). set (h := most / 2) in *. clearbody h. nia. }
  assert (Hhalf : 1 <= most / 2 + 1 <= most).
  { pose proof (Z.div_pos most 2 ltac:(lia) ltac:(lia)). pose proof (Z.mul_div_le most 2 ltac:(lia)). lia. }
  set (h := most / 2 + 1) in *. set (K := h * n) in *. assert (HK : n <= K /\ K <= most * n) by (unfold K; nia). apply wp_chk.
  apply (wp_chk_while (fun m s => exists x lx, frame s0 cap [] (ls x lx) s /\ 0 <= lx /\ (n | x - v1) /\ - (Z.of_nat m * n) <= x /\ - K <= x <= K)
    _ _ _ (Z.to_nat h)); [|lia|].
  { exists v1, 1. split; [exact F|]. split; [done|]. split; [exists 0; lia|]. rewrite Z2Nat.id by lia. fold K. lia. }
  clear s F. intros m s (x & lx & F & Hlx & Hd & Hlow & Hhigh).
  eapply frame_cmp_int; [exact F|by apply (fr_var _ _ _ _ _ F 7)|rewrite (fr_next _ _ _ _ _ F); cbn; lia|done|].
  clear s F. intros s F. rewrite Z.sub_0_r. apply wp_ret. destruct (Z.ltb_spec (Z.sgn x) 0) as [Hx|Hx].
  { apply wp_last. eapply (frame_add s0 cap _ Hcap) with (i := 7%nat); [exact F|exact (fails_if s0 cap _ _ 9 (fails_if s0 cap Q _ 9 Hf))|reflexivity|by apply (fr_var _ _ _ _ _ F 7)|eapply frame_old; [exact F|done|exact VN]| | |exact Hlx| |].
    - rewrite (fr_next _ _ _ _ _ F); cbn; lia.
    - rewrite (fr_next _ _ _ _ _ F); lia.
    - lia.
    - clear s F. intros s F. apply wp_ret. change (0 =? 0) with true. cbv iota. exists (pred m). destruct m as [|m]; [lia|]. split; [cbn; lia|].
      eexists _, _. split; [exact F|]. split; [unfold kept; destruct (_ && _); lia|]. split; [destruct Hd as [q Hq]; exists (q + 1); lia|]. cbn [pred]. lia. }
  change (0 =? 0) with true. cbv iota. apply wp_chk.
  apply (wp_chk_while (fun m s => exists x lx, frame s0 cap [] (ls x lx) s /\ 0 <= lx /\ (n | x - v1) /\ 0 <= x < (Z.of_nat m + 1) * n /\ x <= K)
    _ _ _ (Z.to_nat h)); [|lia|].
  { exists x, lx. split; [exact F|]. split; [done|]. split; [done|]. rewrite Z2Nat.id by lia. replace ((h + 1) * n) with (K + n) by (unfold K; lia). lia. }
  clear dependent x lx m s. intros m s (x & lx & F & Hlx & Hd & Hx & HxK).
  eapply frame_cmp_mpi; [exact F|by apply (fr_var _ _ _ _ _ F 7)|eapply frame_old; [exact F|done|exact VN]|]. apply wp_ret.
  destruct (Z.leb_spec 0 (Z.sgn (x - n))) as [Hxn|Hxn].
  { apply wp_last. eapply (frame_sub s0 cap _ Hcap) with (i := 7%nat); [exact F|exact (fails_if s0 cap _ _ 9 (fails_if s0 cap Q _ 9 Hf))|reflexivity|by apply (fr_var _ _ _ _ _ F 7)|eapply frame_old; [exact F|done|exact VN]| | |exact Hlx| |].
    - rewrite (fr_next _ _ _ _ _ F); cbn; lia.
    - rewrite (fr_next _ _ _ _ _ F); lia.
    - lia.
    - clear s F. intros s F. apply wp_ret. change (0 =? 0) with true. cbv iota. exists (pred m). destruct m as [|m]; [lia|]. split; [cbn; lia|].
      eexists _, _. split; [exact F|]. split; [unfold kept; destruct (_ && _); lia|]. split; [destruct Hd as [q Hq]; exists (q - 1); lia|]. cbn [pred]. lia. }
  change (0 =? 0) with true. cbv iota. eapply HQ; [exact F|done|lia].
Qed.
End inverse.

(** ** The whole function *)

Definition inv_need (X A N : nat) (s : bn) : Z :=
  Z.max (Z.max (zlen (mpi_p (bn_obj s A))) (zlen (mpi_p (bn_obj s N)))) (zlen (mpi_p (bn_obj s X))) + 4.

(** [X] is an inverse of [a] modulo [n], or untouched when there is none. *)
Definition inverse_outcome (a n need : Z) (s : bn) (m0 : mbedtls_mpi) (r : Z) (m : mbedtls_mpi) : Prop :=
  mpi_ok m /\
  ((r = 0 /\ Z.gcd a n = 1 /\ 0 <= mpi_val m < n /\ (a * mpi_val m) mod n = 1) \/
   (r = MBEDTLS_ERR_MPI_NOT_ACCEPTABLE /\ Z.gcd a n <> 1 /\ m = m0) \/
   (r = MBEDTLS_ERR_MPI_ALLOC_FAILED /\ short_of_memory need s)).

Lemma bezout_inverse a0 n v1 v2 x : 1 < n -> bezout (a0 mod n) n 1 v1 v2 -> (n | x - v1) -> (a0 * x) mod n = 1.
Proof.
  intros Hn Hb [q Hq]. unfold bezout in Hb. pose proof (Z.div_mod a0 n ltac:(lia)) as E.
  symmetry. apply (Z.mod_unique _ _ (a0 / n * x + (a0 mod n) * q - v2)); [lia|].
  replace x with (q * n + v1) by lia. set (a := a0 mod n) in *. set (d := a0 / n) in *. clearbody a d. subst a0. nia.
Qed.

Section inv_mod.
Context (X A N : nat) (s0 : bn) (a0 n cap : Z).
Context (HXn : (X < bn_next s0)%nat) (HAn : (A < bn_next s0)%nat) (HNn : (N < bn_next s0)%nat).
Context (HX : mpi_ok (bn_obj s0 X)) (HA : mpi_ok (bn_obj s0 A)) (HN : mpi_ok (bn_obj s0 N)).
Context (Ea : mpi_val (bn_obj s0 A) = a0) (En : mpi_val (bn_obj s0 N) = n) (Hn : 1 < n) (Ecap : cap = inv_need X A N s0).
#[local] Notation b0 := (bn_next s0).
#[local] Notation Post := (inverse_outcome a0 n cap s0 (bn_obj s0 X)).

Lemma inv_caps : 4 <= cap /\ zlen (mpi_p (bn_obj s0 A)) <= cap - 4 /\ zlen (mpi_p (bn_obj s0 N)) <= cap - 4 /\ zlen (mpi_p (bn_obj s0 X)) <= cap - 4.
Proof. pose proof (zlen_nonneg (mpi_p (bn_obj s0 A))). pose proof (zlen_nonneg (mpi_p (bn_obj s0 X))). pose proof (zlen_nonneg (mpi_p (bn_obj s0 N))). rewrite Ecap. unfold inv_need. lia. Qed.

Lemma inv_var_A : var cap s0 A (a0, 0).
Proof. rewrite <- Ea. apply var_start; [done|]. pose proof inv_caps. lia. Qed.
Lemma inv_var_N : var cap s0 N (n, 0).
Proof. rewrite <- En. apply var_start; [done|]. pose proof inv_caps. lia. Qed.

Lemma inv_fits_A : Z.abs a0 < base ^ cap.
Proof. pose proof inv_caps. rewrite <- Ea. apply value_bound; [done|lia|lia]. Qed.

Lemma inv_fits_N : n < base ^ (cap - 4).
Proof. pose proof inv_caps. pose proof (value_bound (cap - 4) s0 N HN ltac:(lia) ltac:(lia)). rewrite En in *. lia. Qed.

Lemma inv_bits_N : bits n <= biL * zlen (mpi_p (bn_obj s0 N)) /\ zlen (mpi_p (bn_obj s0 N)) <= 10000.
Proof.
  pose proof (zlen_nonneg (mpi_p (bn_obj s0 N))). split; [|apply HN]. apply bits_base; [done|].
  pose proof (value_bound (zlen (mpi_p (bn_obj s0 N))) s0 N HN ltac:(lia) ltac:(lia)). rewrite En in *. lia.
Qed.

Lemma inv_fits a : 0 < a < n -> (bits a + bits n + 6) * n < base ^ cap.
Proof.
  intros Han. pose proof inv_caps. pose proof inv_fits_N as B. pose proof inv_bits_N as [B1 B2]. pose proof (bits_mono a n ltac:(lia)).
  unfold biL in B1. assert (Hs : bits a + bits n + 6 < base) by (unfold base; lia). pose proof (bits_nonneg a). pose proof (bits_nonneg n).
  assert (base ^ (1 + (cap - 4)) <= base ^ cap) by (apply Z.pow_le_mono_r; [done|lia]). rewrite Z.pow_add_r, Z.pow_1_r in * by lia. nia.
Qed.

Lemma inv_fails k : fails s0 cap (result s0 cap X k Post) k.
Proof.
  pose proof inv_caps. apply (fails_result X s0 cap HXn Post HX ltac:(lia)). intros m Hm Hz Hs. split; [done|]. right. by right.
Qed.

Lemma frame_gcd (Q : Z -> bn -> Prop) l s i k v lo : frame s0 cap [] l s -> fails s0 cap Q (length l) -> l !! i = Some (v, lo) ->
  (forall s', frame s0 cap [] (<[i := (Z.gcd a0 n, 0)]> l) s' -> wp exact k Q s') -> wp exact (chk! mbedtls_mpi_gcd (b0 + i) A N in k) Q s.
Proof.
  intros F Hf Hi Hk. destruct (frame_in _ _ _ _ _ _ F Hi) as (HT & HTn & Hil). pose proof inv_caps as Hc.
  pose proof (frame_old _ _ _ _ _ _ _ F HAn inv_var_A) as VA. pose proof (frame_old _ _ _ _ _ _ _ F HNn inv_var_N) as VN.
  eapply frame_op; [exact F|exact Hf|exact Hil|apply gcd_spec; try (rewrite (fr_next _ _ _ _ _ F); lia); [apply HT|apply VA|apply VN]| |done|].
  - unfold gcd_need. rewrite (fr_old _ _ _ _ _ F A HAn), (fr_old _ _ _ _ _ F N HNn) by (by intros ?%elem_of_nil). destruct HT as (_ & _ & HT). lia.
  - rewrite (proj1 (proj2 VA)), (proj1 (proj2 VN)). cbn [fst]. unfold gcd_value. rewrite (proj2 (Z.eqb_neq n 0)) by lia. exact Hk.
Qed.

Lemma frame_mod (Q : Z -> bn -> Prop) l s i k v lo : frame s0 cap [] l s -> fails s0 cap Q (length l) -> l !! i = Some (v, lo) ->
  (forall s', frame s0 cap [] (<[i := (a0 mod n, 0)]> l) s' -> wp exact k Q s') -> wp exact (chk! mbedtls_mpi_mod_mpi (b0 + i) A N in k) Q s.
Proof.
  intros F Hf Hi Hk. destruct (frame_in _ _ _ _ _ _ F Hi) as (HT & HTn & Hil). pose proof inv_caps as Hc.
  pose proof (frame_old _ _ _ _ _ _ _ F HAn inv_var_A) as VA. pose proof (frame_old _ _ _ _ _ _ _ F HNn inv_var_N) as VN.
  eapply frame_op; [exact F|exact Hf|exact Hil| | |done|exact Hk].
  - eapply wp_mono; [apply mod_mpi_computes; try (rewrite (fr_next _ _ _ _ _ F); lia); [lia|apply HT|apply VA|apply VN]|]. cbv zeta beta.
    rewrite (proj1 (proj2 VA)), (proj1 (proj2 VN)). cbn [fst]. rewrite (proj2 (Z.ltb_ge n 0)), (proj2 (Z.eqb_neq n 0)) by lia. by intros r s'.
  - unfold mod_need, div_need, room. rewrite (fr_old _ _ _ _ _ F A HAn), (fr_old _ _ _ _ _ F N HNn) by (by intros ?%elem_of_nil). destruct HT as (_ & _ & HT). lia.
Qed.

(** After the divisor is found to be 1. *)
Lemma inv_body s : Z.gcd a0 n = 1 -> frame s0 cap [] [(0, 0); (0, 0); (0, 0); (0, 0); (1, 0); (0, 0); (0, 0); (0, 0); (0, 0)] s ->
  wp exact (chk! mbedtls_mpi_mod_mpi (b0 + 0) A N in
    chk! mbedtls_mpi_copy (b0 + 1) (b0 + 0) in
    chk! mbedtls_mpi_copy (b0 + 5) N in
    chk! mbedtls_mpi_copy (b0 + 6) N in
    chk! mbedtls_mpi_lset (b0 + 2) 1 in
    chk! mbedtls_mpi_lset (b0 + 3) 0 in
    chk! mbedtls_mpi_lset (b0 + 7) 0 in
    chk! mbedtls_mpi_lset (b0 + 8) 1 in
    do! n := size_of N in
    let fuel := (Z.to_nat (2 * biL * n) + 2)%nat in
    chk! inv_round fuel (b0 + 1) (b0 + 2) (b0 + 3) (b0 + 6) (b0 + 7) (b0 + 8) (b0 + 0) (b0 + 5) in
    chk! chk_while fuel (do! c := mbedtls_mpi_cmp_int (b0 + 1) 0 in ret (negb (c =? 0)))
      (inv_round fuel (b0 + 1) (b0 + 2) (b0 + 3) (b0 + 6) (b0 + 7) (b0 + 8) (b0 + 0) (b0 + 5)) in
    chk! chk_while fuel (do! c := mbedtls_mpi_cmp_int (b0 + 7) 0 in ret (c <? 0)) (mbedtls_mpi_add_mpi (b0 + 7) (b0 + 7) N) in
    chk! chk_while fuel (do! c := mbedtls_mpi_cmp_mpi (b0 + 7) N in ret (0 <=? c)) (mbedtls_mpi_sub_mpi (b0 + 7) (b0 + 7) N) in
    chk! mbedtls_mpi_copy X (b0 + 7) in
    ret 0) (result s0 cap X 9 Post) s.
Proof.
  intros Hg F. pose proof inv_caps as Hc. assert (Hcap : 1 <= cap) by lia. pose proof (inv_fails 9) as Hf. pose proof inv_fits_N as BN. pose proof inv_bits_N as [BB ZN].
  assert (BN' : Z.abs n < base ^ cap) by (assert (base ^ (cap - 4) <= base ^ cap) by (apply Z.pow_le_mono_r; [done|lia]); lia).
  assert (Han : 0 < a0 mod n < n).
  { pose proof (Z.mod_pos_bound a0 n ltac:(lia)). destruct (decide (a0 mod n = 0)) as [E|]; [|lia].
    rewrite Z.gcd_comm, <- Z.gcd_mod, E, Z.gcd_0_l in Hg by lia. lia. }
  assert (Hgcd : Z.gcd (a0 mod n) n = 1) by (rewrite Z.gcd_mod by lia; by rewrite Z.gcd_comm). set (a := a0 mod n) in *.
  eapply (frame_mod _ _ _ 0); [exact F|exact Hf|reflexivity|]. cbn [insert list_insert]. clear s F. intros s F. fold a in F.
  eapply (frame_copy _ _ _ Hcap _ _ 1); [exact F|exact Hf|reflexivity|by apply (fr_var _ _ _ _ _ F 0)|lia|lia|]. cbn [insert list_insert]. clear s F. intros s F.
  eapply (frame_copy _ _ _ Hcap _ _ 5); [exact F|exact Hf|reflexivity|eapply frame_old; [exact F|done|exact inv_var_N]|lia|lia|]. cbn [insert list_insert]. clear s F. intros s F.
  eapply (frame_copy _ _ _ Hcap _ _ 6); [exact F|exact Hf|reflexivity|eapply frame_old; [exact F|done|exact inv_var_N]|lia|lia|]. cbn [insert list_insert]. clear s F. intros s F.
  eapply (frame_lset _ _ _ Hcap _ _ 2); [exact F|exact Hf|reflexivity|done|]. cbn [insert list_insert]. clear s F. intros s F.
  eapply (frame_lset _ _ _ Hcap _ _ 3); [exact F|exact Hf|reflexivity|done|]. cbn [insert list_insert]. clear s F. intros s F.
  eapply (frame_lset _ _ _ Hcap _ _ 7); [exact F|exact Hf|reflexivity|done|]. cbn [insert list_insert]. clear s F. intros s F.
  eapply (frame_lset _ _ _ Hcap _ _ 8); [exact F|exact Hf|reflexivity|done|]. cbn [insert list_insert]. clear s F. intros s F.
  eapply (frame_limbs _ _ _ _ 0 a 0) in F; [|reflexivity|lia]. eapply (frame_limbs _ _ _ _ 1 a 0) in F; [|reflexivity|lia].
  eapply (frame_limbs _ _ _ _ 5 n 0) in F; [|reflexivity|lia]. eapply (frame_limbs _ _ _ _ 6 n 0) in F; [|reflexivity|lia]. cbn [insert list_insert] in F.
  apply wp_bind, wp_size_of. rewrite (fr_old _ _ _ _ _ F N HNn) by (by intros ?%elem_of_nil). cbv zeta.
  pose proof (bits_mono a n ltac:(lia)) as Bm. pose proof (bits_nonneg a). pose proof (bits_nonneg n). set (fuel := (Z.to_nat _ + 2)%nat).
  assert (Hfuel : (Z.to_nat (bits a + bits n) < fuel)%nat) by (unfold fuel; lia).
  pose proof (inv_fits a Han) as Hfit.
  eapply (inv_loop_spec s0 cap a n Hcap Hn Han Hgcd Hfit); [exact F|exact Hf|exact Hfuel|]. clear s F. intros u1 u2 v1 v2 s F Hb Hv.
  eapply (adjust_spec s0 cap a n Hcap Hn Han Hfit _ fuel N 0); [exact F|exact Hf|done|exact inv_var_N|exact Hv| |].
  { pose proof (Z.mul_div_le (3 + bits a + bits n) 2 ltac:(lia)). pose proof (bits_less 0 a ltac:(lia) ltac:(lia) ltac:(lia)). change (bits 0) with 0 in *. unfold fuel. lia. }
  clear s F. intros x lx s F Hd Hx.
  assert (Hfail : forall m, mpi_ok m -> zlen (mpi_p m) <= cap -> short_of_memory cap s0 -> Post MBEDTLS_ERR_MPI_ALLOC_FAILED m)
    by (intros m Hm Hz Hs; split; [done|]; right; by right).
  refine (frame_out X s0 cap HXn Hcap Post HX ltac:(lia) Hfail [(a, 1); (0, 1); (u1, 1); (u2, 1); (1, 0); (n, 1); (1, 1); (x, lx); (v2, 1)] s 7 x lx F eq_refl ltac:(lia) _).
  intros m Hm Hvm Hz. split; [done|]. left. rewrite Hvm. split; [done|]. split; [done|]. split; [done|]. by eapply bezout_inverse.
Qed.

Lemma inv_mod_greater : wp exact (mbedtls_mpi_inv_mod X A N) (fun r s' => changes [X] s0 s' /\ Post r (bn_obj s' X)) s0.
Proof.
  pose proof inv_caps as Hc. assert (Hcap : 1 <= cap) by lia. pose proof (inv_fails 9) as Hf.
  unfold mbedtls_mpi_inv_mod. apply wp_bind, wp_cmp_int; [done|done|done|]. rewrite En, Z.sub_0_r. intros s1 C1. rewrite (proj2 (Z.leb_gt _ _)) by lia.
  apply (wp_mono _ _ (result s0 cap X 0 Post)); [|intros r s'; apply frame_changes].
  pose proof (frame_same s0 cap [] _ _ (frame_start s0 cap) C1) as F. clear C1.
  apply (with_mpi_frame _ _ _ []); [done|exact F|lia|]. clear s1 F. intros s F. cbn [app length] in *.
  do 8 (match goal with H : frame _ _ _ ?l _ |- _ => apply (with_mpi_frame _ _ _ l) end; [done|exact F|lia|]; clear s F; intros s F; cbn [app length] in * ).
  eapply (frame_gcd _ _ _ 4); [exact F|exact Hf|reflexivity|]. cbn [insert list_insert]. clear s F. intros s F.
  eapply frame_cmp_int; [exact F|by apply (fr_var _ _ _ _ _ F 4)|rewrite (fr_next _ _ _ _ _ F); cbn; lia|done|]. clear s F. intros s F.
  destruct (Z.eqb_spec (Z.sgn (Z.gcd a0 n - 1)) 0) as [E|E]; cbn [negb].
  - assert (Hg : Z.gcd a0 n = 1) by lia. rewrite Hg in F. apply (inv_body s Hg F).
  - apply wp_ret. eexists. split; [|split; [by apply frame_write, F|]]; [done|].
    rewrite (fr_old _ _ _ _ _ F X HXn) by (by intros ?%elem_of_nil). split; [done|]. right. left. split; [done|]. split; [lia|done].
Qed.
End inv_mod.

Lemma inv_mod_spec X A N s : (X < bn_next s)%nat -> (A < bn_next s)%nat -> (N < bn_next s)%nat ->
  mpi_ok (bn_obj s X) -> mpi_ok (bn_obj s A) -> mpi_ok (bn_obj s N) -> mpi_val (bn_obj s N) <> 1 ->
  wp exact (mbedtls_mpi_inv_mod X A N) (fun r s' =>
    if mpi_val (bn_obj s N) <=? 0 then r = MBEDTLS_ERR_MPI_BAD_INPUT_DATA /\ changes [] s s'
    else changes [X] s s' /\
      inverse_outcome (mpi_val (bn_obj s A)) (mpi_val (bn_obj s N)) (inv_need X A N s) s (bn_obj s X) r (bn_obj s' X)) s.
Proof.
  intros HXn HAn HNn HX HA HN Hn. destruct (Z.leb_spec (mpi_val (bn_obj s N)) 0) as [Hneg|Hpos]; [|exact (inv_mod_greater X A N s _ _ _ HXn HAn HNn HX HA HN eq_refl eq_refl ltac:(lia) eq_refl)].
  unfold mbedtls_mpi_inv_mod. apply wp_bind, wp_cmp_int; [done..|]. rewrite Z.sub_0_r. intros s' C. rewrite (proj2 (Z.leb_le _ _)) by lia. by apply wp_ret.
Qed.

(** Modulo 1 the first inner loop divides 0 by 2 for ever. *)
Example inv_mod_one : mbedtls_mpi_inv_mod 2 0 1 (two_store 5 1) = NoFuel.
Proof. by vm_compute. Qed.

Lemma two_store_ok a b V : Z.abs a < base -> Z.abs b < base -> mpi_ok (bn_obj (two_store a b) V).
Proof.
  intros Ha Hb. unfold two_store. cbn [bn_obj]. destruct V as [|[|V]].
  - rewrite fn_lookup_insert. split; [cbn; case_match; [by right|by left]|]. split; [|done]. apply Forall_cons_2; [|done]. unfold limb_ok. lia.
  - rewrite fn_lookup_insert_ne, fn_lookup_insert by done. split; [cbn; case_match; [by right|by left]|]. split; [|done]. apply Forall_cons_2; [|done]. unfold limb_ok. lia.
  - rewrite !fn_lookup_insert_ne by done. split; [by left|]. split; [apply Forall_nil_2|done].
Qed.

(** C23: Greatest common divisors and inverses.  On well-formed integers, [mbedtls_mpi_gcd] ends, changes only [G] and
    stores in it the greatest common divisor of [A] and [B] - except that it stores 0 when [B] is 0 -, or fails for
    want of memory.  [mbedtls_mpi_inv_mod] refuses a modulus that is not positive, and for a modulus other than 1
    it ends with, in [X], the number of [0 .. N - 1] that is the inverse of [A] modulo [N], or with
    [MBEDTLS_ERR_MPI_NOT_ACCEPTABLE] and [X] as it was when [A] and [N] have a common divisor, or it fails for
    want of memory. *)
Theorem mpi_gcd_inverse (X A N : nat) (s : bn) :
  (X < bn_next s)%nat -> (A < bn_next s)%nat -> (N < bn_next s)%nat ->
  mpi_ok (bn_obj s X) -> mpi_ok (bn_obj s A) -> mpi_ok (bn_obj s N) ->
  let a := mpi_val (bn_obj s A) in
  let n := mpi_val (bn_obj s N) in
  wp exact (mbedtls_mpi_gcd X A N) (fun r s' =>
    changes [X] s s' /\ mpi_ok (bn_obj s' X) /\
    ((r = 0 /\ mpi_val (bn_obj s' X) = if n =? 0 then 0 else Z.gcd a n) \/
     (r = MBEDTLS_ERR_MPI_ALLOC_FAILED /\ short_of_memory (gcd_need X A N s) s))) s /\
  (n <> 1 ->
   wp exact (mbedtls_mpi_inv_mod X A N) (fun r s' =>
     if n <=? 0 then r = MBEDTLS_ERR_MPI_BAD_INPUT_DATA /\ changes [] s s'
     else changes [X] s s' /\ mpi_ok (bn_obj s' X) /\
       ((r = 0 /\ Z.gcd a n = 1 /\ 0 <= mpi_val (bn_obj s' X) < n /\ (a * mpi_val (bn_obj s' X)) mod n = 1) \/
        (r = MBEDTLS_ERR_MPI_NOT_ACCEPTABLE /\ Z.gcd a n <> 1 /\ bn_obj s' X = bn_obj s X) \/
        (r = MBEDTLS_ERR_MPI_ALLOC_FAILED /\ short_of_memory (inv_need X A N s) s))) s).
Proof.
  intros HXn HAn HNn HX HA HN a n. split.
  - eapply wp_mono; [exact (gcd_spec X A N s HXn HAn HNn HX HA HN)|]. cbn beta. intros r s' (C & Hok & _ & HR). by split_and!.
  - intros Hn. exact (inv_mod_spec X A N s HXn HAn HNn HX HA HN Hn).
Qed.

Lemma mpi_gcd_inverse_witness :
  let s := two_store 17 3120 in
  let a := mpi_val (bn_obj s 0) in
  let n := mpi_val (bn_obj s 1) in
  wp exact (mbedtls_mpi_inv_mod 2 0 1) (fun r s' =>
    if n <=? 0 then r = MBEDTLS_ERR_MPI_BAD_INPUT_DATA /\ changes [] s s'
    else changes [2%nat] s s' /\ mpi_ok (bn_obj s' 2) /\
      ((r = 0 /\ Z.gcd a n = 1 /\ 0 <= mpi_val (bn_obj s' 2) < n /\ (a * mpi_val (bn_obj s' 2)) mod n = 1) \/
       (r = MBEDTLS_ERR_MPI_NOT_ACCEPTABLE /\ Z.gcd a n <> 1 /\ bn_obj s' 2%nat = bn_obj s 2%nat) \/
       (r = MBEDTLS_ERR_MPI_ALLOC_FAILED /\ short_of_memory (inv_need 2 0 1 s) s))) s.
Proof.
  refine (proj2 (mpi_gcd_inverse 2 0 1 (two_store 17 3120) _ _ _ _ _ _) _).
  1-3: cbn; lia.
  1-3: apply two_store_ok; unfold base; lia.
  by vm_compute.
Defined.
