(* ===== verification/Base64.v ===== *)
(** * Base64

    external_libs/mbedTLS/library/base64.c: [mbedtls_base64_encode] and [mbedtls_base64_decode], against a
    reference of the encoding (RFC 4648) and of the line breaks and spaces the decoder allows. *)

From S2P Require Import Prelude.

(** ** The functions *)

Definition MBEDTLS_ERR_BASE64_BUFFER_TOO_SMALL : Z := -42.
Definition MBEDTLS_ERR_BASE64_INVALID_CHARACTER : Z := -44.
Definition BASE64_SIZE_T_MAX : Z := 18446744073709551615.

Definition base64_enc_map : list Z :=
  [65; 66; 67; 68; 69; 70; 71; 72; 73; 74;
   75; 76; 77; 78; 79; 80; 81; 82; 83; 84;
   85; 86; 87; 88; 89; 90; 97; 98; 99; 100;
   101; 102; 103; 104; 105; 106; 107; 108; 109; 110;
   111; 112; 113; 114; 115; 116; 117; 118; 119; 120;
   121; 122; 48; 49; 50; 51; 52; 53; 54; 55;
   56; 57; 43; 47].

Definition base64_dec_map : list Z :=
  [127; 127; 127; 127; 127; 127; 127; 127; 127; 127;
   127; 127; 127; 127; 127; 127; 127; 127; 127; 127;
   127; 127; 127; 127; 127; 127; 127; 127; 127; 127;
   127; 127; 127; 127; 127; 127; 127; 127; 127; 127;
   127; 127; 127;  62; 127; 127; 127;  63;  52;  53;
    54;  55;  56;  57;  58;  59;  60;  61; 127; 127;
   127;  64; 127; 127; 127;   0;   1;   2;   3;   4;
     5;   6;   7;   8;   9;  10;  11;  12;  13;  14;
    15;  16;  17;  18;  19;  20;  21;  22;  23;  24;
    25; 127; 127; 127; 127; 127; 127;  26;  27;  28;
    29;  30;  31;  32;  33;  34;  35;  36;  37;  38;
    39;  40;  41;  42;  43;  44;  45;  46;  47;  48;
    49;  50;  51; 127; 127; 127; 127; 127].

(** What a call returns: the code, [*olen] ([None] when it is left alone), and the destination; [None] is
    NULL.  [dlen] may be less than the object holds. *)
Definition reply : Type := (Z * option Z * option bytes)%type.

(** The three bytes at [3 k] become the four characters at [4 k]. *)
Definition encode_group (src : bytes) (k : Z) (dst : bytes) : outcome bytes :=
  let! C1 := load src (3 * k) in
  let! C2 := load src (3 * k + 1) in
  let! C3 := load src (3 * k + 2) in
  let! a := load base64_enc_map (Z.land (Z.shiftr C1 2) 63) in
  let! b := load base64_enc_map (Z.land (Z.shiftl (Z.land C1 3) 4 + Z.shiftr C2 4) 63) in
  let! c := load base64_enc_map (Z.land (Z.shiftl (Z.land C2 15) 2 + Z.shiftr C3 6) 63) in
  let! d := load base64_enc_map (Z.land C3 63) in
  store dst (4 * k) [a; b; c; d].

(** The one or two bytes from [i] on that are left. *)
Definition encode_tail (src : bytes) (i slen p : Z) (dst : bytes) : outcome (bytes * Z) :=
  if i <? slen then
    let! C1 := load src i in
    let! C2 := (if i + 1 <? slen then load src (i + 1) else Done 0) in
    let! a := load base64_enc_map (Z.land (Z.shiftr C1 2) 63) in
    let! b := load base64_enc_map (Z.land (Z.shiftl (Z.land C1 3) 4 + Z.shiftr C2 4) 63) in
    let! c := (if i + 1 <? slen then load base64_enc_map (Z.land (Z.shiftl (Z.land C2 15) 2) 63) else Done 61) in
    let! dst := store dst p [a; b; c; 61] in
    Done (dst, p + 4)
  else Done (dst, p).

Definition mbedtls_base64_encode (dst : option bytes) (dlen : Z) (src : bytes) (slen : Z) : outcome reply :=
  if slen =? 0 then Done (0, Some 0, dst)
  else
    let n := slen / 3 + (if slen mod 3 =? 0 then 0 else 1) in
    if (BASE64_SIZE_T_MAX - 1) / 4 <? n then Done (MBEDTLS_ERR_BASE64_BUFFER_TOO_SMALL, Some BASE64_SIZE_T_MAX, dst)
    else
      let n := n * 4 in
      match dst with
      | None => Done (MBEDTLS_ERR_BASE64_BUFFER_TOO_SMALL, Some (n + 1), dst)
      | Some buf =>
          if dlen <? n + 1 then Done (MBEDTLS_ERR_BASE64_BUFFER_TOO_SMALL, Some (n + 1), dst)
          else
            let n := slen / 3 in
            let! buf := ofor (Z.to_nat n) 0 (encode_group src) buf in
            let! (buf, p) := encode_tail src (3 * n) slen (4 * n) buf in
            let! buf := store buf p [0] in
            Done (0, Some p, Some buf)
      end.

(** [while( i < slen && src[i] == ' ' ) { ++i; ++x; }] *)
Definition skip_spaces (src : bytes) (slen i : Z) : outcome (Z * Z) :=
  oloop (length src + 1) (fun '(i, x) =>
    if i <? slen then
      let! c := load src i in
      Done (if c =? 32 then inl (i + 1, u32 (x + 1)) else inr (i, x))
    else Done (inr (i, x))) (i, 0).

(** The first pass: an error, or the position, the number of characters and the number of [=]. *)
Definition check_char (src : bytes) (slen : Z) (st : Z * Z * Z) : outcome ((Z * Z * Z) + (Z + Z * Z * Z)) :=
  let '(i, n, j) := st in
  if slen <=? i then Done (inr (inr (i, n, j)))
  else
    let! (i, x) := skip_spaces src slen i in
    if i =? slen then Done (inr (inr (i, n, j)))
    else
      let! c := load src i in
      let! crlf := (if (2 <=? slen - i) && (c =? 13) then let! d := load src (i + 1) in Done (d =? 10) else Done false) in
      if crlf then Done (inl (i + 1, n, j))
      else if c =? 10 then Done (inl (i + 1, n, j))
      else if negb (x =? 0) then Done (inr (inl MBEDTLS_ERR_BASE64_INVALID_CHARACTER))
      else
        let j := if c =? 61 then u32 (j + 1) else j in
        if (c =? 61) && (2 <? j) then Done (inr (inl MBEDTLS_ERR_BASE64_INVALID_CHARACTER))
        else if 127 <? c then Done (inr (inl MBEDTLS_ERR_BASE64_INVALID_CHARACTER))
        else
          let! m := load base64_dec_map c in
          if m =? 127 then Done (inr (inl MBEDTLS_ERR_BASE64_INVALID_CHARACTER))
          else if (m <? 64) && negb (j =? 0) then Done (inr (inl MBEDTLS_ERR_BASE64_INVALID_CHARACTER))
          else Done (inl (i + 1, n + 1, j)).

Definition check_text (src : bytes) (slen : Z) : outcome (Z + Z * Z * Z) :=
  oloop (length src + 1) (check_char src slen) (0, 0, 0).

(** The [j] bytes of a group whose four characters have been read into [x]. *)
Definition flush (j x p : Z) (dst : bytes) : outcome (bytes * Z) :=
  let! (dst, p) := (if 0 <? j then let! dst := store dst p [u8 (Z.shiftr x 16)] in Done (dst, p + 1) else Done (dst, p)) in
  let! (dst, p) := (if 1 <? j then let! dst := store dst p [u8 (Z.shiftr x 8)] in Done (dst, p + 1) else Done (dst, p)) in
  if 2 <? j then let! dst := store dst p [u8 x] in Done (dst, p + 1) else Done (dst, p).

(** One character of the second pass; [j] bytes of a group are to be written, [n] of its characters have been
    read into [x]. *)
Definition decode_char (c : Z) (st : Z * Z * Z * Z * bytes) : outcome (Z * Z * Z * Z * bytes) :=
  let '(j, n, x, p, dst) := st in
  if (c =? 13) || (c =? 10) || (c =? 32) then Done (j, n, x, p, dst)
  else
    let! m := load base64_dec_map c in
    let j := u32 (j - (if m =? 64 then 1 else 0)) in
    let x := Z.lor (u32 (Z.shiftl x 6)) (Z.land m 63) in
    if n + 1 =? 4 then
      let! (dst, p) := flush j x p dst in
      Done (j, 0, x, p, dst)
    else Done (j, n + 1, x, p, dst).

Definition mbedtls_base64_decode (dst : option bytes) (dlen : Z) (src : bytes) (slen : Z) : outcome reply :=
  let! r := check_text src slen in
  match r with
  | inl e => Done (e, None, dst)
  | inr (i, n, j) =>
      if n =? 0 then Done (0, Some 0, dst)
      else
        let n := u64 (Z.shiftr (u64 (u64 (n * 6) + 7)) 3 - j) in
        match dst with
        | None => Done (MBEDTLS_ERR_BASE64_BUFFER_TOO_SMALL, Some n, dst)
        | Some buf =>
            if dlen <? n then Done (MBEDTLS_ERR_BASE64_BUFFER_TOO_SMALL, Some n, dst)
            else
              let! (_, _, _, p, buf) := ofor (Z.to_nat i) 0 (fun k st => let! c := load src k in decode_char c st) (3, 0, 0, 0, buf) in
              Done (0, Some p, Some buf)
        end
  end.

(** ** The reference *)

(** The alphabet, and its inverse. *)
Definition char_of (v : Z) : Z :=
  if v <? 26 then 65 + v else if v <? 52 then 71 + v else if v <? 62 then v - 4 else if v =? 62 then 43 else 47.

Definition sextet_of (c : Z) : option Z :=
  if (65 <=? c) && (c <=? 90) then Some (c - 65)
  else if (97 <=? c) && (c <=? 122) then Some (c - 71)
  else if (48 <=? c) && (c <=? 57) then Some (c + 4)
  else if c =? 43 then Some 62
  else if c =? 47 then Some 63 else None.

(** Three bytes are a number of 24 bits and four digits to the base 64. *)
Fixpoint base64 (d : bytes) : bytes :=
  match d with
  | a :: b :: c :: d' =>
      let v := (a * 256 + b) * 256 + c in
      char_of (v / 64 ^ 3) :: char_of (v / 64 ^ 2 mod 64) :: char_of (v / 64 mod 64) :: char_of (v mod 64) :: base64 d'
  | [a; b] =>
      let v := (a * 256 + b) * 256 in [char_of (v / 64 ^ 3); char_of (v / 64 ^ 2 mod 64); char_of (v / 64 mod 64); 61]
  | [a] => let v := a * 256 * 256 in [char_of (v / 64 ^ 3); char_of (v / 64 ^ 2 mod 64); 61; 61]
  | [] => []
  end.

(** Line breaks, LF or CR LF, may stand anywhere, spaces before them and at the end: the text without them. *)
Fixpoint strip (spaces : bool) (s : bytes) : option bytes :=
  match s with
  | [] => Some []
  | c :: s' =>
      if c =? 32 then strip true s'
      else if (c =? 10) || ((c =? 13) && bool_decide (head s' = Some 10)) then strip false s'
      else if spaces then None else cons c <$> strip false s'
  end.

(** Characters of the alphabet, then at most two [=]; [j] of them have been seen. *)
Fixpoint valid_chars (j : Z) (cs : bytes) : bool :=
  match cs with
  | [] => true
  | c :: cs' =>
      if c =? 61 then (j <? 2) && valid_chars (j + 1) cs'
      else bool_decide (is_Some (sextet_of c)) && (j =? 0) && valid_chars j cs'
  end.

(** Every group of four characters is a number of 24 bits; a [=] takes a byte off.  What is left is dropped. *)
Definition sextet (c : Z) : Z := default 0 (sextet_of c).
Definition pads (cs : bytes) : nat := length (filter (fun c => c = 61) cs).
Fixpoint unbase64 (cs : bytes) : bytes :=
  match cs with
  | a :: b :: c :: d :: cs' =>
      let v := ((sextet a * 64 + sextet b) * 64 + sextet c) * 64 + sextet d in
      take (3 - pads [a; b; c; d]) [v / 65536; v / 256 mod 256; v mod 256] ++ unbase64 cs'
  | _ => []
  end.

(** "Hello" and back, with a line break. *)
Example encode_hello :
  mbedtls_base64_encode (Some (replicate 10 255)) 10 [72; 101; 108; 108; 111] 5 =
  Done (0, Some 8, Some [83; 71; 86; 115; 98; 71; 56; 61; 0; 255]).
Proof. by vm_compute. Qed.
Example decode_hello :
  mbedtls_base64_decode (Some (replicate 6 255)) 5 [83; 71; 86; 32; 13; 10; 115; 98; 71; 56; 61; 32] 12 =
  Done (0, Some 5, Some [72; 101; 108; 108; 111; 255]).
Proof. by vm_compute. Qed.

(** A text that is no whole number of groups is accepted and loses its end. *)
Example decode_incomplete :
  mbedtls_base64_decode (Some [9; 9; 9]) 3 [81; 85; 73] 3 = Done (0, Some 0, Some [9; 9; 9]).
Proof. by vm_compute. Qed.

(** [*olen] is not updated when the text is refused, and tells more than is written when the text is
    incomplete: three bytes asked for, none written. *)
Example decode_olen :
  mbedtls_base64_decode None 0 [33] 1 = Done (MBEDTLS_ERR_BASE64_INVALID_CHARACTER, None, None) /\
  mbedtls_base64_decode None 0 [81; 85; 73] 3 = Done (MBEDTLS_ERR_BASE64_BUFFER_TOO_SMALL, Some 3, None) /\
  mbedtls_base64_decode (Some [9; 9; 9]) 3 [81; 85; 73] 3 = Done (0, Some 0, Some [9; 9; 9]).
Proof. by split_and!; vm_compute. Qed.

(** ** Lemmas: the tables *)

(** Reading a table, checked entry by entry. *)
Definition entries (t : list Z) (f : Z -> Z) (n : Z) : bool :=
  forallb (fun i => match load t i with Done x => x =? f i | _ => false end) (seqZ 0 n).

Lemma entries_load t f n i : entries t f n = true -> 0 <= i < n -> load t i = Done (f i).
Proof.
  unfold entries. rewrite forallb_forall. intros H Hi. specialize (H i).
  assert (Hin : In i (seqZ 0 n)) by (apply list_elem_of_In, elem_of_seqZ; lia).
  specialize (H Hin). destruct (load t i); [|done|done]. f_equal. by apply Z.eqb_eq.
Qed.

Lemma enc_map_char v : 0 <= v < 64 -> load base64_enc_map v = Done (char_of v).
Proof. apply (entries_load base64_enc_map char_of 64). by vm_compute. Qed.

Definition dec_entry (c : Z) : Z := if c =? 61 then 64 else default 127 (sextet_of c).

Lemma dec_map_entry c : 0 <= c < 128 -> load base64_dec_map c = Done (dec_entry c).
Proof. apply (entries_load base64_dec_map dec_entry 128). by vm_compute. Qed.

Lemma sextet_range c v : sextet_of c = Some v -> 0 <= v < 64 /\ 0 <= c < 128.
Proof. unfold sextet_of. intros H. repeat (case_hyp H; [injection H as <-; lia|]). done. Qed.

Lemma sextet_bound c : 0 <= sextet c < 64.
Proof. unfold sextet. destruct (sextet_of c) eqn:E; cbn; [by apply sextet_range in E as []|lia]. Qed.

Lemma char_of_valid v : 0 <= v < 64 -> sextet_of (char_of v) = Some v /\ char_of v <> 61 /\ char_of v <> 10 /\ char_of v <> 13 /\ char_of v <> 32.
Proof.
  intros Hv. unfold char_of, sextet_of. repeat case_match; try lia; (split; [f_equal; lia|lia]).
Qed.

(** ** Encoding *)

Lemma three_at_a_time (P : bytes -> Prop) :
  P [] -> (forall a, P [a]) -> (forall a b, P [a; b]) -> (forall a b c d, P d -> P (a :: b :: c :: d)) -> forall d, P d.
Proof. intros H0 H1 H2 H3. fix IH 1. intros [|a [|b [|c d]]]; [exact H0|apply H1|apply H2|apply H3, IH]. Qed.

Lemma zlen_base64 d : zlen (base64 d) = (zlen d + 2) / 3 * 4.
Proof.
  induction d as [|a|a b|a b c d IH] using three_at_a_time; try reflexivity.
  cbn [base64]. rewrite !zlen_cons, IH. replace (1 + (1 + (1 + zlen d)) + 2) with (zlen d + 2 + 1 * 3) by lia.
  rewrite Z.div_add by lia. lia.
Qed.

Lemma low_six_bits x : Z.land x 63 = x mod 64.
Proof. change 63 with (Z.ones 6). by rewrite Z.land_ones. Qed.

(** The four characters, as the code cuts the bytes. *)
Lemma cut_bytes a b c : is_byte a -> is_byte b -> is_byte c ->
  let v := (a * 256 + b) * 256 + c in
  load base64_enc_map (Z.land (Z.shiftr a 2) 63) = Done (char_of (v / 64 ^ 3)) /\
  load base64_enc_map (Z.land (Z.shiftl (Z.land a 3) 4 + Z.shiftr b 4) 63) = Done (char_of (v / 64 ^ 2 mod 64)) /\
  load base64_enc_map (Z.land (Z.shiftl (Z.land b 15) 2 + Z.shiftr c 6) 63) = Done (char_of (v / 64 mod 64)) /\
  load base64_enc_map (Z.land c 63) = Done (char_of (v mod 64)).
Proof.
  intros Ha Hb Hc v. unfold is_byte in *. rewrite !low_six_bits, !Z.shiftr_div_pow2, !Z.shiftl_mul_pow2 by lia.
  replace (Z.land a 3) with (a mod 4) by (symmetry; by apply (Z.land_ones a 2)).
  replace (Z.land b 15) with (b mod 16) by (symmetry; by apply (Z.land_ones b 4)).
  change (64 ^ 3) with 262144. change (64 ^ 2) with 4096. change (2 ^ 2) with 4. change (2 ^ 4) with 16. change (2 ^ 6) with 64.
  rewrite !enc_map_char by (apply Z.mod_pos_bound; lia). unfold v. clear v.
  repeat split; do 2 f_equal; Z.to_euclidean_division_equations; lia.
Qed.

Lemma take_group (pre data rest : bytes) a b c i :
  zlen pre = 3 * i -> is_byte a -> is_byte b -> is_byte c ->
  forall out buf, zlen out = 4 * i -> 4 <= zlen buf ->
  encode_group (pre ++ (a :: b :: c :: data) ++ rest) i (out ++ buf) =
  Done ((out ++ take 4 (base64 [a; b; c])) ++ drop 4 buf).
Proof.
  intros Hpre Ha Hb Hc out buf Hout Hbuf. destruct (cut_bytes a b c Ha Hb Hc) as (E1 & E2 & E3 & E4).
  unfold encode_group. change ((a :: b :: c :: data) ++ rest) with (a :: b :: c :: data ++ rest).
  rewrite (load_at pre) by lia. cbn [obind].
  change (pre ++ a :: b :: c :: data ++ rest) with (pre ++ [a] ++ b :: c :: data ++ rest).
  rewrite app_assoc, load_at by zlia. cbn [obind]. 
  rewrite <- app_assoc. change (pre ++ [a] ++ b :: c :: data ++ rest) with (pre ++ [a; b] ++ c :: data ++ rest).
  rewrite app_assoc, load_at by zlia. cbn [obind]. rewrite E1, E2, E3, E4. cbn [obind].
  rewrite store_next by zlia. done.
Qed.

Lemma base64_cons a b c data : base64 (a :: b :: c :: data) = take 4 (base64 [a; b; c]) ++ base64 data.
Proof. done. Qed.

(** The loop, the tail and the NUL, from a place where whole groups have been read and written. *)
Lemma encode_from src data : Forall is_byte data -> forall pre rest out buf i,
  src = pre ++ data ++ rest -> zlen pre = 3 * i -> zlen out = 4 * i -> zlen (base64 data) < zlen buf ->
  (let! buf := ofor (Z.to_nat (zlen data / 3)) i (encode_group src) (out ++ buf) in
   let! (buf, p) := encode_tail src (3 * (i + zlen data / 3)) (3 * i + zlen data) (4 * (i + zlen data / 3)) buf in
   let! buf := store buf p [0] in Done (buf, p)) =
  Done (out ++ base64 data ++ 0 :: drop (length (base64 data) + 1) buf, zlen out + zlen (base64 data)).
Proof.
  induction data as [|a|a b|a b c data IH] using three_at_a_time; intros Hd pre rest out buf i -> Hpre Hout Hbuf.
  - change (Z.to_nat (zlen [] / 3)) with O. change (zlen [] / 3) with 0. cbn [ofor obind]. unfold encode_tail.
    change (zlen []) with 0. rewrite (proj2 (Z.ltb_ge _ _)) by lia. cbn [obind base64 app length] in *. change (zlen []) with 0 in *.
    rewrite store_next by zlia. cbn [obind]. rewrite <- app_assoc. do 2 f_equal. lia.
  - apply Forall_cons_1 in Hd as [Ha _]. destruct (cut_bytes a 0 0) as (E1 & E2 & _ & _); [done|unfold is_byte; lia..|].
    change (Z.to_nat (zlen [a] / 3)) with O. change (zlen [a] / 3) with 0. cbn [ofor obind]. unfold encode_tail.
    change (zlen [a]) with 1. rewrite (proj2 (Z.ltb_lt _ _)), (proj2 (Z.ltb_ge _ _)) by lia. cbn [app].
    rewrite load_at by lia. cbn [obind]. rewrite E1, E2. cbn [obind]. change (zlen (base64 [a])) with 4 in *.
    rewrite store_next by zlia. cbn [obind].
    rewrite store_next by (zlia || (unfold zlen in *; rewrite length_drop; cbn; lia)). cbn [obind].
    rewrite drop_drop, <- !app_assoc. do 2 f_equal; [|lia]. f_equal. cbn [base64 app].
    by rewrite !(Z.mul_comm _ 256), !Z.add_0_r.
  - apply Forall_cons_1 in Hd as [Ha Hd]. apply Forall_cons_1 in Hd as [Hb _].
    destruct (cut_bytes a b 0) as (E1 & E2 & E3 & _); [done|done|unfold is_byte; lia|].
    change (Z.to_nat (zlen [a; b] / 3)) with O. change (zlen [a; b] / 3) with 0. cbn [ofor obind]. unfold encode_tail.
    change (zlen [a; b]) with 2. rewrite !(proj2 (Z.ltb_lt _ _)) by lia. cbn [app].
    rewrite (load_at pre) by lia. cbn [obind].
    change (pre ++ a :: b :: rest) with (pre ++ [a] ++ b :: rest). rewrite app_assoc, load_at by zlia. cbn [obind].
    rewrite Z.add_0_r in E3. rewrite E1, E2, E3. cbn [obind]. change (zlen (base64 [a; b])) with 4 in *.
    rewrite store_next by zlia. cbn [obind].
    rewrite store_next by (zlia || (unfold zlen in *; rewrite length_drop; cbn; lia)). cbn [obind].
    rewrite drop_drop, <- !app_assoc. do 2 f_equal; [|lia]. f_equal. cbn [base64 app].
    by rewrite Z.add_0_r.
  - apply Forall_cons_1 in Hd as [Ha Hd]. apply Forall_cons_1 in Hd as [Hb Hd]. apply Forall_cons_1 in Hd as [Hc Hd].
    rewrite base64_cons in *. rewrite zlen_app in *. change (zlen (take 4 (base64 [a; b; c]))) with 4 in *.
    rewrite !zlen_cons. pose proof (zlen_nonneg data). pose proof (zlen_nonneg (base64 data)).
    replace (1 + (1 + (1 + zlen data))) with (zlen data + 1 * 3) by lia. rewrite Z.div_add by lia.
    assert (0 <= zlen data / 3) by (apply Z.div_pos; lia).
    replace (Z.to_nat (zlen data / 3 + 1)) with (S (Z.to_nat (zlen data / 3))) by lia. cbn [ofor].
    rewrite take_group by (done || lia). cbn [obind].
    replace (i + (zlen data / 3 + 1)) with (i + 1 + zlen data / 3) by lia.
    replace (3 * i + (zlen data + 1 * 3)) with (3 * (i + 1) + zlen data) by lia.
    rewrite (IH Hd (pre ++ [a; b; c]) rest); [|by rewrite <- !app_assoc|zlia|rewrite zlen_app; change (zlen (take 4 (base64 [a; b; c]))) with 4; lia|].
    2:{ unfold zlen in *. rewrite length_drop. lia. }
    rewrite zlen_app. change (zlen (take 4 (base64 [a; b; c]))) with 4. rewrite drop_drop, <- !app_assoc.
    by rewrite length_app, Z.add_assoc.
Qed.

(** What a call of the encoder returns. *)
Definition encode_reply (dst : option bytes) (dlen : Z) (text : bytes) : reply :=
  let n := zlen text in
  if n =? 0 then (0, Some 0, dst)
  else if (BASE64_SIZE_T_MAX - 1) / 4 * 4 <? n then (MBEDTLS_ERR_BASE64_BUFFER_TOO_SMALL, Some BASE64_SIZE_T_MAX, dst)
  else match dst with
       | Some buf =>
           if n <? dlen then (0, Some n, Some (text ++ 0 :: drop (length text + 1) buf))
           else (MBEDTLS_ERR_BASE64_BUFFER_TOO_SMALL, Some (n + 1), dst)
       | None => (MBEDTLS_ERR_BASE64_BUFFER_TOO_SMALL, Some (n + 1), dst)
       end.

Lemma encode_spec dst dlen data rest :
  Forall is_byte data -> (forall buf, dst = Some buf -> dlen <= zlen buf) ->
  mbedtls_base64_encode dst dlen (data ++ rest) (zlen data) = Done (encode_reply dst dlen (base64 data)).
Proof.
  intros Hd Hdst. unfold mbedtls_base64_encode, encode_reply.
  pose proof (zlen_base64 data) as El. pose proof (zlen_nonneg data) as Hn.
  assert (Eg : zlen data / 3 + (if zlen data mod 3 =? 0 then 0 else 1) = (zlen data + 2) / 3).
  { destruct (zlen data mod 3 =? 0) eqn:E; clear -E; Z.to_euclidean_division_equations; lia. }
  rewrite Eg, El. set (n := (zlen data + 2) / 3).
  assert (Hz : (zlen data =? 0) = (n * 4 =? 0)).
  { unfold n. clear -Hn. destruct (zlen data =? 0) eqn:E1, (_ * 4 =? 0) eqn:E2; try done; exfalso; revert E1 E2; Z.to_euclidean_division_equations; lia. }
  rewrite Hz. destruct (n * 4 =? 0) eqn:E0; [done|].
  assert (Hs : ((BASE64_SIZE_T_MAX - 1) / 4 <? n) = ((BASE64_SIZE_T_MAX - 1) / 4 * 4 <? n * 4)) by (change ((BASE64_SIZE_T_MAX - 1) / 4) with 4611686018427387903; lia).
  rewrite Hs. destruct (_ <? n * 4) eqn:E1; [done|]. destruct dst as [buf|]; [|done]. specialize (Hdst buf eq_refl).
  replace (dlen <? n * 4 + 1) with (negb (n * 4 <? dlen)) by lia. destruct (n * 4 <? dlen) eqn:E2; [|done]. cbn [negb].
  pose proof (encode_from (data ++ rest) data Hd [] rest [] buf 0 eq_refl eq_refl eq_refl ltac:(lia)) as H.
  rewrite Z.mul_0_r, !Z.add_0_l in H. cbn [app] in H.
  destruct (ofor _ _ _ _) as [b1| |]; cbn [obind] in *; try discriminate.
  destruct (encode_tail _ _ _ _ _) as [[b2 p]| |]; cbn [obind] in *; try discriminate.
  destruct (store _ _ _) as [b3| |]; cbn [obind] in *; try discriminate.
  injection H as -> ->. change (zlen []) with 0. by rewrite El.
Qed.

(** ** Decoding: the check of the text *)

Lemma strip_spaces k s b : strip b (replicate k 32 ++ s) = strip (b || negb (k =? 0)%nat) s.
Proof.
  revert b. induction k as [|k IH]; intros b; cbn [replicate app strip]; [by rewrite orb_false_r|].
  rewrite Z.eqb_refl, IH. cbn. by rewrite orb_true_r.
Qed.

Lemma leading_spaces (s : bytes) : exists k s', s = replicate k 32 ++ s' /\ head s' <> Some 32.
Proof.
  induction s as [|c s (k & s' & -> & H)]; [by exists O, []|].
  destruct (decide (c = 32)) as [->|Hc]; [by exists (S k), s'|]. exists O, (c :: replicate k 32 ++ s').
  split; [done|]. cbn. congruence.
Qed.

Lemma replicate_snoc {A} k (x : A) l : replicate k x ++ x :: l = replicate (S k) x ++ l.
Proof. induction k as [|k IH]; cbn; [done|]. f_equal. exact IH. Qed.

(** The inner loop, [x] spaces along. *)
Lemma skip_spaces_from (src pre s rest : bytes) k x fuel :
  src = pre ++ replicate k 32 ++ s ++ rest -> head s <> Some 32 -> (k < fuel)%nat ->
  0 <= x -> x + Z.of_nat k < 2 ^ 32 ->
  oloop fuel (fun '(i, x) =>
    if i <? zlen pre + Z.of_nat k + zlen s then
      let! c := load src i in
      Done (if c =? 32 then inl (i + 1, u32 (x + 1)) else inr (i, x))
    else Done (inr (i, x))) (zlen pre, x) = Done (zlen pre + Z.of_nat k, x + Z.of_nat k).
Proof.
  revert pre x fuel. induction k as [|k IH]; intros pre x fuel -> Hs Hf Hx Hk; (destruct fuel as [|fuel]; [lia|]); cbn [oloop].
  - change (Z.of_nat 0) with 0. rewrite !Z.add_0_r. destruct s as [|c s].
    { change (zlen []) with 0. rewrite Z.add_0_r, Z.ltb_irrefl. done. }
    rewrite (proj2 (Z.ltb_lt _ _)) by (rewrite zlen_cons; pose proof (zlen_nonneg s); lia).
    cbn [replicate app]. rewrite load_at by done. cbn [obind].
    destruct (c =? 32) eqn:E; [apply Z.eqb_eq in E as ->; by destruct Hs|done].
  - rewrite (proj2 (Z.ltb_lt _ _)) by (pose proof (zlen_nonneg s); lia).
    cbn [replicate app]. rewrite load_at by done. cbn [obind]. rewrite Z.eqb_refl, u32_id by lia.
    replace (zlen pre + 1) with (zlen (pre ++ [32])) by zlia.
    replace (zlen pre + Z.of_nat (S k) + zlen s) with (zlen (pre ++ [32]) + Z.of_nat k + zlen s) by zlia.
    rewrite IH; [|by rewrite <- app_assoc|done|lia..]. do 2 f_equal; zlia.
Qed.

(** The outcome of the check, from a place where [j] pads have been seen and [n] characters counted. *)
Definition check_reply (s : bytes) (l n j : Z) : Z + Z * Z * Z :=
  match strip false s with
  | Some cs => if valid_chars j cs then inr (l, n + zlen cs, j + Z.of_nat (pads cs)) else inl MBEDTLS_ERR_BASE64_INVALID_CHARACTER
  | None => inl MBEDTLS_ERR_BASE64_INVALID_CHARACTER
  end.

Lemma dec_entry_cases c : 0 <= c < 128 ->
  (c = 61 /\ dec_entry c = 64) \/ (c <> 61 /\ exists v, sextet_of c = Some v /\ dec_entry c = v /\ 0 <= v < 64) \/
  (c <> 61 /\ sextet_of c = None /\ dec_entry c = 127).
Proof.
  intros Hc. unfold dec_entry. destruct (c =? 61) eqn:E; [left; lia|right].
  destruct (sextet_of c) as [v|] eqn:Ev; cbn; [left|right; split; [lia|done]].
  split; [lia|]. exists v. split; [done|]. split; [done|]. by apply sextet_range in Ev as [].
Qed.

Lemma sextet_of_big c : 127 < c -> sextet_of c = None.
Proof. intros H. destruct (sextet_of c) eqn:E; [apply sextet_range in E; lia|done]. Qed.

Lemma check_from (src : bytes) (l : Z) fuel : forall s pre rest n j,
  (length s < fuel)%nat -> src = pre ++ s ++ rest -> l = zlen pre + zlen s -> Forall is_byte s -> zlen s < 2 ^ 32 -> 0 <= j <= 2 ->
  oloop fuel (check_char src l) (zlen pre, n, j) = Done (check_reply s l n j).
Proof.
  induction fuel as [|fuel IH]; intros s pre rest n j Hf Esrc El Hs Hlen Hj; [lia|]. cbn [oloop]. unfold check_char at 1.
  destruct (leading_spaces s) as (k & s' & -> & Hhead). rewrite length_app, length_replicate in Hf.
  assert (Els : zlen (replicate k 32 ++ s') = Z.of_nat k + zlen s') by (by rewrite zlen_app, zlen_replicate).
  pose proof (zlen_nonneg s') as Hn'. apply Forall_app in Hs as [_ Hs].
  unfold check_reply. rewrite strip_spaces. cbn [orb].
  destruct (l <=? zlen pre) eqn:E0.
  { assert (s' = []) as -> by (destruct s'; [done|rewrite zlen_cons in *; pose proof (zlen_nonneg s'); lia]).
    cbn [obind strip valid_chars pads filter list_filter length]. change (zlen []) with 0 in *. do 3 f_equal; [f_equal; lia|lia]. }
  assert (Esk : skip_spaces src l (zlen pre) = Done (zlen pre + Z.of_nat k, Z.of_nat k)).
  { unfold skip_spaces. rewrite El, Els, Z.add_assoc.
    apply (skip_spaces_from src pre s' rest k 0); [by rewrite Esrc, <- app_assoc|done| |lia|lia].
    rewrite Esrc, !length_app, length_replicate. lia. }
  rewrite Esk. cbn [obind]. destruct s' as [|c s'].
  { change (zlen []) with 0 in *. rewrite (proj2 (Z.eqb_eq _ _)) by lia. cbn [obind strip valid_chars pads filter list_filter length].
    change (zlen []) with 0. do 3 f_equal; [f_equal; lia|lia]. }
  rewrite zlen_cons in *. pose proof (zlen_nonneg s'). rewrite (proj2 (Z.eqb_neq _ _)) by lia.
  assert (Hc : is_byte c /\ Forall is_byte s') by (by apply Forall_cons_1). destruct Hc as [Hc Hs'].
  assert (Ec : load src (zlen pre + Z.of_nat k) = Done c).
  { rewrite Esrc, <- (app_assoc (replicate k 32)), app_assoc. cbn [app]. apply load_at. by rewrite zlen_app, zlen_replicate. }
  rewrite Ec. cbn [obind].
  assert (Hnext : forall n j, 0 <= j <= 2 -> oloop fuel (check_char src l) (zlen pre + Z.of_nat k + 1, n, j) = Done (check_reply s' l n j)).
  { intros n' j' Hj'. replace (zlen pre + Z.of_nat k + 1) with (zlen (pre ++ replicate k 32 ++ [c])) by (rewrite !zlen_app, zlen_replicate; change (zlen [c]) with 1; lia).
    apply (IH s' _ rest); [cbn in Hf; lia| | |done|lia|done].
    - by rewrite Esrc, <- !app_assoc.
    - rewrite !zlen_app, zlen_replicate. change (zlen [c]) with 1. lia. }
  assert (Ecrlf : (if (2 <=? l - (zlen pre + Z.of_nat k)) && (c =? 13) then let! d := load src (zlen pre + Z.of_nat k + 1) in Done (d =? 10) else Done false)
      = Done ((c =? 13) && bool_decide (head s' = Some 10))).
  { destruct (c =? 13); [|by rewrite andb_false_r]. rewrite andb_true_r. cbn [andb].
    destruct s' as [|d s']; [change (zlen []) with 0 in *; rewrite (proj2 (Z.leb_gt _ _)) by lia; done|].
    rewrite zlen_cons in *. pose proof (zlen_nonneg s'). rewrite (proj2 (Z.leb_le _ _)) by lia.
    rewrite Esrc, <- (app_assoc (replicate k 32)). cbn [app].
    replace (pre ++ replicate k 32 ++ c :: d :: s' ++ rest) with ((pre ++ replicate k 32 ++ [c]) ++ d :: s' ++ rest) by (by rewrite <- !app_assoc).
    rewrite load_at by (rewrite !zlen_app, zlen_replicate; change (zlen [c]) with 1; lia). cbn [obind head].
    do 2 f_equal. destruct (d =? 10) eqn:E; symmetry; [apply bool_decide_eq_true|apply bool_decide_eq_false]; [f_equal; lia|intros [= ->]; lia]. }
  rewrite Ecrlf. cbn [obind]. cbn [strip].
  rewrite (proj2 (Z.eqb_neq c 32)) by (intros ->; by destruct Hhead).
  destruct ((c =? 13) && bool_decide (head s' = Some 10)) eqn:E1.
  { rewrite orb_true_r. cbn [obind]. rewrite Hnext by done. done. }
  rewrite orb_false_r. destruct (c =? 10) eqn:E2; [cbn [obind]; by rewrite Hnext|].
  replace (negb (Z.of_nat k =? 0)) with (negb (k =? 0)%nat) by (destruct k; done).
  destruct (negb (k =? 0)%nat); [done|].
  unfold check_reply in Hnext. clear IH Ecrlf Esk Ec.
  assert (E127 : (127 <? c) = false -> load base64_dec_map c = Done (dec_entry c)) by (intros ?; apply dec_map_entry; unfold is_byte in Hc; lia).
  destruct (c =? 61) eqn:E3.
  - apply Z.eqb_eq in E3 as ->. cbn [andb]. rewrite u32_id, E127 by (done || lia).
    destruct (2 <? j + 1) eqn:E4.
    { destruct (strip false s'); cbn; [|done]. by rewrite (proj2 (Z.ltb_ge j 2)) by lia. }
    change (127 <? 61) with false. change (dec_entry 61) with 64. cbn [obind]. change (64 =? 127) with false. change (64 <? 64) with false. cbn [andb obind]. rewrite Hnext by lia.
    destruct (strip false s') as [cs|]; [|done]. cbn [fmap option_fmap option_map valid_chars].
    rewrite Z.eqb_refl, (proj2 (Z.ltb_lt j 2)) by lia. cbn [andb].
    destruct (valid_chars _ _); [|done]. unfold pads. rewrite filter_cons_True by done. cbn [length].
    rewrite zlen_cons. do 3 f_equal; [f_equal; lia|lia].
  - cbn [andb]. destruct (127 <? c) eqn:E4.
    { destruct (strip false s') as [cs|]; cbn; [|done]. by rewrite E3, sextet_of_big by lia. }
    rewrite E127 by done. cbn [obind].
    destruct (dec_entry_cases c) as [(? & _)|[(_ & v & Ev & -> & Hv)|(_ & Ev & ->)]]; [unfold is_byte in Hc; lia|lia| |].
    + rewrite (proj2 (Z.eqb_neq v 127)), (proj2 (Z.ltb_lt v 64)) by lia. cbn [andb].
      destruct (j =? 0) eqn:E5; cbn [negb].
      * cbn [obind]. rewrite Hnext by lia. destruct (strip false s') as [cs|]; [|done].
        cbn [fmap option_fmap option_map valid_chars]. rewrite E3, Ev, E5, bool_decide_eq_true_2 by done. cbn [andb]. destruct (valid_chars _ _); [|done].
        unfold pads. rewrite filter_cons_False by lia. rewrite zlen_cons. do 3 f_equal. f_equal. lia.
      * destruct (strip false s') as [cs|]; cbn; [|done]. by rewrite E3, E5, andb_false_r.
    + cbn. destruct (strip false s') as [cs|]; cbn; [|done]. by rewrite E3, Ev.
Qed.

(** ** Decoding: the second pass *)

Fixpoint each {A : Type} (f : Z -> A -> outcome A) (s : bytes) (a : A) : outcome A :=
  match s with [] => Done a | c :: s' => let! a := f c a in each f s' a end.

Lemma each_load {A} (f : Z -> A -> outcome A) s : forall src pre rest i a,
  src = pre ++ s ++ rest -> i = zlen pre ->
  ofor (length s) i (fun k st => let! c := load src k in f c st) a = each f s a.
Proof.
  induction s as [|c s IH]; intros src pre rest i a -> ->; [done|]. cbn [length ofor each].
  cbn [app]. rewrite load_at by done. cbn [obind]. destruct (f c a) as [a'| |]; cbn [obind]; [|done|done].
  apply (IH _ (pre ++ [c]) rest); [by rewrite <- app_assoc|zlia].
Qed.

Definition layout (c : Z) : Prop := c = 13 \/ c = 10 \/ c = 32.
#[global] Instance layout_dec c : Decision (layout c).
Proof. unfold layout. apply _. Defined.

Lemma layout_test c : (c =? 13) || (c =? 10) || (c =? 32) = bool_decide (layout c).
Proof. destruct (decide (layout c)) as [H|H]; [rewrite bool_decide_eq_true_2 by done|rewrite bool_decide_eq_false_2 by done]; unfold layout in H; lia. Qed.

Lemma each_skips s st : each decode_char s st = each decode_char (filter (fun c => ~ layout c) s) st.
Proof.
  revert st. induction s as [|c s IH]; intros st; [done|]. cbn [each]. destruct (decide (layout c)) as [H|H].
  - rewrite filter_cons_False by (intros ?; done). unfold decode_char at 1. destruct st as [[[[j n] x] p] dst].
    rewrite layout_test, bool_decide_eq_true_2 by done. cbn [obind]. apply IH.
  - rewrite filter_cons_True by done. cbn [each]. destruct (decode_char c st); [apply IH|done|done].
Qed.

Lemma valid_no_layout cs j : valid_chars j cs = true -> filter (fun c => ~ layout c) cs = cs.
Proof.
  revert j. induction cs as [|c cs IH]; intros j H; [done|]. cbn [valid_chars] in H.
  assert (Hc : ~ layout c).
  { destruct (c =? 61) eqn:E; [unfold layout; lia|]. apply andb_true_iff in H as [H _]. apply andb_true_iff in H as [H _].
    apply bool_decide_eq_true_1 in H as [v Hv]. intros [->|[->| ->]]; done. }
  rewrite filter_cons_True by done. f_equal. destruct (c =? 61); apply andb_true_iff in H as [_ H]; by eapply IH.
Qed.

Lemma strip_filter s : forall b cs, strip b s = Some cs -> filter (fun c => ~ layout c) s = filter (fun c => ~ layout c) cs.
Proof.
  induction s as [|c s IH]; intros b cs H; cbn [strip] in H; [by injection H as <-|].
  destruct (c =? 32) eqn:E1; [rewrite filter_cons_False by (intros Hn; apply Hn; right; right; lia); by eapply IH|].
  destruct (c =? 10) eqn:E2; cbn [orb] in H; [rewrite filter_cons_False by (intros Hn; apply Hn; right; left; lia); by eapply IH|].
  destruct (c =? 13) eqn:E3; cbn [andb] in H.
  - rewrite filter_cons_False by (intros Hn; apply Hn; left; lia). destruct (bool_decide _); [by eapply IH|].
    destruct b; [done|]. destruct (strip false s) as [cs'|] eqn:Es; [|done]. injection H as <-.
    rewrite (filter_cons_False _ c) by (intros Hn; apply Hn; left; lia). by eapply IH.
  - destruct b; [done|]. destruct (strip false s) as [cs'|] eqn:Es; [|done]. injection H as <-.
    rewrite !filter_cons_True by (unfold layout; lia). f_equal. by eapply IH.
Qed.

(** One character that is not layout. *)
Definition push (x c : Z) : Z := Z.lor (u32 (Z.shiftl x 6)) (Z.land (dec_entry c) 63).

Lemma entry_sextet c : 0 <= dec_entry c < 128 -> dec_entry c <> 127 -> Z.land (dec_entry c) 63 = sextet c.
Proof.
  unfold dec_entry, sextet. destruct (c =? 61) eqn:E.
  { apply Z.eqb_eq in E as ->. done. }
  destruct (sextet_of c) as [v|] eqn:Ev; cbn; [|done]. intros _ _. apply sextet_range in Ev as [? _].
  rewrite low_six_bits. by apply Z.mod_small.
Qed.

Lemma push_mod x c : valid_chars 0 [c] = true -> push x c mod 2 ^ 24 = (64 * x + sextet c) mod 2 ^ 24.
Proof.
  intros Hv. unfold push. pose proof (sextet_bound c).
  assert (Es : Z.land (dec_entry c) 63 = sextet c).
  { cbn in Hv. destruct (c =? 61) eqn:E; [by apply Z.eqb_eq in E as ->|]. rewrite !andb_true_r in Hv.
    apply bool_decide_eq_true_1 in Hv as [v Hv]. unfold dec_entry, sextet. rewrite E, Hv. cbn.
    apply sextet_range in Hv as [? _]. rewrite low_six_bits. by apply Z.mod_small. }
  rewrite Es. unfold u32. rewrite Z.shiftl_mul_pow2 by lia.
  change 4294967296 with (67108864 * 2 ^ 6). rewrite Z.mul_mod_distr_r by lia.
  rewrite Z.lor_comm, lor_add by lia. change (2 ^ 24) with (262144 * 64). change (2 ^ 6) with 64.
  clear. Z.to_euclidean_division_equations. lia.
Qed.

Definition good (c : Z) : bool := valid_chars 0 [c].

Lemma good_entry c : good c = true -> 0 <= c < 128 /\ ~ layout c /\ dec_entry c <> 127 /\ (dec_entry c =? 64) = (c =? 61).
Proof.
  unfold good. cbn. unfold dec_entry. destruct (c =? 61) eqn:E.
  { apply Z.eqb_eq in E as ->. intros _. split; [lia|]. split; [unfold layout; lia|]. by split. }
  rewrite !andb_true_r. intros [v Hv]%bool_decide_eq_true_1. rewrite Hv. cbn.
  split; [by apply sextet_range in Hv as []|]. split; [intros [->|[->| ->]]; done|]. apply sextet_range in Hv as [? _]. lia.
Qed.

Lemma decode_good c j n x p dst : good c = true ->
  decode_char c (j, n, x, p, dst) =
  let j := u32 (j - (if c =? 61 then 1 else 0)) in
  if n + 1 =? 4 then let! (dst, p) := flush j (push x c) p dst in Done (j, 0, push x c, p, dst)
  else Done (j, n + 1, push x c, p, dst).
Proof.
  intros Hg. destruct (good_entry c Hg) as (Hr & Hl & _ & E64). unfold decode_char, push.
  rewrite layout_test, bool_decide_eq_false_2, dec_map_entry by done. cbn [obind]. rewrite E64.
  done.
Qed.

Definition group_bytes (v : Z) : bytes := [v / 65536; v / 256 mod 256; v mod 256].

Lemma flush_spec j x v out buf p : 0 <= j <= 3 -> x mod 2 ^ 24 = v -> p = zlen out -> j <= zlen buf ->
  let o := take (Z.to_nat j) (group_bytes v) in
  flush j x p (out ++ buf) = Done ((out ++ o) ++ drop (length o) buf, p + j).
Proof.
  intros Hj Hx Hp Hbuf o. assert (E1 : u8 (Z.shiftr x 16) = v / 65536).
  { unfold u8. rewrite Z.shiftr_div_pow2 by lia. rewrite <- Hx. clear. change (2 ^ 16) with 65536. change (2 ^ 24) with 16777216. Z.to_euclidean_division_equations. lia. }
  assert (E2 : u8 (Z.shiftr x 8) = v / 256 mod 256).
  { unfold u8. rewrite Z.shiftr_div_pow2 by lia. rewrite <- Hx. clear. change (2 ^ 8) with 256. change (2 ^ 24) with 16777216. Z.to_euclidean_division_equations. lia. }
  assert (E3 : u8 x = v mod 256).
  { unfold u8. rewrite <- Hx. clear. change (2 ^ 24) with 16777216. Z.to_euclidean_division_equations. lia. }
  unfold flush, o, group_bytes. rewrite E1, E2, E3. clear E1 E2 E3.
  assert (j = 0 \/ j = 1 \/ j = 2 \/ j = 3) as [->|[->|[->| ->]]] by lia.
  - change (0 <? 0) with false. change (1 <? 0) with false. change (2 <? 0) with false. change (Z.to_nat 0) with O. cbn. by rewrite app_nil_r, drop_0, Z.add_0_r.
  - change (0 <? 1) with true. change (1 <? 1) with false. change (2 <? 1) with false. change (Z.to_nat 1) with 1%nat. cbn [take].
    rewrite store_next by room. done.
  - change (0 <? 2) with true. change (1 <? 2) with true. change (2 <? 2) with false. change (Z.to_nat 2) with 2%nat. cbn [take].
    rewrite store_next by room. cbn [obind]. rewrite store_next by room. cbn [obind].
    rewrite drop_drop, <- !app_assoc. do 2 f_equal. lia.
  - change (0 <? 3) with true. change (1 <? 3) with true. change (2 <? 3) with true. change (Z.to_nat 3) with 3%nat. cbn [take].
    do 3 (rewrite store_next by room; cbn [obind]).
    rewrite !drop_drop, <- !app_assoc. do 2 f_equal. lia.
Qed.

Lemma valid_chars_app l1 l2 j : valid_chars j (l1 ++ l2) = valid_chars j l1 && valid_chars (j + Z.of_nat (pads l1)) l2.
Proof.
  revert j. induction l1 as [|c l1 IH]; intros j; cbn [app valid_chars].
  { cbn. by rewrite Z.add_0_r. }
  unfold pads in *. destruct (c =? 61) eqn:E.
  - rewrite IH, filter_cons_True by lia. cbn [length]. rewrite andb_assoc. do 2 f_equal. lia.
  - rewrite IH, filter_cons_False by lia. by rewrite !andb_assoc.
Qed.

Lemma valid_good cs : forall j, 0 <= j -> valid_chars j cs = true -> Forall (fun c => good c = true) cs.
Proof.
  induction cs as [|c cs IH]; intros j Hj H; [done|]. cbn [valid_chars] in H. unfold good. cbn.
  destruct (c =? 61) eqn:E; apply andb_true_iff in H as [H1 H2].
  - constructor; [by rewrite E|]. by eapply IH, H2; lia.
  - apply andb_true_iff in H1 as [H1 _]. constructor; [by rewrite E, H1|]. by eapply IH, H2.
Qed.

Lemma valid_after_pad cs : forall j, 0 < j -> valid_chars j cs = true -> j + zlen cs <= Z.max 2 j /\ pads cs = length cs.
Proof.
  induction cs as [|c cs IH]; intros j Hj H; [split; [change (zlen []) with 0; lia|done]|]. cbn [valid_chars] in H. rewrite zlen_cons. unfold pads in *.
  destruct (c =? 61) eqn:E; apply andb_true_iff in H as [H1 H2]; [|lia].
  rewrite filter_cons_True by lia. destruct (IH (j + 1)) as [IH1 IH2]; [lia|done|]. cbn [length]. split; [lia|by rewrite IH2].
Qed.

Lemma each_short cs : forall j n x p dst, Forall (fun c => good c = true) cs -> 0 <= n -> n + zlen cs < 4 ->
  exists j' n' x', each decode_char cs (j, n, x, p, dst) = Done (j', n', x', p, dst).
Proof.
  induction cs as [|c cs IH]; intros j n x p dst Hg Hn Hl; [by eexists _, _, _|].
  apply Forall_cons_1 in Hg as [Hc Hg]. rewrite zlen_cons in Hl. pose proof (zlen_nonneg cs).
  cbn [each]. rewrite decode_good by done. cbv zeta. rewrite (proj2 (Z.eqb_neq (n + 1) 4)) by lia. cbn [obind]. apply IH; [done|lia..].
Qed.

Definition group_value (a b c d : Z) : Z := ((sextet a * 64 + sextet b) * 64 + sextet c) * 64 + sextet d.

Lemma pads_four a b c d : Z.of_nat (pads [a; b; c; d]) = (if a =? 61 then 1 else 0) + (if b =? 61 then 1 else 0) + (if c =? 61 then 1 else 0) + (if d =? 61 then 1 else 0).
Proof. unfold pads. rewrite !filter_cons. repeat case_decide; repeat case_match; cbn; lia. Qed.

Lemma each_group a b c d cs x p out buf :
  Forall (fun c => good c = true) [a; b; c; d] -> (pads [a; b; c; d] <= 2)%nat -> p = zlen out -> 3 - Z.of_nat (pads [a; b; c; d]) <= zlen buf ->
  let j := 3 - Z.of_nat (pads [a; b; c; d]) in
  let o := take (Z.to_nat j) (group_bytes (group_value a b c d)) in
  exists x', each decode_char (a :: b :: c :: d :: cs) (3, 0, x, p, out ++ buf) =
    each decode_char cs (j, 0, x', p + j, (out ++ o) ++ drop (length o) buf).
Proof.
  intros Hg Hp Hpo Hbuf. apply Forall_cons_1 in Hg as [Ha Hg]. apply Forall_cons_1 in Hg as [Hb Hg].
  apply Forall_cons_1 in Hg as [Hc Hg]. apply Forall_cons_1 in Hg as [Hd _].
  pose proof (pads_four a b c d) as Ep.
  set (x4 := push (push (push (push x a) b) c) d). intros j o. exists x4. cbn [each].
  rewrite decode_good by done. cbv zeta. change (0 + 1 =? 4) with false. cbn [obind].
  rewrite decode_good by done. cbv zeta. change (0 + 1 + 1 =? 4) with false. cbn [obind].
  rewrite decode_good by done. cbv zeta. change (0 + 1 + 1 + 1 =? 4) with false. cbn [obind].
  rewrite decode_good by done. cbv zeta. change (0 + 1 + 1 + 1 + 1 =? 4) with true. cbn [obind]. fold x4.
  match goal with |- context [flush ?e] => replace e with j end.
  2:{ unfold j. clear -Hp Ep. set (da := if a =? 61 then 1 else 0) in *. set (db := if b =? 61 then 1 else 0) in *.
      set (dc := if c =? 61 then 1 else 0) in *. set (dd := if d =? 61 then 1 else 0) in *.
      assert (0 <= da <= 1 /\ 0 <= db <= 1 /\ 0 <= dc <= 1 /\ 0 <= dd <= 1) by (unfold da, db, dc, dd; repeat split; case_match; lia).
      rewrite (u32_id (3 - da)), (u32_id (3 - da - db)), (u32_id (3 - da - db - dc)), u32_id by lia. lia. }
  assert (Ex : x4 mod 2 ^ 24 = group_value a b c d).
  { unfold x4. rewrite push_mod by done. pose proof (sextet_bound a). pose proof (sextet_bound b). pose proof (sextet_bound c). pose proof (sextet_bound d).
    pose proof (push_mod (push (push x a) b) c Hc) as P3. pose proof (push_mod (push x a) b Hb) as P2. pose proof (push_mod x a Ha) as P1.
    unfold group_value. clear -P1 P2 P3 H H0 H1 H2. change (2 ^ 24) with 16777216 in *. Z.to_euclidean_division_equations. lia. }
  rewrite (flush_spec j x4 (group_value a b c d)); [done|unfold j; lia|done|done|done].
Qed.

Lemma four_at_a_time (P : bytes -> Prop) :
  (forall cs, zlen cs < 4 -> P cs) -> (forall a b c d cs, P cs -> P (a :: b :: c :: d :: cs)) -> forall cs, P cs.
Proof.
  intros H0 H1. fix IH 1.
  intros [|a [|b [|c [|d cs]]]]; [apply H0; done|apply H0; done|apply H0; done|apply H0; done|apply H1, IH].
Qed.

Lemma unbase64_short cs : zlen cs < 4 -> unbase64 cs = [].
Proof. destruct cs as [|a [|b [|c [|d cs]]]]; try done. rewrite !zlen_cons. pose proof (zlen_nonneg cs). lia. Qed.

Lemma pads_length cs : (pads cs <= length cs)%nat.
Proof. apply length_filter. Qed.

Lemma valid_pads cs : forall j, 0 <= j <= 2 -> valid_chars j cs = true -> j + Z.of_nat (pads cs) <= 2.
Proof.
  induction cs as [|c cs IH]; intros j Hj H; [cbn; lia|]. cbn [valid_chars] in H. unfold pads in *.
  destruct (c =? 61) eqn:E; apply andb_true_iff in H as [H1 H2].
  - rewrite filter_cons_True by lia. specialize (IH (j + 1) ltac:(lia) H2). cbn [length]. lia.
  - rewrite filter_cons_False by lia. by apply IH.
Qed.

(** Everything about one whole group at the front of valid characters. *)
Lemma valid_group a b c d cs : valid_chars 0 (a :: b :: c :: d :: cs) = true ->
  Forall (fun c => good c = true) [a; b; c; d] /\ (pads [a; b; c; d] <= 2)%nat /\
  (pads [a; b; c; d] = 0%nat /\ valid_chars 0 cs = true \/
   (0 < pads [a; b; c; d])%nat /\ Z.of_nat (pads [a; b; c; d]) + zlen cs <= 2 /\ pads cs = length cs /\ Forall (fun c => good c = true) cs).
Proof.
  intros H. change (a :: b :: c :: d :: cs) with ([a; b; c; d] ++ cs) in H. pose proof (valid_good _ 0 ltac:(lia) H) as Hg.
  rewrite valid_chars_app in H. apply andb_true_iff in H as [H1 H2]. apply Forall_app in Hg as [Hg1 Hg2].
  pose proof (valid_pads [a; b; c; d] 0 ltac:(lia) H1). split; [done|]. split; [lia|].
  destruct (pads [a; b; c; d]) as [|k] eqn:E; [left; by rewrite Z.add_0_r in H2|right].
  destruct (valid_after_pad cs (0 + Z.of_nat (S k))) as [? ?]; [lia|done|]. split; [lia|]. split; [lia|]. by split.
Qed.

Lemma group_length v k : (k <= 2)%nat -> length (take (3 - k) (group_bytes v)) = (3 - k)%nat.
Proof. intros. rewrite length_take. cbn. lia. Qed.

Lemma unbase64_group a b c d cs :
  unbase64 (a :: b :: c :: d :: cs) = take (3 - pads [a; b; c; d]) (group_bytes (group_value a b c d)) ++ unbase64 cs.
Proof. done. Qed.

Lemma pads_group a b c d cs : pads (a :: b :: c :: d :: cs) = (pads [a; b; c; d] + pads cs)%nat.
Proof. unfold pads. rewrite !filter_cons. repeat case_decide; done. Qed.

(** What is written never exceeds the length that was checked. *)
Lemma unbase64_fits cs : valid_chars 0 cs = true -> zlen (unbase64 cs) <= (zlen cs * 6 + 7) / 8 - Z.of_nat (pads cs).
Proof.
  induction cs as [cs Hc|a b c d cs IH] using four_at_a_time; intros H.
  - rewrite unbase64_short by done. change (zlen []) with 0. pose proof (valid_pads cs 0 ltac:(lia) H). pose proof (pads_length cs).
    unfold zlen in *. clear -Hc H0 H1. Z.to_euclidean_division_equations. lia.
  - destruct (valid_group _ _ _ _ _ H) as (_ & Hp & Hcs). rewrite unbase64_group, (pads_group a b c d cs), zlen_app, !zlen_cons.
    unfold zlen at 1. rewrite group_length by done. destruct Hcs as [[E Hv]|(E & Hl & El & _)].
    + specialize (IH Hv). rewrite E. clear -IH. Z.to_euclidean_division_equations. lia.
    + rewrite unbase64_short by lia. change (zlen []) with 0. rewrite El. unfold zlen in *. clear -Hp Hl E. Z.to_euclidean_division_equations. lia.
Qed.

Lemma each_decodes cs : forall x p out buf,
  valid_chars 0 cs = true -> p = zlen out -> zlen (unbase64 cs) <= zlen buf ->
  exists j' n' x', each decode_char cs (3, 0, x, p, out ++ buf) =
    Done (j', n', x', p + zlen (unbase64 cs), (out ++ unbase64 cs) ++ drop (length (unbase64 cs)) buf).
Proof.
  induction cs as [cs Hc|a b c d cs IH] using four_at_a_time; intros x p out buf H Hp Hbuf.
  - rewrite unbase64_short by done. destruct (each_short cs 3 0 x p (out ++ buf)) as (j' & n' & x' & E); [by eapply valid_good, H|lia|lia|].
    exists j', n', x'. rewrite E, app_nil_r. cbn [length]. by rewrite drop_0, Z.add_0_r.
  - destruct (valid_group _ _ _ _ _ H) as (Hg & Hpd & Hcs). set (k := pads [a; b; c; d]) in *.
    set (o := take (3 - k) (group_bytes (group_value a b c d))). assert (Eo : zlen o = 3 - Z.of_nat k) by (unfold zlen, o; rewrite group_length; lia).
    change (unbase64 (a :: b :: c :: d :: cs)) with (o ++ unbase64 cs) in *. rewrite zlen_app in *. pose proof (zlen_nonneg (unbase64 cs)).
    destruct (each_group a b c d cs x p out buf) as (x1 & E); [done|done|done|fold k; lia|]. fold k in E.
    replace (Z.to_nat (3 - Z.of_nat k)) with (3 - k)%nat in E by lia. fold o in E. rewrite E. clear E.
    destruct Hcs as [[Ek Hv]|(Ek & Hl & El & Hg')].
    + rewrite Ek in *. change (3 - Z.of_nat 0) with 3 in *. destruct (IH x1 (p + 3) (out ++ o) (drop (length o) buf)) as (j' & n' & x' & E).
      { done. } { rewrite zlen_app. lia. } { unfold zlen in *. rewrite length_drop. lia. }
      exists j', n', x'. rewrite E. rewrite drop_drop, length_app, app_assoc. do 3 f_equal. lia.
    + rewrite unbase64_short by lia. rewrite app_nil_r. destruct (each_short cs (3 - Z.of_nat k) 0 x1 (p + (3 - Z.of_nat k)) ((out ++ o) ++ drop (length o) buf)) as (j' & n' & x' & E); [done|lia|lia|].
      exists j', n', x'. rewrite E. change (zlen []) with 0. do 3 f_equal. lia.
Qed.

(** What a call of the decoder returns. *)
Definition decode_reply (dst : option bytes) (dlen : Z) (s : bytes) : reply :=
  match strip false s with
  | Some cs =>
      if valid_chars 0 cs then
        let n := (zlen cs * 6 + 7) / 8 - Z.of_nat (pads cs) in
        if zlen cs =? 0 then (0, Some 0, dst)
        else match dst with
             | Some buf =>
                 if dlen <? n then (MBEDTLS_ERR_BASE64_BUFFER_TOO_SMALL, Some n, dst)
                 else (0, Some (zlen (unbase64 cs)), Some (unbase64 cs ++ drop (length (unbase64 cs)) buf))
             | None => (MBEDTLS_ERR_BASE64_BUFFER_TOO_SMALL, Some n, dst)
             end
      else (MBEDTLS_ERR_BASE64_INVALID_CHARACTER, None, dst)
  | None => (MBEDTLS_ERR_BASE64_INVALID_CHARACTER, None, dst)
  end.

Lemma strip_length s : forall b cs, strip b s = Some cs -> zlen cs <= zlen s.
Proof.
  induction s as [|c s IH]; intros b cs H; cbn [strip] in H; [by injection H as <-|]. rewrite zlen_cons.
  repeat case_match; try done; try (specialize (IH _ _ H); lia).
  destruct (strip false s) as [cs'|] eqn:Es; [|done]. injection H as <-. rewrite zlen_cons. specialize (IH _ _ Es). lia.
Qed.

Lemma decode_spec dst dlen s rest :
  Forall is_byte s -> zlen s < 2 ^ 32 -> (forall buf, dst = Some buf -> dlen <= zlen buf) ->
  mbedtls_base64_decode dst dlen (s ++ rest) (zlen s) = Done (decode_reply dst dlen s).
Proof.
  intros Hs Hl Hdst. unfold mbedtls_base64_decode, decode_reply, check_text.
  rewrite (check_from (s ++ rest) (zlen s) _ s [] rest 0 0); [|rewrite length_app; lia|done|done|done|done|lia].
  cbn [obind]. unfold check_reply. destruct (strip false s) as [cs|] eqn:Es; [|done].
  destruct (valid_chars 0 cs) eqn:Ev; [|done]. rewrite Z.add_0_l. destruct (zlen cs =? 0) eqn:E0; [done|].
  pose proof (strip_length _ _ _ Es). pose proof (zlen_nonneg cs). pose proof (unbase64_fits cs Ev) as Hfit. pose proof (zlen_nonneg (unbase64 cs)).
  rewrite Z.add_0_l, Z.shiftr_div_pow2 by lia. change (2 ^ 3) with 8. rewrite (u64_id (zlen cs * 6)), (u64_id (zlen cs * 6 + 7)) by lia.
  assert (Hn : u64 ((zlen cs * 6 + 7) / 8 - Z.of_nat (pads cs)) = (zlen cs * 6 + 7) / 8 - Z.of_nat (pads cs)).
  { apply u64_id. split; [lia|]. assert ((zlen cs * 6 + 7) / 8 <= zlen cs * 6 + 7) by (apply Z.div_le_upper_bound; lia). lia. }
  rewrite Hn. destruct dst as [buf|]; [|done]. specialize (Hdst buf eq_refl). destruct (dlen <? _) eqn:E1; [done|].
  rewrite zlen_to_nat, (each_load decode_char s _ [] rest 0) by done. rewrite each_skips, (strip_filter _ _ _ Es), (valid_no_layout _ _ Ev).
  destruct (each_decodes cs 0 0 [] buf Ev eq_refl ltac:(lia)) as (j' & n' & x' & E). cbn [app] in E. rewrite E. done.
Qed.

(** ** Encoding and decoding *)

Lemma char_good v : 0 <= v < 64 -> good (char_of v) = true /\ sextet (char_of v) = v /\ (char_of v =? 61) = false.
Proof.
  intros Hv. destruct (char_of_valid v Hv) as (E & N & _). unfold good, sextet. cbn [valid_chars].
  rewrite (proj2 (Z.eqb_neq _ _) N), E, bool_decide_eq_true_2 by done. done.
Qed.

Lemma pads_none l : Forall (fun c => (c =? 61) = false) l -> pads l = O.
Proof. induction 1 as [|c l Hc Hl IH]; [done|]. unfold pads in *. rewrite filter_cons_False by lia. exact IH. Qed.

Lemma valid_body l cs : Forall (fun c => good c = true) l -> pads l = O -> valid_chars 0 (l ++ cs) = valid_chars 0 cs.
Proof.
  intros Hg Hp. rewrite valid_chars_app, Hp, Z.add_0_r. replace (valid_chars 0 l) with true; [done|]. symmetry.
  induction Hg as [|c l Hc Hg IH]; [done|]. unfold good, pads in *. cbn [valid_chars] in *. destruct (c =? 61) eqn:E.
  { by rewrite filter_cons_True in Hp by lia. }
  rewrite filter_cons_False in Hp by lia. rewrite (IH Hp). by rewrite andb_true_r in Hc |- *.
Qed.

Lemma digits_bytes a b c : is_byte a -> is_byte b -> is_byte c ->
  let v := (a * 256 + b) * 256 + c in
  (0 <= v / 64 ^ 3 < 64 /\ 0 <= v / 64 ^ 2 mod 64 < 64 /\ 0 <= v / 64 mod 64 < 64 /\ 0 <= v mod 64 < 64) /\
  ((v / 64 ^ 3 * 64 + v / 64 ^ 2 mod 64) * 64 + v / 64 mod 64) * 64 + v mod 64 = v /\
  group_bytes v = [a; b; c].
Proof.
  intros Ha Hb Hc v. unfold is_byte in *. change (64 ^ 3) with 262144. change (64 ^ 2) with 4096.
  split; [unfold v; Z.to_euclidean_division_equations; lia|]. split; [unfold v; Z.to_euclidean_division_equations; lia|].
  unfold group_bytes, v. repeat f_equal; Z.to_euclidean_division_equations; lia.
Qed.

(** A group of the reference, of which [k] characters carry data. *)
Lemma group_back a b c x y z w : is_byte a -> is_byte b -> is_byte c ->
  let v := (a * 256 + b) * 256 + c in
  sextet x = v / 64 ^ 3 -> sextet y = v / 64 ^ 2 mod 64 -> sextet z = v / 64 mod 64 -> sextet w = v mod 64 ->
  group_bytes (group_value x y z w) = [a; b; c].
Proof.
  intros Ha Hb Hc v E1 E2 E3 E4. destruct (digits_bytes a b c Ha Hb Hc) as (_ & Ev & Eb).
  unfold group_value. rewrite E1, E2, E3, E4. fold v in Ev, Eb. by rewrite Ev.
Qed.

Ltac digits a b c Ha Hb Hc :=
  let R1 := fresh "R" in let R2 := fresh "R" in let R3 := fresh "R" in let R4 := fresh "R" in
  destruct (digits_bytes a b c Ha Hb Hc) as ((R1 & R2 & R3 & R4) & _ & _);
  pose proof (char_good _ R1) as (? & ? & ?); pose proof (char_good _ R2) as (? & ? & ?);
  pose proof (char_good _ R3) as (? & ? & ?); pose proof (char_good _ R4) as (? & ? & ?).

Lemma unbase64_base64 d : Forall is_byte d ->
  unbase64 (base64 d) = d /\ valid_chars 0 (base64 d) = true /\ (zlen (base64 d) * 6 + 7) / 8 - Z.of_nat (pads (base64 d)) = zlen d.
Proof.
  assert (H0 : is_byte 0) by (unfold is_byte; lia).
  induction d as [|a|a b|a b c d IH] using three_at_a_time; intros Hd; [done| | |].
  - apply Forall_cons_1 in Hd as [Ha _]. digits a 0 0 Ha H0 H0. pose proof (group_back a 0 0) as Hback.
    cbn [base64]. rewrite !Z.add_0_r in *. set (v := a * 256 * 256) in *.
    assert (Ep : pads [char_of (v / 64 ^ 3); char_of (v / 64 ^ 2 mod 64); 61; 61] = 2%nat).
    { unfold pads. rewrite !(filter_cons_False _ (char_of _)) by lia. done. }
    split_and!.
    + rewrite unbase64_group, Ep, Hback; [done|done..| |]; unfold v; clear; change (sextet 61) with 0; Z.to_euclidean_division_equations; lia.
    + etrans; [apply (valid_body [_; _] [61; 61])|done]; [by repeat constructor|]. apply pads_none. by repeat constructor.
    + by rewrite Ep.
  - apply Forall_cons_1 in Hd as [Ha Hd]. apply Forall_cons_1 in Hd as [Hb _]. digits a b 0 Ha Hb H0. pose proof (group_back a b 0) as Hback.
    cbn [base64]. rewrite !Z.add_0_r in *. set (v := (a * 256 + b) * 256) in *.
    assert (Ep : pads [char_of (v / 64 ^ 3); char_of (v / 64 ^ 2 mod 64); char_of (v / 64 mod 64); 61] = 1%nat).
    { unfold pads. rewrite !(filter_cons_False _ (char_of _)) by lia. done. }
    split_and!.
    + rewrite unbase64_group, Ep, Hback; [done|done..|]; unfold v; clear; change (sextet 61) with 0; Z.to_euclidean_division_equations; lia.
    + etrans; [apply (valid_body [_; _; _] [61])|done]; [by repeat constructor|]. apply pads_none. by repeat constructor.
    + by rewrite Ep.
  - apply Forall_cons_1 in Hd as [Ha Hd]. apply Forall_cons_1 in Hd as [Hb Hd]. apply Forall_cons_1 in Hd as [Hc Hd].
    digits a b c Ha Hb Hc. pose proof (group_back a b c) as Hback. destruct (IH Hd) as (IH1 & IH2 & IH3).
    cbn [base64]. set (v := (a * 256 + b) * 256 + c) in *.
    assert (Ep : pads [char_of (v / 64 ^ 3); char_of (v / 64 ^ 2 mod 64); char_of (v / 64 mod 64); char_of (v mod 64)] = 0%nat).
    { apply pads_none. by repeat constructor. }
    split_and!.
    + by rewrite unbase64_group, Ep, Hback, IH1.
    + etrans; [apply (valid_body [_; _; _; _])|done]; [by repeat constructor|done].
    + rewrite pads_group, Ep, !zlen_cons. rewrite <- IH3. cbn [Nat.add].
      replace (_ * 6 + 7) with ((zlen (base64 d) * 6 + 7) + 3 * 8) by lia. rewrite Z.div_add by lia. lia.
Qed.

(** The text of an encoding has no layout. *)
Lemma strip_valid cs j : valid_chars j cs = true -> strip false cs = Some cs.
Proof.
  revert j. induction cs as [|c cs IH]; intros j H; [done|]. assert (Hl : ~ layout c).
  { intros Hc. apply valid_no_layout in H. apply (f_equal length) in H. rewrite filter_cons_False in H by tauto.
    pose proof (length_filter (fun c => ~ layout c) cs). cbn in H. lia. }
  cbn [strip valid_chars] in *. unfold layout in Hl.
  rewrite (proj2 (Z.eqb_neq c 32)), (proj2 (Z.eqb_neq c 10)), (proj2 (Z.eqb_neq c 13)) by lia. cbn [orb andb].
  destruct (c =? 61); apply andb_true_iff in H as [_ H]; by rewrite (IH _ H).
Qed.

(** ** Properties *)

(** C31: for every source of fewer than 2^32 bytes, and a destination that is NULL or an object of at least
    [dlen] bytes, [mbedtls_base64_encode] and [mbedtls_base64_decode] return what the references
    [encode_reply] and [decode_reply] say.  The encoder writes the RFC 4648 text and a NUL, or asks in
    [*olen] for the room it needs.  The decoder accepts exactly the texts whose line breaks and spaces are
    where they may be and whose characters are valid, writes the bytes of their whole groups of four
    characters, dropping an incomplete last group, and sets [*olen] to their number; or it asks in [*olen]
    for the room of all the characters, those of an incomplete group included, which is what it compares
    with [dlen]; for a text it refuses [*olen] is left as it was ([decode_olen]).  Neither leaves the
    objects it is given. *)
Theorem base64_functional (dst : option bytes) (dlen : Z) (s rest : bytes) :
  Forall is_byte s -> zlen s < 2 ^ 32 -> (forall buf, dst = Some buf -> dlen <= zlen buf) ->
  mbedtls_base64_encode dst dlen (s ++ rest) (zlen s) = Done (encode_reply dst dlen (base64 s)) /\
  mbedtls_base64_decode dst dlen (s ++ rest) (zlen s) = Done (decode_reply dst dlen s).
Proof. intros Hs Hl Hd. split; [by apply encode_spec|by apply decode_spec]. Qed.

Lemma base64_functional_witness :
  (Forall is_byte [81; 61] /\ zlen [81; 61] < 2 ^ 32) /\
  mbedtls_base64_encode (Some [9; 9; 9; 9; 9; 9]) 6 [81; 61; 0] 2 = Done (0, Some 4, Some [85; 84; 48; 61; 0; 9]) /\
  mbedtls_base64_decode (Some [9; 9; 9; 9; 9; 9]) 6 [81; 61; 0] 2 = Done (0, Some 0, Some [9; 9; 9; 9; 9; 9]).
Proof.
  assert (H : Forall is_byte [81; 61] /\ zlen [81; 61] < 2 ^ 32) by (split; [repeat constructor; lia|done]).
  split; [exact H|]. apply (base64_functional (Some [9; 9; 9; 9; 9; 9]) 6 [81; 61] [0]); [apply H|apply H|].
  intros buf [= <-]. vm_compute. congruence.
Defined.

(** C32: decoding inverts encoding, for texts below 2^32 bytes: data, not empty, encoded with [mbedtls_base64_encode], its text broken into
    lines in any of the ways the decoder allows, comes back from [mbedtls_base64_decode] into a
    buffer of no more than its length. *)
Theorem base64_roundtrip (data text rest rest' buf1 buf2 : bytes) :
  Forall is_byte data -> data <> [] -> Forall is_byte text -> zlen text < 2 ^ 32 ->
  strip false text = Some (base64 data) -> zlen (base64 data) < zlen buf1 -> zlen data <= zlen buf2 ->
  mbedtls_base64_encode (Some buf1) (zlen buf1) (data ++ rest) (zlen data) =
    Done (0, Some (zlen (base64 data)), Some (base64 data ++ 0 :: drop (length (base64 data) + 1) buf1)) /\
  mbedtls_base64_decode (Some buf2) (zlen buf2) (text ++ rest') (zlen text) =
    Done (0, Some (zlen data), Some (data ++ drop (length data) buf2)).
Proof.
  intros Hd Hne Ht Hl Es H1 H2. pose proof (strip_length text false (base64 data)) as Hlen. destruct (unbase64_base64 data Hd) as (Eu & Ev & En).
  specialize (Hlen Es).
  assert (Hsmall : zlen (base64 data) <= (BASE64_SIZE_T_MAX - 1) / 4 * 4) by (change ((BASE64_SIZE_T_MAX - 1) / 4 * 4) with 18446744073709551612; lia).
  assert (Hz : 0 < zlen (base64 data)).
  { rewrite zlen_base64. destruct data as [|a data]; [done|]. rewrite zlen_cons. pose proof (zlen_nonneg data).
    clear -H. Z.to_euclidean_division_equations. lia. }
  split.
  - rewrite encode_spec; [|done|by intros ? [= <-]]. unfold encode_reply.
    rewrite (proj2 (Z.eqb_neq _ _)) by lia. rewrite (proj2 (Z.ltb_ge _ _)); [|exact Hsmall]. by rewrite (proj2 (Z.ltb_lt _ _)) by done.
  - rewrite decode_spec; [|done|done|by intros ? [= <-]]. unfold decode_reply. rewrite Es, Ev.
    rewrite (proj2 (Z.eqb_neq _ _)) by lia. rewrite En, Eu, (proj2 (Z.ltb_ge _ _)) by lia. done.
Qed.

Lemma base64_roundtrip_witness :
  strip false [83; 71; 86; 115; 32; 13; 10; 98; 71; 56; 61; 10; 32] = Some (base64 [72; 101; 108; 108; 111]) /\
  mbedtls_base64_encode (Some (replicate 9 7)) 9 [72; 101; 108; 108; 111] 5 = Done (0, Some 8, Some [83; 71; 86; 115; 98; 71; 56; 61; 0]) /\
  mbedtls_base64_decode (Some (replicate 5 7)) 5 [83; 71; 86; 115; 32; 13; 10; 98; 71; 56; 61; 10; 32] 13 = Done (0, Some 5, Some [72; 101; 108; 108; 111]).
Proof.
  assert (H : strip false [83; 71; 86; 115; 32; 13; 10; 98; 71; 56; 61; 10; 32] = Some (base64 [72; 101; 108; 108; 111])) by by vm_compute.
  split; [exact H|].
  apply (base64_roundtrip [72; 101; 108; 108; 111] [83; 71; 86; 115; 32; 13; 10; 98; 71; 56; 61; 10; 32] [] [] (replicate 9 7) (replicate 5 7)).
  - repeat constructor; lia.
  - done.
  - repeat constructor; lia.
  - done.
  - exact H.
  - done.
  - vm_compute. congruence.
Defined.
