(* ===== verification/Asn1Parse.v ===== *)
(** * ASN.1: reading DER

    external_libs/mbedTLS/library/asn1parse.c and the types of asn1.h.  The data is an object, [*p] and [end]
    are offsets into it; the state of a function is [*p]. *)

From stdpp Require Import functions.
From S2P Require Import Prelude Mpi.

(** ** Constants and types *)

Definition MBEDTLS_ERR_ASN1_OUT_OF_DATA : Z := -96.
Definition MBEDTLS_ERR_ASN1_UNEXPECTED_TAG : Z := -98.
Definition MBEDTLS_ERR_ASN1_INVALID_LENGTH : Z := -100.
Definition MBEDTLS_ERR_ASN1_LENGTH_MISMATCH : Z := -102.
Definition MBEDTLS_ERR_ASN1_INVALID_DATA : Z := -104.
Definition MBEDTLS_ERR_ASN1_ALLOC_FAILED : Z := -106.
Definition MBEDTLS_ERR_ASN1_BUF_TOO_SMALL : Z := -108.

Definition MBEDTLS_ASN1_BOOLEAN : Z := 1.
Definition MBEDTLS_ASN1_INTEGER : Z := 2.
Definition MBEDTLS_ASN1_BIT_STRING : Z := 3.
Definition MBEDTLS_ASN1_OCTET_STRING : Z := 4.
Definition MBEDTLS_ASN1_NULL : Z := 5.
Definition MBEDTLS_ASN1_OID : Z := 6.
Definition MBEDTLS_ASN1_SEQUENCE : Z := 16.
Definition MBEDTLS_ASN1_PRINTABLE_STRING : Z := 19.
Definition MBEDTLS_ASN1_IA5_STRING : Z := 22.
Definition MBEDTLS_ASN1_CONSTRUCTED : Z := 32.

(** [p] is an offset into the data, [None] is NULL. *)
Record mbedtls_asn1_buf := mkBuf { buf_tag : Z; buf_len : Z; buf_p : option Z }.
Record mbedtls_asn1_bitstring := mkBitstring { bs_len : Z; bs_unused_bits : Z; bs_p : option Z }.
Inductive mbedtls_asn1_sequence := mkSequence (buf : mbedtls_asn1_buf) (next : option mbedtls_asn1_sequence).

(** An item of a list of named data owns what its pointers point to. *)
Record mbedtls_asn1_named_data :=
  mkNamed { oid_tag : Z; oid_len : Z; oid_p : option bytes; val_tag : Z; val_len : Z; val_p : option bytes; next_merged : Z }.

(** ** Functions *)

(** The octets of a length of the long form, at [p + 1] and behind. *)
Definition len_octets (m : bytes) (p k : Z) : outcome Z :=
  let! b1 := load m (p + 1) in
  if k =? 1 then Done b1
  else
    let! b2 := load m (p + 2) in
    if k =? 2 then Done (Z.lor (Z.shiftl b1 8) b2)
    else
      let! b3 := load m (p + 3) in
      if k =? 3 then Done (Z.lor (Z.lor (Z.shiftl b1 16) (Z.shiftl b2 8)) b3)
      else
        let! b4 := load m (p + 4) in
        Done (Z.lor (Z.lor (Z.lor (Z.shiftl b1 24) (Z.shiftl b2 16)) (Z.shiftl b3 8)) b4).

(** The code, and [*len] when it has been assigned. *)
Definition mbedtls_asn1_get_len (m : bytes) (e : Z) : M Z (Z * option Z) :=
  do! p := gets id in
  if e - p <? 1 then ret (MBEDTLS_ERR_ASN1_OUT_OF_DATA, None)
  else
    do! b := lift (load m p) in
    do! r := (
      if Z.land b 128 =? 0 then
        run! modify (fun p => p + 1) in
        ret (inr b)
      else
        let k := Z.land b 127 in
        if (k =? 1) || (k =? 2) || (k =? 3) || (k =? 4) then
          if e - p <? k + 1 then ret (inl MBEDTLS_ERR_ASN1_OUT_OF_DATA)
          else
            do! len := lift (len_octets m p k) in
            run! modify (fun p => p + (k + 1)) in
            ret (inr len)
        else ret (inl MBEDTLS_ERR_ASN1_INVALID_LENGTH)) in
    match r with
    | inl e => ret (e, None)
    | inr len =>
        do! p := gets id in
        if u64 (e - p) <? len then ret (MBEDTLS_ERR_ASN1_OUT_OF_DATA, Some len) else ret (0, Some len)
    end.

Definition mbedtls_asn1_get_tag (m : bytes) (e tag : Z) : M Z (Z * option Z) :=
  do! p := gets id in
  if e - p <? 1 then ret (MBEDTLS_ERR_ASN1_OUT_OF_DATA, None)
  else
    do! b := lift (load m p) in
    if negb (b =? tag) then ret (MBEDTLS_ERR_ASN1_UNEXPECTED_TAG, None)
    else
      run! modify (fun p => p + 1) in
      mbedtls_asn1_get_len m e.

(** [if( ( ret = mbedtls_asn1_get_tag( p, end, &len, tag ) ) != 0 ) return( ret );] *)
Definition with_tag {A : Type} (m : bytes) (e tag : Z) (fail : Z -> option Z -> M Z A) (k : Z -> M Z A) : M Z A :=
  do! (r, len) := mbedtls_asn1_get_tag m e tag in
  if negb (r =? 0) then fail r len
  else do! len := lift (deref len) in k len.

Definition mbedtls_asn1_get_bool (m : bytes) (e : Z) : M Z (Z * option Z) :=
  with_tag m e MBEDTLS_ASN1_BOOLEAN (fun r _ => ret (r, None)) (fun len =>
    if negb (len =? 1) then ret (MBEDTLS_ERR_ASN1_INVALID_LENGTH, None)
    else
      do! p := gets id in
      do! b := lift (load m p) in
      run! modify (fun p => p + 1) in
      ret (0, Some (if negb (b =? 0) then 1 else 0))).

(** [sizeof( int )] is 4. *)
Definition mbedtls_asn1_get_int (m : bytes) (e : Z) : M Z (Z * option Z) :=
  with_tag m e MBEDTLS_ASN1_INTEGER (fun r _ => ret (r, None)) (fun len =>
    do! bad := (
      if (len =? 0) || (4 <? len) then ret true
      else do! p := gets id in do! b := lift (load m p) in ret (negb (Z.land b 128 =? 0))) in
    if (bad : bool) then ret (MBEDTLS_ERR_ASN1_INVALID_LENGTH, None)
    else
      do! val := mfor (Z.to_nat len) 0 (fun _ val =>
        do! p := gets id in
        do! b := lift (load m p) in
        run! modify (fun p => p + 1) in
        ret (Z.lor (Z.shiftl val 8) b)) 0 in
      ret (0, Some val)).

(** [*p] is passed and returned: the state is the store of the integers. *)
Definition mbedtls_asn1_get_mpi (m : bytes) (p e : Z) (X : nat) : M bn (Z * Z) :=
  do! (r, len, p) := lift (mbedtls_asn1_get_tag m e MBEDTLS_ASN1_INTEGER p) in
  if negb (r =? 0) then ret (r, p)
  else
    do! len := lift (deref len) in
    do! r := mbedtls_mpi_read_binary X (drop (Z.to_nat p) m) len in
    ret (r, p + len).

Definition assigned (len : option Z) (old : Z) : Z := default old len.

Definition mbedtls_asn1_get_bitstring (m : bytes) (e : Z) (bs : mbedtls_asn1_bitstring) : M Z (Z * mbedtls_asn1_bitstring) :=
  with_tag m e MBEDTLS_ASN1_BIT_STRING
    (fun r len => ret (r, mkBitstring (assigned len (bs_len bs)) (bs_unused_bits bs) (bs_p bs)))
    (fun len =>
      if len <? 1 then ret (MBEDTLS_ERR_ASN1_OUT_OF_DATA, mkBitstring len (bs_unused_bits bs) (bs_p bs))
      else
        let len := len - 1 in
        do! p := gets id in
        do! b := lift (load m p) in
        if 7 <? b then ret (MBEDTLS_ERR_ASN1_INVALID_LENGTH, mkBitstring len b (bs_p bs))
        else
          run! modify (fun p => p + 1) in
          do! q := gets id in
          run! modify (fun p => p + len) in
          do! p := gets id in
          ret (if p =? e then 0 else MBEDTLS_ERR_ASN1_LENGTH_MISMATCH, mkBitstring len b (Some q))).

Definition mbedtls_asn1_get_bitstring_null (m : bytes) (e : Z) : M Z (Z * option Z) :=
  with_tag m e MBEDTLS_ASN1_BIT_STRING (fun r len => ret (r, len)) (fun len =>
    do! bad := (
      if len <? 2 then ret true
      else
        do! p := gets id in
        do! b := lift (load m p) in
        run! modify (fun p => p + 1) in
        ret (negb (b =? 0))) in
    ret (if (bad : bool) then MBEDTLS_ERR_ASN1_INVALID_DATA else 0, Some (u64 (len - 1)))).

(** The items from [cur] on; [allocs] are the answers of [calloc], all successes when it is used up. *)
Fixpoint sequence_items (fuel : nat) (m : bytes) (e tag : Z) (allocs : list bool) (cur : mbedtls_asn1_sequence)
    : M Z (Z * mbedtls_asn1_sequence) :=
  match fuel with
  | O => lift NoFuel
  | S fuel =>
      let '(mkSequence buf next) := cur in
      do! p := gets id in
      if p <? e then
        do! b := lift (load m p) in
        do! (r, len) := mbedtls_asn1_get_tag m e tag in
        if negb (r =? 0) then ret (r, mkSequence (mkBuf b (assigned len (buf_len buf)) (buf_p buf)) next)
        else
          do! len := lift (deref len) in
          do! q := gets id in
          let buf := mkBuf b len (Some q) in
          run! modify (fun p => p + len) in
          do! p := gets id in
          if p <? e then
            if head allocs is Some false then ret (MBEDTLS_ERR_ASN1_ALLOC_FAILED, mkSequence buf None)
            else
              do! (r, c) := sequence_items fuel m e tag (tail allocs) (mkSequence (mkBuf 0 0 None) None) in
              ret (r, mkSequence buf (Some c))
          else
            ret (if negb (p =? e) then MBEDTLS_ERR_ASN1_LENGTH_MISMATCH else 0, mkSequence buf None)
      else
        ret (if negb (p =? e) then MBEDTLS_ERR_ASN1_LENGTH_MISMATCH else 0, mkSequence buf None)
  end.

Definition mbedtls_asn1_get_sequence_of (m : bytes) (e : Z) (cur : mbedtls_asn1_sequence) (tag : Z) (allocs : list bool)
    : M Z (Z * mbedtls_asn1_sequence) :=
  with_tag m e (Z.lor MBEDTLS_ASN1_CONSTRUCTED MBEDTLS_ASN1_SEQUENCE) (fun r _ => ret (r, cur)) (fun len =>
    do! p := gets id in
    if negb (p + len =? e) then ret (MBEDTLS_ERR_ASN1_LENGTH_MISMATCH, cur)
    else sequence_items (S (length m)) m e tag allocs cur).

Definition mbedtls_asn1_get_alg (m : bytes) (e : Z) (alg params : mbedtls_asn1_buf) : M Z (Z * mbedtls_asn1_buf * mbedtls_asn1_buf) :=
  with_tag m e (Z.lor MBEDTLS_ASN1_CONSTRUCTED MBEDTLS_ASN1_SEQUENCE) (fun r _ => ret (r, alg, params)) (fun len =>
    do! p := gets id in
    if e - p <? 1 then ret (MBEDTLS_ERR_ASN1_OUT_OF_DATA, alg, params)
    else
      do! t := lift (load m p) in
      let e := p + len in
      with_tag m e MBEDTLS_ASN1_OID (fun r l => ret (r, mkBuf t (assigned l (buf_len alg)) (buf_p alg), params)) (fun len =>
        do! q := gets id in
        let alg := mkBuf t len (Some q) in
        run! modify (fun p => p + len) in
        do! p := gets id in
        if p =? e then ret (0, alg, mkBuf 0 0 None)
        else
          do! t := lift (load m p) in
          run! modify (fun p => p + 1) in
          do! (r, len) := mbedtls_asn1_get_len m e in
          if negb (r =? 0) then ret (r, alg, mkBuf t (assigned len (buf_len params)) (buf_p params))
          else
            do! len := lift (deref len) in
            do! q := gets id in
            run! modify (fun p => p + len) in
            do! p := gets id in
            ret (if negb (p =? e) then MBEDTLS_ERR_ASN1_LENGTH_MISMATCH else 0, alg, mkBuf t len (Some q)))).

Definition mbedtls_asn1_get_alg_null (m : bytes) (e : Z) (alg : mbedtls_asn1_buf) : M Z (Z * mbedtls_asn1_buf) :=
  do! (r, alg, params) := mbedtls_asn1_get_alg m e alg (mkBuf 0 0 None) in
  if negb (r =? 0) then ret (r, alg)
  else if (negb (buf_tag params =? MBEDTLS_ASN1_NULL) && negb (buf_tag params =? 0)) || negb (buf_len params =? 0)
  then ret (MBEDTLS_ERR_ASN1_INVALID_DATA, alg)
  else ret (0, alg).

(** The two free functions; what they gave back is not in the model any more. *)
Definition mbedtls_asn1_free_named_data (cur : option mbedtls_asn1_named_data) : option mbedtls_asn1_named_data :=
  match cur with
  | None => None
  | Some _ => Some (mkNamed 0 0 None 0 0 None 0)
  end.
Fixpoint mbedtls_asn1_free_named_data_list (head : list mbedtls_asn1_named_data) : list mbedtls_asn1_named_data :=
  match head with
  | [] => []
  | _ :: next => mbedtls_asn1_free_named_data_list next
  end.

(** The position of the item found. *)
Fixpoint mbedtls_asn1_find_named_data (list : list mbedtls_asn1_named_data) (oid : bytes) (len : Z) : outcome (option nat) :=
  match list with
  | [] => Done None
  | d :: next =>
      let! same := (
        if oid_len d =? len then
          let! a := deref (oid_p d) in
          let! a := load_list a 0 len in
          let! b := load_list oid 0 len in
          Done (bool_decide (a = b))
        else Done false) in
      if (same : bool) then Done (Some O)
      else
        let! r := mbedtls_asn1_find_named_data next oid len in
        Done (S <$> r)
  end.

(** ** The reference *)

(** The length octets at the front of [s]: an error, or how many there are and the length they stand for. *)
Definition len_field (s : bytes) : Z + Z * Z :=
  match s with
  | [] => inl MBEDTLS_ERR_ASN1_OUT_OF_DATA
  | b :: s' =>
      if b <? 128 then inr (1, b)
      else
        let k := b - 128 in
        if (1 <=? k) && (k <=? 4) then
          if zlen s' <? k then inl MBEDTLS_ERR_ASN1_OUT_OF_DATA else inr (k + 1, be_val (take (Z.to_nat k) s'))
        else inl MBEDTLS_ERR_ASN1_INVALID_LENGTH
  end.

(** The bytes of [m] between two offsets. *)
Definition range (m : bytes) (p e : Z) : bytes := take (Z.to_nat (e - p)) (drop (Z.to_nat p) m).

(** What [mbedtls_asn1_get_len] and [mbedtls_asn1_get_tag] make of the bytes before the end: code, length, octets read. *)
Definition len_reply (s : bytes) : Z * option Z * Z :=
  match len_field s with
  | inl r => (r, None, 0)
  | inr (k, n) => (if zlen s - k <? n then MBEDTLS_ERR_ASN1_OUT_OF_DATA else 0, Some n, k)
  end.

Definition tag_reply (tag : Z) (s : bytes) : Z * option Z * Z :=
  match s with
  | [] => (MBEDTLS_ERR_ASN1_OUT_OF_DATA, None, 0)
  | b :: s' =>
      if b =? tag then let '(r, len, k) := len_reply s' in (r, len, k + 1)
      else (MBEDTLS_ERR_ASN1_UNEXPECTED_TAG, None, 0)
  end.

(** ** Lemmas: lengths and tags *)

Lemma range_app (pre s post : bytes) p e : p = zlen pre -> e = p + zlen s -> range (pre ++ s ++ post) p e = s.
Proof.
  intros -> ->. unfold range. rewrite zlen_to_nat, drop_app_length. replace (zlen pre + zlen s - zlen pre) with (zlen s) by lia.
  by rewrite zlen_to_nat, take_app_length.
Qed.

Lemma range_split (m : bytes) p e : 0 <= p <= e -> e <= zlen m ->
  exists pre post, m = pre ++ range m p e ++ post /\ zlen pre = p /\ zlen (range m p e) = e - p.
Proof.
  intros Hp He. destruct (split_at m p (e - p)) as (pre & s & post & -> & Hpre & Hs); [lia..|].
  exists pre, post. rewrite (range_app pre s post) by lia. done.
Qed.

Lemma range_bytes m p e : Forall is_byte m -> Forall is_byte (range m p e).
Proof. intros H. by apply Forall_take, Forall_drop. Qed.

Lemma land_128 b : is_byte b -> (Z.land b 128 =? 0) = (b <? 128) /\ (128 <= b -> Z.land b 127 = b - 128).
Proof.
  intros Hb. split.
  - pose proof (byte_cases (fun b => Bool.eqb (Z.land b 128 =? 0) (b <? 128)) eq_refl b Hb) as E. by apply eqb_prop.
  - intros Hl. pose proof (byte_cases (fun b => (b <? 128) || (Z.land b 127 =? b - 128)) eq_refl b Hb) as E. cbv beta in E. lia.
Qed.

Lemma len_octets_spec pre b s post k :
  1 <= k <= 4 -> k <= zlen s -> Forall is_byte s ->
  len_octets (pre ++ (b :: s) ++ post) (zlen pre) k = Done (be_val (take (Z.to_nat k) s)).
Proof.
  intros Hk Hs Hb.
  assert (L : forall j x q, s !! j = Some x -> q = zlen pre + (1 + Z.of_nat j) -> load (pre ++ (b :: s) ++ post) q = Done x).
  { intros j x q Hj ->. rewrite <- (take_drop_middle s j x Hj).
    replace (pre ++ (b :: take j s ++ x :: drop (S j) s) ++ post) with ((pre ++ b :: take j s) ++ x :: drop (S j) s ++ post) by (by rewrite <- !app_assoc; cbn; rewrite <- app_assoc).
    apply load_at. apply lookup_lt_Some in Hj. rewrite zlen_app, zlen_cons. unfold zlen. rewrite length_take. lia. }
  unfold len_octets. destruct s as [|b1 s]; [change (zlen []) with 0 in Hs; lia|]. rewrite zlen_cons in Hs.
  rewrite (L 0%nat b1) by (done || lia). cbn [obind]. apply Forall_cons_1 in Hb as [Hb1 Hb]. unfold is_byte in Hb1.
  destruct (k =? 1) eqn:E1; [apply Z.eqb_eq in E1 as ->; done|].
  destruct s as [|b2 s]; [change (zlen []) with 0 in Hs; lia|]. rewrite zlen_cons in Hs.
  rewrite (L 1%nat b2) by (done || lia). cbn [obind]. apply Forall_cons_1 in Hb as [Hb2 Hb]. unfold is_byte in Hb2.
  destruct (k =? 2) eqn:E2; [apply Z.eqb_eq in E2 as ->; by rewrite lor_shift|].
  destruct s as [|b3 s]; [change (zlen []) with 0 in Hs; lia|]. rewrite zlen_cons in Hs.
  rewrite (L 2%nat b3) by (done || lia). cbn [obind]. apply Forall_cons_1 in Hb as [Hb3 Hb]. unfold is_byte in Hb3.
  destruct (k =? 3) eqn:E3.
  { apply Z.eqb_eq in E3 as ->. change (Z.to_nat 3) with 3%nat. rewrite <- Z.lor_assoc, (lor_shift b2), lor_shift by lia. f_equal. change (2 ^ 16) with 65536. change (2 ^ 8) with 256. unfold be_val. cbn [take be_acc]. rewrite take_0. cbn [be_acc]. lia. }
  destruct s as [|b4 s]; [change (zlen []) with 0 in Hs; lia|].
  rewrite (L 3%nat b4) by (done || lia). cbn [obind]. apply Forall_cons_1 in Hb as [Hb4 Hb]. unfold is_byte in Hb4.
  assert (k = 4) as -> by lia. change (Z.to_nat 4) with 4%nat.
  rewrite <- !Z.lor_assoc, (lor_shift b3), (lor_shift b2), lor_shift by lia. f_equal. change (2 ^ 24) with 16777216. change (2 ^ 16) with 65536. change (2 ^ 8) with 256.
  unfold be_val. cbn [take be_acc]. rewrite take_0. cbn [be_acc]. lia.
Qed.

Lemma get_len_at pre s post :
  Forall is_byte s -> zlen (pre ++ s ++ post) < 2 ^ 63 ->
  mbedtls_asn1_get_len (pre ++ s ++ post) (zlen pre + zlen s) (zlen pre) =
  Done (let '(r, len, k) := len_reply s in ((r, len), zlen pre + k)).
Proof.
  intros Hs Hm. rewrite !zlen_app in Hm. pose proof (zlen_nonneg pre). pose proof (zlen_nonneg post).
  unfold mbedtls_asn1_get_len, len_reply, len_field. cbn [bind gets obind id]. unfold bind at 1, gets at 1. cbn [obind id].
  destruct s as [|b s].
  { change (zlen []) with 0. rewrite (proj2 (Z.ltb_lt _ _)) by lia. unfold ret. by rewrite Z.add_0_r. }
  pose proof (zlen_nonneg s) as Hz. rewrite (proj2 (Z.ltb_ge _ _)) by (rewrite zlen_cons; lia).
  apply Forall_cons_1 in Hs as [Hb Hs]. destruct (land_128 b Hb) as [E1 E2].
  cbn [app]. unfold bind, lift. rewrite load_app. cbn [obind]. rewrite E1. rewrite zlen_cons in *.
  destruct (b <? 128) eqn:E3.
  { unfold modify, ret, gets. cbn [obind id]. rewrite u64_id by lia.
    replace (zlen pre + (1 + zlen s) - (zlen pre + 1)) with (1 + zlen s - 1) by lia. by destruct (_ <? b). }
  rewrite E2 by lia. set (k := b - 128) in *.
  replace ((k =? 1) || (k =? 2) || (k =? 3) || (k =? 4)) with ((1 <=? k) && (k <=? 4)) by lia.
  destruct ((1 <=? k) && (k <=? 4)) eqn:E4; [|unfold ret; cbn [obind]; by rewrite Z.add_0_r].
  replace (zlen pre + (1 + zlen s) - zlen pre <? k + 1) with (zlen s <? k) by lia.
  destruct (zlen s <? k) eqn:E5; [unfold ret; cbn [obind]; by rewrite Z.add_0_r|].
  change (pre ++ b :: s ++ post) with (pre ++ (b :: s) ++ post). rewrite (len_octets_spec pre b s post k) by (done || lia). unfold modify, ret, gets. cbn [obind id].
  rewrite u64_id by lia. replace (zlen pre + (1 + zlen s) - (zlen pre + (k + 1))) with (1 + zlen s - (k + 1)) by lia. by destruct (_ <? be_val _).
Qed.

Lemma get_tag_at pre s post tag :
  Forall is_byte s -> zlen (pre ++ s ++ post) < 2 ^ 63 ->
  mbedtls_asn1_get_tag (pre ++ s ++ post) (zlen pre + zlen s) tag (zlen pre) =
  Done (let '(r, len, k) := tag_reply tag s in ((r, len), zlen pre + k)).
Proof.
  intros Hs Hm. unfold mbedtls_asn1_get_tag, tag_reply. unfold bind at 1, gets. cbn [obind id].
  destruct s as [|b s].
  { change (zlen []) with 0. rewrite (proj2 (Z.ltb_lt _ _)) by lia. unfold ret. by rewrite Z.add_0_r. }
  pose proof (zlen_nonneg s) as Hz. rewrite (proj2 (Z.ltb_ge _ _)) by (rewrite zlen_cons; lia).
  apply Forall_cons_1 in Hs as [Hb Hs]. cbn [app]. unfold bind, lift. rewrite load_app. cbn [obind].
  destruct (b =? tag) eqn:E; cbn [negb]; [|unfold ret; by rewrite Z.add_0_r].
  unfold modify. cbn [obind].
  pose proof (get_len_at (pre ++ [b]) s post Hs) as H. rewrite <- app_assoc in H. cbn [app] in *.
  replace (zlen (pre ++ [b])) with (zlen pre + 1) in H by room. rewrite zlen_cons.
  replace (zlen pre + (1 + zlen s)) with (zlen pre + 1 + zlen s) by lia. rewrite H by done.
  destruct (len_reply s) as [[r len] k]. do 2 f_equal. lia.
Qed.

(** A successful tag, with everything it tells: [k] octets were read and [n] octets of contents follow. *)
Lemma tag_reply_ok tag s r len k : Forall is_byte s -> tag_reply tag s = (r, len, k) ->
  0 <= k <= zlen s /\
  ((r = 0 /\ exists n, len = Some n /\ 0 <= n /\ k + n <= zlen s /\ 2 <= k /\ head s = Some tag /\ len_field (tail s) = inr (k - 1, n)) \/
   -100 <= r <= -96).
Proof.
  intros Hs. unfold tag_reply, len_reply. destruct s as [|b s]; [intros [= <- <- <-]; split; [change (zlen []) with 0; lia|by right]|].
  apply Forall_cons_1 in Hs as [Hb Hs]. rewrite zlen_cons. pose proof (zlen_nonneg s).
  destruct (b =? tag) eqn:Et; [|intros [= <- <- <-]; split; [lia|by right]].
  destruct (len_field s) as [e|[j n]] eqn:El.
  - intros [= <- <- <-]. split; [lia|]. right. unfold len_field in El. repeat case_hyp El; try discriminate El; by injection El as <-.
  - intros [= <- <- <-].
    assert (1 <= j <= zlen s /\ 0 <= n) as [Hj Hn].
    { unfold len_field in El. destruct s as [|c s]; [done|]. apply Forall_cons_1 in Hs as [Hc Hs]. unfold is_byte in Hc.
      rewrite zlen_cons in *. pose proof (zlen_nonneg s). destruct (c <? 128); [injection El as <- <-; lia|].
      destruct (_ && _) eqn:E1; [|done]. destruct (zlen s <? c - 128) eqn:E2; [done|]. injection El as <- <-. split; [lia|].
      apply be_val_bound. by apply Forall_take. }
    split; [lia|]. destruct (zlen s - j <? n) eqn:E; [by right|]. left. split; [done|]. exists n.
    apply Z.eqb_eq in Et as ->. replace (j + 1 - 1) with j by lia. split_and!; done || lia.
Qed.

(** ** Lemmas: what each function does with any data *)

(** At [p] stands the tag and a length; the contents are the [n] bytes from [q] on and lie before [e]. *)
Definition field (m : bytes) (e p tag q n : Z) : Prop :=
  load m p = Done tag /\ len_field (range m (p + 1) e) = inr (q - p - 1, n) /\ p + 2 <= q /\ 0 <= n /\ q + n <= e.

(** The items of a sequence fill what is between [p] and [e]. *)
Fixpoint tiles (m : bytes) (e tag p : Z) (c : mbedtls_asn1_sequence) : Prop :=
  let '(mkSequence buf next) := c in
  exists q, buf_p buf = Some q /\ buf_tag buf = tag /\ field m e p tag q (buf_len buf) /\
  match next with
  | None => q + buf_len buf = e
  | Some c' => q + buf_len buf < e /\ tiles m e tag (q + buf_len buf) c'
  end.

Section data.
Context (m : bytes) (Hm : Forall is_byte m) (Hsize : zlen m < 2 ^ 63).

Lemma range_next p e b : 0 <= p < e -> e <= zlen m -> head (range m p e) = Some b -> load m p = Done b /\ tail (range m p e) = range m (p + 1) e.
Proof using.
  intros Hp He Hb. destruct (range_split m p e) as (pre & post & Em & Lp & Lr); [lia..|].
  destruct (range m p e) as [|c s]; [done|]. injection Hb as ->. cbn [tail]. rewrite zlen_cons in Lr. rewrite Em. split.
  - cbn [app]. by apply load_at.
  - change (pre ++ (b :: s) ++ post) with (pre ++ [b] ++ s ++ post). rewrite app_assoc. symmetry. apply range_app; room.
Qed.

Lemma wp_get_tag (Q : Z * option Z -> Z -> Prop) p e tag : 0 <= p <= e -> e <= zlen m ->
  (forall r len p', -100 <= r <= -96 -> p <= p' <= e -> Q (r, len) p') ->
  (forall q n, field m e p tag q n -> Q (0, Some n) q) ->
  wp exact (mbedtls_asn1_get_tag m e tag) Q p.
Proof using Hm Hsize.
  intros Hp He Hfail Hok. destruct (range_split m p e) as (pre & post & Em & Lp & Lr); [lia..|].
  pose proof (get_tag_at pre (range m p e) post tag (range_bytes _ _ _ Hm)) as H. rewrite <- Em in H. specialize (H Hsize).
  rewrite Lp, Lr in H. replace (p + (e - p)) with e in H by lia. unfold wp. rewrite H.
  destruct (tag_reply tag (range m p e)) as [[r len] k] eqn:E. cbn [owp].
  destruct (tag_reply_ok _ _ _ _ _ (range_bytes _ p e Hm) E) as [Hk [(-> & n & -> & Hn & Hkn & H2 & Hh & Hl)|Hr]].
  - apply Hok. destruct (range_next p e tag) as [H3 H4]; [lia|lia|done|]. rewrite H4 in Hl.
    unfold field. replace (p + k - p - 1) with (k - 1) by lia. split_and!; done || lia.
  - apply Hfail; [done|lia].
Qed.

(** The length behind a byte that has been taken for a tag. *)
Lemma wp_get_len (Q : Z * option Z -> Z -> Prop) p e t : 0 <= p < e -> e <= zlen m -> load m p = Done t ->
  (forall r len p', -100 <= r <= -96 -> p <= p' <= e -> Q (r, len) p') ->
  (forall q n, field m e p t q n -> Q (0, Some n) q) ->
  wp exact (mbedtls_asn1_get_len m e) Q (p + 1).
Proof using Hm Hsize.
  intros Hp He Ht Hfail Hok. pose proof (wp_get_tag Q p e t ltac:(lia) He Hfail Hok) as H.
  unfold mbedtls_asn1_get_tag, wp, bind, gets, lift, modify in H. cbn [obind id] in H. rewrite (proj2 (Z.ltb_ge _ _)) in H by lia.
  rewrite Ht in H. cbn [obind] in H. rewrite Z.eqb_refl in H. exact H.
Qed.

Lemma wp_with_tag {A} fail k (Q : A -> Z -> Prop) p e tag : 0 <= p <= e -> e <= zlen m ->
  (forall r len p', -100 <= r <= -96 -> p <= p' <= e -> wp exact (fail r len) Q p') ->
  (forall q n, field m e p tag q n -> wp exact (k n) Q q) ->
  wp exact (with_tag m e tag fail k) Q p.
Proof using Hm Hsize.
  intros Hp He Hfail Hok. apply wp_bind. apply wp_get_tag; [done|done| |].
  - intros r len p' Hr Hp'. rewrite (proj2 (Z.eqb_neq r 0)) by lia. by apply Hfail.
  - intros q n Hf. change (negb (0 =? 0)) with false. cbv iota. apply wp_bind, wp_lift. cbn [deref owp]. by apply Hok.
Qed.

Lemma wp_load (Q : Z -> Z -> Prop) p q : 0 <= q < zlen m -> (forall b, load m q = Done b -> is_byte b -> Q b p) -> wp exact (lift (load m q)) Q p.
Proof using Hm.
  intros Hq HQ. apply wp_lift. destruct (load_in m q Hq) as [b Hb]. rewrite Hb. apply HQ; [done|].
  apply load_Done in Hb as [_ Hb]. by eapply Forall_lookup_1 in Hb.
Qed.

Lemma get_tag_any p e tag : 0 <= p <= e -> e <= zlen m ->
  wp exact (mbedtls_asn1_get_tag m e tag) (fun '(r, len) p' => p <= p' <= e /\
    ((r = 0 /\ exists n, len = Some n /\ field m e p tag p' n) \/ r < 0)) p.
Proof using Hm Hsize.
  intros Hp He. apply wp_get_tag; [done|done| |].
  - intros r len p' Hr Hp'. split; [done|right; lia].
  - intros q n Hf. pose proof Hf as (_ & _ & ? & ? & ?). split; [lia|]. left. eauto.
Qed.

Lemma get_bool_any p e : 0 <= p <= e -> e <= zlen m ->
  wp exact (mbedtls_asn1_get_bool m e) (fun '(r, val) p' => p <= p' <= e /\
    ((r = 0 /\ exists b, field m e p MBEDTLS_ASN1_BOOLEAN (p' - 1) 1 /\ load m (p' - 1) = Done b /\
        val = Some (if b =? 0 then 0 else 1)) \/ r < 0)) p.
Proof using Hm Hsize.
  intros Hp He. apply wp_with_tag; [done|done|intros r len p' ? ?; apply wp_ret; split; [done|right; lia]|].
  intros q n Hf. pose proof Hf as (_ & _ & ? & ? & ?). destruct (n =? 1) eqn:E; cbn [negb]; [|apply wp_ret; split; [lia|by right]].
  apply Z.eqb_eq in E as ->. apply wp_bind, wp_gets, wp_bind, wp_load; [unfold id; lia|]. intros b Hb _.
  apply wp_bind, wp_modify, wp_ret. split; [lia|]. left. split; [done|]. exists b. replace (q + 1 - 1) with q by lia.
  split; [done|]. split; [done|]. by destruct (b =? 0).
Qed.

Lemma get_int_any p e : 0 <= p <= e -> e <= zlen m ->
  wp exact (mbedtls_asn1_get_int m e) (fun '(r, val) p' => p <= p' <= e /\
    ((r = 0 /\ exists q n, field m e p MBEDTLS_ASN1_INTEGER q n /\ p' = q + n /\ 1 <= n <= 4 /\
        val = Some (be_val (range m q (q + n))) /\ be_val (range m q (q + n)) < 2 ^ 31) \/ r < 0)) p.
Proof using Hm Hsize.
  intros Hp He. apply wp_with_tag; [done|done|intros r len p' ? ?; apply wp_ret; split; [done|right; lia]|].
  intros q n Hf. pose proof Hf as (_ & _ & Hq & Hn & Hqe). apply wp_bind.
  destruct ((n =? 0) || (4 <? n)) eqn:E.
  { apply wp_ret, wp_ret. split; [lia|by right]. }
  apply wp_bind, wp_gets, wp_bind, wp_load; [unfold id; lia|]. intros b Hb Hbb. unfold id in Hb. apply wp_ret. rewrite (proj1 (land_128 b Hbb)).
  destruct (b <? 128) eqn:Eb; cbn [negb]; [|apply wp_ret; split; [lia|by right]].
  apply wp_bind, (wp_mfor exact (fun j val p' => p' = q + j /\ val = be_val (range m q (q + j)))).
  - split; [lia|]. unfold range. by replace (Z.to_nat (q + 0 - q)) with O by lia.
  - intros j val p' Hj (-> & ->). apply wp_bind, wp_gets, wp_bind, wp_load; [unfold id; lia|]. intros c Hc Hcb. unfold id in Hc.
    apply wp_bind, wp_modify, wp_ret. split; [lia|].
    assert (Er : range m q (q + (j + 1)) = range m q (q + j) ++ [c]).
    { unfold range. replace (Z.to_nat (q + (j + 1) - q)) with (S (Z.to_nat j)) by lia. replace (Z.to_nat (q + j - q)) with (Z.to_nat j) by lia.
      apply take_S_r. rewrite lookup_drop. apply load_Done in Hc as [_ Hc]. rewrite <- Hc. f_equal. lia. }
    rewrite Er, be_val_snoc. unfold is_byte in Hcb. rewrite lor_shift by lia. done.
  - intros val p' (-> & ->). rewrite Z2Nat.id by lia. apply wp_ret. split; [lia|]. left. split; [done|]. exists q, n.
    split; [done|]. split; [lia|]. split; [lia|]. split; [done|].
    destruct (range_split m q (q + n)) as (pre & post & Em & Lp & Lr); [lia..|].
    assert (Hr : exists s, range m q (q + n) = b :: s).
    { destruct (range m q (q + n)) as [|c s]; [change (zlen []) with 0 in Lr; lia|]. exists s. f_equal.
      rewrite Em in Hb. cbn [app] in Hb. rewrite load_at in Hb by done. by injection Hb. }
    destruct Hr as [s Hr]. pose proof (range_bytes m q (q + n) Hm) as Hbs. rewrite Hr in *. rewrite be_val_cons. rewrite zlen_cons in Lr.
    apply Forall_cons_1 in Hbs as [_ Hbs]. pose proof (be_val_bound s Hbs) as Hv. pose proof (zlen_nonneg s).
    assert (256 ^ zlen s <= 256 ^ 3) by (apply Z.pow_le_mono_r; lia). change (256 ^ 3) with 16777216 in *. unfold is_byte in Hbb.
    assert (0 < 256 ^ zlen s) by (apply Z.pow_pos_nonneg; lia). nia.
Qed.

Lemma get_bitstring_any p e bs : 0 <= p <= e -> e <= zlen m ->
  wp exact (mbedtls_asn1_get_bitstring m e bs) (fun '(r, bs') p' => p <= p' <= e /\
    ((r = 0 /\ p' = e /\ exists q, bs_p bs' = Some q /\ q + bs_len bs' = e /\ field m e p MBEDTLS_ASN1_BIT_STRING (q - 1) (bs_len bs' + 1) /\
        load m (q - 1) = Done (bs_unused_bits bs') /\ bs_unused_bits bs' <= 7) \/ r < 0)) p.
Proof using Hm Hsize.
  intros Hp He. apply wp_with_tag; [done|done|intros r len p' ? ?; apply wp_ret; split; [done|right; lia]|].
  intros q n Hf. pose proof Hf as (_ & _ & Hq & Hn & Hqe). destruct (n <? 1) eqn:E1; [apply wp_ret; split; [lia|by right]|].
  apply wp_bind, wp_gets, wp_bind, wp_load; [unfold id; lia|]. intros b Hb Hbb. unfold id in Hb.
  destruct (7 <? b) eqn:E2; [apply wp_ret; split; [lia|by right]|].
  apply wp_bind, wp_modify, wp_bind, wp_gets, wp_bind, wp_modify, wp_bind, wp_gets, wp_ret. unfold id. split; [lia|].
  destruct (q + 1 + (n - 1) =? e) eqn:E3; [left|by right]. split; [done|]. split; [lia|]. exists (q + 1). cbn.
  replace (q + 1 - 1) with q by lia. replace (n - 1 + 1) with n by lia. split_and!; done || lia.
Qed.

Lemma get_bitstring_null_any p e : 0 <= p <= e -> e <= zlen m ->
  wp exact (mbedtls_asn1_get_bitstring_null m e) (fun '(r, len) p' => p <= p' <= e /\
    ((r = 0 /\ exists n, len = Some n /\ 1 <= n /\ field m e p MBEDTLS_ASN1_BIT_STRING (p' - 1) (n + 1) /\ load m (p' - 1) = Done 0) \/ r < 0)) p.
Proof using Hm Hsize.
  intros Hp He. apply wp_with_tag; [done|done|intros r len p' ? ?; apply wp_ret; split; [done|right; lia]|].
  intros q n Hf. pose proof Hf as (_ & _ & Hq & Hn & Hqe). apply wp_bind. destruct (n <? 2) eqn:E1; [apply wp_ret, wp_ret; split; [lia|by right]|].
  apply wp_bind, wp_gets, wp_bind, wp_load; [unfold id; lia|]. intros b Hb Hbb. unfold id in Hb.
  apply wp_bind, wp_modify, wp_ret, wp_ret. split; [lia|]. destruct (b =? 0) eqn:E2; cbn [negb]; [left|by right].
  apply Z.eqb_eq in E2 as ->. split; [done|]. exists (n - 1). rewrite u64_id by lia. replace (q + 1 - 1) with q by lia. replace (n - 1 + 1) with n by lia.
  split_and!; done || lia.
Qed.

Lemma sequence_items_any fuel : forall p e tag allocs buf next, 0 <= p <= e -> e <= zlen m -> (Z.to_nat (e - p) < fuel)%nat ->
  wp exact (sequence_items fuel m e tag allocs (mkSequence buf next)) (fun '(r, c) p' => p <= p' <= e /\
    ((r = 0 /\ p' = e /\ (if p =? e then c = mkSequence buf None else tiles m e tag p c)) \/
     (r < 0 /\ (r = MBEDTLS_ERR_ASN1_ALLOC_FAILED -> allocs <> [])))) p.
Proof using Hm Hsize.
  induction fuel as [|fuel IH]; intros p e tag allocs buf next Hp He Hf; [lia|]. cbn [sequence_items].
  apply wp_bind, wp_gets. unfold id at 1 2. destruct (p <? e) eqn:E1.
  2: { assert (p = e) as <- by lia. unfold id. apply wp_ret. rewrite Z.eqb_refl. cbn [negb]. split; [lia|]. left. done. }
  rewrite (proj2 (Z.eqb_neq p e)) by lia.
  apply wp_bind, wp_load; [unfold id; lia|]. intros b Hb Hbb. apply wp_bind, wp_get_tag; [done|done| |].
  { intros r len p' Hr Hp'. rewrite (proj2 (Z.eqb_neq r 0)) by lia. cbn [negb]. apply wp_ret. split; [done|]. right. split; [lia|].
    unfold MBEDTLS_ERR_ASN1_ALLOC_FAILED. lia. }
  intros q n Hfl. pose proof Hfl as (Hl & _ & Hq & Hn & Hqe). unfold id in Hb. rewrite Hl in Hb. injection Hb as ->.
  change (negb (0 =? 0)) with false. cbv iota. apply wp_bind, wp_lift. cbn [deref owp].
  apply wp_bind, wp_gets, wp_bind, wp_modify, wp_bind, wp_gets. unfold id. destruct (q + n <? e) eqn:E2.
  - destruct (head allocs) as [[]|] eqn:Ea.
    2: { apply wp_ret. split; [lia|]. right. split; [done|]. by intros _ ->. }
    all: apply wp_bind; eapply wp_mono; [apply (IH (q + n) e); lia|]; intros [r c] p' [Hp' H]; apply wp_ret; (split; [lia|]);
      (destruct H as [(-> & -> & H)|[Hr H]]; [left|right; split; [done|intros E; specialize (H E); by intros ->]]);
      rewrite (proj2 (Z.eqb_neq (q + n) e)) in H by lia; (split; [done|]); (split; [done|]); exists q; cbn; (split_and!; [done|done|done|lia|done]).
  - apply wp_ret. split; [lia|]. left. assert (q + n = e) as <- by lia. rewrite Z.eqb_refl. split; [done|]. split; [done|]. exists q. cbn. done.
Qed.

Lemma get_sequence_of_any p e cur tag allocs : 0 <= p <= e -> e <= zlen m ->
  wp exact (mbedtls_asn1_get_sequence_of m e cur tag allocs) (fun '(r, c) p' => p <= p' <= e /\
    ((r = 0 /\ p' = e /\ exists q, field m e p (MBEDTLS_ASN1_CONSTRUCTED + MBEDTLS_ASN1_SEQUENCE) q (e - q) /\
        (if q =? e then True else tiles m e tag q c)) \/
     (r < 0 /\ (r = MBEDTLS_ERR_ASN1_ALLOC_FAILED -> allocs <> [])))) p.
Proof using Hm Hsize.
  intros Hp He. apply wp_with_tag; [done|done| |].
  { intros r len p' ? ?. apply wp_ret. split; [done|]. right. split; [lia|]. unfold MBEDTLS_ERR_ASN1_ALLOC_FAILED. lia. }
  intros q n Hf. pose proof Hf as (_ & _ & Hq & Hn & Hqe). apply wp_bind, wp_gets. unfold id.
  destruct (q + n =? e) eqn:E; cbn [negb]; [|apply wp_ret; split; [lia|by right]]. assert (n = e - q) as -> by lia.
  destruct cur as [buf next]. eapply wp_mono; [apply (sequence_items_any (S (length m)) q e tag); [lia|lia|unfold zlen in *; lia]|].
  intros [r c] p' [Hp' H]. split; [lia|]. destruct H as [(-> & -> & H)|H]; [left|by right]. split; [done|]. split; [done|]. exists q.
  split; [exact Hf|]. by destruct (q =? e).
Qed.

Lemma get_alg_any p e alg params : 0 <= p <= e -> e <= zlen m ->
  wp exact (mbedtls_asn1_get_alg m e alg params) (fun '(r, alg', params') p' => p <= p' <= e /\
    ((r = 0 /\ exists a n q l, field m e p (MBEDTLS_ASN1_CONSTRUCTED + MBEDTLS_ASN1_SEQUENCE) a n /\ p' = a + n /\
        field m p' a MBEDTLS_ASN1_OID q l /\ alg' = mkBuf MBEDTLS_ASN1_OID l (Some q) /\
        (if q + l =? p' then params' = mkBuf 0 0 None
         else exists t o k, field m p' (q + l) t o k /\ o + k = p' /\ params' = mkBuf t k (Some o))) \/ r < 0)) p.
Proof using Hm Hsize.
  intros Hp He. apply wp_with_tag; [done|done|intros r len p' ? ?; apply wp_ret; split; [done|right; lia]|].
  intros a n Hf. pose proof Hf as (_ & _ & Ha & Hn & Hae). apply wp_bind, wp_gets. unfold id at 1.
  destruct (e - a <? 1) eqn:E1; [apply wp_ret; split; [unfold id; lia|by right]|].
  apply wp_bind, wp_load; [unfold id; lia|]. intros t Ht Htb. unfold id in *.
  apply wp_with_tag; [lia|lia|intros r len p' ? ?; apply wp_ret; split; [lia|right; lia]|].
  intros q l Hfl. pose proof Hfl as (Hl & _ & Hq & Hl0 & Hql). rewrite Hl in Ht. injection Ht as <-.
  apply wp_bind, wp_gets, wp_bind, wp_modify, wp_bind, wp_gets. unfold id.
  destruct (q + l =? a + n) eqn:E2.
  { apply wp_ret. split; [lia|]. left. split; [done|]. exists a, n, q, l. assert (a + n = q + l) as Ean by lia. rewrite Z.eqb_refl, Ean in *. done. }
  apply wp_bind, wp_load; [lia|]. intros t Ht Htb2. apply wp_bind, wp_modify, wp_bind, (wp_get_len _ (q + l) (a + n) t); [lia|lia|done| |].
  - intros r len p' Hr Hp'. rewrite (proj2 (Z.eqb_neq r 0)) by lia. apply wp_ret. split; [lia|right; lia].
  - intros o k Hfo. pose proof Hfo as (_ & _ & Ho & Hk & Hok). change (negb (0 =? 0)) with false. cbv iota.
    apply wp_bind, wp_lift. cbn [deref owp]. apply wp_bind, wp_gets, wp_bind, wp_modify, wp_bind, wp_gets, wp_ret. unfold id. split; [lia|].
    destruct (o + k =? a + n) eqn:E3; cbn [negb]; [left|by right]. assert (o + k = a + n) by lia. split; [done|].
    exists a, n, q, l. replace (o + k) with (a + n) by lia. rewrite E2. split_and!; [done|done|done|done|]. exists t, o, k. done.
Qed.

Lemma get_alg_null_any p e alg : 0 <= p <= e -> e <= zlen m ->
  wp exact (mbedtls_asn1_get_alg_null m e alg) (fun '(r, alg') p' => p <= p' <= e /\
    ((r = 0 /\ exists a n q l, field m e p (MBEDTLS_ASN1_CONSTRUCTED + MBEDTLS_ASN1_SEQUENCE) a n /\ p' = a + n /\
        field m p' a MBEDTLS_ASN1_OID q l /\ alg' = mkBuf MBEDTLS_ASN1_OID l (Some q) /\
        (q + l = p' \/ exists t, (t = MBEDTLS_ASN1_NULL \/ t = 0) /\ field m p' (q + l) t p' 0)) \/ r < 0)) p.
Proof using Hm Hsize.
  intros Hp He. apply wp_bind. eapply wp_mono; [by apply get_alg_any|]. intros [[r alg'] params'] p' [Hp' [(-> & a & n & q & l & Hf & Ep & Hfl & -> & Hps)|Hr]].
  2: { rewrite (proj2 (Z.eqb_neq r 0)) by lia. apply wp_ret. split; [lia|by right]. }
  change (negb (0 =? 0)) with false. cbv iota. destruct (q + l =? p') eqn:E.
  - subst params'. cbn. apply wp_ret. split; [done|]. left. split; [done|]. exists a, n, q, l. split_and!; [done|done|done|done|left; lia].
  - destruct Hps as (t & o & k & Hfo & Ek & ->). cbn [buf_tag buf_len].
    destruct ((negb (t =? MBEDTLS_ASN1_NULL) && negb (t =? 0)) || negb (k =? 0)) eqn:Et; apply wp_ret; (split; [done|]); [by right|left].
    split; [done|]. exists a, n, q, l. split_and!; [done|done|done|done|right]. exists t. split; [lia|]. assert (k = 0) as -> by lia.
    by replace o with p' in Hfo by lia.
Qed.

Lemma get_mpi_any p e X s : 0 <= p <= e -> e <= zlen m -> mpi_ok (bn_obj s X) ->
  wp exact (mbedtls_asn1_get_mpi m p e X) (fun '(r, p') s' => changes [X] s s' /\ mpi_ok (bn_obj s' X) /\ p <= p' <= e /\
    ((r = 0 /\ exists q n, field m e p MBEDTLS_ASN1_INTEGER q n /\ p' = q + n /\ mpi_val (bn_obj s' X) = be_val (range m q (q + n))) \/
     (r = MBEDTLS_ERR_MPI_ALLOC_FAILED /\ exists q n, field m e p MBEDTLS_ASN1_INTEGER q n /\ short_of_memory (CHARS_TO_LIMBS n) s) \/
     (-100 <= r <= -96 /\ s' = s))) s.
Proof using Hm Hsize.
  intros Hp He HX. unfold mbedtls_asn1_get_mpi. apply wp_bind, wp_lift.
  assert (H : wp exact (mbedtls_asn1_get_tag m e MBEDTLS_ASN1_INTEGER) (fun '(r, len) p' => p <= p' <= e /\
    ((r = 0 /\ exists n, len = Some n /\ field m e p MBEDTLS_ASN1_INTEGER p' n) \/ -100 <= r <= -96)) p).
  { apply wp_get_tag; [done|done|intros r len p' Hr Hp'; split; [done|right; lia]|]. intros q n Hf. pose proof Hf as (_ & _ & ? & ? & ?). split; [lia|]. left. eauto. }
  unfold wp in H. eapply owp_mono; [exact H|]. intros [[r len] p'] [Hp' [(-> & n & -> & Hf)|Hr]].
  2: { rewrite (proj2 (Z.eqb_neq r 0)) by lia. apply wp_ret. split; [done|]. split; [done|]. split; [done|]. right. by right. }
  pose proof Hf as (_ & _ & Hq & Hn & Hqe). change (negb (0 =? 0)) with false. cbv iota. apply wp_bind, wp_lift. cbn [deref owp]. apply wp_bind.
  eapply wp_mono; [apply read_binary_spec; [done|by apply Forall_drop|]|].
  { unfold zlen in *. rewrite length_drop. lia. }
  intros r s1 (C & Hok & H1). apply wp_ret. split; [done|]. split; [done|]. split; [lia|].
  destruct H1 as [(-> & Hs & Hv)|(-> & Hs)]; [left|right; left].
  - split; [done|]. exists p', n. split; [done|]. split; [done|]. unfold mpi_val. rewrite Hs, Hv. unfold range. replace (p' + n - p') with n by lia. lia.
  - split; [done|]. by exists p', n.
Qed.
End data.

(** ** Properties *)

(** C30: whatever the data, in an object of fewer than 2^63 bytes, the functions that read DER never access a byte outside it, and they return: a
    negative code, or 0, and then tag and length stand where they should, the contents lie before the end,
    and the value is the one the bytes spell: a boolean, a non-negative integer below 2^31, a bit string
    that ends with the data, the items of a sequence one behind the other up to the end, an algorithm with
    its parameters. *)
Theorem asn1_parse_safe (m : bytes) (p e tag : Z) :
  Forall is_byte m -> zlen m < 2 ^ 63 -> 0 <= p <= e -> e <= zlen m ->
  wp exact (mbedtls_asn1_get_tag m e tag) (fun '(r, len) p' => p <= p' <= e /\
    ((r = 0 /\ exists n, len = Some n /\ field m e p tag p' n) \/ r < 0)) p /\
  wp exact (mbedtls_asn1_get_bool m e) (fun '(r, val) p' => p <= p' <= e /\
    ((r = 0 /\ exists b, field m e p MBEDTLS_ASN1_BOOLEAN (p' - 1) 1 /\ load m (p' - 1) = Done b /\
        val = Some (if b =? 0 then 0 else 1)) \/ r < 0)) p /\
  wp exact (mbedtls_asn1_get_int m e) (fun '(r, val) p' => p <= p' <= e /\
    ((r = 0 /\ exists q n, field m e p MBEDTLS_ASN1_INTEGER q n /\ p' = q + n /\ 1 <= n <= 4 /\
        val = Some (be_val (range m q (q + n))) /\ be_val (range m q (q + n)) < 2 ^ 31) \/ r < 0)) p /\
  (forall bs, wp exact (mbedtls_asn1_get_bitstring m e bs) (fun '(r, bs') p' => p <= p' <= e /\
    ((r = 0 /\ p' = e /\ exists q, bs_p bs' = Some q /\ q + bs_len bs' = e /\ field m e p MBEDTLS_ASN1_BIT_STRING (q - 1) (bs_len bs' + 1) /\
        load m (q - 1) = Done (bs_unused_bits bs') /\ bs_unused_bits bs' <= 7) \/ r < 0)) p) /\
  wp exact (mbedtls_asn1_get_bitstring_null m e) (fun '(r, len) p' => p <= p' <= e /\
    ((r = 0 /\ exists n, len = Some n /\ 1 <= n /\ field m e p MBEDTLS_ASN1_BIT_STRING (p' - 1) (n + 1) /\ load m (p' - 1) = Done 0) \/ r < 0)) p /\
  (forall cur allocs, wp exact (mbedtls_asn1_get_sequence_of m e cur tag allocs) (fun '(r, c) p' => p <= p' <= e /\
    ((r = 0 /\ p' = e /\ exists q, field m e p (MBEDTLS_ASN1_CONSTRUCTED + MBEDTLS_ASN1_SEQUENCE) q (e - q) /\
        (if q =? e then True else tiles m e tag q c)) \/
     (r < 0 /\ (r = MBEDTLS_ERR_ASN1_ALLOC_FAILED -> allocs <> [])))) p) /\
  (forall alg params, wp exact (mbedtls_asn1_get_alg m e alg params) (fun '(r, alg', params') p' => p <= p' <= e /\
    ((r = 0 /\ exists a n q l, field m e p (MBEDTLS_ASN1_CONSTRUCTED + MBEDTLS_ASN1_SEQUENCE) a n /\ p' = a + n /\
        field m p' a MBEDTLS_ASN1_OID q l /\ alg' = mkBuf MBEDTLS_ASN1_OID l (Some q) /\
        (if q + l =? p' then params' = mkBuf 0 0 None
         else exists t o k, field m p' (q + l) t o k /\ o + k = p' /\ params' = mkBuf t k (Some o))) \/ r < 0)) p).
Proof.
  intros Hm Hs Hp He. split; [by apply get_tag_any|]. split; [by apply get_bool_any|]. split; [by apply get_int_any|].
  split; [intros bs; by apply get_bitstring_any|]. split; [by apply get_bitstring_null_any|].
  split; [intros cur allocs; by apply get_sequence_of_any|]. intros alg params. by apply get_alg_any.
Qed.

(** SEQUENCE { INTEGER 5, INTEGER 300 } is read item by item. *)
Definition sample_data : bytes := [48; 7; 2; 1; 5; 2; 2; 1; 44].

Example sequence_read : mbedtls_asn1_get_sequence_of sample_data 9 (mkSequence (mkBuf 0 0 None) None) 2 [] 0 =
  Done (0, mkSequence (mkBuf 2 1 (Some 4)) (Some (mkSequence (mkBuf 2 2 (Some 7)) None)), 9).
Proof. by vm_compute. Qed.

Lemma asn1_parse_safe_witness :
  (Forall is_byte sample_data /\ zlen sample_data < 2 ^ 63 /\ 9 <= zlen sample_data) /\
  wp exact (mbedtls_asn1_get_tag sample_data 9 48) (fun '(r, len) p' => 0 <= p' <= 9 /\
    ((r = 0 /\ exists n, len = Some n /\ field sample_data 9 0 48 p' n) \/ r < 0)) 0.
Proof.
  assert (H : Forall is_byte sample_data /\ zlen sample_data < 2 ^ 63 /\ 9 <= zlen sample_data).
  { split; [repeat constructor; lia|]. split; vm_compute; [done|congruence]. }
  split; [exact H|]. exact (proj1 (asn1_parse_safe sample_data 0 9 48 (proj1 H) (proj1 (proj2 H)) (conj (Z.le_refl 0) (proj1 (Z.leb_le 0 9) eq_refl)) (proj2 (proj2 H)))).
Defined.

(** More octets than needed are accepted in a length. *)
Example long_length_accepted : mbedtls_asn1_get_bool [1; 130; 0; 1; 255] 5 0 = Done (0, Some 1, 5).
Proof. by vm_compute. Qed.
