(* ===== verification/Asn1Write.v ===== *)
(** * ASN.1: writing DER

    external_libs/mbedTLS/library/asn1write.c.  The functions write downwards: the state is [*p] and the
    buffer, [start] the offset they must not pass. *)

From stdpp Require Import functions.
From S2P Require Import Prelude Mpi Asn1Parse.

(** ** Functions *)

Definition wr : Type := (Z * bytes)%type.

(** [*p] is decremented and the byte it then points to set. *)
Definition put_byte (b : Z) : M wr unit := fun '(p, m) => let! m := store m (p - 1) [b] in Done (tt, (p - 1, m)).

(** [*p - start < n] *)
Definition lacks (start n : Z) : M wr bool := gets (fun '(p, _) => p - start <? n).

(** [(int) z]; conversion of a value that does not fit is implementation-defined, here it wraps around. *)
Definition to_int (z : Z) : Z := let z := u32 z in if z <? 2147483648 then z else z - 4294967296.

(** [MBEDTLS_ASN1_CHK_ADD( len, f )] *)
Notation "'add!' x ':=' f 'to' l 'in' k" := (bind f (fun r => if r <? 0 then ret r else (fun x => k) (u64 (l + r))))
  (at level 10, x name, f at level 100, l at level 100, k at level 200) : c_scope.

Definition mbedtls_asn1_write_len (start len : Z) : M wr Z :=
  if len <? 128 then
    do! no := lacks start 1 in
    if (no : bool) then ret MBEDTLS_ERR_ASN1_BUF_TOO_SMALL
    else
      run! put_byte (u8 len) in
      ret 1
  else if len <=? 255 then
    do! no := lacks start 2 in
    if (no : bool) then ret MBEDTLS_ERR_ASN1_BUF_TOO_SMALL
    else
      run! put_byte (u8 len) in
      run! put_byte 129 in
      ret 2
  else if len <=? 65535 then
    do! no := lacks start 3 in
    if (no : bool) then ret MBEDTLS_ERR_ASN1_BUF_TOO_SMALL
    else
      run! put_byte (Z.land len 255) in
      run! put_byte (Z.land (Z.shiftr len 8) 255) in
      run! put_byte 130 in
      ret 3
  else if len <=? 16777215 then
    do! no := lacks start 4 in
    if (no : bool) then ret MBEDTLS_ERR_ASN1_BUF_TOO_SMALL
    else
      run! put_byte (Z.land len 255) in
      run! put_byte (Z.land (Z.shiftr len 8) 255) in
      run! put_byte (Z.land (Z.shiftr len 16) 255) in
      run! put_byte 131 in
      ret 4
  else if len <=? 4294967295 then
    do! no := lacks start 5 in
    if (no : bool) then ret MBEDTLS_ERR_ASN1_BUF_TOO_SMALL
    else
      run! put_byte (Z.land len 255) in
      run! put_byte (Z.land (Z.shiftr len 8) 255) in
      run! put_byte (Z.land (Z.shiftr len 16) 255) in
      run! put_byte (Z.land (Z.shiftr len 24) 255) in
      run! put_byte 132 in
      ret 5
  else ret MBEDTLS_ERR_ASN1_INVALID_LENGTH.

Definition mbedtls_asn1_write_tag (start tag : Z) : M wr Z :=
  do! no := lacks start 1 in
  if (no : bool) then ret MBEDTLS_ERR_ASN1_BUF_TOO_SMALL
  else
    run! put_byte tag in
    ret 1.

(** [*p < start || (size_t)( *p - start ) < size] *)
Definition lacks_size (start size : Z) : M wr bool := gets (fun '(p, _) => (p <? start) || (u64 (p - start) <? size)).

(** [*p -= n; memcpy( *p, buf, n )] *)
Definition put_bytes (buf : bytes) (n : Z) : M wr unit := fun '(p, m) =>
  let! d := load_list buf 0 n in
  let! m := store m (p - n) d in
  Done (tt, (p - n, m)).

Definition mbedtls_asn1_write_raw_buffer (start : Z) (buf : bytes) (size : Z) : M wr Z :=
  do! no := lacks_size start size in
  if (no : bool) then ret MBEDTLS_ERR_ASN1_BUF_TOO_SMALL
  else
    run! put_bytes buf size in
    ret (to_int size).

(** The integer is read from the store [s]. *)
Definition mbedtls_asn1_write_mpi (s : bn) (start : Z) (X : nat) : M wr Z :=
  do! (len, _) := lift (mbedtls_mpi_size X s) in
  do! no := lacks_size start len in
  if (no : bool) then ret MBEDTLS_ERR_ASN1_BUF_TOO_SMALL
  else
    do! r := (fun '(p, m) =>
      let p := p - len in
      let! (r, buf, _) := mbedtls_mpi_write_binary X (drop (Z.to_nat p) m) len s in
      Done (r, (p, take (Z.to_nat p) m ++ buf))) in
    if negb (r =? 0) then ret r
    else
      do! neg := (
        if mpi_s (bn_obj s X) =? 1 then do! (p, m) := gets id in do! b := lift (load m p) in ret (negb (Z.land b 128 =? 0))
        else ret false) in
      do! r := (
        if (neg : bool) then
          do! no := lacks start 1 in
          if (no : bool) then ret (inl MBEDTLS_ERR_ASN1_BUF_TOO_SMALL)
          else
            run! put_byte 0 in
            ret (inr (len + 1))
        else ret (inr len)) in
      match r with
      | inl e => ret e
      | inr len =>
          add! len := mbedtls_asn1_write_len start len to len in
          add! len := mbedtls_asn1_write_tag start MBEDTLS_ASN1_INTEGER to len in
          ret (to_int len)
      end.

Definition mbedtls_asn1_write_null (start : Z) : M wr Z :=
  add! len := mbedtls_asn1_write_len start 0 to 0 in
  add! len := mbedtls_asn1_write_tag start MBEDTLS_ASN1_NULL to len in
  ret (to_int len).

Definition mbedtls_asn1_write_oid (start : Z) (oid : bytes) (oid_len : Z) : M wr Z :=
  add! len := mbedtls_asn1_write_raw_buffer start oid oid_len to 0 in
  add! len := mbedtls_asn1_write_len start len to len in
  add! len := mbedtls_asn1_write_tag start MBEDTLS_ASN1_OID to len in
  ret (to_int len).

Definition mbedtls_asn1_write_algorithm_identifier (start : Z) (oid : bytes) (oid_len par_len : Z) : M wr Z :=
  let rest len :=
    add! len := mbedtls_asn1_write_oid start oid oid_len to len in
    add! len := mbedtls_asn1_write_len start len to len in
    add! len := mbedtls_asn1_write_tag start (Z.lor MBEDTLS_ASN1_CONSTRUCTED MBEDTLS_ASN1_SEQUENCE) to len in
    ret (to_int len) in
  if par_len =? 0 then add! len := mbedtls_asn1_write_null start to 0 in rest len
  else rest par_len.

Definition mbedtls_asn1_write_bool (start boolean : Z) : M wr Z :=
  do! no := lacks start 1 in
  if (no : bool) then ret MBEDTLS_ERR_ASN1_BUF_TOO_SMALL
  else
    run! put_byte (if negb (boolean =? 0) then 255 else 0) in
    let len := 1 in
    add! len := mbedtls_asn1_write_len start len to len in
    add! len := mbedtls_asn1_write_tag start MBEDTLS_ASN1_BOOLEAN to len in
    ret (to_int len).

Definition mbedtls_asn1_write_int (start val : Z) : M wr Z :=
  do! no := lacks start 1 in
  if (no : bool) then ret MBEDTLS_ERR_ASN1_BUF_TOO_SMALL
  else
    run! put_byte (u8 val) in
    do! neg := (
      if 0 <? val then do! (p, m) := gets id in do! b := lift (load m p) in ret (negb (Z.land b 128 =? 0))
      else ret false) in
    do! r := (
      if (neg : bool) then
        do! no := lacks start 1 in
        if (no : bool) then ret (inl MBEDTLS_ERR_ASN1_BUF_TOO_SMALL)
        else
          run! put_byte 0 in
          ret (inr 2)
      else ret (inr 1)) in
    match r with
    | inl e => ret e
    | inr len =>
        add! len := mbedtls_asn1_write_len start len to len in
        add! len := mbedtls_asn1_write_tag start MBEDTLS_ASN1_INTEGER to len in
        ret (to_int len)
    end.

Definition mbedtls_asn1_write_printable_string (start : Z) (text : bytes) (text_len : Z) : M wr Z :=
  add! len := mbedtls_asn1_write_raw_buffer start text text_len to 0 in
  add! len := mbedtls_asn1_write_len start len to len in
  add! len := mbedtls_asn1_write_tag start MBEDTLS_ASN1_PRINTABLE_STRING to len in
  ret (to_int len).

Definition mbedtls_asn1_write_ia5_string (start : Z) (text : bytes) (text_len : Z) : M wr Z :=
  add! len := mbedtls_asn1_write_raw_buffer start text text_len to 0 in
  add! len := mbedtls_asn1_write_len start len to len in
  add! len := mbedtls_asn1_write_tag start MBEDTLS_ASN1_IA5_STRING to len in
  ret (to_int len).

Definition mbedtls_asn1_write_bitstring (start : Z) (buf : bytes) (bits : Z) : M wr Z :=
  let size := bits / 8 + (if bits mod 8 =? 0 then 0 else 1) in
  do! no := lacks_size start (size + 1) in
  if (no : bool) then ret MBEDTLS_ERR_ASN1_BUF_TOO_SMALL
  else
    let len := size + 1 in
    run! put_bytes buf size in
    run! put_byte (u8 (size * 8 - bits)) in
    add! len := mbedtls_asn1_write_len start len to len in
    add! len := mbedtls_asn1_write_tag start MBEDTLS_ASN1_BIT_STRING to len in
    ret (to_int len).

Definition mbedtls_asn1_write_octet_string (start : Z) (buf : bytes) (size : Z) : M wr Z :=
  add! len := mbedtls_asn1_write_raw_buffer start buf size to 0 in
  add! len := mbedtls_asn1_write_len start len to len in
  add! len := mbedtls_asn1_write_tag start MBEDTLS_ASN1_OCTET_STRING to len in
  ret (to_int len).

(** [memcpy( cur->val.p, val, val_len )] when there is a value; the position of the item is returned. *)
Definition copy_val (i : nat) (val : option bytes) (len : Z) (l : list mbedtls_asn1_named_data)
    : outcome (option nat * list mbedtls_asn1_named_data) :=
  match val with
  | None => Done (Some i, l)
  | Some val =>
      let! d := deref (l !! i) in
      let! v := deref (val_p d) in
      let! x := load_list val 0 len in
      let! v := store v 0 x in
      Done (Some i, <[i := mkNamed (oid_tag d) (oid_len d) (oid_p d) (val_tag d) (val_len d) (Some v) (next_merged d)]> l)
  end.

(** The list is in the order of its pointers; [allocs] are the answers of [calloc]. *)
Definition mbedtls_asn1_store_named_data (l : list mbedtls_asn1_named_data) (oid : bytes) (olen : Z)
    (val : option bytes) (vlen : Z) (allocs : list bool) : outcome (option nat * list mbedtls_asn1_named_data) :=
  let! found := mbedtls_asn1_find_named_data l oid olen in
  match found with
  | None =>
      let ok i := default true (allocs !! i) in
      if negb (ok 0%nat) then Done (None, l)
      else if negb (ok 1%nat) then Done (None, l)
      else
        let! o := load_list oid 0 olen in
        let! o := store (replicate (Z.to_nat olen) 0) 0 o in
        if negb (ok 2%nat) then Done (None, l)
        else
          let cur := mkNamed 0 olen (Some o) 0 vlen (Some (replicate (Z.to_nat vlen) 0)) 0 in
          copy_val 0 val vlen (cur :: l)
  | Some i =>
      let! d := deref (l !! i) in
      if val_len d <? vlen then
        if negb (default true (head allocs)) then Done (None, l)
        else
          let d := mkNamed (oid_tag d) (oid_len d) (oid_p d) (val_tag d) vlen (Some (replicate (Z.to_nat vlen) 0)) (next_merged d) in
          copy_val i val vlen (<[i := d]> l)
      else copy_val i val vlen l
  end.

(** ** The reference *)

(** The length octets: the short form, or the number of octets and the octets, as few as possible. *)
Definition der_len (n : Z) : bytes :=
  if n <? 128 then [n] else (128 + byte_size n) :: be_bytes (Z.to_nat (byte_size n)) n.

Definition der (tag : Z) (contents : bytes) : bytes := tag :: der_len (zlen contents) ++ contents.

(** A non-negative integer: its octets, with a leading 0 when the first would have its sign bit set. *)
Definition der_nat (v : Z) : bytes :=
  let d := if v =? 0 then [0] else be_bytes (Z.to_nat (byte_size v)) v in
  if 128 <=? default 0 (head d) then 0 :: d else d.

(** ** Lemmas: writing downwards *)

(** Only bytes between [start] and [p] have changed. *)
Definition framed (start p : Z) (m m' : bytes) : Prop :=
  zlen m' = zlen m /\ take (Z.to_nat start) m' = take (Z.to_nat start) m /\ drop (Z.to_nat p) m' = drop (Z.to_nat p) m.

(** The buffer with [d] right below [p]. *)
Definition below (p : Z) (m d : bytes) : bytes := take (Z.to_nat (p - zlen d)) m ++ d ++ drop (Z.to_nat p) m.

Lemma below_app p m d1 d2 : zlen d1 + zlen d2 <= p <= zlen m -> below (p - zlen d1) (below p m d1) d2 = below p m (d2 ++ d1).
Proof.
  intros Hp. pose proof (zlen_nonneg d1). pose proof (zlen_nonneg d2). unfold below. rewrite zlen_app.
  assert (Lt : length (take (Z.to_nat (p - zlen d1)) m) = Z.to_nat (p - zlen d1)) by (rewrite length_take; unfold zlen in *; lia).
  rewrite take_app_le by lia. rewrite take_take, Nat.min_l by lia.
  rewrite drop_app_length' by done. rewrite <- app_assoc. do 2 f_equal. lia.
Qed.

Lemma below_zlen p m d : zlen d <= p <= zlen m -> zlen (below p m d) = zlen m.
Proof. intros Hp. unfold below, zlen in *. rewrite !length_app, length_take, length_drop. lia. Qed.

Lemma below_nil p m : 0 <= p -> below p m [] = m.
Proof. intros Hp. unfold below. change (zlen []) with 0. rewrite Z.sub_0_r. apply take_drop. Qed.

Lemma below_framed start p m d : 0 <= start -> start + zlen d <= p <= zlen m -> framed start p m (below p m d).
Proof.
  intros Hs Hp. pose proof (zlen_nonneg d). split; [apply below_zlen; lia|].
  assert (Lt : length (take (Z.to_nat (p - zlen d)) m) = Z.to_nat (p - zlen d)) by (rewrite length_take; unfold zlen in *; lia).
  unfold below. split.
  - rewrite take_app_le by lia. rewrite take_take. f_equal. lia.
  - rewrite app_assoc. apply drop_app_length'. rewrite length_app, Lt. unfold zlen in *. lia.
Qed.

Lemma framed_trans start p p1 m1 m2 m3 : 0 <= p1 <= p -> framed start p m1 m2 -> framed start p1 m2 m3 -> framed start p m1 m3.
Proof.
  intros Hp (L1 & T1 & D1) (L2 & T2 & D2). split; [congruence|]. split; [congruence|]. rewrite <- D1.
  replace (Z.to_nat p) with (Z.to_nat p1 + Z.to_nat (p - p1))%nat by lia. by rewrite <- !drop_drop, D2.
Qed.

Lemma below_load p m b d : zlen (b :: d) <= p <= zlen m -> load (below p m (b :: d)) (p - zlen (b :: d)) = Done b.
Proof.
  intros Hp. unfold below. cbn [app]. apply load_at. pose proof (zlen_nonneg (b :: d)). unfold zlen in *. rewrite length_take. lia.
Qed.

(** [f] puts [d] below [p] without looking at the room. *)
Definition lays {A : Type} (f : M wr A) (a : A) (d : bytes) : Prop :=
  forall p m, zlen d <= p <= zlen m -> f (p, m) = Done (a, (p - zlen d, below p m d)).

Lemma lays_ret {A} (a : A) : lays (ret a) a [].
Proof. intros p m Hp. change (zlen []) with 0 in *. unfold ret. by rewrite Z.sub_0_r, below_nil by lia. Qed.

Lemma lays_bind {A B} (f : M wr A) (k : A -> M wr B) a b d1 d2 : lays f a d1 -> lays (k a) b d2 -> lays (bind f k) b (d2 ++ d1).
Proof.
  intros Hf Hk p m Hp. rewrite zlen_app in *. pose proof (zlen_nonneg d1). pose proof (zlen_nonneg d2).
  unfold bind. rewrite Hf by lia. cbn [obind]. rewrite Hk by (rewrite below_zlen; lia).
  rewrite below_app by lia. do 3 f_equal. lia.
Qed.

Lemma lays_put b : lays (put_byte b) tt [b].
Proof.
  intros p m Hp. change (zlen [b]) with 1 in *. unfold put_byte. rewrite store_in by (change (zlen [b]) with 1; lia). cbn [obind].
  unfold below. change (zlen [b]) with 1. by replace (p - 1 + 1) with p by lia.
Qed.

Lemma lays_put_bytes buf n : 0 <= n <= zlen buf -> lays (put_bytes buf n) tt (take (Z.to_nat n) buf).
Proof.
  intros Hn p m. rewrite zlen_take by lia. intros Hp. unfold put_bytes, load_list. rewrite (proj2 (Z.leb_le 0 n)), (proj2 (Z.leb_le (0 + n) _)) by lia. cbn [andb Z.leb obind].
  change (0 <=? 0) with true. cbn [andb obind]. rewrite drop_0. rewrite store_in by (rewrite ?zlen_take; lia). cbn [obind].
  rewrite zlen_take by lia. unfold below. rewrite zlen_take by lia. by replace (p - n + n) with p by lia.
Qed.

(** [f] writes [d] and adds its length to [l], or reports that there is no room.  [top], if any, is the
    byte [*p] points to when [f] starts. *)
Definition writes (start l : Z) (top : option Z) (f : M wr Z) (d : bytes) : Prop :=
  forall p m, start <= p <= zlen m -> l + p < 2 ^ 31 -> (forall b, top = Some b -> load m p = Done b) ->
  if start + zlen d <=? p then f (p, m) = Done (l + zlen d, (p - zlen d, below p m d))
  else exists p' m', f (p, m) = Done (MBEDTLS_ERR_ASN1_BUF_TOO_SMALL, (p', m')) /\ start <= p' <= p /\ framed start p m m'.

Section writing.
Context (start : Z) (Hstart : 0 <= start).

Lemma framed_refl p m : framed start p m m.
Proof using. done. Qed.

Lemma writes_no_top l top f d : writes start l None f d -> writes start l top f d.
Proof using. intros H p m Hp Hl _. by apply H. Qed.

Lemma writes_ext l top f g d : (forall s, f s = g s) -> writes start l top f d -> writes start l top g d.
Proof using. intros H Hf p m Hp Hl Ht. rewrite <- !H. by apply Hf. Qed.

Lemma writes_ret l top : writes start l top (ret l) [].
Proof using Hstart. intros p m Hp Hl _. change (zlen []) with 0. rewrite (proj2 (Z.leb_le _ _)) by lia. by rewrite Z.add_0_r, Z.sub_0_r, below_nil by lia. Qed.

Lemma writes_int l top : 0 <= l -> writes start l top (ret (to_int l)) [].
Proof using Hstart.
  intros H0 p m Hp Hl Ht. unfold to_int. rewrite u32_id, (proj2 (Z.ltb_lt l _)) by lia. by apply writes_ret with top.
Qed.

(** [MBEDTLS_ASN1_CHK_ADD] *)
Lemma writes_add l top f k d1 d2 : 0 <= l -> writes start 0 top f d1 -> (l + zlen d1 < 2 ^ 31 -> writes start (l + zlen d1) (head d1) (k (l + zlen d1)) d2) ->
  writes start l top (bind f (fun r => if r <? 0 then ret r else k (u64 (l + r)))) (d2 ++ d1).
Proof using Hstart.
  intros H0 Hf Hk p m Hp Hl Ht. pose proof (zlen_nonneg d1). pose proof (zlen_nonneg d2). specialize (Hf p m Hp ltac:(lia) Ht). rewrite zlen_app. unfold bind.
  destruct (start + zlen d1 <=? p) eqn:E1.
  - rewrite Hf. cbn [obind]. rewrite (proj2 (Z.ltb_ge _ 0)), Z.add_0_l, u64_id by lia. specialize (Hk ltac:(lia) (p - zlen d1) (below p m d1)).
    rewrite below_zlen in Hk by lia. specialize (Hk ltac:(lia) ltac:(lia)).
    assert (Hb : forall b, head d1 = Some b -> load (below p m d1) (p - zlen d1) = Done b).
    { intros b Hb. destruct d1 as [|c d1]; [done|]. injection Hb as ->. apply below_load. lia. }
    specialize (Hk Hb). assert (Er : (start + zlen d2 <=? p - zlen d1) = (start + (zlen d2 + zlen d1) <=? p)) by lia.
    rewrite Er in Hk. destruct (start + (zlen d2 + zlen d1) <=? p) eqn:E2.
    + rewrite Hk. rewrite below_app by lia. do 2 f_equal; [lia|f_equal; lia].
    + destruct Hk as (p' & m' & -> & Hp' & Hfr). exists p', m'. split; [done|]. split; [lia|].
      apply (framed_trans _ _ (p - zlen d1) _ (below p m d1)); [lia|apply below_framed; lia|done].
  - rewrite (proj2 (Z.leb_gt _ p)) by lia. destruct Hf as (p' & m' & -> & Hp' & Hfr). by exists p', m'.
Qed.

(** A test for the room, then bytes, then the rest. *)
Lemma writes_guard {A} l top n f (a : A) k d1 d2 (lack : M wr bool) :
  (forall p m, start <= p < 2 ^ 31 -> lack (p, m) = Done (p - start <? n, (p, m))) ->
  0 <= l -> n = zlen d1 -> lays f a d1 -> writes start (l + n) (head d1) (k a) d2 ->
  writes start l top (bind lack (fun no => if no then ret MBEDTLS_ERR_ASN1_BUF_TOO_SMALL else bind f k)) (d2 ++ d1).
Proof using Hstart.
  intros Hlack H0 -> Hf Hk p m Hp Hl Ht. pose proof (zlen_nonneg d1). pose proof (zlen_nonneg d2). 
  assert (Eb : forall F : bool -> M wr Z, bind lack F (p, m) = F (p - start <? zlen d1) (p, m)) by (intros F; unfold bind; by rewrite Hlack by lia).
  rewrite Eb, zlen_app. destruct (p - start <? zlen d1) eqn:E1.
  - rewrite (proj2 (Z.leb_gt _ p)) by lia. exists p, m. split; [done|]. split; [lia|apply framed_refl].
  - unfold bind. rewrite Hf by lia. cbn [obind]. specialize (Hk (p - zlen d1) (below p m d1)).
    rewrite below_zlen in Hk by lia. specialize (Hk ltac:(lia) ltac:(lia)).
    assert (Hb : forall b, head d1 = Some b -> load (below p m d1) (p - zlen d1) = Done b).
    { intros b Hb. destruct d1 as [|c d1]; [done|]. injection Hb as ->. apply below_load. lia. }
    specialize (Hk Hb). assert (Er : (start + zlen d2 <=? p - zlen d1) = (start + (zlen d2 + zlen d1) <=? p)) by lia.
    rewrite Er in Hk. destruct (start + (zlen d2 + zlen d1) <=? p) eqn:E2.
    + rewrite Hk. rewrite below_app by lia. do 2 f_equal; [lia|f_equal; lia].
    + destruct Hk as (p' & m' & -> & Hp' & Hfr). exists p', m'. split; [done|]. split; [lia|].
      apply (framed_trans _ _ (p - zlen d1) _ (below p m d1)); [lia|apply below_framed; lia|done].
Qed.

Lemma writes_guard_all top n f d d' (lack : M wr bool) :
  (forall p m, start <= p < 2 ^ 31 -> lack (p, m) = Done (p - start <? n, (p, m))) ->
  lays f n d -> n = zlen d -> d = d' ->
  writes start 0 top (bind lack (fun no => if no then ret MBEDTLS_ERR_ASN1_BUF_TOO_SMALL else f)) d'.
Proof using Hstart.
  intros Hlack Hf Hn <- p m Hp Hl Ht. pose proof (zlen_nonneg d). unfold bind. rewrite Hlack by lia. cbn [obind].
  destruct (p - start <? n) eqn:E.
  - rewrite (proj2 (Z.leb_gt _ p)) by lia. exists p, m. split; [done|]. split; [lia|apply framed_refl].
  - rewrite (proj2 (Z.leb_le _ p)) by lia. rewrite Hf by lia. by rewrite Hn.
Qed.

Lemma lacks_eq n p m : start <= p < 2 ^ 31 -> lacks start n (p, m) = Done (p - start <? n, (p, m)).
Proof using. done. Qed.
Lemma lacks_size_eq n p m : start <= p < 2 ^ 31 -> lacks_size start n (p, m) = Done (p - start <? n, (p, m)).
Proof using Hstart.
  intros Hp. unfold lacks_size, gets. rewrite (proj2 (Z.ltb_ge p start)), u64_id by lia. done.
Qed.
End writing.

(** ** Lemmas: the parts *)

Lemma byte_size_is v k : 0 < k -> 256 ^ (k - 1) <= v < 256 ^ k -> byte_size v = k.
Proof.
  intros Hk Hv. assert (H0 : 0 <= v) by (pose proof (Z.pow_pos_nonneg 256 (k - 1)); lia).
  destruct (byte_size_spec v H0) as (H1 & H2 & H3). assert (0 < v) as H4 by (pose proof (Z.pow_pos_nonneg 256 (k - 1)); lia). specialize (H3 H4).
  destruct (Z.lt_trichotomy (byte_size v) k) as [H|[H|H]]; [|done|].
  - pose proof (Z.pow_le_mono_r 256 (byte_size v) (k - 1)). lia.
  - pose proof (Z.pow_le_mono_r 256 k (byte_size v - 1)). lia.
Qed.

Lemma land_255 v : Z.land v 255 = Z.land (Z.shiftr v (8 * Z.of_nat 0)) 255.
Proof. by rewrite Z.shiftr_0_r. Qed.

Ltac lay := first
  [ apply lays_ret
  | apply lays_put
  | eapply lays_bind; [lay|lay] ].

Lemma write_len_writes start n top : 0 <= start -> 0 <= n < 2 ^ 32 -> writes start 0 top (mbedtls_asn1_write_len start n) (der_len n).
Proof.
  intros Hs Hn. unfold mbedtls_asn1_write_len, der_len.
  destruct (Z.ltb_spec n 128).
  { rewrite u8_id by lia. apply (writes_guard start Hs 0 top 1 (put_byte n) tt (fun _ => ret 1) [n] []); [apply lacks_eq|lia|done|apply lays_put|by apply writes_ret]. }
  assert (Hk : forall k : nat, (0 < k)%nat -> 256 ^ (Z.of_nat k - 1) <= n < 256 ^ Z.of_nat k -> (128 + byte_size n) :: be_bytes (Z.to_nat (byte_size n)) n = (128 + Z.of_nat k) :: be_bytes k n).
  { intros k Hk Hv. rewrite (byte_size_is n (Z.of_nat k)) by lia. by rewrite Nat2Z.id. }
  destruct (Z.leb_spec n 255).
  { eapply (writes_guard_all start Hs); [apply lacks_eq|lay|done|]. rewrite (Hk 1%nat) by (try lia; by vm_compute || (change (256 ^ _) with 1; change (256 ^ Z.of_nat 1) with 256; lia)).
    rewrite u8_id by lia. cbn. by rewrite Z.mod_small by lia. }
  destruct (Z.leb_spec n 65535).
  { eapply (writes_guard_all start Hs); [apply lacks_eq|lay|done|]. rewrite (Hk 2%nat); [|lia|change (256 ^ (Z.of_nat 2 - 1)) with 256; change (256 ^ Z.of_nat 2) with 65536; lia].
    by rewrite !be_octets, land_255. }
  destruct (Z.leb_spec n 16777215).
  { eapply (writes_guard_all start Hs); [apply lacks_eq|lay|done|]. rewrite (Hk 3%nat); [|lia|change (256 ^ (Z.of_nat 3 - 1)) with 65536; change (256 ^ Z.of_nat 3) with 16777216; lia].
    by rewrite !be_octets, land_255. }
  rewrite (proj2 (Z.leb_le n 4294967295)) by lia.
  eapply (writes_guard_all start Hs); [apply lacks_eq|lay|done|]. rewrite (Hk 4%nat); [|lia|change (256 ^ (Z.of_nat 4 - 1)) with 16777216; change (256 ^ Z.of_nat 4) with 4294967296; lia].
  by rewrite !be_octets, land_255.
Qed.

Section parts.
Context (start : Z) (Hstart : 0 <= start).

Lemma write_tag_writes tag top : writes start 0 top (mbedtls_asn1_write_tag start tag) [tag].
Proof using Hstart. eapply (writes_guard_all start Hstart); [apply lacks_eq|lay|done|done]. Qed.

Lemma write_raw_writes buf n top : 0 <= n <= zlen buf -> n < 2 ^ 31 -> writes start 0 top (mbedtls_asn1_write_raw_buffer start buf n) (take (Z.to_nat n) buf).
Proof using Hstart.
  intros Hn Hmax. eapply (writes_guard_all start Hstart _ _ _ ([] ++ take (Z.to_nat n) buf)); [by apply lacks_size_eq| | |done].
  - unfold to_int. rewrite u32_id, (proj2 (Z.ltb_lt n _)) by lia. eapply lays_bind; [by apply lays_put_bytes|apply lays_ret].
  - cbn [app]. by rewrite zlen_take by lia.
Qed.

(** What ends every function: the length, the tag, the sum. *)
Lemma finish_writes l tag top : 0 <= l ->
  writes start l top (add! len := mbedtls_asn1_write_len start l to l in add! len := mbedtls_asn1_write_tag start tag to len in ret (to_int len))
    (tag :: der_len l).
Proof using Hstart.
  intros Hl. destruct (decide (l < 2 ^ 31)) as [Hmax|Hmax]; [|intros p m Hp Hlp; lia].
  assert (H : writes start l top (add! len := mbedtls_asn1_write_len start l to l in add! len := mbedtls_asn1_write_tag start tag to len in ret (to_int len))
    (([] ++ [tag]) ++ der_len l)); [|exact H].
  apply (writes_add start Hstart l top _ (fun len => add! len := mbedtls_asn1_write_tag start tag to len in ret (to_int len))); [done|apply write_len_writes; lia|].
  intros Hs. apply (writes_add start Hstart _ _ _ (fun len => ret (to_int len))); [pose proof (zlen_nonneg (der_len l)); lia|apply write_tag_writes|].
  intros Hs2. apply writes_int; [done|]. pose proof (zlen_nonneg (der_len l)). change (zlen [tag]) with 1. lia.
Qed.
End parts.

(** ** Lemmas: the functions *)

Lemma der_len_zlen n : 0 <= n < 2 ^ 32 -> 1 <= zlen (der_len n) <= 5.
Proof.
  intros Hn. unfold der_len. destruct (n <? 128) eqn:E; [by split|]. rewrite zlen_cons. unfold zlen. rewrite be_bytes_length.
  destruct (byte_size_spec n ltac:(lia)) as (_ & H1 & H2). specialize (H2 ltac:(lia)).
  assert (byte_size n <= 4); [|lia]. destruct (Z.le_gt_cases (byte_size n) 4) as [|H]; [done|].
  pose proof (Z.pow_le_mono_r 256 4 (byte_size n - 1)). lia.
Qed.

Section functions.
Context (start : Z) (Hstart : 0 <= start).

Lemma write_null_writes top : writes start 0 top (mbedtls_asn1_write_null start) (der MBEDTLS_ASN1_NULL []).
Proof using Hstart. apply (finish_writes start Hstart 0). done. Qed.

(** A buffer with its length and tag. *)
Lemma write_buffer_writes tag buf n top : 0 <= n <= zlen buf -> n < 2 ^ 31 ->
  writes start 0 top (add! len := mbedtls_asn1_write_raw_buffer start buf n to 0 in
    add! len := mbedtls_asn1_write_len start len to len in add! len := mbedtls_asn1_write_tag start tag to len in ret (to_int len))
    (der tag (take (Z.to_nat n) buf)).
Proof using Hstart.
  intros Hn Hmax. unfold der. rewrite app_comm_cons. 
  apply (writes_add start Hstart 0 top _ (fun len => add! len := mbedtls_asn1_write_len start len to len in
    add! len := mbedtls_asn1_write_tag start tag to len in ret (to_int len))); [done|by apply write_raw_writes|].
  intros _. apply finish_writes; [done|]. apply zlen_nonneg.
Qed.

Lemma write_bool_writes b top : writes start 0 top (mbedtls_asn1_write_bool start b) (der MBEDTLS_ASN1_BOOLEAN [if b =? 0 then 0 else 255]).
Proof using Hstart.
  unfold der. rewrite app_comm_cons. eapply (writes_guard start Hstart); [apply lacks_eq|done|done| |].
  - replace (if b =? 0 then 0 else 255) with (if negb (b =? 0) then 255 else 0) by (by destruct (b =? 0)). apply lays_put.
  - by apply finish_writes.
Qed.

Lemma write_bitstring_writes buf bits top : 0 <= bits -> (bits + 7) / 8 <= zlen buf -> (bits + 7) / 8 < 2 ^ 31 - 1 ->
  writes start 0 top (mbedtls_asn1_write_bitstring start buf bits)
    (der MBEDTLS_ASN1_BIT_STRING ((8 * ((bits + 7) / 8) - bits) :: take (Z.to_nat ((bits + 7) / 8)) buf)).
Proof using Hstart.
  intros Hb Hbuf Hmax. unfold mbedtls_asn1_write_bitstring.
  assert (Es : bits / 8 + (if bits mod 8 =? 0 then 0 else 1) = (bits + 7) / 8).
  { destruct (bits mod 8 =? 0) eqn:E; clear -E; Z.to_euclidean_division_equations; lia. }
  rewrite Es. cbv zeta. assert (Hu : 0 <= 8 * ((bits + 7) / 8) - bits < 8) by (clear; Z.to_euclidean_division_equations; lia).
  set (size := (bits + 7) / 8) in *. assert (Hs : 0 <= size) by (apply Z.div_pos; lia).
  rewrite u8_id by lia. replace (size * 8 - bits) with (8 * size - bits) by lia. set (u := 8 * size - bits).
  unfold der. rewrite app_comm_cons, zlen_cons, zlen_take by lia. rewrite (Z.add_comm 1).
  set (chain := fun len => add! len := mbedtls_asn1_write_len start len to len in
    add! len := mbedtls_asn1_write_tag start MBEDTLS_ASN1_BIT_STRING to len in ret (to_int len)).
  eapply (writes_ext start 0 top (do! no := lacks_size start (size + 1) in if no then ret MBEDTLS_ERR_ASN1_BUF_TOO_SMALL
      else do! _ := (do! _ := put_bytes buf size in put_byte u) in chain (size + 1))).
  { intros [p m]. unfold bind. destruct (lacks_size start (size + 1) (p, m)) as [[[] ?]| |]; cbn [obind]; [done| |done|done].
    by rewrite obind_assoc; destruct (put_bytes buf size _) as [[? ?]| |]. }
  apply (writes_guard start Hstart 0 top (size + 1) _ tt (fun _ => chain (size + 1)) (u :: take (Z.to_nat size) buf)); [by apply lacks_size_eq|done| | |].
  - rewrite zlen_cons, zlen_take; lia.
  - change (u :: take (Z.to_nat size) buf) with ([u] ++ take (Z.to_nat size) buf). eapply lays_bind; [by apply lays_put_bytes|apply lays_put].
  - apply finish_writes; [done|lia].
Qed.

(** Looking at the byte just written. *)
Lemma writes_peek l b d K : writes start l (Some b) (K (negb (Z.land b 128 =? 0))) d ->
  writes start l (Some b) (bind (do! (p, m) := gets id in do! b := lift (load m p) in ret (negb (Z.land b 128 =? 0))) K) d.
Proof using.
  intros H p m Hp Hl Ht. specialize (H p m Hp Hl Ht). specialize (Ht b eq_refl).
  assert (E : forall Z (k : bool -> M wr Z), bind (do! (p, m) := gets id in do! b := lift (load m p) in ret (negb (Z.land b 128 =? 0))) k (p, m) = k (negb (Z.land b 128 =? 0)) (p, m)).
  { intros Zq k. unfold bind, gets, lift, ret. cbn [obind id]. rewrite Ht. done. }
  by rewrite E.
Qed.

(** The contents of an integer with the byte that keeps its sign. *)
Lemma sign_writes l b d d' K : 0 <= l -> is_byte b ->
  (forall l' top, 0 <= l' -> writes start l' top (K (inr l')) (d l')) ->
  d' = (if 128 <=? b then d (l + 1) ++ [0] else d l) ->
  K (inl MBEDTLS_ERR_ASN1_BUF_TOO_SMALL) = ret MBEDTLS_ERR_ASN1_BUF_TOO_SMALL ->
  writes start l (Some b) (bind (do! (p, m) := gets id in do! b := lift (load m p) in ret (negb (Z.land b 128 =? 0)))
    (fun neg => bind (if (neg : bool) then do! no := lacks start 1 in
         if (no : bool) then ret (inl MBEDTLS_ERR_ASN1_BUF_TOO_SMALL) else run! put_byte 0 in ret (inr (l + 1)) else ret (inr l)) K)) d'.
Proof using Hstart.
  intros Hl Hb HK -> HE. apply writes_peek. rewrite (proj1 (land_128 b Hb)).
  replace (negb (b <? 128)) with (128 <=? b) by lia. destruct (128 <=? b); [|by apply HK].
  eapply (writes_ext start l _ (do! no := lacks start 1 in if no then ret MBEDTLS_ERR_ASN1_BUF_TOO_SMALL else do! _ := put_byte 0 in K (inr (l + 1)))).
  { intros [p m]. unfold bind, lacks, gets, ret. cbn [obind]. destruct (p - start <? 1); cbn [obind]; [by rewrite HE|]. by destruct (put_byte 0 (p, m)) as [[? ?]| |]. }
  apply (writes_guard start Hstart l _ 1 _ tt (fun _ => K (inr (l + 1))) [0]); [apply lacks_eq|done|done|apply lays_put|]. apply HK. lia.
Qed.

Lemma der_nat_small v : 0 <= v < 256 -> der_nat v = if 128 <=? v then [0; v] else [v].
Proof using.
  intros Hv. unfold der_nat. destruct (v =? 0) eqn:E; [apply Z.eqb_eq in E as ->; done|].
  rewrite (byte_size_is v 1) by (try lia; change (256 ^ (1 - 1)) with 1; change (256 ^ 1) with 256; lia).
  change (be_bytes (Z.to_nat 1) v) with [v mod 256]. rewrite Z.mod_small by lia. done.
Qed.

(** Two's complement for the integers whose encoding is right. *)
Definition der_int (v : Z) : bytes := if v <? 0 then [256 + v] else der_nat v.

Lemma write_int_writes v top : -128 <= v < 256 -> writes start 0 top (mbedtls_asn1_write_int start v) (der MBEDTLS_ASN1_INTEGER (der_int v)).
Proof using Hstart.
  intros Hv. unfold mbedtls_asn1_write_int, der_int.
  assert (Hd : exists d2, der MBEDTLS_ASN1_INTEGER (if v <? 0 then [256 + v] else der_nat v) = d2 ++ [u8 v] /\
     d2 = if 128 <=? v then (MBEDTLS_ASN1_INTEGER :: der_len 2) ++ [0] else MBEDTLS_ASN1_INTEGER :: der_len 1).
  { eexists. split; [|reflexivity]. destruct (v <? 0) eqn:E1.
    - rewrite (proj2 (Z.leb_gt 128 v)) by lia. unfold u8. replace (v mod 256) with (256 + v); [done|].
      apply (Z.mod_unique v 256 (-1)); lia.
    - rewrite der_nat_small, u8_id by lia. by destruct (128 <=? v). }
  destruct Hd as (d2 & -> & Hd2).
  eapply (writes_guard start Hstart); [apply lacks_eq|done|done|apply lays_put|]. cbn [head]. change (0 + 1) with 1.
  destruct (0 <? v) eqn:E.
  - eapply (sign_writes 1 (u8 v) (fun l => MBEDTLS_ASN1_INTEGER :: der_len l)); [done|apply u8_range| |by rewrite u8_id by lia|done].
    intros l' top' Hl'. by apply finish_writes.
  - rewrite (proj2 (Z.leb_gt 128 v)) in Hd2 by lia. subst d2. by apply finish_writes.
Qed.

Lemma write_oid_writes oid n top : 0 <= n <= zlen oid -> n < 2 ^ 31 ->
  writes start 0 top (mbedtls_asn1_write_oid start oid n) (der MBEDTLS_ASN1_OID (take (Z.to_nat n) oid)).
Proof using Hstart. apply write_buffer_writes. Qed.

(** The parameters, [par_len] bytes, are behind [*p] already. *)
Lemma write_alg_writes oid n par_len top : 0 <= n <= zlen oid -> n < 2 ^ 31 -> 0 < par_len ->
  writes start par_len top (mbedtls_asn1_write_algorithm_identifier start oid n par_len)
    ((MBEDTLS_ASN1_CONSTRUCTED + MBEDTLS_ASN1_SEQUENCE) :: der_len (zlen (der MBEDTLS_ASN1_OID (take (Z.to_nat n) oid)) + par_len) ++ der MBEDTLS_ASN1_OID (take (Z.to_nat n) oid)).
Proof using Hstart.
  intros Hn Hmax Hp. unfold mbedtls_asn1_write_algorithm_identifier. rewrite (proj2 (Z.eqb_neq par_len 0)) by lia.
  rewrite app_comm_cons. apply (writes_add start Hstart par_len top _ (fun len => add! len := mbedtls_asn1_write_len start len to len in
    add! len := mbedtls_asn1_write_tag start (MBEDTLS_ASN1_CONSTRUCTED + MBEDTLS_ASN1_SEQUENCE) to len in ret (to_int len))); [lia|by apply write_oid_writes|].
  intros Hl. rewrite (Z.add_comm _ par_len). apply finish_writes; [done|]. pose proof (zlen_nonneg (der MBEDTLS_ASN1_OID (take (Z.to_nat n) oid))). lia.
Qed.

Lemma write_alg_null_writes oid n top : 0 <= n <= zlen oid -> n < 2 ^ 31 ->
  writes start 0 top (mbedtls_asn1_write_algorithm_identifier start oid n 0)
    (der (MBEDTLS_ASN1_CONSTRUCTED + MBEDTLS_ASN1_SEQUENCE) (der MBEDTLS_ASN1_OID (take (Z.to_nat n) oid) ++ der MBEDTLS_ASN1_NULL [])).
Proof using Hstart.
  intros Hn Hmax. unfold mbedtls_asn1_write_algorithm_identifier. change (0 =? 0) with true. cbv iota.
  unfold der at 1. rewrite app_comm_cons, app_assoc.
  apply (writes_add start Hstart 0 top _ (fun len => add! len := mbedtls_asn1_write_oid start oid n to len in
    add! len := mbedtls_asn1_write_len start len to len in
    add! len := mbedtls_asn1_write_tag start (MBEDTLS_ASN1_CONSTRUCTED + MBEDTLS_ASN1_SEQUENCE) to len in ret (to_int len))); [lia|apply write_null_writes|].
  intros Hl. change (0 + zlen (der MBEDTLS_ASN1_NULL [])) with 2.
  apply (writes_add start Hstart 2 _ _ (fun len => add! len := mbedtls_asn1_write_len start len to len in
    add! len := mbedtls_asn1_write_tag start (MBEDTLS_ASN1_CONSTRUCTED + MBEDTLS_ASN1_SEQUENCE) to len in ret (to_int len))); [lia|by apply write_oid_writes|].
  intros Hl2. rewrite zlen_app, (Z.add_comm (zlen _)). change (zlen (der MBEDTLS_ASN1_NULL [])) with 2. apply finish_writes; [done|].
  pose proof (zlen_nonneg (der MBEDTLS_ASN1_OID (take (Z.to_nat n) oid))). lia.
Qed.

Lemma mpi_size_eq X s : mpi_ok (bn_obj s X) -> mbedtls_mpi_size X s = Done (byte_size (magnitude (bn_obj s X)), s).
Proof using. intros HX. apply wp_exact_eq. by apply wp_size. Qed.

Lemma write_mpi_writes s X top : mpi_ok (bn_obj s X) -> mpi_s (bn_obj s X) = 1 -> 0 < magnitude (bn_obj s X) ->
  writes start 0 top (mbedtls_asn1_write_mpi s start X) (der MBEDTLS_ASN1_INTEGER (der_nat (magnitude (bn_obj s X)))).
Proof using Hstart.
  intros HX Hs Hv. unfold mbedtls_asn1_write_mpi. rewrite mpi_size_eq by done. set (v := magnitude (bn_obj s X)) in *.
  destruct (byte_size_spec v ltac:(lia)) as (Hlt & H0 & Hle). specialize (Hle Hv). set (len := byte_size v) in *.
  assert (Hlen : 0 < len) by (destruct (Z.eq_dec len 0) as [E|]; [rewrite E in Hlt; change (256 ^ 0) with 1 in Hlt|]; lia).
  set (d := be_bytes (Z.to_nat len) v). assert (Ld : zlen d = len) by (unfold zlen, d; rewrite be_bytes_length; lia).
  assert (Hd : exists b d', d = b :: d' /\ is_byte b).
  { unfold d. replace (Z.to_nat len) with (S (Z.to_nat (len - 1))) by lia. rewrite be_bytes_front. eexists _, _. split; [done|].
    apply Z.mod_pos_bound. lia. }
  destruct Hd as (b & d' & Ed & Hb).
  assert (En : der_nat v = if 128 <=? b then 0 :: d else d).
  { unfold der_nat. rewrite (proj2 (Z.eqb_neq v 0)) by lia. fold len d. rewrite Ed at 1. done. }
  assert (Eder : der MBEDTLS_ASN1_INTEGER (der_nat v) =
    (if 128 <=? b then (MBEDTLS_ASN1_INTEGER :: der_len (len + 1)) ++ [0] else MBEDTLS_ASN1_INTEGER :: der_len len) ++ d).
  { rewrite En. unfold der. destruct (128 <=? b); [rewrite zlen_cons, Ld, (Z.add_comm 1 len); cbn [app]; by rewrite <- app_assoc|by rewrite Ld]. }
  rewrite Eder. match goal with |- writes _ _ _ (bind (lift (Done ?x)) ?F) _ => change (writes start 0 top (F x) ((if 128 <=? b then (MBEDTLS_ASN1_INTEGER :: der_len (len + 1)) ++ [0] else MBEDTLS_ASN1_INTEGER :: der_len len) ++ d)) end. cbv beta iota.
  eapply (writes_guard start Hstart 0 top len _ 0); [by apply lacks_size_eq|done|done| |].
  - intros p m Hp. rewrite write_binary_spec; [|done|].
    2:{ unfold zlen in *. rewrite length_drop. lia. }
    fold v len. rewrite Z.ltb_irrefl. cbn [obind]. fold d. unfold below. rewrite Ld, drop_drop.
    by replace (Z.to_nat (p - len) + Z.to_nat len)%nat with (Z.to_nat p) by lia.
  - change (negb (0 =? 0)) with false. cbv iota. rewrite Hs. change (1 =? 1) with true. cbv iota. rewrite Ed. cbn [head]. change (0 + len) with len.
    eapply (sign_writes len b (fun l => MBEDTLS_ASN1_INTEGER :: der_len l)); [lia|done| |done|done].
    intros l' top' Hl'. by apply finish_writes.
Qed.
End functions.

(** ** Properties *)

(** C28: given contents of fewer than 2^31 - 1 bytes, each function that writes DER writes, right below [*p], exactly the encoding of its value - the tag,
    the length in as few octets as possible, the contents - returns its length and leaves the rest of the
    buffer alone; or, when that does not fit above [start], returns BUF_TOO_SMALL having changed nothing
    outside the space between [start] and [*p].  Integers from -128 to 255 are written right, and the
    multi-precision integers that are positive. *)
Theorem asn1_write_der (start : Z) (buf : bytes) (n : Z) :
  0 <= start -> 0 <= n <= zlen buf -> n < 2 ^ 31 - 1 ->
  let d := take (Z.to_nat n) buf in
  writes start 0 None (mbedtls_asn1_write_null start) (der MBEDTLS_ASN1_NULL []) /\
  (forall b, writes start 0 None (mbedtls_asn1_write_bool start b) (der MBEDTLS_ASN1_BOOLEAN [if b =? 0 then 0 else 255])) /\
  (forall v, -128 <= v < 256 -> writes start 0 None (mbedtls_asn1_write_int start v) (der MBEDTLS_ASN1_INTEGER (der_int v))) /\
  writes start 0 None (mbedtls_asn1_write_oid start buf n) (der MBEDTLS_ASN1_OID d) /\
  writes start 0 None (mbedtls_asn1_write_octet_string start buf n) (der MBEDTLS_ASN1_OCTET_STRING d) /\
  writes start 0 None (mbedtls_asn1_write_printable_string start buf n) (der MBEDTLS_ASN1_PRINTABLE_STRING d) /\
  writes start 0 None (mbedtls_asn1_write_ia5_string start buf n) (der MBEDTLS_ASN1_IA5_STRING d) /\
  (forall bits, 0 <= bits -> (bits + 7) / 8 = n ->
     writes start 0 None (mbedtls_asn1_write_bitstring start buf bits) (der MBEDTLS_ASN1_BIT_STRING ((8 * n - bits) :: d))) /\
  writes start 0 None (mbedtls_asn1_write_algorithm_identifier start buf n 0)
    (der (MBEDTLS_ASN1_CONSTRUCTED + MBEDTLS_ASN1_SEQUENCE) (der MBEDTLS_ASN1_OID d ++ der MBEDTLS_ASN1_NULL [])) /\
  (forall par_len, 0 < par_len -> writes start par_len None (mbedtls_asn1_write_algorithm_identifier start buf n par_len)
    ((MBEDTLS_ASN1_CONSTRUCTED + MBEDTLS_ASN1_SEQUENCE) :: der_len (zlen (der MBEDTLS_ASN1_OID d) + par_len) ++ der MBEDTLS_ASN1_OID d)) /\
  (forall s X, mpi_ok (bn_obj s X) -> mpi_s (bn_obj s X) = 1 -> 0 < magnitude (bn_obj s X) ->
     writes start 0 None (mbedtls_asn1_write_mpi s start X) (der MBEDTLS_ASN1_INTEGER (der_nat (magnitude (bn_obj s X))))).
Proof.
  intros Hs Hn Hmax d.
  split; [by apply write_null_writes|]. split; [intros b; by apply write_bool_writes|].
  split; [intros v Hv; by apply write_int_writes|]. split; [apply write_oid_writes; lia|].
  split; [apply write_buffer_writes; lia|]. split; [apply write_buffer_writes; lia|]. split; [apply write_buffer_writes; lia|].
  split; [intros bits Hb <-; apply write_bitstring_writes; lia|]. split; [apply write_alg_null_writes; lia|].
  split; [intros par_len Hp; apply write_alg_writes; lia|]. intros s X HX HsX Hv. by apply write_mpi_writes.
Qed.

Lemma asn1_write_der_witness :
  writes 1 0 None (mbedtls_asn1_write_octet_string 1 [1; 2; 3; 4] 3) (der MBEDTLS_ASN1_OCTET_STRING [1; 2; 3]) /\
  mbedtls_asn1_write_octet_string 1 [1; 2; 3; 4] 3 (6, replicate 7 9) = Done (5, (1, [9; 4; 3; 1; 2; 3; 9])).
Proof.
  split; [|by vm_compute]. apply (asn1_write_der 1 [1; 2; 3; 4] 3); [done|split; vm_compute; congruence|done].
Defined.

(** An integer of more than eight bits loses all but the last. *)
Example write_int_truncates : mbedtls_asn1_write_int 0 256 (3, [7; 7; 7]) = Done (3, (0, [2; 1; 0])).
Proof. by vm_compute. Qed.

(** The multi-precision integer 0 is written without contents, and its sign is looked for at [*p], which
    may be the end of the buffer. *)
Definition zero_store : bn := mkBn (fun _ => mkMpi 1 []) 1 [].
Example write_mpi_zero : mbedtls_asn1_write_mpi zero_store 0 0 (2, [7; 7; 1]) = Done (2, (0, [2; 0; 1])).
Proof. by vm_compute. Qed.
Example write_mpi_zero_outside : mbedtls_asn1_write_mpi zero_store 0 0 (2, [7; 7]) = Undef.
Proof. by vm_compute. Qed.
