(* ===== verification/Asn1.v ===== *)
(** * ASN.1: what is written is read back

    The functions of [Asn1Parse] on what those of [Asn1Write] leave in the buffer. *)

From stdpp Require Import functions.
From S2P Require Import Prelude Mpi Asn1Parse Asn1Write.

(** ** Lemmas: fields *)

Lemma byte_size_le v k : 0 <= k -> 0 <= v < 256 ^ k -> byte_size v <= k.
Proof.
  intros Hk Hv. destruct (byte_size_spec v ltac:(lia)) as (H1 & H2 & H3). destruct (Z.le_gt_cases (byte_size v) k) as [|H]; [done|].
  destruct (decide (0 < v)) as [Hp|Hp]; [|replace v with 0 in * by lia; done].
  specialize (H3 Hp). pose proof (Z.pow_le_mono_r 256 k (byte_size v - 1)). lia.
Qed.

Lemma len_field_der n rest : 0 <= n < 2 ^ 32 -> len_field (der_len n ++ rest) = inr (zlen (der_len n), n).
Proof.
  intros Hn. unfold der_len. destruct (n <? 128) eqn:E; cbn [app len_field]; [by rewrite E|].
  destruct (byte_size_spec n ltac:(lia)) as (H1 & H2 & H3). pose proof (byte_size_le n 4 ltac:(lia)) as H4. change (256 ^ 4) with (2 ^ 32) in H4.
  specialize (H4 Hn). assert (0 < byte_size n) as H5.
  { destruct (Z.eq_dec (byte_size n) 0) as [E0|]; [rewrite E0 in H1; change (256 ^ 0) with 1 in H1; lia|lia]. }
  set (k := byte_size n) in *. rewrite (proj2 (Z.ltb_ge (128 + k) 128)) by lia. replace (128 + k - 128) with k by lia.
  rewrite (proj2 (Z.leb_le 1 k)), (proj2 (Z.leb_le k 4)) by lia. cbn [andb].
  assert (Lb : length (be_bytes (Z.to_nat k) n) = Z.to_nat k) by apply be_bytes_length.
  rewrite (proj2 (Z.ltb_ge _ k)) by (rewrite zlen_app; pose proof (zlen_nonneg rest); unfold zlen at 1; lia).
  rewrite <- Lb at 1. rewrite take_app_length, be_val_bytes, Z2Nat.id by lia. rewrite Z.mod_small by lia.
  rewrite zlen_cons. unfold zlen. rewrite Lb. do 2 f_equal. lia.
Qed.

(** A field as it is written. *)
Lemma der_field pre tag c post e : zlen c < 2 ^ 32 -> zlen pre + zlen (der tag c) <= e -> e <= zlen (pre ++ der tag c ++ post) ->
  field (pre ++ der tag c ++ post) e (zlen pre) tag (zlen pre + 1 + zlen (der_len (zlen c))) (zlen c).
Proof.
  intros Hc He Hm. pose proof (zlen_nonneg c). pose proof (zlen_nonneg pre). pose proof (der_len_zlen (zlen c) ltac:(lia)). unfold der in *. rewrite zlen_cons, zlen_app in He. split_and!.
  - cbn [app]. apply load_app.
  - destruct (range_split (pre ++ (tag :: der_len (zlen c) ++ c) ++ post) (zlen pre + 1) e) as (a & b & E & La & Lr); [lia|lia|].
    assert (Ea : a = pre ++ [tag]).
    { apply (f_equal (take (length (pre ++ [tag])))) in E. rewrite (take_app_length' a) in E by room.
      change ((tag :: der_len (zlen c) ++ c) ++ post) with ([tag] ++ (der_len (zlen c) ++ c) ++ post) in E. rewrite app_assoc, take_app_length in E. done. }
    subst a. assert (E2 : (der_len (zlen c) ++ c) ++ post = range (pre ++ (tag :: der_len (zlen c) ++ c) ++ post) (zlen pre + 1) e ++ b).
    { change ((tag :: der_len (zlen c) ++ c) ++ post) with ([tag] ++ (der_len (zlen c) ++ c) ++ post) in E at 1.
      rewrite app_assoc in E. by apply app_inv_head in E. }
    set (r := range _ _ _) in *. apply (f_equal (take (length (der_len (zlen c))))) in E2.
    rewrite <- app_assoc, take_app_length, take_app_le in E2 by (unfold zlen in *; lia).
    rewrite <- (take_drop (length (der_len (zlen c))) r), <- E2, len_field_der by lia. do 2 f_equal. lia.
  - lia.
  - lia.
  - lia.
Qed.

Lemma get_tag_field m e p tag q n : Forall is_byte m -> zlen m < 2 ^ 63 -> 0 <= p -> e <= zlen m -> field m e p tag q n ->
  mbedtls_asn1_get_tag m e tag p = Done ((0, Some n), q).
Proof.
  intros Hm Hs Hp He (H1 & H2 & H3 & H4 & H5). destruct (range_split m p e) as (pre & post & Em & Lp & Lr); [lia..|].
  pose proof (get_tag_at pre (range m p e) post tag (range_bytes _ _ _ Hm)) as H. rewrite <- Em, Lp, Lr in H. specialize (H Hs).
  replace (p + (e - p)) with e in H by lia. rewrite H. unfold tag_reply.
  destruct (range m p e) as [|b s] eqn:Er; [change (zlen []) with 0 in Lr; lia|].
  assert (Hb : b = tag) by (rewrite Em in H1; cbn [app] in H1; rewrite load_at in H1 by done; by injection H1). subst b.
  destruct (range_next m p e tag) as [_ Ht]; [lia|lia|by rewrite Er|]. rewrite Er in Ht. cbn [tail] in Ht. rewrite Z.eqb_refl.
  unfold len_reply. rewrite Ht, H2. rewrite zlen_cons, Ht in Lr. rewrite (proj2 (Z.ltb_ge _ n)) by lia. do 2 f_equal. lia.
Qed.

(** ** Lemmas: reading back *)

(** [w] writes [d] and [rd] reads it. *)
Definition reads_back {A : Type} (d : bytes) (w : M wr Z) (rd : bytes -> Z -> M Z A) (post : bytes -> A -> Prop) : Prop :=
  forall p m, 0 <= zlen d <= p -> p <= zlen m -> zlen m < 2 ^ 31 -> Forall is_byte m ->
  exists m', w (p, m) = Done (zlen d, (p - zlen d, m')) /\ wp exact (rd m' p) (fun a p' => p' = p /\ post m' a) (p - zlen d).

Section reading.
Context (tag : Z) (c : bytes) (Hc : Forall is_byte c) (Htag : is_byte tag).

Lemma der_bytes n : 0 <= n < 2 ^ 32 -> Forall is_byte (der_len n).
Proof using.
  intros Hn. unfold der_len. destruct (n <? 128) eqn:E; [repeat constructor; lia|]. constructor; [|apply be_bytes_ok].
  pose proof (byte_size_le n 4 ltac:(lia) ltac:(exact Hn)). destruct (byte_size_spec n) as (_ & ? & _); [lia|]. unfold is_byte. lia.
Qed.

(** After a writer of a field has written it, the field is there and the memory is one of bytes. *)
Lemma written w p m : writes 0 0 None w (der tag c) -> zlen (der tag c) <= p -> p <= zlen m -> zlen m < 2 ^ 31 -> Forall is_byte m ->
  let q := p - zlen c in let m' := below p m (der tag c) in
  w (p, m) = Done (zlen (der tag c), (p - zlen (der tag c), m')) /\
  Forall is_byte m' /\ zlen m' = zlen m /\ field m' p (p - zlen (der tag c)) tag q (zlen c) /\ range m' q p = c.
Proof using Hc Htag.
  intros Hw Hd Hp Hm Hb q m'. pose proof (zlen_nonneg (der tag c)). pose proof (zlen_nonneg c).
  assert (Hcl : zlen c < 2 ^ 31) by (unfold der in *; rewrite zlen_cons, zlen_app in *; pose proof (zlen_nonneg (der_len (zlen c))); lia).
  specialize (Hw p m ltac:(lia) ltac:(lia) ltac:(done)). rewrite (proj2 (Z.leb_le _ _)) in Hw by lia. split; [exact Hw|].
  split; [|split; [apply below_zlen; lia|]].
  { apply Forall_app. split; [by apply Forall_take|]. apply Forall_app. split; [|by apply Forall_drop].
    constructor; [done|]. apply Forall_app. split; [apply der_bytes; lia|done]. }
  assert (Lt : zlen (take (Z.to_nat (p - zlen (der tag c))) m) = p - zlen (der tag c)) by (apply zlen_take; lia).
  assert (Ld : zlen (der tag c) = 1 + zlen (der_len (zlen c)) + zlen c) by (unfold der; rewrite zlen_cons, zlen_app; lia).
  split.
  - pose proof (der_field (take (Z.to_nat (p - zlen (der tag c))) m) tag c (drop (Z.to_nat p) m) p ltac:(lia)) as Hf. rewrite Lt in Hf.
    replace (p - zlen (der tag c) + 1 + zlen (der_len (zlen c))) with q in Hf by (unfold q; lia). apply Hf; [lia|].
    change (take _ m ++ _) with (below p m (der tag c)). rewrite below_zlen; lia.
  - unfold m', below, der. replace (take _ m ++ _) with ((take (Z.to_nat (p - zlen (der tag c))) m ++ tag :: der_len (zlen c)) ++ c ++ drop (Z.to_nat p) m).
    2:{ rewrite <- app_assoc. cbn [app]. by rewrite <- app_assoc. }
    apply range_app; [|unfold q; lia]. rewrite zlen_app, Lt, zlen_cons. unfold q. lia.
Qed.

Lemma reads_field {A} w (fail : Z -> option Z -> M Z A) k post :
  writes 0 0 None w (der tag c) ->
  (forall m' p q, Forall is_byte m' -> zlen m' < 2 ^ 31 -> 0 <= q -> q + zlen c = p -> p <= zlen m' -> range m' q p = c ->
     wp exact (k m' p (zlen c)) (fun a p' => p' = p /\ post m' a) q) ->
  reads_back (der tag c) w (fun m e => with_tag m e tag fail (k m e)) post.
Proof using Hc Htag.
  intros Hw Hk p m Hd Hp Hm Hb. destruct (written w p m Hw) as (E & Hb' & Lm & Hf & Hr); [lia..|done|].
  eexists. split; [exact E|]. pose proof (zlen_nonneg c). unfold with_tag. apply wp_bind. unfold wp at 1.
  assert (Ld : zlen c <= zlen (der tag c)) by (unfold der; rewrite zlen_cons, zlen_app; pose proof (zlen_nonneg (der_len (zlen c))); lia).
  rewrite (get_tag_field _ p _ tag (p - zlen c) (zlen c)) by (done || lia). cbn [owp]. change (negb (0 =? 0)) with false. cbv iota.
  apply wp_bind, wp_lift. cbn [deref owp]. apply Hk; [done|lia|lia|lia|lia|done].
Qed.
End reading.

Lemma load_range m q e c b : range m q e = b :: c -> 0 <= q -> e <= zlen m -> load m q = Done b.
Proof.
  intros Hr Hq He. unfold range in Hr. assert (H : drop (Z.to_nat q) m !! O = Some b).
  { destruct (drop (Z.to_nat q) m) as [|x l]; [by rewrite take_nil in Hr|]. destruct (Z.to_nat (e - q)); [done|]. by injection Hr as ->. }
  rewrite lookup_drop, Nat.add_0_r in H. unfold load. rewrite (proj2 (Z.leb_le 0 q)) by lia. by rewrite H.
Qed.

Lemma bool_reads_back b : reads_back (der MBEDTLS_ASN1_BOOLEAN [if b =? 0 then 0 else 255]) (mbedtls_asn1_write_bool 0 b)
  mbedtls_asn1_get_bool (fun _ '(r, val) => r = 0 /\ val = Some (if b =? 0 then 0 else 1)).
Proof.
  apply (reads_field MBEDTLS_ASN1_BOOLEAN); [destruct (b =? 0); repeat constructor; lia|unfold is_byte; by vm_compute|by apply write_bool_writes|].
  intros m p q Hb Hm Hq Hpq Hpm Hr. change (zlen [_]) with 1 in *. change (negb (1 =? 1)) with false. cbv iota.
  apply wp_bind, wp_gets, wp_bind, wp_lift. unfold id. rewrite (load_range _ _ _ _ _ Hr) by lia. cbn [owp].
  apply wp_bind, wp_modify, wp_ret. split; [lia|]. split; [done|]. by destruct (b =? 0).
Qed.

Lemma int_reads_back v : 0 <= v < 256 -> reads_back (der MBEDTLS_ASN1_INTEGER (der_nat v)) (mbedtls_asn1_write_int 0 v)
  mbedtls_asn1_get_int (fun _ '(r, val) => r = 0 /\ val = Some v).
Proof.
  intros Hv. assert (Ev : der_int v = der_nat v) by (unfold der_int; by rewrite (proj2 (Z.ltb_ge v 0)) by lia).
  assert (Hc : Forall is_byte (der_nat v)) by (rewrite der_nat_small by done; destruct (128 <=? v); repeat constructor; lia).
  apply (reads_field MBEDTLS_ASN1_INTEGER); [done|unfold is_byte; by vm_compute|rewrite <- Ev; apply write_int_writes; lia|].
  intros m p q Hb Hm Hq Hpq Hpm Hr. rewrite der_nat_small in * by done.
  assert (Hload : forall k x, (if 128 <=? v then [0; v] else [v]) !! k = Some x -> load m (q + Z.of_nat k) = Done x).
  { intros k x Hk. rewrite <- Hr in Hk. unfold range in Hk. apply lookup_take_Some in Hk as [Hk _]. rewrite lookup_drop in Hk.
    unfold load. rewrite (proj2 (Z.leb_le 0 _)) by lia. replace (Z.to_nat (q + Z.of_nat k)) with (Z.to_nat q + k)%nat by lia. by rewrite Hk. }
  destruct (128 <=? v) eqn:E.
  - change (zlen [0; v]) with 2 in *. change ((2 =? 0) || (4 <? 2)) with false. cbv iota.
    pose proof (Hload 0%nat 0 eq_refl) as L0. pose proof (Hload 1%nat v eq_refl) as L1. change (Z.of_nat 0) with 0 in L0. change (Z.of_nat 1) with 1 in L1. rewrite Z.add_0_r in L0.
    apply wp_bind, wp_bind, wp_gets, wp_bind, wp_lift. unfold id. rewrite L0. cbn [owp]. apply wp_ret. change (negb (Z.land 0 128 =? 0)) with false. cbv iota.
    change (Z.to_nat 2) with 2%nat. cbn [mfor]. apply wp_bind. apply wp_bind, wp_bind, wp_gets, wp_bind, wp_lift. unfold id. rewrite L0. cbn [owp].
    apply wp_bind, wp_modify, wp_ret. apply wp_bind, wp_bind, wp_gets, wp_bind, wp_lift. unfold id. rewrite L1. cbn [owp].
    apply wp_bind, wp_modify, wp_ret, wp_ret, wp_ret. split; [lia|]. split; [done|]. change (Z.lor (Z.shiftl 0 8) 0) with 0. change (Z.shiftl 0 8) with 0. by rewrite Z.lor_0_l.
  - change (zlen [v]) with 1 in *. change ((1 =? 0) || (4 <? 1)) with false. cbv iota.
    pose proof (Hload 0%nat v eq_refl) as L0. change (Z.of_nat 0) with 0 in L0. rewrite Z.add_0_r in L0.
    apply wp_bind, wp_bind, wp_gets, wp_bind, wp_lift. unfold id. rewrite L0. cbn [owp]. apply wp_ret.
    rewrite (proj1 (land_128 v Hv)), (proj2 (Z.ltb_lt v 128)) by lia. cbn [negb]. change (Z.to_nat 1) with 1%nat. cbn [mfor].
    apply wp_bind, wp_bind, wp_bind, wp_gets, wp_bind, wp_lift. unfold id. rewrite L0. cbn [owp]. apply wp_bind, wp_modify, wp_ret, wp_ret, wp_ret.
    split; [lia|]. split; [done|]. change (Z.shiftl 0 8) with 0. by rewrite Z.lor_0_l.
Qed.

Lemma bitstring_reads_back buf bits bs : 0 <= bits -> (bits + 7) / 8 <= zlen buf -> (bits + 7) / 8 < 2 ^ 31 - 1 -> Forall is_byte buf ->
  reads_back (der MBEDTLS_ASN1_BIT_STRING ((8 * ((bits + 7) / 8) - bits) :: take (Z.to_nat ((bits + 7) / 8)) buf))
    (mbedtls_asn1_write_bitstring 0 buf bits) (fun m e => mbedtls_asn1_get_bitstring m e bs)
    (fun m '(r, bs) => r = 0 /\ 8 * bs_len bs - bs_unused_bits bs = bits /\ exists q, bs_p bs = Some q /\
       range m q (q + bs_len bs) = take (Z.to_nat ((bits + 7) / 8)) buf).
Proof.
  intros Hbits Hn Hmax Hbuf. assert (Hu : 0 <= 8 * ((bits + 7) / 8) - bits < 8) by (clear; Z.to_euclidean_division_equations; lia).
  assert (Hs : 0 <= (bits + 7) / 8) by (apply Z.div_pos; lia).
  apply (reads_field MBEDTLS_ASN1_BIT_STRING _); [constructor; [unfold is_byte; lia|by apply Forall_take]|unfold is_byte; by vm_compute|by apply write_bitstring_writes|].
  set (size := (bits + 7) / 8) in *. intros m p q Hb Hm Hq Hpq Hpm Hr. rewrite zlen_cons, zlen_take in * by lia.
  rewrite (proj2 (Z.ltb_ge (1 + size) 1)) by lia. apply wp_bind, wp_gets, wp_bind, wp_lift. unfold id. rewrite (load_range _ _ _ _ _ Hr) by lia. cbn [owp].
  rewrite (proj2 (Z.ltb_ge 7 _)) by lia. apply wp_bind, wp_modify, wp_bind, wp_gets, wp_bind, wp_modify, wp_bind, wp_gets, wp_ret. unfold id. split; [lia|].
  rewrite (proj2 (Z.eqb_eq _ p)) by lia. split; [done|]. cbn. split; [lia|]. exists (q + 1). split; [done|].
  destruct (range_next m q p (8 * size - bits)) as [_ Ht]; [lia|lia|by rewrite Hr|]. rewrite Hr in Ht. cbn [tail] in Ht.
  replace (q + 1 + (1 + size - 1)) with p by lia. done.
Qed.

Lemma der_nat_bytes v : 0 <= v -> Forall is_byte (der_nat v).
Proof.
  intros Hv. unfold der_nat. assert (H : Forall is_byte (if v =? 0 then [0] else be_bytes (Z.to_nat (byte_size v)) v)).
  { destruct (v =? 0); [repeat constructor; lia|apply be_bytes_ok]. }
  destruct (128 <=? _); [constructor; [unfold is_byte; lia|done]|done].
Qed.

Lemma der_nat_val v : 0 <= v -> be_val (der_nat v) = v.
Proof.
  intros Hv. unfold der_nat. assert (H : be_val (if v =? 0 then [0] else be_bytes (Z.to_nat (byte_size v)) v) = v).
  { destruct (Z.eqb_spec v 0) as [->|Hn]; [done|]. destruct (byte_size_spec v Hv) as (H1 & H2 & _).
    rewrite be_val_bytes, Z2Nat.id by lia. by apply Z.mod_small. }
  destruct (128 <=? _); [rewrite be_val_cons; lia|done].
Qed.

Lemma mpi_reads_back s X Y : mpi_ok (bn_obj s X) -> mpi_s (bn_obj s X) = 1 -> 0 < magnitude (bn_obj s X) -> mpi_ok (bn_obj s Y) ->
  forall p m, zlen (der MBEDTLS_ASN1_INTEGER (der_nat (magnitude (bn_obj s X)))) <= p -> p <= zlen m -> zlen m < 2 ^ 31 -> Forall is_byte m ->
  exists r q m', mbedtls_asn1_write_mpi s 0 X (p, m) = Done (r, (q, m')) /\ r = p - q /\
    wp exact (mbedtls_asn1_get_mpi m' q p Y) (fun '(r, p') s' => changes [Y] s s' /\ mpi_ok (bn_obj s' Y) /\
      ((r = 0 /\ p' = p /\ mpi_val (bn_obj s' Y) = mpi_val (bn_obj s X)) \/ (r = MBEDTLS_ERR_MPI_ALLOC_FAILED /\ exists n, short_of_memory n s))) s.
Proof.
  intros HX Hs Hv HY p m Hd Hp Hm Hb. pose proof (write_mpi_writes 0 (Z.le_refl 0) s X None HX Hs Hv) as Hw. set (v := magnitude (bn_obj s X)) in *.
  destruct (written MBEDTLS_ASN1_INTEGER (der_nat v) (der_nat_bytes v ltac:(lia)) ltac:(unfold is_byte; by vm_compute) _ p m Hw) as (E & Hb' & Lm & Hf & Hr); [lia..|done|].
  set (c := der_nat v) in *. set (m' := below p m (der MBEDTLS_ASN1_INTEGER c)) in *. eexists _, _, _. split; [exact E|]. split; [lia|].
  pose proof (zlen_nonneg c). assert (Ld : zlen c <= zlen (der MBEDTLS_ASN1_INTEGER c)) by (unfold der; rewrite zlen_cons, zlen_app; pose proof (zlen_nonneg (der_len (zlen c))); lia).
  unfold mbedtls_asn1_get_mpi. rewrite (get_tag_field m' p _ _ (p - zlen c) (zlen c)) by (done || lia).
  apply wp_bind, wp_lift, owp_done. change (negb (0 =? 0)) with false. cbv iota. apply wp_bind, wp_lift. cbn [deref owp]. apply wp_bind.
  eapply wp_mono; [apply read_binary_spec; [done|by apply Forall_drop|unfold zlen in *; rewrite length_drop; lia]|].
  intros r s1 (C & Hok & [(-> & Hs1 & Hv1)|(-> & Hsm)]); apply wp_ret; (split; [done|]); (split; [done|]).
  - left. split; [done|]. split; [lia|]. unfold mpi_val. rewrite Hs1, Hv1, Hs. fold v. f_equal.
    unfold range in Hr. replace (p - (p - zlen c)) with (zlen c) in Hr by lia. rewrite Hr. apply der_nat_val. lia.
  - right. split; [done|]. eauto.
Qed.

(** The contents of a field, split into fields. *)
Lemma field_within m q e tag c rest : 0 <= q -> q <= e <= zlen m -> range m q e = der tag c ++ rest -> zlen c < 2 ^ 32 ->
  field m e q tag (q + 1 + zlen (der_len (zlen c))) (zlen c) /\ range m (q + 1 + zlen (der_len (zlen c))) (q + zlen (der tag c)) = c /\
  range m (q + zlen (der tag c)) e = rest.
Proof.
  intros Hq He Hr Hc. destruct (range_split m q e) as (pre & post & Em & Lp & Lr); [lia..|]. rewrite Hr in Em, Lr.
  pose proof (zlen_nonneg rest). rewrite zlen_app in Lr. rewrite <- app_assoc in Em. pose proof (zlen_nonneg c).
  split; [|split].
  - rewrite <- Lp at 1 2. rewrite Em. apply der_field; [done|lia|rewrite <- Em; lia].
  - rewrite Em. unfold der. replace (pre ++ (tag :: der_len (zlen c) ++ c) ++ rest ++ post) with ((pre ++ tag :: der_len (zlen c)) ++ c ++ rest ++ post) by (rewrite <- !app_assoc; cbn [app]; by rewrite <- app_assoc).
    apply range_app; rewrite ?zlen_app, ?zlen_cons, ?zlen_app; lia.
  - rewrite Em, app_assoc. apply range_app; [rewrite zlen_app; lia|lia].
Qed.

Lemma with_tag_field {A} m e p tag q n fail (k : Z -> M Z A) Q : Forall is_byte m -> zlen m < 2 ^ 63 -> 0 <= p -> e <= zlen m -> field m e p tag q n ->
  wp exact (k n) Q q -> wp exact (with_tag m e tag fail k) Q p.
Proof.
  intros Hm Hs Hp He Hf HQ. unfold with_tag. apply wp_bind. unfold wp at 1. rewrite (get_tag_field m e p tag q n) by done. cbn [owp].
  change (negb (0 =? 0)) with false. cbv iota. by apply wp_bind, wp_lift.
Qed.

Lemma get_len_field m e p tag q n : Forall is_byte m -> zlen m < 2 ^ 63 -> 0 <= p -> e <= zlen m -> field m e p tag q n ->
  mbedtls_asn1_get_len m e (p + 1) = Done ((0, Some n), q).
Proof.
  intros Hm Hs Hp He Hf. pose proof (get_tag_field m e p tag q n Hm Hs Hp He Hf) as H. destruct Hf as (Hl & _ & ? & ? & ?).
  unfold mbedtls_asn1_get_tag, bind, gets, lift, modify in H. cbn [obind id] in H. rewrite (proj2 (Z.ltb_ge _ _)) in H by lia.
  rewrite Hl in H. cbn [obind] in H. rewrite Z.eqb_refl in H. exact H.
Qed.

Definition ALG_TAG : Z := MBEDTLS_ASN1_CONSTRUCTED + MBEDTLS_ASN1_SEQUENCE.

Lemma alg_reads_back oid alg : Forall is_byte oid -> 0 < zlen oid < 2 ^ 30 ->
  reads_back (der ALG_TAG (der MBEDTLS_ASN1_OID oid ++ der MBEDTLS_ASN1_NULL [])) (mbedtls_asn1_write_algorithm_identifier 0 oid (zlen oid) 0)
    (fun m e => mbedtls_asn1_get_alg_null m e alg)
    (fun m '(r, alg) => r = 0 /\ buf_tag alg = MBEDTLS_ASN1_OID /\ exists q, buf_p alg = Some q /\ range m q (q + buf_len alg) = oid).
Proof.
  intros Ho Hn p m Hd Hp Hm Hb. set (c := der MBEDTLS_ASN1_OID oid ++ der MBEDTLS_ASN1_NULL []) in *.
  assert (Hw : writes 0 0 None (mbedtls_asn1_write_algorithm_identifier 0 oid (zlen oid) 0) (der ALG_TAG c)).
  { pose proof (write_alg_null_writes 0 (Z.le_refl 0) oid (zlen oid) None ltac:(lia) ltac:(lia)) as H. rewrite zlen_to_nat, firstn_all in H. exact H. }
  pose proof (der_len_zlen (zlen oid) ltac:(lia)) as Hdl.
  assert (Lo : zlen (der MBEDTLS_ASN1_OID oid) = 1 + zlen (der_len (zlen oid)) + zlen oid) by (unfold der; rewrite zlen_cons, zlen_app; lia).
  assert (Lc : zlen c = zlen (der MBEDTLS_ASN1_OID oid) + 2) by (unfold c; rewrite zlen_app; done).
  assert (Hc : Forall is_byte c).
  { unfold c, der. apply Forall_app. split; [|repeat constructor; by vm_compute]. constructor; [unfold is_byte; by vm_compute|].
    apply Forall_app. split; [apply der_bytes; lia|done]. }
  destruct (written ALG_TAG c Hc ltac:(unfold is_byte; by vm_compute) _ p m Hw) as (E & Hb' & Lm & Hf & Hr); [lia..|done|].
  set (m' := below p m (der ALG_TAG c)) in *. eexists. split; [exact E|].
  assert (Ld : zlen c <= zlen (der ALG_TAG c)) by (change (der ALG_TAG c) with (ALG_TAG :: der_len (zlen c) ++ c); rewrite zlen_cons, zlen_app; pose proof (zlen_nonneg (der_len (zlen c))); lia).
  destruct (field_within m' (p - zlen c) p MBEDTLS_ASN1_OID oid (der MBEDTLS_ASN1_NULL [])) as (F1 & R1 & R2); [lia|lia|done|lia|].
  set (q := p - zlen c + 1 + zlen (der_len (zlen oid))) in *. set (q2 := p - zlen c + zlen (der MBEDTLS_ASN1_OID oid)) in *.
  destruct (field_within m' q2 p MBEDTLS_ASN1_NULL [] []) as (F2 & _ & _); [lia|lia|done|done|].
  change (zlen []) with 0 in F2. change (zlen (der_len 0)) with 1 in F2.
  unfold mbedtls_asn1_get_alg_null. apply wp_bind. unfold mbedtls_asn1_get_alg.
  eapply with_tag_field; [done|lia|lia|lia|exact Hf|]. apply wp_bind, wp_gets. unfold id at 1. rewrite (proj2 (Z.ltb_ge _ 1)) by lia.
  pose proof F1 as (L1 & _). apply wp_bind, wp_lift. unfold id. rewrite L1. cbn [owp]. replace (p - zlen c + zlen c) with p by lia.
  eapply with_tag_field; [done|lia|lia|lia|exact F1|]. apply wp_bind, wp_gets, wp_bind, wp_modify, wp_bind, wp_gets.
  unfold id. rewrite (proj2 (Z.eqb_neq _ p)) by lia. replace (q + zlen oid) with q2 by lia.
  pose proof F2 as (L2 & _). apply wp_bind, wp_lift. rewrite L2. cbn [owp]. apply wp_bind, wp_modify, wp_bind.
  unfold wp at 1. rewrite (get_len_field m' p q2 MBEDTLS_ASN1_NULL (q2 + 1 + 1) 0) by (done || lia). cbn [owp].
  change (negb (0 =? 0)) with false. cbv iota. apply wp_bind, wp_lift. cbn [deref owp].
  apply wp_bind, wp_gets, wp_bind, wp_modify, wp_bind, wp_gets, wp_ret. rewrite (proj2 (Z.eqb_eq (q2 + 1 + 1 + 0) p)) by lia. cbn.
  apply wp_ret. split; [lia|]. split; [done|]. split; [done|]. exists q. split; [done|]. cbn [buf_len]. replace (q + zlen oid) with q2 by lia. exact R1.
Qed.

(** ** Named data *)

Definition named_ok (d : mbedtls_asn1_named_data) : Prop :=
  (exists o, oid_p d = Some o /\ zlen o = oid_len d) /\ (exists v, val_p d = Some v /\ zlen v = val_len d).

Definition has_oid (o : bytes) (d : mbedtls_asn1_named_data) : Prop := oid_p d = Some o.
#[global] Instance has_oid_dec o d : Decision (has_oid o d).
Proof. unfold has_oid. apply _. Defined.

Lemma load_list_front (m : bytes) n : 0 <= n <= zlen m -> load_list m 0 n = Done (take (Z.to_nat n) m).
Proof.
  intros Hn. unfold load_list. change (0 <=? 0) with true. rewrite (proj2 (Z.leb_le 0 n)), (proj2 (Z.leb_le (0 + n) _)) by lia.
  by rewrite drop_0.
Qed.

(** The first item with the identifier. *)
Lemma find_named_data_spec l oid n : Forall named_ok l -> 0 <= n <= zlen oid ->
  mbedtls_asn1_find_named_data l oid n = Done (fst <$> list_find (has_oid (take (Z.to_nat n) oid)) l).
Proof.
  intros Hl Hn. induction Hl as [|d l [(o & Eo & Lo) _] Hl IH]; [done|]. cbn [mbedtls_asn1_find_named_data list_find].
  rewrite Eo. cbn [deref obind]. rewrite (load_list_front oid n) by done.
  assert (Hs : (if oid_len d =? n then let! a := load_list o 0 n in let! b := Done (take (Z.to_nat n) oid) in Done (bool_decide (a = b)) else Done false)
             = Done (bool_decide (has_oid (take (Z.to_nat n) oid) d))).
  { destruct (Z.eqb_spec (oid_len d) n) as [E|E].
    - rewrite load_list_front by lia. cbn [obind].
      assert (Et : take (Z.to_nat n) o = o) by (rewrite <- E, <- Lo, zlen_to_nat; apply firstn_all). rewrite Et. f_equal.
      apply bool_decide_ext. unfold has_oid. rewrite Eo. split; [by intros ->|by intros [= ->]].
    - f_equal. symmetry. apply bool_decide_eq_false. unfold has_oid. rewrite Eo. intros [= ->]. apply E. rewrite <- Lo. by apply zlen_take. }
  cbn [obind] in *. rewrite Hs. cbn [obind]. destruct (decide (has_oid (take (Z.to_nat n) oid) d)) as [H|H].
  - by rewrite bool_decide_eq_true_2.
  - rewrite bool_decide_eq_false_2 by done. rewrite IH. cbn [obind]. do 2 f_equal.
    destruct (list_find _ l) as [[i x]|]; done.
Qed.

Lemma store_named_data_spec l oid n v k allocs :
  Forall named_ok l -> 0 <= n <= zlen oid -> 0 <= k <= zlen v ->
  let o := take (Z.to_nat n) oid in let x := take (Z.to_nat k) v in
  exists r l', mbedtls_asn1_store_named_data l oid n (Some v) k allocs = Done (r, l') /\ Forall named_ok l' /\
  ((r = None /\ l' = l /\ allocs <> []) \/
   (r = Some 0%nat /\ list_find (has_oid o) l = None /\ l' = mkNamed 0 n (Some o) 0 k (Some x) 0 :: l) \/
   (exists i d d', r = Some i /\ list_find (has_oid o) l = Some (i, d) /\ l' = <[i := d']> l /\
      oid_p d' = Some o /\ val_p d' = Some (x ++ drop (length x) (default [] (val_p d))))).
Proof.
  intros Hl Hn Hk o x. assert (Lo : zlen o = n) by (by apply zlen_take). assert (Lx : zlen x = k) by (by apply zlen_take).
  assert (Hfresh : forall (y : bytes) j, zlen y = j -> store (replicate (Z.to_nat j) 0) 0 y = Done y).
  { intros y j <-. rewrite store_zero by (rewrite zlen_replicate; pose proof (zlen_nonneg y); lia). rewrite zlen_to_nat, drop_ge, app_nil_r; [done|]. by rewrite length_replicate. }
  unfold mbedtls_asn1_store_named_data. rewrite find_named_data_spec by done. cbn [obind]. fold o.
  destruct (list_find (has_oid o) l) as [[i d]|] eqn:E; cbn [fmap option_fmap option_map fst].
  - pose proof E as (Hi & Hd & _)%list_find_Some. rewrite Hi. cbn [deref obind].
    pose proof (Forall_lookup_1 _ _ _ _ Hl Hi) as [Ho (w & Ew & Lw)].
    assert (Hput : forall d1 w1, oid_p d1 = oid_p d -> oid_len d1 = oid_len d -> val_p d1 = Some w1 -> zlen w1 = val_len d1 -> k <= zlen w1 ->
      exists d', copy_val i (Some v) k (<[i := d1]> l) = Done (Some i, <[i := d']> l) /\ Forall named_ok (<[i := d']> l) /\ oid_p d' = Some o /\ val_p d' = Some (x ++ drop (length x) w1)).
    { intros d1 w1 E1 E2 E3 E4 Hw. pose proof (lookup_lt_Some _ _ _ Hi) as Hlt. unfold copy_val. rewrite list_lookup_insert_eq by done. cbn [deref obind]. rewrite E3. cbn [deref obind].
      rewrite load_list_front by lia. cbn [obind]. fold x. rewrite store_zero by lia. cbn [obind]. rewrite list_insert_insert_eq.
      eexists. split; [done|]. split; [|split; [cbn; by rewrite E1|done]].
      apply Forall_insert; [done|]. split; cbn; [rewrite E1, E2; exact Ho|]. eexists. split; [done|]. rewrite <- E4. unfold zlen in *. rewrite length_app, length_drop. lia. }
    destruct (val_len d <? k) eqn:Ek.
    + destruct (default true (head allocs)) eqn:Ea; cbn [negb].
      * destruct (Hput (mkNamed (oid_tag d) (oid_len d) (oid_p d) (val_tag d) k (Some (replicate (Z.to_nat k) 0)) (next_merged d)) (replicate (Z.to_nat k) 0)) as (d' & Ec & Hok & Hh & Hv);
          [done|done|done|cbn; rewrite zlen_replicate; lia|rewrite zlen_replicate; lia|].
        rewrite Ec. eexists _, _. split; [done|]. split; [done|]. right. right. exists i, d, d'. split_and!; [done|done|done|done|].
        rewrite Hv, Ew. do 2 f_equal. cbn. rewrite !drop_ge; [done|unfold zlen in *; lia|rewrite length_replicate; unfold zlen in *; lia].
      * eexists _, _. split; [done|]. split; [done|]. left. split; [done|]. split; [done|]. by intros ->.
    + destruct (Hput d w) as (d' & Ec & Hok & Hh & Hv); [done|done|done|done|lia|]. rewrite list_insert_id in Ec by done.
      rewrite Ec. eexists _, _. split; [done|]. split; [done|]. right. right. exists i, d, d'. split_and!; [done|done|done|done|].
      by rewrite Hv, Ew.
  - destruct (default true (allocs !! 0%nat)) eqn:E0; cbn [negb].
    2:{ eexists _, _. split; [done|]. split; [done|]. left. split_and!; [done|done|]. by intros ->. }
    destruct (default true (allocs !! 1%nat)) eqn:E1; cbn [negb].
    2:{ eexists _, _. split; [done|]. split; [done|]. left. split_and!; [done|done|]. by intros ->. }
    rewrite load_list_front by done. cbn [obind]. fold o. rewrite Hfresh by done. cbn [obind].
    destruct (default true (allocs !! 2%nat)) eqn:E2; cbn [negb].
    2:{ eexists _, _. split; [done|]. split; [done|]. left. split_and!; [done|done|]. by intros ->. }
    unfold copy_val. cbn [lookup list_lookup deref obind val_p]. rewrite load_list_front by done. cbn [obind]. fold x. rewrite Hfresh by done. cbn [obind].
    eexists _, _. split; [done|]. split; [|right; left; done]. constructor; [|done]. split; cbn; eauto.
Qed.

(** A shorter value leaves the end of the old one and its length. *)
Example store_keeps_old_end :
  mbedtls_asn1_store_named_data [mkNamed 0 1 (Some [42]) 0 3 (Some [1; 2; 3]) 0] [42] 1 (Some [9]) 1 [] =
  Done (Some 0%nat, [mkNamed 0 1 (Some [42]) 0 3 (Some [9; 2; 3]) 0]).
Proof. by vm_compute. Qed.

(** ** Properties *)

(** A negative integer is written in a form that is refused when it is read. *)
Example negative_int_refused :
  mbedtls_asn1_write_int 0 (-1) (3, [7; 7; 7]) = Done (3, (0, [2; 1; 255])) /\
  (let! (r, _) := mbedtls_asn1_get_int [2; 1; 255] 3 0 in Done r) = Done (MBEDTLS_ERR_ASN1_INVALID_LENGTH, None).
Proof. by split; vm_compute. Qed.

(** C29: what the functions of asn1write.c write at the end of a buffer those of asn1parse.c read back, up
    to where the writing began: a boolean; an integer from 0 to 255 (a negative one is refused when it is
    read, [negative_int_refused]; a larger one is not written in full, [Asn1Write.write_int_truncates]); a
    bit string of fewer than 2^31 - 1 bytes with its number of bits; an algorithm identifier without
    parameters whose identifier has from 1 to 2^30 - 1 bytes; and a multi-precision integer above 0, in a
    buffer of fewer than 2^31 bytes with room for it - unless memory is short. *)
Theorem asn1_roundtrip (b v bits : Z) (buf oid : bytes) (bs : mbedtls_asn1_bitstring) (alg : mbedtls_asn1_buf) (s : bn) (X Y : nat) :
  0 <= v < 256 -> 0 <= bits -> (bits + 7) / 8 <= zlen buf -> (bits + 7) / 8 < 2 ^ 31 - 1 -> Forall is_byte buf ->
  Forall is_byte oid -> 0 < zlen oid < 2 ^ 30 ->
  mpi_ok (bn_obj s X) -> mpi_s (bn_obj s X) = 1 -> 0 < magnitude (bn_obj s X) -> mpi_ok (bn_obj s Y) ->
  reads_back (der MBEDTLS_ASN1_BOOLEAN [if b =? 0 then 0 else 255]) (mbedtls_asn1_write_bool 0 b)
    mbedtls_asn1_get_bool (fun _ '(r, val) => r = 0 /\ val = Some (if b =? 0 then 0 else 1)) /\
  reads_back (der MBEDTLS_ASN1_INTEGER (der_nat v)) (mbedtls_asn1_write_int 0 v)
    mbedtls_asn1_get_int (fun _ '(r, val) => r = 0 /\ val = Some v) /\
  reads_back (der MBEDTLS_ASN1_BIT_STRING ((8 * ((bits + 7) / 8) - bits) :: take (Z.to_nat ((bits + 7) / 8)) buf))
    (mbedtls_asn1_write_bitstring 0 buf bits) (fun m e => mbedtls_asn1_get_bitstring m e bs)
    (fun m '(r, bs) => r = 0 /\ 8 * bs_len bs - bs_unused_bits bs = bits /\ exists q, bs_p bs = Some q /\
       range m q (q + bs_len bs) = take (Z.to_nat ((bits + 7) / 8)) buf) /\
  reads_back (der ALG_TAG (der MBEDTLS_ASN1_OID oid ++ der MBEDTLS_ASN1_NULL [])) (mbedtls_asn1_write_algorithm_identifier 0 oid (zlen oid) 0)
    (fun m e => mbedtls_asn1_get_alg_null m e alg)
    (fun m '(r, alg) => r = 0 /\ buf_tag alg = MBEDTLS_ASN1_OID /\ exists q, buf_p alg = Some q /\ range m q (q + buf_len alg) = oid) /\
  (forall p m, zlen (der MBEDTLS_ASN1_INTEGER (der_nat (magnitude (bn_obj s X)))) <= p -> p <= zlen m -> zlen m < 2 ^ 31 -> Forall is_byte m ->
    exists r q m', mbedtls_asn1_write_mpi s 0 X (p, m) = Done (r, (q, m')) /\ r = p - q /\
      wp exact (mbedtls_asn1_get_mpi m' q p Y) (fun '(r, p') s' => changes [Y] s s' /\ mpi_ok (bn_obj s' Y) /\
        ((r = 0 /\ p' = p /\ mpi_val (bn_obj s' Y) = mpi_val (bn_obj s X)) \/ (r = MBEDTLS_ERR_MPI_ALLOC_FAILED /\ exists n, short_of_memory n s))) s).
Proof.
  intros Hv Hbits Hbuf Hmax Hb Ho Hn HX Hs Hpos HY. split; [apply bool_reads_back|]. split; [by apply int_reads_back|].
  split; [by apply bitstring_reads_back|]. split; [by apply alg_reads_back|]. intros p m. by apply mpi_reads_back.
Qed.

Definition one_store : bn := mkBn (<[0%nat := mkMpi 1 [200]]> (fun _ => mkMpi 1 [])) 2 [].

Lemma one_store_ok X : mpi_ok (bn_obj one_store X).
Proof. destruct X as [|X]; (split; [by left|]; split; [repeat constructor; vm_compute; congruence|by vm_compute]). Qed.

Lemma asn1_roundtrip_witness :
  reads_back (der MBEDTLS_ASN1_INTEGER (der_nat 200)) (mbedtls_asn1_write_int 0 200)
    mbedtls_asn1_get_int (fun _ '(r, val) => r = 0 /\ val = Some 200) /\
  mbedtls_asn1_write_int 0 200 (5, replicate 5 0) = Done (4, (1, [0; 2; 2; 0; 200])).
Proof.
  split; [|by vm_compute].
  refine (proj1 (proj2 (asn1_roundtrip 1 200 9 [170; 128] [42] (mkBitstring 0 0 None) (mkBuf 0 0 None) one_store 0 1 _ _ _ _ _ _ _ _ _ _ _))).
  - lia.
  - lia.
  - by vm_compute.
  - by vm_compute.
  - repeat constructor; lia.
  - repeat constructor; lia.
  - by vm_compute.
  - apply one_store_ok.
  - done.
  - by vm_compute.
  - apply one_store_ok.
Defined.

(** A list of named data is a finite map in the order of its items: [mbedtls_asn1_store_named_data]
    replaces the front of the value of the first item with the identifier, in place, enlarging it when it
    is too short, or puts a new item in front when there is none; when memory is short it returns NULL and the
    list is as before.  All other items stay as they are, and what is stored is found again. *)
Theorem named_data_stored (l : list mbedtls_asn1_named_data) (oid v : bytes) (n k : Z) (allocs : list bool) :
  Forall named_ok l -> 0 <= n <= zlen oid -> 0 <= k <= zlen v ->
  let o := take (Z.to_nat n) oid in let x := take (Z.to_nat k) v in
  mbedtls_asn1_find_named_data l oid n = Done (fst <$> list_find (has_oid o) l) /\
  exists r l', mbedtls_asn1_store_named_data l oid n (Some v) k allocs = Done (r, l') /\ Forall named_ok l' /\
  ((r = None /\ l' = l /\ allocs <> []) \/
   (r = Some 0%nat /\ list_find (has_oid o) l = None /\ l' = mkNamed 0 n (Some o) 0 k (Some x) 0 :: l) \/
   (exists i d d', r = Some i /\ list_find (has_oid o) l = Some (i, d) /\ l' = <[i := d']> l /\
      oid_p d' = Some o /\ val_p d' = Some (x ++ drop (length x) (default [] (val_p d))))).
Proof. intros Hl Hn Hk. split; [by apply find_named_data_spec|by apply store_named_data_spec]. Qed.

Lemma named_data_stored_witness :
  let l := [mkNamed 0 1 (Some [42]) 0 3 (Some [1; 2; 3]) 0] in
  Forall named_ok l /\ mbedtls_asn1_find_named_data l [42; 7] 1 = Done (Some 0%nat).
Proof.
  intros l. assert (H : Forall named_ok l) by (repeat constructor; eexists; done).
  split; [exact H|]. apply (named_data_stored l [42; 7] [9] 1 1 []); [exact H|split; vm_compute; congruence|split; vm_compute; congruence].
Defined.
