(* ===== verification/Sha256.v ===== *)
(** * SHA-256

    external_libs/mbedTLS/library/sha256.c: the compression function as it is unrolled there, and the hash of
    a message that comes in pieces, against the standard (FIPS 180-4). *)

From S2P Require Import Prelude Mpi.

(** ** Functions *)

(** [state] has 8 words, [buffer] 64 bytes. *)
Record mbedtls_sha256_context := mkSha256 { total0 : Z; total1 : Z; state : list Z; buffer : bytes; is224 : Z }.

Definition GET_UINT32_BE (b : bytes) (i : Z) : outcome Z :=
  let! b0 := load b i in
  let! b1 := load b (i + 1) in
  let! b2 := load b (i + 2) in
  let! b3 := load b (i + 3) in
  Done (Z.lor (Z.lor (Z.lor (Z.shiftl b0 24) (Z.shiftl b1 16)) (Z.shiftl b2 8)) b3).

Definition PUT_UINT32_BE (n : Z) (b : bytes) (i : Z) : outcome bytes :=
  store b i [u8 (Z.shiftr n 24); u8 (Z.shiftr n 16); u8 (Z.shiftr n 8); u8 n].

Definition mbedtls_sha256_init (ctx : mbedtls_sha256_context) : mbedtls_sha256_context :=
  mkSha256 0 0 (replicate 8 0) (replicate 64 0) 0.

Definition mbedtls_sha256_free (ctx : option mbedtls_sha256_context) : option mbedtls_sha256_context :=
  match ctx with None => None | Some _ => Some (mkSha256 0 0 (replicate 8 0) (replicate 64 0) 0) end.

Definition mbedtls_sha256_clone (dst src : mbedtls_sha256_context) : mbedtls_sha256_context := src.

Definition mbedtls_sha256_starts (ctx : mbedtls_sha256_context) (is224 : Z) : mbedtls_sha256_context :=
  mkSha256 0 0
    (if is224 =? 0 then
       [0x6A09E667; 0xBB67AE85; 0x3C6EF372; 0xA54FF53A; 0x510E527F; 0x9B05688C; 0x1F83D9AB; 0x5BE0CD19]
     else
       [0xC1059ED8; 0x367CD507; 0x3070DD17; 0xF70E5939; 0xFFC00B31; 0x68581511; 0x64F98FA7; 0xBEFA4FA4])
    (buffer ctx) is224.

(** Code and standard share the constants; [K_cube_roots] checks them against the definition of the standard. *)
Definition K : list Z :=
  [0x428A2F98; 0x71374491; 0xB5C0FBCF; 0xE9B5DBA5;
   0x3956C25B; 0x59F111F1; 0x923F82A4; 0xAB1C5ED5;
   0xD807AA98; 0x12835B01; 0x243185BE; 0x550C7DC3;
   0x72BE5D74; 0x80DEB1FE; 0x9BDC06A7; 0xC19BF174;
   0xE49B69C1; 0xEFBE4786; 0x0FC19DC6; 0x240CA1CC;
   0x2DE92C6F; 0x4A7484AA; 0x5CB0A9DC; 0x76F988DA;
   0x983E5152; 0xA831C66D; 0xB00327C8; 0xBF597FC7;
   0xC6E00BF3; 0xD5A79147; 0x06CA6351; 0x14292967;
   0x27B70A85; 0x2E1B2138; 0x4D2C6DFC; 0x53380D13;
   0x650A7354; 0x766A0ABB; 0x81C2C92E; 0x92722C85;
   0xA2BFE8A1; 0xA81A664B; 0xC24B8B70; 0xC76C51A3;
   0xD192E819; 0xD6990624; 0xF40E3585; 0x106AA070;
   0x19A4C116; 0x1E376C08; 0x2748774C; 0x34B0BCB5;
   0x391C0CB3; 0x4ED8AA4A; 0x5B9CCA4F; 0x682E6FF3;
   0x748F82EE; 0x78A5636F; 0x84C87814; 0x8CC70208;
   0x90BEFFFA; 0xA4506CEB; 0xBEF9A3F7; 0xC67178F2].

Definition SHR (x n : Z) : Z := Z.shiftr (Z.land x 0xFFFFFFFF) n.
Definition ROTR (x n : Z) : Z := Z.lor (SHR x n) (u32 (Z.shiftl x (32 - n))).

Definition S0 (x : Z) : Z := Z.lxor (Z.lxor (ROTR x 7) (ROTR x 18)) (SHR x 3).
Definition S1 (x : Z) : Z := Z.lxor (Z.lxor (ROTR x 17) (ROTR x 19)) (SHR x 10).
Definition S2 (x : Z) : Z := Z.lxor (Z.lxor (ROTR x 2) (ROTR x 13)) (ROTR x 22).
Definition S3 (x : Z) : Z := Z.lxor (Z.lxor (ROTR x 6) (ROTR x 11)) (ROTR x 25).

Definition F0 (x y z : Z) : Z := Z.lor (Z.land x y) (Z.land z (Z.lor x y)).
Definition F1 (x y z : Z) : Z := Z.lxor z (Z.land x (Z.lxor y z)).

(** [W[64]] is not initialised: a word is [None] until it is set. *)
Abbreviation words := (list (option Z)).
Definition word_at (W : words) (t : nat) : outcome Z := let! w := deref (W !! t) in deref w.
Definition set_word (W : words) (t : nat) (x : Z) : outcome words :=
  if (t <? length W)%nat then Done (<[t := Some x]> W) else Undef.

(** The value of [R(t)], which also sets [W[t]]. *)
Definition R (t : nat) (W : words) : outcome (Z * words) :=
  let! w2 := word_at W (t - 2) in
  let! w7 := word_at W (t - 7) in
  let! w15 := word_at W (t - 15) in
  let! w16 := word_at W (t - 16) in
  let x := u32 (S1 w2 + w7 + S0 w15 + w16) in
  let! W := set_word W t x in
  Done (x, W).

(** The value of [W[t]]. *)
Definition W_at (t : nat) (W : words) : outcome (Z * words) := let! x := word_at W t in Done (x, W).

(** [P(A[a], ..., A[h], x, K[t])] *)
Definition P (a b c d e f g h : nat) (x : words -> outcome (Z * words)) (t : nat) (st : words * list Z) : outcome (words * list Z) :=
  let '(W, A) := st in
  let! va := deref (A !! a) in
  let! vb := deref (A !! b) in
  let! vc := deref (A !! c) in
  let! vd := deref (A !! d) in
  let! ve := deref (A !! e) in
  let! vf := deref (A !! f) in
  let! vg := deref (A !! g) in
  let! vh := deref (A !! h) in
  let! k := deref (K !! t) in
  let! (x, W) := x W in
  let temp1 := u32 (vh + S3 ve + F1 ve vf vg + k + x) in
  let temp2 := u32 (S2 va + F0 va vb vc) in
  Done (W, <[h := u32 (temp1 + temp2)]> (<[d := u32 (vd + temp1)]> A)).

(** The body of the two loops; [x] gives the word. *)
Definition rounds (x : nat -> words -> outcome (Z * words)) (i : nat) (st : words * list Z) : outcome (words * list Z) :=
  let! st := P 0 1 2 3 4 5 6 7 (x (i + 0)%nat) (i + 0) st in
  let! st := P 7 0 1 2 3 4 5 6 (x (i + 1)%nat) (i + 1) st in
  let! st := P 6 7 0 1 2 3 4 5 (x (i + 2)%nat) (i + 2) st in
  let! st := P 5 6 7 0 1 2 3 4 (x (i + 3)%nat) (i + 3) st in
  let! st := P 4 5 6 7 0 1 2 3 (x (i + 4)%nat) (i + 4) st in
  let! st := P 3 4 5 6 7 0 1 2 (x (i + 5)%nat) (i + 5) st in
  let! st := P 2 3 4 5 6 7 0 1 (x (i + 6)%nat) (i + 6) st in
  P 1 2 3 4 5 6 7 0 (x (i + 7)%nat) (i + 7) st.

(** [for( i = i0; ...; i += 8 )], [n] times. *)
Fixpoint by_eight {A : Type} (n i : nat) (body : nat -> A -> outcome A) (a : A) : outcome A :=
  match n with
  | O => Done a
  | Datatypes.S n => let! a := body i a in by_eight n (i + 8) body a
  end.

Definition mbedtls_sha256_process (ctx : mbedtls_sha256_context) (data : bytes) : outcome mbedtls_sha256_context :=
  let! A := load_list (state ctx) 0 8 in
  let! W := ofor 16 0 (fun i W => let! x := GET_UINT32_BE data (4 * i) in set_word W (Z.to_nat i) x) (replicate 64 None) in
  let! st := by_eight 2 0 (rounds W_at) (W, A) in
  let! (_, A) := by_eight 6 16 (rounds R) st in
  let! s := ofor 8 0 (fun i s =>
    let! x := aload s i in
    let! a := aload A i in
    astore s i (u32 (x + a))) (state ctx) in
  Done (mkSha256 (total0 ctx) (total1 ctx) s (buffer ctx) (is224 ctx)).

Definition set_buffer (b : bytes) (ctx : mbedtls_sha256_context) : mbedtls_sha256_context :=
  mkSha256 (total0 ctx) (total1 ctx) (state ctx) b (is224 ctx).

(** [while( ilen >= 64 )]; the input is the list from [input] on. *)
Fixpoint process_blocks (fuel : nat) (ctx : mbedtls_sha256_context) (input : bytes) (ilen : Z) : outcome (mbedtls_sha256_context * bytes * Z) :=
  match fuel with
  | O => NoFuel
  | Datatypes.S fuel =>
      if 64 <=? ilen then
        let! ctx := mbedtls_sha256_process ctx input in
        process_blocks fuel ctx (drop 64 input) (ilen - 64)
      else Done (ctx, input, ilen)
  end.

Definition mbedtls_sha256_update (ctx : mbedtls_sha256_context) (input : bytes) (ilen : Z) : outcome mbedtls_sha256_context :=
  if ilen =? 0 then Done ctx
  else
    let left := Z.land (total0 ctx) 0x3F in
    let fill := 64 - left in
    let t0 := Z.land (u32 (total0 ctx + u32 ilen)) 0xFFFFFFFF in
    let t1 := if t0 <? u32 ilen then u32 (total1 ctx + 1) else total1 ctx in
    let ctx := mkSha256 t0 t1 (state ctx) (buffer ctx) (is224 ctx) in
    let! (ctx, input, ilen, left) := (
      if negb (left =? 0) && (fill <=? ilen) then
        let! d := load_list input 0 fill in
        let! b := store (buffer ctx) left d in
        let! ctx := mbedtls_sha256_process (set_buffer b ctx) b in
        Done (ctx, drop (Z.to_nat fill) input, ilen - fill, 0)
      else Done (ctx, input, ilen, left)) in
    let! (ctx, input, ilen) := process_blocks (Z.to_nat (ilen / 64) + 1) ctx input ilen in
    if 0 <? ilen then
      let! d := load_list input 0 ilen in
      let! b := store (buffer ctx) left d in
      Done (set_buffer b ctx)
    else Done ctx.

Definition sha256_padding : bytes := 0x80 :: replicate 63 0.

Definition mbedtls_sha256_finish (ctx : mbedtls_sha256_context) (output : bytes) : outcome (mbedtls_sha256_context * bytes) :=
  let high := Z.lor (Z.shiftr (total0 ctx) 29) (u32 (Z.shiftl (total1 ctx) 3)) in
  let low := u32 (Z.shiftl (total0 ctx) 3) in
  let! msglen := PUT_UINT32_BE high (replicate 8 0) 0 in
  let! msglen := PUT_UINT32_BE low msglen 4 in
  let last := Z.land (total0 ctx) 0x3F in
  let padn := if last <? 56 then 56 - last else 120 - last in
  let! ctx := mbedtls_sha256_update ctx sha256_padding padn in
  let! ctx := mbedtls_sha256_update ctx msglen 8 in
  let! output := ofor 7 0 (fun i output => let! s := aload (state ctx) i in PUT_UINT32_BE s output (4 * i)) output in
  if is224 ctx =? 0 then
    let! s := aload (state ctx) 7 in
    let! output := PUT_UINT32_BE s output 28 in
    Done (ctx, output)
  else Done (ctx, output).

(** [ctx] holds anything when the function starts. *)
Definition mbedtls_sha256 (ctx : mbedtls_sha256_context) (input : bytes) (ilen : Z) (output : bytes) (is224 : Z) : outcome bytes :=
  let ctx := mbedtls_sha256_starts (mbedtls_sha256_init ctx) is224 in
  let! ctx := mbedtls_sha256_update ctx input ilen in
  let! (ctx, output) := mbedtls_sha256_finish ctx output in
  let ctx := mbedtls_sha256_free (Some ctx) in
  Done output.

(** ** The standard *)

Definition word (x : Z) : Prop := 0 <= x < 2 ^ 32.

Definition rotr (n x : Z) : Z := x / 2 ^ n + (x mod 2 ^ n) * 2 ^ (32 - n).
Definition shr (n x : Z) : Z := x / 2 ^ n.
Definition Ch (x y z : Z) : Z := Z.lxor (Z.land x y) (Z.land (Z.ones 32 - x) z).
Definition Maj (x y z : Z) : Z := Z.lxor (Z.lxor (Z.land x y) (Z.land x z)) (Z.land y z).
Definition Sigma0 (x : Z) : Z := Z.lxor (Z.lxor (rotr 2 x) (rotr 13 x)) (rotr 22 x).
Definition Sigma1 (x : Z) : Z := Z.lxor (Z.lxor (rotr 6 x) (rotr 11 x)) (rotr 25 x).
Definition sigma0 (x : Z) : Z := Z.lxor (Z.lxor (rotr 7 x) (rotr 18 x)) (shr 3 x).
Definition sigma1 (x : Z) : Z := Z.lxor (Z.lxor (rotr 17 x) (rotr 19 x)) (shr 10 x).

(** The message schedule: 16 words of the block, 48 computed from the last 16. *)
Fixpoint words_of (n : nat) (b : bytes) : list Z :=
  match n with O => [] | Datatypes.S n => be_val (take 4 b) :: words_of n (drop 4 b) end.

Definition next_word (ws : list Z) : Z :=
  let w k := nth (length ws - k) ws 0 in
  (sigma1 (w 2%nat) + w 7%nat + sigma0 (w 15%nat) + w 16%nat) mod 2 ^ 32.

Fixpoint schedule (n : nat) (ws : list Z) : list Z :=
  match n with O => ws | Datatypes.S n => schedule n (ws ++ [next_word ws]) end.

(** One round on the working variables a, ..., h. *)
Definition round (s : list Z) (kw : Z * Z) : list Z :=
  match s with
  | [a; b; c; d; e; f; g; h] =>
      let T1 := (h + Sigma1 e + Ch e f g + fst kw + snd kw) mod 2 ^ 32 in
      let T2 := (Sigma0 a + Maj a b c) mod 2 ^ 32 in
      [(T1 + T2) mod 2 ^ 32; a; b; c; (d + T1) mod 2 ^ 32; e; f; g]
  | _ => s
  end.

Definition compress (H : list Z) (block : bytes) : list Z :=
  zip_with (fun x y => (x + y) mod 2 ^ 32) H (fold_left round (zip K (schedule 48 (words_of 16 block))) H).

(** The hash of [n] blocks. *)
Fixpoint absorb (n : nat) (H : list Z) (b : bytes) : list Z :=
  match n with O => H | Datatypes.S n => absorb n (compress H (take 64 b)) (drop 64 b) end.

Definition initial (is224 : Z) : list Z :=
  if is224 =? 0 then
    [0x6a09e667; 0xbb67ae85; 0x3c6ef372; 0xa54ff53a; 0x510e527f; 0x9b05688c; 0x1f83d9ab; 0x5be0cd19]
  else
    [0xc1059ed8; 0x367cd507; 0x3070dd17; 0xf70e5939; 0xffc00b31; 0x68581511; 0x64f98fa7; 0xbefa4fa4].

(** 1, zeros, and the number of bits in 64 bits, to a multiple of 512 bits. *)
Definition padding (l : Z) : bytes :=
  0x80 :: replicate (Z.to_nat ((55 - l) mod 64)) 0 ++ be_bytes 8 (8 * l).

Definition digest (is224 : Z) (msg : bytes) : bytes :=
  let m := msg ++ padding (zlen msg) in
  let H := absorb (Z.to_nat (zlen m / 64)) (initial is224) m in
  concat (map (be_bytes 4) (if is224 =? 0 then H else take 7 H)).

(** The primes below [n]. *)
Definition primes_below (n : Z) : list Z :=
  List.filter (fun p => forallb (fun d => negb (p mod d =? 0)) (seqZ 2 (p - 2))) (seqZ 2 (n - 2)).

(** The constants are those of the standard (section 4.2.2): the first 32 bits of the fractional parts of
    the cube roots of the first 64 primes. *)
Example K_cube_roots :
  length K = 64%nat /\ length (primes_below 312) = 64%nat /\
  forallb (fun '(k, p) => existsb (fun m =>
    let n := m * 2 ^ 32 + k in (n ^ 3 <=? p * 2 ^ 96) && (p * 2 ^ 96 <? (n + 1) ^ 3)) (seqZ 1 6))
    (zip K (primes_below 312)) = true.
Proof. by split_and!; vm_compute. Qed.

(** The digests of "abc" in the standard. *)
Example digest_abc : digest 0 [97; 98; 99] = be_bytes 32 0xba7816bf8f01cfea414140de5dae2223b00361a396177a9cb410ff61f20015ad.
Proof. by vm_compute. Qed.
Example digest_abc_224 : digest 1 [97; 98; 99] = be_bytes 28 0x23097d223405d8228642a477bda255b32aadbce4bda0b3f7e36c9da7.
Proof. by vm_compute. Qed.
Example sha256_abc : mbedtls_sha256 (mkSha256 1 2 [] [] 3) [97; 98; 99] 3 (replicate 32 7) 0 = Done (digest 0 [97; 98; 99]).
Proof. by vm_compute. Qed.

(** ** Lemmas: the functions on words *)

Lemma land_mask x : Z.land x 0xFFFFFFFF = x mod 2 ^ 32.
Proof. change 0xFFFFFFFF with (Z.ones 32). by apply Z.land_ones. Qed.

Lemma SHR_shr x n : word x -> 0 <= n -> SHR x n = shr n x.
Proof. intros Hx Hn. unfold SHR, shr. rewrite land_mask, Z.mod_small by exact Hx. by apply Z.shiftr_div_pow2. Qed.

Lemma ROTR_rotr x n : word x -> 0 < n < 32 -> ROTR x n = rotr n x.
Proof.
  intros Hx Hn. unfold ROTR, rotr. rewrite SHR_shr by (done || lia). unfold shr, u32. rewrite Z.shiftl_mul_pow2 by lia.
  assert (E : 4294967296 = 2 ^ n * 2 ^ (32 - n)) by (rewrite <- Z.pow_add_r by lia; by replace (n + (32 - n)) with 32 by lia).
  pose proof (Z.pow_pos_nonneg 2 n ltac:(lia) ltac:(lia)). pose proof (Z.pow_pos_nonneg 2 (32 - n) ltac:(lia) ltac:(lia)).
  rewrite E, Z.mul_mod_distr_r by lia. rewrite lor_add; [done|lia|]. split; [apply Z.div_pos; [apply Hx|lia]|].
  apply Z.div_lt_upper_bound; [lia|]. rewrite <- E. apply Hx.
Qed.

Lemma rotr_word n x : word x -> 0 < n < 32 -> word (rotr n x).
Proof.
  intros Hx Hn. unfold rotr, word in *. pose proof (Z.pow_pos_nonneg 2 n ltac:(lia) ltac:(lia)). pose proof (Z.pow_pos_nonneg 2 (32 - n) ltac:(lia) ltac:(lia)).
  assert (E : 2 ^ 32 = 2 ^ n * 2 ^ (32 - n)) by (rewrite <- Z.pow_add_r by lia; by replace (n + (32 - n)) with 32 by lia).
  assert (H1 : 0 <= x / 2 ^ n < 2 ^ (32 - n)) by (split; [apply Z.div_pos; lia|apply Z.div_lt_upper_bound; lia]).
  pose proof (Z.mod_pos_bound x (2 ^ n) ltac:(lia)). rewrite E. set (q := x / 2 ^ n) in *. set (r := x mod 2 ^ n) in *. clearbody q r. nia.
Qed.

Lemma S0_sigma0 x : word x -> S0 x = sigma0 x.
Proof. intros Hx. unfold S0, sigma0. by rewrite !ROTR_rotr, SHR_shr by (done || lia). Qed.
Lemma S1_sigma1 x : word x -> S1 x = sigma1 x.
Proof. intros Hx. unfold S1, sigma1. by rewrite !ROTR_rotr, SHR_shr by (done || lia). Qed.
Lemma S2_Sigma0 x : word x -> S2 x = Sigma0 x.
Proof. intros Hx. unfold S2, Sigma0. by rewrite !ROTR_rotr by (done || lia). Qed.
Lemma S3_Sigma1 x : word x -> S3 x = Sigma1 x.
Proof. intros Hx. unfold S3, Sigma1. by rewrite !ROTR_rotr by (done || lia). Qed.

Lemma F0_Maj x y z : F0 x y z = Maj x y z.
Proof.
  apply Z.bits_inj'. intros n Hn. unfold F0, Maj. rewrite !Z.lxor_spec, !Z.lor_spec, !Z.land_spec, !Z.lor_spec.
  by destruct (Z.testbit x n), (Z.testbit y n), (Z.testbit z n).
Qed.

Lemma F1_Ch x y z : word x -> word z -> F1 x y z = Ch x y z.
Proof.
  intros Hx Hz. unfold F1, Ch. assert (E : Z.ones 32 - x = Z.ldiff (Z.ones 32) x).
  { apply Z.sub_nocarry_ldiff. apply Z.bits_inj'. intros n Hn. rewrite Z.ldiff_spec, Z.bits_0.
    destruct (decide (n < 32)); [by rewrite Z.ones_spec_low, andb_false_r by lia|].
    rewrite <- (Z.mod_small x (2 ^ 32)) by exact Hx. by rewrite Z.mod_pow2_bits_high by lia. }
  rewrite E. apply Z.bits_inj'. intros n Hn. rewrite !Z.lxor_spec, !Z.land_spec, !Z.lxor_spec, Z.ldiff_spec.
  destruct (decide (n < 32)) as [H|H]; [rewrite Z.ones_spec_low by lia|].
  - by destruct (Z.testbit x n), (Z.testbit y n), (Z.testbit z n).
  - assert (Z.testbit x n = false) as -> by (rewrite <- (Z.mod_small x (2 ^ 32)) by exact Hx; apply Z.mod_pow2_bits_high; lia).
    assert (Z.testbit z n = false) as -> by (rewrite <- (Z.mod_small z (2 ^ 32)) by exact Hz; apply Z.mod_pow2_bits_high; lia).
    by rewrite andb_false_r.
Qed.

Lemma mod_word x : word (x mod 2 ^ 32).
Proof. by apply Z.mod_pos_bound. Qed.

(** ** Lemmas: the rounds *)

Lemma round_words s k x : Forall word s -> Forall word (round s (k, x)).
Proof.
  intros Hs. unfold round. do 9 (destruct s as [|? s]; try done).
  repeat (apply Forall_cons_1 in Hs as [? Hs]).
  repeat (apply Forall_cons_2; [first [assumption|apply mod_word]|]). apply Forall_nil_2.
Qed.

(** One macro [P] is one round with the variables renamed. *)
Lemma P_round ia ib ic id ie jf ig ih x t W A W' w k a b c d e f g h :
  A !! ia = Some a -> A !! ib = Some b -> A !! ic = Some c -> A !! id = Some d ->
  A !! ie = Some e -> A !! jf = Some f -> A !! ig = Some g -> A !! ih = Some h ->
  K !! t = Some k -> x W = Done (w, W') -> Forall word [a; b; c; d; e; f; g; h] ->
  exists T1 T2, round [a; b; c; d; e; f; g; h] (k, w) = [(T1 + T2) mod 2 ^ 32; a; b; c; (d + T1) mod 2 ^ 32; e; f; g] /\
    P ia ib ic id ie jf ig ih x t (W, A) = Done (W', <[ih := (T1 + T2) mod 2 ^ 32]> (<[id := (d + T1) mod 2 ^ 32]> A)).
Proof.
  intros Ha Hb Hc Hd He Hf Hg Hh Hk Hx Hw. repeat (apply Forall_cons_1 in Hw as [? Hw]).
  eexists _, _. split; [reflexivity|]. unfold P. rewrite Ha, Hb, Hc, Hd, He, Hf, Hg, Hh, Hk. cbn [deref obind]. rewrite Hx. cbn [obind fst snd].
  rewrite S3_Sigma1, S2_Sigma0, F1_Ch, F0_Maj by done. done.
Qed.

Ltac one_round H Hw j :=
  let Hx := fresh "Hx" in let Hk := fresh "Hk" in let E := fresh "E" in let EP := fresh "EP" in
  let T1 := fresh "T" in let T2 := fresh "T" in let Hw' := fresh "Hw" in
  destruct (H j ltac:(lia)) as [Hx Hk];
  match goal with
  | |- context [P ?a ?b ?c ?d ?e ?f ?g ?h ?x ?t (?W, ?A)] =>
      edestruct (P_round a b c d e f g h x t W A) as (T1 & T2 & E & EP);
      [reflexivity|reflexivity|reflexivity|reflexivity|reflexivity|reflexivity|reflexivity|reflexivity|exact Hk|exact Hx|exact Hw|];
      rewrite EP, E; cbn [obind insert list_insert]; cbn [insert list_insert] in *
  end;
  match type of E with round ?s (?k, ?w) = _ => apply (round_words s k w) in Hw end; rewrite E in Hw; clear Hx Hk E EP.

(** Eight of them bring the variables back to their places. *)
Lemma rounds_spec x i W A (w : nat -> Z) (V : nat -> words) (k : nat -> Z) :
  length A = 8%nat -> Forall word A -> V O = W ->
  (forall j, (j < 8)%nat -> x (i + j)%nat (V j) = Done (w j, V (Datatypes.S j)) /\ K !! (i + j)%nat = Some (k j)) ->
  rounds x i (W, A) = Done (V 8%nat, fold_left round (map (fun j => (k j, w j)) (seq 0 8)) A).
Proof.
  intros HA Hw <- H. do 9 (destruct A as [|? A]; try discriminate HA). clear HA. unfold rounds. cbn [seq map fold_left].
  one_round H Hw 0%nat. one_round H Hw 1%nat. one_round H Hw 2%nat. one_round H Hw 3%nat.
  one_round H Hw 4%nat. one_round H Hw 5%nat. one_round H Hw 6%nat. one_round H Hw 7%nat. done.
Qed.

Lemma round_length s kw : length (round s kw) = length s.
Proof. unfold round. by do 9 (destruct s as [|? s]; try done). Qed.

Lemma fold_rounds_length l s : length s = 8%nat -> length (fold_left round l s) = 8%nat.
Proof. revert s. induction l as [|kw l IH]; intros s Hs; [done|]. cbn. apply IH. by rewrite round_length. Qed.

Lemma fold_rounds_words l s : Forall word s -> Forall word (fold_left round l s).
Proof. revert s. induction l as [|[k w] l IH]; intros s Hs; [done|]. cbn. apply IH. by apply round_words. Qed.

Lemma by_eight_spec n : forall x i W A (w : nat -> Z) (V : nat -> words) (k : nat -> Z),
  length A = 8%nat -> Forall word A -> V i = W ->
  (forall j, (i <= j < i + 8 * n)%nat -> x j (V j) = Done (w j, V (Datatypes.S j)) /\ K !! j = Some (k j)) ->
  by_eight n i (rounds x) (W, A) = Done (V (i + 8 * n)%nat, fold_left round (map (fun j => (k j, w j)) (seq i (8 * n))) A).
Proof.
  induction n as [|n IH]; intros x i W A w V k HA Hw <- H.
  { cbn. by rewrite Nat.add_0_r. }
  cbn [by_eight]. rewrite (rounds_spec x i (V i) A (fun j => w (i + j)%nat) (fun j => V (i + j)%nat) (fun j => k (i + j)%nat)).
  - cbn [obind]. rewrite (IH x (i + 8)%nat (V (i + 8)%nat) _ w V k); [| | |done|intros j Hj; apply H; lia].
    + replace (i + 8 + 8 * n)%nat with (i + 8 * Datatypes.S n)%nat by lia. f_equal. f_equal.
      rewrite <- fold_left_app. f_equal. replace (8 * Datatypes.S n)%nat with (8 + 8 * n)%nat by lia. rewrite seq_app, map_app.
      f_equal. cbn [seq map]. by rewrite !(Nat.add_comm i).
    + apply fold_rounds_length. done.
    + by apply fold_rounds_words.
  - done.
  - done.
  - by rewrite Nat.add_0_r.
  - intros j Hj. replace (i + Datatypes.S j)%nat with (Datatypes.S (i + j)) by lia. apply H. lia.
Qed.

(** The words set so far. *)
Definition set_words (ws : list Z) : words := map Some ws ++ replicate (64 - length ws) None.

Lemma word_at_set ws j : (j < length ws)%nat -> word_at (set_words ws) j = Done (nth j ws 0).
Proof.
  intros Hj. unfold word_at, set_words. rewrite lookup_app_l by (by rewrite length_map). rewrite list_lookup_fmap.
  destruct (lookup_lt_is_Some_2 ws j Hj) as [x Hx]. rewrite Hx. cbn. by rewrite (nth_lookup_Some _ _ _ _ Hx).
Qed.

Lemma set_word_next ws x : (length ws < 64)%nat -> set_word (set_words ws) (length ws) x = Done (set_words (ws ++ [x])).
Proof.
  intros Hl. unfold set_word, set_words. rewrite length_app, length_map, length_replicate.
  rewrite (proj2 (Nat.ltb_lt _ _)) by lia. f_equal. rewrite insert_app_r_alt by (rewrite length_map; lia).
  rewrite length_map, Nat.sub_diag, length_app, map_app, <- app_assoc. f_equal. cbn [length].
  replace (64 - length ws)%nat with (Datatypes.S (64 - (length ws + 1))) by lia. done.
Qed.

Lemma next_word_word ws : word (next_word ws).
Proof. apply mod_word. Qed.

Lemma R_next ws : (16 <= length ws < 64)%nat -> Forall word ws -> R (length ws) (set_words ws) = Done (next_word ws, set_words (ws ++ [next_word ws])).
Proof.
  intros Hl Hw. unfold R. rewrite !word_at_set by lia. cbn [obind].
  assert (Hn : forall j, (j < length ws)%nat -> word (nth j ws 0)).
  { intros j Hj. destruct (lookup_lt_is_Some_2 ws j Hj) as [x Hx]. rewrite (nth_lookup_Some _ _ _ _ Hx). by eapply Forall_lookup_1 in Hx. }
  rewrite S1_sigma1, S0_sigma0 by (apply Hn; lia). change (u32 ?z) with (z mod 2 ^ 32). fold (next_word ws).
  change ((_ + _ + _ + _) mod 2 ^ 32) with (next_word ws). rewrite set_word_next by lia. done.
Qed.

Lemma schedule_succ n ws : schedule (Datatypes.S n) ws = schedule n ws ++ [next_word (schedule n ws)].
Proof. revert ws. induction n as [|n IH]; intros ws; [reflexivity|]. exact (IH (ws ++ [next_word ws])). Qed.

Lemma schedule_length n ws : length (schedule n ws) = (length ws + n)%nat.
Proof. induction n as [|n IH]; [cbn; lia|]. rewrite schedule_succ, length_app, IH. cbn. lia. Qed.

Lemma schedule_words n ws : Forall word ws -> Forall word (schedule n ws).
Proof. intros Hw. induction n as [|n IH]; [done|]. rewrite schedule_succ. apply Forall_app. split; [done|]. repeat (apply Forall_cons_2 || apply Forall_nil_2). apply next_word_word. Qed.

Lemma schedule_nth n ws : forall j, (j < n)%nat -> nth (length ws + j) (schedule n ws) 0 = next_word (schedule j ws).
Proof.
  induction n as [|n IH]; intros j Hj; [lia|]. rewrite schedule_succ. destruct (decide (j = n)) as [->|Hne].
  - rewrite app_nth2 by (rewrite schedule_length; lia). by rewrite schedule_length, Nat.sub_diag.
  - rewrite app_nth1 by (rewrite schedule_length; lia). apply IH. lia.
Qed.

Lemma schedule_prefix n ws j : (j < length ws)%nat -> nth j (schedule n ws) 0 = nth j ws 0.
Proof. intros Hj. induction n as [|n IH]; [done|]. by rewrite schedule_succ, app_nth1 by (rewrite schedule_length; lia). Qed.

(** ** Lemmas: the compression function *)

Lemma four_bytes (b : bytes) p : Forall is_byte b -> (p + 4 <= length b)%nat ->
  GET_UINT32_BE b (Z.of_nat p) = Done (be_val (take 4 (drop p b))) /\ word (be_val (take 4 (drop p b))).
Proof.
  intros Hb Hp. assert (L : forall j, (p + j < length b)%nat -> exists x, load b (Z.of_nat p + Z.of_nat j) = Done x /\ drop p b !! j = Some x /\ is_byte x).
  { intros j Hj. destruct (lookup_lt_is_Some_2 b (p + j) Hj) as [x Hx]. exists x. unfold load. rewrite (proj2 (Z.leb_le 0 _)) by lia.
    replace (Z.to_nat (Z.of_nat p + Z.of_nat j)) with (p + j)%nat by lia. rewrite Hx. split; [done|]. split; [by rewrite lookup_drop|].
    by eapply Forall_lookup_1 in Hx. }
  destruct (L 0%nat ltac:(lia)) as (b0 & L0 & D0 & B0), (L 1%nat ltac:(lia)) as (b1 & L1 & D1 & B1),
    (L 2%nat ltac:(lia)) as (b2 & L2 & D2 & B2), (L 3%nat ltac:(lia)) as (b3 & L3 & D3 & B3). clear L.
  change (Z.of_nat 0) with 0 in L0. change (Z.of_nat 1) with 1 in L1. change (Z.of_nat 2) with 2 in L2. change (Z.of_nat 3) with 3 in L3. rewrite Z.add_0_r in L0.
  unfold GET_UINT32_BE. rewrite L0, L1, L2, L3. cbn [obind].
  destruct (drop p b) as [|c0 [|c1 [|c2 [|c3 r]]]]; try done.
  injection D0 as ->. injection D1 as ->. injection D2 as ->. injection D3 as ->. unfold is_byte in *.
  assert (E : be_val (take 4 (b0 :: b1 :: b2 :: b3 :: r)) = b0 * 2 ^ 24 + (b1 * 2 ^ 16 + (b2 * 2 ^ 8 + b3))).
  { unfold be_val. cbn [take be_acc]. rewrite take_0. cbn [be_acc]. change (2 ^ 24) with 16777216. change (2 ^ 16) with 65536. change (2 ^ 8) with 256. lia. }
  rewrite E. unfold word. change (2 ^ 32) with 4294967296. split.
  - by rewrite <- !Z.lor_assoc, (lor_shift b2), (lor_shift b1), lor_shift by (change (2 ^ 24) with 16777216; change (2 ^ 16) with 65536; change (2 ^ 8) with 256; lia).
  - change (2 ^ 24) with 16777216. change (2 ^ 16) with 65536. change (2 ^ 8) with 256. lia.
Qed.

Lemma words_of_length n b : length (words_of n b) = n.
Proof. revert b. induction n as [|n IH]; intros b; [done|]. cbn. by rewrite IH. Qed.

Lemma words_of_nth n : forall b j, (j < n)%nat -> nth j (words_of n b) 0 = be_val (take 4 (drop (4 * j) b)).
Proof.
  induction n as [|n IH]; intros b j Hj; [lia|]. cbn [words_of]. destruct j as [|j]; [done|]. cbn [nth]. rewrite IH by lia.
  rewrite drop_drop. by replace (4 + 4 * j)%nat with (4 * Datatypes.S j)%nat by lia.
Qed.

Lemma words_of_words n : forall b, Forall is_byte b -> (4 * n <= length b)%nat -> Forall word (words_of n b).
Proof.
  induction n as [|n IH]; intros b Hb Hl; [apply Forall_nil_2|]. cbn [words_of]. apply Forall_cons_2.
  - pose proof (four_bytes b 0 Hb ltac:(lia)) as [_ H]. by rewrite drop_0 in H.
  - apply IH; [by apply Forall_drop|]. rewrite length_drop. lia.
Qed.

Lemma load_words data : Forall is_byte data -> (64 <= length data)%nat ->
  ofor 16 0 (fun i W => let! x := GET_UINT32_BE data (4 * i) in set_word W (Z.to_nat i) x) (replicate 64 None) = Done (set_words (words_of 16 data)).
Proof.
  intros Hd Hl. set (ws := words_of 16 data). assert (Lw : length ws = 16%nat) by apply words_of_length.
  change (replicate 64 None) with (set_words (take 0 ws)). rewrite <- (firstn_all ws) at 2. rewrite Lw.
  apply (ofor_fun (fun j => set_words (take j ws))). intros j Hj.
  replace (4 * Z.of_nat j) with (Z.of_nat (4 * j)) by lia. rewrite (proj1 (four_bytes data (4 * j) Hd ltac:(lia))). cbn [obind].
  rewrite Nat2Z.id. replace j with (length (take j ws)) at 2 by (rewrite length_take; lia). rewrite set_word_next by (rewrite length_take; lia).
  do 2 f_equal. destruct (lookup_lt_is_Some_2 ws j ltac:(lia)) as [x Hx]. rewrite (take_S_r _ _ _ Hx). do 2 f_equal.
  pose proof (nth_lookup_Some _ _ 0 _ Hx) as Hn. unfold ws in Hn. rewrite words_of_nth in Hn by lia. done.
Qed.

Lemma add_states (s A : list Z) : length s = 8%nat -> length A = 8%nat ->
  ofor 8 0 (fun i s => let! x := aload s i in let! a := aload A i in astore s i (u32 (x + a))) s = Done (zip_with (fun x y => (x + y) mod 2 ^ 32) s A).
Proof.
  intros Hs HA. do 9 (destruct s as [|? s]; try discriminate Hs). do 9 (destruct A as [|? A]; try discriminate HA). reflexivity.
Qed.

Lemma seq_zip (l1 l2 : list Z) n : length l1 = n -> length l2 = n -> zip l1 l2 = map (fun j => (nth j l1 0, nth j l2 0)) (seq 0 n).
Proof.
  revert l2 n. induction l1 as [|x l1 IH]; intros [|y l2] n <- H; try discriminate H; [done|]. cbn [length seq map nth].
  injection H as H. change (zip (x :: l1) (y :: l2)) with ((x, y) :: zip l1 l2). f_equal. rewrite (IH l2 _ eq_refl H). rewrite <- seq_shift, map_map. done.
Qed.

Lemma process_spec ctx data : length (state ctx) = 8%nat -> Forall word (state ctx) -> Forall is_byte data -> (64 <= length data)%nat ->
  mbedtls_sha256_process ctx data = Done (mkSha256 (total0 ctx) (total1 ctx) (compress (state ctx) data) (buffer ctx) (is224 ctx)).
Proof.
  intros Hs Hw Hd Hl. unfold mbedtls_sha256_process. set (H := state ctx) in *.
  assert (E1 : load_list H 0 8 = Done H).
  { unfold load_list. assert (Ez : zlen H = 8) by (unfold zlen; lia). rewrite Ez. cbn [andb Z.leb Z.add Z.compare Z.to_nat Pos.to_nat Pos.iter_op Init.Nat.add].
    rewrite drop_0. rewrite take_ge by (rewrite Hs; reflexivity). reflexivity. }
  rewrite E1. cbn [obind]. rewrite load_words by done. cbn [obind].
  set (w16 := words_of 16 data). assert (L16 : length w16 = 16%nat) by apply words_of_length.
  assert (W16 : Forall word w16) by (apply words_of_words; [done|lia]). set (full := schedule 48 w16).
  assert (LK : forall j, (j < 64)%nat -> K !! j = Some (nth j K 0)).
  { intros j Hj. destruct (lookup_lt_is_Some_2 K j ltac:(exact Hj)) as [x Hx]. by rewrite (nth_lookup_Some _ _ _ _ Hx). }
  rewrite (by_eight_spec 2 W_at 0 (set_words w16) H (fun j => nth j full 0) (fun _ => set_words w16) (fun j => nth j K 0)); [|done|done|done|].
  2:{ intros j Hj. split; [|apply LK; lia]. unfold W_at. rewrite word_at_set by lia. cbn [obind]. unfold full. by rewrite schedule_prefix by lia. }
  cbn [obind]. change (0 + 8 * 2)%nat with 16%nat. change (8 * 2)%nat with 16%nat.
  rewrite (by_eight_spec 6 R 16 (set_words w16) _ (fun j => nth j full 0) (fun j => set_words (schedule (j - 16) w16)) (fun j => nth j K 0)); [| | |done|].
  - cbn [obind]. change (8 * 6)%nat with 48%nat. rewrite <- fold_left_app, <- map_app. change (seq 0 16 ++ seq 16 48) with (seq 0 64).
    rewrite <- seq_zip by (done || (unfold full; rewrite schedule_length, L16; done)). rewrite add_states; [done|done|]. by apply fold_rounds_length.
  - by apply fold_rounds_length.
  - by apply fold_rounds_words.
  - intros j Hj. split; [|apply LK; lia]. assert (Lj : length (schedule (j - 16) w16) = j) by (rewrite schedule_length; lia).
    rewrite <- Lj at 1. rewrite R_next; [|rewrite Lj; lia|by apply schedule_words].
    replace (Datatypes.S j - 16)%nat with (Datatypes.S (j - 16)) by lia. rewrite schedule_succ. do 3 f_equal.
    unfold full. replace j with (length w16 + (j - 16))%nat at 2 by lia. by rewrite schedule_nth by lia.
Qed.

Lemma compress_length H b : length H = 8%nat -> length (compress H b) = 8%nat.
Proof. intros HH. unfold compress. rewrite length_zip_with, fold_rounds_length by done. lia. Qed.

Lemma compress_words H b : Forall word (compress H b).
Proof.
  unfold compress. apply Forall_lookup_2. intros i x Hi.
  apply lookup_zip_with_Some in Hi as (? & ? & -> & _). apply mod_word.
Qed.

(** ** Lemmas: blocks *)

Lemma words_of_take n : forall b m, (4 * n <= m)%nat -> words_of n (take m b) = words_of n b.
Proof.
  induction n as [|n IH]; intros b m Hm; [done|]. cbn [words_of]. rewrite take_take, Nat.min_l, skipn_firstn_comm, IH by lia. done.
Qed.

Lemma compress_take H b : compress H (take 64 b) = compress H b.
Proof. unfold compress. by rewrite words_of_take by lia. Qed.

Lemma absorb_plus n m : forall H b, absorb (n + m) H b = absorb m (absorb n H b) (drop (64 * n) b).
Proof.
  induction n as [|n IH]; intros H b; [by rewrite drop_0|]. cbn [Nat.add absorb]. rewrite IH, drop_drop.
  by replace (64 + 64 * n)%nat with (64 * Datatypes.S n)%nat by lia.
Qed.

Lemma absorb_prefix n : forall H b r, (64 * n <= length b)%nat -> absorb n H (b ++ r) = absorb n H b.
Proof.
  induction n as [|n IH]; intros H b r Hl; [done|]. cbn [absorb]. rewrite take_app_le, drop_app_le, IH; [done| |lia|lia].
  rewrite length_drop. lia.
Qed.

Lemma absorb_ok n : forall H b, length H = 8%nat -> Forall word H -> length (absorb n H b) = 8%nat /\ Forall word (absorb n H b).
Proof. induction n as [|n IH]; intros H b Hl Hw; [done|]. cbn [absorb]. apply IH; [by apply compress_length|apply compress_words]. Qed.

Lemma initial_ok kind : length (initial kind) = 8%nat /\ Forall word (initial kind).
Proof. unfold initial, word. destruct (_ =? _); (split; [done|]); repeat (apply Forall_cons_2; [lia|]); apply Forall_nil_2. Qed.

Lemma process_blocks_spec k : forall fuel ctx input r,
  length (state ctx) = 8%nat -> Forall word (state ctx) -> Forall is_byte input -> 0 <= r < 64 -> 64 * Z.of_nat k + r <= zlen input -> (k < fuel)%nat ->
  process_blocks fuel ctx input (64 * Z.of_nat k + r) =
    Done (mkSha256 (total0 ctx) (total1 ctx) (absorb k (state ctx) input) (buffer ctx) (is224 ctx), drop (64 * k) input, r).
Proof.
  induction k as [|k IH]; intros fuel ctx input r Hs Hw Hb Hr Hl Hf; (destruct fuel as [|fuel]; [lia|]); cbn [process_blocks].
  - rewrite (proj2 (Z.leb_gt 64 _)) by lia. rewrite drop_0. destruct ctx. do 3 f_equal.
  - rewrite (proj2 (Z.leb_le 64 _)) by lia. unfold zlen in Hl. rewrite process_spec by (done || lia). cbn [obind].
    replace (64 * Z.of_nat (Datatypes.S k) + r - 64) with (64 * Z.of_nat k + r) by lia.
    rewrite IH; cbn [state total0 total1 buffer is224].
    + cbn [absorb]. rewrite compress_take, drop_drop. by replace (64 + 64 * k)%nat with (64 * Datatypes.S k)%nat by lia.
    + by apply compress_length.
    + apply compress_words.
    + by apply Forall_drop.
    + done.
    + unfold zlen. rewrite length_drop. lia.
    + lia.
Qed.

(** ** Lemmas: messages in pieces *)

(** The context after [msg]: the state has taken its whole blocks, the buffer begins with the rest of [l] bytes. *)
Definition takes (kind : Z) (msg : bytes) (ctx : mbedtls_sha256_context) : Prop :=
  exists q l, length msg = (64 * q + l)%nat /\ (l < 64)%nat /\ Forall is_byte msg /\
    state ctx = absorb q (initial kind) msg /\ length (buffer ctx) = 64%nat /\ take l (buffer ctx) = drop (64 * q) msg /\ is224 ctx = kind.

Definition counts (msg : bytes) (ctx : mbedtls_sha256_context) : Prop :=
  total0 ctx = zlen msg mod 2 ^ 32 /\ total1 ctx = zlen msg / 2 ^ 32 mod 2 ^ 32.

Lemma counts_next msg ctx n : 0 <= n < 2 ^ 32 -> counts msg ctx ->
  let t0 := Z.land (u32 (total0 ctx + u32 n)) 0xFFFFFFFF in
  t0 = (zlen msg + n) mod 2 ^ 32 /\ (if t0 <? u32 n then u32 (total1 ctx + 1) else total1 ctx) = (zlen msg + n) / 2 ^ 32 mod 2 ^ 32.
Proof.
  intros Hn [E0 E1]. cbv zeta. rewrite land_mask, E0, E1, (u32_id n) by exact Hn. unfold u32. change 4294967296 with (2 ^ 32).
  rewrite Z.mod_mod by lia. rewrite Zplus_mod_idemp_l. split; [done|].
  pose proof (Z.div_mod (zlen msg) (2 ^ 32) ltac:(lia)) as E. pose proof (Z.mod_pos_bound (zlen msg) (2 ^ 32) ltac:(lia)) as B.
  set (a := zlen msg mod 2 ^ 32) in *. set (b := zlen msg / 2 ^ 32) in *. rewrite E. clearbody a b. clear E E0 E1.
  replace (2 ^ 32 * b + a + n) with (a + n + b * 2 ^ 32) by lia. rewrite Z.div_add, Z.mod_add by lia.
  destruct (Z.ltb_spec ((a + n) mod 2 ^ 32) n) as [Hc|Hc].
  - assert (a + n >= 2 ^ 32) by (destruct (Z.lt_ge_cases (a + n) (2 ^ 32)); [rewrite Z.mod_small in Hc; lia|lia]).
    rewrite <- (Z.div_unique (a + n) (2 ^ 32) 1 (a + n - 2 ^ 32)) by lia. rewrite Zplus_mod_idemp_l. f_equal. lia.
  - assert (a + n < 2 ^ 32).
    { destruct (Z.lt_ge_cases (a + n) (2 ^ 32)); [done|]. rewrite <- (Z.mod_unique (a + n) (2 ^ 32) 1 (a + n - 2 ^ 32)) in Hc by lia. lia. }
    rewrite Z.div_small by lia. done.
Qed.

Lemma fill_buffer (b d : bytes) (l : nat) : (l + length d <= length b)%nat ->
  store b (Z.of_nat l) d = Done (take l b ++ d ++ drop (l + length d) b).
Proof. intros H. rewrite store_in by (unfold zlen; lia). unfold zlen. by replace (Z.to_nat (Z.of_nat l + Z.of_nat (length d))) with (l + length d)%nat by lia; rewrite Nat2Z.id. Qed.

Lemma load_piece (input : bytes) n : (n <= length input)%nat -> load_list input 0 (Z.of_nat n) = Done (take n input).
Proof.
  intros H. unfold load_list. rewrite (proj2 (Z.leb_le 0 (Z.of_nat n))), (proj2 (Z.leb_le (0 + Z.of_nat n) _)) by (unfold zlen; lia).
  cbn [andb Z.leb Z.compare]. by rewrite Nat2Z.id, drop_0.
Qed.

(** The end of [mbedtls_sha256_update]: what is left of the input goes to the buffer. *)
Lemma rest_buffered (ctx : mbedtls_sha256_context) input (l r : nat) : length (buffer ctx) = 64%nat -> (l + r <= 64)%nat -> (r <= length input)%nat ->
  (if 0 <? Z.of_nat r then
     let! d := load_list input 0 (Z.of_nat r) in
     let! b := store (buffer ctx) (Z.of_nat l) d in
     Done (set_buffer b ctx)
   else Done ctx) = Done (set_buffer (take l (buffer ctx) ++ take r input ++ drop (l + r) (buffer ctx)) ctx).
Proof.
  intros Hb Hl Hr. destruct (Z.ltb_spec 0 (Z.of_nat r)) as [H|H].
  - rewrite load_piece by done. cbn [obind]. rewrite fill_buffer by (rewrite length_take; lia). cbn [obind]. do 4 f_equal. rewrite length_take. f_equal. lia.
  - replace r with O by lia. rewrite Nat.add_0_r, take_0. cbn [app]. rewrite take_drop. by destruct ctx.
Qed.

(** From the whole blocks on, when the buffer is empty or will not be full. *)
Lemma update_tail kind msg ctx input n q l : let ilen := Z.of_nat n in
  length msg = (64 * q + l)%nat -> Forall is_byte msg -> state ctx = absorb q (initial kind) msg -> length (buffer ctx) = 64%nat ->
  take l (buffer ctx) = drop (64 * q) msg -> is224 ctx = kind -> l = O \/ (l + n < 64)%nat -> Forall is_byte input -> (n <= length input)%nat ->
  exists ctx', (let! (ctx, input, ilen) := process_blocks (Z.to_nat (ilen / 64) + 1) ctx input ilen in
    if 0 <? ilen then
      let! d := load_list input 0 ilen in
      let! b := store (buffer ctx) (Z.of_nat l) d in
      Done (set_buffer b ctx)
    else Done ctx) = Done ctx' /\ takes kind (msg ++ take n input) ctx' /\ total0 ctx' = total0 ctx /\ total1 ctx' = total1 ctx.
Proof.
  intros ilen Hm Hbm Hs Hb Hrest Hk Hcase Hbi Hn.
  destruct (initial_ok kind) as [I1 I2]. destruct (absorb_ok q (initial kind) msg I1 I2) as [A1 A2].
  pose proof (Nat.div_mod_eq n 64) as En. pose proof (Nat.mod_upper_bound n 64 ltac:(lia)) as Hr. set (k := (n / 64)%nat) in *. set (r := (n mod 64)%nat) in *. clearbody k r.
  unfold ilen. replace (Z.of_nat n) with (64 * Z.of_nat k + Z.of_nat r) by lia.
  rewrite process_blocks_spec; [|by rewrite Hs|by rewrite Hs|done|lia|unfold zlen; lia|].
  2:{ replace (64 * Z.of_nat k + Z.of_nat r) with (Z.of_nat r + Z.of_nat k * 64) by lia. rewrite Z.div_add, Z.div_small by lia. lia. }
  cbn [obind]. rewrite rest_buffered; [|done|lia|rewrite length_drop; lia]. eexists. split; [reflexivity|]. split; [|done].
  assert (Epiece : take r (drop (64 * k) input) = drop (64 * k) (take n input)) by (rewrite skipn_firstn_comm; f_equal; lia).
  assert (Lp : length (take n input) = n) by (rewrite length_take; lia).
  exists (q + k)%nat, (l + r)%nat. cbn [set_buffer state buffer is224]. split_and!.
  - rewrite length_app, Lp. lia.
  - lia.
  - apply Forall_app. split; [done|by apply Forall_take].
  - rewrite Hs, absorb_plus, absorb_prefix by lia. destruct Hcase as [->|Hlt].
    + rewrite drop_app_length' by lia. rewrite <- (take_drop n input) at 1. apply absorb_prefix. lia.
    + replace k with O by lia. done.
  - rewrite !length_app, !length_take, !length_drop. lia.
  - rewrite app_assoc, take_app_length' by (rewrite length_app, !length_take, length_drop; lia).
    rewrite Hrest, Epiece. destruct Hcase as [->|Hlt].
    + rewrite (drop_ge msg) by lia. cbn [app].
      replace (64 * (q + k))%nat with (length msg + 64 * k)%nat by lia. by rewrite <- drop_drop, drop_app_length.
    + replace k with O by lia. rewrite Nat.mul_0_r, Nat.add_0_r, drop_0. by rewrite drop_app_le by lia.
  - done.
Qed.

Lemma low_six t (m : bytes) q l : t = zlen m mod 2 ^ 32 -> length m = (64 * q + l)%nat -> (l < 64)%nat -> Z.land t 0x3F = Z.of_nat l.
Proof.
  intros -> Hm Hl. change 0x3F with (Z.ones 6). rewrite Z.land_ones by lia. change (2 ^ 32) with (2 ^ 6 * 2 ^ 26). rewrite Z.rem_mul_r by lia.
  rewrite Z.mul_comm, Z.mod_add, Z.mod_mod by lia. unfold zlen. rewrite Hm. change (2 ^ 6) with 64.
  replace (Z.of_nat (64 * q + l)) with (Z.of_nat l + Z.of_nat q * 64) by lia. rewrite Z.mod_add by lia. apply Z.mod_small. lia.
Qed.

Lemma update_spec kind msg ctx input ilen :
  takes kind msg ctx -> counts msg ctx -> Forall is_byte input -> 0 <= ilen <= zlen input -> ilen < 2 ^ 32 ->
  exists ctx', mbedtls_sha256_update ctx input ilen = Done ctx' /\
    takes kind (msg ++ take (Z.to_nat ilen) input) ctx' /\ counts (msg ++ take (Z.to_nat ilen) input) ctx'.
Proof.
  intros (q & l & Hm & Hl & Hbm & Hs & Hb & Hrest & Hk) Hc Hbi Hi Hi32. set (n := Z.to_nat ilen).
  assert (Zn : ilen = Z.of_nat n) by lia. assert (Hn : (n <= length input)%nat) by (unfold zlen in Hi; lia). clearbody n.
  assert (Lp : length (take n input) = n) by (rewrite length_take; lia).
  assert (Zm : zlen (msg ++ take n input) = zlen msg + ilen) by (unfold zlen; rewrite length_app, Lp; lia).
  unfold mbedtls_sha256_update. destruct (Z.eqb_spec ilen 0) as [E0|Hnz].
  { exists ctx. replace n with O by lia. rewrite take_0, app_nil_r. split; [done|]. split; [|done]. by exists q, l. }
  cbv zeta. destruct (counts_next msg ctx ilen ltac:(lia) Hc) as [T0 T1]. cbv zeta in T0, T1. rewrite T1, T0. clear T0 T1.
  rewrite (low_six _ msg q l (proj1 Hc) Hm Hl). set (ctx1 := mkSha256 _ _ _ _ _).
  assert (Fin : forall ctx', total0 ctx' = total0 ctx1 -> total1 ctx' = total1 ctx1 -> counts (msg ++ take n input) ctx').
  { intros ctx' H0 H1. unfold counts. rewrite H0, H1, Zm. done. }
  destruct (_ && _) eqn:Ef.
  - apply andb_true_iff in Ef as [Ef1 Ef2]. apply negb_true_iff, Z.eqb_neq in Ef1. apply Z.leb_le in Ef2.
    replace (64 - Z.of_nat l) with (Z.of_nat (64 - l)) in * by lia. rewrite Zn in Ef2 |- *. rewrite load_piece by lia. cbn [obind]. cbn [buffer ctx1].
    assert (Ld : length (take (64 - l) input) = (64 - l)%nat) by (rewrite length_take; lia).
    rewrite fill_buffer by lia. cbn [obind]. rewrite Ld, Hrest, (drop_ge (buffer ctx)), app_nil_r by lia.
    set (block := drop (64 * q) msg ++ take (64 - l) input).
    assert (Lb : length block = 64%nat) by (unfold block; rewrite length_app, length_drop, Ld; lia).
    assert (Bb : Forall is_byte block) by (apply Forall_app; split; [by apply Forall_drop|by apply Forall_take]).
    destruct (initial_ok kind) as [I1 I2]. destruct (absorb_ok q (initial kind) msg I1 I2) as [A1 A2].
    rewrite process_spec; cbn [set_buffer state ctx1 total0 total1 buffer is224]; [|by rewrite Hs|by rewrite Hs|done|lia]. cbn [obind]. rewrite Nat2Z.id.
    replace (Z.of_nat n - Z.of_nat (64 - l)) with (Z.of_nat (n - (64 - l))) by lia.
    edestruct (update_tail kind (msg ++ take (64 - l) input) (mkSha256 (total0 ctx1) (total1 ctx1) (compress (state ctx) block) block (is224 ctx))
      (drop (64 - l) input) (n - (64 - l)) (q + 1) 0) as (ctx' & E & HT & H0 & H1);
      cbn [state buffer is224]; [| | |exact Lb| | |by left| | |].
    + rewrite length_app, Ld. lia.
    + apply Forall_app. split; [done|by apply Forall_take].
    + rewrite absorb_plus, absorb_prefix by lia. rewrite <- Hs. cbn [absorb]. rewrite compress_take. unfold block. by rewrite drop_app_le by lia.
    + rewrite take_0. symmetry. apply drop_ge. rewrite length_app, Ld. lia.
    + done.
    + by apply Forall_drop.
    + rewrite length_drop. lia.
    + exists ctx'. split; [exact E|]. rewrite <- app_assoc, take_take_drop in HT. replace (64 - l + (n - (64 - l)))%nat with n in HT by lia.
      split; [done|]. apply Fin; done.
  - cbn [obind]. rewrite Zn.
    edestruct (update_tail kind msg ctx1 input n q l) as (ctx' & E & HT & H0 & H1); try done.
    + apply andb_false_iff in Ef as [Ef|Ef]; [apply negb_false_iff, Z.eqb_eq in Ef; lia|apply Z.leb_gt in Ef; lia].
    + exists ctx'. split; [exact E|]. split; [done|]. by apply Fin.
Qed.

(** ** Lemmas: the digest *)

Lemma put_uint32_bytes n b i : PUT_UINT32_BE n b i = store b i (be_bytes 4 n).
Proof.
  unfold PUT_UINT32_BE. rewrite !be_octets. change (be_bytes 0 n) with (@nil Z).
  change 255 with (Z.ones 8). rewrite !Z.land_ones by lia. rewrite Z.shiftr_0_r. reflexivity.
Qed.

Lemma be_bytes_mod n : forall v w, v mod 256 ^ Z.of_nat n = w mod 256 ^ Z.of_nat n -> be_bytes n v = be_bytes n w.
Proof.
  intros v w H. rewrite <- be_val_bytes, <- (be_val_bytes n w) in H.
  rewrite <- (be_bytes_val (be_bytes n v)), <- (be_bytes_val (be_bytes n w)), H, !be_bytes_length by apply be_bytes_ok. done.
Qed.

Lemma be_bytes_plus a b : forall v, be_bytes (a + b) v = be_bytes a (v / 256 ^ Z.of_nat b) ++ be_bytes b v.
Proof.
  induction a as [|a IH]; intros v; [done|]. cbn [Nat.add]. rewrite !be_bytes_front, IH. cbn [app]. f_equal.
  rewrite Z.div_div, <- Z.pow_add_r by lia. do 3 f_equal. lia.
Qed.

(** The two words of the number of bits. *)
Lemma bit_count msg ctx : counts msg ctx ->
  be_bytes 4 (Z.lor (Z.shiftr (total0 ctx) 29) (u32 (Z.shiftl (total1 ctx) 3))) ++ be_bytes 4 (u32 (Z.shiftl (total0 ctx) 3)) = be_bytes 8 (8 * zlen msg).
Proof.
  intros [-> ->]. rewrite (be_bytes_plus 4 4). unfold u32. change 4294967296 with (2 ^ 32). rewrite Z.shiftr_div_pow2, !Z.shiftl_mul_pow2 by lia.
  set (m := zlen msg). f_equal; apply be_bytes_mod; change (256 ^ Z.of_nat 4) with (2 ^ 32).
  - change (2 ^ 32) with (2 ^ 29 * 2 ^ 3) at 4. rewrite Z.mul_mod_distr_r by lia.
    rewrite (Z.mod_mod_divide _ (2 ^ 32) (2 ^ 29)) by (by exists 8).
    pose proof (Z.div_mod m (2 ^ 32) ltac:(lia)) as E. pose proof (Z.mod_pos_bound m (2 ^ 32) ltac:(lia)) as B.
    set (a := m mod 2 ^ 32) in *. set (b := m / 2 ^ 32) in *. pose proof (Z.div_mod b (2 ^ 29) ltac:(lia)) as Eb.
    set (b1 := b / 2 ^ 29) in *. set (b0 := b mod 2 ^ 29) in *. clearbody m a b b1 b0. subst m b.
    rewrite lor_add; [|lia|split; [apply Z.div_pos; lia|apply Z.div_lt_upper_bound; lia]].
    replace (8 * (2 ^ 32 * (2 ^ 29 * b1 + b0) + a)) with (8 * a + (2 ^ 29 * b1 + b0) * 8 * 2 ^ 32) by lia.
    rewrite Z.div_add by lia. change (2 ^ 32) with (8 * 2 ^ 29) at 2. rewrite Z.div_mul_cancel_l by lia.
    replace (a / 2 ^ 29 + (2 ^ 29 * b1 + b0) * 8) with (a / 2 ^ 29 + b0 * 2 ^ 3 + b1 * 2 ^ 32) by lia. by rewrite Z.mod_add by lia.
  - rewrite Z.mod_mod, Zmult_mod_idemp_l by lia. f_equal. lia.
Qed.

Lemma pad_bytes m : take (Z.to_nat (if m mod 64 <? 56 then 56 - m mod 64 else 120 - m mod 64)) sha256_padding = 0x80 :: replicate (Z.to_nat ((55 - m) mod 64)) 0.
Proof.
  pose proof (Z.mod_pos_bound m 64 ltac:(lia)) as B. assert (E : (55 - m) mod 64 = (55 - m mod 64) mod 64) by (by rewrite Zminus_mod_idemp_r).
  rewrite E. set (r := m mod 64) in *. clearbody r. clear E.
  assert (E : Z.to_nat (if r <? 56 then 56 - r else 120 - r) = Datatypes.S (Z.to_nat ((55 - r) mod 64))).
  { destruct (Z.ltb_spec r 56); [rewrite Z.mod_small by lia; lia|]. rewrite <- (Z.mod_unique (55 - r) 64 (-1) (119 - r)) by lia. lia. }
  rewrite E. unfold sha256_padding. cbn [take]. f_equal. rewrite take_replicate. f_equal.
  pose proof (Z.mod_pos_bound (55 - r) 64 ltac:(lia)). lia.
Qed.

Lemma words_bytes_length l : length (concat (map (be_bytes 4) l)) = (4 * length l)%nat.
Proof. induction l as [|x l IH]; [done|]. cbn [map concat]. rewrite length_app, IH, be_bytes_length. cbn [length]. lia. Qed.

Lemma words_bytes_next (s : list Z) j x : s !! j = Some x ->
  concat (map (be_bytes 4) (take (Datatypes.S j) s)) = concat (map (be_bytes 4) (take j s)) ++ be_bytes 4 x.
Proof. intros Hx. rewrite (take_S_r _ _ _ Hx), map_app, concat_app. cbn [map concat]. by rewrite app_nil_r. Qed.

(** The words of the state, one after the other. *)
Lemma put_words s : forall output, length s = 8%nat -> (28 <= length output)%nat ->
  ofor 7 0 (fun i output => let! s := aload s i in PUT_UINT32_BE s output (4 * i)) output = Done (concat (map (be_bytes 4) (take 7 s)) ++ drop 28 output).
Proof.
  intros output Hs Ho. set (f j := concat (map (be_bytes 4) (take j s)) ++ drop (4 * j) output).
  change output with (f O) at 1. change (drop 28 output) with (drop (4 * 7) output). apply (ofor_fun f). intros j Hj.
  destruct (lookup_lt_is_Some_2 s j ltac:(lia)) as [x Hx]. unfold aload. rewrite (proj2 (Z.leb_le 0 _)) by lia. rewrite Nat2Z.id, Hx. cbn [deref obind].
  rewrite put_uint32_bytes. unfold f. assert (Lc : length (concat (map (be_bytes 4) (take j s))) = (4 * j)%nat) by (rewrite words_bytes_length, length_take; lia).
  rewrite store_next; [|unfold zlen; rewrite Lc; lia|unfold zlen; rewrite be_bytes_length, length_drop; lia].
  rewrite (words_bytes_next _ _ _ Hx), be_bytes_length, drop_drop. by replace (4 * j + 4)%nat with (4 * Datatypes.S j)%nat by lia.
Qed.

Lemma padded_length (m : bytes) : exists q, zlen (m ++ padding (zlen m)) = 64 * q.
Proof.
  unfold padding. unfold zlen at 1. rewrite length_app. cbn [length]. rewrite length_app, length_replicate, be_bytes_length. fold (zlen m).
  pose proof (Z.mod_pos_bound (55 - zlen m) 64 ltac:(lia)). pose proof (Z.div_mod (55 - zlen m) 64 ltac:(lia)) as E.
  exists (1 - (55 - zlen m) / 64). unfold zlen in *. lia.
Qed.

Lemma padding_ok (m : bytes) : Forall is_byte sha256_padding.
Proof. apply Forall_cons_2; [done|]. by apply Forall_replicate. Qed.

(** The bytes of the count, as [msglen] is filled. *)
Lemma msglen_bytes msg ctx : counts msg ctx ->
  (let! msglen := PUT_UINT32_BE (Z.lor (Z.shiftr (total0 ctx) 29) (u32 (Z.shiftl (total1 ctx) 3))) (replicate 8 0) 0 in
   PUT_UINT32_BE (u32 (Z.shiftl (total0 ctx) 3)) msglen 4) = Done (be_bytes 8 (8 * zlen msg)).
Proof.
  intros Hc. rewrite put_uint32_bytes, store_zero by (unfold zlen; rewrite be_bytes_length, length_replicate; lia). cbn [obind]. rewrite be_bytes_length, put_uint32_bytes.
  rewrite store_next by (unfold zlen; rewrite be_bytes_length; done). rewrite be_bytes_length. change (drop 4 (drop 4 (replicate 8 0))) with (@nil Z).
  by rewrite app_nil_r, (bit_count msg ctx Hc).
Qed.

(** The two updates complete the message. *)
Lemma padded_spec kind msg ctx : takes kind msg ctx -> counts msg ctx ->
  let last := Z.land (total0 ctx) 0x3F in let padn := if last <? 56 then 56 - last else 120 - last in
  exists ctx1 ctx2, mbedtls_sha256_update ctx sha256_padding padn = Done ctx1 /\ mbedtls_sha256_update ctx1 (be_bytes 8 (8 * zlen msg)) 8 = Done ctx2 /\
    takes kind (msg ++ padding (zlen msg)) ctx2.
Proof.
  intros Ht Hc. assert (E6 : Z.land (total0 ctx) 63 = zlen msg mod 64).
  { destruct Ht as (q & l & Hm & Hl & _). rewrite (low_six _ msg q l (proj1 Hc) Hm Hl). unfold zlen. rewrite Hm.
    replace (Z.of_nat (64 * q + l)) with (Z.of_nat l + Z.of_nat q * 64) by lia. rewrite Z.mod_add, Z.mod_small by lia. done. }
  cbv zeta. rewrite E6. pose proof (Z.mod_pos_bound (zlen msg) 64 ltac:(lia)) as B.
  destruct (update_spec kind msg ctx sha256_padding (if zlen msg mod 64 <? 56 then 56 - zlen msg mod 64 else 120 - zlen msg mod 64) Ht Hc) as (ctx1 & E1 & Ht1 & Hc1).
  { apply (padding_ok msg). }
  { change (zlen sha256_padding) with 64. destruct (Z.ltb_spec (zlen msg mod 64) 56); lia. }
  { destruct (Z.ltb_spec (zlen msg mod 64) 56); lia. }
  rewrite pad_bytes in Ht1, Hc1.
  destruct (update_spec kind _ ctx1 (be_bytes 8 (8 * zlen msg)) 8 Ht1 Hc1) as (ctx2 & E2 & Ht2 & _); [apply be_bytes_ok|unfold zlen; rewrite be_bytes_length; lia|lia|].
  rewrite take_ge, <- app_assoc in Ht2 by (rewrite be_bytes_length; lia). by exists ctx1, ctx2.
Qed.

(** The state after whole blocks. *)
Lemma padded_state kind msg ctx : takes kind (msg ++ padding (zlen msg)) ctx -> length (state ctx) = 8%nat /\ is224 ctx = kind /\
  digest kind msg = concat (map (be_bytes 4) (if kind =? 0 then state ctx else take 7 (state ctx))).
Proof.
  intros (q & l & Hm & Hl & _ & Hs & _ & _ & Hk). destruct (padded_length msg) as [q' Eq']. unfold zlen in Eq' at 1. assert (Hl0 : l = O) by lia. subst l.
  destruct (initial_ok kind) as [I1 I2]. split; [rewrite Hs; by apply absorb_ok|]. split; [done|]. unfold digest. rewrite Hs. unfold zlen at 1 4. rewrite Hm.
  replace (Z.of_nat (64 * q + 0)) with (Z.of_nat q * 64) by lia. by rewrite Z.div_mul, Nat2Z.id by lia.
Qed.

Lemma finish_spec kind msg ctx output : takes kind msg ctx -> counts msg ctx -> (if kind =? 0 then 32 else 28) <= zlen output ->
  exists ctx', mbedtls_sha256_finish ctx output = Done (ctx', digest kind msg ++ drop (length (digest kind msg)) output).
Proof.
  intros Ht Hc Ho. unfold mbedtls_sha256_finish. cbv zeta. pose proof (msglen_bytes msg ctx Hc) as Em.
  destruct (PUT_UINT32_BE _ (replicate 8 0) 0) as [m| |]; try discriminate Em. cbn [obind] in Em |- *. rewrite Em. cbn [obind].
  destruct (padded_spec kind msg ctx Ht Hc) as (ctx1 & ctx2 & E1 & E2 & Ht2). rewrite E1. cbn [obind]. rewrite E2. cbn [obind].
  destruct (padded_state kind msg ctx2 Ht2) as (L8 & Hk & Ed). rewrite Ed, Hk.
  rewrite put_words; [|done|unfold zlen in Ho; destruct (kind =? 0); lia]. cbn [obind]. rewrite words_bytes_length.
  destruct (kind =? 0); [|rewrite length_take, L8; by exists ctx2].
  destruct (lookup_lt_is_Some_2 (state ctx2) 7 ltac:(lia)) as [x Hx]. unfold aload. change (0 <=? 7) with true. change (Z.to_nat 7) with 7%nat. rewrite Hx. cbn [deref obind].
  assert (Lc : length (concat (map (be_bytes 4) (take 7 (state ctx2)))) = 28%nat) by (rewrite words_bytes_length, length_take, L8; done).
  rewrite put_uint32_bytes, store_next by (unfold zlen in *; rewrite ?Lc, ?be_bytes_length, ?length_drop; lia). cbn [obind].
  rewrite <- (words_bytes_next _ _ _ Hx), be_bytes_length, drop_drop, L8, (take_ge (state ctx2)) by lia. by exists ctx2.
Qed.

Lemma starts_takes ctx kind : length (buffer ctx) = 64%nat -> takes kind [] (mbedtls_sha256_starts ctx kind) /\ counts [] (mbedtls_sha256_starts ctx kind).
Proof. intros Hb. split; [|done]. exists O, O. by split_and!; try done; try lia. Qed.

(** ** The hash of a message in pieces *)

(** One call of [mbedtls_sha256_update] for each piece. *)
Fixpoint updates (ctx : mbedtls_sha256_context) (pieces : list bytes) : outcome mbedtls_sha256_context :=
  match pieces with
  | [] => Done ctx
  | p :: pieces => let! ctx := mbedtls_sha256_update ctx p (zlen p) in updates ctx pieces
  end.

Lemma updates_spec kind pieces : forall msg ctx, takes kind msg ctx -> counts msg ctx -> Forall (Forall is_byte) pieces -> Forall (fun p => zlen p < 2 ^ 32) pieces ->
  exists ctx', updates ctx pieces = Done ctx' /\ takes kind (msg ++ concat pieces) ctx' /\ counts (msg ++ concat pieces) ctx'.
Proof.
  induction pieces as [|p pieces IH]; intros msg ctx Ht Hc Hb Hl.
  { exists ctx. cbn [concat]. by rewrite app_nil_r. }
  apply Forall_cons_1 in Hb as [Hp Hb]. apply Forall_cons_1 in Hl as [Lp Hl].
  destruct (update_spec kind msg ctx p (zlen p) Ht Hc Hp) as (ctx1 & E1 & Ht1 & Hc1); [unfold zlen; lia|done|].
  rewrite take_ge in Ht1, Hc1 by (unfold zlen; lia). destruct (IH _ _ Ht1 Hc1 Hb Hl) as (ctx2 & E2 & H2).
  exists ctx2. cbn [updates concat]. rewrite E1. cbn [obind]. by rewrite app_assoc.
Qed.

(** C27: Hashing a message in pieces gives the digest of the standard (FIPS 180-4), SHA-256 or SHA-224 by [kind]: after
    [mbedtls_sha256_starts] on any context and one [mbedtls_sha256_update] for each piece, each shorter than 2^32
    bytes, [mbedtls_sha256_finish] writes the digest of their concatenation at the start of the output, whatever the
    boundaries, and the bytes after the digest stay; [mbedtls_sha256] does the same for one piece. *)
Theorem sha256_standard ctx kind pieces output :
  length (buffer ctx) = 64%nat -> Forall (Forall is_byte) pieces -> Forall (fun p => zlen p < 2 ^ 32) pieces -> (if kind =? 0 then 32 else 28) <= zlen output ->
  (exists ctx1 ctx2, updates (mbedtls_sha256_starts ctx kind) pieces = Done ctx1 /\
     mbedtls_sha256_finish ctx1 output = Done (ctx2, digest kind (concat pieces) ++ drop (length (digest kind (concat pieces))) output)) /\
  Forall (fun p => mbedtls_sha256 ctx p (zlen p) output kind = Done (digest kind p ++ drop (length (digest kind p)) output)) pieces.
Proof.
  intros Hb Hp Hl Ho. split.
  - destruct (starts_takes ctx kind Hb) as [Ht Hc]. destruct (updates_spec kind pieces [] _ Ht Hc Hp Hl) as (ctx1 & E1 & Ht1 & Hc1).
    destruct (finish_spec kind _ ctx1 output Ht1 Hc1 Ho) as [ctx2 E2]. by exists ctx1, ctx2.
  - apply Forall_lookup_2. intros i p Hi. eapply Forall_lookup_1 in Hp, Hl; [|done..]. unfold mbedtls_sha256.
    destruct (starts_takes (mbedtls_sha256_init ctx) kind eq_refl) as [Ht Hc].
    destruct (update_spec kind [] _ p (zlen p) Ht Hc Hp) as (ctx1 & E1 & Ht1 & Hc1); [unfold zlen; lia|done|].
    rewrite take_ge in Ht1, Hc1 by (unfold zlen; lia). destruct (finish_spec kind p ctx1 output Ht1 Hc1 Ho) as [ctx2 E2].
    cbv zeta. rewrite E1. cbn [obind]. by rewrite E2.
Qed.

(** "ab" and "c" are hashed as "abc". *)
Lemma sha256_standard_witness :
  length (buffer (mkSha256 1 2 [] (replicate 64 9) 3)) = 64%nat /\
  exists ctx1 ctx2, updates (mbedtls_sha256_starts (mkSha256 1 2 [] (replicate 64 9) 3) 0) [[97; 98]; [99]] = Done ctx1 /\
    mbedtls_sha256_finish ctx1 (replicate 32 0) = Done (ctx2, be_bytes 32 0xba7816bf8f01cfea414140de5dae2223b00361a396177a9cb410ff61f20015ad).
Proof.
  split; [reflexivity|].
  pose proof (proj1 (sha256_standard (mkSha256 1 2 [] (replicate 64 9) 3) 0 [[97; 98]; [99]] (replicate 32 0) eq_refl
    ltac:(repeat constructor; unfold is_byte; lia) ltac:(repeat (apply Forall_cons_2; [cbv; reflexivity|]); apply Forall_nil_2) ltac:(vm_compute; discriminate))) as H.
  change (concat [[97; 98]; [99]]) with [97; 98; 99] in H. rewrite digest_abc, be_bytes_length in H.
  change (drop 32 (replicate 32 0)) with (@nil Z) in H. rewrite app_nil_r in H. exact H.
Defined.
